(* ===== verification/_CoqProject ===== *)
-Q . S2P
Prelude.v
Mem.v
SmDefs.v
Pmp.v
PmpInv.v
PmpHw.v
Sha3.v
Hkdf.v
Thread.v
Mprv.v
Machine.v
Attest.v
Enclave.v
EnclaveInv.v
Services.v
Lifecycle.v
ContextSwitch.v
Sbi.v
EdgeCall.v
Vm.v
Freemem.v
PageTable.v
ReservedMap.v
Syscall.v
StringLib.v
Backing.v
Bootrom.v
Sha256.v
Merkle.v
MerkleAlloc.v
MerkleInsert.v
MerkleLimits.v
Aes.v
AesSpec.v
AesModes.v
PageSwap.v
PageSwapInv.v
SwapStore.v
Paging.v
PagingPick.v
PagingInv.v
PagingRun.v
Elf.v
Loader.v
LoaderRun.v
Boot.v
BootRun.v
Limbs.v
Fe.v
FeSpec.v
FeBytes.v
Sc.v
ScSpec.v
Primes.v
Edwards.v
EdGroup.v
GeTables.v
Ge.v
GeSpec.v
GeTableSpec.v
GeScalar.v
GeVerify.v
GeSlide.v
GeMult.v
EdOrder.v
Ed25519.v
Attestation.v
