(* ===== verification/Prelude.v ===== *)
(** * Keystone: a verification development

    Keystone is a framework for trusted execution on RISC-V.  A security monitor
    ([src/sm]) runs in machine mode and isolates enclaves with physical memory
    protection (PMP); a small runtime ([src/runtime], Eyrie) manages the memory of an
    enclave in supervisor mode and forwards calls to the untrusted host; an SDK
    ([src/sdk]) defines the shared buffer through which the two talk; a boot ROM
    ([src/bootrom]) measures the monitor and derives its keys.

    ** The files

    - [Prelude]: machine integers with their wrap-around, outcomes ([Ok], [Hang] for a
      failed assertion, [UB] for behaviour the C standard leaves undefined), the state
      monad and its weakest-precondition calculus, lemmas on bits and arrays.
      [Mem]: byte-addressed memory.
    - Monitor. [SmDefs]: constants and structures of the call interface.
      [Pmp] ([pmp.c], [ipi.c]): the table of regions, allocation of PMP entries, and
      programming of all harts; [PmpInv] its invariant and behaviour, [PmpHw] what the
      programmed registers permit, by the rules of the privileged architecture.
      [Sha3], [Hkdf] ([sha3/], [hmac_sha3/], [hkdf_sha3_512/]).  [Thread] ([thread.c]): saved
      contexts.  [Mprv] ([mprv.S], [mprv.h]): copies with the privileges of the caller.
      [Machine], [Attest] ([attest.c], [crypto.c]), [Enclave] ([enclave.c]): the
      state of the monitor and every operation on enclaves; [EnclaveInv] the system
      invariant, [Lifecycle] the abstract life cycle and the refinement.
      [Sbi] ([sm-sbi.c], [sm-sbi-opensbi.c], [sm.c], [plugins/]): dispatch, start-up, traps.
    - Shared buffer. [EdgeCall] ([sdk/src/edge]): offsets, pointers, dispatch of calls.
    - Runtime. [Vm] (constants, address arithmetic), [Freemem] ([freemem.c]), [PageTable]
      and [ReservedMap] ([mm.c]), [Syscall] ([syscall.c], [sbi.c]), [StringLib] ([string.c]).
    - Paging of the runtime. [Backing] (the allocator of backing pages in [page_swap.c]),
      [Sha256] ([sha256.c]), [Merkle], [MerkleAlloc], [MerkleInsert], [MerkleLimits]
      ([merkle.c]), [Aes], [AesSpec], [AesModes] ([aes.c]); [PageSwap], [PageSwapInv],
      [SwapStore] ([page_swap.c]): the encrypted and authenticated swap of one page, its
      integrity, and the store of pages it implements; [Paging] ([paging.c]): the
      page-fault handler and the eviction of a page, [PagingPick] the page that the
      traversal of the page table picks, [PagingInv] the invariant that ties page table,
      free list and swap store together, [PagingRun] the theorems.
    - [Elf] ([loader/elf*.c], [loader/elf*.h]): the reader of ELF files, over any bytes
    - [Bootrom] ([bootloader.c]).

    ** How the code is modelled

    Every C function is one definition over an explicit state, with the guards and
    early returns of the source in their order.  Integers are [Z] with the
    wrap-around written out ([u64], [+w]); the configuration is the 64-bit one.  Tables
    are lists with the out-of-range access made [UB].  Memory is a function from
    addresses to bytes; the nodes of the Merkle tree are typed cells.  A call of the
    monitor runs on one hart without interleaving; the other harts take part through the
    synchronous IPI that programs their PMP registers.  Reads of the Merkle verifier
    from untrusted memory are indexed by time, so that the host may change it between
    any two of them.

    Code that is not in the repository, or vendored and not modelled, is a class:
    the hart mask of OpenSBI, its trap handlers, Ed25519 signatures and key pairs,
    address translation by the hardware, the host on the other side of a call, and,
    as an interface between two components, the source of pages of the Merkle tree.

    ** What the theorems show

    - Isolation: the invariant of the PMP table is kept by every operation, a hart
      programmed after the table decides accesses to a region by that region alone, and
      in every reachable state enclaves have disjoint memory away from the monitor.
    - Life cycle: every call returns, and refines an abstract machine of states; creation,
      destruction, run and resume are characterised on every branch, errors included.
    - Measurement, attestation, key derivation and the boot ROM compute what the standards
      (FIPS 202, RFC 2104, RFC 5869) and the code's intent say, with the exceptions
      listed as findings.
    - Shared buffer and system calls: round trips, and safety against every answer of
      the host.
    - Runtime memory: the free list is a queue, page tables translate what was mapped,
      allocation and release are inverse.
    - Paging: backing pages are handed out once; SHA-256 and AES are FIPS 180 and
      FIPS 197; the Merkle tree implements a map, and what its verifier accepts from
      untrusted memory is what was stored, or SHA-256 collides.  Swapping a page in returns
      the page that was swapped out, or SHA-256 collides; over memory nobody else writes,
      page faults and evictions do not change what the enclave sees.
    - The ELF reader accesses only bytes of the file, whatever they are.

    ** Bounds and fuel

    Loops that are not structural carry fuel: the page loop of the measurement
    ([Attest.page_fuel], the pages of the range), [gcd] (its second argument),
    [strlen] and the copies (the length), the Merkle verifier (the depth of the
    tree), the list of Merkle pages (their number), counter mode (the length).  Theorems
    state that the fuel is enough.  The insertion theorem for the Merkle tree
    asks for a depth of at most 31, the limit of the code; deeper trees are the subject of
    [MerkleLimits].

    ** Not modelled

    Console output, the Linux driver, the C++ host library, the forwarding of Linux system
    calls, the loader, vendored Ed25519, memory-mapped devices of
    platforms other than the generic one, and the assembly entry code: input and output,
    vendored code, or register saving.  Concurrency between harts inside a call of
    the monitor is reduced to its locks. *)

From Stdlib Require Import ZArith Lia Znumtheory.
From stdpp Require Import base tactics list list_numbers numbers.
Local Open Scope Z_scope.

(** ** Machine integers

    A [w]-bit unsigned integer is a [Z] in [[0, 2^w)]; the arithmetic of the C
    sources wraps around with [u64], [u32] and [u8].  The configuration is the
    64-bit one ([__riscv_xlen == 64]): [uintptr_t], [size_t] and [unsigned long]
    are all 64 bits wide. *)

Definition u64 (x : Z) : Z := x mod 2 ^ 64.
Definition u32 (x : Z) : Z := x mod 2 ^ 32.
Definition u16 (x : Z) : Z := x mod 2 ^ 16.
Definition u8 (x : Z) : Z := x mod 2 ^ 8.

Definition is_u64 (x : Z) : Prop := 0 <= x < 2 ^ 64.
Definition is_u32 (x : Z) : Prop := 0 <= x < 2 ^ 32.
Definition is_u8 (x : Z) : Prop := 0 <= x < 2 ^ 8.

(** [~x] on a 64-bit word. *)
Definition not64 (x : Z) : Z := 2 ^ 64 - 1 - x.

(** [~x] on a 32-bit word. *)
Definition not32 (x : Z) : Z := 2 ^ 32 - 1 - x.

(** [-1UL]. *)
Definition minus1_ul : Z := 2 ^ 64 - 1.

(** The truth value of a C integer. *)
Definition truthy (x : Z) : bool := negb (x =? 0).

Declare Scope keystone_scope.
Delimit Scope keystone_scope with ks.
Notation "a +w b" := (u64 (a + b)) (at level 50, left associativity) : keystone_scope.
Notation "a -w b" := (u64 (a - b)) (at level 50, left associativity) : keystone_scope.

(** ** Outcomes and the state monad

    A call either returns, or hits a failed [sm_assert] and hangs its hart
    ([Hang]), or does something the C standard leaves undefined ([UB]): an array
    access out of bounds or a shift by an out-of-range amount. *)

Inductive outcome (A : Type) : Type :=
  | Ok (a : A)
  | Hang
  | UB.
Arguments Ok {A} a.
Arguments Hang {A}.
Arguments UB {A}.

Definition M (S A : Type) : Type := S -> outcome (A * S).

Definition ret {S A : Type} (a : A) : M S A := fun s => Ok (a, s).

Definition bind {S A B : Type} (c : M S A) (k : A -> M S B) : M S B := fun s =>
  match c s with
  | Ok (a, s') => k a s'
  | Hang => Hang
  | UB => UB
  end.

Definition get {S : Type} : M S S := fun s => Ok (s, s).
Definition gets {S A : Type} (f : S -> A) : M S A := fun s => Ok (f s, s).
Definition modify {S : Type} (f : S -> S) : M S unit := fun s => Ok (tt, f s).
Definition hang {S A : Type} : M S A := fun _ => Hang.
Definition ub {S A : Type} : M S A := fun _ => UB.

(** [sm_assert(cond)] of [sm/src/sm_assert.h]: a false condition hangs the hart. *)
Definition sm_assert {S : Type} (b : bool) : M S unit := if b then ret tt else hang.

(** A value that is absent only when the C program is undefined. *)
Definition or_ub {S A : Type} (o : option A) : M S A :=
  match o with Some a => ret a | None => ub end.

(** Running a computation on a part of a larger state. *)
Definition zoom {S T A : Type} (getS : T -> S) (setS : S -> T -> T) (c : M S A) : M T A := fun t =>
  match c (getS t) with
  | Ok (a, s) => Ok (a, setS s t)
  | Hang => Hang
  | UB => UB
  end.

Declare Scope monad_scope.
Delimit Scope monad_scope with monad.
Notation "'let!' x := c 'in' k" := (bind c (fun x => k))
  (at level 10, x name, c at level 100, k at level 200) : monad_scope.
Notation "'let!' ' p := c 'in' k" := (bind c (fun x => match x with p => k end))
  (at level 10, p pattern, c at level 100, k at level 200) : monad_scope.
Notation "c ;;; k" := (bind c (fun _ => k)) (at level 100, k at level 200, right associativity) : monad_scope.
Open Scope monad_scope.

(** [for (x : l) body]. *)
Fixpoint for_each {S A : Type} (l : list A) (f : A -> M S unit) : M S unit :=
  match l with
  | [] => ret tt
  | x :: l' => f x ;;; for_each l' f
  end.

(** [for (x : l) acc = body(acc, x)]. *)
Fixpoint fold_m {S A B : Type} (l : list A) (acc : B) (f : B -> A -> M S B) : M S B :=
  match l with
  | [] => ret acc
  | x :: l' => let! acc' := f acc x in fold_m l' acc' f
  end.

(** ** Arrays indexed by C integers *)

Definition aget {A : Type} (l : list A) (i : Z) : option A :=
  if i <? 0 then None else l !! Z.to_nat i.

Definition aset {A : Type} (l : list A) (i : Z) (x : A) : list A :=
  if i <? 0 then l else <[Z.to_nat i := x]> l.

(** The indices [0, ..., n - 1] of an array of length [n]. *)
Definition indices (n : Z) : list Z := seqZ 0 n.

(** ** Weakest preconditions

    [wp c Q s]: the computation [c] started in [s] returns (it neither hangs nor
    runs into undefined behaviour) and its result and final state satisfy [Q]. *)

Definition wp {S A : Type} (c : M S A) (Q : A -> S -> Prop) (s : S) : Prop :=
  match c s with
  | Ok (a, s') => Q a s'
  | Hang | UB => False
  end.

Section Wp.
Context {S A B : Type}.
Implicit Types (s : S) (Q : A -> S -> Prop).

Lemma wp_ret (a : A) Q s : Q a s -> wp (ret a) Q s.
Proof. done. Qed.

Lemma wp_bind (c : M S A) (k : A -> M S B) (Q : B -> S -> Prop) s :
  wp c (fun a => wp (k a) Q) s -> wp (bind c k) Q s.
Proof. unfold wp, bind. by destruct (c s) as [[a s']| |]. Qed.

Lemma wp_mono (c : M S A) (P Q : A -> S -> Prop) s :
  wp c P s -> (forall a s', P a s' -> Q a s') -> wp c Q s.
Proof. unfold wp. destruct (c s) as [[a s']| |]; eauto. Qed.

Lemma wp_get (Q : S -> S -> Prop) s : Q s s -> wp get Q s.
Proof. done. Qed.

Lemma wp_gets (f : S -> A) Q s : Q (f s) s -> wp (gets f) Q s.
Proof. done. Qed.

Lemma wp_modify (f : S -> S) (Q : unit -> S -> Prop) s : Q tt (f s) -> wp (modify f) Q s.
Proof. done. Qed.

Lemma wp_assert (b : bool) (Q : unit -> S -> Prop) s : b = true -> Q tt s -> wp (sm_assert b) Q s.
Proof. by intros ->. Qed.

Lemma wp_or_ub (o : option A) (a : A) Q s : o = Some a -> Q a s -> wp (or_ub o) Q s.
Proof. by intros ->. Qed.

Lemma wp_ok (c : M S A) Q s a s' : c s = Ok (a, s') -> Q a s' -> wp c Q s.
Proof. unfold wp. by intros ->. Qed.

(** What [wp] says of the outcome. *)
Lemma wp_inv (c : M S A) Q s : wp c Q s -> exists a s', c s = Ok (a, s') /\ Q a s'.
Proof. unfold wp. destruct (c s) as [[a s']| |]; naive_solver. Qed.
End Wp.

Lemma wp_zoom {S T A : Type} (getS : T -> S) (setS : S -> T -> T) (c : M S A) (Q : A -> T -> Prop) t :
  wp c (fun a s => Q a (setS s t)) (getS t) -> wp (zoom getS setS c) Q t.
Proof. unfold wp, zoom. by destruct (c (getS t)) as [[a s]| |]. Qed.

(** The loop rule: an invariant indexed by the elements still to visit. *)
Lemma wp_for_each {S A : Type} (I : list A -> S -> Prop) (f : A -> M S unit) (l : list A) (s : S) :
  I l s ->
  (forall x l' s', I (x :: l') s' -> wp (f x) (fun _ s'' => I l' s'') s') ->
  wp (for_each l f) (fun _ s' => I [] s') s.
Proof.
  intros HI Hstep. revert s HI. induction l as [|x l IH]; intros s HI; [done|].
  apply wp_bind. eapply wp_mono; [by apply Hstep|]. intros [] s'. apply IH.
Qed.

#[export] Instance wp_proper {S A : Type} (c : M S A) :
  Proper (pointwise_relation A (pointwise_relation S impl) ==> eq ==> impl) (wp c).
Proof. intros P Q HPQ s ? <- HP. eapply wp_mono; [exact HP|]. intros a s'. apply HPQ. Qed.

(** One step of symbolic execution of a monadic program. *)
Ltac wp_step :=
  lazymatch goal with
  | |- wp (bind _ _) _ _ => apply wp_bind
  | |- wp (ret _) _ _ => apply wp_ret
  | |- wp get _ _ => apply wp_get
  | |- wp (gets _) _ _ => apply wp_gets
  | |- wp (modify _) _ _ => apply wp_modify
  | |- wp (sm_assert _) _ _ => apply wp_assert
  | |- wp (if ?b then _ else _) _ _ => let E := fresh "E" in destruct b eqn:E
  end.
Ltac wp_run := repeat (wp_step; cbn beta iota).

(** ** Automation *)

(** [lia] with division and remainder turned into equations. *)
Ltac mlia := Z.div_mod_to_equations; lia.
Ltac mnia := Z.div_mod_to_equations; nia.

(** Case analysis on the boolean comparisons of a goal or a hypothesis. *)
Ltac bool_cases :=
  repeat match goal with
  | H : (_ && _)%bool = true |- _ => apply andb_true_iff in H as [? ?]
  | H : (_ || _)%bool = false |- _ => apply orb_false_iff in H as [? ?]
  | H : negb _ = true |- _ => apply negb_true_iff in H
  | H : negb _ = false |- _ => apply negb_false_iff in H
  | H : (_ =? _) = true |- _ => apply Z.eqb_eq in H
  | H : (_ =? _) = false |- _ => apply Z.eqb_neq in H
  | H : (_ <? _) = true |- _ => apply Z.ltb_lt in H
  | H : (_ <? _) = false |- _ => apply Z.ltb_ge in H
  | H : (_ <=? _) = true |- _ => apply Z.leb_le in H
  | H : (_ <=? _) = false |- _ => apply Z.leb_gt in H
  end.

Create HintDb keystone.
Create Rewrite HintDb kword.

(** ** Integer lemmas *)

Lemma u64_range x : is_u64 (u64 x).
Proof. unfold is_u64, u64. apply Z.mod_pos_bound. lia. Qed.

Lemma u64_id x : is_u64 x -> u64 x = x.
Proof. unfold is_u64, u64. intros H. by apply Z.mod_small. Qed.

Lemma u32_id x : is_u32 x -> u32 x = x.
Proof. unfold is_u32, u32. intros H. by apply Z.mod_small. Qed.

#[export] Hint Resolve u64_range : keystone.
#[export] Hint Rewrite u64_id u32_id using (unfold is_u64, is_u32 in *; lia) : kword.

(** Masking with [2^n - 1] is the remainder modulo [2^n]. *)
Lemma land_pow2_sub1 x n : 0 <= n -> Z.land x (2 ^ n - 1) = x mod 2 ^ n.
Proof. intros. rewrite <- Z.land_ones by done. by rewrite Z.ones_equiv, Z.sub_1_r. Qed.

(** [x & (1 << n)] is non-zero exactly when bit [n] of [x] is set. *)
Lemma land_bit_zero x n : 0 <= n -> (Z.land x (Z.shiftl 1 n) =? 0) = negb (Z.testbit x n).
Proof.
  intros Hn. rewrite Z.shiftl_1_l. destruct (Z.testbit x n) eqn:E; simpl.
  - apply Z.eqb_neq. intros H0.
    assert (Z.testbit (Z.land x (2 ^ n)) n = true) as H1
      by (by rewrite Z.land_spec, E, Z.pow2_bits_true by done).
    by rewrite H0, Z.testbit_0_l in H1.
  - apply Z.eqb_eq, Z.bits_inj_0. intros m. rewrite Z.land_spec.
    destruct (decide (n = m)) as [->|]; [by rewrite E|].
    by rewrite Z.pow2_bits_false, andb_false_r by done.
Qed.

Lemma truthy_bit x n : 0 <= n -> truthy (Z.land x (Z.shiftl 1 n)) = Z.testbit x n.
Proof. intros Hn. unfold truthy. rewrite land_bit_zero by done. by rewrite negb_involutive. Qed.

(** Bits of a word below [2^n]. *)
Lemma testbit_high x n i : 0 <= x < 2 ^ n -> n <= i -> Z.testbit x i = false.
Proof.
  intros Hx Hi. destruct (decide (0 <= n)) as [Hn|Hn].
  - rewrite <- (Z.mod_small x (2 ^ n)) by done. apply Z.mod_pow2_bits_high. lia.
  - rewrite Z.pow_neg_r in Hx by lia. lia.
Qed.

(** A natural number is below [2^n] when its bits from [n] up are zero. *)
Lemma bits_bound x n : 0 <= n -> 0 <= x -> (forall i, n <= i -> Z.testbit x i = false) -> x < 2 ^ n.
Proof.
  intros Hn Hx Hb. assert (x = x mod 2 ^ n) as ->; [|apply Z.mod_pos_bound; lia].
  apply Z.bits_inj'. intros i Hi. destruct (decide (i < n)).
  - by rewrite Z.mod_pow2_bits_low by lia.
  - rewrite Z.mod_pow2_bits_high by lia. apply Hb. lia.
Qed.

Lemma lor_bound x y n : 0 <= x < 2 ^ n -> 0 <= y < 2 ^ n -> 0 <= Z.lor x y < 2 ^ n.
Proof.
  intros Hx Hy. destruct (decide (0 <= n)) as [Hn|Hn]; [|rewrite Z.pow_neg_r in Hx by lia; lia].
  split; [apply Z.lor_nonneg; lia|].
  apply bits_bound; [done|apply Z.lor_nonneg; lia|]. intros i Hi.
  by rewrite Z.lor_spec, (testbit_high x n i), (testbit_high y n i).
Qed.

Lemma lxor_u8 x y : is_u8 x -> is_u8 y -> is_u8 (Z.lxor x y).
Proof.
  intros Hx Hy. assert (0 <= Z.lxor x y) as Hp by (apply Z.lxor_nonneg; unfold is_u8 in *; lia). split; [done|].
  apply bits_bound; [lia|done|]. intros i Hi. by rewrite Z.lxor_spec, !(testbit_high _ 8) by done.
Qed.

Lemma land_bound x y n : 0 <= x < 2 ^ n -> 0 <= y -> 0 <= Z.land x y < 2 ^ n.
Proof.
  intros Hx Hy. destruct (decide (0 <= n)) as [Hn|Hn]; [|rewrite Z.pow_neg_r in Hx by lia; lia].
  split; [apply Z.land_nonneg; lia|].
  apply bits_bound; [done|apply Z.land_nonneg; lia|]. intros i Hi.
  by rewrite Z.land_spec, (testbit_high x n i).
Qed.

(** Disjoint bit patterns: or is plus. *)
Lemma lor_add x y n : 0 <= n -> 0 <= y < 2 ^ n -> x mod 2 ^ n = 0 -> Z.lor x y = x + y.
Proof.
  intros Hn Hy Hx. symmetry. apply Z.add_nocarry_lor, Z.bits_inj'. intros i Hi.
  rewrite Z.land_spec, Z.testbit_0_l. destruct (decide (i < n)).
  - assert (Z.testbit x i = false) as ->; [|done].
    rewrite <- (Z.mod_pow2_bits_low x n i) by lia. by rewrite Hx, Z.testbit_0_l.
  - by rewrite (testbit_high y n i), andb_false_r by lia.
Qed.

(** The bits of a number put together from a high and a low part. *)
Lemma testbit_concat q r m i : 0 <= m -> 0 <= r < 2 ^ m -> 0 <= i ->
  Z.testbit (q * 2 ^ m + r) i = if i <? m then Z.testbit r i else Z.testbit q (i - m).
Proof.
  intros Hm Hr Hi. rewrite <- (lor_add (q * 2 ^ m) r m) by (done || apply Z.mod_mul; lia).
  rewrite Z.lor_spec, <- Z.shiftl_mul_pow2, Z.shiftl_spec by lia.
  destruct (Z.ltb_spec i m).
  - by rewrite Z.testbit_neg_r by lia.
  - by rewrite (testbit_high r m i), orb_false_r by lia.
Qed.

(** Filling the low [m] bits with ones forgets exactly those bits. *)
Lemma lor_ones_eq x y m : 0 <= m ->
  Z.lor x (Z.ones m) = Z.lor y (Z.ones m) <-> x / 2 ^ m = y / 2 ^ m.
Proof.
  intros Hm. rewrite <- !Z.shiftr_div_pow2 by done. split; intros H; apply Z.bits_inj'; intros i Hi.
  - rewrite !Z.shiftr_spec by lia. apply (f_equal (fun z => Z.testbit z (i + m))) in H.
    by rewrite !Z.lor_spec, !Z.ones_spec_high, !orb_false_r in H by lia.
  - rewrite !Z.lor_spec. destruct (decide (i < m)).
    + by rewrite !Z.ones_spec_low, !orb_true_r by lia.
    + apply (f_equal (fun z => Z.testbit z (i - m))) in H. rewrite !Z.shiftr_spec in H by lia.
      replace (i - m + m) with i in H by lia. by rewrite H.
Qed.

(** The mask a NAPOT address encodes. *)
Lemma lxor_succ_ones q k : 0 <= k ->
  Z.lxor (q * 2 ^ (k + 1) + (2 ^ k - 1)) (q * 2 ^ (k + 1) + (2 ^ k - 1) + 1) = Z.ones (k + 1).
Proof.
  intros Hk. assert (2 ^ (k + 1) = 2 * 2 ^ k) as Hp by (rewrite Z.pow_add_r; lia).
  assert (0 < 2 ^ k) by lia. replace (q * 2 ^ (k + 1) + (2 ^ k - 1) + 1) with (q * 2 ^ (k + 1) + 2 ^ k) by lia.
  apply Z.bits_inj'. intros i Hi. rewrite Z.lxor_spec, !testbit_concat by lia.
  rewrite Z.sub_1_r, <- Z.ones_equiv. destruct (Z.ltb_spec i (k + 1)).
  - rewrite (Z.ones_spec_low (k + 1)) by lia. destruct (decide (i = k)) as [->|].
    + by rewrite Z.ones_spec_high, Z.pow2_bits_true by lia.
    + by rewrite Z.ones_spec_low, Z.pow2_bits_false by lia.
  - by rewrite xorb_nilpotent, Z.ones_spec_high by lia.
Qed.

(** [~x] on an [n]-bit word clears the bits of [x] in the all-ones word. *)
Lemma sub_ones_ldiff x n : 0 <= n -> 0 <= x < 2 ^ n -> 2 ^ n - 1 - x = Z.ldiff (Z.ones n) x.
Proof.
  intros Hn Hx. rewrite Z.ones_equiv, <- Z.sub_1_r. apply Z.sub_nocarry_ldiff.
  apply Z.bits_inj'. intros i Hi. rewrite Z.ldiff_spec, Z.testbit_0_l.
  rewrite Z.sub_1_r, <- Z.ones_equiv. destruct (decide (i < n)).
  - by rewrite Z.ones_spec_low, andb_false_r by lia.
  - by rewrite (testbit_high x n i) by lia.
Qed.

Lemma testbit_not x n i : 0 <= x < 2 ^ n -> 0 <= i < n -> Z.testbit (2 ^ n - 1 - x) i = negb (Z.testbit x i).
Proof.
  intros Hx Hi. rewrite sub_ones_ldiff by lia.
  by rewrite Z.ldiff_spec, Z.ones_spec_low by lia.
Qed.

Lemma testbit_not64 x i : is_u64 x -> 0 <= i < 64 -> Z.testbit (not64 x) i = negb (Z.testbit x i).
Proof. apply testbit_not. Qed.

(** The test [x & (x - 1)] for a power of two. *)
Lemma pow2_test x : 0 < x -> Z.land x (x - 1) = 0 -> x = 2 ^ Z.log2 x.
Proof.
  intros Hx Hl. destruct (Z.log2_spec x Hx) as [Hlo Hhi]. rewrite Z.pow_succ_r in Hhi by apply Z.log2_nonneg.
  destruct (decide (x = 2 ^ Z.log2 x)) as [|Hne]; [done|exfalso].
  assert (forall y, 2 ^ Z.log2 x <= y < 2 * 2 ^ Z.log2 x -> Z.testbit y (Z.log2 x) = true) as Hbit.
  { intros y Hy. rewrite Z.testbit_true by apply Z.log2_nonneg.
    assert (y / 2 ^ Z.log2 x = 1) as -> by (symmetry; apply Z.div_unique with (r := y - 2 ^ Z.log2 x); lia).
    done. }
  assert (Z.testbit (Z.land x (x - 1)) (Z.log2 x) = true) as H1
    by (rewrite Z.land_spec, !Hbit by lia; done).
  by rewrite Hl, Z.testbit_0_l in H1.
Qed.

Lemma testbit_shiftl_1 n i : 0 <= n -> Z.testbit (Z.shiftl 1 n) i = bool_decide (n = i).
Proof.
  intros Hn. rewrite Z.shiftl_1_l. case_bool_decide as E.
  - subst. by apply Z.pow2_bits_true.
  - by apply Z.pow2_bits_false.
Qed.

(** ** Array lemmas *)

Section Arrays.
Context {A : Type}.
Implicit Types (l : list A) (i j : Z) (x : A).

Lemma aget_Some_range l i x : aget l i = Some x -> 0 <= i < Z.of_nat (length l).
Proof.
  unfold aget. case_match; bool_cases; [done|]. intros ?%lookup_lt_Some. lia.
Qed.

Lemma aget_is_Some l i : 0 <= i < Z.of_nat (length l) -> exists x, aget l i = Some x.
Proof.
  intros Hi. unfold aget. case_match; bool_cases; [lia|].
  apply lookup_lt_is_Some_2. lia.
Qed.

Lemma length_aset l i x : length (aset l i x) = length l.
Proof. unfold aset. case_match; [done|]. apply length_insert. Qed.

Lemma aget_aset_eq l i x : 0 <= i < Z.of_nat (length l) -> aget (aset l i x) i = Some x.
Proof.
  intros Hi. unfold aget, aset. destruct (i <? 0) eqn:E; bool_cases; [lia|].
  apply list_lookup_insert_eq. lia.
Qed.

Lemma aget_aset_ne l i j x : i <> j -> aget (aset l i x) j = aget l j.
Proof.
  intros Hij. unfold aget, aset. destruct (i <? 0) eqn:E, (j <? 0) eqn:E'; bool_cases; try done.
  apply list_lookup_insert_ne. lia.
Qed.

Lemma aget_aset l i j x : 0 <= i < Z.of_nat (length l) ->
  aget (aset l i x) j = if decide (i = j) then Some x else aget l j.
Proof.
  intros Hi. case_decide as E; [subst; by apply aget_aset_eq|by apply aget_aset_ne].
Qed.

Lemma aset_aset l i x y : aset (aset l i x) i y = aset l i y.
Proof. unfold aset. case_match; [done|]. apply list_insert_insert_eq. Qed.

Lemma aset_id l i x : aget l i = Some x -> aset l i x = l.
Proof. unfold aget, aset. case_match; [done|]. apply list_insert_id. Qed.

Lemma aset_comm l i j x y : i <> j -> aset (aset l i x) j y = aset (aset l j y) i x.
Proof.
  intros Hij. unfold aset. destruct (i <? 0) eqn:E, (j <? 0) eqn:E'; bool_cases; try done.
  apply list_insert_insert_ne. lia.
Qed.
End Arrays.

Lemma elem_of_indices i n : i ∈ indices n <-> 0 <= i < n.
Proof. unfold indices. rewrite elem_of_seqZ. lia. Qed.

(** Two folds that agree on the states an invariant allows. *)
Lemma fold_left_ext_inv {A B} (P : A -> Prop) (Q : B -> Prop) (f g : A -> B -> A) (l : list B) (a : A) :
  P a -> Forall Q l -> (forall x b, P x -> Q b -> f x b = g x b /\ P (g x b)) ->
  fold_left f l a = fold_left g l a /\ P (fold_left g l a).
Proof.
  intros Ha Hl Hstep. revert a Ha. induction Hl as [|b l Hb Hl IH]; intros a Ha; simpl; [done|].
  destruct (Hstep a b Ha Hb) as [-> ?]. by apply IH.
Qed.
