(* ===== verification/Mem.v ===== *)
(** * Byte-addressed memory

    Physical or virtual memory is a function from 64-bit addresses to bytes.
    Addresses wrap around at [2^64]; a 64-bit word occupies eight bytes, lowest
    first.  The security monitor, the runtime and the edge-call library share
    these definitions. *)

From S2P Require Import Prelude.
From Stdlib Require Import ZArith Lia.
From stdpp Require Import base tactics list list_numbers numbers.
Local Open Scope Z_scope.

(** Address [a] lies in the [len] bytes from [base], modulo [2^64]. *)
Definition in_range (base len a : Z) : bool := u64 (a - base) <? len.

(** [memset(base, v, len)] with a byte [v]. *)
Definition memset (base v len : Z) (f : Z -> Z) : Z -> Z := fun a => if in_range base len a then v else f a.

(** The [n] bytes from address [a]. *)
Definition read_bytes (f : Z -> Z) (a : Z) (n : nat) : list Z := map (fun i => f (u64 (a + Z.of_nat i))) (seq 0 n).

(** Memory with the bytes [bs] stored from address [a]. *)
Definition write_bytes (f : Z -> Z) (a : Z) (bs : list Z) : Z -> Z := fun x =>
  if in_range a (Z.of_nat (length bs)) x then nth (Z.to_nat (u64 (x - a))) bs 0 else f x.

(** The eight bytes of a 64-bit word in memory. *)
Definition le64 (x : Z) : list Z := map (fun k => Z.land (Z.shiftr x (8 * Z.of_nat k)) 0xff) (seq 0 8).

(** The value of bytes, lowest first. *)
Definition le_value (bs : list Z) : Z := fold_right (fun d acc => d + 256 * acc) 0 bs.

Definition load64 (f : Z -> Z) (a : Z) : Z := le_value (read_bytes f a 8).
Definition store64 (f : Z -> Z) (a v : Z) : Z -> Z := write_bytes f a (le64 v).

(** The [la] bytes from [a] and the [lb] bytes from [b] have no address in common. *)
Definition ranges_disjoint (a la b lb : Z) : bool := (la <=? u64 (b - a)) && (lb <=? u64 (a - b)).

Definition mem_bytes (f : Z -> Z) : Prop := forall a, is_u8 (f a).

(** ** Modular addresses *)

Lemma u64_add_l x y : u64 (u64 x + y) = u64 (x + y).
Proof. unfold u64. apply Z.add_mod_idemp_l. lia. Qed.

Lemma u64_sub_l x y : u64 (u64 x - y) = u64 (x - y).
Proof. unfold u64. apply Zminus_mod_idemp_l. Qed.

Lemma u64_sub_r x y : u64 (x - u64 y) = u64 (x - y).
Proof. unfold u64. apply Zminus_mod_idemp_r. Qed.

Lemma u64_neg x : u64 (- x) = if u64 x =? 0 then 0 else 2 ^ 64 - u64 x.
Proof.
  unfold u64. destruct (Z.eqb_spec (x mod 2 ^ 64) 0) as [E|E].
  - by apply Z.mod_opp_l_z.
  - by apply Z.mod_opp_l_nz.
Qed.

(** Inside a range that starts at [a], the [i]-th byte of a range that starts at
    [b] is only found when the ranges meet. *)
Lemma ranges_disjoint_spec a la b lb i : ranges_disjoint a la b lb = true -> 0 <= i < lb ->
  in_range a la (u64 (b + i)) = false.
Proof.
  unfold ranges_disjoint, in_range. intros H Hi. bool_cases. apply Z.ltb_ge. rewrite u64_sub_l.
  replace (a - b) with (- (b - a)) in * by lia. rewrite u64_neg in *.
  replace (b + i - a) with ((b - a) + i) by lia. rewrite <- u64_add_l.
  pose proof (u64_range (b - a)). unfold is_u64 in *.
  destruct (Z.eqb_spec (u64 (b - a)) 0); [lia|]. rewrite u64_id by (unfold is_u64; lia). lia.
Qed.

Lemma in_range_here a n i : 0 <= i < n -> n <= 2 ^ 64 -> in_range a n (u64 (a + i)) = true.
Proof.
  intros Hi Hn. unfold in_range. apply Z.ltb_lt. rewrite u64_sub_l.
  replace (a + i - a) with i by lia. rewrite u64_id; unfold is_u64; lia.
Qed.

(** ** Bytes and words *)

Lemma length_read_bytes f a n : length (read_bytes f a n) = n.
Proof. unfold read_bytes. by rewrite length_map, length_seq. Qed.

Lemma length_le64 v : length (le64 v) = 8%nat.
Proof. done. Qed.

Lemma le64_u8 v : Forall is_u8 (le64 v).
Proof.
  unfold le64. apply Forall_map, Forall_forall. intros k _. unfold is_u8.
  change 0xff with (2 ^ 8 - 1). rewrite land_pow2_sub1 by lia. apply Z.mod_pos_bound. lia.
Qed.

Lemma le_value_le64 v : le_value (le64 v) = u64 v.
Proof.
  unfold le64, le_value. cbn [map seq fold_right].
  change 0xff with (2 ^ 8 - 1). rewrite !land_pow2_sub1, !Z.shiftr_div_pow2 by lia.
  change (8 * Z.of_nat 0) with 0. change (8 * Z.of_nat 1) with 8. change (8 * Z.of_nat 2) with 16.
  change (8 * Z.of_nat 3) with 24. change (8 * Z.of_nat 4) with 32. change (8 * Z.of_nat 5) with 40.
  change (8 * Z.of_nat 6) with 48. change (8 * Z.of_nat 7) with 56.
  unfold u64.
  assert (forall k j, 0 <= k -> j = k + 8 -> v / 2 ^ j = (v / 2 ^ k) / 2 ^ 8) as Hd
    by (intros k j Hk ->; rewrite Z.pow_add_r, Z.div_div by lia; done).
  rewrite (Hd 48 56), (Hd 40 48), (Hd 32 40), (Hd 24 32), (Hd 16 24), (Hd 8 16), (Hd 0 8) by lia.
  rewrite Z.pow_0_r, Z.div_1_r.
  clear Hd. mlia.
Qed.

Lemma le_value_bound bs : Forall is_u8 bs -> 0 <= le_value bs < 256 ^ Z.of_nat (length bs).
Proof.
  induction 1 as [|x b Hx Hb IH]; cbn [le_value fold_right length]; [done|]. fold (le_value b).
  unfold is_u8 in Hx. rewrite Nat2Z.inj_succ, Z.pow_succ_r by lia. lia.
Qed.

Lemma read_bytes_u8 f a n : mem_bytes f -> Forall is_u8 (read_bytes f a n).
Proof. intros Hf. unfold read_bytes. apply Forall_map, Forall_forall. intros i _. apply Hf. Qed.

Lemma load64_range f a : mem_bytes f -> is_u64 (load64 f a).
Proof. intros Hf. unfold load64. apply (le_value_bound (read_bytes f a 8)). by apply read_bytes_u8. Qed.

Lemma read_bytes_u64 f a n : read_bytes f (u64 a) n = read_bytes f a n.
Proof. unfold read_bytes. apply map_ext. intros i. by rewrite u64_add_l. Qed.

Lemma write_bytes_u64 f a bs x : write_bytes f (u64 a) bs x = write_bytes f a bs x.
Proof. unfold write_bytes, in_range. by rewrite u64_sub_r. Qed.

Lemma map_seq_offset {A} (g : nat -> A) m n : map g (seq m n) = map (fun i => g (m + i)%nat) (seq 0 n).
Proof. induction n as [|n IH]; [done|]. by rewrite !seq_S, !map_app, IH. Qed.

Lemma read_bytes_app f a m n :
  read_bytes f a (m + n) = read_bytes f a m ++ read_bytes f (a + Z.of_nat m) n.
Proof.
  unfold read_bytes. rewrite seq_app, map_app, (map_seq_offset _ (0 + m)). f_equal.
  apply map_ext. intros i. do 2 f_equal. lia.
Qed.

Lemma read_bytes_ext f g a n : (forall x, is_u64 x -> g x = f x) -> read_bytes g a n = read_bytes f a n.
Proof. intros Hext. unfold read_bytes. apply map_ext. intros i. apply Hext, u64_range. Qed.

Lemma write_bytes_ext f g a bs x : g x = f x -> write_bytes g a bs x = write_bytes f a bs x.
Proof. intros Hext. unfold write_bytes. by rewrite Hext. Qed.

(** Two adjacent writes are one. *)
Lemma write_bytes_app f a l1 l2 x : Z.of_nat (length l1 + length l2) <= 2 ^ 64 ->
  write_bytes (write_bytes f a l1) (a + Z.of_nat (length l1)) l2 x = write_bytes f a (l1 ++ l2) x.
Proof.
  intros Hl. unfold write_bytes, in_range. rewrite length_app. set (d := u64 (x - a)).
  assert (0 <= d < 2 ^ 64) as Hd by apply u64_range.
  assert (u64 (x - (a + Z.of_nat (length l1))) = if d <? Z.of_nat (length l1) then 2 ^ 64 + d - Z.of_nat (length l1)
    else d - Z.of_nat (length l1)) as ->.
  { replace (x - (a + Z.of_nat (length l1))) with (x - a - Z.of_nat (length l1)) by lia. rewrite <- u64_sub_l. fold d.
    unfold u64. destruct (Z.ltb_spec d (Z.of_nat (length l1))).
    - symmetry. apply Z.mod_unique with (-1); lia.
    - apply Z.mod_small. lia. }
  destruct (Z.ltb_spec d (Z.of_nat (length l1))).
  - destruct (Z.ltb_spec (2 ^ 64 + d - Z.of_nat (length l1)) (Z.of_nat (length l2))); [lia|].
    destruct (Z.ltb_spec d (Z.of_nat (length l1 + length l2))); [|lia]. symmetry. apply app_nth1. lia.
  - destruct (Z.ltb_spec (d - Z.of_nat (length l1)) (Z.of_nat (length l2))),
      (Z.ltb_spec d (Z.of_nat (length l1 + length l2))); try lia.
    rewrite app_nth2 by lia. f_equal. lia.
Qed.

(** The bytes of a value put together from bytes. *)
Lemma le64_le_value bs : Forall is_u8 bs -> length bs = 8%nat -> le64 (le_value bs) = bs.
Proof.
  intros Hb Hl. do 9 (destruct bs as [|? bs]; try done). clear Hl.
  repeat match goal with H : Forall is_u8 (_ :: _) |- _ => apply Forall_cons_iff in H as [? H] end.
  unfold is_u8 in *. unfold le64, le_value. cbn [map seq fold_right].
  change 0xff with (2 ^ 8 - 1). rewrite !land_pow2_sub1, !Z.shiftr_div_pow2 by lia.
  repeat f_equal; cbn [Z.of_nat Z.mul Pos.of_succ_nat Pos.succ Pos.mul Pos.add]; mlia.
Qed.

(** ** Reads after writes *)

Section ReadWrite.
Context (f : Z -> Z).
Implicit Types (a b : Z) (bs : list Z) (n : nat).

(** A part of the bytes just written. *)
Lemma read_write_sub a bs k n : Z.of_nat (length bs) <= 2 ^ 64 -> (k + n <= length bs)%nat ->
  read_bytes (write_bytes f a bs) (a + Z.of_nat k) n = take n (drop k bs).
Proof.
  intros Hl Hk. apply list_eq_same_length with n.
  { rewrite length_take, length_drop. lia. }
  { by rewrite length_read_bytes. }
  intros i x y Hi. unfold read_bytes. rewrite list_lookup_fmap, lookup_seq_lt by done. simpl.
  rewrite lookup_take_lt, lookup_drop by done. intros [= <-] Hy. unfold write_bytes.
  replace (a + Z.of_nat k + Z.of_nat i) with (a + Z.of_nat (k + i)) by lia.
  rewrite in_range_here by lia. rewrite u64_sub_l.
  replace (a + Z.of_nat (k + i) - a) with (Z.of_nat (k + i)) by lia. rewrite u64_id by (unfold is_u64; lia).
  rewrite Nat2Z.id. by apply nth_lookup_Some.
Qed.

Lemma read_write_same a bs : Z.of_nat (length bs) <= 2 ^ 64 ->
  read_bytes (write_bytes f a bs) a (length bs) = bs.
Proof.
  intros Hl. pose proof (read_write_sub a bs 0 (length bs) Hl ltac:(lia)) as H.
  rewrite Z.add_0_r, drop_0, firstn_all in H. exact H.
Qed.

Lemma read_write_disjoint a bs b n :
  ranges_disjoint a (Z.of_nat (length bs)) b (Z.of_nat n) = true ->
  read_bytes (write_bytes f a bs) b n = read_bytes f b n.
Proof.
  intros Hd. unfold read_bytes. apply map_ext_in. intros i Hi%in_seq. unfold write_bytes.
  by rewrite (ranges_disjoint_spec _ _ b (Z.of_nat n)) by (done || lia).
Qed.

Lemma load64_store64_same a v : load64 (store64 f a v) a = u64 v.
Proof.
  unfold load64, store64. pose proof (read_write_same a (le64 v)) as H. rewrite length_le64 in H.
  rewrite H by lia. apply le_value_le64.
Qed.

Lemma load64_store64_disjoint a v b : ranges_disjoint a 8 b 8 = true -> load64 (store64 f a v) b = load64 f b.
Proof. intros Hd. unfold load64, store64. f_equal. by apply read_write_disjoint. Qed.

Lemma load64_write_disjoint a bs b : ranges_disjoint a (Z.of_nat (length bs)) b 8 = true ->
  load64 (write_bytes f a bs) b = load64 f b.
Proof. intros Hd. unfold load64. f_equal. by apply read_write_disjoint. Qed.

Lemma read_store64_disjoint a v b n : ranges_disjoint a 8 b (Z.of_nat n) = true ->
  read_bytes (store64 f a v) b n = read_bytes f b n.
Proof. apply (read_write_disjoint a (le64 v)). Qed.

(** A write leaves every address outside its range alone. *)
Lemma write_bytes_other a bs x : in_range a (Z.of_nat (length bs)) x = false -> write_bytes f a bs x = f x.
Proof. unfold write_bytes. by intros ->. Qed.

Lemma write_bytes_mem_bytes a bs : mem_bytes f -> Forall is_u8 bs -> mem_bytes (write_bytes f a bs).
Proof.
  intros Hf Hb x. unfold write_bytes. case_match; [|apply Hf].
  destruct (nth_in_or_default (Z.to_nat (u64 (x - a))) bs 0) as [Hin| ->]; [|by compute].
  eapply List.Forall_forall; [exact Hb|exact Hin].
Qed.

Lemma store64_mem_bytes a v : mem_bytes f -> mem_bytes (store64 f a v).
Proof. intros Hf. apply write_bytes_mem_bytes; [done|apply le64_u8]. Qed.
End ReadWrite.

#[export] Hint Resolve write_bytes_mem_bytes store64_mem_bytes read_bytes_u8 : keystone.

(** Field addresses of one object: the distance of two offsets is a constant. *)
Lemma ranges_disjoint_offsets e i li j lj : is_u64 i -> is_u64 j -> 0 <= li -> 0 <= lj ->
  i + li <= 2 ^ 64 -> j + lj <= 2 ^ 64 ->
  i + li <= j \/ j + lj <= i -> i <> j -> ranges_disjoint (e + i) li (e + j) lj = true.
Proof.
  unfold is_u64. intros. unfold ranges_disjoint. replace (e + j - (e + i)) with (j - i) by lia.
  replace (e + i - (e + j)) with (- (j - i)) by lia. rewrite u64_neg. apply andb_true_iff. unfold u64.
  destruct (decide (i < j)).
  - rewrite Z.mod_small by lia. split; [apply Z.leb_le; lia|]. apply Z.leb_le. case_match; bool_cases; lia.
  - assert ((j - i) mod 2 ^ 64 = 2 ^ 64 + (j - i)) as -> by (symmetry; apply Z.mod_unique with (-1); lia).
    split; [apply Z.leb_le; lia|]. apply Z.leb_le. case_match; bool_cases; lia.
Qed.

(** ** Aligned words

    Addresses that are multiples of eight behave like the cells of a word-addressed
    memory. *)

Definition aligned8 (a : Z) : Prop := is_u64 a /\ a mod 8 = 0.

Lemma load64_store64 f a b v : aligned8 a -> aligned8 b -> is_u64 v ->
  load64 (store64 f a v) b = if decide (a = b) then v else load64 f b.
Proof.
  intros [Ha Ha8] [Hb Hb8] Hv. case_decide as E.
  - subst. by rewrite load64_store64_same, u64_id.
  - apply load64_store64_disjoint. unfold ranges_disjoint, u64. unfold is_u64 in *.
    apply andb_true_iff. split; apply Z.leb_le; mlia.
Qed.

Lemma load64_memset0 f p n b : is_u64 p -> p mod 8 = 0 -> 0 <= n -> n mod 8 = 0 -> p + n <= 2 ^ 64 -> aligned8 b ->
  load64 (memset p 0 n f) b = if decide (p <= b < p + n) then 0 else load64 f b.
Proof.
  intros Hp Hp8 Hn Hn8 Hend [Hb Hb8]. unfold is_u64 in *. unfold load64.
  assert (forall i, In i (seq 0 8) -> in_range p n (u64 (b + Z.of_nat i)) = bool_decide (p <= b < p + n)) as Hr.
  { intros i Hi%in_seq. unfold in_range. rewrite u64_sub_l. unfold u64.
    case_bool_decide; [apply Z.ltb_lt|apply Z.ltb_ge]; mlia. }
  assert (read_bytes (memset p 0 n f) b 8 = if decide (p <= b < p + n) then replicate 8 0 else read_bytes f b 8) as ->.
  { transitivity (map (fun i => if bool_decide (p <= b < p + n) then 0 else f (u64 (b + Z.of_nat i))) (seq 0 8)).
    - unfold read_bytes, memset. apply map_ext_in. intros i Hi. by rewrite Hr.
    - case_bool_decide; case_decide; done || lia. }
  by destruct (decide (p <= b < p + n)).
Qed.

(** ** Parts of ranges *)

Lemma in_range_sub b size k n x : 0 <= k -> 0 <= n -> k + n <= size -> size <= 2 ^ 64 ->
  in_range b size x = false -> in_range (b + k) n x = false.
Proof.
  intros Hk Hn0 Hn Hs Hx%Z.ltb_ge. apply Z.ltb_ge. pose proof (u64_range (x - b)) as Hr. unfold is_u64 in Hr.
  replace (x - (b + k)) with (x - b - k) by lia. rewrite <- u64_sub_l.
  destruct (decide (k <= u64 (x - b))); [rewrite u64_id by (unfold is_u64; lia); lia|lia].
Qed.

Lemma ranges_disjoint_sub a la b lb k n : 0 <= k -> 0 < n -> k + n <= la -> 0 <= lb ->
  ranges_disjoint a la b lb = true -> ranges_disjoint (a + k) n b lb = true.
Proof.
  intros Hk Hn Hla Hlb H. unfold ranges_disjoint in *. bool_cases. pose proof (u64_range (b - a)) as Hr. unfold is_u64 in Hr.
  replace (a - b) with (- (b - a)) in * by lia. rewrite u64_neg in *.
  assert (u64 (b - (a + k)) = u64 (b - a) - k) as E.
  { replace (b - (a + k)) with (b - a - k) by lia. rewrite <- u64_sub_l. apply u64_id. unfold is_u64. lia. }
  replace (a + k - b) with (- (b - (a + k))) by lia. rewrite u64_neg, E.
  apply andb_true_iff. split; apply Z.leb_le; [lia|].
  destruct (Z.eqb_spec (u64 (b - a)) 0); [lia|]. case_match; bool_cases; lia.
Qed.

Lemma ranges_disjoint_sym a la b lb : ranges_disjoint a la b lb = ranges_disjoint b lb a la.
Proof. unfold ranges_disjoint. apply andb_comm. Qed.

(** A shorter second range. *)
Lemma ranges_disjoint_shorter a la b lb n : n <= lb -> ranges_disjoint a la b lb = true -> ranges_disjoint a la b n = true.
Proof. unfold ranges_disjoint. intros Hn H. bool_cases. apply andb_true_iff. split; apply Z.leb_le; lia. Qed.

Lemma ranges_disjoint_u64 a la b lb : ranges_disjoint (u64 a) la b lb = ranges_disjoint a la b lb.
Proof. unfold ranges_disjoint. by rewrite u64_sub_l, u64_sub_r. Qed.

(** A word inside bytes that are the same. *)
Lemma load64_read_eq f g p n k : read_bytes f p n = read_bytes g p n -> (k + 8 <= n)%nat ->
  load64 f (p + Z.of_nat k) = load64 g (p + Z.of_nat k).
Proof.
  intros E Hk. replace n with (k + (8 + (n - k - 8)))%nat in E by lia. rewrite !read_bytes_app in E.
  apply app_inj_1 in E as [_ E]; [|by rewrite !length_read_bytes]. apply app_inj_1 in E as [E _]; [|by rewrite !length_read_bytes].
  unfold load64. by rewrite E.
Qed.
