(* ===== verification/SmDefs.v ===== *)
(** * Constants of the security monitor

    The error codes, the SBI function identifiers and the shared structures of
    [sdk/include/shared/sm_err.h] and [sm_call.h], and the configuration of the
    generic platform ([sm/src/platform/generic/platform.h]). *)

From S2P Require Import Prelude.
From Stdlib Require Import ZArith.
Local Open Scope Z_scope.

(** ** sm_err.h *)
Definition SBI_ERR_SM_ENCLAVE_SUCCESS : Z := 0.
Definition SBI_ERR_SM_ENCLAVE_UNKNOWN_ERROR : Z := 100000.
Definition SBI_ERR_SM_ENCLAVE_INTERRUPTED : Z := 100002.
Definition SBI_ERR_SM_ENCLAVE_PMP_FAILURE : Z := 100003.
Definition SBI_ERR_SM_ENCLAVE_NOT_DESTROYABLE : Z := 100005.
Definition SBI_ERR_SM_ENCLAVE_REGION_OVERLAPS : Z := 100006.
Definition SBI_ERR_SM_ENCLAVE_NOT_ACCESSIBLE : Z := 100007.
Definition SBI_ERR_SM_ENCLAVE_ILLEGAL_ARGUMENT : Z := 100008.
Definition SBI_ERR_SM_ENCLAVE_NOT_RUNNING : Z := 100009.
Definition SBI_ERR_SM_ENCLAVE_NOT_RESUMABLE : Z := 100010.
Definition SBI_ERR_SM_ENCLAVE_EDGE_CALL_HOST : Z := 100011.
Definition SBI_ERR_SM_ENCLAVE_NOT_INITIALIZED : Z := 100012.
Definition SBI_ERR_SM_ENCLAVE_NO_FREE_RESOURCE : Z := 100013.
Definition SBI_ERR_SM_ENCLAVE_SBI_PROHIBITED : Z := 100014.
Definition SBI_ERR_SM_ENCLAVE_ILLEGAL_PTE : Z := 100015.
Definition SBI_ERR_SM_ENCLAVE_NOT_FRESH : Z := 100016.
Definition SBI_ERR_SM_DEPRECATED : Z := 100099.
Definition SBI_ERR_SM_NOT_IMPLEMENTED : Z := 100100.
Definition SBI_ERR_SM_PMP_SUCCESS : Z := 0.
Definition SBI_ERR_SM_PMP_REGION_SIZE_INVALID : Z := 100020.
Definition SBI_ERR_SM_PMP_REGION_NOT_PAGE_GRANULARITY : Z := 100021.
Definition SBI_ERR_SM_PMP_REGION_MAX_REACHED : Z := 100023.
Definition SBI_ERR_SM_PMP_REGION_INVALID : Z := 100024.
Definition SBI_ERR_SM_PMP_REGION_OVERLAP : Z := 100025.
Definition SBI_ERR_SM_PMP_REGION_IMPOSSIBLE_TOR : Z := 100026.

(** ** sm_call.h *)
Definition FID_RANGE_DEPRECATED : Z := 1999.
Definition SBI_SM_CREATE_ENCLAVE : Z := 2001.
Definition SBI_SM_DESTROY_ENCLAVE : Z := 2002.
Definition SBI_SM_RUN_ENCLAVE : Z := 2003.
Definition SBI_SM_RESUME_ENCLAVE : Z := 2005.
Definition FID_RANGE_HOST : Z := 2999.
Definition SBI_SM_RANDOM : Z := 3001.
Definition SBI_SM_ATTEST_ENCLAVE : Z := 3002.
Definition SBI_SM_GET_SEALING_KEY : Z := 3003.
Definition SBI_SM_STOP_ENCLAVE : Z := 3004.
Definition SBI_SM_EXIT_ENCLAVE : Z := 3006.
Definition FID_RANGE_ENCLAVE : Z := 3999.
Definition SBI_SM_CALL_PLUGIN : Z := 4000.
Definition STOP_TIMER_INTERRUPT : Z := 0.
Definition STOP_EDGE_CALL_HOST : Z := 1.
Definition STOP_EXIT_ENCLAVE : Z := 2.

(** ** The structures of sm_call.h *)
Record runtime_params_t : Type := mkParams {
  dram_base : Z;
  dram_size : Z;
  runtime_base : Z;
  user_base : Z;
  free_base : Z;
  untrusted_base : Z;
  untrusted_size : Z;
  free_requested : Z
}.

Record keystone_sbi_pregion_t : Type := mkPregion {
  paddr : Z;
  pr_size : Z
}.

Record keystone_sbi_create_t : Type := mkCreate {
  epm_region : keystone_sbi_pregion_t;
  utm_region : keystone_sbi_pregion_t;
  runtime_paddr : Z;
  user_paddr : Z;
  free_paddr : Z;
  ca_free_requested : Z
}.

(** ** platform/generic/platform.h and page.h *)
Definition ENCL_MAX : Z := 16.
Definition ENCLAVE_REGIONS_MAX : Z := 8.
Definition SMM_BASE : Z := 0x80000000.
Definition SMM_SIZE : Z := 0x200000.
Definition PMP_N_REG : Z := 8.
Definition PMP_MAX_N_REGION : Z := 16.
Definition MAX_HARTS : Z := 16.
Definition RISCV_PGSIZE : Z := 4096.
Definition RISCV_PGSHIFT : Z := 12.
