(* ===== verification/Pmp.v ===== *)
(** * PMP regions ([sm/src/pmp.h], [sm/src/pmp.c], [sm/src/ipi.c])

    The security monitor keeps a table of physical memory regions and a bitmap
    of the PMP entries they occupy, and programs the PMP registers of each hart
    from that table.  This file has the data, the operations and the invariant
    [pmp_wf] of the region table; [PmpHw] relates the programmed registers to
    the access checks the hardware performs. *)

From S2P Require Import Prelude SmDefs.
From Stdlib Require Import ZArith Lia.
From stdpp Require Import base tactics list list_numbers numbers.
Local Open Scope Z_scope.

(** ** Data *)

Inductive pmp_priority : Type := PMP_PRI_ANY | PMP_PRI_TOP | PMP_PRI_BOTTOM.
#[export] Instance pmp_priority_eq_dec : EqDecision pmp_priority.
Proof. solve_decision. Defined.

(** The permission and address-mode fields of a PMP configuration byte. *)
Definition PMP_R : Z := 0x01.
Definition PMP_W : Z := 0x02.
Definition PMP_X : Z := 0x04.
Definition PMP_A_TOR : Z := 0x08.
Definition PMP_A_NAPOT : Z := 0x18.
Definition PMP_ALL_PERM : Z := Z.lor (Z.lor PMP_W PMP_X) PMP_R.
Definition PMP_NO_PERM : Z := 0.
Definition PMP_PER_GROUP : Z := 8.

(** [struct pmp_region]. *)
Record pmp_region : Type := mkRegion {
  r_size : Z;
  r_addrmode : Z;
  r_addr : Z;
  r_allow_overlap : bool;
  r_reg_idx : Z
}.

(** The PMP registers of one hart: on a 64-bit machine [pmpcfg0] and [pmpcfg2]
    hold eight configuration bytes each. *)
Record pmp_csrs : Type := mkCsrs {
  pmpcfg0 : Z;
  pmpcfg2 : Z;
  pmpaddr : list Z
}.

(** The globals of [pmp.c] and the PMP registers of every hart. *)
Record pmp_sys : Type := mkSys {
  regions : list pmp_region;
  reg_bitmap : Z;
  region_def_bitmap : Z;
  pmp_lock : bool;
  hart_pmp : list pmp_csrs
}.

Definition set_regions (f : list pmp_region -> list pmp_region) (s : pmp_sys) : pmp_sys :=
  mkSys (f (regions s)) (reg_bitmap s) (region_def_bitmap s) (pmp_lock s) (hart_pmp s).
Definition set_reg_bitmap (b : Z) (s : pmp_sys) : pmp_sys :=
  mkSys (regions s) b (region_def_bitmap s) (pmp_lock s) (hart_pmp s).
Definition set_region_def_bitmap (b : Z) (s : pmp_sys) : pmp_sys :=
  mkSys (regions s) (reg_bitmap s) b (pmp_lock s) (hart_pmp s).
Definition set_pmp_lock (b : bool) (s : pmp_sys) : pmp_sys :=
  mkSys (regions s) (reg_bitmap s) (region_def_bitmap s) b (hart_pmp s).
Definition set_hart_pmp (f : list pmp_csrs -> list pmp_csrs) (s : pmp_sys) : pmp_sys :=
  mkSys (regions s) (reg_bitmap s) (region_def_bitmap s) (pmp_lock s) (f (hart_pmp s)).

(** What OpenSBI contributes: the harts that
    [sbi_hsm_hart_interruptible_mask] reports, on each of which
    [sbi_tlb_request] runs the callback before it returns. *)
Class OpenSBI : Type := { interruptible_harts : list Z }.

(** ** Bitmaps *)

Definition bit_in_range (n : Z) : bool := (0 <=? n) && (n <? 32).

Definition TEST_BIT (bitmap n : Z) : option bool :=
  if bit_in_range n then Some (truthy (Z.land bitmap (Z.shiftl 1 n))) else None.
Definition SET_BIT (bitmap n : Z) : option Z :=
  if bit_in_range n then Some (Z.lor bitmap (Z.shiftl 1 n)) else None.
Definition UNSET_BIT (bitmap n : Z) : option Z :=
  if bit_in_range n then Some (Z.ldiff bitmap (Z.shiftl 1 n)) else None.

(** ** Locks

    Between two atomic sections no other hart holds the lock, so a lock that is
    already held here was never released: [spin_lock] then spins for ever. *)
Definition spin_lock : M pmp_sys unit :=
  let! s := get in
  if pmp_lock s then hang else modify (set_pmp_lock true).
Definition spin_unlock : M pmp_sys unit := modify (set_pmp_lock false).

(** ** Region getters and setters *)

Definition region_register_idx (r : pmp_region) : Z := r_reg_idx r.
Definition region_allows_overlap (r : pmp_region) : bool := r_allow_overlap r.
Definition region_get_addr (r : pmp_region) : Z := r_addr r.
Definition region_get_size (r : pmp_region) : Z := r_size r.
Definition region_is_napot (r : pmp_region) : bool := r_addrmode r =? PMP_A_NAPOT.
Definition region_is_tor (r : pmp_region) : bool := r_addrmode r =? PMP_A_TOR.
Definition region_needs_two_entries (r : pmp_region) : bool := region_is_tor r && (0 <? r_reg_idx r).
Definition region_is_napot_all (r : pmp_region) : bool := (r_addr r =? 0) && (r_size r =? minus1_ul).

Definition region_pmpaddr_val (r : pmp_region) : Z :=
  if region_is_napot_all r then minus1_ul
  else if region_is_napot r then Z.shiftr (Z.lor (r_addr r) (u64 (r_size r / 2 - 1))) 2
  else if region_is_tor r then Z.shiftr (u64 (r_addr r + r_size r)) 2
  else 0.

Definition region_pmpcfg_val (r : pmp_region) (reg_idx perm_bits : Z) : Z :=
  u64 (Z.shiftl (Z.lor (r_addrmode r) perm_bits) (8 * (reg_idx mod PMP_PER_GROUP))).

Definition empty_region : pmp_region := mkRegion 0 0 0 false 0.

(** [regions[i]]: an access out of bounds is undefined. *)
Definition region_at (i : Z) : M pmp_sys pmp_region :=
  let! s := get in or_ub (aget (regions s) i).

Definition region_clear_all (i : Z) : M pmp_sys unit :=
  let! _ := region_at i in modify (set_regions (fun l => aset l i empty_region)).

Definition region_init (i addr size addrmode : Z) (allow_overlap : bool) (reg_idx : Z) : M pmp_sys unit :=
  let! _ := region_at i in
  modify (set_regions (fun l => aset l i
    (mkRegion size addrmode addr allow_overlap
       (if (addrmode =? PMP_A_TOR) && (0 <? reg_idx) then reg_idx + 1 else reg_idx)))).

Definition is_pmp_region_valid (region_idx : Z) : M pmp_sys bool :=
  let! s := get in or_ub (TEST_BIT (region_def_bitmap s) region_idx).

(** ** Allocation of indices *)

(** The loop of [search_rightmost_unset]; [None] when the fuel runs out. *)
Fixpoint search_loop (fuel : nat) (bitmap max mask i : Z) : option Z :=
  match fuel with
  | O => None
  | S fuel' =>
      if mask <? Z.shiftl 1 max then
        if Z.land (not32 bitmap) mask =? mask then Some i
        else search_loop fuel' bitmap max (u32 (Z.shiftl mask 1)) (i + 1)
      else Some (-1)
  end.

Definition search_rightmost_unset (bitmap max mask : Z) : M pmp_sys Z :=
  sm_assert (max <? 32) ;;;
  sm_assert (Z.land (u32 (mask + 1)) mask =? 0) ;;;
  match search_loop 33 bitmap max mask 0 with
  | Some i => ret i
  | None => hang
  end.

Definition get_free_region_idx : M pmp_sys Z :=
  let! s := get in search_rightmost_unset (region_def_bitmap s) PMP_MAX_N_REGION 0x1.
Definition get_free_reg_idx : M pmp_sys Z :=
  let! s := get in search_rightmost_unset (reg_bitmap s) PMP_N_REG 0x1.
Definition get_conseq_free_reg_idx : M pmp_sys Z :=
  let! s := get in search_rightmost_unset (reg_bitmap s) PMP_N_REG 0x3.

(** ** Overlap detection *)

(** One iteration of the loop of [detect_region_overlap]. *)
Definition overlap_step (addr input_end : Z) (region_overlap : bool) (i : Z) : M pmp_sys bool :=
  let! valid := is_pmp_region_valid i in
  if negb valid then ret region_overlap else
  let! r := region_at i in
  if region_allows_overlap r then ret region_overlap else
  let epm_base := region_get_addr r in
  let epm_size := region_get_size r in
  ret (region_overlap || ((epm_base <? input_end) && (addr <? u64 (epm_base + epm_size)))).

(** [CHECKED_ADD] reports an overflow exactly when the sum does not fit. *)
Definition detect_region_overlap (addr size : Z) : M pmp_sys bool :=
  if 2 ^ 64 <=? addr + size then ret true else
  fold_m (indices PMP_MAX_N_REGION) false (overlap_step addr (addr + size)).

Definition pmp_detect_region_overlap_atomic (addr size : Z) : M pmp_sys bool :=
  spin_lock ;;;
  let! region_overlap := detect_region_overlap addr size in
  spin_unlock ;;;
  ret region_overlap.

(** ** Programming the registers *)

(** A write to [pmpaddr<n>]: the register holds bits 55 to 2 of a physical
    address, so only the low 54 bits of the value are kept. *)
Definition csr_write_pmpaddr (n v : Z) (c : pmp_csrs) : pmp_csrs :=
  mkCsrs (pmpcfg0 c) (pmpcfg2 c) (aset (pmpaddr c) n (Z.land v (Z.ones 54))).
Definition csr_read_pmpcfg (n : Z) (c : pmp_csrs) : Z :=
  if n <? PMP_PER_GROUP then pmpcfg0 c else pmpcfg2 c.
Definition csr_write_pmpcfg (n v : Z) (c : pmp_csrs) : pmp_csrs :=
  if n <? PMP_PER_GROUP then mkCsrs v (pmpcfg2 c) (pmpaddr c) else mkCsrs (pmpcfg0 c) v (pmpaddr c).

(** [~((uintptr_t)0xff << (uintptr_t)8*(n%PMP_PER_GROUP))]. *)
Definition cfg_keep_mask (n : Z) : Z := not64 (u64 (Z.shiftl 0xff (8 * (n mod PMP_PER_GROUP)))).

(** [PMP_SET(n, g, addr, pmpc)]: the macro updates its argument [pmpc], which
    is returned beside the registers. *)
Definition PMP_SET (n addr pmpc : Z) (c : pmp_csrs) : Z * pmp_csrs :=
  let oldcfg := csr_read_pmpcfg n c in
  let pmpc := Z.lor pmpc (Z.land oldcfg (cfg_keep_mask n)) in
  (pmpc, csr_write_pmpcfg n pmpc (csr_write_pmpaddr n addr c)).

Definition PMP_UNSET (n : Z) (c : pmp_csrs) : pmp_csrs :=
  let pmpc := csr_read_pmpcfg n c in
  let pmpc := Z.land pmpc (cfg_keep_mask n) in
  csr_write_pmpcfg n pmpc (csr_write_pmpaddr n 0 c).

(** [LIST_OF_PMP_REGS] has a case for each of the sixteen registers. *)
Definition pmp_reg_exists (n : Z) : bool := (0 <=? n) && (n <? 16).

(** The registers of hart [h]. *)
Definition update_hart (h : Z) (f : pmp_csrs -> pmp_csrs) : M pmp_sys unit :=
  let! s := get in
  let! c := or_ub (aget (hart_pmp s) h) in
  modify (set_hart_pmp (fun l => aset l h (f c))).

(** One [case] of the loop of [pmp_init]; [pmpcfg] is carried from one iteration
    to the next. *)
Definition pmp_init_step (pmpcfg_c : Z * pmp_csrs) (i : Z) : Z * pmp_csrs :=
  if pmp_reg_exists i then PMP_SET i 0 pmpcfg_c.1 pmpcfg_c.2 else pmpcfg_c.

Definition pmp_init_csrs (c : pmp_csrs) : pmp_csrs :=
  (fold_left pmp_init_step (indices PMP_N_REG) (0, c)).2.

Definition pmp_init (h : Z) : M pmp_sys unit := update_hart h pmp_init_csrs.

Definition pmp_set_keystone (h region_idx perm : Z) : M pmp_sys Z :=
  let! valid := is_pmp_region_valid region_idx in
  if negb valid then ret SBI_ERR_SM_PMP_REGION_INVALID else
  let perm_bits := Z.land perm PMP_ALL_PERM in
  let! r := region_at region_idx in
  let reg_idx := region_register_idx r in
  let pmpcfg := region_pmpcfg_val r reg_idx perm_bits in
  let pmpaddr := region_pmpaddr_val r in
  let n := reg_idx in
  sm_assert (pmp_reg_exists n) ;;;
  update_hart h (fun c => (PMP_SET n pmpaddr pmpcfg c).2) ;;;
  if region_needs_two_entries r then
    let n := n - 1 in
    let pmpcfg := 0 in
    let pmpaddr := Z.shiftr (region_get_addr r) 2 in
    sm_assert (pmp_reg_exists n) ;;;
    update_hart h (fun c => (PMP_SET n pmpaddr pmpcfg c).2) ;;;
    ret SBI_ERR_SM_PMP_SUCCESS
  else ret SBI_ERR_SM_PMP_SUCCESS.

Definition pmp_unset (h region_idx : Z) : M pmp_sys Z :=
  let! valid := is_pmp_region_valid region_idx in
  if negb valid then ret SBI_ERR_SM_PMP_REGION_INVALID else
  let! r := region_at region_idx in
  let n := region_register_idx r in
  sm_assert (pmp_reg_exists n) ;;;
  update_hart h (PMP_UNSET n) ;;;
  if region_needs_two_entries r then
    let n := n - 1 in
    sm_assert (pmp_reg_exists n) ;;;
    update_hart h (PMP_UNSET n) ;;;
    ret SBI_ERR_SM_PMP_SUCCESS
  else ret SBI_ERR_SM_PMP_SUCCESS.

(** ** Inter-processor requests ([ipi.c]) *)

Definition SBI_PMP_IPI_TYPE_SET : Z := 0.
Definition SBI_PMP_IPI_TYPE_UNSET : Z := 1.

(** [struct sbi_pmp_ipi_info], the view of the request the callback takes. *)
Record sbi_pmp_ipi_info : Type := mkIpi { ipi_type : Z; ipi_rid : Z; ipi_perm : Z }.

Definition sbi_pmp_ipi_local_update (info : sbi_pmp_ipi_info) (h : Z) : M pmp_sys unit :=
  if ipi_type info =? SBI_PMP_IPI_TYPE_SET then
    let! _ := pmp_set_keystone h (ipi_rid info) (u8 (ipi_perm info)) in ret tt
  else
    let! _ := pmp_unset h (ipi_rid info) in ret tt.

Definition send_and_sync_pmp_ipi `{OpenSBI} (region_idx type perm : Z) : M pmp_sys unit :=
  let mask := interruptible_harts in
  let tlb_info := mkIpi type region_idx perm in
  for_each mask (sbi_pmp_ipi_local_update tlb_info).

Definition pmp_unset_global `{OpenSBI} (region_idx : Z) : M pmp_sys Z :=
  let! valid := is_pmp_region_valid region_idx in
  if negb valid then ret SBI_ERR_SM_PMP_REGION_INVALID else
  send_and_sync_pmp_ipi region_idx SBI_PMP_IPI_TYPE_UNSET PMP_NO_PERM ;;;
  ret SBI_ERR_SM_PMP_SUCCESS.

Definition pmp_set_global `{OpenSBI} (region_idx perm : Z) : M pmp_sys Z :=
  let! valid := is_pmp_region_valid region_idx in
  if negb valid then ret SBI_ERR_SM_PMP_REGION_INVALID else
  send_and_sync_pmp_ipi region_idx SBI_PMP_IPI_TYPE_SET perm ;;;
  ret SBI_ERR_SM_PMP_SUCCESS.

(** ** Creating and freeing regions *)

Definition set_bits_m (n_region : Z) (n_regs : list Z) : M pmp_sys unit :=
  let! s := get in
  let! b := or_ub (SET_BIT (region_def_bitmap s) n_region) in
  modify (set_region_def_bitmap b) ;;;
  for_each n_regs (fun n =>
    let! s := get in
    let! b := or_ub (SET_BIT (reg_bitmap s) n) in
    modify (set_reg_bitmap b)).

(** [TEST_BIT(reg_bitmap, n)]. *)
Definition test_reg (n : Z) : M pmp_sys bool :=
  let! s := get in or_ub (TEST_BIT (reg_bitmap s) n).

(** The two results of [tor_region_init] and [napot_region_init]: the error code
    and, when the function reached [*rid = region_idx], the value stored there. *)
Definition init_result : Type := (Z * option Z)%type.

(** The [switch(priority)] of [tor_region_init]: the chosen register, or the
    error that is returned. *)
Definition tor_select_reg (start : Z) (priority : pmp_priority) : M pmp_sys (Z + Z) :=
  match priority with
  | PMP_PRI_ANY =>
      let! reg_idx := get_conseq_free_reg_idx in
      if reg_idx <? 0 then ret (inr SBI_ERR_SM_PMP_REGION_MAX_REACHED) else
      let! t0 := test_reg reg_idx in
      if t0 then ret (inr SBI_ERR_SM_PMP_REGION_MAX_REACHED) else
      let! t1 := test_reg (reg_idx + 1) in
      if t1 || (PMP_N_REG <=? reg_idx + 1) then ret (inr SBI_ERR_SM_PMP_REGION_MAX_REACHED) else
      ret (inl reg_idx)
  | PMP_PRI_TOP =>
      sm_assert (start =? 0) ;;;
      let! t0 := test_reg 0 in
      if t0 then ret (inr SBI_ERR_SM_PMP_REGION_MAX_REACHED) else ret (inl 0)
  | PMP_PRI_BOTTOM => hang
  end.

Definition tor_region_init (start size : Z) (priority : pmp_priority) (allow_overlap : bool) :
    M pmp_sys init_result :=
  sm_assert (truthy size) ;;;
  sm_assert (Z.land size (RISCV_PGSIZE - 1) =? 0) ;;;
  sm_assert (Z.land start (RISCV_PGSIZE - 1) =? 0) ;;;
  sm_assert (negb (bool_decide (priority = PMP_PRI_BOTTOM))) ;;;
  let! region_idx := get_free_region_idx in
  if (region_idx <? 0) || (PMP_MAX_N_REGION <? region_idx)
  then ret (SBI_ERR_SM_PMP_REGION_MAX_REACHED, None) else
  let! reg := tor_select_reg start priority in
  match reg with
  | inr err => ret (err, Some region_idx)
  | inl reg_idx =>
      region_init region_idx start size PMP_A_TOR allow_overlap reg_idx ;;;
      set_bits_m region_idx (if 0 <? reg_idx then [reg_idx; reg_idx + 1] else [reg_idx]) ;;;
      ret (SBI_ERR_SM_PMP_SUCCESS, Some region_idx)
  end.

(** The [switch(priority)] of [napot_region_init]. *)
Definition napot_select_reg (priority : pmp_priority) : M pmp_sys (Z + Z) :=
  match priority with
  | PMP_PRI_ANY =>
      let! reg_idx := get_free_reg_idx in
      if reg_idx <? 0 then ret (inr SBI_ERR_SM_PMP_REGION_MAX_REACHED) else
      let! t0 := test_reg reg_idx in
      if t0 || (PMP_N_REG <=? reg_idx) then ret (inr SBI_ERR_SM_PMP_REGION_MAX_REACHED) else
      ret (inl reg_idx)
  | PMP_PRI_TOP =>
      let! t0 := test_reg 0 in
      if t0 then ret (inr SBI_ERR_SM_PMP_REGION_MAX_REACHED) else ret (inl 0)
  | PMP_PRI_BOTTOM => ret (inl (PMP_N_REG - 1))
  end.

Definition napot_region_init (start size : Z) (priority : pmp_priority) (allow_overlap : bool) :
    M pmp_sys init_result :=
  sm_assert (truthy size) ;;;
  (if negb ((size =? minus1_ul) && (start =? 0)) then
     sm_assert (Z.land size (u64 (size - 1)) =? 0) ;;;
     sm_assert (Z.land start (u64 (size - 1)) =? 0) ;;;
     sm_assert (Z.land size (RISCV_PGSIZE - 1) =? 0) ;;;
     sm_assert (Z.land start (RISCV_PGSIZE - 1) =? 0)
   else ret tt) ;;;
  let! region_idx := get_free_region_idx in
  if (region_idx <? 0) || (PMP_MAX_N_REGION <? region_idx)
  then ret (SBI_ERR_SM_PMP_REGION_MAX_REACHED, None) else
  let! reg := napot_select_reg priority in
  match reg with
  | inr err => ret (err, Some region_idx)
  | inl reg_idx =>
      region_init region_idx start size PMP_A_NAPOT allow_overlap reg_idx ;;;
      set_bits_m region_idx [reg_idx] ;;;
      ret (SBI_ERR_SM_PMP_SUCCESS, Some region_idx)
  end.

(** The NAPOT test of [pmp_region_init]. *)
Definition napot_shape (start size : Z) : bool :=
  ((size =? minus1_ul) && (start =? 0)) ||
  ((Z.land size (u64 (size - 1)) =? 0) && (Z.land start (u64 (size - 1)) =? 0)).

Definition pmp_region_init (start size : Z) (priority : pmp_priority) (allow_overlap : bool) :
    M pmp_sys init_result :=
  if size =? 0 then ret (SBI_ERR_SM_PMP_REGION_SIZE_INVALID, None) else
  let! overlap := (if negb allow_overlap then detect_region_overlap start size else ret false) in
  if overlap then ret (SBI_ERR_SM_PMP_REGION_OVERLAP, None) else
  if negb (size =? minus1_ul) && truthy (Z.land size (RISCV_PGSIZE - 1))
  then ret (SBI_ERR_SM_PMP_REGION_NOT_PAGE_GRANULARITY, None) else
  if truthy (Z.land start (RISCV_PGSIZE - 1))
  then ret (SBI_ERR_SM_PMP_REGION_NOT_PAGE_GRANULARITY, None) else
  if napot_shape start size then napot_region_init start size priority allow_overlap
  else
    if negb (bool_decide (priority = PMP_PRI_ANY)) &&
       (negb (bool_decide (priority = PMP_PRI_TOP)) || negb (start =? 0))
    then ret (SBI_ERR_SM_PMP_REGION_IMPOSSIBLE_TOR, None)
    else tor_region_init start size priority allow_overlap.

Definition pmp_region_init_atomic (start size : Z) (priority : pmp_priority) (allow_overlap : bool) :
    M pmp_sys init_result :=
  spin_lock ;;;
  let! r := pmp_region_init start size priority allow_overlap in
  spin_unlock ;;;
  ret r.

Definition pmp_region_free_atomic (region_idx : Z) : M pmp_sys Z :=
  spin_lock ;;;
  let! valid := is_pmp_region_valid region_idx in
  if negb valid then spin_unlock ;;; ret SBI_ERR_SM_PMP_REGION_INVALID else
  let! r := region_at region_idx in
  let reg_idx := region_register_idx r in
  let! s := get in
  let! b := or_ub (UNSET_BIT (region_def_bitmap s) region_idx) in
  modify (set_region_def_bitmap b) ;;;
  let! b := or_ub (UNSET_BIT (reg_bitmap s) reg_idx) in
  modify (set_reg_bitmap b) ;;;
  (if region_needs_two_entries r then
     let! b := or_ub (UNSET_BIT b (reg_idx - 1)) in modify (set_reg_bitmap b)
   else ret tt) ;;;
  region_clear_all region_idx ;;;
  spin_unlock ;;;
  ret SBI_ERR_SM_PMP_SUCCESS.

Definition pmp_region_get_addr (i : Z) : M pmp_sys Z :=
  let! valid := is_pmp_region_valid i in
  if valid then let! r := region_at i in ret (region_get_addr r) else ret 0.

Definition pmp_region_get_size (i : Z) : M pmp_sys Z :=
  let! valid := is_pmp_region_valid i in
  if valid then let! r := region_at i in ret (region_get_size r) else ret 0.

(** The state before the security monitor starts, with [n] harts. *)
Definition pmp_reset (n : nat) : pmp_sys :=
  mkSys (replicate (Z.to_nat PMP_MAX_N_REGION) empty_region) 0 0 false
    (replicate n (mkCsrs 0 0 (replicate 16 0))).

(** ** Bitmap lemmas *)

Lemma bit_in_range_spec n : 0 <= n < 32 -> bit_in_range n = true.
Proof. unfold bit_in_range. lia. Qed.

Lemma TEST_BIT_spec b n : 0 <= n < 32 -> TEST_BIT b n = Some (Z.testbit b n).
Proof.
  intros Hn. unfold TEST_BIT, truthy. rewrite bit_in_range_spec by done.
  rewrite land_bit_zero by lia. by rewrite negb_involutive.
Qed.

Lemma SET_BIT_spec b n : 0 <= n < 32 -> SET_BIT b n = Some (Z.lor b (Z.shiftl 1 n)).
Proof. intros Hn. unfold SET_BIT. by rewrite bit_in_range_spec. Qed.

Lemma UNSET_BIT_spec b n : 0 <= n < 32 -> UNSET_BIT b n = Some (Z.ldiff b (Z.shiftl 1 n)).
Proof. intros Hn. unfold UNSET_BIT. by rewrite bit_in_range_spec. Qed.

(** Setting and clearing a list of bits. *)
Definition set_bits (b : Z) (l : list Z) : Z := fold_left (fun b n => Z.lor b (Z.shiftl 1 n)) l b.
Definition clear_bits (b : Z) (l : list Z) : Z := fold_left (fun b n => Z.ldiff b (Z.shiftl 1 n)) l b.

Lemma testbit_set_bits b l n :
  Forall (fun i => 0 <= i) l -> Z.testbit (set_bits b l) n = Z.testbit b n || bool_decide (n ∈ l).
Proof.
  unfold set_bits. intros Hl. revert b. induction Hl as [|i l Hi Hl IH]; intros b; simpl.
  - by rewrite orb_false_r.
  - rewrite IH, Z.lor_spec, testbit_shiftl_1, <- orb_assoc by done. f_equal.
    rewrite <- bool_decide_or. apply bool_decide_ext. rewrite elem_of_cons. split; intros [?|?]; auto.
Qed.

Lemma testbit_clear_bits b l n :
  Forall (fun i => 0 <= i) l -> Z.testbit (clear_bits b l) n = Z.testbit b n && negb (bool_decide (n ∈ l)).
Proof.
  unfold clear_bits. intros Hl. revert b. induction Hl as [|i l Hi Hl IH]; intros b; simpl.
  - by rewrite andb_true_r.
  - rewrite IH, Z.ldiff_spec, testbit_shiftl_1, <- andb_assoc by done. f_equal.
    rewrite <- negb_orb, <- bool_decide_or. f_equal.
    apply bool_decide_ext. rewrite elem_of_cons. split; intros [?|?]; auto.
Qed.

(** ** The index search *)

(** The [w] bits from position [i] are unset. *)
Definition unset_run (bitmap w i : Z) : Prop := forall j, i <= j < i + w -> Z.testbit bitmap j = false.

Lemma search_mask_test bitmap w i :
  is_u32 bitmap -> 0 <= i -> 0 <= w -> i + w <= 32 ->
  (Z.land (not32 bitmap) (Z.shiftl (Z.ones w) i) =? Z.shiftl (Z.ones w) i) = true <-> unset_run bitmap w i.
Proof.
  intros Hb Hi Hw Hiw. rewrite Z.eqb_eq. unfold unset_run. split.
  - intros Heq j Hj. assert (Z.testbit (Z.shiftl (Z.ones w) i) j = true) as Hm
      by (rewrite Z.shiftl_spec, Z.ones_spec_low by lia; done).
    rewrite <- Heq, Z.land_spec in Hm. apply andb_true_iff in Hm as [Hm _].
    unfold not32 in Hm. rewrite testbit_not in Hm by (unfold is_u32 in *; lia).
    by apply negb_true_iff in Hm.
  - intros Hrun. apply Z.bits_inj'. intros j Hj. rewrite Z.land_spec, Z.shiftl_spec by lia.
    destruct (decide (i <= j < i + w)) as [Hin|Hout].
    + rewrite Z.ones_spec_low by lia. unfold not32.
      rewrite testbit_not by (unfold is_u32 in *; lia). by rewrite Hrun.
    + destruct (decide (j < i)); [rewrite (Z.testbit_neg_r _ (j - i)) by lia|rewrite Z.ones_spec_high by lia];
        by rewrite andb_false_r.
Qed.

(** What [search_rightmost_unset] promises: the least position of a run of [w]
    unset bits below [max], or [-1] when there is none. *)
Definition search_result (bitmap max w r : Z) : Prop :=
  (r = -1 /\ forall i, 0 <= i -> i + w <= max -> ~ unset_run bitmap w i) \/
  (0 <= r /\ r + w <= max /\ unset_run bitmap w r /\ forall i, 0 <= i < r -> ~ unset_run bitmap w i).

Lemma search_mask_bound w i max :
  1 <= w -> 0 <= i -> 0 <= max -> (Z.shiftl (Z.ones w) i <? Z.shiftl 1 max) = (i + w <=? max).
Proof.
  intros Hw Hi Hmax. rewrite Z.shiftl_1_l, Z.shiftl_mul_pow2, Z.ones_equiv, <- Z.sub_1_r by lia.
  rewrite Z.mul_sub_distr_r, <- Z.pow_add_r, Z.mul_1_l by lia.
  assert (0 < 2 ^ i) by lia. apply eq_true_iff_eq. rewrite Z.ltb_lt, Z.leb_le.
  destruct (decide (i + w <= max)).
  - pose proof (Z.pow_le_mono_r 2 (w + i) max). lia.
  - pose proof (Z.pow_le_mono_r 2 max (w + i - 1)). pose proof (Z.pow_le_mono_r 2 i (w + i - 1)).
    assert (2 ^ (w + i) = 2 * 2 ^ (w + i - 1)) by (rewrite <- Z.pow_succ_r by lia; f_equal; lia). lia.
Qed.

Lemma search_loop_spec fuel bitmap max w i :
  is_u32 bitmap -> 1 <= w -> 0 <= i -> 0 <= max < 32 -> max - i < Z.of_nat fuel -> i <= max ->
  (forall j, 0 <= j < i -> ~ unset_run bitmap w j) ->
  exists r, search_loop fuel bitmap max (Z.shiftl (Z.ones w) i) i = Some r /\ search_result bitmap max w r.
Proof.
  intros Hb Hw Hi Hmax. revert i Hi. induction fuel as [|fuel IH]; intros i Hi Hf Him Hprev; [lia|].
  simpl. rewrite search_mask_bound by lia. destruct (Z.leb_spec (i + w) max) as [Hin|Hout].
  - destruct (Z.land _ _ =? _) eqn:E.
    + apply search_mask_test in E; [|done|lia..]. exists i. split; [done|]. right. eauto with lia.
    + assert (u32 (Z.shiftl (Z.shiftl (Z.ones w) i) 1) = Z.shiftl (Z.ones w) (i + 1)) as ->.
      { rewrite Z.shiftl_shiftl by lia. apply u32_id. unfold is_u32.
        rewrite Z.shiftl_mul_pow2, Z.ones_equiv by lia.
        assert (2 ^ (w + (i + 1)) <= 2 ^ 32) as Hle by (apply Z.pow_le_mono_r; lia).
        rewrite (Z.pow_add_r 2 w) in Hle by lia.
        assert (0 < 2 ^ w) by lia. assert (0 < 2 ^ (i + 1)) by lia. nia. }
      apply IH; [lia..|]. intros j Hj. destruct (decide (j = i)) as [->|]; [|apply Hprev; lia].
      rewrite <- search_mask_test by (done || lia). by rewrite E.
  - exists (-1). split; [done|]. left. split; [done|]. intros j Hj Hjw. apply Hprev. lia.
Qed.

Lemma wp_search bitmap max w s (Q : Z -> pmp_sys -> Prop) :
  is_u32 bitmap -> 1 <= w <= 2 -> 0 <= max < 32 ->
  (forall r, search_result bitmap max w r -> Q r s) ->
  wp (search_rightmost_unset bitmap max (Z.ones w)) Q s.
Proof.
  intros Hb Hw Hmax HQ. unfold search_rightmost_unset. wp_run; [lia| |].
  { assert (w = 1 \/ w = 2) as [->| ->] by lia; done. }
  destruct (search_loop_spec 33 bitmap max w 0) as (r & Hr & Hres); [done|lia..|].
  rewrite Z.shiftl_0_r in Hr. rewrite Hr. by apply HQ.
Qed.
