(* ===== verification/PmpInv.v ===== *)
(** * The invariant of the PMP region table

    [pmp_wf] says what the table of [Pmp] means: every valid region has the shape
    its address mode promises, regions that do not allow an overlap are disjoint,
    a PMP entry other than the bottom one belongs to at most one region, and no
    entry is marked as used without an owner.  [pmp_region_init] and
    [pmp_region_free_atomic] keep it, return on every input and leave the lock
    free. *)

From S2P Require Import Prelude SmDefs Pmp.
From Stdlib Require Import ZArith Lia.
From stdpp Require Import base tactics list list_numbers numbers.
Local Open Scope Z_scope.

(** ** The invariant *)

Definition valid_at (s : pmp_sys) (i : Z) (r : pmp_region) : Prop :=
  Z.testbit (region_def_bitmap s) i = true /\ aget (regions s) i = Some r.

(** The PMP entry that every bottom-priority region shares. *)
Definition bottom_reg : Z := PMP_N_REG - 1.

(** The PMP entries a region occupies. *)
Definition region_regs (r : pmp_region) : list Z :=
  if region_needs_two_entries r then [r_reg_idx r - 1; r_reg_idx r] else [r_reg_idx r].

Definition region_end (r : pmp_region) : Z := r_addr r + r_size r.

(** A naturally aligned power of two, or the whole address space. *)
Definition napot_region (r : pmp_region) : Prop :=
  r_addrmode r = PMP_A_NAPOT /\
  ((r_addr r = 0 /\ r_size r = minus1_ul) \/
   exists k, 12 <= k < 64 /\ r_size r = 2 ^ k /\ r_addr r mod 2 ^ k = 0).

Definition tor_region (r : pmp_region) : Prop :=
  r_addrmode r = PMP_A_TOR /\ r_size r mod RISCV_PGSIZE = 0 /\ r_addr r mod RISCV_PGSIZE = 0 /\
  (r_reg_idx r = 0 \/ 2 <= r_reg_idx r).

Record region_ok (r : pmp_region) : Prop := {
  ok_addr : is_u64 (r_addr r);
  ok_size : 0 < r_size r < 2 ^ 64;
  ok_end : r_allow_overlap r = false -> region_end r < 2 ^ 64;
  ok_reg : 0 <= r_reg_idx r < PMP_N_REG;
  ok_shape : napot_region r \/ tor_region r
}.

Record pmp_wf (s : pmp_sys) : Prop := {
  wf_len : length (regions s) = Z.to_nat PMP_MAX_N_REGION;
  wf_reg_bitmap : 0 <= reg_bitmap s < 2 ^ PMP_N_REG;
  wf_def_bitmap : 0 <= region_def_bitmap s < 2 ^ PMP_MAX_N_REGION;
  wf_region : forall i r, valid_at s i r -> region_ok r;
  wf_owned : forall i r n, valid_at s i r -> n ∈ region_regs r -> n <> bottom_reg ->
    Z.testbit (reg_bitmap s) n = true;
  wf_unique : forall i j ri rj n, valid_at s i ri -> valid_at s j rj ->
    n ∈ region_regs ri -> n ∈ region_regs rj -> n <> bottom_reg -> i = j;
  wf_no_leak : forall n, Z.testbit (reg_bitmap s) n = true ->
    exists i r, valid_at s i r /\ n ∈ region_regs r;
  wf_disjoint : forall i j ri rj, valid_at s i ri -> valid_at s j rj -> i <> j ->
    r_allow_overlap ri = false -> r_allow_overlap rj = false ->
    region_end ri <= r_addr rj \/ region_end rj <= r_addr ri;
  wf_cleared : forall i r, Z.testbit (region_def_bitmap s) i = false -> aget (regions s) i = Some r ->
    r = empty_region
}.

(** ** The two updates of the table *)

Definition add_region (i : Z) (r : pmp_region) (s : pmp_sys) : pmp_sys :=
  mkSys (aset (regions s) i r) (set_bits (reg_bitmap s) (region_regs r))
    (Z.lor (region_def_bitmap s) (Z.shiftl 1 i)) (pmp_lock s) (hart_pmp s).

Definition remove_region (i : Z) (r : pmp_region) (s : pmp_sys) : pmp_sys :=
  mkSys (aset (regions s) i empty_region) (clear_bits (reg_bitmap s) (region_regs r))
    (Z.ldiff (region_def_bitmap s) (Z.shiftl 1 i)) (pmp_lock s) (hart_pmp s).

(** The region that a successful call records. *)
Definition region_for (start size : Z) (allow_overlap : bool) (r : pmp_region) : Prop :=
  r_addr r = start /\ r_size r = size /\ r_allow_overlap r = allow_overlap.

(** The registers given to a new region were free, unless it asked for the
    bottom entry. *)
Definition regs_granted (s : pmp_sys) (priority : pmp_priority) (r : pmp_region) : Prop :=
  (forall n, n ∈ region_regs r -> Z.testbit (reg_bitmap s) n = false) \/
  (priority = PMP_PRI_BOTTOM /\ region_regs r = [bottom_reg]).

(** The outcome of creating a region: an error that leaves the table unchanged,
    or a new well-formed region at a free index. *)
Definition init_post (start size : Z) (priority : pmp_priority) (allow_overlap : bool) (s : pmp_sys)
    (res : init_result) (s' : pmp_sys) : Prop :=
  (res.1 <> SBI_ERR_SM_PMP_SUCCESS /\ s' = s) \/
  (res.1 = SBI_ERR_SM_PMP_SUCCESS /\
   exists i r, res.2 = Some i /\ 0 <= i < PMP_MAX_N_REGION /\
     Z.testbit (region_def_bitmap s) i = false /\
     region_for start size allow_overlap r /\ region_ok r /\ regs_granted s priority r /\
     s' = add_region i r s).

(** No valid region that forbids an overlap meets [[start, start + size)]. *)
Definition no_overlap (s : pmp_sys) (start size : Z) : Prop :=
  start + size < 2 ^ 64 /\
  forall i r, valid_at s i r -> r_allow_overlap r = false ->
    region_end r <= start \/ start + size <= r_addr r.

(** ** Consequences of the invariant *)

Section Wf.
Context (s : pmp_sys) (Hwf : pmp_wf s).

Lemma wf_valid_range i : Z.testbit (region_def_bitmap s) i = true -> 0 <= i < PMP_MAX_N_REGION.
Proof.
  intros Hb. destruct (decide (0 <= i)); [|rewrite Z.testbit_neg_r in Hb by lia; done].
  destruct (decide (i < PMP_MAX_N_REGION)); [done|].
  rewrite (testbit_high _ PMP_MAX_N_REGION) in Hb; [done|apply wf_def_bitmap, Hwf|lia].
Qed.

Lemma wf_aget i : 0 <= i < PMP_MAX_N_REGION -> exists r, aget (regions s) i = Some r.
Proof. intros Hi. apply aget_is_Some. rewrite (wf_len s Hwf). done. Qed.

Lemma wf_valid_at i : Z.testbit (region_def_bitmap s) i = true -> exists r, valid_at s i r.
Proof.
  intros Hb. destruct (wf_aget i) as [r Hr]; [by apply wf_valid_range|]. by exists r.
Qed.

Lemma wf_regs_range i r n : valid_at s i r -> n ∈ region_regs r -> 0 <= n < PMP_N_REG.
Proof.
  intros Hv Hn. destruct (wf_region s Hwf i r Hv) as [_ _ _ Hreg Hshape].
  unfold region_regs, region_needs_two_entries in Hn.
  destruct (_ && _) eqn:E; rewrite ?elem_of_cons, ?elem_of_nil in Hn; bool_cases; lia.
Qed.

Lemma wf_bitmap_u32 : is_u32 (reg_bitmap s) /\ is_u32 (region_def_bitmap s).
Proof.
  pose proof (wf_reg_bitmap s Hwf). pose proof (wf_def_bitmap s Hwf).
  unfold is_u32, PMP_N_REG, PMP_MAX_N_REGION in *. lia.
Qed.
End Wf.

Lemma valid_at_fun s i r r' : valid_at s i r -> valid_at s i r' -> r = r'.
Proof. intros [_ H1] [_ H2]. congruence. Qed.

Lemma regs_nonneg r : region_ok r -> Forall (fun n => 0 <= n) (region_regs r).
Proof.
  intros [_ _ _ Hreg _]. unfold region_regs, region_needs_two_entries.
  destruct (_ && _) eqn:E; bool_cases; repeat constructor; lia.
Qed.

(** ** Symbolic execution of the accessors *)

Section Accessors.
Context (s : pmp_sys) (Hwf : pmp_wf s).

Lemma wp_valid i (Q : bool -> pmp_sys -> Prop) :
  0 <= i < 32 -> Q (Z.testbit (region_def_bitmap s) i) s -> wp (is_pmp_region_valid i) Q s.
Proof. intros Hi HQ. unfold is_pmp_region_valid. wp_run. by rewrite TEST_BIT_spec. Qed.

Lemma wp_region_at i r (Q : pmp_region -> pmp_sys -> Prop) :
  aget (regions s) i = Some r -> Q r s -> wp (region_at i) Q s.
Proof. intros Hr HQ. unfold region_at. wp_run. by rewrite Hr. Qed.

Lemma wp_test_reg n (Q : bool -> pmp_sys -> Prop) :
  0 <= n < 32 -> Q (Z.testbit (reg_bitmap s) n) s -> wp (test_reg n) Q s.
Proof. intros Hn HQ. unfold test_reg. wp_run. by rewrite TEST_BIT_spec. Qed.

Lemma wp_free_region (Q : Z -> pmp_sys -> Prop) :
  (forall i, i = -1 \/ (0 <= i < PMP_MAX_N_REGION /\ Z.testbit (region_def_bitmap s) i = false) -> Q i s) ->
  wp get_free_region_idx Q s.
Proof.
  intros HQ. unfold get_free_region_idx. wp_run. change 1 with (Z.ones 1).
  apply wp_search; [apply wf_bitmap_u32, Hwf|lia|done|]. intros r Hr. apply HQ.
  destruct Hr as [[-> _]|(? & ? & Hrun & _)]; [by left|right]. split; [lia|apply Hrun; lia].
Qed.

Lemma wp_free_reg (Q : Z -> pmp_sys -> Prop) :
  (forall n, n = -1 \/ (0 <= n < PMP_N_REG /\ Z.testbit (reg_bitmap s) n = false) -> Q n s) ->
  wp get_free_reg_idx Q s.
Proof.
  intros HQ. unfold get_free_reg_idx. wp_run. change 1 with (Z.ones 1).
  apply wp_search; [apply wf_bitmap_u32, Hwf|lia|done|]. intros r Hr. apply HQ.
  destruct Hr as [[-> _]|(? & ? & Hrun & _)]; [by left|right]. split; [lia|apply Hrun; lia].
Qed.

Lemma wp_conseq_reg (Q : Z -> pmp_sys -> Prop) :
  (forall n, n = -1 \/ (0 <= n < PMP_N_REG - 1 /\ Z.testbit (reg_bitmap s) n = false /\
                        Z.testbit (reg_bitmap s) (n + 1) = false) -> Q n s) ->
  wp get_conseq_free_reg_idx Q s.
Proof.
  intros HQ. unfold get_conseq_free_reg_idx. wp_run. change 3 with (Z.ones 2).
  apply wp_search; [apply wf_bitmap_u32, Hwf|lia|done|]. intros r Hr. apply HQ.
  destruct Hr as [[-> _]|(? & ? & Hrun & _)]; [by left|right].
  split; [lia|split; apply Hrun; lia].
Qed.
End Accessors.

(** ** Overlap detection *)

(** The test of one iteration: on a region that ends below [2^64] it is the
    intersection of two intervals. *)
Definition overlaps (s : pmp_sys) (addr input_end i : Z) : bool :=
  Z.testbit (region_def_bitmap s) i &&
  match aget (regions s) i with
  | Some r => negb (r_allow_overlap r) && ((r_addr r <? input_end) && (addr <? region_end r))
  | None => false
  end.

Lemma wp_overlap_step s addr e acc i (Q : bool -> pmp_sys -> Prop) :
  pmp_wf s -> 0 <= i < PMP_MAX_N_REGION ->
  Q (acc || overlaps s addr e i) s -> wp (overlap_step addr e acc i) Q s.
Proof.
  intros Hwf Hi HQ. unfold overlap_step. wp_step. apply wp_valid; [unfold PMP_MAX_N_REGION in *; lia|].
  unfold overlaps in HQ. destruct (Z.testbit (region_def_bitmap s) i) eqn:Hb; simpl; cycle 1.
  { wp_step. by rewrite orb_false_r in HQ. }
  destruct (wf_aget s Hwf i Hi) as [r Hr]. rewrite Hr in HQ.
  wp_step. apply (wp_region_at s i r); [done|]. unfold region_allows_overlap.
  destruct (r_allow_overlap r) eqn:Ha; simpl in *; wp_step; [by rewrite orb_false_r in HQ|].
  unfold region_get_addr, region_get_size. pose proof (wf_region s Hwf i r (conj Hb Hr)) as Hok.
  pose proof (ok_end r Hok Ha). pose proof (ok_addr r Hok). pose proof (ok_size r Hok).
  rewrite u64_id by (unfold is_u64, region_end in *; lia). exact HQ.
Qed.

Lemma wp_overlap_loop s addr e l acc (Q : bool -> pmp_sys -> Prop) :
  pmp_wf s -> Forall (fun i => 0 <= i < PMP_MAX_N_REGION) l ->
  Q (acc || existsb (overlaps s addr e) l) s -> wp (fold_m l acc (overlap_step addr e)) Q s.
Proof.
  intros Hwf Hl. revert acc. induction Hl as [|i l Hi Hl IH]; intros acc HQ; simpl in *.
  - by rewrite orb_false_r in HQ.
  - wp_step. apply wp_overlap_step; [done..|]. apply IH. by rewrite <- orb_assoc.
Qed.

Lemma indices_forall n : Forall (fun i => 0 <= i < n) (indices n).
Proof. apply Forall_forall. intros i Hi. by apply elem_of_indices, list_elem_of_In. Qed.

(** [detect_region_overlap] answers exactly whether a region would overlap. *)
Lemma wp_detect s addr size (Q : bool -> pmp_sys -> Prop) :
  pmp_wf s ->
  (forall b, (b = false <-> no_overlap s addr size) -> Q b s) ->
  wp (detect_region_overlap addr size) Q s.
Proof.
  intros Hwf HQ. unfold detect_region_overlap. wp_step.
  { wp_step. apply HQ. bool_cases. unfold no_overlap. split; [done|lia]. }
  bool_cases. apply wp_overlap_loop; [done|apply indices_forall|]. rewrite orb_false_l. apply HQ.
  rewrite <- not_true_iff_false, existsb_exists. unfold no_overlap. split.
  - intros Hno. split; [lia|]. intros i r [Hb Hr] Ha.
    destruct (decide (region_end r <= addr)); [by left|]. destruct (decide (addr + size <= r_addr r)); [by right|].
    exfalso. apply Hno. exists i. rewrite <- list_elem_of_In, elem_of_indices.
    split; [by apply (wf_valid_range s Hwf)|]. unfold overlaps. rewrite Hb, Hr, Ha. simpl. lia.
  - intros [_ Hno] (i & _ & Ho). unfold overlaps in Ho. bool_cases.
    case_match eqn:Hr; [|done]. bool_cases.
    destruct (Hno i p) as [?|?]; [done|by destruct (r_allow_overlap p)|lia..].
Qed.

(** ** Creating a region *)

(** The page-granularity tests of the code as statements on remainders. *)
Lemma page_test x : (Z.land x (RISCV_PGSIZE - 1) =? 0) = true <-> x mod RISCV_PGSIZE = 0.
Proof. change RISCV_PGSIZE with (2 ^ 12). by rewrite Z.eqb_eq, land_pow2_sub1 by lia. Qed.

(** The mask test of a naturally aligned power of two. *)
Lemma napot_test start size :
  is_u64 start -> is_u64 size -> size <> 0 -> size mod RISCV_PGSIZE = 0 ->
  Z.land size (u64 (size - 1)) = 0 -> Z.land start (u64 (size - 1)) = 0 ->
  exists k, 12 <= k < 64 /\ size = 2 ^ k /\ start mod 2 ^ k = 0.
Proof.
  unfold is_u64. intros Hst Hsz Hne Hpg H1 H2. rewrite u64_id in H1, H2 by (unfold is_u64; lia).
  apply pow2_test in H1; [|lia]. exists (Z.log2 size).
  assert (Z.log2 size < 64) by (apply Z.log2_lt_pow2; lia).
  assert (12 <= Z.log2 size).
  { apply Z.log2_le_pow2; [lia|]. unfold RISCV_PGSIZE in Hpg. mlia. }
  split; [lia|]. split; [done|]. rewrite H1 in H2. rewrite land_pow2_sub1 in H2; [done|apply Z.log2_nonneg].
Qed.

Lemma wp_set_bits s i l (Q : unit -> pmp_sys -> Prop) :
  0 <= i < 32 -> Forall (fun n => 0 <= n < 32) l ->
  Q tt (mkSys (regions s) (set_bits (reg_bitmap s) l) (Z.lor (region_def_bitmap s) (Z.shiftl 1 i))
          (pmp_lock s) (hart_pmp s)) ->
  wp (set_bits_m i l) Q s.
Proof.
  intros Hi Hl HQ. unfold set_bits_m. wp_run. rewrite SET_BIT_spec by done. simpl. wp_run.
  set (b := Z.lor _ _) in *. revert HQ. unfold set_bits, set_region_def_bitmap.
  generalize (reg_bitmap s). induction Hl as [|n l Hn Hl IH]; intros rb HQ; simpl; wp_run; [done|].
  simpl. rewrite SET_BIT_spec by done. simpl. wp_run. unfold set_reg_bitmap. simpl. by apply IH.
Qed.

Lemma wp_region_init s i addr size mode ao reg r0 (Q : unit -> pmp_sys -> Prop) :
  aget (regions s) i = Some r0 ->
  Q tt (set_regions (fun l => aset l i (mkRegion size mode addr ao
         (if (mode =? PMP_A_TOR) && (0 <? reg) then reg + 1 else reg))) s) ->
  wp (region_init i addr size mode ao reg) Q s.
Proof. intros Hr HQ. unfold region_init. wp_step. by apply (wp_region_at s i r0). Qed.


(** Recording a region: the last two steps of both allocation routines. *)
Lemma wp_record s priority i start size mode ao reg (Q : init_result -> pmp_sys -> Prop) :
  let r := mkRegion size mode start ao (if (mode =? PMP_A_TOR) && (0 <? reg) then reg + 1 else reg) in
  pmp_wf s -> 0 <= i < PMP_MAX_N_REGION -> Z.testbit (region_def_bitmap s) i = false ->
  region_ok r -> regs_granted s priority r -> 0 <= reg < PMP_N_REG ->
  (forall res s', init_post start size priority ao s res s' -> Q res s') ->
  wp (region_init i start size mode ao reg ;;;
      set_bits_m i (if (mode =? PMP_A_TOR) && (0 <? reg) then [reg; reg + 1] else [reg]) ;;;
      ret (SBI_ERR_SM_PMP_SUCCESS, Some i)) Q s.
Proof.
  intros r Hwf Hi Hb Hok Hregs Hreg HQ. destruct (wf_aget s Hwf i Hi) as [r0 Hr0].
  unfold PMP_MAX_N_REGION, PMP_N_REG in *.
  wp_step. apply (wp_region_init s i _ _ _ _ _ r0); [done|]. fold r. wp_step.
  apply wp_set_bits; [lia|case_match; repeat constructor; lia|]. wp_step. apply HQ.
  right. split; [done|]. exists i, r. repeat (split; [done|]).
  unfold add_region, set_regions. simpl. f_equal. f_equal.
  unfold region_regs, region_needs_two_entries, region_is_tor, r. simpl.
  destruct (mode =? PMP_A_TOR), (0 <? reg) eqn:E; simpl; rewrite ?E; try done; bool_cases.
  assert ((0 <? reg + 1) = true) as -> by lia. simpl. by replace (reg + 1 - 1) with reg by lia.
Qed.

(** The register an allocation gets: free, or the bottom one on request. *)
Definition reg_choice (s : pmp_sys) (priority : pmp_priority) (two : bool) (c : Z + Z) : Prop :=
  c = inr SBI_ERR_SM_PMP_REGION_MAX_REACHED \/
  exists reg, c = inl reg /\ 0 <= reg < PMP_N_REG /\
    ((Z.testbit (reg_bitmap s) reg = false /\
      (two = true -> 0 < reg -> reg + 1 < PMP_N_REG /\ Z.testbit (reg_bitmap s) (reg + 1) = false)) \/
     (two = false /\ priority = PMP_PRI_BOTTOM /\ reg = bottom_reg)).

Lemma wp_napot_select s priority (Q : Z + Z -> pmp_sys -> Prop) :
  pmp_wf s -> (forall c, reg_choice s priority false c -> Q c s) -> wp (napot_select_reg priority) Q s.
Proof.
  intros Hwf HQ. unfold napot_select_reg, PMP_N_REG in *. destruct priority.
  - wp_step. apply wp_free_reg; [done|]. intros n Hn. wp_step; bool_cases; [wp_step; apply HQ; by left|].
    destruct Hn as [->|[Hn Hb]]; [lia|]. unfold PMP_N_REG in *. wp_step. apply wp_test_reg; [lia|].
    rewrite Hb. wp_step; wp_step; apply HQ; [by left|right]. exists n. split; [done|]. split; [done|]. left. by split.
  - wp_step. apply wp_test_reg; [lia|]. wp_step; wp_step; apply HQ; [by left|right].
    exists 0. unfold PMP_N_REG. split; [done|]. split; [lia|]. left. by split.
  - wp_step. apply HQ. right. exists (8 - 1). split; [done|]. split; [done|]. by right.
Qed.

Lemma wp_tor_select s start priority (Q : Z + Z -> pmp_sys -> Prop) :
  pmp_wf s -> priority = PMP_PRI_ANY \/ (priority = PMP_PRI_TOP /\ start = 0) ->
  (forall c, reg_choice s priority true c -> Q c s) -> wp (tor_select_reg start priority) Q s.
Proof.
  intros Hwf Hp HQ. unfold tor_select_reg, PMP_N_REG in *. destruct priority; [| |by destruct Hp as [?|[? _]]].
  - wp_step. apply wp_conseq_reg; [done|]. intros n Hn. wp_step; bool_cases; [wp_step; apply HQ; by left|].
    destruct Hn as [->|(Hn & Hb & Hb')]; [lia|]. unfold PMP_N_REG in *. wp_step. apply wp_test_reg; [lia|].
    rewrite Hb. wp_step. apply wp_test_reg; [lia|]. rewrite Hb'.
    wp_step; wp_step; apply HQ; [by left|right]. exists n.
    unfold PMP_N_REG. split; [done|]. split; [lia|]. left. split; [done|]. split; [lia|done].
  - destruct Hp as [?|[_ ->]]; [done|]. wp_step. wp_step; [done|]. wp_step. apply wp_test_reg; [lia|].
    wp_step; wp_step; apply HQ; [by left|right]. exists 0. unfold PMP_N_REG.
    split; [done|]. split; [lia|]. left. by split.
Qed.

Lemma wp_napot_region_init s start size priority ao (Q : init_result -> pmp_sys -> Prop) :
  pmp_wf s -> is_u64 start -> is_u64 size -> size <> 0 ->
  (size = minus1_ul \/ size mod RISCV_PGSIZE = 0) -> start mod RISCV_PGSIZE = 0 ->
  napot_shape start size = true -> (ao = false -> start + size < 2 ^ 64) ->
  (forall res s', init_post start size priority ao s res s' -> Q res s') ->
  wp (napot_region_init start size priority ao) Q s.
Proof.
  intros Hwf Hst Hsz Hne Hpg Hpgs Hshape Hov HQ. unfold napot_region_init. wp_step. wp_step.
  { unfold truthy. by destruct (Z.eqb_spec size 0). }
  assert ((start = 0 /\ size = minus1_ul) \/
          exists k, 12 <= k < 64 /\ size = 2 ^ k /\ start mod 2 ^ k = 0) as Hnapot.
  { unfold napot_shape in Hshape. apply orb_true_iff in Hshape as [?|?]; bool_cases; [by left|right].
    destruct Hpg as [->|Hpg]; [done|]. by apply napot_test. }
  assert (forall reg, 0 <= reg < PMP_N_REG -> region_ok (mkRegion size PMP_A_NAPOT start ao reg)) as Hok.
  { intros reg Hreg. unfold is_u64 in *. split; simpl; [done|lia|done|done|left; by split]. }
  wp_step. apply (wp_mono _ (fun _ s' => s' = s)).
  { wp_step; [|by wp_step]. bool_cases. unfold napot_shape in Hshape. rewrite E, orb_false_l in Hshape.
    bool_cases. destruct Hpg as [->|]; [done|]. wp_run; first [by apply Z.eqb_eq|by apply page_test|done]. }
  intros _ ? ->. wp_step. apply wp_free_region; [done|]. intros i Hi. wp_step.
  { wp_step. apply HQ. by left. }
  bool_cases. destruct Hi as [->|[Hi Hb]]; [lia|]. wp_step. apply wp_napot_select; [done|].
  intros c [->|(reg & -> & Hreg & Hch)]; [wp_step; apply HQ; by left|].
  apply (wp_record s priority i start size PMP_A_NAPOT ao reg); try done; [by apply Hok|].
  unfold regs_granted, region_regs. simpl. destruct Hch as [[Hbit _]|(_ & -> & ->)]; [left|by right].
  intros n. by rewrite list_elem_of_singleton; intros ->.
Qed.

Lemma wp_tor_region_init s start size priority ao (Q : init_result -> pmp_sys -> Prop) :
  pmp_wf s -> is_u64 start -> is_u64 size -> size <> 0 ->
  size mod RISCV_PGSIZE = 0 -> start mod RISCV_PGSIZE = 0 ->
  priority = PMP_PRI_ANY \/ (priority = PMP_PRI_TOP /\ start = 0) ->
  (ao = false -> start + size < 2 ^ 64) ->
  (forall res s', init_post start size priority ao s res s' -> Q res s') ->
  wp (tor_region_init start size priority ao) Q s.
Proof.
  intros Hwf Hst Hsz Hne Hpg Hpgs Hp Hov HQ. unfold tor_region_init.
  wp_step. wp_step; [unfold truthy; by destruct (Z.eqb_spec size 0)|].
  wp_step. wp_step; [by apply page_test|]. wp_step. wp_step; [by apply page_test|].
  wp_step. wp_step; [by destruct Hp as [->|[-> _]]|].
  wp_step. apply wp_free_region; [done|]. intros i Hi. wp_step.
  { wp_step. apply HQ. by left. }
  bool_cases. destruct Hi as [->|[Hi Hb]]; [lia|]. wp_step. apply wp_tor_select; [done..|].
  intros c [->|(reg & -> & Hreg & Hch)]; [wp_step; apply HQ; by left|].
  destruct Hch as [[Hbit Htwo]|[? _]]; [|done].
  apply (wp_record s priority i start size PMP_A_TOR ao reg); try done.
  - unfold is_u64, PMP_N_REG in *. split; simpl; [done|lia|done| |].
    + unfold PMP_N_REG. destruct (Z.ltb_spec 0 reg); [|lia]. destruct (Htwo eq_refl); lia.
    + right. repeat split; simpl; [done..|]. destruct (Z.ltb_spec 0 reg); lia.
  - left. unfold region_regs, region_needs_two_entries. simpl. destruct (Z.ltb_spec 0 reg).
    + assert ((0 <? reg + 1) = true) as -> by lia. destruct Htwo as [_ Hbit']; [done|done|]. simpl.
      intros n. rewrite !elem_of_cons, elem_of_nil. replace (reg + 1 - 1) with reg by lia. naive_solver.
    + assert ((0 <? reg) = false) as -> by lia. simpl. intros n. by rewrite list_elem_of_singleton; intros ->.
Qed.

(** The one request that runs into an assertion: the size that stands for the whole address space, from
    another page than the first, with any entry and overlaps allowed. *)
Definition asserts (start size : Z) (priority : pmp_priority) (ao : bool) : bool :=
  ao && (size =? minus1_ul) && negb (start =? 0) && (Z.land start (RISCV_PGSIZE - 1) =? 0) &&
  bool_decide (priority = PMP_PRI_ANY).

(** The outcome of [pmp_region_init]. *)
Lemma wp_pmp_region_init s start size priority ao (Q : init_result -> pmp_sys -> Prop) :
  pmp_wf s -> is_u64 start -> is_u64 size -> asserts start size priority ao = false ->
  (forall res s', init_post start size priority ao s res s' ->
     (ao = false -> res.1 = SBI_ERR_SM_PMP_SUCCESS -> no_overlap s start size) -> Q res s') ->
  wp (pmp_region_init start size priority ao) Q s.
Proof.
  intros Hwf Hst Hsz Hall HQ. unfold pmp_region_init.
  assert (forall e, e <> SBI_ERR_SM_PMP_SUCCESS -> Q (e, None) s) as Herr.
  { intros e He. apply HQ; [by left|]. simpl. congruence. }
  wp_step; [by wp_step; apply Herr|]. bool_cases.
  wp_step. apply (wp_mono _ (fun b s' => s' = s /\ (ao = false -> b = false -> no_overlap s start size))).
  { destruct ao; simpl; [by wp_step|]. apply wp_detect; [done|]. naive_solver. }
  intros b ? [-> Hno]. wp_step; [by wp_step; apply Herr|].
  wp_step; [by wp_step; apply Herr|]. wp_step; [by wp_step; apply Herr|].
  unfold truthy in *. bool_cases.
  assert (size = minus1_ul \/ size mod RISCV_PGSIZE = 0) as Hpg.
  { destruct (Z.eqb_spec size minus1_ul); [by left|right]. simpl in *. bool_cases. by apply page_test, Z.eqb_eq. }
  assert (start mod RISCV_PGSIZE = 0) as Hpgs by by apply page_test, Z.eqb_eq.
  assert (ao = false -> start + size < 2 ^ 64) as Hfit by (intros ?; by apply Hno).
  destruct (napot_shape start size) eqn:Hshape.
  - apply wp_napot_region_init; try done. intros res s' Hp. apply HQ; [done|naive_solver].
  - wp_step; [by wp_step; apply Herr|]. apply wp_tor_region_init; try done.
    + destruct Hpg as [->|]; [|done]. exfalso. destruct (Z.eqb_spec start 0) as [->|Hne]; [done|].
      destruct ao; [|unfold is_u64, minus1_ul in *; lia]. unfold asserts in Hall. rewrite Z.eqb_refl in Hall. simpl in Hall.
      destruct (Z.eqb_spec start 0); [done|]. destruct priority; simpl in *; bool_cases; [by rewrite E2 in Hall|done..].
    + destruct priority; [by left|right|]; simpl in *; bool_cases; naive_solver.
    + intros res s' Hp. apply HQ; [done|naive_solver].
Qed.

(** ** The table after an update *)

Lemma valid_at_add s i r j r' :
  pmp_wf s -> 0 <= i < PMP_MAX_N_REGION -> Z.testbit (region_def_bitmap s) i = false ->
  valid_at (add_region i r s) j r' <-> (j = i /\ r' = r) \/ valid_at s j r'.
Proof.
  intros Hwf Hi Hb. unfold valid_at, add_region. simpl.
  rewrite aget_aset by (rewrite (wf_len s Hwf); done).
  rewrite Z.lor_spec, testbit_shiftl_1 by lia. case_decide as E; subst.
  - rewrite bool_decide_eq_true_2, orb_true_r by done. rewrite Hb. naive_solver.
  - rewrite bool_decide_eq_false_2, orb_false_r by done. naive_solver.
Qed.

Lemma valid_at_remove s i r j r' :
  0 <= i -> valid_at (remove_region i r s) j r' <-> j <> i /\ valid_at s j r'.
Proof.
  intros Hi. unfold valid_at, remove_region. simpl.
  rewrite Z.ldiff_spec, testbit_shiftl_1 by lia. case_bool_decide as E; subst.
  - rewrite andb_false_r. naive_solver.
  - rewrite andb_true_r, aget_aset_ne by done. naive_solver.
Qed.

Lemma regs_bound r n : region_ok r -> n ∈ region_regs r -> 0 <= n < PMP_N_REG.
Proof.
  intros [_ _ _ Hreg _]. unfold region_regs, region_needs_two_entries.
  destruct (_ && _) eqn:E; rewrite ?elem_of_cons, ?elem_of_nil; bool_cases; lia.
Qed.

Lemma set_bits_bound b l n :
  0 <= n -> 0 <= b < 2 ^ n -> Forall (fun i => 0 <= i < n) l -> 0 <= set_bits b l < 2 ^ n.
Proof.
  intros Hn Hb Hl. revert b Hb. unfold set_bits. induction Hl as [|i l Hi Hl IH]; intros b Hb; [done|].
  simpl. apply IH, lor_bound; [done|]. rewrite Z.shiftl_1_l.
  split; [lia|]. apply Z.pow_lt_mono_r; lia.
Qed.

Lemma ldiff_bound x y n : 0 <= n -> 0 <= x < 2 ^ n -> 0 <= y -> 0 <= Z.ldiff x y < 2 ^ n.
Proof.
  intros Hn Hx Hy. split; [apply Z.ldiff_nonneg; lia|].
  apply bits_bound; [done|apply Z.ldiff_nonneg; lia|]. intros i Hi.
  by rewrite Z.ldiff_spec, (testbit_high x n i).
Qed.

Lemma clear_bits_bound b l n :
  0 <= n -> 0 <= b < 2 ^ n -> Forall (fun i => 0 <= i) l -> 0 <= clear_bits b l < 2 ^ n.
Proof.
  intros Hn Hb Hl. revert b Hb. unfold clear_bits. induction Hl as [|i l Hi Hl IH]; intros b Hb; [done|].
  simpl. apply IH, ldiff_bound; try done. apply Z.shiftl_nonneg. lia.
Qed.

Section Preservation.
Context (s : pmp_sys) (Hwf : pmp_wf s).

Lemma add_region_wf i r priority :
  0 <= i < PMP_MAX_N_REGION -> Z.testbit (region_def_bitmap s) i = false ->
  region_ok r -> regs_granted s priority r ->
  (r_allow_overlap r = false -> no_overlap s (r_addr r) (r_size r)) ->
  pmp_wf (add_region i r s).
Proof.
  intros Hi Hb Hok Hregs Hno.
  pose proof (regs_nonneg r Hok) as Hnn.
  assert (forall j rj n, valid_at s j rj -> n ∈ region_regs rj -> n ∈ region_regs r ->
            n <> bottom_reg -> False) as Hfresh.
  { intros j rj n Hj Hn Hn' Hne. destruct Hregs as [Hfree|[_ Hbot]].
    - pose proof (wf_owned s Hwf j rj n Hj Hn Hne). by rewrite Hfree in *.
    - rewrite Hbot, list_elem_of_singleton in Hn'. done. }
  split; simpl.
  - rewrite length_aset. apply wf_len, Hwf.
  - apply set_bits_bound; [done|apply wf_reg_bitmap, Hwf|].
    apply Forall_forall. intros n Hn. by apply (regs_bound r), list_elem_of_In.
  - apply lor_bound; [apply wf_def_bitmap, Hwf|]. rewrite Z.shiftl_1_l.
    split; [lia|]. apply Z.pow_lt_mono_r; lia.
  - intros j rj [[-> ->]|Hj]%valid_at_add; try done. by apply (wf_region s Hwf j).
  - intros j rj n Hj Hn Hne. rewrite testbit_set_bits by done. apply orb_true_iff.
    apply valid_at_add in Hj as [[-> ->]|Hj]; try done.
    + right. by apply bool_decide_eq_true_2.
    + left. by apply (wf_owned s Hwf j rj).
  - intros j k rj rk n Hj Hk Hnj Hnk Hne.
    apply valid_at_add in Hj as [[-> ->]|Hj]; apply valid_at_add in Hk as [[-> ->]|Hk]; try done.
    + exfalso. eauto.
    + exfalso. eauto.
    + by apply (wf_unique s Hwf j k rj rk n).
  - intros n. rewrite testbit_set_bits by done. intros [Hn|Hn]%orb_true_iff.
    + destruct (wf_no_leak s Hwf n Hn) as (j & rj & Hj & ?). exists j, rj.
      split; [|done]. apply valid_at_add; auto.
    + apply bool_decide_eq_true_1 in Hn. exists i, r. split; [|done]. apply valid_at_add; auto.
  - intros j k rj rk Hj Hk Hjk Haj Hak. unfold region_end in *.
    apply valid_at_add in Hj as [[-> ->]|Hj]; apply valid_at_add in Hk as [[-> ->]|Hk]; try done.
    + destruct (Hno Haj) as [_ Hdis]. destruct (Hdis k rk Hk Hak); [right|left]; done.
    + destruct (Hno Hak) as [_ Hdis]. destruct (Hdis j rj Hj Haj); [left|right]; done.
    + by apply (wf_disjoint s Hwf j k rj rk).
  - intros j rj. rewrite Z.lor_spec, testbit_shiftl_1, aget_aset by (lia || by rewrite (wf_len s Hwf)).
    case_decide; subst; [by rewrite bool_decide_eq_true_2, orb_true_r by done|].
    rewrite bool_decide_eq_false_2, orb_false_r by done. apply (wf_cleared s Hwf).
Qed.

Lemma remove_region_wf i r : valid_at s i r -> pmp_wf (remove_region i r s).
Proof.
  intros Hv. pose proof (wf_valid_range s Hwf i (proj1 Hv)) as Hi.
  pose proof (regs_nonneg r (wf_region s Hwf i r Hv)) as Hnn.
  split; simpl.
  - rewrite length_aset. apply wf_len, Hwf.
  - apply clear_bits_bound; [done|apply wf_reg_bitmap, Hwf|done].
  - apply ldiff_bound; [done|apply wf_def_bitmap, Hwf|]. apply Z.shiftl_nonneg. lia.
  - intros j rj [_ Hj]%valid_at_remove; [|lia]. by apply (wf_region s Hwf j).
  - intros j rj n Hj Hn Hne. apply valid_at_remove in Hj as [Hji Hj]; [|lia].
    rewrite testbit_clear_bits by done. rewrite (wf_owned s Hwf j rj n) by done. simpl.
    apply negb_true_iff, bool_decide_eq_false_2. intros Hn'. apply Hji.
    by apply (wf_unique s Hwf j i rj r n).
  - intros j k rj rk n [_ Hj]%valid_at_remove [_ Hk]%valid_at_remove; [|lia..].
    by apply (wf_unique s Hwf j k).
  - intros n. rewrite testbit_clear_bits by done. intros [Hn Hnr]%andb_true_iff.
    apply negb_true_iff, bool_decide_eq_false_1 in Hnr.
    destruct (wf_no_leak s Hwf n Hn) as (j & rj & Hj & Hnj). exists j, rj. split; [|done].
    apply valid_at_remove; [lia|]. split; [|done]. intros ->.
    by rewrite (valid_at_fun s i rj r Hj Hv) in Hnj.
  - intros j k rj rk [_ Hj]%valid_at_remove [_ Hk]%valid_at_remove; [|lia..].
    by apply (wf_disjoint s Hwf j k).
  - intros j rj. rewrite Z.ldiff_spec, testbit_shiftl_1, aget_aset by (lia || by rewrite (wf_len s Hwf)).
    case_decide; subst; [naive_solver|].
    rewrite bool_decide_eq_false_2, andb_true_r by done. apply (wf_cleared s Hwf).
Qed.
End Preservation.

(** ** Freeing a region *)

Lemma ldiff_comm x y z : Z.ldiff (Z.ldiff x y) z = Z.ldiff (Z.ldiff x z) y.
Proof.
  apply Z.bits_inj'. intros n _. rewrite !Z.ldiff_spec. by destruct (Z.testbit x n), (Z.testbit y n), (Z.testbit z n).
Qed.

Lemma wf_set_lock b s : pmp_wf s <-> pmp_wf (set_pmp_lock b s).
Proof. split; intros [? ? ? ? ? ? ? ? ?]; by split. Qed.

(** The effect of [pmp_region_free_atomic]: an error on an index that is not a
    region, else the region and its PMP entries are given back. *)
Lemma free_spec s i :
  pmp_wf s -> pmp_lock s = false -> 0 <= i < 32 ->
  pmp_region_free_atomic i s =
    if Z.testbit (region_def_bitmap s) i then
      match aget (regions s) i with
      | Some r => Ok (SBI_ERR_SM_PMP_SUCCESS, remove_region i r s)
      | None => UB
      end
    else Ok (SBI_ERR_SM_PMP_REGION_INVALID, s).
Proof.
  intros Hwf Hl Hi. destruct s as [rs rb db lk hp]; simpl in *. subst lk.
  unfold pmp_region_free_atomic, spin_lock, is_pmp_region_valid, bind, get, modify. simpl.
  rewrite TEST_BIT_spec by done. destruct (Z.testbit db i) eqn:Hb; [|done]. simpl.
  destruct (aget rs i) as [r|] eqn:Hr; [|unfold region_at, bind, get; simpl; by rewrite Hr].
  pose proof (wf_region _ Hwf i r (conj Hb Hr)) as Hok. pose proof (ok_reg r Hok).
  unfold PMP_N_REG in *.
  unfold region_at, bind, get. simpl. rewrite Hr. simpl. rewrite UNSET_BIT_spec by done. simpl.
  unfold region_register_idx. rewrite UNSET_BIT_spec by lia. simpl.
  unfold remove_region, region_regs, clear_bits. simpl.
  destruct (region_needs_two_entries r) eqn:Htwo; simpl.
  - unfold region_needs_two_entries in Htwo. bool_cases. rewrite UNSET_BIT_spec by lia. simpl.
    unfold region_clear_all, region_at, bind, get. simpl. rewrite Hr. simpl.
    unfold set_pmp_lock, set_regions, set_reg_bitmap, set_region_def_bitmap. simpl.
    by rewrite ldiff_comm.
  - unfold region_clear_all, region_at, bind, get. simpl. by rewrite Hr.
Qed.

(** Adding a region on free entries and removing it gives the table back. *)
Lemma remove_add_region s i r :
  pmp_wf s -> 0 <= i < PMP_MAX_N_REGION -> Z.testbit (region_def_bitmap s) i = false -> region_ok r ->
  (forall n, n ∈ region_regs r -> Z.testbit (reg_bitmap s) n = false) ->
  remove_region i r (add_region i r s) = s.
Proof.
  intros Hwf Hi Hb Hok Hfree. pose proof (regs_nonneg r Hok) as Hnn.
  destruct (wf_aget s Hwf i Hi) as [r0 Hr0]. pose proof (wf_cleared s Hwf i r0 Hb Hr0). subst r0.
  destruct s as [rs rb db lk hp]. unfold remove_region, add_region. simpl in *. f_equal.
  - rewrite aset_aset. by apply aset_id.
  - apply Z.bits_inj'. intros n _. rewrite testbit_clear_bits, testbit_set_bits by done.
    case_bool_decide; [|by rewrite orb_false_r, andb_true_r]. by rewrite andb_false_r, Hfree.
  - apply Z.bits_inj'. intros n _. rewrite Z.ldiff_spec, Z.lor_spec, testbit_shiftl_1 by lia.
    case_bool_decide; [|by rewrite orb_false_r, andb_true_r]. subst. by rewrite andb_false_r, Hb.
Qed.

(** The table at reset is well formed. *)
Lemma pmp_reset_wf n : pmp_wf (pmp_reset n).
Proof.
  split; simpl; try lia; try done.
  - intros i r [Hb _]. simpl in Hb. by rewrite Z.testbit_0_l in Hb.
  - intros i r m [Hb _]. simpl in Hb. by rewrite Z.testbit_0_l in Hb.
  - intros i j ri rj m [Hb _]. simpl in Hb. by rewrite Z.testbit_0_l in Hb.
  - intros m Hb. by rewrite Z.testbit_0_l in Hb.
  - intros i j ri rj [Hb _]. simpl in Hb. by rewrite Z.testbit_0_l in Hb.
  - intros i r _. unfold aget. case_match; [done|].
    intros Hl. by apply (lookup_replicate_1 16) in Hl as [-> _].
Qed.

(** The specification of [pmp_region_init_atomic]. *)
Lemma wp_atomic_init (s : pmp_sys) start size priority ao :
  pmp_wf s -> pmp_lock s = false -> is_u64 start -> is_u64 size ->
  asserts start size priority ao = false ->
  exists res s', pmp_region_init_atomic start size priority ao s = Ok (res, s') /\
    init_post start size priority ao s res s' /\ pmp_wf s' /\ pmp_lock s' = false /\
    (ao = false -> res.1 = SBI_ERR_SM_PMP_SUCCESS -> no_overlap s start size).
Proof.
  intros Hwf Hl Hst Hsz Hall. apply (wp_inv (pmp_region_init_atomic start size priority ao)).
  destruct s as [rs rb db lk hp]; simpl in *. subst lk. unfold pmp_region_init_atomic, spin_lock.
  wp_step. wp_step. wp_step. simpl. wp_step. wp_step.
  apply wp_pmp_region_init; [by apply (wf_set_lock true) in Hwf|done..|].
  intros res s' Hpost Hno. wp_step. unfold spin_unlock. wp_step. wp_step.
  destruct Hpost as [[Herr ->]|[Hok (i & r & Hres & Hi & Hb & Hfor & Hrok & Hregs & ->)]]; simpl in *.
  - split; [left; split; done|]. split; [done|]. split; [done|]. intros _ ?. congruence.
  - split; [right; split; [done|]; exists i, r; naive_solver|].
    assert (ao = false -> no_overlap (mkSys rs rb db false hp) start size) as Hno' by (intros ?; by apply Hno).
    split; [|split; [done|by intros ? ?; apply Hno']].
    apply (add_region_wf _ Hwf i r priority); try done.
    destruct Hfor as (<- & <- & <-). intros Ha. by apply Hno'.
Qed.

Lemma asserts_hangs (s : pmp_sys) start size priority ao :
  pmp_lock s = false -> asserts start size priority ao = true -> pmp_region_init_atomic start size priority ao s = Hang.
Proof.
  intros Hl Ha. unfold asserts in Ha. rewrite !andb_true_iff, negb_true_iff in Ha. destruct Ha as ((((-> & Hs) & Hz) & Hpg) & ->%bool_decide_eq_true_1).
  apply Z.eqb_eq in Hs as ->. destruct s as [rs rb db lk hp]; simpl in Hl; subst lk.
  unfold pmp_region_init_atomic, spin_lock, bind, get, modify. simpl. unfold pmp_region_init, truthy, bind, ret. rewrite Hpg. simpl.
  unfold napot_shape. rewrite Hz. simpl. done.
Qed.

(** ** Theorems *)

(** C21: in a well-formed state [pmp_region_init_atomic] returns on every request but one; it either
    reports an error and changes nothing, or records at a free index a region with
    the requested bounds on PMP entries that were free (or on the shared bottom
    entry); the invariant is kept, the lock is free again, and a region that
    forbids overlaps meets no other such region.  The exception is the size -1 (the whole address
    space) from a page other than the first, with overlaps allowed and any entry: there
    [tor_region_init] fails its assertion and the hart hangs with the lock held. *)
Theorem pmp_region_init_atomic_correct (s : pmp_sys) start size priority ao :
  pmp_wf s -> pmp_lock s = false -> is_u64 start -> is_u64 size ->
  if asserts start size priority ao then pmp_region_init_atomic start size priority ao s = Hang else
  exists res s', pmp_region_init_atomic start size priority ao s = Ok (res, s') /\
    init_post start size priority ao s res s' /\ pmp_wf s' /\ pmp_lock s' = false /\
    (ao = false -> res.1 = SBI_ERR_SM_PMP_SUCCESS -> no_overlap s start size).
Proof.
  intros Hwf Hl Hst Hsz. destruct (asserts start size priority ao) eqn:E; [|by apply wp_atomic_init].
  by apply asserts_hangs.
Qed.

Lemma pmp_region_init_atomic_correct_witness :
  (exists res s', pmp_region_init_atomic 0x80000000 0x200000 PMP_PRI_TOP false (pmp_reset 4) = Ok (res, s') /\
    init_post 0x80000000 0x200000 PMP_PRI_TOP false (pmp_reset 4) res s' /\ pmp_wf s') /\
  pmp_region_init_atomic 0x1000 minus1_ul PMP_PRI_ANY true (pmp_reset 4) = Hang.
Proof.
  split.
  - destruct (pmp_region_init_atomic_correct (pmp_reset 4) 0x80000000 0x200000 PMP_PRI_TOP false) as (res & s' & H1 & H2 & H3 & _);
      [apply pmp_reset_wf|reflexivity|unfold is_u64; lia..|].
    exists res, s'. split; [exact H1|]. split; [exact H2|exact H3].
  - exact (pmp_region_init_atomic_correct (pmp_reset 4) 0x1000 minus1_ul PMP_PRI_ANY true (pmp_reset_wf 4) eq_refl
      ltac:(unfold is_u64; lia) ltac:(unfold is_u64, minus1_ul; lia)).
Defined.

(** C22: [pmp_region_free_atomic] on a well-formed state returns with the lock free
    and keeps the invariant: an index that names no region is refused and nothing
    changes; otherwise exactly that region disappears from the table, its entries
    are free again and every other region keeps its entry marked as used. *)
Theorem pmp_region_free_atomic_correct (s : pmp_sys) i :
  pmp_wf s -> pmp_lock s = false -> 0 <= i < 32 ->
  exists res s', pmp_region_free_atomic i s = Ok (res, s') /\ pmp_wf s' /\ pmp_lock s' = false /\
    hart_pmp s' = hart_pmp s /\
    ((res = SBI_ERR_SM_PMP_REGION_INVALID /\ s' = s /\ forall r, ~ valid_at s i r) \/
     (res = SBI_ERR_SM_PMP_SUCCESS /\ exists r, valid_at s i r /\
        (forall j rj, valid_at s' j rj <-> j <> i /\ valid_at s j rj) /\
        (forall n, Z.testbit (reg_bitmap s') n = true <->
           Z.testbit (reg_bitmap s) n = true /\ n ∉ region_regs r))).
Proof.
  intros Hwf Hl Hi. rewrite free_spec by done. destruct (Z.testbit _ i) eqn:Hb.
  - destruct (wf_valid_at s Hwf i Hb) as [r [_ Hr]]. rewrite Hr. pose proof (conj Hb Hr : valid_at s i r) as Hv.
    eexists _, _. split; [done|]. split; [by apply remove_region_wf|]. split; [done|]. split; [done|].
    right. split; [done|]. exists r. split; [done|]. split; [intros; apply valid_at_remove; lia|].
    intros n. simpl. rewrite testbit_clear_bits by eauto using regs_nonneg, wf_region.
    rewrite andb_true_iff, negb_true_iff, bool_decide_eq_false. done.
  - eexists _, _. split; [done|]. repeat (split; [done|]). left. repeat (split; [done|]).
    intros r [Hb' _]. congruence.
Qed.

(** creating a region above the shared entry and freeing it at once restores
    the whole state of the region table. *)
Theorem pmp_region_init_free_roundtrip (s : pmp_sys) start size priority ao i s' :
  pmp_wf s -> pmp_lock s = false -> is_u64 start -> is_u64 size ->
  asserts start size priority ao = false -> priority <> PMP_PRI_BOTTOM ->
  pmp_region_init_atomic start size priority ao s = Ok ((SBI_ERR_SM_PMP_SUCCESS, Some i), s') ->
  pmp_region_free_atomic i s' = Ok (SBI_ERR_SM_PMP_SUCCESS, s).
Proof.
  intros Hwf Hl Hst Hsz Hall Hpri Hinit.
  assert (pmp_wf s' /\ pmp_lock s' = false /\
          init_post start size priority ao s (SBI_ERR_SM_PMP_SUCCESS, Some i) s') as (Hwf' & Hl' & Hpost).
  { destruct (wp_atomic_init s start size priority ao) as (? & ? & Heq & ?); try done. rewrite Hinit in Heq. naive_solver. }
  destruct Hpost as [[? _]|[_ (i' & r & [= <-] & Hi & Hb & Hfor & Hok & Hregs & ->)]]; [done|].
  rewrite free_spec by (done || unfold PMP_MAX_N_REGION in *; lia). simpl.
  rewrite Z.lor_spec, testbit_shiftl_1, bool_decide_eq_true_2, orb_true_r by (done || lia).
  rewrite aget_aset_eq by by rewrite (wf_len s Hwf). f_equal. f_equal.
  apply remove_add_region; try done. destruct Hregs as [?|[? _]]; done.
Qed.

Lemma pmp_region_init_free_roundtrip_witness :
  exists i s', pmp_region_init_atomic 0x80000000 0x200000 PMP_PRI_TOP false (pmp_reset 4)
                 = Ok ((SBI_ERR_SM_PMP_SUCCESS, Some i), s') /\
               pmp_region_free_atomic i s' = Ok (SBI_ERR_SM_PMP_SUCCESS, pmp_reset 4).
Proof.
  exists 0. eexists. split; [vm_compute; reflexivity|].
  apply (pmp_region_init_free_roundtrip (pmp_reset 4) 0x80000000 0x200000 PMP_PRI_TOP false);
    [apply pmp_reset_wf|reflexivity|unfold is_u64; lia|unfold is_u64; lia|reflexivity|discriminate|].
  vm_compute. reflexivity.
Defined.

Lemma pmp_region_free_atomic_correct_witness :
  exists res s', pmp_region_free_atomic 3 (pmp_reset 4) = Ok (res, s') /\ pmp_wf s' /\ pmp_lock s' = false /\
    hart_pmp s' = hart_pmp (pmp_reset 4) /\
    ((res = SBI_ERR_SM_PMP_REGION_INVALID /\ s' = pmp_reset 4 /\ forall r, ~ valid_at (pmp_reset 4) 3 r) \/
     (res = SBI_ERR_SM_PMP_SUCCESS /\ exists r, valid_at (pmp_reset 4) 3 r /\
        (forall j rj, valid_at s' j rj <-> j <> 3 /\ valid_at (pmp_reset 4) j rj) /\
        (forall n, Z.testbit (reg_bitmap s') n = true <->
           Z.testbit (reg_bitmap (pmp_reset 4)) n = true /\ n ∉ region_regs r))).
Proof. apply pmp_region_free_atomic_correct; [apply pmp_reset_wf|reflexivity|lia]. Defined.

(** [detect_region_overlap] terminates without touching the table and answers
    [false] exactly when the interval ends within the address space and meets no
    valid region that forbids overlaps. *)
Theorem detect_region_overlap_correct (s : pmp_sys) addr size :
  pmp_wf s ->
  exists b, detect_region_overlap addr size s = Ok (b, s) /\ (b = false <-> no_overlap s addr size).
Proof.
  intros Hwf. edestruct (wp_inv (detect_region_overlap addr size)
    (fun b s' => s' = s /\ (b = false <-> no_overlap s addr size)) s) as (b & s' & Heq & -> & Hb).
  - by apply wp_detect.
  - by exists b.
Qed.

Lemma detect_region_overlap_correct_witness :
  exists b, detect_region_overlap 0x80000000 0x1000 (pmp_reset 1) = Ok (b, pmp_reset 1) /\
            (b = false <-> no_overlap (pmp_reset 1) 0x80000000 0x1000).
Proof. apply detect_region_overlap_correct, pmp_reset_wf. Defined.

(** The table after [sm_init]: the region of the security monitor on the top entry
    and the region of the host on the bottom one. *)
Definition sm_table : pmp_sys :=
  let run (c : M pmp_sys init_result) (s : pmp_sys) :=
    match c s with Ok (_, s') => s' | _ => s end in
  run (pmp_region_init_atomic 0 minus1_ul PMP_PRI_BOTTOM true)
    (run (pmp_region_init_atomic SMM_BASE SMM_SIZE PMP_PRI_TOP false) (pmp_reset 4)).

Definition smm_region : pmp_region := mkRegion SMM_SIZE PMP_A_NAPOT SMM_BASE false 0.
Definition osm_region : pmp_region := mkRegion minus1_ul PMP_A_NAPOT 0 true bottom_reg.

Lemma sm_table_eq :
  sm_table = add_region 1 osm_region (add_region 0 smm_region (pmp_reset 4)).
Proof. vm_compute. reflexivity. Qed.

Lemma sm_table_valid i r :
  valid_at sm_table i r <-> (i = 0 /\ r = smm_region) \/ (i = 1 /\ r = osm_region).
Proof.
  split.
  - intros [Hb Hr]. assert (0 <= i < 2) as Hi.
    { assert (region_def_bitmap sm_table = 3) as E by (vm_compute; reflexivity). rewrite E in Hb.
      destruct (decide (i < 0)); [by rewrite Z.testbit_neg_r in Hb by lia|].
      destruct (decide (i < 2)); [lia|]. by rewrite (testbit_high 3 2) in Hb by lia. }
    assert (i = 0 \/ i = 1) as [->| ->] by lia; vm_compute in Hr; simplify_eq; auto.
  - intros [[-> ->]|[-> ->]]; vm_compute; auto.
Qed.

Lemma sm_table_wf : pmp_wf sm_table.
Proof.
  assert (region_ok smm_region) as Hs.
  { split; unfold region_end; simpl; unfold is_u64, SMM_BASE, SMM_SIZE, PMP_N_REG; try lia.
    left. split; [done|]. right. by exists 21. }
  assert (region_ok osm_region) as Ho.
  { split; unfold region_end; simpl; unfold is_u64, minus1_ul, bottom_reg, PMP_N_REG; try lia; try done.
    left. split; [done|]. by left. }
  assert (pmp_wf (add_region 0 smm_region (pmp_reset 4))) as Hwf.
  { apply (add_region_wf _ (pmp_reset_wf 4) 0 smm_region PMP_PRI_TOP); try done.
    - left. intros n Hn. simpl. apply Z.testbit_0_l.
    - intros _. split; [done|]. intros i r [Hb _]. simpl in Hb. by rewrite Z.testbit_0_l in Hb. }
  rewrite sm_table_eq. apply (add_region_wf _ Hwf 1 osm_region PMP_PRI_BOTTOM); try done. by right.
Qed.

Example sm_table_bitmaps : reg_bitmap sm_table = 0x81 /\ region_def_bitmap sm_table = 3.
Proof. vm_compute. auto. Qed.

(** giving back a region that shares the bottom entry marks the entry as free although every other
    region on it (the OS region is one) stays valid and keeps programming it; and when all entries
    were in use, the next search for a free entry answers with exactly that one. *)
Theorem bottom_entry_released (s : pmp_sys) i j ri rj :
  pmp_wf s -> pmp_lock s = false -> valid_at s i ri -> valid_at s j rj -> i <> j ->
  region_regs ri = [bottom_reg] -> bottom_reg ∈ region_regs rj ->
  exists s', pmp_region_free_atomic i s = Ok (SBI_ERR_SM_PMP_SUCCESS, s') /\
    valid_at s' j rj /\ bottom_reg ∈ region_regs rj /\ Z.testbit (reg_bitmap s') bottom_reg = false /\
    (reg_bitmap s = Z.ones PMP_N_REG -> get_free_reg_idx s' = Ok (bottom_reg, s')).
Proof.
  intros Hwf Hl Hi Hj Hij Hri Hrj. pose proof (wf_valid_range s Hwf i (proj1 Hi)) as Hr. unfold PMP_MAX_N_REGION in Hr.
  exists (remove_region i ri s). split; [rewrite free_spec by (done || lia); by rewrite (proj1 Hi), (proj2 Hi)|].
  split; [apply valid_at_remove; [lia|by split]|]. split; [done|]. split.
  - cbn [reg_bitmap remove_region]. rewrite testbit_clear_bits by eauto using regs_nonneg, wf_region.
    rewrite bool_decide_eq_true_2, andb_false_r by (rewrite Hri; constructor). done.
  - intros Hfull. unfold get_free_reg_idx, bind, get. simpl. by rewrite Hri, Hfull.
Qed.

(** A table whose seven private entries are taken, and the untrusted region of one enclave on the shared one. *)
Definition full_table : pmp_sys :=
  let run (c : M pmp_sys init_result) (s : pmp_sys) := match c s with Ok (_, s') => s' | _ => s end in
  let page (n : Z) := run (pmp_region_init_atomic (0xa0000000 + n * 0x1000) 0x1000 PMP_PRI_ANY false) in
  run (pmp_region_init_atomic 0xb0000000 0x1000 PMP_PRI_BOTTOM false)
    (page 5 (page 4 (page 3 (page 2 (page 1 (page 0 sm_table)))))).

Lemma run_wf start size priority s :
  pmp_wf s /\ pmp_lock s = false -> is_u64 start -> is_u64 size ->
  let s' := match pmp_region_init_atomic start size priority false s with Ok (_, s') => s' | _ => s end in
  pmp_wf s' /\ pmp_lock s' = false.
Proof.
  intros [Hwf Hl] H1 H2. destruct (wp_atomic_init s start size priority false) as (res & s' & -> & _ & ? & ? & _); done.
Qed.

Lemma full_table_wf : pmp_wf full_table /\ pmp_lock full_table = false.
Proof. unfold full_table. do 7 (apply run_wf; [|unfold is_u64; lia|unfold is_u64; lia]). split; [apply sm_table_wf|reflexivity]. Qed.

Lemma bottom_entry_released_witness :
  exists s', pmp_region_free_atomic 8 full_table = Ok (SBI_ERR_SM_PMP_SUCCESS, s') /\ valid_at s' 1 osm_region /\
    get_free_reg_idx s' = Ok (bottom_reg, s').
Proof.
  destruct full_table_wf as [Hwf Hl].
  destruct (bottom_entry_released full_table 8 1 (mkRegion 0x1000 PMP_A_NAPOT 0xb0000000 false bottom_reg) osm_region Hwf Hl)
    as (s' & H1 & H2 & _ & _ & H3); [vm_compute; split; reflexivity|vm_compute; split; reflexivity|discriminate|reflexivity|left|].
  exists s'. split; [exact H1|]. split; [exact H2|]. apply H3. vm_compute. reflexivity.
Defined.
