(* ===== verification/PmpHw.v ===== *)
(** * What the programmed PMP entries mean to the hardware

    The first part is the access check of the RISC-V privileged architecture: the
    lowest-numbered entry that matches an address decides, and an access from
    supervisor or user mode that no entry matches is refused.  The second part
    relates it to [pmp_set_keystone]: the entries of a region match exactly the
    bytes of the region, with the requested permission, and programming one
    region leaves the entries of the others alone.  The last part gives the
    isolation the region table provides on a hart. *)

From S2P Require Import Prelude SmDefs Pmp PmpInv.
From Stdlib Require Import ZArith Lia.
From stdpp Require Import base tactics list list_numbers numbers.
Local Open Scope Z_scope.

(** ** The hardware check *)

(** The configuration byte of entry [n]. *)
Definition cfg_byte (c : pmp_csrs) (n : Z) : Z :=
  Z.land (Z.shiftr (csr_read_pmpcfg n c) (8 * (n mod PMP_PER_GROUP))) 0xff.

Definition pmpaddr_of (c : pmp_csrs) (n : Z) : Z := default 0 (aget (pmpaddr c) n).

(** The address-matching field [A] of a configuration byte. *)
Definition cfg_A (b : Z) : Z := Z.land b 0x18.

(** Does entry [n] match the byte at physical address [a]? *)
Definition entry_matches (c : pmp_csrs) (n a : Z) : bool :=
  let top := pmpaddr_of c n in
  let word := Z.shiftr a 2 in
  let A := cfg_A (cfg_byte c n) in
  if A =? PMP_A_TOR then
    ((if n =? 0 then 0 else pmpaddr_of c (n - 1)) <=? word) && (word <? top)
  else if A =? 0x10 then word =? top
  else if A =? PMP_A_NAPOT then
    let mask := Z.lxor top (top + 1) in
    Z.lor word mask =? Z.lor top mask
  else false.

(** The entry that decides on address [a]: the lowest-numbered one that matches. *)
Definition deciding_entry (c : pmp_csrs) (a : Z) : option Z :=
  find (fun n => entry_matches c n a) (indices 16).

(** An access from supervisor or user mode; [acc] is one of [PMP_R], [PMP_W] and
    [PMP_X]. *)
Definition pmp_allows (c : pmp_csrs) (a acc : Z) : bool :=
  match deciding_entry c a with
  | Some n => truthy (Z.land (cfg_byte c n) acc)
  | None => false
  end.

(** ** Registers *)

Record csrs_ok (c : pmp_csrs) : Prop := {
  csrs_cfg0 : is_u64 (pmpcfg0 c);
  csrs_cfg2 : is_u64 (pmpcfg2 c);
  csrs_len : length (pmpaddr c) = 16%nat
}.

Lemma testbit_byte c n j : 0 <= n -> 0 <= j < 8 ->
  Z.testbit (cfg_byte c n) j = Z.testbit (csr_read_pmpcfg n c) (8 * (n mod 8) + j).
Proof.
  intros Hn Hj. unfold cfg_byte, PMP_PER_GROUP. change 0xff with (Z.ones 8).
  rewrite Z.land_spec, Z.ones_spec_low, andb_true_r, Z.shiftr_spec by lia. f_equal. lia.
Qed.

Lemma testbit_byte_high c n j : 8 <= j -> Z.testbit (cfg_byte c n) j = false.
Proof.
  intros Hj. unfold cfg_byte. change 0xff with (Z.ones 8).
  by rewrite Z.land_spec, (Z.ones_spec_high 8 j), andb_false_r by lia.
Qed.

Lemma testbit_keep_mask n i : 0 <= n -> 0 <= i < 64 ->
  Z.testbit (cfg_keep_mask n) i = negb (i / 8 =? n mod 8).
Proof.
  intros Hn Hi. unfold cfg_keep_mask, PMP_PER_GROUP. rewrite testbit_not64 by (done || apply u64_range).
  f_equal. unfold u64. rewrite Z.mod_pow2_bits_low by lia. change 0xff with (Z.ones 8).
  rewrite Z.shiftl_spec by lia.
  destruct (Z.eqb_spec (i / 8) (n mod 8)).
  - apply Z.ones_spec_low. mlia.
  - destruct (decide (i < 8 * (n mod 8))); [by rewrite Z.testbit_neg_r by lia|].
    apply Z.ones_spec_high. mlia.
Qed.

(** A configuration byte moved to the place of entry [n] in its register. *)
Definition cfg_field (n b : Z) : Z := u64 (Z.shiftl b (8 * (n mod PMP_PER_GROUP))).

Lemma testbit_cfg_field n b i : 0 <= n -> is_u8 b -> 0 <= i < 64 ->
  Z.testbit (cfg_field n b) i = (i / 8 =? n mod 8) && Z.testbit b (i mod 8).
Proof.
  intros Hn Hb Hi. unfold cfg_field, u64, PMP_PER_GROUP.
  rewrite Z.mod_pow2_bits_low, Z.shiftl_spec by lia. destruct (Z.eqb_spec (i / 8) (n mod 8)); simpl.
  - f_equal. mlia.
  - destruct (decide (i < 8 * (n mod 8))); [by apply Z.testbit_neg_r; lia|].
    apply (testbit_high b 8); [done|mlia].
Qed.

(** The register after [PMP_SET]: byte [n] is new, the others are kept. *)
Lemma PMP_SET_cfg_bit n addr b c i : 0 <= n -> is_u8 b -> 0 <= i < 64 ->
  Z.testbit (PMP_SET n addr (cfg_field n b) c).1 i =
    if i / 8 =? n mod 8 then Z.testbit b (i mod 8) else Z.testbit (csr_read_pmpcfg n c) i.
Proof.
  intros Hn Hb Hi. unfold PMP_SET. simpl.
  rewrite Z.lor_spec, Z.land_spec, testbit_keep_mask, testbit_cfg_field by done.
  destruct (i / 8 =? n mod 8); simpl; by rewrite ?andb_false_r, ?andb_true_r, ?orb_false_r.
Qed.

Lemma read_write_cfg m n v c :
  csr_read_pmpcfg m (csr_write_pmpcfg n v c) =
    if bool_decide ((m <? 8) = (n <? 8)) then v else csr_read_pmpcfg m c.
Proof.
  unfold csr_read_pmpcfg, csr_write_pmpcfg, PMP_PER_GROUP.
  by destruct (m <? 8) eqn:E, (n <? 8) eqn:E'; simpl; rewrite ?E.
Qed.

(** Bytes after [PMP_SET]. *)
Lemma PMP_SET_byte n addr b c m : 0 <= n < 16 -> 0 <= m < 16 -> is_u8 b ->
  cfg_byte (PMP_SET n addr (cfg_field n b) c).2 m = if m =? n then b else cfg_byte c m.
Proof.
  intros Hn Hm Hb. apply Z.bits_inj'. intros j Hj. destruct (decide (j < 8)).
  2:{ rewrite testbit_byte_high by lia. case_match; [|by rewrite testbit_byte_high by lia].
      symmetry. apply (testbit_high b 8); [done|lia]. }
  rewrite testbit_byte by lia.
  assert (csr_read_pmpcfg m (PMP_SET n addr (cfg_field n b) c).2 =
          if bool_decide ((m <? 8) = (n <? 8)) then (PMP_SET n addr (cfg_field n b) c).1
          else csr_read_pmpcfg m c) as ->.
  { unfold PMP_SET at 1. cbn [snd]. rewrite read_write_cfg. by destruct (bool_decide _). }
  assert ((8 * (m mod 8) + j) / 8 = m mod 8 /\ (8 * (m mod 8) + j) mod 8 = j) as [E1 E2] by mlia.
  case_bool_decide as Hgrp.
  - rewrite PMP_SET_cfg_bit, E1, E2 by (done || mlia).
    assert ((m mod 8 =? n mod 8) = (m =? n)) as ->.
    { apply eq_true_iff_eq. rewrite !Z.eqb_eq. split; [|by intros ->].
      destruct (Z.ltb_spec m 8), (Z.ltb_spec n 8); try discriminate; mlia. }
    case_match; [done|]. rewrite testbit_byte by lia. f_equal.
    unfold csr_read_pmpcfg, PMP_PER_GROUP. by rewrite Hgrp.
  - assert ((m =? n) = false) as -> by (apply Z.eqb_neq; congruence). by rewrite testbit_byte by lia.
Qed.

Lemma PMP_SET_addrs n addr v c :
  pmpaddr (PMP_SET n addr v c).2 = aset (pmpaddr c) n (Z.land addr (Z.ones 54)).
Proof. unfold PMP_SET, csr_write_pmpcfg. simpl. by case_match. Qed.

Lemma PMP_SET_addr n addr v c m : 0 <= n < 16 -> length (pmpaddr c) = 16%nat ->
  pmpaddr_of (PMP_SET n addr v c).2 m = if m =? n then Z.land addr (Z.ones 54) else pmpaddr_of c m.
Proof.
  intros Hn Hlen. unfold pmpaddr_of. rewrite PMP_SET_addrs, aget_aset by (rewrite Hlen; lia).
  destruct (Z.eqb_spec m n); case_decide; simpl; congruence.
Qed.

Lemma PMP_SET_ok n addr v c : is_u64 v -> csrs_ok c -> csrs_ok (PMP_SET n addr v c).2.
Proof.
  intros Hv [H0 H2 Hlen]. assert (is_u64 (Z.lor v (Z.land (csr_read_pmpcfg n c) (cfg_keep_mask n)))) as Hu.
  { apply lor_bound; [done|]. apply land_bound; [unfold csr_read_pmpcfg; by case_match|].
    unfold cfg_keep_mask, not64. pose proof (u64_range (Z.shiftl 255 (8 * (n mod PMP_PER_GROUP)))).
    unfold is_u64 in *. lia. }
  split; [| |by rewrite PMP_SET_addrs, length_aset]; unfold PMP_SET, csr_write_pmpcfg; cbn [snd];
    case_match; done.
Qed.

(** ** The entries of a region *)

(** The registers [c] hold region [r] with permission bits [perm]. *)
Record programmed (c : pmp_csrs) (r : pmp_region) (perm : Z) : Prop := {
  prog_cfg : cfg_byte c (r_reg_idx r) = Z.lor (r_addrmode r) perm;
  prog_addr : pmpaddr_of c (r_reg_idx r) = Z.land (region_pmpaddr_val r) (Z.ones 54);
  prog_low : region_needs_two_entries r = true ->
    cfg_byte c (r_reg_idx r - 1) = 0 /\
    pmpaddr_of c (r_reg_idx r - 1) = Z.land (Z.shiftr (r_addr r) 2) (Z.ones 54)
}.

(** The bytes that a region stands for: those of its interval, or the whole
    address space. *)
Definition in_region (r : pmp_region) (a : Z) : Prop :=
  region_is_napot_all r = true \/ r_addr r <= a < region_end r.

(** The region can be described by the 56-bit physical addresses of the entries,
    and a region on entry 0 that is not naturally aligned starts at address 0. *)
Definition addressable (r : pmp_region) : Prop :=
  (region_is_napot_all r = true \/ region_end r < 2 ^ 56) /\
  (r_addrmode r = PMP_A_TOR -> r_reg_idx r = 0 -> r_addr r = 0).

Lemma shiftr2 x : Z.shiftr x 2 = x / 4.
Proof. by rewrite Z.shiftr_div_pow2. Qed.

Lemma land_ones54 x : 0 <= x < 2 ^ 54 -> Z.land x (Z.ones 54) = x.
Proof. intros Hx. rewrite Z.land_ones by lia. by apply Z.mod_small. Qed.

(** The address register of a naturally aligned region of [2^k] bytes. *)
Lemma napot_pmpaddr r k q :
  r_addrmode r = PMP_A_NAPOT -> region_is_napot_all r = false -> 12 <= k < 64 ->
  r_size r = 2 ^ k -> r_addr r = q * 2 ^ k ->
  region_pmpaddr_val r = q * 2 ^ (k - 2) + (2 ^ (k - 3) - 1).
Proof.
  intros Hm Hall Hk Hs Ha. unfold region_pmpaddr_val, region_is_napot. rewrite Hall, Hm. simpl.
  rewrite Hs, Ha, shiftr2.
  assert (2 ^ k = 2 * 2 ^ (k - 1)) as E1 by (rewrite <- Z.pow_succ_r by lia; f_equal; lia).
  assert (2 ^ k = 4 * 2 ^ (k - 2)) as E2.
  { change 4 with (2 ^ 2). rewrite <- Z.pow_add_r by lia. f_equal. lia. }
  assert (2 ^ k = 8 * 2 ^ (k - 3)) as E3.
  { change 8 with (2 ^ 3). rewrite <- Z.pow_add_r by lia. f_equal. lia. }
  assert (0 < 2 ^ (k - 3)) by lia. assert (2 ^ k < 2 ^ 64) by (apply Z.pow_lt_mono_r; lia).
  assert (2 ^ k / 2 = 2 ^ (k - 1)) as -> by mlia.
  rewrite u64_id by (unfold is_u64; lia).
  rewrite (lor_add _ _ k) by (lia || apply Z.mod_mul; lia). mlia.
Qed.

Lemma lor_mode_A m p : m = PMP_A_TOR \/ m = PMP_A_NAPOT -> 0 <= p < 8 -> cfg_A (Z.lor m p) = m.
Proof.
  intros Hm Hp. assert (p = 0 \/ p = 1 \/ p = 2 \/ p = 3 \/ p = 4 \/ p = 5 \/ p = 6 \/ p = 7) as Hc by lia.
  destruct Hm as [->| ->]; destruct Hc as [->|[->|[->|[->|[->|[->|[->| ->]]]]]]]; done.
Qed.

(** The matching entry of a programmed region matches exactly its bytes. *)
Lemma programmed_matches c r perm a :
  region_ok r -> addressable r -> programmed c r perm -> 0 <= perm < 8 -> 0 <= a < 2 ^ 56 ->
  entry_matches c (r_reg_idx r) a = true <-> in_region r a.
Proof.
  intros Hok [Hfit Htop] [Hcfg Haddr Hlow] Hperm Ha. unfold entry_matches, in_region.
  pose proof (ok_addr r Hok). pose proof (ok_size r Hok). pose proof (ok_reg r Hok). unfold is_u64 in *.
  destruct (ok_shape r Hok) as [[Hm Hshape]|(Hm & Hsz & Had & Hreg)].
  - rewrite Hcfg, Haddr, lor_mode_A, Hm by (done || by right). simpl.
    destruct (region_is_napot_all r) eqn:Hall.
    + split; [by left|]. intros _. unfold region_pmpaddr_val. rewrite Hall. apply Z.eqb_eq.
      change (Z.lxor _ _) with (Z.ones 55). apply lor_ones_eq; [lia|]. rewrite shiftr2.
      rewrite Z.div_small; [done|mlia].
    + destruct Hshape as [[Hz1 Hz2]|(k & Hk & Hs & Hal)].
      { unfold region_is_napot_all in Hall. by rewrite Hz1, Hz2 in Hall. }
      destruct Hfit as [?|Hfit]; [done|].
      assert (r_addr r = (r_addr r / 2 ^ k) * 2 ^ k) as Hq by mlia. set (q := r_addr r / 2 ^ k) in *.
      assert (2 ^ k = 4 * 2 ^ (k - 2)) as E2.
      { change 4 with (2 ^ 2). rewrite <- Z.pow_add_r by lia. f_equal. lia. }
      assert (2 ^ (k - 2) = 2 * 2 ^ (k - 3)) as E3 by (rewrite <- Z.pow_succ_r by lia; f_equal; lia).
      assert (0 < 2 ^ (k - 3)) by lia. unfold region_end in *.
      rewrite (napot_pmpaddr r k q), land_ones54 by (done || lia || nia).
      replace (k - 2) with (k - 3 + 1) by lia. rewrite lxor_succ_ones by lia.
      rewrite Z.eqb_eq, lor_ones_eq, shiftr2 by lia. replace (k - 3 + 1) with (k - 2) by lia.
      rewrite (Z.div_add_l q), (Z.div_small (2 ^ (k - 3) - 1)), Z.div_div by lia.
      rewrite <- E2. split; [intros Hd; right; mnia|intros [?|?]; [done|mnia]].
  - rewrite Hcfg, Haddr, lor_mode_A, Hm by (done || by left). simpl.
    assert (region_is_napot_all r = false) as Hall.
    { unfold region_is_napot_all, minus1_ul. unfold RISCV_PGSIZE in *. apply andb_false_iff. right.
      apply Z.eqb_neq. intros E. by rewrite E in Hsz. }
    destruct Hfit as [?|Hfit]; [congruence|]. unfold region_end in *. unfold RISCV_PGSIZE in *.
    unfold region_pmpaddr_val, region_is_napot, region_is_tor. rewrite Hall, Hm. simpl.
    rewrite u64_id, !shiftr2, land_ones54 by (unfold is_u64; mlia).
    rewrite andb_true_iff, Z.leb_le, Z.ltb_lt. destruct (Z.eqb_spec (r_reg_idx r) 0) as [E|E].
    + specialize (Htop Hm E). split; [intros ?; right; mlia|intros [?|?]; [congruence|mlia]].
    + destruct Hlow as [_ Hlow].
      { unfold region_needs_two_entries, region_is_tor. rewrite Hm. simpl. lia. }
      rewrite Hlow, shiftr2, land_ones54 by mlia.
      split; [intros ?; right; mlia|intros [?|?]; [congruence|mlia]].
Qed.

(** ** Programming a region *)

(** The registers of a hart after [pmp_set_keystone] on region [r]. *)
Definition set_csrs (r : pmp_region) (perm : Z) (c : pmp_csrs) : pmp_csrs :=
  let c1 := (PMP_SET (r_reg_idx r) (region_pmpaddr_val r)
               (cfg_field (r_reg_idx r) (Z.lor (r_addrmode r) perm)) c).2 in
  if region_needs_two_entries r then (PMP_SET (r_reg_idx r - 1) (Z.shiftr (r_addr r) 2) 0 c1).2 else c1.

Lemma cfg_field_0 n : cfg_field n 0 = 0.
Proof. unfold cfg_field. by rewrite Z.shiftl_0_l. Qed.

Lemma PMP_SET_byte_0 n addr c m : 0 <= n < 16 -> 0 <= m < 16 ->
  cfg_byte (PMP_SET n addr 0 c).2 m = if m =? n then 0 else cfg_byte c m.
Proof. intros Hn Hm. rewrite <- (PMP_SET_byte n addr 0 c m) by done. by rewrite cfg_field_0. Qed.

Lemma mode_byte r perm : region_ok r -> 0 <= perm < 8 -> is_u8 (Z.lor (r_addrmode r) perm).
Proof.
  intros Hok Hp. unfold is_u8. destruct (ok_shape r Hok) as [[-> _]|[-> _]]; apply (lor_bound _ _ 8);
    unfold PMP_A_NAPOT, PMP_A_TOR; lia.
Qed.

Lemma needs_two_reg r : region_needs_two_entries r = true -> 0 < r_reg_idx r.
Proof. unfold region_needs_two_entries. intros. bool_cases. lia. Qed.

Section SetRegion.
Context (r : pmp_region) (perm : Z) (Hok : region_ok r) (Hperm : 0 <= perm < 8).

Lemma reg_range : 0 <= r_reg_idx r < 8.
Proof using Hok Hperm. exact (ok_reg r Hok). Qed.

Lemma set_csrs_ok c : csrs_ok c -> csrs_ok (set_csrs r perm c).
Proof using Hok Hperm.
  intros Hc. unfold set_csrs. assert (csrs_ok (PMP_SET (r_reg_idx r) (region_pmpaddr_val r)
    (cfg_field (r_reg_idx r) (Z.lor (r_addrmode r) perm)) c).2) by (apply PMP_SET_ok; [apply u64_range|done]).
  case_match; [|done]. by apply PMP_SET_ok.
Qed.

(** The bytes and addresses of the entries after programming a region. *)
Lemma set_csrs_byte c m : csrs_ok c -> 0 <= m < 16 ->
  cfg_byte (set_csrs r perm c) m =
    if m =? r_reg_idx r then Z.lor (r_addrmode r) perm
    else if bool_decide (m ∈ region_regs r) then 0 else cfg_byte c m.
Proof using Hok Hperm.
  intros Hc Hm. pose proof reg_range. pose proof (mode_byte r perm Hok Hperm).
  unfold set_csrs, region_regs. destruct (region_needs_two_entries r) eqn:Htwo.
  - apply needs_two_reg in Htwo. rewrite PMP_SET_byte_0, PMP_SET_byte by (done || lia). destruct (Z.eqb_spec m (r_reg_idx r - 1)).
    + rewrite bool_decide_eq_true_2 by (subst; constructor). by destruct (Z.eqb_spec m (r_reg_idx r)); [lia|].
    + destruct (Z.eqb_spec m (r_reg_idx r)); [done|]. rewrite bool_decide_eq_false_2; [done|].
      rewrite !elem_of_cons, elem_of_nil. naive_solver.
  - rewrite PMP_SET_byte by (done || lia). destruct (Z.eqb_spec m (r_reg_idx r)); [done|].
    rewrite bool_decide_eq_false_2; [done|]. by rewrite list_elem_of_singleton.
Qed.

Lemma set_csrs_addr c m : csrs_ok c -> 0 <= m < 16 ->
  pmpaddr_of (set_csrs r perm c) m =
    if m =? r_reg_idx r then Z.land (region_pmpaddr_val r) (Z.ones 54)
    else if bool_decide (m ∈ region_regs r) then Z.land (Z.shiftr (r_addr r) 2) (Z.ones 54) else pmpaddr_of c m.
Proof using Hok Hperm.
  intros Hc Hm. pose proof reg_range. pose proof (csrs_len c Hc).
  unfold set_csrs, region_regs. destruct (region_needs_two_entries r) eqn:Htwo.
  - apply needs_two_reg in Htwo.
    rewrite !PMP_SET_addr by (done || lia || by rewrite PMP_SET_addrs, length_aset).
    destruct (Z.eqb_spec m (r_reg_idx r - 1)).
    + rewrite bool_decide_eq_true_2 by (subst; constructor). by destruct (Z.eqb_spec m (r_reg_idx r)); [lia|].
    + destruct (Z.eqb_spec m (r_reg_idx r)); [done|]. rewrite bool_decide_eq_false_2; [done|].
      rewrite !elem_of_cons, elem_of_nil. naive_solver.
  - rewrite PMP_SET_addr by (done || lia). destruct (Z.eqb_spec m (r_reg_idx r)); [done|].
    rewrite bool_decide_eq_false_2; [done|]. by rewrite list_elem_of_singleton.
Qed.

Lemma set_csrs_programmed c : csrs_ok c -> programmed (set_csrs r perm c) r perm.
Proof using Hok Hperm.
  intros Hc. pose proof reg_range. split.
  - rewrite set_csrs_byte by (done || lia). by rewrite Z.eqb_refl.
  - rewrite set_csrs_addr by (done || lia). by rewrite Z.eqb_refl.
  - intros Htwo. pose proof (needs_two_reg r Htwo).
    assert (r_reg_idx r - 1 ∈ region_regs r) by (unfold region_regs; rewrite Htwo; constructor).
    rewrite set_csrs_byte, set_csrs_addr by (done || lia).
    destruct (Z.eqb_spec (r_reg_idx r - 1) (r_reg_idx r)); [lia|]. by rewrite bool_decide_eq_true_2.
Qed.

(** A region on other entries stays programmed. *)
Lemma set_csrs_frame c r' perm' : csrs_ok c -> region_ok r' ->
  (forall n, n ∈ region_regs r -> n ∈ region_regs r' -> False) ->
  programmed c r' perm' -> programmed (set_csrs r perm c) r' perm'.
Proof using Hok Hperm.
  intros Hc Hok' Hdisj [Hcfg Haddr Hlow].
  assert (r_reg_idx r ∈ region_regs r /\ r_reg_idx r' ∈ region_regs r') as [Hin Hin'].
  { unfold region_regs. split; case_match; repeat constructor. }
  assert (forall m, m ∈ region_regs r' -> cfg_byte (set_csrs r perm c) m = cfg_byte c m /\
            pmpaddr_of (set_csrs r perm c) m = pmpaddr_of c m) as Hsame.
  { intros m Hm. pose proof (regs_bound r' m Hok' Hm). unfold PMP_N_REG in *.
    rewrite set_csrs_byte, set_csrs_addr by (done || lia).
    destruct (Z.eqb_spec m (r_reg_idx r)); [subst; naive_solver|].
    rewrite bool_decide_eq_false_2; naive_solver. }
  split.
  - by destruct (Hsame _ Hin') as [-> _].
  - by destruct (Hsame _ Hin') as [_ ->].
  - intros Htwo. destruct (Hsame (r_reg_idx r' - 1)) as [-> ->]; [|by apply Hlow].
    unfold region_regs. rewrite Htwo. constructor.
Qed.
End SetRegion.

(** The effect of [pmp_set_keystone] on a well-formed state. *)
Lemma pmp_set_spec s h i c perm r :
  pmp_wf s -> valid_at s i r -> aget (hart_pmp s) h = Some c ->
  pmp_set_keystone h i perm s =
    Ok (SBI_ERR_SM_PMP_SUCCESS, set_hart_pmp (fun l => aset l h (set_csrs r (Z.land perm PMP_ALL_PERM) c)) s).
Proof.
  intros Hwf Hv Hc. pose proof (wf_region s Hwf i r Hv) as Hok. pose proof (wf_valid_range s Hwf i (proj1 Hv)) as Hi.
  unfold PMP_MAX_N_REGION in Hi. pose proof (ok_reg r Hok) as Hreg. unfold PMP_N_REG in Hreg. destruct Hv as [Hb Hr].
  unfold pmp_set_keystone, is_pmp_region_valid, region_at, bind, get. rewrite TEST_BIT_spec by lia.
  simpl. rewrite Hb. simpl. rewrite Hr. simpl. unfold region_register_idx.
  assert (pmp_reg_exists (r_reg_idx r) = true) as -> by (unfold pmp_reg_exists; lia).
  simpl. unfold update_hart, bind, get. simpl. rewrite Hc. simpl.
  unfold set_csrs. destruct (region_needs_two_entries r) eqn:Htwo; [|done].
  apply needs_two_reg in Htwo.
  assert (pmp_reg_exists (r_reg_idx r - 1) = true) as -> by (unfold pmp_reg_exists; lia). simpl.
  apply aget_Some_range in Hc. rewrite aget_aset_eq by done. simpl.
  unfold set_hart_pmp. simpl. by rewrite aset_aset.
Qed.

(** ** The view of a hart *)

(** [view i] is the permission a hart has on region [i].  Every entry below the
    shared one is either off or belongs to a region that is programmed with that
    permission. *)
Record hart_view (s : pmp_sys) (c : pmp_csrs) (view : Z -> Z) : Prop := {
  view_csrs : csrs_ok c;
  view_perm : forall i, 0 <= view i < 8;
  view_region : forall i r, valid_at s i r -> r_reg_idx r <> bottom_reg -> programmed c r (view i);
  view_off : forall n, 0 <= n < bottom_reg ->
    (forall i r, valid_at s i r -> n ∈ region_regs r -> False) -> cfg_byte c n = 0
}.

(** The regions of the table fit the physical address space, and no two-entry
    region reaches the shared entry. *)
Definition table_addressable (s : pmp_sys) : Prop :=
  forall i r, valid_at s i r ->
    addressable r /\ (r_reg_idx r = bottom_reg -> region_needs_two_entries r = false).

(** An entry that is off matches nothing. *)
Lemma off_no_match c n a : cfg_byte c n = 0 -> entry_matches c n a = false.
Proof. intros H. unfold entry_matches. by rewrite H. Qed.

Lemma find_first {A} (f : A -> bool) (l1 l2 : list A) x :
  (forall y, y ∈ l1 -> f y = false) -> f x = true -> find f (l1 ++ x :: l2) = Some x.
Proof.
  intros Hl1 Hx. induction l1 as [|y l1 IH]; simpl; [by rewrite Hx|].
  rewrite Hl1 by constructor. apply IH. intros z Hz. apply Hl1. by constructor.
Qed.

Lemma deciding_entry_at c a n :
  0 <= n < 16 -> (forall m, 0 <= m < n -> entry_matches c m a = false) -> entry_matches c n a = true ->
  deciding_entry c a = Some n.
Proof.
  intros Hn Hbelow Hm. unfold deciding_entry, indices.
  replace 16 with (n + (1 + (15 - n))) by lia. rewrite seqZ_app, seqZ_app by lia.
  apply find_first; [|done]. intros m Hm'%elem_of_seqZ. apply Hbelow. lia.
Qed.

Lemma in_region_interval r a : 0 <= a < 2 ^ 56 -> in_region r a -> r_addr r <= a < region_end r.
Proof.
  intros Ha [Hall|?]; [|done]. unfold region_is_napot_all, minus1_ul in Hall. bool_cases. unfold region_end. lia.
Qed.

Section View.
Context (s : pmp_sys) (c : pmp_csrs) (view : Z -> Z).
Context (Hwf : pmp_wf s) (Hview : hart_view s c view) (Haddr : table_addressable s).

(** A matching entry below the shared one is the main entry of a region that
    contains the address. *)
Lemma match_owner n a : 0 <= n < bottom_reg -> 0 <= a < 2 ^ 56 -> entry_matches c n a = true ->
  exists i r, valid_at s i r /\ r_reg_idx r = n /\ in_region r a.
Proof using All.
  intros Hn Ha Hm. destruct (decide (cfg_byte c n = 0)) as [E|Hcfg].
  { by rewrite off_no_match in Hm. }
  destruct (decide (Z.testbit (reg_bitmap s) n = true)) as [Hbit|Hbit]; cycle 1.
  { exfalso. apply Hcfg, (view_off s c view Hview); [done|]. intros i r Hv Hin. apply Hbit.
    apply (wf_owned s Hwf i r); [done..|]. lia. }
  destruct (wf_no_leak s Hwf n Hbit) as (i & r & Hv & Hin). exists i, r.
  pose proof (wf_region s Hwf i r Hv) as Hok.
  assert (r_reg_idx r <> bottom_reg -> r_reg_idx r = n -> in_region r a) as Hmain.
  { intros Hne <-. apply (programmed_matches c r (view i)); try done;
      [by eapply (Haddr i)|by apply Hview|by apply Hview]. }
  destruct (decide (r_reg_idx r = n)) as [E|Hne].
  - split; [done|]. split; [done|]. apply Hmain; lia.
  - exfalso. unfold region_regs in Hin. destruct (region_needs_two_entries r) eqn:Htwo.
    + rewrite !elem_of_cons, elem_of_nil in Hin.
      assert (n = r_reg_idx r - 1) as -> by (destruct Hin as [?|[?|[]]]; lia).
      apply Hcfg. destruct (view_region s c view Hview i r Hv) as [_ _ Hlow]; [|by apply Hlow].
      intros E. destruct (Haddr i r Hv) as [_ Hone]. by rewrite Hone in Htwo.
    + apply list_elem_of_singleton in Hin. lia.
Qed.

(** The deciding entry of an address of a region that forbids overlaps. *)
Lemma decide_in_region i r a :
  valid_at s i r -> r_allow_overlap r = false -> r_reg_idx r < bottom_reg ->
  (forall j rj, valid_at s j rj -> r_allow_overlap rj = true -> r_reg_idx rj = bottom_reg) ->
  0 <= a < 2 ^ 56 -> in_region r a -> deciding_entry c a = Some (r_reg_idx r).
Proof using All.
  intros Hv Hao Hlt Hov Ha Hin. pose proof (wf_region s Hwf i r Hv) as Hok. pose proof (ok_reg r Hok) as Hreg.
  unfold bottom_reg, PMP_N_REG in *. apply deciding_entry_at; [lia| |].
  - intros m Hm. destruct (entry_matches c m a) eqn:E; [exfalso|done].
    destruct (match_owner m a) as (j & rj & Hj & Hrj & Hinj); [unfold bottom_reg, PMP_N_REG; lia|done..|].
    assert (i <> j) as Hij by (intros ->; rewrite (valid_at_fun s j r rj Hv Hj) in Hm; lia).
    assert (r_allow_overlap rj = false) as Haoj.
    { destruct (r_allow_overlap rj) eqn:Eo; [|done]. specialize (Hov j rj Hj Eo). lia. }
    pose proof (wf_disjoint s Hwf i j r rj Hv Hj Hij Hao Haoj).
    apply in_region_interval in Hin, Hinj; lia.
  - apply (programmed_matches c r (view i)); try done; [by apply (Haddr i)| |apply Hview].
    apply Hview; [done|]. unfold bottom_reg, PMP_N_REG. lia.
Qed.
End View.

(** The access decision on a byte of a region that forbids overlaps. *)
Lemma isolation_core (s : pmp_sys) c view i r a acc :
  pmp_wf s -> hart_view s c view -> table_addressable s ->
  (forall j rj, valid_at s j rj -> r_allow_overlap rj = true -> r_reg_idx rj = bottom_reg) ->
  valid_at s i r -> r_allow_overlap r = false -> r_reg_idx r < bottom_reg ->
  0 <= a < 2 ^ 56 -> r_addr r <= a < region_end r -> acc = PMP_R \/ acc = PMP_W \/ acc = PMP_X ->
  pmp_allows c a acc = truthy (Z.land (view i) acc).
Proof.
  intros Hwf Hview Htab Hov Hv Hao Hlt Ha Hin Hacc. unfold pmp_allows.
  rewrite (decide_in_region s c view Hwf Hview Htab i r a) by (done || by right).
  destruct (view_region s c view Hview i r Hv) as [-> _ _]; [lia|].
  rewrite Z.land_lor_distr_l. assert (Z.land (r_addrmode r) acc = 0) as ->; [|done].
  destruct (ok_shape r (wf_region s Hwf i r Hv)) as [[-> _]|[-> _]]; destruct Hacc as [->|[->| ->]]; done.
Qed.

(** ** Changing one permission *)

Definition is_access (acc : Z) : Prop := acc = PMP_R \/ acc = PMP_W \/ acc = PMP_X.

(** Regions that may overlap others use the shared entry only. *)
Definition overlaps_at_bottom (s : pmp_sys) : Prop :=
  forall j rj, valid_at s j rj -> r_allow_overlap rj = true -> r_reg_idx rj = bottom_reg.

(** The view in which region [i] has the permission bits of [perm]. *)
Definition grant (i perm : Z) (view : Z -> Z) : Z -> Z := fun j => if j =? i then Z.land perm PMP_ALL_PERM else view j.

Lemma perm_bits perm : 0 <= Z.land perm PMP_ALL_PERM < 8.
Proof. change PMP_ALL_PERM with (2 ^ 3 - 1). rewrite land_pow2_sub1 by lia. apply Z.mod_pos_bound. lia. Qed.

Lemma land_access perm acc : is_access acc -> truthy (Z.land (Z.land perm PMP_ALL_PERM) acc) = truthy (Z.land perm acc).
Proof. intros Hacc. rewrite <- Z.land_assoc. by destruct Hacc as [->|[->| ->]]. Qed.

Lemma mode_access r acc perm : region_ok r -> is_access acc -> truthy (Z.land (Z.lor (r_addrmode r) perm) acc) = truthy (Z.land perm acc).
Proof.
  intros Hok Hacc. rewrite Z.land_lor_distr_l. assert (Z.land (r_addrmode r) acc = 0) as ->; [|done].
  destruct (ok_shape r Hok) as [[-> _]|[-> _]]; destruct Hacc as [->|[->| ->]]; done.
Qed.

Lemma set_csrs_view s c view i r perm : pmp_wf s -> hart_view s c view -> valid_at s i r ->
  hart_view s (set_csrs r (Z.land perm PMP_ALL_PERM) c) (grant i perm view).
Proof.
  intros Hwf [V1 V2 V3 V4] Hv. pose proof (perm_bits perm) as Hp. pose proof (wf_region s Hwf i r Hv) as Hok. split.
  - by apply set_csrs_ok.
  - intros j. unfold grant. by case_match.
  - intros j rj Hj Hne. unfold grant. destruct (Z.eqb_spec j i) as [->|Hji].
    + rewrite (valid_at_fun s i rj r Hj Hv). by apply set_csrs_programmed.
    + apply set_csrs_frame; [done..|by eapply wf_region| |by apply V3]. intros n Hn Hn'. apply Hji.
      apply (wf_unique s Hwf j i rj r n); try done. pose proof (ok_reg rj (wf_region s Hwf j rj Hj)).
      unfold bottom_reg in *. unfold region_regs in Hn'. case_match; rewrite ?elem_of_cons, ?elem_of_nil in Hn'; naive_solver lia.
  - intros n Hn Hown. unfold bottom_reg, PMP_N_REG in Hn. rewrite set_csrs_byte by (done || lia).
    assert (n ∉ region_regs r) as Hnr by (intros Hin; by apply (Hown i r)).
    destruct (Z.eqb_spec n (r_reg_idx r)) as [->|].
    + exfalso. apply Hnr. unfold region_regs. case_match; repeat constructor.
    + rewrite bool_decide_eq_false_2 by done. apply V4; [unfold bottom_reg, PMP_N_REG; lia|done].
Qed.

(** The shared entry decides where no other entry matches. *)
Lemma shared_entry_decides s c view i r a acc perm : pmp_wf s -> hart_view s c view -> table_addressable s ->
  valid_at s i r -> r_reg_idx r = bottom_reg -> programmed c r perm -> 0 <= perm < 8 -> 0 <= a < 2 ^ 56 -> in_region r a ->
  (forall j rj, valid_at s j rj -> r_reg_idx rj < bottom_reg -> ~ in_region rj a) -> is_access acc ->
  pmp_allows c a acc = truthy (Z.land perm acc).
Proof.
  intros Hwf Hview Htab Hv Hbot Hprog Hp Ha Hin Hout Hacc. pose proof (wf_region s Hwf i r Hv) as Hok.
  unfold pmp_allows. rewrite (deciding_entry_at c a (r_reg_idx r)).
  - rewrite (prog_cfg _ _ _ Hprog). by apply mode_access.
  - rewrite Hbot. unfold bottom_reg, PMP_N_REG. lia.
  - intros n Hn. destruct (entry_matches c n a) eqn:E; [exfalso|done]. rewrite Hbot in Hn.
    destruct (match_owner s c view Hwf Hview Htab n a) as (j & rj & Hj & Hrj & Hinj); [done..|].
    apply (Hout j rj); [done|lia|done].
  - apply (programmed_matches c r perm); try done. by apply (Htab i).
Qed.

(** ** Theorems *)

(** C3: [pmp_set_keystone] decides what the calling hart may access.  On a well-formed table whose regions
    fit the 56-bit physical address space and in which only regions on the shared last entry may
    overlap others (the OS region), and on a hart that has the permission [view j] on every region
    [j], granting [perm] on region [i] returns success and changes only the registers of that hart,
    which then has [perm] on [i] and the old view elsewhere.  A read, write or fetch of a byte of any
    region below the shared entry that forbids overlaps is allowed exactly by the new view of
    that region alone; and when [i] is on the shared entry (the OS region, an enclave's untrusted
    region), bytes of [i] outside every region with an entry of its own are decided by [perm]. *)
Theorem pmp_region_isolation (s : pmp_sys) h c view i r perm :
  pmp_wf s -> table_addressable s -> overlaps_at_bottom s ->
  aget (hart_pmp s) h = Some c -> hart_view s c view -> valid_at s i r ->
  exists c', pmp_set_keystone h i perm s = Ok (SBI_ERR_SM_PMP_SUCCESS, set_hart_pmp (fun l => aset l h c') s) /\
    hart_view s c' (grant i perm view) /\
    (forall j rj a acc, valid_at s j rj -> r_allow_overlap rj = false -> r_reg_idx rj < bottom_reg ->
       0 <= a < 2 ^ 56 -> r_addr rj <= a < region_end rj -> is_access acc ->
       pmp_allows c' a acc = truthy (Z.land (grant i perm view j) acc)) /\
    (forall a acc, r_reg_idx r = bottom_reg -> 0 <= a < 2 ^ 56 -> in_region r a ->
       (forall j rj, valid_at s j rj -> r_reg_idx rj < bottom_reg -> ~ in_region rj a) -> is_access acc ->
       pmp_allows c' a acc = truthy (Z.land perm acc)).
Proof.
  intros Hwf Htab Hov Hc Hview Hv. pose proof (perm_bits perm) as Hp.
  exists (set_csrs r (Z.land perm PMP_ALL_PERM) c). split; [by apply pmp_set_spec|].
  pose proof (set_csrs_view s c view i r perm Hwf Hview Hv) as Hview'. split; [done|]. split.
  - intros j rj a acc Hj Hao Hlt Ha Hin Hacc. by apply (isolation_core s _ (grant i perm view) j rj).
  - intros a acc Hbot Ha Hin Hout Hacc. rewrite (shared_entry_decides s _ _ i r a acc (Z.land perm PMP_ALL_PERM) Hwf Hview'); try done.
    + by apply land_access.
    + apply set_csrs_programmed; [by eapply wf_region|done|apply Hview].
Qed.

(** The registers of a hart that runs the host after [sm_init]: the security
    monitor's region is closed and everything else is open. *)
Definition host_csrs : pmp_csrs :=
  set_csrs osm_region PMP_ALL_PERM (set_csrs smm_region PMP_NO_PERM (mkCsrs 0 0 (replicate 16 0))).
Definition host_view (i : Z) : Z := if i =? 1 then PMP_ALL_PERM else PMP_NO_PERM.

Lemma host_csrs_view : hart_view sm_table host_csrs host_view.
Proof.
  split.
  - vm_compute. repeat split; discriminate.
  - intros i. unfold host_view. case_match; vm_compute; split; congruence.
  - intros i r [[-> ->]|[-> ->]]%sm_table_valid Hr; [|done]. vm_compute. repeat split; discriminate.
  - intros n Hn Hown. unfold bottom_reg, PMP_N_REG in Hn.
    assert (n = 0 \/ n = 1 \/ n = 2 \/ n = 3 \/ n = 4 \/ n = 5 \/ n = 6) as Hc by lia.
    destruct Hc as [->|Hc]; [|by destruct Hc as [->|[->|[->|[->|[->| ->]]]]]].
    exfalso. apply (Hown 0 smm_region); [apply sm_table_valid; auto|by constructor].
Qed.

Lemma sm_table_addressable : table_addressable sm_table.
Proof.
  intros i r [[-> ->]|[-> ->]]%sm_table_valid; (split; [split|]); first [by left|by right|done].
Qed.

(** The host's registers lose the right to write: the OS region is on the shared entry. *)
Lemma pmp_region_isolation_witness :
  exists c', pmp_set_keystone 0 1 PMP_R (set_hart_pmp (fun _ => [host_csrs]) sm_table) =
      Ok (SBI_ERR_SM_PMP_SUCCESS, set_hart_pmp (fun l => aset l 0 c') (set_hart_pmp (fun _ => [host_csrs]) sm_table)) /\
    pmp_allows c' (SMM_BASE + 0x1000) PMP_R = false /\
    pmp_allows c' 0x90000000 PMP_R = true /\ pmp_allows c' 0x90000000 PMP_W = false.
Proof.
  set (s := set_hart_pmp (fun _ => [host_csrs]) sm_table).
  assert (forall i r, valid_at s i r <-> valid_at sm_table i r) as Hsame by reflexivity.
  destruct (pmp_region_isolation s 0 host_csrs host_view 1 osm_region PMP_R) as (c' & He & _ & Hbelow & Hbot).
  - destruct sm_table_wf as [W1 W2 W3 W4 W5 W6 W7 W8 W9]. split; assumption.
  - intros i r Hv. apply (sm_table_addressable i r), Hsame, Hv.
  - intros j rj Hv. apply Hsame, sm_table_valid in Hv. destruct Hv as [[-> ->]|[-> ->]]; [discriminate|reflexivity].
  - reflexivity.
  - destruct host_csrs_view as [V1 V2 V3 V4]. split; assumption.
  - apply Hsame, sm_table_valid. auto.
  - assert (forall a, ~ in_region smm_region a -> forall j rj, valid_at s j rj -> r_reg_idx rj < bottom_reg -> ~ in_region rj a) as Hout.
    { intros a Ha j rj Hj Hlt. apply Hsame, sm_table_valid in Hj. destruct Hj as [[-> ->]|[-> ->]]; [exact Ha|]. discriminate Hlt. }
    assert (~ in_region smm_region 0x90000000) as H9.
    { intros [Hx|Hx]; [discriminate Hx|]. unfold region_end in Hx. simpl in Hx. unfold SMM_BASE, SMM_SIZE in Hx. lia. }
    exists c'. split; [exact He|]. split; [|split].
    + rewrite (Hbelow 0 smm_region (SMM_BASE + 0x1000) PMP_R); [reflexivity|apply Hsame, sm_table_valid; auto|reflexivity|reflexivity
        |unfold SMM_BASE; lia|unfold region_end; simpl; unfold SMM_BASE, SMM_SIZE; lia|left; reflexivity].
    + rewrite (Hbot 0x90000000 PMP_R); [reflexivity|reflexivity|lia|left; reflexivity|apply Hout, H9|left; reflexivity].
    + rewrite (Hbot 0x90000000 PMP_W); [reflexivity|reflexivity|lia|left; reflexivity|apply Hout, H9|right; left; reflexivity].
Defined.

Example host_reaches_memory : pmp_allows host_csrs 0x90000000 PMP_W = true.
Proof. vm_compute. reflexivity. Qed.
