(* ===== verification/Sha3.v ===== *)
(** * SHA-3 ([sm/src/sha3/sha3.c])

    The Keccak permutation and the streaming interface of the security monitor's
    hash function, with the sponge construction of FIPS 202 as the reference: the
    in-place loops compute the permutation, and hashing a message piece by piece
    is padding it, absorbing its blocks and reading the digest.  The other copies
    of the file in the repository ([bootrom], [sdk]) have the same text. *)

From S2P Require Import Prelude.
From Stdlib Require Import ZArith Lia.
From stdpp Require Import base tactics list list_numbers numbers.
Local Open Scope Z_scope.

(** ** The code *)

Definition KECCAKF_ROUNDS : nat := 24.

Definition ROTL64 (x y : Z) : Z := Z.lor (u64 (Z.shiftl x y)) (Z.shiftr x (64 - y)).

Definition keccakf_rndc : list Z :=
  [0x0000000000000001; 0x0000000000008082; 0x800000000000808a;
   0x8000000080008000; 0x000000000000808b; 0x0000000080000001;
   0x8000000080008081; 0x8000000000008009; 0x000000000000008a;
   0x0000000000000088; 0x0000000080008009; 0x000000008000000a;
   0x000000008000808b; 0x800000000000008b; 0x8000000000008089;
   0x8000000000008003; 0x8000000000008002; 0x8000000000000080;
   0x000000000000800a; 0x800000008000000a; 0x8000000080008081;
   0x8000000000008080; 0x0000000080000001; 0x8000000080008008].

Definition keccakf_rotc : list Z :=
  [1; 3; 6; 10; 15; 21; 28; 36; 45; 55; 2; 14;
   27; 41; 56; 8; 25; 43; 62; 18; 39; 61; 20; 44].

Definition keccakf_piln : list nat :=
  [10; 7; 11; 17; 18; 3; 5; 16; 8; 21; 24; 4;
   15; 23; 19; 13; 12; 2; 20; 14; 22; 9; 6; 1]%nat.

(** [a[i]] in an array of words. *)
Definition word (a : list Z) (i : nat) : Z := nth i a 0.

(** [a[i] ^= t]. *)
Definition xor_at (t : Z) (a : list Z) (i : nat) : list Z := <[i := Z.lxor (word a i) t]> a.

(** The two loops of the theta step. *)
Definition theta_bc (st : list Z) : list Z :=
  map (fun i => Z.lxor (Z.lxor (Z.lxor (Z.lxor (word st i) (word st (i + 5))) (word st (i + 10)))
                          (word st (i + 15))) (word st (i + 20))) (seq 0 5).
Definition theta_column (bc : list Z) (st : list Z) (i : nat) : list Z :=
  let t := Z.lxor (word bc ((i + 4) mod 5)) (ROTL64 (word bc ((i + 1) mod 5)) 1) in
  fold_left (fun st j => xor_at t st (j + i)) [0; 5; 10; 15; 20]%nat st.
Definition theta (st : list Z) : list Z := fold_left (theta_column (theta_bc st)) (seq 0 5) st.

(** The loop of the rho and pi steps, with the word carried in [t]. *)
Definition rho_pi_step (t_st : Z * list Z) (i : nat) : Z * list Z :=
  let '(t, st) := t_st in
  let j := nth i keccakf_piln 0%nat in
  let bc0 := word st j in
  (bc0, <[j := ROTL64 t (nth i keccakf_rotc 0)]> st).
Definition rho_pi (st : list Z) : list Z := (fold_left rho_pi_step (seq 0 24) (word st 1, st)).2.

(** One row of the chi step. *)
Definition chi_row (st : list Z) (j : nat) : list Z :=
  let bc := map (fun i => word st (j + i)) (seq 0 5) in
  fold_left (fun st i => xor_at (Z.land (not64 (word bc ((i + 1) mod 5))) (word bc ((i + 2) mod 5))) st (j + i))
    (seq 0 5) st.
Definition chi (st : list Z) : list Z := fold_left chi_row [0; 5; 10; 15; 20]%nat st.

Definition iota (r : nat) (st : list Z) : list Z := xor_at (nth r keccakf_rndc 0) st 0.

Definition keccakf_round (st : list Z) (r : nat) : list Z := iota r (chi (rho_pi (theta st))).
Definition sha3_keccakf (st : list Z) : list Z := fold_left keccakf_round (seq 0 KECCAKF_ROUNDS) st.

(** [sha3_ctx_t]: the union [st] is kept as its 25 words; byte [j] of the
    little-endian view is byte [j % 8] of word [j / 8]. *)
Record sha3_ctx_t : Type := mkSha3 { st : list Z; pt : nat; rsiz : nat; mdlen : nat }.

(** [c->st.b[j]] and [c->st.b[j] ^= d]. *)
Definition st_byte (q : list Z) (j : nat) : Z :=
  Z.land (Z.shiftr (word q (j / 8)) (8 * Z.of_nat (j mod 8))) 0xff.
Definition xor_byte (q : list Z) (j : nat) (d : Z) : list Z :=
  xor_at (Z.shiftl d (8 * Z.of_nat (j mod 8))) q (j / 8).

Definition sha3_init (mdlen : nat) : sha3_ctx_t := mkSha3 (replicate 25 0) 0 (200 - 2 * mdlen) mdlen.

(** One iteration of the loop of [sha3_update]. *)
Definition update_step (rsiz : nat) (s : list Z * nat) (d : Z) : list Z * nat :=
  let '(q, j) := s in
  let q := xor_byte q j d in
  let j := S j in
  if (rsiz <=? j)%nat then (sha3_keccakf q, 0%nat) else (q, j).

Definition sha3_update (c : sha3_ctx_t) (data : list Z) : sha3_ctx_t :=
  let '(q, j) := fold_left (update_step (rsiz c)) data (st c, pt c) in
  mkSha3 q j (rsiz c) (mdlen c).

(** The digest and the context left behind. *)
Definition sha3_final (c : sha3_ctx_t) : list Z * sha3_ctx_t :=
  let q := xor_byte (st c) (pt c) 0x06 in
  let q := xor_byte q (rsiz c - 1) 0x80 in
  let q := sha3_keccakf q in
  (map (st_byte q) (seq 0 (mdlen c)), mkSha3 q (pt c) (rsiz c) (mdlen c)).

Definition sha3 (input : list Z) (mdlen : nat) : list Z :=
  (sha3_final (sha3_update (sha3_init mdlen) input)).1.

(** ** The reference: FIPS 202 *)

Module Fips202.
(** Lanes are indexed by their coordinates [(x, y)]; coordinates are taken
    modulo 5. *)
Definition lanes : Type := nat -> nat -> Z.
Definition m5 (x : nat) : nat := x mod 5.

Definition of_list (l : list Z) : lanes := fun x y => nth (m5 x + 5 * m5 y) l 0.
Definition to_list (A : lanes) : list Z := map (fun i => A (i mod 5)%nat (i / 5)%nat) (seq 0 25).

Definition parity (A : lanes) (x : nat) : Z :=
  Z.lxor (Z.lxor (Z.lxor (Z.lxor (A x 0%nat) (A x 1%nat)) (A x 2%nat)) (A x 3%nat)) (A x 4%nat).
Definition theta_spec (A : lanes) : lanes := fun x y =>
  Z.lxor (A x y) (Z.lxor (parity A (m5 (x + 4))) (ROTL64 (parity A (m5 (x + 1))) 1)).

(** The rotation offset of a lane: step [t] of the walk [(x, y) -> (y, 2x + 3y)]
    from [(1, 0)] reaches it, and the offset is [(t + 1)(t + 2) / 2]. *)
Fixpoint walk (fuel t : nat) (x y x' y' : nat) : Z :=
  match fuel with
  | O => 0
  | S fuel' =>
      if ((x =? x') && (y =? y'))%nat then Z.of_nat ((t + 1) * (t + 2) / 2) mod 64
      else walk fuel' (t + 1) y (m5 (2 * x + 3 * y)) x' y'
  end.
Definition offset (x y : nat) : Z := walk 24 0 1 0 x y.

Definition rho_spec (A : lanes) : lanes := fun x y =>
  if ((m5 x =? 0) && (m5 y =? 0))%nat then A x y else ROTL64 (A x y) (offset (m5 x) (m5 y)).
Definition pi_spec (A : lanes) : lanes := fun x y => A (m5 (x + 3 * y)) (m5 x).
Definition chi_spec (A : lanes) : lanes := fun x y =>
  Z.lxor (A x y) (Z.land (not64 (A (m5 (x + 1)) y)) (A (m5 (x + 2)) y)).

(** The round constant: bit [2^j - 1] of [RC(r)] is [rc(j + 7 r)], where [rc] is
    produced by the linear feedback shift register of the standard. *)
Definition lfsr_step (R : Z) : Z :=
  let R2 := Z.shiftl R 1 in
  if Z.testbit R2 8 then Z.lxor (Z.land R2 0xff) 0x71 else R2.
Definition rc (t : nat) : bool := Z.testbit (Nat.iter (t mod 255) lfsr_step 1) 0.
Definition RC (r : nat) : Z :=
  fold_left (fun acc j => if rc (j + 7 * r) then Z.lor acc (Z.shiftl 1 (2 ^ Z.of_nat j - 1)) else acc)
    (seq 0 7) 0.
Definition iota_spec (r : nat) (A : lanes) : lanes := fun x y =>
  if ((m5 x =? 0) && (m5 y =? 0))%nat then Z.lxor (A x y) (RC r) else A x y.

Definition Rnd (l : list Z) (r : nat) : list Z :=
  to_list (iota_spec r (chi_spec (pi_spec (rho_spec (theta_spec (of_list l)))))).
Definition keccak_f (l : list Z) : list Z := fold_left Rnd (seq 0 24) l.

(** Bytes of a state, little-endian in each lane. *)
Definition lane_bytes (w : Z) : list Z := map (fun k => Z.land (Z.shiftr w (8 * Z.of_nat k)) 0xff) (seq 0 8).
Definition bytes_lane (b : list Z) : Z := fold_right (fun d acc => d + 256 * acc) 0 b.
Definition state_bytes (l : list Z) : list Z := flat_map lane_bytes l.

(** [S xor (block || 0...0)]. *)
Definition xor_block (l : list Z) (block : list Z) : list Z :=
  map (fun i => Z.lxor (word l i) (bytes_lane (take 8 (drop (8 * i) block)))) (seq 0 25).

Definition pad (rate : nat) (msg : list Z) : list Z :=
  let q := (rate - length msg mod rate)%nat in
  msg ++ (if (q =? 1)%nat then [0x86] else 0x06 :: replicate (q - 2) 0 ++ [0x80]).

Fixpoint absorb (fuel rate : nat) (l : list Z) (p : list Z) : list Z :=
  match fuel with
  | O => l
  | S fuel' =>
      match p with
      | [] => l
      | _ => absorb fuel' rate (keccak_f (xor_block l (take rate p))) (drop rate p)
      end
  end.

(** SHA3 with a digest of [d] bytes ([d] at most the rate): the capacity is
    [2 d] bytes. *)
Definition SHA3 (d : nat) (msg : list Z) : list Z :=
  let rate := (200 - 2 * d)%nat in
  let p := pad rate msg in
  take d (state_bytes (absorb (S (length p)) rate (replicate 25 0) p)).
End Fips202.

(** ** The permutation *)

Import Fips202.

(** [ROTL64] is rotation of a 64-bit word. *)
Lemma ROTL64_testbit x n i : is_u64 x -> 0 < n < 64 -> 0 <= i < 64 ->
  Z.testbit (ROTL64 x n) i = Z.testbit x ((i - n) mod 64).
Proof.
  intros Hx Hn Hi. unfold ROTL64, u64.
  rewrite Z.lor_spec, Z.mod_pow2_bits_low, Z.shiftl_spec, Z.shiftr_spec by lia.
  destruct (decide (i < n)).
  - rewrite Z.testbit_neg_r by lia. simpl. f_equal. rewrite <- (Z.mod_add _ 1) by lia. rewrite Z.mod_small; lia.
  - rewrite (testbit_high x 64 (i + (64 - n))), orb_false_r by (done || lia). f_equal. rewrite Z.mod_small; lia.
Qed.

Lemma rndc_RC r : (r < 24)%nat -> nth r keccakf_rndc 0 = RC r.
Proof.
  intros Hr. assert (keccakf_rndc = map RC (seq 0 24)) as -> by (vm_compute; reflexivity).
  rewrite (nth_indep _ 0 (RC 0)) by (rewrite length_map, length_seq; lia).
  rewrite map_nth, seq_nth by lia. done.
Qed.

Lemma list25 {A} (l : list A) : length l = 25%nat ->
  exists a b c d e f g h i j k m n o p q r s t u v w x y z,
    l = [a; b; c; d; e; f; g; h; i; j; k; m; n; o; p; q; r; s; t; u; v; w; x; y; z].
Proof. intros H. do 25 (destruct l as [|? l]; [done|]). destruct l; [|done]. by repeat eexists. Qed.

(** Each step: the in-place loops against the coordinates. *)
Ltac by_lanes Hl :=
  apply list25 in Hl as
    (a & b & c & d & e & f & g & h & i & j & k & m & n & o & p & q & r & s & t & u & v & w & x & y & z & ->);
  cbv -[Z.lxor Z.land not64 ROTL64]; reflexivity.

Lemma theta_eq l : length l = 25%nat -> theta l = to_list (theta_spec (of_list l)).
Proof. intros Hl. by_lanes Hl. Qed.

Lemma rho_pi_eq l : length l = 25%nat -> rho_pi l = to_list (pi_spec (rho_spec (of_list l))).
Proof. intros Hl. by_lanes Hl. Qed.

Lemma chi_eq l : length l = 25%nat -> chi l = to_list (chi_spec (of_list l)).
Proof. intros Hl. by_lanes Hl. Qed.

(** A list of lanes read back through its coordinates. *)
Lemma rho_pi_lanes A :
  to_list (pi_spec (rho_spec (of_list (to_list A)))) = to_list (pi_spec (rho_spec A)).
Proof. cbv -[Z.lxor Z.land not64 ROTL64]. reflexivity. Qed.

Lemma chi_lanes A : to_list (chi_spec (of_list (to_list A))) = to_list (chi_spec A).
Proof. cbv -[Z.lxor Z.land not64 ROTL64]. reflexivity. Qed.

Lemma length_to_list A : length (to_list A) = 25%nat.
Proof. reflexivity. Qed.

Lemma chi_rho_pi_theta_spec l : length l = 25%nat ->
  chi (rho_pi (theta l)) = to_list (chi_spec (pi_spec (rho_spec (theta_spec (of_list l))))).
Proof.
  intros Hl. rewrite theta_eq, rho_pi_eq, chi_eq by done. by rewrite rho_pi_lanes, chi_lanes.
Qed.

Lemma to_list_iota A r : iota r (to_list A) = to_list (fun x y =>
  if ((m5 x =? 0) && (m5 y =? 0))%nat then Z.lxor (A x y) (nth r keccakf_rndc 0) else A x y).
Proof. reflexivity. Qed.

Lemma round_spec l r : length l = 25%nat -> (r < 24)%nat -> keccakf_round l r = Rnd l r.
Proof.
  intros Hl Hr. unfold keccakf_round, Rnd. rewrite chi_rho_pi_theta_spec by done.
  rewrite to_list_iota, rndc_RC by done. reflexivity.
Qed.

Lemma length_Rnd l r : length (Rnd l r) = 25%nat.
Proof. unfold Rnd. apply length_to_list. Qed.

Lemma keccakf_spec l : length l = 25%nat -> sha3_keccakf l = keccak_f l /\ length (keccak_f l) = 25%nat.
Proof.
  intros Hl. apply (fold_left_ext_inv (fun l => length l = 25%nat) (fun r => (r < 24)%nat)); [done| |].
  - apply Forall_forall. intros r Hr%in_seq. lia.
  - intros l' r Hl' Hr. split; [by apply round_spec|apply length_Rnd].
Qed.

(** ** Absorbing bytes *)

Definition is_byte (d : Z) : Prop := is_u8 d.

Lemma is_byte_snoc b d : Forall is_byte b -> is_byte d -> Forall is_byte (b ++ [d]).
Proof. intros Hb Hd. apply Forall_app. split; [done|]. by apply Forall_singleton. Qed.

Lemma length_xor_at t a i : length (xor_at t a i) = length a.
Proof. apply length_insert. Qed.

Lemma word_xor_at t a i k : (i < length a)%nat ->
  word (xor_at t a i) k = if decide (k = i) then Z.lxor (word a i) t else word a k.
Proof.
  intros Hi. unfold xor_at, word. rewrite !nth_lookup. case_decide as E; subst.
  - by rewrite list_lookup_insert_eq.
  - by rewrite list_lookup_insert_ne.
Qed.

Lemma word_ext l k : length l = 25%nat -> length k = 25%nat ->
  (forall i, (i < 25)%nat -> word l i = word k i) -> l = k.
Proof. intros Hl Hk H. apply (nth_ext _ _ 0 0); [congruence|]. rewrite Hl. exact H. Qed.

Lemma word_xor_block l b i : (i < 25)%nat ->
  word (xor_block l b) i = Z.lxor (word l i) (bytes_lane (take 8 (drop (8 * i) b))).
Proof.
  intros Hi. unfold word at 1, xor_block.
  rewrite nth_lookup, list_lookup_fmap, lookup_seq_lt by done. done.
Qed.

Lemma length_xor_block l b : length (xor_block l b) = 25%nat.
Proof. reflexivity. Qed.

Lemma xor_block_nil l : length l = 25%nat -> xor_block l [] = l.
Proof.
  intros Hl. apply word_ext; [done..|]. intros i Hi. rewrite word_xor_block by done.
  rewrite drop_nil. apply Z.lxor_0_r.
Qed.

Lemma bytes_lane_app b d : bytes_lane (b ++ [d]) = bytes_lane b + 256 ^ Z.of_nat (length b) * d.
Proof.
  induction b as [|x b IH]; cbn [app bytes_lane fold_right]; [simpl; lia|].
  fold (bytes_lane (b ++ [d])). fold (bytes_lane b). rewrite IH. simpl length.
  rewrite Nat2Z.inj_succ, Z.pow_succ_r by lia. lia.
Qed.

Lemma bytes_lane_bound b : Forall is_byte b -> 0 <= bytes_lane b < 256 ^ Z.of_nat (length b).
Proof.
  induction 1 as [|x b Hx Hb IH]; cbn [bytes_lane fold_right]; [done|]. fold (bytes_lane b).
  unfold is_byte, is_u8 in Hx. simpl length. rewrite Nat2Z.inj_succ, Z.pow_succ_r by lia. lia.
Qed.

(** Appending a byte to a partial lane is an exclusive or. *)
Lemma bytes_lane_xor b d : Forall is_byte b ->
  bytes_lane (b ++ [d]) = Z.lxor (bytes_lane b) (Z.shiftl d (8 * Z.of_nat (length b))).
Proof.
  intros Hb. rewrite bytes_lane_app, Z.shiftl_mul_pow2, Z.pow_mul_r by lia. change (2 ^ 8) with 256.
  rewrite (Z.mul_comm d). pose proof (bytes_lane_bound b Hb) as Hbd.
  rewrite <- Z.add_nocarry_lxor; [done|]. rewrite Z.land_comm.
  replace 256 with (2 ^ 8) in * by done. rewrite <- Z.pow_mul_r in * by lia.
  set (k := 8 * Z.of_nat (length b)) in *. rewrite (Z.mul_comm (2 ^ k)), <- Z.shiftl_mul_pow2 by lia.
  apply Z.bits_inj'. intros i Hi. rewrite Z.land_spec, Z.testbit_0_l, Z.shiftl_spec by lia.
  destruct (decide (i < k)); [by rewrite Z.testbit_neg_r by lia|].
  by rewrite (testbit_high _ k i), andb_false_r by lia.
Qed.

(** One byte of the loop of [sha3_update]: it extends the pending block. *)
Lemma xor_byte_block l b d : length l = 25%nat -> (length b < 200)%nat -> Forall is_byte b ->
  xor_byte (xor_block l b) (length b) d = xor_block l (b ++ [d]).
Proof.
  intros Hl Hb Hby. apply word_ext; [by unfold xor_byte; rewrite length_xor_at|done|]. intros i Hi.
  pose proof (Nat.div_mod_eq (length b) 8) as Hdm. pose proof (Nat.mod_upper_bound (length b) 8 ltac:(lia)) as Hm.
  unfold xor_byte. rewrite word_xor_at by (rewrite length_xor_block; lia).
  rewrite !word_xor_block by lia. case_decide as E.
  - subst i. rewrite drop_app_le by lia.
    assert (length (drop (8 * (length b / 8)) b) = length b mod 8)%nat as Hlen by (rewrite length_drop; lia).
    rewrite !take_ge by (rewrite ?length_app, Hlen; simpl; lia).
    rewrite bytes_lane_xor by by apply Forall_drop. by rewrite Hlen, Z.lxor_assoc.
  - f_equal. f_equal. destruct (decide (i < length b / 8)%nat).
    + rewrite drop_app_le, take_app_le by (rewrite ?length_drop; lia). done.
    + rewrite !drop_ge by (rewrite ?length_app; simpl; lia). done.
Qed.

Lemma xor_byte_0 q j : xor_byte q j 0 = q.
Proof.
  unfold xor_byte, xor_at. rewrite Z.shiftl_0_l, Z.lxor_0_r. unfold word.
  destruct (decide (j / 8 < length q)%nat).
  - apply list_insert_id. rewrite nth_lookup. destruct (q !! (j / 8)%nat) eqn:E; [done|].
    apply lookup_ge_None in E. lia.
  - apply list_insert_ge. lia.
Qed.

Lemma xor_byte_twice q j d e : (j / 8 < length q)%nat ->
  xor_byte (xor_byte q j d) j e = xor_byte q j (Z.lxor d e).
Proof.
  intros Hj. unfold xor_byte. unfold xor_at at 1. rewrite word_xor_at by done.
  rewrite decide_True by done. unfold xor_at.
  rewrite list_insert_insert_eq, Z.lxor_assoc. f_equal. f_equal.
  apply Z.bits_inj'. intros i Hi. by rewrite Z.lxor_spec, !Z.shiftl_spec, Z.lxor_spec by lia.
Qed.

Lemma xor_block_zeros l b n : length l = 25%nat -> (length b + n <= 200)%nat -> Forall is_byte b ->
  xor_block l (b ++ replicate n 0) = xor_block l b.
Proof.
  intros Hl. revert b. induction n as [|n IH]; intros b Hb Hby; simpl; [by rewrite app_nil_r|].
  rewrite (cons_middle 0 b), app_assoc, IH.
  - rewrite <- xor_byte_block by (done || lia). apply xor_byte_0.
  - rewrite length_app. simpl. lia.
  - apply Forall_app. split; [done|]. by repeat constructor.
Qed.

(** ** The sponge *)

Section Sponge.
Context (R : nat) (HR : (2 <= R <= 200)%nat).

Lemma update_partial l b d : length l = 25%nat -> Forall is_byte b -> Forall is_byte d ->
  (length b + length d < R)%nat ->
  fold_left (update_step R) d (xor_block l b, length b) = (xor_block l (b ++ d), length (b ++ d)).
Proof using HR.
  intros Hl Hb Hd. revert b Hb. induction Hd as [|x d Hx Hd IH]; intros b Hb Hlen; simpl in *.
  { by rewrite app_nil_r. }
  rewrite xor_byte_block by (done || lia). destruct (Nat.leb_spec R (S (length b))); [lia|].
  replace (S (length b)) with (length (b ++ [x])) by (rewrite length_app; simpl; lia).
  rewrite IH; [by rewrite <- app_assoc| |rewrite length_app; simpl; lia].
  by apply is_byte_snoc.
Qed.

Lemma update_block l d : length l = 25%nat -> Forall is_byte d -> length d = R ->
  fold_left (update_step R) d (l, 0%nat) = (keccak_f (xor_block l d), 0%nat).
Proof using HR.
  intros Hl Hd Hlen. destruct (exists_last (l := d)) as (d' & x & ->); [by destruct d; simpl in *; [lia|]|].
  apply Forall_app in Hd as [Hd' Hx]. rewrite length_app in Hlen. simpl in Hlen.
  rewrite fold_left_app. rewrite <- (xor_block_nil l) at 1 by done.
  change 0%nat with (length (@nil Z)) at 1. rewrite update_partial by (done || simpl; lia). simpl.
  rewrite xor_byte_block by (done || lia). destruct (Nat.leb_spec R (S (length d'))); [|lia].
  by destruct (keccakf_spec (xor_block l (d' ++ [x])) (length_xor_block _ _)) as [-> _].
Qed.

(** The last block of a message shorter than the rate. *)
Lemma final_block l b : length l = 25%nat -> Forall is_byte b -> (length b < R)%nat ->
  xor_byte (xor_byte (xor_block l b) (length b) 0x06) (R - 1) 0x80 = xor_block l (pad R b).
Proof using HR.
  intros Hl Hb Hlen. unfold pad. rewrite Nat.mod_small by lia.
  assert (is_byte 6) as H6 by done.
  destruct (Nat.eqb_spec (R - length b) 1).
  - replace (R - 1)%nat with (length b) by lia. rewrite xor_byte_twice; [apply xor_byte_block; done || lia|].
    rewrite length_xor_block. apply Nat.Div0.div_lt_upper_bound. lia.
  - rewrite xor_byte_block by (done || lia).
    assert (Forall is_byte (b ++ [6])) as Hb6 by by apply is_byte_snoc.
    rewrite <- (xor_block_zeros l (b ++ [6]) (R - length b - 2)) by (done || rewrite length_app; simpl; lia).
    assert (length ((b ++ [6]) ++ replicate (R - length b - 2) 0) = (R - 1)%nat) as E
      by (rewrite !length_app, length_replicate; simpl; lia).
    rewrite <- E. rewrite xor_byte_block; [by rewrite <- !app_assoc|done|lia|].
    apply Forall_app. split; [done|]. apply Forall_replicate. done.
Qed.

Lemma absorb_step fuel l blk rest : length blk = R -> 
  absorb (S fuel) R l (blk ++ rest) = absorb fuel R (keccak_f (xor_block l blk)) rest.
Proof using HR.
  intros Hlen. cbn [absorb]. destruct (blk ++ rest) eqn:E; [destruct blk; simpl in *; [lia|done]|].
  rewrite <- E. by rewrite take_app_length', drop_app_length' by done.
Qed.

Lemma absorb_nil fuel l : absorb fuel R l [] = l.
Proof using HR. by destruct fuel. Qed.

Lemma length_pad b : (length b < R)%nat -> length (pad R b) = R.
Proof using HR.
  intros Hb. unfold pad. rewrite Nat.mod_small by lia. rewrite length_app.
  destruct (Nat.eqb_spec (R - length b) 1); simpl; [lia|]. rewrite length_app, length_replicate. simpl. lia.
Qed.

Lemma pad_block blk rest : length blk = R -> pad R (blk ++ rest) = blk ++ pad R rest.
Proof using HR.
  intros Hlen. unfold pad. rewrite <- app_assoc. do 2 f_equal. rewrite length_app, Hlen.
  replace (R + length rest)%nat with (length rest + 1 * R)%nat by lia.
  by rewrite Nat.Div0.mod_add.
Qed.

(** Absorbing a message of any length with the loop of [sha3_update] and the
    padding of [sha3_final]. *)
Lemma sponge_spec n msg l fuel : (length msg <= n)%nat -> length l = 25%nat -> Forall is_byte msg ->
  (length msg < fuel)%nat ->
  let '(q, j) := fold_left (update_step R) msg (l, 0%nat) in
  sha3_keccakf (xor_byte (xor_byte q j 0x06) (R - 1) 0x80) = absorb fuel R l (pad R msg) /\
  length (absorb fuel R l (pad R msg)) = 25%nat.
Proof using HR.
  revert msg l fuel. induction n as [n IH] using lt_wf_ind. intros msg l fuel Hn Hl Hmsg Hfuel.
  destruct (decide (length msg < R)%nat) as [Hshort|Hlong].
  - assert (fold_left (update_step R) msg (l, 0%nat) = (xor_block l msg, length msg)) as ->.
    { rewrite <- (xor_block_nil l) at 1 by done. by apply (update_partial l [] msg). }
    rewrite final_block by done.
    destruct fuel; [lia|]. rewrite <- (app_nil_r (pad R msg)), absorb_step, absorb_nil, app_nil_r
      by by apply length_pad.
    apply keccakf_spec, length_xor_block.
  - pose proof (take_drop R msg) as Hsplit.
    assert (length (take R msg) = R) as Htk by (rewrite length_take; lia).
    assert (length (drop R msg) = length msg - R)%nat as Hdr by apply length_drop.
    revert Hsplit. generalize dependent (drop R msg). generalize dependent (take R msg).
    intros blk Htk rest Hdr <-. rewrite length_app in *. apply Forall_app in Hmsg as [Hblk Hrest].
    rewrite fold_left_app, update_block by done. rewrite pad_block by done.
    destruct fuel; [lia|]. rewrite absorb_step by done.
    apply (IH (length rest)); [lia|lia| |done|lia].
    apply keccakf_spec, length_xor_block.
Qed.
End Sponge.

Lemma state_bytes_spec q : length q = 25%nat -> state_bytes q = map (st_byte q) (seq 0 200).
Proof.
  intros (a & b & c & d & e & f & g & h & i & j & k & m & n & o & p & s & r & t & u & v & w & x & y & z & z' & ->)%list25.
  cbv -[Z.land Z.shiftr]. reflexivity.
Qed.

Lemma sha3_update_app c d e : sha3_update c (d ++ e) = sha3_update (sha3_update c d) e.
Proof.
  unfold sha3_update. rewrite fold_left_app. by destruct (fold_left _ d _).
Qed.

Lemma sha3_update_nil c : sha3_update c [] = c.
Proof. by destruct c. Qed.

Lemma sha3_update_chunks c chunks : fold_left sha3_update chunks c = sha3_update c (concat chunks).
Proof.
  revert c. induction chunks as [|d chunks IH]; intros c; simpl; [by rewrite sha3_update_nil|].
  by rewrite IH, sha3_update_app.
Qed.

Lemma sha3_spec msg d : Forall is_byte msg -> (1 <= d <= 99)%nat -> sha3 msg d = SHA3 d msg.
Proof.
  intros Hmsg Hd. unfold sha3, SHA3, sha3_update, sha3_final, sha3_init. cbn [st pt rsiz mdlen].
  set (R := (200 - 2 * d)%nat). assert (2 <= R <= 200)%nat as HR by lia.
  assert (length msg < S (length (pad R msg)))%nat as Hf by (unfold pad; rewrite length_app; lia).
  pose proof (sponge_spec R HR (length msg) msg (replicate 25 0) (S (length (pad R msg))) (Nat.le_refl _)
    eq_refl Hmsg Hf) as Hsp.
  destruct (fold_left (update_step R) msg (replicate 25 0, 0%nat)) as [q j]. cbn [fst st pt rsiz mdlen].
  destruct Hsp as [-> Hlen]. rewrite state_bytes_spec by done.
  rewrite firstn_map, take_seq, Nat.min_l by lia. done.
Qed.

(** ** Theorems *)

(** the in-place loops of [sha3_keccakf] compute the permutation Keccak-f[1600]
    of FIPS 202, whose rotation offsets and round constants are derived here from
    the standard's recurrences. *)
Theorem sha3_keccakf_is_fips202 (q : list Z) :
  length q = 25%nat -> sha3_keccakf q = Fips202.keccak_f q.
Proof. apply keccakf_spec. Qed.

Lemma sha3_keccakf_is_fips202_witness :
  sha3_keccakf (replicate 25 1) = Fips202.keccak_f (replicate 25 1).
Proof. apply sha3_keccakf_is_fips202. reflexivity. Defined.

(** The length of a digest. *)
Lemma mdlen_update c l : mdlen (sha3_update c l) = mdlen c.
Proof. unfold sha3_update. by destruct (fold_left _ _ _). Qed.

Lemma length_sha3_final c : length (sha3_final c).1 = mdlen c.
Proof. unfold sha3_final. cbn [fst]. by rewrite length_map, length_seq. Qed.

(** C32: hashing a message in any number of pieces with [sha3_init], [sha3_update] and
    [sha3_final] gives SHA3 of the whole message: the padded message absorbed block
    by block, and the first bytes of the final state. *)
Theorem sha3_streaming_is_fips202 (chunks : list (list Z)) (d : nat) :
  Forall (Forall is_byte) chunks -> (1 <= d <= 99)%nat ->
  (sha3_final (fold_left sha3_update chunks (sha3_init d))).1 = Fips202.SHA3 d (concat chunks).
Proof.
  intros Hb Hd. rewrite sha3_update_chunks. apply (sha3_spec (concat chunks) d); [|done].
  induction Hb; simpl; [constructor|]. by apply Forall_app.
Qed.

Lemma sha3_streaming_is_fips202_witness :
  (sha3_final (fold_left sha3_update [[1; 2]; []; [3]] (sha3_init 64))).1 = Fips202.SHA3 64 [1; 2; 3].
Proof.
  apply (sha3_streaming_is_fips202 [[1; 2]; []; [3]] 64); [|lia].
  repeat constructor; discriminate.
Defined.

(** The digest of the empty message and of "abc" (FIPS 202 examples). *)
Example sha3_512_empty : take 8 (sha3 [] 64) = [0xa6; 0x9f; 0x73; 0xcc; 0xa2; 0x3a; 0x9a; 0xc5].
Proof. vm_compute. reflexivity. Qed.
Example sha3_512_abc : take 8 (sha3 [97; 98; 99] 64) = [0xb7; 0x51; 0x85; 0x0b; 0x1a; 0x57; 0x16; 0x8a].
Proof. vm_compute. reflexivity. Qed.
