(* ===== verification/Hkdf.v ===== *)
(** * HMAC and HKDF ([sm/src/hmac_sha3/hmac_sha3.c], [sm/src/hkdf_sha3_512/hkdf_sha3_512.c])

    The message authentication code and the key derivation function that sealing
    keys come from, against RFC 2104 and RFC 5869 over the SHA3-512 of [Sha3]. *)

From S2P Require Import Prelude Sha3.
From Stdlib Require Import ZArith Lia.
From stdpp Require Import base tactics list list_numbers numbers.
Local Open Scope Z_scope.

(** ** hmac_sha3.c *)

Definition SHA3_512_BLOCK_LEN : nat := 72.
Definition SHA3_512_HASH_LEN : nat := 64.

Record hmac_sha3_ctx_t : Type := mkHmac { sha3_ctx : sha3_ctx_t; hkey : list Z }.

Definition prepare_key (key : list Z) : list Z :=
  let new_key :=
    if (SHA3_512_BLOCK_LEN <? length key)%nat
    then (sha3_final (sha3_update (sha3_init SHA3_512_HASH_LEN) key)).1
    else key in
  let key_len := if (SHA3_512_BLOCK_LEN <? length key)%nat then SHA3_512_HASH_LEN else length key in
  new_key ++ replicate (SHA3_512_BLOCK_LEN - key_len) 0x00.

Definition hmac_sha3_init (key : list Z) : hmac_sha3_ctx_t :=
  let k := prepare_key key in
  let temp_key := map (fun b => Z.lxor b 0x36) k in
  mkHmac (sha3_update (sha3_init SHA3_512_HASH_LEN) temp_key) k.

Definition hmac_sha3_update (ctx : hmac_sha3_ctx_t) (text : list Z) : hmac_sha3_ctx_t :=
  if (0 <? length text)%nat then mkHmac (sha3_update (sha3_ctx ctx) text) (hkey ctx) else ctx.

Definition hmac_sha3_final (ctx : hmac_sha3_ctx_t) : list Z :=
  let inner_hash := (sha3_final (sha3_ctx ctx)).1 in
  let temp_key := map (fun b => Z.lxor b 0x5C) (hkey ctx) in
  let c := sha3_init SHA3_512_HASH_LEN in
  let c := sha3_update c temp_key in
  let c := sha3_update c inner_hash in
  (sha3_final c).1.

Definition hmac_sha3 (key text : list Z) : list Z :=
  let ctx := hmac_sha3_init key in
  let ctx := hmac_sha3_update ctx text in
  hmac_sha3_final ctx.

(** ** hkdf_sha3_512.c *)

Definition div_ceil (op1 op2 : Z) : Z :=
  if Z.rem op1 op2 =? 0 then Z.quot op1 op2 else Z.quot op1 op2 + 1.

(** [sbi_memcpy(okm + off, src, len)] into a buffer: writing outside it is
    undefined. *)
Definition write_okm (okm : list Z) (off : Z) (src : list Z) : option (list Z) :=
  if (0 <=? off) && (off + Z.of_nat (length src) <=? Z.of_nat (length okm)) then
    let o := Z.to_nat off in
    Some (take o okm ++ src ++ drop (o + length src) okm)
  else None.

(** [for (unsigned char i = 1; i <= n; i++)]: the counter wraps at 256.  [Hang]
    stands for a loop that needs more than [fuel] iterations. *)
Fixpoint expand_loop (fuel : nat) (prk info : list Z) (n okm_len i : Z) (t okm : list Z) :
    outcome (list Z) :=
  match fuel with
  | O => Hang
  | S fuel' =>
      if i <=? n then
        let ctx := hmac_sha3_init prk in
        let ctx := if 1 <? i then hmac_sha3_update ctx t else ctx in
        let ctx := hmac_sha3_update ctx info in
        let ctx := hmac_sha3_update ctx [i] in
        let t := hmac_sha3_final ctx in
        let off := (i - 1) * Z.of_nat SHA3_512_HASH_LEN in
        match write_okm okm off (if i <? n then t else take (Z.to_nat (okm_len - off)) t) with
        | Some okm => expand_loop fuel' prk info n okm_len (u8 (i + 1)) t okm
        | None => UB
        end
      else Ok okm
  end.

(** The buffer [okm] has [okm_len] bytes; [t] is uninitialised at first. *)
Definition hkdf_expand (prk info t okm : list Z) : outcome (Z * list Z) :=
  let okm_len := Z.of_nat (length okm) in
  let n := div_ceil okm_len (Z.of_nat SHA3_512_HASH_LEN) in
  if (length prk <? SHA3_512_HASH_LEN)%nat then Ok (-1, okm) else
  if 255 * Z.of_nat SHA3_512_HASH_LEN <? okm_len then Ok (-1, okm) else
  match expand_loop 300 prk info n okm_len 1 t okm with
  | Ok okm => Ok (0, okm)
  | Hang => Hang
  | UB => UB
  end.

(** A missing salt is [None]. *)
Definition hkdf_extract (salt : option (list Z)) (ikm : list Z) : list Z :=
  let salt := match salt with
              | None | Some [] => replicate SHA3_512_HASH_LEN 0x00
              | Some s => s
              end in
  hmac_sha3 salt ikm.

Definition hkdf_sha3_512 (salt : option (list Z)) (ikm info t okm : list Z) : outcome (Z * list Z) :=
  if 255 * Z.of_nat SHA3_512_HASH_LEN <? Z.of_nat (length okm) then Ok (-1, okm) else
  let prk := hkdf_extract salt ikm in
  hkdf_expand prk info t okm.

(** ** The references *)

Module Rfc2104.
Definition H (msg : list Z) : list Z := Fips202.SHA3 64 msg.
Definition B : nat := 72.
Definition block_key (K : list Z) : list Z :=
  let K := if (B <? length K)%nat then H K else K in K ++ replicate (B - length K) 0.
Definition xor_pad (K : list Z) (p : Z) : list Z := map (fun b => Z.lxor b p) K.
Definition HMAC (K text : list Z) : list Z :=
  H (xor_pad (block_key K) 0x5c ++ H (xor_pad (block_key K) 0x36 ++ text)).
End Rfc2104.

Module Rfc5869.
Import Rfc2104.
Definition HKDF_Extract (salt : option (list Z)) (IKM : list Z) : list Z :=
  HMAC (match salt with None | Some [] => replicate 64 0 | Some s => s end) IKM.
(** [T(i)], with [T(0)] the empty string. *)
Fixpoint T (PRK info : list Z) (i : nat) : list Z :=
  match i with
  | O => []
  | S j => HMAC PRK (T PRK info j ++ info ++ [Z.of_nat i])
  end.
Definition N (L : nat) : nat := ((L + 63) / 64)%nat.
Definition HKDF_Expand (PRK info : list Z) (L : nat) : list Z :=
  take L (flat_map (T PRK info) (seq 1 (N L))).
Definition HKDF (salt : option (list Z)) (IKM info : list Z) (L : nat) : list Z :=
  HKDF_Expand (HKDF_Extract salt IKM) info L.
End Rfc5869.

Import Rfc2104 Rfc5869.

(** ** HMAC *)

Definition bytes (l : list Z) : Prop := Forall is_byte l.

Lemma sha3_H msg : bytes msg -> (sha3_final (sha3_update (sha3_init SHA3_512_HASH_LEN) msg)).1 = H msg.
Proof. intros Hm. apply (sha3_spec msg 64); [done|lia]. Qed.

Lemma H_length msg : bytes msg -> length (H msg) = 64%nat.
Proof.
  intros Hm. rewrite <- sha3_H by done. unfold sha3_final, sha3_update. destruct (fold_left _ _ _).
  cbn [fst mdlen]. by rewrite length_map, length_seq.
Qed.

Lemma H_bytes msg : bytes msg -> bytes (H msg).
Proof.
  intros Hm. rewrite <- sha3_H by done. unfold sha3_final, sha3_update, bytes. destruct (fold_left _ _ _).
  cbn [fst mdlen]. apply Forall_forall. intros b (j & <- & _)%in_map_iff. unfold st_byte, is_byte, is_u8.
  change 0xff with (2 ^ 8 - 1). rewrite land_pow2_sub1 by lia. apply Z.mod_pos_bound. lia.
Qed.

Lemma xor_pad_bytes K p : is_byte p -> bytes K -> bytes (xor_pad K p).
Proof.
  intros Hp HK. unfold bytes, xor_pad. apply Forall_map. eapply List.Forall_impl; [|exact HK].
  intros b Hb. unfold is_byte, is_u8 in *.
  assert (0 <= Z.lxor b p) by (apply Z.lxor_nonneg; lia). split; [done|].
  apply bits_bound; [lia|done|]. intros i Hi.
  by rewrite Z.lxor_spec, (testbit_high b 8), (testbit_high p 8).
Qed.

Lemma block_key_bytes K : bytes K -> bytes (block_key K).
Proof.
  intros HK. unfold block_key, bytes. apply Forall_app. split.
  - case_match; [by apply H_bytes|done].
  - apply Forall_replicate. done.
Qed.

Lemma prepare_key_spec K : bytes K -> prepare_key K = block_key K.
Proof.
  intros HK. unfold prepare_key, block_key, SHA3_512_BLOCK_LEN, B. rewrite sha3_H by done.
  case_match; [|done]. by rewrite H_length.
Qed.

Lemma hmac_update_spec c k text :
  hmac_sha3_update (mkHmac c k) text = mkHmac (sha3_update c text) k.
Proof.
  unfold hmac_sha3_update. destruct text; simpl; [|done]. by rewrite sha3_update_nil.
Qed.

(** The MAC of a message given in pieces. *)
Lemma hmac_stream_spec K chunks : bytes K -> Forall bytes chunks ->
  hmac_sha3_final (fold_left hmac_sha3_update chunks (hmac_sha3_init K)) = HMAC K (concat chunks).
Proof.
  intros HK Hc. unfold hmac_sha3_init. rewrite prepare_key_spec by done.
  pose proof (block_key_bytes K HK) as Hbk.
  assert (bytes (concat chunks)) as Hcc by (induction Hc; [constructor|by apply Forall_app]).
  assert (forall c k, fold_left hmac_sha3_update chunks (mkHmac c k) = mkHmac (fold_left sha3_update chunks c) k) as ->.
  { clear. induction chunks as [|d l IH]; intros c k; simpl; [done|]. by rewrite hmac_update_spec, IH. }
  rewrite sha3_update_chunks, <- sha3_update_app. unfold hmac_sha3_final. cbn [sha3_ctx hkey].
  rewrite <- sha3_update_app.
  assert (bytes (xor_pad (block_key K) 0x36 ++ concat chunks)) as Hin
    by (apply Forall_app; split; [by apply xor_pad_bytes|done]).
  fold (xor_pad (block_key K) 0x36). fold (xor_pad (block_key K) 0x5c).
  rewrite (sha3_H (xor_pad (block_key K) 0x36 ++ concat chunks)) by done. rewrite sha3_H; [done|].
  apply Forall_app. split; [by apply xor_pad_bytes|by apply H_bytes].
Qed.

Lemma HMAC_length K text : bytes K -> bytes text -> length (HMAC K text) = 64%nat.
Proof.
  intros HK Ht. unfold HMAC. pose proof (block_key_bytes K HK). apply H_length, Forall_app.
  split; [by apply xor_pad_bytes|]. apply H_bytes, Forall_app. split; [by apply xor_pad_bytes|done].
Qed.

Lemma HMAC_bytes K text : bytes K -> bytes text -> bytes (HMAC K text).
Proof.
  intros HK Ht. unfold HMAC. pose proof (block_key_bytes K HK). apply H_bytes, Forall_app.
  split; [by apply xor_pad_bytes|]. apply H_bytes, Forall_app. split; [by apply xor_pad_bytes|done].
Qed.

(** ** HKDF *)

Section Expand.
Context (prk info : list Z) (Hprk : bytes prk) (Hinfo : bytes info).

Lemma T_bytes i : (i < 256)%nat -> bytes (T prk info i).
Proof using Hprk Hinfo.
  induction i as [|i IH]; intros Hi; [constructor|]. cbn [T]. apply HMAC_bytes; [done|].
  apply Forall_app. split; [apply IH; lia|]. apply Forall_app. split; [done|].
  apply Forall_singleton. unfold is_byte, is_u8. lia.
Qed.

Lemma T_length i : (0 < i < 256)%nat -> length (T prk info i) = 64%nat.
Proof using Hprk Hinfo.
  intros Hi. destruct i as [|i]; [lia|]. cbn [T]. apply HMAC_length; [done|].
  apply Forall_app. split; [apply T_bytes; lia|]. apply Forall_app. split; [done|].
  apply Forall_singleton. unfold is_byte, is_u8. lia.
Qed.

(** The body of the loop computes [T(i)] from [T(i - 1)]. *)
Lemma expand_body_T i t : (0 < i < 256)%nat -> ((1 < i)%nat -> t = T prk info (i - 1)) ->
  hmac_sha3_final (hmac_sha3_update (hmac_sha3_update
    (if 1 <? Z.of_nat i then hmac_sha3_update (hmac_sha3_init prk) t else hmac_sha3_init prk) info)
    [Z.of_nat i]) = T prk info i.
Proof using Hprk Hinfo.
  intros Hi Ht. assert (bytes [Z.of_nat i]) as Hib by (apply Forall_singleton; unfold is_byte, is_u8; lia).
  destruct i as [|i]; [lia|]. cbn [T]. destruct (Z.ltb_spec 1 (Z.of_nat (S i))).
  - rewrite Ht by lia. replace (S i - 1)%nat with i by lia.
    pose proof (hmac_stream_spec prk [T prk info i; info; [Z.of_nat (S i)]] Hprk) as Hs.
    cbn [fold_left concat] in Hs. rewrite app_nil_r in Hs. apply Hs.
    constructor; [apply T_bytes; lia|]. constructor; [done|]. by apply Forall_singleton.
  - assert (i = 0%nat) as -> by lia. pose proof (hmac_stream_spec prk [info; [1]] Hprk) as Hs.
    cbn [fold_left concat app] in Hs. apply Hs.
    constructor; [done|]. by apply Forall_singleton.
Qed.
End Expand.

Lemma div_ceil_N L : div_ceil (Z.of_nat L) 64 = Z.of_nat (N L).
Proof.
  unfold div_ceil, N. rewrite Z.rem_mod_nonneg, Z.quot_div_nonneg by lia.
  rewrite Nat2Z.inj_div, Nat2Z.inj_add. destruct (Z.eqb_spec (Z.of_nat L mod 64) 0); mlia.
Qed.

(** Writing at the end of what is already in place. *)
Lemma write_okm_spec okm off src :
  (off + length src <= length okm)%nat ->
  write_okm okm (Z.of_nat off) src = Some (take off okm ++ src ++ drop (off + length src) okm).
Proof.
  intros Hle. unfold write_okm. rewrite Nat2Z.id.
  by destruct (Z.leb_spec 0 (Z.of_nat off)), (Z.leb_spec (Z.of_nat off + Z.of_nat (length src)) (Z.of_nat (length okm)));
    simpl; try lia.
Qed.

Lemma length_concat_T prk info k : bytes prk -> bytes info -> (k < 256)%nat ->
  length (flat_map (T prk info) (seq 1 k)) = (64 * k)%nat.
Proof.
  intros Hp Hi Hk. induction k as [|k IH]; [done|].
  rewrite seq_S, flat_map_app, length_app, IH by lia. cbn [flat_map]. rewrite app_nil_r.
  rewrite T_length by (done || lia). lia.
Qed.

Lemma expand_loop_stop fuel prk info n L i t okm : n < i -> expand_loop (S fuel) prk info n L i t okm = Ok okm.
Proof. intros Hi. cbn [expand_loop]. destruct (Z.leb_spec i n); [lia|done]. Qed.

Section ExpandLoop.
Context (prk info : list Z) (Hp : bytes prk) (Hinfo : bytes info) (L : nat).

(** The first [k] blocks. *)
Definition blocks (k : nat) : list Z := flat_map (T prk info) (seq 1 k).

Lemma N_spec : (L <= 64 * N L < L + 64)%nat.
Proof using.
  unfold N. pose proof (Nat.div_mod_eq (L + 63) 64). pose proof (Nat.mod_upper_bound (L + 63) 64). lia.
Qed.

Lemma blocks_S k : blocks (S k) = blocks k ++ T prk info (S k).
Proof using. unfold blocks. rewrite seq_S, flat_map_app. cbn [flat_map]. by rewrite app_nil_r. Qed.

(** A round before the last one puts the next block in place. *)
Lemma expand_step fuel k t rest :
  (S k < N L <= 255)%nat -> ((0 < k)%nat -> t = T prk info k) -> (64 * k + length rest = L)%nat ->
  expand_loop (S fuel) prk info (Z.of_nat (N L)) (Z.of_nat L) (Z.of_nat (S k)) t (blocks k ++ rest) =
  expand_loop fuel prk info (Z.of_nat (N L)) (Z.of_nat L) (Z.of_nat (S (S k))) (T prk info (S k))
    (blocks (S k) ++ drop 64 rest).
Proof using Hp Hinfo.
  intros Hk Ht Hlen. pose proof N_spec. cbn [expand_loop].
  destruct (Z.leb_spec (Z.of_nat (S k)) (Z.of_nat (N L))); [|lia].
  rewrite expand_body_T by (done || lia || intros; rewrite Ht by lia; f_equal; lia).
  pose proof (length_concat_T prk info k Hp Hinfo ltac:(lia)) as Hdone. fold (blocks k) in Hdone.
  pose proof (T_length prk info Hp Hinfo (S k) ltac:(lia)) as HTl.
  replace ((Z.of_nat (S k) - 1) * Z.of_nat SHA3_512_HASH_LEN) with (Z.of_nat (64 * k))
    by (unfold SHA3_512_HASH_LEN; lia).
  replace (u8 (Z.of_nat (S k) + 1)) with (Z.of_nat (S (S k))) by (unfold u8; rewrite Z.mod_small; lia).
  destruct (Z.ltb_spec (Z.of_nat (S k)) (Z.of_nat (N L))); [|lia].
  rewrite write_okm_spec by (rewrite length_app, Hdone; lia).
  by rewrite take_app_length', <- drop_drop, drop_app_length', app_assoc, <- blocks_S, HTl by lia.
Qed.

(** The last round fills the buffer and increments the 8-bit counter. *)
Lemma expand_last fuel k t rest :
  (S k = N L)%nat -> (N L <= 255)%nat -> ((0 < k)%nat -> t = T prk info k) -> (64 * k + length rest = L)%nat ->
  expand_loop (S fuel) prk info (Z.of_nat (N L)) (Z.of_nat L) (Z.of_nat (S k)) t (blocks k ++ rest) =
  expand_loop fuel prk info (Z.of_nat (N L)) (Z.of_nat L) (u8 (Z.of_nat (N L) + 1)) (T prk info (S k))
    (HKDF_Expand prk info L).
Proof using Hp Hinfo.
  intros Hk Hk' Ht Hlen. pose proof N_spec. cbn [expand_loop].
  destruct (Z.leb_spec (Z.of_nat (S k)) (Z.of_nat (N L))); [|lia].
  rewrite expand_body_T by (done || lia || intros; rewrite Ht by lia; f_equal; lia).
  pose proof (length_concat_T prk info k Hp Hinfo ltac:(lia)) as Hdone. fold (blocks k) in Hdone.
  pose proof (T_length prk info Hp Hinfo (S k) ltac:(lia)) as HTl.
  replace ((Z.of_nat (S k) - 1) * Z.of_nat SHA3_512_HASH_LEN) with (Z.of_nat (64 * k))
    by (unfold SHA3_512_HASH_LEN; lia).
  destruct (Z.ltb_spec (Z.of_nat (S k)) (Z.of_nat (N L))); [lia|].
  replace (Z.to_nat (Z.of_nat L - Z.of_nat (64 * k))) with (length rest) by lia.
  assert (length (take (length rest) (T prk info (S k))) = length rest) as Hlt by (rewrite length_take; lia).
  rewrite write_okm_spec by (rewrite length_app, Hdone, Hlt; lia).
  rewrite take_app_length', <- drop_drop, drop_app_length', Hlt, drop_all, app_nil_r by lia.
  replace (Z.of_nat (S k)) with (Z.of_nat (N L)) by lia. f_equal.
  unfold HKDF_Expand. rewrite <- Hk. fold (blocks (S k)). rewrite blocks_S, take_app_ge by lia.
  do 2 f_equal. lia.
Qed.

(** All rounds up to the increment after the last one. *)
Lemma expand_all fuel k t rest : (k < N L <= 255)%nat -> ((0 < k)%nat -> t = T prk info k) ->
  (64 * k + length rest = L)%nat ->
  expand_loop (fuel + (N L - k)) prk info (Z.of_nat (N L)) (Z.of_nat L) (Z.of_nat (S k)) t (blocks k ++ rest) =
  expand_loop fuel prk info (Z.of_nat (N L)) (Z.of_nat L) (u8 (Z.of_nat (N L) + 1)) (T prk info (N L))
    (HKDF_Expand prk info L).
Proof using Hp Hinfo.
  remember (N L - k)%nat as m eqn:Hm. revert k t rest Hm.
  induction m as [|m IH]; intros k t rest Hm Hk Ht Hlen; [lia|]. pose proof N_spec.
  replace (fuel + S m)%nat with (S (fuel + m)) by lia. destruct (decide (m = 0)%nat) as [->|].
  - rewrite expand_last by (done || lia). rewrite Nat.add_0_r. by replace (S k) with (N L) by lia.
  - rewrite expand_step by (done || lia). apply IH; [lia|lia|done|]. rewrite length_drop. lia.
Qed.
End ExpandLoop.

Lemma N_bound L : (L <= 254 * 64)%nat -> (N L <= 254)%nat.
Proof. intros HL. unfold N. apply Nat.lt_succ_r, Nat.Div0.div_lt_upper_bound. lia. Qed.

Lemma hkdf_expand_spec prk info t okm :
  bytes prk -> bytes info -> (64 <= length prk)%nat -> (length okm <= 254 * 64)%nat ->
  hkdf_expand prk info t okm = Ok (0, HKDF_Expand prk info (length okm)).
Proof.
  intros Hp Hi Hprk HL. unfold hkdf_expand, SHA3_512_HASH_LEN.
  destruct (Nat.ltb_spec (length prk) 64); [lia|]. destruct (Z.ltb_spec (255 * Z.of_nat 64) (Z.of_nat (length okm))); [lia|].
  change (Z.of_nat 64) with 64. rewrite div_ceil_N. pose proof (N_bound (length okm) HL).
  destruct (decide (N (length okm) = 0%nat)) as [E|].
  - rewrite E, (expand_loop_stop 299) by lia. unfold HKDF_Expand. rewrite E. cbn [seq flat_map]. rewrite take_nil.
    destruct okm; [done|]. unfold N in E. apply Nat.div_small_iff in E; simpl in E; lia.
  - pose proof (expand_all prk info Hp Hi (length okm) (300 - N (length okm)) 0 t okm) as Hall.
    change (blocks prk info 0 ++ okm) with okm in Hall. rewrite Nat.sub_0_r, Nat.sub_add in Hall by lia.
    change (Z.of_nat 1) with 1 in Hall. rewrite Hall by lia. replace (300 - N (length okm))%nat with (S (299 - N (length okm))) by lia.
    rewrite expand_loop_stop; [done|]. unfold u8. rewrite Z.mod_small; lia.
Qed.

Lemma hkdf_extract_spec salt ikm :
  bytes ikm -> (forall s, salt = Some s -> bytes s) -> hkdf_extract salt ikm = HKDF_Extract salt ikm.
Proof.
  intros Hi Hs. unfold hkdf_extract, HKDF_Extract, hmac_sha3.
  set (s := match salt with None | Some [] => _ | Some s => s end).
  assert (bytes s) as Hsb.
  { unfold s. destruct salt as [[|x l]|]; [apply Forall_replicate; done|by apply Hs|apply Forall_replicate; done]. }
  pose proof (hmac_stream_spec s [ikm] Hsb) as Hh. cbn [fold_left concat] in Hh. rewrite app_nil_r in Hh.
  apply Hh.
  by apply Forall_singleton.
Qed.

(** ** Theorems *)

(** [hmac_sha3_init], [hmac_sha3_update] on the pieces of a message in turn and
    [hmac_sha3_final] compute the HMAC of RFC 2104 over SHA3-512, for keys and
    messages of any length. *)
Theorem hmac_sha3_is_rfc2104 (key : list Z) (chunks : list (list Z)) :
  bytes key -> Forall bytes chunks ->
  hmac_sha3_final (fold_left hmac_sha3_update chunks (hmac_sha3_init key)) = Rfc2104.HMAC key (concat chunks).
Proof. apply hmac_stream_spec. Qed.

Lemma hmac_sha3_is_rfc2104_witness :
  hmac_sha3_final (fold_left hmac_sha3_update [[1]; []; [2; 3]] (hmac_sha3_init [9; 8])) =
  Rfc2104.HMAC [9; 8] [1; 2; 3].
Proof.
  apply (hmac_sha3_is_rfc2104 [9; 8] [[1]; []; [2; 3]]); repeat constructor; discriminate.
Defined.

(** C33: [hkdf_sha3_512] returns 0 and fills the buffer with the output of RFC 5869's
    HKDF over SHA3-512 for every salt, key and context, whatever the buffers held,
    when at most 254 blocks are asked for. *)
Theorem hkdf_sha3_512_is_rfc5869 salt ikm info t okm :
  bytes ikm -> bytes info -> (forall s, salt = Some s -> bytes s) -> (length okm <= 254 * 64)%nat ->
  hkdf_sha3_512 salt ikm info t okm = Ok (0, Rfc5869.HKDF salt ikm info (length okm)).
Proof.
  intros Hk Hi Hs HL. unfold hkdf_sha3_512, SHA3_512_HASH_LEN.
  destruct (Z.ltb_spec (255 * Z.of_nat 64) (Z.of_nat (length okm))); [lia|].
  rewrite hkdf_extract_spec by done.
  assert (bytes (match salt with None | Some [] => replicate 64 0 | Some s => s end)) as Hsb.
  { destruct salt as [[|x l]|]; [apply Forall_replicate; done|by apply Hs|apply Forall_replicate; done]. }
  apply hkdf_expand_spec; [by apply HMAC_bytes|done| |done].
  unfold HKDF_Extract. rewrite HMAC_length by done. lia.
Qed.

Lemma hkdf_sha3_512_is_rfc5869_witness :
  hkdf_sha3_512 None [1; 2] [3] [] (replicate 100 0) = Ok (0, Rfc5869.HKDF None [1; 2] [3] 100).
Proof.
  apply (hkdf_sha3_512_is_rfc5869 None [1; 2] [3] [] (replicate 100 0)).
  - repeat constructor; discriminate.
  - repeat constructor; discriminate.
  - discriminate.
  - rewrite length_replicate. lia.
Defined.

(** a request for 255 blocks, which the length check lets through, never ends
    well: the 8-bit loop counter wraps to 0 after block 255 and the next block is
    written below the start of the output buffer. *)
Theorem hkdf_expand_255_blocks_undefined prk info t okm :
  bytes prk -> bytes info -> (64 <= length prk)%nat -> (254 * 64 < length okm <= 255 * 64)%nat ->
  hkdf_expand prk info t okm = UB.
Proof.
  intros Hp Hi Hprk HL. unfold hkdf_expand, SHA3_512_HASH_LEN.
  destruct (Nat.ltb_spec (length prk) 64); [lia|]. destruct (Z.ltb_spec (255 * Z.of_nat 64) (Z.of_nat (length okm))); [lia|].
  change (Z.of_nat 64) with 64. rewrite div_ceil_N.
  pose proof (N_spec (length okm)).
  assert (N (length okm) = 255%nat) as EN by lia.
  pose proof (expand_all prk info Hp Hi (length okm) 45 0 t okm) as Hall.
  change (blocks prk info 0 ++ okm) with okm in Hall. rewrite EN in *.
  change (45 + (255 - 0))%nat with 300%nat in Hall. change (Z.of_nat 1) with 1 in Hall. rewrite Hall by lia.
  change (u8 (Z.of_nat 255 + 1)) with 0. cbn [expand_loop]. done.
Qed.

Lemma hkdf_expand_255_blocks_undefined_witness :
  hkdf_expand (replicate 64 0) [] [] (replicate (255 * 64) 0) = UB.
Proof.
  apply hkdf_expand_255_blocks_undefined.
  - apply Forall_replicate. split; [discriminate|reflexivity].
  - constructor.
  - rewrite length_replicate. lia.
  - rewrite length_replicate. lia.
Defined.
