(* ===== verification/Thread.v ===== *)
(** * Thread state and context switches ([sm/src/thread.h], [sm/src/thread.c])

    The registers of a trap frame, the supervisor CSRs of a hart, and the swaps
    that exchange them with the saved state of an enclave thread.  A CSR is a
    64-bit cell that reads back what was written, except [sip], which shows the
    delegated bits of [mip] and writes one of them only. *)

From S2P Require Import Prelude SmDefs.
From Stdlib Require Import ZArith Lia.
From stdpp Require Import base tactics list list_numbers numbers.
Local Open Scope Z_scope.

(** ** Registers *)

(** [struct sbi_trap_regs]: the 32 general registers in order (slot 0 is the field
    [zero]), then [mepc] and [mstatus]. *)
Record sbi_trap_regs : Type := mkRegs { gpr : list Z; mepc : Z; mstatus : Z }.

Definition reg (r : sbi_trap_regs) (i : nat) : Z := nth i (gpr r) 0.
Definition set_reg (i : nat) (v : Z) (r : sbi_trap_regs) : sbi_trap_regs :=
  mkRegs (<[i := v]> (gpr r)) (mepc r) (mstatus r).
Definition set_mepc (v : Z) (r : sbi_trap_regs) : sbi_trap_regs := mkRegs (gpr r) v (mstatus r).
Definition set_mstatus (v : Z) (r : sbi_trap_regs) : sbi_trap_regs := mkRegs (gpr r) (mepc r) v.

(** The positions of the argument registers in the frame. *)
Definition REG_ZERO : nat := 0.
Definition REG_A0 : nat := 10.
Definition REG_A1 : nat := 11.
Definition REG_A2 : nat := 12.
Definition REG_A3 : nat := 13.
Definition REG_A4 : nat := 14.
Definition REG_A5 : nat := 15.
Definition REG_A6 : nat := 16.
Definition REG_A7 : nat := 17.

(** [struct csrs]. *)
Record csrs : Type := mkSCsrs {
  sstatus : Z;
  sedeleg : Z;
  sideleg : Z;
  sie : Z;
  stvec : Z;
  scounteren : Z;
  sscratch : Z;
  sepc : Z;
  scause : Z;
  sbadaddr : Z;
  sip : Z;
  satp : Z
}.

(** The two trap vectors [mtvec] can hold. *)
Inductive trap_vector : Type := trap_vector_enclave | trap_handler_host.
#[export] Instance trap_vector_eq_dec : EqDecision trap_vector.
Proof. solve_decision. Defined.

(** The supervisor CSRs of a hart that have a cell of their own. *)
Record smode_csrs : Type := mkSmode {
  h_sstatus : Z;
  h_sie : Z;
  h_stvec : Z;
  h_scounteren : Z;
  h_sscratch : Z;
  h_sepc : Z;
  h_scause : Z;
  h_sbadaddr : Z;
  h_satp : Z
}.

(** The CSRs of a hart that the security monitor reads or writes. *)
Record hart_csrs : Type := mkHart {
  smode : smode_csrs;
  mideleg : Z;
  mtvec : trap_vector;
  mip : Z
}.
Definition set_smode (c : smode_csrs) (h : hart_csrs) : hart_csrs := mkHart c (mideleg h) (mtvec h) (mip h).
Definition set_mideleg (v : Z) (h : hart_csrs) : hart_csrs := mkHart (smode h) v (mtvec h) (mip h).
Definition set_mtvec (v : trap_vector) (h : hart_csrs) : hart_csrs := mkHart (smode h) (mideleg h) v (mip h).
Definition set_mip (v : Z) (h : hart_csrs) : hart_csrs := mkHart (smode h) (mideleg h) (mtvec h) v.

(** [csr_write(satp, v)]. *)
Definition set_satp (v : Z) (h : hart_csrs) : hart_csrs :=
  let c := smode h in
  set_smode (mkSmode (h_sstatus c) (h_sie c) (h_stvec c) (h_scounteren c) (h_sscratch c) (h_sepc c) (h_scause c)
               (h_sbadaddr c) v) h.

(** The interrupt-pending bits. *)
Definition MIP_SSIP : Z := Z.shiftl 1 1.
Definition MIP_MSIP : Z := Z.shiftl 1 3.
Definition MIP_STIP : Z := Z.shiftl 1 5.
Definition MIP_MTIP : Z := Z.shiftl 1 7.
Definition MIP_SEIP : Z := Z.shiftl 1 9.
Definition MIP_MEIP : Z := Z.shiftl 1 11.

(** [sip] shows the bits of [mip] that are delegated to supervisor mode; of these, a write through
    [sip] changes only the software interrupt. *)
Definition read_sip (h : hart_csrs) : Z := Z.land (mip h) (mideleg h).
Definition write_sip (v : Z) (h : hart_csrs) : hart_csrs :=
  let w := Z.land (mideleg h) MIP_SSIP in
  set_mip (Z.lor (Z.ldiff (mip h) w) (Z.land v w)) h.

(** [struct thread_state]. *)
Record thread_state : Type := mkThread {
  prev_mpp : Z;
  prev_mepc : Z;
  prev_mstatus : Z;
  prev_csrs : csrs;
  prev_state : list Z
}.

(** ** thread.c *)

Definition switch_vector_enclave (h : hart_csrs) : hart_csrs := set_mtvec trap_vector_enclave h.
Definition switch_vector_host (h : hart_csrs) : hart_csrs := set_mtvec trap_handler_host h.

(** The fields of [mstatus] (RISC-V privileged architecture). *)
Definition MSTATUS_SIE : Z := 0x00000002.
Definition MSTATUS_SPIE : Z := 0x00000020.
Definition MSTATUS_SPP : Z := 0x00000100.
Definition MSTATUS_MPP_SHIFT : Z := 11.
Definition MSTATUS_MPP : Z := 0x00001800.
Definition MSTATUS_FS : Z := 0x00006000.
Definition MSTATUS_SUM : Z := 0x00040000.
Definition MSTATUS_MXR : Z := 0x00080000.
Definition mstatus_mask : Z :=
  Z.lor (Z.lor (Z.lor (Z.lor (Z.lor (Z.lor MSTATUS_SIE MSTATUS_SPIE) MSTATUS_SPP) MSTATUS_MPP) MSTATUS_FS)
    MSTATUS_SUM) MSTATUS_MXR.

Definition swap_prev_mstatus (thread : thread_state) (regs : sbi_trap_regs) (current_mstatus : Z) :
    thread_state * sbi_trap_regs :=
  let tmp := prev_mstatus thread in
  (mkThread (prev_mpp thread) (prev_mepc thread)
     (Z.lor (Z.land current_mstatus (not64 mstatus_mask)) (Z.land current_mstatus mstatus_mask))
     (prev_csrs thread) (prev_state thread),
   set_mstatus (Z.lor (Z.land current_mstatus (not64 mstatus_mask)) tmp) regs).

(** [LOCAL_SWAP_CSR] on each CSR in turn; [sedeleg] and [sideleg] stay. *)
Definition swap_prev_smode_csrs (thread : thread_state) (h : hart_csrs) : thread_state * hart_csrs :=
  let p := prev_csrs thread in
  let c := smode h in
  (mkThread (prev_mpp thread) (prev_mepc thread) (prev_mstatus thread)
     (mkSCsrs (h_sstatus c) (sedeleg p) (sideleg p) (h_sie c) (h_stvec c) (h_scounteren c) (h_sscratch c) (h_sepc c)
        (h_scause c) (h_sbadaddr c) (read_sip h) (h_satp c))
     (prev_state thread),
   write_sip (sip p)
     (set_smode (mkSmode (sstatus p) (sie p) (stvec p) (scounteren p) (sscratch p) (sepc p) (scause p) (sbadaddr p)
        (satp p)) h)).

(** The swap loop over the 32 slots. *)
Fixpoint swap_loop (n : nat) (prev regs : list Z) : list Z * list Z :=
  match n with
  | O => (prev, regs)
  | S n' =>
      let '(prev, regs) := swap_loop n' prev regs in
      let tmp := nth n' prev 0 in
      (<[n' := nth n' regs 0]> prev, <[n' := tmp]> regs)
  end.

Definition swap_prev_state (thread : thread_state) (regs : sbi_trap_regs) (h : hart_csrs)
    (return_on_resume : bool) : thread_state * sbi_trap_regs * hart_csrs :=
  let '(prev, g) := swap_loop 32 (prev_state thread) (gpr regs) in
  let prev := <[0%nat := Z.b2z (negb return_on_resume)]> prev in
  let thread := mkThread (prev_mpp thread) (prev_mepc thread) (prev_mstatus thread) (prev_csrs thread) prev in
  let '(thread, h) := swap_prev_smode_csrs thread h in
  (thread, mkRegs g (mepc regs) (mstatus regs), h).

Definition swap_prev_mepc (thread : thread_state) (regs : sbi_trap_regs) (current_mepc : Z) :
    thread_state * sbi_trap_regs :=
  let tmp := prev_mepc thread in
  (mkThread (prev_mpp thread) current_mepc (prev_mstatus thread) (prev_csrs thread) (prev_state thread),
   set_mepc tmp regs).

Definition clean_smode_csrs (h : hart_csrs) (state : thread_state) : thread_state :=
  mkThread (prev_mpp state) (prev_mepc state) (prev_mstatus state)
    (mkSCsrs 0 0 0 0 0 (h_scounteren (smode h)) 0 0 0 0 0 0) (prev_state state).

(** Slots 1 to 31 are cleared; slot 0, [prev_mepc] and [prev_mstatus] stay. *)
Definition clean_state (h : hart_csrs) (state : thread_state) : thread_state :=
  let prev := fold_left (fun prev i => <[i := 0]> prev) (seq 1 31) (prev_state state) in
  clean_smode_csrs h (mkThread (-1) (prev_mepc state) (prev_mstatus state) (prev_csrs state) prev).

(** ** The swap loop exchanges the two register files *)

Lemma swap_loop_spec n prev regs : (n <= length prev)%nat -> length prev = length regs ->
  swap_loop n prev regs = (take n regs ++ drop n prev, take n prev ++ drop n regs).
Proof.
  intros Hn Hlen. induction n as [|n IH]; [by rewrite !drop_0|].
  cbn [swap_loop]. rewrite IH by lia.
  destruct (lookup_lt_is_Some_2 prev n) as [a Ha]; [lia|]. destruct (lookup_lt_is_Some_2 regs n) as [b Hb]; [lia|].
  assert (nth n (take n regs ++ drop n prev) 0 = a /\ nth n (take n prev ++ drop n regs) 0 = b) as [-> ->].
  { rewrite !nth_lookup, !lookup_app_r by (rewrite length_take; lia).
    rewrite !length_take, !Nat.min_l, Nat.sub_diag, !lookup_drop, Nat.add_0_r by lia. by rewrite Ha, Hb. }
  rewrite (drop_S prev a n Ha), (drop_S regs b n Hb), (take_S_r regs n b Hb), (take_S_r prev n a Ha).
  rewrite !insert_app_r_alt by (rewrite length_take; lia).
  rewrite !length_take, !Nat.min_l, Nat.sub_diag by lia. by rewrite <- !app_assoc.
Qed.

Lemma swap_loop_all prev regs : length prev = 32%nat -> length regs = 32%nat ->
  swap_loop 32 prev regs = (regs, prev).
Proof.
  intros Hp Hr. rewrite swap_loop_spec by lia. rewrite !drop_ge, !take_ge, !app_nil_r by lia. done.
Qed.

(** The CSRs of a hart as [struct csrs] saves them, and a saved copy as the hart holds it. *)
Definition save_csrs (p : csrs) (h : hart_csrs) : csrs :=
  let c := smode h in
  mkSCsrs (h_sstatus c) (sedeleg p) (sideleg p) (h_sie c) (h_stvec c) (h_scounteren c) (h_sscratch c) (h_sepc c)
    (h_scause c) (h_sbadaddr c) (read_sip h) (h_satp c).
Definition load_csrs (p : csrs) : smode_csrs :=
  mkSmode (sstatus p) (sie p) (stvec p) (scounteren p) (sscratch p) (sepc p) (scause p) (sbadaddr p) (satp p).

Lemma load_save_csrs p h : load_csrs (save_csrs p h) = smode h.
Proof. by destruct h as [[] ? ? ?]. Qed.

(** What one swap does: the register file and the CSRs change places, and slot 0 of
    the saved file records whether the resumed side gets a return value. *)
Lemma swap_prev_state_spec t r h ror : length (prev_state t) = 32%nat -> length (gpr r) = 32%nat ->
  swap_prev_state t r h ror =
    (mkThread (prev_mpp t) (prev_mepc t) (prev_mstatus t) (save_csrs (prev_csrs t) h)
       (<[0%nat := Z.b2z (negb ror)]> (gpr r)),
     mkRegs (prev_state t) (mepc r) (mstatus r),
     write_sip (sip (prev_csrs t)) (set_smode (load_csrs (prev_csrs t)) h)).
Proof.
  intros Hp Hr. unfold swap_prev_state. rewrite swap_loop_all by done. reflexivity.
Qed.

Lemma swap_mstatus_saved m : 
  Z.lor (Z.land m (not64 mstatus_mask)) (Z.land m mstatus_mask) = m mod 2 ^ 64.
Proof.
  rewrite <- Z.land_lor_distr_r.
  replace (Z.lor (not64 mstatus_mask) mstatus_mask) with (Z.ones 64) by (vm_compute; reflexivity).
  by rewrite Z.land_ones by lia.
Qed.

(** ** Values for examples *)

Definition zero_csrs : csrs := mkSCsrs 0 0 0 0 0 0 0 0 0 0 0 0.
Definition zero_smode : smode_csrs := mkSmode 0 0 0 0 0 0 0 0 0.
Definition zero_thread : thread_state := mkThread 0 0 0 zero_csrs (replicate 32 0).
