(* ===== verification/Mprv.v ===== *)
(** * Copies across the privilege boundary ([sm/src/mprv.h])

    The security monitor reads and writes the memory of its caller through the
    caller's own address translation.  The single accesses are hardware: [ld] and
    [st] access one byte at a virtual address with the caller's rights and fail
    when the hardware would fault.  A word access either happens as a whole or
    faults; the assembly of [copy_block_to_sm] loads all its words before it
    stores any, and [copy_block_from_sm] stores word by word. *)

From S2P Require Import Prelude.
From Stdlib Require Import ZArith Lia.
From stdpp Require Import base tactics list list_numbers numbers.
Local Open Scope Z_scope.

Definition REGBYTES : Z := 8.
Definition MPRV_BLOCK : Z := REGBYTES * 8.

Section Mprv.
Context {S : Type} (ld : S -> Z -> option Z) (st : S -> Z -> Z -> option S).

(** [n] bytes from virtual address [src], in order; [None] on a fault. *)
Fixpoint load_bytes (s : S) (src : Z) (n : nat) : option (list Z) :=
  match n with
  | O => Some []
  | Datatypes.S n' =>
      b ← ld s src;
      l ← load_bytes s (u64 (src + 1)) n';
      Some (b :: l)
  end.

(** The bytes [l] to virtual address [dst]; [None] on a fault. *)
Fixpoint store_bytes (s : S) (dst : Z) (l : list Z) : option S :=
  match l with
  | [] => Some s
  | b :: l' => s' ← st s dst b; store_bytes s' (u64 (dst + 1)) l'
  end.

(** ** The primitives of mprv.S: the result code, and what was moved. *)

Definition copy1_to_sm (s : S) (src : Z) : Z * list Z :=
  match load_bytes s src 1 with Some l => (0, l) | None => (-1, []) end.
Definition copy_word_to_sm (s : S) (src : Z) : Z * list Z :=
  match load_bytes s src 8 with Some l => (0, l) | None => (-1, []) end.
Definition copy_block_to_sm (s : S) (src : Z) : Z * list Z :=
  match load_bytes s src 64 with Some l => (0, l) | None => (-1, []) end.

Definition copy1_from_sm (s : S) (dst : Z) (b : list Z) : Z * S :=
  match store_bytes s dst b with Some s' => (0, s') | None => (-1, s) end.
Definition copy_word_from_sm (s : S) (dst : Z) (w : list Z) : Z * S :=
  match store_bytes s dst w with Some s' => (0, s') | None => (-1, s) end.

(** Word by word: the words before a fault are stored. *)
Fixpoint block_words (n : nat) (s : S) (dst : Z) (l : list Z) : Z * S :=
  match n with
  | O => (0, s)
  | Datatypes.S n' =>
      let '(res, s') := copy_word_from_sm s dst (take 8 l) in
      if truthy res then (res, s') else block_words n' s' (u64 (dst + REGBYTES)) (drop 8 l)
  end.
Definition copy_block_from_sm (s : S) (dst : Z) (l : list Z) : Z * S := block_words 8 s dst l.

(** ** The copy loops *)

(** [while (len >= unit) { res = copy(...); if (res) return res; ... }]: the result
    code so far, the bytes in the buffer, the source and what is left to copy.
    Each round consumes [unit] of [len], so [len] rounds of fuel are enough. *)
Fixpoint to_sm_loop (fuel : nat) (unit : Z) (copy : Z -> Z * list Z) (buf : list Z) (src len : Z) :
    Z * list Z * Z * Z :=
  match fuel with
  | O => (0, buf, src, len)
  | Datatypes.S fuel' =>
      if unit <=? len then
        let '(res, l) := copy src in
        if truthy res then (res, buf, src, len)
        else to_sm_loop fuel' unit copy (buf ++ l) (u64 (src + unit)) (len - unit)
      else (0, buf, src, len)
  end.

(** [dst] is the address of the buffer, which decides about the alignment. *)
Definition copy_to_sm (s : S) (dst src len : Z) : Z * list Z :=
  let fuel := Z.to_nat len in
  if (src mod REGBYTES =? 0) && (dst mod REGBYTES =? 0) then
    let '(res, buf, src, len) := to_sm_loop fuel MPRV_BLOCK (copy_block_to_sm s) [] src len in
    if truthy res then (res, buf) else
    let '(res, buf, src, len) := to_sm_loop fuel REGBYTES (copy_word_to_sm s) buf src len in
    if truthy res then (res, buf) else
    let '(res, buf, _, _) := to_sm_loop fuel 1 (copy1_to_sm s) buf src len in (res, buf)
  else
    let '(res, buf, _, _) := to_sm_loop fuel 1 (copy1_to_sm s) [] src len in (res, buf).

Fixpoint from_sm_loop (fuel : nat) (unit : Z) (copy : S -> Z -> list Z -> Z * S) (s : S) (dst : Z)
    (buf : list Z) : Z * S * Z * list Z :=
  match fuel with
  | O => (0, s, dst, buf)
  | Datatypes.S fuel' =>
      if unit <=? Z.of_nat (length buf) then
        let '(res, s') := copy s dst (take (Z.to_nat unit) buf) in
        if truthy res then (res, s', dst, buf)
        else from_sm_loop fuel' unit copy s' (u64 (dst + unit)) (drop (Z.to_nat unit) buf)
      else (0, s, dst, buf)
  end.

(** [src] is the address of the buffer. *)
Definition copy_from_sm (s : S) (dst src : Z) (buf : list Z) : Z * S :=
  let fuel := length buf in
  if (src mod REGBYTES =? 0) && (dst mod REGBYTES =? 0) then
    let '(res, s, dst, buf) := from_sm_loop fuel MPRV_BLOCK copy_block_from_sm s dst buf in
    if truthy res then (res, s) else
    let '(res, s, dst, buf) := from_sm_loop fuel REGBYTES copy_word_from_sm s dst buf in
    if truthy res then (res, s) else
    let '(res, s, _, _) := from_sm_loop fuel 1 copy1_from_sm s dst buf in (res, s)
  else
    let '(res, s, _, _) := from_sm_loop fuel 1 copy1_from_sm s dst buf in (res, s).

(** ** The loops against a plain byte copy *)

Lemma u64_step a b c : u64 (u64 (a + b) + c) = u64 (a + (b + c)).
Proof using. unfold u64. rewrite Z.add_mod_idemp_l by lia. f_equal. lia. Qed.

Lemma load_bytes_app s src m n : is_u64 src ->
  load_bytes s src (m + n) =
    l ← load_bytes s src m; l' ← load_bytes s (u64 (src + Z.of_nat m)) n; Some (l ++ l').
Proof using.
  revert src. induction m as [|m IH]; intros src Hsrc.
  { simpl. rewrite Z.add_0_r, u64_id by done. by destruct (load_bytes s src n). }
  cbn [load_bytes Nat.add]. destruct (ld s src) as [b|]; simpl; [|done].
  rewrite IH, u64_step by apply u64_range.
  replace (1 + Z.of_nat m) with (Z.of_nat (Datatypes.S m)) by lia.
  destruct (load_bytes s (u64 (src + 1)) m); simpl; [|done]. by destruct (load_bytes s _ n).
Qed.

Lemma load_bytes_length s src n l : load_bytes s src n = Some l -> length l = n.
Proof using.
  revert src l. induction n as [|n IH]; intros src l; cbn [load_bytes]; [by intros [= <-]|].
  destruct (ld s src); simpl; [|done]. destruct (load_bytes s (u64 (src + 1)) n) eqn:E; simpl; [|done].
  intros [= <-]. simpl. f_equal. by eapply IH.
Qed.

(** A loop that copies units of [u] bytes: on success it has moved a prefix and
    fewer than [u] bytes are left; when it stops with an error, or leaves a rest
    that cannot be loaded, the whole range cannot be loaded. *)
Lemma to_sm_loop_spec s u copy fuel buf src len :
  (forall a, copy a = match load_bytes s a (Z.to_nat u) with Some l => (0, l) | None => (-1, []) end) ->
  0 < u -> is_u64 src -> 0 <= len <= Z.of_nat fuel ->
  let '(res, buf', src', len') := to_sm_loop fuel u copy buf src len in
  is_u64 src' /\ 0 <= len' <= len /\
  ((res = -1 /\ load_bytes s src (Z.to_nat len) = None) \/
   (res = 0 /\ len' < u /\ exists l, buf' = buf ++ l /\
      load_bytes s src (Z.to_nat len) = (l' ← load_bytes s src' (Z.to_nat len'); Some (l ++ l')))).
Proof using.
  intros Hcopy Hu. revert buf src len. induction fuel as [|fuel IH]; intros buf src len Hsrc Hlen; cbn [to_sm_loop].
  { split; [done|]. split; [lia|]. right. split; [done|]. split; [lia|]. exists []. rewrite app_nil_r.
    split; [done|]. by destruct (load_bytes s src (Z.to_nat len)). }
  destruct (Z.leb_spec u len).
  - rewrite Hcopy. pose proof (load_bytes_app s src (Z.to_nat u) (Z.to_nat (len - u)) Hsrc) as Happ.
    replace (Z.to_nat u + Z.to_nat (len - u))%nat with (Z.to_nat len) in Happ by lia.
    rewrite Z2Nat.id in Happ by lia. destruct (load_bytes s src (Z.to_nat u)) as [l|] eqn:El; simpl in *.
    + specialize (IH (buf ++ l) (u64 (src + u)) (len - u) (u64_range _) ltac:(lia)).
      destruct (to_sm_loop fuel u copy (buf ++ l) (u64 (src + u)) (len - u)) as [[[res buf'] src'] len'].
      destruct IH as (Hs' & Hl' & Hcase). split; [done|]. split; [lia|]. rewrite Happ.
      destruct Hcase as [[-> ->]|(-> & Hlt & l2 & -> & ->)]; [by left|right].
      split; [done|]. split; [done|]. exists (l ++ l2). split; [by rewrite app_assoc|].
      destruct (load_bytes s src' (Z.to_nat len')); simpl; [by rewrite app_assoc|done].
    + split; [done|]. split; [lia|]. by left.
  - split; [done|]. split; [lia|]. right. split; [done|]. split; [done|]. exists []. rewrite app_nil_r.
    split; [done|]. by destruct (load_bytes s src (Z.to_nat len)).
Qed.

Lemma copy_to_sm_spec s dst src len : is_u64 src -> 0 <= len ->
  match load_bytes s src (Z.to_nat len) with
  | Some l => copy_to_sm s dst src len = (0, l)
  | None => (copy_to_sm s dst src len).1 = -1
  end.
Proof using.
  intros Hsrc Hlen. remember (load_bytes s src (Z.to_nat len)) as o eqn:Ho.
  unfold copy_to_sm. assert (Z.of_nat (Z.to_nat len) = len) as Hfuel by lia.
  set (fuel := Z.to_nat len) in |- *. assert (Z.of_nat fuel = len) as Hf by done. clearbody fuel.
  assert (forall buf src len', is_u64 src -> 0 <= len' <= len ->
    let '(res, buf', _, _) := to_sm_loop fuel 1 (copy1_to_sm s) buf src len' in
    match load_bytes s src (Z.to_nat len') with
    | Some l => (res, buf') = (0, buf ++ l)
    | None => res = -1
    end) as Hbytes.
  { intros buf a n Ha Hn.
    pose proof (to_sm_loop_spec s 1 (copy1_to_sm s) fuel buf a n (fun _ => eq_refl) ltac:(lia) Ha ltac:(lia)) as Hl.
    destruct (to_sm_loop fuel 1 (copy1_to_sm s) buf a n) as [[[res buf'] src'] n'].
    destruct Hl as (_ & Hn' & [[-> ->]|(-> & ? & l & -> & ->)]); [done|].
    replace n' with 0 by lia. simpl. by rewrite app_nil_r. }
  destruct (_ && _).
  - pose proof (to_sm_loop_spec s MPRV_BLOCK (copy_block_to_sm s) fuel [] src len (fun _ => eq_refl)
      ltac:(done) Hsrc ltac:(lia)) as H1.
    destruct (to_sm_loop fuel MPRV_BLOCK _ [] src len) as [[[res buf] src1] len1].
    destruct H1 as (Hs1 & Hl1 & [[-> E1]|(-> & _ & l1 & -> & E1)]); rewrite E1 in Ho; [by subst|].
    pose proof (to_sm_loop_spec s REGBYTES (copy_word_to_sm s) fuel ([] ++ l1) src1 len1 (fun _ => eq_refl)
      ltac:(done) Hs1 ltac:(lia)) as H2.
    cbn [truthy Z.eqb negb].
    destruct (to_sm_loop fuel REGBYTES _ ([] ++ l1) src1 len1) as [[[res buf] src2] len2].
    destruct H2 as (Hs2 & Hl2 & [[-> E2]|(-> & _ & l2 & -> & E2)]); rewrite E2 in Ho; [by subst|].
    cbn [truthy Z.eqb negb]. specialize (Hbytes (([] ++ l1) ++ l2) src2 len2 Hs2 ltac:(lia)).
    destruct (to_sm_loop fuel 1 _ _ src2 len2) as [[[res buf] src3] len3].
    destruct (load_bytes s src2 (Z.to_nat len2)); simpl in *; subst o; [|done]. by rewrite Hbytes, app_assoc.
  - specialize (Hbytes [] src len Hsrc ltac:(lia)). rewrite <- Ho in Hbytes.
    destruct (to_sm_loop fuel 1 _ [] src len) as [[[res buf] src3] len3]. by destruct o.
Qed.

Lemma store_bytes_app s dst l l' : is_u64 dst ->
  store_bytes s dst (l ++ l') = s' ← store_bytes s dst l; store_bytes s' (u64 (dst + Z.of_nat (length l))) l'.
Proof using.
  revert s dst. induction l as [|b l IH]; intros s dst Hd.
  { simpl. by rewrite Z.add_0_r, u64_id. }
  cbn [store_bytes app]. destruct (st s dst b) as [s1|]; simpl; [|done].
  rewrite IH, u64_step by apply u64_range. by replace (1 + Z.of_nat (length l)) with (Z.of_nat (length (b :: l))) by (simpl; lia).
Qed.

(** What a copy primitive promises for units of [u] bytes. *)
Definition copies_unit (u : Z) (copy : S -> Z -> list Z -> Z * S) : Prop :=
  forall s a l, is_u64 a -> Z.of_nat (length l) = u ->
    match store_bytes s a l with
    | Some s' => copy s a l = (0, s')
    | None => (copy s a l).1 = -1
    end.

Lemma block_words_spec n s a l : is_u64 a -> length l = (8 * n)%nat ->
  match store_bytes s a l with
  | Some s' => block_words n s a l = (0, s')
  | None => (block_words n s a l).1 = -1
  end.
Proof using.
  revert s a l. induction n as [|n IH]; intros s a l Ha Hl.
  { destruct l; [done|simpl in Hl; lia]. }
  assert (store_bytes s a l = (s' ← store_bytes s a (take 8 l); store_bytes s' (u64 (a + REGBYTES)) (drop 8 l))) as ->.
  { rewrite <- (take_drop 8 l) at 1. by rewrite store_bytes_app, length_take, Nat.min_l by (done || lia). }
  cbn [block_words].
  unfold copy_word_from_sm. destruct (store_bytes s a (take 8 l)) as [s'|]; simpl; [|done].
  apply IH; [apply u64_range|]. rewrite length_drop. lia.
Qed.

Lemma copy_block_from_sm_unit : copies_unit MPRV_BLOCK copy_block_from_sm.
Proof using. intros s a l Ha Hl. apply block_words_spec; [done|]. unfold MPRV_BLOCK, REGBYTES in Hl. lia. Qed.

Lemma copy_word_from_sm_unit u : copies_unit u copy_word_from_sm.
Proof using. intros s a l Ha Hl. unfold copy_word_from_sm. by destruct (store_bytes s a l). Qed.

Lemma from_sm_loop_spec u copy fuel s dst buf :
  copies_unit u copy -> 0 < u -> is_u64 dst -> (length buf <= fuel)%nat ->
  let '(res, s', dst', buf') := from_sm_loop fuel u copy s dst buf in
  is_u64 dst' /\ (length buf' <= length buf)%nat /\
  ((res = -1 /\ store_bytes s dst buf = None) \/
   (res = 0 /\ Z.of_nat (length buf') < u /\ store_bytes s dst buf = store_bytes s' dst' buf')).
Proof using.
  intros Hcopy Hu. revert s dst buf. induction fuel as [|fuel IH]; intros s dst buf Hd Hlen; cbn [from_sm_loop].
  { split; [done|]. split; [lia|]. right. split; [done|]. split; [lia|done]. }
  destruct (Z.leb_spec u (Z.of_nat (length buf))).
  - assert (Z.of_nat (length (take (Z.to_nat u) buf)) = u) as Htk by (rewrite length_take; lia).
    pose proof (Hcopy s dst (take (Z.to_nat u) buf) Hd Htk) as Hc.
    assert (store_bytes s dst buf = (s' ← store_bytes s dst (take (Z.to_nat u) buf);
              store_bytes s' (u64 (dst + u)) (drop (Z.to_nat u) buf))) as Happ.
    { rewrite <- (take_drop (Z.to_nat u) buf) at 1. by rewrite store_bytes_app, Htk. }
    destruct (store_bytes s dst (take (Z.to_nat u) buf)) as [s1|]; simpl in Happ.
    + rewrite Hc. cbn [truthy Z.eqb negb].
      specialize (IH s1 (u64 (dst + u)) (drop (Z.to_nat u) buf) (u64_range _) ltac:(rewrite length_drop; lia)).
      destruct (from_sm_loop fuel u copy s1 _ _) as [[[res s'] dst'] buf']. rewrite length_drop in IH.
      destruct IH as (? & ? & Hcase). rewrite Happ. split; [done|]. split; [lia|done].
    + destruct (copy s dst _) as [res s']. simpl in Hc. subst res. cbn [truthy Z.eqb negb].
      split; [done|]. split; [lia|]. by left.
  - split; [done|]. split; [lia|]. right. auto.
Qed.

Lemma copy_from_sm_spec s dst src buf : is_u64 dst ->
  match store_bytes s dst buf with
  | Some s' => copy_from_sm s dst src buf = (0, s')
  | None => (copy_from_sm s dst src buf).1 = -1
  end.
Proof using.
  intros Hd. unfold copy_from_sm. remember (length buf) as fuel eqn:Hf.
  assert (forall s dst buf, is_u64 dst -> (length buf <= fuel)%nat ->
    let '(res, s', _, _) := from_sm_loop fuel 1 copy1_from_sm s dst buf in
    match store_bytes s dst buf with Some s1 => (res, s') = (0, s1) | None => res = -1 end) as Hbytes.
  { intros s1 a b Ha Hb.
    pose proof (from_sm_loop_spec 1 copy1_from_sm fuel s1 a b (copy_word_from_sm_unit 1) ltac:(lia) Ha Hb) as Hl.
    destruct (from_sm_loop fuel 1 copy1_from_sm s1 a b) as [[[res s'] a'] b'].
    destruct Hl as (_ & _ & [[-> ->]|(-> & Hlt & ->)]); [done|].
    destruct b'; [done|simpl in Hlt; lia]. }
  destruct (_ && _).
  - pose proof (from_sm_loop_spec MPRV_BLOCK copy_block_from_sm fuel s dst buf copy_block_from_sm_unit
      ltac:(done) Hd ltac:(lia)) as H1.
    destruct (from_sm_loop fuel MPRV_BLOCK _ s dst buf) as [[[res s1] dst1] buf1].
    destruct H1 as (Hd1 & Hl1 & [[-> ->]|(-> & _ & ->)]); [done|]. cbn [truthy Z.eqb negb].
    pose proof (from_sm_loop_spec REGBYTES copy_word_from_sm fuel s1 dst1 buf1 (copy_word_from_sm_unit _)
      ltac:(done) Hd1 ltac:(lia)) as H2.
    destruct (from_sm_loop fuel REGBYTES _ s1 dst1 buf1) as [[[res s2] dst2] buf2].
    destruct H2 as (Hd2 & Hl2 & [[-> ->]|(-> & _ & ->)]); [done|]. cbn [truthy Z.eqb negb].
    specialize (Hbytes s2 dst2 buf2 Hd2 ltac:(lia)).
    destruct (from_sm_loop fuel 1 _ s2 dst2 buf2) as [[[res s3] dst3] buf3]. by destruct (store_bytes s2 dst2 buf2).
  - specialize (Hbytes s dst buf Hd ltac:(lia)).
    destruct (from_sm_loop fuel 1 _ s dst buf) as [[[res s3] dst3] buf3]. by destruct (store_bytes s dst buf).
Qed.

(** A property that every store keeps holds after a copy, also after one that stops at a fault. *)
Section Invariant.
Context (P : S -> Prop) (Hst : forall s a b s', P s -> st s a b = Some s' -> P s').

Lemma store_bytes_inv s dst l s' : P s -> store_bytes s dst l = Some s' -> P s'.
Proof using Hst.
  revert s dst. induction l as [|b l IH]; intros s dst Hs; cbn [store_bytes]; [by intros [= <-]|].
  destruct (st s dst b) as [s1|] eqn:E; simpl; [|done]. by apply IH, (Hst s dst b).
Qed.
Lemma copy_word_inv s dst w : P s -> P (copy_word_from_sm s dst w).2.
Proof using Hst. intros Hs. unfold copy_word_from_sm. destruct (store_bytes s dst w) eqn:E; [by eapply store_bytes_inv|done]. Qed.
Lemma copy_block_inv s dst l : P s -> P (copy_block_from_sm s dst l).2.
Proof using Hst.
  unfold copy_block_from_sm. generalize 8%nat. intros n. revert s dst l. induction n as [|n IH]; intros s dst l Hs; [done|]. cbn [block_words].
  pose proof (copy_word_inv s dst (take 8 l) Hs) as Hw. destruct (copy_word_from_sm s dst (take 8 l)) as [res s']. case_match; [done|]. by apply IH.
Qed.
Lemma from_sm_loop_inv fuel u copy s dst buf : (forall s a l, P s -> P (copy s a l).2) -> P s ->
  let '(_, s', _, _) := from_sm_loop fuel u copy s dst buf in P s'.
Proof using.
  intros Hc. revert s dst buf. induction fuel as [|fuel IH]; intros s dst buf Hs; cbn [from_sm_loop]; [done|].
  destruct (u <=? _); [|done]. pose proof (Hc s dst (take (Z.to_nat u) buf) Hs) as Hw. destruct (copy s dst _) as [res s'].
  destruct (truthy res); [done|]. by apply IH.
Qed.
Lemma copy_from_sm_inv s dst src buf : P s -> P (copy_from_sm s dst src buf).2.
Proof using Hst.
  intros Hs. assert (forall s a l, P s -> P (copy1_from_sm s a l).2) as H1 by exact copy_word_inv. unfold copy_from_sm. destruct (_ && _).
  - pose proof (from_sm_loop_inv (length buf) MPRV_BLOCK _ s dst buf copy_block_inv Hs) as Ha.
    destruct (from_sm_loop _ MPRV_BLOCK _ _ _ _) as [[[r1 s1] d1] b1]. destruct (truthy r1); [done|].
    pose proof (from_sm_loop_inv (length buf) REGBYTES _ s1 d1 b1 copy_word_inv Ha) as Hb.
    destruct (from_sm_loop _ REGBYTES _ _ _ _) as [[[r2 s2] d2] b2]. destruct (truthy r2); [done|].
    pose proof (from_sm_loop_inv (length buf) 1 _ s2 d2 b2 H1 Hb) as Hc. by destruct (from_sm_loop _ 1 _ _ _ _) as [[[r3 s3] d3] b3].
  - pose proof (from_sm_loop_inv (length buf) 1 _ s dst buf H1 Hs) as Hc. by destruct (from_sm_loop _ 1 _ _ _ _) as [[[r3 s3] d3] b3].
Qed.
End Invariant.
End Mprv.

(** ** Theorems *)

(** [copy_to_sm], with its block and word fast paths, is a byte-by-byte copy: it
    returns 0 with exactly the bytes of the range when every byte can be read with
    the caller's rights, and an error as soon as one of them cannot; the alignment
    of the two addresses makes no difference. *)
Theorem copy_to_sm_is_bytewise {S} (ld : S -> Z -> option Z) (s : S) (dst src len : Z) :
  is_u64 src -> 0 <= len ->
  match load_bytes ld s src (Z.to_nat len) with
  | Some l => copy_to_sm ld s dst src len = (0, l)
  | None => (copy_to_sm ld s dst src len).1 = -1
  end.
Proof. apply copy_to_sm_spec. Qed.

(** A memory that can be read below 100. *)
Definition demo_ld (_ : unit) (a : Z) : option Z := if a <? 100 then Some (a mod 7) else None.

Lemma copy_to_sm_is_bytewise_witness :
  match load_bytes demo_ld tt 8 (Z.to_nat 75) with
  | Some l => copy_to_sm demo_ld tt 0 8 75 = (0, l)
  | None => (copy_to_sm demo_ld tt 0 8 75).1 = -1
  end.
Proof. apply (copy_to_sm_is_bytewise demo_ld tt 0 8 75); unfold is_u64; lia. Defined.

(** [copy_from_sm] stores exactly the bytes of the buffer one after the other when
    every store is permitted, and reports an error when one of them is not. *)
Theorem copy_from_sm_is_bytewise {S} (st : S -> Z -> Z -> option S) (s : S) (dst src : Z) (buf : list Z) :
  is_u64 dst ->
  match store_bytes st s dst buf with
  | Some s' => copy_from_sm st s dst src buf = (0, s')
  | None => (copy_from_sm st s dst src buf).1 = -1
  end.
Proof. apply copy_from_sm_spec. Qed.

Lemma copy_from_sm_is_bytewise_witness :
  let st := (fun (m : list Z) a b => if a <? 100 then Some (<[Z.to_nat a := b]> m) else None) in
  match store_bytes st (replicate 100 0) 16 (replicate 80 5) with
  | Some s' => copy_from_sm st (replicate 100 0) 16 8 (replicate 80 5) = (0, s')
  | None => (copy_from_sm st (replicate 100 0) 16 8 (replicate 80 5)).1 = -1
  end.
Proof.
  intros st. apply (copy_from_sm_is_bytewise st (replicate 100 0) 16 8 (replicate 80 5)).
  unfold is_u64. lia.
Defined.
