(* ===== verification/Machine.v ===== *)
(** * The state of the security monitor ([sm/src/enclave.h], [sm/src/cpu.c], globals of [sm.c])

    The enclave table, the per-hart bookkeeping, the physical memory and the
    registers, in one record; each component's operations run on their part of
    it. *)

From S2P Require Import Prelude Mem SmDefs Pmp Thread.
From Stdlib Require Import ZArith Lia.
From stdpp Require Import base tactics list list_numbers numbers.
Local Open Scope Z_scope.

(** ** enclave.h *)

Definition ATTEST_DATA_MAXLEN : Z := 1024.
Definition MAX_ENCL_THREADS : Z := 1.
Definition MDSIZE : Z := 64.
Definition SIGNATURE_SIZE : Z := 64.
Definition PRIVATE_KEY_SIZE : Z := 64.
Definition PUBLIC_KEY_SIZE : Z := 32.
Definition SEALING_KEY_SIZE : Z := 128.

Inductive enclave_state : Type := INVALID | DESTROYING | ALLOCATED | FRESH | STOPPED | RUNNING.
#[export] Instance enclave_state_eq_dec : EqDecision enclave_state.
Proof. solve_decision. Defined.

(** The integer values of the enumeration, which the comparisons use. *)
Definition state_val (s : enclave_state) : Z :=
  match s with INVALID => -1 | DESTROYING => 0 | ALLOCATED => 1 | FRESH => 2 | STOPPED => 3 | RUNNING => 4 end.

Inductive enclave_region_type : Type := REGION_INVALID | REGION_EPM | REGION_UTM | REGION_OTHER.
#[export] Instance enclave_region_type_eq_dec : EqDecision enclave_region_type.
Proof. solve_decision. Defined.

Record enclave_region : Type := mkERegion { pmp_rid : Z; er_type : enclave_region_type }.

(** [struct enclave]; the generic platform adds no data of its own. *)
Record enclave : Type := mkEnclave {
  e_eid : Z;
  encl_satp : Z;
  e_state : enclave_state;
  e_regions : list enclave_region;
  e_hash : list Z;
  e_sign : list Z;
  e_params : runtime_params_t;
  n_thread : Z;
  e_thread : thread_state
}.

Definition set_eid (v : Z) (e : enclave) : enclave :=
  mkEnclave v (encl_satp e) (e_state e) (e_regions e) (e_hash e) (e_sign e) (e_params e) (n_thread e) (e_thread e).
Definition set_encl_satp (v : Z) (e : enclave) : enclave :=
  mkEnclave (e_eid e) v (e_state e) (e_regions e) (e_hash e) (e_sign e) (e_params e) (n_thread e) (e_thread e).
Definition set_state (v : enclave_state) (e : enclave) : enclave :=
  mkEnclave (e_eid e) (encl_satp e) v (e_regions e) (e_hash e) (e_sign e) (e_params e) (n_thread e) (e_thread e).
Definition set_e_regions (f : list enclave_region -> list enclave_region) (e : enclave) : enclave :=
  mkEnclave (e_eid e) (encl_satp e) (e_state e) (f (e_regions e)) (e_hash e) (e_sign e) (e_params e) (n_thread e)
    (e_thread e).
Definition set_hash (v : list Z) (e : enclave) : enclave :=
  mkEnclave (e_eid e) (encl_satp e) (e_state e) (e_regions e) v (e_sign e) (e_params e) (n_thread e) (e_thread e).
Definition set_params (v : runtime_params_t) (e : enclave) : enclave :=
  mkEnclave (e_eid e) (encl_satp e) (e_state e) (e_regions e) (e_hash e) (e_sign e) v (n_thread e) (e_thread e).
Definition set_n_thread (v : Z) (e : enclave) : enclave :=
  mkEnclave (e_eid e) (encl_satp e) (e_state e) (e_regions e) (e_hash e) (e_sign e) (e_params e) v (e_thread e).
Definition set_thread (v : thread_state) (e : enclave) : enclave :=
  mkEnclave (e_eid e) (encl_satp e) (e_state e) (e_regions e) (e_hash e) (e_sign e) (e_params e) (n_thread e) v.

(** [struct enclave_report], [struct sm_report] and [struct report]. *)
Record enclave_report : Type := mkEReport { er_hash : list Z; data_len : Z; er_data : list Z; er_signature : list Z }.
Record sm_report : Type := mkSmReport { sr_hash : list Z; sr_public_key : list Z; sr_signature : list Z }.
Record report : Type := mkReport { r_enclave : enclave_report; r_sm : sm_report; r_dev_public_key : list Z }.

(** ** cpu.h *)

Record cpu_state : Type := mkCpu { is_enclave : bool; cpu_eid : Z }.

(** ** The machine *)

(** The keys and measurements that [sm_copy_key] takes from the boot ROM. *)
Record sm_keys : Type := mkKeys {
  sm_hash : list Z;
  sm_signature : list Z;
  sm_public_key : list Z;
  sm_private_key : list Z;
  dev_public_key : list Z
}.

Record machine : Type := mkMachine {
  pmp : pmp_sys;
  enclaves : list enclave;
  encl_lock : bool;
  mem : Z -> Z;
  cpus : list cpu_state;
  harts : list hart_csrs;
  keys : sm_keys;
  sm_region_id : Z;
  os_region_id : Z;
  sm_init_done : bool;
  random_w : Z
}.

Definition set_pmp (v : pmp_sys) (m : machine) : machine :=
  mkMachine v (enclaves m) (encl_lock m) (mem m) (cpus m) (harts m) (keys m) (sm_region_id m) (os_region_id m)
    (sm_init_done m) (random_w m).
Definition set_enclaves (v : list enclave) (m : machine) : machine :=
  mkMachine (pmp m) v (encl_lock m) (mem m) (cpus m) (harts m) (keys m) (sm_region_id m) (os_region_id m)
    (sm_init_done m) (random_w m).
Definition set_encl_lock (v : bool) (m : machine) : machine :=
  mkMachine (pmp m) (enclaves m) v (mem m) (cpus m) (harts m) (keys m) (sm_region_id m) (os_region_id m)
    (sm_init_done m) (random_w m).
Definition set_mem (v : Z -> Z) (m : machine) : machine :=
  mkMachine (pmp m) (enclaves m) (encl_lock m) v (cpus m) (harts m) (keys m) (sm_region_id m) (os_region_id m)
    (sm_init_done m) (random_w m).
Definition set_cpus (v : list cpu_state) (m : machine) : machine :=
  mkMachine (pmp m) (enclaves m) (encl_lock m) (mem m) v (harts m) (keys m) (sm_region_id m) (os_region_id m)
    (sm_init_done m) (random_w m).
Definition set_harts (v : list hart_csrs) (m : machine) : machine :=
  mkMachine (pmp m) (enclaves m) (encl_lock m) (mem m) (cpus m) v (keys m) (sm_region_id m) (os_region_id m)
    (sm_init_done m) (random_w m).
Definition set_keys (v : sm_keys) (m : machine) : machine :=
  mkMachine (pmp m) (enclaves m) (encl_lock m) (mem m) (cpus m) (harts m) v (sm_region_id m) (os_region_id m)
    (sm_init_done m) (random_w m).
Definition set_sm_region_id (v : Z) (m : machine) : machine :=
  mkMachine (pmp m) (enclaves m) (encl_lock m) (mem m) (cpus m) (harts m) (keys m) v (os_region_id m)
    (sm_init_done m) (random_w m).
Definition set_os_region_id (v : Z) (m : machine) : machine :=
  mkMachine (pmp m) (enclaves m) (encl_lock m) (mem m) (cpus m) (harts m) (keys m) (sm_region_id m) v
    (sm_init_done m) (random_w m).
Definition set_sm_init_done (v : bool) (m : machine) : machine :=
  mkMachine (pmp m) (enclaves m) (encl_lock m) (mem m) (cpus m) (harts m) (keys m) (sm_region_id m) (os_region_id m)
    v (random_w m).
Definition set_random_w (v : Z) (m : machine) : machine :=
  mkMachine (pmp m) (enclaves m) (encl_lock m) (mem m) (cpus m) (harts m) (keys m) (sm_region_id m) (os_region_id m)
    (sm_init_done m) v.

(** A PMP operation on the machine. *)
Definition with_pmp {A : Type} (c : M pmp_sys A) : M machine A := zoom pmp set_pmp c.

(** [enclaves[eid]]. *)
Definition enclave_at (eid : Z) : M machine enclave :=
  let! m := get in or_ub (aget (enclaves m) eid).
Definition update_enclave (eid : Z) (f : enclave -> enclave) : M machine unit :=
  let! e := enclave_at eid in modify (fun m => set_enclaves (aset (enclaves m) eid (f e)) m).

(** The CSRs of the executing hart. *)
Definition hart_at (h : Z) : M machine hart_csrs := let! m := get in or_ub (aget (harts m) h).
Definition put_hart (h : Z) (c : hart_csrs) : M machine unit :=
  let! _ := hart_at h in modify (fun m => set_harts (aset (harts m) h c) m).

(** [spin_lock(&encl_lock)] and [spin_unlock(&encl_lock)]; a lock that is already
    held when a call starts was never released. *)
Definition lock_enclaves : M machine unit :=
  let! m := get in if encl_lock m then hang else modify (set_encl_lock true).
Definition unlock_enclaves : M machine unit := modify (set_encl_lock false).

(** ** Physical memory *)

(** [sbi_memset(base, v, len)]. *)
Definition sbi_memset (base v len : Z) : M machine unit := modify (fun m => set_mem (memset base v len (mem m)) m).

(** ** cpu.c *)

Definition cpu_at (h : Z) : M machine cpu_state := let! m := get in or_ub (aget (cpus m) h).
Definition cpu_is_enclave_context (h : Z) : M machine bool := let! c := cpu_at h in ret (is_enclave c).
Definition cpu_get_enclave_id (h : Z) : M machine Z := let! c := cpu_at h in ret (cpu_eid c).
Definition cpu_enter_enclave_context (h eid : Z) : M machine unit :=
  let! _ := cpu_at h in modify (fun m => set_cpus (aset (cpus m) h (mkCpu true eid)) m).
Definition cpu_exit_enclave_context (h : Z) : M machine unit :=
  let! c := cpu_at h in modify (fun m => set_cpus (aset (cpus m) h (mkCpu false (cpu_eid c))) m).
