(* ===== verification/Attest.v ===== *)
(** * Enclave measurement ([sm/src/attest.c], [sm/src/crypto.c])

    The measurement is a hash of three sizes and of the pages of the loader, the
    runtime and the application. *)

From S2P Require Import Prelude Mem SmDefs Pmp Sha3 Hkdf Thread Machine.
From Stdlib Require Import ZArith Lia.
From stdpp Require Import base tactics list list_numbers numbers.
Local Open Scope Z_scope.

(** ** crypto.c *)

Definition hash_ctx : Type := sha3_ctx_t.
Definition hash_init : hash_ctx := sha3_init (Z.to_nat MDSIZE).
Definition hash_extend (ctx : hash_ctx) (data : list Z) : hash_ctx := sha3_update ctx data.
Definition hash_extend_page (f : Z -> Z) (ctx : hash_ctx) (ptr : Z) : hash_ctx :=
  sha3_update ctx (read_bytes f ptr (Z.to_nat RISCV_PGSIZE)).
Definition hash_finalize (ctx : hash_ctx) : list Z := (sha3_final ctx).1.
Definition kdf := hkdf_sha3_512.

(** ** attest.c *)

(** [for (page = lo; page < hi; page += RISCV_PGSIZE) hash_extend_page(ctx, page)];
    [None] when the fuel runs out. *)
Fixpoint hash_pages (fuel : nat) (f : Z -> Z) (ctx : hash_ctx) (page hi : Z) : option hash_ctx :=
  match fuel with
  | O => None
  | S fuel' =>
      if page <? hi then hash_pages fuel' f (hash_extend_page f ctx page) (u64 (page + RISCV_PGSIZE)) hi
      else Some ctx
  end.

(** Enough iterations for a range that does not wrap around. *)
Definition page_fuel (lo hi : Z) : nat := S (S (Z.to_nat ((hi - lo) / RISCV_PGSIZE))).

Definition validate_and_hash_epm (f : Z -> Z) (ctx : hash_ctx) (p : runtime_params_t) : option hash_ctx :=
  let loader := dram_base p in
  let runtime := runtime_base p in
  let eapp := user_base p in
  let free := free_base p in
  let sizes := le64 (u64 (runtime - loader)) ++ le64 (u64 (eapp - runtime)) ++ le64 (u64 (free - eapp)) in
  let ctx := hash_extend ctx sizes in
  ctx ← hash_pages (page_fuel loader runtime) f ctx loader runtime;
  ctx ← hash_pages (page_fuel runtime eapp) f ctx runtime eapp;
  hash_pages (page_fuel eapp free) f ctx eapp free.

(** [validate_and_hash_epm] always returns 0, so the error branch of the caller is
    never taken; the measurement goes to [enclave->hash]. *)
Definition validate_and_hash_enclave (eid : Z) : M machine Z :=
  let! e := enclave_at eid in
  let! m := get in
  match validate_and_hash_epm (mem m) hash_init (e_params e) with
  | Some ctx => update_enclave eid (set_hash (hash_finalize ctx)) ;;; ret SBI_ERR_SM_ENCLAVE_SUCCESS
  | None => hang
  end.

(** ** The measurement *)

(** The pages that cover [lo, hi) from [lo] on. *)
Definition pages (lo hi : Z) : nat := Z.to_nat ((hi - lo + (RISCV_PGSIZE - 1)) / RISCV_PGSIZE).

(** What is hashed between [lo] and [hi]: whole pages from [lo]. *)
Definition range_bytes (f : Z -> Z) (lo hi : Z) : list Z := read_bytes f lo (4096 * pages lo hi).

(** The measured message. *)
Definition measured (f : Z -> Z) (p : runtime_params_t) : list Z :=
  le64 (runtime_base p - dram_base p) ++ le64 (user_base p - runtime_base p) ++ le64 (free_base p - user_base p) ++
  range_bytes f (dram_base p) (runtime_base p) ++ range_bytes f (runtime_base p) (user_base p) ++
  range_bytes f (user_base p) (free_base p).

(** Parameters that [is_create_args_valid] and the page-granular PMP region of the
    enclave guarantee. *)
Record params_ok (p : runtime_params_t) : Prop := {
  po_base : 0 <= dram_base p;
  po_runtime : dram_base p <= runtime_base p;
  po_user : runtime_base p <= user_base p;
  po_free : user_base p <= free_base p;
  po_end : free_base p <= 2 ^ 64 - RISCV_PGSIZE
}.

Lemma pages_step lo hi : lo < hi -> pages lo hi = S (pages (lo + RISCV_PGSIZE) hi).
Proof. intros H. unfold pages, RISCV_PGSIZE. mlia. Qed.

Lemma pages_0 lo hi : hi <= lo -> pages lo hi = 0%nat.
Proof. intros H. unfold pages, RISCV_PGSIZE. mlia. Qed.

Lemma hash_pages_spec f ctx lo hi fuel :
  0 <= lo -> hi <= 2 ^ 64 - RISCV_PGSIZE -> (pages lo hi < fuel)%nat ->
  hash_pages fuel f ctx lo hi = Some (sha3_update ctx (range_bytes f lo hi)).
Proof.
  revert ctx lo. induction fuel as [|fuel IH]; intros ctx lo Hlo Hhi Hf; [lia|].
  cbn [hash_pages]. destruct (Z.ltb_spec lo hi).
  - rewrite pages_step in Hf by done. unfold RISCV_PGSIZE in *.
    rewrite u64_id by (unfold is_u64; lia). rewrite IH by lia. unfold hash_extend_page.
    rewrite <- sha3_update_app. unfold range_bytes. rewrite (pages_step lo hi) by done. f_equal. f_equal.
    replace (4096 * S (pages (lo + RISCV_PGSIZE) hi))%nat with (4096 + 4096 * pages (lo + RISCV_PGSIZE) hi)%nat by lia.
    rewrite read_bytes_app. done.
  - unfold range_bytes. rewrite pages_0 by lia. simpl. by rewrite sha3_update_nil.
Qed.

Lemma page_fuel_enough lo hi : lo <= hi -> (pages lo hi < page_fuel lo hi)%nat.
Proof. intros H. unfold page_fuel, pages, RISCV_PGSIZE. mlia. Qed.

Lemma validate_and_hash_epm_spec f ctx p : params_ok p ->
  validate_and_hash_epm f ctx p = Some (sha3_update ctx (measured f p)).
Proof.
  intros [H1 H2 H3 H4 H5]. unfold validate_and_hash_epm, hash_extend. unfold RISCV_PGSIZE in *.
  rewrite hash_pages_spec by (first [apply page_fuel_enough; lia|unfold RISCV_PGSIZE; lia]). cbn [mbind option_bind].
  rewrite hash_pages_spec by (first [apply page_fuel_enough; lia|unfold RISCV_PGSIZE; lia]). cbn [mbind option_bind].
  rewrite hash_pages_spec by (first [apply page_fuel_enough; lia|unfold RISCV_PGSIZE; lia]).
  rewrite !u64_id by (unfold is_u64; lia). rewrite <- !sha3_update_app. unfold measured. by rewrite <- !app_assoc.
Qed.

Lemma le64_bytes x : bytes (le64 x).
Proof.
  unfold le64, bytes. apply Forall_map, Forall_forall. intros k _. unfold is_byte, is_u8.
  change 0xff with (2 ^ 8 - 1). rewrite land_pow2_sub1 by lia. apply Z.mod_pos_bound. lia.
Qed.

Lemma read_bytes_bytes f a n : mem_bytes f -> bytes (read_bytes f a n).
Proof. intros Hf. unfold read_bytes, bytes. apply Forall_map, Forall_forall. intros i _. apply Hf. Qed.

Lemma measured_bytes f p : mem_bytes f -> bytes (measured f p).
Proof.
  intros Hf. unfold measured, bytes. repeat (apply Forall_app; split); try apply le64_bytes;
    by apply read_bytes_bytes.
Qed.

(** Sections that start and end on page boundaries are measured without gap or
    overlap. *)
Lemma range_bytes_exact f lo hi : lo <= hi -> (hi - lo) mod RISCV_PGSIZE = 0 ->
  range_bytes f lo hi = read_bytes f lo (Z.to_nat (hi - lo)).
Proof. intros Hle Hm. unfold range_bytes, pages, RISCV_PGSIZE in *. f_equal. mlia. Qed.

Lemma measured_contiguous f p : params_ok p ->
  (runtime_base p - dram_base p) mod RISCV_PGSIZE = 0 -> (user_base p - runtime_base p) mod RISCV_PGSIZE = 0 ->
  (free_base p - user_base p) mod RISCV_PGSIZE = 0 ->
  measured f p = le64 (runtime_base p - dram_base p) ++ le64 (user_base p - runtime_base p) ++
    le64 (free_base p - user_base p) ++ read_bytes f (dram_base p) (Z.to_nat (free_base p - dram_base p)).
Proof.
  intros [H1 H2 H3 H4 H5] E1 E2 E3. unfold measured. rewrite !range_bytes_exact by done. do 3 f_equal.
  rewrite app_assoc.
  replace (runtime_base p) with (dram_base p + Z.of_nat (Z.to_nat (runtime_base p - dram_base p))) at 2 by lia.
  rewrite <- read_bytes_app.
  replace (user_base p) with (dram_base p + Z.of_nat (Z.to_nat (runtime_base p - dram_base p)
    + Z.to_nat (user_base p - runtime_base p))) at 2 by lia.
  rewrite <- read_bytes_app. f_equal. lia.
Qed.

(** ** Theorems *)

(** C11: the measurement of an enclave terminates and stores SHA3-512 of the three
    section sizes followed by the pages of loader, runtime and application; when
    the sections are page aligned this is every byte from the start of the private
    memory to the start of its free part, in order. *)
Theorem measurement_correct (m : machine) eid e :
  aget (enclaves m) eid = Some e -> params_ok (e_params e) -> mem_bytes (mem m) ->
  exists md, validate_and_hash_enclave eid m =
      Ok (SBI_ERR_SM_ENCLAVE_SUCCESS, set_enclaves (aset (enclaves m) eid (set_hash md e)) m) /\
    md = Fips202.SHA3 64 (measured (mem m) (e_params e)) /\
    let p := e_params e in
    ((runtime_base p - dram_base p) mod RISCV_PGSIZE = 0 -> (user_base p - runtime_base p) mod RISCV_PGSIZE = 0 ->
     (free_base p - user_base p) mod RISCV_PGSIZE = 0 ->
     md = Fips202.SHA3 64 (le64 (runtime_base p - dram_base p) ++ le64 (user_base p - runtime_base p) ++
       le64 (free_base p - user_base p) ++ read_bytes (mem m) (dram_base p) (Z.to_nat (free_base p - dram_base p)))).
Proof.
  intros He Hp Hm. unfold validate_and_hash_enclave, enclave_at, bind, get. rewrite He. simpl.
  rewrite validate_and_hash_epm_spec by done. unfold update_enclave, enclave_at, bind, get. rewrite He.
  assert (hash_finalize (sha3_update hash_init (measured (mem m) (e_params e)))
            = Fips202.SHA3 64 (measured (mem m) (e_params e))) as ->.
  { apply (sha3_spec (measured (mem m) (e_params e)) 64); [by apply measured_bytes|lia]. }
  eexists. split; [reflexivity|]. split; [reflexivity|]. cbv zeta. intros H1 H2 H3. by rewrite measured_contiguous.
Qed.

(** An enclave whose three sections are empty. *)
Definition empty_params : runtime_params_t := mkParams 0x90000000 0x4000 0x90000000 0x90000000 0x90000000 0 0 0.
Definition demo_enclave (s : enclave_state) : enclave :=
  mkEnclave 0 0 s (replicate 8 (mkERegion 0 REGION_INVALID)) (replicate 64 0) (replicate 64 0) empty_params 0 zero_thread.

Definition demo_machine (s : pmp_sys) (e : enclave) : machine :=
  mkMachine s (replicate 16 e) false (fun _ => 0) (replicate 16 (mkCpu false 0))
    (replicate 16 (mkHart zero_smode 0 trap_handler_host 0))
    (mkKeys (replicate 64 1) (replicate 64 2) (replicate 32 3) (replicate 64 4) (replicate 32 5)) 0 1 true 0.

Lemma measurement_correct_witness :
  let m := demo_machine (pmp_reset 1) (demo_enclave ALLOCATED) in
  exists md, validate_and_hash_enclave 3 m =
      Ok (SBI_ERR_SM_ENCLAVE_SUCCESS, set_enclaves (aset (enclaves m) 3 (set_hash md (demo_enclave ALLOCATED))) m) /\
    md = Fips202.SHA3 64 (measured (mem m) empty_params).
Proof.
  intros m. destruct (measurement_correct m 3 (demo_enclave ALLOCATED)) as (md & H1 & H2 & _).
  - reflexivity.
  - split; vm_compute; congruence.
  - intros a. split; [discriminate|reflexivity].
  - exists md. split; [exact H1|exact H2].
Defined.
