(* ===== verification/Enclave.v ===== *)
(** * Enclave management ([sm/src/enclave.c], [sm/src/platform/generic/platform.c], parts of [sm/src/sm.c])

    The SBI functions on enclaves: creation, destruction, the four context
    switches, attestation and sealing keys.  Each call runs to its end on one
    hart; [regs] is the trap frame the call was made with. *)

From S2P Require Import Prelude Mem SmDefs Pmp Sha3 Hkdf Thread Mprv Machine Attest.
From Stdlib Require Import ZArith Lia.
From stdpp Require Import base tactics list list_numbers numbers.
Local Open Scope Z_scope.

(** ** What the model leaves open *)

(** The signature algorithm: [ed25519_sign(message, public key, private key)]. *)
Class Signer : Type := { ed25519_sign : list Z -> list Z -> list Z -> list Z }.

(** Address translation and protection for an access of the calling context:
    the physical address of a byte, or a fault. *)
Class Mmu : Type := { translate : machine -> Z -> bool -> Z -> option Z }.

(** One byte read or written with the rights of the caller on hart [h]. *)
Definition mprv_ld `{Mmu} (h : Z) (m : machine) (va : Z) : option Z :=
  pa ← translate m h false va; Some (mem m pa).
Definition mprv_st `{Mmu} (h : Z) (m : machine) (va b : Z) : option machine :=
  pa ← translate m h true va; Some (set_mem (fun a => if a =? pa then b else mem m a) m).

(** ** platform/generic/platform.c: hooks that do nothing *)

Definition platform_init_global_once : M machine Z := ret SBI_ERR_SM_ENCLAVE_SUCCESS.
Definition platform_init_global : M machine Z := ret SBI_ERR_SM_ENCLAVE_SUCCESS.
Definition platform_init_enclave (eid : Z) : M machine unit := ret tt.
Definition platform_destroy_enclave (eid : Z) : M machine unit := ret tt.
Definition platform_create_enclave (eid : Z) : M machine Z := ret SBI_ERR_SM_ENCLAVE_SUCCESS.
Definition platform_switch_to_enclave (eid : Z) : M machine unit := ret tt.
Definition platform_switch_from_enclave (eid : Z) : M machine unit := ret tt.

(** [platform_random]: a middle-square Weyl step on the cycle counter. *)
Definition platform_random (cycles : Z) : M machine Z :=
  let! m := get in
  let w := u64 (random_w m + 0xb5ad4eceda1ce2a9) in
  modify (set_random_w w) ;;;
  let x := u64 (u64 (cycles * cycles) + w) in
  ret (Z.lor (Z.shiftr x 32) (u64 (Z.shiftl x 32))).

(** ** sm.c: the host's region and the monitor's keys *)

Definition osm_pmp_set (h perm : Z) : M machine Z :=
  let! m := get in with_pmp (pmp_set_keystone h (os_region_id m) perm).

Definition sm_sign `{Signer} (data : list Z) : M machine (list Z) :=
  let! m := get in ret (ed25519_sign data (sm_public_key (keys m)) (sm_private_key (keys m))).

(** [sm_derive_sealing_key]: the identifier is read from physical memory; the
    variable-length array of the function has no room for sizes beyond an [int].
    [garbage] is the uninitialised buffer of [hkdf_expand]. *)
Definition sm_derive_sealing_key (garbage key_ident enclave_hash : list Z) : M machine (Z * list Z) :=
  let! m := get in
  let info := enclave_hash ++ key_ident in
  match kdf None (sm_private_key (keys m)) info garbage (replicate (Z.to_nat SEALING_KEY_SIZE) 0) with
  | Ok r => ret r
  | Hang => hang
  | UB => ub
  end.

(** ** enclave.c: context switches *)

(** [ENCLAVE_EXISTS(eid)]. *)
Definition ENCLAVE_EXISTS (eid : Z) : M machine bool :=
  if eid <? ENCL_MAX then let! e := enclave_at eid in ret (0 <=? state_val (e_state e)) else ret false.

(** [for (memid ...) if (regions[memid].type != REGION_INVALID) pmp_set_keystone(...)]. *)
Definition set_enclave_pmp (h eid perm : Z) : M machine unit :=
  for_each (indices ENCLAVE_REGIONS_MAX) (fun memid =>
    let! e := enclave_at eid in
    let! r := or_ub (aget (e_regions e) memid) in
    if decide (er_type r = REGION_INVALID) then ret tt
    else let! _ := with_pmp (pmp_set_keystone h (pmp_rid r) perm) in ret tt).

(** The three swaps at the start of a context switch, on the thread of [eid]. *)
Definition swap_context (h eid : Z) (regs : sbi_trap_regs) (return_on_resume : bool) : M machine sbi_trap_regs :=
  let! e := enclave_at eid in
  let! hc := hart_at h in
  let '(t, regs, hc) := swap_prev_state (e_thread e) regs hc return_on_resume in
  let '(t, regs) := swap_prev_mepc t regs (mepc regs) in
  let '(t, regs) := swap_prev_mstatus t regs (mstatus regs) in
  update_enclave eid (set_thread t) ;;;
  put_hart h hc ;;;
  ret regs.

(** [csr_write] to a CSR of the executing hart. *)
Definition csr_update (h : Z) (f : hart_csrs -> hart_csrs) : M machine unit :=
  let! hc := hart_at h in put_hart h (f hc).

(** The registers of a first run. *)
Definition load_params (p : runtime_params_t) (regs : sbi_trap_regs) : sbi_trap_regs :=
  let regs := set_mepc (u64 (dram_base p - 4)) regs in
  let regs := set_mstatus (Z.shiftl 1 MSTATUS_MPP_SHIFT) regs in
  let regs := set_reg REG_A1 (dram_base p) regs in
  let regs := set_reg REG_A2 (dram_size p) regs in
  let regs := set_reg REG_A3 (runtime_base p) regs in
  let regs := set_reg REG_A4 (user_base p) regs in
  let regs := set_reg REG_A5 (free_base p) regs in
  let regs := set_reg REG_A6 (untrusted_base p) regs in
  set_reg REG_A7 (untrusted_size p) regs.

Definition context_switch_to_enclave (h : Z) (regs : sbi_trap_regs) (eid : Z) (load_parameters : bool) :
    M machine sbi_trap_regs :=
  let! regs := swap_context h eid regs true in
  csr_update h (set_mideleg 0) ;;;
  let! e := enclave_at eid in
  (if load_parameters then csr_update h (set_satp 0) else ret tt) ;;;
  let regs := if load_parameters then load_params (e_params e) regs else regs in
  csr_update h switch_vector_enclave ;;;
  let! _ := osm_pmp_set h PMP_NO_PERM in
  set_enclave_pmp h eid PMP_ALL_PERM ;;;
  platform_switch_to_enclave eid ;;;
  cpu_enter_enclave_context h eid ;;;
  ret regs.

(** A pending machine-level interrupt becomes a supervisor-level one. *)
Definition delegate_pending (pending mbit sbit : Z) (h : hart_csrs) : hart_csrs :=
  if truthy (Z.land pending mbit) then set_mip (Z.lor (Z.ldiff (mip h) mbit) sbit) h else h.

Definition context_switch_to_host (h : Z) (regs : sbi_trap_regs) (eid : Z) (return_on_resume : bool) :
    M machine sbi_trap_regs :=
  set_enclave_pmp h eid PMP_NO_PERM ;;;
  let! _ := osm_pmp_set h PMP_ALL_PERM in
  csr_update h (set_mideleg (Z.lor (Z.lor MIP_SSIP MIP_STIP) MIP_SEIP)) ;;;
  let! regs := swap_context h eid regs return_on_resume in
  csr_update h switch_vector_host ;;;
  let! hc := hart_at h in
  let pending := mip hc in
  csr_update h (delegate_pending pending MIP_MTIP MIP_STIP) ;;;
  csr_update h (delegate_pending pending MIP_MSIP MIP_SSIP) ;;;
  csr_update h (delegate_pending pending MIP_MEIP MIP_SEIP) ;;;
  platform_switch_from_enclave eid ;;;
  cpu_exit_enclave_context h ;;;
  ret regs.

(** ** enclave.c: tables *)

Definition clear_region_types (l : list enclave_region) : list enclave_region :=
  map (fun r => mkERegion (pmp_rid r) REGION_INVALID) l.

Definition enclave_init_metadata : M machine unit :=
  for_each (indices ENCL_MAX) (fun eid =>
    update_enclave eid (fun e => set_e_regions clear_region_types (set_state INVALID e)) ;;;
    platform_init_enclave eid).

Definition clean_enclave_memory (utbase utsize : Z) : M machine Z :=
  sbi_memset utbase 0 utsize ;;; ret SBI_ERR_SM_ENCLAVE_SUCCESS.

(** The first free identifier: the search loop of [encl_alloc_eid]. *)
Fixpoint find_free_eid (l : list enclave) (eid : Z) : option Z :=
  match l with
  | [] => None
  | e :: l' => if decide (e_state e = INVALID) then Some eid else find_free_eid l' (eid + 1)
  end.

Definition encl_alloc_eid : M machine (Z * option Z) :=
  lock_enclaves ;;;
  let! m := get in
  let eid := find_free_eid (enclaves m) 0 in
  match eid with
  | Some eid =>
      update_enclave eid (set_state ALLOCATED) ;;;
      unlock_enclaves ;;;
      ret (SBI_ERR_SM_ENCLAVE_SUCCESS, Some eid)
  | None => unlock_enclaves ;;; ret (SBI_ERR_SM_ENCLAVE_NO_FREE_RESOURCE, None)
  end.

Definition encl_free_eid (eid : Z) : M machine Z :=
  lock_enclaves ;;;
  update_enclave eid (set_state INVALID) ;;;
  unlock_enclaves ;;;
  ret SBI_ERR_SM_ENCLAVE_SUCCESS.

(** The index of the first region of a type, or [-1]. *)
Fixpoint find_region (l : list enclave_region) (type : enclave_region_type) (i : Z) : Z :=
  match l with
  | [] => -1
  | r :: l' => if decide (er_type r = type) then i else find_region l' type (i + 1)
  end.
Definition get_enclave_region_index (eid : Z) (type : enclave_region_type) : M machine Z :=
  let! e := enclave_at eid in ret (find_region (e_regions e) type 0).

Definition get_enclave_region_size (eid memid : Z) : M machine Z :=
  if (0 <=? memid) && (memid <? ENCLAVE_REGIONS_MAX) then
    let! e := enclave_at eid in
    let! r := or_ub (aget (e_regions e) memid) in
    with_pmp (pmp_region_get_size (pmp_rid r))
  else ret 0.
Definition get_enclave_region_base (eid memid : Z) : M machine Z :=
  if (0 <=? memid) && (memid <? ENCLAVE_REGIONS_MAX) then
    let! e := enclave_at eid in
    let! r := or_ub (aget (e_regions e) memid) in
    with_pmp (pmp_region_get_addr (pmp_rid r))
  else ret 0.

(** ** enclave.c: copies *)

(** A 64-bit little-endian word of a byte string. *)
Definition le64_at (l : list Z) (off : nat) : Z := Fips202.bytes_lane (take 8 (drop off l)).

(** The layout of [struct keystone_sbi_create_t]: eight 64-bit words. *)
Definition decode_create (l : list Z) : keystone_sbi_create_t :=
  mkCreate (mkPregion (le64_at l 0) (le64_at l 8)) (mkPregion (le64_at l 16) (le64_at l 24))
    (le64_at l 32) (le64_at l 40) (le64_at l 48) (le64_at l 56).

(** [dest] is the address of the local copy of the arguments. *)
Definition copy_enclave_create_args `{Mmu} (h dest src : Z) : M machine (Z * option keystone_sbi_create_t) :=
  let! m := get in
  let '(region_overlap, l) := copy_to_sm (mprv_ld h) m dest src 64 in
  if truthy region_overlap then ret (SBI_ERR_SM_ENCLAVE_REGION_OVERLAPS, None)
  else ret (SBI_ERR_SM_ENCLAVE_SUCCESS, Some (decode_create l)).

Definition copy_enclave_data `{Mmu} (h dest source size : Z) : M machine (Z * list Z) :=
  let! m := get in
  let '(illegal, l) := copy_to_sm (mprv_ld h) m dest source size in
  ret (if truthy illegal then SBI_ERR_SM_ENCLAVE_ILLEGAL_ARGUMENT else SBI_ERR_SM_ENCLAVE_SUCCESS, l).

Definition copy_enclave_report `{Mmu} (h dest src : Z) (source : list Z) : M machine Z :=
  let! m := get in
  let '(illegal, m') := copy_from_sm (mprv_st h) m dest src source in
  modify (fun _ => m') ;;;
  ret (if truthy illegal then SBI_ERR_SM_ENCLAVE_ILLEGAL_ARGUMENT else SBI_ERR_SM_ENCLAVE_SUCCESS).

(** The sums of the tests wrap around. *)
Definition is_create_args_valid (args : keystone_sbi_create_t) : bool :=
  let epm := epm_region args in
  let utm := utm_region args in
  if pr_size epm <=? 0 then false else
  if u64 (paddr epm + pr_size epm) <=? paddr epm then false else
  if u64 (paddr utm + pr_size utm) <=? paddr utm then false else
  let epm_start := paddr epm in
  let epm_end := u64 (paddr epm + pr_size epm) in
  if (runtime_paddr args <? epm_start) || (epm_end <=? runtime_paddr args) then false else
  if (user_paddr args <? epm_start) || (epm_end <=? user_paddr args) then false else
  if (free_paddr args <? epm_start) || (epm_end <? free_paddr args) then false else
  if user_paddr args <? runtime_paddr args then false else
  if free_paddr args <? user_paddr args then false else
  true.

(** ** enclave.c: creation and destruction *)

Definition SATP_MODE_SV39 : Z := 8.
Definition HGATP_MODE_SHIFT : Z := 60.

Definition create_params (args : keystone_sbi_create_t) : runtime_params_t :=
  mkParams (paddr (epm_region args)) (pr_size (epm_region args)) (runtime_paddr args) (user_paddr args)
    (free_paddr args) (paddr (utm_region args)) (pr_size (utm_region args)) (ca_free_requested args).

(** The metadata written between the PMP set-up and the platform hook. *)
Definition init_enclave (eid region shared_region : Z) (params : runtime_params_t) (hc : hart_csrs) (e : enclave) :
    enclave :=
  let e := set_eid eid e in
  let e := set_e_regions (fun l => aset l 0 (mkERegion region REGION_EPM)) e in
  let e := set_e_regions (fun l => aset l 1 (mkERegion shared_region REGION_UTM)) e in
  let e := set_encl_satp (Z.lor (Z.shiftr (dram_base params) RISCV_PGSHIFT)
                            (Z.shiftl SATP_MODE_SV39 HGATP_MODE_SHIFT)) e in
  let e := set_n_thread 0 e in
  let e := set_params params e in
  set_thread (clean_state hc (e_thread e)) e.

(** The labels at the end of [create_enclave], from the last to the first. *)
Definition free_encl_idx (eid res : Z) : M machine (Z * option Z) :=
  let! _ := encl_free_eid eid in ret (res, None).
Definition free_region (eid region res : Z) : M machine (Z * option Z) :=
  let! _ := with_pmp (pmp_region_free_atomic region) in free_encl_idx eid res.
Definition free_shared_region (eid region shared_region res : Z) : M machine (Z * option Z) :=
  let! _ := with_pmp (pmp_region_free_atomic shared_region) in free_region eid region res.
Definition unset_region `{OpenSBI} (eid region shared_region res : Z) : M machine (Z * option Z) :=
  let! _ := with_pmp (pmp_unset_global region) in free_shared_region eid region shared_region res.

(** The code from the PMP registers on, once both regions exist. *)
Definition finish_create `{OpenSBI} (h : Z) (args : keystone_sbi_create_t) (eid region shared_region : Z) :
    M machine (Z * option Z) :=
  let params := create_params args in
  let! err := with_pmp (pmp_set_global region PMP_NO_PERM) in
  if truthy err then free_shared_region eid region shared_region SBI_ERR_SM_ENCLAVE_PMP_FAILURE else
  let! _ := clean_enclave_memory (untrusted_base params) (untrusted_size params) in
  let! hc := hart_at h in
  update_enclave eid (init_enclave eid region shared_region params hc) ;;;
  let! res := platform_create_enclave eid in
  if truthy res then unset_region eid region shared_region res else
  lock_enclaves ;;;
  let! res := validate_and_hash_enclave eid in
  if truthy res then
    unlock_enclaves ;;;
    platform_destroy_enclave eid ;;;
    unset_region eid region shared_region res
  else
    update_enclave eid (set_state FRESH) ;;;
    unlock_enclaves ;;;
    ret (SBI_ERR_SM_ENCLAVE_SUCCESS, Some eid).

(** The error code and, on success, the value stored in [*eidptr]. *)
Definition create_enclave `{OpenSBI} (h : Z) (args : keystone_sbi_create_t) : M machine (Z * option Z) :=
  if negb (is_create_args_valid args) then ret (SBI_ERR_SM_ENCLAVE_ILLEGAL_ARGUMENT, None) else
  let! '(err, eid) := encl_alloc_eid in
  match eid with
  | None => ret (SBI_ERR_SM_ENCLAVE_NO_FREE_RESOURCE, None)
  | Some eid =>
      let! '(err, region) := with_pmp (pmp_region_init_atomic (paddr (epm_region args)) (pr_size (epm_region args))
                               PMP_PRI_ANY false) in
      if truthy err then free_encl_idx eid SBI_ERR_SM_ENCLAVE_PMP_FAILURE else
      let! region := or_ub region in
      let! '(err, shared_region) := with_pmp (pmp_region_init_atomic (paddr (utm_region args))
                                     (pr_size (utm_region args)) PMP_PRI_BOTTOM false) in
      if truthy err then free_region eid region SBI_ERR_SM_ENCLAVE_PMP_FAILURE else
      let! shared_region := or_ub shared_region in
      finish_create h args eid region shared_region
  end.

(** One round of the clearing loop of [destroy_enclave]. *)
Definition destroy_region `{OpenSBI} (eid i : Z) : M machine unit :=
  let! e := enclave_at eid in
  let! r := or_ub (aget (e_regions e) i) in
  if decide (er_type r = REGION_INVALID) then ret tt else
  if decide (er_type r = REGION_UTM) then ret tt else
  let rid := pmp_rid r in
  let! base := with_pmp (pmp_region_get_addr rid) in
  let! size := with_pmp (pmp_region_get_size rid) in
  sbi_memset base 0 size ;;;
  let! _ := with_pmp (pmp_unset_global rid) in
  let! _ := with_pmp (pmp_region_free_atomic rid) in
  ret tt.

Definition zero_params : runtime_params_t := mkParams 0 0 0 0 0 0 0 0.

Definition reset_enclave (e : enclave) : enclave :=
  set_e_regions clear_region_types (set_params zero_params (set_n_thread 0 (set_encl_satp 0 e))).

Definition destroy_enclave `{OpenSBI} (eid : Z) : M machine Z :=
  lock_enclaves ;;;
  let! ex := ENCLAVE_EXISTS eid in
  let! destroyable :=
    (if ex then let! e := enclave_at eid in ret (state_val (e_state e) <=? state_val STOPPED) else ret false) in
  (if destroyable then update_enclave eid (set_state DESTROYING) else ret tt) ;;;
  unlock_enclaves ;;;
  if negb destroyable then ret SBI_ERR_SM_ENCLAVE_NOT_DESTROYABLE else
  platform_destroy_enclave eid ;;;
  for_each (indices ENCLAVE_REGIONS_MAX) (destroy_region eid) ;;;
  let! rid := get_enclave_region_index eid REGION_UTM in
  (if negb (rid =? -1) then
     let! e := enclave_at eid in
     let! r := or_ub (aget (e_regions e) rid) in
     let! _ := with_pmp (pmp_region_free_atomic (pmp_rid r)) in ret tt
   else ret tt) ;;;
  update_enclave eid reset_enclave ;;;
  let! _ := encl_free_eid eid in
  ret SBI_ERR_SM_ENCLAVE_SUCCESS.

(** ** enclave.c: running *)

Definition run_enclave (h : Z) (regs : sbi_trap_regs) (eid : Z) : M machine (Z * sbi_trap_regs) :=
  lock_enclaves ;;;
  let! ex := ENCLAVE_EXISTS eid in
  let! runable := (if ex then let! e := enclave_at eid in ret (bool_decide (e_state e = FRESH)) else ret false) in
  (if runable then update_enclave eid (fun e => set_n_thread (u32 (n_thread e + 1)) (set_state RUNNING e))
   else ret tt) ;;;
  unlock_enclaves ;;;
  if negb runable then ret (SBI_ERR_SM_ENCLAVE_NOT_FRESH, regs) else
  let! regs := context_switch_to_enclave h regs eid true in
  ret (SBI_ERR_SM_ENCLAVE_SUCCESS, regs).

(** The locked part of [exit_enclave] and [stop_enclave]. *)
Definition leave_running (eid : Z) : M machine bool :=
  lock_enclaves ;;;
  let! e := enclave_at eid in
  let leaving := bool_decide (e_state e = RUNNING) in
  (if leaving then
     update_enclave eid (fun e =>
       let e := set_n_thread (u32 (n_thread e - 1)) e in
       if n_thread e =? 0 then set_state STOPPED e else e)
   else ret tt) ;;;
  unlock_enclaves ;;;
  ret leaving.

Definition exit_enclave (h : Z) (regs : sbi_trap_regs) (eid : Z) : M machine (Z * sbi_trap_regs) :=
  let! exitable := leave_running eid in
  if negb exitable then ret (SBI_ERR_SM_ENCLAVE_NOT_RUNNING, regs) else
  let! regs := context_switch_to_host h regs eid false in
  ret (SBI_ERR_SM_ENCLAVE_SUCCESS, regs).

Definition stop_enclave (h : Z) (regs : sbi_trap_regs) (request eid : Z) : M machine (Z * sbi_trap_regs) :=
  let! stoppable := leave_running eid in
  if negb stoppable then ret (SBI_ERR_SM_ENCLAVE_NOT_RUNNING, regs) else
  let! regs := context_switch_to_host h regs eid (request =? STOP_EDGE_CALL_HOST) in
  ret (if request =? STOP_TIMER_INTERRUPT then SBI_ERR_SM_ENCLAVE_INTERRUPTED
       else if request =? STOP_EDGE_CALL_HOST then SBI_ERR_SM_ENCLAVE_EDGE_CALL_HOST
       else SBI_ERR_SM_ENCLAVE_UNKNOWN_ERROR, regs).

Definition resume_enclave (h : Z) (regs : sbi_trap_regs) (eid : Z) : M machine (Z * sbi_trap_regs) :=
  lock_enclaves ;;;
  let! ex := ENCLAVE_EXISTS eid in
  let! resumable :=
    (if ex then
       let! e := enclave_at eid in
       ret ((bool_decide (e_state e = RUNNING) || bool_decide (e_state e = STOPPED)) &&
            (n_thread e <? MAX_ENCL_THREADS))
     else ret false) in
  if negb resumable then unlock_enclaves ;;; ret (SBI_ERR_SM_ENCLAVE_NOT_RESUMABLE, regs) else
  update_enclave eid (fun e => set_state RUNNING (set_n_thread (u32 (n_thread e + 1)) e)) ;;;
  unlock_enclaves ;;;
  let! regs := context_switch_to_enclave h regs eid false in
  ret (SBI_ERR_SM_ENCLAVE_SUCCESS, regs).

(** ** enclave.c: attestation and sealing *)

(** The bytes of [struct enclave_report] that are signed, and of [struct report]. *)
Definition signed_bytes (er : enclave_report) : list Z :=
  er_hash er ++ le64 (data_len er) ++ take (Z.to_nat (data_len er)) (er_data er).
Definition report_bytes (r : report) : list Z :=
  let er := r_enclave r in
  let sr := r_sm r in
  er_hash er ++ le64 (data_len er) ++ er_data er ++ er_signature er ++
  sr_hash sr ++ sr_public_key sr ++ sr_signature sr ++ r_dev_public_key r.

(** [stack] is what the 1024 bytes of the local [report.enclave.data] hold before
    the call, [buf] its address and [rep] the address of the report. *)
Definition attest_enclave `{Signer, Mmu} (h : Z) (stack : list Z) (rep buf : Z) (report_ptr data size eid : Z) :
    M machine Z :=
  if ATTEST_DATA_MAXLEN <? size then ret SBI_ERR_SM_ENCLAVE_ILLEGAL_ARGUMENT else
  lock_enclaves ;;;
  let! ex := ENCLAVE_EXISTS eid in
  let! attestable :=
    (if ex then let! e := enclave_at eid in ret (state_val FRESH <=? state_val (e_state e)) else ret false) in
  if negb attestable then unlock_enclaves ;;; ret SBI_ERR_SM_ENCLAVE_NOT_INITIALIZED else
  let! '(err, l) := copy_enclave_data h buf data size in
  if truthy err then unlock_enclaves ;;; ret SBI_ERR_SM_ENCLAVE_NOT_ACCESSIBLE else
  unlock_enclaves ;;;
  let! m := get in
  let! e := enclave_at eid in
  let er := mkEReport (e_hash e) size (l ++ drop (length l) stack) [] in
  let sr := mkSmReport (sm_hash (keys m)) (sm_public_key (keys m)) (sm_signature (keys m)) in
  let! signature := sm_sign (signed_bytes er) in
  let er := mkEReport (er_hash er) (data_len er) (er_data er) signature in
  lock_enclaves ;;;
  let! err := copy_enclave_report h report_ptr rep (report_bytes (mkReport er sr (dev_public_key (keys m)))) in
  if truthy err then unlock_enclaves ;;; ret SBI_ERR_SM_ENCLAVE_ILLEGAL_ARGUMENT else
  unlock_enclaves ;;; ret SBI_ERR_SM_ENCLAVE_SUCCESS.

(** A write of the monitor through a physical address. *)
Definition write_mem (base : Z) (l : list Z) (f : Z -> Z) : Z -> Z :=
  fun a => match l !! Z.to_nat (u64 (a - base)) with Some b => b | None => f a end.

(** The monitor's own variables are not part of [mem]: an access to [len] bytes at [base] in machine
    mode that touches them has no meaning here. *)
Definition hits_monitor (base len : Z) : bool :=
  existsb (fun k => let a := u64 (base + k) in (SMM_BASE <=? a) && (a <? SMM_BASE + SMM_SIZE)) (indices len).

(** Key and identifier are accessed in machine mode, at addresses that the enclave supplies. *)
Definition get_sealing_key `{Signer} (garbage : list Z) (sealing_key key_ident key_ident_size eid : Z) : M machine Z :=
  if 2 ^ 31 - MDSIZE <=? key_ident_size then ub else
  if hits_monitor key_ident key_ident_size || hits_monitor sealing_key (SEALING_KEY_SIZE + SIGNATURE_SIZE) then ub else
  let! m := get in
  let! e := enclave_at eid in
  let ident := read_bytes (mem m) key_ident (Z.to_nat key_ident_size) in
  let! '(err, key) := sm_derive_sealing_key garbage ident (e_hash e) in
  modify (fun m => set_mem (write_mem sealing_key key (mem m)) m) ;;;
  if truthy err then ret SBI_ERR_SM_ENCLAVE_UNKNOWN_ERROR else
  let! signature := sm_sign key in
  modify (fun m => set_mem (write_mem (u64 (sealing_key + SEALING_KEY_SIZE)) signature (mem m)) m) ;;;
  ret SBI_ERR_SM_ENCLAVE_SUCCESS.

(** ** sm/src/plugins *)

Definition PLUGIN_ID_MULTIMEM : Z := 0x01.
Definition MULTIMEM_GET_OTHER_REGION_SIZE : Z := 0x1.
Definition MULTIMEM_GET_OTHER_REGION_ADDR : Z := 0x2.

(** [copy_word_from_sm(dst, &out)]. *)
Definition give_word `{Mmu} (h dst out : Z) : M machine Z :=
  let! m := get in
  let '(res, m') := copy_word_from_sm (mprv_st h) m dst (le64 out) in
  modify (fun _ => m') ;;; ret (u64 res).

Definition multimem_get_other_region_size `{Mmu} (h eid size_out : Z) : M machine Z :=
  let! mem_id := get_enclave_region_index eid REGION_OTHER in
  if mem_id =? -1 then ret minus1_ul else
  let! out := get_enclave_region_size eid mem_id in
  give_word h size_out out.

Definition multimem_get_other_region_addr `{Mmu} (h eid size_out : Z) : M machine Z :=
  let! mem_id := get_enclave_region_index eid REGION_OTHER in
  if mem_id =? -1 then ret minus1_ul else
  let! out := get_enclave_region_base eid mem_id in
  give_word h size_out out.

Definition do_sbi_multimem `{Mmu} (h eid call_id arg0 : Z) : M machine Z :=
  if call_id =? MULTIMEM_GET_OTHER_REGION_SIZE then multimem_get_other_region_size h eid arg0
  else if call_id =? MULTIMEM_GET_OTHER_REGION_ADDR then multimem_get_other_region_addr h eid arg0
  else ret 0.

(** [multimem] says whether the build has [PLUGIN_ENABLE_MULTIMEM]. *)
Definition call_plugin `{Mmu} (multimem : bool) (h id plugin_id call_id arg0 arg1 : Z) : M machine Z :=
  if multimem && (plugin_id =? PLUGIN_ID_MULTIMEM) then do_sbi_multimem h id call_id arg0
  else ret SBI_ERR_SM_NOT_IMPLEMENTED.
