(* ===== verification/EnclaveInv.v ===== *)
(** * The invariant of the enclave table

    [sm_wf] holds between two calls: both locks are free, the region table is well
    formed, an enclave that exists owns its two regions and no other enclave does,
    and the thread count says whether it runs.  Every call keeps it and always
    returns. *)

From S2P Require Import Prelude Mem SmDefs Pmp PmpInv PmpHw Sha3 Hkdf Thread Mprv Machine Attest Enclave.
From Stdlib Require Import ZArith Lia.
From stdpp Require Import base tactics list list_numbers numbers.
Local Open Scope Z_scope.

(** ** Programming registers leaves the region table alone *)

Record same_table (s s' : pmp_sys) : Prop := {
  st_regions : regions s' = regions s;
  st_reg_bitmap : reg_bitmap s' = reg_bitmap s;
  st_def_bitmap : region_def_bitmap s' = region_def_bitmap s;
  st_lock : pmp_lock s' = pmp_lock s;
  st_harts : length (hart_pmp s') = length (hart_pmp s)
}.

#[export] Instance same_table_preorder : PreOrder same_table.
Proof.
  split.
  - intros s. by split.
  - intros s1 s2 s3 [? ? ? ? ?] [? ? ? ? ?]. split; congruence.
Qed.

Lemma same_table_valid s s' i r : same_table s s' -> valid_at s' i r <-> valid_at s i r.
Proof. intros [H1 H2 H3 H4 H5]. unfold valid_at. by rewrite H1, H3. Qed.

Lemma same_table_wf s s' : same_table s s' -> pmp_wf s -> pmp_wf s'.
Proof.
  intros Hst Hwf. pose proof Hst as [H1 H2 H3 H4 H5]. destruct Hwf as [W1 W2 W3 W4 W5 W6 W7 W8 W9].
  split; rewrite ?H1, ?H2, ?H3; try done.
  - intros i r Hv%(same_table_valid s); eauto.
  - intros i r n Hv%(same_table_valid s); eauto.
  - intros i j ri rj n Hi%(same_table_valid s) Hj%(same_table_valid s); eauto.
  - intros n Hn. destruct (W7 n Hn) as (i & r & Hv & ?). exists i, r. split; [|done].
    by apply (same_table_valid s).
  - intros i j ri rj Hi%(same_table_valid s) Hj%(same_table_valid s); eauto.
Qed.

Lemma set_hart_same s h c : same_table s (set_hart_pmp (fun l => aset l h c) s).
Proof. split; try done. simpl. apply length_aset. Qed.

(** A hart of the machine. *)
Definition is_hart (s : pmp_sys) (h : Z) : Prop := 0 <= h < Z.of_nat (length (hart_pmp s)).

Lemma wp_update_hart s h f (Q : unit -> pmp_sys -> Prop) :
  is_hart s h -> (forall s', same_table s s' -> Q tt s') -> wp (update_hart h f) Q s.
Proof.
  intros Hh HQ. unfold update_hart. wp_run. destruct (aget_is_Some _ _ Hh) as [c Hc].
  eapply wp_or_ub; [exact Hc|]. wp_run. apply HQ, set_hart_same.
Qed.

Section PmpCalls.
Context (s : pmp_sys) (Hwf : pmp_wf s).

Lemma wp_pmp_set h i perm (Q : Z -> pmp_sys -> Prop) :
  0 <= i < 32 -> is_hart s h ->
  (forall e s', same_table s s' -> ((exists r, valid_at s i r) -> e = SBI_ERR_SM_PMP_SUCCESS) -> Q e s') ->
  wp (pmp_set_keystone h i perm) Q s.
Proof using Hwf.
  intros Hi Hh HQ. destruct (Z.testbit (region_def_bitmap s) i) eqn:Hb.
  - destruct (wf_valid_at s Hwf i Hb) as [r Hv]. destruct (aget_is_Some _ _ Hh) as [c Hc].
    eapply wp_ok; [by apply (pmp_set_spec s h i c perm r)|]. apply HQ; [apply set_hart_same|done].
  - unfold pmp_set_keystone. wp_step. apply wp_valid; [done|]. rewrite Hb. simpl. wp_step.
    apply HQ; [done|]. intros [r [? _]]. congruence.
Qed.

Lemma wp_pmp_unset h i (Q : Z -> pmp_sys -> Prop) :
  0 <= i < 32 -> is_hart s h -> (forall e s', same_table s s' -> Q e s') -> wp (pmp_unset h i) Q s.
Proof using Hwf.
  intros Hi Hh HQ. unfold pmp_unset. wp_step. apply wp_valid; [done|].
  destruct (Z.testbit (region_def_bitmap s) i) eqn:Hb; simpl; [|by wp_step; apply HQ].
  destruct (wf_valid_at s Hwf i Hb) as [r [_ Hr]].
  pose proof (ok_reg r (wf_region s Hwf i r (conj Hb Hr))). unfold PMP_N_REG in *.
  wp_step. apply (wp_region_at s i r); [done|]. unfold region_register_idx.
  wp_step. wp_step; [unfold pmp_reg_exists; lia|]. wp_step. apply wp_update_hart; [done|]. intros s1 Hs1.
  destruct (region_needs_two_entries r) eqn:Htwo; [|by wp_step; apply HQ].
  apply needs_two_reg in Htwo.
  wp_step. wp_step; [unfold pmp_reg_exists; lia|]. wp_step.
  apply wp_update_hart; [unfold is_hart; by rewrite (st_harts _ _ Hs1)|].
  intros s2 Hs2. wp_step. apply HQ. by transitivity s1.
Qed.
End PmpCalls.

(** The harts that take part in a global update exist. *)
Definition ipi_harts_ok `{OpenSBI} (n : nat) : Prop := Forall (fun h => 0 <= h < Z.of_nat n) interruptible_harts.

Section Global.
Context `{HO : OpenSBI} (s : pmp_sys) (Hwf : pmp_wf s) (Hharts : ipi_harts_ok (length (hart_pmp s))).

Lemma wp_send_ipi i type perm (Q : unit -> pmp_sys -> Prop) :
  0 <= i < 32 -> (forall s', same_table s s' -> Q tt s') ->
  wp (send_and_sync_pmp_ipi i type perm) Q s.
Proof using Hwf Hharts.
  intros Hi HQ. unfold send_and_sync_pmp_ipi.
  eapply wp_mono; [apply (wp_for_each (fun l s' => same_table s s' /\
    Forall (fun h => 0 <= h < Z.of_nat (length (hart_pmp s))) l))|].
  - split; [done|exact Hharts].
  - intros h l s' [Hst Hl]. inversion Hl as [|? ? Hh Hl']; subst.
    assert (is_hart s' h) by (unfold is_hart; by rewrite (st_harts _ _ Hst)).
    pose proof (same_table_wf s s' Hst Hwf). unfold sbi_pmp_ipi_local_update. simpl.
    wp_step; wp_step; [apply wp_pmp_set|apply wp_pmp_unset]; try done; intros; wp_step; split; try done;
      by transitivity s'.
  - intros [] s' [Hst _]. by apply HQ.
Qed.

Lemma wp_pmp_unset_global i (Q : Z -> pmp_sys -> Prop) :
  0 <= i < 32 -> (forall e s', same_table s s' -> Q e s') -> wp (pmp_unset_global i) Q s.
Proof using Hwf Hharts.
  intros Hi HQ. unfold pmp_unset_global. wp_step. apply wp_valid; [done|].
  wp_step; [by wp_step; apply HQ|]. wp_step. apply wp_send_ipi; [done|]. intros s' Hs. wp_step. by apply HQ.
Qed.

Lemma wp_pmp_set_global i perm r (Q : Z -> pmp_sys -> Prop) :
  valid_at s i r -> (forall s', same_table s s' -> Q SBI_ERR_SM_PMP_SUCCESS s') ->
  wp (pmp_set_global i perm) Q s.
Proof using Hwf Hharts.
  intros Hv HQ. pose proof (wf_valid_range s Hwf i (proj1 Hv)). unfold PMP_MAX_N_REGION in *.
  unfold pmp_set_global. wp_step. apply wp_valid; [lia|]. rewrite (proj1 Hv). simpl.
  wp_step. apply wp_send_ipi; [lia|]. intros s' Hs. wp_step. by apply HQ.
Qed.
End Global.

(** ** The invariant *)

Definition owns (e : enclave) (rid : Z) : Prop :=
  exists i r, aget (e_regions e) i = Some r /\ er_type r <> REGION_INVALID /\ pmp_rid r = rid.

(** The two regions of an enclave that exists. *)
Record live (s : pmp_sys) (e : enclave) (rid urid : Z) (epm utm : pmp_region) : Prop := {
  live_epm : aget (e_regions e) 0 = Some (mkERegion rid REGION_EPM);
  live_utm : aget (e_regions e) 1 = Some (mkERegion urid REGION_UTM);
  live_rest : forall i r, aget (e_regions e) i = Some r -> i <> 0 -> i <> 1 -> er_type r = REGION_INVALID;
  live_ne : rid <> urid;
  live_epm_at : valid_at s rid epm;
  live_epm_for : region_for (dram_base (e_params e)) (dram_size (e_params e)) false epm;
  live_utm_at : valid_at s urid utm;
  live_utm_for : region_for (untrusted_base (e_params e)) (untrusted_size (e_params e)) false utm
}.

(** The thread count of a state. *)
Definition threads_of (st : enclave_state) : Z := match st with RUNNING => 1 | _ => 0 end.

Record enclave_ok (s : pmp_sys) (e : enclave) : Prop := {
  eo_regions : length (e_regions e) = 8%nat;
  eo_thread : length (prev_state (e_thread e)) = 32%nat;
  eo_state : match e_state e with
    | INVALID => forall i r, aget (e_regions e) i = Some r -> er_type r = REGION_INVALID
    | FRESH | STOPPED | RUNNING =>
        n_thread e = threads_of (e_state e) /\ exists rid urid epm utm, live s e rid urid epm utm
    | ALLOCATED | DESTROYING => False
    end
}.

Record sm_wf (m : machine) : Prop := {
  wf_pmp : pmp_wf (pmp m);
  wf_pmp_lock : pmp_lock (pmp m) = false;
  wf_lock : encl_lock m = false;
  wf_enclaves : length (enclaves m) = 16%nat;
  wf_harts : length (harts m) = length (hart_pmp (pmp m)) /\ (length (harts m) <= 16)%nat;
  wf_cpus : length (cpus m) = 16%nat;
  wf_os : exists r, valid_at (pmp m) (os_region_id m) r;
  wf_encl : forall eid e, aget (enclaves m) eid = Some e -> enclave_ok (pmp m) e;
  wf_owner : forall a b ea eb rid, aget (enclaves m) a = Some ea -> aget (enclaves m) b = Some eb ->
    owns ea rid -> owns eb rid -> a = b;
  wf_smm : exists r, valid_at (pmp m) (sm_region_id m) r /\ r_allow_overlap r = false;
  wf_not_sys : forall a ea rid, aget (enclaves m) a = Some ea -> owns ea rid ->
    rid <> os_region_id m /\ rid <> sm_region_id m
}.

(** The executing hart and the trap frame of a call. *)
Definition call_ok (m : machine) (h : Z) (regs : sbi_trap_regs) : Prop :=
  is_hart (pmp m) h /\ length (gpr regs) = 32%nat.

Lemma live_owns s e rid urid epm utm i : live s e rid urid epm utm -> owns e i <-> i = rid \/ i = urid.
Proof.
  intros Hl. split.
  - intros (j & r & Hj & Hty & <-).
    destruct (decide (j = 0)) as [->|]; [left; rewrite (live_epm _ _ _ _ _ _ Hl) in Hj; by simplify_eq|].
    destruct (decide (j = 1)) as [->|]; [right; rewrite (live_utm _ _ _ _ _ _ Hl) in Hj; by simplify_eq|].
    by rewrite (live_rest _ _ _ _ _ _ Hl j r) in Hty.
  - intros [->| ->]; [exists 0|exists 1]; eexists; (split; [apply Hl|done]).
Qed.

Lemma live_same_table s s' e rid urid epm utm :
  same_table s s' -> live s e rid urid epm utm -> live s' e rid urid epm utm.
Proof. intros Hst [? ? ? ? ? ? ? ?]. split; try done; by apply (same_table_valid s s'). Qed.

Lemma enclave_ok_same_table s s' e : same_table s s' -> enclave_ok s e -> enclave_ok s' e.
Proof.
  intros Hst [H1 H2 H3]. split; try done. destruct (e_state e); try done;
    destruct H3 as (? & rid & urid & epm & utm & Hl); (split; [done|]); exists rid, urid, epm, utm;
    by apply (live_same_table s).
Qed.

(** ** What a context switch changes *)

Record ctx_frame (eid : Z) (e : enclave) (m m' : machine) : Prop := {
  cf_pmp : same_table (pmp m) (pmp m');
  cf_encl : exists t, length (prev_state t) = 32%nat /\ enclaves m' = aset (enclaves m) eid (set_thread t e);
  cf_lock : encl_lock m' = encl_lock m;
  cf_mem : mem m' = mem m;
  cf_os : os_region_id m' = os_region_id m;
  cf_sm : sm_region_id m' = sm_region_id m;
  cf_keys : keys m' = keys m;
  cf_harts : length (harts m') = length (harts m);
  cf_cpus : length (cpus m') = length (cpus m)
}.

Lemma set_thread_id e : set_thread (e_thread e) e = e.
Proof. by destruct e. Qed.

Lemma ctx_frame_refl eid e m :
  aget (enclaves m) eid = Some e -> length (prev_state (e_thread e)) = 32%nat -> ctx_frame eid e m m.
Proof.
  intros He Ht. split; try done. exists (e_thread e). split; [done|]. by rewrite set_thread_id, aset_id.
Qed.

(** The enclave after a frame step. *)
Lemma ctx_frame_at eid e m m' : aget (enclaves m) eid = Some e -> ctx_frame eid e m m' ->
  exists t, length (prev_state t) = 32%nat /\ aget (enclaves m') eid = Some (set_thread t e) /\
    enclaves m' = aset (enclaves m) eid (set_thread t e).
Proof.
  intros He Hf. destruct (cf_encl _ _ _ _ Hf) as (t & Ht & Henc). exists t. split; [done|].
  split; [|done]. rewrite Henc. apply aget_aset_eq, (aget_Some_range _ _ _ He).
Qed.

(** Steps of a context switch in a machine [m'] that is a frame away from [m]. *)
Section Switch.
Context (m : machine) (eid : Z) (e : enclave).
Context (Hwf : pmp_wf (pmp m)) (He : aget (enclaves m) eid = Some e).
Context (Hregs : length (e_regions e) = 8%nat).
Context (Hrids : forall i r, aget (e_regions e) i = Some r -> er_type r <> REGION_INVALID -> 0 <= pmp_rid r < 32).
Context (Hos : 0 <= os_region_id m < 32) (Hlens : length (harts m) = length (hart_pmp (pmp m))).
Context (Hcpus : (length (harts m) <= length (cpus m))%nat).
Context (h : Z) (Hh : is_hart (pmp m) h).

Lemma frame_is_hart m' : ctx_frame eid e m m' -> is_hart (pmp m') h.
Proof using All. intros Hf. unfold is_hart. by rewrite (st_harts _ _ (cf_pmp _ _ _ _ Hf)). Qed.

Lemma frame_hart_range m' : ctx_frame eid e m m' -> 0 <= h < Z.of_nat (length (harts m')).
Proof using All. intros Hf. unfold is_hart in Hh. rewrite (cf_harts _ _ _ _ Hf), Hlens. done. Qed.

Lemma wp_with_pmp {A} (c : M pmp_sys A) (Q : A -> machine -> Prop) m' :
  wp c (fun a s => Q a (set_pmp s m')) (pmp m') -> wp (with_pmp c) Q m'.
Proof using. apply wp_zoom. Qed.

Lemma frame_set_pmp m' s : ctx_frame eid e m m' -> same_table (pmp m') s -> ctx_frame eid e m (set_pmp s m').
Proof using. intros [? ? ? ? ? ? ? ? ?] Hs. split; try done. simpl. by transitivity (pmp m'). Qed.

Lemma wp_csr_update f (Q : unit -> machine -> Prop) m' :
  ctx_frame eid e m m' -> (forall m'', ctx_frame eid e m m'' -> Q tt m'') -> wp (csr_update h f) Q m'.
Proof using All.
  intros Hf HQ. pose proof (frame_hart_range m' Hf) as Hr. destruct (aget_is_Some _ _ Hr) as [hc Hhc].
  unfold csr_update, put_hart, hart_at. wp_run. rewrite Hhc. simpl. wp_run. rewrite Hhc. simpl. wp_run.
  apply HQ. destruct Hf as [? ? ? ? ? ? ? ? ?]. split; try done. simpl. by rewrite length_aset.
Qed.

Lemma wp_set_enclave_pmp perm (Q : unit -> machine -> Prop) m' :
  ctx_frame eid e m m' -> (forall m'', ctx_frame eid e m m'' -> Q tt m'') -> wp (set_enclave_pmp h eid perm) Q m'.
Proof using All.
  intros Hf HQ. unfold set_enclave_pmp.
  eapply wp_mono; [apply (wp_for_each (fun l m' => ctx_frame eid e m m' /\
    Forall (fun i => 0 <= i < ENCLAVE_REGIONS_MAX) l))|].
  - split; [done|apply indices_forall].
  - intros i l m1 [Hf1 Hl]. inversion Hl as [|? ? Hi Hl']; subst. clear Hl.
    destruct (ctx_frame_at _ _ _ _ He Hf1) as (t & Ht & Het & _).
    unfold enclave_at. wp_run. rewrite Het. simpl. wp_run.
    destruct (aget_is_Some (e_regions e) i) as [r Hr]; [rewrite Hregs; unfold ENCLAVE_REGIONS_MAX in *; lia|].
    eapply wp_or_ub; [exact Hr|]. case_decide; [by wp_step|].
    wp_step. apply wp_with_pmp. pose proof (same_table_wf _ _ (cf_pmp _ _ _ _ Hf1) Hwf).
    apply wp_pmp_set; [done|by eapply Hrids|by apply frame_is_hart|].
    intros err s' Hs' _. wp_step. split; [by apply frame_set_pmp|done].
  - intros [] m'' [Hf'' _]. by apply HQ.
Qed.

Lemma wp_osm perm (Q : Z -> machine -> Prop) m' :
  ctx_frame eid e m m' -> (forall err m'', ctx_frame eid e m m'' -> Q err m'') -> wp (osm_pmp_set h perm) Q m'.
Proof using All.
  intros Hf HQ. unfold osm_pmp_set. wp_run. apply wp_with_pmp.
  pose proof (same_table_wf _ _ (cf_pmp _ _ _ _ Hf) Hwf).
  apply wp_pmp_set; [done|by rewrite (cf_os _ _ _ _ Hf)|by apply frame_is_hart|].
  intros err s' Hs' _. by apply HQ, frame_set_pmp.
Qed.
Lemma wp_swap_context regs ror (Q : sbi_trap_regs -> machine -> Prop) m' :
  ctx_frame eid e m m' -> length (gpr regs) = 32%nat ->
  (forall regs' m'', ctx_frame eid e m m'' -> length (gpr regs') = 32%nat -> Q regs' m'') ->
  wp (swap_context h eid regs ror) Q m'.
Proof using All.
  intros Hf Hlen HQ. destruct (ctx_frame_at _ _ _ _ He Hf) as (t & Ht & Het & Henc).
  pose proof (frame_hart_range m' Hf) as Hr. destruct (aget_is_Some _ _ Hr) as [hc Hhc].
  unfold swap_context, enclave_at, hart_at. wp_run. eapply wp_or_ub; [exact Het|]. wp_run.
  eapply wp_or_ub; [exact Hhc|]. rewrite swap_prev_state_spec by done.
  unfold swap_prev_mepc, swap_prev_mstatus, update_enclave, put_hart, enclave_at, hart_at. wp_run.
  eapply wp_or_ub; [exact Het|]. wp_run. eapply wp_or_ub; [exact Hhc|]. wp_run.
  apply HQ; [|done]. destruct Hf as [F1 F2 F3 F4 F5 F6 F7 F8 F9]. split; try done; cbn.
  - eexists (mkThread _ _ _ _ _). split; [|unfold set_thread; simpl; rewrite Henc, aset_aset; reflexivity].
    simpl. by rewrite length_insert.
  - by rewrite length_aset.
Qed.

Lemma wp_cpu_enter x (Q : unit -> machine -> Prop) m' :
  ctx_frame eid e m m' -> (forall m'', ctx_frame eid e m m'' -> Q tt m'') ->
  wp (cpu_enter_enclave_context h x) Q m'.
Proof using All.
  intros Hf HQ. pose proof (frame_hart_range m' Hf) as Hr. rewrite (cf_harts _ _ _ _ Hf) in Hr.
  destruct (aget_is_Some (cpus m') h) as [c Hc]; [rewrite (cf_cpus _ _ _ _ Hf); lia|].
  unfold cpu_enter_enclave_context, cpu_at. wp_run. eapply wp_or_ub; [exact Hc|]. wp_run. apply HQ.
  destruct Hf as [F1 F2 F3 F4 F5 F6 F7 F8 F9]. split; try done. cbn. by rewrite length_aset.
Qed.

Lemma wp_cpu_exit (Q : unit -> machine -> Prop) m' :
  ctx_frame eid e m m' -> (forall m'', ctx_frame eid e m m'' -> Q tt m'') ->
  wp (cpu_exit_enclave_context h) Q m'.
Proof using All.
  intros Hf HQ. pose proof (frame_hart_range m' Hf) as Hr. rewrite (cf_harts _ _ _ _ Hf) in Hr.
  destruct (aget_is_Some (cpus m') h) as [c Hc]; [rewrite (cf_cpus _ _ _ _ Hf); lia|].
  unfold cpu_exit_enclave_context, cpu_at. wp_run. eapply wp_or_ub; [exact Hc|]. wp_run. apply HQ.
  destruct Hf as [F1 F2 F3 F4 F5 F6 F7 F8 F9]. split; try done. cbn. by rewrite length_aset.
Qed.

Lemma wp_switch_to_enclave regs lp (Q : sbi_trap_regs -> machine -> Prop) :
  length (prev_state (e_thread e)) = 32%nat -> length (gpr regs) = 32%nat ->
  (forall regs' m', ctx_frame eid e m m' -> Q regs' m') ->
  wp (context_switch_to_enclave h regs eid lp) Q m.
Proof using All.
  intros Hth Hlen HQ. pose proof (ctx_frame_refl eid e m He Hth) as Hf. unfold context_switch_to_enclave.
  wp_step. apply wp_swap_context; [done..|]. intros r1 m1 Hf1 Hl1.
  wp_step. apply wp_csr_update; [done|]. intros m2 Hf2.
  destruct (ctx_frame_at _ _ _ _ He Hf2) as (t & Ht & Het & _).
  wp_step. unfold enclave_at. wp_run. eapply wp_or_ub; [exact Het|].
  wp_step. apply (wp_mono _ (fun _ => ctx_frame eid e m)).
  { destruct lp; [by apply wp_csr_update|by wp_step]. }
  intros [] m3 Hf3. wp_step. apply wp_csr_update; [done|]. intros m4 Hf4.
  wp_step. apply wp_osm; [done|]. intros err m5 Hf5.
  wp_step. apply wp_set_enclave_pmp; [done|]. intros m6 Hf6.
  wp_step. unfold platform_switch_to_enclave. wp_step. wp_step.
  apply wp_cpu_enter; [done|]. intros m7 Hf7. wp_step. by apply HQ.
Qed.

Lemma wp_switch_to_host regs ror (Q : sbi_trap_regs -> machine -> Prop) :
  length (prev_state (e_thread e)) = 32%nat -> length (gpr regs) = 32%nat ->
  (forall regs' m', ctx_frame eid e m m' -> Q regs' m') ->
  wp (context_switch_to_host h regs eid ror) Q m.
Proof using All.
  intros Hth Hlen HQ. pose proof (ctx_frame_refl eid e m He Hth) as Hf. unfold context_switch_to_host.
  wp_step. apply wp_set_enclave_pmp; [done|]. intros m1 Hf1.
  wp_step. apply wp_osm; [done|]. intros err m2 Hf2.
  wp_step. apply wp_csr_update; [done|]. intros m3 Hf3.
  wp_step. apply wp_swap_context; [done..|]. intros r4 m4 Hf4 Hl4.
  wp_step. apply wp_csr_update; [done|]. intros m5 Hf5.
  pose proof (frame_hart_range m5 Hf5) as Hr. destruct (aget_is_Some _ _ Hr) as [hc Hhc].
  wp_step. unfold hart_at. wp_run. eapply wp_or_ub; [exact Hhc|].
  wp_step. apply wp_csr_update; [done|]. intros m6 Hf6.
  wp_step. apply wp_csr_update; [done|]. intros m7 Hf7.
  wp_step. apply wp_csr_update; [done|]. intros m8 Hf8.
  wp_step. unfold platform_switch_from_enclave. wp_step. wp_step.
  apply wp_cpu_exit; [done|]. intros m9 Hf9. wp_step. by apply HQ.
Qed.
End Switch.

(** ** The invariant after a context switch *)

(** An enclave that can be switched to or from. *)
Definition is_live (st : enclave_state) : bool :=
  match st with FRESH | STOPPED | RUNNING => true | _ => false end.

(** The state of enclave [eid] becomes [st]; its identity stays and every other
    enclave is untouched. *)
Record switched (eid : Z) (st : enclave_state) (m m' : machine) : Prop := {
  sw_others : forall j, j <> eid -> aget (enclaves m') j = aget (enclaves m) j;
  sw_self : exists e e', aget (enclaves m) eid = Some e /\ aget (enclaves m') eid = Some e' /\
    e_state e' = st /\ e_regions e' = e_regions e /\ e_params e' = e_params e /\ e_hash e' = e_hash e;
  sw_table : same_table (pmp m) (pmp m');
  sw_mem : mem m' = mem m
}.

Definition enter_state (st : enclave_state) (n : Z) (e : enclave) : enclave := set_n_thread n (set_state st e).

Lemma aget_switch m eid e e1 : aget (enclaves m) eid = Some e ->
  aget (enclaves (set_enclaves (aset (enclaves m) eid e1) m)) eid = Some e1.
Proof. intros He. apply aget_aset_eq, (aget_Some_range _ _ _ He). Qed.

Lemma ctx_frame_switched m eid e st n m' :
  aget (enclaves m) eid = Some e ->
  ctx_frame eid (enter_state st n e) (set_enclaves (aset (enclaves m) eid (enter_state st n e)) m) m' ->
  switched eid st m m'.
Proof.
  intros He Hf. pose proof (aget_switch m eid e (enter_state st n e) He) as He1.
  destruct (ctx_frame_at _ _ _ _ He1 Hf) as (t & Ht & Het & Henc). split.
  - intros j Hj. rewrite Henc. simpl. by rewrite !aget_aset_ne.
  - exists e, (set_thread t (enter_state st n e)). auto 10.
  - exact (cf_pmp _ _ _ _ Hf).
  - exact (cf_mem _ _ _ _ Hf).
Qed.

Section AfterSwitch.
Context (m : machine) (Hwf : sm_wf m) (eid : Z) (e : enclave).
Context (He : aget (enclaves m) eid = Some e) (Hlive : is_live (e_state e) = true).

Lemma live_of : n_thread e = threads_of (e_state e) /\ exists rid urid epm utm, live (pmp m) e rid urid epm utm.
Proof using All.
  pose proof (eo_state _ _ (wf_encl m Hwf eid e He)) as Hst. by destruct (e_state e).
Qed.

Lemma wf_enclave_len : length (e_regions e) = 8%nat /\ length (prev_state (e_thread e)) = 32%nat.
Proof using All. split; apply (wf_encl m Hwf eid e He). Qed.

Lemma rid_range i r : aget (e_regions e) i = Some r -> er_type r <> REGION_INVALID -> 0 <= pmp_rid r < 32.
Proof using All.
  intros Hi Hty. destruct live_of as (_ & rid & urid & epm & utm & Hl).
  assert (owns e (pmp_rid r)) as Ho by (exists i, r; done).
  pose proof (wf_valid_range (pmp m) (wf_pmp m Hwf)) as Hrange. unfold PMP_MAX_N_REGION in Hrange.
  apply (live_owns _ _ _ _ _ _ _ Hl) in Ho as [->| ->];
    [pose proof (Hrange rid (proj1 (live_epm_at _ _ _ _ _ _ Hl)))
    |pose proof (Hrange urid (proj1 (live_utm_at _ _ _ _ _ _ Hl)))]; lia.
Qed.

Lemma os_range : 0 <= os_region_id m < 32.
Proof using All.
  destruct (wf_os m Hwf) as [r Hr]. pose proof (wf_valid_range (pmp m) (wf_pmp m Hwf) _ (proj1 Hr)).
  unfold PMP_MAX_N_REGION in *. lia.
Qed.

Lemma wf_switch st m' :
  is_live st = true ->
  ctx_frame eid (enter_state st (threads_of st) e)
    (set_enclaves (aset (enclaves m) eid (enter_state st (threads_of st) e)) m) m' ->
  sm_wf m'.
Proof using All.
  intros Hst Hf. set (e1 := enter_state st (threads_of st) e) in *.
  pose proof (aget_switch m eid e e1 He) as He1. destruct (ctx_frame_at _ _ _ _ He1 Hf) as (t & Ht & Het & Henc).
  cbn in Henc. rewrite aset_aset in Henc. pose proof (cf_pmp _ _ _ _ Hf) as Hst'. cbn in Hst'.
  assert (forall j e', aget (enclaves m') j = Some e' ->
    exists e0, aget (enclaves m) j = Some e0 /\ e_regions e' = e_regions e0 /\
      (j <> eid -> e' = e0) /\ (j = eid -> e' = set_thread t e1)) as Hback.
  { intros j e' Hj. rewrite Henc in Hj. rewrite aget_aset in Hj by apply (aget_Some_range _ _ _ He).
    case_decide; subst; [exists e; by simplify_eq|exists e'; done]. }
  assert (forall a b rid, e_regions a = e_regions b -> owns a rid -> owns b rid) as Hown.
  { intros a b rid E (i & r & ?). exists i, r. by rewrite <- E. }
  split.
  - by apply (same_table_wf (pmp m)), Hwf.
  - rewrite (st_lock _ _ Hst'). apply Hwf.
  - rewrite (cf_lock _ _ _ _ Hf). apply Hwf.
  - rewrite Henc, length_aset. apply Hwf.
  - rewrite (cf_harts _ _ _ _ Hf), (st_harts _ _ Hst'). apply Hwf.
  - rewrite (cf_cpus _ _ _ _ Hf). apply Hwf.
  - rewrite (cf_os _ _ _ _ Hf). destruct (wf_os m Hwf) as [r Hr]. exists r. by apply (same_table_valid (pmp m)).
  - intros j e' Hj. destruct (Hback j e' Hj) as (e0 & He0 & _ & Hne & Heq).
    apply (enclave_ok_same_table (pmp m)); [done|]. destruct (decide (j = eid)) as [->|Hji].
    + rewrite Heq by done. destruct wf_enclave_len as [Hl1 Hl2].
      destruct live_of as (_ & rid & urid & epm & utm & [L1 L2 L3 L4 L5 L6 L7 L8]).
      split; [done|done|]. cbn. destruct st; try done; (split; [done|]); exists rid, urid, epm, utm; by split.
    + rewrite Hne by done. by apply (wf_encl m Hwf j).
  - intros a b ea eb rid Ha Hb Hoa Hob. destruct (Hback a ea Ha) as (ea0 & Ha0 & Ea & _).
    destruct (Hback b eb Hb) as (eb0 & Hb0 & Eb & _). apply (wf_owner m Hwf a b ea0 eb0 rid); eauto.
  - rewrite (cf_sm _ _ _ _ Hf). destruct (wf_smm m Hwf) as (r & Hr & ?). exists r. split; [|done].
    by apply (same_table_valid (pmp m)).
  - intros a ea rid Ha Ho. destruct (Hback a ea Ha) as (ea0 & Ha0 & Ea & _).
    rewrite (cf_os _ _ _ _ Hf), (cf_sm _ _ _ _ Hf). apply (wf_not_sys m Hwf a ea0 rid Ha0). eauto.
Qed.
End AfterSwitch.

(** ** The four context-switching calls *)

Lemma relock m : encl_lock m = false -> set_encl_lock false (set_encl_lock true m) = m.
Proof. destruct m; simpl. by intros ->. Qed.

Lemma relock_enclaves m l : encl_lock m = false ->
  set_encl_lock false (set_enclaves l (set_encl_lock true m)) = set_enclaves l m.
Proof. destruct m; simpl. by intros ->. Qed.

Lemma wp_lock m (Q : unit -> machine -> Prop) :
  encl_lock m = false -> Q tt (set_encl_lock true m) -> wp lock_enclaves Q m.
Proof. intros Hl HQ. unfold lock_enclaves. wp_run; [congruence|done]. Qed.

(** [ENCLAVE_EXISTS] and the read of the state that follows it. *)
Definition is_eid (eid : Z) : Prop := 0 <= eid.

Lemma wp_exists_test m eid (f : enclave -> bool) (Q : bool -> machine -> Prop) :
  length (enclaves m) = 16%nat -> 0 <= eid ->
  Q (match aget (enclaves m) eid with
     | Some e => (0 <=? state_val (e_state e)) && f e
     | None => false
     end) m ->
  wp (let! ex := ENCLAVE_EXISTS eid in
      if ex then let! e := enclave_at eid in ret (f e) else ret false) Q m.
Proof.
  intros Hlen He HQ. unfold ENCLAVE_EXISTS, ENCL_MAX. wp_step. destruct (Z.ltb_spec eid 16).
  - destruct (aget_is_Some (enclaves m) eid) as [e Hx]; [lia|]. rewrite Hx in HQ. unfold enclave_at.
    wp_run. eapply wp_or_ub; [exact Hx|]. wp_step. destruct (0 <=? state_val (e_state e)); [|done].
    wp_run. eapply wp_or_ub; [exact Hx|]. by wp_step.
  - wp_step. destruct (aget (enclaves m) eid) eqn:E; [|by wp_step].
    apply aget_Some_range in E. lia.
Qed.

Lemma wp_bind_assoc {S A B C} (c : M S A) (k : A -> M S B) (k' : B -> M S C) (Q : C -> S -> Prop) s :
  wp (bind (bind c k) k') Q s -> wp (bind c (fun a => bind (k a) k')) Q s.
Proof. unfold wp, bind. by destruct (c s) as [[a s']| |]. Qed.

Lemma wp_update_enclave m eid e f (Q : unit -> machine -> Prop) :
  aget (enclaves m) eid = Some e -> Q tt (set_enclaves (aset (enclaves m) eid (f e)) m) ->
  wp (update_enclave eid f) Q m.
Proof. intros He HQ. unfold update_enclave, enclave_at. wp_run. eapply wp_or_ub; [exact He|]. by wp_run. Qed.

(** The shape of the result of a call that switches context. *)
Definition switch_result (err : Z) (ok : enclave -> bool) (st : enclave_state) (codes : Z -> Prop) (eid : Z)
    (regs : sbi_trap_regs) (m : machine) (res : Z * sbi_trap_regs) (m' : machine) : Prop :=
  sm_wf m' /\
  ((res = (err, regs) /\ m' = m /\ forall e, aget (enclaves m) eid = Some e -> ok e = false) \/
   (codes res.1 /\ (exists e, aget (enclaves m) eid = Some e /\ ok e = true) /\ switched eid st m m')).

Lemma switch_enter m (Hwf : sm_wf m) h regs eid e lp st (Q : sbi_trap_regs -> machine -> Prop) :
  call_ok m h regs -> aget (enclaves m) eid = Some e -> is_live (e_state e) = true -> is_live st = true ->
  (forall regs' m', sm_wf m' -> switched eid st m m' -> Q regs' m') ->
  wp (context_switch_to_enclave h regs eid lp) Q
    (set_enclaves (aset (enclaves m) eid (enter_state st (threads_of st) e)) m).
Proof.
  intros [Hh Hlen] He Hl Hst HQ. destruct (wf_enclave_len m Hwf eid e He Hl) as [L1 L2].
  eapply (wp_switch_to_enclave _ eid (enter_state st (threads_of st) e)); try done.
  - apply Hwf.
  - by apply (aget_switch m eid e).
  - by apply (rid_range m Hwf eid e He Hl).
  - by apply (os_range m Hwf eid e He Hl).
  - apply Hwf.
  - simpl. rewrite (wf_cpus m Hwf). apply Hwf.
  - intros regs' m' Hf. apply HQ; [by apply (wf_switch m Hwf eid e He Hl st)|].
    by apply (ctx_frame_switched m eid e st (threads_of st)).
Qed.

Lemma switch_leave m (Hwf : sm_wf m) h regs eid e ror st (Q : sbi_trap_regs -> machine -> Prop) :
  call_ok m h regs -> aget (enclaves m) eid = Some e -> is_live (e_state e) = true -> is_live st = true ->
  (forall regs' m', sm_wf m' -> switched eid st m m' -> Q regs' m') ->
  wp (context_switch_to_host h regs eid ror) Q
    (set_enclaves (aset (enclaves m) eid (enter_state st (threads_of st) e)) m).
Proof.
  intros [Hh Hlen] He Hl Hst HQ. destruct (wf_enclave_len m Hwf eid e He Hl) as [L1 L2].
  eapply (wp_switch_to_host _ eid (enter_state st (threads_of st) e)); try done.
  - apply Hwf.
  - by apply (aget_switch m eid e).
  - by apply (rid_range m Hwf eid e He Hl).
  - by apply (os_range m Hwf eid e He Hl).
  - apply Hwf.
  - simpl. rewrite (wf_cpus m Hwf). apply Hwf.
  - intros regs' m' Hf. apply HQ; [by apply (wf_switch m Hwf eid e He Hl st)|].
    by apply (ctx_frame_switched m eid e st (threads_of st)).
Qed.

Definition is_fresh (e : enclave) : bool := bool_decide (e_state e = FRESH).
Definition is_running (e : enclave) : bool := bool_decide (e_state e = RUNNING).
Definition is_stopped (e : enclave) : bool := bool_decide (e_state e = STOPPED).

Lemma wp_run_enclave m h regs eid (Q : Z * sbi_trap_regs -> machine -> Prop) :
  sm_wf m -> call_ok m h regs -> 0 <= eid ->
  (forall res m', switch_result SBI_ERR_SM_ENCLAVE_NOT_FRESH is_fresh RUNNING
     (fun r => r = SBI_ERR_SM_ENCLAVE_SUCCESS) eid regs m res m' -> Q res m') ->
  wp (run_enclave h regs eid) Q m.
Proof.
  intros Hwf Hcall Heid HQ. unfold run_enclave. wp_step. apply wp_lock; [apply Hwf|].
  apply wp_bind_assoc. wp_step. apply wp_exists_test; [apply Hwf|done|]. simpl.
  destruct (aget (enclaves m) eid) as [e|] eqn:He.
  - fold (is_fresh e). destruct (is_fresh e) eqn:Hfr.
    + assert (e_state e = FRESH) as Est by by apply bool_decide_eq_true_1 in Hfr. rewrite Est. simpl.
      wp_step. apply (wp_update_enclave _ eid e); [done|]. wp_step. unfold unlock_enclaves. wp_step.
      cbn [enclaves set_encl_lock]. rewrite relock_enclaves by apply Hwf. simpl. wp_step.
      destruct (live_of m Hwf eid e He) as [Hn _]; [by rewrite Est|]. rewrite Hn, Est.
      change (set_n_thread (u32 (threads_of FRESH + 1)) (set_state RUNNING e)) with (enter_state RUNNING (threads_of RUNNING) e).
      eapply switch_enter; [done|done|done|by rewrite Est|done|].
      intros regs' m' Hwf' Hsw. wp_step. apply HQ. split; [done|]. right. split; [done|]. eauto.
    + rewrite andb_false_r. wp_step. wp_step. wp_step. unfold unlock_enclaves. wp_step.
      rewrite relock by apply Hwf. simpl. wp_step. apply HQ. split; [done|]. left. split; [done|].
      split; [done|]. intros e' He'. congruence.
  - wp_step. wp_step. wp_step. unfold unlock_enclaves. wp_step. rewrite relock by apply Hwf. simpl. wp_step.
    apply HQ. split; [done|]. left. split; [done|]. split; [done|]. intros e' He'. congruence.
Qed.

Definition is_resumable (e : enclave) : bool :=
  (is_running e || is_stopped e) && (n_thread e <? MAX_ENCL_THREADS).

Lemma wp_resume_enclave m h regs eid (Q : Z * sbi_trap_regs -> machine -> Prop) :
  sm_wf m -> call_ok m h regs -> 0 <= eid ->
  (forall res m', switch_result SBI_ERR_SM_ENCLAVE_NOT_RESUMABLE is_stopped RUNNING
     (fun r => r = SBI_ERR_SM_ENCLAVE_SUCCESS) eid regs m res m' -> Q res m') ->
  wp (resume_enclave h regs eid) Q m.
Proof.
  intros Hwf Hcall Heid HQ. unfold resume_enclave. wp_step. apply wp_lock; [apply Hwf|].
  apply wp_bind_assoc. wp_step. apply (wp_exists_test _ eid is_resumable); [apply Hwf|done|]. simpl.
  assert ((forall e, aget (enclaves m) eid = Some e -> is_stopped e = false) ->
    wp (if negb false then unlock_enclaves;;; ret (SBI_ERR_SM_ENCLAVE_NOT_RESUMABLE, regs) else hang) Q
      (set_encl_lock true m)) as Hno.
  { intros Hn. simpl. unfold unlock_enclaves. wp_run. rewrite relock by apply Hwf. apply HQ.
    split; [done|]. by left. }
  destruct (aget (enclaves m) eid) as [e|] eqn:He; [|by apply Hno].
  destruct (is_stopped e) eqn:Hs.
  - assert (e_state e = STOPPED) as Est by by apply bool_decide_eq_true_1 in Hs.
    destruct (live_of m Hwf eid e He) as [Hn _]; [by rewrite Est|].
    assert ((0 <=? state_val (e_state e)) && is_resumable e = true) as ->.
    { unfold is_resumable, is_running, is_stopped. rewrite Hn, Est. done. }
    simpl. wp_step. apply (wp_update_enclave _ eid e); [done|]. wp_step. unfold unlock_enclaves. wp_step.
    cbn [enclaves set_encl_lock]. rewrite relock_enclaves by apply Hwf. wp_step. rewrite Hn, Est.
    change (set_state RUNNING (set_n_thread (u32 (threads_of STOPPED + 1)) e)) with (enter_state RUNNING (threads_of RUNNING) e).
    eapply switch_enter; [done|done|done|by rewrite Est|done|].
    intros regs' m' Hwf' Hsw. wp_step. apply HQ. split; [done|]. right. split; [done|]. eauto.
  - assert ((0 <=? state_val (e_state e)) && is_resumable e = false) as ->.
    { unfold is_resumable. rewrite Hs. unfold is_running. case_bool_decide as Er; [|by rewrite andb_false_r].
      destruct (live_of m Hwf eid e He) as [Hn _]; [by rewrite Er|]. rewrite Hn, Er. done. }
    apply Hno. intros e' [= <-]. done.
Qed.

Lemma wp_leave_running m eid e (Q : bool -> machine -> Prop) :
  sm_wf m -> aget (enclaves m) eid = Some e ->
  (is_running e = false -> Q false m) ->
  (is_running e = true ->
   Q true (set_enclaves (aset (enclaves m) eid (enter_state STOPPED (threads_of STOPPED) e)) m)) ->
  wp (leave_running eid) Q m.
Proof.
  intros Hwf He Hno Hyes. unfold leave_running. wp_step. apply wp_lock; [apply Hwf|].
  unfold enclave_at. wp_run. eapply wp_or_ub; [exact He|]. fold (is_running e).
  destruct (is_running e) eqn:Hr.
  - assert (e_state e = RUNNING) as Est by by apply bool_decide_eq_true_1 in Hr.
    destruct (live_of m Hwf eid e He) as [Hn _]; [by rewrite Est|].
    wp_step. apply (wp_update_enclave _ eid e); [done|]. wp_step. unfold unlock_enclaves. wp_step.
    cbn [enclaves set_encl_lock]. rewrite relock_enclaves by apply Hwf. wp_step. cbn [n_thread set_n_thread].
    rewrite Hn, Est. by apply Hyes.
  - wp_step. wp_step. wp_step. unfold unlock_enclaves. wp_step. rewrite relock by apply Hwf. wp_step. by apply Hno.
Qed.

Lemma wp_exit_enclave m h regs eid e (Q : Z * sbi_trap_regs -> machine -> Prop) :
  sm_wf m -> call_ok m h regs -> aget (enclaves m) eid = Some e ->
  (forall res m', switch_result SBI_ERR_SM_ENCLAVE_NOT_RUNNING is_running STOPPED
     (fun r => r = SBI_ERR_SM_ENCLAVE_SUCCESS) eid regs m res m' -> Q res m') ->
  wp (exit_enclave h regs eid) Q m.
Proof.
  intros Hwf Hcall He HQ. unfold exit_enclave. wp_step. apply (wp_leave_running m eid e); [done|done| |]; intros Hr; simpl.
  - wp_step. apply HQ. split; [done|]. left. split; [done|]. split; [done|]. intros e' He'. congruence.
  - wp_step. assert (e_state e = RUNNING) as Est by by apply bool_decide_eq_true_1 in Hr.
    eapply switch_leave; [done|done|done|by rewrite Est|done|].
    intros regs' m' Hwf' Hsw. wp_step. apply HQ. split; [done|]. right. split; [done|]. eauto.
Qed.

(** The error code that tells the host why the enclave stopped. *)
Definition stop_code (request r : Z) : Prop :=
  r = if request =? STOP_TIMER_INTERRUPT then SBI_ERR_SM_ENCLAVE_INTERRUPTED
      else if request =? STOP_EDGE_CALL_HOST then SBI_ERR_SM_ENCLAVE_EDGE_CALL_HOST
      else SBI_ERR_SM_ENCLAVE_UNKNOWN_ERROR.

Lemma wp_stop_enclave m h regs request eid e (Q : Z * sbi_trap_regs -> machine -> Prop) :
  sm_wf m -> call_ok m h regs -> aget (enclaves m) eid = Some e ->
  (forall res m', switch_result SBI_ERR_SM_ENCLAVE_NOT_RUNNING is_running STOPPED (stop_code request)
     eid regs m res m' -> Q res m') ->
  wp (stop_enclave h regs request eid) Q m.
Proof.
  intros Hwf Hcall He HQ. unfold stop_enclave. wp_step. apply (wp_leave_running m eid e); [done|done| |]; intros Hr; simpl.
  - wp_step. apply HQ. split; [done|]. left. split; [done|]. split; [done|]. intros e' He'. congruence.
  - wp_step. assert (e_state e = RUNNING) as Est by by apply bool_decide_eq_true_1 in Hr.
    eapply switch_leave; [done|done|done|by rewrite Est|done|].
    intros regs' m' Hwf' Hsw. wp_step. apply HQ. split; [done|]. right. split; [done|]. eauto.
Qed.

(** ** Creation arguments *)

Record create_args_u64 (args : keystone_sbi_create_t) : Prop := {
  cu_epm : is_u64 (paddr (epm_region args)) /\ is_u64 (pr_size (epm_region args));
  cu_utm : is_u64 (paddr (utm_region args)) /\ is_u64 (pr_size (utm_region args));
  cu_runtime : is_u64 (runtime_paddr args);
  cu_user : is_u64 (user_paddr args);
  cu_free : is_u64 (free_paddr args)
}.

(** What valid arguments are: two non-empty ranges that do not wrap around, and the
    three sections in order inside the private one. *)
Definition create_args_spec (args : keystone_sbi_create_t) : Prop :=
  let base := paddr (epm_region args) in
  let fin := base + pr_size (epm_region args) in
  base < fin < 2 ^ 64 /\
  paddr (utm_region args) < paddr (utm_region args) + pr_size (utm_region args) < 2 ^ 64 /\
  base <= runtime_paddr args <= user_paddr args /\ user_paddr args <= free_paddr args <= fin /\
  user_paddr args < fin.

Lemma wraps a b : is_u64 a -> is_u64 b -> (u64 (a + b) <=? a) = false <-> a < a + b < 2 ^ 64.
Proof.
  unfold is_u64. intros Ha Hb. rewrite Z.leb_gt. unfold u64. destruct (decide (a + b < 2 ^ 64)).
  - rewrite Z.mod_small by lia. lia.
  - assert ((a + b) mod 2 ^ 64 = a + b - 2 ^ 64) as ->; [|lia].
    symmetry. apply Z.mod_unique with (q := 1); lia.
Qed.

Lemma create_args_valid_spec args : create_args_u64 args -> is_create_args_valid args = true <-> create_args_spec args.
Proof.
  intros [[H1 H2] [H3 H4] H5 H6 H7]. unfold is_create_args_valid, create_args_spec.
  pose proof (wraps _ _ H1 H2) as W1. pose proof (wraps _ _ H3 H4) as W2. unfold is_u64 in *.
  destruct (Z.leb_spec (pr_size (epm_region args)) 0); [split; [done|lia]|].
  destruct (u64 (paddr (epm_region args) + pr_size (epm_region args)) <=? paddr (epm_region args)).
  { split; [done|]. intros (Hb & _). by apply W1 in Hb. }
  destruct (u64 (paddr (utm_region args) + pr_size (utm_region args)) <=? paddr (utm_region args)).
  { split; [done|]. intros (_ & Hb & _). by apply W2 in Hb. }
  destruct W1 as [W1 _], W2 as [W2 _]. specialize (W1 eq_refl). specialize (W2 eq_refl).
  rewrite (u64_id (paddr (epm_region args) + _)) by (unfold is_u64; lia).
  destruct (Z.ltb_spec (runtime_paddr args) (paddr (epm_region args))); [split; [done|lia]|].
  destruct (Z.leb_spec (paddr (epm_region args) + pr_size (epm_region args)) (runtime_paddr args)); [split; [done|lia]|].
  destruct (Z.ltb_spec (user_paddr args) (paddr (epm_region args))); [split; [done|lia]|].
  destruct (Z.leb_spec (paddr (epm_region args) + pr_size (epm_region args)) (user_paddr args)); [split; [done|lia]|].
  destruct (Z.ltb_spec (free_paddr args) (paddr (epm_region args))); [split; [done|lia]|].
  destruct (Z.ltb_spec (paddr (epm_region args) + pr_size (epm_region args)) (free_paddr args)); [split; [done|lia]|].
  simpl. destruct (Z.ltb_spec (user_paddr args) (runtime_paddr args)); [split; [done|lia]|].
  destruct (Z.ltb_spec (free_paddr args) (user_paddr args)); [split; [done|lia]|]. split; [lia|done].
Qed.

(** ** Replacing one enclave of the table *)

(** The parts of the machine that a call on one enclave keeps. *)
Record same_frame (m m' : machine) : Prop := {
  sf_lock : encl_lock m' = encl_lock m;
  sf_harts : length (harts m') = length (harts m);
  sf_pmp_harts : length (hart_pmp (pmp m')) = length (hart_pmp (pmp m));
  sf_cpus : length (cpus m') = length (cpus m);
  sf_os : os_region_id m' = os_region_id m;
  sf_sm : sm_region_id m' = sm_region_id m
}.

Section Replace.
Context (m m' : machine) (Hwf : sm_wf m) (eid : Z) (e e' : enclave).
Context (He : aget (enclaves m) eid = Some e) (Henc : enclaves m' = aset (enclaves m) eid e').
Context (Hpmp : pmp_wf (pmp m')) (Hlock : pmp_lock (pmp m') = false) (Hsf : same_frame m m').
Context (Hkeep : forall j r, valid_at (pmp m) j r -> ~ owns e j -> valid_at (pmp m') j r).
Context (Hok : enclave_ok (pmp m') e').
Context (Hnew : forall rid, owns e' rid ->
  (forall j ej, aget (enclaves m) j = Some ej -> j <> eid -> ~ owns ej rid) /\
  rid <> os_region_id m /\ rid <> sm_region_id m).

Lemma other_enclave_ok j ej : aget (enclaves m) j = Some ej -> j <> eid -> enclave_ok (pmp m') ej.
Proof using All.
  intros Hj Hne. destruct (wf_encl m Hwf j ej Hj) as [L1 L2 Hst]. split; [done..|].
  assert (forall i r, valid_at (pmp m) i r -> owns ej i -> valid_at (pmp m') i r) as Hv.
  { intros i r Hi Ho. apply Hkeep; [done|]. intros Ho'. apply Hne. by apply (wf_owner m Hwf j eid ej e i). }
  destruct (e_state ej); try done; destruct Hst as (Hn & rid & urid & epm & utm & Hl); (split; [done|]);
    exists rid, urid, epm, utm; pose proof (live_owns _ _ _ _ _ _ rid Hl); pose proof (live_owns _ _ _ _ _ _ urid Hl);
    destruct Hl as [? ? ? ? ? ? ? ?]; split; try done; apply Hv; naive_solver.
Qed.

Lemma wf_replace : sm_wf m'.
Proof using All.
  destruct Hsf as [F1 F2 F3 F4 F5 F6].
  assert (forall j ej, aget (enclaves m') j = Some ej ->
    (j = eid /\ ej = e') \/ (j <> eid /\ aget (enclaves m) j = Some ej)) as Hback.
  { intros j ej Hj. rewrite Henc, aget_aset in Hj by apply (aget_Some_range _ _ _ He).
    case_decide; subst; [left; by simplify_eq|by right]. }
  assert (forall i, i = os_region_id m \/ i = sm_region_id m -> ~ owns e i) as Hsys.
  { intros i Hi Ho. destruct (wf_not_sys m Hwf eid e i He Ho). naive_solver. }
  split; rewrite ?F1, ?F2, ?F3, ?F4, ?F5, ?F6; try done; try apply Hwf.
  - rewrite Henc, length_aset. apply Hwf.
  - destruct (wf_os m Hwf) as [r Hr]. exists r. apply Hkeep; auto.
  - intros j ej Hj. destruct (Hback j ej Hj) as [[-> ->]|[Hne Hj']]; [done|]. by apply (other_enclave_ok j).
  - intros a b ea eb rid Ha Hb Hoa Hob.
    destruct (Hback a ea Ha) as [[-> ->]|[Hna Ha']], (Hback b eb Hb) as [[-> ->]|[Hnb Hb']]; [done| | |].
    + by destruct (Hnew rid Hoa) as [Hx _]; destruct (Hx b eb Hb' Hnb).
    + by destruct (Hnew rid Hob) as [Hx _]; destruct (Hx a ea Ha' Hna).
    + by apply (wf_owner m Hwf a b ea eb rid).
  - destruct (wf_smm m Hwf) as (r & Hr & ?). exists r. split; [|done]. apply Hkeep; auto.
  - intros a ea rid Ha Ho. destruct (Hback a ea Ha) as [[-> ->]|[Hna Ha']]; [by apply Hnew|].
    by apply (wf_not_sys m Hwf a ea).
Qed.
End Replace.

(** ** Creation *)

Lemma find_free_eid_spec l k :
  match find_free_eid l k with
  | Some i => exists e, k <= i /\ aget l (i - k) = Some e /\ e_state e = INVALID
  | None => forall e, e ∈ l -> e_state e <> INVALID
  end.
Proof.
  revert k. induction l as [|e l IH]; intros k; simpl; [by intros e ?%elem_of_nil|].
  case_decide as E.
  - exists e. split; [lia|]. rewrite Z.sub_diag. done.
  - specialize (IH (k + 1)). destruct (find_free_eid l (k + 1)) as [i|].
    + destruct IH as (e' & Hle & Hget & Hst). exists e'. split; [lia|]. split; [|done].
      unfold aget in *. destruct (Z.ltb_spec (i - (k + 1)) 0); [done|]. destruct (Z.ltb_spec (i - k) 0); [lia|].
      replace (Z.to_nat (i - k)) with (S (Z.to_nat (i - (k + 1)))) by lia. done.
    + intros e' [->|Hin]%elem_of_cons; [done|by apply IH].
Qed.

Lemma set_state_back e st : e_state e = st -> forall st', set_state st (set_state st' e) = e.
Proof. intros <- st'. by destruct e. Qed.

Lemma wp_encl_free_eid m eid e (Q : Z -> machine -> Prop) :
  encl_lock m = false -> aget (enclaves m) eid = Some e ->
  Q SBI_ERR_SM_ENCLAVE_SUCCESS (set_enclaves (aset (enclaves m) eid (set_state INVALID e)) m) ->
  wp (encl_free_eid eid) Q m.
Proof.
  intros Hl He HQ. unfold encl_free_eid. wp_step. apply wp_lock; [done|].
  wp_step. apply (wp_update_enclave _ eid e); [done|]. wp_step. unfold unlock_enclaves. wp_step.
  cbn [enclaves set_encl_lock]. rewrite relock_enclaves by done. by wp_step.
Qed.

(** Allocation and the two ways it can end. *)
Lemma wp_encl_alloc_eid m (Q : Z * option Z -> machine -> Prop) :
  encl_lock m = false ->
  Q (SBI_ERR_SM_ENCLAVE_NO_FREE_RESOURCE, None) m ->
  (forall eid e, aget (enclaves m) eid = Some e -> e_state e = INVALID ->
     Q (SBI_ERR_SM_ENCLAVE_SUCCESS, Some eid) (set_enclaves (aset (enclaves m) eid (set_state ALLOCATED e)) m)) ->
  wp encl_alloc_eid Q m.
Proof.
  intros Hl Hno Hyes. unfold encl_alloc_eid. wp_step. apply wp_lock; [done|]. wp_step. wp_step.
  cbn [enclaves set_encl_lock]. pose proof (find_free_eid_spec (enclaves m) 0) as Hf.
  destruct (find_free_eid (enclaves m) 0) as [eid|].
  - destruct Hf as (e & _ & He & Hst). rewrite Z.sub_0_r in He.
    wp_step. apply (wp_update_enclave _ eid e); [done|]. wp_step. unfold unlock_enclaves. wp_step.
    cbn [enclaves set_encl_lock]. rewrite relock_enclaves by done. wp_step. by apply Hyes.
  - wp_step. unfold unlock_enclaves. wp_step. rewrite relock by done. by wp_step.
Qed.

Lemma region_pages r : region_ok r ->
  r_addr r mod RISCV_PGSIZE = 0 /\ (r_size r = minus1_ul /\ r_addr r = 0 \/ r_size r mod RISCV_PGSIZE = 0).
Proof.
  intros Hok. destruct (ok_shape r Hok) as [[_ [[E1 E2]|(k & Hk & E2 & E3)]]|(_ & E1 & E2 & _)].
  - rewrite E1. auto.
  - assert (RISCV_PGSIZE | 2 ^ k) as Hp.
    { exists (2 ^ (k - 12)). change RISCV_PGSIZE with (2 ^ 12). rewrite <- Z.pow_add_r by lia. f_equal. lia. }
    rewrite E2. split; [|right; by apply Z.mod_divide].
    apply Z.mod_divide; [done|]. apply Z.mod_divide in E3; [|lia]. by apply (Z.divide_trans _ (2 ^ k)).
  - auto.
Qed.

(** A region that the private memory of an enclave can be given ends below the last
    page of the address space. *)
Lemma epm_region_end s r : region_ok r ->
  (exists i r', valid_at s i r' /\ r_allow_overlap r' = false /\ region_ok r') ->
  no_overlap s (r_addr r) (r_size r) -> region_end r <= 2 ^ 64 - RISCV_PGSIZE.
Proof.
  intros Hok (i & r' & Hv & Hao' & Hok') [Hend Hno]. pose proof (ok_addr r Hok). pose proof (ok_size r Hok).
  pose proof (ok_addr r' Hok'). pose proof (ok_size r' Hok').
  destruct (region_pages r Hok) as [Ha Hs], (region_pages r' Hok') as [Ha' _].
  specialize (Hno i r' Hv Hao'). unfold region_end, RISCV_PGSIZE, is_u64, minus1_ul in *.
  destruct Hs as [[E1 E2]|Hs]; mlia.
Qed.

(** ** What a successful creation leaves behind *)

Record created (args : keystone_sbi_create_t) (eid : Z) (m m' : machine) : Prop := {
  cr_was : exists e, aget (enclaves m) eid = Some e /\ e_state e = INVALID;
  cr_is : exists e', aget (enclaves m') eid = Some e' /\ e_state e' = FRESH /\
    e_params e' = create_params args /\ e_eid e' = eid /\
    e_hash e' = hash_finalize (sha3_update hash_init (measured (mem m') (create_params args)));
  cr_others : forall j, j <> eid -> aget (enclaves m') j = aget (enclaves m) j;
  cr_mem : mem m' = memset (paddr (utm_region args)) 0 (pr_size (utm_region args)) (mem m);
  cr_regions : exists rid urid epm utm s', pmp m' = s' /\
    same_table (add_region urid utm (add_region rid epm (pmp m))) s' /\
    region_for (paddr (epm_region args)) (pr_size (epm_region args)) false epm /\
    region_for (paddr (utm_region args)) (pr_size (utm_region args)) false utm
}.

(** The two regions of a new enclave in the region table. *)
Record new_regions (args : keystone_sbi_create_t) (s s2 : pmp_sys) (rid urid : Z) (epm utm : pmp_region) : Prop := {
  nr_wf : pmp_wf s2;
  nr_lock : pmp_lock s2 = false;
  nr_eq : s2 = add_region urid utm (add_region rid epm s);
  nr_fresh : Z.testbit (region_def_bitmap s) rid = false /\ Z.testbit (region_def_bitmap s) urid = false /\ rid <> urid;
  nr_range : 0 <= rid < PMP_MAX_N_REGION /\ 0 <= urid < PMP_MAX_N_REGION;
  nr_epm : region_for (paddr (epm_region args)) (pr_size (epm_region args)) false epm;
  nr_utm : region_for (paddr (utm_region args)) (pr_size (utm_region args)) false utm;
  nr_end : region_end epm <= 2 ^ 64 - RISCV_PGSIZE
}.

Lemma new_regions_valid args s s2 rid urid epm utm : pmp_wf s -> pmp_wf (add_region rid epm s) ->
  new_regions args s s2 rid urid epm utm ->
  forall j r, valid_at s2 j r <-> (j = urid /\ r = utm) \/ (j = rid /\ r = epm) \/ valid_at s j r.
Proof.
  intros Hwf Hwf1 [N1 N2 -> (F1 & F2 & F3) [R1 R2] N6 N7 N8] j r.
  rewrite valid_at_add by (done || by simpl; rewrite Z.lor_spec, F2, testbit_shiftl_1, bool_decide_eq_false_2 by (done || lia)).
  by rewrite valid_at_add by done.
Qed.

Lemma length_clean_state hc t : length (prev_state t) = 32%nat -> length (prev_state (clean_state hc t)) = 32%nat.
Proof.
  intros Ht. unfold clean_state, clean_smode_csrs. cbn [prev_state].
  assert (forall l a, length (fold_left (fun prev i => <[i := 0]> prev) l a) = length a) as ->; [|done].
  induction l as [|i l IH]; intros a; simpl; [done|]. by rewrite IH, length_insert.
Qed.

Section Create.
Context `{HO : OpenSBI} (m : machine) (Hwf : sm_wf m) (h : Z) (Hh : is_hart (pmp m) h).
Context (Hipi : ipi_harts_ok (length (hart_pmp (pmp m)))).
Context (args : keystone_sbi_create_t) (Hu : create_args_u64 args) (Hargs : create_args_spec args).
Context (eid : Z) (e : enclave) (He : aget (enclaves m) eid = Some e) (Hinv : e_state e = INVALID).

(** The machine after [encl_alloc_eid]. *)
Definition m_alloc : machine := set_enclaves (aset (enclaves m) eid (set_state ALLOCATED e)) m.

Lemma alloc_at m1 : enclaves m1 = enclaves m_alloc -> aget (enclaves m1) eid = Some (set_state ALLOCATED e).
Proof using All. intros ->. apply aget_aset_eq, (aget_Some_range _ _ _ He). Qed.

(** Undoing the allocation gives the machine back. *)
Lemma wp_free_encl_idx res (Q : Z * option Z -> machine -> Prop) :
  Q (res, None) m -> wp (free_encl_idx eid res) Q m_alloc.
Proof using All.
  intros HQ. unfold free_encl_idx. wp_step. apply (wp_encl_free_eid _ eid (set_state ALLOCATED e)).
  - apply Hwf.
  - by apply alloc_at.
  - wp_step. unfold m_alloc. simpl. rewrite aset_aset, (set_state_back e INVALID Hinv), aset_id by done.
    by destruct m.
Qed.

Lemma finish_params rid urid epm utm s2 : new_regions args (pmp m) s2 rid urid epm utm ->
  params_ok (create_params args).
Proof using All.
  intros [_ _ _ _ _ (E1 & E2 & _) _ Hend]. destruct Hargs as (A1 & A2 & A3 & A4 & A5).
  destruct Hu as [[H1 H2] _ _ _ _]. unfold region_end, is_u64 in *.
  split; cbn [dram_base runtime_base user_base free_base create_params]; try lia.
Qed.

(** The enclave record at the end of [create_enclave]. *)
Definition new_enclave (rid urid : Z) (hc : hart_csrs) (md : list Z) : enclave :=
  set_state FRESH (set_hash md (init_enclave eid rid urid (create_params args) hc (set_state ALLOCATED e))).

Lemma new_enclave_live s2 s3 rid urid epm utm hc md :
  pmp_wf (add_region rid epm (pmp m)) -> new_regions args (pmp m) s2 rid urid epm utm -> same_table s2 s3 ->
  live s3 (new_enclave rid urid hc md) rid urid epm utm.
Proof using All.
  intros Hwf1 Hnew Hst. pose proof (new_regions_valid _ _ _ _ _ _ _ (wf_pmp m Hwf) Hwf1 Hnew) as Hval.
  destruct (wf_encl m Hwf eid e He) as [L1 L2 Hs]. rewrite Hinv in Hs.
  assert (forall i r, 0 <= i < 8 -> aget (aset (e_regions e) i r) i = Some r) as Hset
    by (intros; apply aget_aset_eq; rewrite L1; lia).
  assert (e_regions (new_enclave rid urid hc md) =
    aset (aset (e_regions e) 0 (mkERegion rid REGION_EPM)) 1 (mkERegion urid REGION_UTM)) as Er by reflexivity.
  split; rewrite ?Er.
  - rewrite aget_aset_ne by lia. apply Hset. lia.
  - apply aget_aset_eq. rewrite length_aset, L1. lia.
  - intros i r Hi H0 H1. rewrite !aget_aset_ne in Hi by lia. by apply (Hs i).
  - apply Hnew.
  - apply (same_table_valid s2 s3); [done|]. apply Hval. auto.
  - apply Hnew.
  - apply (same_table_valid s2 s3); [done|]. apply Hval. auto.
  - apply Hnew.
Qed.

(** The invariant for the machine with the new enclave. *)
Lemma create_wf s2 s3 rid urid epm utm hc md m' :
  pmp_wf (add_region rid epm (pmp m)) -> new_regions args (pmp m) s2 rid urid epm utm -> same_table s2 s3 ->
  pmp m' = s3 -> enclaves m' = aset (enclaves m) eid (new_enclave rid urid hc md) -> same_frame m m' ->
  sm_wf m'.
Proof using All.
  intros Hwf1 Hnew Hst Epmp Eenc Hsf.
  pose proof (new_regions_valid _ _ _ _ _ _ _ (wf_pmp m Hwf) Hwf1 Hnew) as Hval.
  pose proof (new_enclave_live s2 s3 rid urid epm utm hc md Hwf1 Hnew Hst) as Hlive.
  destruct (wf_encl m Hwf eid e He) as [L1 L2 Hs]. rewrite Hinv in Hs.
  assert (forall j ej i, aget (enclaves m) j = Some ej -> owns ej i -> Z.testbit (region_def_bitmap (pmp m)) i = true) as Hvalid.
  { intros j ej i Hj Ho. pose proof (eo_state _ _ (wf_encl m Hwf j ej Hj)) as Hsj.
    destruct (e_state ej) eqn:Ej; try done;
      [destruct Ho as (k & r & Hk & Hty & _); by destruct Hty; apply (Hsj k r)|..];
      destruct Hsj as (_ & r1 & r2 & p1 & p2 & Hl); apply (live_owns _ _ _ _ _ _ _ Hl) in Ho as [->| ->]; apply Hl. }
  pose proof (nr_fresh _ _ _ _ _ _ _ Hnew) as (F1 & F2 & F3).
  apply (wf_replace m m' Hwf eid e (new_enclave rid urid hc md)); try done.
  - rewrite Epmp. apply (same_table_wf s2); [done|apply Hnew].
  - rewrite Epmp, (st_lock _ _ Hst). apply Hnew.
  - intros j r Hj _. rewrite Epmp. apply (same_table_valid s2 s3); [done|]. apply Hval. auto.
  - rewrite Epmp. split.
    + change (e_regions _) with (aset (aset (e_regions e) 0 (mkERegion rid REGION_EPM)) 1 (mkERegion urid REGION_UTM)).
      by rewrite !length_aset.
    + by apply length_clean_state.
    + split; [done|]. by exists rid, urid, epm, utm.
  - intros i Ho. apply (live_owns _ _ _ _ _ _ _ Hlive) in Ho.
    assert (Z.testbit (region_def_bitmap (pmp m)) i = false) as Hf by (destruct Ho as [->| ->]; done).
    split; [intros j ej Hj _ Hoj; by rewrite (Hvalid j ej i Hj Hoj) in Hf|].
    split; intros ->; [destruct (wf_os m Hwf) as [r [Hb _]]|destruct (wf_smm m Hwf) as (r & [Hb _] & _)]; congruence.
Qed.

Lemma wp_finish_create s2 rid urid epm utm (Q : Z * option Z -> machine -> Prop) :
  pmp_wf (add_region rid epm (pmp m)) -> new_regions args (pmp m) s2 rid urid epm utm ->
  (forall m', sm_wf m' -> created args eid m m' -> Q (SBI_ERR_SM_ENCLAVE_SUCCESS, Some eid) m') ->
  wp (finish_create h args eid rid urid) Q (set_pmp s2 m_alloc).
Proof using All.
  intros Hwf1 Hnew HQ. pose proof (finish_params _ _ _ _ _ Hnew) as Hp.
  pose proof (new_regions_valid _ _ _ _ _ _ _ (wf_pmp m Hwf) Hwf1 Hnew) as Hval.
  assert (length (hart_pmp s2) = length (hart_pmp (pmp m))) as Hlen by (by rewrite (nr_eq _ _ _ _ _ _ _ Hnew)).
  unfold finish_create. wp_step. apply wp_with_pmp. cbn [pmp set_pmp].
  apply (wp_pmp_set_global s2 (nr_wf _ _ _ _ _ _ _ Hnew) ltac:(by rewrite Hlen) rid PMP_NO_PERM epm).
  { apply Hval. auto. }
  intros s3 Hst. simpl. wp_step. unfold clean_enclave_memory. wp_step. unfold sbi_memset. wp_step. wp_step.
  destruct (aget_is_Some (harts m) h) as [hc Hhc]; [rewrite (proj1 (wf_harts m Hwf)); exact Hh|].
  wp_step. unfold hart_at. wp_run. eapply wp_or_ub; [exact Hhc|].
  wp_step. apply (wp_update_enclave _ eid (set_state ALLOCATED e)); [by apply alloc_at|].
  wp_step. unfold platform_create_enclave. wp_step. simpl.
  wp_step. apply wp_lock; [apply Hwf|]. wp_step. unfold validate_and_hash_enclave, enclave_at.
  set (e1 := init_enclave eid rid urid (create_params args) hc (set_state ALLOCATED e)).
  wp_run. eapply (wp_or_ub _ e1).
  { cbn. apply aget_aset_eq. rewrite length_aset. apply (aget_Some_range _ _ _ He). }
  wp_run. cbn [e_params e1 init_enclave set_thread set_params set_n_thread].
  rewrite validate_and_hash_epm_spec by done. wp_step.
  apply (wp_update_enclave _ eid e1).
  { cbn. apply aget_aset_eq. rewrite length_aset. apply (aget_Some_range _ _ _ He). }
  wp_step. change (truthy SBI_ERR_SM_ENCLAVE_SUCCESS) with false. cbv iota. wp_step.
  match goal with |- context [set_hash ?md e1] => remember md as md0 eqn:Hmd end.
  cbn [mem set_encl_lock set_enclaves set_mem] in Hmd.
  apply (wp_update_enclave _ eid (set_hash md0 e1)).
  { apply aget_aset_eq. cbn [enclaves set_encl_lock set_enclaves]. rewrite !length_aset.
    apply (aget_Some_range _ _ _ He). }
  wp_step. unfold unlock_enclaves. wp_step. wp_step.
  match goal with |- Q _ ?M => set (m' := M) end.
  assert (enclaves m' = aset (enclaves m) eid (new_enclave rid urid hc md0)) as Henc.
  { unfold m'. cbn [enclaves set_encl_lock set_enclaves set_mem set_pmp m_alloc]. by rewrite !aset_aset. }
  assert (same_frame m m') as Hsf.
  { split; try done; cbn. - symmetry. apply Hwf. - by rewrite (st_harts _ _ Hst). }
  apply HQ.
  - by apply (create_wf s2 s3 rid urid epm utm hc md0).
  - split.
    + by exists e.
    + exists (new_enclave rid urid hc md0). rewrite Henc.
      rewrite aget_aset_eq by apply (aget_Some_range _ _ _ He). do 4 (split; [done|]).
      change (md0 = hash_finalize (sha3_update hash_init (measured (mem m') (create_params args)))). exact Hmd.
    + intros j Hj. rewrite Henc. by apply aget_aset_ne.
    + done.
    + exists rid, urid, epm, utm, s3. split; [done|]. rewrite <- (nr_eq _ _ _ _ _ _ _ Hnew).
      split; [done|]. split; apply Hnew.
Qed.
End Create.

(** The specification of [pmp_region_init_atomic] in the form the callers use. *)
Lemma wp_init_atomic s start size priority (Q : init_result -> pmp_sys -> Prop) :
  pmp_wf s -> pmp_lock s = false -> is_u64 start -> is_u64 size ->
  (forall err rid, err <> SBI_ERR_SM_PMP_SUCCESS -> Q (err, rid) s) ->
  (forall i r, 0 <= i < PMP_MAX_N_REGION -> Z.testbit (region_def_bitmap s) i = false ->
     region_for start size false r -> region_ok r -> regs_granted s priority r -> no_overlap s start size ->
     pmp_wf (add_region i r s) -> Q (SBI_ERR_SM_PMP_SUCCESS, Some i) (add_region i r s)) ->
  wp (pmp_region_init_atomic start size priority false) Q s.
Proof.
  intros Hwf Hl Hst Hsz Herr Hok.
  destruct (wp_atomic_init s start size priority false Hwf Hl Hst Hsz ltac:(done)) as ([err rid] & s' & Heq & Hpost & Hwf' & _ & Hno).
  eapply wp_ok; [exact Heq|]. destruct Hpost as [[He ->]|[He (i & r & Hr & Hi & Hb & Hfor & Hrok & Hg & ->)]]; simpl in *.
  - by apply Herr.
  - subst. by apply Hok; auto.
Qed.

(** The result of [create_enclave]: an error that changes nothing, or a new enclave. *)
Definition create_result (args : keystone_sbi_create_t) (m : machine) (res : Z * option Z) (m' : machine) : Prop :=
  sm_wf m' /\
  ((res.1 <> SBI_ERR_SM_ENCLAVE_SUCCESS /\ res.2 = None /\ m' = m) \/
   (exists eid, res = (SBI_ERR_SM_ENCLAVE_SUCCESS, Some eid) /\ create_args_spec args /\ created args eid m m')).

Lemma truthy_err err : err <> SBI_ERR_SM_PMP_SUCCESS -> truthy err = true.
Proof. intros H. unfold truthy. by apply negb_true_iff, Z.eqb_neq. Qed.

Lemma set_pmp_id m : set_pmp (pmp m) m = m.
Proof. by destruct m. Qed.

Lemma wp_create_enclave `{HO : OpenSBI} m h args (Q : Z * option Z -> machine -> Prop) :
  sm_wf m -> is_hart (pmp m) h -> ipi_harts_ok (length (hart_pmp (pmp m))) -> create_args_u64 args ->
  (forall res m', create_result args m res m' -> Q res m') ->
  wp (create_enclave h args) Q m.
Proof.
  intros Hwf Hh Hipi Hu HQ. unfold create_enclave.
  assert (forall err, err <> SBI_ERR_SM_ENCLAVE_SUCCESS -> Q (err, None) m) as Herr.
  { intros err He. apply HQ. split; [done|]. by left. }
  destruct (is_create_args_valid args) eqn:Hval; simpl; [|by wp_step; apply Herr].
  apply create_args_valid_spec in Hval; [|done].
  wp_step. apply wp_encl_alloc_eid; [apply Hwf|by wp_step; apply Herr|]. intros eid e He Hinv.
  fold (m_alloc m eid e). wp_step. apply wp_with_pmp. cbn [pmp m_alloc set_enclaves].
  apply wp_init_atomic; [apply Hwf|apply Hwf|apply Hu|apply Hu| |].
  { intros err rid Hne. rewrite truthy_err by done. fold (m_alloc m eid e).
    change (set_pmp (pmp m) (m_alloc m eid e)) with (set_pmp (pmp (m_alloc m eid e)) (m_alloc m eid e)).
    rewrite set_pmp_id. eapply wp_free_encl_idx; try done. by apply Herr. }
  intros rid epm Hr Hrb Hefor Heok Hgr Hno Hwf1. change (truthy SBI_ERR_SM_PMP_SUCCESS) with false. cbv iota.
  wp_step. eapply wp_or_ub; [reflexivity|].
  wp_step. apply wp_with_pmp. cbn [pmp set_pmp].
  apply wp_init_atomic; [done|apply Hwf|apply Hu|apply Hu| |].
  { intros err urid Hne. rewrite truthy_err by done. unfold free_region. wp_step. apply wp_with_pmp. cbn [pmp set_pmp].
    assert (pmp_region_free_atomic rid (add_region rid epm (pmp m)) = Ok (SBI_ERR_SM_PMP_SUCCESS, pmp m)) as Hfree.
    { rewrite free_spec by (done || apply Hwf || unfold PMP_MAX_N_REGION in *; lia). simpl.
      rewrite Z.lor_spec, testbit_shiftl_1, bool_decide_eq_true_2, orb_true_r by (done || lia).
      rewrite aget_aset_eq by by rewrite (wf_len _ (wf_pmp m Hwf)). f_equal. f_equal.
      apply remove_add_region; try done; [apply Hwf|]. destruct Hgr as [?|[? _]]; done. }
    eapply wp_ok; [exact Hfree|]. fold (m_alloc m eid e).
    change (set_pmp (pmp m) (set_pmp _ (set_pmp _ (m_alloc m eid e)))) with (set_pmp (pmp (m_alloc m eid e)) (m_alloc m eid e)).
    rewrite set_pmp_id. eapply wp_free_encl_idx; try done. by apply Herr. }
  intros urid utm Hur Hurb Hufor Huok Hugr Huno Hwf2. change (truthy SBI_ERR_SM_PMP_SUCCESS) with false. cbv iota.
  wp_step. eapply wp_or_ub; [reflexivity|].
  fold (m_alloc m eid e).
  match goal with |- wp _ _ (set_pmp ?s _) =>
    change (wp (finish_create h args eid rid urid) Q (set_pmp s (m_alloc m eid e))) end.
  assert (rid <> urid /\ Z.testbit (region_def_bitmap (pmp m)) urid = false) as [Hne Hurb'].
  { simpl in Hurb. rewrite Z.lor_spec, testbit_shiftl_1 in Hurb by lia. apply orb_false_iff in Hurb as [? Hx].
    by apply bool_decide_eq_false_1 in Hx. }
  eapply (wp_finish_create m Hwf h Hh Hipi args Hu Hval eid e He Hinv _ rid urid epm utm); [done| |].
  - split; try done; [apply Hwf|]. destruct Hefor as (E1 & E2 & E3). rewrite <- E1, <- E2 in Hno.
    destruct (wf_smm m Hwf) as (r & Hrv & Hra).
    apply (epm_region_end (pmp m)); [done| |done]. exists (sm_region_id m), r. split; [done|]. split; [done|].
    by apply (wf_region _ (wf_pmp m Hwf) (sm_region_id m)).
  - intros m' Hwf' Hcr. apply HQ. split; [done|]. right. by exists eid.
Qed.

(** ** Destruction *)

Definition is_destroyable (e : enclave) : bool := bool_decide (e_state e = FRESH) || bool_decide (e_state e = STOPPED).

(** What a successful destruction leaves behind: the private memory is cleared, both
    regions are gone and the slot is free. *)
Record destroyed (eid : Z) (m m' : machine) : Prop := {
  de_mem : exists e, aget (enclaves m) eid = Some e /\ is_destroyable e = true /\
    mem m' = memset (dram_base (e_params e)) 0 (dram_size (e_params e)) (mem m) /\
    (forall j r, valid_at (pmp m') j r <-> valid_at (pmp m) j r /\ ~ owns e j);
  de_slot : exists e', aget (enclaves m') eid = Some e' /\ e_state e' = INVALID /\ e_params e' = zero_params;
  de_others : forall j, j <> eid -> aget (enclaves m') j = aget (enclaves m) j;
  de_harts : length (hart_pmp (pmp m')) = length (hart_pmp (pmp m))
}.

Lemma wp_get_addr s i r (Q : Z -> pmp_sys -> Prop) :
  pmp_wf s -> valid_at s i r -> Q (r_addr r) s -> wp (pmp_region_get_addr i) Q s.
Proof.
  intros Hwf Hv HQ. pose proof (wf_valid_range s Hwf i (proj1 Hv)). unfold PMP_MAX_N_REGION in *.
  unfold pmp_region_get_addr. wp_step. apply wp_valid; [lia|]. rewrite (proj1 Hv).
  wp_step. apply (wp_region_at s i r); [apply Hv|]. by wp_step.
Qed.

Lemma wp_get_size s i r (Q : Z -> pmp_sys -> Prop) :
  pmp_wf s -> valid_at s i r -> Q (r_size r) s -> wp (pmp_region_get_size i) Q s.
Proof.
  intros Hwf Hv HQ. pose proof (wf_valid_range s Hwf i (proj1 Hv)). unfold PMP_MAX_N_REGION in *.
  unfold pmp_region_get_size. wp_step. apply wp_valid; [lia|]. rewrite (proj1 Hv).
  wp_step. apply (wp_region_at s i r); [apply Hv|]. by wp_step.
Qed.

Lemma wp_free_atomic s i r (Q : Z -> pmp_sys -> Prop) :
  pmp_wf s -> pmp_lock s = false -> valid_at s i r -> Q SBI_ERR_SM_PMP_SUCCESS (remove_region i r s) ->
  wp (pmp_region_free_atomic i) Q s.
Proof.
  intros Hwf Hl Hv HQ. pose proof (wf_valid_range s Hwf i (proj1 Hv)). unfold PMP_MAX_N_REGION in *.
  eapply wp_ok; [|exact HQ]. rewrite free_spec by (done || lia). by rewrite (proj1 Hv), (proj2 Hv).
Qed.

Section Destroy.
Context `{HO : OpenSBI} (m : machine) (Hwf : sm_wf m) (Hipi : ipi_harts_ok (length (hart_pmp (pmp m)))).
Context (eid : Z) (e : enclave) (He : aget (enclaves m) eid = Some e).
Context (rid urid : Z) (epm utm : pmp_region) (Hlive : live (pmp m) e rid urid epm utm).

Definition m_destroying : machine := set_enclaves (aset (enclaves m) eid (set_state DESTROYING e)) m.

Lemma destroying_at m1 : enclaves m1 = enclaves m_destroying -> aget (enclaves m1) eid = Some (set_state DESTROYING e).
Proof using He. intros ->. apply aget_aset_eq, (aget_Some_range _ _ _ He). Qed.

(** The round of the loop that clears and frees the private region. *)
Lemma wp_destroy_epm (Q : unit -> machine -> Prop) :
  (forall s', same_table (pmp m) s' ->
     Q tt (set_pmp (remove_region rid epm s')
       (set_mem (memset (dram_base (e_params e)) 0 (dram_size (e_params e)) (mem m)) m_destroying))) ->
  wp (destroy_region eid 0) Q m_destroying.
Proof using All.
  intros HQ. pose proof (wf_valid_range _ (wf_pmp m Hwf) rid (proj1 (live_epm_at _ _ _ _ _ _ Hlive))).
  unfold PMP_MAX_N_REGION in *. destruct (live_epm_for _ _ _ _ _ _ Hlive) as (E1 & E2 & _).
  unfold destroy_region, enclave_at. wp_run. eapply wp_or_ub; [by apply destroying_at|]. wp_run.
  eapply (wp_or_ub _ (mkERegion rid REGION_EPM)); [apply Hlive|]. simpl.
  wp_step. apply wp_with_pmp. apply (wp_get_addr _ _ epm); [apply Hwf|apply Hlive|].
  wp_step. apply wp_with_pmp. apply (wp_get_size _ _ epm); [apply Hwf|apply Hlive|].
  wp_step. unfold sbi_memset. wp_step. wp_step. apply wp_with_pmp. cbn [pmp set_mem set_pmp m_destroying set_enclaves].
  apply wp_pmp_unset_global; [apply Hwf|done|lia|]. intros err s' Hst.
  wp_step. apply wp_with_pmp. cbn [pmp set_pmp].
  apply (wp_free_atomic _ _ epm); [by apply (same_table_wf (pmp m)), Hwf|rewrite (st_lock _ _ Hst); apply Hwf| |].
  { apply (same_table_valid (pmp m)); [done|apply Hlive]. }
  wp_step. cbn [mem set_pmp set_mem m_destroying set_enclaves]. rewrite E1, E2. by apply HQ.
Qed.

(** The other rounds do nothing. *)
Lemma wp_destroy_rest i m1 (Q : unit -> machine -> Prop) :
  enclaves m1 = enclaves m_destroying -> 1 <= i < 8 -> Q tt m1 -> wp (destroy_region eid i) Q m1.
Proof using All.
  intros Henc Hi HQ. unfold destroy_region, enclave_at. wp_run. eapply wp_or_ub; [by apply destroying_at|]. wp_run.
  destruct (aget_is_Some (e_regions e) i) as [r Hr].
  { rewrite (eo_regions _ _ (wf_encl m Hwf eid e He)). lia. }
  eapply wp_or_ub; [exact Hr|]. case_decide as E1; [by wp_step|]. case_decide as E2; [by wp_step|]. exfalso.
  destruct (decide (i = 1)) as [->|].
  - rewrite (live_utm _ _ _ _ _ _ Hlive) in Hr. by simplify_eq.
  - by rewrite (live_rest _ _ _ _ _ _ Hlive i r) in E1 by (done || lia).
Qed.

Lemma wp_destroy_loop (Q : unit -> machine -> Prop) :
  (forall s', same_table (pmp m) s' ->
     Q tt (set_pmp (remove_region rid epm s')
       (set_mem (memset (dram_base (e_params e)) 0 (dram_size (e_params e)) (mem m)) m_destroying))) ->
  wp (for_each (indices ENCLAVE_REGIONS_MAX) (destroy_region eid)) Q m_destroying.
Proof using All.
  intros HQ. change (indices ENCLAVE_REGIONS_MAX) with (0 :: [1; 2; 3; 4; 5; 6; 7]). cbn [for_each].
  wp_step. apply wp_destroy_epm. intros s' Hst.
  match goal with |- wp _ _ ?M => set (m1 := M) end. fold (for_each [1; 2; 3; 4; 5; 6; 7] (destroy_region eid)).
  eapply wp_mono; [apply (wp_for_each (fun l m' => m' = m1 /\ Forall (fun i => 1 <= i < 8) l))|].
  - split; [done|]. repeat constructor; lia.
  - intros i l m' [-> Hl]. inversion Hl; subst. by apply wp_destroy_rest.
  - intros [] m' [-> _]. by apply HQ.
Qed.

Lemma destroyed_table s' j r : same_table (pmp m) s' ->
  valid_at (remove_region urid utm (remove_region rid epm s')) j r <-> valid_at (pmp m) j r /\ ~ owns e j.
Proof using All.
  intros Hst. pose proof (wf_valid_range _ (wf_pmp m Hwf) rid (proj1 (live_epm_at _ _ _ _ _ _ Hlive))).
  pose proof (wf_valid_range _ (wf_pmp m Hwf) urid (proj1 (live_utm_at _ _ _ _ _ _ Hlive))).
  rewrite !valid_at_remove, (same_table_valid (pmp m) s') by (done || lia).
  rewrite (live_owns _ _ _ _ _ _ j Hlive). naive_solver.
Qed.
End Destroy.

Definition destroy_result (eid : Z) (m : machine) (res : Z) (m' : machine) : Prop :=
  sm_wf m' /\
  ((res = SBI_ERR_SM_ENCLAVE_NOT_DESTROYABLE /\ m' = m /\
    forall e, aget (enclaves m) eid = Some e -> is_destroyable e = false) \/
   (res = SBI_ERR_SM_ENCLAVE_SUCCESS /\ destroyed eid m m')).

Lemma wp_destroy_enclave `{HO : OpenSBI} m eid (Q : Z -> machine -> Prop) :
  sm_wf m -> ipi_harts_ok (length (hart_pmp (pmp m))) -> 0 <= eid ->
  (forall res m', destroy_result eid m res m' -> Q res m') ->
  wp (destroy_enclave eid) Q m.
Proof.
  intros Hwf Hipi Heid HQ. unfold destroy_enclave. wp_step. apply wp_lock; [apply Hwf|].
  apply wp_bind_assoc. wp_step. apply wp_exists_test; [apply Hwf|done|]. simpl.
  assert ((forall e, aget (enclaves m) eid = Some e -> is_destroyable e = false) ->
    wp (ret tt ;;; unlock_enclaves ;;; ret SBI_ERR_SM_ENCLAVE_NOT_DESTROYABLE) Q (set_encl_lock true m)) as Hno.
  { intros Hn. unfold unlock_enclaves. wp_run. rewrite relock by apply Hwf. apply HQ. split; [done|]. by left. }
  destruct (aget (enclaves m) eid) as [e|] eqn:He; [|by apply Hno].
  assert ((0 <=? state_val (e_state e)) && (state_val (e_state e) <=? 3) = is_destroyable e) as ->.
  { pose proof (eo_state _ _ (wf_encl m Hwf eid e He)) as Hst. unfold is_destroyable. by destruct (e_state e). }
  destruct (is_destroyable e) eqn:Hd; [|apply Hno; intros e' [= <-]; done].
  assert (is_live (e_state e) = true) as Hlv.
  { unfold is_destroyable in Hd. by destruct (e_state e). }
  destruct (live_of m Hwf eid e He Hlv) as (_ & rid & urid & epm & utm & Hlive).
  wp_step. apply (wp_update_enclave _ eid e); [done|]. wp_step. unfold unlock_enclaves. wp_step.
  cbn [enclaves set_encl_lock]. rewrite relock_enclaves by apply Hwf. simpl. fold (m_destroying m eid e).
  wp_step. unfold platform_destroy_enclave. wp_step. wp_step.
  eapply wp_destroy_loop; try done. intros s' Hst.
  match goal with |- wp _ _ ?M => set (m1 := M) end.
  assert (aget (enclaves m1) eid = Some (set_state DESTROYING e)) as He1 by by apply (destroying_at m eid e He).
  pose proof (same_table_wf _ _ Hst (wf_pmp m Hwf)) as Hwfs.
  assert (valid_at s' rid epm /\ valid_at s' urid utm) as [Hv1 Hv2]
    by (split; apply (same_table_valid (pmp m) s'); try done; apply Hlive).
  pose proof (remove_region_wf s' Hwfs rid epm Hv1) as Hwf2.
  pose proof (wf_valid_range _ Hwfs rid (proj1 Hv1)) as Hr1.
  assert (valid_at (remove_region rid epm s') urid utm) as Hv3.
  { apply valid_at_remove; [lia|]. split; [|done]. intros E. by apply (live_ne _ _ _ _ _ _ Hlive). }
  wp_step. unfold get_enclave_region_index, enclave_at. wp_run. eapply wp_or_ub; [exact He1|]. wp_step.
  assert (find_region (e_regions (set_state DESTROYING e)) REGION_UTM 0 = 1) as ->.
  { pose proof (live_epm _ _ _ _ _ _ Hlive) as H0. pose proof (live_utm _ _ _ _ _ _ Hlive) as H1. simpl.
    destruct (e_regions e) as [|r0 [|r1 l]]; try done. unfold aget in H0, H1. simpl in H0, H1. by simplify_eq. }
  simpl. wp_step. wp_run. eapply wp_or_ub; [exact He1|]. wp_run.
  eapply (wp_or_ub _ (mkERegion urid REGION_UTM)); [apply Hlive|].
  wp_step. apply wp_with_pmp.
  apply (wp_free_atomic _ _ utm); [done|simpl; rewrite (st_lock _ _ Hst); apply Hwf|done|].
  wp_step. wp_step. apply (wp_update_enclave _ eid (set_state DESTROYING e)); [done|].
  wp_step. apply (wp_encl_free_eid _ eid (reset_enclave (set_state DESTROYING e))).
  { simpl. apply Hwf. }
  { apply aget_aset_eq. simpl. rewrite length_aset. apply (aget_Some_range _ _ _ He). }
  wp_step. match goal with |- Q _ ?M => set (m' := M) end.
  assert (enclaves m' = aset (enclaves m) eid (set_state INVALID (reset_enclave (set_state DESTROYING e)))) as Henc.
  { unfold m'. cbn [enclaves set_enclaves set_pmp]. unfold m1. cbn [enclaves set_pmp set_mem m_destroying set_enclaves].
    by rewrite !aset_aset. }
  assert (forall j r, valid_at (pmp m') j r <-> valid_at (pmp m) j r /\ ~ owns e j) as Htab.
  { intros j r. by apply (destroyed_table m Hwf Hipi eid e He rid urid epm utm). }
  assert (forall i r, aget (clear_region_types (e_regions e)) i = Some r -> er_type r = REGION_INVALID) as Hclear.
  { intros i r. unfold aget, clear_region_types. case_match; [done|].
    intros (r' & -> & _)%list_lookup_fmap_Some. done. }
  apply HQ. split.
  - apply (wf_replace m m' Hwf eid e (set_state INVALID (reset_enclave (set_state DESTROYING e)))); try done.
    + by apply remove_region_wf.
    + simpl. rewrite (st_lock _ _ Hst). apply Hwf.
    + split; try done. simpl. by rewrite (st_harts _ _ Hst).
    + intros j r Hj Hn. apply Htab. auto.
    + destruct (wf_encl m Hwf eid e He) as [L1 L2 _]. split; [|done|done]. simpl. unfold clear_region_types.
      by rewrite length_map.
    + intros i (j & r & Hj & Hty & _). by destruct Hty; apply (Hclear j).
  - right. split; [done|]. split.
    + exists e. split; [done|]. split; [done|]. split; [done|]. exact Htab.
    + eexists. rewrite Henc. rewrite aget_aset_eq by apply (aget_Some_range _ _ _ He). split; [done|]. done.
    + intros j Hj. rewrite Henc. by apply aget_aset_ne.
    + simpl. by rewrite (st_harts _ _ Hst).
Qed.
