(* ===== verification/Services.v ===== *)
(** * The services of the monitor to a running enclave

    Attestation, sealing keys, random numbers and the plugin call: every outcome of each
    of them, and that none touches more of the machine than memory (or the state of the
    random generator), so that the invariant of [EnclaveInv] survives. *)

From S2P Require Import Prelude Mem SmDefs Pmp PmpInv PmpHw Sha3 Hkdf Thread Mprv Machine Attest Enclave EnclaveInv.
From Stdlib Require Import ZArith Lia.
From stdpp Require Import base tactics list list_numbers numbers.
Local Open Scope Z_scope.

(** ** Calls that change memory only *)

(** [m'] is [m] with other memory contents. *)
Definition mem_only (m m' : machine) : Prop := exists f, m' = set_mem f m.

Lemma mem_only_refl m : mem_only m m.
Proof. exists (mem m). by destruct m. Qed.

Lemma mem_only_trans m1 m2 m3 : mem_only m1 m2 -> mem_only m2 m3 -> mem_only m1 m3.
Proof. intros [f ->] [g ->]. by exists g. Qed.

#[export] Instance mem_only_preorder : PreOrder mem_only.
Proof. split; [exact mem_only_refl|exact mem_only_trans]. Qed.

(** The invariant does not speak of the contents of memory or of the random generator. *)
Lemma sm_wf_set_mem f m : sm_wf m -> sm_wf (set_mem f m).
Proof. intros [? ? ? ? ? ? ? ? ? ? ?]. by split. Qed.

Lemma sm_wf_mem_only m m' : mem_only m m' -> sm_wf m -> sm_wf m'.
Proof. intros [f ->]. apply sm_wf_set_mem. Qed.

Lemma sm_wf_set_random w m : sm_wf m -> sm_wf (set_random_w w m).
Proof. intros [? ? ? ? ? ? ? ? ? ? ?]. by split. Qed.

Section Stores.
Context `{HM : Mmu} (h : Z).

Lemma mprv_st_mem_only m a b m' : mprv_st h m a b = Some m' -> mem_only m m'.
Proof. unfold mprv_st. destruct (translate m h true a) as [pa|]; simpl; [|done]. intros [= <-]. by eexists. Qed.

Lemma store_bytes_mem_only m dst l m' : store_bytes (mprv_st h) m dst l = Some m' -> mem_only m m'.
Proof.
  intros Hs. eapply (store_bytes_inv (mprv_st h) (mem_only m)); [|apply mem_only_refl|exact Hs].
  intros s a b s' Hm Hst. etransitivity; [exact Hm|]. by eapply mprv_st_mem_only.
Qed.

Lemma copy_from_sm_mem_only m dst src l : mem_only m (copy_from_sm (mprv_st h) m dst src l).2.
Proof.
  apply (copy_from_sm_inv (mprv_st h) (mem_only m)); [|apply mem_only_refl].
  intros s a b s' Hm Hst. etransitivity; [exact Hm|]. by eapply mprv_st_mem_only.
Qed.

Lemma copy_word_mem_only m dst w : mem_only m (copy_word_from_sm (mprv_st h) m dst w).2.
Proof.
  apply (copy_word_inv (mprv_st h) (mem_only m)); [|apply mem_only_refl].
  intros s a b s' Hm Hst. etransitivity; [exact Hm|]. by eapply mprv_st_mem_only.
Qed.
End Stores.

Lemma mem_only_unlock m m1 : encl_lock m = false -> mem_only (set_encl_lock true m) m1 -> mem_only m (set_encl_lock false m1).
Proof. intros Hl [f ->]. exists f. destruct m; simpl in *. by rewrite Hl. Qed.

(** ** Attestation *)

(** The report on the enclave [e] for the data [l]; [stack] is what the rest of the data field holds. *)
Definition attest_report `{Signer} (k : sm_keys) (e : enclave) (stack : list Z) (size : Z) (l : list Z) : report :=
  let sg := ed25519_sign (e_hash e ++ le64 size ++ l) (sm_public_key k) (sm_private_key k) in
  mkReport (mkEReport (e_hash e) size (l ++ drop (length l) stack) sg)
    (mkSmReport (sm_hash k) (sm_public_key k) (sm_signature k)) (dev_public_key k).

Definition is_attestable (e : enclave) : bool := state_val FRESH <=? state_val (e_state e).

Lemma attestable_live m eid e : sm_wf m -> aget (enclaves m) eid = Some e ->
  (0 <=? state_val (e_state e)) && is_attestable e = is_live (e_state e).
Proof. intros Hwf He. pose proof (eo_state _ _ (wf_encl m Hwf eid e He)). unfold is_attestable. by destruct (e_state e). Qed.

(** What one attestation does, on every path. *)
Definition attest_result `{Signer, Mmu} (h : Z) (stack : list Z) (report_ptr data size eid : Z)
    (m : machine) (r : Z) (m' : machine) : Prop :=
  if ATTEST_DATA_MAXLEN <? size then r = SBI_ERR_SM_ENCLAVE_ILLEGAL_ARGUMENT /\ m' = m else
  match aget (enclaves m) eid with
  | Some e =>
      if is_live (e_state e) then
        match load_bytes (mprv_ld h) (set_encl_lock true m) data (Z.to_nat size) with
        | None => r = SBI_ERR_SM_ENCLAVE_NOT_ACCESSIBLE /\ m' = m
        | Some l =>
            match store_bytes (mprv_st h) (set_encl_lock true m) report_ptr
                    (report_bytes (attest_report (keys m) e stack size l)) with
            | None => r = SBI_ERR_SM_ENCLAVE_ILLEGAL_ARGUMENT /\ mem_only m m'
            | Some m1 => r = SBI_ERR_SM_ENCLAVE_SUCCESS /\ m' = set_encl_lock false m1
            end
        end
      else r = SBI_ERR_SM_ENCLAVE_NOT_INITIALIZED /\ m' = m
  | None => r = SBI_ERR_SM_ENCLAVE_NOT_INITIALIZED /\ m' = m
  end.

Lemma attest_mem_only `{Signer, Mmu} h stack report_ptr data size eid m r m' : sm_wf m ->
  attest_result h stack report_ptr data size eid m r m' -> mem_only m m'.
Proof.
  intros Hwf. unfold attest_result. case_match; [by intros [_ ->]|]. case_match; [|by intros [_ ->]].
  case_match; [|by intros [_ ->]]. case_match; [|by intros [_ ->]]. case_match; [|by intros [_ ?]]. intros [_ ->].
  apply mem_only_unlock; [apply Hwf|]. by eapply store_bytes_mem_only.
Qed.

Lemma wp_unlock m m1 (Q : unit -> machine -> Prop) :
  encl_lock m = false -> m1 = set_encl_lock true m -> Q tt m -> wp unlock_enclaves Q m1.
Proof. intros Hl -> HQ. unfold unlock_enclaves. wp_step. by rewrite relock. Qed.

Lemma wp_enclave_at m eid e (Q : enclave -> machine -> Prop) :
  aget (enclaves m) eid = Some e -> Q e m -> wp (enclave_at eid) Q m.
Proof. intros He HQ. unfold enclave_at. wp_step. wp_step. by eapply wp_or_ub. Qed.

Section AttestCall.
Context `{HS : Signer, HM : Mmu} (m : machine) (Hwf : sm_wf m).
Context (h : Z) (stack : list Z) (rep buf report_ptr data size eid : Z).
Context (Heid : 0 <= eid) (Hsize : 0 <= size) (Hdata : is_u64 data) (Hrep : is_u64 report_ptr).

(** The first copy, and what the checks of its result make of it. *)
Lemma wp_copy_data (Q : Z * list Z -> machine -> Prop) m1 :
  match load_bytes (mprv_ld h) m1 data (Z.to_nat size) with
  | Some l => Q (SBI_ERR_SM_ENCLAVE_SUCCESS, l) m1
  | None => forall l, Q (SBI_ERR_SM_ENCLAVE_ILLEGAL_ARGUMENT, l) m1
  end -> wp (copy_enclave_data h buf data size) Q m1.
Proof using Hdata Hsize.
  intros HQ. unfold copy_enclave_data. wp_step. wp_step.
  pose proof (copy_to_sm_spec (mprv_ld h) m1 buf data size Hdata Hsize) as Hc.
  destruct (load_bytes (mprv_ld h) m1 data (Z.to_nat size)) as [l|].
  - rewrite Hc. by wp_step.
  - destruct (copy_to_sm (mprv_ld h) m1 buf data size) as [r l]. simpl in Hc. subst r. wp_step. apply HQ.
Qed.

(** The second copy. *)
Lemma wp_copy_report l (Q : Z -> machine -> Prop) m1 :
  match store_bytes (mprv_st h) m1 report_ptr l with
  | Some m2 => Q SBI_ERR_SM_ENCLAVE_SUCCESS m2
  | None => forall m2, mem_only m1 m2 -> Q SBI_ERR_SM_ENCLAVE_ILLEGAL_ARGUMENT m2
  end -> wp (copy_enclave_report h report_ptr rep l) Q m1.
Proof using Hrep.
  intros HQ. unfold copy_enclave_report. wp_step. wp_step.
  pose proof (copy_from_sm_spec (mprv_st h) m1 report_ptr rep l Hrep) as Hc.
  pose proof (copy_from_sm_mem_only h m1 report_ptr rep l) as Hm.
  destruct (store_bytes (mprv_st h) m1 report_ptr l) as [m2|].
  - rewrite Hc. wp_step. wp_step. by wp_step.
  - destruct (copy_from_sm (mprv_st h) m1 report_ptr rep l) as [r m2]. simpl in Hc, Hm. subst r.
    wp_step. wp_step. wp_step. by apply HQ.
Qed.

Lemma signed_bytes_attest e l : length l = Z.to_nat size ->
  signed_bytes (mkEReport (e_hash e) size (l ++ drop (length l) stack) []) = e_hash e ++ le64 size ++ l.
Proof using. intros Hl. unfold signed_bytes. cbn [er_hash data_len er_data]. by rewrite take_app_length'. Qed.

Lemma wp_attest (Q : Z -> machine -> Prop) :
  (forall r m', attest_result h stack report_ptr data size eid m r m' -> Q r m') ->
  wp (attest_enclave h stack rep buf report_ptr data size eid) Q m.
Proof using All.
  intros HQ. unfold attest_result in HQ. unfold attest_enclave.
  destruct (ATTEST_DATA_MAXLEN <? size); [wp_step; by apply HQ|].
  wp_step. apply wp_lock; [apply Hwf|]. apply wp_bind_assoc. wp_step. apply wp_exists_test; [apply Hwf|done|]. cbn [enclaves set_encl_lock].
  destruct (aget (enclaves m) eid) as [e|] eqn:He; cycle 1.
  { cbn [negb]. wp_step. apply (wp_unlock m); [apply Hwf|done|]. wp_step. by apply HQ. }
  fold (is_attestable e). rewrite (attestable_live m eid e Hwf He).
  destruct (is_live (e_state e)); simpl; cycle 1.
  { cbn [negb]. wp_step. apply (wp_unlock m); [apply Hwf|done|]. wp_step. by apply HQ. }
  wp_step. apply wp_copy_data.
  destruct (load_bytes (mprv_ld h) (set_encl_lock true m) data (Z.to_nat size)) as [l|] eqn:Hl; cycle 1.
  { intros l. simpl. wp_step. apply (wp_unlock m); [apply Hwf|done|]. wp_step. by apply HQ. }
  simpl. wp_step. apply (wp_unlock m); [apply Hwf|done|]. wp_step. wp_step. wp_step. apply (wp_enclave_at m eid e); [done|].
  rewrite signed_bytes_attest by by apply (load_bytes_length _ _ _ _ _ Hl).
  wp_step. unfold sm_sign. wp_step. wp_step. wp_step. wp_step. apply wp_lock; [apply Hwf|]. wp_step. apply wp_copy_report.
  change (report_bytes _) with (report_bytes (attest_report (keys m) e stack size l)).
  destruct (store_bytes _ _ _ _) as [m1|] eqn:Hs.
  - simpl. wp_step. unfold unlock_enclaves. wp_step. wp_step. by apply HQ.
  - intros m2 Hm. simpl. wp_step. unfold unlock_enclaves. wp_step. wp_step. apply HQ. split; [done|].
    apply mem_only_unlock; [apply Hwf|done].
Qed.
End AttestCall.

(** ** Sealing keys *)

Lemma length_hmac_final c : length (hmac_sha3_final c) = 64%nat.
Proof. unfold hmac_sha3_final. rewrite length_sha3_final, !mdlen_update. done. Qed.

#[local] Opaque hmac_sha3_final hmac_sha3_init hmac_sha3_update.

Lemma write_okm_fits okm off src : 0 <= off -> off + Z.of_nat (length src) <= Z.of_nat (length okm) ->
  exists okm', write_okm okm off src = Some okm' /\ length okm' = length okm.
Proof.
  intros Ho Hl. unfold write_okm. destruct (Z.leb_spec 0 off); [|lia]. destruct (Z.leb_spec (off + Z.of_nat (length src)) (Z.of_nat (length okm))); [|lia].
  eexists. split; [done|]. rewrite !length_app, length_take, length_drop. lia.
Qed.

Lemma expand_block fuel prk info n i t okm : 1 <= i <= n -> (i < n -> i * 64 <= Z.of_nat (length okm)) ->
  (i = n -> (n - 1) * 64 <= Z.of_nat (length okm)) ->
  exists t' okm', length okm' = length okm /\
    expand_loop (S fuel) prk info n (Z.of_nat (length okm)) i t okm =
    expand_loop fuel prk info n (Z.of_nat (length okm)) (u8 (i + 1)) t' okm'.
Proof.
  intros Hi Hmid Hlast. cbn [expand_loop]. destruct (Z.leb_spec i n); [|lia]. set (t' := hmac_sha3_final _).
  pose proof (length_hmac_final (hmac_sha3_update (hmac_sha3_update (if 1 <? i then hmac_sha3_update (hmac_sha3_init prk) t else hmac_sha3_init prk) info) [i])) as Ht.
  fold t' in Ht. change (Z.of_nat SHA3_512_HASH_LEN) with 64.
  destruct (write_okm_fits okm ((i - 1) * 64) (if i <? n then t' else take (Z.to_nat (Z.of_nat (length okm) - (i - 1) * 64)) t'))
    as (okm' & -> & Hl); [lia| |by exists t', okm'].
  destruct (Z.ltb_spec i n); [rewrite Ht; lia|]. rewrite length_take. lia.
Qed.

(** Two blocks fill the 128 bytes of a sealing key, whatever the inputs are. *)
Lemma kdf_returns salt ikm info t okm : length okm = 128%nat ->
  exists key, kdf salt ikm info t okm = Ok (0, key) /\ length key = 128%nat.
Proof.
  intros Hl. unfold kdf, hkdf_sha3_512, hkdf_expand.
  assert (length (hkdf_extract salt ikm) = 64%nat) as -> by apply length_hmac_final.
  assert ((255 * Z.of_nat SHA3_512_HASH_LEN <? Z.of_nat (length okm)) = false) as -> by by rewrite Hl.
  assert (div_ceil (Z.of_nat (length okm)) (Z.of_nat SHA3_512_HASH_LEN) = 2) as -> by by rewrite Hl.
  change ((64 <? SHA3_512_HASH_LEN)%nat) with false. cbv iota. generalize (hkdf_extract salt ikm). intros prk.
  destruct (expand_block 299 prk info 2 1 t okm) as (t1 & okm1 & Hl1 & ->); [lia..|].
  rewrite <- Hl1. destruct (expand_block 298 prk info 2 (u8 (1 + 1)) t1 okm1) as (t2 & okm2 & Hl2 & ->);
    [change (u8 (1 + 1)) with 2; lia..|].
  rewrite expand_loop_stop by done. exists okm2. split; [done|congruence].
Qed.

(** The key for an identifier: what [sm_derive_sealing_key] computes. *)
Definition sealing_key_of (k : sm_keys) (e : enclave) (garbage ident key : list Z) : Prop :=
  kdf None (sm_private_key k) (e_hash e ++ ident) garbage (replicate (Z.to_nat SEALING_KEY_SIZE) 0) = Ok (0, key).

(** The memory after key and signature were stored. *)
Definition sealed_mem `{Signer} (k : sm_keys) (sealing_key : Z) (key : list Z) (f : Z -> Z) : Z -> Z :=
  write_mem (u64 (sealing_key + SEALING_KEY_SIZE)) (ed25519_sign key (sm_public_key k) (sm_private_key k))
    (write_mem sealing_key key f).

(** The arguments for which [get_sealing_key] is defined: the identifier leaves room on the stack, and
    neither buffer touches the monitor. *)
Definition sealing_args_ok (sealing_key key_ident key_ident_size : Z) : Prop :=
  key_ident_size < 2 ^ 31 - MDSIZE /\ hits_monitor key_ident key_ident_size = false /\
  hits_monitor sealing_key (SEALING_KEY_SIZE + SIGNATURE_SIZE) = false.

Lemma wp_get_sealing_key `{HS : Signer} m garbage sealing_key key_ident key_ident_size eid e (Q : Z -> machine -> Prop) :
  sealing_args_ok sealing_key key_ident key_ident_size -> aget (enclaves m) eid = Some e ->
  (forall key, sealing_key_of (keys m) e garbage (read_bytes (mem m) key_ident (Z.to_nat key_ident_size)) key ->
     length key = 128%nat ->
     Q SBI_ERR_SM_ENCLAVE_SUCCESS (set_mem (sealed_mem (keys m) sealing_key key (mem m)) m)) ->
  wp (get_sealing_key garbage sealing_key key_ident key_ident_size eid) Q m.
Proof.
  intros (Hs & Hi & Hk) He HQ. unfold get_sealing_key. destruct (Z.leb_spec (2 ^ 31 - MDSIZE) key_ident_size); [lia|].
  rewrite Hi, Hk. cbn [orb]. wp_step. wp_step. wp_step. apply (wp_enclave_at m eid e); [done|].
  wp_step. unfold sm_derive_sealing_key. wp_step. wp_step.
  destruct (kdf_returns None (sm_private_key (keys m)) (e_hash e ++ read_bytes (mem m) key_ident (Z.to_nat key_ident_size)) garbage
    (replicate (Z.to_nat SEALING_KEY_SIZE) 0)) as (key & Hkey & Hl); [by rewrite length_replicate|].
  rewrite Hkey. wp_step. wp_step. wp_step. change (truthy 0) with false. cbv iota. wp_step. unfold sm_sign. wp_step. wp_step. wp_step.
  wp_step. wp_step. wp_step. by apply HQ.
Qed.

(** ** Random numbers and plugins *)

Lemma wp_platform_random m cycles (Q : Z -> machine -> Prop) :
  (forall v w, is_u64 v -> Q v (set_random_w w m)) -> wp (platform_random cycles) Q m.
Proof.
  intros HQ. unfold platform_random. wp_run. apply HQ. apply (lor_bound _ _ 64); [|apply u64_range].
  set (x := u64 (_ + _)). pose proof (u64_range (u64 (cycles * cycles) + u64 (random_w m + 0xb5ad4eceda1ce2a9))) as Hx. fold x in Hx.
  unfold is_u64 in Hx. rewrite Z.shiftr_div_pow2 by lia. split; [apply Z.div_pos; lia|]. apply Z.div_lt_upper_bound; lia.
Qed.

(** No enclave has a region of the type the multimem plugin looks for. *)
Lemma find_region_none l type i : Forall (fun r => er_type r <> type) l -> find_region l type i = -1.
Proof. intros Hl. revert i. induction Hl as [|r l Hr Hl IH]; intros i; simpl; [done|]. by rewrite decide_False. Qed.

Lemma no_other_region m eid e : sm_wf m -> aget (enclaves m) eid = Some e -> Forall (fun r => er_type r <> REGION_OTHER) (e_regions e).
Proof.
  intros Hwf He. apply Forall_lookup. intros i r Hi Hty.
  assert (aget (e_regions e) (Z.of_nat i) = Some r) as Hg.
  { unfold aget. destruct (Z.ltb_spec (Z.of_nat i) 0); [lia|]. by rewrite Nat2Z.id. }
  pose proof (eo_state _ _ (wf_encl m Hwf eid e He)) as Hst.
  destruct (e_state e); try done; [by rewrite (Hst _ _ Hg) in Hty|..];
    destruct Hst as (_ & rid & urid & epm & utm & Hl);
    (destruct (decide (Z.of_nat i = 0)) as [E|]; [rewrite E, (live_epm _ _ _ _ _ _ Hl) in Hg; by simplify_eq|]);
    (destruct (decide (Z.of_nat i = 1)) as [E|]; [rewrite E, (live_utm _ _ _ _ _ _ Hl) in Hg; by simplify_eq|]);
    by rewrite (live_rest _ _ _ _ _ _ Hl _ _ Hg) in Hty.
Qed.

(** What a plugin call answers: only the multimem plugin exists, and it finds no region to report. *)
Definition plugin_code (multimem : bool) (plugin_id call_id : Z) : Z :=
  if multimem && (plugin_id =? PLUGIN_ID_MULTIMEM) then
    if (call_id =? MULTIMEM_GET_OTHER_REGION_SIZE) || (call_id =? MULTIMEM_GET_OTHER_REGION_ADDR) then minus1_ul else 0
  else SBI_ERR_SM_NOT_IMPLEMENTED.

Lemma wp_call_plugin `{HM : Mmu} m mm h eid e plugin_id call_id arg0 arg1 (Q : Z -> machine -> Prop) :
  sm_wf m -> aget (enclaves m) eid = Some e -> Q (plugin_code mm plugin_id call_id) m ->
  wp (call_plugin mm h eid plugin_id call_id arg0 arg1) Q m.
Proof.
  intros Hwf He HQ. unfold call_plugin, plugin_code in *. destruct (mm && _); [|by wp_step].
  assert (forall k : Z -> M machine Z, Q minus1_ul m ->
    wp (let! mem_id := get_enclave_region_index eid REGION_OTHER in if mem_id =? -1 then ret minus1_ul else k mem_id) Q m) as Hno.
  { intros k Hq. wp_step. unfold get_enclave_region_index. wp_step. apply (wp_enclave_at m eid e); [done|]. wp_step.
    rewrite (find_region_none _ _ _ (no_other_region m eid e Hwf He)). by wp_step. }
  unfold do_sbi_multimem. destruct (call_id =? MULTIMEM_GET_OTHER_REGION_SIZE); [by apply Hno|].
  destruct (call_id =? MULTIMEM_GET_OTHER_REGION_ADDR); [by apply Hno|]. by wp_step.
Qed.
