(* ===== verification/Lifecycle.v ===== *)
(** * The life of an enclave

    The calls of [Enclave] as steps of the security monitor, the abstract machine
    that tracks only the state of each enclave, and the theorems: every call
    returns, keeps the invariant and follows the abstract machine. *)

From S2P Require Import Prelude Mem SmDefs Pmp PmpInv PmpHw Sha3 Hkdf Thread Mprv Machine Attest Enclave EnclaveInv Services.
From Stdlib Require Import ZArith Lia.
From stdpp Require Import base tactics list list_numbers numbers relations.
Local Open Scope Z_scope.

(** ** The abstract machine *)

(** The states an enclave can be in between two calls, and the transitions between
    them; a slot without an enclave is [INVALID]. *)
Inductive transition : enclave_state -> enclave_state -> Prop :=
  | t_create : transition INVALID FRESH
  | t_run : transition FRESH RUNNING
  | t_leave : transition RUNNING STOPPED
  | t_resume : transition STOPPED RUNNING
  | t_destroy_fresh : transition FRESH INVALID
  | t_destroy_stopped : transition STOPPED INVALID.

(** The abstract state: one state per slot. *)
Definition abs (m : machine) : list enclave_state := map e_state (enclaves m).

(** An abstract step changes at most one slot, by a transition. *)
Inductive abs_step (l : list enclave_state) : list enclave_state -> Prop :=
  | abs_stay : abs_step l l
  | abs_move i st st' : l !! i = Some st -> transition st st' -> abs_step l (<[i := st']> l).

(** A call on one slot: from the states [from] accepts it moves the slot to [to] and answers [ok], from
    any other state, and for a slot that does not exist, it answers [err] and moves nothing. *)
Definition move (eid : Z) (from : enclave_state -> bool) (to : enclave_state) (ok err : Z) (l : list enclave_state) :
    Z * list enclave_state :=
  match l !! Z.to_nat eid with
  | Some st => if from st then (ok, <[Z.to_nat eid := to]> l) else (err, l)
  | None => (err, l)
  end.

Definition stop_answer (request : Z) : Z :=
  if request =? STOP_TIMER_INTERRUPT then SBI_ERR_SM_ENCLAVE_INTERRUPTED
  else if request =? STOP_EDGE_CALL_HOST then SBI_ERR_SM_ENCLAVE_EDGE_CALL_HOST
  else SBI_ERR_SM_ENCLAVE_UNKNOWN_ERROR.

(** ** The concrete steps *)

Inductive call : Type :=
  | Create (args : keystone_sbi_create_t)
  | Destroy (eid : Z)
  | Run (regs : sbi_trap_regs) (eid : Z)
  | Resume (regs : sbi_trap_regs) (eid : Z)
  | Exit (regs : sbi_trap_regs) (eid : Z)
  | Stop (regs : sbi_trap_regs) (request eid : Z)
  | Attest (stack : list Z) (rep buf report_ptr data size eid : Z)
  | GetSealingKey (garbage : list Z) (sealing_key key_ident key_ident_size eid : Z)
  | Random (cycles : Z)
  | CallPlugin (multimem : bool) (eid plugin_id call_id arg0 arg1 : Z).

Definition exec `{OpenSBI, Signer, Mmu} (h : Z) (c : call) : M machine Z :=
  match c with
  | Create args => let! r := create_enclave h args in ret r.1
  | Destroy eid => destroy_enclave eid
  | Run regs eid => let! r := run_enclave h regs eid in ret r.1
  | Resume regs eid => let! r := resume_enclave h regs eid in ret r.1
  | Exit regs eid => let! r := exit_enclave h regs eid in ret r.1
  | Stop regs request eid => let! r := stop_enclave h regs request eid in ret r.1
  | Attest stack rep buf report_ptr data size eid => attest_enclave h stack rep buf report_ptr data size eid
  | GetSealingKey garbage sealing_key key_ident key_ident_size eid =>
      get_sealing_key garbage sealing_key key_ident key_ident_size eid
  | Random cycles => platform_random cycles
  | CallPlugin multimem eid plugin_id call_id arg0 arg1 => call_plugin multimem h eid plugin_id call_id arg0 arg1
  end.

(** What a call may answer and how the slots change with the answer. *)
Definition abs_call (c : call) (r : Z) (l l' : list enclave_state) : Prop :=
  match c with
  | Create _ =>
      (r <> SBI_ERR_SM_ENCLAVE_SUCCESS /\ l' = l) \/
      (r = SBI_ERR_SM_ENCLAVE_SUCCESS /\ exists i, l !! i = Some INVALID /\ l' = <[i := FRESH]> l)
  | Destroy eid =>
      (r, l') = move eid (fun st => bool_decide (st = FRESH) || bool_decide (st = STOPPED)) INVALID
                  SBI_ERR_SM_ENCLAVE_SUCCESS SBI_ERR_SM_ENCLAVE_NOT_DESTROYABLE l
  | Run _ eid =>
      (r, l') = move eid (fun st => bool_decide (st = FRESH)) RUNNING
                  SBI_ERR_SM_ENCLAVE_SUCCESS SBI_ERR_SM_ENCLAVE_NOT_FRESH l
  | Resume _ eid =>
      (r, l') = move eid (fun st => bool_decide (st = STOPPED)) RUNNING
                  SBI_ERR_SM_ENCLAVE_SUCCESS SBI_ERR_SM_ENCLAVE_NOT_RESUMABLE l
  | Exit _ eid =>
      (r, l') = move eid (fun st => bool_decide (st = RUNNING)) STOPPED
                  SBI_ERR_SM_ENCLAVE_SUCCESS SBI_ERR_SM_ENCLAVE_NOT_RUNNING l
  | Stop _ request eid =>
      (r, l') = move eid (fun st => bool_decide (st = RUNNING)) STOPPED
                  (stop_answer request) SBI_ERR_SM_ENCLAVE_NOT_RUNNING l
  | Attest _ _ _ _ _ _ eid =>
      l' = l /\ (r = SBI_ERR_SM_ENCLAVE_SUCCESS -> exists st, l !! Z.to_nat eid = Some st /\ is_live st = true)
  | GetSealingKey _ _ _ _ _ => l' = l /\ r = SBI_ERR_SM_ENCLAVE_SUCCESS
  | Random _ => l' = l /\ is_u64 r
  | CallPlugin mm _ plugin_id call_id _ _ => l' = l /\ r = plugin_code mm plugin_id call_id
  end.

(** What a call may be made with: register-sized arguments, identifiers that come from an unsigned
    register or from the hart's own record, and a full trap frame.  The last condition of
    [GetSealingKey] is one the monitor does not check: it writes the key through the pointer the
    enclave passes, in machine mode. *)
Definition call_valid (m : machine) (h : Z) (c : call) : Prop :=
  is_hart (pmp m) h /\
  match c with
  | Create args => create_args_u64 args
  | Destroy eid => 0 <= eid
  | Run regs eid | Resume regs eid => length (gpr regs) = 32%nat /\ 0 <= eid
  | Exit regs eid | Stop regs _ eid => length (gpr regs) = 32%nat /\ 0 <= eid < ENCL_MAX
  | Attest _ _ _ report_ptr data size eid => is_u64 report_ptr /\ is_u64 data /\ 0 <= size /\ 0 <= eid < ENCL_MAX
  | GetSealingKey _ sealing_key key_ident key_ident_size eid =>
      0 <= eid < ENCL_MAX /\ sealing_args_ok sealing_key key_ident key_ident_size
  | Random _ => True
  | CallPlugin _ eid _ _ _ _ => 0 <= eid < ENCL_MAX
  end.

(** A run of the monitor: [n] valid calls, on any harts. *)
Inductive reachable_in `{OpenSBI, Signer, Mmu} (m : machine) : nat -> machine -> Prop :=
  | reach_refl : reachable_in m 0 m
  | reach_step n m1 m2 h c r :
      reachable_in m n m1 -> call_valid m1 h c -> exec h c m1 = Ok (r, m2) -> reachable_in m (S n) m2.

Definition reachable `{OpenSBI, Signer, Mmu} (m m' : machine) : Prop := exists n, reachable_in m n m'.

(** ** Each call follows the abstract machine *)

Lemma abs_update m m' eid e e' :
  aget (enclaves m) eid = Some e -> aget (enclaves m') eid = Some e' ->
  length (enclaves m') = length (enclaves m) ->
  (forall j, j <> eid -> aget (enclaves m') j = aget (enclaves m) j) ->
  abs m' = <[Z.to_nat eid := e_state e']> (abs m).
Proof.
  intros He He' Hlen Hoth. unfold abs. apply list_eq. intros i.
  pose proof (aget_Some_range _ _ _ He) as Hr. rewrite list_lookup_fmap.
  unfold aget in *. destruct (Z.ltb_spec eid 0); [lia|].
  destruct (decide (i = Z.to_nat eid)) as [->|Hne].
  - rewrite He'. rewrite list_lookup_insert_eq; [done|]. rewrite length_map. lia.
  - rewrite list_lookup_insert_ne, list_lookup_fmap by done. specialize (Hoth (Z.of_nat i) ltac:(lia)).
    destruct (Z.ltb_spec (Z.of_nat i) 0); [lia|]. rewrite Nat2Z.id in Hoth. by rewrite Hoth.
Qed.

Lemma abs_lookup m eid e : aget (enclaves m) eid = Some e -> abs m !! Z.to_nat eid = Some (e_state e).
Proof.
  intros He. pose proof (aget_Some_range _ _ _ He). unfold abs, aget in *. destruct (Z.ltb_spec eid 0); [lia|].
  by rewrite list_lookup_fmap, He.
Qed.

Lemma abs_length m : sm_wf m -> length (abs m) = 16%nat.
Proof. intros Hwf. unfold abs. rewrite length_map. apply Hwf. Qed.

Lemma abs_moved m m' eid e e' :
  sm_wf m -> sm_wf m' -> aget (enclaves m) eid = Some e -> aget (enclaves m') eid = Some e' ->
  (forall j, j <> eid -> aget (enclaves m') j = aget (enclaves m) j) ->
  abs m' = <[Z.to_nat eid := e_state e']> (abs m).
Proof.
  intros Hwf Hwf' He He' Hoth. by apply (abs_update m m' eid e e'); try done; rewrite (wf_enclaves m), (wf_enclaves m').
Qed.

(** The two ways a call on one slot can go. *)
Lemma move_refused m eid from to ok err : 0 <= eid ->
  (forall e, aget (enclaves m) eid = Some e -> from (e_state e) = false) -> move eid from to ok err (abs m) = (err, abs m).
Proof.
  intros Hr Hno. unfold move, abs. rewrite list_lookup_fmap. specialize (Hno). unfold aget in Hno.
  destruct (Z.ltb_spec eid 0); [lia|]. destruct (enclaves m !! Z.to_nat eid) as [e|]; simpl; [|done]. by rewrite (Hno e).
Qed.

Lemma move_done m m' eid e e' from ok err : sm_wf m -> sm_wf m' -> aget (enclaves m) eid = Some e ->
  aget (enclaves m') eid = Some e' -> (forall j, j <> eid -> aget (enclaves m') j = aget (enclaves m) j) ->
  from (e_state e) = true -> move eid from (e_state e') ok err (abs m) = (ok, abs m').
Proof.
  intros Hwf Hwf' He He' Hoth Hf. unfold move. by rewrite (abs_lookup m eid e He), Hf, (abs_moved m m' eid e e').
Qed.

Lemma move_of_switch err ok st codes from answer eid regs m res m' :
  sm_wf m -> 0 <= eid -> switch_result err ok st codes eid regs m res m' ->
  (forall e, ok e = from (e_state e)) -> (forall r, codes r -> r = answer) ->
  sm_wf m' /\ length (hart_pmp (pmp m')) = length (hart_pmp (pmp m)) /\
  (res.1, abs m') = move eid from st answer err (abs m).
Proof.
  intros Hwf Hr [Hwf' [(-> & -> & Hno)|(Hc & (e & He & Hok) & [Hoth (e0 & e' & He0 & He' & Hst & _) Htab _])]] Hfrom Hans;
    (split; [done|]).
  - split; [done|]. simpl. symmetry. apply move_refused; [done|]. intros e He. rewrite <- Hfrom. by apply Hno.
  - split; [apply Htab|]. assert (e0 = e) as -> by congruence. rewrite (Hans _ Hc), <- Hst. symmetry.
    apply (move_done m m' eid e e'); try done. by rewrite <- Hfrom.
Qed.

(** A move of one slot is a transition. *)
Lemma move_step eid from to ok err l r l' :
  (forall st, from st = true -> transition st to) -> (r, l') = move eid from to ok err l -> abs_step l l'.
Proof.
  intros Ht. unfold move. destruct (l !! Z.to_nat eid) as [st|] eqn:E; [|intros [= -> ->]; constructor].
  destruct (from st) eqn:Hf; intros [= -> ->]; [|constructor]. eapply abs_move; [exact E|by apply Ht].
Qed.

Lemma abs_call_step c r l l' : abs_call c r l l' -> abs_step l l'.
Proof.
  destruct c; simpl.
  1: { intros [[_ ->]|(_ & i & Hi & ->)]; [constructor|]. eapply abs_move; [exact Hi|constructor]. }
  1: { apply move_step. intros []; simpl; try done; constructor. }
  1: { apply move_step. intros []; simpl; try done; constructor. }
  1: { apply move_step. intros []; simpl; try done; constructor. }
  1: { apply move_step. intros []; simpl; try done; constructor. }
  1: { apply move_step. intros []; simpl; try done; constructor. }
  all: intros [-> _]; constructor.
Qed.

Section Steps.
Context `{HO : OpenSBI, HS : Signer, HM : Mmu} (m : machine) (Hwf : sm_wf m).
Context (Hipi : ipi_harts_ok (length (hart_pmp (pmp m)))) (h : Z).

(** What every call promises. *)
Definition kept (c : call) (r : Z) (m' : machine) : Prop :=
  sm_wf m' /\ length (hart_pmp (pmp m')) = length (hart_pmp (pmp m)) /\ abs_call c r (abs m) (abs m').

Lemma kept_mem_only c r m' : mem_only m m' -> abs_call c r (abs m) (abs m) -> kept c r m'.
Proof using Hwf. intros [f ->] Hc. split; [by apply sm_wf_set_mem|]. by split. Qed.

Lemma eid_at eid : 0 <= eid < ENCL_MAX -> exists e, aget (enclaves m) eid = Some e.
Proof using Hwf. intros He. apply aget_is_Some. rewrite (wf_enclaves m Hwf). unfold ENCL_MAX in He. lia. Qed.

Lemma wp_exec_create args : is_hart (pmp m) h -> create_args_u64 args -> wp (exec h (Create args)) (kept (Create args)) m.
Proof using Hwf Hipi.
  intros Hh Hc. cbn [exec]. wp_step. apply wp_create_enclave; [done..|]. intros res m' [Hwf' Hres]. wp_step. split; [done|].
  destruct Hres as [(Hne & _ & ->)|(eid & -> & _ & [(e & He & Hst) (e' & He' & Hst' & _) Hoth _ Hreg])];
    [split; [done|by left]|].
  split; [destruct Hreg as (? & ? & ? & ? & s' & -> & Hst2 & _); by rewrite (st_harts _ _ Hst2)|].
  right. split; [done|]. exists (Z.to_nat eid). split; [by rewrite (abs_lookup m eid e He), Hst|].
  by rewrite (abs_moved m m' eid e e'), Hst'.
Qed.

Lemma wp_exec_destroy eid : 0 <= eid -> wp (exec h (Destroy eid)) (kept (Destroy eid)) m.
Proof using Hwf Hipi.
  intros Hc. cbn [exec]. apply wp_destroy_enclave; [done..|]. intros res m' [Hwf' Hres]. split; [done|].
  destruct Hres as [(-> & -> & Hno)|(-> & [(e & He & Hd & _) (e' & He' & Hst' & _) Hoth Hlen])]; (split; [done|]); simpl; symmetry.
  - by apply move_refused.
  - rewrite <- Hst'. by apply (move_done m m' eid e e').
Qed.

Lemma wp_exec_attest stack rep buf report_ptr data size eid :
  is_u64 report_ptr -> is_u64 data -> 0 <= size -> 0 <= eid < ENCL_MAX ->
  wp (exec h (Attest stack rep buf report_ptr data size eid)) (kept (Attest stack rep buf report_ptr data size eid)) m.
Proof using Hwf.
  intros H1 H2 H3 H4. cbn [exec]. apply wp_attest; [done|lia|done..|]. intros r m' Hres.
  apply kept_mem_only; [by eapply attest_mem_only|]. split; [done|]. intros ->. unfold attest_result in Hres.
  destruct (ATTEST_DATA_MAXLEN <? size); [by destruct Hres|]. destruct (aget (enclaves m) eid) as [e|] eqn:He; [|by destruct Hres].
  destruct (is_live (e_state e)) eqn:Hl; [|by destruct Hres]. exists (e_state e). split; [by apply abs_lookup|done].
Qed.

Lemma wp_exec c : call_valid m h c -> wp (exec h c) (kept c) m.
Proof using All.
  intros [Hh Hc]. destruct c as [args|eid|regs eid|regs eid|regs eid|regs request eid|stack rep buf report_ptr data size eid
    |garbage sealing_key key_ident key_ident_size eid|cycles|mm eid plugin_id call_id arg0 arg1].
  - by apply wp_exec_create.
  - by apply wp_exec_destroy.
  - destruct Hc as [Hl He]. cbn [exec]. wp_step. apply wp_run_enclave; [done|done|done|]. intros res m' Hres. wp_step.
    eapply move_of_switch; [done|done|exact Hres|done|done].
  - destruct Hc as [Hl He]. cbn [exec]. wp_step. apply wp_resume_enclave; [done|done|done|]. intros res m' Hres. wp_step.
    eapply move_of_switch; [done|done|exact Hres|done|done].
  - destruct Hc as [Hl He]. destruct (eid_at eid He) as [e Hx]. cbn [exec]. wp_step.
    apply (wp_exit_enclave m h regs eid e); [done|done|done|]. intros res m' Hres. wp_step.
    eapply move_of_switch; [done|lia|exact Hres|done|done].
  - destruct Hc as [Hl He]. destruct (eid_at eid He) as [e Hx]. cbn [exec]. wp_step.
    apply (wp_stop_enclave m h regs request eid e); [done|done|done|]. intros res m' Hres. wp_step.
    eapply move_of_switch; [done|lia|exact Hres|done|done].
  - destruct Hc as (? & ? & ? & ?). by apply wp_exec_attest.
  - destruct Hc as [He Hargs]. destruct (eid_at eid He) as [e Hx]. apply (wp_get_sealing_key m _ _ _ _ eid e); [done..|].
    intros key _ _. apply kept_mem_only; [by eexists|done].
  - apply wp_platform_random. intros v w Hv. split; [by apply sm_wf_set_random|]. done.
  - destruct (eid_at eid Hc) as [e Hx]. apply (wp_call_plugin m mm h eid e); [done..|]. by split.
Qed.
End Steps.

Lemma exec_spec `{HO : OpenSBI, HS : Signer, HM : Mmu} m h c :
  sm_wf m -> ipi_harts_ok (length (hart_pmp (pmp m))) -> call_valid m h c ->
  exists r m', exec h c m = Ok (r, m') /\ sm_wf m' /\
    length (hart_pmp (pmp m')) = length (hart_pmp (pmp m)) /\ abs_call c r (abs m) (abs m').
Proof. intros Hwf Hipi Hc. by apply (wp_inv (exec h c)), wp_exec. Qed.

Lemma reachable_spec `{HO : OpenSBI, HS : Signer, HM : Mmu} m m' :
  sm_wf m -> ipi_harts_ok (length (hart_pmp (pmp m))) -> reachable m m' ->
  sm_wf m' /\ length (hart_pmp (pmp m')) = length (hart_pmp (pmp m)) /\ rtc abs_step (abs m) (abs m').
Proof.
  intros Hwf Hipi [n Hreach]. induction Hreach as [|n m1 m2 h c r Hreach IH Hc Hex]; [done|].
  destruct IH as (Hwf1 & Hlen & Hrtc).
  destruct (exec_spec m1 h c Hwf1) as (r' & m2' & Heq & Hwf2 & Hlen2 & Hstep); [by rewrite Hlen|done|].
  rewrite Hex in Heq. simplify_eq. split; [done|]. split; [congruence|]. eapply rtc_r; [done|]. by eapply abs_call_step.
Qed.

(** ** The state after start-up, for examples *)

Definition boot_machine : machine :=
  mkMachine sm_table (replicate 16 (demo_enclave INVALID)) false (fun _ => 0) (replicate 16 (mkCpu false 0))
    (replicate 4 (mkHart zero_smode 0 trap_handler_host 0))
    (mkKeys (replicate 64 1) (replicate 64 2) (replicate 32 3) (replicate 64 4) (replicate 32 5)) 0 1 true 0.

Lemma boot_wf : sm_wf boot_machine.
Proof.
  assert (forall j e, aget (enclaves boot_machine) j = Some e -> e = demo_enclave INVALID) as Hall.
  { intros j e. unfold aget. case_match; [done|]. intros Hl. by apply (lookup_replicate_1 16) in Hl as [-> _]. }
  assert (forall i r, aget (e_regions (demo_enclave INVALID)) i = Some r -> er_type r = REGION_INVALID) as Hreg.
  { intros i r. unfold aget. case_match; [done|]. intros Hl. by apply (lookup_replicate_1 8) in Hl as [-> _]. }
  assert (forall j e rid, aget (enclaves boot_machine) j = Some e -> owns e rid -> False) as Hown.
  { intros j e rid Hj (i & r & Hi & Hty & _). rewrite (Hall j e Hj) in Hi. by destruct Hty; apply (Hreg i). }
  split.
  - apply sm_table_wf.
  - reflexivity.
  - reflexivity.
  - reflexivity.
  - vm_compute. split; [reflexivity|lia].
  - reflexivity.
  - exists osm_region. apply sm_table_valid. by right.
  - intros j e ->%Hall. split; [done..|exact Hreg].
  - intros a b ea eb rid Ha _ Hoa _. destruct (Hown a ea rid Ha Hoa).
  - exists smm_region. split; [|done]. apply sm_table_valid. by left.
  - intros a ea rid Ha Ho. destruct (Hown a ea rid Ha Ho).
Qed.

(** Harts 0 to 3 take interrupts. *)
#[export] Instance demo_opensbi : OpenSBI := {| interruptible_harts := [0; 1; 2; 3] |}.

(** A stand-in for the signature, and a caller whose memory is mapped one to one. *)
Definition demo_signer : Signer := {| ed25519_sign := fun msg _ _ => take 64 (msg ++ replicate 64 0) |}.
Definition demo_mmu : Mmu := {| translate := fun _ _ _ va => Some va |}.
#[local] Existing Instance demo_signer.
#[local] Existing Instance demo_mmu.

Lemma demo_ipi : ipi_harts_ok (length (hart_pmp (pmp boot_machine))).
Proof. unfold ipi_harts_ok. repeat constructor; vm_compute; congruence. Qed.

Definition demo_args : keystone_sbi_create_t :=
  mkCreate (mkPregion 0x90000000 0x4000) (mkPregion 0xb0000000 0x1000) 0x90000000 0x90000000 0x90000000 0.

Lemma demo_args_u64 : create_args_u64 demo_args.
Proof. split; repeat split; vm_compute; congruence. Qed.

Definition demo_regs : sbi_trap_regs := mkRegs (replicate 32 7) 0x80200000 0x800.

(** The machine with one enclave just created. *)
Lemma demo_create_abs :
  match exec 0 (Create demo_args) boot_machine with Ok (_, m') => abs m' | _ => [] end = FRESH :: replicate 15 INVALID.
Proof. vm_compute. reflexivity. Qed.

Definition demo_live_machine : machine :=
  match exec 0 (Create demo_args) boot_machine with Ok (_, m) => m | _ => boot_machine end.

Lemma demo_create_valid : call_valid boot_machine 0 (Create demo_args).
Proof. split; [split; vm_compute; congruence|exact demo_args_u64]. Qed.

Lemma demo_live_facts :
  sm_wf demo_live_machine /\ length (hart_pmp (pmp demo_live_machine)) = 4%nat /\ reachable boot_machine demo_live_machine /\
  abs demo_live_machine = FRESH :: replicate 15 INVALID /\
  exists e, aget (enclaves demo_live_machine) 0 = Some e /\ e_state e = FRESH.
Proof.
  pose proof demo_create_abs as Habs. unfold demo_live_machine.
  destruct (exec_spec boot_machine 0 (Create demo_args) boot_wf demo_ipi demo_create_valid) as (r & m' & Heq & Hwf & Hh & _).
  rewrite Heq in Habs |- *. split; [exact Hwf|]. split; [rewrite Hh; reflexivity|]. split.
  { exists 1%nat. eapply reach_step; [apply reach_refl|exact demo_create_valid|exact Heq]. }
  split; [exact Habs|]. clear Heq. unfold abs in Habs.
  destruct (enclaves m') as [|e l]; [discriminate|]. exists e. split; [reflexivity|]. by injection Habs.
Qed.

(** Its measurement has the length of a digest. *)
Lemma demo_live_hash e : aget (enclaves demo_live_machine) 0 = Some e -> length (e_hash e) = 64%nat.
Proof.
  pose proof demo_create_abs as Habs. unfold demo_live_machine. unfold exec, bind in Habs |- *.
  destruct (wp_inv (create_enclave 0 demo_args) (create_result demo_args boot_machine) boot_machine) as (res & m' & Heq & _ & Hres).
  { apply wp_create_enclave; [exact boot_wf|split; vm_compute; congruence|exact demo_ipi|exact demo_args_u64|auto]. }
  rewrite Heq in Habs |- *. cbn [ret] in Habs |- *. destruct Hres as [(_ & _ & ->)|(eid & _ & _ & Hcr)]; [discriminate Habs|].
  destruct (cr_is _ _ _ _ Hcr) as (e' & He' & Hst & _ & _ & Hh). intros He.
  assert (eid = 0) as ->.
  { unfold abs in Habs. pose proof (aget_Some_range _ _ _ He') as Hr. destruct (decide (eid = 0)) as [|Hne]; [done|exfalso].
    unfold aget in He'. destruct (Z.ltb_spec eid 0); [lia|]. apply (f_equal (fun l => l !! Z.to_nat eid)) in Habs.
    rewrite list_lookup_fmap, He' in Habs. cbn [fmap option_fmap option_map] in Habs. rewrite Hst in Habs.
    destruct (Z.to_nat eid) as [|k] eqn:Ek; [lia|]. change ((FRESH :: replicate 15 INVALID) !! S k) with (replicate 15 INVALID !! k) in Habs.
    symmetry in Habs. apply lookup_replicate in Habs as [Hc _]. discriminate Hc. }
  assert (e = e') as -> by congruence. rewrite Hh. unfold hash_finalize. rewrite length_sha3_final, mdlen_update. reflexivity.
Qed.

Lemma demo_live_ipi : ipi_harts_ok (length (hart_pmp (pmp demo_live_machine))).
Proof. destruct demo_live_facts as (_ & -> & _). exact demo_ipi. Qed.

Lemma demo_live_call : call_ok demo_live_machine 0 demo_regs.
Proof. split; [|reflexivity]. unfold is_hart. destruct demo_live_facts as (_ & -> & _). lia. Qed.

(** ** Theorems *)

(** C2: every function of the Keystone extension returns, whoever calls it (creation, destruction, run,
    resume, exit, stop, attestation, sealing key, random number, plugin): no assertion fails, no array
    is accessed out of bounds and no lock is left held; the invariant holds again; and the answer
    and the states of the slots are exactly those of the abstract machine: a call on an enclave
    succeeds if and only if the enclave is in the state the call needs, moves that one slot
    (INVALID -> FRESH -> RUNNING <-> STOPPED -> INVALID), and otherwise answers its error code and
    moves nothing; the other calls move nothing.  For the sealing key the caller's pointers must
    not touch the monitor's memory and the identifier must be shorter than 2^31 - 64 bytes,
    which the monitor does not check. *)
Theorem sm_call_refines_lifecycle `{OpenSBI, Signer, Mmu} (m : machine) h c :
  sm_wf m -> ipi_harts_ok (length (hart_pmp (pmp m))) -> call_valid m h c ->
  exists r m', exec h c m = Ok (r, m') /\ sm_wf m' /\ encl_lock m' = false /\ pmp_lock (pmp m') = false /\
    abs_call c r (abs m) (abs m').
Proof.
  intros Hwf Hipi Hc. destruct (exec_spec m h c Hwf Hipi Hc) as (r & m' & Heq & Hwf' & _ & Hstep).
  exists r, m'. split; [done|]. split; [done|]. split; [apply Hwf'|]. split; [apply Hwf'|done].
Qed.

(** A new enclave starts running. *)
Lemma sm_call_refines_lifecycle_witness :
  exists m', exec 0 (Run demo_regs 0) demo_live_machine = Ok (SBI_ERR_SM_ENCLAVE_SUCCESS, m') /\ sm_wf m' /\
    abs m' = RUNNING :: replicate 15 INVALID.
Proof.
  destruct demo_live_facts as (Hwf & _ & _ & Habs & _).
  destruct (sm_call_refines_lifecycle demo_live_machine 0 (Run demo_regs 0) Hwf demo_live_ipi) as (r & m' & He & Hwf' & _ & _ & Hc).
  { split; [apply demo_live_call|]. split; [reflexivity|lia]. }
  unfold abs_call in Hc. rewrite Habs in Hc. cbv [move] in Hc. simpl in Hc. injection Hc as -> Hc.
  exists m'. split; [exact He|]. split; [exact Hwf'|exact Hc].
Defined.

(** C1: in every state the monitor can reach by any sequence of its calls, on any harts, the invariant
    holds and the slots have evolved by transitions of the abstract machine; in particular two
    enclaves that exist never share a byte of private memory, and none of them reaches into the
    region of the monitor.  Sealing keys are asked for with pointers outside the monitor's memory. *)
Theorem reachable_enclaves_disjoint `{OpenSBI, Signer, Mmu} (m m' : machine) :
  sm_wf m -> ipi_harts_ok (length (hart_pmp (pmp m))) -> reachable m m' ->
  sm_wf m' /\ rtc abs_step (abs m) (abs m') /\
  forall a ea rid urid epm utm, aget (enclaves m') a = Some ea -> live (pmp m') ea rid urid epm utm ->
    (forall b eb rid' urid' epm' utm', aget (enclaves m') b = Some eb -> a <> b ->
       live (pmp m') eb rid' urid' epm' utm' ->
       region_end epm <= r_addr epm' \/ region_end epm' <= r_addr epm) /\
    (exists smm, valid_at (pmp m') (sm_region_id m') smm /\
       (region_end epm <= r_addr smm \/ region_end smm <= r_addr epm)).
Proof.
  intros Hwf Hipi Hreach. destruct (reachable_spec m m' Hwf Hipi Hreach) as (Hwf' & _ & Hrtc).
  split; [done|]. split; [done|]. intros a ea rid urid epm utm Ha Hl.
  assert (owns ea rid) as Ho by (apply (live_owns _ _ _ _ _ _ _ Hl); auto).
  pose proof (live_epm_for _ _ _ _ _ _ Hl) as (_ & _ & Hao). split.
  - intros b eb rid' urid' epm' utm' Hb Hab Hl'.
    apply (wf_disjoint _ (wf_pmp m' Hwf') rid rid'); [apply Hl|apply Hl'| |done|apply (live_epm_for _ _ _ _ _ _ Hl')].
    intros ->. apply Hab, (wf_owner m' Hwf' a b ea eb rid'); try done.
    apply (live_owns _ _ _ _ _ _ _ Hl'). auto.
  - destruct (wf_smm m' Hwf') as (smm & Hs & Has). exists smm. split; [done|].
    apply (wf_disjoint _ (wf_pmp m' Hwf') rid (sm_region_id m')); [apply Hl|done| |done|done].
    apply (wf_not_sys m' Hwf' a ea rid Ha Ho).
Qed.

Lemma reachable_enclaves_disjoint_witness :
  exists m', reachable boot_machine m' /\ abs m' = FRESH :: replicate 15 INVALID /\ sm_wf m'.
Proof.
  destruct demo_live_facts as (_ & _ & Hr & Habs & _). exists demo_live_machine. split; [exact Hr|]. split; [exact Habs|].
  apply (reachable_enclaves_disjoint boot_machine demo_live_machine boot_wf demo_ipi Hr).
Defined.

(** C4: [create_enclave] always returns.  It either reports an error and leaves the whole
    machine as it was, every PMP region and identifier given back; or the arguments
    describe sections in order inside a private range that does not wrap, the first
    free slot holds a fresh enclave with those parameters, its measurement is SHA3-512
    of the measured sections, the shared memory is cleared, no other enclave changed,
    and exactly two regions were added to the table. *)
Theorem create_enclave_correct `{OpenSBI} (m : machine) h args :
  sm_wf m -> is_hart (pmp m) h -> ipi_harts_ok (length (hart_pmp (pmp m))) -> create_args_u64 args ->
  mem_bytes (mem m) ->
  exists res m', create_enclave h args m = Ok (res, m') /\ sm_wf m' /\
    ((res.1 <> SBI_ERR_SM_ENCLAVE_SUCCESS /\ res.2 = None /\ m' = m) \/
     (exists eid e', res = (SBI_ERR_SM_ENCLAVE_SUCCESS, Some eid) /\ create_args_spec args /\ created args eid m m' /\
        aget (enclaves m') eid = Some e' /\
        e_hash e' = Fips202.SHA3 64 (measured (mem m') (create_params args)))).
Proof.
  intros Hwf Hh Hipi Hu Hmem. apply (wp_inv (create_enclave h args)). apply wp_create_enclave; [done..|].
  intros res m' [Hwf' Hres]. split; [done|]. destruct Hres as [?|(eid & -> & Hargs & Hcr)]; [by left|right].
  pose proof Hcr as [_ (e' & He' & _ & _ & _ & Hhash) _ Hm _]. exists eid, e'.
  split; [done|]. split; [done|]. split; [done|]. split; [done|]. rewrite Hhash.
  apply (sha3_spec (measured (mem m') (create_params args)) 64); [|lia]. apply measured_bytes.
  intros a. rewrite Hm. unfold memset. case_match; [by split|apply Hmem].
Qed.

Lemma create_enclave_correct_witness :
  exists res m', create_enclave 0 demo_args boot_machine = Ok (res, m') /\ sm_wf m'.
Proof.
  destruct (create_enclave_correct boot_machine 0 demo_args) as (res & m' & H1 & H2 & _).
  - exact boot_wf.
  - split; vm_compute; congruence.
  - exact demo_ipi.
  - exact demo_args_u64.
  - intros a. by split.
  - exists res, m'. split; [exact H1|exact H2].
Defined.

(** C5: [destroy_enclave] always returns.  An enclave that does not exist or is running is
    refused and nothing changes; otherwise every byte of its private memory reads zero,
    exactly its regions leave the table, its slot is free and no other enclave changed. *)
Theorem destroy_enclave_correct `{OpenSBI} (m : machine) eid :
  sm_wf m -> ipi_harts_ok (length (hart_pmp (pmp m))) -> 0 <= eid ->
  exists res m', destroy_enclave eid m = Ok (res, m') /\ sm_wf m' /\
    ((res = SBI_ERR_SM_ENCLAVE_NOT_DESTROYABLE /\ m' = m /\
      forall e, aget (enclaves m) eid = Some e -> is_destroyable e = false) \/
     (res = SBI_ERR_SM_ENCLAVE_SUCCESS /\ destroyed eid m m' /\
      forall e a, aget (enclaves m) eid = Some e ->
        mem m' a = if in_range (dram_base (e_params e)) (dram_size (e_params e)) a then 0 else mem m a)).
Proof.
  intros Hwf Hipi Heid. apply (wp_inv (destroy_enclave eid)). apply wp_destroy_enclave; [done..|].
  intros res m' [Hwf' Hres]. split; [done|]. destruct Hres as [?|[-> Hd]]; [by left|right].
  split; [done|]. split; [done|]. intros e a He. destruct (de_mem _ _ _ Hd) as (e0 & He0 & _ & -> & _).
  assert (e0 = e) as -> by congruence. done.
Qed.

(** The new enclave is destroyed. *)
Lemma destroy_enclave_correct_witness :
  exists m', destroy_enclave 0 demo_live_machine = Ok (SBI_ERR_SM_ENCLAVE_SUCCESS, m') /\ sm_wf m' /\
    destroyed 0 demo_live_machine m'.
Proof.
  destruct demo_live_facts as (Hwf & _ & _ & _ & e & He & Hst).
  destruct (destroy_enclave_correct demo_live_machine 0 Hwf demo_live_ipi) as (res & m' & H1 & H2 & H3); [lia|].
  exists m'. destruct H3 as [(_ & _ & Hno)|(-> & Hd & _)].
  - specialize (Hno e He). unfold is_destroyable in Hno. rewrite Hst in Hno. discriminate Hno.
  - split; [exact H1|]. split; [exact H2|exact Hd].
Defined.

(** [is_create_args_valid] accepts exactly the arguments whose two ranges are
    non-empty and do not wrap around and whose runtime, application and free pointers
    are in order inside the private range. *)
Theorem is_create_args_valid_correct args :
  create_args_u64 args -> is_create_args_valid args = true <-> create_args_spec args.
Proof. apply create_args_valid_spec. Qed.

Lemma is_create_args_valid_correct_witness : is_create_args_valid demo_args = true <-> create_args_spec demo_args.
Proof. apply is_create_args_valid_correct, demo_args_u64. Defined.

(** [resume_enclave] starts exactly the enclaves that are stopped (the thread count
    keeps a running one from being entered twice), [run_enclave] exactly the fresh ones;
    both report the documented error otherwise and change nothing. *)
Theorem run_resume_correct `{OpenSBI} (m : machine) h regs eid :
  sm_wf m -> call_ok m h regs -> 0 <= eid ->
  (exists res m', run_enclave h regs eid m = Ok (res, m') /\
     switch_result SBI_ERR_SM_ENCLAVE_NOT_FRESH is_fresh RUNNING (fun r => r = SBI_ERR_SM_ENCLAVE_SUCCESS)
       eid regs m res m') /\
  (exists res m', resume_enclave h regs eid m = Ok (res, m') /\
     switch_result SBI_ERR_SM_ENCLAVE_NOT_RESUMABLE is_stopped RUNNING (fun r => r = SBI_ERR_SM_ENCLAVE_SUCCESS)
       eid regs m res m').
Proof.
  intros Hwf Hc He. split.
  - apply (wp_inv (run_enclave h regs eid)). by apply wp_run_enclave.
  - apply (wp_inv (resume_enclave h regs eid)). by apply wp_resume_enclave.
Qed.

Lemma run_resume_correct_witness :
  exists res m', run_enclave 0 demo_regs 2 boot_machine = Ok (res, m') /\
    switch_result SBI_ERR_SM_ENCLAVE_NOT_FRESH is_fresh RUNNING (fun r => r = SBI_ERR_SM_ENCLAVE_SUCCESS)
      2 demo_regs boot_machine res m'.
Proof.
  refine (proj1 (run_resume_correct boot_machine 0 demo_regs 2 boot_wf _ _)); [|lia].
  split; [split; vm_compute; congruence|reflexivity].
Defined.

(** ** Reclaiming memory *)

Lemma reachable_in_trans `{OpenSBI, Signer, Mmu} m m1 m2 n1 n2 :
  reachable_in m n1 m1 -> reachable_in m1 n2 m2 -> reachable_in m (n2 + n1) m2.
Proof. intros Ha Hb. induction Hb; [done|]. by eapply reach_step. Qed.

(** A fresh or stopped enclave is destroyed by one call. *)
Lemma destroy_reaches `{OpenSBI, Signer, Mmu} m h eid e : sm_wf m -> ipi_harts_ok (length (hart_pmp (pmp m))) -> is_hart (pmp m) h ->
  aget (enclaves m) eid = Some e -> is_destroyable e = true ->
  exists m', reachable_in m 1 m' /\ sm_wf m' /\ destroyed eid m m'.
Proof.
  intros Hwf Hipi Hh He Hd. pose proof (aget_Some_range _ _ _ He) as Hr.
  destruct (wp_inv (destroy_enclave eid) (fun _ m' => sm_wf m' /\ destroyed eid m m') m) as (r & m' & E & Hwf' & Hd').
  { apply wp_destroy_enclave; [done|done|lia|]. intros res m' [Hwf' [(_ & _ & Hno)|(_ & Hd')]]; [|done].
    by rewrite (Hno e He) in Hd. }
  exists m'. split; [|done]. eapply (reach_step m 0 m m' h (Destroy eid)); [apply reach_refl| |exact E].
  split; [done|lia].
Qed.

(** A running enclave is stopped by one call, which keeps its parameters and the memory. *)
Lemma stop_reaches `{OpenSBI, Signer, Mmu} m h regs eid e : sm_wf m -> call_ok m h regs ->
  aget (enclaves m) eid = Some e -> e_state e = RUNNING ->
  exists m', reachable_in m 1 m' /\ sm_wf m' /\ switched eid STOPPED m m'.
Proof.
  intros Hwf Hcall He Hst. pose proof (aget_Some_range _ _ _ He) as Hr. rewrite (wf_enclaves m Hwf) in Hr.
  destruct (wp_inv (exec h (Stop regs 0 eid)) (fun _ m' => sm_wf m' /\ switched eid STOPPED m m') m) as (r & m' & E & Hwf' & Hsw).
  { cbn [exec]. wp_step. apply (wp_stop_enclave m h regs 0 eid e); [done|done|done|].
    intros res m' [Hwf' [(_ & _ & Hno)|(_ & _ & Hsw)]]; [|by wp_step].
    specialize (Hno e He). unfold is_running in Hno. rewrite Hst in Hno. by apply bool_decide_eq_false_1 in Hno. }
  exists m'. split; [|done]. eapply (reach_step m 0 m m' h (Stop regs 0 eid)); [apply reach_refl| |exact E].
  destruct Hcall. split; [done|]. split; [done|]. unfold ENCL_MAX. lia.
Qed.

(** C6: the host always gets its memory back.  From every state with an enclave, whatever it
    is doing, a run of at most two calls (stopping it, as a timer interrupt does, and destroying it)
    leads to a state in which its slot is free, its private memory reads zero and its regions
    have left the table, while the other enclaves are as before. *)
Theorem enclave_reclaimable `{OpenSBI, Signer, Mmu} (m : machine) h regs eid e :
  sm_wf m -> ipi_harts_ok (length (hart_pmp (pmp m))) -> call_ok m h regs ->
  aget (enclaves m) eid = Some e -> e_state e <> INVALID ->
  exists n m', (n <= 2)%nat /\ reachable_in m n m' /\ sm_wf m' /\
    (exists e', aget (enclaves m') eid = Some e' /\ e_state e' = INVALID) /\
    (forall a, mem m' a = if in_range (dram_base (e_params e)) (dram_size (e_params e)) a then 0 else mem m a) /\
    (forall rid, owns e rid -> forall r, ~ valid_at (pmp m') rid r) /\
    (forall j, j <> eid -> aget (enclaves m') j = aget (enclaves m) j).
Proof.
  intros Hwf Hipi Hcall He Hne.
  assert (exists n1 m1 e1, (n1 <= 1)%nat /\ reachable_in m n1 m1 /\ sm_wf m1 /\ ipi_harts_ok (length (hart_pmp (pmp m1))) /\ is_hart (pmp m1) h /\
    aget (enclaves m1) eid = Some e1 /\ is_destroyable e1 = true /\ e_params e1 = e_params e /\ e_regions e1 = e_regions e /\ mem m1 = mem m /\
    forall j, j <> eid -> aget (enclaves m1) j = aget (enclaves m) j) as (n1 & m1 & e1 & Hn1 & Hr1 & Hwf1 & Hipi1 & Hh1 & He1 & Hd1 & Hp1 & Hg1 & Hm1 & Ho1).
  { pose proof (eo_state _ _ (wf_encl m Hwf eid e He)) as Hok. destruct (decide (e_state e = RUNNING)) as [Er|Er].
    - destruct (stop_reaches m h regs eid e Hwf Hcall He Er) as (m1 & Hr1 & Hwf1 & [Ho (e0 & e1 & He0 & He1 & Hst & Hreg & Hpar & _) Htab Hmem]).
      assert (e0 = e) as -> by congruence. exists 1%nat, m1, e1. split_and!; try done.
      + by rewrite (st_harts _ _ Htab).
      + unfold is_hart. rewrite (st_harts _ _ Htab). apply Hcall.
      + unfold is_destroyable. by rewrite Hst.
    - exists 0%nat, m, e. split_and!; try done; [lia|apply reach_refl|apply Hcall|]. unfold is_destroyable. by destruct (e_state e). }
  destruct (destroy_reaches m1 h eid e1 Hwf1 Hipi1 Hh1 He1 Hd1) as (m' & Hr' & Hwf' & [(e2 & He2 & _ & Hmem & Hval) (e' & He' & Hinv & _) Hoth _]).
  assert (e2 = e1) as -> by congruence. exists (1 + n1)%nat, m'. split; [lia|]. split; [by eapply reachable_in_trans|]. split; [done|]. split; [by exists e'|]. split_and!.
  - intros a. rewrite Hmem, Hp1, Hm1. done.
  - intros rid Hown r [_ Hno]%Hval. apply Hno. unfold owns in *. by rewrite Hg1.
  - intros j Hj. by rewrite Hoth, Ho1.
Qed.

Lemma enclave_reclaimable_witness :
  exists n m', (n <= 2)%nat /\ reachable_in demo_live_machine n m' /\
    exists e', aget (enclaves m') 0 = Some e' /\ e_state e' = INVALID.
Proof.
  destruct demo_live_facts as (Hwf & _ & _ & _ & e & He & Hst).
  destruct (enclave_reclaimable demo_live_machine 0 demo_regs 0 e) as (n & m' & Hn & Hr' & _ & He' & _).
  - exact Hwf.
  - exact demo_live_ipi.
  - exact demo_live_call.
  - exact He.
  - rewrite Hst. discriminate.
  - exists n, m'. split; [exact Hn|]. split; [exact Hr'|exact He'].
Defined.
