(* ===== verification/ContextSwitch.v ===== *)
(** * What a context switch restores

    [context_switch_to_enclave] and [context_switch_to_host] followed exactly: which
    registers and CSRs the other side gets, and what the thread of the enclave keeps.
    The theorem composes them: host and enclave each get their own state back,
    whatever the other one did to the hart in between. *)

From S2P Require Import Prelude Mem SmDefs Pmp PmpInv PmpHw Sha3 Hkdf Thread Mprv Machine Attest Enclave EnclaveInv Lifecycle.
From Stdlib Require Import ZArith Lia.
From stdpp Require Import base tactics list list_numbers numbers.
Local Open Scope Z_scope.

(** ** Steps that leave harts and enclaves alone *)

Lemma bind_ok {S A B} (c : M S A) (k : A -> M S B) s b s' : bind c k s = Ok (b, s') ->
  exists a s1, c s = Ok (a, s1) /\ k a s1 = Ok (b, s').
Proof. unfold bind. destruct (c s) as [[a s1]| |]; [eauto|done..]. Qed.

(** [c] touches neither the CSRs of a hart nor an enclave. *)
Definition quiet {A} (c : M machine A) : Prop :=
  forall m a m', c m = Ok (a, m') -> harts m' = harts m /\ enclaves m' = enclaves m.

Create HintDb quiet.

Lemma quiet_ret {A} (a : A) : quiet (ret a).
Proof. by intros m ? ? [= _ <-]. Qed.
Lemma quiet_get : quiet get.
Proof. by intros m ? ? [= _ <-]. Qed.
Lemma quiet_or_ub {A} (o : option A) : quiet (or_ub o).
Proof. intros m a m'. destruct o; [by intros [= _ <-]|done]. Qed.
Lemma quiet_bind {A B} (c : M machine A) (k : A -> M machine B) : quiet c -> (forall a, quiet (k a)) -> quiet (bind c k).
Proof.
  intros Hc Hk m b m' (a & m1 & H1 & H2)%bind_ok. destruct (Hc _ _ _ H1) as [E1 E2]. destruct (Hk a _ _ _ H2) as [E3 E4].
  split; congruence.
Qed.
Lemma quiet_with_pmp {A} (c : M pmp_sys A) : quiet (with_pmp c).
Proof. intros m a m'. unfold with_pmp, zoom. destruct (c (pmp m)) as [[x s]| |]; [by intros [= _ <-]|done..]. Qed.
Lemma quiet_for_each {A} (l : list A) f : (forall x, quiet (f x)) -> quiet (for_each l f).
Proof. intros Hf. induction l as [|x l IH]; [apply quiet_ret|]. by apply quiet_bind. Qed.

#[export] Hint Resolve quiet_ret quiet_get quiet_or_ub quiet_with_pmp : quiet.
Ltac quiet := repeat first [progress auto with quiet | apply quiet_bind; [|intros] | apply quiet_for_each; intros | case_match].

Lemma quiet_set_enclave_pmp h eid perm : quiet (set_enclave_pmp h eid perm).
Proof. unfold set_enclave_pmp, enclave_at. quiet. Qed.
Lemma quiet_osm h perm : quiet (osm_pmp_set h perm).
Proof. unfold osm_pmp_set. quiet. Qed.
Lemma quiet_cpu_enter h eid : quiet (cpu_enter_enclave_context h eid).
Proof. unfold cpu_enter_enclave_context, cpu_at. quiet. by intros m ? ? [= _ <-]. Qed.
Lemma quiet_cpu_exit h : quiet (cpu_exit_enclave_context h).
Proof. unfold cpu_exit_enclave_context, cpu_at. quiet. by intros m ? ? [= _ <-]. Qed.

(** ** The context of a hart and of a thread *)

(** Hart [h] has the CSRs [hc], and the enclave in slot [eid] is [e] with the thread [t]. *)
Record ctx (h eid : Z) (e : enclave) (m : machine) (t : thread_state) (hc : hart_csrs) : Prop := {
  ctx_hart : aget (harts m) h = Some hc;
  ctx_encl : aget (enclaves m) eid = Some (set_thread t e)
}.

Lemma ctx_quiet {A} (c : M machine A) h eid e m t hc a m' :
  quiet c -> c m = Ok (a, m') -> ctx h eid e m t hc -> ctx h eid e m' t hc.
Proof. intros Hq Hc [H1 H2]. destruct (Hq _ _ _ Hc) as [E1 E2]. split; congruence. Qed.

Lemma ctx_csr_update h eid e m t hc f m' :
  csr_update h f m = Ok (tt, m') -> ctx h eid e m t hc -> ctx h eid e m' t (f hc).
Proof.
  intros Hc [H1 H2]. pose proof (aget_Some_range _ _ _ H1) as Hr. revert Hc.
  unfold csr_update, put_hart, hart_at, bind, get. rewrite H1. simpl. rewrite H1. simpl. intros [= <-]. split; [|done].
  simpl. by apply aget_aset_eq.
Qed.

(** The three swaps, on the two sides. *)
Definition kept_thread (t : thread_state) (regs : sbi_trap_regs) (hc : hart_csrs) (ror : bool) : thread_state :=
  mkThread (prev_mpp t) (mepc regs) (u64 (mstatus regs)) (save_csrs (prev_csrs t) hc) (<[0%nat := Z.b2z (negb ror)]> (gpr regs)).
Definition given_regs (t : thread_state) (regs : sbi_trap_regs) : sbi_trap_regs :=
  mkRegs (prev_state t) (prev_mepc t) (Z.lor (Z.land (mstatus regs) (not64 mstatus_mask)) (prev_mstatus t)).
Definition given_csrs (t : thread_state) (hc : hart_csrs) : hart_csrs :=
  write_sip (sip (prev_csrs t)) (set_smode (load_csrs (prev_csrs t)) hc).

Lemma ctx_swap h eid e m t hc regs ror regs' m' :
  length (prev_state t) = 32%nat -> length (gpr regs) = 32%nat ->
  swap_context h eid regs ror m = Ok (regs', m') -> ctx h eid e m t hc ->
  regs' = given_regs t regs /\ ctx h eid e m' (kept_thread t regs hc ror) (given_csrs t hc).
Proof.
  intros Ht Hl Hc [H1 H2]. pose proof (aget_Some_range _ _ _ H1) as Hr1. pose proof (aget_Some_range _ _ _ H2) as Hr2. revert Hc.
  unfold swap_context, enclave_at, hart_at, bind at 1, get, bind at 1. rewrite H2. cbn [or_ub ret].
  unfold bind at 1, bind at 1. rewrite H1. cbn [or_ub ret]. change (e_thread (set_thread t e)) with t.
  rewrite swap_prev_state_spec by done. unfold swap_prev_mepc, swap_prev_mstatus. cbn [mepc mstatus set_mepc].
  rewrite swap_mstatus_saved. unfold update_enclave, put_hart, enclave_at, hart_at, bind, get, modify. rewrite H2. cbn [or_ub ret].
  cbn [harts set_enclaves]. rewrite H1. cbn [or_ub ret]. intros [= <- <-]. split; [done|]. split.
  - by apply aget_aset_eq.
  - by apply aget_aset_eq.
Qed.

Section Exact.
Context (h eid : Z) (e : enclave) (m : machine) (t : thread_state) (hc : hart_csrs).
Context (Hctx : ctx h eid e m t hc) (Ht : length (prev_state t) = 32%nat).

(** Entering: the frame and the CSRs of the thread, or the parameters of a first run. *)
Definition entry_csrs (lp : bool) : hart_csrs :=
  let hc := set_mideleg 0 (given_csrs t hc) in switch_vector_enclave (if lp then set_satp 0 hc else hc).

Lemma to_enclave_exact regs lp regs' m' : length (gpr regs) = 32%nat ->
  context_switch_to_enclave h regs eid lp m = Ok (regs', m') ->
  regs' = (if lp then load_params (e_params e) (given_regs t regs) else given_regs t regs) /\
  ctx h eid e m' (kept_thread t regs hc true) (entry_csrs lp).
Proof using All.
  intros Hl. unfold context_switch_to_enclave.
  intros (r1 & m1 & H1 & Hk)%bind_ok. destruct (ctx_swap _ _ _ _ _ _ _ _ _ _ Ht Hl H1 Hctx) as [-> C1].
  apply bind_ok in Hk as ([] & m2 & H2 & Hk). pose proof (ctx_csr_update _ _ _ _ _ _ _ _ H2 C1) as C2.
  apply bind_ok in Hk as (e' & m3 & H3 & Hk).
  assert (m3 = m2 /\ e_params e' = e_params e) as [-> Hp].
  { revert H3. unfold enclave_at, bind, get. rewrite (ctx_encl _ _ _ _ _ _ C2). by intros [= <- <-]. }
  apply bind_ok in Hk as ([] & m4 & H4 & Hk).
  assert (ctx h eid e m4 (kept_thread t regs hc true) ((if lp then set_satp 0 else id) (set_mideleg 0 (given_csrs t hc)))) as C4.
  { destruct lp; [by apply (ctx_csr_update _ _ _ _ _ _ _ _ H4)|]. by injection H4 as <-. }
  apply bind_ok in Hk as ([] & m5 & H5 & Hk). pose proof (ctx_csr_update _ _ _ _ _ _ _ _ H5 C4) as C5.
  apply bind_ok in Hk as (x & m6 & H6 & Hk). pose proof (ctx_quiet _ _ _ _ _ _ _ _ _ (quiet_osm _ _) H6 C5) as C6.
  apply bind_ok in Hk as ([] & m7 & H7 & Hk). pose proof (ctx_quiet _ _ _ _ _ _ _ _ _ (quiet_set_enclave_pmp _ _ _) H7 C6) as C7.
  apply bind_ok in Hk as ([] & m8 & [= <-] & Hk).
  apply bind_ok in Hk as ([] & m9 & H9 & Hk). pose proof (ctx_quiet _ _ _ _ _ _ _ _ _ (quiet_cpu_enter _ _) H9 C7) as C9.
  injection Hk as <- <-. rewrite Hp. split; [done|]. by destruct lp.
Qed.

(** Leaving: the frame and the CSRs of the thread, with the pending interrupts handed down. *)
Definition host_interrupts : Z := Z.lor (Z.lor MIP_SSIP MIP_STIP) MIP_SEIP.
Definition exit_csrs : hart_csrs :=
  let hc := switch_vector_host (given_csrs t (set_mideleg host_interrupts hc)) in
  delegate_pending (mip hc) MIP_MEIP MIP_SEIP (delegate_pending (mip hc) MIP_MSIP MIP_SSIP
    (delegate_pending (mip hc) MIP_MTIP MIP_STIP hc)).

Lemma to_host_exact regs ror regs' m' : length (gpr regs) = 32%nat ->
  context_switch_to_host h regs eid ror m = Ok (regs', m') ->
  regs' = given_regs t regs /\
  ctx h eid e m' (kept_thread t regs (set_mideleg host_interrupts hc) ror) exit_csrs.
Proof using All.
  intros Hl. unfold context_switch_to_host.
  intros ([] & m1 & H1 & Hk)%bind_ok. pose proof (ctx_quiet _ _ _ _ _ _ _ _ _ (quiet_set_enclave_pmp _ _ _) H1 Hctx) as C1.
  apply bind_ok in Hk as (x & m2 & H2 & Hk). pose proof (ctx_quiet _ _ _ _ _ _ _ _ _ (quiet_osm _ _) H2 C1) as C2.
  apply bind_ok in Hk as ([] & m3 & H3 & Hk). pose proof (ctx_csr_update _ _ _ _ _ _ _ _ H3 C2) as C3.
  apply bind_ok in Hk as (r4 & m4 & H4 & Hk). destruct (ctx_swap _ _ _ _ _ _ _ _ _ _ Ht Hl H4 C3) as [-> C4].
  apply bind_ok in Hk as ([] & m5 & H5 & Hk). pose proof (ctx_csr_update _ _ _ _ _ _ _ _ H5 C4) as C5.
  apply bind_ok in Hk as (hc6 & m6 & H6 & Hk).
  assert (m6 = m5 /\ hc6 = switch_vector_host (given_csrs t (set_mideleg host_interrupts hc))) as [-> ->].
  { revert H6. unfold hart_at, bind, get. rewrite (ctx_hart _ _ _ _ _ _ C5). by intros [= <- <-]. }
  apply bind_ok in Hk as ([] & m7 & H7 & Hk). pose proof (ctx_csr_update _ _ _ _ _ _ _ _ H7 C5) as C7.
  apply bind_ok in Hk as ([] & m8 & H8 & Hk). pose proof (ctx_csr_update _ _ _ _ _ _ _ _ H8 C7) as C8.
  apply bind_ok in Hk as ([] & m9 & H9 & Hk). pose proof (ctx_csr_update _ _ _ _ _ _ _ _ H9 C8) as C9.
  apply bind_ok in Hk as ([] & m10 & [= <-] & Hk).
  apply bind_ok in Hk as ([] & m11 & H11 & Hk). pose proof (ctx_quiet _ _ _ _ _ _ _ _ _ (quiet_cpu_exit _) H11 C9) as C11.
  injection Hk as <- <-. by split.
Qed.
End Exact.

(** ** Both sides of a switch *)

(** What the switches need of the machine. *)
Record switchable (h : Z) (e : enclave) (m : machine) : Prop := {
  sw_pmp : pmp_wf (pmp m);
  sw_regs : length (e_regions e) = 8%nat;
  sw_rids : forall i r, aget (e_regions e) i = Some r -> er_type r <> REGION_INVALID -> 0 <= pmp_rid r < 32;
  sw_os : 0 <= os_region_id m < 32;
  sw_harts : length (harts m) = length (hart_pmp (pmp m));
  sw_cpus : (length (harts m) <= length (cpus m))%nat;
  sw_hart : is_hart (pmp m) h
}.

Lemma switchable_of m h eid e : sm_wf m -> is_hart (pmp m) h -> aget (enclaves m) eid = Some e -> is_live (e_state e) = true ->
  switchable h e m.
Proof.
  intros Hwf Hh He Hl. destruct (wf_enclave_len m Hwf eid e He Hl) as [L1 L2]. split; try done.
  - apply Hwf.
  - by apply (rid_range m Hwf eid e He Hl).
  - by apply (os_range m Hwf eid e He Hl).
  - apply Hwf.
  - rewrite (wf_cpus m Hwf). apply Hwf.
Qed.

Lemma switchable_frame h eid e t m m' : switchable h e m -> ctx_frame eid (set_thread t e) m m' -> switchable h e m'.
Proof.
  intros [S1 S2 S3 S4 S5 S6 S7] [F1 F2 F3 F4 F5 F6 F7 F8 F9]. split; try done.
  - by apply (same_table_wf (pmp m)).
  - by rewrite F5.
  - by rewrite F8, (st_harts _ _ F1).
  - by rewrite F8, F9.
  - unfold is_hart. by rewrite (st_harts _ _ F1).
Qed.

(** What the running side may do to the machine: the CSRs of its hart and the contents of memory. *)
Definition ran (h : Z) (hc : hart_csrs) (f : Z -> Z) (m : machine) : machine :=
  set_mem f (set_harts (aset (harts m) h hc) m).

Lemma switchable_ran h e hc f m : switchable h e m -> switchable h e (ran h hc f m).
Proof. intros [S1 S2 S3 S4 S5 S6 S7]. split; try done; simpl; by rewrite length_aset. Qed.

Lemma ctx_ran h eid e m t hc hc' f : ctx h eid e m t hc -> ctx h eid e (ran h hc' f m) t hc'.
Proof. intros [H1 H2]. split; [|done]. simpl. apply aget_aset_eq. by apply (aget_Some_range _ _ _ H1). Qed.

Section Runs.
Context (h eid : Z) (e : enclave) (m : machine) (t : thread_state) (hc : hart_csrs).
Context (Hsw : switchable h e m) (Hctx : ctx h eid e m t hc) (Ht : length (prev_state t) = 32%nat).

Lemma to_enclave_runs regs lp : length (gpr regs) = 32%nat ->
  exists m', context_switch_to_enclave h regs eid lp m =
      Ok (if lp then load_params (e_params e) (given_regs t regs) else given_regs t regs, m') /\
    switchable h e m' /\ ctx h eid e m' (kept_thread t regs hc true) (entry_csrs t hc lp).
Proof using All.
  intros Hl. destruct Hsw as [S1 S2 S3 S4 S5 S6 S7].
  destruct (wp_inv (context_switch_to_enclave h regs eid lp) (fun _ m' => ctx_frame eid (set_thread t e) m m') m) as (r & m' & E & Hf).
  { apply (wp_switch_to_enclave m eid (set_thread t e)); try done. apply Hctx. }
  destruct (to_enclave_exact h eid e m t hc Hctx Ht regs lp r m' Hl E) as [-> C]. exists m'. split; [done|]. split; [|done].
  by eapply switchable_frame.
Qed.

Lemma to_host_runs regs ror : length (gpr regs) = 32%nat ->
  exists m', context_switch_to_host h regs eid ror m = Ok (given_regs t regs, m') /\ switchable h e m' /\
    ctx h eid e m' (kept_thread t regs (set_mideleg host_interrupts hc) ror) (exit_csrs t hc).
Proof using All.
  intros Hl. destruct Hsw as [S1 S2 S3 S4 S5 S6 S7].
  destruct (wp_inv (context_switch_to_host h regs eid ror) (fun _ m' => ctx_frame eid (set_thread t e) m m') m) as (r & m' & E & Hf).
  { apply (wp_switch_to_host m eid (set_thread t e)); try done. apply Hctx. }
  destruct (to_host_exact h eid e m t hc Hctx Ht regs ror r m' Hl E) as [-> C]. exists m'. split; [done|]. split; [|done].
  by eapply switchable_frame.
Qed.
End Runs.

Lemma kept_length t regs hc ror : length (gpr regs) = 32%nat -> length (prev_state (kept_thread t regs hc ror)) = 32%nat.
Proof. intros Hl. simpl. by rewrite length_insert. Qed.

(** ** The software interrupt *)

(** [SSIP] is delegated on a hart that runs the host. *)
Definition ssip_delegated (hc : hart_csrs) : Prop := Z.testbit (mideleg hc) 1 = true.

Lemma ssip_bit i : 0 <= i -> Z.testbit MIP_SSIP i = bool_decide (i = 1).
Proof. intros Hi. unfold MIP_SSIP. rewrite testbit_shiftl_1 by lia. by apply bool_decide_ext. Qed.

Lemma given_mip t hc i : 0 <= i ->
  Z.testbit (mip (given_csrs t hc)) i =
    if bool_decide (i = 1) && Z.testbit (mideleg hc) 1 then Z.testbit (sip (prev_csrs t)) 1 else Z.testbit (mip hc) i.
Proof.
  intros Hi. unfold given_csrs, write_sip. cbn [mip set_mip set_smode mideleg].
  rewrite Z.lor_spec, Z.ldiff_spec, !Z.land_spec, ssip_bit by done.
  case_bool_decide; [subst i|];
    repeat match goal with |- context [Z.testbit ?x ?n] => destruct (Z.testbit x n) end; done.
Qed.

Lemma delegate_other pending mbit sbit hc i : Z.testbit mbit i = false -> Z.testbit sbit i = false ->
  Z.testbit (mip (delegate_pending pending mbit sbit hc)) i = Z.testbit (mip hc) i.
Proof.
  intros Hm Hs. unfold delegate_pending. case_match; [|done]. cbn [mip set_mip]. by rewrite Z.lor_spec, Z.ldiff_spec, Hm, Hs, andb_true_r, orb_false_r.
Qed.

Lemma delegate_frame pending mbit sbit hc : smode (delegate_pending pending mbit sbit hc) = smode hc /\
  mideleg (delegate_pending pending mbit sbit hc) = mideleg hc /\ mtvec (delegate_pending pending mbit sbit hc) = mtvec hc.
Proof. unfold delegate_pending. by case_match. Qed.

Lemma exit_frame t hc : smode (exit_csrs t hc) = load_csrs (prev_csrs t) /\ mideleg (exit_csrs t hc) = host_interrupts /\
  mtvec (exit_csrs t hc) = trap_handler_host.
Proof.
  unfold exit_csrs. cbv zeta.
  repeat match goal with |- context [delegate_pending ?p ?a ?b ?x] => destruct (delegate_frame p a b x) as (-> & -> & ->) end. done.
Qed.

Lemma exit_ssip t hc : Z.testbit (mip (exit_csrs t hc)) 1 = Z.testbit (sip (prev_csrs t)) 1 || Z.testbit (mip hc) 3.
Proof.
  unfold exit_csrs. cbv zeta. rewrite delegate_other by done. set (hc1 := switch_vector_host _).
  assert (forall i, 0 <= i -> Z.testbit (mip hc1) i = if bool_decide (i = 1) then Z.testbit (sip (prev_csrs t)) 1 else Z.testbit (mip hc) i) as Hm.
  { intros i Hi. unfold hc1. change (mip (switch_vector_host ?x)) with (mip x). rewrite given_mip by done. by case_bool_decide. }
  assert (Z.testbit (mip (delegate_pending (mip hc1) MIP_MTIP MIP_STIP hc1)) 1 = Z.testbit (sip (prev_csrs t)) 1) as H1
    by (rewrite delegate_other by done; by rewrite Hm).
  unfold delegate_pending at 1. unfold MIP_MSIP at 1. rewrite truthy_bit, Hm by done. change (bool_decide (3 = 1)) with false. cbv iota. destruct (Z.testbit (mip hc) 3).
  - change (mip (set_mip ?v ?x)) with v. by rewrite Z.lor_spec, ssip_bit, bool_decide_eq_true_2, !orb_true_r by done.
  - by rewrite H1, orb_false_r.
Qed.

Lemma entry_frame t hc : smode (entry_csrs t hc false) = load_csrs (prev_csrs t) /\ mideleg (entry_csrs t hc false) = 0 /\
  mtvec (entry_csrs t hc false) = trap_vector_enclave.
Proof. done. Qed.

(** ** Theorems *)

(** C23: entering an enclave and leaving it gives each side its own state back.  From any state of the
    monitor with an enclave that exists, [context_switch_to_enclave] returns; whatever the enclave then does
    to the supervisor CSRs of its hart and to memory, [context_switch_to_host] returns and hands the
    host its general registers (slot 0, which is no register, tells the trap return that a result
    is to be delivered), its program counter, its status word with the bits outside the saved
    fields taken from the enclave's, all supervisor CSRs, and its software interrupt, also raised by a
    machine-level one; and when the host, whatever it did, resumes the enclave, the enclave gets
    its own registers, program counter, CSRs and software interrupt back. *)
Theorem context_switch_roundtrip (m : machine) h eid e hc host lp :
  sm_wf m -> call_ok m h host -> aget (enclaves m) eid = Some e -> is_live (e_state e) = true ->
  aget (harts m) h = Some hc -> ssip_delegated hc -> is_u64 (mstatus host) ->
  exists entry m1, context_switch_to_enclave h host eid lp m = Ok (entry, m1) /\
  forall hc2 f2 encl ror, length (gpr encl) = 32%nat -> is_u64 (mstatus encl) ->
  exists back m3 hc3, context_switch_to_host h encl eid ror (ran h hc2 f2 m1) = Ok (back, m3) /\
    back = mkRegs (<[0%nat := 0]> (gpr host)) (mepc host) (Z.lor (Z.land (mstatus encl) (not64 mstatus_mask)) (mstatus host)) /\
    aget (harts m3) h = Some hc3 /\ smode hc3 = smode hc /\ mideleg hc3 = host_interrupts /\ mtvec hc3 = trap_handler_host /\
    Z.testbit (mip hc3) 1 = Z.testbit (mip hc) 1 || Z.testbit (mip hc2) 3 /\
  forall hc4 f4 host', length (gpr host') = 32%nat -> ssip_delegated hc4 ->
  exists entry' m5 hc5, context_switch_to_enclave h host' eid false (ran h hc4 f4 m3) = Ok (entry', m5) /\
    entry' = mkRegs (<[0%nat := Z.b2z (negb ror)]> (gpr encl)) (mepc encl)
               (Z.lor (Z.land (mstatus host') (not64 mstatus_mask)) (mstatus encl)) /\
    aget (harts m5) h = Some hc5 /\ smode hc5 = smode hc2 /\ mideleg hc5 = 0 /\ mtvec hc5 = trap_vector_enclave /\
    Z.testbit (mip hc5) 1 = Z.testbit (mip hc2) 1.
Proof.
  intros Hwf [Hh Hl] He Hlive Hhc Hd Hst.
  pose proof (switchable_of m h eid e Hwf Hh He Hlive) as S0. destruct (wf_enclave_len m Hwf eid e He Hlive) as [_ Ht].
  assert (ctx h eid e m (e_thread e) hc) as C0 by (split; [done|by rewrite set_thread_id]).
  destruct (to_enclave_runs h eid e m _ hc S0 C0 Ht host lp Hl) as (m1 & E1 & S1 & C1).
  eexists _, m1. split; [exact E1|]. intros hc2 f2 encl ror Hle Hste.
  destruct (to_host_runs h eid e (ran h hc2 f2 m1) _ hc2 (switchable_ran _ _ hc2 f2 _ S1) (ctx_ran _ _ _ _ _ _ hc2 f2 C1)
    (kept_length _ _ _ _ Hl) encl ror Hle) as (m3 & E3 & S3 & C3).
  destruct (exit_frame (kept_thread (e_thread e) host hc true) hc2) as (F1 & F2 & F3).
  eexists _, m3, _. split; [exact E3|]. split; [unfold given_regs; simpl; by rewrite u64_id|]. split; [apply C3|].
  split; [by rewrite F1; apply load_save_csrs|]. split; [done|]. split; [done|]. split.
  { rewrite exit_ssip. cbn [kept_thread prev_csrs save_csrs sip]. unfold read_sip. by rewrite Z.land_spec, Hd, andb_true_r. }
  intros hc4 f4 host' Hl' Hd4.
  destruct (to_enclave_runs h eid e (ran h hc4 f4 m3) _ hc4 (switchable_ran _ _ hc4 f4 _ S3) (ctx_ran _ _ _ _ _ _ hc4 f4 C3)
    (kept_length _ _ _ _ Hle) host' false Hl') as (m5 & E5 & S5 & C5).
  eexists _, m5, _. split; [exact E5|]. split; [unfold given_regs; simpl; by rewrite u64_id|]. split; [apply C5|].
  split; [exact (load_save_csrs (prev_csrs (kept_thread (e_thread e) host hc true)) (set_mideleg host_interrupts hc2))|]. split; [done|]. split; [done|].
  change (mip (entry_csrs ?t ?x false)) with (mip (given_csrs t x)). rewrite given_mip by done. rewrite Hd4.
  change (Z.testbit (Z.land (mip hc2) host_interrupts) 1 = Z.testbit (mip hc2) 1). rewrite Z.land_spec. by rewrite andb_true_r.
Qed.

Lemma sm_wf_set_harts l m : sm_wf m -> length l = length (hart_pmp (pmp m)) -> (length l <= 16)%nat -> sm_wf (set_harts l m).
Proof. intros [W1 W2 W3 W4 W5 W6 W7 W8 W9 W10 W11] Hl Hn. by split. Qed.

(** The new enclave of the example runs, leaves and is entered again. *)
Definition demo_host_hart : hart_csrs := mkHart (mkSmode 1 2 3 4 5 6 7 8 9) host_interrupts trap_handler_host MIP_SSIP.

Lemma context_switch_roundtrip_witness :
  exists e back m3, aget (enclaves demo_live_machine) 0 = Some e /\
    (exists entry m1, context_switch_to_enclave 0 demo_regs 0 true (set_harts (replicate 4 demo_host_hart) demo_live_machine) = Ok (entry, m1) /\
       context_switch_to_host 0 (mkRegs (replicate 32 9) 0x1000 0x100) 0 false (ran 0 (mkHart zero_smode 0 trap_vector_enclave 0) (fun _ => 1) m1) = Ok (back, m3)) /\
    gpr back = 0 :: replicate 31 7 /\ mepc back = 0x80200000.
Proof.
  pose proof (proj1 demo_live_call) as Hh. destruct demo_live_facts as (Hwf & Hlen & _ & _ & e & He & Hst).
  revert Hh Hwf Hlen e He Hst. generalize demo_live_machine. intros m Hh Hwf Hlen e He Hst.
  destruct (context_switch_roundtrip (set_harts (replicate 4 demo_host_hart) m) 0 0 e demo_host_hart demo_regs true)
    as (entry & m1 & E1 & Hback).
  - apply sm_wf_set_harts; [exact Hwf|rewrite Hlen; reflexivity|vm_compute; lia].
  - split; [exact Hh|reflexivity].
  - exact He.
  - rewrite Hst. reflexivity.
  - reflexivity.
  - reflexivity.
  - vm_compute. split; congruence.
  - destruct (Hback (mkHart zero_smode 0 trap_vector_enclave 0) (fun _ => 1) (mkRegs (replicate 32 9) 0x1000 0x100) false eq_refl)
      as (back & m3 & hc3 & E3 & Hb & _); [vm_compute; split; congruence|].
    exists e, back, m3. split; [exact He|]. split; [exists entry, m1; split; [exact E1|exact E3]|].
    rewrite Hb. split; reflexivity.
Defined.
