(* ===== verification/Sbi.v ===== *)
(** * The SBI interface ([sm/src/sm-sbi.c], [sm/src/sm-sbi-opensbi.c], [sm/src/sm.c], [sm/src/sbi_trap_hack.c])

    The dispatcher of the Keystone extension, its wrappers around the enclave
    functions, start-up, and the trap handler that runs while an enclave does. *)

From S2P Require Import Prelude Mem SmDefs Pmp PmpInv PmpHw Sha3 Hkdf Thread Mprv Machine Attest Enclave EnclaveInv Services Lifecycle.
From Stdlib Require Import ZArith Lia.
From stdpp Require Import base tactics list list_numbers numbers.
Local Open Scope Z_scope.

(** ** What a call leaves to its caller *)

(** A handler either returns to OpenSBI with an error code and perhaps a value in
    [*out_val], or leaves through [sbi_trap_exit] with a trap frame. *)
Inductive ecall_outcome : Type :=
  | Returned (retval : Z) (out_val : option Z)
  | TrapExit (regs : sbi_trap_regs).

(** The addresses and contents of the local buffers of the call. *)
Record locals : Type := mkLocals {
  create_args_local : Z;
  report_addr : Z;
  report_data : Z;
  stack_bytes : list Z;
  cycles : Z
}.

(** ** sm-sbi.c *)

Definition sbi_sm_create_enclave `{OpenSBI, Mmu} (h : Z) (l : locals) (create_args : Z) : M machine (Z * option Z) :=
  let! '(res, args) := copy_enclave_create_args h (create_args_local l) create_args in
  match args with
  | None => ret (res, None)
  | Some args => create_enclave h args
  end.

Definition sbi_sm_destroy_enclave `{OpenSBI} (eid : Z) : M machine Z := destroy_enclave (u32 eid).

Definition sbi_sm_run_enclave (h : Z) (regs : sbi_trap_regs) (eid : Z) : M machine sbi_trap_regs :=
  let! '(res, regs) := run_enclave h regs (u32 eid) in
  let regs := set_reg REG_A0 res regs in
  ret (set_mepc (u64 (mepc regs + 4)) regs).

Definition sbi_sm_resume_enclave (h : Z) (regs : sbi_trap_regs) (eid : Z) : M machine sbi_trap_regs :=
  let! '(res, regs) := resume_enclave h regs (u32 eid) in
  let regs := if truthy (reg regs REG_ZERO) then regs else set_reg REG_A0 res regs in
  ret (set_mepc (u64 (mepc regs + 4)) regs).

Definition sbi_sm_exit_enclave (h : Z) (regs : sbi_trap_regs) (retval : Z) : M machine sbi_trap_regs :=
  let! eid := cpu_get_enclave_id h in
  let! '(res, regs) := exit_enclave h regs eid in
  let regs := set_reg REG_A0 res regs in
  let regs := set_reg REG_A1 retval regs in
  ret (set_mepc (u64 (mepc regs + 4)) regs).

Definition sbi_sm_stop_enclave (h : Z) (regs : sbi_trap_regs) (request : Z) : M machine sbi_trap_regs :=
  let! eid := cpu_get_enclave_id h in
  let! '(res, regs) := stop_enclave h regs request eid in
  let regs := set_reg REG_A0 res regs in
  ret (set_mepc (u64 (mepc regs + 4)) regs).

Definition sbi_sm_attest_enclave `{Signer, Mmu} (h : Z) (l : locals) (rep data size : Z) : M machine Z :=
  let! eid := cpu_get_enclave_id h in
  attest_enclave h (stack_bytes l) (report_addr l) (report_data l) rep data size eid.

Definition sbi_sm_get_sealing_key `{Signer} (h : Z) (l : locals) (sealing_key key_ident key_ident_size : Z) : M machine Z :=
  let! eid := cpu_get_enclave_id h in
  get_sealing_key (stack_bytes l) sealing_key key_ident key_ident_size eid.

Definition sbi_sm_random (l : locals) : M machine Z := platform_random (cycles l).

(** ** plugins *)

Definition sbi_sm_call_plugin `{Mmu} (multimem : bool) (h plugin_id call_id arg0 arg1 : Z) : M machine Z :=
  let! eid := cpu_get_enclave_id h in
  call_plugin multimem h eid plugin_id call_id arg0 arg1.

(** ** sm-sbi-opensbi.c *)

(** The range test on the function identifier: [Some e] refuses the call. *)
Definition fid_check (funcid : Z) (in_enclave : bool) : option Z :=
  if funcid <=? FID_RANGE_DEPRECATED then Some SBI_ERR_SM_DEPRECATED
  else if funcid <=? FID_RANGE_HOST then
    if in_enclave then Some SBI_ERR_SM_ENCLAVE_SBI_PROHIBITED else None
  else if funcid <=? FID_RANGE_ENCLAVE then
    if negb in_enclave then Some SBI_ERR_SM_ENCLAVE_SBI_PROHIBITED else None
  else None.

Definition returning (c : M machine Z) : M machine ecall_outcome := let! r := c in ret (Returned r None).
Definition exiting (c : M machine sbi_trap_regs) : M machine ecall_outcome := let! r := c in ret (TrapExit r).

Definition sbi_ecall_keystone_enclave_handler `{OpenSBI, Signer, Mmu} (multimem : bool) (h : Z) (l : locals)
    (funcid : Z) (regs : sbi_trap_regs) : M machine ecall_outcome :=
  let! in_enclave :=
    (if (funcid <=? FID_RANGE_DEPRECATED) || (FID_RANGE_ENCLAVE <? funcid) then ret false
     else cpu_is_enclave_context h) in
  match fid_check funcid in_enclave with
  | Some e => ret (Returned e None)
  | None =>
      let a0 := reg regs REG_A0 in
      let a1 := reg regs REG_A1 in
      let a2 := reg regs REG_A2 in
      let a3 := reg regs REG_A3 in
      if funcid =? SBI_SM_CREATE_ENCLAVE then
        let! '(res, eid) := sbi_sm_create_enclave h l a0 in ret (Returned res eid)
      else if funcid =? SBI_SM_DESTROY_ENCLAVE then returning (sbi_sm_destroy_enclave a0)
      else if funcid =? SBI_SM_RUN_ENCLAVE then exiting (sbi_sm_run_enclave h regs a0)
      else if funcid =? SBI_SM_RESUME_ENCLAVE then exiting (sbi_sm_resume_enclave h regs a0)
      else if funcid =? SBI_SM_RANDOM then let! v := sbi_sm_random l in ret (Returned 0 (Some v))
      else if funcid =? SBI_SM_ATTEST_ENCLAVE then returning (sbi_sm_attest_enclave h l a0 a1 a2)
      else if funcid =? SBI_SM_GET_SEALING_KEY then returning (sbi_sm_get_sealing_key h l a0 a1 a2)
      else if funcid =? SBI_SM_STOP_ENCLAVE then exiting (sbi_sm_stop_enclave h regs a0)
      else if funcid =? SBI_SM_EXIT_ENCLAVE then exiting (sbi_sm_exit_enclave h regs a0)
      else if funcid =? SBI_SM_CALL_PLUGIN then returning (sbi_sm_call_plugin multimem h a0 a1 a2 a3)
      else ret (Returned SBI_ERR_SM_NOT_IMPLEMENTED None)
  end.

(** ** sm.c: start-up *)

Definition smm_init : M machine Z :=
  let! '(err, region) := with_pmp (pmp_region_init_atomic SMM_BASE SMM_SIZE PMP_PRI_TOP false) in
  if truthy err then ret (-1) else ret (default (-1) region).

Definition osm_init : M machine Z :=
  let! '(err, region) := with_pmp (pmp_region_init_atomic 0 minus1_ul PMP_PRI_BOTTOM true) in
  if truthy err then ret (-1) else ret (default (-1) region).

(** [sm_copy_key]: the boot ROM left the keys at fixed addresses. *)
Definition sm_copy_key (rom : sm_keys) : M machine unit := modify (set_keys rom).

(** The part of [sm_init] that only the cold-booting hart runs. *)
Definition sm_cold_init (rom : sm_keys) : M machine unit :=
  let! r := smm_init in
  modify (set_sm_region_id r) ;;;
  (if r <? 0 then hang else ret tt) ;;;
  let! r := osm_init in
  modify (set_os_region_id r) ;;;
  (if r <? 0 then hang else ret tt) ;;;
  let! p := platform_init_global_once in
  (if negb (p =? SBI_ERR_SM_ENCLAVE_SUCCESS) then hang else ret tt) ;;;
  sm_copy_key rom ;;;
  enclave_init_metadata ;;;
  modify (set_sm_init_done true).

(** A hart that is not cold-booting waits for [sm_init_done]. *)
Definition sm_init (cold_boot : bool) (h : Z) (rom : sm_keys) : M machine unit :=
  (if cold_boot then sm_cold_init rom else ret tt) ;;;
  let! m := get in
  (if sm_init_done m then ret tt else hang) ;;;
  with_pmp (pmp_init h) ;;;
  let! m := get in
  let! _ := with_pmp (pmp_set_keystone h (sm_region_id m) PMP_NO_PERM) in
  let! _ := with_pmp (pmp_set_keystone h (os_region_id m) PMP_ALL_PERM) in
  let! p := platform_init_global in
  if negb (p =? SBI_ERR_SM_ENCLAVE_SUCCESS) then hang else ret tt.

(** ** sbi_trap_hack.c *)

Definition SBI_ENOTSUPP : Z := -2.
Definition IRQ_M_SOFT : Z := 3.
Definition IRQ_M_TIMER : Z := 7.
Definition CAUSE_ILLEGAL_INSTRUCTION : Z := 2.
Definition CAUSE_MISALIGNED_LOAD : Z := 4.
Definition CAUSE_MISALIGNED_STORE : Z := 6.
Definition CAUSE_SUPERVISOR_ECALL : Z := 9.
Definition CAUSE_MACHINE_ECALL : Z := 11.

(** The OpenSBI handlers the trap handler calls: an error code and the registers,
    or a trap exit from inside the call. *)
Class TrapHandlers : Type := {
  sbi_illegal_insn_handler : Z -> sbi_trap_regs -> M machine (Z * sbi_trap_regs + sbi_trap_regs);
  sbi_misaligned_load_handler : Z -> sbi_trap_regs -> M machine (Z * sbi_trap_regs + sbi_trap_regs);
  sbi_misaligned_store_handler : Z -> sbi_trap_regs -> M machine (Z * sbi_trap_regs + sbi_trap_regs);
  sbi_ecall_handler : sbi_trap_regs -> M machine (Z * sbi_trap_regs + sbi_trap_regs);
  sbi_trap_redirect : Z -> Z -> sbi_trap_regs -> M machine (Z * sbi_trap_regs + sbi_trap_regs)
}.

(** The registers the trap ends with.  [sbi_sm_stop_enclave] and
    [sbi_sm_exit_enclave] leave through [sbi_trap_exit], so the assignments that
    follow them in the source are not reached. *)
Definition sbi_trap_error (h : Z) (rc : Z) (regs : sbi_trap_regs) : M machine sbi_trap_regs :=
  sbi_sm_exit_enclave h regs (u64 rc).

Definition sbi_trap_handler_keystone_enclave `{TrapHandlers} (h mcause mtval : Z) (regs : sbi_trap_regs) :
    M machine sbi_trap_regs :=
  if Z.testbit mcause 63 then
    let cause := Z.land mcause (not64 (Z.shiftl 1 63)) in
    if (cause =? IRQ_M_TIMER) || (cause =? IRQ_M_SOFT) then
      sbi_sm_stop_enclave h (set_mepc (u64 (mepc regs - 4)) regs) STOP_TIMER_INTERRUPT
    else sbi_trap_error h SBI_ENOTSUPP regs
  else
    let! r :=
      (if mcause =? CAUSE_ILLEGAL_INSTRUCTION then sbi_illegal_insn_handler mtval regs
       else if mcause =? CAUSE_MISALIGNED_LOAD then sbi_misaligned_load_handler mtval regs
       else if mcause =? CAUSE_MISALIGNED_STORE then sbi_misaligned_store_handler mtval regs
       else if (mcause =? CAUSE_SUPERVISOR_ECALL) || (mcause =? CAUSE_MACHINE_ECALL) then sbi_ecall_handler regs
       else sbi_trap_redirect mcause mtval regs) in
    match r with
    | inr regs => ret regs
    | inl (rc, regs) => if truthy rc then sbi_trap_error h rc regs else ret regs
    end.

(** ** Start-up establishes the invariant *)

Definition reset_enclave_slot : enclave :=
  mkEnclave 0 0 DESTROYING (replicate 8 (mkERegion 0 REGION_INVALID)) (replicate 64 0) (replicate 64 0) zero_params 0
    zero_thread.

(** The PMP registers of a hart when the monitor starts: any addresses, and no entry but perhaps the
    first in use, as the boot firmware leaves them.  ([pmp_init] does not switch off the other
    entries: the configuration it carries from one entry to the next brings their bytes back.) *)
Record csrs_reset (c : pmp_csrs) : Prop := {
  reset_ok : csrs_ok c;
  reset_cfg : pmpcfg0 c < 128
}.

(** The machine before the security monitor runs: zeroed globals and harts with the registers [cs]. *)
Definition reset_machine (cs : list pmp_csrs) (f : Z -> Z) : machine :=
  mkMachine (set_hart_pmp (fun _ => cs) (pmp_reset 0)) (replicate 16 reset_enclave_slot) false f (replicate 16 (mkCpu false 0))
    (replicate (length cs) (mkHart zero_smode 0 trap_handler_host 0))
    (mkKeys (replicate 64 0) (replicate 64 0) (replicate 32 0) (replicate 64 0) (replicate 32 0)) 0 0 false 0.

(** The region table after the cold-boot part, on harts with the registers [cs]. *)
Definition sm_table_of (cs : list pmp_csrs) : pmp_sys :=
  set_hart_pmp (fun _ => cs) (add_region 1 osm_region (add_region 0 smm_region (pmp_reset 0))).

(** The machine after the cold-boot part. *)
Definition cold_machine (cs : list pmp_csrs) (f : Z -> Z) (rom : sm_keys) : machine :=
  mkMachine (sm_table_of cs) (replicate 16 (set_state INVALID reset_enclave_slot)) false f (replicate 16 (mkCpu false 0))
    (replicate (length cs) (mkHart zero_smode 0 trap_handler_host 0)) rom 0 1 true 0.

Lemma sm_cold_init_spec cs f rom : sm_cold_init rom (reset_machine cs f) = Ok (tt, cold_machine cs f rom).
Proof. vm_compute. reflexivity. Qed.

Lemma sm_table_of_valid cs i r :
  valid_at (sm_table_of cs) i r <-> (i = 0 /\ r = smm_region) \/ (i = 1 /\ r = osm_region).
Proof. rewrite <- sm_table_valid, sm_table_eq. reflexivity. Qed.

Lemma sm_table_of_wf cs : pmp_wf (sm_table_of cs).
Proof.
  pose proof sm_table_wf as [W1 W2 W3 W4 W5 W6 W7 W8 W9]. rewrite sm_table_eq in *.
  split; try exact W1; try exact W2; try exact W3; try exact W9.
  - intros i r Hv. by apply (W4 i).
  - intros i r m Hv. by apply (W5 i r).
  - intros i j ri rj m Hi Hj. by apply (W6 i j ri rj m).
  - intros m Hm. by apply (W7 m).
  - intros i j ri rj Hi Hj. by apply (W8 i j).
Qed.

Lemma sm_table_of_addressable cs : table_addressable (sm_table_of cs).
Proof. intros i r Hv%sm_table_of_valid. by apply (sm_table_addressable i r), sm_table_valid. Qed.

Lemma sm_table_of_overlaps cs : overlaps_at_bottom (sm_table_of cs).
Proof. intros j rj [[-> ->]|[-> ->]]%sm_table_of_valid; done. Qed.

Lemma cold_wf cs f rom : (length cs <= 16)%nat -> sm_wf (cold_machine cs f rom).
Proof.
  intros Hn.
  assert (forall j e, aget (enclaves (cold_machine cs f rom)) j = Some e -> e = set_state INVALID reset_enclave_slot) as Hall.
  { intros j e. unfold aget. case_match; [done|]. intros Hl. by apply (lookup_replicate_1 16) in Hl as [-> _]. }
  assert (forall i r, aget (e_regions (set_state INVALID reset_enclave_slot)) i = Some r -> er_type r = REGION_INVALID) as Hreg.
  { intros i r. unfold aget. case_match; [done|]. intros Hl. by apply (lookup_replicate_1 8) in Hl as [-> _]. }
  assert (forall j e rid, aget (enclaves (cold_machine cs f rom)) j = Some e -> owns e rid -> False) as Hown.
  { intros j e rid Hj (i & r & Hi & Hty & _). rewrite (Hall j e Hj) in Hi. by destruct Hty; apply (Hreg i). }
  split.
  - apply sm_table_of_wf.
  - reflexivity.
  - reflexivity.
  - reflexivity.
  - simpl. rewrite length_replicate. done.
  - reflexivity.
  - exists osm_region. apply sm_table_of_valid. by right.
  - intros j e ->%Hall. split; [done..|exact Hreg].
  - intros a b ea eb rid Ha _ Hoa _. destruct (Hown a ea rid Ha Hoa).
  - exists smm_region. split; [|done]. apply sm_table_of_valid. by left.
  - intros a ea rid Ha Ho. destruct (Hown a ea rid Ha Ho).
Qed.

(** A same-table change of the PMP registers keeps the invariant. *)
Lemma sm_wf_set_pmp m s' : sm_wf m -> same_table (pmp m) s' -> sm_wf (set_pmp s' m).
Proof.
  intros [W1 W2 W3 W4 W5 W6 W7 W8 W9 W10 W11] Hst. split; simpl; try done.
  - by apply (same_table_wf (pmp m)).
  - by rewrite (st_lock _ _ Hst).
  - by rewrite (st_harts _ _ Hst).
  - destruct W7 as [r Hr]. exists r. by apply (same_table_valid (pmp m)).
  - intros eid e He. apply (enclave_ok_same_table (pmp m)); [done|]. by apply (W8 eid).
  - destruct W10 as (r & Hr & ?). exists r. split; [|done]. by apply (same_table_valid (pmp m)).
Qed.

(** What start-up makes of the registers of one hart. *)
Definition boot_csrs (c : pmp_csrs) : pmp_csrs :=
  set_csrs osm_region PMP_ALL_PERM (set_csrs smm_region PMP_NO_PERM (pmp_init_csrs c)).

Lemma keep_mask_off n cfg : (n = 0 \/ cfg = 0) -> 0 <= cfg < 128 -> Z.land cfg (cfg_keep_mask n) = 0.
Proof.
  intros [->| ->] Hc; [|done]. apply Z.bits_inj'. intros i Hi. rewrite Z.land_spec, Z.bits_0.
  destruct (decide (i < 8)); [|by rewrite (testbit_high cfg 7) by lia]. by rewrite testbit_keep_mask, Z.div_small, andb_false_r by lia.
Qed.

(** One round of [pmp_init] on registers whose first group is off, or on the first entry. *)
Lemma pmp_init_round c n : 0 <= n < 8 -> length (pmpaddr c) = 16%nat -> (n = 0 \/ pmpcfg0 c = 0) -> 0 <= pmpcfg0 c < 128 ->
  pmp_init_step (0, c) n = (0, mkCsrs 0 (pmpcfg2 c) (aset (pmpaddr c) n 0)).
Proof.
  intros Hn Hl Hc Hb. unfold pmp_init_step. assert (pmp_reg_exists n = true) as -> by (unfold pmp_reg_exists; lia).
  cbn [fst snd]. unfold PMP_SET, csr_read_pmpcfg, csr_write_pmpcfg. destruct (Z.ltb_spec n PMP_PER_GROUP) as [_|Hx]; [|unfold PMP_PER_GROUP in Hx; lia].
  by rewrite (keep_mask_off n (pmpcfg0 c) Hc Hb).
Qed.

Lemma pmp_init_rounds l c : Forall (fun n => 0 <= n < 8) l -> length (pmpaddr c) = 16%nat -> pmpcfg0 c = 0 ->
  fold_left pmp_init_step l (0, c) = (0, mkCsrs 0 (pmpcfg2 c) (fold_left (fun a n => aset a n 0) l (pmpaddr c))).
Proof.
  intros Hl. revert c. induction Hl as [|n l Hn Hl IH]; intros c Hlen Hc; cbn [fold_left].
  - destruct c; simpl in *. by subst.
  - rewrite pmp_init_round by (done || lia || by right). by rewrite IH by (done || cbn [pmpaddr]; by rewrite length_aset).
Qed.

Lemma pmp_init_spec c : csrs_reset c ->
  pmp_init_csrs c = mkCsrs 0 (pmpcfg2 c) (replicate 8 0 ++ drop 8 (pmpaddr c)).
Proof.
  intros [[[H0 _] _ Hl] Hc]. unfold pmp_init_csrs. change (fold_left pmp_init_step (indices PMP_N_REG) (0, c)) with (fold_left pmp_init_step [1; 2; 3; 4; 5; 6; 7] (pmp_init_step (0, c) 0)).
  rewrite pmp_init_round by (done || lia || by left).
  rewrite pmp_init_rounds; [|repeat constructor; lia|cbn [pmpaddr]; by rewrite length_aset|done].
  cbn [snd pmpaddr pmpcfg2]. f_equal. destruct (pmpaddr c) as [|a0 [|a1 [|a2 [|a3 [|a4 [|a5 [|a6 [|a7 l]]]]]]]]; try discriminate. done.
Qed.

Lemma smm_ok : region_ok smm_region.
Proof. apply (wf_region _ sm_table_wf 0), sm_table_valid. auto. Qed.
Lemma osm_ok : region_ok osm_region.
Proof. apply (wf_region _ sm_table_wf 1), sm_table_valid. auto. Qed.

Section BootedHart.
Context (cs : list pmp_csrs) (c : pmp_csrs) (Hc : csrs_reset c).

Lemma init_csrs_ok : csrs_ok (pmp_init_csrs c).
Proof using Hc.
  rewrite pmp_init_spec by done. destruct Hc as [[H0 H2 Hl] _]. split; [done|done|].
  cbn [pmpaddr]. rewrite length_app, length_replicate, length_drop. lia.
Qed.

Lemma init_off n : 0 <= n < 8 -> cfg_byte (pmp_init_csrs c) n = 0 /\ pmpaddr_of (pmp_init_csrs c) n = 0.
Proof using Hc.
  intros Hn. rewrite pmp_init_spec by done. split.
  - unfold cfg_byte, csr_read_pmpcfg, PMP_PER_GROUP. destruct (Z.ltb_spec n 8); [|lia]. cbn [pmpcfg0]. by rewrite Z.shiftr_0_l.
  - unfold pmpaddr_of, aget. cbn [pmpaddr]. destruct (Z.ltb_spec n 0); [lia|].
    rewrite lookup_app_l by (rewrite length_replicate; lia). by rewrite lookup_replicate_2 by lia.
Qed.

(** The entries between the first and the shared one stay off, with cleared addresses. *)
Lemma boot_unused n : 0 < n < bottom_reg -> cfg_byte (boot_csrs c) n = 0 /\ pmpaddr_of (boot_csrs c) n = 0.
Proof using All.
  intros Hn. unfold bottom_reg, PMP_N_REG in Hn. pose proof init_csrs_ok as Hi. unfold boot_csrs.
  assert (csrs_ok (set_csrs smm_region PMP_NO_PERM (pmp_init_csrs c))) as Hi1 by by apply set_csrs_ok; [apply smm_ok| |].
  rewrite !set_csrs_byte, !set_csrs_addr by (apply smm_ok || apply osm_ok || done || lia).
  assert ((n ∉ region_regs osm_region) /\ (n ∉ region_regs smm_region)) as [H1 H2].
  { change (region_regs osm_region) with [7]. change (region_regs smm_region) with [0]. rewrite !list_elem_of_singleton. lia. }
  rewrite !bool_decide_eq_false_2 by done. cbn [r_reg_idx osm_region smm_region]. unfold bottom_reg, PMP_N_REG.
  destruct (Z.eqb_spec n (8 - 1)); [lia|]. destruct (Z.eqb_spec n 0); [lia|]. apply init_off. lia.
Qed.

Lemma boot_view : hart_view (sm_table_of cs) (boot_csrs c) host_view.
Proof using All.
  pose proof init_csrs_ok as Hi. pose proof smm_ok as Hs. pose proof osm_ok as Ho.
  assert (csrs_ok (set_csrs smm_region PMP_NO_PERM (pmp_init_csrs c))) as Hi1 by by apply set_csrs_ok.
  split.
  - by apply set_csrs_ok.
  - apply host_csrs_view.
  - intros i r [[-> ->]|[-> ->]]%sm_table_of_valid Hr; [|done]. apply set_csrs_frame; try done.
    + intros n Hn Hn'. change (region_regs osm_region) with [7] in Hn. change (region_regs smm_region) with [0] in Hn'.
      apply list_elem_of_singleton in Hn, Hn'. lia.
    + by apply set_csrs_programmed.
  - intros n Hn Hown. apply boot_unused. split; [|apply Hn]. destruct (decide (n = 0)) as [->|]; [|lia].
    exfalso. apply (Hown 0 smm_region); [apply sm_table_of_valid; auto|by constructor].
Qed.

Lemma boot_allows a acc : 0 <= a < 2 ^ 56 -> is_access acc ->
  pmp_allows (boot_csrs c) a acc = negb (bool_decide (SMM_BASE <= a < SMM_BASE + SMM_SIZE)).
Proof using All.
  intros Ha Hacc. case_bool_decide as Hin; simpl.
  - rewrite (isolation_core (sm_table_of cs) (boot_csrs c) host_view 0 smm_region a acc (sm_table_of_wf cs) boot_view); try done.
    + apply sm_table_of_addressable.
    + apply sm_table_of_overlaps.
  - rewrite (shared_entry_decides (sm_table_of cs) (boot_csrs c) host_view 1 osm_region a acc PMP_ALL_PERM (sm_table_of_wf cs) boot_view); try done.
    + by destruct Hacc as [->|[->| ->]].
    + apply sm_table_of_addressable.
    + apply set_csrs_programmed; [apply osm_ok|done|]. apply set_csrs_ok; [apply smm_ok|done|apply init_csrs_ok].
    + by left.
    + intros j rj [[-> ->]|[-> ->]]%sm_table_of_valid Hlt; [|done]. intros Hr%in_region_interval; [|done].
      apply Hin. unfold region_end in Hr. simpl in Hr. lia.
Qed.
End BootedHart.

(** The part of [sm_init] that every hart runs, on the table [cs]. *)
Lemma sm_init_hart cs f rom h c : aget cs h = Some c ->
  sm_init false h rom (cold_machine cs f rom) = Ok (tt, cold_machine (aset cs h (boot_csrs c)) f rom).
Proof.
  intros Hc. pose proof (aget_Some_range _ _ _ Hc) as Hr. unfold sm_init, bind at 1, ret at 1, bind at 1, get.
  unfold bind at 1. cbn [sm_init_done cold_machine ret].
  unfold bind at 1, with_pmp at 1, zoom. cbn [pmp cold_machine].
  unfold pmp_init, update_hart, bind at 1, get, bind at 1. change (hart_pmp (sm_table_of cs)) with cs. rewrite Hc. cbn [or_ub ret].
  unfold modify at 1. change (set_hart_pmp (fun l => aset l h (pmp_init_csrs c)) (sm_table_of cs)) with (sm_table_of (aset cs h (pmp_init_csrs c))).
  set (cs1 := aset cs h (pmp_init_csrs c)).
  unfold bind at 1, get. unfold bind at 1, with_pmp at 1, zoom. cbn [pmp set_pmp sm_region_id cold_machine].
  rewrite (pmp_set_spec _ h 0 (pmp_init_csrs c) PMP_NO_PERM smm_region (sm_table_of_wf cs1));
    [|apply sm_table_of_valid; auto|by apply aget_aset_eq].
  change (set_hart_pmp (fun l => aset l h ?x) (sm_table_of cs1)) with (sm_table_of (aset cs1 h x)).
  change (Z.land PMP_NO_PERM PMP_ALL_PERM) with PMP_NO_PERM.
  set (c2 := set_csrs smm_region PMP_NO_PERM (pmp_init_csrs c)). set (cs2 := aset cs1 h c2).
  unfold bind at 1, with_pmp at 1, zoom. cbn [pmp set_pmp os_region_id cold_machine].
  rewrite (pmp_set_spec _ h 1 c2 PMP_ALL_PERM osm_region (sm_table_of_wf cs2));
    [|apply sm_table_of_valid; auto|apply aget_aset_eq; unfold cs1; by rewrite length_aset].
  change (set_hart_pmp (fun l => aset l h ?x) (sm_table_of cs2)) with (sm_table_of (aset cs2 h x)).
  unfold cs2, cs1. rewrite !aset_aset. unfold platform_init_global, bind, ret. cbn [Z.eqb negb SBI_ERR_SM_ENCLAVE_SUCCESS].
  change (Z.land PMP_ALL_PERM PMP_ALL_PERM) with PMP_ALL_PERM. fold (boot_csrs c).
  unfold set_pmp, cold_machine. cbn. by rewrite length_aset.
Qed.

(** The start-up of the whole machine: hart [h0] boots it, then the harts [hs] pass the barrier. *)
Definition boot (h0 : Z) (hs : list Z) (rom : sm_keys) : M machine unit :=
  sm_init true h0 rom ;;; for_each hs (fun h => sm_init false h rom).

Definition boot_harts (hs : list Z) (cs : list pmp_csrs) : list pmp_csrs :=
  fold_left (fun l h => match aget l h with Some c => aset l h (boot_csrs c) | None => l end) hs cs.

Lemma harts_run cs f rom hs : Forall (fun h => 0 <= h < Z.of_nat (length cs)) hs ->
  for_each hs (fun h => sm_init false h rom) (cold_machine cs f rom) = Ok (tt, cold_machine (boot_harts hs cs) f rom).
Proof.
  intros Hhs. revert cs Hhs. induction hs as [|h hs IH]; intros cs Hhs; cbn [for_each]; [done|].
  apply Forall_cons_iff in Hhs as [Hh Hhs]. destruct (aget_is_Some cs h) as [c Hc]; [lia|].
  unfold bind at 1. rewrite (sm_init_hart cs f rom h c Hc). unfold boot_harts. cbn [fold_left]. rewrite Hc. apply IH.
  by rewrite length_aset.
Qed.

Lemma boot_run cs f rom h0 hs : Forall (fun h => 0 <= h < Z.of_nat (length cs)) (h0 :: hs) ->
  boot h0 hs rom (reset_machine cs f) = Ok (tt, cold_machine (boot_harts (h0 :: hs) cs) f rom).
Proof.
  intros Hhs. unfold boot. assert (sm_init true h0 rom (reset_machine cs f) = sm_init false h0 rom (cold_machine cs f rom)) as Hcold.
  { unfold sm_init, bind at 1. by rewrite sm_cold_init_spec. }
  rewrite <- (harts_run cs f rom (h0 :: hs) Hhs). cbn [for_each]. unfold bind. by rewrite Hcold.
Qed.

Lemma boot_harts_length hs cs : length (boot_harts hs cs) = length cs.
Proof. revert cs. induction hs as [|h hs IH]; intros cs; [done|]. unfold boot_harts in *. cbn [fold_left]. rewrite IH. case_match; [apply length_aset|done]. Qed.

Lemma boot_harts_at hs cs h : NoDup hs ->
  aget (boot_harts hs cs) h = if bool_decide (h ∈ hs) then boot_csrs <$> aget cs h else aget cs h.
Proof.
  intros Hnd. revert cs. induction Hnd as [|x hs Hx Hnd IH]; intros cs; [done|]. unfold boot_harts in *. cbn [fold_left]. rewrite IH.
  destruct (decide (h = x)) as [->|Hne].
  - rewrite bool_decide_eq_false_2, bool_decide_eq_true_2 by (done || constructor).
    destruct (aget cs x) as [c|] eqn:E; [|done]. by rewrite aget_aset_eq by by eapply aget_Some_range.
  - assert (bool_decide (h ∈ x :: hs) = bool_decide (h ∈ hs)) as -> by (apply bool_decide_ext; rewrite elem_of_cons; naive_solver).
    destruct (aget cs x) as [c|] eqn:E; [|done]. by rewrite aget_aset_ne.
Qed.

(** ** The dispatcher *)

Lemma handler_refuses `{OpenSBI, Signer, Mmu} mm h l funcid regs m c e :
  aget (cpus m) h = Some c -> fid_check funcid (is_enclave c) = Some e ->
  sbi_ecall_keystone_enclave_handler mm h l funcid regs m = Ok (Returned e None, m).
Proof.
  intros Hc Hf. unfold sbi_ecall_keystone_enclave_handler.
  assert ((if (funcid <=? FID_RANGE_DEPRECATED) || (FID_RANGE_ENCLAVE <? funcid) then ret false
           else cpu_is_enclave_context h) m =
          Ok (if (funcid <=? FID_RANGE_DEPRECATED) || (FID_RANGE_ENCLAVE <? funcid) then false else is_enclave c, m)) as Hcpu.
  { unfold cpu_is_enclave_context, cpu_at, bind, get. case_match; [done|]. rewrite Hc. done. }
  unfold bind at 1. rewrite Hcpu. revert Hf. unfold fid_check, FID_RANGE_DEPRECATED, FID_RANGE_HOST, FID_RANGE_ENCLAVE.
  destruct (Z.leb_spec funcid 1999), (Z.leb_spec funcid 2999), (Z.leb_spec funcid 3999), (Z.ltb_spec 3999 funcid);
    simpl; try lia; try (by intros [= <-]); destruct (is_enclave c); simpl; intros Hf; by simplify_eq.
Qed.

(** ** Theorems *)

(** C8: the function identifier decides who may call: deprecated identifiers are always
    refused, host calls are refused while the hart runs an enclave, enclave calls are
    refused while it does not, and a refused call changes nothing. *)
Theorem ecall_privilege `{OpenSBI, Signer, Mmu} (mm : bool) h l funcid regs (m : machine) c :
  aget (cpus m) h = Some c ->
  (funcid <= FID_RANGE_DEPRECATED ->
   sbi_ecall_keystone_enclave_handler mm h l funcid regs m = Ok (Returned SBI_ERR_SM_DEPRECATED None, m)) /\
  (FID_RANGE_DEPRECATED < funcid <= FID_RANGE_HOST -> is_enclave c = true ->
   sbi_ecall_keystone_enclave_handler mm h l funcid regs m = Ok (Returned SBI_ERR_SM_ENCLAVE_SBI_PROHIBITED None, m)) /\
  (FID_RANGE_HOST < funcid <= FID_RANGE_ENCLAVE -> is_enclave c = false ->
   sbi_ecall_keystone_enclave_handler mm h l funcid regs m = Ok (Returned SBI_ERR_SM_ENCLAVE_SBI_PROHIBITED None, m)).
Proof.
  intros Hc. unfold FID_RANGE_DEPRECATED, FID_RANGE_HOST, FID_RANGE_ENCLAVE.
  repeat split; intros Hf; [|intros He..]; apply (handler_refuses mm h l funcid regs m c); try done; unfold fid_check,
    FID_RANGE_DEPRECATED, FID_RANGE_HOST, FID_RANGE_ENCLAVE; rewrite ?He;
    destruct (Z.leb_spec funcid 1999), (Z.leb_spec funcid 2999), (Z.leb_spec funcid 3999); simpl; try lia; done.
Qed.

(** A signature scheme and a translation for examples. *)
#[local] Existing Instance demo_signer.
#[local] Existing Instance demo_mmu.
Definition demo_locals : locals := mkLocals 0 0 0 (replicate 1024 0) 0.

Lemma ecall_privilege_witness :
  sbi_ecall_keystone_enclave_handler false 0 demo_locals SBI_SM_EXIT_ENCLAVE demo_regs boot_machine =
    Ok (Returned SBI_ERR_SM_ENCLAVE_SBI_PROHIBITED None, boot_machine).
Proof.
  refine (proj2 (proj2 (ecall_privilege false 0 demo_locals SBI_SM_EXIT_ENCLAVE demo_regs boot_machine
    (mkCpu false 0) eq_refl)) _ eq_refl).
  split; vm_compute; congruence.
Defined.

(** C7: start-up on up to 16 harts, booted by hart [h0] and passed by the harts [hs] in any order, succeeds
    and establishes the invariant of the monitor, whatever the PMP address registers and the second
    half of the configuration held before, when no entry but perhaps the unlocked first one was in
    use.  Every hart that passed then sees the OS region open and the monitor's region closed, its
    other entries are off with cleared addresses, and it refuses exactly the accesses of
    supervisor and user mode to the monitor's memory. *)
Theorem sm_init_establishes_isolation cs h0 hs f rom :
  (length cs <= 16)%nat -> Forall csrs_reset cs -> NoDup (h0 :: hs) ->
  Forall (fun h => 0 <= h < Z.of_nat (length cs)) (h0 :: hs) ->
  exists m', boot h0 hs rom (reset_machine cs f) = Ok (tt, m') /\ sm_wf m' /\ keys m' = rom /\ mem m' = f /\
    forall h, h ∈ h0 :: hs -> exists c, aget (hart_pmp (pmp m')) h = Some c /\ hart_view (pmp m') c host_view /\
      (forall n, 0 < n < bottom_reg -> cfg_byte c n = 0 /\ pmpaddr_of c n = 0) /\
      (forall a acc, 0 <= a < 2 ^ 56 -> is_access acc ->
         pmp_allows c a acc = negb (bool_decide (SMM_BASE <= a < SMM_BASE + SMM_SIZE))).
Proof.
  intros Hn Hcs Hnd Hhs. eexists. split; [by apply boot_run|]. split; [apply cold_wf; by rewrite boot_harts_length|].
  split; [done|]. split; [done|]. intros h Hh. pose proof (proj1 (List.Forall_forall _ _) Hhs h (proj1 (list_elem_of_In _ _) Hh)) as Hr. cbn beta in Hr.
  destruct (aget_is_Some cs h) as [c Hc]; [done|].
  assert (csrs_reset c) as Hreset.
  { unfold aget in Hc. destruct (Z.ltb_spec h 0); [lia|]. by apply (Forall_lookup_1 _ _ _ _ Hcs Hc). }
  exists (boot_csrs c). change (hart_pmp (pmp _)) with (boot_harts (h0 :: hs) cs). split; [|split_and!].
  - rewrite boot_harts_at by done. by rewrite bool_decide_eq_true_2, Hc.
  - by apply boot_view.
  - intros n. by apply boot_unused.
  - intros a acc. by apply (boot_allows cs).
Qed.

(** Four harts with left-over addresses, and a first entry that opened everything. *)
Definition demo_reset_csrs : pmp_csrs := mkCsrs 0x1f 0 (replicate 16 0x20000000).

Lemma sm_init_establishes_isolation_witness :
  exists m', boot 1 [3; 0; 2] (keys boot_machine) (reset_machine (replicate 4 demo_reset_csrs) (fun _ => 0)) = Ok (tt, m') /\
    sm_wf m' /\ exists c, aget (hart_pmp (pmp m')) 3 = Some c /\ pmp_allows c (SMM_BASE + 8) PMP_W = false.
Proof.
  destruct (sm_init_establishes_isolation (replicate 4 demo_reset_csrs) 1 [3; 0; 2] (fun _ => 0) (keys boot_machine))
    as (m' & H1 & H2 & _ & _ & Hall).
  - vm_compute. lia.
  - repeat constructor; vm_compute; congruence.
  - apply (bool_decide_unpack _). vm_compute. exact I.
  - repeat constructor; vm_compute; congruence.
  - destruct (Hall 3) as (c & Hc & _ & _ & Ha); [right; left|].
    exists m'. split; [exact H1|]. split; [exact H2|]. exists c. split; [exact Hc|].
    rewrite Ha; [reflexivity|unfold SMM_BASE; lia|right; left; reflexivity].
Defined.

(** C10: what an attestation answers, on every path.  It always returns, holds no lock afterwards and changes
    at most memory; more than 1024 bytes of data are refused, then enclaves that do not exist or are
    not FRESH, STOPPED or RUNNING, then data the caller cannot read, each leaving the machine as it
    was; and it succeeds exactly when the report could be stored, which then holds the measurement of the
    enclave, the data and its length under a signature of just these with the monitor's key, beside
    the monitor's own measurement, key and certificate and the device key. *)
Theorem attest_enclave_correct `{Signer, Mmu} (m : machine) h stack rep buf report_ptr data size eid :
  sm_wf m -> 0 <= eid -> 0 <= size -> is_u64 data -> is_u64 report_ptr ->
  exists r m', attest_enclave h stack rep buf report_ptr data size eid m = Ok (r, m') /\ mem_only m m' /\
    (ATTEST_DATA_MAXLEN < size -> r = SBI_ERR_SM_ENCLAVE_ILLEGAL_ARGUMENT /\ m' = m) /\
    (size <= ATTEST_DATA_MAXLEN ->
     (forall e, aget (enclaves m) eid = Some e -> is_live (e_state e) = false) ->
       r = SBI_ERR_SM_ENCLAVE_NOT_INITIALIZED /\ m' = m) /\
    (forall e, size <= ATTEST_DATA_MAXLEN -> aget (enclaves m) eid = Some e -> is_live (e_state e) = true ->
       match load_bytes (mprv_ld h) (set_encl_lock true m) data (Z.to_nat size) with
       | None => r = SBI_ERR_SM_ENCLAVE_NOT_ACCESSIBLE /\ m' = m
       | Some l =>
           match store_bytes (mprv_st h) (set_encl_lock true m) report_ptr
                   (report_bytes (attest_report (keys m) e stack size l)) with
           | None => r = SBI_ERR_SM_ENCLAVE_ILLEGAL_ARGUMENT
           | Some m1 => r = SBI_ERR_SM_ENCLAVE_SUCCESS /\ m' = set_encl_lock false m1
           end
       end).
Proof.
  intros Hwf Heid Hsize Hd Hr. apply (wp_inv (attest_enclave h stack rep buf report_ptr data size eid)).
  apply wp_attest; try done. intros r m' Hres. split; [by eapply attest_mem_only|]. unfold attest_result in Hres.
  destruct (Z.ltb_spec ATTEST_DATA_MAXLEN size); [by split_and!; intros; try lia|]. split; [lia|]. split.
  - intros _ Hno. destruct (aget (enclaves m) eid) as [e|] eqn:He; [|done]. by rewrite (Hno e) in Hres.
  - intros e _ He Hl. rewrite He, Hl in Hres. destruct (load_bytes _ _ _ _) as [l|]; [|done].
    destruct (store_bytes _ _ _ _) as [m1|]; [done|]. by destruct Hres.
Qed.

Lemma demo_stores h m dst l : exists m', store_bytes (mprv_st h) m dst l = Some m'.
Proof. revert m dst. induction l as [|b l IH]; intros m dst; simpl; [by exists m|]. apply IH. Qed.

Lemma demo_loads h m src n : exists l, load_bytes (mprv_ld h) m src n = Some l.
Proof.
  revert src. induction n as [|n IH]; intros src; simpl; [by exists []|].
  destruct (IH (u64 (src + 1))) as [l ->]. by eexists.
Qed.

(** The new enclave gets a report on 16 bytes. *)
Lemma attest_enclave_correct_witness :
  exists m', attest_enclave 0 (replicate 1024 0) 0 0 0x90001000 0x90000000 16 0 demo_live_machine
    = Ok (SBI_ERR_SM_ENCLAVE_SUCCESS, m').
Proof.
  destruct demo_live_facts as (Hwf & _ & _ & _ & e & He & Hst).
  destruct (attest_enclave_correct demo_live_machine 0 (replicate 1024 0) 0 0 0x90001000 0x90000000 16 0 Hwf)
    as (r & m' & Heq & _ & _ & _ & Hok); [lia|lia|unfold is_u64; lia|unfold is_u64; lia|].
  specialize (Hok e ltac:(unfold ATTEST_DATA_MAXLEN; lia) He ltac:(rewrite Hst; reflexivity)).
  destruct (demo_loads 0 (set_encl_lock true demo_live_machine) 0x90000000 (Z.to_nat 16)) as [l Hload]. rewrite Hload in Hok.
  destruct (demo_stores 0 (set_encl_lock true demo_live_machine) 0x90001000
    (report_bytes (attest_report (keys demo_live_machine) e (replicate 1024 0) 16 l))) as [m1 Hstore]. rewrite Hstore in Hok.
  destruct Hok as [-> _]. exists m'. exact Heq.
Defined.
