(* ===== verification/EdgeCall.v ===== *)
(** * Edge calls ([sdk/src/edge/edge_call.c], [edge_dispatch.c], [edge_syscall.c])

    The enclave and its host exchange calls through a shared buffer.  Each side
    stores offsets into the buffer, never pointers, and turns the offsets it
    receives back into pointers with the checks below; the two sides map the buffer
    at addresses of their own.  The library is built with [IO_SYSCALL_WRAPPING]:
    the identifier after the last one of the table stands for a system call that
    the host makes for the enclave. *)

From S2P Require Import Prelude Mem.
From Stdlib Require Import ZArith Lia.
From stdpp Require Import base tactics sets list list_numbers numbers.
Local Open Scope Z_scope.
Local Open Scope keystone_scope.

Definition UINTPTR_MAX : Z := 2 ^ 64 - 1.

(** ** edge_common.h *)

Definition MAX_EDGE_CALL : Z := 10.

Definition CALL_STATUS_OK : Z := 0.
Definition CALL_STATUS_BAD_CALL_ID : Z := 1.
Definition CALL_STATUS_BAD_OFFSET : Z := 2.
Definition CALL_STATUS_BAD_PTR : Z := 3.
Definition CALL_STATUS_ERROR : Z := 4.
Definition CALL_STATUS_SYSCALL_FAILED : Z := 5.

(** [struct edge_data]: the offsets of its fields and its size. *)
Module edge_data.
Definition offset : Z := 0.
Definition size : Z := 8.
Definition sizeof : Z := 16.
End edge_data.

(** [struct edge_call], with [struct edge_return] nested at offset 24. *)
Module edge_call.
Definition call_id : Z := 0.
Definition call_arg_offset : Z := 8.
Definition call_arg_size : Z := 16.
Definition call_status : Z := 24.
Definition call_ret_offset : Z := 32.
Definition call_ret_size : Z := 40.
Definition sizeof : Z := 48.
End edge_call.

(** The globals of the library and the address space it runs in. *)
Record edge_state : Type := mkEdge {
  _shared_start : Z;
  _shared_len : Z;
  edge_call_table : list Z;
  emem : Z -> Z
}.

Definition set_emem (f : Z -> Z) (s : edge_state) : edge_state :=
  mkEdge (_shared_start s) (_shared_len s) (edge_call_table s) f.
Definition set_table (t : list Z) (s : edge_state) : edge_state :=
  mkEdge (_shared_start s) (_shared_len s) t (emem s).

(** [p->field] and [p->field = v]. *)
Definition load (a : Z) : M edge_state Z := gets (fun s => load64 (emem s) a).
Definition store (a v : Z) : M edge_state unit := modify (fun s => set_emem (store64 (emem s) a v) s).

(** [memcpy(dst, src, n)]; overlapping objects are undefined. *)
Definition memcpy (dst src n : Z) : M edge_state unit :=
  if ranges_disjoint dst n src n || (n =? 0)
  then modify (fun s => set_emem (write_bytes (emem s) dst (read_bytes (emem s) src (Z.to_nat n))) s)
  else ub.

(** ** edge_call.c *)

Definition edge_call_init_internals (buffer_start buffer_len : Z) : M edge_state unit :=
  modify (fun s => mkEdge buffer_start buffer_len (edge_call_table s) (emem s)).

(** The functions with an out parameter return it as an option: [None] when it is
    not written. *)
Definition edge_call_get_ptr_from_offset (offset data_len : Z) (s : edge_state) : Z * option Z :=
  if (UINTPTR_MAX -w _shared_start s <? offset) || (_shared_len s <=? offset) then (-1, None)
  else if (UINTPTR_MAX -w (_shared_start s +w offset) <? data_len) || (_shared_len s -w offset <? data_len)
  then (-1, None)
  else (0, Some (_shared_start s +w offset)).

Definition edge_call_check_ptr_valid (ptr data_len : Z) (s : edge_state) : Z :=
  if (_shared_start s +w _shared_len s <? ptr) || (ptr <? _shared_start s) then 1
  else if UINTPTR_MAX -w ptr <? data_len then 2
  else if _shared_start s +w _shared_len s <? (ptr +w data_len) then 3
  else 0.

Definition edge_call_get_offset_from_ptr (ptr data_len : Z) (s : edge_state) : Z * option Z :=
  let valid := edge_call_check_ptr_valid ptr data_len s in
  if negb (valid =? 0) then (valid, None) else (0, Some (ptr -w _shared_start s)).

(** The result, the pointer and the size. *)
Definition edge_call_args_ptr (e : Z) : M edge_state (Z * option Z * Z) :=
  let! size := load (e + edge_call.call_arg_size) in
  let! off := load (e + edge_call.call_arg_offset) in
  let! s := get in
  ret (edge_call_get_ptr_from_offset off size s, size).

Definition edge_call_ret_ptr (e : Z) : M edge_state (Z * option Z * Z) :=
  let! size := load (e + edge_call.call_ret_size) in
  let! off := load (e + edge_call.call_ret_offset) in
  let! s := get in
  ret (edge_call_get_ptr_from_offset off size s, size).

(** [return edge_call_get_offset_from_ptr(ptr, size, field)]. *)
Definition store_offset (field ptr size : Z) : M edge_state Z :=
  let! s := get in
  match edge_call_get_offset_from_ptr ptr size s with
  | (r, Some off) => store field off ;;; ret r
  | (r, None) => ret r
  end.

Definition edge_call_setup_call (e ptr size : Z) : M edge_state Z :=
  store (e + edge_call.call_arg_size) size ;;;
  store_offset (e + edge_call.call_arg_offset) ptr size.

Definition edge_call_setup_ret (e ptr size : Z) : M edge_state Z :=
  store (e + edge_call.call_ret_size) size ;;;
  store_offset (e + edge_call.call_ret_offset) ptr size.

(** The local [data_wrapper] lives on the stack; [junk] is the value its [offset]
    field has when the (unchecked) first call does not write it. *)
Definition edge_call_setup_wrapped_ret (junk e ptr size : Z) : M edge_state Z :=
  let! s := get in
  let data_start := _shared_start s + edge_call.sizeof in
  let off :=
    match (edge_call_get_offset_from_ptr (data_start +w edge_data.sizeof) edge_data.sizeof s).2 with
    | Some off => off
    | None => junk
    end in
  memcpy (data_start +w edge_data.sizeof) ptr size ;;;
  (** the two words of [data_wrapper] *)
  modify (fun s => set_emem (write_bytes (emem s) (u64 data_start) (le64 off ++ le64 size)) s) ;;;
  store (e + edge_call.call_ret_size) edge_data.sizeof ;;;
  store_offset (e + edge_call.call_ret_offset) (u64 data_start) edge_data.sizeof.

Definition edge_call_data_ptr (s : edge_state) : Z := _shared_start s +w edge_call.sizeof.

(** ** edge_dispatch.c *)

(** [EDGECALL_SYSCALL], and the numbers [incoming_syscall] has a case for, in the order of the cases
    ([syscall_nums.h]). *)
Definition EDGECALL_SYSCALL : Z := MAX_EDGE_CALL + 1.
Definition handled_syscalls : list Z :=
  [56 (* openat *); 35 (* unlinkat *); 46 (* ftruncate *); 79 (* fstatat *); 80 (* fstat *); 17 (* getcwd *);
   64 (* write *); 63 (* read *); 81 (* sync *); 82 (* fsync *); 57 (* close *); 62 (* lseek *); 59 (* pipe2 *);
   20 (* epoll_create1 *); 49 (* chdir *); 21 (* epoll_ctl *); 22 (* epoll_pwait *); 205 (* getpeername *);
   204 (* getsockname *); 276 (* renameat2 *); 166 (* umask *); 198 (* socket *); 208 (* setsockopt *);
   203 (* connect *); 200 (* bind *); 201 (* listen *); 202 (* accept *); 207 (* recvfrom *); 206 (* sendto *);
   71 (* sendfile *); 25 (* fcntl *); 174 (* getuid *); 72 (* pselect6 *)].

(** [struct edge_syscall]: the number, then the arguments. *)
Module edge_syscall.
Definition syscall_num : Z := 0.
Definition data : Z := 8.
End edge_syscall.

Section Dispatch.
(** Calling the registered wrapper at a code address with the buffer. *)
Context (call_wrapper : Z -> Z -> M edge_state unit).
(** The system call of the host with a number and the address of its argument structure; the result is
    the 64-bit word it returns, a number or (for [getcwd]) a pointer. *)
Context (host_call : Z -> Z -> M edge_state Z).

Definition incoming_syscall (e : Z) : M edge_state unit :=
  let syscall_error := store (e + edge_call.call_status) CALL_STATUS_SYSCALL_FAILED in
  let! '(r, syscall_info, args_size) := edge_call_args_ptr e in
  match syscall_info with
  | None => syscall_error
  | Some syscall_info =>
      store (e + edge_call.call_status) CALL_STATUS_OK ;;;
      let! syscall_num := load (syscall_info + edge_syscall.syscall_num) in
      if bool_decide (syscall_num ∈ handled_syscalls) then
        let! v := host_call syscall_num (syscall_info + edge_syscall.data) in
        let! s := get in
        let ret_data_ptr := edge_call_data_ptr s in
        store ret_data_ptr v ;;;
        let! r := edge_call_setup_ret e ret_data_ptr 8 in
        if r =? 0 then ret tt else syscall_error
      else syscall_error
  end.

Definition incoming_call_dispatch (buffer : Z) : M edge_state unit :=
  let! call_id := load (buffer + edge_call.call_id) in
  let fatal_error := store (buffer + edge_call.call_status) CALL_STATUS_BAD_CALL_ID in
  if call_id =? EDGECALL_SYSCALL then incoming_syscall buffer
  else if MAX_EDGE_CALL <? call_id then fatal_error
  else
    let! s := get in
    let! func := or_ub (aget (edge_call_table s) call_id) in
    if func =? 0 then fatal_error else call_wrapper func buffer.
End Dispatch.

Definition register_call (call_id func : Z) : M edge_state Z :=
  if MAX_EDGE_CALL <? call_id then ret (-1)
  else
    let! s := get in
    let! _ := or_ub (aget (edge_call_table s) call_id) in
    modify (set_table (aset (edge_call_table s) call_id func)) ;;;
    ret 0.

(** ** Properties *)

(** A shared buffer that does not reach the end of the address space, and a table
    of the declared length. *)
Record buffer_ok (s : edge_state) : Prop := {
  bo_start : 0 <= _shared_start s;
  bo_len : 0 <= _shared_len s;
  bo_end : _shared_start s + _shared_len s < 2 ^ 64;
  bo_table : length (edge_call_table s) = Z.to_nat MAX_EDGE_CALL;
  bo_mem : mem_bytes (emem s)
}.

(** The [n] bytes from [ptr] lie in the shared buffer. *)
Definition in_shared (s : edge_state) (ptr n : Z) : Prop :=
  _shared_start s <= ptr /\ ptr + n <= _shared_start s + _shared_len s.

Lemma buffer_ok_set_emem s f : buffer_ok s -> mem_bytes f -> buffer_ok (set_emem f s).
Proof. intros [] ?. by split. Qed.

Ltac edge_words :=
  repeat match goal with
  | |- context [u64 ?x] => rewrite (u64_id x) by (unfold is_u64; lia)
  | H : context [u64 ?x] |- _ => rewrite (u64_id x) in H by (unfold is_u64; lia)
  end.

Lemma get_ptr_from_offset_spec s off n : buffer_ok s -> is_u64 off -> is_u64 n ->
  edge_call_get_ptr_from_offset off n s =
    if decide (off < _shared_len s /\ off + n <= _shared_len s) then (0, Some (_shared_start s + off)) else (-1, None).
Proof.
  intros [] Ho Hn. unfold is_u64 in *. unfold edge_call_get_ptr_from_offset, UINTPTR_MAX. edge_words.
  destruct (Z.ltb_spec (2 ^ 64 - 1 - _shared_start s) off); simpl; [case_decide; [lia|done]|].
  destruct (Z.leb_spec (_shared_len s) off); simpl; [case_decide; [lia|done]|]. edge_words.
  destruct (Z.ltb_spec (2 ^ 64 - 1 - (_shared_start s + off)) n); simpl; [case_decide; [lia|done]|].
  destruct (Z.ltb_spec (_shared_len s - off) n); simpl; [case_decide; [lia|done]|].
  case_decide; [done|lia].
Qed.

Lemma check_ptr_valid_spec s ptr n : buffer_ok s -> is_u64 ptr -> is_u64 n ->
  edge_call_check_ptr_valid ptr n s = 0 <-> in_shared s ptr n.
Proof.
  intros [] Hp Hn. unfold is_u64 in *. unfold edge_call_check_ptr_valid, in_shared, UINTPTR_MAX. edge_words.
  repeat (case_match; bool_cases); edge_words; bool_cases; try lia.
  all: try (apply orb_true_iff in H as [?|?]; bool_cases; lia).
Qed.

Lemma get_offset_from_ptr_in s ptr n : buffer_ok s -> is_u64 ptr -> is_u64 n -> in_shared s ptr n ->
  edge_call_get_offset_from_ptr ptr n s = (0, Some (ptr - _shared_start s)).
Proof.
  intros Hs Hp Hn Hin. unfold edge_call_get_offset_from_ptr.
  rewrite (proj2 (check_ptr_valid_spec s ptr n Hs Hp Hn) Hin). simpl.
  destruct Hs, Hin. unfold is_u64 in *. by edge_words.
Qed.

Lemma get_offset_from_ptr_out s ptr n : buffer_ok s -> is_u64 ptr -> is_u64 n -> ~ in_shared s ptr n ->
  exists r, edge_call_get_offset_from_ptr ptr n s = (r, None) /\ r <> 0.
Proof.
  intros Hs Hp Hn Hout. unfold edge_call_get_offset_from_ptr.
  destruct (Z.eqb_spec (edge_call_check_ptr_valid ptr n s) 0) as [E|E]; simpl; [|eauto].
  by apply check_ptr_valid_spec in E.
Qed.

(** Field reads after field writes of one [struct edge_call]. *)
Ltac edge_fields :=
  repeat first
    [ rewrite load64_store64_same
    | rewrite load64_store64_disjoint by (apply ranges_disjoint_offsets; unfold is_u64; cbv; intuition congruence) ].

Section SetupRoundTrip.
Context (s : edge_state) (e ptr size : Z).
Context (Hs : buffer_ok s) (Hptr : is_u64 ptr) (Hsize : is_u64 size).

(** The state after a successful set-up of the fields at [fs] (size) and [fo]
    (offset). *)
Definition with_slot (fs fo : Z) : edge_state :=
  set_emem (store64 (store64 (emem s) (e + fs) size) (e + fo) (ptr - _shared_start s)) s.

Lemma setup_slot fs fo : in_shared s ptr size ->
  (store (e + fs) size ;;; store_offset (e + fo) ptr size) s = Ok (0, with_slot fs fo).
Proof.
  intros Hin. unfold bind, store, modify, store_offset, get. cbn beta iota.
  assert (buffer_ok (set_emem (store64 (emem s) (e + fs) size) s)) as Hs'
    by (apply buffer_ok_set_emem; [done|apply store64_mem_bytes, Hs]).
  unfold bind. by rewrite get_offset_from_ptr_in.
Qed.

Lemma setup_slot_bad fs fo : ~ in_shared s ptr size ->
  exists r, r <> 0 /\ (store (e + fs) size ;;; store_offset (e + fo) ptr size) s =
    Ok (r, set_emem (store64 (emem s) (e + fs) size) s).
Proof.
  intros Hout. unfold bind, store, modify, store_offset, get. cbn beta iota.
  assert (buffer_ok (set_emem (store64 (emem s) (e + fs) size) s)) as Hs'
    by (apply buffer_ok_set_emem; [done|apply store64_mem_bytes, Hs]).
  destruct (get_offset_from_ptr_out _ ptr size Hs' Hptr Hsize Hout) as (r & Hr & ?).
  exists r. split; [done|]. unfold bind. by rewrite Hr.
Qed.
End SetupRoundTrip.

(** [edge_call_get_ptr_from_offset] accepts an offset and a length exactly
    when the data starts inside the shared buffer and ends inside it, and then
    yields the address at that offset; no 64-bit sum wraps around. *)
Theorem edge_call_get_ptr_from_offset_correct s off n :
  buffer_ok s -> is_u64 off -> is_u64 n ->
  (forall ptr, edge_call_get_ptr_from_offset off n s = (0, Some ptr) <->
    off < _shared_len s /\ in_shared s ptr n /\ ptr = _shared_start s + off) /\
  (~ (off < _shared_len s /\ off + n <= _shared_len s) ->
    edge_call_get_ptr_from_offset off n s = (-1, None)).
Proof.
  intros Hs Ho Hn. rewrite get_ptr_from_offset_spec by done. unfold in_shared, is_u64 in *.
  destruct Hs. split; [intros ptr; split|intros]; case_decide; intros; simplify_eq; try done; try lia.
  destruct H0 as (? & ? & ->). done.
Qed.

(** The two sides of the buffer: they map it at different addresses and see the same bytes in it. *)
Record shares (sa sb : edge_state) : Prop := {
  sh_len : _shared_len sb = _shared_len sa;
  sh_bytes : forall k, 0 <= k < _shared_len sa -> emem sb (_shared_start sb + k) = emem sa (_shared_start sa + k)
}.

(** The address at which the other side has what is at [a] here. *)
Definition across (sa sb : edge_state) (a : Z) : Z := _shared_start sb + (a - _shared_start sa).

Lemma shares_read sa sb a n : buffer_ok sa -> buffer_ok sb -> shares sa sb -> in_shared sa a (Z.of_nat n) ->
  read_bytes (emem sb) (across sa sb a) n = read_bytes (emem sa) a n.
Proof.
  intros [A1 A2 A3 _ _] [B1 B2 B3 _ _] [Hl Hb] [H1 H2]. unfold read_bytes. apply map_ext_in. intros i Hi%in_seq.
  unfold across. rewrite !u64_id by (unfold is_u64; lia).
  replace (_shared_start sb + (a - _shared_start sa) + Z.of_nat i) with (_shared_start sb + (a - _shared_start sa + Z.of_nat i)) by lia.
  rewrite Hb by lia. f_equal. lia.
Qed.

Lemma shares_load sa sb a : buffer_ok sa -> buffer_ok sb -> shares sa sb -> in_shared sa a 8 ->
  load64 (emem sb) (across sa sb a) = load64 (emem sa) a.
Proof. intros Ha Hb Hs Hin. unfold load64. by rewrite (shares_read sa sb a 8). Qed.

(** A call set up by one side is read by the other, whose mapping of the buffer starts elsewhere.  For a call
    structure in the buffer [edge_call_setup_call] returns; it succeeds exactly when the argument
    data lies in the buffer, and otherwise stores no offset; the call id and the return fields keep
    their values.  After a success, [edge_call_args_ptr] of the other side, on its own view of the
    same bytes, yields the same size and the address at which that side maps the same data,
    whose bytes are those the sender had, except that empty data at the very end of the
    buffer is refused. *)
Theorem edge_call_args_roundtrip s e ptr size :
  buffer_ok s -> in_shared s e edge_call.sizeof -> is_u64 ptr -> is_u64 size ->
  exists r s', edge_call_setup_call e ptr size s = Ok (r, s') /\
    (r = 0 <-> in_shared s ptr size) /\
    (r <> 0 -> load64 (emem s') (e + edge_call.call_arg_offset) = load64 (emem s) (e + edge_call.call_arg_offset)) /\
    (forall k, k ∈ [edge_call.call_id; edge_call.call_status; edge_call.call_ret_offset; edge_call.call_ret_size] ->
      load64 (emem s') (e + k) = load64 (emem s) (e + k)) /\
    forall other, buffer_ok other -> shares s' other -> r = 0 ->
      edge_call_args_ptr (across s other e) other =
        Ok (if decide (ptr < _shared_start s + _shared_len s) then (0, Some (across s other ptr), size) else (-1, None, size), other) /\
      read_bytes (emem other) (across s other ptr) (Z.to_nat size) = read_bytes (emem s') ptr (Z.to_nat size).
Proof.
  intros Hs He Hp Hn. unfold edge_call_setup_call.
  destruct (decide (_shared_start s <= ptr /\ ptr + size <= _shared_start s + _shared_len s)) as [Hin|Hout].
  - eexists _, _. split; [by apply setup_slot|]. split; [done|]. split; [done|]. split.
    + intros k Hk. unfold with_slot. cbn [emem set_emem]. set_unfold in Hk.
      destruct_or? Hk; try done; subst k; by edge_fields.
    + intros other Hother Hsh _.
      assert (buffer_ok (with_slot s e ptr size edge_call.call_arg_size edge_call.call_arg_offset)) as Hs'
        by (apply buffer_ok_set_emem; [done|apply store64_mem_bytes, store64_mem_bytes, Hs]).
      set (s' := with_slot _ _ _ _ _ _) in *.
      assert (forall k, 0 <= k -> k + 8 <= edge_call.sizeof -> load64 (emem other) (across s other e + k) = load64 (emem s') (e + k)) as Hload.
      { intros k Hk Hk2. replace (across s other e + k) with (across s' other (e + k)) by (unfold across; change (_shared_start s') with (_shared_start s); lia).
        apply shares_load; try done. destruct He. unfold in_shared. change (_shared_start s') with (_shared_start s).
        change (_shared_len s') with (_shared_len s). lia. }
      pose proof Hs as [A1 A2 A3 _ _]. destruct Hin as [I1 I2]. unfold is_u64 in *. split.
      * unfold edge_call_args_ptr, load, gets, get, bind.
        rewrite !Hload by (cbv; congruence). unfold s', with_slot. cbn [emem set_emem]. edge_fields. edge_words. unfold ret. do 2 f_equal.
        rewrite get_ptr_from_offset_spec by (done || (unfold is_u64; lia)).
        destruct Hsh as [Hl _]. rewrite Hl. change (_shared_len s') with (_shared_len s). unfold across.
        do 2 case_decide; try done; lia.
      * change (across s other ptr) with (across s' other ptr). apply shares_read; try done.
        unfold in_shared. change (_shared_start s') with (_shared_start s). change (_shared_len s') with (_shared_len s). lia.
  - destruct (setup_slot_bad s e ptr size Hs Hp Hn edge_call.call_arg_size edge_call.call_arg_offset Hout)
      as (r & Hr & E).
    eexists _, _. split; [exact E|]. split; [done|]. cbn [emem set_emem].
    split; [intros _; by edge_fields|]. split; [|by intros]. intros k Hk. set_unfold in Hk.
    destruct_or? Hk; try done; subst k; by edge_fields.
Qed.

(** The two words of a [struct edge_data] just written at [a]. *)
Lemma read_edge_data f a x y :
  load64 (write_bytes f a (le64 x ++ le64 y)) (a + edge_data.offset) = u64 x /\
  load64 (write_bytes f a (le64 x ++ le64 y)) (a + edge_data.size) = u64 y.
Proof.
  unfold load64. split.
  - change edge_data.offset with (Z.of_nat 0). rewrite read_write_sub by (rewrite length_app, !length_le64; lia).
    rewrite drop_0, take_app_length' by done. apply le_value_le64.
  - change edge_data.size with (Z.of_nat 8). rewrite read_write_sub by (rewrite length_app, !length_le64; lia).
    rewrite drop_app_length' by done. rewrite firstn_all2 by (rewrite length_le64; lia). apply le_value_le64.
Qed.

(** The memory after [edge_call_setup_wrapped_ret] on the call at the start of the
    buffer: data, wrapper, and the two return fields. *)
Definition wrapped_mem (s : edge_state) (ptr size : Z) : Z -> Z :=
  let b := _shared_start s in
  store64
    (store64
       (write_bytes (write_bytes (emem s) (b + 64) (read_bytes (emem s) ptr (Z.to_nat size)))
          (b + edge_call.sizeof) (le64 64 ++ le64 size))
       (b + edge_call.call_ret_size) edge_data.sizeof)
    (b + edge_call.call_ret_offset) edge_call.sizeof.

Lemma setup_wrapped_ret_run junk s ptr size :
  buffer_ok s -> 80 <= _shared_len s -> is_u64 size ->
  ranges_disjoint (_shared_start s + 64) size ptr size = true \/ size = 0 ->
  edge_call_setup_wrapped_ret junk (_shared_start s) ptr size s = Ok (0, set_emem (wrapped_mem s ptr size) s).
Proof.
  intros Hs Hlen Hsize Hdisj. unfold edge_call_setup_wrapped_ret, bind at 1, get.
  pose proof Hs as [B1 B2 B3 _ B5]. unfold is_u64 in *.
  change (_shared_start s + edge_call.sizeof + edge_data.sizeof) with (_shared_start s + 48 + 16).
  replace (_shared_start s + 48 + 16) with (_shared_start s + 64) by lia.
  change edge_call.sizeof with 48. change edge_data.sizeof with 16. edge_words.
  rewrite get_offset_from_ptr_in by (done || (unfold is_u64, in_shared; lia)). cbn [snd].
  unfold bind at 1, memcpy. replace (_ || _) with true by (destruct Hdisj as [-> | ->]; [done|by rewrite orb_true_r]).
  unfold modify at 1. cbn beta iota. unfold bind at 1, modify at 1. cbn beta iota. cbn [emem set_emem].
  rewrite setup_slot.
  - unfold with_slot, wrapped_mem. cbn [emem set_emem _shared_start]. f_equal. f_equal.
    replace (_shared_start s + 48 - _shared_start s) with 48 by lia.
    replace (_shared_start s + 64 - _shared_start s) with 64 by lia. done.
  - repeat apply buffer_ok_set_emem; auto with keystone.
    repeat apply write_bytes_mem_bytes; auto with keystone. apply Forall_app; split; apply le64_u8.
  - unfold is_u64; lia.
  - by compute.
  - unfold in_shared. cbn [_shared_start _shared_len set_emem]. lia.
Qed.

(** [edge_call_setup_wrapped_ret] on the call at the start of the buffer
    leaves a return descriptor that the other side can follow: the return slot
    points to a wrapper with offset 64 and the given size, the bytes of the object
    stand at that offset and the call id is kept.  The size is never compared with
    the buffer: the bytes are written, and 0 returned, also when they do not fit,
    and only the reader's check of the offset notices. *)
Theorem edge_call_setup_wrapped_ret_correct junk s ptr size :
  buffer_ok s -> 80 <= _shared_len s -> is_u64 size -> _shared_start s + 64 + size <= 2 ^ 64 ->
  ranges_disjoint (_shared_start s + 64) size ptr size = true \/ size = 0 ->
  exists s', edge_call_setup_wrapped_ret junk (_shared_start s) ptr size s = Ok (0, s') /\
    edge_call_ret_ptr (_shared_start s) s' = Ok (0, Some (_shared_start s + 48), 16, s') /\
    load64 (emem s') (_shared_start s + 48 + edge_data.offset) = 64 /\
    load64 (emem s') (_shared_start s + 48 + edge_data.size) = size /\
    edge_call_get_ptr_from_offset 64 size s' =
      (if decide (64 + size <= _shared_len s) then (0, Some (_shared_start s + 64)) else (-1, None)) /\
    read_bytes (emem s') (_shared_start s + 64) (Z.to_nat size) = read_bytes (emem s) ptr (Z.to_nat size) /\
    load64 (emem s') (_shared_start s + edge_call.call_id) = load64 (emem s) (_shared_start s + edge_call.call_id).
Proof.
  intros Hs Hlen Hsize Hend Hdisj. eexists. split; [by apply setup_wrapped_ret_run|].
  pose proof Hs as [B1 B2 B3 B4 B5].
  assert (buffer_ok (set_emem (wrapped_mem s ptr size) s)) as Hs'.
  { apply buffer_ok_set_emem; [done|]. unfold wrapped_mem. do 2 apply store64_mem_bytes.
    repeat apply write_bytes_mem_bytes; auto with keystone. apply Forall_app; split; apply le64_u8. }
  assert (forall i li j lj, is_u64 i -> is_u64 j -> 0 <= li -> 0 <= lj -> i + li <= 2 ^ 64 -> j + lj <= 2 ^ 64 ->
    i + li <= j \/ j + lj <= i -> i <> j -> ranges_disjoint (_shared_start s + i) li (_shared_start s + j) lj = true)
    as Hd by (intros; by apply ranges_disjoint_offsets).
  destruct (read_edge_data (write_bytes (emem s) (_shared_start s + 64) (read_bytes (emem s) ptr (Z.to_nat size)))
    (_shared_start s + edge_call.sizeof) 64 size) as [W1 W2].
  unfold is_u64 in *. split_and!.
  - unfold edge_call_ret_ptr, load, gets, get, bind, ret. cbn [emem set_emem]. unfold wrapped_mem. edge_fields.
    do 2 f_equal. rewrite get_ptr_from_offset_spec by (done || by compute). cbn [_shared_len _shared_start set_emem].
    rewrite !u64_id by (by compute). rewrite decide_True by (cbv [edge_call.sizeof edge_data.sizeof]; lia). done.
  - cbn [emem set_emem]. unfold wrapped_mem.
    rewrite !load64_store64_disjoint by (rewrite <- Z.add_assoc; apply Hd; cbv; intuition congruence). exact W1.
  - cbn [emem set_emem]. unfold wrapped_mem.
    rewrite !load64_store64_disjoint by (rewrite <- Z.add_assoc; apply Hd; cbv; intuition congruence).
    transitivity (u64 size); [exact W2|]. by apply u64_id.
  - rewrite get_ptr_from_offset_spec by (done || by compute). cbn [_shared_len _shared_start set_emem].
    do 2 case_decide; done || lia.
  - cbn [emem set_emem]. unfold wrapped_mem.
    rewrite !read_store64_disjoint by (apply Hd; cbv [edge_call.call_ret_offset edge_call.call_ret_size]; lia).
    rewrite read_write_disjoint
      by (rewrite length_app, !length_le64; apply Hd; cbv [edge_call.sizeof]; lia).
    rewrite <- (length_read_bytes (emem s) ptr (Z.to_nat size)) at 2.
    rewrite read_write_same by (rewrite length_read_bytes; lia). done.
  - cbn [emem set_emem]. unfold wrapped_mem. rewrite !load64_store64_disjoint by (apply Hd; cbv; intuition congruence).
    rewrite !load64_write_disjoint; [done| |].
    + rewrite length_read_bytes. apply Hd; cbv [edge_call.call_id]; lia.
    + rewrite length_app, !length_le64. apply Hd; cbv [edge_call.call_id edge_call.sizeof]; lia.
Qed.

Lemma register_call_in s id func : buffer_ok s -> 0 <= id < MAX_EDGE_CALL ->
  register_call id func s = Ok (0, set_table (aset (edge_call_table s) id func) s).
Proof.
  intros [] Hid. unfold MAX_EDGE_CALL in *. unfold register_call.
  replace (MAX_EDGE_CALL <? id) with false by (symmetry; apply Z.ltb_ge; unfold MAX_EDGE_CALL; lia).
  destruct (aget_is_Some (edge_call_table s) id) as [x Hx]; [rewrite bo_table0; unfold MAX_EDGE_CALL; lia|].
  unfold bind, get, or_ub. by rewrite Hx.
Qed.

(** A system call whose arguments are in the buffer of [s]: the address of its structure. *)
Definition syscall_at (s : edge_state) (e : Z) : option Z :=
  (edge_call_get_ptr_from_offset (load64 (emem s) (e + edge_call.call_arg_offset))
     (load64 (emem s) (e + edge_call.call_arg_size)) s).2.

Section DispatchProofs.
Context (call_wrapper : Z -> Z -> M edge_state unit) (host_call : Z -> Z -> M edge_state Z).

Lemma incoming_syscall_run s e :
  incoming_syscall host_call e s =
    let failed (s : edge_state) := store (e + edge_call.call_status) CALL_STATUS_SYSCALL_FAILED s in
    match syscall_at s e with
    | None => failed s
    | Some info =>
        let s1 := set_emem (store64 (emem s) (e + edge_call.call_status) CALL_STATUS_OK) s in
        let num := load64 (emem s1) (info + edge_syscall.syscall_num) in
        if bool_decide (num ∈ handled_syscalls) then
          match host_call num (info + edge_syscall.data) s1 with
          | Ok (v, s2) =>
              match edge_call_setup_ret e (edge_call_data_ptr s2) 8 (set_emem (store64 (emem s2) (edge_call_data_ptr s2) v) s2) with
              | Ok (r, s3) => if r =? 0 then Ok (tt, s3) else failed s3
              | Hang => Hang
              | UB => UB
              end
          | Hang => Hang
          | UB => UB
          end
        else failed s1
    end.
Proof.
  unfold incoming_syscall, edge_call_args_ptr, syscall_at, bind, load, gets, get, ret. cbv zeta.
  destruct (edge_call_get_ptr_from_offset _ _ s) as [r [info|]]; [|done]. cbn [snd store modify].
  case_bool_decide; [|done]. destruct (host_call _ _ _) as [[v s2]| |]; [|done..].
  destruct (edge_call_setup_ret _ _ _ _) as [[r3 s3]| |]; [|done..]. by destruct (r3 =? 0).
Qed.

Lemma dispatch_run s buffer : incoming_call_dispatch call_wrapper host_call buffer s =
  let id := load64 (emem s) (buffer + edge_call.call_id) in
  if id =? EDGECALL_SYSCALL then incoming_syscall host_call buffer s
  else if MAX_EDGE_CALL <? id then store (buffer + edge_call.call_status) CALL_STATUS_BAD_CALL_ID s
  else match aget (edge_call_table s) id with
       | None => UB
       | Some func => if func =? 0 then store (buffer + edge_call.call_status) CALL_STATUS_BAD_CALL_ID s
                      else call_wrapper func buffer s
       end.
Proof.
  unfold incoming_call_dispatch, bind at 1, load, gets. cbv zeta. case_match; [done|]. case_match; [done|].
  unfold bind, get, or_ub. destruct (aget _ _) as [x|]; [|done]. cbn. by case_match.
Qed.

(** A host call that returns, on the call at the start of the buffer: its result is handed back. *)
Lemma syscall_returns s info num v s2 :
  syscall_at s (_shared_start s) = Some info ->
  let s1 := set_emem (store64 (emem s) (_shared_start s + edge_call.call_status) CALL_STATUS_OK) s in
  load64 (emem s1) (info + edge_syscall.syscall_num) = num -> num ∈ handled_syscalls ->
  host_call num (info + edge_syscall.data) s1 = Ok (v, s2) -> buffer_ok s2 ->
  _shared_start s2 = _shared_start s -> edge_call.sizeof + 8 <= _shared_len s2 -> is_u64 v ->
  exists s', incoming_syscall host_call (_shared_start s) s = Ok (tt, s') /\
    edge_call_ret_ptr (_shared_start s) s' = Ok (0, Some (_shared_start s + edge_call.sizeof), 8, s') /\
    load64 (emem s') (_shared_start s + edge_call.sizeof) = v.
Proof.
  intros Hi s1 Hnum Hh Hcall Hok Hst Hlen Hv. rewrite incoming_syscall_run, Hi. cbv zeta. fold s1. rewrite Hnum, bool_decide_eq_true_2 by done.
  rewrite Hcall. pose proof Hok as [B1 B2 B3 B4 B5]. unfold edge_call.sizeof in *.
  assert (edge_call_data_ptr s2 = _shared_start s + 48) as ->.
  { unfold edge_call_data_ptr, edge_call.sizeof. rewrite Hst, u64_id; [done|]. unfold is_u64. lia. }
  set (s3 := set_emem _ s2). assert (buffer_ok s3) as Hok3 by (apply buffer_ok_set_emem; [done|apply store64_mem_bytes, Hok]).
  assert (edge_call_setup_ret (_shared_start s) (_shared_start s + 48) 8 s3 = Ok (0, with_slot s3 (_shared_start s) (_shared_start s + 48) 8 edge_call.call_ret_size edge_call.call_ret_offset)) as ->.
  { apply setup_slot; [done|unfold is_u64; lia|by compute|]. unfold in_shared. change (_shared_start s3) with (_shared_start s2).
    change (_shared_len s3) with (_shared_len s2). lia. }
  eexists. split; [done|]. set (s4 := with_slot _ _ _ _ _ _).
  assert (buffer_ok s4) as Hok4 by (apply buffer_ok_set_emem; [done|apply store64_mem_bytes, store64_mem_bytes, Hok3]).
  split.
  - assert (load64 (emem s4) (_shared_start s + edge_call.call_ret_size) = 8 /\
            load64 (emem s4) (_shared_start s + edge_call.call_ret_offset) = 48) as [L1 L2].
    { unfold s4, with_slot. cbn [emem set_emem]. edge_fields. change (_shared_start s3) with (_shared_start s2). rewrite Hst.
      replace (_shared_start s + 48 - _shared_start s) with 48 by lia. done. }
    unfold edge_call_ret_ptr, load, gets, get, bind, ret. rewrite L1, L2.
    rewrite get_ptr_from_offset_spec; [|exact Hok4|by compute|by compute].
    change (_shared_len s4) with (_shared_len s2). change (_shared_start s4) with (_shared_start s2). rewrite Hst. by rewrite decide_True by lia.
  - unfold s4, with_slot. cbn [emem set_emem]. rewrite !load64_store64_disjoint by (apply ranges_disjoint_offsets; unfold is_u64; cbv; intuition congruence).
    unfold s3. cbn [emem set_emem]. rewrite load64_store64_same. by apply u64_id.
Qed.
End DispatchProofs.

(** C38: What [incoming_call_dispatch] does with every call id.  A wrapper registered for an id below the table size is the one
    that runs for calls with that id; an id without a wrapper, or above [EDGECALL_SYSCALL], sets the status
    [CALL_STATUS_BAD_CALL_ID]; [EDGECALL_SYSCALL] goes to [incoming_syscall], which makes no system call
    and reports [CALL_STATUS_SYSCALL_FAILED] when the arguments are not in the buffer or the number is not one
    it handles, and hands the result of the host's call back through the return slot otherwise; but the id
    [MAX_EDGE_CALL] itself passes the bound check of both functions and is an access past the
    end of the table. *)
Theorem edge_dispatch_correct call_wrapper host_call s buffer id func :
  buffer_ok s -> is_u64 id -> load64 (emem s) (buffer + edge_call.call_id) = id -> func <> 0 ->
  (id < MAX_EDGE_CALL ->
    exists s', register_call id func s = Ok (0, s') /\
      incoming_call_dispatch call_wrapper host_call buffer s' = call_wrapper func buffer s') /\
  (MAX_EDGE_CALL < id -> register_call id func s = Ok (-1, s)) /\
  (EDGECALL_SYSCALL < id \/ aget (edge_call_table s) id = Some 0 ->
    exists s', incoming_call_dispatch call_wrapper host_call buffer s = Ok (tt, s') /\
      load64 (emem s') (buffer + edge_call.call_status) = CALL_STATUS_BAD_CALL_ID) /\
  (id = MAX_EDGE_CALL ->
    register_call id func s = UB /\ incoming_call_dispatch call_wrapper host_call buffer s = UB) /\
  (id = EDGECALL_SYSCALL -> forall s1, s1 = set_emem (store64 (emem s) (buffer + edge_call.call_status) CALL_STATUS_OK) s ->
    match syscall_at s buffer with
    | Some info =>
        let num := load64 (emem s1) (info + edge_syscall.syscall_num) in
        (~ num ∈ handled_syscalls ->
          exists s', incoming_call_dispatch call_wrapper host_call buffer s = Ok (tt, s') /\
            load64 (emem s') (buffer + edge_call.call_status) = CALL_STATUS_SYSCALL_FAILED) /\
        (num ∈ handled_syscalls -> buffer = _shared_start s -> forall v s2,
          host_call num (info + edge_syscall.data) s1 = Ok (v, s2) -> buffer_ok s2 -> is_u64 v ->
          _shared_start s2 = _shared_start s -> edge_call.sizeof + 8 <= _shared_len s2 ->
          exists s', incoming_call_dispatch call_wrapper host_call buffer s = Ok (tt, s') /\
            edge_call_ret_ptr buffer s' = Ok (0, Some (buffer + edge_call.sizeof), 8, s') /\
            load64 (emem s') (buffer + edge_call.sizeof) = v)
    | None =>
        exists s', incoming_call_dispatch call_wrapper host_call buffer s = Ok (tt, s') /\
          load64 (emem s') (buffer + edge_call.call_status) = CALL_STATUS_SYSCALL_FAILED
    end).
Proof.
  intros Hs Hid Hload Hf. pose proof Hs as [_ _ _ Htab _]. unfold is_u64 in *. split_and!.
  - intros Hlt. eexists. split; [apply register_call_in; [done|lia]|]. rewrite dispatch_run. cbn [emem set_table]. rewrite Hload.
    unfold EDGECALL_SYSCALL, MAX_EDGE_CALL in *. rewrite (proj2 (Z.eqb_neq _ _)), (proj2 (Z.ltb_ge _ _)) by lia. cbn [edge_call_table set_table].
    rewrite aget_aset_eq by (rewrite Htab; unfold MAX_EDGE_CALL in *; lia).
    by rewrite (proj2 (Z.eqb_neq _ _)).
  - intros Hgt. unfold register_call. by rewrite (proj2 (Z.ltb_lt _ _)).
  - intros Hbad. rewrite dispatch_run, Hload. cbv zeta. eexists. split.
    + unfold EDGECALL_SYSCALL, MAX_EDGE_CALL in *. destruct Hbad as [Hgt|Hnull].
      * by rewrite (proj2 (Z.eqb_neq _ _)), (proj2 (Z.ltb_lt _ _)) by lia.
      * pose proof (aget_Some_range _ _ _ Hnull) as Hr. rewrite Htab in Hr. unfold MAX_EDGE_CALL in Hr.
        rewrite (proj2 (Z.eqb_neq _ _)), (proj2 (Z.ltb_ge _ _)), Hnull by lia. done.
    + cbn [emem set_emem]. by rewrite load64_store64_same.
  - intros ->. assert (aget (edge_call_table s) MAX_EDGE_CALL = None) as HN.
    { unfold aget. simpl. apply lookup_ge_None. by rewrite Htab. }
    split; [|rewrite dispatch_run; cbv zeta; rewrite Hload; change (MAX_EDGE_CALL =? EDGECALL_SYSCALL) with false;
      change (MAX_EDGE_CALL <? MAX_EDGE_CALL) with false; cbv iota; by rewrite HN].
    unfold register_call, bind, get, or_ub. simpl. by rewrite HN.
  - intros -> s1 ->. assert (incoming_call_dispatch call_wrapper host_call buffer s = incoming_syscall host_call buffer s) as ->
      by (by rewrite dispatch_run, Hload).
    destruct (syscall_at s buffer) as [info|] eqn:Hat.
    + split.
      * intros Hno. rewrite incoming_syscall_run, Hat. cbv zeta. rewrite bool_decide_eq_false_2 by done. eexists. split; [done|].
        cbn [emem set_emem]. by rewrite load64_store64_same.
      * intros Hyes -> v s2 Hcall Hok2 Hv Hst Hlen. by eapply syscall_returns.
    + rewrite incoming_syscall_run, Hat. eexists. split; [done|]. cbn [emem set_emem]. by rewrite load64_store64_same.
Qed.

(** ** Witnesses *)

(** A 4 KiB buffer at [0x10000] whose bytes are zero, and an empty table. *)
Definition demo_edge : edge_state := mkEdge 0x10000 0x1000 (replicate 10 0) (fun _ => 0).

Lemma demo_edge_ok : buffer_ok demo_edge.
Proof. split; cbn; try lia; done. Qed.

Lemma edge_call_get_ptr_from_offset_correct_witness :
  edge_call_get_ptr_from_offset 48 100 demo_edge = (0, Some 0x10030) /\
  edge_call_get_ptr_from_offset 48 4050 demo_edge = (-1, None).
Proof.
  split.
  - apply (edge_call_get_ptr_from_offset_correct demo_edge 48 100 demo_edge_ok); cbv; intuition congruence.
  - apply (edge_call_get_ptr_from_offset_correct demo_edge 48 4050 demo_edge_ok); cbv; intuition congruence.
Defined.

(** The same pages, mapped by the other side at [0x7000000000]. *)
Definition demo_other (s : edge_state) : edge_state :=
  mkEdge 0x7000000000 0x1000 (replicate 10 0) (fun a => emem s (a - 0x7000000000 + 0x10000)).

Lemma demo_other_ok s : mem_bytes (emem s) -> buffer_ok (demo_other s).
Proof. intros Hm. split; [by compute|by compute|by compute|done|]. intros a. apply Hm. Qed.

Lemma demo_other_shares s : _shared_start s = 0x10000 -> _shared_len s = 0x1000 -> shares s (demo_other s).
Proof. intros Hs Hl. split; [by rewrite Hl|]. intros k _. cbn [demo_other emem _shared_start]. f_equal. lia. Qed.

Lemma edge_call_args_roundtrip_witness :
  exists s', edge_call_setup_call 0x10000 0x10030 8 demo_edge = Ok (0, s') /\
    edge_call_args_ptr 0x7000000000 (demo_other s') = Ok (0, Some 0x7000000030, 8, demo_other s').
Proof.
  destruct (edge_call_args_roundtrip demo_edge 0x10000 0x10030 8 demo_edge_ok) as (r & s' & E & Hr & _ & _ & Hother);
    [split; by compute|by compute|by compute|].
  assert (r = 0) as -> by (apply Hr; split; by compute). exists s'. split; [exact E|].
  assert (s' = with_slot demo_edge 0x10000 0x10030 8 edge_call.call_arg_size edge_call.call_arg_offset) as Hs'.
  { assert (in_shared demo_edge 0x10030 8) as Hin by (split; by compute).
    pose proof (setup_slot demo_edge 0x10000 0x10030 8 demo_edge_ok ltac:(by compute) ltac:(by compute)
      edge_call.call_arg_size edge_call.call_arg_offset Hin) as E'. unfold edge_call_setup_call in E. rewrite E' in E. by injection E. }
  destruct (Hother (demo_other s')) as [Ha _].
  - apply demo_other_ok. rewrite Hs'. apply store64_mem_bytes, store64_mem_bytes, demo_edge_ok.
  - apply demo_other_shares; rewrite Hs'; reflexivity.
  - reflexivity.
  - exact Ha.
Defined.

Lemma edge_call_setup_wrapped_ret_correct_witness :
  exists s', edge_call_setup_wrapped_ret 7 0x10000 0x40000 5000 demo_edge = Ok (0, s') /\
    edge_call_get_ptr_from_offset 64 5000 s' = (-1, None).
Proof.
  destruct (edge_call_setup_wrapped_ret_correct 7 demo_edge 0x40000 5000 demo_edge_ok) as (s' & E & _ & _ & _ & Hp & _);
    [by compute|by compute|by compute|by left|].
  exists s'. split; [exact E|exact Hp].
Defined.

Lemma edge_dispatch_correct_witness :
  exists s', register_call 0 99 demo_edge = Ok (0, s') /\
    incoming_call_dispatch (fun f _ => modify (set_table [f])) (fun _ _ => ret 0) 0x10000 s' = Ok (tt, set_table [99] s').
Proof.
  destruct (edge_dispatch_correct (fun f _ => modify (set_table [f])) (fun _ _ => ret 0) demo_edge 0x10000 0 99 demo_edge_ok)
    as [H _]; [by compute|by compute|done|].
  destruct (H ltac:(by compute)) as (s' & E & E'). exists s'. split; [exact E|]. rewrite E'. done.
Defined.
