(* ===== verification/Vm.v ===== *)
(** * Virtual-memory definitions of the runtime ([runtime/include/mm/vm_defs.h],
    [vm.h], [runtime/mm/vm.c])

    The constants and bit operations of Sv39 page-table entries, the translation
    between the physical addresses of the enclave and the runtime's linear
    mapping, and the globals of the memory manager. *)

From S2P Require Import Prelude Mem.
From Stdlib Require Import ZArith Lia.
From stdpp Require Import base tactics list list_numbers numbers.
Local Open Scope Z_scope.
Local Open Scope keystone_scope.

(** ** vm_defs.h, [__riscv_xlen == 64] *)

Definition BIT (n : Z) : Z := u64 (Z.shiftl 1 n).
Definition MASK (n : Z) : Z := BIT n -w 1.
Definition IS_ALIGNED (n b : Z) : bool := Z.land n (MASK b) =? 0.

Definition RISCV_PT_INDEX_BITS : Z := 9.
Definition RISCV_PT_LEVELS : Z := 3.
Definition RISCV_PAGE_BITS : Z := 12.
Definition RISCV_PAGE_SIZE : Z := Z.shiftl 1 RISCV_PAGE_BITS.
Definition RISCV_PAGE_OFFSET (addr : Z) : Z := addr mod RISCV_PAGE_SIZE.
Definition RISCV_GET_LVL_PGSIZE_BITS (n : Z) : Z := RISCV_PT_INDEX_BITS * (RISCV_PT_LEVELS - n) + RISCV_PAGE_BITS.
Definition RISCV_GET_LVL_PGSIZE (n : Z) : Z := BIT (RISCV_GET_LVL_PGSIZE_BITS n).
Definition RISCV_GET_PT_INDEX (addr n : Z) : Z :=
  Z.land (Z.shiftr addr (RISCV_PT_INDEX_BITS * (RISCV_PT_LEVELS - n) + RISCV_PAGE_BITS)) (MASK RISCV_PT_INDEX_BITS).

Definition RUNTIME_VA_START : Z := 0xffffffffc0000000.
Definition EYRIE_LOAD_START : Z := 0xffffffff00000000.
Definition EYRIE_UNTRUSTED_START : Z := 0xffffffff80000000.

Definition PTE_V : Z := 0x001.
Definition PTE_R : Z := 0x002.
Definition PTE_W : Z := 0x004.
Definition PTE_X : Z := 0x008.
Definition PTE_U : Z := 0x010.
Definition PTE_G : Z := 0x020.
Definition PTE_A : Z := 0x040.
Definition PTE_D : Z := 0x080.
Definition PTE_FLAG_MASK : Z := 0x3ff.
Definition PTE_PPN_SHIFT : Z := 10.

(** ** vm.h *)

Definition pte_create (ppn type : Z) : Z :=
  Z.lor (Z.lor (u64 (Z.shiftl ppn PTE_PPN_SHIFT)) PTE_V) (Z.land type PTE_FLAG_MASK).
Definition pte_create_invalid (ppn type : Z) : Z :=
  Z.lor (u64 (Z.shiftl ppn PTE_PPN_SHIFT)) (Z.land (Z.land type PTE_FLAG_MASK) (Z.lnot PTE_V)).
Definition ptd_create (ppn : Z) : Z := pte_create ppn PTE_V.
Definition ppn (pa : Z) : Z := Z.shiftr pa RISCV_PAGE_BITS.
Definition vpn (va : Z) : Z := Z.shiftr va RISCV_PAGE_BITS.
Definition pte_ppn (pte : Z) : Z := Z.shiftr pte PTE_PPN_SHIFT.

(** ** The state of the memory manager *)

(** [struct pg_list] of freemem.h. *)
Record pg_list : Type := mkPgList { pg_head : Z; pg_tail : Z; pg_count : Z }.

(** The globals of vm.c, freemem.c and mm.c, and the memory the runtime sees. *)
Record rt_state : Type := mkRt {
  rmem : Z -> Z;
  spa_free_pages : pg_list;
  freemem_va_start : Z;
  freemem_size : Z;
  load_pa_start : Z;
  kernel_offset : Z;
  root_page_table : Z;
  current_program_break : Z
}.

Definition set_rmem (f : Z -> Z) (s : rt_state) : rt_state :=
  mkRt f (spa_free_pages s) (freemem_va_start s) (freemem_size s) (load_pa_start s) (kernel_offset s)
    (root_page_table s) (current_program_break s).
Definition set_free_pages (l : pg_list) (s : rt_state) : rt_state :=
  mkRt (rmem s) l (freemem_va_start s) (freemem_size s) (load_pa_start s) (kernel_offset s)
    (root_page_table s) (current_program_break s).
Definition set_break (b : Z) (s : rt_state) : rt_state :=
  mkRt (rmem s) (spa_free_pages s) (freemem_va_start s) (freemem_size s) (load_pa_start s) (kernel_offset s)
    (root_page_table s) b.

(** [*(uintptr_t * )a] and its assignment. *)
Definition rload (a : Z) : M rt_state Z := gets (fun s => load64 (rmem s) a).
Definition rstore (a v : Z) : M rt_state unit := modify (fun s => set_rmem (store64 (rmem s) a v) s).

(** [assert(x)] of [runtime/include/mm/common.h]: a failed assertion leaves the
    enclave with [sbi_exit_enclave(-1)], so nothing after it runs. *)
Definition rt_assert (b : bool) : M rt_state unit := if b then ret tt else hang.

(** ** vm.c, [LOADER_BIN] not defined *)

Definition kernel_va_to_pa (s : rt_state) (ptr : Z) : Z := ptr -w kernel_offset s.
Definition __va (s : rt_state) (pa : Z) : Z := (pa -w load_pa_start s) +w EYRIE_LOAD_START.
Definition __pa (s : rt_state) (va : Z) : Z := (va -w EYRIE_LOAD_START) +w load_pa_start s.

(** ** Lemmas *)

Lemma wp_rt_assert b (Q : unit -> rt_state -> Prop) s : b = true -> Q tt s -> wp (rt_assert b) Q s.
Proof. by intros ->. Qed.

(** Symbolic execution with loads, stores and assertions. *)
Ltac rt_step :=
  lazymatch goal with
  | |- wp (rload _) _ _ => apply wp_gets
  | |- wp (rstore _ _) _ _ => apply wp_modify
  | |- wp (rt_assert _) _ _ => apply wp_rt_assert
  | _ => wp_step
  end.


Lemma IS_ALIGNED_spec n b : 0 <= b < 64 -> IS_ALIGNED n b = true <-> n mod 2 ^ b = 0.
Proof.
  intros Hb. unfold IS_ALIGNED, MASK, BIT. rewrite Z.shiftl_1_l.
  assert (0 < 2 ^ b < 2 ^ 64) by (split; [lia|apply Z.pow_lt_mono_r; lia]).
  rewrite (u64_id (2 ^ b)), u64_id by (unfold is_u64; lia). rewrite land_pow2_sub1 by lia. apply Z.eqb_eq.
Qed.

(** The page-table index at level [n] is a nine-bit slice of the address. *)
Lemma PT_INDEX_spec addr n : 1 <= n <= 3 ->
  RISCV_GET_PT_INDEX addr n = (addr / 2 ^ (9 * (3 - n) + 12)) mod 2 ^ 9.
Proof.
  intros Hn. unfold RISCV_GET_PT_INDEX, RISCV_PT_INDEX_BITS, RISCV_PT_LEVELS, RISCV_PAGE_BITS.
  change (MASK 9) with (2 ^ 9 - 1). rewrite land_pow2_sub1, Z.shiftr_div_pow2 by lia. done.
Qed.

(** [__va] and [__pa] are inverse on 64-bit addresses. *)
Lemma va_pa s va : is_u64 va -> __va s (__pa s va) = va.
Proof.
  intros Hva. unfold __va, __pa, is_u64, u64 in *. unfold EYRIE_LOAD_START. mlia.
Qed.

Lemma pa_va s pa : is_u64 pa -> __pa s (__va s pa) = pa.
Proof.
  intros Hpa. unfold __va, __pa, is_u64, u64 in *. unfold EYRIE_LOAD_START. mlia.
Qed.

(** The entry made by [pte_create]: its number, its valid bit and its range. *)
Lemma pte_ppn_create p t : 0 <= p < 2 ^ 54 -> 0 <= t -> pte_ppn (pte_create p t) = p.
Proof.
  intros Hp Ht. unfold pte_ppn, pte_create, PTE_PPN_SHIFT, PTE_FLAG_MASK, PTE_V.
  rewrite Z.shiftl_mul_pow2, u64_id by (unfold is_u64; lia). rewrite !Z.shiftr_lor, Z.shiftr_land.
  rewrite (Z.shiftr_div_pow2 (p * 2 ^ 10)), Z.div_mul by lia.
  change (Z.shiftr 1 10) with 0. change (Z.shiftr 1023 10) with 0. by rewrite Z.land_0_r, !Z.lor_0_r.
Qed.

Lemma pte_create_valid p t : Z.testbit (pte_create p t) 0 = true.
Proof. unfold pte_create. rewrite !Z.lor_spec. change (Z.testbit PTE_V 0) with true. by rewrite orb_true_r. Qed.

Lemma pte_create_range p t : 0 <= t -> is_u64 (pte_create p t).
Proof.
  intros Ht. unfold pte_create. apply lor_bound; [apply lor_bound; [apply u64_range|by compute]|].
  assert (0 <= Z.land PTE_FLAG_MASK t < 2 ^ 64) by (apply land_bound; [by compute|done]).
  by rewrite Z.land_comm.
Qed.

(** [pte & PTE_V]. *)
Lemma land_PTE_V x : (Z.land x PTE_V =? 0) = negb (Z.testbit x 0).
Proof. apply (land_bit_zero x 0). lia. Qed.
