(* ===== verification/Freemem.v ===== *)
(** * The page allocator of the runtime ([runtime/mm/freemem.c])

    The simple page allocator keeps the free pages in a linked list threaded
    through the pages themselves.  It implements a first-in first-out queue of
    pages; the configuration is the one without [USE_PAGING]. *)

From S2P Require Import Prelude Mem Vm.
From Stdlib Require Import ZArith Lia.
From stdpp Require Import base tactics sets list list_numbers numbers.
Local Open Scope Z_scope.
Local Open Scope keystone_scope.

(** ** freemem.h *)

Definition LIST_EMPTY (l : pg_list) : bool := (pg_count l =? 0) || (pg_head l =? 0).
Definition LIST_INIT : pg_list := mkPgList 0 0 0.
Abbreviation NEXT_PAGE page := (rload page).

(** ** freemem.c *)

Definition __spa_get (zero : bool) : M rt_state Z :=
  let! s := get in
  if LIST_EMPTY (spa_free_pages s) then ret 0
  else
    let free_page := pg_head (spa_free_pages s) in
    rt_assert (truthy free_page) ;;;
    let! next := NEXT_PAGE (pg_head (spa_free_pages s)) in
    modify (set_free_pages (mkPgList next (pg_tail (spa_free_pages s)) (u32 (pg_count (spa_free_pages s) - 1)))) ;;;
    rt_assert ((EYRIE_LOAD_START <? free_page) && (free_page <? (freemem_va_start s +w freemem_size s))) ;;;
    (if zero then modify (fun s => set_rmem (memset free_page 0 RISCV_PAGE_SIZE (rmem s)) s) else ret tt) ;;;
    ret free_page.

Definition spa_get : M rt_state Z := __spa_get false.
Definition spa_get_zero : M rt_state Z := __spa_get true.

Definition spa_put (page_addr : Z) : M rt_state unit :=
  let! s := get in
  rt_assert (IS_ALIGNED page_addr RISCV_PAGE_BITS) ;;;
  rt_assert ((EYRIE_LOAD_START <=? page_addr) && (page_addr <? (freemem_va_start s +w freemem_size s))) ;;;
  (if negb (LIST_EMPTY (spa_free_pages s)) then
     let prev := pg_tail (spa_free_pages s) in
     rt_assert (truthy prev) ;;;
     rstore prev page_addr
   else
     modify (set_free_pages (mkPgList page_addr (pg_tail (spa_free_pages s)) (pg_count (spa_free_pages s))))) ;;;
  rstore page_addr 0 ;;;
  modify (fun s => set_free_pages
    (mkPgList (pg_head (spa_free_pages s)) page_addr (u32 (pg_count (spa_free_pages s) + 1))) s).

Definition spa_available : M rt_state Z := gets (fun s => pg_count (spa_free_pages s)).

(** The loop of [spa_init]: [fuel] bounds the number of pages. *)
Fixpoint spa_put_all (fuel : nat) (cur stop : Z) : M rt_state unit :=
  if cur <? stop then
    match fuel with
    | O => hang
    | S fuel => spa_put cur ;;; spa_put_all fuel (cur +w RISCV_PAGE_SIZE) stop
    end
  else ret tt.

Definition spa_init (base size : Z) : M rt_state unit :=
  modify (set_free_pages LIST_INIT) ;;;
  rt_assert (IS_ALIGNED base RISCV_PAGE_BITS) ;;;
  rt_assert (IS_ALIGNED size RISCV_PAGE_BITS) ;;;
  spa_put_all (Z.to_nat (size / RISCV_PAGE_SIZE)) base (base +w size).

(** ** The queue the list implements *)

(** The pages reachable from [h] through the first word of each page. *)
Fixpoint linked (f : Z -> Z) (h : Z) (l : list Z) : Prop :=
  match l with
  | [] => h = 0
  | p :: l' => h = p /\ linked f (load64 f p) l'
  end.

(** A page the allocator may hold. *)
Definition free_page_ok (s : rt_state) (p : Z) : Prop :=
  EYRIE_LOAD_START < p < freemem_va_start s + freemem_size s /\ p mod RISCV_PAGE_SIZE = 0.

(** Free memory ends below the top of the address space. *)
Definition freemem_ok (s : rt_state) : Prop :=
  0 <= freemem_va_start s /\ 0 <= freemem_size s /\ freemem_va_start s + freemem_size s < 2 ^ 64.

Record spa_queue (s : rt_state) (l : list Z) : Prop := {
  sq_mem : freemem_ok s;
  sq_linked : linked (rmem s) (pg_head (spa_free_pages s)) l;
  sq_tail : l <> [] -> list.last l = Some (pg_tail (spa_free_pages s));
  sq_count : pg_count (spa_free_pages s) = Z.of_nat (length l);
  sq_pages : Forall (free_page_ok s) l;
  sq_nodup : NoDup l
}.

Lemma free_page_aligned s p : freemem_ok s -> free_page_ok s p -> aligned8 p /\ 0 < p /\ p + RISCV_PAGE_SIZE <= 2 ^ 64.
Proof.
  intros (? & ? & ?) [? Hm]. change RISCV_PAGE_SIZE with 4096 in *. unfold EYRIE_LOAD_START, aligned8, is_u64 in *.
  repeat split; mlia.
Qed.

(** The list does not depend on memory outside the first words of its pages. *)
Lemma linked_ext f g h l : (forall p, p ∈ l -> load64 g p = load64 f p) -> linked f h l -> linked g h l.
Proof.
  revert h. induction l as [|p l IH]; simpl; intros h Hext; [done|]. intros [-> Hl]. split; [done|].
  rewrite Hext by set_solver. apply IH; [|done]. intros q Hq. apply Hext. set_solver.
Qed.

(** Appending a page: the last page's link is set to it. *)
Lemma linked_snoc f g h l t p : l <> [] -> list.last l = Some t -> NoDup l -> linked f h l ->
  load64 g t = p -> load64 g p = 0 -> p ∉ l -> (forall q, q ∈ l -> q <> t -> load64 g q = load64 f q) ->
  linked g h (l ++ [p]).
Proof.
  intros Hne Hlast Hnd Hl Ht Hp Hnew Hext. revert h Hne Hlast Hnd Hnew Hl Hext.
  induction l as [|q l IH]; intros h Hne Hlast Hnd Hnew Hl Hext; [done|].
  destruct Hl as [-> Hl]. simpl. split; [done|]. destruct l as [|q' l'].
  - simpl in Hlast. injection Hlast as ->. simpl in *. by rewrite Ht.
  - inversion Hnd as [|? ? Hq Hnd']; subst. change (list.last (q' :: l') = Some t) in Hlast.
    rewrite Hext; [|set_solver|intros ->; apply Hq, last_Some_elem_of; done].
    apply IH; try done; set_solver.
Qed.

Lemma u32_count n : 0 <= n < 2 ^ 32 -> u32 n = n.
Proof. intros. by apply u32_id. Qed.

(** Pages fit in an [unsigned int]: the load area spans less than [2^32] bytes. *)
Lemma spa_queue_length s l : spa_queue s l -> Z.of_nat (length l) < 2 ^ 20.
Proof.
  intros [Hm _ _ _ Hp Hnd].
  assert (length l <= Z.to_nat (2 ^ 20 - 1))%nat; [|lia].
  rewrite <- (length_seqZ (EYRIE_LOAD_START / 4096 + 1) (2 ^ 20 - 1)).
  rewrite <- (length_map (fun p => p / 4096) l). apply NoDup_incl_length.
  - apply NoDup_ListNoDup. apply NoDup_fmap_2_strong; [|done].
    intros x y Hx Hy E. rewrite Forall_forall in Hp. apply list_elem_of_In in Hx, Hy.
    destruct (Hp _ Hx) as [_ Ex], (Hp _ Hy) as [_ Ey]. change RISCV_PAGE_SIZE with 4096 in *. mlia.
  - intros x Hx. apply in_map_iff in Hx as (p & <- & Hin). rewrite Forall_forall in Hp.
    destruct (Hp p Hin) as [Hr Ha]. destruct Hm as (? & ? & ?). change RISCV_PAGE_SIZE with 4096 in *.
    apply list_elem_of_In, elem_of_seqZ. unfold EYRIE_LOAD_START in *. mlia.
Qed.

(** The globals the allocator never writes. *)
Record same_globals (s s' : rt_state) : Prop := {
  sg_start : freemem_va_start s' = freemem_va_start s;
  sg_size : freemem_size s' = freemem_size s;
  sg_load : load_pa_start s' = load_pa_start s;
  sg_koff : kernel_offset s' = kernel_offset s;
  sg_root : root_page_table s' = root_page_table s;
  sg_brk : current_program_break s' = current_program_break s
}.

#[export] Instance same_globals_preorder : PreOrder same_globals.
Proof. split; [by split|]. intros x y z [] []. split; congruence. Qed.

Lemma same_globals_queue s s' l : same_globals s s' -> freemem_ok s -> Forall (free_page_ok s) l ->
  freemem_ok s' /\ Forall (free_page_ok s') l.
Proof. intros [E1 E2 _ _ _ _] ? ?. unfold freemem_ok, free_page_ok in *. by rewrite E1, E2. Qed.

(** Memory may change outside the free pages. *)
Lemma spa_queue_ext s s' l : spa_queue s l -> same_globals s s' -> spa_free_pages s' = spa_free_pages s ->
  (forall p, p ∈ l -> load64 (rmem s') p = load64 (rmem s) p) -> spa_queue s' l.
Proof.
  intros [Hm Hl Ht Hc Hp Hn] Hg Hf Hext. destruct (same_globals_queue s s' l Hg Hm Hp).
  split; rewrite ?Hf; try done. by eapply linked_ext.
Qed.

Lemma LIST_EMPTY_queue s l : spa_queue s l -> LIST_EMPTY (spa_free_pages s) = bool_decide (l = []).
Proof.
  intros Hq. pose proof Hq as [Hm Hl _ Hc Hp _]. unfold LIST_EMPTY. rewrite Hc. destruct l as [|p l]; [done|].
  simpl in Hl. destruct Hl as [Hh _]. apply Forall_cons_iff in Hp as [Hp _].
  pose proof (free_page_aligned s p Hm Hp) as (_ & ? & _). rewrite Hh, bool_decide_false by done.
  simpl. rewrite (proj2 (Z.eqb_neq _ _)) by lia. done.
Qed.

(** The memory after a page was taken. *)
Definition get_mem (zero : bool) (p : Z) (f : Z -> Z) : Z -> Z := if zero then memset p 0 RISCV_PAGE_SIZE f else f.

(** Zeroing a page keeps the words of the other pages. *)
Lemma get_mem_other s zero p a f : freemem_ok s -> free_page_ok s p -> aligned8 a -> ~ p <= a < p + RISCV_PAGE_SIZE ->
  load64 (get_mem zero p f) a = load64 f a.
Proof.
  intros Hm Hp Ha Hout. destruct zero; [|done]. unfold get_mem.
  pose proof (free_page_aligned s p Hm Hp) as ([? ?] & ? & ?).
  rewrite load64_memset0 by (done || by compute). by rewrite decide_False.
Qed.

Lemma free_pages_apart s p q : free_page_ok s p -> free_page_ok s q -> p <> q -> ~ p <= q < p + RISCV_PAGE_SIZE.
Proof. intros [_ ?] [_ ?] ? ?. change RISCV_PAGE_SIZE with 4096 in *. mlia. Qed.

Lemma wp_spa_get zero s p l (Q : Z -> rt_state -> Prop) : spa_queue s (p :: l) ->
  (forall s', spa_queue s' l -> same_globals s s' -> rmem s' = get_mem zero p (rmem s) -> Q p s') ->
  wp (__spa_get zero) Q s.
Proof.
  intros Hq HQ. pose proof Hq as [Hm [Hh Hl] Ht Hc Hp Hn].
  pose proof Hp as [Hp0 Hpl]%Forall_cons_iff. pose proof (free_page_aligned s p Hm Hp0) as (Ha & Hpos & Htop).
  pose proof (spa_queue_length _ _ Hq) as Hlen.
  unfold __spa_get. rt_step. rt_step. rewrite (LIST_EMPTY_queue _ _ Hq), bool_decide_false, Hh by done.
  cbv zeta. rt_step. rt_step; [unfold truthy; by rewrite (proj2 (Z.eqb_neq _ _)) by lia|].
  rt_step. rt_step. rt_step. rt_step. rt_step.
  rt_step.
  { destruct Hp0 as [[] _], Hm as (? & ? & ?). rewrite u64_id by (unfold is_u64; lia).
    apply andb_true_iff. split; by apply Z.ltb_lt. }
  assert (spa_queue (set_free_pages (mkPgList (load64 (rmem s) p) (pg_tail (spa_free_pages s))
    (u32 (pg_count (spa_free_pages s) - 1))) s) l) as Hq'.
  { split; cbn [rmem spa_free_pages set_free_pages pg_head pg_tail pg_count freemem_va_start freemem_size]; try done.
    - intros Hne. rewrite <- Ht by done. destruct l; [done|]. done.
    - rewrite Hc. simpl length. rewrite u32_count; simpl in Hlen; lia.
    - by inversion Hn. }
  rt_step. destruct zero; rt_step; rt_step; apply HQ; try done.
  apply (spa_queue_ext _ _ _ Hq'); [by split|done|].
  intros q Hql. cbn [rmem set_rmem set_free_pages].
  assert (free_page_ok s q) as Hqok by (rewrite Forall_forall in Hpl; by apply Hpl, list_elem_of_In).
  apply (get_mem_other s true); [done|done|by apply (free_page_aligned s q)|].
  apply free_pages_apart with s; [done..|]. inversion Hn; set_solver.
Qed.

Lemma wp_spa_get_empty zero s (Q : Z -> rt_state -> Prop) : spa_queue s [] -> Q 0 s -> wp (__spa_get zero) Q s.
Proof.
  intros Hq HQ. unfold __spa_get. rt_step. rt_step. rewrite (LIST_EMPTY_queue _ _ Hq). by rt_step.
Qed.

(** [spa_put] writes two words: the link of the last page and that of the new one. *)
Definition put_mem (l : list Z) (p : Z) (f : Z -> Z) : Z -> Z :=
  store64 (match list.last l with Some t => store64 f t p | None => f end) p 0.

Lemma wp_spa_put s p l (Q : unit -> rt_state -> Prop) : spa_queue s l -> free_page_ok s p -> p ∉ l ->
  (forall s', spa_queue s' (l ++ [p]) -> same_globals s s' -> rmem s' = put_mem l p (rmem s) -> Q tt s') ->
  wp (spa_put p) Q s.
Proof.
  intros Hq Hp Hnew HQ. pose proof Hq as [Hm Hl Ht Hc Hpl Hn].
  pose proof (free_page_aligned s p Hm Hp) as (Ha & Hpos & Htop). pose proof (spa_queue_length _ _ Hq) as Hlen.
  unfold spa_put. rt_step. rt_step. rt_step.
  rt_step; [apply IS_ALIGNED_spec; [by compute|apply Hp]|]. rt_step.
  rt_step.
  { destruct Hp as [[] _], Hm as (? & ? & ?). rewrite u64_id by (unfold is_u64; lia).
    apply andb_true_iff. split; [apply Z.leb_le; lia|by apply Z.ltb_lt]. }
  rewrite (LIST_EMPTY_queue _ _ Hq). rt_step.
  assert (Forall (free_page_ok s) (l ++ [p])) as Hall by (apply Forall_app; split; [done|by constructor]).
  assert (NoDup (l ++ [p])) as Hnd by (apply list.NoDup_app; repeat split; [done|set_solver|apply NoDup_singleton]).
  assert (u32 (pg_count (spa_free_pages s) + 1) = Z.of_nat (length (l ++ [p]))) as Hcnt
    by (rewrite Hc, length_app, u32_count; simpl; lia).
  destruct (decide (l = [])) as [->|Hne]; simpl.
  - rt_step. rt_step. rt_step. rt_step.
    apply HQ; [|by split|done]. split; try done.
    + simpl. split; [done|]. by rewrite load64_store64_same.
  - rewrite bool_decide_false by done. simpl. pose proof (Ht Hne) as Hlast.
    assert (pg_tail (spa_free_pages s) ∈ l) as Htl by by apply last_Some_elem_of.
    assert (free_page_ok s (pg_tail (spa_free_pages s))) as Htok
      by (rewrite Forall_forall in Hpl; by apply Hpl, list_elem_of_In).
    pose proof (free_page_aligned s _ Hm Htok) as (Hta & Htpos & _).
    rt_step. rt_step; [unfold truthy; by rewrite (proj2 (Z.eqb_neq _ _)) by lia|].
    rt_step. rt_step. rt_step. rt_step.
    assert (forall q, free_page_ok s q -> aligned8 q) as Hal by (intros q ?; by apply (free_page_aligned s q)).
    apply HQ; [|by split|unfold put_mem; rewrite Hlast; done]. split; try done.
    + cbn [rmem set_rmem set_free_pages spa_free_pages pg_head].
      assert (is_u64 0) by by compute. assert (is_u64 p) by apply Ha.
      apply (linked_snoc (rmem s) _ _ _ (pg_tail (spa_free_pages s))); try done.
      * rewrite load64_store64, decide_False by (done || set_solver). by rewrite load64_store64_same, u64_id.
      * by rewrite load64_store64_same.
      * intros q Hql Hqt. assert (aligned8 q) by (apply Hal; rewrite Forall_forall in Hpl; by apply Hpl, list_elem_of_In).
        rewrite !load64_store64, !decide_False by (done || set_solver). done.
    + intros _. cbn [set_rmem set_free_pages spa_free_pages pg_tail]. by rewrite last_snoc.
Qed.

(** ** Refinement of an abstract queue *)

(** What a client does: take a page, give one back, or write a word of memory. *)
Inductive spa_op : Type :=
  | OpGet (zero : bool)
  | OpPut (p : Z)
  | OpWrite (a v : Z).

(** The allocator's answer to one operation. *)
Definition spa_step (op : spa_op) : M rt_state Z :=
  match op with
  | OpGet zero => __spa_get zero
  | OpPut p => spa_put p ;;; ret 0
  | OpWrite a v => rstore a v ;;; ret 0
  end.

Fixpoint spa_run (ops : list spa_op) : M rt_state (list Z) :=
  match ops with
  | [] => ret []
  | op :: ops => let! r := spa_step op in let! rs := spa_run ops in ret (r :: rs)
  end.

(** The abstract queue: the pages in the order they will be handed out. *)
Definition fifo_step (l : list Z) (op : spa_op) : Z * list Z :=
  match op with
  | OpGet _ => match l with [] => (0, []) | p :: l' => (p, l') end
  | OpPut p => (0, l ++ [p])
  | OpWrite _ _ => (0, l)
  end.

Fixpoint fifo_run (l : list Z) (ops : list spa_op) : list Z * list Z :=
  match ops with
  | [] => ([], l)
  | op :: ops => let '(r, l') := fifo_step l op in let '(rs, l'') := fifo_run l' ops in (r :: rs, l'')
  end.

(** The client's side of the contract: no page is given back twice, pages come
    from the free memory, and free pages are not written. *)
Definition op_legal (s : rt_state) (l : list Z) (op : spa_op) : Prop :=
  match op with
  | OpGet _ => True
  | OpPut p => free_page_ok s p /\ p ∉ l
  | OpWrite a v => aligned8 a /\ is_u64 v /\ (a - a mod RISCV_PAGE_SIZE) ∉ l
  end.

Fixpoint ops_legal (s : rt_state) (l : list Z) (ops : list spa_op) : Prop :=
  match ops with
  | [] => True
  | op :: ops => op_legal s l op /\ ops_legal s (fifo_step l op).2 ops
  end.

Lemma op_legal_globals s s' l op : same_globals s s' -> op_legal s l op -> op_legal s' l op.
Proof. intros [E1 E2 _ _ _ _]. destruct op; simpl; unfold free_page_ok; by rewrite ?E1, ?E2. Qed.

Lemma ops_legal_globals s s' l ops : same_globals s s' -> ops_legal s l ops -> ops_legal s' l ops.
Proof.
  intros Hg. revert l. induction ops as [|op ops IH]; intros l; [done|]. intros [? ?].
  split; [by eapply op_legal_globals|by apply IH].
Qed.

Lemma wp_spa_step s l op : spa_queue s l -> op_legal s l op ->
  wp (spa_step op) (fun r s' => r = (fifo_step l op).1 /\ spa_queue s' (fifo_step l op).2 /\ same_globals s s') s.
Proof.
  intros Hq Hlegal. destruct op as [zero|p|a v]; simpl.
  - destruct l as [|p l].
    + by apply wp_spa_get_empty.
    + by apply (wp_spa_get zero s p l).
  - destruct Hlegal. wp_step. by apply (wp_spa_put s p l).
  - destruct Hlegal as (Ha & Hv & Hout). wp_step. rt_step. wp_step. split; [done|]. split; [|by split].
    apply (spa_queue_ext s); try done. intros p Hp. cbn [rmem set_rmem].
    pose proof Hq as [Hm _ _ _ Hpl _]. rewrite Forall_forall in Hpl.
    pose proof (Hpl p ltac:(by apply list_elem_of_In)) as Hok.
    rewrite load64_store64; [|done|by apply (free_page_aligned s)|done]. case_decide; [subst|done].
    destruct Hok as [_ E]. rewrite E, Z.sub_0_r in Hout. done.
Qed.

(** C26: The page allocator is a queue: from a state whose free list holds the
    pages [l], every sequence of allocations, legal releases and writes to pages
    that are not free runs to its end and gives exactly the answers of the
    first-in first-out queue [l] (0 when it is empty), and the free list then holds
    the queue's pages. *)
Theorem spa_refines_fifo s l ops :
  spa_queue s l -> ops_legal s l ops ->
  exists s', spa_run ops s = Ok ((fifo_run l ops).1, s') /\ spa_queue s' (fifo_run l ops).2.
Proof.
  revert s l. induction ops as [|op ops IH]; intros s l Hq Hlegal; [by exists s|].
  destruct Hlegal as [Hop Hops]. destruct (wp_inv _ _ _ (wp_spa_step s l op Hq Hop)) as (r & s1 & E & -> & Hq1 & Hg).
  destruct (IH s1 (fifo_step l op).2 Hq1 (ops_legal_globals _ _ _ _ Hg Hops)) as (s2 & E2 & Hq2).
  exists s2. simpl. destruct (fifo_step l op) as [r l'] eqn:Ef, (fifo_run l' ops) as [rs l''] eqn:Er.
  simpl in *. rewrite Er in E2, Hq2. unfold bind at 1. rewrite E. unfold bind. by rewrite E2.
Qed.

(** The pages from [base], in ascending order. *)
Definition pages_from (base : Z) (n : nat) : list Z :=
  map (fun i => base + RISCV_PAGE_SIZE * Z.of_nat i) (seq 0 n).

Lemma pages_from_S base n : pages_from base (S n) = base :: pages_from (base + RISCV_PAGE_SIZE) n.
Proof.
  unfold pages_from. simpl seq. rewrite <- seq_shift. simpl map. rewrite map_map. f_equal; [lia|].
  apply map_ext. intros i. lia.
Qed.

Lemma pages_from_bound base n p : p ∈ pages_from base n -> base <= p.
Proof.
  unfold pages_from. rewrite list_elem_of_In, in_map_iff. intros (i & <- & _). change RISCV_PAGE_SIZE with 4096. lia.
Qed.

(** Giving back a page writes only to pages of the free list. *)
Lemma put_mem_other s l p f a : freemem_ok s -> Forall (free_page_ok s) (l ++ [p]) -> is_u64 a ->
  (forall q, q ∈ l ++ [p] -> ~ q <= a < q + RISCV_PAGE_SIZE) -> put_mem l p f a = f a.
Proof.
  intros Hm Hok Ha Hout. rewrite Forall_forall in Hok.
  assert (forall q v g, q ∈ l ++ [p] -> store64 g q v a = g a) as Hs.
  { intros q v g Hq. apply write_bytes_other. rewrite length_le64. apply not_true_iff_false. intros Hr.
    destruct (free_page_aligned s q Hm (Hok q ltac:(by apply list_elem_of_In))) as ([Hqu _] & _ & Hqt).
    apply (Hout q Hq). change RISCV_PAGE_SIZE with 4096 in *. unfold in_range, is_u64, u64 in *. apply Z.ltb_lt in Hr. mlia. }
  unfold put_mem. rewrite Hs by set_solver. destruct (list.last l) as [t|] eqn:E; [|done].
  apply Hs, elem_of_app. left. by apply last_Some_elem_of.
Qed.

Lemma spa_put_all_spec n s base l : spa_queue s l -> base mod RISCV_PAGE_SIZE = 0 -> EYRIE_LOAD_START < base ->
  base + RISCV_PAGE_SIZE * Z.of_nat n <= freemem_va_start s + freemem_size s ->
  Forall (fun p => p < base) l ->
  wp (spa_put_all n base (base + RISCV_PAGE_SIZE * Z.of_nat n))
    (fun _ s' => spa_queue s' (l ++ pages_from base n) /\ same_globals s s' /\
      forall a, is_u64 a -> (forall q, q ∈ l ++ pages_from base n -> ~ q <= a < q + RISCV_PAGE_SIZE) -> rmem s' a = rmem s a) s.
Proof.
  revert s base l. induction n as [|n IH]; intros s base l Hq Ha Hlo Hhi Hlt; cbn [spa_put_all].
  - rewrite Z.mul_0_r, Z.add_0_r, Z.ltb_irrefl. wp_step. by rewrite app_nil_r.
  - pose proof Hq as [(? & ? & ?) _ _ _ _ _]. change RISCV_PAGE_SIZE with 4096 in *.
    rewrite (proj2 (Z.ltb_lt _ _)) by lia. wp_step. apply (wp_spa_put s base l); [done| | |].
    + split; [lia|done].
    + intros Hin%list_elem_of_In. rewrite Forall_forall in Hlt. specialize (Hlt _ Hin). lia.
    + intros s' Hq' Hg Hmem. pose proof Hg as [E1 E2 _ _ _ _]. unfold EYRIE_LOAD_START in *.
      rewrite u64_id by (unfold is_u64; lia).
      replace (base + 4096 * Z.of_nat (S n)) with (base + 4096 + 4096 * Z.of_nat n) by lia.
      eapply wp_mono; [apply (IH s' (base + 4096) (l ++ [base])); try done; try lia|].
      * mlia.
      * apply Forall_app. split; [|repeat constructor; lia]. revert Hlt. apply List.Forall_impl. lia.
      * intros [] s2 (Hq2 & Hg2 & Hm2). rewrite pages_from_S. change RISCV_PAGE_SIZE with 4096 in *. rewrite <- app_assoc in Hq2, Hm2. simpl in Hq2, Hm2.
        split; [done|]. split; [by etransitivity|]. intros a Hau Hout. rewrite Hm2 by done. rewrite Hmem.
        apply (put_mem_other s'); [apply Hq'|apply Hq'|done|]. intros q Hq0. apply Hout. clear -Hq0. set_solver.
Qed.

(** [spa_init] on page-aligned free memory above the load address terminates
    with every page of it on the free list, each once, in address order, and
    [spa_available] their number, and no other memory changed; an unaligned base or size leaves the enclave. *)
Theorem spa_init_correct s base size :
  freemem_ok s -> EYRIE_LOAD_START < base -> 0 <= size -> base + size <= freemem_va_start s + freemem_size s ->
  (base mod RISCV_PAGE_SIZE = 0 -> size mod RISCV_PAGE_SIZE = 0 ->
    exists s', spa_init base size s = Ok (tt, s') /\
      spa_queue s' (pages_from base (Z.to_nat (size / RISCV_PAGE_SIZE))) /\
      spa_available s' = Ok (size / RISCV_PAGE_SIZE, s') /\ same_globals s s' /\
      (forall a, is_u64 a -> (forall q, q ∈ pages_from base (Z.to_nat (size / RISCV_PAGE_SIZE)) -> ~ q <= a < q + RISCV_PAGE_SIZE) ->
        rmem s' a = rmem s a)) /\
  (base mod RISCV_PAGE_SIZE <> 0 \/ size mod RISCV_PAGE_SIZE <> 0 -> spa_init base size s = Hang).
Proof.
  intros Hm Hlo Hsize Hhi. pose proof Hm as (? & ? & ?). split.
  - intros Hb Hs. assert (spa_queue (set_free_pages LIST_INIT s) []) as Hq0 by (split; done || constructor).
    assert (0 <= size / RISCV_PAGE_SIZE) by (apply Z.div_pos; [done|by compute]).
    assert (size = RISCV_PAGE_SIZE * Z.of_nat (Z.to_nat (size / RISCV_PAGE_SIZE))) as Esz
      by (rewrite Z2Nat.id by done; apply Z_div_exact_2; [by compute|done]).
    destruct (wp_inv _ _ _ (spa_put_all_spec (Z.to_nat (size / RISCV_PAGE_SIZE)) (set_free_pages LIST_INIT s) base []
      Hq0 Hb Hlo ltac:(rewrite <- Esz; exact Hhi) ltac:(constructor))) as ([] & s' & E & Hq & Hg & Hmem).
    exists s'. split; [|split; [exact Hq|split; [|split; [by destruct Hg; split|exact Hmem]]]].
    + unfold spa_init, bind, modify, rt_assert.
      rewrite !(proj2 (IS_ALIGNED_spec _ RISCV_PAGE_BITS ltac:(by compute))) by done.
      unfold ret, EYRIE_LOAD_START in *. rewrite u64_id by (unfold is_u64; lia). rewrite <- Esz in E. exact E.
    + unfold spa_available, gets. rewrite (sq_count _ _ Hq). f_equal. f_equal. unfold pages_from. simpl app.
      rewrite length_map, length_seq. lia.
  - intros Hbad. unfold spa_init, bind, modify, rt_assert.
    destruct (IS_ALIGNED base RISCV_PAGE_BITS) eqn:Eb, (IS_ALIGNED size RISCV_PAGE_BITS) eqn:Es; try done.
    apply IS_ALIGNED_spec in Eb, Es; [|by compute..].
    by destruct Hbad as [Hbad|Hbad].
Qed.

(** ** Witnesses *)

Definition demo_rt : rt_state :=
  mkRt (fun _ => 0) LIST_INIT 0xffffffff00100000 0x10000 0x90000000 0 0xffffffff00001000 0.

Lemma demo_rt_ok : freemem_ok demo_rt.
Proof. repeat split; by compute. Qed.

Lemma spa_init_correct_witness :
  exists s', spa_init 0xffffffff00100000 0x3000 demo_rt = Ok (tt, s') /\ spa_available s' = Ok (3, s').
Proof.
  destruct (spa_init_correct demo_rt 0xffffffff00100000 0x3000 demo_rt_ok ltac:(by compute) ltac:(by compute)
    ltac:(by compute)) as [H _].
  destruct (H ltac:(by compute) ltac:(by compute)) as (s' & E & _ & A & _). exists s'. split; [exact E|exact A].
Defined.

(** The state with three free pages. *)
Definition demo_spa : rt_state :=
  match spa_init 0xffffffff00100000 0x3000 demo_rt with Ok (_, s) => s | _ => demo_rt end.

Lemma demo_spa_queue : spa_queue demo_spa [0xffffffff00100000; 0xffffffff00101000; 0xffffffff00102000].
Proof.
  destruct (wp_inv _ _ _ (spa_put_all_spec 3 (set_free_pages LIST_INIT demo_rt) 0xffffffff00100000 []
    ltac:(split; try done; try constructor; by compute) ltac:(by compute) ltac:(by compute) ltac:(by compute)
    ltac:(constructor))) as ([] & s' & E & Hq & _).
  assert (demo_spa = s') as -> by (unfold demo_spa; change (spa_init _ _ _) with
    (spa_put_all 3 0xffffffff00100000 (0xffffffff00100000 + RISCV_PAGE_SIZE * Z.of_nat 3) (set_free_pages LIST_INIT demo_rt));
    by rewrite E).
  exact Hq.
Qed.

Lemma spa_refines_fifo_witness :
  exists s', spa_run [OpGet true; OpWrite 0xffffffff00100008 7; OpGet false; OpPut 0xffffffff00100000; OpGet false;
    OpGet false; OpGet false] demo_spa =
    Ok ([0xffffffff00100000; 0; 0xffffffff00101000; 0; 0xffffffff00102000; 0xffffffff00100000; 0], s').
Proof.
  destruct (spa_refines_fifo demo_spa _
    [OpGet true; OpWrite 0xffffffff00100008 7; OpGet false; OpPut 0xffffffff00100000; OpGet false; OpGet false; OpGet false]
    demo_spa_queue) as (s' & E & _).
  - cbn [ops_legal fifo_step snd app op_legal].
    repeat split; try (by compute); intros Hin; set_unfold in Hin; destruct_or? Hin; discriminate Hin || done.
  - exists s'. exact E.
Defined.
