(* ===== verification/PageTable.v ===== *)
(** * The page tables of the runtime ([runtime/mm/mm.c])

    Walking and extending the three-level Sv39 page table, and the operations on
    the mappings of user pages.  The abstract view is a map from page numbers to
    page-table entries, in which a missing intermediate table reads as the entry
    0. *)

From S2P Require Import Prelude Mem Vm Freemem.
From Stdlib Require Import ZArith Lia.
From stdpp Require Import base tactics sets list list_numbers numbers.
Local Open Scope Z_scope.
Local Open Scope keystone_scope.

(** ** Operations *)

Definition get_program_break : M rt_state Z := gets current_program_break.
Definition set_program_break (new_break : Z) : M rt_state unit := modify (set_break new_break).

(** [&t[idx]]. *)
Definition pte_addr (t idx : Z) : Z := t +w 8 * idx.

(** The table an entry points to: [__va(pte_ppn(e) << RISCV_PAGE_BITS)]. *)
Definition next_table (s : rt_state) (e : Z) : Z := __va s (u64 (Z.shiftl (pte_ppn e) RISCV_PAGE_BITS)).

(** The loop of [__walk_internal] over the levels above the leaf: the last table,
    or the address of the first invalid entry. *)
Fixpoint walk_levels (levels : list Z) (t addr : Z) : M rt_state (Z + Z) :=
  match levels with
  | [] => ret (inr t)
  | i :: levels =>
      let idx := RISCV_GET_PT_INDEX addr i in
      let! e := rload (pte_addr t idx) in
      if Z.land e PTE_V =? 0 then ret (inl (pte_addr t idx))
      else
        let! s := get in
        walk_levels levels (next_table s e) addr
  end.

(** [create] is what to do at a missing entry, [None] for the lookup that returns
    a null pointer. *)
Definition __walk_internal (root addr : Z) (create : option (Z -> M rt_state Z)) : M rt_state Z :=
  let! r := walk_levels [1; 2] root addr in
  match r, create with
  | inr t, _ => ret (pte_addr t (RISCV_GET_PT_INDEX addr RISCV_PT_LEVELS))
  | inl entry, Some continue => continue entry
  | inl entry, None => ret 0
  end.

Definition __walk (root addr : Z) : M rt_state Z := __walk_internal root addr None.

(** [__walk_create] and [__continue_walk_create] call each other: a table is added
    at the missing entry and the walk starts again.  [fuel] bounds the number of
    tables added. *)
Fixpoint __walk_create (fuel : nat) (root addr : Z) : M rt_state Z :=
  __walk_internal root addr (Some (fun entry =>
    match fuel with
    | O => hang
    | S fuel =>
        let! new_page := spa_get_zero in
        rt_assert (truthy new_page) ;;;
        let! s := get in
        rstore entry (ptd_create (ppn (__pa s new_page))) ;;;
        __walk_create fuel root addr
    end)).

(** Two levels can be missing. *)
Definition walk_create (addr : Z) : M rt_state Z :=
  let! s := get in __walk_create 2 (root_page_table s) addr.

Definition walk (addr : Z) : M rt_state Z :=
  let! s := get in __walk (root_page_table s) addr.

Definition vaddr (vpn : Z) : Z := u64 (Z.shiftl vpn RISCV_PAGE_BITS).

Definition user_flags (flags : Z) : Z := Z.lor (Z.lor (Z.lor PTE_D PTE_A) PTE_V) flags.

Definition map_page (vpn ppn flags : Z) : M rt_state Z :=
  let! pte := walk_create (vaddr vpn) in
  let! e := rload pte in
  if negb (Z.land e PTE_V =? 0) then ret (u64 (-1))
  else rstore pte (pte_create ppn (user_flags flags)) ;;; ret 1.

Definition alloc_page (vpn flags : Z) : M rt_state Z :=
  let! pte := walk_create (vaddr vpn) in
  if pte =? 0 then ret 0
  else
    let! e := rload pte in
    let! s := get in
    if negb (Z.land e PTE_V =? 0) then ret (__va s (u64 (Z.shiftl e RISCV_PAGE_BITS)))
    else
      let! page := spa_get_zero in
      rt_assert (truthy page) ;;;
      rstore pte (pte_create (Vm.ppn (__pa s page)) (user_flags flags)) ;;;
      ret page.

Definition realloc_page (vpn flags : Z) : M rt_state Z :=
  rt_assert (negb (Z.land flags PTE_U =? 0)) ;;;
  let! pte := walk (vaddr vpn) in
  if pte =? 0 then ret 0
  else
    let! e := rload pte in
    if negb (Z.land e PTE_V =? 0) then
      rstore pte (pte_create (pte_ppn e) flags) ;;;
      let! e' := rload pte in
      let! s := get in
      ret (__va s (u64 (Z.shiftl e' RISCV_PAGE_BITS)))
    else ret 0.

Definition free_page (vpn : Z) : M rt_state unit :=
  let! pte := walk (vaddr vpn) in
  if pte =? 0 then ret tt
  else
    let! e := rload pte in
    if Z.land e PTE_V =? 0 then ret tt
    else
      rt_assert (negb (Z.land e PTE_U =? 0)) ;;;
      rstore pte 0 ;;;
      let! s := get in
      spa_put (next_table s e).

(** [for (i = 0; i < count; i++)] with an [unsigned int] counter [i] and the early
    exits of the callers.  The fuel, [count] rounds, is used up only when [count]
    does not fit the counter and the loop of the program does not end. *)
Fixpoint alloc_pages_loop (fuel : nat) (vpn count i flags : Z) : M rt_state Z :=
  if i <? count then
    match fuel with
    | O => hang
    | S fuel =>
        let! page := alloc_page (vpn +w i) flags in
        if page =? 0 then ret i else alloc_pages_loop fuel vpn count (u32 (i + 1)) flags
    end
  else ret i.
Definition alloc_pages (vpn count flags : Z) : M rt_state Z :=
  alloc_pages_loop (Z.to_nat count) vpn count 0 flags.

Fixpoint free_pages_loop (fuel : nat) (vpn count i : Z) : M rt_state unit :=
  if i <? count then
    match fuel with
    | O => hang
    | S fuel => free_page (vpn +w i) ;;; free_pages_loop fuel vpn count (u32 (i + 1))
    end
  else ret tt.
Definition free_pages (vpn count : Z) : M rt_state unit := free_pages_loop (Z.to_nat count) vpn count 0.

Fixpoint test_va_range_loop (fuel : nat) (vpn count i : Z) : M rt_state Z :=
  if i <? count then
    match fuel with
    | O => hang
    | S fuel =>
        let! pte := walk (vaddr (vpn +w i)) in
        let! e := (if pte =? 0 then ret 0 else rload pte) in
        if negb (e =? 0) then ret i else test_va_range_loop fuel vpn count (u32 (i + 1))
    end
  else ret i.
Definition test_va_range (vpn count : Z) : M rt_state Z := test_va_range_loop (Z.to_nat count) vpn count 0.

Definition translate (va : Z) : M rt_state Z :=
  let! pte := walk va in
  let! e := (if pte =? 0 then ret 0 else rload pte) in
  if negb (pte =? 0) && negb (Z.land e PTE_V =? 0)
  then ret (Z.lor (u64 (Z.shiftl (pte_ppn e) RISCV_PAGE_BITS)) (RISCV_PAGE_OFFSET va))
  else ret 0.

Definition pte_of_va (va : Z) : M rt_state Z := walk va.

Definition map_flags : Z := Z.lor (Z.lor (Z.lor (Z.lor PTE_R PTE_W) PTE_X) PTE_A) PTE_D.

(** The leaf loop of [__map_with_reserved_page_table_64]; [n] bounds the number of
    pages. *)
Fixpoint map_leaves (n : nat) (dram_base dram_size ptr leaf_level leaf_pt offset : Z) : M rt_state unit :=
  if offset <? dram_size then
    match n with
    | O => hang
    | S n =>
        rstore (pte_addr leaf_pt (RISCV_GET_PT_INDEX (ptr +w offset) leaf_level))
          (pte_create (ppn (dram_base +w offset)) map_flags) ;;;
        map_leaves n dram_base dram_size ptr leaf_level leaf_pt (offset +w RISCV_GET_LVL_PGSIZE leaf_level)
    end
  else ret tt.

Definition __map_with_reserved_page_table_64 (dram_base dram_size ptr l2_pt l3_pt : Z) : M rt_state unit :=
  let leaf_level := if l3_pt =? 0 then 2 else 3 in
  let leaf_pt := if l3_pt =? 0 then l2_pt else l3_pt in
  rt_assert (dram_size <=? RISCV_GET_LVL_PGSIZE (leaf_level - 1)) ;;;
  rt_assert (IS_ALIGNED dram_base (RISCV_GET_LVL_PGSIZE_BITS leaf_level)) ;;;
  rt_assert (IS_ALIGNED ptr (RISCV_GET_LVL_PGSIZE_BITS (leaf_level - 1))) ;;;
  let! s := get in
  rstore (pte_addr (root_page_table s) (RISCV_GET_PT_INDEX ptr 1)) (ptd_create (ppn (kernel_va_to_pa s l2_pt))) ;;;
  (if negb (leaf_pt =? l2_pt) then
     rstore (pte_addr l2_pt (RISCV_GET_PT_INDEX ptr 2)) (ptd_create (ppn (kernel_va_to_pa s l3_pt)))
   else ret tt) ;;;
  map_leaves 512 dram_base dram_size ptr leaf_level leaf_pt 0.

Definition map_with_reserved_page_table (dram_base dram_size ptr l2_pt l3_pt : Z) : M rt_state unit :=
  if RISCV_GET_LVL_PGSIZE 2 <? dram_size
  then __map_with_reserved_page_table_64 dram_base dram_size ptr l2_pt 0
  else __map_with_reserved_page_table_64 dram_base dram_size ptr l2_pt l3_pt.

(** ** Three-level trees of tables

    [T t i] is entry [i] of the table at address [t], [child e] the table that
    the entry [e] points to.  The tables of the second and third level are [L2]
    and [L3]; no table is reachable twice. *)

Definition valid_pte (e : Z) : bool := Z.testbit e 0.
Definition is_idx (i : Z) : Prop := 0 <= i < 512.

Lemma tables_1 (root : Z) L2 L3 : root ∈ root :: L2 ++ L3.
Proof. set_solver. Qed.
Lemma tables_2 (root : Z) L2 L3 t : t ∈ L2 -> t ∈ root :: L2 ++ L3.
Proof. set_solver. Qed.
Lemma tables_3 (root : Z) L2 L3 t : t ∈ L3 -> t ∈ root :: L2 ++ L3.
Proof. set_solver. Qed.

Section Tree.
Context (root : Z) (child : Z -> Z).
Implicit Types (T : Z -> Z -> Z) (i j : Z * Z * Z).

(** The table and the index of the leaf entry for the three indices of an address. *)
Definition leaf_of T i : option (Z * Z) :=
  let '(i1, i2, i3) := i in
  if valid_pte (T root i1) then
    if valid_pte (T (child (T root i1)) i2) then Some (child (T (child (T root i1)) i2), i3) else None
  else None.

(** The abstract map: the leaf entry, 0 when a table is missing. *)
Definition pte_of T i : Z := match leaf_of T i with Some (t, k) => T t k | None => 0 end.

Definition is_idx3 i : Prop := is_idx i.1.1 /\ is_idx i.1.2 /\ is_idx i.2.

Record tree T L2 L3 : Prop := {
  tr_nodup : NoDup (root :: L2 ++ L3);
  tr_1 : forall a, is_idx a -> valid_pte (T root a) = true -> child (T root a) ∈ L2;
  tr_2 : forall t a, t ∈ L2 -> is_idx a -> valid_pte (T t a) = true -> child (T t a) ∈ L3;
  tr_inj1 : forall a b, is_idx a -> is_idx b -> valid_pte (T root a) = true -> valid_pte (T root b) = true ->
    child (T root a) = child (T root b) -> a = b;
  tr_inj2 : forall t a u b, t ∈ L2 -> u ∈ L2 -> is_idx a -> is_idx b ->
    valid_pte (T t a) = true -> valid_pte (T u b) = true -> child (T t a) = child (T u b) -> t = u /\ a = b
}.

(** The three kinds of tables are apart. *)
Lemma tree_apart T L2 L3 : tree T L2 L3 -> (root ∉ L2) /\ (root ∉ L3) /\ (forall t, t ∈ L2 -> t ∉ L3).
Proof.
  intros [Hn _ _ _ _]. apply list.NoDup_cons in Hn as [Hr Hn]. apply list.NoDup_app in Hn as (_ & Hd & _). set_solver.
Qed.

Lemma leaf_in_L3 T L2 L3 i t k : tree T L2 L3 -> is_idx3 i -> leaf_of T i = Some (t, k) ->
  (t ∈ L3) /\ k = i.2.
Proof.
  intros Ht. destruct i as [[i1 i2] i3]. unfold is_idx3, leaf_of; simpl. intros (H1 & H2 & H3).
  destruct (valid_pte (T root i1)) eqn:E1; [|done].
  destruct (valid_pte (T (child (T root i1)) i2)) eqn:E2; [|done]. intros [= <- <-]. split; [|done].
  apply (tr_2 _ _ _ Ht); [by apply (tr_1 _ _ _ Ht)|done|done].
Qed.

(** Different indices have different leaf entries. *)
Lemma leaf_inj T L2 L3 i j l : tree T L2 L3 -> is_idx3 i -> is_idx3 j ->
  leaf_of T i = Some l -> leaf_of T j = Some l -> i = j.
Proof.
  intros Ht. destruct i as [[i1 i2] i3], j as [[j1 j2] j3]. unfold is_idx3, leaf_of; simpl.
  intros (? & ? & ?) (? & ? & ?).
  destruct (valid_pte (T root i1)) eqn:E1; [|done]. destruct (valid_pte (T root j1)) eqn:F1; [|done].
  destruct (valid_pte (T (child (T root i1)) i2)) eqn:E2; [|done].
  destruct (valid_pte (T (child (T root j1)) j2)) eqn:F2; [|done].
  intros [= <-] [= E ->].
  destruct (tr_inj2 _ _ _ Ht (child (T root j1)) j2 (child (T root i1)) i2) as [Et ->]; try done.
  { by apply (tr_1 _ _ _ Ht). } { by apply (tr_1 _ _ _ Ht). }
  by rewrite (tr_inj1 _ _ _ Ht j1 i1).
Qed.

(** Entries outside the tables do not matter. *)
Lemma tree_ext T T' L2 L3 : tree T L2 L3 ->
  (forall t a, t ∈ root :: L2 ++ L3 -> is_idx a -> T' t a = T t a) ->
  tree T' L2 L3 /\ (forall i, is_idx3 i -> leaf_of T' i = leaf_of T i /\ pte_of T' i = pte_of T i).
Proof.
  intros Ht Hext.
  assert (forall a, is_idx a -> T' root a = T root a) as Hr by (intros; apply Hext; [apply tables_1|done]).
  assert (forall t a, t ∈ L2 -> is_idx a -> T' t a = T t a) as H2 by (intros; apply Hext; [by apply tables_2|done]).
  pose proof (tree_apart _ _ _ Ht) as (? & ? & ?). split.
  - destruct Ht as [Hn T1 T2 I1 I2]. split; [done|..].
    + intros a Ha. rewrite Hr by done. by apply T1.
    + intros t a ? Ha. rewrite H2 by done. by apply T2.
    + intros a b Ha Hb. rewrite !Hr by done. by apply I1.
    + intros t a u b ? ? Ha Hb. rewrite !H2 by done. by apply I2.
  - intros i Hi. assert (leaf_of T' i = leaf_of T i) as El.
    { destruct i as [[i1 i2] i3], Hi as (? & ? & ?); simpl in *. unfold leaf_of. rewrite Hr by done.
      destruct (valid_pte (T root i1)) eqn:E1; [|done]. by rewrite H2 by (try apply (tr_1 _ _ _ Ht); done). }
    split; [done|]. unfold pte_of. rewrite El. destruct (leaf_of T i) as [[t k]|] eqn:E; [|done].
    destruct (leaf_in_L3 _ _ _ _ _ _ Ht Hi E) as [? ->]. apply Hext; [by apply tables_3|apply Hi].
Qed.

(** Writing a leaf entry changes the map at one place. *)
Lemma tree_set_leaf T T' L2 L3 i t k v : tree T L2 L3 -> is_idx3 i -> leaf_of T i = Some (t, k) ->
  (forall u a, u ∈ root :: L2 ++ L3 -> is_idx a -> T' u a = if decide (u = t /\ a = k) then v else T u a) ->
  tree T' L2 L3 /\
  (forall j, is_idx3 j -> leaf_of T' j = leaf_of T j /\ pte_of T' j = if decide (j = i) then v else pte_of T j).
Proof.
  intros Ht Hi Hl Hupd. destruct (leaf_in_L3 _ _ _ _ _ _ Ht Hi Hl) as [Hin ->].
  pose proof (tree_apart _ _ _ Ht) as (Hr2 & Hr3 & H23).
  set (T0 := fun u a => if decide (u ∈ L3) then T u a else T' u a).
  destruct (tree_ext T T0 L2 L3 Ht) as [Ht0 H0].
  { intros u a Hu Ha. unfold T0. case_decide; [done|]. rewrite Hupd by done. by rewrite decide_False by naive_solver. }
  assert (forall a, T' root a = T0 root a) as Hr by (intros; unfold T0; by rewrite decide_False).
  assert (forall u a, u ∈ L2 -> T' u a = T0 u a) as H2 by (intros; unfold T0; rewrite decide_False; auto).
  assert (forall j, is_idx3 j -> leaf_of T' j = leaf_of T j) as Hleaf.
  { intros j Hj. rewrite <- (proj1 (H0 j Hj)). destruct j as [[j1 j2] j3], Hj as (? & ? & ?); simpl in *.
    unfold leaf_of. rewrite Hr. destruct (valid_pte (T0 root j1)) eqn:E1; [|done].
    by rewrite H2 by by apply (tr_1 _ _ _ Ht0). }
  split.
  - destruct Ht0 as [Hn T1 T2 I1 I2]. split; [done|..].
    + intros a Ha. rewrite Hr. by apply T1.
    + intros u a ? Ha. rewrite H2 by done. by apply T2.
    + intros a b Ha Hb. rewrite !Hr. by apply I1.
    + intros u a w b ? ? Ha Hb. rewrite !H2 by done. by apply I2.
  - intros j Hj. split; [by apply Hleaf|]. unfold pte_of. rewrite Hleaf by done.
    destruct (leaf_of T j) as [[u b]|] eqn:E.
    + destruct (leaf_in_L3 _ _ _ _ _ _ Ht Hj E) as [Hu ->]. rewrite Hupd by (by apply tables_3 || apply Hj).
      case_decide as D; case_decide as D'; try done.
      * destruct D as [-> D]. exfalso. apply D'. apply (leaf_inj T L2 L3 j i (t, i.2)); try done. by rewrite E, D.
      * subst j. rewrite Hl in E. naive_solver.
    + case_decide; [congruence|done].
Qed.

(** A fresh zeroed page [p] as a second-level table. *)
Lemma tree_add_2 T T' L2 L3 a1 p v : tree T L2 L3 -> is_idx a1 -> valid_pte (T root a1) = false ->
  p ∉ root :: L2 ++ L3 -> valid_pte v = true -> child v = p ->
  (forall u a, u ∈ root :: p :: L2 ++ L3 -> is_idx a ->
    T' u a = if decide (u = root /\ a = a1) then v else if decide (u = p) then 0 else T u a) ->
  tree T' (p :: L2) L3 /\ (forall j, is_idx3 j -> pte_of T' j = pte_of T j).
Proof.
  intros Ht Ha1 Hinv Hp Hv Hc Hupd. pose proof (tree_apart _ _ _ Ht) as (Hr2 & Hr3 & H23).
  assert (p <> root /\ (p ∉ L2) /\ p ∉ L3) as (Hpr & Hp2 & Hp3) by set_solver.
  assert (forall a, is_idx a -> T' root a = if decide (a = a1) then v else T root a) as Hr.
  { intros a Ha. rewrite Hupd by (done || set_solver). repeat case_decide; naive_solver. }
  assert (forall a, is_idx a -> T' p a = 0) as HTp.
  { intros a Ha. rewrite Hupd by (done || set_solver). repeat case_decide; naive_solver. }
  assert (forall u a, u ∈ L2 -> is_idx a -> T' u a = T u a) as HT2.
  { intros u a Hu Ha. rewrite Hupd by (done || set_solver). repeat case_decide; naive_solver. }
  assert (forall u a, u ∈ L3 -> is_idx a -> T' u a = T u a) as HT3.
  { intros u a Hu Ha. rewrite Hupd by (done || set_solver). repeat case_decide; naive_solver. }
  clear Hupd. split.
  - destruct Ht as [Hn T1 T2 I1 I2]. split.
    + apply list.NoDup_cons in Hn as [? ?]. simpl. rewrite !list.NoDup_cons. set_solver.
    + intros a Ha. rewrite Hr by done. case_decide; [intros _; rewrite Hc; set_solver|]. intros Hva.
      apply list_elem_of_further. by apply T1.
    + intros t a [->|Ht]%elem_of_cons Ha; [by rewrite HTp|]. rewrite HT2 by done. by apply T2.
    + intros a b Ha Hb. rewrite !Hr by done. repeat case_decide; try congruence; intros Va Vb E.
      * exfalso. apply Hp2. rewrite <- Hc, E. by apply T1.
      * exfalso. apply Hp2. rewrite <- Hc, <- E. by apply T1.
      * by apply I1.
    + intros t a u b [->|Ht]%elem_of_cons [->|Hu]%elem_of_cons Ha Hb; rewrite ?HTp by done; try done.
      rewrite !HT2 by done. by apply I2.
  - intros [[j1 j2] j3] (? & ? & ?); simpl in *. unfold pte_of, leaf_of. rewrite Hr by done.
    case_decide as D.
    + subst j1. rewrite Hv, Hc, HTp, Hinv by done. done.
    + destruct (valid_pte (T root j1)) eqn:E1; [|done].
      assert (child (T root j1) ∈ L2) by by apply (tr_1 _ _ _ Ht).
      rewrite HT2 by done. destruct (valid_pte (T (child (T root j1)) j2)) eqn:E2; [|done]. rewrite HT3; [done| |done].
      by apply (tr_2 _ _ _ Ht).
Qed.

(** A fresh zeroed page [p] as a third-level table. *)
Lemma tree_add_3 T T' L2 L3 t a2 p v : tree T L2 L3 -> t ∈ L2 -> is_idx a2 -> valid_pte (T t a2) = false ->
  p ∉ root :: L2 ++ L3 -> valid_pte v = true -> child v = p ->
  (forall u a, u ∈ root :: p :: L2 ++ L3 -> is_idx a ->
    T' u a = if decide (u = t /\ a = a2) then v else if decide (u = p) then 0 else T u a) ->
  tree T' L2 (p :: L3) /\ (forall j, is_idx3 j -> pte_of T' j = pte_of T j).
Proof.
  intros Ht Ht2 Ha2 Hinv Hp Hv Hc Hupd. pose proof (tree_apart _ _ _ Ht) as (Hr2 & Hr3 & H23).
  assert (p <> root /\ (p ∉ L2) /\ p ∉ L3) as (Hpr & Hp2 & Hp3) by set_solver.
  assert (forall a, is_idx a -> T' root a = T root a) as Hr.
  { intros a Ha. rewrite Hupd by (done || set_solver). repeat case_decide; naive_solver. }
  assert (forall a, is_idx a -> T' p a = 0) as HTp.
  { intros a Ha. rewrite Hupd by (done || set_solver). repeat case_decide; naive_solver. }
  assert (forall u a, u ∈ L2 -> is_idx a -> T' u a = if decide (u = t /\ a = a2) then v else T u a) as HT2.
  { intros u a Hu Ha. rewrite Hupd by (done || set_solver). repeat case_decide; naive_solver. }
  assert (forall u a, u ∈ L3 -> is_idx a -> T' u a = T u a) as HT3.
  { intros u a Hu Ha. rewrite Hupd by (done || set_solver). repeat case_decide; naive_solver. }
  clear Hupd. split.
  - destruct Ht as [Hn T1 T2 I1 I2]. split.
    + apply list.NoDup_cons in Hn as [? Hn]. apply list.NoDup_app in Hn as (? & ? & ?).
      rewrite list.NoDup_cons, list.NoDup_app, list.NoDup_cons. set_solver.
    + intros a Ha. rewrite Hr by done. by apply T1.
    + intros u a Hu Ha. rewrite HT2 by done. case_decide; [intros _; rewrite Hc; set_solver|]. intros Hva.
      apply list_elem_of_further. by apply T2.
    + intros a b Ha Hb. rewrite !Hr by done. by apply I1.
    + intros u a w b Hu Hw Ha Hb. rewrite !HT2 by done. repeat case_decide; intros Va Vb E; [naive_solver|..].
      * exfalso. apply Hp3. rewrite <- Hc, E. by apply T2.
      * exfalso. apply Hp3. rewrite <- Hc, <- E. by apply T2.
      * by apply I2.
  - intros [[j1 j2] j3] (? & ? & ?); simpl in *. unfold pte_of, leaf_of. rewrite Hr by done.
    destruct (valid_pte (T root j1)) eqn:E1; [|done].
    assert (child (T root j1) ∈ L2) as Hin by by apply (tr_1 _ _ _ Ht).
    rewrite HT2 by done. case_decide as D.
    + destruct D as [-> ->]. by rewrite Hv, Hc, HTp, Hinv.
    + destruct (valid_pte (T (child (T root j1)) j2)) eqn:E2; [|done]. rewrite HT3; [done| |done].
      by apply (tr_2 _ _ _ Ht).
Qed.
End Tree.

(** ** The tables in memory *)

Definition table_of (s : rt_state) (t a : Z) : Z := load64 (rmem s) (pte_addr t a).

(** The indices of an address. *)
Definition idx3 (addr : Z) : Z * Z * Z :=
  (RISCV_GET_PT_INDEX addr 1, RISCV_GET_PT_INDEX addr 2, RISCV_GET_PT_INDEX addr 3).

Definition leaf (s : rt_state) (i : Z * Z * Z) : option (Z * Z) :=
  leaf_of (root_page_table s) (next_table s) (table_of s) i.

(** The map the page table represents. *)
Definition pte_map (s : rt_state) (i : Z * Z * Z) : Z :=
  pte_of (root_page_table s) (next_table s) (table_of s) i.

Definition page_ok (p : Z) : Prop := is_u64 p /\ 0 < p /\ p mod RISCV_PAGE_SIZE = 0.

Definition tables (s : rt_state) (L2 L3 : list Z) : list Z := root_page_table s :: L2 ++ L3.

(** The invariant: the tables form a tree of distinct pages, none of which is on
    the free list [l]. *)
Record pt_inv (s : rt_state) (L2 L3 l : list Z) : Prop := {
  pi_tree : tree (root_page_table s) (next_table s) (table_of s) L2 L3;
  pi_pages : forall t, t ∈ tables s L2 L3 -> page_ok t;
  pi_queue : spa_queue s l;
  pi_apart : forall t, t ∈ tables s L2 L3 -> t ∉ l;
  pi_load : is_u64 (load_pa_start s) /\ load_pa_start s mod RISCV_PAGE_SIZE = 0
}.

(** The pages an operation may write: the tables and the free list. *)
Definition owned (s : rt_state) (L2 L3 l : list Z) : list Z := tables s L2 L3 ++ l.

Definition in_page (p a : Z) : Prop := p <= a < p + RISCV_PAGE_SIZE.

(** An operation writes only the pages [P] it owns, and those it owns afterwards,
    [P'], it owned before. *)
Record only_touches (P : list Z) (s s' : rt_state) (P' : list Z) : Prop := {
  ot_mem : forall a, is_u64 a -> (forall p, p ∈ P -> ~ in_page p a) -> rmem s' a = rmem s a;
  ot_sub : forall p, p ∈ P' -> p ∈ P
}.

Lemma only_touches_refl P s : only_touches P s s P.
Proof. by split. Qed.

Lemma only_touches_trans P s P1 s1 P2 s2 :
  only_touches P s s1 P1 -> only_touches P1 s1 s2 P2 -> only_touches P s s2 P2.
Proof.
  intros [M1 S1] [M2 S2]. split; [|auto]. intros a Ha Hout. rewrite M2 by (try done; intros p Hp; by apply Hout, S1). by apply M1.
Qed.

Lemma is_idx_index addr n : 1 <= n <= 3 -> is_idx (RISCV_GET_PT_INDEX addr n).
Proof. intros Hn. rewrite PT_INDEX_spec by done. unfold is_idx. apply Z.mod_pos_bound. lia. Qed.

Lemma is_idx3_idx3 addr : is_idx3 (idx3 addr).
Proof. repeat split; apply is_idx_index; lia. Qed.

Lemma pte_addr_eq t a : page_ok t -> is_idx a -> pte_addr t a = t + 8 * a.
Proof.
  intros (Ht & _ & Hm) Ha. unfold pte_addr, is_u64, is_idx in *. change RISCV_PAGE_SIZE with 4096 in *.
  apply u64_id. unfold is_u64. mlia.
Qed.

Lemma pte_addr_aligned t a : page_ok t -> is_idx a -> aligned8 (pte_addr t a) /\ pte_addr t a <> 0.
Proof.
  intros Ht Ha. rewrite pte_addr_eq by done. destruct Ht as (Ht & Hp & Hm). unfold aligned8, is_u64, is_idx in *.
  change RISCV_PAGE_SIZE with 4096 in *. repeat split; mlia.
Qed.

Lemma pte_addr_inj t a u b : page_ok t -> page_ok u -> is_idx a -> is_idx b ->
  pte_addr t a = pte_addr u b -> u = t /\ b = a.
Proof.
  intros Ht Hu Ha Hb. rewrite !pte_addr_eq by done. destruct Ht as (_ & _ & ?), Hu as (_ & _ & ?).
  unfold is_idx in *. change RISCV_PAGE_SIZE with 4096 in *. intros. split; mlia.
Qed.

(** A table entry after a store to a table entry. *)
Lemma table_of_store s t a v u b : page_ok t -> page_ok u -> is_idx a -> is_idx b -> is_u64 v ->
  table_of (set_rmem (store64 (rmem s) (pte_addr t a) v) s) u b =
    if decide (u = t /\ b = a) then v else table_of s u b.
Proof.
  intros Ht Hu Ha Hb Hv. unfold table_of. cbn [rmem set_rmem].
  rewrite load64_store64 by (done || by apply pte_addr_aligned). do 2 case_decide; try done.
  - exfalso. by apply H0, pte_addr_inj.
  - exfalso. by destruct H0 as [-> ->].
Qed.

(** A table entry after a page was zeroed. *)
Lemma table_of_zeroed s s' p u b : freemem_ok s -> free_page_ok s p -> page_ok u -> is_idx b ->
  rmem s' = get_mem true p (rmem s) -> table_of s' u b = if decide (u = p) then 0 else table_of s u b.
Proof.
  intros Hm Hp Hu Hb Hmem. unfold table_of. rewrite Hmem. unfold get_mem.
  pose proof (free_page_aligned s p Hm Hp) as ([? ?] & ? & ?). destruct Hp as [_ Hpm].
  rewrite load64_memset0 by (done || by apply pte_addr_aligned). rewrite pte_addr_eq by done.
  destruct Hu as (_ & _ & ?). unfold is_idx in *. change RISCV_PAGE_SIZE with 4096 in *.
  do 2 case_decide; try done; exfalso; mlia.
Qed.

(** What the two kinds of writes touch. *)
Lemma touch_store P s t a v : page_ok t -> is_idx a -> t ∈ P ->
  only_touches P s (set_rmem (store64 (rmem s) (pte_addr t a) v) s) P.
Proof.
  intros Ht Ha Hin. split; [|done]. intros x Hx Hout. cbn [rmem set_rmem]. apply write_bytes_other.
  rewrite length_le64. apply not_true_iff_false. intros Hr. apply (Hout t Hin). unfold in_page.
  rewrite pte_addr_eq in Hr by done. destruct Ht as (Ht & _ & Hm). unfold in_range, is_u64, is_idx, u64 in *.
  change RISCV_PAGE_SIZE with 4096 in *. apply Z.ltb_lt in Hr. mlia.
Qed.

Lemma touch_zero P s s' p : is_u64 p -> p + RISCV_PAGE_SIZE <= 2 ^ 64 -> p ∈ P -> rmem s' = get_mem true p (rmem s) ->
  only_touches P s s' P /\ forall x, is_u64 x -> in_page p x -> rmem s' x = 0.
Proof.
  intros Hp Htop Hin Hmem. rewrite Hmem. unfold get_mem, memset, in_range, in_page, is_u64, u64 in *.
  change RISCV_PAGE_SIZE with 4096 in *. split.
  - split; [|done]. intros x Hx Hout. rewrite Hmem. cbn.
    destruct (_ <? _) eqn:E; [|done]. exfalso. apply (Hout p Hin). apply Z.ltb_lt in E.
    unfold in_page, is_u64 in *. change RISCV_PAGE_SIZE with 4096. mlia.
  - intros x Hx [H1 H2]. unfold is_u64 in Hx. change RISCV_PAGE_SIZE with 4096 in H2. rewrite (proj2 (Z.ltb_lt _ _)); [done|]. rewrite Z.mod_small; lia.
Qed.

Lemma free_page_page_ok s p : freemem_ok s -> free_page_ok s p -> page_ok p.
Proof. intros Hm Hp. pose proof (free_page_aligned s p Hm Hp) as ([? ?] & ? & _). split; [done|]. split; [done|apply Hp]. Qed.

(** The entry made for a page leads back to the page. *)
Lemma next_table_create s p t : page_ok p -> 0 <= t -> is_u64 (load_pa_start s) ->
  load_pa_start s mod RISCV_PAGE_SIZE = 0 -> next_table s (pte_create (ppn (__pa s p)) t) = p.
Proof.
  intros (Hp & _ & Hm) Ht Hl Hlm. unfold next_table.
  assert (is_u64 (__pa s p)) as Hr by apply u64_range.
  assert (__pa s p mod 4096 = 0) as Ha.
  { unfold __pa, u64, EYRIE_LOAD_START, is_u64 in *. change RISCV_PAGE_SIZE with 4096 in *. mlia. }
  unfold is_u64 in *. unfold ppn, RISCV_PAGE_BITS. rewrite Z.shiftr_div_pow2 by lia.
  change (2 ^ 12) with 4096. rewrite pte_ppn_create by (done || mlia).
  rewrite Z.shiftl_mul_pow2 by lia. change (2 ^ 12) with 4096.
  replace (__pa s p / 4096 * 4096) with (__pa s p) by mlia. rewrite u64_id by done. by apply va_pa.
Qed.

Lemma next_table_ptd s p : page_ok p -> is_u64 (load_pa_start s) -> load_pa_start s mod RISCV_PAGE_SIZE = 0 ->
  next_table s (ptd_create (ppn (__pa s p))) = p.
Proof. intros. unfold ptd_create. apply next_table_create; [done|by compute|done|done]. Qed.

Lemma ptd_valid n : valid_pte (ptd_create n) = true.
Proof. exact (pte_create_valid n PTE_V). Qed.

Lemma ptd_range n : is_u64 (ptd_create n).
Proof. unfold ptd_create. exact (pte_create_range n PTE_V ltac:(by compute)). Qed.

Lemma same_globals_next s s' e : same_globals s s' -> next_table s' e = next_table s e.
Proof. intros [_ _ E _ _ _]. unfold next_table, __va. by rewrite E. Qed.

(** The tree does not depend on the globals that no operation writes. *)
Lemma tree_globals s s' T L2 L3 : same_globals s s' ->
  tree (root_page_table s) (next_table s) T L2 L3 <-> tree (root_page_table s') (next_table s') T L2 L3.
Proof.
  intros [_ _ El _ Er _]. assert (next_table s' = next_table s) as ->; [|by rewrite Er].
  unfold next_table, __va. by rewrite El.
Qed.

(** ** Walks *)

Definition walk_spec (s : rt_state) (addr : Z) : Z + Z :=
  let r := root_page_table s in
  let '(i1, i2, _) := idx3 addr in
  let c1 := next_table s (table_of s r i1) in
  if valid_pte (table_of s r i1) then
    if valid_pte (table_of s c1 i2) then inr (next_table s (table_of s c1 i2)) else inl (pte_addr c1 i2)
  else inl (pte_addr r i1).

Lemma walk_levels_run s addr : walk_levels [1; 2] (root_page_table s) addr s = Ok (walk_spec s addr, s).
Proof.
  unfold walk_levels, walk_spec, bind, rload, gets, get, ret, idx3. cbv zeta beta iota. fold (table_of s).
  change (load64 (rmem s) (pte_addr ?t ?a)) with (table_of s t a). rewrite land_PTE_V.
  change (Z.testbit ?x 0) with (valid_pte x).
  destruct (valid_pte (table_of s (root_page_table s) (RISCV_GET_PT_INDEX addr 1))); cbn [negb]; [|done].
  change (load64 (rmem s) (pte_addr ?t ?a)) with (table_of s t a). rewrite land_PTE_V.
  change (Z.testbit ?x 0) with (valid_pte x). by match goal with |- context [valid_pte ?x] => destruct (valid_pte x) end.
Qed.

Lemma walk_run s addr : walk addr s =
  Ok (match leaf s (idx3 addr) with Some (t, a) => pte_addr t a | None => 0 end, s).
Proof.
  unfold walk, __walk, __walk_internal, bind, get. rewrite walk_levels_run.
  unfold walk_spec, leaf, leaf_of, idx3. cbv zeta beta iota. by repeat (case_match; simplify_eq).
Qed.

(** How many tables a walk has to add. *)
Definition missing (s : rt_state) (addr : Z) : nat :=
  let r := root_page_table s in
  let '(i1, i2, _) := idx3 addr in
  if valid_pte (table_of s r i1) then
    if valid_pte (table_of s (next_table s (table_of s r i1)) i2) then 0 else 1
  else 2.

(** Adding the zeroed page [p], taken from the free list, as the table of the
    invalid entry [a] of table [t]. *)
Lemma wp_add_table {A} s L2 L3 p l t a (k : M rt_state A) (Q : A -> rt_state -> Prop) :
  pt_inv s L2 L3 (p :: l) -> is_idx a ->
  (t = root_page_table s \/ t ∈ L2) -> valid_pte (table_of s t a) = false ->
  (forall s' L2' L3', pt_inv s' L2' L3' l -> same_globals s s' -> (forall j, is_idx3 j -> pte_map s' j = pte_map s j) ->
    (forall u b, u ∈ p :: tables s L2 L3 -> is_idx b ->
      table_of s' u b = if decide (u = t /\ b = a) then ptd_create (ppn (__pa s p)) else if decide (u = p) then 0
        else table_of s u b) -> next_table s (ptd_create (ppn (__pa s p))) = p ->
    only_touches (owned s L2 L3 (p :: l)) s s' (owned s' L2' L3' l) -> wp k Q s') ->
  wp (let! new_page := spa_get_zero in rt_assert (truthy new_page) ;;; let! s := get in
      rstore (pte_addr t a) (ptd_create (ppn (__pa s new_page))) ;;; k) Q s.
Proof.
  intros [Htree Hpages Hq Hapart [Hl1 Hl2]] Ha Ht Hinv HQ. pose proof Hq as [Hm _ _ _ Hpl _].
  apply Forall_cons_iff in Hpl as [Hp _]. pose proof (free_page_page_ok s p Hm Hp) as Hpp.
  assert (t ∈ tables s L2 L3) as Htt by (unfold tables; destruct Ht as [->|]; [apply tables_1|by apply tables_2]).
  assert (p ∉ tables s L2 L3) as Hpt by (intros Hin; apply (Hapart p Hin); set_solver).
  wp_step. apply (wp_spa_get true s p l _ Hq). intros s1 Hq1 Hg Hmem. wp_step.
  apply wp_rt_assert; [destruct Hpp as (_ & ? & _); unfold truthy; by rewrite (proj2 (Z.eqb_neq _ _)) by lia|].
  wp_step. wp_step. wp_step. rt_step. set (v := ptd_create (ppn (__pa s1 p))).
  assert (v = ptd_create (ppn (__pa s p))) as Ev by (unfold v, __pa; by rewrite (sg_load _ _ Hg)).
  assert (is_u64 v) as Hv by apply ptd_range.
  assert (next_table s v = p) as Hc by (rewrite Ev; exact (next_table_ptd s p Hpp Hl1 Hl2)).
  set (s2 := set_rmem (store64 (rmem s1) (pte_addr t a) v) s1).
  assert (same_globals s s2) as Hg2 by (etransitivity; [exact Hg|by split]).
  assert (forall u b, u ∈ p :: tables s L2 L3 -> is_idx b -> table_of s2 u b =
    if decide (u = t /\ b = a) then v else if decide (u = p) then 0 else table_of s u b) as Hupd.
  { intros u b Hu Hb. assert (page_ok u) as Hup by (apply elem_of_cons in Hu as [->|Hu]; [done|by apply Hpages]).
    unfold s2. rewrite table_of_store by (done || by apply Hpages). case_decide; [done|].
    by apply table_of_zeroed. }
  assert (spa_queue s2 l) as Hq2.
  { apply (spa_queue_ext s1); [done|by split|done|]. intros q Hql. unfold s2. cbn [rmem set_rmem].
    pose proof Hq1 as [Hm1 _ _ _ Hpl1 _]. rewrite Forall_forall in Hpl1.
    pose proof (Hpl1 q ltac:(by apply list_elem_of_In)) as Hqok.
    rewrite load64_store64; [|by apply pte_addr_aligned; [apply Hpages|]|by apply (free_page_aligned s1)|done].
    case_decide as E; [exfalso|done]. rewrite pte_addr_eq in E by (done || by apply Hpages).
    destruct (Hpages t Htt) as (_ & _ & Et), Hqok as [_ Eq]. unfold is_idx in Ha.
    change RISCV_PAGE_SIZE with 4096 in *. assert (q = t) as -> by mlia. apply (Hapart t Htt). by apply list_elem_of_further. }
  assert (forall u, u ∈ p :: tables s L2 L3 -> u ∉ l) as Hap'.
  { intros u [->|Hu]%elem_of_cons; [destruct Hq as [_ _ _ _ _ Hn]; by apply list.NoDup_cons in Hn as [? _]|].
    intros Hin. apply (Hapart u Hu). set_solver. }
  assert (forall u, u ∈ p :: tables s L2 L3 -> page_ok u) as Hpg' by (intros u [->|Hu]%elem_of_cons; auto).
  pose proof Hg2 as [_ _ El _ Er _].
  assert (is_u64 (load_pa_start s2) /\ load_pa_start s2 mod RISCV_PAGE_SIZE = 0) as Hload by (by rewrite El).
  assert (valid_pte v = true) as Hvv by apply ptd_valid.
  assert (exists L2' L3', tree (root_page_table s) (next_table s) (table_of s2) L2' L3' /\
    (forall u, u ∈ tables s L2' L3' -> u ∈ p :: tables s L2 L3) /\
    forall j, is_idx3 j -> pte_of (root_page_table s) (next_table s) (table_of s2) j = pte_map s j)
    as (L2' & L3' & Htree' & Hsub & Hmap).
  { unfold tables in *. destruct Ht as [->|Ht2].
    - exists (p :: L2), L3. destruct (tree_add_2 _ _ (table_of s) (table_of s2) L2 L3 a p v Htree Ha) as [? ?]; try done.
      { intros u b Hu Hb. apply Hupd; [clear -Hu; set_solver|done]. }
      split; [done|]. split; [clear; set_solver|done].
    - exists L2, (p :: L3). destruct (tree_add_3 _ _ (table_of s) (table_of s2) L2 L3 t a p v Htree Ht2 Ha) as [? ?]; try done.
      { intros u b Hu Hb. apply Hupd; [clear -Hu; set_solver|done]. }
      split; [done|]. split; [clear; set_solver|done]. }
  apply (HQ s2 L2' L3'); [|done| |by rewrite <- Ev|by rewrite <- Ev|].
  - unfold tables in *. split; [by apply (tree_globals s)| | | |done]; unfold tables; rewrite ?Er; auto.
  - intros j Hj. rewrite <- Hmap by done. unfold pte_map. rewrite Er.
    assert (next_table s2 = next_table s) as ->; [|done]. unfold next_table, __va. by rewrite El.
  - pose proof (free_page_aligned s p Hm Hp) as ([Hpu _] & _ & Htop).
    apply (only_touches_trans _ _ (owned s L2 L3 (p :: l)) s1); [apply (touch_zero _ s s1 p); try done; apply elem_of_app; right; apply list_elem_of_here|].
    destruct (touch_store (owned s L2 L3 (p :: l)) s1 t a v) as [Hmw _]; [by apply Hpages|done|by apply elem_of_app; left|].
    split; [exact Hmw|]. intros u [Hu|Hu]%elem_of_app; apply elem_of_app; [|right; by apply list_elem_of_further].
    unfold tables in Hu at 1. rewrite Er in Hu. apply Hsub, elem_of_cons in Hu as [->|Hu]; [right; apply list_elem_of_here|by left].
Qed.

Lemma missing_run s addr :
  missing s addr =
    if valid_pte (table_of s (root_page_table s) (RISCV_GET_PT_INDEX addr 1)) then
      if valid_pte (table_of s (next_table s (table_of s (root_page_table s) (RISCV_GET_PT_INDEX addr 1)))
                      (RISCV_GET_PT_INDEX addr 2)) then 0%nat else 1%nat
    else 2%nat.
Proof. done. Qed.

Lemma wp_walk_create fuel s L2 L3 l addr (Q : Z -> rt_state -> Prop) :
  pt_inv s L2 L3 l -> (missing s addr <= fuel)%nat -> (missing s addr <= length l)%nat ->
  (forall s' L2' L3' t, pt_inv s' L2' L3' (drop (missing s addr) l) -> same_globals s s' ->
    (forall j, is_idx3 j -> pte_map s' j = pte_map s j) ->
    leaf s' (idx3 addr) = Some (t, RISCV_GET_PT_INDEX addr 3) ->
    only_touches (owned s L2 L3 l) s s' (owned s' L2' L3' (drop (missing s addr) l)) ->
    Q (pte_addr t (RISCV_GET_PT_INDEX addr 3)) s') ->
  wp (__walk_create fuel (root_page_table s) addr) Q s.
Proof.
  revert s L2 L3 l Q. induction fuel as [|fuel IH]; intros s L2 L3 l Q Hinv Hfuel Hlen HQ;
    cbn [__walk_create]; unfold __walk_internal; wp_step; (eapply wp_ok; [apply walk_levels_run|]); cbv beta;
    pose proof (missing_run s addr) as Hmiss; unfold walk_spec, leaf, leaf_of in *; cbv zeta in *; cbn [idx3] in *;
    pose proof (is_idx_index addr 1 ltac:(lia)) as Hi1; pose proof (is_idx_index addr 2 ltac:(lia)) as Hi2;
    set (i1 := RISCV_GET_PT_INDEX addr 1) in *; set (i2 := RISCV_GET_PT_INDEX addr 2) in *;
    set (r := root_page_table s) in *;
    (destruct (valid_pte (table_of s r i1)) eqn:E1;
     [destruct (valid_pte (table_of s (next_table s (table_of s r i1)) i2)) eqn:E2|]); try lia;
    try (wp_step; apply (HQ s L2 L3); [by rewrite Hmiss, drop_0|done|done|fold r; by rewrite E1, E2|rewrite Hmiss, drop_0; apply only_touches_refl]).
  - destruct l as [|p l]; [simpl in *; lia|].
    assert (next_table s (table_of s r i1) ∈ L2) as Hc1 by by apply (tr_1 _ _ _ _ _ (pi_tree _ _ _ _ Hinv)).
    pose proof (tree_apart _ _ _ _ _ (pi_tree _ _ _ _ Hinv)) as (Hr2 & _).
    apply (wp_add_table s L2 L3 p l); [done|done|by right|done|].
    intros s' L2' L3' Hinv' Hg Hmap Hupd Hp Hot. pose proof (sg_root _ _ Hg) as Er. fold r in Er. rewrite <- Er.
    assert (missing s' addr = 0%nat) as Hm'.
    { rewrite missing_run, Er. fold i1 i2. rewrite (same_globals_next s s') by done.
      assert (p ∉ tables s L2 L3) by (intros Hin; apply (pi_apart _ _ _ _ Hinv p Hin); set_solver).
      assert (table_of s' r i1 = table_of s r i1) as Er1.
      { rewrite Hupd by (done || (unfold tables; fold r; clear; set_solver)). rewrite decide_False by (intros [E _]; apply Hr2; fold r; rewrite E; exact Hc1).
        rewrite decide_False; [done|]. intros E. apply H. rewrite <- E. apply tables_1. }
      rewrite Er1, E1, Hupd by (done || (unfold tables; fold r; clear -Hc1; set_solver)).
      rewrite decide_True by done. by rewrite ptd_valid. }
    apply (IH s' L2' L3' l); [done|lia|lia|]. rewrite Hm', drop_0. intros s2 L2'' L3'' t Hinv2 Hg2 Hmap2 Hl2 Hot2.
    apply (HQ s2 L2'' L3''); [by rewrite Hmiss|by etransitivity|intros; by rewrite Hmap2, Hmap|done|].
    rewrite Hmiss. exact (only_touches_trans _ _ _ _ _ _ Hot Hot2).
  - destruct l as [|p l]; [simpl in *; lia|].
    apply (wp_add_table s L2 L3 p l); [done|done|by left|done|].
    intros s' L2' L3' Hinv' Hg Hmap Hupd Hp Hot. pose proof (sg_root _ _ Hg) as Er. fold r in Er. rewrite <- Er.
    assert (missing s' addr = 1%nat) as Hm'.
    { rewrite missing_run, Er. fold i1 i2. rewrite (same_globals_next s s') by done.
      assert (p ∉ tables s L2 L3) by (intros Hin; apply (pi_apart _ _ _ _ Hinv p Hin); set_solver).
      rewrite (Hupd r i1) by (done || (unfold tables; fold r; clear; set_solver)). rewrite decide_True by done.
      rewrite ptd_valid, Hp, Hupd by (done || (clear; set_solver)).
      rewrite decide_False by (intros [E _]; apply H; rewrite E; apply tables_1).
      by rewrite decide_True. }
    apply (IH s' L2' L3' l); [done|lia|simpl in *; lia|]. rewrite Hm'. intros s2 L2'' L3'' t Hinv2 Hg2 Hmap2 Hl2 Hot2.
    apply (HQ s2 L2'' L3''); [by rewrite Hmiss|by etransitivity|intros; by rewrite Hmap2, Hmap|done|].
    rewrite Hmiss. exact (only_touches_trans _ _ _ _ _ _ Hot Hot2).
Qed.

(** ** The operations on the map *)

(** What [translate] computes from the map. *)
Definition translation (s : rt_state) (va : Z) : Z :=
  let e := pte_map s (idx3 va) in
  if valid_pte e then Z.lor (u64 (Z.shiftl (pte_ppn e) RISCV_PAGE_BITS)) (RISCV_PAGE_OFFSET va) else 0.

Lemma translate_run s L2 L3 l va : pt_inv s L2 L3 l -> translate va s = Ok (translation s va, s).
Proof.
  intros Hinv. unfold translate, bind. rewrite walk_run. unfold translation, pte_map, pte_of. fold (leaf s (idx3 va)).
  destruct (leaf s (idx3 va)) as [[t k]|] eqn:E; [|done].
  destruct (leaf_in_L3 _ _ _ _ _ _ _ _ (pi_tree _ _ _ _ Hinv) (is_idx3_idx3 va) E) as [Ht ->].
  assert (page_ok t) by (apply (pi_pages _ _ _ _ Hinv); by apply tables_3).
  destruct (pte_addr_aligned t (idx3 va).2) as [_ Hnz]; [done|apply is_idx3_idx3|].
  rewrite (proj2 (Z.eqb_neq _ _) Hnz). unfold rload, gets. rewrite land_PTE_V, negb_involutive.
  change (load64 (rmem s) (pte_addr t (idx3 va).2)) with (table_of s t (idx3 va).2).
  unfold valid_pte. cbn [negb andb]. by match goal with |- context [Z.testbit ?x 0] => destruct (Z.testbit x 0) end.
Qed.

(** Storing an entry at a leaf changes the map at one place. *)
Lemma pt_inv_set_leaf s L2 L3 l i t k v : pt_inv s L2 L3 l -> is_idx3 i -> leaf s i = Some (t, k) -> is_u64 v ->
  let s' := set_rmem (store64 (rmem s) (pte_addr t k) v) s in
  pt_inv s' L2 L3 l /\ (forall j, is_idx3 j -> leaf s' j = leaf s j /\
    pte_map s' j = if decide (j = i) then v else pte_map s j).
Proof.
  intros [Ht Hpg Hq Hap Hload] Hi Hl Hv s'.
  destruct (leaf_in_L3 _ _ _ _ _ _ _ _ Ht Hi Hl) as [Hin ->]. pose proof Hi as (_ & _ & Hi3).
  assert (t ∈ tables s L2 L3) as Htt by by apply tables_3.
  destruct (tree_set_leaf (root_page_table s) (next_table s) (table_of s) (table_of s') L2 L3 i t i.2 v Ht Hi Hl) as [Ht' Hm'].
  { intros u a Hu Ha. unfold s'. by rewrite table_of_store by (done || by apply Hpg). }
  split; [split; try done|exact Hm'].
  apply (spa_queue_ext s); [done|by split|done|]. intros q Hql. unfold s'. cbn [rmem set_rmem].
  pose proof Hq as [Hm1 _ _ _ Hpl1 _]. rewrite Forall_forall in Hpl1.
  pose proof (Hpl1 q ltac:(by apply list_elem_of_In)) as Hqok.
  rewrite load64_store64; [|by apply pte_addr_aligned; [apply Hpg|]|by apply (free_page_aligned s)|done].
  case_decide as E; [exfalso|done]. rewrite pte_addr_eq in E by (done || by apply Hpg).
  destruct (Hpg t Htt) as (_ & _ & Et), Hqok as [_ Eq]. unfold is_idx in Hi3.
  change RISCV_PAGE_SIZE with 4096 in *. assert (q = t) as -> by mlia. by apply (Hap t Htt).
Qed.

Lemma leaf_map s i t k : leaf s i = Some (t, k) -> pte_map s i = load64 (rmem s) (pte_addr t k).
Proof. unfold leaf, pte_map, pte_of. by intros ->. Qed.

Lemma user_flags_nonneg flags : 0 <= flags -> 0 <= user_flags flags.
Proof. intros. unfold user_flags. apply Z.lor_nonneg. split; [by compute|done]. Qed.

(** The fuel and the free pages that are always enough. *)
Lemma missing_le s addr : (missing s addr <= 2)%nat.
Proof. rewrite missing_run. repeat case_match; lia. Qed.

Lemma wp_walk_create_2 s L2 L3 l addr (Q : Z -> rt_state -> Prop) :
  pt_inv s L2 L3 l -> (2 <= length l)%nat ->
  (forall s' L2' L3' t, pt_inv s' L2' L3' (drop (missing s addr) l) -> same_globals s s' ->
    (forall j, is_idx3 j -> pte_map s' j = pte_map s j) ->
    leaf s' (idx3 addr) = Some (t, RISCV_GET_PT_INDEX addr 3) -> pte_addr t (RISCV_GET_PT_INDEX addr 3) <> 0 ->
    only_touches (owned s L2 L3 l) s s' (owned s' L2' L3' (drop (missing s addr) l)) ->
    Q (pte_addr t (RISCV_GET_PT_INDEX addr 3)) s') ->
  wp (walk_create addr) Q s.
Proof.
  intros Hinv Hl HQ. pose proof (missing_le s addr). unfold walk_create. wp_step. wp_step.
  apply (wp_walk_create 2 s L2 L3 l); [done|lia|lia|]. intros s' L2' L3' t Hinv' Hg Hmap Hleaf Hot.
  apply (HQ s' L2' L3'); try done.
  destruct (leaf_in_L3 _ _ _ _ _ _ _ _ (pi_tree _ _ _ _ Hinv') (is_idx3_idx3 addr) Hleaf) as [Ht _].
  apply pte_addr_aligned; [|by apply is_idx_index]. apply (pi_pages _ _ _ _ Hinv'). by apply tables_3.
Qed.

Lemma translation_ext s s' va : pte_map s' (idx3 va) = pte_map s (idx3 va) -> translation s' va = translation s va.
Proof. unfold translation. by intros ->. Qed.

(** A mapped page: the entry's page number and the offset. *)
Lemma translation_created s va p t : pte_map s (idx3 va) = pte_create p t -> 0 <= p < 2 ^ 52 -> 0 <= t ->
  translation s va = p * RISCV_PAGE_SIZE + va mod RISCV_PAGE_SIZE.
Proof.
  intros E Hp Ht. unfold translation. rewrite E. unfold valid_pte. rewrite pte_create_valid, pte_ppn_create by lia.
  unfold RISCV_PAGE_BITS. rewrite Z.shiftl_mul_pow2, u64_id by (unfold is_u64; lia).
  unfold RISCV_PAGE_OFFSET. change RISCV_PAGE_SIZE with (2 ^ 12).
  apply (lor_add _ _ 12); [lia|apply Z.mod_pos_bound; lia|apply Z.mod_mul; lia].
Qed.

(** Setting a leaf entry touches only the tables. *)
Lemma touch_leaf s L2 L3 l i t k v : pt_inv s L2 L3 l -> is_idx3 i -> leaf s i = Some (t, k) ->
  let s' := set_rmem (store64 (rmem s) (pte_addr t k) v) s in
  only_touches (owned s L2 L3 l) s s' (owned s' L2 L3 l).
Proof.
  intros Hinv Hi Hleaf. cbv zeta. destruct (leaf_in_L3 _ _ _ _ _ _ _ _ (pi_tree _ _ _ _ Hinv) Hi Hleaf) as [Ht ->].
  apply touch_store; [by apply (pi_pages _ _ _ _ Hinv), tables_3|apply Hi|apply elem_of_app; left; by apply tables_3].
Qed.

Lemma wp_map_page s L2 L3 l vpn ppn flags (Q : Z -> rt_state -> Prop) :
  let i := idx3 (vaddr vpn) in let l' := drop (missing s (vaddr vpn)) l in
  pt_inv s L2 L3 l -> (2 <= length l)%nat -> 0 <= flags ->
  (forall s' L2' L3', pt_inv s' L2' L3' l' -> same_globals s s' ->
    only_touches (owned s L2 L3 l) s s' (owned s' L2' L3' l') ->
    (forall j, is_idx3 j -> pte_map s' j =
      if decide (valid_pte (pte_map s i) = false /\ j = i) then pte_create ppn (user_flags flags) else pte_map s j) ->
    Q (if valid_pte (pte_map s i) then 2 ^ 64 - 1 else 1) s') ->
  wp (map_page vpn ppn flags) Q s.
Proof.
  intros i l' Hinv Hl Hfl HQ. unfold map_page. wp_step. apply (wp_walk_create_2 s L2 L3 l); [done|done|].
  intros s1 L2' L3' t Hinv1 Hg Hmap Hleaf _ Hot. wp_step. rt_step.
  rewrite <- (leaf_map _ _ _ _ Hleaf), land_PTE_V, negb_involutive.
  fold i. rewrite (Hmap i (is_idx3_idx3 _)). fold (valid_pte (pte_map s i)).
  destruct (valid_pte (pte_map s i)) eqn:Ev; wp_step.
  - apply (HQ s1 L2' L3'); [done|done|done|]. intros j Hj. rewrite decide_False by naive_solver. by apply Hmap.
  - rt_step. wp_step.
    destruct (pt_inv_set_leaf s1 L2' L3' _ i t _ (pte_create ppn (user_flags flags)) Hinv1 (is_idx3_idx3 _) Hleaf)
      as [Hinv2 Hm2]; [apply pte_create_range; by apply user_flags_nonneg|].
    apply (HQ _ L2' L3'); [exact Hinv2|etransitivity; [exact Hg|by split]| |].
    + apply (only_touches_trans _ _ _ _ _ _ Hot). exact (touch_leaf s1 L2' L3' l' i t _ _ Hinv1 (is_idx3_idx3 _) Hleaf).
    + intros j Hj. destruct (Hm2 j Hj) as [_ ->]. rewrite Hmap by done.
      destruct (decide (j = i)) as [E|E]; [by rewrite decide_True|by rewrite decide_False by (intros [_ ?]; done)].
Qed.

(** C24: Mapping a page: with two free pages left for tables, [map_page] returns;
    if the page number was unmapped it returns 1, the addresses of the page then
    translate to the physical page (with their offset) and every other address
    translates as before; if it was mapped it returns -1 and no translation
    changes.  The page-table invariant is kept. *)
Theorem map_page_correct s L2 L3 l vpn ppn flags :
  pt_inv s L2 L3 l -> (2 <= length l)%nat -> 0 <= ppn < 2 ^ 52 -> 0 <= flags ->
  let i := idx3 (vaddr vpn) in
  exists r s' L2' L3', map_page vpn ppn flags s = Ok (r, s') /\
    pt_inv s' L2' L3' (drop (missing s (vaddr vpn)) l) /\
    (forall va, exists x, translate va s = Ok (x, s) /\ translate va s' = Ok (
      (if decide (valid_pte (pte_map s i) = false /\ idx3 va = i) then ppn * RISCV_PAGE_SIZE + va mod RISCV_PAGE_SIZE else x), s')) /\
    r = (if valid_pte (pte_map s i) then 2 ^ 64 - 1 else 1).
Proof.
  intros Hinv Hl Hppn Hfl i.
  destruct (wp_inv (map_page vpn ppn flags) (fun r s' => exists L2' L3', pt_inv s' L2' L3' (drop (missing s (vaddr vpn)) l) /\
    r = (if valid_pte (pte_map s i) then 2 ^ 64 - 1 else 1) /\
    forall j, is_idx3 j -> pte_map s' j =
      if decide (valid_pte (pte_map s i) = false /\ j = i) then pte_create ppn (user_flags flags) else pte_map s j) s)
    as (r & s' & E & L2' & L3' & Hinv' & Hr & Hmap).
  { apply (wp_map_page s L2 L3 l); [done..|]. intros s' L2' L3' ? _ _ ?. by exists L2', L3'. }
  exists r, s', L2', L3'. split_and!; [done|done| |done]. intros va. exists (translation s va).
  rewrite (translate_run s L2 L3 l), (translate_run s' L2' L3' _ _ Hinv') by done. split; [done|]. do 2 f_equal.
  pose proof (Hmap (idx3 va) (is_idx3_idx3 va)) as Hva. case_decide.
  - apply translation_created with (user_flags flags); [done|done|by apply user_flags_nonneg].
  - by apply translation_ext.
Qed.

(** Changes outside the tables. *)
Lemma pt_inv_frame s s' L2 L3 l l' : pt_inv s L2 L3 l -> same_globals s s' -> spa_queue s' l' ->
  (forall t, t ∈ tables s L2 L3 -> t ∉ l') ->
  (forall t a, t ∈ tables s L2 L3 -> is_idx a -> table_of s' t a = table_of s t a) ->
  pt_inv s' L2 L3 l' /\ (forall j, is_idx3 j -> leaf s' j = leaf s j /\ pte_map s' j = pte_map s j).
Proof.
  intros [Ht Hpg Hq Hap [Hl1 Hl2]] Hg Hq' Hap' Hext. pose proof Hg as [_ _ El _ Er _].
  destruct (tree_ext _ _ _ (table_of s') L2 L3 Ht Hext) as [Ht' Hm].
  assert (next_table s' = next_table s) as En by (unfold next_table, __va; by rewrite El).
  split; [|unfold leaf, pte_map; rewrite Er, En; exact Hm].
  split; [by apply (tree_globals s)| |done| |by rewrite El]; unfold tables; rewrite Er; auto.
Qed.

(** Taking a page from the free list. *)
Lemma pt_inv_get s s' L2 L3 p l : pt_inv s L2 L3 (p :: l) -> spa_queue s' l -> same_globals s s' ->
  rmem s' = get_mem true p (rmem s) ->
  pt_inv s' L2 L3 l /\ (forall j, is_idx3 j -> leaf s' j = leaf s j /\ pte_map s' j = pte_map s j).
Proof.
  intros Hinv Hq' Hg Hmem. pose proof Hinv as [Ht Hpg Hq Hap _]. pose proof Hq as [Hm _ _ _ Hpl _].
  apply Forall_cons_iff in Hpl as [Hp _].
  apply (pt_inv_frame s _ _ _ (p :: l)); [done|done|done| |].
  - intros t Htt Hin. apply (Hap t Htt). by apply list_elem_of_further.
  - intros t a Htt Ha. rewrite (table_of_zeroed s s' p) by (done || by apply Hpg).
    rewrite decide_False; [done|]. intros ->. apply (Hap p Htt). apply list_elem_of_here.
Qed.

(** Giving a page back. *)
Lemma pt_inv_put s s' L2 L3 p l : pt_inv s L2 L3 l -> spa_queue s' (l ++ [p]) -> same_globals s s' ->
  rmem s' = put_mem l p (rmem s) -> p ∉ tables s L2 L3 ->
  pt_inv s' L2 L3 (l ++ [p]) /\ (forall j, is_idx3 j -> leaf s' j = leaf s j /\ pte_map s' j = pte_map s j).
Proof.
  intros Hinv Hq' Hg Hmem Hpt. pose proof Hinv as [Ht Hpg Hq Hap _].
  pose proof Hq' as [Hm' _ _ _ Hpl' _]. rewrite Forall_forall in Hpl'.
  apply (pt_inv_frame s _ _ _ l); [done|done|done| |].
  - intros t Htt [Hin|Hin%list_elem_of_singleton]%elem_of_app; [by apply (Hap t)|by subst].
  - intros t a Htt Ha. destruct (pte_addr_aligned t a (Hpg t Htt) Ha) as [Hal _].
    assert (forall q v f, q ∈ l ++ [p] -> q <> t -> is_u64 v -> load64 (store64 f q v) (pte_addr t a) = load64 f (pte_addr t a))
      as Hother.
    { intros q v f Hin Hne Hv. pose proof (Hpl' q ltac:(by apply list_elem_of_In)) as Hqok.
      rewrite load64_store64 by (done || by apply (free_page_aligned s')). case_decide as E; [exfalso|done].
      rewrite pte_addr_eq in E by (done || by apply Hpg). destruct (Hpg t Htt) as (_ & _ & Et), Hqok as [_ Eq].
      unfold is_idx in Ha. change RISCV_PAGE_SIZE with 4096 in *. apply Hne. mlia. }
    unfold table_of. rewrite Hmem. unfold put_mem.
    assert (p ∈ l ++ [p]) as Hpin by set_solver. pose proof (Hpl' p ltac:(by apply list_elem_of_In)) as Hpok.
    pose proof (free_page_aligned s' p Hm' Hpok) as ([Hpu _] & _).
    rewrite Hother; [|done|intros ->; by apply Hpt|by compute]. destruct (list.last l) as [q|] eqn:El; [|done].
    apply last_Some_elem_of in El. apply Hother; [apply elem_of_app; by left|intros ->; by apply (Hap t)|done].
Qed.

Lemma wp_alloc_page s L2 L3 l p l1 vpn flags (Q : Z -> rt_state -> Prop) :
  let i := idx3 (vaddr vpn) in
  pt_inv s L2 L3 l -> (2 <= length l)%nat -> drop (missing s (vaddr vpn)) l = p :: l1 -> 0 <= flags ->
  valid_pte (pte_map s i) = false ->
  (forall s' L2' L3' t, pt_inv s' L2' L3' l1 -> same_globals s s' ->
    leaf s' i = Some (t, i.2) ->
    (forall j, is_idx3 j -> pte_map s' j =
      if decide (j = i) then pte_create (ppn (__pa s p)) (user_flags flags) else pte_map s j) ->
    (p ∉ tables s' L2' L3') -> (p ∉ l1) -> free_page_ok s' p -> (forall a, is_idx a -> table_of s' p a = 0) ->
    (p ∈ owned s L2 L3 l) -> only_touches (owned s L2 L3 l) s s' (owned s' L2' L3' l1) ->
    (forall x, is_u64 x -> in_page p x -> rmem s' x = 0) -> Q p s') ->
  wp (alloc_page vpn flags) Q s.
Proof.
  intros i Hinv Hl Hdrop Hfl Hinvalid HQ. unfold alloc_page. wp_step. apply (wp_walk_create_2 s L2 L3 l); [done|done|].
  rewrite Hdrop. intros s1 L2' L3' t Hinv1 Hg1 Hmap1 Hleaf1 Hnz Hot1. rewrite (proj2 (Z.eqb_neq _ _) Hnz).
  wp_step. rt_step. wp_step. wp_step. rewrite <- (leaf_map _ _ _ _ Hleaf1), land_PTE_V, negb_involutive. fold i.
  rewrite (Hmap1 i (is_idx3_idx3 _)). fold (valid_pte (pte_map s i)). rewrite Hinvalid.
  wp_step. pose proof (pi_queue _ _ _ _ Hinv1) as Hq1. pose proof Hq1 as [Hm1 _ _ _ Hpl1 Hnd1].
  apply Forall_cons_iff in Hpl1 as [Hp1 _]. apply list.NoDup_cons in Hnd1 as [Hpl _].
  pose proof (free_page_page_ok s1 p Hm1 Hp1) as Hpp.
  apply (wp_spa_get true s1 p l1 _ Hq1). intros s2 Hq2 Hg2 Hmem. wp_step.
  apply wp_rt_assert; [destruct Hpp as (_ & ? & _); unfold truthy; by rewrite (proj2 (Z.eqb_neq _ _)) by lia|].
  wp_step. rt_step. wp_step.
  destruct (pt_inv_get s1 s2 L2' L3' p l1 Hinv1 Hq2 Hg2 Hmem) as [Hinv2 Hm2].
  pose proof (free_page_aligned s1 p Hm1 Hp1) as ([Hpu _] & _ & Htop).
  assert (p ∈ owned s1 L2' L3' (p :: l1)) as Hpo by (apply elem_of_app; right; apply list_elem_of_here).
  pose proof (touch_zero (owned s1 L2' L3' (p :: l1)) s1 s2 p Hpu Htop Hpo Hmem) as Hz.
  assert (leaf s2 i = Some (t, i.2)) as Hleaf2 by (rewrite (proj1 (Hm2 i (is_idx3_idx3 _))); exact Hleaf1).
  assert (__pa s1 p = __pa s p) as Epa by (unfold __pa; by rewrite (sg_load _ _ Hg1)). rewrite Epa.
  set (v := pte_create _ _).
  assert (is_u64 v) as Hv by exact (pte_create_range _ _ (user_flags_nonneg _ Hfl)).
  destruct (pt_inv_set_leaf s2 L2' L3' l1 i t i.2 v Hinv2 (is_idx3_idx3 _) Hleaf2 Hv) as [Hinv3 Hm3].
  assert (p ∉ tables s2 L2' L3') as Hpt.
  { unfold tables. rewrite (sg_root _ _ Hg2). intros Hin. apply (pi_apart _ _ _ _ Hinv1 p Hin). apply list_elem_of_here. }
  assert (t ∈ tables s2 L2' L3') as Htt.
  { apply tables_3. by destruct (leaf_in_L3 _ _ _ _ _ _ _ _ (pi_tree _ _ _ _ Hinv2) (is_idx3_idx3 _) Hleaf2). }
  change (RISCV_GET_PT_INDEX (vaddr vpn) 3) with i.2.
  apply (HQ _ L2' L3' t); [exact Hinv3|etransitivity; [exact Hg1|]; etransitivity; [exact Hg2|by split]| | |done|done| | |by apply (ot_sub _ _ _ _ Hot1), elem_of_app; right; apply list_elem_of_here| |].
  - rewrite (proj1 (Hm3 i (is_idx3_idx3 _))). exact Hleaf2.
  - intros j Hj. rewrite (proj2 (Hm3 j Hj)), (proj2 (Hm2 j Hj)), (Hmap1 j Hj). done.
  - unfold free_page_ok in *. cbn [set_rmem freemem_va_start freemem_size]. by rewrite (sg_start _ _ Hg2), (sg_size _ _ Hg2).
  - intros a Ha. rewrite table_of_store; [|by apply (pi_pages _ _ _ _ Hinv2)|done|apply is_idx3_idx3|done|done].
    rewrite decide_False by (intros [-> _]; done). rewrite (table_of_zeroed s1 s2 p) by done. by rewrite decide_True.
  - apply (only_touches_trans _ _ _ _ _ _ Hot1).
    apply (only_touches_trans _ _ (owned s2 L2' L3' l1) s2); [|exact (touch_leaf s2 L2' L3' l1 i t i.2 v Hinv2 (is_idx3_idx3 _) Hleaf2)].
    split; [apply Hz|]. intros u [Hu|Hu]%elem_of_app; apply elem_of_app; [left|right; by apply list_elem_of_further].
    unfold tables in *. by rewrite <- (sg_root _ _ Hg2).
  - intros x Hx Hin. cbn [rmem set_rmem]. rewrite <- (proj2 Hz x Hx Hin). apply write_bytes_other. rewrite length_le64.
    apply not_true_iff_false. intros Hr. pose proof (pi_pages _ _ _ _ Hinv2 t Htt) as Htp.
    pose proof (is_idx3_idx3 (vaddr vpn)) as (_ & _ & Hi3). fold i in Hi3. rewrite pte_addr_eq in Hr by done.
    apply Hpt. enough (p = t) as -> by done.
    destruct Htp as (Htu & _ & Htm), Hpp as (_ & _ & Hpm). unfold in_range, in_page, is_u64, is_idx, u64 in *.
    change RISCV_PAGE_SIZE with 4096 in *. apply Z.ltb_lt in Hr. mlia.
Qed.

Lemma wp_free_page s L2 L3 l vpn t (Q : unit -> rt_state -> Prop) :
  let i := idx3 (vaddr vpn) in
  let p := next_table s (pte_map s i) in
  pt_inv s L2 L3 l -> leaf s i = Some (t, i.2) -> valid_pte (pte_map s i) = true -> Z.land (pte_map s i) PTE_U <> 0 ->
  free_page_ok s p -> p ∉ l -> p ∉ tables s L2 L3 ->
  (forall s', pt_inv s' L2 L3 (l ++ [p]) -> same_globals s s' ->
    (forall j, is_idx3 j -> pte_map s' j = if decide (j = i) then 0 else pte_map s j) -> Q tt s') ->
  wp (free_page vpn) Q s.
Proof.
  intros i p Hinv Hleaf Hvalid Huser Hpok Hpl Hpt HQ. unfold free_page. wp_step. eapply wp_ok; [apply walk_run|].
  cbv beta. fold i. rewrite Hleaf.
  destruct (leaf_in_L3 _ _ _ _ _ _ _ _ (pi_tree _ _ _ _ Hinv) (is_idx3_idx3 _) Hleaf) as [Ht _].
  destruct (pte_addr_aligned t i.2) as [_ Hnz];
    [by apply (pi_pages _ _ _ _ Hinv), tables_3|apply is_idx3_idx3|].
  rewrite (proj2 (Z.eqb_neq _ _) Hnz). wp_step. rt_step. rewrite <- (leaf_map _ _ _ _ Hleaf), land_PTE_V.
  fold (valid_pte (pte_map s i)). rewrite Hvalid. cbn [negb]. wp_step.
  apply wp_rt_assert; [by rewrite (proj2 (Z.eqb_neq _ _) Huser)|]. wp_step. rt_step. wp_step. wp_step.
  destruct (pt_inv_set_leaf s L2 L3 l i t i.2 0 Hinv (is_idx3_idx3 _) Hleaf ltac:(by compute)) as [Hinv2 Hm2].
  set (s2 := set_rmem _ _) in *. change (next_table s2 (pte_map s i)) with p.
  apply (wp_spa_put s2 p l); [apply Hinv2|done|done|]. intros s3 Hq3 Hg3 Hmem3.
  destruct (pt_inv_put s2 s3 L2 L3 p l Hinv2 Hq3 Hg3 Hmem3 Hpt) as [Hinv3 Hm3].
  apply HQ; [done|etransitivity; [|exact Hg3]; by split|].
  intros j Hj. by rewrite (proj2 (Hm3 j Hj)), (proj2 (Hm2 j Hj)).
Qed.

Lemma land_PTE_U x : (Z.land x PTE_U =? 0) = negb (Z.testbit x 4).
Proof. apply (land_bit_zero x 4). lia. Qed.

Lemma pte_create_user n flags : Z.land flags PTE_U <> 0 -> Z.land (pte_create n (user_flags flags)) PTE_U <> 0.
Proof.
  intros H%Z.eqb_neq. apply Z.eqb_neq. rewrite land_PTE_U in *. apply negb_false_iff in H. apply negb_false_iff.
  unfold pte_create, user_flags. rewrite !Z.lor_spec, Z.land_spec, !Z.lor_spec, H, !orb_true_r. done.
Qed.

(** The physical page number of a page of the runtime. *)
Lemma ppn_page s p : page_ok p -> is_u64 (load_pa_start s) -> load_pa_start s mod RISCV_PAGE_SIZE = 0 ->
  0 <= ppn (__pa s p) < 2 ^ 52 /\ ppn (__pa s p) * RISCV_PAGE_SIZE = __pa s p.
Proof.
  intros (Hp & _ & Hm) Hl Hlm. assert (is_u64 (__pa s p)) as Hr by apply u64_range.
  assert (__pa s p mod 4096 = 0) as Ha.
  { unfold __pa, u64, EYRIE_LOAD_START, is_u64 in *. change RISCV_PAGE_SIZE with 4096 in *. mlia. }
  unfold is_u64, ppn, RISCV_PAGE_BITS in *. rewrite Z.shiftr_div_pow2 by lia. change RISCV_PAGE_SIZE with 4096.
  change (2 ^ 12) with 4096. split; mlia.
Qed.

Lemma translation_0 s va : pte_map s (idx3 va) = 0 -> translation s va = 0.
Proof. unfold translation. by intros ->. Qed.

Lemma translation_invalid s va : valid_pte (pte_map s (idx3 va)) = false -> translation s va = 0.
Proof. unfold translation. by intros ->. Qed.

(** C25: Allocating and freeing a user page: [alloc_page] on an unmapped page
    number takes the next free page, returns its address, leaves it filled with
    zeros and maps exactly the addresses of that page number to it; [free_page]
    then removes exactly this mapping and puts the page at the end of the free
    list, so all translations are those from before. *)
Theorem alloc_free_roundtrip s L2 L3 l p l1 vpn flags :
  let i := idx3 (vaddr vpn) in
  pt_inv s L2 L3 l -> (2 <= length l)%nat -> drop (missing s (vaddr vpn)) l = p :: l1 ->
  0 <= flags -> Z.land flags PTE_U <> 0 -> valid_pte (pte_map s i) = false ->
  exists s1 s2 L2' L3', alloc_page vpn flags s = Ok (p, s1) /\
    (forall a, is_idx a -> load64 (rmem s1) (p + 8 * a) = 0) /\
    (forall va, translate va s1 = Ok (if decide (idx3 va = i) then __pa s p + va mod RISCV_PAGE_SIZE else translation s va, s1)) /\
    free_page vpn s1 = Ok (tt, s2) /\ pt_inv s2 L2' L3' (l1 ++ [p]) /\
    (forall va, translate va s2 = Ok (translation s va, s2)).
Proof.
  intros i Hinv Hl Hdrop Hfl Huser Hinvalid.
  assert (wp (alloc_page vpn flags) (fun r s1 => r = p /\ (forall a, is_idx a -> load64 (rmem s1) (p + 8 * a) = 0) /\
    (forall va, translate va s1 = Ok (if decide (idx3 va = i) then __pa s p + va mod RISCV_PAGE_SIZE else translation s va, s1)) /\
    exists L2' L3', wp (free_page vpn) (fun _ s2 => pt_inv s2 L2' L3' (l1 ++ [p]) /\
      forall va, translate va s2 = Ok (translation s va, s2)) s1) s) as Hwp.
  { apply (wp_alloc_page s L2 L3 l p l1); try done.
    intros s1 L2' L3' t Hinv1 Hg1 Hleaf1 Hmap1 Hpt Hpl Hpok Hzero _ _ _. fold i in Hleaf1, Hmap1.
    pose proof (pi_load _ _ _ _ Hinv) as [Hl1 Hl2].
    assert (page_ok p) as Hpp by (apply (free_page_page_ok s1); [apply (sq_mem _ _ (pi_queue _ _ _ _ Hinv1))|done]).
    destruct (ppn_page s p Hpp Hl1 Hl2) as [Hppn Epa].
    split; [done|]. split; [intros a Ha; rewrite <- pte_addr_eq by done; by apply Hzero|]. split.
    - intros va. rewrite (translate_run s1 L2' L3' l1) by done. do 2 f_equal.
      pose proof (Hmap1 _ (is_idx3_idx3 va)) as Hva. case_decide.
      + rewrite <- Epa. apply translation_created with (user_flags flags); [done|done|by apply user_flags_nonneg].
      + by apply translation_ext.
    - exists L2', L3'. pose proof (Hmap1 i (is_idx3_idx3 _)) as Ei. rewrite decide_True in Ei by done.
      assert (next_table s1 (pte_map s1 i) = p) as Enext.
      { rewrite Ei, (same_globals_next s s1) by done. apply next_table_create; [done|by apply user_flags_nonneg|done|done]. }
      apply (wp_free_page s1 L2' L3' l1 vpn t); fold i; rewrite ?Enext; try done.
      + rewrite Ei. apply pte_create_valid.
      + rewrite Ei. by apply pte_create_user.
      + intros s2 Hinv2 Hg2 Hmap2. split; [done|]. intros va. rewrite (translate_run s2 L2' L3' (l1 ++ [p])) by done.
        do 2 f_equal. pose proof (Hmap2 _ (is_idx3_idx3 va)) as Hva. rewrite (Hmap1 _ (is_idx3_idx3 va)) in Hva.
        case_decide as D; [|by apply translation_ext].
        rewrite translation_0 by done. symmetry. apply translation_invalid. by rewrite D. }
  destruct (wp_inv _ _ _ Hwp) as (r & s1 & E1 & -> & Hz & Htr & L2' & L3' & Hwp2).
  destruct (wp_inv _ _ _ Hwp2) as ([] & s2 & E2 & Hinv2 & Htr2). by exists s1, s2, L2', L3'.
Qed.

(** Allocating the page of a page number that is already mapped changes no
    translation but, against the comment in the code, does not return the page: for
    a page below physical address [2^52] the second of two identical calls returns
    an address other than the first. *)
Theorem alloc_page_twice_differs s L2 L3 l p l1 vpn flags :
  let i := idx3 (vaddr vpn) in
  pt_inv s L2 L3 l -> (2 <= length l)%nat -> drop (missing s (vaddr vpn)) l = p :: l1 -> (2 <= length l1)%nat ->
  0 <= flags -> valid_pte (pte_map s i) = false -> __pa s p < 2 ^ 52 ->
  exists s1 s2 q, alloc_page vpn flags s = Ok (p, s1) /\ alloc_page vpn flags s1 = Ok (q, s2) /\ q <> p /\
    forall va, translation s2 va = translation s1 va.
Proof.
  intros i Hinv Hl Hdrop Hl1 Hfl Hinvalid Hpa.
  assert (wp (alloc_page vpn flags) (fun r s1 => r = p /\
    wp (alloc_page vpn flags) (fun q s2 => q <> p /\ forall va, translation s2 va = translation s1 va) s1) s) as Hwp.
  { apply (wp_alloc_page s L2 L3 l p l1); try done.
    intros s1 L2' L3' t Hinv1 Hg1 Hleaf1 Hmap1 Hpt Hpl Hpok Hzero _ _ _. split; [done|].
    pose proof (pi_load _ _ _ _ Hinv) as [Hla Hlb].
    assert (page_ok p) as Hpp by (apply (free_page_page_ok s1); [apply (sq_mem _ _ (pi_queue _ _ _ _ Hinv1))|done]).
    destruct (ppn_page s p Hpp Hla Hlb) as [Hppn Epa].
    pose proof (Hmap1 i (is_idx3_idx3 _)) as Ei. rewrite decide_True in Ei by done.
    unfold alloc_page. wp_step. apply (wp_walk_create_2 s1 L2' L3' l1); [done|done|].
    intros s2 L2'' L3'' t2 Hinv2 Hg2 Hmap2 Hleaf2 Hnz _. rewrite (proj2 (Z.eqb_neq _ _) Hnz).
    wp_step. rt_step. wp_step. wp_step. rewrite <- (leaf_map _ _ _ _ Hleaf2), land_PTE_V, negb_involutive. fold i.
    rewrite (Hmap2 i (is_idx3_idx3 _)), Ei, pte_create_valid. wp_step.
    split; [|intros va; apply translation_ext, Hmap2, is_idx3_idx3].
    intros Eq. apply (f_equal (__pa s2)) in Eq. rewrite pa_va in Eq by apply u64_range.
    assert (__pa s2 p = __pa s p) as Ep by (unfold __pa; by rewrite (sg_load _ _ Hg2), (sg_load _ _ Hg1)).
    rewrite Ep in Eq. change RISCV_PAGE_SIZE with 4096 in *.
    remember (ppn (__pa s p)) as n eqn:En. rewrite <- Epa in Eq. clear En. set (tf := user_flags flags) in *.
    assert (pte_create n tf = n * 2 ^ 10 + Z.lor PTE_V (Z.land tf PTE_FLAG_MASK)) as Ec.
    { unfold pte_create, PTE_PPN_SHIFT. rewrite Z.shiftl_mul_pow2, u64_id, <- Z.lor_assoc by (unfold is_u64; lia).
      apply (lor_add _ _ 10); [lia| |apply Z.mod_mul; lia].
      apply lor_bound; [by compute|]. rewrite Z.land_comm. apply land_bound; [by compute|by apply user_flags_nonneg]. }
    assert (1 <= Z.lor PTE_V (Z.land tf PTE_FLAG_MASK) < 2 ^ 10) as Hb.
    { assert (0 <= Z.lor PTE_V (Z.land tf PTE_FLAG_MASK) < 2 ^ 10) as Hb.
      { apply lor_bound; [by compute|]. rewrite Z.land_comm. apply land_bound; [by compute|by apply user_flags_nonneg]. }
      destruct (decide (Z.lor PTE_V (Z.land tf PTE_FLAG_MASK) = 0)) as [E0|]; [|lia].
      by apply Z.lor_eq_0_iff in E0 as [? _]. }
    rewrite Ec in Eq. unfold RISCV_PAGE_BITS in Eq. rewrite Z.shiftl_mul_pow2 in Eq by lia. unfold u64 in Eq.
    assert (n < 2 ^ 40) by lia. rewrite Z.mod_small in Eq; lia. }
  destruct (wp_inv _ _ _ Hwp) as (r & s1 & E1 & -> & Hwp2).
  destruct (wp_inv _ _ _ Hwp2) as (q & s2 & E2 & Hne & Htr). by exists s1, s2, q.
Qed.

(** ** Witnesses *)

(** Six free pages linked in order, and an empty root table. *)
Definition demo_pages : list Z := pages_from 0xffffffff00100000 6.
Definition demo_mem : Z -> Z :=
  store64 (store64 (store64 (store64 (store64 (fun _ => 0)
    0xffffffff00100000 0xffffffff00101000) 0xffffffff00101000 0xffffffff00102000)
    0xffffffff00102000 0xffffffff00103000) 0xffffffff00103000 0xffffffff00104000)
    0xffffffff00104000 0xffffffff00105000.
Definition demo_pt : rt_state :=
  mkRt demo_mem (mkPgList 0xffffffff00100000 0xffffffff00105000 6) 0xffffffff00100000 0x10000 0x90000000 0
    0xffffffff00001000 0.

Lemma demo_root_empty a : is_idx a -> table_of demo_pt 0xffffffff00001000 a = 0.
Proof.
  intros Ha. unfold table_of. rewrite pte_addr_eq by (done || by repeat split; compute). cbn [rmem demo_pt]. unfold demo_mem.
  unfold is_idx in Ha. rewrite !load64_store64 by (unfold aligned8, is_u64; repeat split; (lia || mlia)).
  rewrite !decide_False by lia. done.
Qed.

Lemma demo_pt_inv : pt_inv demo_pt [] [] demo_pages.
Proof.
  assert (forall a, is_idx a -> valid_pte (table_of demo_pt (root_page_table demo_pt) a) = false) as H0
    by (intros a Ha; cbn [root_page_table demo_pt]; by rewrite demo_root_empty).
  split.
  - split.
    + apply NoDup_singleton.
    + intros a Ha. by rewrite H0.
    + intros t a Hin. by apply not_elem_of_nil in Hin.
    + intros a b Ha Hb. by rewrite H0.
    + intros t a u b Hin. by apply not_elem_of_nil in Hin.
  - intros t ->%list_elem_of_singleton. repeat split; by compute.
  - split; [repeat split; by compute|by vm_compute|done|done| |].
    + unfold demo_pages. repeat (constructor; [by vm_compute|]). constructor.
    + apply (bool_decide_unpack _). by vm_compute.
  - intros t ->%list_elem_of_singleton. apply (bool_decide_unpack _). by vm_compute.
  - split; by compute.
Qed.

Lemma demo_unmapped vpn : valid_pte (pte_map demo_pt (idx3 (vaddr vpn))) = false /\ missing demo_pt (vaddr vpn) = 2%nat.
Proof.
  pose proof (is_idx_index (vaddr vpn) 1 ltac:(lia)) as Hi.
  rewrite missing_run. unfold pte_map, pte_of, leaf_of, idx3. cbn [root_page_table demo_pt].
  by rewrite demo_root_empty.
Qed.

Lemma map_page_correct_witness :
  exists s', map_page 0x10 0x80123 0x1e demo_pt = Ok (1, s') /\ translate 0x10abc s' = Ok (0x80123abc, s').
Proof.
  destruct (map_page_correct demo_pt [] [] demo_pages 0x10 0x80123 0x1e demo_pt_inv) as (r & s' & L2 & L3 & E & _ & Ht & Hr);
    [cbv; lia|lia|lia|].
  rewrite (proj1 (demo_unmapped 0x10)) in Hr. subst r. exists s'. split; [exact E|].
  destruct (Ht 0x10abc) as (x & _ & Ht'). rewrite Ht', decide_True; [done|].
  split; [apply demo_unmapped|done].
Defined.

Lemma alloc_free_roundtrip_witness :
  exists s1 s2, alloc_page 0x10 0x1e demo_pt = Ok (0xffffffff00102000, s1) /\ free_page 0x10 s1 = Ok (tt, s2).
Proof.
  destruct (alloc_free_roundtrip demo_pt [] [] demo_pages 0xffffffff00102000 (drop 3 demo_pages) 0x10 0x1e demo_pt_inv)
    as (s1 & s2 & L2 & L3 & E & _ & _ & E2 & _).
  - cbv; lia.
  - by rewrite (proj2 (demo_unmapped 0x10)).
  - lia.
  - by compute.
  - apply demo_unmapped.
  - exists s1, s2. split; [exact E|exact E2].
Defined.

Lemma alloc_page_twice_differs_witness :
  exists s1 s2 q, alloc_page 0x10 0x1e demo_pt = Ok (0xffffffff00102000, s1) /\ alloc_page 0x10 0x1e s1 = Ok (q, s2) /\
    q <> 0xffffffff00102000.
Proof.
  destruct (alloc_page_twice_differs demo_pt [] [] demo_pages 0xffffffff00102000 (drop 3 demo_pages) 0x10 0x1e demo_pt_inv)
    as (s1 & s2 & q & E & E2 & Hq & _).
  - cbv; lia.
  - by rewrite (proj2 (demo_unmapped 0x10)).
  - cbv; lia.
  - lia.
  - apply demo_unmapped.
  - by compute.
  - exists s1, s2, q. split; [exact E|]. split; [exact E2|exact Hq].
Defined.
