(* ===== verification/ReservedMap.v ===== *)
(** * The runtime's own mapping ([map_with_reserved_page_table] of [runtime/mm/mm.c])

    At boot the runtime maps its physical memory with tables reserved in its
    image.  The specification is the address translation of the RISC-V
    privileged architecture (Sv39), super-pages included. *)

From S2P Require Import Prelude Mem Vm Freemem PageTable.
From Stdlib Require Import ZArith Lia.
From stdpp Require Import base tactics sets list list_numbers numbers.
Local Open Scope Z_scope.
Local Open Scope keystone_scope.

(** ** Sv39 *)

(** The walk of the hardware over physical memory [pm] (words at aligned physical
    addresses), from the table at [root]. *)
Module Sv39.
Definition VPN (va n : Z) : Z := (va / 2 ^ (12 + 9 * n)) mod 2 ^ 9.
Definition V (pte : Z) : bool := Z.testbit pte 0.
(** A pointer to the next level has R = X = 0. *)
Definition is_leaf (pte : Z) : bool := Z.testbit pte 1 || Z.testbit pte 3.
Definition PPN (pte : Z) : Z := (pte / 2 ^ 10) mod 2 ^ 44.

(** One level of the walk; [next] continues at the next table. *)
Definition step (pm : Z -> Z) (va level table : Z) (next : Z -> option Z) : option Z :=
  let pte := pm (table + 8 * VPN va level) in
  if V pte then
    if is_leaf pte then Some (PPN pte * 2 ^ 12 + va mod 2 ^ (12 + 9 * level)) else next (PPN pte * 2 ^ 12)
  else None.

Definition translate (pm : Z -> Z) (root va : Z) : option Z :=
  step pm va 2 root (fun t1 => step pm va 1 t1 (fun t0 => step pm va 0 t0 (fun _ => None))).

Lemma step_table pm va level table next pte : pm (table + 8 * VPN va level) = pte -> V pte = true ->
  is_leaf pte = false -> step pm va level table next = next (PPN pte * 2 ^ 12).
Proof. unfold step. by intros -> -> ->. Qed.

Lemma step_leaf pm va level table next pte : pm (table + 8 * VPN va level) = pte -> V pte = true ->
  is_leaf pte = true -> step pm va level table next = Some (PPN pte * 2 ^ 12 + va mod 2 ^ (12 + 9 * level)).
Proof. unfold step. by intros -> -> ->. Qed.
End Sv39.

(** ** The entries the runtime writes *)

Lemma PPN_create n t : 0 <= n < 2 ^ 44 -> 0 <= t -> Sv39.PPN (pte_create n t) = n.
Proof.
  intros Hn Ht. unfold Sv39.PPN. rewrite <- Z.shiftr_div_pow2 by lia.
  change (Z.shiftr (pte_create n t) 10) with (pte_ppn (pte_create n t)). rewrite pte_ppn_create by lia.
  apply Z.mod_small. lia.
Qed.

Lemma testbit_create n t i : 0 <= n -> 0 <= i < 10 -> Z.testbit (pte_create n t) i = (bool_decide (i = 0) || Z.testbit t i)%bool.
Proof.
  intros Hn Hi. unfold pte_create, PTE_PPN_SHIFT. rewrite !Z.lor_spec, Z.land_spec.
  assert (Z.testbit (u64 (Z.shiftl n 10)) i = false) as ->.
  { unfold u64. rewrite Z.mod_pow2_bits_low by lia. apply Z.shiftl_spec_low. lia. }
  assert (Z.testbit PTE_FLAG_MASK i = true) as ->.
  { change PTE_FLAG_MASK with (Z.ones 10). apply Z.ones_spec_low. lia. }
  rewrite andb_true_r. f_equal. change PTE_V with (2 ^ 0). rewrite Z.pow2_bits_eqb by lia.
  case_bool_decide; [subst; done|]. apply Z.eqb_neq. lia.
Qed.

Lemma leaf_flags n : 0 <= n -> Sv39.V (pte_create n map_flags) = true /\ Sv39.is_leaf (pte_create n map_flags) = true.
Proof. intros Hn. unfold Sv39.V, Sv39.is_leaf. by rewrite !testbit_create by lia. Qed.

Lemma ptd_flags n : 0 <= n -> Sv39.V (ptd_create n) = true /\ Sv39.is_leaf (ptd_create n) = false.
Proof. intros Hn. unfold Sv39.V, Sv39.is_leaf, ptd_create. by rewrite !testbit_create by lia. Qed.

(** The index macro counts levels from the root, the architecture from the leaf. *)
Lemma INDEX_VPN va n : 1 <= n <= 3 -> RISCV_GET_PT_INDEX va n = Sv39.VPN va (3 - n).
Proof. intros Hn. rewrite PT_INDEX_spec by done. unfold Sv39.VPN. f_equal. f_equal. f_equal. lia. Qed.

(** Walks that end at the second and at the third level. *)
Lemma walk_mega pm root va e1 e2 :
  pm (root + 8 * RISCV_GET_PT_INDEX va 1) = e1 -> Sv39.V e1 = true -> Sv39.is_leaf e1 = false ->
  pm (Sv39.PPN e1 * 2 ^ 12 + 8 * RISCV_GET_PT_INDEX va 2) = e2 -> Sv39.V e2 = true -> Sv39.is_leaf e2 = true ->
  Sv39.translate pm root va = Some (Sv39.PPN e2 * 2 ^ 12 + va mod 2 ^ 21).
Proof.
  rewrite !INDEX_VPN by lia. intros E1 V1 F1 E2 V2 F2. unfold Sv39.translate.
  by rewrite (Sv39.step_table _ _ _ _ _ _ E1), (Sv39.step_leaf _ _ _ _ _ _ E2).
Qed.

Lemma walk_small pm root va e1 e2 e3 :
  pm (root + 8 * RISCV_GET_PT_INDEX va 1) = e1 -> Sv39.V e1 = true -> Sv39.is_leaf e1 = false ->
  pm (Sv39.PPN e1 * 2 ^ 12 + 8 * RISCV_GET_PT_INDEX va 2) = e2 -> Sv39.V e2 = true -> Sv39.is_leaf e2 = false ->
  pm (Sv39.PPN e2 * 2 ^ 12 + 8 * RISCV_GET_PT_INDEX va 3) = e3 -> Sv39.V e3 = true -> Sv39.is_leaf e3 = true ->
  Sv39.translate pm root va = Some (Sv39.PPN e3 * 2 ^ 12 + va mod 2 ^ 12).
Proof.
  rewrite !INDEX_VPN by lia. intros E1 V1 F1 E2 V2 F2 E3 V3 F3. unfold Sv39.translate.
  by rewrite (Sv39.step_table _ _ _ _ _ _ E1), (Sv39.step_table _ _ _ _ _ _ E2), (Sv39.step_leaf _ _ _ _ _ _ E3).
Qed.

(** Inside the range that one table covers, the index grows with the offset. *)
Lemma INDEX_offset ptr off n : 2 <= n <= 3 -> ptr mod 2 ^ (9 * (4 - n) + 12) = 0 -> 0 <= off < 2 ^ (9 * (4 - n) + 12) ->
  RISCV_GET_PT_INDEX (ptr + off) n = off / 2 ^ (9 * (3 - n) + 12) /\
  (forall k, 1 <= k < n -> RISCV_GET_PT_INDEX (ptr + off) k = RISCV_GET_PT_INDEX ptr k).
Proof.
  intros Hn Hp Ho. split.
  - rewrite PT_INDEX_spec by lia. assert (n = 2 \/ n = 3) as [-> | ->] by lia; simpl Z.mul in *; simpl Z.add in *; mlia.
  - intros k Hk. rewrite !PT_INDEX_spec by lia. f_equal.
    assert (k = 1 \/ k = 2) as [-> | ->] by lia; assert (n = 2 \/ n = 3) as [-> | ->] by lia;
      simpl Z.mul in *; simpl Z.add in *; try lia; mlia.
Qed.

(** ** The leaf loop *)

(** The entries of the leaf table after the loop: the pages from [off0] on. *)
Definition leaf_entry (dram_base sz : Z) (a : Z) : Z := pte_create (ppn (dram_base + sz * a)) map_flags.

Lemma map_leaves_spec n s dram_base dram_size ptr level t k :
  2 <= level <= 3 -> page_ok t ->
  let sz := 2 ^ (9 * (3 - level) + 12) in
  ptr mod (sz * 512) = 0 -> is_u64 ptr -> ptr + sz * 512 <= 2 ^ 64 ->
  0 <= dram_base -> dram_base + sz * 512 < 2 ^ 64 -> dram_size <= sz * 512 ->
  0 <= k <= 512 -> k + Z.of_nat n = 512 ->
  exists s', map_leaves n dram_base dram_size ptr level t (sz * k) s = Ok (tt, s') /\
    same_globals s s' /\
    (forall u a, page_ok u -> is_idx a -> table_of s' u a =
      if decide (u = t /\ k <= a /\ sz * a < dram_size) then leaf_entry dram_base sz a else table_of s u a).
Proof.
  intros Hlev Ht sz Hptr Hpr Hpe Hdb Hde Hds Hk Hn. revert s k Hk Hn.
  assert (sz = 2 ^ 12 \/ sz = 2 ^ 21) as Hsz by (assert (level = 2 \/ level = 3) as [-> | ->] by lia; auto).
  assert (RISCV_GET_LVL_PGSIZE level = sz) as Epg.
  { assert (level = 2 \/ level = 3) as [-> | ->] by lia; done. }
  assert (sz * 512 = 2 ^ (9 * (4 - level) + 12)) as E512.
  { assert (level = 2 \/ level = 3) as [-> | ->] by lia; done. }
  clearbody sz.
  induction n as [|n IH]; intros s k Hk Hn; cbn [map_leaves].
  - rewrite (proj2 (Z.ltb_ge _ _)) by nia. exists s. split; [done|]. split; [done|].
    intros u a Hu Ha. rewrite decide_False; [done|]. unfold is_idx in Ha. lia.
  - destruct (Z.ltb_spec (sz * k) dram_size) as [Hlt|Hge].
    2: { exists s. split; [done|]. split; [done|]. intros u a Hu Ha. rewrite decide_False; [done|]. nia. }
    unfold is_u64 in Hpr. rewrite (u64_id (ptr + sz * k)), (u64_id (dram_base + sz * k)) by (unfold is_u64; nia).
    rewrite Epg, (u64_id (sz * k + sz)) by (unfold is_u64; nia).
    destruct (INDEX_offset ptr (sz * k) level) as [-> _]; [lia|by rewrite <- E512|rewrite <- E512; nia|].
    assert (sz * k / 2 ^ (9 * (3 - level) + 12) = k) as ->.
    { rewrite <- Epg. rewrite Z.mul_comm. assert (level = 2 \/ level = 3) as [-> | ->] by lia; apply Z.div_mul; by compute. }
    set (v := pte_create (ppn (dram_base + sz * k)) map_flags).
    assert (is_u64 v) as Hv by exact (pte_create_range _ map_flags ltac:(by compute)).
    set (s1 := set_rmem (store64 (rmem s) (pte_addr t k) v) s).
    destruct (IH s1 (k + 1)) as (s' & E & Hg & Hm); [lia|lia|].
    exists s'. split; [|split].
    + unfold bind, rstore, modify. replace (sz * k + sz) with (sz * (k + 1)) by lia. exact E.
    + etransitivity; [|exact Hg]. by split.
    + intros u a Hu Ha. rewrite Hm by done. unfold s1.
      rewrite table_of_store by (done || (unfold is_idx; lia)).
      destruct (decide (u = t)) as [->|Hne].
      2: { rewrite !decide_False by naive_solver. done. }
      destruct (decide (a = k)) as [->|Hak].
      * rewrite decide_False by lia. rewrite decide_True by done. rewrite decide_True by lia. done.
      * destruct (decide (k <= a /\ sz * a < dram_size)).
        -- rewrite !decide_True by lia. done.
        -- rewrite !decide_False by lia. done.
Qed.

(** ** The mapping *)

(** The leaf level the function chooses, and the size of its pages. *)
Definition leaf_level (dram_size : Z) : Z := if RISCV_GET_LVL_PGSIZE 2 <? dram_size then 2 else 3.
Definition leaf_size (dram_size : Z) : Z := 2 ^ (9 * (3 - leaf_level dram_size) + 12).

(** The root and the two reserved tables are different pages of the image, and the
    memory to map is aligned as the function asserts. *)
Record reserved_ok (s : rt_state) (dram_base dram_size ptr l2_pt l3_pt : Z) : Prop := {
  ro_pages : forall t, t ∈ [root_page_table s; l2_pt; l3_pt] -> page_ok t;
  ro_nodup : NoDup [root_page_table s; l2_pt; l3_pt];
  ro_phys : forall t, t ∈ [root_page_table s; l2_pt; l3_pt] ->
    0 <= kernel_va_to_pa s t < 2 ^ 56 /\ kernel_va_to_pa s t mod RISCV_PAGE_SIZE = 0;
  ro_base : 0 <= dram_base /\ dram_base mod leaf_size dram_size = 0;
  ro_ptr : is_u64 ptr /\ ptr mod (leaf_size dram_size * 512) = 0;
  ro_size : 0 <= dram_size <= leaf_size dram_size * 512;
  ro_end : dram_base + leaf_size dram_size * 512 <= 2 ^ 56
}.

(** Physical memory holds the tables where the linear mapping of the image says. *)
Definition phys_view (s : rt_state) (ts : list Z) (pm : Z -> Z) : Prop :=
  forall t a, t ∈ ts -> is_idx a -> pm (kernel_va_to_pa s t + 8 * a) = table_of s t a.

Lemma leaf_level_cases dram_size :
  (leaf_level dram_size = 2 /\ leaf_size dram_size = 2 ^ 21 /\ 2 ^ 21 < dram_size) \/
  (leaf_level dram_size = 3 /\ leaf_size dram_size = 2 ^ 12 /\ dram_size <= 2 ^ 21).
Proof.
  unfold leaf_size, leaf_level. change (RISCV_GET_LVL_PGSIZE 2) with (2 ^ 21).
  destruct (Z.ltb_spec (2 ^ 21) dram_size); auto.
Qed.

(** The entry for a reserved table points to it. *)
Lemma ptd_walk s t : 0 <= kernel_va_to_pa s t < 2 ^ 56 -> kernel_va_to_pa s t mod RISCV_PAGE_SIZE = 0 ->
  let e := ptd_create (ppn (kernel_va_to_pa s t)) in
  Sv39.V e = true /\ Sv39.is_leaf e = false /\ Sv39.PPN e * 2 ^ 12 = kernel_va_to_pa s t /\ is_u64 e.
Proof.
  intros Hr Hm e. change RISCV_PAGE_SIZE with 4096 in Hm. unfold e, ppn, RISCV_PAGE_BITS.
  rewrite Z.shiftr_div_pow2 by lia. change (2 ^ 12) with 4096. set (n := kernel_va_to_pa s t / 4096).
  assert (0 <= n < 2 ^ 44 /\ n * 4096 = kernel_va_to_pa s t) as [Hn En] by (unfold n; split; mlia).
  destruct (ptd_flags n) as [-> ->]; [lia|]. split; [done|]. split; [done|]. split; [|apply ptd_range].
  unfold ptd_create. rewrite PPN_create by (lia || by compute). exact En.
Qed.

Lemma leaf_walk dram_base sz a : 0 <= dram_base -> 0 <= a -> sz = 2 ^ 12 \/ sz = 2 ^ 21 -> dram_base mod sz = 0 ->
  dram_base + sz * a < 2 ^ 56 ->
  let e := leaf_entry dram_base sz a in
  Sv39.V e = true /\ Sv39.is_leaf e = true /\ Sv39.PPN e * 2 ^ 12 = dram_base + sz * a.
Proof.
  intros Hb Ha Hsz Hm He e. unfold e, leaf_entry, ppn, RISCV_PAGE_BITS. rewrite Z.shiftr_div_pow2 by lia.
  assert (0 <= dram_base + sz * a) by nia.
  assert ((dram_base + sz * a) mod 2 ^ 12 = 0) as Hm12 by (destruct Hsz as [-> | ->]; mlia).
  set (n := (dram_base + sz * a) / 2 ^ 12).
  assert (0 <= n < 2 ^ 44 /\ n * 2 ^ 12 = dram_base + sz * a) as [Hn En] by (unfold n; split; mlia).
  destruct (leaf_flags n) as [-> ->]; [lia|]. split; [done|]. split; [done|].
  rewrite PPN_create by (lia || by compute). exact En.
Qed.

Section Mapping.
Context (s : rt_state) (dram_base dram_size ptr l2_pt l3_pt : Z).
Context (Hok : reserved_ok s dram_base dram_size ptr l2_pt l3_pt).

Let root := root_page_table s.
Let ts := [root; l2_pt; l3_pt].

(** The entries after the call. *)
Definition reserved_entries (T : Z -> Z -> Z) (u a : Z) : Z :=
  let leaf_pt := if leaf_level dram_size =? 2 then l2_pt else l3_pt in
  if decide (u = leaf_pt /\ 0 <= a /\ leaf_size dram_size * a < dram_size)
  then leaf_entry dram_base (leaf_size dram_size) a
  else if decide (leaf_level dram_size = 3 /\ u = l2_pt /\ a = RISCV_GET_PT_INDEX ptr 2)
  then ptd_create (ppn (kernel_va_to_pa s l3_pt))
  else if decide (u = root /\ a = RISCV_GET_PT_INDEX ptr 1)
  then ptd_create (ppn (kernel_va_to_pa s l2_pt))
  else T u a.

Lemma reserved_distinct : root <> l2_pt /\ root <> l3_pt /\ l2_pt <> l3_pt.
Proof.
  pose proof (ro_nodup _ _ _ _ _ _ Hok) as [H1 Hnd]%list.NoDup_cons. apply list.NoDup_cons in Hnd as [H2 _].
  split_and!; [intros E; apply H1; fold root; rewrite E|intros E; apply H1; fold root; rewrite E|intros E; apply H2; rewrite E].
  - apply list_elem_of_here.
  - apply list_elem_of_further, list_elem_of_here.
  - apply list_elem_of_here.
Qed.

Lemma entry_root T : reserved_entries T root (RISCV_GET_PT_INDEX ptr 1) = ptd_create (ppn (kernel_va_to_pa s l2_pt)).
Proof.
  pose proof reserved_distinct as (N1 & N2 & _). unfold reserved_entries.
  rewrite decide_False by (intros [E _]; revert E; case_match; auto).
  rewrite decide_False by (intros (_ & E & _); done). by rewrite decide_True.
Qed.

Lemma entry_l2 T : leaf_level dram_size = 3 ->
  reserved_entries T l2_pt (RISCV_GET_PT_INDEX ptr 2) = ptd_create (ppn (kernel_va_to_pa s l3_pt)).
Proof.
  pose proof reserved_distinct as (_ & _ & N3). intros El. unfold reserved_entries. rewrite El.
  change (3 =? 2) with false. cbv iota. rewrite decide_False by (intros [E _]; done). by rewrite decide_True.
Qed.

Lemma entry_leaf T a : 0 <= a -> leaf_size dram_size * a < dram_size ->
  reserved_entries T (if leaf_level dram_size =? 2 then l2_pt else l3_pt) a =
    leaf_entry dram_base (leaf_size dram_size) a.
Proof. intros. unfold reserved_entries. by rewrite decide_True. Qed.

Lemma entry_other T t a : t ∉ ts -> reserved_entries T t a = T t a.
Proof.
  intros Hout. assert (t <> root /\ t <> l2_pt /\ t <> l3_pt) as (? & ? & ?) by (split_and!; intros ->; apply Hout;
    unfold ts; repeat (apply list_elem_of_here || apply list_elem_of_further)).
  unfold reserved_entries. rewrite !decide_False; [done|by intros [? _]|by intros (_ & ? & _)|].
  intros [E _]. revert E. by case_match.
Qed.

(** Past the assertions. *)
Lemma map_64_asserts l3 : let level := if l3 =? 0 then 2 else 3 in let leaf_pt := if l3 =? 0 then l2_pt else l3 in
  dram_size <= 2 ^ (9 * (4 - level) + 12) -> dram_base mod 2 ^ (9 * (3 - level) + 12) = 0 ->
  ptr mod 2 ^ (9 * (4 - level) + 12) = 0 ->
  __map_with_reserved_page_table_64 dram_base dram_size ptr l2_pt l3 s =
    (rstore (pte_addr root (RISCV_GET_PT_INDEX ptr 1)) (ptd_create (ppn (kernel_va_to_pa s l2_pt))) ;;;
     (if negb (leaf_pt =? l2_pt)
      then rstore (pte_addr l2_pt (RISCV_GET_PT_INDEX ptr 2)) (ptd_create (ppn (kernel_va_to_pa s l3)))
      else ret tt) ;;;
     map_leaves 512 dram_base dram_size ptr level leaf_pt 0) s.
Proof.
  intros level leaf_pt Hs Hb Hp. unfold __map_with_reserved_page_table_64. cbv zeta. fold level leaf_pt.
  assert (level = 2 \/ level = 3) as Hlev by (unfold level; case_match; auto).
  assert (0 <= RISCV_GET_LVL_PGSIZE_BITS level < 64 /\ 0 <= RISCV_GET_LVL_PGSIZE_BITS (level - 1) < 64)
    as [B1 B2] by (destruct Hlev as [-> | ->]; split; by compute).
  unfold bind at 1, rt_assert.
  replace (RISCV_GET_LVL_PGSIZE (level - 1)) with (2 ^ (9 * (4 - level) + 12)) by (destruct Hlev as [-> | ->]; done).
  rewrite (proj2 (Z.leb_le _ _) Hs). unfold ret at 1, bind at 1.
  rewrite (proj2 (IS_ALIGNED_spec dram_base _ B1) Hb). unfold ret at 1, bind at 1.
  rewrite (proj2 (IS_ALIGNED_spec ptr _ B2)); [done|].
  replace (RISCV_GET_LVL_PGSIZE_BITS (level - 1)) with (9 * (4 - level) + 12); [done|].
  destruct Hlev as [-> | ->]; done.
Qed.

Lemma map_reserved_run : exists s',
  map_with_reserved_page_table dram_base dram_size ptr l2_pt l3_pt s = Ok (tt, s') /\ same_globals s s' /\
  forall u a, page_ok u -> is_idx a -> table_of s' u a = reserved_entries (table_of s) u a.
Proof.
  destruct Hok as [Hpg Hnd Hph [Hb0 Hb] [Hp0 Hp] Hsz Hend].
  assert (page_ok root /\ page_ok l2_pt /\ page_ok l3_pt) as (P1 & P2 & P3) by (split_and!; apply Hpg; set_solver).
  pose proof reserved_distinct as (_ & _ & Hne23).
  pose proof (is_idx_index ptr 1 ltac:(lia)) as Hi1. pose proof (is_idx_index ptr 2 ltac:(lia)) as Hi2.
  unfold map_with_reserved_page_table, reserved_entries. fold (leaf_level dram_size). unfold is_u64 in Hp0.
  assert (forall n, is_u64 (ptd_create n)) as Hptd by apply ptd_range.
  destruct (leaf_level_cases dram_size) as [(El & Es & Hd)|(El & Es & Hd)]; rewrite El, Es in *;
    change (RISCV_GET_LVL_PGSIZE 2) with (2 ^ 21).
  - rewrite (proj2 (Z.ltb_lt _ _)) by lia. rewrite (map_64_asserts 0 (proj2 Hsz) Hb Hp). rewrite !Z.eqb_refl.
    unfold negb, bind, rstore, modify, ret.
    match goal with |- context [map_leaves 512 _ _ _ ?lv ?t 0 ?st] =>
      destruct (map_leaves_spec 512 st dram_base dram_size ptr lv t 0) as (s' & E & Hg & Hm) end;
      try done; try (unfold is_u64; lia); [change (2 ^ (9 * (3 - 2) + 12)) with (2 ^ 21); mlia|].
    exists s'. split; [exact E|].
    split; [etransitivity; [|exact Hg]; by split|].
    intros u a Hu Ha. rewrite Hm by done. change (2 =? 2) with true. cbv iota.
    change (2 ^ (9 * (3 - 2) + 12)) with (2 ^ 21). case_decide; [done|]. rewrite decide_False by lia.
    by rewrite table_of_store.
  - rewrite (proj2 (Z.ltb_ge _ _)) by lia. pose proof P3 as (_ & P3b & _).
    assert ((l3_pt =? 0) = false) as E0 by (apply Z.eqb_neq; lia).
    rewrite map_64_asserts by (rewrite E0; exact (proj2 Hsz) || exact Hb || exact Hp). rewrite E0, (proj2 (Z.eqb_neq l3_pt l2_pt)) by congruence.
    unfold negb, bind, rstore, modify.
    match goal with |- context [map_leaves 512 _ _ _ ?lv ?t 0 ?st] =>
      destruct (map_leaves_spec 512 st dram_base dram_size ptr lv t 0) as (s' & E & Hg & Hm) end;
      try done; try (unfold is_u64; lia); [change (2 ^ (9 * (3 - 3) + 12)) with (2 ^ 12); mlia|].
    exists s'. split; [exact E|].
    split; [etransitivity; [|exact Hg]; by split|].
    intros u a Hu Ha. rewrite Hm by done. change (3 =? 2) with false. cbv iota.
    change (2 ^ (9 * (3 - 3) + 12)) with (2 ^ 12). case_decide; [done|]. rewrite table_of_store by done.
    destruct (decide (u = l2_pt /\ a = RISCV_GET_PT_INDEX ptr 2)) as [|Hn]; [by rewrite decide_True|].
    rewrite decide_False by (intros (_ & ? & ?); by apply Hn). by rewrite table_of_store.
Qed.
End Mapping.

(** C27: After [map_with_reserved_page_table] the hardware translates the virtual
    range at [ptr] to the physical memory at [dram_base], byte for byte: with 4 KiB
    pages when the memory fits one leaf table, with 2 MiB pages otherwise.  The
    function returns (no assertion fails) and writes only the three reserved
    tables' entries. *)
Theorem map_with_reserved_page_table_correct s dram_base dram_size ptr l2_pt l3_pt :
  reserved_ok s dram_base dram_size ptr l2_pt l3_pt ->
  exists s', map_with_reserved_page_table dram_base dram_size ptr l2_pt l3_pt s = Ok (tt, s') /\
    same_globals s s' /\
    (forall t a, page_ok t -> is_idx a -> t ∉ [root_page_table s; l2_pt; l3_pt] -> table_of s' t a = table_of s t a) /\
    forall pm, phys_view s' [root_page_table s; l2_pt; l3_pt] pm -> forall off, 0 <= off < dram_size ->
      Sv39.translate pm (kernel_va_to_pa s (root_page_table s)) (ptr + off) = Some (dram_base + off).
Proof.
  intros Hok. destruct (map_reserved_run _ _ _ _ _ _ Hok) as (s' & E & Hg & Hm). exists s'.
  split; [done|]. split; [done|]. split; [intros t a Ht Ha Hout; rewrite Hm by done; by apply entry_other|].
  intros pm Hpm off Hoff. pose proof Hok as [Hpg _ Hph [Hb0 Hb] [Hp0 Hp] Hsz Hend].
  set (r := root_page_table s) in *.
  assert (forall t a, t ∈ [r; l2_pt; l3_pt] -> is_idx a ->
    pm (kernel_va_to_pa s t + 8 * a) = reserved_entries s dram_base dram_size ptr l2_pt l3_pt (table_of s) t a) as Hread.
  { intros t a Ht Ha. rewrite <- Hm by (done || by apply Hpg). rewrite <- Hpm by done.
    unfold kernel_va_to_pa. by rewrite (sg_koff _ _ Hg). }
  assert (r ∈ [r; l2_pt; l3_pt] /\ l2_pt ∈ [r; l2_pt; l3_pt] /\ l3_pt ∈ [r; l2_pt; l3_pt]) as (I1 & I2 & I3) by set_solver.
  destruct (Hph l2_pt I2) as [Hr2 Ha2], (Hph l3_pt I3) as [Hr3 Ha3].
  pose proof (ptd_walk s l2_pt Hr2 Ha2) as (V2 & F2 & T2 & _). pose proof (ptd_walk s l3_pt Hr3 Ha3) as (V3 & F3 & T3 & _).
  pose proof (fun n H => is_idx_index (ptr + off) n H) as Hix.
  pose proof (entry_leaf s dram_base dram_size ptr l2_pt l3_pt (table_of s)) as Hleaf.
  pose proof (entry_l2 s dram_base dram_size ptr l2_pt l3_pt Hok (table_of s)) as Hl2.
  pose proof (entry_root s dram_base dram_size ptr l2_pt l3_pt Hok (table_of s)) as Hroot. fold r in Hroot.
  destruct (leaf_level_cases dram_size) as [(El & Es & Hd)|(El & Es & Hd)]; rewrite El, Es in *; cbn [Z.eqb] in Hleaf.
  - destruct (INDEX_offset ptr off 2) as [J2 Jup]; [lia|exact Hp|simpl Z.mul; simpl Z.add; lia|].
    assert (0 <= off / 2 ^ 21 /\ 2 ^ 21 * (off / 2 ^ 21) <= off) as [Q1 Q2] by (split; mlia).
    destruct (leaf_walk dram_base (2 ^ 21) (off / 2 ^ 21) Hb0 Q1 ltac:(by right) Hb ltac:(lia)) as (V1 & F1 & T1).
    rewrite (walk_mega _ _ _ (ptd_create (ppn (kernel_va_to_pa s l2_pt))) (leaf_entry dram_base (2 ^ 21) (off / 2 ^ 21)));
      [rewrite T1; f_equal; mlia| |done|done| |done|done].
    + rewrite Hread by (done || (apply Hix; lia)). rewrite (Jup 1) by lia. exact Hroot.
    + rewrite T2, Hread by (done || (apply Hix; lia)). rewrite J2. apply Hleaf; [exact Q1|lia].
  - destruct (INDEX_offset ptr off 3) as [J3 Jup]; [lia|exact Hp|simpl Z.mul; simpl Z.add; lia|].
    assert (0 <= off / 2 ^ 12 /\ 2 ^ 12 * (off / 2 ^ 12) <= off) as [Q1 Q2] by (split; mlia).
    destruct (leaf_walk dram_base (2 ^ 12) (off / 2 ^ 12) Hb0 Q1 ltac:(by left) Hb ltac:(lia)) as (V1 & F1 & T1).
    rewrite (walk_small _ _ _ (ptd_create (ppn (kernel_va_to_pa s l2_pt))) (ptd_create (ppn (kernel_va_to_pa s l3_pt)))
      (leaf_entry dram_base (2 ^ 12) (off / 2 ^ 12))); [rewrite T1; f_equal; mlia| |done|done| |done|done| |done|done].
    + rewrite Hread by (done || (apply Hix; lia)). rewrite (Jup 1) by lia. exact Hroot.
    + rewrite T2, Hread by (done || (apply Hix; lia)). rewrite (Jup 2) by lia. exact (Hl2 eq_refl).
    + rewrite T3, Hread by (done || (apply Hix; lia)). rewrite J3. apply Hleaf; [exact Q1|lia].
Qed.

(** ** Witness *)

(** An image at the start of the load area: the root and the two reserved tables. *)
Definition demo_kernel : rt_state :=
  mkRt (fun _ => 0) LIST_INIT 0xffffffff00100000 0x10000 0x90000000 0xffffffff30000000 0xffffffffc0001000 0.

Lemma demo_reserved_ok :
  reserved_ok demo_kernel 0x90000000 0x3000 0xffffffff00000000 0xffffffffc0002000 0xffffffffc0003000.
Proof.
  split.
  - intros t Ht. set_unfold in Ht. destruct_or! Ht; subst t; repeat split; by compute.
  - apply (bool_decide_unpack _). by vm_compute.
  - intros t Ht. set_unfold in Ht. destruct_or! Ht; subst t; repeat split; by compute.
  - split; by compute.
  - split; by compute.
  - split; by compute.
  - by compute.
Qed.

(** Physical memory seen through the linear mapping of the image. *)
Lemma demo_phys_view s' : same_globals demo_kernel s' ->
  phys_view s' [0xffffffffc0001000; 0xffffffffc0002000; 0xffffffffc0003000]
    (fun x => load64 (rmem s') (x + 0xffffffff30000000)).
Proof.
  intros Hg t a Ht Ha. unfold table_of, kernel_va_to_pa. rewrite (sg_koff _ _ Hg). cbn [kernel_offset demo_kernel].
  set_unfold in Ht. rewrite pte_addr_eq; [|destruct_or! Ht; subst t; repeat split; by compute|done].
  f_equal. destruct_or! Ht; subst t; rewrite u64_id by (unfold is_u64; lia); lia.
Qed.

Lemma map_with_reserved_page_table_correct_witness :
  exists s', map_with_reserved_page_table 0x90000000 0x3000 0xffffffff00000000 0xffffffffc0002000 0xffffffffc0003000
      demo_kernel = Ok (tt, s') /\
    Sv39.translate (fun x => load64 (rmem s') (x + 0xffffffff30000000)) 0x90001000 0xffffffff00002345 = Some 0x90002345.
Proof.
  destruct (map_with_reserved_page_table_correct demo_kernel _ _ _ _ _ demo_reserved_ok) as (s' & E & Hg & _ & Ht).
  exists s'. split; [exact E|]. exact (Ht _ (demo_phys_view s' Hg) 0x2345 ltac:(lia)).
Defined.
