(* ===== verification/Syscall.v ===== *)
(** * Calls of the enclave application to the host ([runtime/call/syscall.c])

    The runtime forwards the application's calls to the untrusted host through
    the shared buffer, and copies the answers back.  The host is an arbitrary
    function of the request and of memory; that it changes nothing but the shared
    buffer is what the security monitor guarantees. *)

From S2P Require Import Prelude Mem EdgeCall.
From Stdlib Require Import ZArith Lia.
From stdpp Require Import base tactics sets list list_numbers numbers.
Local Open Scope Z_scope.
Local Open Scope keystone_scope.

(** ** Constants ([sm_call.h], [eyrie_call.h], [edge_syscall.h]) *)

Definition STOP_EDGE_CALL_HOST : Z := 1.
Definition RUNTIME_SYSCALL_UNKNOWN : Z := 1000.
Definition RUNTIME_SYSCALL_OCALL : Z := 1001.
Definition RUNTIME_SYSCALL_SHAREDCOPY : Z := 1002.
Definition RUNTIME_SYSCALL_ATTEST_ENCLAVE : Z := 1003.
Definition RUNTIME_SYSCALL_GET_SEALING_KEY : Z := 1004.
Definition RUNTIME_SYSCALL_EXIT : Z := 1101.
Definition COPY_BUFFER_SIZE : Z := 4096.

(** The globals of the runtime that the calls use, with the address space. *)
Record sys_state : Type := mkSys {
  se : edge_state;
  shared_buffer : Z;
  shared_buffer_size : Z;
  rt_copy_buffer_1 : Z;
  rt_copy_buffer_2 : Z
}.

Definition set_se (e : edge_state) (s : sys_state) : sys_state :=
  mkSys e (shared_buffer s) (shared_buffer_size s) (rt_copy_buffer_1 s) (rt_copy_buffer_2 s).
Definition with_edge {A : Type} (c : M edge_state A) : M sys_state A := zoom se set_se c.

(** The registers of the saved context that a system call reads and writes. *)
Record encl_ctx : Type := mkCtx { c_sepc : Z; c_a0 : Z; c_a1 : Z; c_a2 : Z; c_a3 : Z; c_a4 : Z; c_a7 : Z }.

(** What lies outside the runtime: the security monitor's calls, each returning the
    value of [a0] and the memory afterwards, the address translation, and which
    user addresses are mapped. *)
Class Outside := {
  (** [sbi_stop_enclave(request)]: the host runs until it resumes the enclave. *)
  stop_enclave : Z -> (Z -> Z) -> Z * (Z -> Z);
  (** [sbi_exit_enclave(retval)]: returns if the host resumes the enclave all the same. *)
  exit_call : Z -> (Z -> Z) -> Z * (Z -> Z);
  (** [sbi_attest_enclave(report, buf, len)] *)
  attest : Z -> Z -> Z -> (Z -> Z) -> Z * (Z -> Z);
  (** [sbi_get_sealing_key(key_struct, key_ident, len)] *)
  sealing_key : Z -> Z -> Z -> (Z -> Z) -> Z * (Z -> Z);
  translate_va : (Z -> Z) -> Z -> Z;
  user_mapped : Z -> Z -> bool
}.

Section Syscalls.
Context `{Outside}.

Definition outside_call (f : (Z -> Z) -> Z * (Z -> Z)) : M edge_state Z := fun s =>
  let '(r, m) := f (emem s) in Ok (r, set_emem m s).
Definition sbi_stop_enclave (request : Z) : M edge_state Z := outside_call (stop_enclave request).
Definition sbi_exit_enclave (retval : Z) : M edge_state unit := outside_call (exit_call retval) ;;; ret tt.
Definition sbi_attest_enclave (report buf len : Z) : M edge_state Z := outside_call (attest report buf len).
Definition sbi_get_sealing_key (key_struct key_ident len : Z) : M edge_state Z :=
  outside_call (sealing_key key_struct key_ident len).

(** [copy_to_user] and [copy_from_user] are the same assembly routine
    ([runtime/tmplib/uaccess.S]): it copies [n] bytes and returns 0; a fault
    leaves the enclave.  Overlapping buffers are outside the model. *)
Definition copy_user (user to from n : Z) : M edge_state Z :=
  if user_mapped user n then memcpy to from n ;;; ret 0 else hang.
Definition copy_to_user (to from n : Z) : M edge_state Z := copy_user to to from n.
Definition copy_from_user (to from n : Z) : M edge_state Z := copy_user from to from n.

Definition dispatch_edgecall_syscall (syscall_data_ptr data_len : Z) : M sys_state Z :=
  let! s := get in
  let e := shared_buffer s in
  with_edge (
    store (e + edge_call.call_id) EDGECALL_SYSCALL ;;;
    let! r := edge_call_setup_call e syscall_data_ptr data_len in
    if negb (r =? 0) then ret (u64 (-1))
    else
      let! r := sbi_stop_enclave STOP_EDGE_CALL_HOST in
      (* stored in an [int] *)
      if negb (u32 r =? 0) then ret (u64 (-1))
      else
        let! status := load (e + edge_call.call_status) in
        if negb (status =? CALL_STATUS_OK) then ret (u64 (-1))
        else
          let! '(r, ptr, return_len) := edge_call_ret_ptr e in
          match r =? 0, ptr with
          | true, Some return_ptr => if return_len <? 8 then ret (u64 (-1)) else load return_ptr
          | _, _ => ret (u64 (-1))
          end).

Definition dispatch_edgecall_ocall (call_id data data_len return_buffer return_len : Z) : M sys_state Z :=
  let! s := get in
  let e := shared_buffer s in
  let size := shared_buffer_size s in
  with_edge (
    store (e + edge_call.call_id) call_id ;;;
    let! es := get in
    let buffer_data_start := edge_call_data_ptr es in
    if size -w (buffer_data_start -w e) <? data_len then ret 1
    else
      copy_from_user buffer_data_start data data_len ;;;
      let! r := edge_call_setup_call e buffer_data_start data_len in
      if negb (r =? 0) then ret 1
      else
        let! r := sbi_stop_enclave STOP_EDGE_CALL_HOST in
        if negb (r =? 0) then ret 1
        else
          let! status := load (e + edge_call.call_status) in
          if negb (status =? CALL_STATUS_OK) then ret 1
          else if return_len =? 0 then ret 0
          else
            let! '(r, ptr, ret_len_untrusted) := edge_call_ret_ptr e in
            match r =? 0, ptr with
            | true, Some return_ptr =>
                copy_to_user return_buffer return_ptr
                  (if return_len <? ret_len_untrusted then return_len else ret_len_untrusted) ;;;
                ret 0
            | _, _ => ret 1
            end).

Definition handle_copy_from_shared (dst offset size : Z) : M sys_state Z :=
  with_edge (
    let! es := get in
    match edge_call_get_ptr_from_offset offset size es with
    | (r, Some src_ptr) => if negb (r =? 0) then ret 1 else copy_to_user dst src_ptr size
    | (r, None) => ret 1
    end).

Definition init_edge_internals : M sys_state unit :=
  let! s := get in with_edge (edge_call_init_internals (shared_buffer s) (shared_buffer_size s)).

(** [handle_syscall] without the optional Linux, I/O and network calls; the
    result is the context with the new program counter and [a0]. *)
Definition handle_syscall (ctx : encl_ctx) : M sys_state encl_ctx :=
  let n := c_a7 ctx in
  let! s := get in
  let b1 := rt_copy_buffer_1 s in
  let b2 := rt_copy_buffer_2 s in
  let! r :=
    (if n =? RUNTIME_SYSCALL_EXIT then with_edge (sbi_exit_enclave (c_a0 ctx)) ;;; ret 0
     else if n =? RUNTIME_SYSCALL_OCALL then
       dispatch_edgecall_ocall (c_a0 ctx) (c_a1 ctx) (c_a2 ctx) (c_a3 ctx) (c_a4 ctx)
     else if n =? RUNTIME_SYSCALL_SHAREDCOPY then handle_copy_from_shared (c_a0 ctx) (c_a1 ctx) (c_a2 ctx)
     else if n =? RUNTIME_SYSCALL_ATTEST_ENCLAVE then
       with_edge (
         copy_from_user b2 (c_a1 ctx) (c_a2 ctx) ;;;
         let! r := sbi_attest_enclave b1 b2 (c_a2 ctx) in
         copy_to_user (c_a0 ctx) b1 2048 ;;;
         ret r)
     else if n =? RUNTIME_SYSCALL_GET_SEALING_KEY then
       with_edge (
         let! es := get in
         let buffer_1_pa := translate_va (emem es) b1 in
         let buffer_2_pa := translate_va (emem es) b2 in
         if (COPY_BUFFER_SIZE <? c_a1 ctx) || (COPY_BUFFER_SIZE <? c_a3 ctx) then ret (u64 (-1))
         else
           copy_from_user b2 (c_a2 ctx) (c_a3 ctx) ;;;
           let! r := sbi_get_sealing_key buffer_1_pa buffer_2_pa (c_a3 ctx) in
           (if r =? 0 then copy_to_user (c_a0 ctx) b1 (c_a1 ctx) else ret 0) ;;;
           modify (fun es => set_emem (memset b1 0 COPY_BUFFER_SIZE (emem es)) es) ;;;
           ret r)
     else ret (u64 (-1))) in
  ret (mkCtx (c_sepc ctx +w 4) r (c_a1 ctx) (c_a2 ctx) (c_a3 ctx) (c_a4 ctx) (c_a7 ctx)).
End Syscalls.

(** ** Properties *)

(** The edge library was initialised with the shared buffer ([init_edge_internals]),
    which has room for the call header and at least one byte. *)
Record sys_ok (s : sys_state) : Prop := {
  so_buf : buffer_ok (se s);
  so_start : _shared_start (se s) = shared_buffer s;
  so_len : _shared_len (se s) = shared_buffer_size s;
  so_room : edge_call.sizeof < shared_buffer_size s
}.

(** What isolation gives the runtime: while the enclave is stopped only the shared
    buffer changes. *)
Record host_confined `{Outside} (buf size : Z) : Prop := {
  hc_frame : forall req f a, is_u64 a -> in_range buf size a = false -> (stop_enclave req f).2 a = f a;
  hc_bytes : forall req f, mem_bytes f -> mem_bytes (stop_enclave req f).2
}.

(** Memory agrees outside the shared buffer. *)
Definition same_outside (buf size : Z) (f g : Z -> Z) : Prop :=
  forall a, is_u64 a -> in_range buf size a = false -> g a = f a.

#[export] Instance same_outside_preorder buf size : PreOrder (same_outside buf size).
Proof. split; [by intros f a|]. intros f g h Hfg Hgh a Ha Hout. by rewrite Hgh, Hfg. Qed.

Lemma write_same_outside buf size f k bs : 0 <= k -> k + Z.of_nat (length bs) <= size -> size <= 2 ^ 64 ->
  same_outside buf size f (write_bytes f (buf + k) bs).
Proof. intros ? ? ? a Ha Hout. apply write_bytes_other. apply in_range_sub with size; lia || done. Qed.

Lemma store_same_outside buf size f k v : 0 <= k -> k + 8 <= size -> size <= 2 ^ 64 ->
  same_outside buf size f (store64 f (buf + k) v).
Proof. intros. by apply write_same_outside. Qed.

(** Bytes outside the buffer are read unchanged. *)
Lemma read_same_outside buf size f g a n : same_outside buf size f g ->
  ranges_disjoint buf size a (Z.of_nat n) = true -> read_bytes g a n = read_bytes f a n.
Proof.
  intros Hsame Hd. unfold read_bytes. apply map_ext_in. intros i Hi%in_seq. apply Hsame; [apply u64_range|].
  apply ranges_disjoint_spec with (Z.of_nat n); [done|lia].
Qed.

Section OcallProofs.
Context `{Outside}.

(** The memory the host finds: the call id, the data after the header, and the
    argument slot. *)
Definition ocall_mem (f : Z -> Z) (buf call_id data data_len : Z) : Z -> Z :=
  let f1 := store64 f (buf + edge_call.call_id) call_id in
  store64 (store64 (write_bytes f1 (buf + 48) (read_bytes f data (Z.to_nat data_len)))
    (buf + edge_call.call_arg_size) data_len) (buf + edge_call.call_arg_offset) 48.

Section Request.
Context (es : edge_state) (call_id data data_len : Z).
Context (Hes : buffer_ok es) (Hid : is_u64 call_id) (Hlen : is_u64 data_len).
Context (Hfit : 48 + data_len <= _shared_len es) (Hroom : 48 < _shared_len es).
Context (Hdata : ranges_disjoint (_shared_start es) (_shared_len es) data data_len = true \/ data_len = 0).
Let buf := _shared_start es.
Let f1 := ocall_mem (emem es) buf call_id data data_len.

Lemma read_data_after_id :
  read_bytes (store64 (emem es) (buf + edge_call.call_id) call_id) data (Z.to_nat data_len) =
  read_bytes (emem es) data (Z.to_nat data_len).
Proof.
  unfold is_u64 in Hlen. destruct Hes, Hdata as [Hd| ->]; [|done].
  destruct (decide (data_len = 0)) as [->|]; [done|].
  apply read_store64_disjoint. rewrite Z2Nat.id by lia.
  apply (ranges_disjoint_sub _ (_shared_len es)); [by compute|lia|cbv [edge_call.call_id]; lia|lia|done].
Qed.

Lemma ocall_mem_bytes : mem_bytes f1.
Proof.
  unfold f1, ocall_mem. do 2 apply store64_mem_bytes. apply write_bytes_mem_bytes; [apply store64_mem_bytes, Hes|].
  apply read_bytes_u8, Hes.
Qed.

Lemma ocall_mem_outside : same_outside buf (_shared_len es) (emem es) f1.
Proof.
  destruct Hes. unfold is_u64 in *. unfold f1, ocall_mem.
  etransitivity; [|apply store_same_outside; cbv [edge_call.call_arg_offset]; lia].
  etransitivity; [|apply store_same_outside; cbv [edge_call.call_arg_size]; lia].
  etransitivity; [|apply write_same_outside; rewrite ?length_read_bytes; lia].
  apply store_same_outside; cbv [edge_call.call_id]; lia.
Qed.

(** The host finds the call as the enclave made it. *)
Lemma ocall_mem_view :
  load64 f1 (buf + edge_call.call_id) = call_id /\
  edge_call_args_ptr buf (set_emem f1 es) = Ok (0, Some (buf + 48), data_len, set_emem f1 es) /\
  read_bytes f1 (buf + 48) (Z.to_nat data_len) = read_bytes (emem es) data (Z.to_nat data_len).
Proof.
  pose proof Hes as [B1 B2 B3 _ _]. unfold is_u64 in *. split_and!.
  - unfold f1, ocall_mem. cbv zeta. edge_fields. rewrite load64_write_disjoint.
    + by rewrite load64_store64_same, u64_id.
    + rewrite length_read_bytes. apply ranges_disjoint_offsets; unfold is_u64; cbv [edge_call.call_id]; lia.
  - unfold edge_call_args_ptr, load, gets, get, bind, ret. cbn [emem set_emem]. unfold f1 at 1 2 4, ocall_mem.
    cbv zeta. edge_fields. rewrite (u64_id data_len), (u64_id 48) by (unfold is_u64; lia). do 2 f_equal.
    rewrite get_ptr_from_offset_spec by ((apply buffer_ok_set_emem; [done|apply ocall_mem_bytes]) || (unfold is_u64; lia)).
    cbn [_shared_len _shared_start set_emem]. by rewrite decide_True by lia.
  - unfold f1, ocall_mem. cbv zeta. destruct (decide (data_len = 0)) as [->|]; [done|].
    rewrite !read_store64_disjoint by (apply ranges_disjoint_offsets; unfold is_u64;
      cbv [edge_call.call_arg_offset edge_call.call_arg_size]; lia).
    pose proof (read_write_same (store64 (emem es) (buf + edge_call.call_id) call_id) (buf + 48)
      (read_bytes (emem es) data (Z.to_nat data_len))) as Hsame.
    rewrite length_read_bytes in Hsame. apply Hsame. lia.
Qed.
End Request.

(** What the runtime does with the host's answer. *)
Definition ocall_answer (buf return_buffer return_len : Z) : M edge_state Z :=
  let! status := load (buf + edge_call.call_status) in
  if negb (status =? CALL_STATUS_OK) then ret 1
  else if return_len =? 0 then ret 0
  else
    let! '(r, ptr, ret_len_untrusted) := edge_call_ret_ptr buf in
    match r =? 0, ptr with
    | true, Some return_ptr =>
        copy_to_user return_buffer return_ptr
          (if return_len <? ret_len_untrusted then return_len else ret_len_untrusted) ;;;
        ret 0
    | _, _ => ret 1
    end.

(** Whatever the host left in the buffer, the answer is copied from inside it. *)
Lemma ocall_answer_safe es buf rb rl : buffer_ok es -> is_u64 rl -> buf = _shared_start es ->
  ranges_disjoint buf (_shared_len es) rb rl = true \/ rl = 0 ->
  (forall n, 0 <= n <= rl -> user_mapped rb n = true) ->
  wp (ocall_answer buf rb rl) (fun v es' =>
    (v = 1 /\ es' = es) \/
    (v = 0 /\ exists p n, 0 <= n <= rl /\ (rl = 0 \/ in_shared es p n) /\
      forall a, emem es' a = write_bytes (emem es) rb (read_bytes (emem es) p (Z.to_nat n)) a)) es.
Proof.
  intros Hes Hrl -> Hd Hmap. pose proof Hes as [B1 B2 B3 _ B5]. unfold is_u64 in Hrl.
  unfold ocall_answer. wp_step. apply wp_gets. destruct (_ =? CALL_STATUS_OK); simpl; [|wp_step; auto].
  destruct (Z.eqb_spec rl 0) as [->|Hne].
  { wp_step. right. split; [done|]. exists (_shared_start es), 0. split_and!; try lia. intros a.
    symmetry. apply write_bytes_other. unfold in_range. simpl. apply Z.ltb_ge. apply (u64_range (a - rb)). }
  destruct Hd as [Hd|]; [|done].
  assert (is_u64 (load64 (emem es) (_shared_start es + edge_call.call_ret_size))) as Hs by by apply load64_range.
  assert (is_u64 (load64 (emem es) (_shared_start es + edge_call.call_ret_offset))) as Ho by by apply load64_range.
  unfold edge_call_ret_ptr. wp_step. wp_step. apply wp_gets. wp_step. apply wp_gets. wp_step. wp_step. wp_step.
  set (size := load64 _ (_ + edge_call.call_ret_size)) in *. set (off := load64 _ (_ + edge_call.call_ret_offset)) in *.
  rewrite get_ptr_from_offset_spec by done. unfold is_u64 in *. case_decide as D; simpl; [|wp_step; auto].
  set (n := if rl <? size then rl else size).
  assert (0 <= n <= rl /\ n <= size) as [Hn Hns] by (unfold n; destruct (Z.ltb_spec rl size); lia).
  wp_step. unfold copy_to_user, copy_user. rewrite Hmap by done. wp_step. unfold memcpy.
  replace (_ || _) with true; [wp_step|].
  - wp_step. wp_step. right. split; [done|]. exists (_shared_start es + off), n.
    split_and!; [lia|lia|right; unfold in_shared; lia|done].
  - symmetry. destruct (decide (n = 0)) as [->|]; [apply orb_true_r|]. apply orb_true_iff. left.
    rewrite ranges_disjoint_sym. apply (ranges_disjoint_shorter _ _ _ rl); [lia|].
    apply (ranges_disjoint_sub _ (_shared_len es)); lia || done.
Qed.

(** The part up to the host's turn. *)
Lemma ocall_request_run s call_id data data_len rb rl :
  let buf := shared_buffer s in let size := shared_buffer_size s in
  sys_ok s -> is_u64 call_id -> is_u64 data_len ->
  ranges_disjoint buf size data data_len = true \/ data_len = 0 -> user_mapped data data_len = true ->
  let '(stopped, f2) := stop_enclave STOP_EDGE_CALL_HOST (ocall_mem (emem (se s)) buf call_id data data_len) in
  dispatch_edgecall_ocall call_id data data_len rb rl s =
    if size <? 48 + data_len
    then Ok (1, set_se (set_emem (store64 (emem (se s)) (buf + edge_call.call_id) call_id) (se s)) s)
    else with_edge (if negb (stopped =? 0) then ret 1 else ocall_answer buf rb rl) (set_se (set_emem f2 (se s)) s).
Proof.
  intros buf size [Hes Est Eln Hroom] Hid Hlen Hdata Hmd.
  destruct (stop_enclave _ _) as [stopped f2] eqn:Estop.
  pose proof Hes as [B1 B2 B3 _ B5]. fold buf in Est. fold size in Eln, Hroom. change edge_call.sizeof with 48 in Hroom.
  rewrite Est, Eln in *. unfold is_u64 in Hlen. unfold dispatch_edgecall_ocall, bind at 1, get at 1. fold buf size.
  unfold with_edge at 1, zoom. unfold bind at 1, store at 1, modify. unfold bind at 1, get at 1.
  unfold edge_call_data_ptr. cbn [_shared_start set_emem]. rewrite Est. change edge_call.sizeof with 48.
  rewrite (u64_id (buf + 48)) by (unfold is_u64; lia). replace (buf + 48 - buf) with 48 by lia.
  rewrite (u64_id 48), (u64_id (size - 48)) by (unfold is_u64; lia).
  destruct (Z.ltb_spec (size - 48) data_len).
  { by rewrite (proj2 (Z.ltb_lt size (48 + data_len))) by lia. }
  rewrite (proj2 (Z.ltb_ge size (48 + data_len))) by lia.
  unfold bind at 1, copy_from_user, copy_user. rewrite Hmd. unfold bind at 1, memcpy.
  replace (_ || _) with true.
  2: { symmetry. destruct (decide (data_len = 0)) as [->|]; [apply orb_true_r|]. apply orb_true_iff. left.
       destruct Hdata; [|done]. apply (ranges_disjoint_sub _ size); lia || done. }
  unfold modify, ret at 1. cbn [emem set_emem].
  pose proof (read_data_after_id (se s) call_id data data_len) as Hr. rewrite Est, Eln in Hr.
  rewrite Hr by (done || lia). unfold bind at 1, edge_call_setup_call.
  rewrite setup_slot; cbn [_shared_start _shared_len set_emem].
  - change (negb (0 =? 0)) with false. cbv iota. unfold bind at 1, sbi_stop_enclave, outside_call, with_slot.
    cbn [emem set_emem _shared_start]. rewrite Est. replace (buf + 48 - buf) with 48 by lia.
    fold (ocall_mem (emem (se s)) buf call_id data data_len). rewrite Estop. unfold with_edge, zoom.
    destruct (stopped =? 0); done.
  - repeat apply buffer_ok_set_emem; auto with keystone.
  - unfold is_u64. lia.
  - done.
  - unfold in_shared. cbn [_shared_start _shared_len set_emem]. rewrite Est, Eln. lia.
Qed.
End OcallProofs.

(** C9: An outgoing call is safe against the host: if its data fits, the host finds
    the id, the size and the bytes of the call in the shared buffer, and whatever it
    leaves there (status, offsets and sizes included), the runtime returns 0 or 1
    and copies at most [return_len] bytes, all taken from inside the shared buffer,
    to the return buffer; nothing else outside the shared buffer changes.  A call
    whose data does not fit fails without the host being asked. *)
Theorem dispatch_edgecall_ocall_safe `{Outside} s call_id data data_len rb rl :
  let buf := shared_buffer s in let size := shared_buffer_size s in
  sys_ok s -> is_u64 call_id -> is_u64 data_len -> is_u64 rl -> host_confined buf size ->
  ranges_disjoint buf size data data_len = true \/ data_len = 0 ->
  ranges_disjoint buf size rb rl = true \/ rl = 0 ->
  user_mapped data data_len = true -> (forall n, 0 <= n <= rl -> user_mapped rb n = true) ->
  let f1 := ocall_mem (emem (se s)) buf call_id data data_len in
  let '(stopped, f2) := stop_enclave STOP_EDGE_CALL_HOST f1 in
  exists v s', dispatch_edgecall_ocall call_id data data_len rb rl s = Ok (v, s') /\
    (size < 48 + data_len -> v = 1 /\ emem (se s') = store64 (emem (se s)) (buf + edge_call.call_id) call_id) /\
    (48 + data_len <= size ->
      load64 f1 (buf + edge_call.call_id) = call_id /\
      edge_call_args_ptr buf (set_emem f1 (se s)) = Ok (0, Some (buf + 48), data_len, set_emem f1 (se s)) /\
      read_bytes f1 (buf + 48) (Z.to_nat data_len) = read_bytes (emem (se s)) data (Z.to_nat data_len) /\
      (v = 0 \/ v = 1) /\ (v = 1 -> emem (se s') = f2) /\
      (v = 0 -> exists p n, 0 <= n <= rl /\ (rl = 0 \/ in_shared (se s) p n) /\
        forall a, emem (se s') a = write_bytes f2 rb (read_bytes f2 p (Z.to_nat n)) a)) /\
    (forall a, is_u64 a -> in_range buf size a = false -> in_range rb rl a = false ->
      emem (se s') a = emem (se s) a).
Proof.
  intros buf size Hok Hid Hlen Hrl [Hconf Hbytes] Hdata Hret Hmd Hmr f1.
  pose proof (ocall_request_run s call_id data data_len rb rl Hok Hid Hlen Hdata Hmd) as Hrun.
  pose proof (Hbytes STOP_EDGE_CALL_HOST f1) as Hb2. pose proof (fun a => Hconf STOP_EDGE_CALL_HOST f1 a) as Hc2.
  fold buf size f1 in Hrun. destruct (stop_enclave STOP_EDGE_CALL_HOST f1) as [stopped f2] eqn:Estop. simpl in Hb2, Hc2.
  destruct Hok as [Hes Est Eln Hroom]. pose proof Hes as [B1 B2 B3 _ B5]. fold buf in Est. fold size in Eln, Hroom.
  change edge_call.sizeof with 48 in Hroom. rewrite Est, Eln in *. unfold is_u64 in Hlen.
  destruct (Z.ltb_spec size (48 + data_len)) as [Hbig|Hfit].
  { eexists 1, _. split; [exact Hrun|]. split; [done|]. split; [lia|]. intros a Ha Hout _. cbn [se set_se emem set_emem].
    apply (store_same_outside buf size (emem (se s)) edge_call.call_id call_id); try done; cbv [edge_call.call_id]; lia. }
  assert (same_outside buf size (emem (se s)) f1) as Hf1.
  { pose proof (ocall_mem_outside (se s) call_id data data_len) as H1. rewrite Est, Eln in H1. apply H1; done || lia. }
  assert (mem_bytes f1) as Hmf1.
  { pose proof (ocall_mem_bytes (se s) call_id data data_len) as H1. rewrite Est in H1. by apply H1. }
  pose proof (ocall_mem_view (se s) call_id data data_len) as Hview. rewrite Est, Eln in Hview.
  destruct Hview as (V1 & V2 & V3); try done; try lia.
  assert (same_outside buf size (emem (se s)) f2) as Hf2 by (etransitivity; [exact Hf1|]; intros a Ha Hout; by apply Hc2).
  assert (buffer_ok (set_emem f2 (se s))) as Hes2 by (apply buffer_ok_set_emem; auto).
  assert (exists v es', dispatch_edgecall_ocall call_id data data_len rb rl s = Ok (v, set_se es' s) /\
    ((v = 1 /\ emem es' = f2) \/ (v = 0 /\ exists p n, 0 <= n <= rl /\ (rl = 0 \/ in_shared (se s) p n) /\
      forall a, emem es' a = write_bytes f2 rb (read_bytes f2 p (Z.to_nat n)) a))) as (v & es' & E & Hv).
  { rewrite Hrun. destruct (negb (stopped =? 0)).
    - eexists 1, _. split; [done|]. by left.
    - destruct (wp_inv _ _ _ (ocall_answer_safe (set_emem f2 (se s)) buf rb rl Hes2 Hrl (eq_sym Est)
        ltac:(cbn [_shared_len set_emem]; by rewrite Eln) Hmr)) as (v & es' & Ea & Hv).
      exists v, es'. unfold with_edge, zoom. cbn [se set_se]. rewrite Ea. split; [done|].
      destruct Hv as [[-> ->]|[-> Hv]]; [by left|by right]. }
  exists v, (set_se es' s). split; [exact E|]. split; [lia|]. split.
  - intros _. split_and!; try done.
    + destruct Hv as [[-> _]|[-> _]]; auto.
    + intros ->. by destruct Hv as [[_ ?]|[? _]].
    + intros ->. by destruct Hv as [[? _]|[_ ?]].
  - intros a Ha Hout Hret'. cbn [se set_se]. destruct Hv as [[_ ->]|(_ & p & n & Hn & _ & Hw)]; [by apply Hf2|].
    rewrite Hw, write_bytes_other; [by apply Hf2|]. rewrite length_read_bytes, Z2Nat.id by lia.
    rewrite <- (Z.add_0_r rb). apply (in_range_sub rb rl); unfold is_u64 in Hrl; lia || done.
Qed.

(** [handle_copy_from_shared] copies exactly the requested bytes of the shared
    buffer to the application and returns 0 when the range lies in the buffer, and
    otherwise returns 1 and writes nothing. *)
Theorem handle_copy_from_shared_correct `{Outside} s dst offset size :
  sys_ok s -> is_u64 offset -> is_u64 size -> user_mapped dst size = true ->
  ranges_disjoint (shared_buffer s) (shared_buffer_size s) dst size = true \/ size = 0 ->
  handle_copy_from_shared dst offset size s =
    if decide (offset < shared_buffer_size s /\ offset + size <= shared_buffer_size s)
    then Ok (0, set_se (set_emem (write_bytes (emem (se s)) dst
           (read_bytes (emem (se s)) (shared_buffer s + offset) (Z.to_nat size))) (se s)) s)
    else Ok (1, s).
Proof.
  intros [Hes Est Eln Hroom] Ho Hs Hm Hd. unfold handle_copy_from_shared, with_edge, zoom, bind at 1, get.
  rewrite get_ptr_from_offset_spec, Est, Eln by done. unfold is_u64 in *. case_decide as D; [|by destruct s].
  change (negb (0 =? 0)) with false. cbv iota. unfold copy_to_user, copy_user. rewrite Hm. unfold bind, memcpy.
  replace (_ || _) with true; [done|]. symmetry.
  destruct (decide (size = 0)) as [->|]; [apply orb_true_r|]. apply orb_true_iff. left. destruct Hd as [Hd|]; [|done].
  rewrite ranges_disjoint_sym. apply (ranges_disjoint_sub _ (shared_buffer_size s)); lia || done.
Qed.

(** Comparisons of constants. *)
Ltac eval_eqb :=
  repeat match goal with
  | |- context [?a =? ?b] =>
      let v := eval cbv in (a =? b) in
      match v with
      | true => change (a =? b) with true
      | false => change (a =? b) with false
      end
  end; cbv iota.

(** A range of [n] zero bytes. *)
Definition zeroed (f : Z -> Z) (a n : Z) : Prop := forall i, 0 <= i < n -> f (u64 (a + i)) = 0.

Lemma memset_zeroed f a n : n <= 2 ^ 64 -> zeroed (memset a 0 n f) a n.
Proof. intros Hn i Hi. unfold memset. by rewrite in_range_here by lia. Qed.

(** The memory after the identifier was copied in, as the monitor finds it, and what it answers. *)
Definition sealing_call `{Outside} (ctx : encl_ctx) (s : sys_state) : Z * (Z -> Z) :=
  let f := emem (se s) in
  sealing_key (translate_va f (rt_copy_buffer_1 s)) (translate_va f (rt_copy_buffer_2 s)) (c_a3 ctx)
    (write_bytes f (rt_copy_buffer_2 s) (read_bytes f (c_a2 ctx) (Z.to_nat (c_a3 ctx)))).

(** The user's buffers of a request are mapped and lie apart from the runtime's. *)
Record sealing_request `{Outside} (ctx : encl_ctx) (s : sys_state) : Prop := {
  sr_in : user_mapped (c_a2 ctx) (c_a3 ctx) = true;
  sr_out : user_mapped (c_a0 ctx) (c_a1 ctx) = true;
  sr_in_apart : ranges_disjoint (rt_copy_buffer_2 s) (c_a3 ctx) (c_a2 ctx) (c_a3 ctx) = true \/ c_a3 ctx = 0;
  sr_out_apart : ranges_disjoint (c_a0 ctx) (c_a1 ctx) (rt_copy_buffer_1 s) (c_a1 ctx) = true \/ c_a1 ctx = 0
}.

Lemma memcpy_run dst src n s : ranges_disjoint dst n src n = true \/ n = 0 ->
  memcpy dst src n s = Ok (tt, set_emem (write_bytes (emem s) dst (read_bytes (emem s) src (Z.to_nat n))) s).
Proof. intros Hd. unfold memcpy. by replace (_ || _) with true by (destruct Hd as [-> | ->]; [done|by rewrite orb_true_r]). Qed.

(** C31: The system call for a sealing key, on every path.  A request whose sizes exceed the copy buffers is refused with -1
    before anything is copied.  For every other request with mapped user buffers apart from the
    runtime's, the call returns the answer of the monitor; when the key was granted, and only then,
    the first bytes of the runtime's buffer, as the monitor left them, are copied to the user;
    and in both cases every byte of the runtime's buffer is erased at the end and no other byte changes. *)
Theorem sealing_key_syscall_erases `{Outside} ctx s :
  c_a7 ctx = RUNTIME_SYSCALL_GET_SEALING_KEY ->
  (COPY_BUFFER_SIZE < c_a1 ctx \/ COPY_BUFFER_SIZE < c_a3 ctx ->
    handle_syscall ctx s =
      Ok (mkCtx (c_sepc ctx +w 4) (2 ^ 64 - 1) (c_a1 ctx) (c_a2 ctx) (c_a3 ctx) (c_a4 ctx) (c_a7 ctx), s)) /\
  (c_a1 ctx <= COPY_BUFFER_SIZE -> c_a3 ctx <= COPY_BUFFER_SIZE -> sealing_request ctx s ->
    let '(r, f1) := sealing_call ctx s in
    let f2 := if r =? 0 then write_bytes f1 (c_a0 ctx) (read_bytes f1 (rt_copy_buffer_1 s) (Z.to_nat (c_a1 ctx))) else f1 in
    exists s', handle_syscall ctx s =
        Ok (mkCtx (c_sepc ctx +w 4) r (c_a1 ctx) (c_a2 ctx) (c_a3 ctx) (c_a4 ctx) (c_a7 ctx), s') /\
      s' = set_se (set_emem (emem (se s')) (se s)) s /\
      zeroed (emem (se s')) (rt_copy_buffer_1 s) COPY_BUFFER_SIZE /\
      forall a, in_range (rt_copy_buffer_1 s) COPY_BUFFER_SIZE a = false -> emem (se s') a = f2 a).
Proof.
  intros E7. split.
  - intros Hbig. unfold handle_syscall. rewrite E7. unfold bind at 1, get at 1. eval_eqb.
    unfold bind, with_edge, zoom, get, ret.
    replace (_ || _) with true by (destruct Hbig as [Hb|Hb]; apply Z.ltb_lt in Hb; rewrite Hb, ?orb_true_r; done).
    by destruct s as [[]].
  - intros H1 H3 [R1 R2 R3 R4]. destruct (sealing_call ctx s) as [r f1] eqn:Hcall. cbv zeta. set (f2 := if r =? 0 then _ else f1).
    exists (set_se (set_emem (memset (rt_copy_buffer_1 s) 0 COPY_BUFFER_SIZE f2) (se s)) s). split; [|split; [|split]].
    + unfold handle_syscall. rewrite E7. unfold bind at 1, get at 1. eval_eqb.
      unfold bind at 1, with_edge at 1, zoom at 1. unfold bind at 1, get at 1.
      rewrite (proj2 (Z.ltb_ge COPY_BUFFER_SIZE (c_a1 ctx))), (proj2 (Z.ltb_ge COPY_BUFFER_SIZE (c_a3 ctx))) by done. cbn [orb].
      unfold bind at 1, copy_from_user, copy_user. rewrite R1. unfold bind at 1. rewrite memcpy_run by done. cbn [ret].
      unfold bind at 1, sbi_get_sealing_key, outside_call. cbn [emem set_emem]. unfold sealing_call in Hcall. rewrite Hcall.
      unfold f2, copy_to_user, copy_user. destruct (r =? 0).
      * unfold bind at 1. rewrite R2. unfold bind at 1. rewrite memcpy_run by done. done.
      * done.
    + done.
    + cbn [se set_se emem set_emem]. by apply memset_zeroed.
    + intros a Ha. cbn [se set_se emem set_emem]. unfold memset. by rewrite Ha.
Qed.

(** An attestation request copies the application's data into a page-sized
    buffer of the runtime without checking its length: for every longer request the
    bytes behind the buffer are overwritten with bytes the application chose, before
    the security monitor is called. *)
Theorem attest_syscall_overflow `{Outside} ctx s i :
  let b1 := rt_copy_buffer_1 s in let b2 := rt_copy_buffer_2 s in let n := c_a2 ctx in
  c_a7 ctx = RUNTIME_SYSCALL_ATTEST_ENCLAVE -> is_u64 n -> COPY_BUFFER_SIZE <= i < n ->
  user_mapped (c_a1 ctx) n = true -> ranges_disjoint b2 n (c_a1 ctx) n = true ->
  exists f', handle_syscall ctx s =
      (let! r := with_edge (let! r := sbi_attest_enclave b1 b2 n in copy_to_user (c_a0 ctx) b1 2048 ;;; ret r) in
       ret (mkCtx (c_sepc ctx +w 4) r (c_a1 ctx) (c_a2 ctx) (c_a3 ctx) (c_a4 ctx) (c_a7 ctx)))
      (set_se (set_emem f' (se s)) s) /\
    f' (u64 (b2 + i)) = emem (se s) (u64 (c_a1 ctx + i)).
Proof.
  intros b1 b2 n E7 Hn Hi Hm Hd. unfold is_u64, COPY_BUFFER_SIZE in *.
  exists (write_bytes (emem (se s)) b2 (read_bytes (emem (se s)) (c_a1 ctx) (Z.to_nat n))). split.
  - unfold handle_syscall. rewrite E7. unfold bind at 1, get at 1.
    eval_eqb. fold b1 b2 n.
    unfold bind at 1 6, with_edge, zoom. unfold bind at 1, copy_from_user, copy_user. rewrite Hm. unfold bind at 1, memcpy.
    rewrite Hd. done.
  - unfold write_bytes. rewrite length_read_bytes, Z2Nat.id, in_range_here by lia. rewrite u64_sub_l.
    replace (b2 + i - b2) with i by lia. rewrite u64_id by (unfold is_u64; lia).
    unfold read_bytes. rewrite nth_indep with (d' := (fun k => emem (se s) (u64 (c_a1 ctx + Z.of_nat k))) 0%nat)
      by (rewrite length_map, length_seq; lia).
    rewrite (map_nth (fun k => emem (se s) (u64 (c_a1 ctx + Z.of_nat k)))), seq_nth by lia.
    do 2 f_equal. lia.
Qed.

(** ** Witnesses *)

(** A host that answers every call with the eight bytes after the header, a monitor
    that grants requests, and a fully mapped user space. *)
Definition demo_host (f : Z -> Z) : Z -> Z :=
  store64 (store64 (store64 f (0x10000 + edge_call.call_status) 0) (0x10000 + edge_call.call_ret_offset) 48)
    (0x10000 + edge_call.call_ret_size) 8.

#[local] Instance demo_outside : Outside := {
  stop_enclave _ f := (0, demo_host f);
  exit_call _ f := (0, f);
  attest _ _ _ f := (0, f);
  sealing_key _ _ _ f := (0, f);
  translate_va _ a := a;
  user_mapped _ _ := true
}.

(** A 4 KiB shared buffer at [0x10000], user and runtime memory elsewhere. *)
Definition demo_sys : sys_state := mkSys demo_edge 0x10000 0x1000 0x30000 0x31000.

Lemma demo_sys_ok : sys_ok demo_sys.
Proof. split; [apply demo_edge_ok|done|done|by compute]. Qed.

Lemma demo_confined : host_confined 0x10000 0x1000.
Proof.
  split.
  - intros req f. cbn [stop_enclave demo_outside snd]. unfold demo_host.
    change (same_outside 0x10000 0x1000 f
      (store64 (store64 (store64 f (0x10000 + edge_call.call_status) 0) (0x10000 + edge_call.call_ret_offset) 48)
        (0x10000 + edge_call.call_ret_size) 8)).
    repeat (etransitivity; [|apply store_same_outside; by compute]). reflexivity.
  - intros req f Hf. cbn [stop_enclave demo_outside snd]. by repeat apply store64_mem_bytes.
Qed.

Lemma dispatch_edgecall_ocall_safe_witness :
  exists v s', dispatch_edgecall_ocall 3 0x20000 16 0x20100 8 demo_sys = Ok (v, s') /\ (v = 0 \/ v = 1).
Proof.
  destruct (dispatch_edgecall_ocall_safe demo_sys 3 0x20000 16 0x20100 8 demo_sys_ok) as (v & s' & E & _ & Hv & _);
    [by compute|by compute|by compute|exact demo_confined|by left|by left|done|done|].
  exists v, s'. split; [exact E|]. apply Hv. by compute.
Defined.

Lemma handle_copy_from_shared_correct_witness :
  exists s', handle_copy_from_shared 0x20000 48 16 demo_sys = Ok (0, s').
Proof.
  eexists. rewrite (handle_copy_from_shared_correct demo_sys 0x20000 48 16 demo_sys_ok);
    [reflexivity|by compute|by compute|done|by left].
Defined.

(** A monitor that leaves the key bytes [5, 5, ...] in the runtime's buffer: the user gets four of them, the buffer is erased. *)
Definition demo_granting : Outside := {|
  stop_enclave := fun _ f => (0, demo_host f);
  exit_call := fun _ f => (0, f);
  attest := fun _ _ _ f => (0, f);
  sealing_key := fun key_struct _ _ f => (0, write_bytes f key_struct (replicate 192 5));
  translate_va := fun _ a => a;
  user_mapped := fun _ _ => true
|}.

Lemma sealing_key_syscall_erases_witness :
  exists s', @handle_syscall demo_granting (mkCtx 0x1000 0x20000 4 0x20100 4 0 RUNTIME_SYSCALL_GET_SEALING_KEY) demo_sys =
      Ok (mkCtx 0x1004 0 4 0x20100 4 0 RUNTIME_SYSCALL_GET_SEALING_KEY, s') /\
    emem (se s') 0x20000 = 5 /\ emem (se s') 0x30000 = 0.
Proof.
  destruct (proj2 (@sealing_key_syscall_erases demo_granting
    (mkCtx 0x1000 0x20000 4 0x20100 4 0 RUNTIME_SYSCALL_GET_SEALING_KEY) demo_sys eq_refl)) as (s' & E & _ & Hz & Hf);
    [by compute|by compute|split; [reflexivity|reflexivity|left; reflexivity|left; reflexivity]|].
  exists s'. split; [exact E|]. split.
  - rewrite (Hf 0x20000) by reflexivity. vm_compute. reflexivity.
  - exact (Hz 0 ltac:(by compute)).
Defined.

Lemma attest_syscall_overflow_witness :
  exists f', ranges_disjoint 0x31000 5000 0x20000 5000 = true /\ f' 0x32000 = emem (se demo_sys) 0x21000.
Proof.
  destruct (attest_syscall_overflow (mkCtx 0x1000 0x22000 0x20000 5000 0 0 RUNTIME_SYSCALL_ATTEST_ENCLAVE) demo_sys 4096)
    as (f' & _ & E); [done|by compute|by compute|done|by compute|].
  exists f'. split; [done|exact E].
Defined.
