(* ===== verification/StringLib.v ===== *)
(** * The C library functions of the runtime ([runtime/util/string.c])

    Byte and word loops over memory, against their bytewise meaning.  Each loop
    has fuel: more than the number of its rounds. *)

From S2P Require Import Prelude Mem.
From Stdlib Require Import ZArith Lia.
From stdpp Require Import base tactics list list_numbers numbers.
Local Open Scope Z_scope.
Local Open Scope keystone_scope.

Module RtString.
Definition mem : Type := Z -> Z.
Definition sizeof_uintptr_t : Z := 8.

Definition ldb (a : Z) : M mem Z := gets (fun f => f (u64 a)).
Definition stb (a v : Z) : M mem unit := modify (fun f => write_bytes f a [u8 v]).
Definition ldw (a : Z) : M mem Z := gets (fun f => load64 f a).
Definition stw (a v : Z) : M mem unit := modify (fun f => store64 f a v).

(** ** memcpy *)

(** [while (d < bound) { *(uintptr_t * )d = *(uintptr_t * )s; d += 8; s += 8; }] *)
Fixpoint copy_words (fuel : nat) (d s bound : Z) : M mem (Z * Z) :=
  if d <? bound then
    match fuel with
    | O => hang
    | S fuel =>
        let! w := ldw s in
        stw d w ;;;
        copy_words fuel (d +w sizeof_uintptr_t) (s +w sizeof_uintptr_t) bound
    end
  else ret (d, s).

(** [while (d < bound) *d++ = *s++;] *)
Fixpoint copy_bytes (fuel : nat) (d s bound : Z) : M mem unit :=
  if d <? bound then
    match fuel with
    | O => hang
    | S fuel =>
        let! b := ldb s in
        stb d b ;;;
        copy_bytes fuel (d +w 1) (s +w 1) bound
    end
  else ret tt.

Definition memcpy (dest src len : Z) : M mem Z :=
  let fuel := Z.to_nat len in
  let! '(d, s) :=
    (if Z.land (Z.lor dest src) (sizeof_uintptr_t - 1) =? 0
     then copy_words fuel dest src (dest +w len -w (sizeof_uintptr_t - 1))
     else ret (dest, src)) in
  copy_bytes fuel d s (dest +w len) ;;;
  ret dest.

(** ** memset *)

Fixpoint fill_words (fuel : nat) (d bound word : Z) : M mem unit :=
  if d <? bound then
    match fuel with
    | O => hang
    | S fuel => stw d word ;;; fill_words fuel (d +w sizeof_uintptr_t) bound word
    end
  else ret tt.

Fixpoint fill_bytes (fuel : nat) (d bound byte : Z) : M mem unit :=
  if d <? bound then
    match fuel with
    | O => hang
    | S fuel => stb d byte ;;; fill_bytes fuel (d +w 1) bound byte
    end
  else ret tt.

Definition memset (dest byte len : Z) : M mem Z :=
  let fuel := Z.to_nat len in
  (if Z.land (Z.lor dest len) (sizeof_uintptr_t - 1) =? 0 then
     let word := Z.land byte 0xFF in
     let word := Z.lor word (u64 (Z.shiftl word 8)) in
     let word := Z.lor word (u64 (Z.shiftl word 16)) in
     let word := Z.lor word (u64 (Z.shiftl (u64 (Z.shiftl word 16)) 16)) in
     fill_words fuel dest (dest +w len) word
   else fill_bytes fuel dest (dest +w len) byte) ;;;
  ret dest.

(** ** memcmp, strcmp *)

Fixpoint memcmp (s1 s2 : Z) (n : nat) : M mem Z :=
  match n with
  | O => ret 0
  | S n =>
      let! u1 := ldb s1 in
      let! u2 := ldb s2 in
      if negb (u1 =? u2) then ret (u1 - u2) else memcmp (s1 +w 1) (s2 +w 1) n
  end.

Fixpoint strcmp (fuel : nat) (s1 s2 : Z) : M mem Z :=
  match fuel with
  | O => hang
  | S fuel =>
      let! c1 := ldb s1 in
      let! c2 := ldb s2 in
      if c1 =? 0 then ret (c1 - c2)
      else if c1 =? c2 then strcmp fuel (s1 +w 1) (s2 +w 1)
      else ret (c1 - c2)
  end.

(** ** strlen *)

Definition himagic : Z := Z.lor (u64 (Z.shiftl (u64 (Z.shiftl 0x80808080 16)) 16)) 0x80808080.
Definition lomagic : Z := Z.lor (u64 (Z.shiftl (u64 (Z.shiftl 0x01010101 16)) 16)) 0x01010101.

(** The byte loop up to the first word boundary: [inl n] is the length when the
    terminator was found, [inr p] the boundary. *)
Fixpoint strlen_head (fuel : nat) (str char_ptr : Z) : M mem (Z + Z) :=
  if negb (Z.land char_ptr (sizeof_uintptr_t - 1) =? 0) then
    match fuel with
    | O => hang
    | S fuel =>
        let! c := ldb char_ptr in
        if c =? 0 then ret (inl (char_ptr -w str)) else strlen_head fuel str (char_ptr +w 1)
    end
  else ret (inr char_ptr).

(** [if (cp[0] == 0) return ...; if (cp[1] == 0) return ...; ...] *)
Fixpoint find_zero (n : nat) (cp k : Z) : M mem (option Z) :=
  match n with
  | O => ret None
  | S n => let! c := ldb (cp + k) in if c =? 0 then ret (Some k) else find_zero n cp (k + 1)
  end.

Fixpoint strlen_words (fuel : nat) (str longword_ptr : Z) : M mem Z :=
  match fuel with
  | O => hang
  | S fuel =>
      let! longword := ldw longword_ptr in
      let next := longword_ptr +w sizeof_uintptr_t in
      if negb (Z.land (Z.land (longword -w lomagic) (not64 longword)) himagic =? 0) then
        let cp := next -w sizeof_uintptr_t in
        let! z := find_zero 8 cp 0 in
        match z with
        | Some k => ret ((cp -w str) +w k)
        | None => strlen_words fuel str next
        end
      else strlen_words fuel str next
  end.

Definition strlen (fuel : nat) (str : Z) : M mem Z :=
  let! r := strlen_head 8 str str in
  match r with
  | inl n => ret n
  | inr p => strlen_words fuel str p
  end.

(** ** The zero-byte test *)

(** If a byte of the word is zero, the test finds it: the lowest zero byte gives
    its top bit in [(w - lomagic) & ~w & himagic]. *)
Lemma zero_test_bit bs k : Forall is_u8 bs -> length bs = 8%nat -> (k < 8)%nat ->
  (forall j, (j < k)%nat -> nth j bs 0 <> 0) -> nth k bs 0 = 0 ->
  Z.land (Z.land (le_value bs -w lomagic) (not64 (le_value bs))) himagic <> 0.
Proof.
  intros Hb Hl Hk Hlow Hz Hland.
  assert (is_u64 (le_value bs)) as Hr by (pose proof (le_value_bound bs Hb); rewrite Hl in *; done).
  set (n := 8 * Z.of_nat k + 7). assert (0 <= n < 64) as Hn by (unfold n; lia).
  assert (Z.testbit (le_value bs -w lomagic) n = true /\ Z.testbit (le_value bs) n = false) as [B1 B2].
  { do 9 (destruct bs as [|? bs]; try done). clear Hl Hr Hland Hn.
    repeat match goal with H : Forall is_u8 (_ :: _) |- _ => apply Forall_cons_iff in H as [? H] end.
    unfold is_u8 in *. change lomagic with 0x0101010101010101. unfold le_value, n, u64. cbn [fold_right].
    rewrite Z.testbit_true, Z.testbit_false by lia.
    destruct k as [|[|[|[|[|[|[|[|k]]]]]]]]; [..|lia].
    all: cbn [nth] in Hz; subst.
    all: try (pose proof (Hlow 0%nat ltac:(lia)) as L0; cbn [nth] in L0).
    all: try (pose proof (Hlow 1%nat ltac:(lia)) as L1; cbn [nth] in L1).
    all: try (pose proof (Hlow 2%nat ltac:(lia)) as L2; cbn [nth] in L2).
    all: try (pose proof (Hlow 3%nat ltac:(lia)) as L3; cbn [nth] in L3).
    all: try (pose proof (Hlow 4%nat ltac:(lia)) as L4; cbn [nth] in L4).
    all: try (pose proof (Hlow 5%nat ltac:(lia)) as L5; cbn [nth] in L5).
    all: try (pose proof (Hlow 6%nat ltac:(lia)) as L6; cbn [nth] in L6).
    all: clear Hlow Hb.
    all: split; mlia. }
  apply (f_equal (fun z => Z.testbit z n)) in Hland. rewrite !Z.land_spec, testbit_not64, B1, B2, Z.testbit_0_l in Hland by done.
  assert (Z.testbit himagic n = true) as Bh; [|rewrite Bh in Hland; done].
  unfold n. destruct k as [|[|[|[|[|[|[|[|k]]]]]]]]; [done..|lia].
Qed.

(** ** Properties *)

Lemma nth_read_bytes f a n k : (k < n)%nat -> nth k (read_bytes f a n) 0 = f (u64 (a + Z.of_nat k)).
Proof.
  intros Hk. unfold read_bytes. rewrite nth_lookup, list_lookup_fmap, lookup_seq_lt by done. done.
Qed.

Section Strlen.
(** A string of [n] bytes at [str]. *)
Context (f : mem) (str n : Z).
Context (Hf : mem_bytes f) (Hstr : 0 <= str) (Hn : 0 <= n) (Hend : str + n + 16 < 2 ^ 64).
Context (Hbody : forall i, 0 <= i < n -> f (str + i) <> 0) (Hnul : f (str + n) = 0).

Lemma strlen_head_spec fuel i : 0 <= i <= n -> (- (str + i)) mod 8 <= Z.of_nat fuel ->
  strlen_head fuel str (str + i) f = Ok (inl n, f) \/
  exists j, strlen_head fuel str (str + i) f = Ok (inr (str + j), f) /\ 0 <= j <= n /\ (str + j) mod 8 = 0.
Proof.
  revert i. induction fuel as [|fuel IH]; intros i Hi Hfuel; cbn [strlen_head];
    change (sizeof_uintptr_t - 1) with (2 ^ 3 - 1); rewrite land_pow2_sub1 by lia; change (2 ^ 3) with 8;
    (destruct (Z.eqb_spec ((str + i) mod 8) 0) as [E|E]; cbn [negb]; [right; exists i; done|]); [mlia|].
  unfold bind, ldb, gets. rewrite (u64_id (str + i)) by (unfold is_u64; lia).
  destruct (Z.eqb_spec (f (str + i)) 0) as [E0|E0].
  - left. assert (i = n) as -> by (destruct (decide (i < n)); [by specialize (Hbody i ltac:(lia))|lia]).
    unfold ret. do 3 f_equal. rewrite u64_id by (unfold is_u64; lia). lia.
  - assert (i <> n) by (intros ->; done). rewrite (u64_id (str + i + 1)) by (unfold is_u64; lia).
    replace (str + i + 1) with (str + (i + 1)) by lia. apply IH; [lia|]. mlia.
Qed.

Lemma find_zero_spec m cp k : 0 <= k -> str <= cp -> cp + k + Z.of_nat m < 2 ^ 64 ->
  find_zero m cp k f =
    Ok (match find (fun i => f (cp + k + Z.of_nat i) =? 0) (seq 0 m) with
        | Some i => Some (k + Z.of_nat i) | None => None end, f).
Proof.
  revert k. induction m as [|m IH]; intros k Hk Hcp Hm; cbn [find_zero seq find]; [done|].
  unfold bind, ldb, gets. rewrite (u64_id (cp + k)) by (unfold is_u64; lia). rewrite Z.add_0_r.
  destruct (f (cp + k) =? 0); [by rewrite Z.add_0_r|]. rewrite IH by lia. do 2 f_equal.
  rewrite <- seq_shift. clear IH Hm. induction (seq 0 m) as [|x l IHl]; [done|]. cbn [map find].
  replace (cp + k + Z.of_nat (S x)) with (cp + (k + 1) + Z.of_nat x) by lia.
  destruct (f (cp + (k + 1) + Z.of_nat x) =? 0); [|exact IHl].
  replace (k + Z.of_nat (S x)) with (k + 1 + Z.of_nat x) by lia. done.
Qed.

Lemma find_seq_first (p : nat -> bool) a m k : (a <= k < a + m)%nat ->
  (forall i, (a <= i < k)%nat -> p i = false) -> p k = true -> find p (seq a m) = Some k.
Proof.
  revert a. induction m as [|m IH]; intros a Hk Hlow Hp; [lia|]. cbn [seq find].
  destruct (decide (a = k)) as [->|]; [by rewrite Hp|]. rewrite Hlow by lia. apply IH; [lia| |done].
  intros i Hi. apply Hlow. lia.
Qed.

Lemma find_seq_none (p : nat -> bool) m : (forall i, (i < m)%nat -> p i = false) -> find p (seq 0 m) = None.
Proof.
  intros Hlow. destruct (find p (seq 0 m)) eqn:E; [|done]. apply find_some in E as [Hin%in_seq E].
  rewrite Hlow in E; [done|lia].
Qed.

Lemma strlen_words_spec fuel j : 0 <= j <= n -> (str + j) mod 8 = 0 -> n - j < 8 * Z.of_nat fuel ->
  strlen_words fuel str (str + j) f = Ok (n, f).
Proof.
  revert j. induction fuel as [|fuel IH]; intros j Hj Ha Hfuel; cbn [strlen_words]; [lia|].
  unfold bind at 1, ldw, gets. change sizeof_uintptr_t with 8.
  rewrite (u64_id (str + j + 8)) by (unfold is_u64; lia). replace (str + j + 8 - 8) with (str + j) by lia.
  rewrite (u64_id (str + j)), (u64_id (str + j - str)) by (unfold is_u64; lia).
  pose proof (find_zero_spec 8 (str + j) 0) as Hfind. rewrite Z.add_0_r in Hfind.
  destruct (decide (n - j < 8)) as [Hlast|Hmore].
  - assert (Z.land (Z.land (load64 f (str + j) -w lomagic) (not64 (load64 f (str + j)))) himagic <> 0) as Ht.
    { apply (zero_test_bit _ (Z.to_nat (n - j))); [by apply read_bytes_u8|apply length_read_bytes|lia| |].
      - intros i Hi. rewrite nth_read_bytes, u64_id by (unfold is_u64; lia). replace (str + j + Z.of_nat i) with (str + (j + Z.of_nat i)) by lia.
        apply Hbody. lia.
      - rewrite nth_read_bytes, u64_id by (unfold is_u64; lia). by replace (str + j + Z.of_nat (Z.to_nat (n - j))) with (str + n) by lia. }
    rewrite (proj2 (Z.eqb_neq _ _) Ht). cbn [negb]. unfold bind. rewrite Hfind by lia.
    rewrite (find_seq_first _ 0 8 (Z.to_nat (n - j))); [|lia| |].
    + unfold ret. do 2 f_equal. rewrite u64_id by (unfold is_u64; lia). lia.
    + intros i Hi. apply Z.eqb_neq. replace (str + j + Z.of_nat i) with (str + (j + Z.of_nat i)) by lia. apply Hbody. lia.
    + apply Z.eqb_eq. by replace (str + j + Z.of_nat (Z.to_nat (n - j))) with (str + n) by lia.
  - assert (strlen_words fuel str (str + j + 8) f = Ok (n, f)) as Hnext.
    { replace (str + j + 8) with (str + (j + 8)) by lia. apply IH; [lia| |lia]. mlia. }
    match goal with |- context [if ?b then _ else _] => destruct b end; [|exact Hnext]. unfold bind. rewrite Hfind by lia. rewrite find_seq_none; [done|].
    intros i Hi. apply Z.eqb_neq. replace (str + j + Z.of_nat i) with (str + (j + Z.of_nat i)) by lia. apply Hbody. lia.
Qed.
End Strlen.

(** *** Copying *)
Section Copy.
Context (f : mem) (dest src len : Z).
Context (Hf : mem_bytes f) (Hd : 0 < dest) (Hs : 0 <= src) (Hl : 0 <= len).
Context (Hde : dest + len + 8 < 2 ^ 64) (Hse : src + len + 8 < 2 ^ 64).
Context (Hdisj : ranges_disjoint dest len src len = true \/ len = 0).

(** The first [i] bytes were copied. *)
Definition copied (i : Z) (g : mem) : Prop :=
  forall a, is_u64 a -> g a = write_bytes f dest (read_bytes f src (Z.to_nat i)) a.

(** The bytes still to copy are the original ones. *)
Lemma copied_read g i n : copied i g -> 0 <= i -> 0 <= n -> i + n <= len ->
  read_bytes g (src + i) (Z.to_nat n) = read_bytes f (src + i) (Z.to_nat n).
Proof.
  intros Hg Hi Hn Hle. transitivity (read_bytes (write_bytes f dest (read_bytes f src (Z.to_nat i))) (src + i) (Z.to_nat n)).
  { apply read_bytes_ext. exact Hg. }
  destruct (decide (i = 0)) as [->|]; [|destruct (decide (n = 0)) as [->|]; [done|]].
  { apply read_bytes_ext. intros x Hx. apply write_bytes_other. unfold in_range. simpl. apply Z.ltb_ge, u64_range. }
  apply read_write_disjoint. rewrite length_read_bytes, !Z2Nat.id by lia. destruct Hdisj as [Hdj|]; [|lia].
  rewrite ranges_disjoint_sym. apply (ranges_disjoint_sub src len); [lia|lia|lia|lia|]. rewrite ranges_disjoint_sym.
  rewrite <- (Z.add_0_r dest). apply (ranges_disjoint_sub dest len); lia || done.
Qed.

(** Copying the next [n] bytes. *)
Lemma copied_step g i n bs : copied i g -> 0 <= i -> 0 <= n -> i + n <= len ->
  bs = read_bytes f (src + i) (Z.to_nat n) -> copied (i + n) (write_bytes g (dest + i) bs).
Proof.
  intros Hg Hi Hn Hle -> a Ha. rewrite (write_bytes_ext _ _ _ _ a (Hg a Ha)).
  replace (dest + i) with (dest + Z.of_nat (length (read_bytes f src (Z.to_nat i)))) by (rewrite length_read_bytes; lia).
  rewrite write_bytes_app by (rewrite !length_read_bytes; lia).
  replace (src + i) with (src + Z.of_nat (Z.to_nat i)) by lia. rewrite <- read_bytes_app.
  do 2 f_equal. lia.
Qed.

Lemma copied_bytes_u8 g i : copied i g -> forall a, is_u64 a -> is_u8 (g a).
Proof. intros Hg a Ha. rewrite Hg by done. apply write_bytes_mem_bytes; [done|]. by apply read_bytes_u8. Qed.

Lemma copy_bytes_spec fuel g i : copied i g -> 0 <= i <= len -> len - i <= Z.of_nat fuel ->
  exists g', copy_bytes fuel (dest + i) (src + i) (dest + len) g = Ok (tt, g') /\ copied len g'.
Proof.
  revert g i. induction fuel as [|fuel IH]; intros g i Hg Hi Hfuel; cbn [copy_bytes].
  - rewrite (proj2 (Z.ltb_ge _ _)) by lia. exists g. replace len with i by lia. done.
  - destruct (Z.ltb_spec (dest + i) (dest + len)); [|exists g; by replace len with i by lia].
    unfold bind, ldb, gets, stb, modify. rewrite !(u64_id (_ + _ + 1)), (u64_id (src + i)) by (unfold is_u64; lia).
    replace (dest + i + 1) with (dest + (i + 1)) by lia. replace (src + i + 1) with (src + (i + 1)) by lia.
    apply IH; [|lia|lia]. apply copied_step; [done|lia|lia|lia|].
    pose proof (copied_read g i 1 Hg ltac:(lia) ltac:(lia) ltac:(lia)) as Hrd. rewrite <- Hrd.
    change (Z.to_nat 1) with 1%nat. unfold read_bytes. cbn [seq map]. change (Z.of_nat 0) with 0.
    rewrite Z.add_0_r, u64_id by (unfold is_u64; lia).
    unfold u8. rewrite Z.mod_small; [done|]. apply (copied_bytes_u8 g i Hg). unfold is_u64; lia.
Qed.

Lemma copy_words_spec fuel g i bound : copied i g -> 0 <= i <= len -> bound = dest + len - 7 -> len - i <= Z.of_nat fuel ->
  exists g' j, copy_words fuel (dest + i) (src + i) bound g = Ok ((dest + j, src + j), g') /\ 0 <= j <= len /\ copied j g'.
Proof.
  revert g i. induction fuel as [|fuel IH]; intros g i Hg Hi -> Hfuel; cbn [copy_words].
  - rewrite (proj2 (Z.ltb_ge _ _)) by lia. exists g, i. done.
  - destruct (Z.ltb_spec (dest + i) (dest + len - 7)); [|exists g, i; done].
    unfold bind, ldw, gets, stw, modify. change sizeof_uintptr_t with 8. rewrite !(u64_id (_ + _ + 8)) by (unfold is_u64; lia).
    replace (dest + i + 8) with (dest + (i + 8)) by lia. replace (src + i + 8) with (src + (i + 8)) by lia.
    apply IH; [|lia|done|lia]. unfold store64. apply copied_step; [done|lia|lia|lia|].
    pose proof (copied_read g i 8 Hg ltac:(lia) ltac:(lia) ltac:(lia)) as Hrd. change (Z.to_nat 8) with 8%nat in *.
    unfold load64. rewrite Hrd. apply le64_le_value; [by apply read_bytes_u8|apply length_read_bytes].
Qed.
End Copy.

(** *** Filling *)
Section Fill.
Context (f : mem) (dest len v : Z).
Context (Hd : 0 <= dest) (Hl : 0 <= len) (Hde : dest + len + 8 < 2 ^ 64).

Definition filled (i : Z) (g : mem) : Prop :=
  forall a, is_u64 a -> g a = write_bytes f dest (replicate (Z.to_nat i) v) a.

Lemma filled_step g i n : filled i g -> 0 <= i -> 0 <= n -> i + n <= len ->
  filled (i + n) (write_bytes g (dest + i) (replicate (Z.to_nat n) v)).
Proof.
  intros Hg Hi Hn Hle a Ha. rewrite (write_bytes_ext _ _ _ _ a (Hg a Ha)).
  replace (dest + i) with (dest + Z.of_nat (length (replicate (Z.to_nat i) v))) by (rewrite length_replicate; lia).
  rewrite write_bytes_app by (rewrite !length_replicate; lia). rewrite <- replicate_add. do 2 f_equal. lia.
Qed.

Lemma fill_bytes_spec fuel g i byte : filled i g -> 0 <= i <= len -> len - i <= Z.of_nat fuel -> u8 byte = v ->
  exists g', fill_bytes fuel (dest + i) (dest + len) byte g = Ok (tt, g') /\ filled len g'.
Proof.
  revert g i. induction fuel as [|fuel IH]; intros g i Hg Hi Hfuel Hv; cbn [fill_bytes].
  - rewrite (proj2 (Z.ltb_ge _ _)) by lia. exists g. replace len with i by lia. done.
  - destruct (Z.ltb_spec (dest + i) (dest + len)); [|exists g; by replace len with i by lia].
    unfold bind, stb, modify. rewrite (u64_id (dest + i + 1)) by (unfold is_u64; lia). rewrite Hv.
    replace (dest + i + 1) with (dest + (i + 1)) by lia. apply IH; [|lia|lia|done].
    apply (filled_step g i 1); done || lia.
Qed.

Lemma fill_words_spec fuel g i word : filled i g -> 0 <= i <= len -> len - i <= Z.of_nat fuel ->
  len mod 8 = 0 -> i mod 8 = 0 -> le64 word = replicate 8 v ->
  exists g', fill_words fuel (dest + i) (dest + len) word g = Ok (tt, g') /\ filled len g'.
Proof.
  revert g i. induction fuel as [|fuel IH]; intros g i Hg Hi Hfuel Hlm Him Hv; cbn [fill_words].
  - rewrite (proj2 (Z.ltb_ge _ _)) by lia. exists g. replace len with i by lia. done.
  - destruct (Z.ltb_spec (dest + i) (dest + len)); [|exists g; by replace len with i by lia].
    assert (i + 8 <= len) by mlia.
    unfold bind, stw, modify, store64. change sizeof_uintptr_t with 8. rewrite (u64_id (dest + i + 8)) by (unfold is_u64; lia).
    rewrite Hv. replace (dest + i + 8) with (dest + (i + 8)) by lia. apply IH; [|lia|lia|done|mlia|done].
    apply (filled_step g i 8); done || lia.
Qed.

Lemma filled_0 : filled 0 f.
Proof.
  intros a Ha. symmetry. apply write_bytes_other. unfold in_range. simpl. apply Z.ltb_ge, u64_range.
Qed.
End Fill.
End RtString.

(** C34: [strlen], which reads a word at a time, returns the distance to the first
    zero byte for every string that ends 16 bytes below the top of the address
    space, at any alignment, and leaves memory alone. *)
Theorem strlen_correct f str n fuel :
  mem_bytes f -> 0 <= str -> 0 <= n -> str + n + 16 < 2 ^ 64 ->
  (forall i, 0 <= i < n -> f (str + i) <> 0) -> f (str + n) = 0 -> n < 8 * Z.of_nat fuel ->
  RtString.strlen fuel str f = Ok (n, f).
Proof.
  intros Hf Hs Hn He Hb Hz Hfuel. unfold RtString.strlen, bind.
  pose proof (RtString.strlen_head_spec f str n Hs Hn He Hb Hz 8 0) as Hhead. rewrite Z.add_0_r in Hhead.
  destruct Hhead as [-> | (j & -> & Hj & Ha)]; [lia|mlia|done|]. apply RtString.strlen_words_spec; done || lia.
Qed.

(** [memcpy] of the runtime copies bytes: for buffers that do not overlap or
    touch the top of the address space, at any alignment (word loop or byte loop),
    it returns its first argument with the bytes of the source at the destination
    and everything else unchanged. *)
Theorem memcpy_correct f dest src len :
  mem_bytes f -> 0 < dest -> 0 <= src -> 0 <= len -> dest + len + 8 < 2 ^ 64 -> src + len + 8 < 2 ^ 64 ->
  ranges_disjoint dest len src len = true \/ len = 0 ->
  exists g, RtString.memcpy dest src len f = Ok (dest, g) /\
    forall a, is_u64 a -> g a = write_bytes f dest (read_bytes f src (Z.to_nat len)) a.
Proof.
  intros Hf Hd Hs Hl Hde Hse Hdisj.
  assert (RtString.copied f dest src 0 f) as H0.
  { intros a Ha. symmetry. apply write_bytes_other. unfold in_range. simpl. apply Z.ltb_ge, u64_range. }
  assert (exists g1 j, (if Z.land (Z.lor dest src) (RtString.sizeof_uintptr_t - 1) =? 0
    then RtString.copy_words (Z.to_nat len) dest src (dest +w len -w (RtString.sizeof_uintptr_t - 1))
    else ret (dest, src)) f = Ok ((dest + j, src + j), g1) /\ 0 <= j <= len /\ RtString.copied f dest src j g1)
    as (g1 & j & E1 & Hj & Hg1).
  { destruct (Z.eqb_spec (Z.land (Z.lor dest src) (RtString.sizeof_uintptr_t - 1)) 0) as [Ea|].
    - assert (8 <= dest) as Hd8.
      { change (RtString.sizeof_uintptr_t - 1) with 7 in Ea. rewrite Z.land_lor_distr_l in Ea.
        apply Z.lor_eq_0_iff in Ea as [Ea _]. change 7 with (2 ^ 3 - 1) in Ea. rewrite land_pow2_sub1 in Ea by lia. mlia. }
      pose proof (RtString.copy_words_spec f dest src len Hf Hd Hs Hl Hde Hse Hdisj (Z.to_nat len) f 0) as Hw.
      rewrite !Z.add_0_r in Hw. apply Hw; [done|lia| |lia]. change (RtString.sizeof_uintptr_t - 1) with 7.
      rewrite (u64_id (dest + len)), u64_id by (unfold is_u64; lia). done.
    - exists f, 0. rewrite !Z.add_0_r. done. }
  destruct (RtString.copy_bytes_spec f dest src len Hf Hd Hs Hl Hde Hse Hdisj (Z.to_nat len) g1 j Hg1 Hj ltac:(lia)) as (g & E2 & Hg).
  exists g. split; [|exact Hg]. unfold RtString.memcpy, bind at 1. rewrite E1. unfold bind.
  rewrite (u64_id (dest + len)) by (unfold is_u64; lia). by rewrite E2.
Qed.

(** The word with eight copies of a byte. *)
Lemma fill_word_le64 b : 0 <= b < 256 ->
  let w := Z.lor b (u64 (Z.shiftl b 8)) in let w := Z.lor w (u64 (Z.shiftl w 16)) in
  le64 (Z.lor w (u64 (Z.shiftl (u64 (Z.shiftl w 16)) 16))) = replicate 8 b.
Proof.
  intros Hb. cbv zeta.
  assert (forallb (fun b => let w := Z.lor b (u64 (Z.shiftl b 8)) in let w := Z.lor w (u64 (Z.shiftl w 16)) in
    bool_decide (le64 (Z.lor w (u64 (Z.shiftl (u64 (Z.shiftl w 16)) 16))) = replicate 8 b)) (seqZ 0 256) = true) as Hall
    by by vm_compute.
  rewrite forallb_forall in Hall. specialize (Hall b ltac:(apply list_elem_of_In, elem_of_seqZ; lia)).
  by apply bool_decide_eq_true in Hall.
Qed.

(** [memset] of the runtime fills exactly the given range with the low byte of
    its argument, in the word loop as in the byte loop. *)
Theorem memset_correct f dest byte len :
  0 <= dest -> 0 <= len -> dest + len + 8 < 2 ^ 64 ->
  exists g, RtString.memset dest byte len f = Ok (dest, g) /\
    forall a, is_u64 a -> g a = if in_range dest len a then u8 byte else f a.
Proof.
  intros Hd Hl Hde. pose proof (RtString.filled_0 f dest (u8 byte)) as H0.
  assert (forall g, RtString.filled f dest (u8 byte) len g -> forall a, is_u64 a ->
    g a = if in_range dest len a then u8 byte else f a) as Hfin.
  { intros g Hg a Ha. rewrite Hg by done. unfold write_bytes. rewrite length_replicate, Z2Nat.id by done.
    destruct (in_range dest len a) eqn:E; [|done]. apply Z.ltb_lt in E. rewrite nth_lookup, lookup_replicate_2; [done|].
    pose proof (u64_range (a - dest)) as [? _]. lia. }
  unfold RtString.memset. rewrite (u64_id (dest + len)) by (unfold is_u64; lia).
  destruct (Z.eqb_spec (Z.land (Z.lor dest len) (RtString.sizeof_uintptr_t - 1)) 0) as [Ea|].
  - change (RtString.sizeof_uintptr_t - 1) with 7 in Ea. rewrite Z.land_lor_distr_l in Ea.
    apply Z.lor_eq_0_iff in Ea as [_ El]. change 7 with (2 ^ 3 - 1) in El. rewrite land_pow2_sub1 in El by lia.
    assert (Z.land byte 0xFF = u8 byte) as Eb by (change 0xFF with (2 ^ 8 - 1); by rewrite land_pow2_sub1 by lia).
    assert (0 <= u8 byte < 256) as Hb by (unfold u8; apply Z.mod_pos_bound; lia). rewrite Eb. cbv zeta.
    destruct (RtString.fill_words_spec f dest len (u8 byte) Hd Hde (Z.to_nat len) f 0 _ H0 ltac:(lia) ltac:(lia) El eq_refl
      (fill_word_le64 _ Hb)) as (g & E & Hg).
    rewrite Z.add_0_r in E. exists g. unfold bind. rewrite E. split; [done|by apply Hfin].
  - destruct (RtString.fill_bytes_spec f dest len (u8 byte) Hd Hde (Z.to_nat len) f 0 byte H0 ltac:(lia) ltac:(lia) eq_refl)
      as (g & E & Hg).
    rewrite Z.add_0_r in E. exists g. unfold bind. rewrite E. split; [done|by apply Hfin].
Qed.

(** ** Witnesses *)

(** Memory whose byte at [a] is [a mod 7 + 1], with a zero at 1000. *)
Definition demo_text (a : Z) : Z := if a =? 1000 then 0 else a mod 7 + 1.

Lemma demo_text_bytes : mem_bytes demo_text.
Proof. intros a. unfold demo_text, is_u8. case_match; [lia|]. mlia. Qed.

Lemma strlen_correct_witness : RtString.strlen 20 901 demo_text = Ok (99, demo_text).
Proof.
  apply (strlen_correct demo_text 901 99 20 demo_text_bytes); try lia; [|done].
  intros i Hi. unfold demo_text. rewrite (proj2 (Z.eqb_neq _ _)) by lia. mlia.
Defined.

Lemma memcpy_correct_witness :
  exists g, RtString.memcpy 4096 904 21 demo_text = Ok (4096, g) /\ g 4099 = demo_text 907.
Proof.
  destruct (memcpy_correct demo_text 4096 904 21 demo_text_bytes) as (g & E & Hg); try lia; [by left|].
  exists g. split; [exact E|]. rewrite (Hg 4099) by by compute. by vm_compute.
Defined.

Lemma memset_correct_witness :
  exists g, RtString.memset 4096 (-1) 16 demo_text = Ok (4096, g) /\ g 4111 = 255.
Proof.
  destruct (memset_correct demo_text 4096 (-1) 16) as (g & E & Hg); try lia.
  exists g. split; [exact E|]. rewrite (Hg 4111) by by compute. by vm_compute.
Defined.
