(* ===== verification/Backing.v ===== *)
(** * Backing pages for evicted memory ([runtime/mm/page_swap.c])

    Evicted pages go to an untrusted region.  The runtime walks through the pages
    of the region in steps of a random number of pages that is coprime to their
    number, so the host cannot tell the order from the addresses. *)

From S2P Require Import Prelude Mem Vm.
From Stdlib Require Import ZArith Lia Znumtheory.
From stdpp Require Import base tactics list list_numbers numbers.
Local Open Scope Z_scope.
Local Open Scope keystone_scope.

(** The globals of paging.c and page_swap.c that the allocator uses. *)
Record backing : Type := mkBacking {
  paging_backing_storage_addr : Z;
  paging_backing_storage_size : Z;
  paging_next_backing_page_offset : Z;
  paging_inc_backing_page_offset_by : Z
}.

Definition set_next_offset (v : Z) (s : backing) : backing :=
  mkBacking (paging_backing_storage_addr s) (paging_backing_storage_size s) v (paging_inc_backing_page_offset_by s).

Definition paging_backing_region : M backing Z := gets paging_backing_storage_addr.
Definition paging_backing_region_size : M backing Z := gets paging_backing_storage_size.

Definition paging_backpage_inbounds (back_page : Z) : M backing bool :=
  gets (fun s => (paging_backing_storage_addr s <=? back_page) &&
    (back_page <? (paging_backing_storage_addr s +w paging_backing_storage_size s))).

(** Division by zero is undefined; a failed assertion leaves the enclave. *)
Definition paging_alloc_backing_page : M backing Z :=
  let! s := get in
  let! size := paging_backing_region_size in
  if size =? 0 then ub
  else
    let offs_update := (paging_next_backing_page_offset s +w paging_inc_backing_page_offset_by s) mod size in
    if offs_update =? 0 then ret 0
    else
      let! region := paging_backing_region in
      let next_page := region +w paging_next_backing_page_offset s in
      (if IS_ALIGNED next_page RISCV_PAGE_BITS then ret tt else hang) ;;;
      modify (set_next_offset offs_update) ;;;
      ret next_page.

Definition paging_remaining_pages : M backing Z :=
  let! s := get in
  let! size := paging_backing_region_size in
  ret (u32 ((size -w paging_next_backing_page_offset s) / RISCV_PAGE_SIZE)).

(** [while (b) { tmp = b; b = a % b; a = tmp; }] *)
Fixpoint gcd_loop (fuel : nat) (a b : Z) : option Z :=
  if b =? 0 then Some a
  else match fuel with
       | O => None
       | S fuel => gcd_loop fuel b (a mod b)
       end.
(** The second argument decreases in every round. *)
Definition gcd (a b : Z) : option Z := gcd_loop (Z.to_nat b) a b.

(** [do res = n / 2 + sbi_random() % (n / 2); while (gcd(res, n) != 1);] with the
    random words to come; [Hang] when they end before a coprime is drawn. *)
Fixpoint find_coprime_of (random : list Z) (n : Z) : outcome Z :=
  if n / 2 =? 0 then UB
  else match random with
       | [] => Hang
       | r :: random =>
           let res := n / 2 +w r mod (n / 2) in
           match gcd res n with
           | Some 1 => Ok res
           | Some _ => find_coprime_of random n
           | None => Hang
           end
       end.

Definition pswap_init (random : list Z) : M backing unit := fun s =>
  let backing_pages := paging_backing_storage_size s / RISCV_PAGE_SIZE in
  match find_coprime_of random backing_pages with
  | Ok inc => Ok (tt, mkBacking (paging_backing_storage_addr s) (paging_backing_storage_size s) 0
                        (u64 (inc * RISCV_PAGE_SIZE)))
  | Hang => Hang
  | UB => UB
  end.

(** ** The greatest common divisor *)

Lemma gcd_loop_spec fuel a b : 0 <= a -> 0 <= b -> b <= Z.of_nat fuel -> gcd_loop fuel a b = Some (Z.gcd a b).
Proof.
  revert a b. induction fuel as [|fuel IH]; intros a b Ha Hb Hf; cbn [gcd_loop].
  - replace b with 0 by lia. simpl. by rewrite Z.gcd_0_r_nonneg.
  - destruct (Z.eqb_spec b 0) as [->|]; [by rewrite Z.gcd_0_r_nonneg|].
    rewrite IH; [|done|apply Z.mod_pos_bound; lia|pose proof (Z.mod_pos_bound a b); lia].
    by rewrite Z.gcd_comm, Z.gcd_mod, Z.gcd_comm by done.
Qed.

Lemma gcd_spec a b : 0 <= a -> 0 <= b -> gcd a b = Some (Z.gcd a b).
Proof. intros. apply gcd_loop_spec; lia. Qed.

(** A drawn increment is coprime to the number of pages and lies in its upper half. *)
Lemma find_coprime_spec random n inc : 2 <= n < 2 ^ 62 -> find_coprime_of random n = Ok inc ->
  Z.gcd inc n = 1 /\ n / 2 <= inc < n.
Proof.
  intros Hn. induction random as [|r random IH]; cbn [find_coprime_of].
  all: rewrite (proj2 (Z.eqb_neq (n / 2) 0)) by mlia.
  - done.
  - assert (0 <= r mod (n / 2) < n / 2) as Hr by (apply Z.mod_pos_bound; mlia).
    assert (0 < n / 2 /\ n / 2 + n / 2 <= n) as [? ?] by mlia.
    rewrite u64_id by (unfold is_u64; lia). rewrite gcd_spec by lia.
    destruct (decide (Z.gcd (n / 2 + r mod (n / 2)) n = 1)) as [E|E].
    + rewrite E. intros [= <-]. split; [done|lia].
    + repeat case_match; done || (by apply IH).
Qed.

(** ** The walk through the region *)

(** The state after [k] pages were taken. *)
Record walk_at (base pages inc k : Z) (s : backing) : Prop := {
  wa_base : paging_backing_storage_addr s = base;
  wa_size : paging_backing_storage_size s = pages * RISCV_PAGE_SIZE;
  wa_inc : paging_inc_backing_page_offset_by s = inc * RISCV_PAGE_SIZE;
  wa_off : paging_next_backing_page_offset s = (k * inc) mod pages * RISCV_PAGE_SIZE
}.

(** A region of [pages] pages and a step [inc] coprime to their number. *)
Record walk_ok (base pages inc : Z) : Prop := {
  wo_base : 0 < base /\ base mod RISCV_PAGE_SIZE = 0;
  wo_pages : 2 <= pages;
  wo_end : base + pages * RISCV_PAGE_SIZE < 2 ^ 64 /\ pages * RISCV_PAGE_SIZE < 2 ^ 63;
  wo_inc : 0 < inc < pages;
  wo_coprime : Z.gcd inc pages = 1
}.

Definition backing_page (base pages inc k : Z) : Z := base + (k * inc) mod pages * RISCV_PAGE_SIZE.

Section Walk.
Context (base pages inc : Z) (Hok : walk_ok base pages inc).

(** A multiple of a coprime step is a whole turn only for a multiple of the number
    of pages. *)
Lemma coprime_turn k : (k * inc) mod pages = 0 -> (pages | k).
Proof.
  destruct Hok as [_ Hp _ _ Hc]. intros Hm. apply Z.mod_divide in Hm; [|lia].
  apply Z.gauss with inc; [by rewrite Z.mul_comm|by rewrite Z.gcd_comm].
Qed.

Lemma backing_page_inj j k : 0 <= j < pages -> 0 <= k < pages ->
  backing_page base pages inc j = backing_page base pages inc k -> j = k.
Proof.
  destruct Hok as [_ Hp _ _ _]. intros Hj Hk E. unfold backing_page in E. change RISCV_PAGE_SIZE with 4096 in E.
  assert ((j * inc) mod pages = (k * inc) mod pages) as E' by lia.
  assert ((pages | j - k)) as [q Hq].
  { apply coprime_turn. rewrite Z.mul_sub_distr_r, Zminus_mod, E', Z.sub_diag. apply Z.mod_0_l. lia. }
  destruct (decide (q = 0)) as [->|]; [lia|]. nia.
Qed.

Lemma backing_page_bounds k :
  base <= backing_page base pages inc k /\ backing_page base pages inc k + RISCV_PAGE_SIZE <= base + pages * RISCV_PAGE_SIZE /\
  backing_page base pages inc k mod RISCV_PAGE_SIZE = 0.
Proof.
  destruct Hok as [[_ Hb] Hp _ _ _]. unfold backing_page. change RISCV_PAGE_SIZE with 4096 in *.
  pose proof (Z.mod_pos_bound (k * inc) pages ltac:(lia)). split_and!; [lia|lia|]. mlia.
Qed.

Lemma alloc_step k s : 0 <= k < pages -> walk_at base pages inc k s ->
  if decide (k + 1 = pages) then paging_alloc_backing_page s = Ok (0, s)
  else exists s', paging_alloc_backing_page s = Ok (backing_page base pages inc k, s') /\
    walk_at base pages inc (k + 1) s'.
Proof.
  intros Hk [Eb Es Ei Eo]. pose proof Hok as [[Hb Hba] Hp He Hi Hc].
  pose proof (Z.mod_pos_bound (k * inc) pages ltac:(lia)) as Hm.
  pose proof (backing_page_bounds k) as (B1 & B2 & B3). unfold backing_page in *.
  set (q := (k * inc) mod pages) in *. change RISCV_PAGE_SIZE with 4096 in *.
  assert (u64 (q * 4096 + inc * 4096) mod (pages * 4096) = ((k + 1) * inc) mod pages * 4096) as Eu.
  { rewrite u64_id by (unfold is_u64; lia). replace (q * 4096 + inc * 4096) with ((q + inc) * 4096) by lia.
    rewrite Zmult_mod_distr_r. f_equal. unfold q. rewrite Zplus_mod_idemp_l. f_equal. lia. }
  unfold paging_alloc_backing_page, bind, get, paging_backing_region_size, paging_backing_region, gets, modify, ret.
  rewrite Es, Eo, Ei, Eu. rewrite (proj2 (Z.eqb_neq (pages * 4096) 0)) by lia.
  destruct (Z.eqb_spec (((k + 1) * inc) mod pages * 4096) 0) as [E0|E0].
  - destruct (coprime_turn (k + 1)) as [t Ht]; [lia|]. rewrite decide_True; [done|].
    destruct (decide (t = 1)); [lia|]. destruct (decide (t <= 0)); nia.
  - rewrite decide_False.
    2: { intros E. apply E0. rewrite E, (Z.mul_comm pages inc), Z.mod_mul by lia. lia. }
    rewrite Eb, (u64_id (base + q * 4096)) by (unfold is_u64; lia).
    rewrite (proj2 (IS_ALIGNED_spec _ RISCV_PAGE_BITS ltac:(by compute))) by exact B3.
    eexists. split; [done|]. split; cbn; done.
Qed.
End Walk.

(** [n] allocations in a row. *)
Fixpoint alloc_n (n : nat) : M backing (list Z) :=
  match n with
  | O => ret []
  | S n => let! p := paging_alloc_backing_page in let! ps := alloc_n n in ret (p :: ps)
  end.

Lemma alloc_n_spec base pages inc (n : nat) k s : walk_ok base pages inc -> 0 <= k -> k + Z.of_nat n <= pages - 1 ->
  walk_at base pages inc k s ->
  exists s', alloc_n n s = Ok (map (fun i => backing_page base pages inc (k + Z.of_nat i)) (seq 0 n), s') /\
    walk_at base pages inc (k + Z.of_nat n) s'.
Proof.
  intros Hok. revert k s. induction n as [|n IH]; intros k s Hk Hn Hs; [exists s; by rewrite Z.add_0_r|].
  pose proof (alloc_step base pages inc Hok k s ltac:(lia) Hs) as Hstep. rewrite decide_False in Hstep by lia.
  destruct Hstep as (s1 & E1 & Hs1). destruct (IH (k + 1) s1) as (s2 & E2 & Hs2); [lia|lia|done|].
  exists s2. split; [|by replace (k + Z.of_nat (S n)) with (k + 1 + Z.of_nat n) by lia].
  cbn [alloc_n]. unfold bind. rewrite E1, E2. unfold ret. do 2 f_equal. cbn [seq map]. rewrite Z.add_0_r. f_equal.
  rewrite <- seq_shift, map_map. apply map_ext. intros i. f_equal. lia.
Qed.

(** C36: After [pswap_init] found its random step, the backing-page allocator hands
    out every page of the region but one exactly once, in whatever order the step
    gives: each is page aligned and inside the region, no two are the same, and the
    next request returns 0. *)
Theorem backing_pages_distinct base pages random s s0 :
  0 < base -> base mod RISCV_PAGE_SIZE = 0 -> 2 <= pages -> base + pages * RISCV_PAGE_SIZE < 2 ^ 64 -> pages * RISCV_PAGE_SIZE < 2 ^ 63 ->
  paging_backing_storage_addr s0 = base -> paging_backing_storage_size s0 = pages * RISCV_PAGE_SIZE ->
  pswap_init random s0 = Ok (tt, s) ->
  exists ps s', alloc_n (Z.to_nat (pages - 1)) s = Ok (ps, s') /\
    NoDup ps /\ Z.of_nat (length ps) = pages - 1 /\
    (forall p, p ∈ ps -> base <= p /\ p + RISCV_PAGE_SIZE <= base + pages * RISCV_PAGE_SIZE /\ p mod RISCV_PAGE_SIZE = 0) /\
    paging_alloc_backing_page s' = Ok (0, s').
Proof.
  intros Hb Hba Hp He He' Ea Es Hinit. unfold pswap_init in Hinit. rewrite Es, Ea in Hinit.
  assert (pages * RISCV_PAGE_SIZE / RISCV_PAGE_SIZE = pages) as Ep by (apply Z.div_mul; by compute). rewrite Ep in Hinit.
  destruct (find_coprime_of random pages) as [inc| |] eqn:Ef; try done. injection Hinit as <-.
  change RISCV_PAGE_SIZE with 4096 in *.
  destruct (find_coprime_spec random pages inc ltac:(lia) Ef) as [Hg [Hlo Hhi]].
  assert (walk_ok base pages inc) as Hok by (split; [done|done|done|change RISCV_PAGE_SIZE with 4096 in *; mlia|done]).
  assert (walk_at base pages inc 0 (mkBacking base (pages * 4096) 0 (u64 (inc * 4096)))) as H0.
  { split; cbn; [done|done| |by rewrite Z.mod_0_l by lia]. apply u64_id. unfold is_u64. change RISCV_PAGE_SIZE with 4096. pose proof (wo_inc _ _ _ Hok). lia. }
  destruct (alloc_n_spec base pages inc (Z.to_nat (pages - 1)) 0 _ Hok ltac:(lia) ltac:(lia) H0) as (s' & E & Hs').
  eexists _, s'. split; [exact E|]. split_and!.
  - apply NoDup_fmap_2_strong; [|apply NoDup_seq].
    intros i j Hi%list_elem_of_In%in_seq Hj%list_elem_of_In%in_seq Eij.
    apply (backing_page_inj base pages inc Hok) in Eij; lia.
  - rewrite length_map, length_seq. lia.
  - intros p Hin. apply list_elem_of_In, in_map_iff in Hin as (i & <- & _). by apply backing_page_bounds.
  - pose proof (alloc_step base pages inc Hok (pages - 1) s' ltac:(lia)) as Hlast.
    rewrite decide_True in Hlast by lia. apply Hlast. by replace (pages - 1) with (0 + Z.of_nat (Z.to_nat (pages - 1))) by lia.
Qed.

(** A region of eight pages: 6 is drawn and rejected, then 5. *)
Lemma backing_pages_distinct_witness :
  exists s ps s', pswap_init [2; 1] (mkBacking 0x1000 0x8000 7 7) = Ok (tt, s) /\ alloc_n 7 s = Ok (ps, s') /\ NoDup ps.
Proof.
  destruct (backing_pages_distinct 0x1000 8 [2; 1] (mkBacking 0x1000 0x8000 0 0x5000) (mkBacking 0x1000 0x8000 7 7))
    as (ps & s' & E & Hn & _); [by vm_compute..|].
  eexists _, ps, s'. split; [by vm_compute|]. split; [exact E|exact Hn].
Defined.
