(* ===== verification/Bootrom.v ===== *)
(** * The boot ROM ([bootrom/bootloader.c])

    Before the security monitor starts, the boot ROM measures it, derives the
    monitor's key pair and certifies it with the device key.  The hash is the same
    code as the monitor's ([bootrom/sha3] and [sm/src/sha3] are identical files); the
    signature algorithm is an interface, which [Attestation] implements with [Ed25519]. *)

From S2P Require Import Prelude Mem Sha3 Hkdf.
From Stdlib Require Import ZArith Lia.
From stdpp Require Import base tactics list list_numbers numbers.
Local Open Scope Z_scope.
Local Open Scope keystone_scope.

(** The signature library: [ed25519_create_keypair] makes a public and a private key
    from a 32-byte seed. *)
Class KeyPairs : Type := {
  create_keypair : list Z -> list Z * list Z;
  sign : list Z -> list Z -> list Z -> list Z
}.

Definition DRAM_BASE : Z := 0x80000000.
(** The value the image gives the variable [sanctum_sm_size]. *)
Definition sanctum_sm_size_init : Z := 0x1ff000.

(** [test_dev_key.h] *)
Definition _sanctum_dev_secret_key : list Z :=
  [0x40; 0xa0; 0x99; 0x47; 0x8c; 0xce; 0xfa; 0x3a; 0x06; 0x63; 0xab; 0xc9;
   0x5e; 0x7a; 0x1e; 0xc9; 0x54; 0xb4; 0xf5; 0xf6; 0x45; 0xba; 0xd8; 0x04;
   0xdb; 0x13; 0xe7; 0xd7; 0x82; 0x6c; 0x70; 0x73; 0x57; 0x6a; 0x9a; 0xb6;
   0x21; 0x60; 0xd9; 0xd1; 0xc6; 0xae; 0xdc; 0x29; 0x85; 0x2f; 0xb9; 0x60;
   0xee; 0x51; 0x32; 0x83; 0x5a; 0x16; 0x89; 0xec; 0x06; 0xa8; 0x72; 0x34;
   0x51; 0xaa; 0x0e; 0x4a].
Definition _sanctum_dev_public_key : list Z :=
  [0x0f; 0xaa; 0xd4; 0xff; 0x01; 0x17; 0x85; 0x83; 0xba; 0xa5; 0x88; 0x96;
   0x6f; 0x7c; 0x1f; 0xf3; 0x25; 0x64; 0xdd; 0x17; 0xd7; 0xdc; 0x2b; 0x46;
   0xcb; 0x50; 0xa8; 0x4a; 0x69; 0x27; 0x0b; 0x4c].

(** The header fields that the boot ROM leaves in memory, the scratch buffer on its
    stack, and the DRAM with the monitor's image. *)
Record boot_state : Type := mkBoot {
  sanctum_sm_size : Z;
  sanctum_dev_public_key : list Z;
  sanctum_dev_secret_key : list Z;
  sanctum_sm_hash : list Z;
  sanctum_sm_public_key : list Z;
  sanctum_sm_secret_key : list Z;
  sanctum_sm_signature : list Z;
  scratchpad : list Z;
  dram : Z -> Z
}.

(** Bytes [src] stored from index [k] of an array. *)
Definition put (dst : list Z) (k : nat) (src : list Z) : list Z := list_inserts k src dst.

Definition random_byte (i : Z) : Z := u8 (0xac + Z.lxor 0xdd i).

Definition bootloader `{KeyPairs} (s : boot_state) : boot_state :=
  (* a seed from the (missing) entropy source *)
  let pad := put (scratchpad s) 0 (map (fun i => random_byte (Z.of_nat i)) (seq 0 32)) in
  (* use_test_keys.h *)
  let dev_sk := put (sanctum_dev_secret_key s) 0 (take 64 _sanctum_dev_secret_key) in
  let dev_pk := put (sanctum_dev_public_key s) 0 (take 32 _sanctum_dev_public_key) in
  (* measure the monitor *)
  let ctx := sha3_update (sha3_init 64) (read_bytes (dram s) DRAM_BASE (Z.to_nat (sanctum_sm_size s))) in
  let sm_hash := put (sanctum_sm_hash s) 0 (sha3_final ctx).1 in
  (* combine the device key and the measurement; [sizeof] of an element is 1 *)
  let ctx := sha3_update (sha3_init 64) (take 1 dev_sk) in
  let ctx := sha3_update ctx (take 1 sm_hash) in
  let pad := put pad 0 (sha3_final ctx).1 in
  let '(pk, sk) := create_keypair (take 32 pad) in
  let sm_pk := put (sanctum_sm_public_key s) 0 pk in
  let sm_sk := put (sanctum_sm_secret_key s) 0 sk in
  (* endorse the monitor *)
  let pad := put pad 0 (take 64 sm_hash) in
  let pad := put pad 64 (take 32 sm_pk) in
  let sig := put (sanctum_sm_signature s) 0 (sign (take (64 + 32) pad) dev_pk dev_sk) in
  (* erase the device key: [sizeof] of an element again *)
  let dev_sk := put dev_sk 0 (replicate 1 0) in
  mkBoot (sanctum_sm_size s) dev_pk dev_sk sm_hash sm_pk sm_sk sig pad (dram s).

(** ** Properties *)

(** Buffers of the sizes the program declares. *)
Record boot_ok (s : boot_state) : Prop := {
  bo_dev_pk : length (sanctum_dev_public_key s) = 32%nat;
  bo_dev_sk : length (sanctum_dev_secret_key s) = 64%nat;
  bo_hash : length (sanctum_sm_hash s) = 64%nat;
  bo_pk : length (sanctum_sm_public_key s) = 32%nat;
  bo_sk : length (sanctum_sm_secret_key s) = 64%nat;
  bo_sig : length (sanctum_sm_signature s) = 64%nat;
  bo_pad : length (scratchpad s) = 128%nat;
  bo_dram : mem_bytes (dram s)
}.

(** Key pairs and signatures of the documented lengths. *)
Record keys_ok `{KeyPairs} : Prop := {
  ko_pk : forall seed, length (create_keypair seed).1 = 32%nat;
  ko_sk : forall seed, length (create_keypair seed).2 = 64%nat;
  ko_sig : forall msg pk sk, length sk = 64%nat -> Forall is_u8 sk -> length (sign msg pk sk) = 64%nat
}.

(** Overwriting a prefix. *)
Lemma put_prefix dst src : (length src <= length dst)%nat -> put dst 0 src = src ++ drop (length src) dst.
Proof.
  intros Hl. unfold put. apply list_eq. intros i. destruct (decide (i < length src)%nat).
  - rewrite list_lookup_inserts by lia. rewrite lookup_app_l, Nat.sub_0_r by lia. done.
  - rewrite list_lookup_inserts_ge, lookup_app_r, lookup_drop by lia. f_equal. lia.
Qed.

Lemma put_all dst src : length src = length dst -> put dst 0 src = src.
Proof. intros Hl. rewrite put_prefix, Hl, drop_all, app_nil_r by lia. done. Qed.

Lemma length_put dst k src : length (put dst k src) = length dst.
Proof. apply length_inserts. Qed.

(** Two pieces written one after the other at the start of a buffer. *)
Lemma take_put_put dst a b : (length a + length b <= length dst)%nat ->
  take (length a + length b) (put (put dst 0 a) (length a) b) = a ++ b.
Proof.
  intros Hl. apply list_eq. intros i. destruct (decide (i < length a + length b)%nat) as [Hi|Hi].
  2: { rewrite lookup_take_ge, lookup_ge_None_2; [done|rewrite length_app; lia|lia]. }
  rewrite lookup_take_lt by lia. unfold put. destruct (decide (i < length a)%nat).
  - rewrite list_lookup_inserts_lt, list_lookup_inserts, lookup_app_l, Nat.sub_0_r by lia. done.
  - rewrite list_lookup_inserts, lookup_app_r by (rewrite ?length_inserts; lia). done.
Qed.

(** The measurement of the monitor. *)
Definition sm_measurement (s : boot_state) : list Z :=
  Fips202.SHA3 64 (read_bytes (dram s) DRAM_BASE (Z.to_nat (sanctum_sm_size s))).

Lemma dev_key_u8 : Forall is_u8 _sanctum_dev_secret_key.
Proof. unfold _sanctum_dev_secret_key, is_u8. repeat (apply List.Forall_cons; [lia|]). apply List.Forall_nil. Qed.

Lemma bootloader_spec `{KeyPairs} s :
  boot_ok s -> keys_ok ->
  let s' := bootloader s in
  let H := sm_measurement s in
  sanctum_sm_hash s' = H /\
  (sanctum_sm_public_key s', sanctum_sm_secret_key s') =
    create_keypair (take 32 (Fips202.SHA3 64 (take 1 _sanctum_dev_secret_key ++ take 1 H))) /\
  sanctum_sm_signature s' =
    sign (H ++ sanctum_sm_public_key s') _sanctum_dev_public_key _sanctum_dev_secret_key /\
  sanctum_dev_public_key s' = _sanctum_dev_public_key /\
  sanctum_dev_secret_key s' = 0 :: drop 1 _sanctum_dev_secret_key.
Proof.
  intros [B1 B2 B3 B4 B5 B6 B7 B8] [K1 K2 K3] s' H0.
  pose proof (read_bytes_u8 (dram s) DRAM_BASE (Z.to_nat (sanctum_sm_size s)) B8) as Hmsg.
  unfold s', bootloader. clear s'. unfold sm_measurement in H0.
  remember (read_bytes (dram s) DRAM_BASE (Z.to_nat (sanctum_sm_size s))) as msg eqn:Em. clear Em.
  assert (length H0 = 64%nat) as HlH by by apply H_length.
  assert (bytes H0) as HbH by by apply H_bytes.
  assert ((sha3_final (sha3_update (sha3_init 64) msg)).1 = H0) as E1 by by apply sha3_H.
  set (sk0 := _sanctum_dev_secret_key) in *. set (pk0 := _sanctum_dev_public_key) in *.
  assert (bytes (take 1 sk0 ++ take 1 H0)) as Hseed.
  { apply Forall_app. split; [by repeat constructor; compute|by apply Forall_take]. }
  set (D := Fips202.SHA3 64 (take 1 sk0 ++ take 1 H0)).
  assert ((sha3_final (sha3_update (sha3_update (sha3_init 64) (take 1 sk0)) (take 1 H0))).1 = D) as E2
    by (rewrite <- sha3_update_app; by apply sha3_H).
  assert (length D = 64%nat) as HlD by by apply H_length.
  rewrite E1, (put_all _ H0) by congruence.
  change (take 64 sk0) with sk0. change (take 32 pk0) with pk0.
  rewrite (put_all _ sk0), (put_all _ pk0) by (rewrite ?B1, ?B2; done). rewrite E2.
  set (pad := put (scratchpad s) 0 _).
  assert (length pad = 128%nat) as Hlp by (unfold pad; by rewrite length_put).
  assert (take 32 (put pad 0 D) = take 32 D) as ->.
  { rewrite put_prefix by lia. rewrite take_app_le by lia. done. }
  destruct (create_keypair (take 32 D)) as [pk sk] eqn:Ek. cbn [sanctum_sm_hash sanctum_sm_public_key
    sanctum_sm_secret_key sanctum_sm_signature sanctum_dev_public_key sanctum_dev_secret_key].
  assert (length pk = 32%nat) as Hlpk by (specialize (K1 (take 32 D)); by rewrite Ek in K1).
  assert (length sk = 64%nat) as Hlsk by (specialize (K2 (take 32 D)); by rewrite Ek in K2).
  rewrite (put_all _ pk), (put_all _ sk) by congruence. split_and!; [done|done| |done|done].
  rewrite put_all by (rewrite K3 by (done || exact dev_key_u8); congruence). f_equal.
  rewrite (firstn_all2 H0), (firstn_all2 pk) by lia.
  pose proof (take_put_put (put pad 0 D) H0 pk) as Ht. rewrite HlH, Hlpk, length_put, Hlp in Ht. apply Ht. lia.
Qed.

(** C37: The boot ROM measures the whole image of the monitor with SHA3-512 and signs
    the measurement and the monitor's public key with the device key.  The monitor's
    key pair, however, depends only on the first byte of the device key and the first
    byte of the measurement, and only the first byte of the device key is erased, since
    the code takes the size of an array element for the size of the array. *)
Theorem bootloader_correct `{KeyPairs} s :
  boot_ok s -> keys_ok ->
  let s' := bootloader s in
  let H := sm_measurement s in
  sanctum_sm_hash s' = H /\
  (sanctum_sm_public_key s', sanctum_sm_secret_key s') =
    create_keypair (take 32 (Fips202.SHA3 64 (take 1 _sanctum_dev_secret_key ++ take 1 H))) /\
  sanctum_sm_signature s' =
    sign (H ++ sanctum_sm_public_key s') _sanctum_dev_public_key _sanctum_dev_secret_key /\
  sanctum_dev_public_key s' = _sanctum_dev_public_key /\
  sanctum_dev_secret_key s' = 0 :: drop 1 _sanctum_dev_secret_key.
Proof. apply bootloader_spec. Qed.

(** ** Witness *)

#[local] Instance demo_keys : KeyPairs := {
  create_keypair seed := (replicate 32 1, replicate 64 2);
  sign _ _ _ := replicate 64 3
}.

Definition demo_boot : boot_state :=
  mkBoot sanctum_sm_size_init (replicate 32 0) (replicate 64 0) (replicate 64 0) (replicate 32 0) (replicate 64 0) (replicate 64 0)
    (replicate 128 0) (fun a => a mod 256).

Lemma bootloader_correct_witness :
  sanctum_dev_secret_key (bootloader demo_boot) = 0 :: drop 1 _sanctum_dev_secret_key /\
  sanctum_sm_hash (bootloader demo_boot) = sm_measurement demo_boot.
Proof.
  destruct (bootloader_correct demo_boot) as (E1 & _ & _ & _ & E2).
  - split; try done. intros a. unfold is_u8. cbn [dram demo_boot]. apply Z.mod_pos_bound. lia.
  - split; done.
  - split; [exact E2|exact E1].
Defined.
