(* ===== verification/Sha256.v ===== *)
(** * SHA-256 ([runtime/crypto/sha256.c])

    The hash of the pages that the runtime keeps in untrusted memory: the code with
    its 64-byte buffer, and SHA-256 of FIPS 180-4 as the reference, with the round
    constants and the initial value derived from the primes. *)

From S2P Require Import Prelude Mem.
From Stdlib Require Import ZArith Lia.
From stdpp Require Import base tactics list list_numbers numbers.
Local Open Scope Z_scope.
Local Open Scope keystone_scope.

(** ** The code *)

(** [WORD] is 32 bits wide; shifts to the left drop the high bits. *)
Definition ROTRIGHT (a b : Z) : Z := Z.lor (Z.shiftr a b) (u32 (Z.shiftl a (32 - b))).
Definition CH (x y z : Z) : Z := Z.lxor (Z.land x y) (Z.land (not32 x) z).
Definition MAJ (x y z : Z) : Z := Z.lxor (Z.lxor (Z.land x y) (Z.land x z)) (Z.land y z).
Definition EP0 (x : Z) : Z := Z.lxor (Z.lxor (ROTRIGHT x 2) (ROTRIGHT x 13)) (ROTRIGHT x 22).
Definition EP1 (x : Z) : Z := Z.lxor (Z.lxor (ROTRIGHT x 6) (ROTRIGHT x 11)) (ROTRIGHT x 25).
Definition SIG0 (x : Z) : Z := Z.lxor (Z.lxor (ROTRIGHT x 7) (ROTRIGHT x 18)) (Z.shiftr x 3).
Definition SIG1 (x : Z) : Z := Z.lxor (Z.lxor (ROTRIGHT x 17) (ROTRIGHT x 19)) (Z.shiftr x 10).

(** The sixteen rows of four of the table [k]. *)
Definition sha256_k : list Z := concat [
  [0x428a2f98; 0x71374491; 0xb5c0fbcf; 0xe9b5dba5];
  [0x3956c25b; 0x59f111f1; 0x923f82a4; 0xab1c5ed5];
  [0xd807aa98; 0x12835b01; 0x243185be; 0x550c7dc3];
  [0x72be5d74; 0x80deb1fe; 0x9bdc06a7; 0xc19bf174];
  [0xe49b69c1; 0xefbe4786; 0x0fc19dc6; 0x240ca1cc];
  [0x2de92c6f; 0x4a7484aa; 0x5cb0a9dc; 0x76f988da];
  [0x983e5152; 0xa831c66d; 0xb00327c8; 0xbf597fc7];
  [0xc6e00bf3; 0xd5a79147; 0x06ca6351; 0x14292967];
  [0x27b70a85; 0x2e1b2138; 0x4d2c6dfc; 0x53380d13];
  [0x650a7354; 0x766a0abb; 0x81c2c92e; 0x92722c85];
  [0xa2bfe8a1; 0xa81a664b; 0xc24b8b70; 0xc76c51a3];
  [0xd192e819; 0xd6990624; 0xf40e3585; 0x106aa070];
  [0x19a4c116; 0x1e376c08; 0x2748774c; 0x34b0bcb5];
  [0x391c0cb3; 0x4ed8aa4a; 0x5b9cca4f; 0x682e6ff3];
  [0x748f82ee; 0x78a5636f; 0x84c87814; 0x8cc70208];
  [0x90befffa; 0xa4506ceb; 0xbef9a3f7; 0xc67178f2]].

Record SHA256_CTX : Type := mkSha256 { s_data : list Z; s_datalen : Z; s_bitlen : Z; s_state : list Z }.

(** Word [i] of an array. *)
Definition wnth (l : list Z) (i : nat) : Z := nth i l 0.

(** [(data[j] << 24) | (data[j + 1] << 16) | (data[j + 2] << 8) | data[j + 3]] *)
Definition be_word (data : list Z) (j : nat) : Z :=
  Z.lor (Z.lor (Z.lor (Z.shiftl (wnth data j) 24) (Z.shiftl (wnth data (j + 1)) 16))
    (Z.shiftl (wnth data (j + 2)) 8)) (wnth data (j + 3)).

(** The array [m], its entries filled from index 0 up. *)
Definition sha256_m (data : list Z) : list Z :=
  let m := map (fun i => u32 (be_word data (4 * i))) (seq 0 16) in
  fold_left (fun m i =>
    m ++ [u32 (SIG1 (wnth m (i - 2)) + wnth m (i - 7) + SIG0 (wnth m (i - 15)) + wnth m (i - 16))])
    (seq 16 48) m.

(** The eight working variables and one round. *)
Record vars : Type := mkVars { va : Z; vb : Z; vc : Z; vd : Z; ve : Z; vf : Z; vg : Z; vh : Z }.

Definition sha256_round (m : list Z) (v : vars) (i : nat) : vars :=
  let t1 := u32 (vh v + EP1 (ve v) + CH (ve v) (vf v) (vg v) + wnth sha256_k i + wnth m i) in
  let t2 := u32 (EP0 (va v) + MAJ (va v) (vb v) (vc v)) in
  mkVars (u32 (t1 + t2)) (va v) (vb v) (vc v) (u32 (vd v + t1)) (ve v) (vf v) (vg v).

Definition sha256_transform (ctx : SHA256_CTX) : SHA256_CTX :=
  let m := sha256_m (s_data ctx) in
  let st := s_state ctx in
  let v := fold_left (sha256_round m) (seq 0 64)
    (mkVars (wnth st 0) (wnth st 1) (wnth st 2) (wnth st 3) (wnth st 4) (wnth st 5) (wnth st 6) (wnth st 7)) in
  mkSha256 (s_data ctx) (s_datalen ctx) (s_bitlen ctx)
    [u32 (wnth st 0 + va v); u32 (wnth st 1 + vb v); u32 (wnth st 2 + vc v); u32 (wnth st 3 + vd v);
     u32 (wnth st 4 + ve v); u32 (wnth st 5 + vf v); u32 (wnth st 6 + vg v); u32 (wnth st 7 + vh v)].

(** [sha256_init] leaves the buffer as it is. *)
Definition sha256_init (ctx : SHA256_CTX) : SHA256_CTX :=
  mkSha256 (s_data ctx) 0 0
    [0x6a09e667; 0xbb67ae85; 0x3c6ef372; 0xa54ff53a; 0x510e527f; 0x9b05688c; 0x1f83d9ab; 0x5be0cd19].

Definition set_data (i : Z) (b : Z) (ctx : SHA256_CTX) : SHA256_CTX :=
  mkSha256 (aset (s_data ctx) i b) (s_datalen ctx) (s_bitlen ctx) (s_state ctx).

Definition sha256_byte (ctx : SHA256_CTX) (b : Z) : SHA256_CTX :=
  let ctx := set_data (s_datalen ctx) b ctx in
  let ctx := mkSha256 (s_data ctx) (u32 (s_datalen ctx + 1)) (s_bitlen ctx) (s_state ctx) in
  if s_datalen ctx =? 64 then
    let ctx := sha256_transform ctx in
    mkSha256 (s_data ctx) 0 (u64 (s_bitlen ctx + 512)) (s_state ctx)
  else ctx.

(** [for (i = 0; i < len; ++i)]: the index is a [WORD] and wraps around at [2^32], the length is a [size_t].
    [Hang] stands for a loop that needs more than [fuel] rounds. *)
Fixpoint update_loop (fuel : nat) (i : Z) (ctx : SHA256_CTX) (data : list Z) : outcome SHA256_CTX :=
  match fuel with
  | O => Hang
  | S fuel =>
      if i <? Z.of_nat (length data) then update_loop fuel (u32 (i + 1)) (sha256_byte ctx (nth (Z.to_nat i) data 0)) data
      else Ok ctx
  end.

Definition sha256_update (ctx : SHA256_CTX) (data : list Z) : outcome SHA256_CTX :=
  update_loop (S (length data)) 0 ctx data.

(** The context [sha256_update] leaves when it returns, which it does for buffers of fewer than [2^32] bytes
    ([sha256_update_feed]); the callers of the runtime pass buffers of 8, 32 and 4096 bytes. *)
Definition sha256_feed (ctx : SHA256_CTX) (data : list Z) : SHA256_CTX := fold_left sha256_byte data ctx.

(** [while (i < stop) data[i++] = 0x00;] *)
Definition zero_data (i stop : nat) (ctx : SHA256_CTX) : SHA256_CTX :=
  fold_left (fun c j => set_data (Z.of_nat j) 0 c) (seq i (stop - i)) ctx.

Definition sha256_final (ctx : SHA256_CTX) : list Z :=
  let i := Z.to_nat (s_datalen ctx) in
  let ctx :=
    if s_datalen ctx <? 56 then zero_data (S i) 56 (set_data (Z.of_nat i) 0x80 ctx)
    else zero_data 0 56 (sha256_transform (zero_data (S i) 64 (set_data (Z.of_nat i) 0x80 ctx))) in
  let bitlen := u64 (s_bitlen ctx + u32 (s_datalen ctx * 8)) in
  let ctx := mkSha256 (s_data ctx) (s_datalen ctx) bitlen (s_state ctx) in
  let ctx := fold_left (fun c j => set_data (63 - j) (u8 (Z.shiftr bitlen (8 * j))) c) (indices 8) ctx in
  let ctx := sha256_transform ctx in
  (* byte [4 w + i] of the hash is byte [3 - i] of word [w] *)
  flat_map (fun w => map (fun i => Z.land (Z.shiftr w (24 - i * 8)) 0xff) (indices 4)) (s_state ctx).

(** ** FIPS 180-4 *)

Module Fips180.

(** Rotation of a 32-bit word to the right. *)
Definition ROTR (n x : Z) : Z := x mod 2 ^ n * 2 ^ (32 - n) + x / 2 ^ n.
Definition SHR (n x : Z) : Z := x / 2 ^ n.
Definition Ch (x y z : Z) : Z := Z.lxor (Z.land x y) (Z.land (2 ^ 32 - 1 - x) z).
Definition Maj (x y z : Z) : Z := Z.lxor (Z.lxor (Z.land x y) (Z.land x z)) (Z.land y z).
Definition Sigma0 (x : Z) : Z := Z.lxor (Z.lxor (ROTR 2 x) (ROTR 13 x)) (ROTR 22 x).
Definition Sigma1 (x : Z) : Z := Z.lxor (Z.lxor (ROTR 6 x) (ROTR 11 x)) (ROTR 25 x).
Definition sigma0 (x : Z) : Z := Z.lxor (Z.lxor (ROTR 7 x) (ROTR 18 x)) (SHR 3 x).
Definition sigma1 (x : Z) : Z := Z.lxor (Z.lxor (ROTR 17 x) (ROTR 19 x)) (SHR 10 x).

(** The first [n] primes, by trial division. *)
Definition is_prime (n : Z) : bool := forallb (fun d => negb (n mod d =? 0)) (seqZ 2 (n - 2)).
Definition primes (n : nat) : list Z := take n (filter (fun p => is_prime p = true) (seqZ 2 400)).

(** The largest [r] with [r ^ 3 <= n], bit by bit from [2^k]. *)
Fixpoint cbrt_from (k : nat) (r n : Z) : Z :=
  let r' := if (r + 2 ^ Z.of_nat k) ^ 3 <=? n then r + 2 ^ Z.of_nat k else r in
  match k with
  | O => r'
  | S k => cbrt_from k r' n
  end.

(** The first 32 bits of the fractional parts of the cube roots of the first 64
    primes, and of the square roots of the first eight. *)
Definition K : list Z := map (fun p => cbrt_from 40 0 (p * 2 ^ 96) mod 2 ^ 32) (primes 64).
Definition H0 : list Z := map (fun p => Z.sqrt (p * 2 ^ 64) mod 2 ^ 32) (primes 8).

(** The message schedule of a block of sixteen words. *)
Fixpoint W (fuel : nat) (block : list Z) (t : nat) : Z :=
  if (t <? 16)%nat then nth t block 0
  else match fuel with
       | O => 0
       | S fuel => (sigma1 (W fuel block (t - 2)) + W fuel block (t - 7) +
                    sigma0 (W fuel block (t - 15)) + W fuel block (t - 16)) mod 2 ^ 32
       end.

Definition round (block : list Z) (v : vars) (t : nat) : vars :=
  let T1 := (vh v + Sigma1 (ve v) + Ch (ve v) (vf v) (vg v) + nth t K 0 + W t block t) mod 2 ^ 32 in
  let T2 := (Sigma0 (va v) + Maj (va v) (vb v) (vc v)) mod 2 ^ 32 in
  mkVars ((T1 + T2) mod 2 ^ 32) (va v) (vb v) (vc v) ((vd v + T1) mod 2 ^ 32) (ve v) (vf v) (vg v).

Definition to_vars (H : list Z) : vars :=
  mkVars (nth 0 H 0) (nth 1 H 0) (nth 2 H 0) (nth 3 H 0) (nth 4 H 0) (nth 5 H 0) (nth 6 H 0) (nth 7 H 0).
Definition of_vars (v : vars) : list Z := [va v; vb v; vc v; vd v; ve v; vf v; vg v; vh v].

Definition compress (H block : list Z) : list Z :=
  zip_with (fun a b => (a + b) mod 2 ^ 32) H (of_vars (fold_left (round block) (seq 0 64) (to_vars H))).

(** Big-endian words of bytes and bytes of words. *)
Definition be_value (b : list Z) : Z := fold_left (fun acc d => 256 * acc + d) b 0.
Definition be_bytes (n : nat) (w : Z) : list Z := map (fun i => w / 256 ^ (Z.of_nat (n - 1 - i)) mod 256) (seq 0 n).
Definition block_words (b : list Z) : list Z := map (fun i => be_value (take 4 (drop (4 * i) b))) (seq 0 16).

Definition pad (msg : list Z) : list Z :=
  let n := Z.of_nat (length msg) in
  msg ++ [0x80] ++ replicate (Z.to_nat ((55 - n) mod 64)) 0 ++ be_bytes 8 (8 * n).

(** The intermediate hash value after [n] blocks of a padded message. *)
Definition chain (p : list Z) (n : nat) : list Z :=
  fold_left (fun H i => compress H (block_words (take 64 (drop (64 * i) p)))) (seq 0 n) H0.

Definition SHA256 (msg : list Z) : list Z :=
  let p := pad msg in flat_map (be_bytes 4) (chain p (length p / 64)).

End Fips180.

(** ** Word operations *)

Import Fips180.

Definition words (l : list Z) : Prop := Forall is_u32 l.

Lemma ROTRIGHT_ROTR n x : is_u32 x -> 0 < n < 32 -> ROTRIGHT x n = ROTR n x.
Proof.
  intros Hx Hn. unfold ROTRIGHT, ROTR, is_u32, u32 in *. rewrite Z.shiftr_div_pow2, Z.shiftl_mul_pow2 by lia.
  assert (2 ^ 32 = 2 ^ n * 2 ^ (32 - n)) as Hp by (rewrite <- Z.pow_add_r by lia; f_equal; lia).
  rewrite Hp, Zmult_mod_distr_r, Z.lor_comm. apply (lor_add _ _ (32 - n)); [lia| |].
  - split; [apply Z.div_pos; lia|]. apply Z.div_lt_upper_bound; lia.
  - apply Z.mod_mul. lia.
Qed.

Lemma ROTR_u32 n x : is_u32 x -> 0 < n < 32 -> is_u32 (ROTR n x).
Proof.
  intros Hx Hn. unfold ROTR, is_u32 in *.
  assert (2 ^ 32 = 2 ^ n * 2 ^ (32 - n)) as Hp by (rewrite <- Z.pow_add_r by lia; f_equal; lia).
  assert (0 <= x mod 2 ^ n < 2 ^ n) by (apply Z.mod_pos_bound; lia).
  assert (0 <= x / 2 ^ n < 2 ^ (32 - n)) by (split; [apply Z.div_pos; lia|apply Z.div_lt_upper_bound; lia]).
  nia.
Qed.

(** The code's functions on words are the standard's. *)
Lemma functions_spec x : is_u32 x ->
  EP0 x = Sigma0 x /\ EP1 x = Sigma1 x /\ SIG0 x = sigma0 x /\ SIG1 x = sigma1 x.
Proof.
  intros Hx. unfold EP0, EP1, SIG0, SIG1, Sigma0, Sigma1, sigma0, sigma1, SHR.
  by rewrite !ROTRIGHT_ROTR, !Z.shiftr_div_pow2 by (done || lia).
Qed.

Lemma k_K : sha256_k = K.
Proof. vm_compute. reflexivity. Qed.

Lemma init_H0 ctx : s_state (sha256_init ctx) = H0.
Proof. vm_compute. reflexivity. Qed.

Lemma u32_range x : is_u32 (u32 x).
Proof. apply Z.mod_pos_bound. lia. Qed.
#[export] Hint Resolve u32_range : keystone.

Lemma wnth_u32 l i : words l -> is_u32 (wnth l i).
Proof.
  intros Hl. unfold wnth. rewrite nth_lookup. destruct (l !! i) eqn:E; [|done]. by eapply Forall_lookup_1.
Qed.

Lemma wnth_app_l l k i : (i < length l)%nat -> wnth (l ++ k) i = wnth l i.
Proof. apply app_nth1. Qed.

Lemma wnth_app_r l x : wnth (l ++ [x]) (length l) = x.
Proof. unfold wnth. rewrite app_nth2 by lia. by rewrite Nat.sub_diag. Qed.

(** ** One block *)

Lemma wnth_lookup l i : (i < length l)%nat -> l !! i = Some (wnth l i).
Proof. intros Hi. unfold wnth. destruct (nth_lookup_or_length l i 0); [done|lia]. Qed.

Lemma take_4 data j : (j + 3 < length data)%nat ->
  take 4 (drop j data) = [wnth data j; wnth data (j + 1); wnth data (j + 2); wnth data (j + 3)].
Proof.
  intros Hj. replace (j + 1)%nat with (S j) by lia. replace (j + 2)%nat with (S (S j)) by lia.
  replace (j + 3)%nat with (S (S (S j))) by lia.
  rewrite (drop_S _ _ _ (wnth_lookup data j ltac:(lia))), (drop_S _ _ _ (wnth_lookup data (S j) ltac:(lia))),
    (drop_S _ _ _ (wnth_lookup data (S (S j)) ltac:(lia))), (drop_S _ _ _ (wnth_lookup data (S (S (S j))) ltac:(lia))).
  done.
Qed.

Lemma be_word_spec data j : Forall is_u8 data -> (j + 3 < length data)%nat ->
  be_word data j = be_value (take 4 (drop j data)) /\ is_u32 (be_word data j).
Proof.
  intros Hd Hj. assert (forall i, (i < length data)%nat -> is_u8 (wnth data i)) as Hb.
  { intros i Hi. eapply Forall_lookup_1; [exact Hd|]. by apply wnth_lookup. }
  rewrite take_4 by done. unfold be_word. cbn [be_value fold_left].
  pose proof (Hb j ltac:(lia)). pose proof (Hb (j + 1)%nat ltac:(lia)).
  pose proof (Hb (j + 2)%nat ltac:(lia)). pose proof (Hb (j + 3)%nat ltac:(lia)). unfold is_u8 in *.
  rewrite !Z.shiftl_mul_pow2 by lia.
  rewrite (lor_add _ (_ * 2 ^ 16) 24), (lor_add _ (_ * 2 ^ 8) 16), (lor_add _ _ 8) by (lia || mlia).
  split; [lia|unfold is_u32; lia].
Qed.

Lemma be_words_spec data : Forall is_u8 data -> length data = 64%nat ->
  map (fun i => u32 (be_word data (4 * i))) (seq 0 16) = block_words data /\ words (block_words data).
Proof.
  intros Hd Hl. assert (forall i, (i < 16)%nat ->
    be_word data (4 * i) = be_value (take 4 (drop (4 * i) data)) /\ is_u32 (be_word data (4 * i))) as Hw.
  { intros i Hi. apply be_word_spec; [done|lia]. }
  unfold block_words. split.
  - apply map_ext_in. intros i [_ Hi]%in_seq. destruct (Hw i Hi) as [<- ?]. by apply u32_id.
  - apply Forall_fmap, Forall_seq. intros i Hi. change (is_u32 (be_value (take 4 (drop (4 * i) data)))). destruct (Hw i ltac:(lia)) as [<- ?]. done.
Qed.

(** The schedule does not depend on spare fuel. *)
Lemma W_fuel b f t : (t <= f)%nat -> W f b t = W t b t.
Proof.
  revert t. induction f as [f IH] using lt_wf_ind. intros t Ht.
  destruct (Nat.ltb_spec t 16) as [H16|H16].
  - apply Nat.ltb_lt in H16 as E. by destruct f, t; cbn [W]; rewrite ?E.
  - destruct f as [|f]; [lia|]. destruct t as [|t]; [lia|]. cbn [W].
    rewrite (proj2 (Nat.ltb_ge (S t) 16)) by done.
    rewrite !(IH f) by lia. rewrite !(IH t) by lia. done.
Qed.

Lemma W_step b t : (16 <= t)%nat -> W t b t =
  (sigma1 (W (t - 2) b (t - 2)) + W (t - 7) b (t - 7) + sigma0 (W (t - 15) b (t - 15)) + W (t - 16) b (t - 16)) mod 2 ^ 32.
Proof.
  intros Ht. destruct t as [|t]; [lia|]. cbn [W]. rewrite (proj2 (Nat.ltb_ge (S t) 16)) by done.
  rewrite !(W_fuel b t) by lia. done.
Qed.

Lemma schedule_spec b n : words b -> length b = 16%nat ->
  let m := fold_left (fun m i =>
    m ++ [u32 (SIG1 (wnth m (i - 2)) + wnth m (i - 7) + SIG0 (wnth m (i - 15)) + wnth m (i - 16))]) (seq 16 n) b in
  length m = (16 + n)%nat /\ words m /\ forall t, (t < 16 + n)%nat -> wnth m t = W t b t.
Proof.
  intros Hb Hl. induction n as [|n IH].
  - cbn [seq fold_left]. split_and!; [lia|done|]. intros t Ht. unfold wnth.
    destruct t; cbn [W]; [done|]. by rewrite (proj2 (Nat.ltb_lt (S t) 16)) by lia.
  - rewrite seq_S, fold_left_app. cbn [fold_left]. destruct IH as (IH1 & IH2 & IH3).
    set (m := fold_left _ _ b) in *. split_and!.
    + rewrite length_app, IH1. simpl. lia.
    + apply Forall_app. split; [done|]. apply Forall_singleton. apply u32_range.
    + intros t Ht. destruct (decide (t < 16 + n)%nat).
      * rewrite wnth_app_l by lia. by apply IH3.
      * replace t with (16 + n)%nat by lia. set (x := u32 _). rewrite <- IH1 at 1. rewrite wnth_app_r, W_step by lia. subst x.
        destruct (functions_spec (wnth m (16 + n - 2)) (wnth_u32 _ _ IH2)) as (_ & _ & _ & ->).
        destruct (functions_spec (wnth m (16 + n - 15)) (wnth_u32 _ _ IH2)) as (_ & _ & -> & _).
        rewrite !IH3 by lia. reflexivity.
Qed.

Definition vars_ok (v : vars) : Prop := words (of_vars v).

Lemma round_ok data v i : Forall is_u8 data -> length data = 64%nat -> vars_ok v -> (i < 64)%nat ->
  sha256_round (sha256_m data) v i = round (block_words data) v i /\ vars_ok (round (block_words data) v i).
Proof.
  intros Hd Hl Hv Hi. destruct (be_words_spec data Hd Hl) as [E Hw].
  destruct (schedule_spec (block_words data) 48 Hw eq_refl) as (_ & _ & Hm).
  unfold sha256_round, sha256_m. rewrite E, Hm by lia. unfold round.
  unfold vars_ok, of_vars, words in Hv. rewrite !Forall_cons_iff in Hv. destruct Hv as (H1 & H2 & H3 & H4 & H5 & H6 & H7 & H8 & _).
  destruct (functions_spec _ H1) as (-> & _). destruct (functions_spec _ H5) as (_ & -> & _).
  unfold wnth. rewrite k_K. split; [done|]. unfold vars_ok, of_vars.
  repeat apply Forall_cons; try done; apply u32_range.
Qed.

Lemma compress_words H b : words (compress H b).
Proof. unfold compress. apply Forall_lookup. intros i x Hx. apply lookup_zip_with_Some in Hx as (? & ? & -> & _). apply u32_range. Qed.

Lemma compress_length H b : length H = 8%nat -> length (compress H b) = 8%nat.
Proof. intros Hl. unfold compress. rewrite length_zip_with. by rewrite Hl. Qed.

Lemma transform_spec ctx : Forall is_u8 (s_data ctx) -> length (s_data ctx) = 64%nat ->
  words (s_state ctx) -> length (s_state ctx) = 8%nat ->
  sha256_transform ctx =
    mkSha256 (s_data ctx) (s_datalen ctx) (s_bitlen ctx) (compress (s_state ctx) (block_words (s_data ctx))).
Proof.
  intros Hd Hl Hs Hls. unfold sha256_transform. f_equal. unfold compress. fold (to_vars (s_state ctx)).
  change (mkVars _ _ _ _ _ _ _ _) with (to_vars (s_state ctx)).
  destruct (fold_left_ext_inv vars_ok (fun i => (i < 64)%nat) (sha256_round (sha256_m (s_data ctx)))
    (round (block_words (s_data ctx))) (seq 0 64) (to_vars (s_state ctx))) as [-> _].
  - unfold vars_ok, of_vars, to_vars. cbn. repeat apply Forall_cons; try done; by apply wnth_u32.
  - apply Forall_seq. lia.
  - intros v i Hv Hi. by apply round_ok.
  - generalize (fold_left (round (block_words (s_data ctx))) (seq 0 64) (to_vars (s_state ctx))). intros v.
    destruct (s_state ctx) as [|a [|b [|c [|d [|e [|f [|g [|h [|]]]]]]]]]; try done.
Qed.

(** ** The buffer *)

#[local] Opaque H0 K compress.

(** Array writes of the buffer. *)
Lemma s_data_set i b ctx : s_data (set_data i b ctx) = aset (s_data ctx) i b.
Proof. reflexivity. Qed.

Lemma lookup_aset (l : list Z) (i j : nat) x : (i < length l)%nat ->
  aset l (Z.of_nat i) x !! j = if decide (i = j) then Some x else l !! j.
Proof.
  intros Hi. unfold aset. destruct (Z.ltb_spec (Z.of_nat i) 0); [lia|]. rewrite Nat2Z.id.
  case_decide; [subst; by apply list_lookup_insert_eq|by apply list_lookup_insert_ne].
Qed.

Lemma zero_data_spec i stop ctx :
  (stop <= length (s_data ctx))%nat ->
  let c := zero_data i stop ctx in
  length (s_data c) = length (s_data ctx) /\
  (forall j, s_data c !! j = if decide (i <= j < stop)%nat then Some 0 else s_data ctx !! j) /\
  s_datalen c = s_datalen ctx /\ s_bitlen c = s_bitlen ctx /\ s_state c = s_state ctx.
Proof.
  unfold zero_data. intros Hs. remember (stop - i)%nat as n eqn:En. revert i ctx Hs En.
  induction n as [|n IH]; intros i ctx Hs En; cbn [seq fold_left].
  - split_and!; try done. intros j. case_decide; [lia|done].
  - destruct (IH (S i) (set_data (Z.of_nat i) 0 ctx)) as (H1 & H2 & H3);
      [rewrite s_data_set, length_aset; lia|lia|].
    rewrite s_data_set, length_aset in H1. split_and!; [done| |apply H3..].
    intros j. rewrite H2, s_data_set, lookup_aset by lia. repeat case_decide; done || lia.
Qed.

(** What the context holds after the bytes [full ++ tail], [full] a whole number of
    blocks and [tail] less than one. *)
Record absorbed (full tail : list Z) (q : nat) (ctx : SHA256_CTX) : Prop := {
  ab_full : length full = (64 * q)%nat;
  ab_tail : (length tail < 64)%nat;
  ab_len : s_datalen ctx = Z.of_nat (length tail);
  ab_data : take (length tail) (s_data ctx) = tail;
  ab_size : length (s_data ctx) = 64%nat;
  ab_state : s_state ctx = chain full q;
  ab_bits : s_bitlen ctx = u64 (512 * Z.of_nat q)
}.

Lemma chain_app p r n : (64 * n <= length p)%nat -> chain (p ++ r) n = chain p n.
Proof.
  induction n as [|n IH]; intros Hn; [reflexivity|]. unfold chain. rewrite seq_S, !fold_left_app.
  fold (chain (p ++ r) n) (chain p n). rewrite IH by lia. cbn [fold_left].
  rewrite drop_app_le, take_app_le by (rewrite ?length_drop; lia). reflexivity.
Qed.

Lemma chain_snoc p blk n : length p = (64 * n)%nat -> length blk = 64%nat ->
  chain (p ++ blk) (S n) = compress (chain p n) (block_words blk).
Proof.
  intros Hp Hb. unfold chain. rewrite seq_S, fold_left_app. cbn [fold_left]. rewrite Nat.add_0_l.
  assert (take 64 (drop (64 * n) (p ++ blk)) = blk) as ->.
  { rewrite drop_app_ge, Hp by lia. rewrite Nat.sub_diag, drop_0. apply firstn_all2. lia. }
  fold (chain (p ++ blk) n). rewrite chain_app by lia. reflexivity.
Qed.

Lemma chain_ok p n : words (chain p n) /\ length (chain p n) = 8%nat.
Proof.
  unfold chain. apply (fold_left_ext_inv (fun H => words H /\ length H = 8%nat) (fun _ => True)
    (fun H i => compress H (block_words (take 64 (drop (64 * i) p))))
    (fun H i => compress H (block_words (take 64 (drop (64 * i) p)))) (seq 0 n) H0).
  - rewrite <- (init_H0 (mkSha256 [] 0 0 [])). split; [|done]. repeat apply Forall_cons; try done.
  - by apply Forall_true.
  - intros H i [_ Hl] _. split; [done|]. split; [apply compress_words|by apply compress_length].
Qed.

Lemma take_S_aset (l tail : list Z) b : (length tail < length l)%nat -> take (length tail) l = tail ->
  take (S (length tail)) (aset l (Z.of_nat (length tail)) b) = tail ++ [b].
Proof.
  intros Hl Ht. erewrite take_S_r by (rewrite lookup_aset by done; by rewrite decide_True).
  f_equal. rewrite <- Ht at 3. unfold aset. destruct (Z.ltb_spec (Z.of_nat (length tail)) 0); [lia|].
  rewrite Nat2Z.id. apply take_insert_ge. lia.
Qed.

Lemma byte_step full tail q ctx b : absorbed full tail q ctx -> Forall is_u8 (tail ++ [b]) ->
  let ctx' := sha256_byte ctx b in
  absorbed full (tail ++ [b]) q ctx' \/ absorbed (full ++ tail ++ [b]) [] (S q) ctx'.
Proof.
  intros [A1 A2 A3 A4 A5 A6 A7] Hu. unfold sha256_byte. cbn [s_datalen s_data s_bitlen s_state set_data].
  rewrite A3. rewrite u32_id by (unfold is_u32; lia).
  pose proof (take_S_aset (s_data ctx) tail b ltac:(lia) A4) as Ht.
  destruct (Z.eqb_spec (Z.of_nat (length tail) + 1) 64) as [E|E].
  - right. assert (aset (s_data ctx) (Z.of_nat (length tail)) b = tail ++ [b]) as ->.
    { rewrite <- Ht. symmetry. apply firstn_all2. rewrite length_aset. lia. }
    assert (length (tail ++ [b]) = 64%nat) as Hl by (rewrite length_app; simpl; lia).
    rewrite transform_spec; cbn [s_data s_state s_bitlen s_datalen];
      [|done|done|rewrite A6; apply chain_ok..].
    split; cbn [s_data s_state s_bitlen s_datalen length]; try done; try lia.
    + rewrite length_app, Hl, A1. lia.
    + rewrite A6. symmetry. by apply chain_snoc.
    + rewrite A7. unfold u64. rewrite Zplus_mod_idemp_l. f_equal. lia.
  - left. split; cbn [s_data s_state s_bitlen s_datalen]; try done; rewrite ?length_app, ?length_aset; simpl; try lia.
    by rewrite Nat.add_1_r.
Qed.

Lemma update_absorbed msg ctx full tail q : absorbed full tail q ctx -> Forall is_u8 (tail ++ msg) ->
  exists full' tail' q', absorbed full' tail' q' (sha256_feed ctx msg) /\
    full' ++ tail' = full ++ tail ++ msg /\ Forall is_u8 tail'.
Proof.
  unfold sha256_feed. revert ctx full tail q. induction msg as [|b msg IH]; intros ctx full tail q Ha Hu.
  - exists full, tail, q. rewrite app_nil_r in *. done.
  - cbn [fold_left]. rewrite cons_middle, app_assoc in Hu. pose proof Hu as [Hu1 Hu2]%Forall_app.
    destruct (byte_step full tail q ctx b Ha Hu1) as [H1|H1].
    + destruct (IH _ _ _ _ H1 Hu) as (f' & t' & q' & H2 & E & H3). exists f', t', q'. split; [done|].
      split; [|done]. by rewrite E, <- app_assoc.
    + destruct (IH _ _ _ _ H1 Hu2) as (f' & t' & q' & H2 & E & H3). exists f', t', q'. split; [done|].
      split; [|done]. by rewrite E, <- !app_assoc.
Qed.

(** ** Padding *)

Lemma byte_at v j : 0 <= j -> u8 (Z.shiftr v (8 * j)) = v / 256 ^ j mod 256.
Proof.
  intros Hj. unfold u8. rewrite Z.shiftr_div_pow2, Z.pow_mul_r by lia. done.
Qed.

(** Bytes of a word that is cut off above them. *)
Lemma byte_mod v j n : 0 <= j < n -> (v mod 256 ^ n) / 256 ^ j mod 256 = v / 256 ^ j mod 256.
Proof.
  intros Hj. assert (256 ^ n = 256 ^ j * (256 * 256 ^ (n - j - 1))) as Hp.
  { rewrite <- Z.pow_succ_r, <- Z.pow_add_r by lia. f_equal. lia. }
  rewrite Hp, Z.rem_mul_r, (Z.mul_comm (256 ^ j)), Z.div_add, Z.div_small, Z.add_0_l by (try apply Z.mod_pos_bound; lia).
  rewrite Z.rem_mul_r, (Z.mul_comm 256), Z.mod_add by lia. apply Z.mod_mod. lia.
Qed.

Lemma length_written ctx v : length (s_data ctx) = 64%nat ->
  let c := fold_left (fun c j => set_data (63 - j) (u8 (Z.shiftr v (8 * j))) c) (indices 8) ctx in
  c = mkSha256 (take 56 (s_data ctx) ++ be_bytes 8 v) (s_datalen ctx) (s_bitlen ctx) (s_state ctx).
Proof.
  intros Hl. change (indices 8) with (map Z.of_nat (seq 0 8)). cbn [seq map fold_left]. unfold set_data.
  cbn [s_data s_datalen s_bitlen s_state]. f_equal.
  rewrite !byte_at by lia. apply list_eq. intros j. unfold be_bytes. cbn [seq map Nat.sub].
  repeat match goal with |- context [63 - Z.of_nat ?k] =>
    replace (63 - Z.of_nat k) with (Z.of_nat (63 - k)) by lia end.
  rewrite !lookup_aset by (rewrite ?length_aset; lia). cbn [Nat.sub].
  destruct (decide (j < 56)%nat).
  - rewrite lookup_app_l, lookup_take_lt by (rewrite ?length_take; lia). repeat (case_decide; [lia|]). done.
  - rewrite lookup_app_r by (rewrite length_take; lia). rewrite length_take, Hl. change (56 `min` 64)%nat with 56%nat.
    destruct (decide (j < 64)%nat).
    + assert (exists i, (i < 8)%nat /\ j = (56 + i)%nat) as (i & Hi & ->) by (exists (j - 56)%nat; lia).
      replace (56 + i - 56)%nat with i by lia. do 8 (destruct i as [|i]; [done|]). lia.
    + repeat (case_decide; [lia|]). rewrite !lookup_ge_None_2; [done|simpl; lia|lia].
Qed.

(** The end mark and the zeros after it. *)
Lemma marked full tail q ctx stop : absorbed full tail q ctx -> (length tail < stop <= 64)%nat ->
  let c := zero_data (S (length tail)) stop (set_data (Z.of_nat (length tail)) 0x80 ctx) in
  take stop (s_data c) = tail ++ 0x80 :: replicate (stop - S (length tail)) 0 /\ length (s_data c) = 64%nat /\
  s_datalen c = s_datalen ctx /\ s_bitlen c = s_bitlen ctx /\ s_state c = s_state ctx.
Proof.
  intros [A1 A2 A3 A4 A5 A6 A7] Hs c.
  destruct (zero_data_spec (S (length tail)) stop (set_data (Z.of_nat (length tail)) 0x80 ctx)) as (Z1 & Z2 & Z3);
    [rewrite s_data_set, length_aset; lia|]. fold c in Z1, Z2, Z3. rewrite s_data_set, length_aset in Z1.
  split; [|split; [lia|done]]. apply list_eq. intros j. destruct (decide (j < stop)%nat).
  2: { rewrite !lookup_ge_None_2; [done|rewrite length_app; cbn [length]; rewrite length_replicate; lia|rewrite length_take; lia]. }
  rewrite lookup_take_lt, Z2, s_data_set, lookup_aset by lia. destruct (decide (j < length tail)%nat).
  - rewrite lookup_app_l by lia. rewrite decide_False, decide_False by lia. rewrite <- (lookup_take_lt (s_data ctx) (length tail)) by lia. by rewrite A4.
  - rewrite lookup_app_r by lia. destruct (decide (j = length tail)) as [->|].
    + rewrite Nat.sub_diag, decide_False, decide_True by lia. reflexivity.
    + rewrite decide_True by lia. replace (j - length tail)%nat with (S (j - S (length tail))) by lia.
      symmetry. apply (lookup_replicate_2 (stop - S (length tail)) 0). lia.
Qed.

Lemma be_bytes_length n v : length (be_bytes n v) = n.
Proof. unfold be_bytes. by rewrite length_map, length_seq. Qed.

Lemma be_bytes_u8 n v : Forall is_u8 (be_bytes n v).
Proof. apply Forall_fmap, Forall_true. intros i. apply Z.mod_pos_bound. lia. Qed.

Lemma be_bytes_bits v : be_bytes 8 (u64 v) = be_bytes 8 v.
Proof.
  unfold be_bytes. apply map_ext_in. intros i Hi%in_seq. apply (byte_mod v (Z.of_nat (8 - 1 - i)) 8). lia.
Qed.

Lemma hash_bytes l :
  flat_map (fun w => map (fun i => Z.land (Z.shiftr w (24 - i * 8)) 0xff) (indices 4)) l = flat_map (be_bytes 4) l.
Proof.
  apply flat_map_ext. intros w. change (indices 4) with (map Z.of_nat (seq 0 4)). rewrite map_map.
  unfold be_bytes. apply map_ext_in. intros i Hi%in_seq. change 0xff with (2 ^ 8 - 1).
  rewrite land_pow2_sub1, Z.shiftr_div_pow2 by lia. change 256 with (2 ^ 8). rewrite <- Z.pow_mul_r by lia.
  do 3 f_equal. lia.
Qed.

(** The last block: what is in the buffer, and the length in the last eight bytes. *)
Lemma finish ctx p n v : Forall is_u8 (take 56 (s_data ctx)) -> length (s_data ctx) = 64%nat ->
  length p = (64 * n)%nat -> s_state ctx = chain p n ->
  s_state (sha256_transform (fold_left (fun c j => set_data (63 - j) (u8 (Z.shiftr v (8 * j))) c) (indices 8) ctx)) =
    chain (p ++ take 56 (s_data ctx) ++ be_bytes 8 v) (S n).
Proof.
  intros Hu Hl Hp Hs. rewrite length_written by done.
  assert (length (take 56 (s_data ctx) ++ be_bytes 8 v) = 64%nat) as Hl'.
  { rewrite length_app, be_bytes_length, length_take. lia. }
  rewrite transform_spec; cbn [s_data s_state].
  - rewrite Hs. symmetry. by apply chain_snoc.
  - apply Forall_app. split; [done|apply be_bytes_u8].
  - done.
  - rewrite Hs. apply chain_ok.
  - rewrite Hs. apply chain_ok.
Qed.

Lemma mark_u8 tail n : Forall is_u8 tail -> Forall is_u8 (tail ++ 0x80 :: replicate n 0).
Proof. intros Ht. apply Forall_app. split; [done|]. apply Forall_cons; [done|]. by apply Forall_replicate. Qed.

Lemma final_spec full tail q ctx : absorbed full tail q ctx -> Forall is_u8 tail ->
  sha256_final ctx = SHA256 (full ++ tail).
Proof.
  intros Ha Hu. pose proof Ha as [A1 A2 A3 A4 A5 A6 A7]. unfold sha256_final. rewrite A3, Nat2Z.id, hash_bytes.
  unfold SHA256. f_equal. unfold pad. rewrite length_app, A1.
  set (v := 8 * Z.of_nat (64 * q + length tail)).
  assert (forall c, s_datalen c = s_datalen ctx -> s_bitlen c = s_bitlen ctx ->
    u64 (s_bitlen c + u32 (s_datalen c * 8)) = u64 v) as Hv.
  { intros c -> ->. rewrite A3, A7, u32_id by (unfold is_u32; lia). unfold u64. rewrite Zplus_mod_idemp_l. f_equal. lia. }
  destruct (Z.ltb_spec (Z.of_nat (length tail)) 56) as [H56|H56].
  - destruct (marked full tail q ctx 56 Ha ltac:(lia)) as (M1 & M2 & M3 & M4 & M5).
    set (c := zero_data _ _ _) in *. rewrite Hv by done.
    rewrite (finish _ full q); cbn [s_data s_state]; [|rewrite M1; by apply mark_u8|done|done|by rewrite M5].
    rewrite M1, be_bytes_bits. replace (Z.to_nat ((55 - Z.of_nat (64 * q + length tail)) mod 64)) with (56 - S (length tail))%nat by mlia.
    replace (full ++ (tail ++ 128 :: replicate (56 - S (length tail)) 0) ++ be_bytes 8 v)
      with ((full ++ tail) ++ [128] ++ replicate (56 - S (length tail)) 0 ++ be_bytes 8 v)
      by (by rewrite <- !app_assoc).
    f_equal. rewrite !length_app, be_bytes_length, length_replicate, A1. cbn [length].
    apply Nat.div_unique with (r := 0%nat); lia.
  - destruct (marked full tail q ctx 64 Ha ltac:(lia)) as (M1 & M2 & M3 & M4 & M5).
    set (c := zero_data _ _ (set_data _ _ _)) in *. rewrite firstn_all2 in M1 by lia.
    assert (Forall is_u8 (s_data c)) as Hc by (rewrite M1; by apply mark_u8).
    rewrite (transform_spec c) by (first [exact Hc|exact M2|rewrite M5, A6; apply chain_ok]).
    set (c1 := mkSha256 (s_data c) _ _ _).
    destruct (zero_data_spec 0 56 c1) as (Z1 & Z2 & Z3 & Z4 & Z5); [cbn [s_data c1]; lia|].
    set (c2 := zero_data 0 56 c1) in *. rewrite Hv by (rewrite ?Z3, ?Z4; done).
    assert (take 56 (s_data c2) = replicate 56 0) as Ez.
    { apply list_eq. intros j. destruct (decide (j < 56)%nat).
      - rewrite lookup_take_lt, Z2, lookup_replicate_2 by lia. by rewrite decide_True by lia.
      - rewrite lookup_take_ge, lookup_ge_None_2 by (rewrite ?length_replicate; lia). done. }
    rewrite (finish _ (full ++ s_data c) (S q)); cbn [s_data s_state].
    + rewrite Ez, M1, be_bytes_bits.
      replace (Z.to_nat ((55 - Z.of_nat (64 * q + length tail)) mod 64)) with (64 - S (length tail) + 56)%nat by mlia.
      replace ((full ++ tail ++ 128 :: replicate (64 - S (length tail)) 0) ++ replicate 56 0 ++ be_bytes 8 v)
        with ((full ++ tail) ++ [128] ++ replicate (64 - S (length tail) + 56) 0 ++ be_bytes 8 v)
        by (rewrite replicate_add, <- !app_assoc; reflexivity).
      f_equal. rewrite !length_app, be_bytes_length, !length_replicate, A1. cbn [length].
      apply Nat.div_unique with (r := 0%nat); lia.
    + rewrite Ez. by apply Forall_replicate.
    + rewrite Z1. done.
    + rewrite length_app, A1, M2. lia.
    + rewrite Z5. cbn [c1 s_state]. rewrite M5, A6. symmetry. by apply chain_snoc.
Qed.

Lemma sha256_feed_app ctx a b : sha256_feed ctx (a ++ b) = sha256_feed (sha256_feed ctx a) b.
Proof. apply fold_left_app. Qed.

Lemma sha256_spec ctx msg : length (s_data ctx) = 64%nat -> Forall is_u8 msg ->
  sha256_final (sha256_feed (sha256_init ctx) msg) = SHA256 msg.
Proof.
  intros Hl Hm. destruct (update_absorbed msg (sha256_init ctx) [] [] 0) as (f & t & q & Ha & E & Ht).
  - split; try apply init_H0; try done. cbn [length]. lia.
  - done.
  - rewrite (final_spec f t q) by done. by rewrite E.
Qed.

Lemma SHA256_length msg : length (SHA256 msg) = 32%nat.
Proof.
  unfold SHA256. set (l := chain _ _). assert (length l = 8%nat) as Hl by apply chain_ok.
  clearbody l. do 8 (destruct l as [|? l]; [done|]). by destruct l.
Qed.

Lemma SHA256_u8 msg : Forall is_u8 (SHA256 msg).
Proof. unfold SHA256. apply Forall_flat_map, Forall_true. intros w. apply be_bytes_u8. Qed.

(** ** The loop with its 32-bit index *)

Lemma update_loop_runs fuel i ctx data : Z.of_nat (length data) < 2 ^ 32 -> (i <= length data)%nat -> (length data - i < fuel)%nat ->
  update_loop fuel (Z.of_nat i) ctx data = Ok (sha256_feed ctx (drop i data)).
Proof.
  intros Hl. revert i ctx. induction fuel as [|fuel IH]; intros i ctx Hi Hf; [lia|]. cbn [update_loop].
  destruct (Z.ltb_spec (Z.of_nat i) (Z.of_nat (length data))).
  - destruct (lookup_lt_is_Some_2 data i) as [b Hb]; [lia|]. rewrite Nat2Z.id, (nth_lookup_Some _ _ _ _ Hb).
    replace (u32 (Z.of_nat i + 1)) with (Z.of_nat (S i)) by (unfold u32; rewrite Z.mod_small; lia).
    rewrite IH by lia. by rewrite (drop_S _ _ _ Hb).
  - by rewrite drop_ge by lia.
Qed.

Lemma sha256_update_feed ctx data : Z.of_nat (length data) < 2 ^ 32 -> sha256_update ctx data = Ok (sha256_feed ctx data).
Proof. intros Hl. unfold sha256_update. change 0 with (Z.of_nat 0). by rewrite update_loop_runs, drop_0 by lia. Qed.

Lemma update_loop_hangs fuel i ctx data : 2 ^ 32 <= Z.of_nat (length data) -> is_u32 i -> update_loop fuel i ctx data = Hang.
Proof.
  intros Hl. revert i ctx. induction fuel as [|fuel IH]; intros i ctx Hi; [done|]. cbn [update_loop].
  unfold is_u32 in Hi. destruct (Z.ltb_spec i (Z.of_nat (length data))); [|lia]. apply IH. unfold is_u32, u32. apply Z.mod_pos_bound. lia.
Qed.

(** The calls of [sha256_update] for the pieces of a message. *)
Fixpoint update_all (ctx : SHA256_CTX) (chunks : list (list Z)) : outcome SHA256_CTX :=
  match chunks with
  | [] => Ok ctx
  | data :: chunks =>
      match sha256_update ctx data with
      | Ok ctx => update_all ctx chunks
      | Hang => Hang
      | UB => UB
      end
  end.

Lemma update_all_feed ctx chunks : Forall (fun c => Z.of_nat (length c) < 2 ^ 32) chunks ->
  update_all ctx chunks = Ok (sha256_feed ctx (concat chunks)).
Proof.
  intros Hc. revert ctx. induction Hc as [|c chunks Hl Hc IH]; intros ctx; [done|]. cbn [update_all concat].
  by rewrite sha256_update_feed, IH, sha256_feed_app.
Qed.

(** ** Theorems *)

(** C20: Hashing a message in any number of pieces, each of fewer than 2^32 bytes, with [sha256_init],
    [sha256_update] and [sha256_final] returns SHA-256 of FIPS 180-4 of the whole message,
    whatever the context held before; the constants in the code are the roots of the primes that
    the standard asks for.  On a piece of 2^32 bytes or more the loop of [sha256_update] never
    ends, since its 32-bit index wraps around before it reaches the length. *)
Theorem sha256_is_fips180 (ctx : SHA256_CTX) :
  (forall chunks, length (s_data ctx) = 64%nat -> Forall (Forall is_u8) chunks ->
     Forall (fun c => Z.of_nat (length c) < 2 ^ 32) chunks ->
     exists ctx', update_all (sha256_init ctx) chunks = Ok ctx' /\ sha256_final ctx' = SHA256 (concat chunks)) /\
  (forall data fuel, 2 ^ 32 <= Z.of_nat (length data) -> update_loop fuel 0 ctx data = Hang).
Proof.
  split.
  - intros chunks Hl Hc Hs. eexists. split; [by apply update_all_feed|]. apply sha256_spec; [done|]. by apply Forall_concat.
  - intros data fuel Hl. by apply update_loop_hangs.
Qed.

(** ** Witness *)

Lemma sha256_is_fips180_witness :
  exists ctx', update_all (sha256_init (mkSha256 (replicate 64 7) 0 0 [])) [[0x61]; [0x62; 0x63]] = Ok ctx' /\
  sha256_final ctx' = SHA256 [0x61; 0x62; 0x63] /\
  SHA256 [0x61; 0x62; 0x63] =
    [0xba; 0x78; 0x16; 0xbf; 0x8f; 0x01; 0xcf; 0xea; 0x41; 0x41; 0x40; 0xde; 0x5d; 0xae; 0x22; 0x23;
     0xb0; 0x03; 0x61; 0xa3; 0x96; 0x17; 0x7a; 0x9c; 0xb4; 0x10; 0xff; 0x61; 0xf2; 0x00; 0x15; 0xad].
Proof.
  assert (Hc : Forall (Forall is_u8) [[0x61]; [0x62; 0x63]]) by (repeat first [apply Forall_nil | apply Forall_cons | done]).
  destruct (proj1 (sha256_is_fips180 (mkSha256 (replicate 64 7) 0 0 [])) [[0x61]; [0x62; 0x63]] eq_refl Hc) as (c & E1 & E2).
  { repeat constructor; reflexivity. }
  exists c. split; [exact E1|]. split; [exact E2|]. change [0x61; 0x62; 0x63] with (concat [[0x61]; [0x62; 0x63]]). rewrite <- E2.
  vm_compute in E1. injection E1 as <-. vm_compute. reflexivity.
Defined.
