(* ===== verification/Merkle.v ===== *)
(** * The Merkle tree over evicted pages ([runtime/crypto/merkle.c])

    A binary search tree of hashes in untrusted memory below a root in trusted
    memory.  The nodes live in pages of the backing region, one bitmap per page.
    Nodes and page headers are typed cells of two maps; where a page comes from is
    the interface [PageSource].  The verifier takes every node it reads from a memory
    that may change between any two reads. *)

From S2P Require Import Prelude Mem Sha256.
From Stdlib Require Import ZArith Lia.
From stdpp Require Import base tactics gmap list list_numbers numbers.
Local Open Scope Z_scope.
Local Open Scope keystone_scope.

(** ** Data *)

Record merkle_node : Type := mkNode { n_ptr : Z; n_hash : list Z; n_left : Z; n_right : Z }.
#[export] Instance merkle_node_eq : EqDecision merkle_node.
Proof. solve_decision. Defined.

Definition MERK_NODES_PER_PAGE : Z := 4096 / 64.
Definition MERK_MAX_DEPTH : Z := 32.

(** [free[]] has one word: a page holds 64 nodes. *)
Record merkle_page_freelist : Type := mkFree { f_free : Z; f_count : Z; f_in_freelist : bool; f_next : Z }.

(** Where pages come from: [paging_alloc_backing_page] in the program. *)
Class PageSource (S : Type) : Type := { new_page : M S Z }.

Record merk_state (S : Type) : Type := mkMerk {
  m_nodes : gmap Z merkle_node;
  m_pages : gmap Z merkle_page_freelist;
  merk_free_list : Z;
  m_src : S
}.
Arguments mkMerk {S}.
Arguments m_nodes {S}.
Arguments m_pages {S}.
Arguments merk_free_list {S}.
Arguments m_src {S}.

(** ** Hashing and verification *)

(** Whatever the context on the stack holds before [sha256_init]. *)
Definition hasher0 : SHA256_CTX := mkSha256 (replicate 64 0) 0 0 [].

Definition hash_child (hasher : SHA256_CTX) (n : option merkle_node) : SHA256_CTX :=
  match n with
  | Some n => sha256_feed (sha256_feed hasher (le64 (n_ptr n))) (n_hash n)
  | None => hasher
  end.

Definition merk_verify_single_node (node : merkle_node) (lft rgt : option merkle_node) : bool :=
  let hasher := hash_child (hash_child (sha256_init hasher0) lft) rgt in
  match lft, rgt with
  | None, None => true
  | _, _ => bool_decide (sha256_final hasher = n_hash node)
  end.

Definition merk_hash_single_node (node : merkle_node) (lft rgt : option merkle_node) : merkle_node :=
  let hasher := hash_child (hash_child (sha256_init hasher0) lft) rgt in
  mkNode (n_ptr node) (sha256_final hasher) (n_left node) (n_right node).

Section Verify.
(** The answer of untrusted memory to the read number [t] at address [a]; [None] is a
    fault. *)
Context (rd : nat -> Z -> option merkle_node).

(** [if (p) copy = *p;]: the copy keeps its old value when the pointer is null. *)
Definition read_child (t : nat) (p : Z) (old : merkle_node) : outcome merkle_node :=
  if p =? 0 then Ok old else match rd t p with Some n => Ok n | None => UB end.

Definition child (p : Z) (n : merkle_node) : option merkle_node := if p =? 0 then None else Some n.

(** The loop of [merk_verify]; [Hang] when the fuel ends. *)
Fixpoint verify_loop (fuel t : nat) (key : Z) (hash : list Z) (node lft rgt : merkle_node) : outcome bool :=
  match fuel with
  | O => Hang
  | S fuel =>
      if (n_left node =? 0) && (n_right node =? 0) then Ok (bool_decide (hash = n_hash node))
      else
        match read_child t (n_left node) lft, read_child (S t) (n_right node) rgt with
        | Ok lft, Ok rgt =>
            if negb (merk_verify_single_node node (child (n_left node) lft) (child (n_right node) rgt))
            then Ok false
            else verify_loop fuel (S (S t)) key hash (if key <? n_ptr node then lft else rgt) lft rgt
        | _, _ => UB
        end
  end.

(** [garbage] is the uninitialised local [left]. *)
Definition merk_verify (fuel : nat) (root garbage : merkle_node) (key : Z) (hash : list Z) : outcome bool :=
  if n_right root =? 0 then Ok false
  else
    match rd 0 (n_right root) with
    | None => UB
    | Some rgt =>
        if negb (merk_verify_single_node root None (Some rgt)) then Ok false
        else verify_loop fuel 1 key hash rgt garbage rgt
    end.
End Verify.

(** ** Allocation of nodes *)

Section Alloc.
Context {S : Type} `{PageSource S}.
Implicit Types (m : merk_state S).

Definition set_nodes (f : gmap Z merkle_node -> gmap Z merkle_node) m : merk_state S :=
  mkMerk (f (m_nodes m)) (m_pages m) (merk_free_list m) (m_src m).
Definition set_page (p : Z) (h : merkle_page_freelist) m : merk_state S :=
  mkMerk (m_nodes m) (<[p := h]> (m_pages m)) (merk_free_list m) (m_src m).
Definition set_head (p : Z) m : merk_state S := mkMerk (m_nodes m) (m_pages m) p (m_src m).
Definition set_src (s : S) m : merk_state S := mkMerk (m_nodes m) (m_pages m) (merk_free_list m) s.

Definition load_node (a : Z) : M (merk_state S) merkle_node := let! m := get in or_ub (m_nodes m !! a).
Definition store_node (a : Z) (n : merkle_node) : M (merk_state S) unit := modify (set_nodes <[a := n]>).
Definition load_page (p : Z) : M (merk_state S) merkle_page_freelist := let! m := get in or_ub (m_pages m !! p).

(** [(this_page_nodes < 64) * (1ull << this_page_nodes) - 1]; the shift by 64 is
    multiplied by zero. *)
Definition initial_free : Z :=
  let this_page_nodes := MERK_NODES_PER_PAGE in
  u64 ((if this_page_nodes <? 64 then u64 (Z.shiftl 1 this_page_nodes) else 0) - 1).

(** A null page would be written through: undefined. *)
Definition merk_alloc_page : M (merk_state S) Z :=
  let! page := zoom m_src set_src new_page in
  if page =? 0 then ub
  else modify (set_page page (mkFree (Z.land initial_free (not64 1)) (MERK_NODES_PER_PAGE - 1) false 0)) ;;; ret page.

(** [__builtin_ctzll] of a non-zero word. *)
Fixpoint ctz_from (n : nat) (w i : Z) : Z :=
  match n with
  | O => i
  | Datatypes.S n => if Z.testbit w i then i else ctz_from n w (i + 1)
  end.
Definition ctzll (w : Z) : Z := ctz_from 63 w 0.

Definition merk_reserve_node_in_page (free_list : Z) : M (merk_state S) Z :=
  let! h := load_page free_list in
  if f_count h =? 0 then ret 0
  else if f_free h =? 0 then ret 0
  else
    let free_idx := ctzll (f_free h) in
    modify (set_page free_list (mkFree (Z.land (f_free h) (not64 (u64 (Z.shiftl 1 free_idx)))) (u16 (f_count h - 1))
      (f_in_freelist h) (f_next h))) ;;;
    sm_assert (negb (free_idx =? 0)) ;;;
    ret (free_list +w 64 * free_idx).

(** [while (merk_free_list && merk_free_list->free_count == 0) ...] *)
Fixpoint skip_full (fuel : nat) : M (merk_state S) unit :=
  let! m := get in
  let p := merk_free_list m in
  if p =? 0 then ret tt
  else
    let! h := load_page p in
    if negb (f_count h =? 0) then ret tt
    else match fuel with
         | O => hang
         | Datatypes.S fuel =>
             modify (set_page p (mkFree (f_free h) (f_count h) false (f_next h))) ;;;
             modify (set_head (f_next h)) ;;;
             skip_full fuel
         end.

(** The list has at most as many pages as there are. *)
Definition merk_alloc_node : M (merk_state S) Z :=
  let! m := get in
  skip_full (size (m_pages m)) ;;;
  let! m := get in
  (if merk_free_list m =? 0 then
     let! p := merk_alloc_page in
     modify (set_head p) ;;;
     let! h := load_page p in
     modify (set_page p (mkFree (f_free h) (f_count h) true (f_next h)))
   else ret tt) ;;;
  let! m := get in
  merk_reserve_node_in_page (merk_free_list m).

Definition merk_free_node (node : Z) : M (merk_state S) unit :=
  let page := Z.land node (not64 4095) in
  let idx := (node - page) / 64 in
  let! h := load_page page in
  sm_assert (idx <? MERK_NODES_PER_PAGE) ;;;
  sm_assert (Z.land (f_free h) (u64 (Z.shiftl 1 (idx mod 64))) =? 0) ;;;
  let h := mkFree (Z.lor (f_free h) (u64 (Z.shiftl 1 (idx mod 64)))) (u16 (f_count h + 1)) (f_in_freelist h) (f_next h) in
  let! m := get in
  if f_in_freelist h then modify (set_page page h)
  else modify (set_page page (mkFree (f_free h) (f_count h) true (merk_free_list m))) ;;; modify (set_head page).

(** ** Insertion *)

(** [merk_hash_single_node] on three nodes in memory. *)
Definition hash_in_place (node lft rgt : Z) : M (merk_state S) unit :=
  let! l := load_node lft in
  let! r := load_node rgt in
  let! n := load_node node in
  store_node node (merk_hash_single_node n (Some l) (Some r)).

Definition merk_splice_node (leaf node : Z) : M (merk_state S) Z :=
  let! n := load_node node in
  let! l := load_node leaf in
  if n_ptr n =? n_ptr l then merk_free_node leaf ;;; ret node
  else
    let! new_parent := merk_alloc_node in
    let! n := load_node node in
    let! l := load_node leaf in
    (if n_ptr n <? n_ptr l
     then store_node new_parent (mkNode (n_ptr l) (replicate 32 0) node leaf) ;;; hash_in_place new_parent node leaf
     else store_node new_parent (mkNode (n_ptr n) (replicate 32 0) leaf node) ;;; hash_in_place new_parent leaf node) ;;;
    ret new_parent.

(** The walk down: [intermediate_nodes[0..i]], the last one first. *)
Fixpoint walk_down (n : nat) (key : Z) (path : list Z) : M (merk_state S) (list Z) :=
  match n, path with
  | Datatypes.S n, parent :: _ =>
      let! p := load_node parent in
      let child := if key <? n_ptr p then n_left p else n_right p in
      if child =? 0 then ret path else walk_down n key (child :: path)
  | _, _ => ret path
  end.

Definition set_child (right : bool) (a : Z) (n : merkle_node) : merkle_node :=
  if right then mkNode (n_ptr n) (n_hash n) (n_left n) a else mkNode (n_ptr n) (n_hash n) a (n_right n).

(** The two children in their order, [x] at index [right]. *)
Definition children {A : Type} (right : bool) (x y : A) : A * A := if right then (y, x) else (x, y).

(** The walk back up.  The result is -1, or the data to write to the root. *)
Fixpoint percolate (new_node : Z) (path : list Z) (curr_node : merkle_node) : M (merk_state S) (option merkle_node) :=
  match path with
  | node_ptr :: ((parent_ptr :: _) as path') =>
      let! parent := load_node parent_ptr in
      let has_sibling := negb (n_left parent =? 0) && negb (n_right parent =? 0) in
      let node_idx := n_right parent =? node_ptr in
      let! sibling := (if has_sibling then let! s := load_node (if node_idx then n_left parent else n_right parent) in ret (Some s)
                       else ret None) in
      let! ok := (match sibling with
                  | Some s =>
                      let! n := load_node node_ptr in
                      let '(l, r) := children node_idx n s in
                      ret (merk_verify_single_node parent (Some l) (Some r))
                  | None => ret true
                  end) in
      if negb ok then ret None
      else
        let! '(node_ptr, curr_node, parent) :=
          (if (n_left curr_node =? 0) && (n_right curr_node =? 0) then
             let! q := merk_splice_node node_ptr new_node in
             let! c := load_node q in
             ret (q, c, set_child node_idx q parent)
           else ret (node_ptr, curr_node, parent)) in
        sm_assert (node_ptr =? (if node_idx then n_right parent else n_left parent)) ;;;
        let '(l, r) := children node_idx (Some curr_node) sibling in
        let parent := merk_hash_single_node parent l r in
        store_node node_ptr curr_node ;;;
        percolate new_node path' parent
  | _ => ret (Some curr_node)
  end.

Definition merk_insert (root key : Z) (hash : list Z) : M (merk_state S) Z :=
  let new_node_data := mkNode key hash 0 0 in
  let! new_node := merk_alloc_node in
  store_node new_node new_node_data ;;;
  let! r := load_node root in
  if n_right r =? 0 then
    let r' := merk_hash_single_node r None (Some new_node_data) in
    store_node root (mkNode (n_ptr r') (n_hash r') (n_left r') new_node) ;;;
    ret 0
  else
    let! path := walk_down (Z.to_nat (MERK_MAX_DEPTH - 1)) key [root] in
    let i := Z.of_nat (length path) - 1 in
    sm_assert (negb (i =? MERK_MAX_DEPTH)) ;;;
    let! curr_node := load_node (default root (head path)) in
    let! result := percolate new_node path curr_node in
    match result with
    | None => ret (-1)
    | Some r => store_node root r ;;; ret 0
    end.
End Alloc.

(** ** Soundness of verification against untrusted memory *)

Record node_ok (n : merkle_node) : Prop := {
  no_ptr : is_u64 (n_ptr n);
  no_hash : Forall is_u8 (n_hash n);
  no_len : length (n_hash n) = 32%nat
}.

(** What is hashed for the children of a node. *)
Definition node_msg (n : option merkle_node) : list Z :=
  match n with Some n => le64 (n_ptr n) ++ n_hash n | None => [] end.

Lemma node_msg_u8 n : (forall x, n = Some x -> node_ok x) -> Forall is_u8 (node_msg n).
Proof.
  intros Hn. destruct n as [x|]; [|done]. apply Forall_app. split; [apply le64_u8|]. by apply (Hn x).
Qed.

Lemma hash_children_spec l r : (forall n, l = Some n -> node_ok n) -> (forall n, r = Some n -> node_ok n) ->
  sha256_final (hash_child (hash_child (sha256_init hasher0) l) r) = Fips180.SHA256 (node_msg l ++ node_msg r).
Proof.
  intros Hl Hr. rewrite <- (sha256_spec hasher0); [|done|apply Forall_app; split; by apply node_msg_u8].
  f_equal. rewrite sha256_feed_app. by destruct l, r; cbn [hash_child node_msg]; rewrite ?sha256_feed_app.
Qed.

(** The tree as the runtime built it: at a leaf the message whose hash was inserted. *)
Inductive atree : Type :=
  | ALeaf (k : Z) (msg : list Z)
  | ANode (k : Z) (l r : atree).

Definition akey (T : atree) : Z := match T with ALeaf k _ | ANode k _ _ => k end.
Fixpoint adigest (T : atree) : list Z :=
  match T with
  | ALeaf _ msg => Fips180.SHA256 msg
  | ANode _ l r => Fips180.SHA256 (le64 (akey l) ++ adigest l ++ le64 (akey r) ++ adigest r)
  end.
Fixpoint adepth (T : atree) : nat := match T with ALeaf _ _ => 1%nat | ANode _ l r => S (max (adepth l) (adepth r)) end.

(** The message at the leaf where the search for [key] ends. *)
Fixpoint route (key : Z) (T : atree) : list Z :=
  match T with
  | ALeaf _ msg => msg
  | ANode k l r => if key <? k then route key l else route key r
  end.

(** The messages hashed while the tree was built. *)
Definition inner_msg (l r : atree) : list Z := le64 (akey l) ++ adigest l ++ le64 (akey r) ++ adigest r.
Fixpoint tree_msgs (T : atree) : list (list Z) :=
  match T with
  | ALeaf _ msg => [msg]
  | ANode _ l r => inner_msg l r :: tree_msgs l ++ tree_msgs r
  end.
Definition root_msg (T : atree) : list Z := le64 (akey T) ++ adigest T.

(** A message of a page: not as long as the message of one or two children. *)
Definition page_msg (msg : list Z) : Prop := length msg <> 40%nat /\ length msg <> 80%nat.
Fixpoint atree_ok (T : atree) : Prop :=
  match T with
  | ALeaf k msg => is_u64 k /\ page_msg msg
  | ANode k l r => is_u64 k /\ atree_ok l /\ atree_ok r
  end.

Definition collision (L : list (list Z)) : Prop :=
  exists x y, x ∈ L /\ y ∈ L /\ x <> y /\ Fips180.SHA256 x = Fips180.SHA256 y.

Section Trace.
Context (rd : nat -> Z -> option merkle_node).

(** The messages that a run of the verifier hashes. *)
Fixpoint loop_trace (fuel t : nat) (key : Z) (node lft rgt : merkle_node) : list (list Z) :=
  match fuel with
  | O => []
  | S fuel =>
      if (n_left node =? 0) && (n_right node =? 0) then []
      else
        match read_child rd t (n_left node) lft, read_child rd (S t) (n_right node) rgt with
        | Ok lft, Ok rgt =>
            let l := child (n_left node) lft in
            let r := child (n_right node) rgt in
            (node_msg l ++ node_msg r) ::
            (if negb (merk_verify_single_node node l r) then []
             else loop_trace fuel (S (S t)) key (if key <? n_ptr node then lft else rgt) lft rgt)
        | _, _ => []
        end
  end.

Definition verify_trace (fuel : nat) (root garbage : merkle_node) (key : Z) : list (list Z) :=
  match rd 0 (n_right root) with
  | Some rgt => node_msg (Some rgt) :: loop_trace fuel 1 key rgt garbage rgt
  | None => []
  end.
End Trace.

Lemma le64_inj a b : is_u64 a -> is_u64 b -> le64 a = le64 b -> a = b.
Proof. intros Ha Hb E. apply (f_equal le_value) in E. by rewrite !le_value_le64, !u64_id in E. Qed.

Lemma adigest_length T : length (adigest T) = 32%nat.
Proof. destruct T; apply SHA256_length. Qed.

(** Equal hashes of two messages of a pool: the messages are equal, or the pool has a
    collision. *)
Lemma pool_inj L x y : x ∈ L -> y ∈ L -> Fips180.SHA256 x = Fips180.SHA256 y -> x = y \/ collision L.
Proof. intros Hx Hy E. destruct (decide (x = y)); [by left|right]. by exists x, y. Qed.

Lemma inner_msg_inj n1 n2 l r : node_ok n1 -> node_ok n2 -> is_u64 (akey l) -> is_u64 (akey r) ->
  node_msg (Some n1) ++ node_msg (Some n2) = inner_msg l r ->
  n_ptr n1 = akey l /\ n_hash n1 = adigest l /\ n_ptr n2 = akey r /\ n_hash n2 = adigest r.
Proof.
  intros [P1 _ L1] [P2 _ L2] Hl Hr E. unfold node_msg, inner_msg in E. rewrite <- app_assoc in E.
  apply app_inj_1 in E as [E1 E]; [|by rewrite !length_le64].
  apply app_inj_1 in E as [E2 E]; [|by rewrite adigest_length].
  apply app_inj_1 in E as [E3 E4]; [|by rewrite !length_le64].
  split_and!; try done; by apply le64_inj.
Qed.

Lemma node_msg_length n : node_ok n -> length (node_msg (Some n)) = 40%nat.
Proof. intros [_ _ Hl]. cbn [node_msg]. by rewrite length_app, length_le64, Hl. Qed.

Lemma inner_msg_length l r : length (inner_msg l r) = 80%nat.
Proof. unfold inner_msg. by rewrite !length_app, !length_le64, !adigest_length. Qed.

Lemma atree_ok_key T : atree_ok T -> is_u64 (akey T).
Proof. destruct T; cbn; tauto. Qed.

Section Sound.
Context (rd : nat -> Z -> option merkle_node) (Hrd : forall t a n, rd t a = Some n -> node_ok n).
Context (key : Z) (pm : list Z) (Hpm : page_msg pm).

Lemma read_child_ok t p old n : read_child rd t p old = Ok n -> forall x, child p n = Some x -> node_ok x.
Proof.
  unfold read_child, child. destruct (p =? 0); [done|]. destruct (rd t p) as [n'|] eqn:E; [|done].
  intros [= ->] x [= <-]. by eapply Hrd.
Qed.

Lemma single_node_spec node l r : (forall n, l = Some n -> node_ok n) -> (forall n, r = Some n -> node_ok n) ->
  merk_verify_single_node node l r = true -> l <> None \/ r <> None ->
  Fips180.SHA256 (node_msg l ++ node_msg r) = n_hash node.
Proof.
  intros Hl Hr Hv Hn. rewrite <- hash_children_spec by done. unfold merk_verify_single_node in Hv.
  destruct l, r; try (by apply bool_decide_eq_true in Hv). by destruct Hn.
Qed.

(** The messages of one or two children are 40 or 80 bytes long. *)
Lemma children_msg_length l r : (forall n, l = Some n -> node_ok n) -> (forall n, r = Some n -> node_ok n) ->
  l <> None \/ r <> None ->
  length (node_msg l ++ node_msg r) = 40%nat \/
  (exists n1 n2, l = Some n1 /\ r = Some n2) /\ length (node_msg l ++ node_msg r) = 80%nat.
Proof.
  intros Hl Hr Hn. rewrite length_app.
  destruct l as [a|], r as [b|]; rewrite ?node_msg_length by auto; cbn [node_msg length]; try (left; lia).
  - right. split; [by eexists _, _|lia].
  - by destruct Hn.
Qed.

(** One round: a leaf, a refusal or a fault, or children whose message hashes to the
    node's hash and the loop goes on. *)
Lemma loop_cases fuel t hash node lft rgt :
  let res := verify_loop rd (S fuel) t key hash node lft rgt in
  let tr := loop_trace rd (S fuel) t key node lft rgt in
  res = Ok (bool_decide (hash = n_hash node)) \/
  (res <> Ok true /\ res <> Hang) \/
  (exists l r m, m ∈ tr /\ Fips180.SHA256 m = n_hash node /\
    (length m = 40%nat \/ node_ok l /\ node_ok r /\ m = node_msg (Some l) ++ node_msg (Some r) /\ length m = 80%nat) /\
    let next := if key <? n_ptr node then l else r in
    res = verify_loop rd fuel (S (S t)) key hash next l r /\ loop_trace rd fuel (S (S t)) key next l r ⊆ tr).
Proof.
  cbn [verify_loop loop_trace]. destruct ((n_left node =? 0) && (n_right node =? 0)) eqn:Eleaf; [by left|right].
  destruct (read_child rd t _ lft) as [l| |] eqn:El; try by left.
  destruct (read_child rd (S t) _ rgt) as [r| |] eqn:Er; try by left.
  pose proof (read_child_ok _ _ _ _ El) as Hl. pose proof (read_child_ok _ _ _ _ Er) as Hr.
  destruct (merk_verify_single_node node _ _) eqn:Ev; [right|by left]. cbn [negb].
  assert (child (n_left node) l <> None \/ child (n_right node) r <> None) as Hn.
  { unfold child. destruct (n_left node =? 0), (n_right node =? 0); auto. }
  exists l, r, (node_msg (child (n_left node) l) ++ node_msg (child (n_right node) r)).
  split; [by left|]. split; [by apply single_node_spec|]. split; [|split; [done|intros x Hx; by right]].
  destruct (children_msg_length _ _ Hl Hr Hn) as [?|[(n1 & n2 & E1 & E2) H80]]; [by left|right].
  assert (n1 = l /\ n2 = r) as [-> ->].
  { unfold child in E1, E2. destruct (n_left node =? 0), (n_right node =? 0); by simplify_eq. }
  rewrite E1, E2 in *. split_and!; auto.
Qed.

Lemma loop_sound T : forall fuel t node lft rgt L,
  atree_ok T -> (adepth T <= fuel)%nat -> n_ptr node = akey T -> n_hash node = adigest T -> pm ∈ L ->
  tree_msgs T ⊆ L -> loop_trace rd fuel t key node lft rgt ⊆ L ->
  let res := verify_loop rd fuel t key (Fips180.SHA256 pm) node lft rgt in
  (res = Ok true -> route key T = pm \/ collision L) /\ (res = Hang -> collision L).
Proof.
  induction T as [k msg|k T1 IH1 T2 IH2]; intros fuel t node lft rgt L Hok Hf Hp Hh Hpml HT Htr res;
    (destruct fuel as [|fuel]; [cbn [adepth] in Hf; lia|]);
    destruct (loop_cases fuel t (Fips180.SHA256 pm) node lft rgt)
      as [E|[[? ?]|(l & r & m & Hm & E & Hlen & Hres & Hsub)]]; try done; try fold res in E; try fold res in Hres.
  - split; [|by rewrite E]. rewrite E, Hh. intros [= Eq%bool_decide_eq_true].
    destruct (pool_inj L pm msg Hpml (HT msg ltac:(by left)) Eq) as [->|]; auto.
  - assert (collision L); [|auto]. rewrite Hh in E.
    destruct (pool_inj L m msg (Htr _ Hm) (HT msg ltac:(by left)) E) as [->|]; [|done].
    destruct Hok as [_ [H40 H80]]. by destruct Hlen as [?|(_ & _ & _ & ?)].
  - split; [|by rewrite E]. rewrite E, Hh. intros [= Eq%bool_decide_eq_true]. right.
    destruct (pool_inj L pm (inner_msg T1 T2) Hpml (HT _ ltac:(by left)) Eq) as [->|]; [|done].
    destruct Hpm as [_ []]. apply inner_msg_length.
  - rewrite Hh in E. destruct Hok as (_ & Hok1 & Hok2).
    destruct (pool_inj L m (inner_msg T1 T2) (Htr _ Hm) (HT _ ltac:(by left)) E) as [->|]; [|auto].
    destruct Hlen as [H40|(N1 & N2 & Em & _)]; [rewrite inner_msg_length in H40; lia|].
    destruct (inner_msg_inj l r T1 T2) as (P1 & D1 & P2 & D2); auto using atree_ok_key.
    rewrite Hp in Hres, Hsub. rewrite Hres. cbn [adepth route akey] in *.
    assert (forall S, tree_msgs S ⊆ tree_msgs T1 ++ tree_msgs T2 -> tree_msgs S ⊆ L) as HS.
    { intros S HS x Hx. apply HT. right. by apply HS. }
    destruct (key <? k); [apply IH1|apply IH2]; try done; try lia; try (by etransitivity; eauto).
    all: apply HS; intros x Hx; apply elem_of_app; auto.
Qed.
End Sound.

Lemma merk_verify_sound_gen (rd : nat -> Z -> option merkle_node) T root garbage key pm fuel :
  (forall t a n, rd t a = Some n -> node_ok n) -> atree_ok T -> page_msg pm ->
  n_hash root = Fips180.SHA256 (root_msg T) -> (adepth T <= fuel)%nat ->
  let L := pm :: root_msg T :: tree_msgs T ++ verify_trace rd fuel root garbage key in
  let res := merk_verify rd fuel root garbage key (Fips180.SHA256 pm) in
  (res = Ok true -> route key T = pm \/ collision L) /\ (res = Hang -> collision L).
Proof.
  intros Hrd Hok Hpm Hroot Hf L. unfold merk_verify, verify_trace in *.
  destruct (n_right root =? 0); [done|]. destruct (rd 0%nat (n_right root)) as [rgt|] eqn:Er; [|done].
  pose proof (Hrd _ _ _ Er) as Hn. destruct (merk_verify_single_node root None (Some rgt)) eqn:Ev; [|done]. cbn [negb].
  assert (Fips180.SHA256 (node_msg (Some rgt)) = Fips180.SHA256 (root_msg T)) as E.
  { rewrite <- Hroot. apply (single_node_spec root None (Some rgt)); [done|by intros ? [= <-]|done|by right]. }
  assert (forall x, x ∈ tree_msgs T -> x ∈ L) as HT by (intros x Hx; do 2 right; apply elem_of_app; by left).
  assert (forall x, x ∈ loop_trace rd fuel 1 key rgt garbage rgt -> x ∈ L) as Htr.
  { intros x Hx. do 2 right. apply elem_of_app. right. by right. }
  assert (node_msg (Some rgt) = root_msg T \/ collision L) as [Em|]; [|clear E|auto].
  { apply pool_inj; [|by right; left|done]. do 2 right. apply elem_of_app. right. by left. }
  unfold node_msg, root_msg in Em. apply app_inj_1 in Em as [Ek Ed]; [|by rewrite !length_le64].
  apply (loop_sound rd Hrd key pm Hpm T); try done; [|by left].
  apply le64_inj; [apply Hn|by apply atree_ok_key|done].
Qed.

(** C12: Verification is sound against a host that rewrites the tree in untrusted memory
    at any time: if [merk_verify] accepts the hash of a page, then that page is the
    one the search for the key ends at in the tree the runtime built, or the run
    exhibits two different messages with the same SHA-256 hash; and without such a
    collision the unbounded loop of the verifier ends within the depth of the tree. *)
Theorem merk_verify_sound (rd : nat -> Z -> option merkle_node) T root garbage key pm fuel :
  (forall t a n, rd t a = Some n -> node_ok n) -> atree_ok T -> page_msg pm ->
  n_hash root = Fips180.SHA256 (root_msg T) -> (adepth T <= fuel)%nat ->
  let L := pm :: root_msg T :: tree_msgs T ++ verify_trace rd fuel root garbage key in
  let res := merk_verify rd fuel root garbage key (Fips180.SHA256 pm) in
  (res = Ok true -> route key T = pm \/ collision L) /\ (res = Hang -> collision L).
Proof. apply merk_verify_sound_gen. Qed.

(** One leaf for a page of zeros, and a host that answers every read with it. *)
Definition demo_leaf : merkle_node := mkNode 7 (Fips180.SHA256 (replicate 4096 0)) 0 0.

Lemma merk_verify_sound_witness :
  let T := ALeaf 7 (replicate 4096 0) in
  let rd := fun (_ : nat) (_ : Z) => Some demo_leaf in
  let root := mkNode 0 (Fips180.SHA256 (root_msg T)) 0 0x1040 in
  let L := replicate 4096 0 :: root_msg T :: tree_msgs T ++ verify_trace rd 1 root demo_leaf 7 in
  let res := merk_verify rd 1 root demo_leaf 7 (Fips180.SHA256 (replicate 4096 0)) in
  (res = Ok true -> route 7 T = replicate 4096 0 \/ collision L) /\ (res = Hang -> collision L).
Proof.
  intros T rd root L res. apply (merk_verify_sound rd T root demo_leaf 7 (replicate 4096 0) 1).
  - intros t a n [= <-]. split; [done|apply SHA256_u8|apply SHA256_length].
  - split; [done|]. by split; rewrite length_replicate.
  - by split; rewrite length_replicate.
  - reflexivity.
  - apply le_n.
Defined.
