(* ===== verification/MerkleAlloc.v ===== *)
(** * The allocator of Merkle-tree nodes ([runtime/crypto/merkle.c])

    What [merk_alloc_node] and [merk_free_node] promise the insertion: an allocated
    node is not in use, a freed one can be handed out again.  The promise of the
    source of pages is the class [PageSourceOk]; the allocator of backing pages
    fulfils it. *)

From S2P Require Import Prelude Mem Vm Backing Merkle.
From Stdlib Require Import ZArith Lia.
From stdpp Require Import base tactics gmap sets list list_numbers numbers.
Local Open Scope Z_scope.
Local Open Scope keystone_scope.

(** ** The source of pages *)

(** [ps_left s taken n]: the pages of [taken] are given away and at least [n] more
    can be had. *)
Class PageSourceOk (S : Type) `{PageSource S} : Type := {
  ps_left : S -> gset Z -> nat -> Prop;
  ps_next : forall s taken n, ps_left s taken (Datatypes.S n) ->
    exists p s', new_page s = Ok (p, s') /\ 0 < p /\ p + 4096 <= 2 ^ 64 /\ p mod 4096 = 0 /\ (p ∉ taken) /\
      ps_left s' ({[p]} ∪ taken) n;
  ps_weaken : forall s taken n, ps_left s taken (Datatypes.S n) -> ps_left s taken n
}.

#[export] Instance backing_source : PageSource backing := { new_page := paging_alloc_backing_page }.

(** The backing pages after [k] of them were taken. *)
Definition backing_left (s : backing) (taken : gset Z) (n : nat) : Prop :=
  exists base pages inc k, walk_ok base pages inc /\ walk_at base pages inc k s /\
    0 <= k /\ k + Z.of_nat n <= pages - 1 /\
    forall p, p ∈ taken -> p mod 4096 = 0 -> base <= p < base + pages * 4096 ->
      exists j, 0 <= j < k /\ p = backing_page base pages inc j.

#[export] Program Instance backing_source_ok : PageSourceOk backing := { ps_left := backing_left }.
Next Obligation.
  intros s taken n (base & pages & inc & k & Hok & Hat & Hk & Hn & Ht).
  pose proof (alloc_step base pages inc Hok k s ltac:(lia) Hat) as Hs. rewrite decide_False in Hs by lia.
  destruct Hs as (s' & E & Hat'). destruct (backing_page_bounds base pages inc Hok k) as (B1 & B2 & B3).
  change RISCV_PAGE_SIZE with 4096 in *. pose proof Hok as [[Hb _] _ He _ _]. change RISCV_PAGE_SIZE with 4096 in He.
  exists (backing_page base pages inc k), s'. split_and!; try done; try lia.
  - intros Hin. destruct (Ht _ Hin B3) as (j & Hj & Ej); [lia|].
    apply (backing_page_inj base pages inc Hok) in Ej; lia.
  - exists base, pages, inc, (k + 1). split_and!; try done; try lia.
    intros p [->%elem_of_singleton|Hp]%elem_of_union Hm Hr; [exists k; split; [lia|done]|].
    destruct (Ht p Hp Hm Hr) as (j & Hj & ->). exists j. split; [lia|done].
Qed.
Next Obligation.
  intros s taken n (base & pages & inc & k & Hok & Hat & Hk & Hn & Ht). exists base, pages, inc, k.
  split_and!; try done. lia.
Qed.

(** ** Bitmaps *)

Definition bit_count (w : Z) : Z := Z.of_nat (length (filter (fun i => Z.testbit w i = true) (seqZ 0 64))).

Lemma filter_agree {A} (P Q : A -> Prop) `{!forall x, Decision (P x), !forall x, Decision (Q x)} (l : list A) :
  (forall y, y ∈ l -> P y <-> Q y) -> filter P l = filter Q l.
Proof.
  induction l as [|x l IH]; intros Hpq; [done|]. rewrite !filter_cons.
  rewrite IH by (intros y Hy; apply Hpq; by right). pose proof (Hpq x ltac:(by left)).
  destruct (decide (P x)); [by rewrite decide_True by tauto|by rewrite decide_False by tauto].
Qed.

Lemma filter_one_more {A} `{!EqDecision A} (P Q : A -> Prop) `{!forall x, Decision (P x), !forall x, Decision (Q x)} (l : list A) i :
  NoDup l -> i ∈ l -> ~ P i -> Q i -> (forall j, j ∈ l -> j <> i -> P j <-> Q j) ->
  length (filter Q l) = S (length (filter P l)).
Proof.
  intros Hnd Hi HP HQ Hj. induction Hnd as [|x l Hx Hnd IH]; [by apply elem_of_nil in Hi|].
  rewrite !filter_cons. destruct (decide (x = i)) as [->|Hne].
  - rewrite decide_True, decide_False by done. cbn [length]. f_equal. f_equal. apply filter_agree.
    intros y Hy. symmetry. apply Hj; [by right|by intros ->].
  - apply elem_of_cons in Hi as [->|Hi]; [done|]. specialize (IH Hi ltac:(intros; apply Hj; [by right|done])).
    pose proof (Hj x ltac:(by left) Hne) as Hx'.
    destruct (decide (P x)); [rewrite decide_True by tauto|rewrite decide_False by tauto]; cbn [length]; lia.
Qed.

Lemma bit_count_bound w : 0 <= bit_count w <= 64.
Proof.
  unfold bit_count. pose proof (length_filter (fun i => Z.testbit w i = true) (seqZ 0 64)) as H.
  rewrite length_seqZ in H. lia.
Qed.

Lemma bit_count_0 w : is_u64 w -> bit_count w = 0 -> w = 0.
Proof.
  intros Hw Hc. apply Z.bits_inj_0. intros i. destruct (Z.testbit w i) eqn:E; [|done]. exfalso.
  destruct (decide (0 <= i < 64)) as [Hi|Hi].
  2: { destruct (decide (i < 0)); [by rewrite Z.testbit_neg_r in E by lia|].
       by rewrite (testbit_high w 64 i) in E by (done || lia). }
  assert (i ∈ filter (fun i => Z.testbit w i = true) (seqZ 0 64)) as Hin
    by (apply list_elem_of_filter; split; [done|apply elem_of_seqZ; lia]).
  unfold bit_count in Hc. destruct (filter _ _); [by apply elem_of_nil in Hin|cbn [length] in Hc; lia].
Qed.

Lemma bit_count_set w v i : 0 <= i < 64 -> Z.testbit w i = false -> Z.testbit v i = true ->
  (forall j, j <> i -> Z.testbit v j = Z.testbit w j) -> bit_count v = bit_count w + 1.
Proof.
  intros Hi Hw Hv Hj. unfold bit_count. rewrite (filter_one_more (fun i => Z.testbit w i = true) _ _ i).
  - lia.
  - apply NoDup_seqZ.
  - apply elem_of_seqZ. lia.
  - by rewrite Hw.
  - done.
  - intros j _ Hne. by rewrite Hj.
Qed.

(** The lowest set bit. *)
Lemma ctz_from_spec n w i : 0 <= i -> (exists j, i <= j <= i + Z.of_nat n /\ Z.testbit w j = true) ->
  i <= ctz_from n w i <= i + Z.of_nat n /\ Z.testbit w (ctz_from n w i) = true.
Proof.
  revert i. induction n as [|n IH]; intros i Hi (j & Hj & Ej); cbn [ctz_from].
  - replace i with j by lia. split; [lia|done].
  - destruct (Z.testbit w i) eqn:E; [split; [lia|done]|].
    destruct (IH (i + 1)) as [H1 H2]; [lia|exists j; split; [|done]|split; [lia|done]].
    destruct (decide (j = i)) as [->|]; [congruence|lia].
Qed.

Lemma ctzll_spec w : is_u64 w -> w <> 0 -> 0 <= ctzll w < 64 /\ Z.testbit w (ctzll w) = true.
Proof.
  intros Hw Hne. unfold ctzll. destruct (ctz_from_spec 63 w 0) as [H1 H2]; [lia| |split; [lia|done]].
  exists (Z.log2 w). assert (0 < w) by (unfold is_u64 in Hw; lia). split; [|by apply Z.bit_log2].
  split; [apply Z.log2_nonneg|]. assert (Z.log2 w < 64); [|lia]. apply Z.log2_lt_pow2; [done|apply Hw].
Qed.

(** Clearing and setting one bit. *)
Lemma clear_bit w i : is_u64 w -> 0 <= i < 64 ->
  let v := Z.land w (not64 (u64 (Z.shiftl 1 i))) in
  is_u64 v /\ Z.testbit v i = false /\ forall j, j <> i -> Z.testbit v j = Z.testbit w j.
Proof.
  intros Hw Hi v. assert (0 <= 2 ^ i < 2 ^ 64) as Hp by (split; [lia|apply Z.pow_lt_mono_r; lia]).
  subst v. rewrite Z.shiftl_1_l, u64_id by done. assert (is_u64 (not64 (2 ^ i))) as Hn by (unfold is_u64, not64; lia).
  split; [by apply land_bound; [|apply Hn]|]. split.
  - rewrite Z.land_spec, testbit_not64, Z.pow2_bits_true by (done || lia). apply andb_false_r.
  - intros j Hj. rewrite Z.land_spec. destruct (decide (0 <= j < 64)) as [Hj'|Hj'].
    + by rewrite testbit_not64, Z.pow2_bits_false, andb_true_r by (done || lia).
    + destruct (decide (j < 0)); [by rewrite !Z.testbit_neg_r by lia|].
      by rewrite (testbit_high w 64 j) by (done || lia).
Qed.

Lemma set_bit w i : is_u64 w -> 0 <= i < 64 ->
  let v := Z.lor w (u64 (Z.shiftl 1 i)) in
  is_u64 v /\ Z.testbit v i = true /\ forall j, j <> i -> Z.testbit v j = Z.testbit w j.
Proof.
  intros Hw Hi v. assert (0 <= 2 ^ i < 2 ^ 64) as Hp by (split; [lia|apply Z.pow_lt_mono_r; lia]).
  subst v. rewrite Z.shiftl_1_l, u64_id by done. split; [by apply lor_bound|]. split.
  - by rewrite Z.lor_spec, Z.pow2_bits_true, orb_true_r by lia.
  - intros j Hj. by rewrite Z.lor_spec, Z.pow2_bits_false, orb_false_r by lia.
Qed.

(** ** The invariant *)

Definition page_of (a : Z) : Z := a - a mod 4096.
Definition idx_of (a : Z) : Z := a mod 4096 / 64.

Record page_ok (p : Z) (h : merkle_page_freelist) : Prop := {
  po_addr : 0 < p /\ p + 4096 <= 2 ^ 64 /\ p mod 4096 = 0;
  po_free : is_u64 (f_free h);
  po_header : Z.testbit (f_free h) 0 = false;
  po_count : f_count h = bit_count (f_free h)
}.

(** The list of pages that starts at [p]. *)
Fixpoint linked_pages (pages : gmap Z merkle_page_freelist) (p : Z) (l : list Z) : Prop :=
  match l with
  | [] => p = 0
  | q :: l => p = q /\ exists h, pages !! q = Some h /\ f_in_freelist h = true /\ linked_pages pages (f_next h) l
  end.

(** Nodes in [used] have their bit clear. *)
Record core_ok (pages : gmap Z merkle_page_freelist) (used : gset Z) : Prop := {
  co_pages : forall p h, pages !! p = Some h -> page_ok p h;
  co_used : forall a, a ∈ used -> a mod 64 = 0 /\ idx_of a <> 0 /\
    exists h, pages !! page_of a = Some h /\ Z.testbit (f_free h) (idx_of a) = false
}.

Section AllocSpec.
Context {S : Type} `{PageSourceOk S} (avoid : gset Z).
Implicit Types (m : merk_state S) (used : gset Z).

(** [avoid] are pages that belong to others, [n] the pages still to be had. *)
Record alloc_ok m used (n : nat) : Prop := {
  al_core : core_ok (m_pages m) used;
  al_chain : exists l, NoDup l /\ linked_pages (m_pages m) (merk_free_list m) l;
  al_src : exists taken, ps_left (m_src m) taken n /\ dom (m_pages m) ⊆ taken /\ avoid ⊆ taken;
  al_avoid : dom (m_pages m) ## avoid
}.

Lemma linked_insert pages p h x l : p ∉ l -> linked_pages pages x l -> linked_pages (<[p := h]> pages) x l.
Proof.
  revert x. induction l as [|q l IH]; intros x Hp Hl; [done|]. destruct Hl as (-> & h' & E & Hf & Hl).
  apply not_elem_of_cons in Hp as [Hne Hp]. split; [done|]. exists h'. rewrite lookup_insert_ne by done. auto.
Qed.

Lemma linked_flag pages x l p h : linked_pages pages x l -> pages !! p = Some h -> f_in_freelist h = false -> p ∉ l.
Proof.
  revert x. induction l as [|q l IH]; intros x Hl E Hf; [apply not_elem_of_nil|].
  destruct Hl as (-> & h' & E' & Hf' & Hl). apply not_elem_of_cons. split; [|by eapply IH].
  intros ->. congruence.
Qed.

Lemma linked_dom pages x l : linked_pages pages x l -> forall q, q ∈ l -> q ∈ dom pages.
Proof.
  revert x. induction l as [|q l IH]; intros x Hl y Hy; [by apply elem_of_nil in Hy|].
  destruct Hl as (-> & h & E & _ & Hl). apply elem_of_cons in Hy as [->|Hy]; [by apply elem_of_dom|by eapply IH].
Qed.

Lemma linked_length pages x l : NoDup l -> linked_pages pages x l -> (length l <= size pages)%nat.
Proof.
  intros Hnd Hl. rewrite <- size_dom. rewrite <- (size_list_to_set (C := gset Z) l) by done.
  apply subseteq_size. intros q Hq%elem_of_list_to_set. by eapply linked_dom.
Qed.

(** Changing the list fields of a page header. *)
Lemma core_flags pages used p h b x : pages !! p = Some h -> core_ok pages used ->
  core_ok (<[p := mkFree (f_free h) (f_count h) b x]> pages) used.
Proof.
  intros E [C1 C2]. split.
  - intros q h'. rewrite lookup_insert. case_decide as Eq; [|by apply C1]. subst q.
    intros [= <-]. destruct (C1 p h E) as [P1 P2 P3 P4]. by split.
  - intros a Ha. destruct (C2 a Ha) as (A1 & A2 & h' & A3 & A4). split_and!; [done..|].
    destruct (decide (p = page_of a)) as [->|]; [|exists h'; by rewrite lookup_insert_ne].
    rewrite lookup_insert, decide_True by done. eexists. split; [done|]. cbn. congruence.
Qed.

Lemma dom_insert_in (pages : gmap Z merkle_page_freelist) p h h' : pages !! p = Some h' -> dom (<[p := h]> pages) = dom pages.
Proof. intros E. apply dom_insert_lookup_L. by eexists. Qed.

Lemma alloc_ok_pages m used used' n pages' head' l :
  alloc_ok m used n -> core_ok pages' used' -> NoDup l -> linked_pages pages' head' l -> dom pages' = dom (m_pages m) ->
  alloc_ok (mkMerk (m_nodes m) pages' head' (m_src m)) used' n.
Proof.
  intros [C1 C2 C3 C4] Hc Hnd Hl Hd. split; cbn [m_pages merk_free_list m_src]; [done|by exists l| |by rewrite Hd].
  by rewrite Hd.
Qed.

(** The list of pages starts at a page with a free node, or is empty. *)
Definition head_free m : Prop :=
  merk_free_list m = 0 \/ exists h, m_pages m !! merk_free_list m = Some h /\ f_count h <> 0.

Lemma wp_skip_full fuel m used n : alloc_ok m used n ->
  (forall l, NoDup l -> linked_pages (m_pages m) (merk_free_list m) l -> (length l <= fuel)%nat) ->
  wp (skip_full fuel) (fun _ m' => alloc_ok m' used n /\ m_nodes m' = m_nodes m /\ head_free m') m.
Proof.
  revert m. induction fuel as [|fuel IH]; intros m Hok Hlen; cbn [skip_full];
    pose proof Hok as [C1 (l & Hnd & Hl) C3 C4]; apply wp_bind, wp_get.
  - specialize (Hlen l Hnd Hl). destruct l; [|cbn [length] in Hlen; lia]. cbn in Hl. rewrite Hl. cbn.
    split_and!; [done|done|]. by left.
  - destruct l as [|p l]; [cbn in Hl; rewrite Hl; cbn; split_and!; [done|done|by left]|].
    destruct Hl as (Ep & h & Eh & Hf & Hl). rewrite Ep. pose proof (co_pages _ _ C1 p h Eh) as [(P0 & _) _ _ _].
    rewrite (proj2 (Z.eqb_neq p 0)) by lia. apply wp_bind. unfold load_page.
    apply wp_bind, wp_get, (wp_or_ub _ h); [done|].
    destruct (Z.eqb_spec (f_count h) 0) as [Ec|Ec]; cbn [negb].
    2: { apply wp_ret. split_and!; [done|done|right]. rewrite Ep. by exists h. }
    apply wp_bind, wp_modify, wp_bind, wp_modify.
    apply list.NoDup_cons in Hnd as [Hp Hnd].
    assert (linked_pages (<[p := mkFree (f_free h) (f_count h) false (f_next h)]> (m_pages m)) (f_next h) l) as Hl'
      by by apply linked_insert.
    eapply wp_mono; [apply IH|].
    + apply (alloc_ok_pages m used used n _ _ l); try done; [by apply core_flags|by eapply dom_insert_in].
    + cbn [m_pages merk_free_list set_page set_head]. intros l2 Hnd2 Hl2.
      assert (p ∉ l2) as Hp2.
      { eapply linked_flag; [exact Hl2|by rewrite lookup_insert, decide_True|done]. }
      assert (length (p :: l2) <= Datatypes.S fuel)%nat; [|cbn [length] in *; lia].
      apply Hlen; [by apply list.NoDup_cons|]. split; [done|]. exists h. split_and!; [done..|].
      apply (linked_insert _ p h) in Hl2; [|done]. rewrite insert_insert, decide_True, insert_id in Hl2 by done. done.
    + intros [] m' (H1 & H2 & H3). auto.
Qed.

Lemma node_addr p i : p mod 4096 = 0 -> 0 <= i < 64 ->
  page_of (p + 64 * i) = p /\ idx_of (p + 64 * i) = i /\ (p + 64 * i) mod 64 = 0.
Proof. intros Hp Hi. unfold page_of, idx_of. split_and!; mlia. Qed.

Lemma node_addr_eq a : a mod 64 = 0 -> a = page_of a + 64 * idx_of a.
Proof. unfold page_of, idx_of. intros. mlia. Qed.

(** Changing the bitmap of a page header. *)
Lemma linked_bits pages p h w c x l : pages !! p = Some h -> linked_pages pages x l ->
  linked_pages (<[p := mkFree w c (f_in_freelist h) (f_next h)]> pages) x l.
Proof.
  intros E. revert x. induction l as [|q l IH]; intros x Hl; [done|]. destruct Hl as (-> & h' & E' & Hf & Hl).
  split; [done|]. destruct (decide (q = p)) as [->|].
  - rewrite lookup_insert, decide_True by done. eexists. split; [done|]. simplify_eq. auto.
  - rewrite lookup_insert_ne by done. eauto.
Qed.

Lemma wp_reserve m used n p h : alloc_ok m used n -> m_pages m !! p = Some h -> f_count h <> 0 ->
  wp (merk_reserve_node_in_page p) (fun a m' => m_nodes m' = m_nodes m /\ (a ∉ used) /\ 0 < a < 2 ^ 64 /\
    alloc_ok m' ({[a]} ∪ used) n) m.
Proof.
  intros Hok Eh Hc. pose proof Hok as [C1 (l & Hnd & Hl) _ _]. pose proof C1 as [C11 C12].
  destruct (C11 p h Eh) as [(P1 & P2 & P3) P4 P5 P6]. unfold merk_reserve_node_in_page, load_page.
  apply wp_bind, wp_bind, wp_get, (wp_or_ub _ h); [done|]. rewrite (proj2 (Z.eqb_neq (f_count h) 0)) by done.
  assert (f_free h <> 0) as Hf by (intros E0; rewrite E0 in P6; by vm_compute in P6).
  rewrite (proj2 (Z.eqb_neq (f_free h) 0)) by done. destruct (ctzll_spec _ P4 Hf) as [Hi Hb].
  set (i := ctzll (f_free h)) in *. assert (i <> 0) as Hi0 by (intros E; rewrite E in Hb; congruence).
  destruct (clear_bit (f_free h) i P4 Hi) as (V1 & V2 & V3). set (v := Z.land _ _) in *.
  assert (bit_count (f_free h) = bit_count v + 1) as Hbc by (apply (bit_count_set _ _ i); auto; intros; by rewrite V3).
  pose proof (bit_count_bound v). destruct (node_addr p i P3 Hi) as (A1 & A2 & A3).
  assert (u64 (p + 64 * i) = p + 64 * i) as Eu by (apply u64_id; unfold is_u64; lia).
  apply wp_bind, wp_modify, wp_bind, wp_assert; [by rewrite (proj2 (Z.eqb_neq i 0))|]. apply wp_ret. rewrite Eu.
  split; [done|]. split; [|split; [lia|]].
  { intros Hin. destruct (C12 _ Hin) as (_ & _ & h' & E' & B'). rewrite A1, Eh in E'. simplify_eq. rewrite A2 in B'. congruence. }
  apply (alloc_ok_pages m used _ n _ _ l); [done| |done|by apply linked_bits|by eapply dom_insert_in]. split.
  - intros q h'. rewrite lookup_insert. case_decide as Eq; [|by apply C11]. subst q. intros [= <-].
    split; cbn [f_free f_count]; [done|done|by rewrite V3|]. rewrite P6, Hbc. unfold u16. rewrite Z.mod_small; lia.
  - intros a [->%elem_of_singleton|Ha]%elem_of_union.
    + rewrite A1, A2, lookup_insert, decide_True by done. split_and!; [done|done|]. eexists. split; [done|]. done.
    + destruct (C12 a Ha) as (B1 & B2 & h' & B3 & B4). split_and!; [done|done|].
      destruct (decide (p = page_of a)) as [->|]; [|exists h'; by rewrite lookup_insert_ne].
      rewrite lookup_insert, decide_True by done. eexists. split; [done|]. cbn [f_free].
      assert (h' = h) as -> by congruence.
      destruct (decide (idx_of a = i)) as [->|]; [done|]. by rewrite V3.
Qed.

Lemma alloc_ok_avoid m used n a : alloc_ok m used n -> a ∈ used -> page_of a ∉ avoid.
Proof.
  intros [[_ C2] _ _ C4] Ha Hin. destruct (C2 a Ha) as (_ & _ & h & E & _). apply (C4 (page_of a)); [|done].
  by apply elem_of_dom_2 in E.
Qed.

Lemma initial_bits : let w := Z.land initial_free (not64 1) in
  is_u64 w /\ Z.testbit w 0 = false /\ bit_count w = MERK_NODES_PER_PAGE - 1.
Proof. by vm_compute. Qed.

(** A new page at the head of the (empty) list. *)
Lemma wp_new_head m used n : alloc_ok m used (Datatypes.S n) -> merk_free_list m = 0 ->
  wp (let! p := merk_alloc_page in
      modify (set_head p) ;;;
      let! h := load_page p in
      modify (set_page p (mkFree (f_free h) (f_count h) true (f_next h))))
    (fun _ m' => alloc_ok m' used n /\ m_nodes m' = m_nodes m /\
      exists h, m_pages m' !! merk_free_list m' = Some h /\ f_count h <> 0) m.
Proof.
  intros [[C1 C2] C3 (taken & Hs & Hd & Ha) C4] E0. destruct (ps_next _ _ _ Hs) as (p & s' & E & P1 & P2 & P3 & P4 & P5).
  apply wp_bind. unfold merk_alloc_page. apply wp_bind, wp_zoom. unfold wp. rewrite E. cbn.
  rewrite (proj2 (Z.eqb_neq p 0)) by lia. cbn. unfold load_page, or_ub, bind, get. cbn.
  rewrite lookup_insert, decide_True by done. cbn. rewrite insert_insert_eq. set (w := Z.land _ _).
  destruct initial_bits as (W1 & W2 & W3). fold w in W1, W2, W3. set (h := mkFree w _ true 0).
  match goal with |- alloc_ok ?m' _ _ /\ _ =>
    assert (m' = mkMerk (m_nodes m) (<[p := h]> (m_pages m)) p s') as -> by (cbv [set_page set_head set_src]; cbn; by rewrite insert_insert_eq)
  end.
  assert (p ∉ dom (m_pages m)) as Hp by (by intros Hin%Hd).
  split; [split; cbn|split; [done|exists h; split; [by rewrite lookup_insert, decide_True|done]]].
  - split.
    + intros q h'. rewrite lookup_insert. case_decide as Eq; [subst q; intros [= <-]; by split|apply C1].
    + intros a Hin. destruct (C2 a Hin) as (A1 & A2 & h' & A3 & A4). split_and!; [done|done|]. exists h'.
      rewrite lookup_insert_ne; [done|]. intros ->. apply Hp. by apply elem_of_dom_2 in A3.
  - exists [p]. split; [apply NoDup_singleton|]. split; [done|]. exists h. by rewrite lookup_insert, decide_True.
  - exists ({[p]} ∪ taken). split; [done|]. rewrite dom_insert_L.
    split; [by apply union_mono_l|by apply union_subseteq_r'].
  - rewrite dom_insert_L. apply disjoint_union_l. split; [|done]. apply disjoint_singleton_l. intros Hin. by apply P4, Ha.
Qed.

(** Allocation returns a node that is not in use. *)
Lemma wp_alloc_node m used n : alloc_ok m used (Datatypes.S n) ->
  wp merk_alloc_node (fun a m' => m_nodes m' = m_nodes m /\ (a ∉ used) /\ 0 < a < 2 ^ 64 /\
    alloc_ok m' ({[a]} ∪ used) n) m.
Proof.
  intros Hok. unfold merk_alloc_node. apply wp_bind, wp_get, wp_bind.
  eapply wp_mono; [apply (wp_skip_full _ m used (Datatypes.S n)); [done|]|].
  { intros l Hnd Hl. by eapply linked_length. }
  intros [] m1 (Hok1 & En1 & Hh). apply wp_bind, wp_get, wp_bind.
  apply wp_mono with (P := fun _ m' => alloc_ok m' used n /\ m_nodes m' = m_nodes m /\
      exists h, m_pages m' !! merk_free_list m' = Some h /\ f_count h <> 0).
  - destruct (Z.eqb_spec (merk_free_list m1) 0) as [E0|E0].
    + eapply wp_mono; [by apply wp_new_head|]. intros _ m' (H1 & H2 & H3). rewrite H2. auto.
    + apply wp_ret. destruct Hh as [?|Hh]; [done|]. split_and!; [|done|done]. destruct Hok1 as [C1 C2 (t & T1 & T2) C4].
      split; try done. exists t. split; [by apply ps_weaken|done].
  - intros [] m2 (Hok2 & En2 & h & Eh & Hc). apply wp_bind, wp_get.
    eapply wp_mono; [by eapply wp_reserve|]. intros a m3 (H1 & H2 & H3 & H4). rewrite H1. auto.
Qed.

Lemma page_mask a : is_u64 a -> Z.land a (not64 4095) = page_of a.
Proof.
  intros Ha. unfold page_of, not64. change (2 ^ 64 - 1 - 4095) with (Z.ldiff (Z.ones 64) (Z.ones 12)).
  apply Z.bits_inj'. intros i Hi. rewrite Z.land_spec, Z.ldiff_spec.
  assert (a - a mod 4096 = a / 2 ^ 12 * 2 ^ 12 + 0) as -> by mlia. rewrite testbit_concat by lia. destruct (Z.ltb_spec i 12).
  - by rewrite (Z.ones_spec_low 12), andb_false_r, andb_false_r, Z.testbit_0_l by lia.
  - rewrite (Z.ones_spec_high 12), andb_true_r, Z.div_pow2_bits by lia. replace (i - 12 + 12) with i by lia.
    destruct (decide (i < 64)); [by rewrite Z.ones_spec_low, andb_true_r by lia|].
    by rewrite (testbit_high a 64 i) by (done || lia).
Qed.

(** Freeing a node in use. *)
Lemma wp_free_node m used n a : alloc_ok m used n -> a ∈ used -> is_u64 a ->
  wp (merk_free_node a) (fun _ m' => m_nodes m' = m_nodes m /\ alloc_ok m' (used ∖ {[a]}) n) m.
Proof.
  intros Hok Ha Hu. pose proof Hok as [C1 (l & Hnd & Hl) _ _]. pose proof C1 as [C11 C12].
  destruct (C12 a Ha) as (A1 & A2 & h & Eh & Hb). destruct (C11 _ _ Eh) as [P1 P4 P5 P6].
  assert (0 <= idx_of a < 64) as Hi by (unfold idx_of; mlia).
  unfold merk_free_node, load_page. rewrite page_mask by done.
  replace ((a - page_of a) / 64) with (idx_of a) by (unfold page_of, idx_of; f_equal; lia).
  rewrite (Z.mod_small (idx_of a) 64) by done.
  apply wp_bind, wp_bind, wp_get, (wp_or_ub _ h); [done|].
  apply wp_bind, wp_assert; [apply Z.ltb_lt; apply Hi|]. apply wp_bind, wp_assert.
  { rewrite u64_id by (rewrite Z.shiftl_1_l; split; [lia|apply Z.pow_lt_mono_r; lia]).
    by rewrite land_bit_zero, Hb by lia. }
  destruct (set_bit (f_free h) (idx_of a) P4 Hi) as (V1 & V2 & V3). set (v := Z.lor _ _) in *.
  assert (bit_count v = bit_count (f_free h) + 1) as Hbc by (by apply (bit_count_set _ _ (idx_of a))).
  pose proof (bit_count_bound v). assert (u16 (f_count h + 1) = bit_count v) as Ec
    by (unfold u16; rewrite P6, Hbc, Z.mod_small; lia). rewrite Ec.
  assert (forall b x, core_ok (<[page_of a := mkFree v (bit_count v) b x]> (m_pages m)) (used ∖ {[a]})) as Hcore.
  { intros b x. split.
    - intros q h'. rewrite lookup_insert. case_decide as Eq; [subst q; intros [= <-]|apply C11].
      split; cbn [f_free f_count]; [done|done|by rewrite V3 by done|done].
    - intros c [Hc Hne%not_elem_of_singleton]%elem_of_difference. destruct (C12 c Hc) as (B1 & B2 & h' & B3 & B4).
      split_and!; [done|done|]. destruct (decide (page_of a = page_of c)) as [Ep|];
        [|exists h'; by rewrite lookup_insert_ne].
      rewrite lookup_insert, decide_True by done. eexists. split; [done|]. cbn [f_free]. rewrite V3; [congruence|].
      intros Ei. apply Hne. rewrite (node_addr_eq a A1), (node_addr_eq c B1). lia. }
  apply wp_bind, wp_get. cbn [f_in_freelist f_free f_count f_next]. destruct (f_in_freelist h) eqn:Ef.
  - apply wp_modify. split; [done|]. apply (alloc_ok_pages m used _ n _ _ l); auto.
    + rewrite <- Ef. by apply linked_bits.
    + by eapply dom_insert_in.
  - apply wp_bind, wp_modify, wp_modify. split; [done|].
    pose proof (linked_flag _ _ _ _ _ Hl Eh Ef) as Hnin.
    apply (alloc_ok_pages m used _ n _ _ (page_of a :: l)); [done|apply Hcore|by apply list.NoDup_cons| |by eapply dom_insert_in].
    cbn [m_pages set_page]. split; [done|]. eexists. split; [by rewrite lookup_insert, decide_True|]. split; [done|].
    by apply linked_insert.
Qed.
End AllocSpec.
