(* ===== verification/MerkleInsert.v ===== *)
(** * Insertion into the Merkle tree ([runtime/crypto/merkle.c])

    The nodes in memory represent a search tree; [merk_insert] updates the map that
    the tree stands for and keeps every hash on the path right, so that [merk_verify]
    answers for the new map. *)

From S2P Require Import Prelude Mem Sha256 Merkle MerkleAlloc.
From Stdlib Require Import ZArith Lia.
From stdpp Require Import base tactics gmap sets list list_numbers numbers.
Local Open Scope Z_scope.
Local Open Scope keystone_scope.

#[local] Opaque Fips180.SHA256 le64 sha256_final sha256_feed sha256_init.

(** ** Trees with addresses *)

Inductive ctree : Type :=
  | CLeaf (a k : Z) (h : list Z)
  | CNode (a k : Z) (l r : ctree).

Definition caddr (T : ctree) : Z := match T with CLeaf a _ _ | CNode a _ _ _ => a end.
Definition ckey (T : ctree) : Z := match T with CLeaf _ k _ | CNode _ k _ _ => k end.
Fixpoint chash (T : ctree) : list Z :=
  match T with
  | CLeaf _ _ h => h
  | CNode _ _ l r => Fips180.SHA256 ((le64 (ckey l) ++ chash l) ++ (le64 (ckey r) ++ chash r))
  end.
Fixpoint cdepth (T : ctree) : nat := match T with CLeaf _ _ _ => 1%nat | CNode _ _ l r => S (max (cdepth l) (cdepth r)) end.
Definition cmsg (T : ctree) : list Z := le64 (ckey T) ++ chash T.

(** The node in memory for the root of a tree. *)
Definition cell (T : ctree) : merkle_node :=
  match T with
  | CLeaf _ k h => mkNode k h 0 0
  | CNode _ k l r => mkNode k (chash T) (caddr l) (caddr r)
  end.

Fixpoint addrs (T : ctree) : list Z :=
  match T with CLeaf a _ _ => [a] | CNode a _ l r => a :: addrs l ++ addrs r end.

(** Every node of the tree is in memory. *)
Fixpoint repr (nodes : gmap Z merkle_node) (T : ctree) : Prop :=
  nodes !! caddr T = Some (cell T) /\ match T with CLeaf _ _ _ => True | CNode _ _ l r => repr nodes l /\ repr nodes r end.
Definition below (nodes : gmap Z merkle_node) (T : ctree) : Prop :=
  match T with CLeaf _ _ _ => False | CNode _ _ l r => repr nodes l /\ repr nodes r end.

Fixpoint ctree_ok (T : ctree) : Prop :=
  0 < caddr T < 2 ^ 64 /\ is_u64 (ckey T) /\
  match T with
  | CLeaf _ _ h => Forall is_u8 h /\ length h = 32%nat
  | CNode _ _ l r => ctree_ok l /\ ctree_ok r
  end.

(** The map a search tree stands for. *)
Fixpoint tree_map (T : ctree) : gmap Z (list Z) :=
  match T with CLeaf _ k h => {[k := h]} | CNode _ _ l r => tree_map l ∪ tree_map r end.
Fixpoint bst (T : ctree) : Prop :=
  match T with
  | CLeaf _ _ _ => True
  | CNode _ k l r => (forall x, x ∈ dom (tree_map l) -> x < k) /\ (forall x, x ∈ dom (tree_map r) -> k <= x) /\ bst l /\ bst r
  end.

Lemma cell_ok T : ctree_ok T -> node_ok (cell T).
Proof.
  destruct T as [a k h|a k l r]; cbn; intros (_ & Hk & H); split; cbn; try done; try apply H.
  - apply SHA256_u8.
  - apply SHA256_length.
Qed.

Lemma cell_msg T : node_msg (Some (cell T)) = cmsg T.
Proof. by destruct T. Qed.

Lemma cell_hash T : n_hash (cell T) = chash T.
Proof. by destruct T. Qed.

Lemma repr_cell nodes T : repr nodes T -> nodes !! caddr T = Some (cell T).
Proof. destruct T; by intros [? _]. Qed.

Lemma caddr_in T : caddr T ∈ addrs T.
Proof. destruct T; by left. Qed.

Lemma repr_insert nodes T a n : a ∉ addrs T -> repr nodes T -> repr (<[a := n]> nodes) T.
Proof.
  induction T as [b k h|b k l IHl r IHr]; cbn [addrs repr caddr]; intros Ha Hr.
  - rewrite lookup_insert_ne; [done|]. intros ->. apply Ha. by left.
  - apply not_elem_of_cons in Ha as [Hne [Hl Hr']%not_elem_of_app].
    rewrite lookup_insert_ne by done. destruct Hr as (H1 & H2 & H3). auto.
Qed.

(** Hashing two children. *)
Lemma verify_cells p l r : ctree_ok l -> ctree_ok r -> n_hash p = Fips180.SHA256 (cmsg l ++ cmsg r) ->
  merk_verify_single_node p (Some (cell l)) (Some (cell r)) = true.
Proof.
  intros Hl Hr E. unfold merk_verify_single_node.
  rewrite hash_children_spec by (intros ? [= <-]; by apply cell_ok). rewrite !cell_msg. by apply bool_decide_eq_true.
Qed.

Lemma hash_cells p l r : ctree_ok l -> ctree_ok r ->
  merk_hash_single_node p (Some (cell l)) (Some (cell r)) =
    mkNode (n_ptr p) (Fips180.SHA256 (cmsg l ++ cmsg r)) (n_left p) (n_right p).
Proof.
  intros Hl Hr. unfold merk_hash_single_node.
  rewrite hash_children_spec by (intros ? [= <-]; by apply cell_ok). by rewrite !cell_msg.
Qed.

Lemma hash_root p T : ctree_ok T ->
  merk_hash_single_node p None (Some (cell T)) = mkNode (n_ptr p) (Fips180.SHA256 (cmsg T)) (n_left p) (n_right p).
Proof.
  intros HT. unfold merk_hash_single_node. rewrite hash_children_spec; [|done|intros ? [= <-]; by apply cell_ok].
  by rewrite cell_msg.
Qed.

(** ** Positions in a tree *)

Record frame : Type := mkFrame { fr_addr : Z; fr_key : Z; fr_right : bool; fr_sib : ctree }.

Definition plug1 (f : frame) (X : ctree) : ctree :=
  if fr_right f then CNode (fr_addr f) (fr_key f) (fr_sib f) X else CNode (fr_addr f) (fr_key f) X (fr_sib f).
Fixpoint plug (fs : list frame) (X : ctree) : ctree :=
  match fs with [] => X | f :: fs => plug fs (plug1 f X) end.
Fixpoint faddrs (fs : list frame) : list Z :=
  match fs with [] => [] | f :: fs => fr_addr f :: addrs (fr_sib f) ++ faddrs fs end.

(** The leaf where the search for [key] ends, with the way up. *)
Fixpoint unzip (key : Z) (T : ctree) (acc : list frame) : list frame * ctree :=
  match T with
  | CLeaf _ _ _ => (acc, T)
  | CNode a k l r =>
      if key <? k then unzip key l (mkFrame a k false r :: acc) else unzip key r (mkFrame a k true l :: acc)
  end.

Lemma plug_unzip key T acc : plug (unzip key T acc).1 (unzip key T acc).2 = plug acc T.
Proof.
  revert acc. induction T as [a k h|a k l IHl r IHr]; intros acc; cbn [unzip]; [done|].
  destruct (key <? k); [by rewrite IHl|by rewrite IHr].
Qed.

Lemma addrs_plug1 f X : addrs (plug1 f X) ≡ₚ addrs X ++ fr_addr f :: addrs (fr_sib f).
Proof. unfold plug1. destruct (fr_right f); cbn [addrs]; rewrite <- Permutation_middle; [by rewrite (Permutation_app_comm (addrs (fr_sib f)))|done]. Qed.

Lemma addrs_plug fs X : addrs (plug fs X) ≡ₚ addrs X ++ faddrs fs.
Proof.
  revert X. induction fs as [|f fs IH]; intros X; cbn [plug faddrs]; [by rewrite app_nil_r|].
  by rewrite IH, addrs_plug1, <- app_assoc.
Qed.

Definition frame_ok (f : frame) : Prop := 0 < fr_addr f < 2 ^ 64 /\ is_u64 (fr_key f) /\ ctree_ok (fr_sib f).

Lemma ctree_ok_plug1 f X : ctree_ok (plug1 f X) <-> frame_ok f /\ ctree_ok X.
Proof. unfold plug1, frame_ok. destruct (fr_right f); cbn; tauto. Qed.

Lemma ctree_ok_plug fs X : ctree_ok (plug fs X) <-> Forall frame_ok fs /\ ctree_ok X.
Proof.
  revert X. induction fs as [|f fs IH]; intros X; cbn [plug]; [split; [done|tauto]|].
  rewrite IH, ctree_ok_plug1, Forall_cons_iff. tauto.
Qed.

(** ** Walking down *)

Section Insert.
Context {S : Type} `{PageSource S}.
Implicit Types (m : merk_state S).

Lemma load_node_run a n m : m_nodes m !! a = Some n -> load_node a m = Ok (n, m).
Proof. intros E. unfold load_node, bind, get, or_ub. by rewrite E. Qed.

Lemma walk_down_spec key T : forall n acc m top,
  repr (m_nodes m) T -> ctree_ok T -> (cdepth T <= Datatypes.S n)%nat ->
  walk_down n key (caddr T :: map fr_addr acc ++ top) m =
    Ok (caddr (unzip key T acc).2 :: map fr_addr (unzip key T acc).1 ++ top, m).
Proof.
  induction T as [a k h|a k l IHl r IHr]; intros n acc m top Hr Hok Hd; cbn [unzip].
  - destruct n as [|n]; cbn [walk_down]; [done|]. unfold bind. rewrite (load_node_run _ _ _ (repr_cell _ _ Hr)).
    cbn [cell n_left n_right n_ptr]. by destruct (key <? k).
  - cbn [cdepth] in Hd. destruct n as [|n]; [destruct l, r; cbn [cdepth] in Hd; lia|]. cbn [walk_down]. unfold bind.
    rewrite (load_node_run _ _ _ (repr_cell _ _ Hr)). cbn [cell n_left n_right n_ptr].
    destruct Hr as (_ & Hl & Hr). destruct Hok as (_ & _ & Hokl & Hokr).
    assert (forall X, ctree_ok X -> (caddr X =? 0) = false) as Hnz.
    { intros X HX. apply Z.eqb_neq. destruct X; cbn in *; lia. }
    destruct (key <? k); rewrite Hnz by done.
    + apply (IHl n (mkFrame a k false r :: acc) m top); done || lia.
    + apply (IHr n (mkFrame a k true l :: acc) m top); done || lia.
Qed.

(** ** Walking up *)

(** The nodes above the position of [X], with the trees beside the way. *)
Fixpoint frames_mem (nodes : gmap Z merkle_node) (root : Z) (rh : list Z) (fs : list frame) (X : ctree) : Prop :=
  match fs with
  | [] => nodes !! root = Some (mkNode 0 rh 0 (caddr X))
  | f :: fs => nodes !! fr_addr f = Some (cell (plug1 f X)) /\ repr nodes (fr_sib f) /\
               frames_mem nodes root rh fs (plug1 f X)
  end.

Lemma frames_mem_insert nodes root rh fs X a n : a ∉ faddrs fs -> a <> root ->
  frames_mem nodes root rh fs X -> frames_mem (<[a := n]> nodes) root rh fs X.
Proof.
  revert X. induction fs as [|f fs IH]; intros X Ha Hne Hf; cbn [frames_mem faddrs] in *.
  - by rewrite lookup_insert_ne.
  - apply not_elem_of_cons in Ha as [Ha1 [Ha2 Ha3]%not_elem_of_app]. destruct Hf as (H1 & H2 & H3).
    rewrite lookup_insert_ne by done. auto using repr_insert.
Qed.

Definition root_cell (T : ctree) : merkle_node := mkNode 0 (Fips180.SHA256 (cmsg T)) 0 (caddr T).

(** What a step up from the child [X] of a frame finds, and the parent it makes for a
    new child [X']. *)
Lemma parent_facts f X X' : frame_ok f -> ctree_ok X -> ctree_ok X' -> caddr (fr_sib f) <> caddr X ->
  let p := cell (plug1 f X) in
  negb (n_left p =? 0) && negb (n_right p =? 0) = true /\
  (n_right p =? caddr X) = fr_right f /\
  (if fr_right f then n_left p else n_right p) = caddr (fr_sib f) /\
  (let '(l, r) := children (fr_right f) (cell X) (cell (fr_sib f)) in merk_verify_single_node p (Some l) (Some r)) = true /\
  (let '(l, r) := children (fr_right f) (Some (cell X')) (Some (cell (fr_sib f))) in
   merk_hash_single_node (set_child (fr_right f) (caddr X') p) l r) = cell (plug1 f X') /\
  (if fr_right f then n_right p else n_left p) = caddr X.
Proof.
  intros (_ & _ & Hs) HX HX' Hne. unfold plug1. assert (forall T, ctree_ok T -> caddr T <> 0) as Hnz.
  { intros T HT. destruct T; cbn in *; lia. }
  destruct (fr_right f); cbn [cell n_left n_right children set_child n_ptr];
    rewrite (proj2 (Z.eqb_neq (caddr X) 0)), (proj2 (Z.eqb_neq (caddr (fr_sib f)) 0)) by auto;
    (split; [done|]); (split; [first [apply Z.eqb_refl | by apply Z.eqb_neq]|]);
    rewrite ?hash_cells by done; split_and!; try done; by apply verify_cells.
Qed.

Definition is_leaf (n : merkle_node) : bool := (n_left n =? 0) && (n_right n =? 0).

(** What happens at the node itself: a leaf is spliced, an inner node taken as it is. *)
Definition at_node (new : Z) (X : ctree) (cur : merkle_node) (m : merk_state S) (X' : ctree) (m1 : merk_state S) : Prop :=
  (is_leaf cur = true /\ merk_splice_node (caddr X) new m = Ok (caddr X', m1) /\ m_nodes m1 !! caddr X' = Some (cell X')) \/
  (is_leaf cur = false /\ cur = cell X' /\ caddr X' = caddr X /\ m1 = m).

Lemma set_child_same f X : set_child (fr_right f) (caddr X) (cell (plug1 f X)) = cell (plug1 f X).
Proof. unfold plug1. by destruct (fr_right f). Qed.

Lemma set_child_get (b : bool) q p : (if b then n_right (set_child b q p) else n_left (set_child b q p)) = q.
Proof. by destruct b. Qed.

Lemma percolate_frame new f rest X X' cur m m1 :
  frame_ok f -> ctree_ok X -> ctree_ok X' -> caddr (fr_sib f) <> caddr X ->
  m_nodes m !! caddr X = Some (cell X) -> m_nodes m !! fr_addr f = Some (cell (plug1 f X)) ->
  m_nodes m !! caddr (fr_sib f) = Some (cell (fr_sib f)) -> at_node new X cur m X' m1 ->
  percolate new (caddr X :: fr_addr f :: rest) cur m =
    percolate new (fr_addr f :: rest) (cell (plug1 f X')) (set_nodes <[caddr X' := cell X']> m1).
Proof.
  intros Hf HX HX' Hne E1 E2 E3 Hat. destruct (parent_facts f X X' Hf HX HX' Hne) as (F1 & F2 & F3 & F4 & F5 & F6).
  cbn [percolate]. unfold bind at 1. rewrite (load_node_run _ _ _ E2). rewrite F1, F2, F3.
  unfold bind at 1 2. rewrite (load_node_run _ _ _ E3). unfold ret at 1. unfold bind at 1 2. rewrite (load_node_run _ _ _ E1).
  destruct (children (fr_right f) (cell X) (cell (fr_sib f))) as [l r]. rewrite F4. unfold ret at 1. cbn [negb].
  fold (is_leaf cur). destruct Hat as [(El & Es & En)|(El & -> & Ea & ->)]; rewrite El.
  - unfold bind at 1 2. rewrite Es. unfold bind at 1. rewrite (load_node_run _ _ _ En). unfold ret at 1.
    rewrite set_child_get, Z.eqb_refl. unfold bind at 1, sm_assert, ret at 1.
    destruct (children (fr_right f) (Some (cell X')) (Some (cell (fr_sib f)))) as [l' r']. rewrite F5. reflexivity.
  - unfold bind at 1, ret at 1. rewrite F6, Z.eqb_refl. unfold bind at 1, sm_assert, ret at 1.
    rewrite Ea, set_child_same in F5. rewrite Ea.
    destruct (children (fr_right f) (Some (cell X')) (Some (cell (fr_sib f)))) as [l' r']. rewrite F5. reflexivity.
Qed.

Lemma percolate_root new root rh X X' cur m m1 :
  ctree_ok X' -> m_nodes m !! root = Some (mkNode 0 rh 0 (caddr X)) -> at_node new X cur m X' m1 ->
  percolate new [caddr X; root] cur m = Ok (Some (root_cell X'), set_nodes <[caddr X' := cell X']> m1).
Proof.
  intros HX' E2 Hat. cbn [percolate]. unfold bind at 1. rewrite (load_node_run _ _ _ E2). cbn [n_left n_right Z.eqb negb andb].
  unfold bind at 1, ret at 1. unfold bind at 1, ret at 1. cbn [negb]. rewrite Z.eqb_refl.
  fold (is_leaf cur). destruct Hat as [(El & Es & En)|(El & -> & Ea & ->)]; rewrite El.
  - unfold bind at 1 2. rewrite Es. unfold bind at 1. rewrite (load_node_run _ _ _ En). unfold ret at 1.
    cbn [set_child n_ptr n_hash n_left n_right children]. rewrite Z.eqb_refl. unfold bind at 1, sm_assert, ret at 1.
    by rewrite hash_root by done.
  - unfold bind at 1, ret at 1. rewrite Z.eqb_refl. unfold bind at 1, sm_assert, ret at 1. cbn [children].
    rewrite hash_root, <- Ea by done. reflexivity.
Qed.

Lemma repr_store nodes T : below nodes T -> NoDup (addrs T) -> repr (<[caddr T := cell T]> nodes) T.
Proof.
  destruct T as [|a k l r]; [done|]. intros [Hl Hr] [Ha _]%list.NoDup_cons.
  apply not_elem_of_app in Ha as [Hal Har]. split; [by rewrite lookup_insert, decide_True|].
  split; by apply repr_insert.
Qed.

Lemma at_node_inner new X X' m : below (m_nodes m) X' -> ctree_ok X' -> caddr X' = caddr X ->
  at_node new X (cell X') m X' m.
Proof.
  intros Hb HX' Ea. right. split_and!; try done. destruct X' as [|? ? l r]; [done|]. destruct HX' as (_ & _ & Hl & _).
  unfold is_leaf. cbn [cell n_left]. rewrite (proj2 (Z.eqb_neq (caddr l) 0)); [done|]. destruct l; cbn in *; lia.
Qed.

Lemma repr_ext nodes nodes' T : (forall a, a ∈ addrs T -> nodes' !! a = nodes !! a) -> repr nodes T -> repr nodes' T.
Proof.
  induction T as [b k h|b k l IHl r IHr]; cbn [addrs repr caddr]; intros He Hr; (rewrite He by by left); [done|].
  destruct Hr as (H1 & H2 & H3). split_and!; [done|apply IHl|apply IHr]; try done;
    intros a Ha; apply He; right; apply elem_of_app; auto.
Qed.

Lemma frames_mem_ext nodes nodes' root rh fs X : (forall a, a ∈ faddrs fs \/ a = root -> nodes' !! a = nodes !! a) ->
  frames_mem nodes root rh fs X -> frames_mem nodes' root rh fs X.
Proof.
  revert X. induction fs as [|f fs IH]; intros X He Hf; cbn [frames_mem faddrs] in *; [by rewrite He by auto|].
  destruct Hf as (H1 & H2 & H3). split_and!.
  - rewrite He; [done|]. left. by left.
  - apply (repr_ext nodes); [|done]. intros a Ha. apply He. left. right. apply elem_of_app. auto.
  - apply IH; [|done]. intros a Ha. apply He. destruct Ha as [Ha|Ha]; [|auto]. left. right. apply elem_of_app. auto.
Qed.

(** A tree in memory, seen from a position in it. *)
Lemma repr_frames nodes root rh fs X : repr nodes (plug fs X) -> nodes !! root = Some (mkNode 0 rh 0 (caddr (plug fs X))) ->
  frames_mem nodes root rh fs X /\ repr nodes X.
Proof.
  revert X. induction fs as [|f fs IH]; intros X Hr Ht; cbn [plug frames_mem] in *; [done|].
  destruct (IH _ Hr Ht) as [H1 H2]. pose proof (repr_cell _ _ H2) as H3. revert H1 H2 H3. unfold plug1.
  destruct (fr_right f); cbn [repr caddr]; tauto.
Qed.

(** The whole way up for an inner node that changed. *)
Lemma percolate_up new root rh fs : forall X X' m,
  ctree_ok (plug fs X) -> ctree_ok X' -> caddr X' = caddr X -> below (m_nodes m) X' ->
  m_nodes m !! caddr X = Some (cell X) -> frames_mem (m_nodes m) root rh fs X ->
  NoDup (addrs X' ++ faddrs fs) -> root ∉ addrs X' ++ faddrs fs ->
  exists nodes', percolate new (caddr X :: map fr_addr fs ++ [root]) (cell X') m =
      Ok (Some (root_cell (plug fs X')), mkMerk nodes' (m_pages m) (merk_free_list m) (m_src m)) /\
    repr nodes' (plug fs X') /\ nodes' !! root = m_nodes m !! root.
Proof.
  induction fs as [|f fs IH]; intros X X' m HX HX' Ea Hb E1 Hfr Hnd Hroot;
    pose proof (at_node_inner new X X' m Hb HX' Ea) as Hat;
    pose proof Hnd as (Hnd1 & Hdis & Hnd2)%list.NoDup_app;
    pose proof Hroot as [Hr1 Hr2]%not_elem_of_app;
    assert (root <> caddr X') as Hrne by (intros ->; apply Hr1, caddr_in).
  - cbn [plug map app] in *. rewrite (percolate_root new root rh X X' (cell X') m m) by done.
    exists (<[caddr X' := cell X']> (m_nodes m)). split; [done|]. split; [by apply repr_store|].
    by rewrite lookup_insert_ne.
  - cbn [plug map app faddrs frames_mem] in *. destruct Hfr as (Hf1 & Hf2 & Hf3).
    apply ctree_ok_plug in HX as HX0. destruct HX0 as [Hfs HX1]. apply ctree_ok_plug1 in HX1 as [Hfok HX1].
    pose proof (Hdis (caddr X') (caddr_in X')) as Hc. apply not_elem_of_cons in Hc as [Hc1 [Hc2 Hc3]%not_elem_of_app].
    rewrite (percolate_frame new f _ X X' (cell X') m m); try done.
    2: { rewrite <- Ea. intros E. apply Hc2. rewrite <- E. apply caddr_in. }
    2: { by apply repr_cell. }
    set (m2 := set_nodes <[caddr X' := cell X']> m).
    assert (fr_addr f = caddr (plug1 f X)) as -> by (unfold plug1; by destruct (fr_right f)).
    assert (addrs (plug1 f X') ++ faddrs fs ≡ₚ addrs X' ++ fr_addr f :: addrs (fr_sib f) ++ faddrs fs) as Hperm
      by (by rewrite addrs_plug1, <- app_assoc).
    assert (repr (m_nodes m2) X') as HrX by by apply repr_store.
    assert (repr (m_nodes m2) (fr_sib f)) as HrS by by apply repr_insert.
    destruct (IH (plug1 f X) (plug1 f X') m2) as (nodes' & E & Hr & Hrt); try done.
    + apply ctree_ok_plug1. done.
    + unfold plug1. by destruct (fr_right f).
    + unfold plug1. by destruct (fr_right f).
    + assert (caddr (plug1 f X) = fr_addr f) as -> by (unfold plug1; by destruct (fr_right f)).
      cbn [m_nodes set_nodes m2]. by rewrite lookup_insert_ne.
    + by apply frames_mem_insert.
    + by rewrite Hperm.
    + by rewrite Hperm.
    + exists nodes'. split; [done|]. split; [done|]. rewrite Hrt. cbn [m_nodes set_nodes m2].
      by rewrite lookup_insert_ne.
Qed.

(** The whole way up from a leaf that is spliced. *)
Lemma percolate_leaf new root rh fs a k h X' m m1 :
  ctree_ok (plug fs (CLeaf a k h)) -> ctree_ok X' -> repr (m_nodes m) (CLeaf a k h) ->
  frames_mem (m_nodes m) root rh fs (CLeaf a k h) -> a ∉ faddrs fs ->
  merk_splice_node a new m = Ok (caddr X', m1) -> repr (m_nodes m1) X' ->
  (forall b, b ∈ faddrs fs \/ b = root -> m_nodes m1 !! b = m_nodes m !! b) ->
  NoDup (addrs X' ++ faddrs fs) -> root ∉ addrs X' ++ faddrs fs ->
  exists nodes', percolate new (a :: map fr_addr fs ++ [root]) (cell (CLeaf a k h)) m =
      Ok (Some (root_cell (plug fs X')), mkMerk nodes' (m_pages m1) (merk_free_list m1) (m_src m1)) /\
    repr nodes' (plug fs X') /\ nodes' !! root = m_nodes m !! root.
Proof.
  intros HT HX' HrL Hfr Ha Hsp HrX He Hnd Hroot. set (L := CLeaf a k h) in *.
  assert (at_node new L (cell L) m X' m1) as Hat by (left; split_and!; [done|done|by apply repr_cell]).
  assert (<[caddr X' := cell X']> (m_nodes m1) = m_nodes m1) as Eid by (apply insert_id; by apply repr_cell).
  change a with (caddr L). destruct fs as [|f fs]; cbn [map app plug frames_mem faddrs] in *.
  - rewrite (percolate_root new root rh L X' (cell L) m m1) by done. exists (m_nodes m1).
    unfold set_nodes. rewrite Eid. split; [done|]. split; [done|]. by apply He; right.
  - destruct Hfr as (Hf1 & Hf2 & Hf3). apply ctree_ok_plug in HT as HT0. destruct HT0 as [_ HT1].
    apply ctree_ok_plug1 in HT1 as [Hfok HL]. apply not_elem_of_cons in Ha as [Ha1 [Ha2 Ha3]%not_elem_of_app].
    rewrite (percolate_frame new f _ L X' (cell L) m m1); try done; [|by intros E; apply Ha2; change a with (caddr L); rewrite <- E; apply caddr_in|by apply repr_cell|by apply repr_cell].
    unfold set_nodes. rewrite Eid. set (m4 := mkMerk _ _ _ _).
    assert (m_nodes m4 = m_nodes m1) as E4 by done.
    assert (fr_addr f = caddr (plug1 f L)) as Ef by (unfold plug1; by destruct (fr_right f)). rewrite Ef.
    assert (addrs (plug1 f X') ++ faddrs fs ≡ₚ addrs X' ++ fr_addr f :: addrs (fr_sib f) ++ faddrs fs) as Hperm
      by (by rewrite addrs_plug1, <- app_assoc).
    assert (repr (m_nodes m4) (fr_sib f)) as HrS.
    { apply (repr_ext (m_nodes m)); [|done]. intros b Hb. apply He. left. right. apply elem_of_app. auto. }
    destruct (percolate_up new root rh fs (plug1 f L) (plug1 f X') m4) as (nodes' & E & Hr & Hrt); try done.
    + apply ctree_ok_plug1. done.
    + unfold plug1. by destruct (fr_right f).
    + unfold plug1. by destruct (fr_right f).
    + rewrite <- Ef, E4, He; [done|]. left. by left.
    + apply (frames_mem_ext (m_nodes m)); [|done]. intros b Hb. rewrite E4. apply He.
      destruct Hb as [Hb|Hb]; [|auto]. left. right. apply elem_of_app. auto.
    + by rewrite Hperm.
    + by rewrite Hperm.
    + exists nodes'. split; [done|]. split; [done|]. rewrite Hrt, E4. by apply He; right.
Qed.

Lemma unzip_length key T acc : (length (unzip key T acc).1 < cdepth T + length acc)%nat.
Proof.
  revert acc. induction T as [a k h|a k l IHl r IHr]; intros acc; cbn [unzip]; [cbn [fst cdepth]; lia|].
  cbn [cdepth]. destruct (key <? k);
    [specialize (IHl (mkFrame a k false r :: acc))|specialize (IHr (mkFrame a k true l :: acc))]; cbn [length] in *; lia.
Qed.
End Insert.

(** ** Splicing a leaf *)

(** The tree that replaces the leaf [a], [k], [h]; the new node is at [new] and a new
    parent, if needed, at [par]. *)
Definition splice_tree (a k : Z) (h : list Z) (key : Z) (hash : list Z) (new par : Z) : ctree :=
  if key =? k then CLeaf new key hash
  else if key <? k then CNode par k (CLeaf new key hash) (CLeaf a k h)
  else CNode par key (CLeaf a k h) (CLeaf new key hash).

Lemma splice_set_same (used : gset Z) a new : new ∈ used -> a <> new ->
  used ∖ {[a]} = list_to_set [new] ∪ used ∖ {[a; new]}.
Proof.
  intros Hn Hne. apply set_eq. intros x. cbn [list_to_set]. destruct (decide (x = new)) as [->|]; set_solver.
Qed.

Lemma splice_set_new (used : gset Z) a new par l : a ∈ used -> new ∈ used -> l ≡ₚ [par; a; new] ->
  {[par]} ∪ used = list_to_set l ∪ used ∖ {[a; new]}.
Proof.
  intros Ha Hn Hl. apply set_eq. intros x. rewrite !elem_of_union, elem_of_list_to_set, Hl, elem_of_difference.
  destruct (decide (x = a)) as [->|]; [set_solver|]. destruct (decide (x = new)) as [->|]; set_solver.
Qed.

Section InsertOk.
Context {S : Type} `{PageSourceOk S} (avoid : gset Z).
Implicit Types (m : merk_state S) (used : gset Z).

Lemma wp_run {A} (c : M (merk_state S) A) Q m : wp c Q m -> exists a m', c m = Ok (a, m') /\ Q a m'.
Proof. apply wp_inv. Qed.

Lemma splice_spec m used n a k h key hash new :
  alloc_ok avoid m used (Datatypes.S n) -> a ∈ used -> new ∈ used -> a <> new ->
  ctree_ok (CLeaf a k h) -> ctree_ok (CLeaf new key hash) ->
  m_nodes m !! a = Some (mkNode k h 0 0) -> m_nodes m !! new = Some (mkNode key hash 0 0) ->
  exists par m1, let X' := splice_tree a k h key hash new par in
    merk_splice_node a new m = Ok (caddr X', m1) /\ repr (m_nodes m1) X' /\ ctree_ok X' /\ NoDup (addrs X') /\
    (forall x, x ∈ addrs X' -> x = a \/ x = new \/ x ∉ used) /\
    (forall b, b ∈ used \/ b ∉ addrs X' -> m_nodes m1 !! b = m_nodes m !! b) /\
    alloc_ok avoid m1 (list_to_set (addrs X') ∪ used ∖ {[a; new]}) n.
Proof.
  intros Hok Ha Hn Hne HL HN Ea En. pose proof HL as (Hau & Hk & Hh). pose proof HN as (Hnu & Hkey & Hhash). cbn [caddr ckey] in *.
  unfold splice_tree. unfold merk_splice_node. destruct (Z.eqb_spec key k) as [Ek|Ek].
  - destruct (wp_run _ _ _ (wp_free_node avoid m used (Datatypes.S n) a Hok Ha ltac:(unfold is_u64; lia)))
      as ([] & m1 & E & Hnodes & Hok1). exists 0, m1.
    split. { unfold bind at 1 2. rewrite (load_node_run _ _ _ En). rewrite (load_node_run _ _ _ Ea). cbn [n_ptr].
      rewrite (proj2 (Z.eqb_eq key k)) by done. unfold bind. by rewrite E. }
    rewrite Hnodes. split_and!; try done.
    + apply NoDup_singleton.
    + intros x ->%list_elem_of_singleton. auto.
    + change (addrs (CLeaf new key hash)) with [new]. rewrite <- splice_set_same by done. destruct Hok1 as [C1 C2 (t & T1 & T2) C4]. split; try done.
      exists t. split; [by apply ps_weaken|done].
  - destruct (wp_run _ _ _ (wp_alloc_node avoid m used n Hok)) as (par & m1 & E & Hnodes & Hpar & Hpu & Hok1).
    assert (par <> a /\ par <> new) as [Hpa Hpn] by (split; by intros ->).
    exists par. set (X' := if key <? k then _ else _).
    exists (mkMerk (<[par := cell X']> (m_nodes m)) (m_pages m1) (merk_free_list m1) (m_src m1)).
    assert (addrs X' ≡ₚ [par; a; new]) as HpX.
    { unfold X'. destruct (key <? k); cbn [addrs app]; [|done]. by rewrite (Permutation_swap new a). }
    split.
    { unfold bind at 1 2. rewrite (load_node_run _ _ _ En). rewrite (load_node_run _ _ _ Ea). cbn [n_ptr].
      rewrite (proj2 (Z.eqb_neq key k)) by done. unfold bind at 1. rewrite E. unfold bind at 1 2.
      rewrite (load_node_run new (mkNode key hash 0 0) m1), (load_node_run a (mkNode k h 0 0) m1) by (by rewrite Hnodes).
      cbn [n_ptr]. unfold X'. destruct (key <? k); unfold bind at 1 2, store_node, modify at 1, hash_in_place, set_nodes at 1;
        unfold bind;
        do 2 (first [rewrite (load_node_run new (mkNode key hash 0 0)) by (cbn [m_nodes]; by rewrite lookup_insert_ne, Hnodes)
                    |rewrite (load_node_run a (mkNode k h 0 0)) by (cbn [m_nodes]; by rewrite lookup_insert_ne, Hnodes)]);
        erewrite load_node_run by (cbn [m_nodes]; by rewrite lookup_insert, decide_True);
        unfold store_node, modify, ret, set_nodes; cbn [m_nodes m_pages merk_free_list m_src caddr];
        rewrite insert_insert_eq, Hnodes; do 4 f_equal.
      - exact (hash_cells (mkNode k (replicate 32 0) new a) (CLeaf new key hash) (CLeaf a k h) HN HL).
      - exact (hash_cells (mkNode key (replicate 32 0) a new) (CLeaf a k h) (CLeaf new key hash) HL HN). }
    cbn [m_nodes]. split_and!.
    + unfold X'. destruct (key <? k); cbn [repr caddr]; rewrite lookup_insert, decide_True by done;
        rewrite !lookup_insert_ne by done; by rewrite Ea, En.
    + unfold X'. destruct (key <? k); cbn [ctree_ok caddr ckey] in *; tauto.
    + rewrite HpX. repeat (apply list.NoDup_cons; split); [set_solver|set_solver|set_solver|apply base.NoDup_nil_2].
    + intros x Hx. rewrite HpX in Hx. apply elem_of_cons in Hx as [->|Hx]; [auto|]. set_solver.
    + intros b Hb. rewrite lookup_insert_ne; [done|]. intros <-. destruct Hb as [?|Hb]; [done|]. apply Hb. rewrite HpX. by left.
    + rewrite <- (splice_set_new used a new par) by done. destruct Hok1 as [C1 C2 C3 C4]. by split.
Qed.

(** ** Insertion *)

(** The map of the whole structure: nothing, or a tree. *)
Definition merk_map (oT : option ctree) : gmap Z (list Z) := from_option tree_map ∅ oT.

Record merk_inv (root : Z) m (oT : option ctree) (n : nat) : Prop := {
  mi_alloc : alloc_ok avoid m (list_to_set (from_option addrs [] oT)) n;
  mi_avoid : page_of root ∈ avoid;
  mi_root : match oT with
    | None => exists h, m_nodes m !! root = Some (mkNode 0 h 0 0)
    | Some T => m_nodes m !! root = Some (root_cell T)
    end;
  mi_tree : forall T, oT = Some T -> repr (m_nodes m) T /\ ctree_ok T /\ NoDup (addrs T) /\ bst T
}.

(** The abstract insertion. *)
Fixpoint cins (key : Z) (hash : list Z) (new par : Z) (T : ctree) : ctree :=
  match T with
  | CLeaf a k h => splice_tree a k h key hash new par
  | CNode a k l r =>
      if key <? k then CNode a k (cins key hash new par l) r else CNode a k l (cins key hash new par r)
  end.

Lemma plug_cins key hash new par T acc :
  exists a k h, (unzip key T acc).2 = CLeaf a k h /\
    plug (unzip key T acc).1 (splice_tree a k h key hash new par) = plug acc (cins key hash new par T).
Proof.
  revert acc. induction T as [a k h|a k l IHl r IHr]; intros acc; cbn [unzip cins]; [by exists a, k, h|].
  destruct (key <? k).
  - destruct (IHl (mkFrame a k false r :: acc)) as (a' & k' & h' & E1 & E2). by exists a', k', h'.
  - destruct (IHr (mkFrame a k true l :: acc)) as (a' & k' & h' & E1 & E2). by exists a', k', h'.
Qed.

Lemma cins_map key hash new par T : bst T ->
  tree_map (cins key hash new par T) = <[key := hash]> (tree_map T) /\ bst (cins key hash new par T).
Proof.
  induction T as [a k h|a k l IHl r IHr]; cbn [cins bst tree_map].
  - intros _. unfold splice_tree. destruct (Z.eqb_spec key k) as [->|Hne]; [by rewrite insert_singleton_eq|].
    destruct (Z.ltb_spec key k); cbn [tree_map bst]; rewrite !dom_singleton_L.
    + split; [by rewrite insert_union_singleton_l|]. split_and!; try done; intros x ->%elem_of_singleton; lia.
    + split; [rewrite map_union_comm by (apply map_disjoint_singleton_l; by rewrite lookup_singleton_ne);
        by rewrite insert_union_singleton_l|].
      split_and!; try done; intros x ->%elem_of_singleton; lia.
  - intros (Hl & Hr & Hbl & Hbr). destruct (Z.ltb_spec key k) as [Hlt|Hge]; cbn [tree_map bst].
    + destruct (IHl Hbl) as [-> Hb]. split; [by rewrite insert_union_l|]. split_and!; try done.
      intros x. rewrite dom_insert_L. intros [->%elem_of_singleton|Hx]%elem_of_union; [done|by apply Hl].
    + destruct (IHr Hbr) as [-> Hb]. split.
      * rewrite insert_union_r; [done|]. apply not_elem_of_dom. intros Hx%Hl. lia.
      * split_and!; try done. intros x. rewrite dom_insert_L. intros [->%elem_of_singleton|Hx]%elem_of_union; [done|by apply Hr].
Qed.

Lemma cins_depth key hash new par T : (cdepth (cins key hash new par T) <= Datatypes.S (cdepth T))%nat.
Proof.
  induction T as [a k h|a k l IHl r IHr]; cbn [cins].
  - unfold splice_tree. repeat case_match; cbn [cdepth]; lia.
  - destruct (key <? k); cbn [cdepth]; lia.
Qed.

Lemma alloc_ok_nodes m used n nodes' : alloc_ok avoid m used n ->
  alloc_ok avoid (mkMerk nodes' (m_pages m) (merk_free_list m) (m_src m)) used n.
Proof. intros [C1 C2 C3 C4]. by split. Qed.

Lemma used_not_root m used n root a : alloc_ok avoid m used n -> page_of root ∈ avoid -> a ∈ used -> a <> root.
Proof. intros Hok Hr Ha ->. by eapply alloc_ok_avoid. Qed.

(** The addresses after a splice. *)
Lemma splice_addrs fs a new X' T : T ≡ₚ a :: faddrs fs -> NoDup T -> new ∉ T ->
  (list_to_set (addrs X') ∪ ({[new]} ∪ list_to_set T) ∖ {[a; new]} : gset Z) = list_to_set (addrs X' ++ faddrs fs).
Proof.
  intros HT Hnd Hn. rewrite list_to_set_app_L. f_equal. rewrite HT in *. apply list.NoDup_cons in Hnd as [Ha Hnd].
  apply not_elem_of_cons in Hn as [Hne Hn]. cbn [list_to_set]. apply set_eq. intros x.
  rewrite elem_of_difference, !elem_of_union, !elem_of_singleton, elem_of_list_to_set.
  split; [tauto|]. intros Hx. split; [auto|]. intros [->| ->]; done.
Qed.

(** The way up for a new leaf [new] that is already in memory. *)
Lemma place_leaf root m T n key hash new :
  alloc_ok avoid m ({[new]} ∪ list_to_set (addrs T)) (Datatypes.S n) -> page_of root ∈ avoid -> new ∉ addrs T ->
  repr (m_nodes m) T -> ctree_ok T -> NoDup (addrs T) -> ctree_ok (CLeaf new key hash) ->
  m_nodes m !! root = Some (root_cell T) -> m_nodes m !! new = Some (mkNode key hash 0 0) ->
  let '(fs, L) := unzip key T [] in
  repr (m_nodes m) L /\
  exists par m', let T' := cins key hash new par T in
    percolate new (caddr L :: map fr_addr fs ++ [root]) (cell L) m = Ok (Some (root_cell T'), m') /\
    repr (m_nodes m') T' /\ ctree_ok T' /\ NoDup (addrs T') /\ alloc_ok avoid m' (list_to_set (addrs T')) n.
Proof.
  intros Hal Hav Hnew Hrep Hok Hnd HN Hrt En.
  destruct (plug_cins key hash new 0 T []) as (a & k & h & EL & _). pose proof (plug_unzip key T []) as Epl.
  pose proof (fun par => plug_cins key hash new par T []) as Hci.
  destruct (unzip key T []) as [fs L] eqn:Ez. cbn [fst snd plug] in *. subst L.
  assert (addrs T ≡ₚ a :: faddrs fs) as Hpa by (by rewrite <- Epl, addrs_plug).
  assert (a ∈ addrs T) as HaT by (rewrite Hpa; by left).
  assert ((a ∉ faddrs fs) /\ NoDup (faddrs fs)) as [Hafs Hndf] by (rewrite Hpa in Hnd; by apply list.NoDup_cons in Hnd).
  assert (ctree_ok (plug fs (CLeaf a k h))) as Hokp by by rewrite Epl.
  destruct (repr_frames (m_nodes m) root (Fips180.SHA256 (cmsg T)) fs (CLeaf a k h)) as [Hfr HrL]; [by rewrite Epl..|].
  assert (forall x, x ∈ addrs T -> x ∈ ({[new]} ∪ list_to_set (addrs T) : gset Z)) as Hin
    by (intros x Hx; apply elem_of_union; right; by apply elem_of_list_to_set).
  assert (forall x, x ∈ faddrs fs -> x ∈ addrs T) as Hfin by (intros x Hx; rewrite Hpa; by right).
  destruct (splice_spec m _ n a k h key hash new Hal) as (par & m3 & Hs1 & Hs2 & Hs3 & Hs4 & Hs5 & Hs6 & Hs7); try done; auto.
  { apply elem_of_union. left. by apply elem_of_singleton. }
  { by intros ->. }
  { by apply ctree_ok_plug in Hokp as [_ ?]. }
  { by apply repr_cell in HrL. }
  destruct (Hci par) as (a' & k' & h' & [= <- <- <-] & Eci). set (X' := splice_tree a k h key hash new par) in *.
  rewrite (splice_addrs fs) in Hs7 by done.
  assert (root ∉ addrs X' ++ faddrs fs) as Hroot.
  { intros Hr. by apply (used_not_root _ _ _ root root Hs7 Hav); [apply elem_of_list_to_set|]. }
  assert (NoDup (addrs X' ++ faddrs fs)) as Hnd'.
  { apply list.NoDup_app. split_and!; [done| |done]. intros x Hx Hxf. destruct (Hs5 x Hx) as [->|[->|Hx']]; auto. }
  destruct (percolate_leaf new root (Fips180.SHA256 (cmsg T)) fs a k h X' m m3) as (nodes' & Ep & Hr' & Hrt'); try done.
  { intros b [Hb|Hb]; apply Hs6; [auto|right]. subst b. by apply not_elem_of_app in Hroot as [? _]. }
  split; [done|]. exists par, (mkMerk nodes' (m_pages m3) (merk_free_list m3) (m_src m3)). rewrite <- Eci.
  split_and!; [done|done| |by rewrite addrs_plug|by rewrite (list_to_set_perm_L _ _ (addrs_plug fs X')); apply alloc_ok_nodes].
  apply ctree_ok_plug in Hokp as [? _]. by apply ctree_ok_plug.
Qed.

(** The first step: the root's key is 0 and its tree is on the right. *)
Lemma walk_down_root d key root T m : ctree_ok T -> 0 <= key -> m_nodes m !! root = Some (root_cell T) ->
  walk_down (Datatypes.S d) key [root] m = walk_down d key [caddr T; root] m.
Proof.
  intros Hok Hk Hrt. cbn [walk_down]. unfold bind. rewrite (load_node_run _ _ _ Hrt). cbn [root_cell n_ptr n_left n_right].
  rewrite (proj2 (Z.ltb_ge key 0)) by done.
  assert ((caddr T =? 0) = false) as -> by (apply Z.eqb_neq; destruct T; cbn in *; lia). done.
Qed.

Lemma insert_tree root m T n key hash :
  merk_inv root m (Some T) (Datatypes.S (Datatypes.S n)) -> ctree_ok (CLeaf 1 key hash) -> (cdepth T <= 31)%nat ->
  exists new par m', merk_insert root key hash m = Ok (0, m') /\ merk_inv root m' (Some (cins key hash new par T)) n.
Proof.
  intros [Hal Hav Hrt Htr] Hleaf Hd. destruct (Htr T eq_refl) as (Hrep & Hok & Hnd & Hbst). clear Htr. cbn [from_option] in Hal.
  destruct (wp_run _ _ _ (wp_alloc_node avoid m _ _ Hal)) as (new & m1 & E1 & En1 & Hnew & Hnu & Hal1).
  rewrite elem_of_list_to_set in Hnew. set (m2 := set_nodes <[new := mkNode key hash 0 0]> m1).
  assert (new <> root) as Hnr by (eapply used_not_root; [exact Hal1|done|]; apply elem_of_union; left; by apply elem_of_singleton).
  assert (repr (m_nodes m2) T) as Hrep2 by (cbn [m_nodes set_nodes m2]; rewrite En1; by apply repr_insert).
  assert (m_nodes m2 !! root = Some (root_cell T)) as Hrt2 by (cbn [m_nodes set_nodes m2]; by rewrite lookup_insert_ne, En1).
  pose proof (place_leaf root m2 T n key hash new) as Hpl.
  pose proof (fun X => walk_down_spec key T 30 [] m2 [root] Hrep2 Hok X) as Hwd. pose proof (unzip_length key T []) as Hfl.
  destruct (unzip key T []) as [fs L]. cbn [fst snd map app length] in *.
  destruct Hpl as (HrL & par & m' & Ep & Hr' & Hok' & Hnd' & Hal'); try done.
  { by apply alloc_ok_nodes. }
  { destruct Hleaf as (_ & ? & ?). split; [done|]. by split. }
  { cbn [m_nodes set_nodes m2]. by rewrite lookup_insert, decide_True. }
  set (T' := cins key hash new par T) in *.
  exists new, par, (set_nodes <[root := root_cell T']> m'). split.
  - unfold merk_insert, bind at 1. rewrite E1. unfold bind at 1, store_node at 1, modify at 1. fold m2.
    unfold bind at 1. rewrite (load_node_run _ _ _ Hrt2). cbn [root_cell n_right].
    assert ((caddr T =? 0) = false) as -> by (apply Z.eqb_neq; destruct T; cbn in *; lia).
    change (Z.to_nat (MERK_MAX_DEPTH - 1)) with (Datatypes.S 30). unfold bind at 1.
    rewrite (walk_down_root 30 key root T m2) by (try done; destruct Hleaf as (_ & [? _] & _); done).
    rewrite Hwd by lia. cbn [length head default]. rewrite length_app, length_map. cbn [length].
    rewrite (proj2 (Z.eqb_neq _ MERK_MAX_DEPTH)) by (unfold MERK_MAX_DEPTH; lia). unfold bind at 1, sm_assert, ret at 1. cbn [negb].
    unfold id, bind at 1. rewrite (load_node_run _ _ _ (repr_cell _ _ HrL)). unfold bind at 1. rewrite Ep. done.
  - assert (root ∉ addrs T') as Hroot.
    { intros Hin. by apply (used_not_root _ _ _ root root Hal' Hav); [apply elem_of_list_to_set|]. }
    split; [by apply alloc_ok_nodes|done|cbn [m_nodes set_nodes]; by rewrite lookup_insert, decide_True|].
    intros ? [= <-]. split_and!; [by apply repr_insert|done|done|by apply cins_map].
Qed.

Lemma alloc_ok_weaken m used n : alloc_ok avoid m used (Datatypes.S n) -> alloc_ok avoid m used n.
Proof. intros [C1 C2 (t & T1 & T2) C4]. split; try done. exists t. split; [by apply ps_weaken|done]. Qed.

Lemma insert_first root m n key hash :
  merk_inv root m None (Datatypes.S n) -> ctree_ok (CLeaf 1 key hash) ->
  exists new m', merk_insert root key hash m = Ok (0, m') /\ merk_inv root m' (Some (CLeaf new key hash)) n.
Proof.
  intros [Hal Hav [h Hrt] _] (_ & Hk & Hh). cbn [from_option list_to_set] in Hal.
  destruct (wp_run _ _ _ (wp_alloc_node avoid m _ _ Hal)) as (new & m1 & E1 & En1 & Hnew & Hnu & Hal1).
  assert (ctree_ok (CLeaf new key hash)) as Hok by done.
  assert (new <> root) as Hnr by (eapply used_not_root; [exact Hal1|done|]; apply elem_of_union; left; by apply elem_of_singleton).
  exists new, (set_nodes <[root := root_cell (CLeaf new key hash)]> (set_nodes <[new := mkNode key hash 0 0]> m1)). split.
  - unfold merk_insert, bind at 1. rewrite E1. unfold bind at 1, store_node at 1, modify at 1, bind at 1.
    rewrite (load_node_run _ (mkNode 0 h 0 0)) by (cbn [m_nodes set_nodes]; by rewrite lookup_insert_ne, En1).
    cbn [n_right Z.eqb]. change (mkNode key hash 0 0) with (cell (CLeaf new key hash)) at 2. rewrite hash_root by done. done.
  - split; [| done| cbn [m_nodes set_nodes]; by rewrite lookup_insert, decide_True|].
    + apply alloc_ok_nodes, (alloc_ok_nodes m1). cbn [from_option addrs list_to_set]. done.
    + intros ? [= <-]. split_and!; try done; [|apply NoDup_singleton]. cbn [repr caddr m_nodes set_nodes].
      rewrite lookup_insert_ne by done. by rewrite lookup_insert, decide_True.
Qed.

(** ** Verification over memory that the host leaves alone *)

(** The host answers the reads of the nodes of [T] with the nodes. *)
Fixpoint serves (rd : nat -> Z -> option merkle_node) (T : ctree) : Prop :=
  (forall t, rd t (caddr T) = Some (cell T)) /\
  match T with CLeaf _ _ _ => True | CNode _ _ l r => serves rd l /\ serves rd r end.

Lemma serves_cell rd T t : serves rd T -> rd t (caddr T) = Some (cell T).
Proof. destruct T; intros [Hc _]; apply Hc. Qed.

Lemma repr_serves nodes T : repr nodes T -> serves (fun _ a => nodes !! a) T.
Proof. induction T as [a k h|a k l IHl r IHr]; cbn [repr serves]; [by intros [Hc _]|]. intros (Hc & Hl & Hr). auto. Qed.

Lemma verify_loop_tree rd T : forall fuel t key hash lft rgt, serves rd T -> ctree_ok T -> (cdepth T <= fuel)%nat ->
  verify_loop rd fuel t key hash (cell T) lft rgt = Ok (bool_decide (hash = chash (unzip key T []).2)).
Proof.
  enough (forall fuel t key hash lft rgt acc, serves rd T -> ctree_ok T -> (cdepth T <= fuel)%nat ->
    verify_loop rd fuel t key hash (cell T) lft rgt = Ok (bool_decide (hash = chash (unzip key T acc).2)))
    by eauto.
  induction T as [a k h|a k l IHl r IHr]; intros fuel t key hash lft rgt acc Hr Hok Hd;
    (destruct fuel as [|fuel]; [cbn [cdepth] in Hd; lia|]); cbn [verify_loop cell n_left n_right n_ptr]; [done|].
  destruct Hr as (_ & Hrl & Hrr). destruct Hok as (_ & _ & Hokl & Hokr). cbn [cdepth] in Hd.
  assert (forall X, ctree_ok X -> (caddr X =? 0) = false) as Hnz by (intros X HX; apply Z.eqb_neq; destruct X; cbn in *; lia).
  unfold read_child, child. rewrite (Hnz l), (Hnz r) by done. cbn [andb].
  rewrite (serves_cell rd l), (serves_cell rd r), verify_cells by done. cbn [negb unzip].
  destruct (key <? k); [apply IHl|apply IHr]; try done; lia.
Qed.

Lemma unzip_lookup key T h : forall acc, bst T -> tree_map T !! key = Some h -> chash (unzip key T acc).2 = h.
Proof.
  induction T as [a k h'|a k l IHl r IHr]; intros acc Hb Hm; cbn [unzip tree_map bst] in *.
  - apply lookup_singleton_Some in Hm as [_ ->]. done.
  - destruct Hb as (Hl & Hr & Hbl & Hbr). apply lookup_union_Some_raw in Hm.
    destruct (Z.ltb_spec key k) as [Hlt|Hge].
    + destruct Hm as [Hm|[_ Hm]]; [by apply IHl|]. apply elem_of_dom_2, Hr in Hm. lia.
    + destruct Hm as [Hm|[_ Hm]]; [|by apply IHr]. apply elem_of_dom_2, Hl in Hm. lia.
Qed.

(** The verifier compares with the leaf where the search ends. *)
Lemma serves_verify_leaf rd T key hash fuel garbage : serves rd T -> ctree_ok T -> (cdepth T <= fuel)%nat ->
  merk_verify rd fuel (root_cell T) garbage key hash = Ok (bool_decide (hash = chash (unzip key T []).2)).
Proof.
  intros Hr Hok Hf. unfold merk_verify. cbn [root_cell n_right].
  assert ((caddr T =? 0) = false) as -> by (apply Z.eqb_neq; destruct T; cbn in *; lia).
  rewrite (serves_cell rd T) by done.
  assert (merk_verify_single_node (root_cell T) None (Some (cell T)) = true) as ->.
  { unfold merk_verify_single_node. rewrite hash_children_spec; [|done|intros ? [= <-]; by apply cell_ok].
    apply bool_decide_eq_true. by rewrite cell_msg. }
  cbn [negb]. by rewrite verify_loop_tree by done.
Qed.

Lemma merk_inv_verify_leaf root m T n key hash fuel garbage : merk_inv root m (Some T) n -> (cdepth T <= fuel)%nat ->
  merk_verify (fun _ a => m_nodes m !! a) fuel (root_cell T) garbage key hash = Ok (bool_decide (hash = chash (unzip key T []).2)).
Proof. intros [_ _ _ Htr] Hf. destruct (Htr T eq_refl) as (Hr & Hok & _). apply serves_verify_leaf; [by apply repr_serves|done|done]. Qed.

Definition odepth (oT : option ctree) : nat := from_option cdepth 0%nat oT.

(** What the verifier answers for the keys of the map. *)
Definition verify_answers (root : Z) m (oT : option ctree) : Prop :=
  exists r : merkle_node, m_nodes m !! root = Some r /\
  forall k h hash fuel garbage, merk_map oT !! k = Some h -> (odepth oT <= fuel)%nat ->
    merk_verify (fun _ a => m_nodes m !! a) fuel r garbage k hash = Ok (bool_decide (hash = h)).

Lemma merk_inv_verify root m oT n : merk_inv root m oT n -> verify_answers root m oT.
Proof.
  intros Hinv. pose proof Hinv as [Hal Hav Hrt Htr]. destruct oT as [T|].
  - exists (root_cell T). split; [done|]. intros k h hash fuel garbage Hm Hf. cbn [merk_map odepth from_option] in *.
    rewrite (merk_inv_verify_leaf root m T n) by done. destruct (Htr T eq_refl) as (_ & _ & _ & Hb).
    by rewrite (unzip_lookup k T h) by done.
  - destruct Hrt as [h Hrt]. exists (mkNode 0 h 0 0). split; [done|]. intros k h' hash fuel garbage Hm.
    cbn [merk_map from_option] in Hm. by rewrite lookup_empty in Hm.
Qed.
End InsertOk.

Lemma merk_insert_map {S} `{PageSourceOk S} avoid root (m : merk_state S) oT n key hash :
  merk_inv avoid root m oT (Datatypes.S (Datatypes.S n)) -> is_u64 key -> Forall is_u8 hash -> length hash = 32%nat ->
  (odepth oT <= 31)%nat ->
  exists m' T, merk_insert root key hash m = Ok (0, m') /\ merk_inv avoid root m' (Some T) n /\
    tree_map T = <[key := hash]> (merk_map oT) /\ (cdepth T <= Datatypes.S (odepth oT))%nat /\
    verify_answers root m' (Some T).
Proof.
  intros Hinv Hk Hh Hl Hd. assert (ctree_ok (CLeaf 1 key hash)) as Hok by done. destruct oT as [T|].
  - destruct (insert_tree avoid root m T n key hash Hinv Hok Hd) as (new & par & m' & E & Hinv').
    exists m', (cins key hash new par T). split_and!; [done|done| |apply cins_depth|by eapply merk_inv_verify].
    apply cins_map. by apply (mi_tree _ _ _ _ _ Hinv).
  - destruct (insert_first avoid root m _ key hash Hinv Hok) as (new & m' & E & [Hal Hav Hrt Htr]).
    assert (merk_inv avoid root m' (Some (CLeaf new key hash)) n) as Hinv' by (split; try done; by apply alloc_ok_weaken).
    exists m', (CLeaf new key hash). split_and!; [done|done| |done|by eapply merk_inv_verify].
    cbn [tree_map merk_map from_option]. by rewrite insert_empty.
Qed.

(** C13: Insertion and verification implement a map: while the tree is no deeper than 31
    and two pages can be had, [merk_insert] succeeds, keeps the invariant and makes the
    tree stand for the map with the key set to the hash, at most one level deeper; and
    over memory the host leaves alone [merk_verify] then accepts, for every key of the
    map, the stored hash and no other. *)
Theorem merk_insert_correct {S} `{PageSourceOk S} avoid root (m : merk_state S) oT n key hash :
  merk_inv avoid root m oT (Datatypes.S (Datatypes.S n)) -> is_u64 key -> Forall is_u8 hash -> length hash = 32%nat ->
  (odepth oT <= 31)%nat ->
  exists m' T, merk_insert root key hash m = Ok (0, m') /\ merk_inv avoid root m' (Some T) n /\
    tree_map T = <[key := hash]> (merk_map oT) /\ (cdepth T <= Datatypes.S (odepth oT))%nat /\
    verify_answers root m' (Some T).
Proof. apply merk_insert_map. Qed.
