(* ===== verification/MerkleLimits.v ===== *)
(** * Limits of the Merkle tree ([runtime/crypto/merkle.c])

    The empty tree over the allocator of backing pages, and two things the code
    does that its comments do not say: an insertion below the depth limit is
    dropped without an error, and the verifier never compares the key it is asked for
    with the key of the leaf it ends at. *)

From S2P Require Import Prelude Mem Sha256 Vm Backing Merkle MerkleAlloc MerkleInsert.
From Stdlib Require Import ZArith Lia.
From stdpp Require Import base tactics gmap sets list list_numbers numbers.
Local Open Scope Z_scope.
Local Open Scope keystone_scope.

#[local] Opaque Fips180.SHA256 le64 sha256_final sha256_feed sha256_init.

(** ** The empty tree *)

Definition merk_fresh {S} (root : Z) (s : S) : merk_state S := mkMerk {[root := mkNode 0 (replicate 32 0) 0 0]} ∅ 0 s.

(** A root outside the backing region, with the region as [pswap_init] leaves it. *)
Lemma merk_inv_fresh root base pages inc s n : walk_ok base pages inc -> walk_at base pages inc 0 s ->
  Z.of_nat n <= pages - 1 -> (page_of root < base \/ base + pages * 4096 <= page_of root) ->
  merk_inv {[page_of root]} root (merk_fresh root s) None n.
Proof.
  intros Hok Hat Hn Hr. split.
  - split; cbn.
    + split; [intros p h Hp; by rewrite lookup_empty in Hp|set_solver].
    + exists []. split; [apply base.NoDup_nil_2|done].
    + exists {[page_of root]}. split_and!; [|by rewrite dom_empty_L|done].
      exists base, pages, inc, 0. split_and!; try done; try lia. intros p ->%elem_of_singleton _ Hp. lia.
    + rewrite dom_empty_L. set_solver.
  - by apply elem_of_singleton.
  - exists (replicate 32 0). unfold merk_fresh. cbn [m_nodes]. by rewrite lookup_singleton, decide_True.
  - done.
Qed.

(** ** Positions above the leaves *)

Fixpoint descend (n : nat) (key : Z) (T : ctree) (acc : list frame) : list frame * ctree :=
  match n, T with
  | S n, CNode a k l r =>
      if key <? k then descend n key l (mkFrame a k false r :: acc) else descend n key r (mkFrame a k true l :: acc)
  | _, _ => (acc, T)
  end.

Lemma plug_descend n key T acc : plug (descend n key T acc).1 (descend n key T acc).2 = plug acc T.
Proof.
  revert T acc. induction n as [|n IH]; intros T acc; [done|]. destruct T as [|a k l r]; cbn [descend]; [done|].
  destruct (key <? k); rewrite IH; done.
Qed.

Lemma length_descend n key T acc : (length (descend n key T acc).1 <= n + length acc)%nat.
Proof.
  revert T acc. induction n as [|n IH]; intros T acc; [cbn; lia|]. destruct T as [|a k l r]; cbn [descend]; [cbn; lia|].
  destruct (key <? k); (etransitivity; [apply IH|cbn [length]; lia]).
Qed.

Section Deep.
Context {S : Type} `{PageSourceOk S} (avoid : gset Z).
Implicit Types (m : merk_state S).

Lemma walk_down_descend n key T acc m top : repr (m_nodes m) T -> ctree_ok T ->
  walk_down n key (caddr T :: map fr_addr acc ++ top) m =
    Ok (caddr (descend n key T acc).2 :: map fr_addr (descend n key T acc).1 ++ top, m).
Proof.
  revert T acc. induction n as [|n IH]; intros T acc Hr Hok; [done|]. cbn [walk_down]. unfold bind.
  rewrite (load_node_run _ _ _ (repr_cell _ _ Hr)). destruct T as [a k h|a k l r]; cbn [cell n_left n_right n_ptr descend].
  - by destruct (key <? k).
  - destruct Hr as (_ & Hl & Hr). destruct Hok as (_ & _ & Hokl & Hokr).
    assert (forall X, ctree_ok X -> (caddr X =? 0) = false) as Hnz by (intros X HX; apply Z.eqb_neq; destruct X; cbn in *; lia).
    destruct (key <? k); rewrite Hnz by done; [apply (IH l (mkFrame a k false r :: acc))|apply (IH r (mkFrame a k true l :: acc))]; done.
Qed.

Lemma alloc_ok_subset m used used' n : alloc_ok avoid m used n -> used' ⊆ used -> alloc_ok avoid m used' n.
Proof. intros [[C1 C1'] C2 C3 C4] Hs. split; try done. split; [done|]. intros a Ha. by apply C1', Hs. Qed.

(** The walk down that meets no leaf: the hashes on the way are computed again, and
    that is all. *)
Lemma insert_deep root m T n key hash :
  merk_inv avoid root m (Some T) (Datatypes.S n) -> is_u64 key -> (match (descend 30 key T []).2 with CLeaf _ _ _ => False | _ => True end) ->
  exists m', merk_insert root key hash m = Ok (0, m') /\ merk_inv avoid root m' (Some T) n.
Proof.
  intros [Hal Hav Hrt Htr] Hkey Hdeep. destruct (Htr T eq_refl) as (Hrep & Hok & Hnd & Hbst). clear Htr. cbn [from_option] in Hal.
  destruct (wp_run _ _ _ (wp_alloc_node avoid m _ _ Hal)) as (new & m1 & E1 & En1 & Hnew & Hnu & Hal1).
  rewrite elem_of_list_to_set in Hnew. set (m2 := set_nodes <[new := mkNode key hash 0 0]> m1).
  assert (new <> root) as Hnr by (eapply used_not_root; [exact Hal1|done|]; apply elem_of_union; left; by apply elem_of_singleton).
  assert (repr (m_nodes m2) T) as Hrep2 by (cbn [m_nodes set_nodes m2]; rewrite En1; by apply repr_insert).
  assert (m_nodes m2 !! root = Some (root_cell T)) as Hrt2 by (cbn [m_nodes set_nodes m2]; by rewrite lookup_insert_ne, En1).
  pose proof (walk_down_descend 30 key T [] m2 [root] Hrep2 Hok) as Hwd.
  pose proof (plug_descend 30 key T []) as Epl. pose proof (length_descend 30 key T []) as Hlen.
  destruct (descend 30 key T []) as [fs X]. cbn [fst snd plug map app length] in *.
  assert (addrs T ≡ₚ addrs X ++ faddrs fs) as Hpa by (by rewrite <- Epl, addrs_plug).
  destruct (repr_frames (m_nodes m2) root (Fips180.SHA256 (cmsg T)) fs X) as [Hfr HrX]; [by rewrite Epl..|].
  assert (ctree_ok X) as HokX by (rewrite <- Epl in Hok; by apply ctree_ok_plug in Hok as [_ ?]).
  assert (root ∉ addrs T) as Hroot.
  { intros Hr. by apply (used_not_root _ _ _ _ root root Hal Hav); [apply elem_of_list_to_set|]. }
  destruct (percolate_up new root (Fips180.SHA256 (cmsg T)) fs X X m2) as (nodes' & Ep & Hr' & Hrt'); try done.
  { by rewrite Epl. }
  { destruct X; [done|]. by destruct HrX. }
  { by apply repr_cell. }
  { by rewrite <- Hpa. }
  { by rewrite <- Hpa. }
  rewrite Epl in Ep, Hr'.
  exists (set_nodes <[root := root_cell T]> (mkMerk nodes' (m_pages m2) (merk_free_list m2) (m_src m2))). split.
  - unfold merk_insert, bind at 1. rewrite E1. unfold bind at 1, store_node at 1, modify at 1. fold m2.
    unfold bind at 1. rewrite (load_node_run _ _ _ Hrt2). cbn [root_cell n_right].
    assert ((caddr T =? 0) = false) as -> by (apply Z.eqb_neq; destruct T; cbn in *; lia).
    change (Z.to_nat (MERK_MAX_DEPTH - 1)) with (Datatypes.S 30). unfold bind at 1.
    rewrite (walk_down_root 30 key root T m2) by (try done; by destruct Hkey).
    rewrite Hwd. cbn [length head default]. rewrite length_app, length_map. cbn [length].
    rewrite (proj2 (Z.eqb_neq _ MERK_MAX_DEPTH)) by (unfold MERK_MAX_DEPTH; lia). unfold bind at 1, sm_assert, ret at 1. cbn [negb].
    unfold id, bind at 1. rewrite (load_node_run _ _ _ (repr_cell _ _ HrX)). unfold bind at 1. rewrite Ep. done.
  - split; [|done|cbn [m_nodes set_nodes]; by rewrite lookup_insert, decide_True|].
    + apply alloc_ok_nodes, (alloc_ok_nodes _ m1). cbn [from_option].
      apply (alloc_ok_subset m1 _ _ n Hal1). set_solver.
    + intros ? [= <-]. split_and!; [|done..]. cbn [m_nodes set_nodes]. by apply repr_insert.
Qed.

End Deep.

Lemma unzip_leaf key T acc : exists a k h, (unzip key T acc).2 = CLeaf a k h.
Proof. revert acc. induction T as [a k h|a k l IHl r IHr]; intros acc; cbn [unzip]; [by exists a, k, h|]. destruct (key <? k); auto. Qed.

Lemma unzip_in key T acc : bst T -> forall a k h, (unzip key T acc).2 = CLeaf a k h -> tree_map T !! k = Some h.
Proof.
  revert acc. induction T as [a k h|a k l IHl r IHr]; intros acc Hb a' k' h' E; cbn [unzip tree_map bst] in *.
  - injection E as <- <- <-. by rewrite lookup_singleton, decide_True.
  - destruct Hb as (Hl & Hr & Hbl & Hbr). destruct (key <? k).
    + apply lookup_union_Some_l. by eapply IHl.
    + assert (tree_map r !! k' = Some h') as Hk by (by eapply IHr). rewrite lookup_union_r; [done|].
      apply not_elem_of_dom. intros Hx%Hl. apply elem_of_dom_2, Hr in Hk. lia.
Qed.

(** C39: The depth limit: when the walk for a key still stands on an inner node after
    [MERK_MAX_DEPTH - 1] steps, [merk_insert] reports success and records nothing:
    the tree is the one it was.  The check that should stop the enclave compares the
    index with a value the loop cannot reach. *)
Theorem merk_insert_too_deep {S} `{PageSourceOk S} avoid root (m : merk_state S) T n key hash :
  merk_inv avoid root m (Some T) (Datatypes.S n) -> is_u64 key ->
  (match (descend 30 key T []).2 with CLeaf _ _ _ => False | CNode _ _ _ _ => True end) ->
  exists m', merk_insert root key hash m = Ok (0, m') /\ merk_inv avoid root m' (Some T) n.
Proof. apply insert_deep. Qed.

(** The key of the leaf is not checked: for a key that is not in the tree,
    [merk_verify] accepts the hash stored for another key. *)
Theorem merk_verify_absent_key {S} `{PageSourceOk S} avoid root (m : merk_state S) T n key fuel garbage :
  merk_inv avoid root m (Some T) n -> tree_map T !! key = None -> (cdepth T <= fuel)%nat ->
  exists k h, k <> key /\ tree_map T !! k = Some h /\
    merk_verify (fun _ a => m_nodes m !! a) fuel (root_cell T) garbage key h = Ok true.
Proof.
  intros Hinv Hk Hf. destruct (unzip_leaf key T []) as (a & k & h & E). exists k, h.
  destruct (mi_tree _ _ _ _ _ Hinv T eq_refl) as (_ & _ & _ & Hb). pose proof (unzip_in key T [] Hb a k h E) as Hm.
  split; [by intros ->; rewrite Hm in Hk|]. split; [done|].
  rewrite (merk_inv_verify_leaf avoid root m T n) by done. rewrite E. by rewrite bool_decide_eq_true_2.
Qed.

(** ** Concrete trees *)

Definition demo_root : Z := 0x20040.
Definition demo_hash (k : Z) : list Z := replicate 32 k.
Definition demo_backing (k : Z) : backing := mkBacking 0x1000 0x8000 ((k * 5) mod 8 * 0x1000) 0x5000.

Lemma demo_walk_ok : walk_ok 0x1000 8 5.
Proof. by split. Qed.
Lemma demo_walk_at k : walk_at 0x1000 8 5 k (demo_backing k).
Proof. by split. Qed.

(** An insertion into the empty tree over the allocator of backing pages. *)
Lemma merk_insert_correct_witness :
  exists m' T, merk_insert demo_root 7 (demo_hash 3) (merk_fresh demo_root (demo_backing 0)) = Ok (0, m') /\
    merk_inv {[page_of demo_root]} demo_root m' (Some T) 5 /\ tree_map T = <[7 := demo_hash 3]> ∅ /\ (cdepth T <= 1)%nat /\
    verify_answers demo_root m' (Some T).
Proof.
  apply (merk_insert_correct {[page_of demo_root]} demo_root _ None 5).
  - apply (merk_inv_fresh _ 0x1000 8 5); [apply demo_walk_ok|apply (demo_walk_at 0)|lia|]. right. by vm_compute.
  - by vm_compute.
  - apply Forall_replicate. by vm_compute.
  - done.
  - cbn. lia.
Defined.

(** A tree written into memory. *)
Fixpoint store_tree (T : ctree) (nodes : gmap Z merkle_node) : gmap Z merkle_node :=
  match T with
  | CLeaf _ _ _ => <[caddr T := cell T]> nodes
  | CNode _ _ l r => <[caddr T := cell T]> (store_tree l (store_tree r nodes))
  end.

Lemma store_tree_other T nodes a : a ∉ addrs T -> store_tree T nodes !! a = nodes !! a.
Proof.
  revert nodes. induction T as [b k h|b k l IHl r IHr]; intros nodes Ha; cbn [store_tree addrs] in *;
    apply not_elem_of_cons in Ha as [Hne Ha]; rewrite lookup_insert_ne by done; [done|].
  apply not_elem_of_app in Ha as [Hal Har]. by rewrite IHl, IHr.
Qed.

Lemma repr_store_tree T nodes : NoDup (addrs T) -> repr (store_tree T nodes) T.
Proof.
  revert nodes. induction T as [b k h|b k l IHl r IHr]; intros nodes Hnd; cbn [store_tree addrs repr caddr] in *.
  - by rewrite lookup_insert, decide_True.
  - apply list.NoDup_cons in Hnd as [Hb (Hnl & Hd & Hnr)%list.NoDup_app]. apply not_elem_of_app in Hb as [Hbl Hbr].
    split; [by rewrite lookup_insert, decide_True|]. split; apply repr_insert; auto.
    apply (repr_ext (store_tree r nodes)); [|auto]. intros a Ha. apply store_tree_other. intros Ha'. by apply (Hd a).
Qed.

(** Keys inserted in ascending order: a tree of 32 leaves, one on every level, that
    fills a page. *)
Fixpoint spine (n : nat) (i : Z) : ctree :=
  match n with
  | O => CLeaf (0x1000 + 64 * (31 + i)) i (demo_hash i)
  | Datatypes.S n => CNode (0x1000 + 64 * i) (i + 1) (CLeaf (0x1000 + 64 * (31 + i)) i (demo_hash i)) (spine n (i + 1))
  end.
Definition demo_deep : ctree := spine 31 1.
Definition demo_state (T : ctree) (h : merkle_page_freelist) : merk_state backing :=
  mkMerk (store_tree T {[demo_root := root_cell T]}) {[0x1000 := h]} 0x1000 (demo_backing 1).

(** The nodes of the tree lie in the page and their bits are clear. *)
Definition in_page (h : merkle_page_freelist) (a : Z) : Prop :=
  a mod 64 = 0 /\ idx_of a <> 0 /\ page_of a = 0x1000 /\ Z.testbit (f_free h) (idx_of a) = false.

Lemma demo_inv T h : page_ok 0x1000 h -> f_in_freelist h = true -> f_next h = 0 -> Forall (in_page h) (addrs T) ->
  NoDup (addrs T) -> ctree_ok T -> bst T -> merk_inv {[page_of demo_root]} demo_root (demo_state T h) (Some T) 5.
Proof.
  intros Hh Hf Hnx Ha Hnd Hok Hb. rewrite Forall_forall in Ha.
  assert (demo_root ∉ addrs T) as Hr.
  { intros Hr. apply list_elem_of_In in Hr. by destruct (Ha _ Hr) as (_ & _ & ? & _). }
  split.
  - split; cbn [from_option demo_state m_pages merk_free_list m_src].
    + split.
      * intros p h' [<- <-]%lookup_singleton_Some. done.
      * intros a Hin. apply elem_of_list_to_set, list_elem_of_In, Ha in Hin as (H1 & H2 & H3 & H4).
        split_and!; [done|done|]. exists h. by rewrite H3, lookup_singleton, decide_True.
    + exists [0x1000]. split; [apply NoDup_singleton|]. split; [done|]. exists h. by rewrite lookup_singleton, decide_True.
    + exists ({[0x1000]} ∪ {[page_of demo_root]}). rewrite dom_singleton_L. split_and!; [|set_solver|set_solver].
      exists 0x1000, 8, 5, 1. split_and!; [apply demo_walk_ok|apply demo_walk_at|lia|lia|].
      intros p [->%elem_of_singleton| ->%elem_of_singleton]%elem_of_union _ Hp; [exists 0; by vm_compute|].
      destruct Hp as [_ Hp]. by vm_compute in Hp.
    + rewrite dom_singleton_L. apply disjoint_singleton_l. intros Hx%elem_of_singleton. by vm_compute in Hx.
  - by apply elem_of_singleton.
  - cbn [demo_state m_nodes]. by rewrite store_tree_other, lookup_singleton, decide_True.
  - intros ? [= <-]. split_and!; try done. by apply repr_store_tree.
Qed.

Lemma spine_ok n i : 0 < i -> i + Z.of_nat n < 64 -> ctree_ok (spine n i).
Proof.
  assert (forall a j, 0 < a < 2 ^ 64 -> 0 <= j < 256 -> ctree_ok (CLeaf a j (demo_hash j))) as HL.
  { intros a j Ha Hj. cbn [ctree_ok caddr ckey]. unfold is_u64. split_and!; try lia; [apply Forall_replicate; unfold is_u8; lia|done]. }
  revert i. induction n as [|n IH]; intros i Hi Hn; cbn [spine]; [apply HL; lia|].
  refine (conj _ (conj _ (conj (HL _ _ _ _) (IH _ _ _)))); cbn [caddr ckey]; unfold is_u64; try lia.
Qed.

Lemma spine_bst n i : bst (spine n i) /\ forall x, x ∈ dom (tree_map (spine n i)) -> i <= x.
Proof.
  revert i. induction n as [|n IH]; intros i; cbn [spine bst tree_map].
  - split; [done|]. rewrite dom_singleton_L. intros x ->%elem_of_singleton. lia.
  - destruct (IH (i + 1)) as [Hb Hx]. rewrite dom_union_L, dom_singleton_L. split_and!; try done.
    + intros x ->%elem_of_singleton. lia.
    + intros x [->%elem_of_singleton|Hin%Hx]%elem_of_union; lia.
Qed.

#[local] Instance in_page_dec h a : Decision (in_page h a).
Proof. unfold in_page. apply _. Defined.

(** The page is full: [merk_insert] takes another one for the node it then forgets. *)
Lemma merk_insert_too_deep_witness :
  exists m', merk_insert demo_root 33 (demo_hash 33) (demo_state demo_deep (mkFree 0 0 true 0)) = Ok (0, m') /\
    merk_inv {[page_of demo_root]} demo_root m' (Some demo_deep) 4 /\ tree_map demo_deep !! 33 = None.
Proof.
  destruct (merk_insert_too_deep {[page_of demo_root]} demo_root (demo_state demo_deep (mkFree 0 0 true 0)) demo_deep 4 33
    (demo_hash 33)) as (m' & E & Hinv).
  - apply demo_inv; try done; [apply (bool_decide_unpack _); by vm_compute|apply (bool_decide_unpack _); by vm_compute| |].
    + apply spine_ok; lia.
    + apply (spine_bst 31 1).
  - by vm_compute.
  - by vm_compute.
  - exists m'. split; [exact E|]. split; [exact Hinv|]. by vm_compute.
Defined.

(** A tree of one leaf, key 7: key 9 is accepted with its hash. *)
Lemma merk_verify_absent_key_witness :
  exists k h, k <> 9 /\ tree_map (CLeaf 0x1040 7 (demo_hash 3)) !! k = Some h /\
    merk_verify (fun _ a => m_nodes (demo_state (CLeaf 0x1040 7 (demo_hash 3)) (mkFree (2 ^ 64 - 4) 62 true 0)) !! a) 1
      (root_cell (CLeaf 0x1040 7 (demo_hash 3))) (mkNode 0 [] 0 0) 9 h = Ok true.
Proof.
  apply (merk_verify_absent_key {[page_of demo_root]} demo_root _ (CLeaf 0x1040 7 (demo_hash 3)) 5).
  - apply demo_inv; try done; [apply (bool_decide_unpack _); by vm_compute|apply NoDup_singleton|].
    split_and!; [by vm_compute..|apply Forall_replicate; by vm_compute|done].
  - by vm_compute.
  - by cbn.
Defined.
