(* ===== verification/Aes.v ===== *)
(** * AES ([runtime/crypto/aes.c], [runtime/include/crypto/aes.h])

    The block cipher with its tables, the key schedule for the three key sizes, and
    the CBC, CBC-MAC and CTR modes.  Buffers are lists of bytes whose length is the
    length the C functions are passed; a state is four rows of four bytes. *)

From S2P Require Import Prelude Mem.
From Stdlib Require Import ZArith Lia.
From stdpp Require Import base tactics list list_numbers numbers.
Local Open Scope Z_scope.
Local Open Scope keystone_scope.

Definition AES_BLOCK_SIZE : Z := 16.

(** ** Tables *)

Definition aes_sbox : list (list Z) :=
  [[0x63; 0x7c; 0x77; 0x7b; 0xf2; 0x6b; 0x6f; 0xc5; 0x30; 0x01; 0x67; 0x2b; 0xfe; 0xd7; 0xab; 0x76];
   [0xca; 0x82; 0xc9; 0x7d; 0xfa; 0x59; 0x47; 0xf0; 0xad; 0xd4; 0xa2; 0xaf; 0x9c; 0xa4; 0x72; 0xc0];
   [0xb7; 0xfd; 0x93; 0x26; 0x36; 0x3f; 0xf7; 0xcc; 0x34; 0xa5; 0xe5; 0xf1; 0x71; 0xd8; 0x31; 0x15];
   [0x04; 0xc7; 0x23; 0xc3; 0x18; 0x96; 0x05; 0x9a; 0x07; 0x12; 0x80; 0xe2; 0xeb; 0x27; 0xb2; 0x75];
   [0x09; 0x83; 0x2c; 0x1a; 0x1b; 0x6e; 0x5a; 0xa0; 0x52; 0x3b; 0xd6; 0xb3; 0x29; 0xe3; 0x2f; 0x84];
   [0x53; 0xd1; 0x00; 0xed; 0x20; 0xfc; 0xb1; 0x5b; 0x6a; 0xcb; 0xbe; 0x39; 0x4a; 0x4c; 0x58; 0xcf];
   [0xd0; 0xef; 0xaa; 0xfb; 0x43; 0x4d; 0x33; 0x85; 0x45; 0xf9; 0x02; 0x7f; 0x50; 0x3c; 0x9f; 0xa8];
   [0x51; 0xa3; 0x40; 0x8f; 0x92; 0x9d; 0x38; 0xf5; 0xbc; 0xb6; 0xda; 0x21; 0x10; 0xff; 0xf3; 0xd2];
   [0xcd; 0x0c; 0x13; 0xec; 0x5f; 0x97; 0x44; 0x17; 0xc4; 0xa7; 0x7e; 0x3d; 0x64; 0x5d; 0x19; 0x73];
   [0x60; 0x81; 0x4f; 0xdc; 0x22; 0x2a; 0x90; 0x88; 0x46; 0xee; 0xb8; 0x14; 0xde; 0x5e; 0x0b; 0xdb];
   [0xe0; 0x32; 0x3a; 0x0a; 0x49; 0x06; 0x24; 0x5c; 0xc2; 0xd3; 0xac; 0x62; 0x91; 0x95; 0xe4; 0x79];
   [0xe7; 0xc8; 0x37; 0x6d; 0x8d; 0xd5; 0x4e; 0xa9; 0x6c; 0x56; 0xf4; 0xea; 0x65; 0x7a; 0xae; 0x08];
   [0xba; 0x78; 0x25; 0x2e; 0x1c; 0xa6; 0xb4; 0xc6; 0xe8; 0xdd; 0x74; 0x1f; 0x4b; 0xbd; 0x8b; 0x8a];
   [0x70; 0x3e; 0xb5; 0x66; 0x48; 0x03; 0xf6; 0x0e; 0x61; 0x35; 0x57; 0xb9; 0x86; 0xc1; 0x1d; 0x9e];
   [0xe1; 0xf8; 0x98; 0x11; 0x69; 0xd9; 0x8e; 0x94; 0x9b; 0x1e; 0x87; 0xe9; 0xce; 0x55; 0x28; 0xdf];
   [0x8c; 0xa1; 0x89; 0x0d; 0xbf; 0xe6; 0x42; 0x68; 0x41; 0x99; 0x2d; 0x0f; 0xb0; 0x54; 0xbb; 0x16]].

Definition aes_invsbox : list (list Z) :=
  [[0x52; 0x09; 0x6a; 0xd5; 0x30; 0x36; 0xa5; 0x38; 0xbf; 0x40; 0xa3; 0x9e; 0x81; 0xf3; 0xd7; 0xfb];
   [0x7c; 0xe3; 0x39; 0x82; 0x9b; 0x2f; 0xff; 0x87; 0x34; 0x8e; 0x43; 0x44; 0xc4; 0xde; 0xe9; 0xcb];
   [0x54; 0x7b; 0x94; 0x32; 0xa6; 0xc2; 0x23; 0x3d; 0xee; 0x4c; 0x95; 0x0b; 0x42; 0xfa; 0xc3; 0x4e];
   [0x08; 0x2e; 0xa1; 0x66; 0x28; 0xd9; 0x24; 0xb2; 0x76; 0x5b; 0xa2; 0x49; 0x6d; 0x8b; 0xd1; 0x25];
   [0x72; 0xf8; 0xf6; 0x64; 0x86; 0x68; 0x98; 0x16; 0xd4; 0xa4; 0x5c; 0xcc; 0x5d; 0x65; 0xb6; 0x92];
   [0x6c; 0x70; 0x48; 0x50; 0xfd; 0xed; 0xb9; 0xda; 0x5e; 0x15; 0x46; 0x57; 0xa7; 0x8d; 0x9d; 0x84];
   [0x90; 0xd8; 0xab; 0x00; 0x8c; 0xbc; 0xd3; 0x0a; 0xf7; 0xe4; 0x58; 0x05; 0xb8; 0xb3; 0x45; 0x06];
   [0xd0; 0x2c; 0x1e; 0x8f; 0xca; 0x3f; 0x0f; 0x02; 0xc1; 0xaf; 0xbd; 0x03; 0x01; 0x13; 0x8a; 0x6b];
   [0x3a; 0x91; 0x11; 0x41; 0x4f; 0x67; 0xdc; 0xea; 0x97; 0xf2; 0xcf; 0xce; 0xf0; 0xb4; 0xe6; 0x73];
   [0x96; 0xac; 0x74; 0x22; 0xe7; 0xad; 0x35; 0x85; 0xe2; 0xf9; 0x37; 0xe8; 0x1c; 0x75; 0xdf; 0x6e];
   [0x47; 0xf1; 0x1a; 0x71; 0x1d; 0x29; 0xc5; 0x89; 0x6f; 0xb7; 0x62; 0x0e; 0xaa; 0x18; 0xbe; 0x1b];
   [0xfc; 0x56; 0x3e; 0x4b; 0xc6; 0xd2; 0x79; 0x20; 0x9a; 0xdb; 0xc0; 0xfe; 0x78; 0xcd; 0x5a; 0xf4];
   [0x1f; 0xdd; 0xa8; 0x33; 0x88; 0x07; 0xc7; 0x31; 0xb1; 0x12; 0x10; 0x59; 0x27; 0x80; 0xec; 0x5f];
   [0x60; 0x51; 0x7f; 0xa9; 0x19; 0xb5; 0x4a; 0x0d; 0x2d; 0xe5; 0x7a; 0x9f; 0x93; 0xc9; 0x9c; 0xef];
   [0xa0; 0xe0; 0x3b; 0x4d; 0xae; 0x2a; 0xf5; 0xb0; 0xc8; 0xeb; 0xbb; 0x3c; 0x83; 0x53; 0x99; 0x61];
   [0x17; 0x2b; 0x04; 0x7e; 0xba; 0x77; 0xd6; 0x26; 0xe1; 0x69; 0x14; 0x63; 0x55; 0x21; 0x0c; 0x7d]].

(** The columns are the multiples by 2, 3, 9, 11, 13 and 14. *)
Definition gf_mul : list (list Z) :=
  [[0x00; 0x00; 0x00; 0x00; 0x00; 0x00]; [0x02; 0x03; 0x09; 0x0b; 0x0d; 0x0e]; [0x04; 0x06; 0x12; 0x16; 0x1a; 0x1c];
   [0x06; 0x05; 0x1b; 0x1d; 0x17; 0x12]; [0x08; 0x0c; 0x24; 0x2c; 0x34; 0x38]; [0x0a; 0x0f; 0x2d; 0x27; 0x39; 0x36];
   [0x0c; 0x0a; 0x36; 0x3a; 0x2e; 0x24]; [0x0e; 0x09; 0x3f; 0x31; 0x23; 0x2a]; [0x10; 0x18; 0x48; 0x58; 0x68; 0x70];
   [0x12; 0x1b; 0x41; 0x53; 0x65; 0x7e]; [0x14; 0x1e; 0x5a; 0x4e; 0x72; 0x6c]; [0x16; 0x1d; 0x53; 0x45; 0x7f; 0x62];
   [0x18; 0x14; 0x6c; 0x74; 0x5c; 0x48]; [0x1a; 0x17; 0x65; 0x7f; 0x51; 0x46]; [0x1c; 0x12; 0x7e; 0x62; 0x46; 0x54];
   [0x1e; 0x11; 0x77; 0x69; 0x4b; 0x5a]; [0x20; 0x30; 0x90; 0xb0; 0xd0; 0xe0]; [0x22; 0x33; 0x99; 0xbb; 0xdd; 0xee];
   [0x24; 0x36; 0x82; 0xa6; 0xca; 0xfc]; [0x26; 0x35; 0x8b; 0xad; 0xc7; 0xf2]; [0x28; 0x3c; 0xb4; 0x9c; 0xe4; 0xd8];
   [0x2a; 0x3f; 0xbd; 0x97; 0xe9; 0xd6]; [0x2c; 0x3a; 0xa6; 0x8a; 0xfe; 0xc4]; [0x2e; 0x39; 0xaf; 0x81; 0xf3; 0xca];
   [0x30; 0x28; 0xd8; 0xe8; 0xb8; 0x90]; [0x32; 0x2b; 0xd1; 0xe3; 0xb5; 0x9e]; [0x34; 0x2e; 0xca; 0xfe; 0xa2; 0x8c];
   [0x36; 0x2d; 0xc3; 0xf5; 0xaf; 0x82]; [0x38; 0x24; 0xfc; 0xc4; 0x8c; 0xa8]; [0x3a; 0x27; 0xf5; 0xcf; 0x81; 0xa6];
   [0x3c; 0x22; 0xee; 0xd2; 0x96; 0xb4]; [0x3e; 0x21; 0xe7; 0xd9; 0x9b; 0xba]; [0x40; 0x60; 0x3b; 0x7b; 0xbb; 0xdb];
   [0x42; 0x63; 0x32; 0x70; 0xb6; 0xd5]; [0x44; 0x66; 0x29; 0x6d; 0xa1; 0xc7]; [0x46; 0x65; 0x20; 0x66; 0xac; 0xc9];
   [0x48; 0x6c; 0x1f; 0x57; 0x8f; 0xe3]; [0x4a; 0x6f; 0x16; 0x5c; 0x82; 0xed]; [0x4c; 0x6a; 0x0d; 0x41; 0x95; 0xff];
   [0x4e; 0x69; 0x04; 0x4a; 0x98; 0xf1]; [0x50; 0x78; 0x73; 0x23; 0xd3; 0xab]; [0x52; 0x7b; 0x7a; 0x28; 0xde; 0xa5];
   [0x54; 0x7e; 0x61; 0x35; 0xc9; 0xb7]; [0x56; 0x7d; 0x68; 0x3e; 0xc4; 0xb9]; [0x58; 0x74; 0x57; 0x0f; 0xe7; 0x93];
   [0x5a; 0x77; 0x5e; 0x04; 0xea; 0x9d]; [0x5c; 0x72; 0x45; 0x19; 0xfd; 0x8f]; [0x5e; 0x71; 0x4c; 0x12; 0xf0; 0x81];
   [0x60; 0x50; 0xab; 0xcb; 0x6b; 0x3b]; [0x62; 0x53; 0xa2; 0xc0; 0x66; 0x35]; [0x64; 0x56; 0xb9; 0xdd; 0x71; 0x27];
   [0x66; 0x55; 0xb0; 0xd6; 0x7c; 0x29]; [0x68; 0x5c; 0x8f; 0xe7; 0x5f; 0x03]; [0x6a; 0x5f; 0x86; 0xec; 0x52; 0x0d];
   [0x6c; 0x5a; 0x9d; 0xf1; 0x45; 0x1f]; [0x6e; 0x59; 0x94; 0xfa; 0x48; 0x11]; [0x70; 0x48; 0xe3; 0x93; 0x03; 0x4b];
   [0x72; 0x4b; 0xea; 0x98; 0x0e; 0x45]; [0x74; 0x4e; 0xf1; 0x85; 0x19; 0x57]; [0x76; 0x4d; 0xf8; 0x8e; 0x14; 0x59];
   [0x78; 0x44; 0xc7; 0xbf; 0x37; 0x73]; [0x7a; 0x47; 0xce; 0xb4; 0x3a; 0x7d]; [0x7c; 0x42; 0xd5; 0xa9; 0x2d; 0x6f];
   [0x7e; 0x41; 0xdc; 0xa2; 0x20; 0x61]; [0x80; 0xc0; 0x76; 0xf6; 0x6d; 0xad]; [0x82; 0xc3; 0x7f; 0xfd; 0x60; 0xa3];
   [0x84; 0xc6; 0x64; 0xe0; 0x77; 0xb1]; [0x86; 0xc5; 0x6d; 0xeb; 0x7a; 0xbf]; [0x88; 0xcc; 0x52; 0xda; 0x59; 0x95];
   [0x8a; 0xcf; 0x5b; 0xd1; 0x54; 0x9b]; [0x8c; 0xca; 0x40; 0xcc; 0x43; 0x89]; [0x8e; 0xc9; 0x49; 0xc7; 0x4e; 0x87];
   [0x90; 0xd8; 0x3e; 0xae; 0x05; 0xdd]; [0x92; 0xdb; 0x37; 0xa5; 0x08; 0xd3]; [0x94; 0xde; 0x2c; 0xb8; 0x1f; 0xc1];
   [0x96; 0xdd; 0x25; 0xb3; 0x12; 0xcf]; [0x98; 0xd4; 0x1a; 0x82; 0x31; 0xe5]; [0x9a; 0xd7; 0x13; 0x89; 0x3c; 0xeb];
   [0x9c; 0xd2; 0x08; 0x94; 0x2b; 0xf9]; [0x9e; 0xd1; 0x01; 0x9f; 0x26; 0xf7]; [0xa0; 0xf0; 0xe6; 0x46; 0xbd; 0x4d];
   [0xa2; 0xf3; 0xef; 0x4d; 0xb0; 0x43]; [0xa4; 0xf6; 0xf4; 0x50; 0xa7; 0x51]; [0xa6; 0xf5; 0xfd; 0x5b; 0xaa; 0x5f];
   [0xa8; 0xfc; 0xc2; 0x6a; 0x89; 0x75]; [0xaa; 0xff; 0xcb; 0x61; 0x84; 0x7b]; [0xac; 0xfa; 0xd0; 0x7c; 0x93; 0x69];
   [0xae; 0xf9; 0xd9; 0x77; 0x9e; 0x67]; [0xb0; 0xe8; 0xae; 0x1e; 0xd5; 0x3d]; [0xb2; 0xeb; 0xa7; 0x15; 0xd8; 0x33];
   [0xb4; 0xee; 0xbc; 0x08; 0xcf; 0x21]; [0xb6; 0xed; 0xb5; 0x03; 0xc2; 0x2f]; [0xb8; 0xe4; 0x8a; 0x32; 0xe1; 0x05];
   [0xba; 0xe7; 0x83; 0x39; 0xec; 0x0b]; [0xbc; 0xe2; 0x98; 0x24; 0xfb; 0x19]; [0xbe; 0xe1; 0x91; 0x2f; 0xf6; 0x17];
   [0xc0; 0xa0; 0x4d; 0x8d; 0xd6; 0x76]; [0xc2; 0xa3; 0x44; 0x86; 0xdb; 0x78]; [0xc4; 0xa6; 0x5f; 0x9b; 0xcc; 0x6a];
   [0xc6; 0xa5; 0x56; 0x90; 0xc1; 0x64]; [0xc8; 0xac; 0x69; 0xa1; 0xe2; 0x4e]; [0xca; 0xaf; 0x60; 0xaa; 0xef; 0x40];
   [0xcc; 0xaa; 0x7b; 0xb7; 0xf8; 0x52]; [0xce; 0xa9; 0x72; 0xbc; 0xf5; 0x5c]; [0xd0; 0xb8; 0x05; 0xd5; 0xbe; 0x06];
   [0xd2; 0xbb; 0x0c; 0xde; 0xb3; 0x08]; [0xd4; 0xbe; 0x17; 0xc3; 0xa4; 0x1a]; [0xd6; 0xbd; 0x1e; 0xc8; 0xa9; 0x14];
   [0xd8; 0xb4; 0x21; 0xf9; 0x8a; 0x3e]; [0xda; 0xb7; 0x28; 0xf2; 0x87; 0x30]; [0xdc; 0xb2; 0x33; 0xef; 0x90; 0x22];
   [0xde; 0xb1; 0x3a; 0xe4; 0x9d; 0x2c]; [0xe0; 0x90; 0xdd; 0x3d; 0x06; 0x96]; [0xe2; 0x93; 0xd4; 0x36; 0x0b; 0x98];
   [0xe4; 0x96; 0xcf; 0x2b; 0x1c; 0x8a]; [0xe6; 0x95; 0xc6; 0x20; 0x11; 0x84]; [0xe8; 0x9c; 0xf9; 0x11; 0x32; 0xae];
   [0xea; 0x9f; 0xf0; 0x1a; 0x3f; 0xa0]; [0xec; 0x9a; 0xeb; 0x07; 0x28; 0xb2]; [0xee; 0x99; 0xe2; 0x0c; 0x25; 0xbc];
   [0xf0; 0x88; 0x95; 0x65; 0x6e; 0xe6]; [0xf2; 0x8b; 0x9c; 0x6e; 0x63; 0xe8]; [0xf4; 0x8e; 0x87; 0x73; 0x74; 0xfa];
   [0xf6; 0x8d; 0x8e; 0x78; 0x79; 0xf4]; [0xf8; 0x84; 0xb1; 0x49; 0x5a; 0xde]; [0xfa; 0x87; 0xb8; 0x42; 0x57; 0xd0];
   [0xfc; 0x82; 0xa3; 0x5f; 0x40; 0xc2]; [0xfe; 0x81; 0xaa; 0x54; 0x4d; 0xcc]; [0x1b; 0x9b; 0xec; 0xf7; 0xda; 0x41];
   [0x19; 0x98; 0xe5; 0xfc; 0xd7; 0x4f]; [0x1f; 0x9d; 0xfe; 0xe1; 0xc0; 0x5d]; [0x1d; 0x9e; 0xf7; 0xea; 0xcd; 0x53];
   [0x13; 0x97; 0xc8; 0xdb; 0xee; 0x79]; [0x11; 0x94; 0xc1; 0xd0; 0xe3; 0x77]; [0x17; 0x91; 0xda; 0xcd; 0xf4; 0x65];
   [0x15; 0x92; 0xd3; 0xc6; 0xf9; 0x6b]; [0x0b; 0x83; 0xa4; 0xaf; 0xb2; 0x31]; [0x09; 0x80; 0xad; 0xa4; 0xbf; 0x3f];
   [0x0f; 0x85; 0xb6; 0xb9; 0xa8; 0x2d]; [0x0d; 0x86; 0xbf; 0xb2; 0xa5; 0x23]; [0x03; 0x8f; 0x80; 0x83; 0x86; 0x09];
   [0x01; 0x8c; 0x89; 0x88; 0x8b; 0x07]; [0x07; 0x89; 0x92; 0x95; 0x9c; 0x15]; [0x05; 0x8a; 0x9b; 0x9e; 0x91; 0x1b];
   [0x3b; 0xab; 0x7c; 0x47; 0x0a; 0xa1]; [0x39; 0xa8; 0x75; 0x4c; 0x07; 0xaf]; [0x3f; 0xad; 0x6e; 0x51; 0x10; 0xbd];
   [0x3d; 0xae; 0x67; 0x5a; 0x1d; 0xb3]; [0x33; 0xa7; 0x58; 0x6b; 0x3e; 0x99]; [0x31; 0xa4; 0x51; 0x60; 0x33; 0x97];
   [0x37; 0xa1; 0x4a; 0x7d; 0x24; 0x85]; [0x35; 0xa2; 0x43; 0x76; 0x29; 0x8b]; [0x2b; 0xb3; 0x34; 0x1f; 0x62; 0xd1];
   [0x29; 0xb0; 0x3d; 0x14; 0x6f; 0xdf]; [0x2f; 0xb5; 0x26; 0x09; 0x78; 0xcd]; [0x2d; 0xb6; 0x2f; 0x02; 0x75; 0xc3];
   [0x23; 0xbf; 0x10; 0x33; 0x56; 0xe9]; [0x21; 0xbc; 0x19; 0x38; 0x5b; 0xe7]; [0x27; 0xb9; 0x02; 0x25; 0x4c; 0xf5];
   [0x25; 0xba; 0x0b; 0x2e; 0x41; 0xfb]; [0x5b; 0xfb; 0xd7; 0x8c; 0x61; 0x9a]; [0x59; 0xf8; 0xde; 0x87; 0x6c; 0x94];
   [0x5f; 0xfd; 0xc5; 0x9a; 0x7b; 0x86]; [0x5d; 0xfe; 0xcc; 0x91; 0x76; 0x88]; [0x53; 0xf7; 0xf3; 0xa0; 0x55; 0xa2];
   [0x51; 0xf4; 0xfa; 0xab; 0x58; 0xac]; [0x57; 0xf1; 0xe1; 0xb6; 0x4f; 0xbe]; [0x55; 0xf2; 0xe8; 0xbd; 0x42; 0xb0];
   [0x4b; 0xe3; 0x9f; 0xd4; 0x09; 0xea]; [0x49; 0xe0; 0x96; 0xdf; 0x04; 0xe4]; [0x4f; 0xe5; 0x8d; 0xc2; 0x13; 0xf6];
   [0x4d; 0xe6; 0x84; 0xc9; 0x1e; 0xf8]; [0x43; 0xef; 0xbb; 0xf8; 0x3d; 0xd2]; [0x41; 0xec; 0xb2; 0xf3; 0x30; 0xdc];
   [0x47; 0xe9; 0xa9; 0xee; 0x27; 0xce]; [0x45; 0xea; 0xa0; 0xe5; 0x2a; 0xc0]; [0x7b; 0xcb; 0x47; 0x3c; 0xb1; 0x7a];
   [0x79; 0xc8; 0x4e; 0x37; 0xbc; 0x74]; [0x7f; 0xcd; 0x55; 0x2a; 0xab; 0x66]; [0x7d; 0xce; 0x5c; 0x21; 0xa6; 0x68];
   [0x73; 0xc7; 0x63; 0x10; 0x85; 0x42]; [0x71; 0xc4; 0x6a; 0x1b; 0x88; 0x4c]; [0x77; 0xc1; 0x71; 0x06; 0x9f; 0x5e];
   [0x75; 0xc2; 0x78; 0x0d; 0x92; 0x50]; [0x6b; 0xd3; 0x0f; 0x64; 0xd9; 0x0a]; [0x69; 0xd0; 0x06; 0x6f; 0xd4; 0x04];
   [0x6f; 0xd5; 0x1d; 0x72; 0xc3; 0x16]; [0x6d; 0xd6; 0x14; 0x79; 0xce; 0x18]; [0x63; 0xdf; 0x2b; 0x48; 0xed; 0x32];
   [0x61; 0xdc; 0x22; 0x43; 0xe0; 0x3c]; [0x67; 0xd9; 0x39; 0x5e; 0xf7; 0x2e]; [0x65; 0xda; 0x30; 0x55; 0xfa; 0x20];
   [0x9b; 0x5b; 0x9a; 0x01; 0xb7; 0xec]; [0x99; 0x58; 0x93; 0x0a; 0xba; 0xe2]; [0x9f; 0x5d; 0x88; 0x17; 0xad; 0xf0];
   [0x9d; 0x5e; 0x81; 0x1c; 0xa0; 0xfe]; [0x93; 0x57; 0xbe; 0x2d; 0x83; 0xd4]; [0x91; 0x54; 0xb7; 0x26; 0x8e; 0xda];
   [0x97; 0x51; 0xac; 0x3b; 0x99; 0xc8]; [0x95; 0x52; 0xa5; 0x30; 0x94; 0xc6]; [0x8b; 0x43; 0xd2; 0x59; 0xdf; 0x9c];
   [0x89; 0x40; 0xdb; 0x52; 0xd2; 0x92]; [0x8f; 0x45; 0xc0; 0x4f; 0xc5; 0x80]; [0x8d; 0x46; 0xc9; 0x44; 0xc8; 0x8e];
   [0x83; 0x4f; 0xf6; 0x75; 0xeb; 0xa4]; [0x81; 0x4c; 0xff; 0x7e; 0xe6; 0xaa]; [0x87; 0x49; 0xe4; 0x63; 0xf1; 0xb8];
   [0x85; 0x4a; 0xed; 0x68; 0xfc; 0xb6]; [0xbb; 0x6b; 0x0a; 0xb1; 0x67; 0x0c]; [0xb9; 0x68; 0x03; 0xba; 0x6a; 0x02];
   [0xbf; 0x6d; 0x18; 0xa7; 0x7d; 0x10]; [0xbd; 0x6e; 0x11; 0xac; 0x70; 0x1e]; [0xb3; 0x67; 0x2e; 0x9d; 0x53; 0x34];
   [0xb1; 0x64; 0x27; 0x96; 0x5e; 0x3a]; [0xb7; 0x61; 0x3c; 0x8b; 0x49; 0x28]; [0xb5; 0x62; 0x35; 0x80; 0x44; 0x26];
   [0xab; 0x73; 0x42; 0xe9; 0x0f; 0x7c]; [0xa9; 0x70; 0x4b; 0xe2; 0x02; 0x72]; [0xaf; 0x75; 0x50; 0xff; 0x15; 0x60];
   [0xad; 0x76; 0x59; 0xf4; 0x18; 0x6e]; [0xa3; 0x7f; 0x66; 0xc5; 0x3b; 0x44]; [0xa1; 0x7c; 0x6f; 0xce; 0x36; 0x4a];
   [0xa7; 0x79; 0x74; 0xd3; 0x21; 0x58]; [0xa5; 0x7a; 0x7d; 0xd8; 0x2c; 0x56]; [0xdb; 0x3b; 0xa1; 0x7a; 0x0c; 0x37];
   [0xd9; 0x38; 0xa8; 0x71; 0x01; 0x39]; [0xdf; 0x3d; 0xb3; 0x6c; 0x16; 0x2b]; [0xdd; 0x3e; 0xba; 0x67; 0x1b; 0x25];
   [0xd3; 0x37; 0x85; 0x56; 0x38; 0x0f]; [0xd1; 0x34; 0x8c; 0x5d; 0x35; 0x01]; [0xd7; 0x31; 0x97; 0x40; 0x22; 0x13];
   [0xd5; 0x32; 0x9e; 0x4b; 0x2f; 0x1d]; [0xcb; 0x23; 0xe9; 0x22; 0x64; 0x47]; [0xc9; 0x20; 0xe0; 0x29; 0x69; 0x49];
   [0xcf; 0x25; 0xfb; 0x34; 0x7e; 0x5b]; [0xcd; 0x26; 0xf2; 0x3f; 0x73; 0x55]; [0xc3; 0x2f; 0xcd; 0x0e; 0x50; 0x7f];
   [0xc1; 0x2c; 0xc4; 0x05; 0x5d; 0x71]; [0xc7; 0x29; 0xdf; 0x18; 0x4a; 0x63]; [0xc5; 0x2a; 0xd6; 0x13; 0x47; 0x6d];
   [0xfb; 0x0b; 0x31; 0xca; 0xdc; 0xd7]; [0xf9; 0x08; 0x38; 0xc1; 0xd1; 0xd9]; [0xff; 0x0d; 0x23; 0xdc; 0xc6; 0xcb];
   [0xfd; 0x0e; 0x2a; 0xd7; 0xcb; 0xc5]; [0xf3; 0x07; 0x15; 0xe6; 0xe8; 0xef]; [0xf1; 0x04; 0x1c; 0xed; 0xe5; 0xe1];
   [0xf7; 0x01; 0x07; 0xf0; 0xf2; 0xf3]; [0xf5; 0x02; 0x0e; 0xfb; 0xff; 0xfd]; [0xeb; 0x13; 0x79; 0x92; 0xb4; 0xa7];
   [0xe9; 0x10; 0x70; 0x99; 0xb9; 0xa9]; [0xef; 0x15; 0x6b; 0x84; 0xae; 0xbb]; [0xed; 0x16; 0x62; 0x8f; 0xa3; 0xb5];
   [0xe3; 0x1f; 0x5d; 0xbe; 0x80; 0x9f]; [0xe1; 0x1c; 0x54; 0xb5; 0x8d; 0x91]; [0xe7; 0x19; 0x4f; 0xa8; 0x9a; 0x83];
   [0xe5; 0x1a; 0x46; 0xa3; 0x97; 0x8d]].

(** [t[i][j]]; the indices of the program are nibbles, bytes or constants. *)
Definition at2 (t : list (list Z)) (i j : Z) : Z := nth (Z.to_nat j) (nth (Z.to_nat i) t []) 0.

Definition sbox (x : Z) : Z := at2 aes_sbox (Z.shiftr x 4) (Z.land x 0x0F).
Definition invsbox (x : Z) : Z := at2 aes_invsbox (Z.shiftr x 4) (Z.land x 0x0F).
Definition gf (x j : Z) : Z := at2 gf_mul x j.

(** [w[i]]. *)
Definition word (w : list Z) (i : nat) : Z := nth i w 0.

(** ** Key expansion *)

(** [WORD] is 32 bits wide. *)
Definition KE_ROTWORD (x : Z) : Z := Z.lor (u32 (Z.shiftl x 8)) (Z.shiftr x 24).

Definition SubWord (w : Z) : Z :=
  let nib k := Z.land (Z.shiftr w k) 0x0000000F in
  u32 (at2 aes_sbox (nib 4) (nib 0) + Z.shiftl (at2 aes_sbox (nib 12) (nib 8)) 8
    + Z.shiftl (at2 aes_sbox (nib 20) (nib 16)) 16 + Z.shiftl (at2 aes_sbox (nib 28) (nib 24)) 24).

Definition Rcon : list Z :=
  [0x01000000; 0x02000000; 0x04000000; 0x08000000; 0x10000000; 0x20000000; 0x40000000; 0x80000000;
   0x1b000000; 0x36000000; 0x6c000000; 0xd8000000; 0xab000000; 0x4d000000; 0x9a000000].

(** One round of the second loop. *)
Definition key_step (Nk : nat) (w : list Z) (idx : nat) : list Z :=
  let temp := word w (idx - 1) in
  let temp :=
    if (idx mod Nk =? 0)%nat then Z.lxor (SubWord (KE_ROTWORD temp)) (word Rcon ((idx - 1) / Nk))
    else if ((6 <? Nk) && (idx mod Nk =? 4))%nat then SubWord temp
    else temp in
  <[idx := Z.lxor (word w (idx - Nk)) temp]> w.

Definition key_rounds (keysize : Z) : option (nat * nat) :=
  if keysize =? 128 then Some (10, 4)%nat
  else if keysize =? 192 then Some (12, 6)%nat
  else if keysize =? 256 then Some (14, 8)%nat
  else None.

(** The array [w] after the call; another key size leaves it as it was. *)
Definition aes_key_setup (key w : list Z) (keysize : Z) : list Z :=
  match key_rounds keysize with
  | None => w
  | Some (Nr, Nk) =>
      let w := fold_left (fun w idx =>
        <[idx := Z.lor (Z.lor (Z.lor (Z.shiftl (word key (4 * idx)) 24) (Z.shiftl (word key (4 * idx + 1)) 16))
          (Z.shiftl (word key (4 * idx + 2)) 8)) (word key (4 * idx + 3))]> w) (seq 0 Nk) w in
      fold_left (key_step Nk) (seq Nk (4 * (Nr + 1) - Nk)) w
  end.

(** ** The state *)

Record row : Type := mkRow { c0 : Z; c1 : Z; c2 : Z; c3 : Z }.
Record state : Type := mkState { r0 : row; r1 : row; r2 : row; r3 : row }.

Definition map_row (f : Z -> Z) (r : row) : row := mkRow (f (c0 r)) (f (c1 r)) (f (c2 r)) (f (c3 r)).
Definition map_state (f : Z -> Z) (s : state) : state :=
  mkState (map_row f (r0 s)) (map_row f (r1 s)) (map_row f (r2 s)) (map_row f (r3 s)).

(** Byte [in[r + 4 * c]] is [state[r][c]]. *)
Definition load_state (inb : list Z) : state :=
  let row_at i := mkRow (word inb i) (word inb (i + 4)) (word inb (i + 8)) (word inb (i + 12)) in
  mkState (row_at 0%nat) (row_at 1%nat) (row_at 2%nat) (row_at 3%nat).
Definition store_state (s : state) : list Z :=
  [c0 (r0 s); c0 (r1 s); c0 (r2 s); c0 (r3 s); c1 (r0 s); c1 (r1 s); c1 (r2 s); c1 (r3 s);
   c2 (r0 s); c2 (r1 s); c2 (r2 s); c2 (r3 s); c3 (r0 s); c3 (r1 s); c3 (r2 s); c3 (r3 s)].

(** [AddRoundKey(state, &w[k])]: column [i] with the bytes of [w[k + i]], the high byte
    in row 0. *)
Definition AddRoundKey (s : state) (w : list Z) (k : nat) : state :=
  let add r sh := mkRow (Z.lxor (c0 r) (u8 (Z.shiftr (word w k) sh))) (Z.lxor (c1 r) (u8 (Z.shiftr (word w (k + 1)) sh)))
    (Z.lxor (c2 r) (u8 (Z.shiftr (word w (k + 2)) sh))) (Z.lxor (c3 r) (u8 (Z.shiftr (word w (k + 3)) sh))) in
  mkState (add (r0 s) 24) (add (r1 s) 16) (add (r2 s) 8) (add (r3 s) 0).

Definition SubBytes (s : state) : state := map_state sbox s.
Definition InvSubBytes (s : state) : state := map_state invsbox s.

Definition ShiftRows (s : state) : state :=
  let '(mkState r0 r1 r2 r3) := s in
  mkState r0 (mkRow (c1 r1) (c2 r1) (c3 r1) (c0 r1)) (mkRow (c2 r2) (c3 r2) (c0 r2) (c1 r2))
    (mkRow (c3 r3) (c0 r3) (c1 r3) (c2 r3)).

Definition InvShiftRows (s : state) : state :=
  let '(mkState r0 r1 r2 r3) := s in
  mkState r0 (mkRow (c3 r1) (c0 r1) (c1 r1) (c2 r1)) (mkRow (c2 r2) (c3 r2) (c0 r2) (c1 r2))
    (mkRow (c1 r3) (c2 r3) (c3 r3) (c0 r3)).

(** A column is kept as a row; the same code is written out for the four columns. *)
Definition on_columns (f : row -> row) (s : state) : state :=
  let '(mkState a b c d) := s in
  let p := f (mkRow (c0 a) (c0 b) (c0 c) (c0 d)) in
  let q := f (mkRow (c1 a) (c1 b) (c1 c) (c1 d)) in
  let r := f (mkRow (c2 a) (c2 b) (c2 c) (c2 d)) in
  let t := f (mkRow (c3 a) (c3 b) (c3 c) (c3 d)) in
  mkState (mkRow (c0 p) (c0 q) (c0 r) (c0 t)) (mkRow (c1 p) (c1 q) (c1 r) (c1 t))
    (mkRow (c2 p) (c2 q) (c2 r) (c2 t)) (mkRow (c3 p) (c3 q) (c3 r) (c3 t)).

Definition xor4 (a b c d : Z) : Z := Z.lxor (Z.lxor (Z.lxor a b) c) d.

Definition mix_column (col : row) : row :=
  let '(mkRow a b c d) := col in
  mkRow (xor4 (gf a 0) (gf b 1) c d) (xor4 a (gf b 0) (gf c 1) d)
    (xor4 a b (gf c 0) (gf d 1)) (xor4 (gf a 1) b c (gf d 0)).
Definition MixColumns (s : state) : state := on_columns mix_column s.

Definition inv_mix_column (col : row) : row :=
  let '(mkRow a b c d) := col in
  mkRow (xor4 (gf a 5) (gf b 3) (gf c 4) (gf d 2)) (xor4 (gf a 2) (gf b 5) (gf c 3) (gf d 4))
    (xor4 (gf a 4) (gf b 2) (gf c 5) (gf d 3)) (xor4 (gf a 3) (gf b 4) (gf c 2) (gf d 5)).
Definition InvMixColumns (s : state) : state := on_columns inv_mix_column s.

(** ** The cipher *)

Definition enc_round (key : list Z) (s : state) (k : nat) : state := AddRoundKey (MixColumns (ShiftRows (SubBytes s))) key k.
Definition enc_last (key : list Z) (s : state) (k : nat) : state := AddRoundKey (ShiftRows (SubBytes s)) key k.

Definition aes_encrypt (inb key : list Z) (keysize : Z) : list Z :=
  let s := AddRoundKey (load_state inb) key 0 in
  let s := fold_left (enc_round key) [4; 8; 12; 16; 20; 24; 28; 32; 36]%nat s in
  let s :=
    if negb (keysize =? 128) then
      let s := enc_round key (enc_round key s 40) 44 in
      if negb (keysize =? 192) then enc_last key (enc_round key (enc_round key s 48) 52) 56
      else enc_last key s 48
    else enc_last key s 40 in
  store_state s.

Definition dec_round (key : list Z) (s : state) (k : nat) : state := InvMixColumns (AddRoundKey (InvSubBytes (InvShiftRows s)) key k).
Definition dec_last (key : list Z) (s : state) (k : nat) : state := AddRoundKey (InvSubBytes (InvShiftRows s)) key k.

Definition aes_decrypt (inb key : list Z) (keysize : Z) : list Z :=
  let s := load_state inb in
  let s :=
    if 128 <? keysize then
      let s :=
        if 192 <? keysize then dec_round key (dec_round key (AddRoundKey s key 56) 52) 48
        else AddRoundKey s key 48 in
      dec_round key (dec_round key s 44) 40
    else AddRoundKey s key 40 in
  let s := fold_left (dec_round key) [36; 32; 28; 24; 20; 16; 12; 8; 4]%nat s in
  store_state (dec_last key s 0).

(** ** Modes *)

Definition xor_buf (inb out : list Z) (len : nat) : list Z :=
  fold_left (fun out idx => <[idx := Z.lxor (word out idx) (word inb idx)]> out) (seq 0 len) out.

(** [memcpy(buf, &in[idx * AES_BLOCK_SIZE], AES_BLOCK_SIZE)] and the copy back. *)
Definition get_block (inb : list Z) (idx : nat) : list Z := take 16 (drop (16 * idx) inb).
Definition put_block (out : list Z) (idx : nat) (b : list Z) : list Z := take (16 * idx) out ++ b ++ drop (16 * idx + 16) out.

Section Modes.
Context (key : list Z) (keysize : Z).

(** [None]: the function returns [FALSE]. *)
Definition aes_encrypt_cbc (inb out iv : list Z) : option (list Z) :=
  if negb (length inb mod 16 =? 0)%nat then None
  else Some (fold_left (fun '(out, iv_buf) idx =>
    let buf_in := xor_buf iv_buf (get_block inb idx) 16 in
    let buf_out := aes_encrypt buf_in key keysize in
    (put_block out idx buf_out, buf_out)) (seq 0 (length inb / 16)) (out, take 16 iv)).1.

(** Only the last block; [buf_out] is not initialised when there is none. *)
Definition aes_encrypt_cbc_mac (inb iv garbage : list Z) : option (list Z) :=
  if negb (length inb mod 16 =? 0)%nat then None
  else Some (fold_left (fun '(buf_out, iv_buf) idx =>
    let buf_in := xor_buf iv_buf (get_block inb idx) 16 in
    let buf_out := aes_encrypt buf_in key keysize in
    (buf_out, buf_out)) (seq 0 (length inb / 16)) (garbage, take 16 iv)).1.

Definition aes_decrypt_cbc (inb out iv : list Z) : option (list Z) :=
  if negb (length inb mod 16 =? 0)%nat then None
  else Some (fold_left (fun '(out, iv_buf) idx =>
    let buf_in := get_block inb idx in
    let buf_out := xor_buf iv_buf (aes_decrypt buf_in key keysize) 16 in
    (put_block out idx buf_out, buf_in)) (seq 0 (length inb / 16)) (out, take 16 iv)).1.

(** [for (idx = 15; idx >= 16 - counter_size; idx--)], [n] rounds at most. *)
Fixpoint inc_loop (n : nat) (stop idx : Z) (iv : list Z) : list Z :=
  match n with
  | O => iv
  | S n =>
      let v := u8 (word iv (Z.to_nat idx) + 1) in
      let iv := <[Z.to_nat idx := v]> iv in
      if negb (v =? 0) || (idx =? stop) then iv else inc_loop n stop (idx - 1) iv
  end.
Definition increment_iv (iv : list Z) (counter_size : Z) : list Z :=
  inc_loop (Z.to_nat counter_size) (AES_BLOCK_SIZE - counter_size) (AES_BLOCK_SIZE - 1) iv.

(** [xor_buf(out_buf, &out[idx], len)] *)
Definition xor_at (out_buf out : list Z) (idx len : nat) : list Z := take idx out ++ xor_buf out_buf (drop idx out) len.

(** The loop over the whole blocks before the last one. *)
Fixpoint ctr_loop (fuel : nat) (idx last_block_length : nat) (iv_buf out : list Z) : nat * list Z * list Z :=
  if (idx <? last_block_length)%nat then
    match fuel with
    | O => (idx, iv_buf, out)
    | S fuel => ctr_loop fuel (idx + 16) last_block_length (increment_iv iv_buf AES_BLOCK_SIZE)
                  (xor_at (aes_encrypt iv_buf key keysize) out idx 16)
    end
  else (idx, iv_buf, out).

(** A round takes a block: the length is fuel enough. *)
Definition aes_encrypt_ctr (inb iv : list Z) : list Z :=
  let in_len := length inb in
  let out := inb in
  let iv_buf := take 16 iv in
  let '(idx, iv_buf, out) := if (16 <? in_len)%nat then ctr_loop in_len 0 (in_len - 16) iv_buf out else (0%nat, iv_buf, out) in
  xor_at (aes_encrypt iv_buf key keysize) out idx (in_len - idx).

Definition aes_decrypt_ctr (inb iv : list Z) : list Z := aes_encrypt_ctr inb iv.
End Modes.
