(* ===== verification/AesSpec.v ===== *)
(** * AES against FIPS 197

    The reference ([Fips197]) computes in the field with 256 elements and keeps the
    state as the list of its bytes.  The program's tables are the reference's
    functions, its round functions the reference's, its key schedule the reference's;
    decryption undoes encryption. *)

From S2P Require Import Prelude Mem Aes.
From Stdlib Require Import ZArith Lia Btauto.
From stdpp Require Import base tactics list list_numbers numbers.
Local Open Scope Z_scope.
Local Open Scope keystone_scope.

Module Fips197.
(** ** The field (section 4) *)

Definition xtime (b : Z) : Z := let b2 := 2 * b in if Z.testbit b2 8 then Z.lxor b2 0x11b else b2.
Fixpoint mul (n : nat) (a b : Z) : Z :=
  match n with
  | O => 0
  | S n => Z.lxor (if Z.odd a then b else 0) (mul n (Z.div2 a) (xtime b))
  end.
(** The product of two bytes. *)
Definition gmul (a b : Z) : Z := mul 8 a b.
Fixpoint gpow (n : nat) (b : Z) : Z := match n with O => 1 | S n => gmul b (gpow n b) end.
(** The inverse, and 0 for 0. *)
Definition ginv (b : Z) : Z :=
  let sq x := gmul x x in
  let b3 := gmul b (sq b) in
  let b15 := gmul b3 (sq (sq b3)) in
  let b127 := gmul (gmul (sq (sq (sq b15))) (sq (sq b))) (gmul (sq b) b) in
  sq b127.

(** ** The transformations (section 5) *)

Definition rotl (x n : Z) : Z := Z.lor (u8 (Z.shiftl x n)) (Z.shiftr x (8 - n)).
Definition SBox (x : Z) : Z :=
  let b := ginv x in
  Z.lxor (Z.lxor (Z.lxor (Z.lxor (Z.lxor b (rotl b 1)) (rotl b 2)) (rotl b 3)) (rotl b 4)) 0x63.

(** Byte [r], [c] of a state is byte [r + 4 c] of the list. *)
Definition at_ (s : list Z) (r c : nat) : Z := nth (r + 4 * c) s 0.
Definition build (f : nat -> nat -> Z) : list Z := map (fun i => f (i mod 4)%nat (i / 4)%nat) (seq 0 16).

Definition SubBytes (s : list Z) : list Z := map SBox s.
Definition ShiftRows (s : list Z) : list Z := build (fun r c => at_ s r ((c + r) mod 4)).
(** The coefficient in row [r] and column [k] of the matrix. *)
Definition coef (r k : nat) : Z := nth ((k + 4 - r) mod 4) [2; 3; 1; 1] 0.
Definition MixColumns (s : list Z) : list Z :=
  build (fun r c => fold_left (fun acc k => Z.lxor acc (gmul (coef r k) (at_ s k c))) [1; 2; 3]%nat (gmul (coef r 0) (at_ s 0 c))).
Definition AddRoundKey (s k : list Z) : list Z := zip_with Z.lxor s k.

(** ** Key expansion; a word is four bytes *)

Definition RotWord (w : list Z) : list Z := drop 1 w ++ take 1 w.
Definition SubWord (w : list Z) : list Z := map SBox w.
Definition Rcon (i : nat) : list Z := [gpow (i - 1) 2; 0; 0; 0].
Definition nth_word (w : list (list Z)) (i : nat) : list Z := nth i w [].
Definition next_word (Nk : nat) (w : list (list Z)) (i : nat) : list Z :=
  let temp := nth_word w (i - 1) in
  let temp :=
    if (i mod Nk =? 0)%nat then zip_with Z.lxor (SubWord (RotWord temp)) (Rcon (i / Nk))
    else if ((6 <? Nk) && (i mod Nk =? 4))%nat then SubWord temp
    else temp in
  zip_with Z.lxor (nth_word w (i - Nk)) temp.
Definition KeyExpansion (Nr Nk : nat) (key : list Z) : list (list Z) :=
  fold_left (fun w i => w ++ [next_word Nk w i]) (seq Nk (4 * (Nr + 1) - Nk)) (map (fun i => take 4 (drop (4 * i) key)) (seq 0 Nk)).

(** ** The cipher *)

Definition round_key (w : list (list Z)) (r : nat) : list Z := concat (take 4 (drop (4 * r) w)).
Definition Cipher (Nr : nat) (w : list (list Z)) (inb : list Z) : list Z :=
  let s := AddRoundKey inb (round_key w 0) in
  let s := fold_left (fun s r => AddRoundKey (MixColumns (ShiftRows (SubBytes s))) (round_key w r)) (seq 1 (Nr - 1)) s in
  AddRoundKey (ShiftRows (SubBytes s)) (round_key w Nr).
End Fips197.

(** ** Facts about bytes, checked one by one *)

Lemma byte_check (f : Z -> bool) : forallb f (seqZ 0 256) = true -> forall x, is_u8 x -> f x = true.
Proof.
  intros H x Hx. rewrite forallb_forall in H. apply H, list_elem_of_In, elem_of_seqZ.
  unfold is_u8 in Hx.
  lia.
Qed.

Lemma byte_eq (f g : Z -> Z) : forallb (fun x => f x =? g x) (seqZ 0 256) = true -> forall x, is_u8 x -> f x = g x.
Proof. intros H x Hx. apply Z.eqb_eq. exact (byte_check (fun x => f x =? g x) H x Hx). Qed.

Lemma byte_range (f : Z -> Z) : forallb (fun x => (0 <=? f x) && (f x <? 2 ^ 8)) (seqZ 0 256) = true -> forall x, is_u8 x -> is_u8 (f x).
Proof. intros H x Hx. pose proof (byte_check _ H x Hx) as E. cbn beta in E. apply andb_true_iff in E as [?%Z.leb_le ?%Z.ltb_lt]. done. Qed.

Lemma sbox_spec x : is_u8 x -> sbox x = Fips197.SBox x.
Proof. apply (byte_eq sbox Fips197.SBox). by vm_compute. Qed.
Lemma invsbox_sbox x : is_u8 x -> invsbox (sbox x) = x.
Proof. apply (byte_eq (fun x => invsbox (sbox x)) (fun x => x)). by vm_compute. Qed.
Lemma sbox_invsbox x : is_u8 x -> sbox (invsbox x) = x.
Proof. apply (byte_eq (fun x => sbox (invsbox x)) (fun x => x)). by vm_compute. Qed.
Lemma sbox_u8 x : is_u8 x -> is_u8 (sbox x).
Proof. apply (byte_range sbox). by vm_compute. Qed.
Lemma invsbox_u8 x : is_u8 x -> is_u8 (invsbox x).
Proof. apply (byte_range invsbox). by vm_compute. Qed.

(** The columns of [gf_mul]. *)
Definition gf_coef : list Z := [2; 3; 9; 11; 13; 14].
Definition gf_col (j : Z) : Prop := 0 <= j < 6.

Lemma gf_spec x j : is_u8 x -> gf_col j -> gf x j = Fips197.gmul (nth (Z.to_nat j) gf_coef 0) x.
Proof.
  intros Hx Hj. assert (forallb (fun j => forallb (fun x => gf x j =? Fips197.gmul (nth (Z.to_nat j) gf_coef 0) x) (seqZ 0 256)) (seqZ 0 6) = true)
    as H by by vm_compute.
  rewrite forallb_forall in H. assert (In j (seqZ 0 6)) as Hin by (apply list_elem_of_In, elem_of_seqZ; unfold gf_col in Hj; lia).
  exact (byte_eq (fun x => gf x j) (fun x => Fips197.gmul (nth (Z.to_nat j) gf_coef 0) x) (H j Hin) x Hx).
Qed.

Lemma gf_u8 x j : is_u8 x -> gf_col j -> is_u8 (gf x j).
Proof.
  intros Hx Hj. assert (forallb (fun j => forallb (fun x => (0 <=? gf x j) && (gf x j <? 2 ^ 8)) (seqZ 0 256)) (seqZ 0 6) = true) as H by by vm_compute.
  rewrite forallb_forall in H. assert (In j (seqZ 0 6)) as Hin by (apply list_elem_of_In, elem_of_seqZ; unfold gf_col in Hj; lia).
  exact (byte_range (fun x => gf x j) (H j Hin) x Hx).
Qed.

(** ** Multiplication distributes over addition *)

Lemma xtime_lxor x y : Fips197.xtime (Z.lxor x y) = Z.lxor (Fips197.xtime x) (Fips197.xtime y).
Proof.
  unfold Fips197.xtime. assert (2 * Z.lxor x y = Z.lxor (2 * x) (2 * y)) as ->.
  { rewrite !(Z.mul_comm 2). change 2 with (2 ^ 1). rewrite <- !Z.shiftl_mul_pow2 by lia. apply Z.shiftl_lxor. }
  rewrite Z.lxor_spec. destruct (Z.testbit (2 * x) 8), (Z.testbit (2 * y) 8); cbn [xorb];
    apply Z.bits_inj'; intros n Hn; rewrite ?Z.lxor_spec; btauto.
Qed.

Lemma gmul_lxor a x y : Fips197.gmul a (Z.lxor x y) = Z.lxor (Fips197.gmul a x) (Fips197.gmul a y).
Proof.
  unfold Fips197.gmul. generalize 8%nat. intros n. revert a x y. induction n as [|n IH]; intros a x y; cbn [Fips197.mul]; [done|].
  rewrite xtime_lxor, IH. destruct (Z.odd a); apply Z.bits_inj'; intros i Hi; rewrite ?Z.lxor_spec, ?Z.bits_0; btauto.
Qed.

Lemma gf_lxor x y j : is_u8 x -> is_u8 y -> gf_col j -> gf (Z.lxor x y) j = Z.lxor (gf x j) (gf y j).
Proof. intros Hx Hy Hj. rewrite !gf_spec by (done || by apply lxor_u8). apply gmul_lxor. Qed.

(** ** States of bytes *)

Definition row_ok (r : row) : Prop := is_u8 (c0 r) /\ is_u8 (c1 r) /\ is_u8 (c2 r) /\ is_u8 (c3 r).
Definition state_ok (s : state) : Prop := row_ok (r0 s) /\ row_ok (r1 s) /\ row_ok (r2 s) /\ row_ok (r3 s).

(** Sixteen goals, one for each byte. *)
Ltac split_bytes := unfold state_ok, row_ok in *; cbn [c0 c1 c2 c3 r0 r1 r2 r3 map_state map_row AddRoundKey ShiftRows InvShiftRows on_columns mix_column inv_mix_column load_state] in *; split_and!.

Lemma u8_u8 x : is_u8 (u8 x).
Proof. unfold is_u8, u8. apply Z.mod_pos_bound. lia. Qed.

Lemma word_u8 l i : Forall is_u8 l -> is_u8 (word l i).
Proof.
  intros Hl. unfold word. destruct (decide (i < length l)%nat) as [Hi|Hi].
  - rewrite Forall_forall in Hl. by apply Hl, nth_In.
  - rewrite nth_overflow by lia. done.
Qed.

Lemma load_state_ok l : Forall is_u8 l -> state_ok (load_state l).
Proof. intros Hl. split_bytes; by apply word_u8. Qed.

Lemma map_state_ok f s : (forall x, is_u8 x -> is_u8 (f x)) -> state_ok s -> state_ok (map_state f s).
Proof. intros Hf ((?&?&?&?) & (?&?&?&?) & (?&?&?&?) & (?&?&?&?)). split_bytes; by apply Hf. Qed.

Lemma AddRoundKey_ok s w k : state_ok s -> state_ok (AddRoundKey s w k).
Proof. intros ((?&?&?&?) & (?&?&?&?) & (?&?&?&?) & (?&?&?&?)). split_bytes; apply lxor_u8; done || apply u8_u8. Qed.

Lemma ShiftRows_ok s : state_ok s -> state_ok (ShiftRows s).
Proof. destruct s. intros ((?&?&?&?) & (?&?&?&?) & (?&?&?&?) & (?&?&?&?)). split_bytes; tauto. Qed.
Lemma InvShiftRows_ok s : state_ok s -> state_ok (InvShiftRows s).
Proof. destruct s. intros ((?&?&?&?) & (?&?&?&?) & (?&?&?&?) & (?&?&?&?)). split_bytes; tauto. Qed.

Lemma on_columns_ok f s : (forall r, row_ok r -> row_ok (f r)) -> state_ok s -> state_ok (on_columns f s).
Proof.
  intros Hf Hs. destruct s as [[] [] [] []]. destruct Hs as ((?&?&?&?) & (?&?&?&?) & (?&?&?&?) & (?&?&?&?)).
  split_bytes; apply Hf; split_bytes; tauto.
Qed.

Lemma xor4_u8 a b c d : is_u8 a -> is_u8 b -> is_u8 c -> is_u8 d -> is_u8 (xor4 a b c d).
Proof. intros. by repeat apply lxor_u8. Qed.

Lemma mix_column_ok r : row_ok r -> row_ok (mix_column r).
Proof. destruct r. intros (?&?&?&?). split_bytes; apply xor4_u8; first [done|apply gf_u8; [done|by compute]]. Qed.
Lemma inv_mix_column_ok r : row_ok r -> row_ok (inv_mix_column r).
Proof. destruct r. intros (?&?&?&?). split_bytes; apply xor4_u8; first [done|apply gf_u8; [done|by compute]]. Qed.

Create HintDb aes.
#[export] Hint Resolve sbox_u8 invsbox_u8 load_state_ok map_state_ok AddRoundKey_ok ShiftRows_ok InvShiftRows_ok on_columns_ok
  mix_column_ok inv_mix_column_ok : aes.

Lemma enc_round_ok key s k : state_ok s -> state_ok (enc_round key s k).
Proof. unfold enc_round, MixColumns, SubBytes. auto 8 with aes. Qed.
Lemma enc_last_ok key s k : state_ok s -> state_ok (enc_last key s k).
Proof. unfold enc_last, SubBytes. auto 8 with aes. Qed.
Lemma dec_round_ok key s k : state_ok s -> state_ok (dec_round key s k).
Proof. unfold dec_round, InvMixColumns, InvSubBytes. auto 8 with aes. Qed.
Lemma dec_last_ok key s k : state_ok s -> state_ok (dec_last key s k).
Proof. unfold dec_last, InvSubBytes. auto 8 with aes. Qed.

Lemma fold_ok (f : state -> nat -> state) l s : (forall s k, state_ok s -> state_ok (f s k)) -> state_ok s -> state_ok (fold_left f l s).
Proof. intros Hf. revert s. induction l as [|k l IH]; intros s Hs; [done|]. cbn [fold_left]. auto. Qed.

Lemma store_state_u8 s : state_ok s -> Forall is_u8 (store_state s).
Proof. intros ((?&?&?&?) & (?&?&?&?) & (?&?&?&?) & (?&?&?&?)). unfold store_state. repeat (apply Forall_cons_2; [done|]). apply Forall_nil_2. Qed.

Lemma store_load l : length l = 16%nat -> store_state (load_state l) = l.
Proof. intros Hl. do 16 (destruct l as [|? l]; [done|]). by destruct l. Qed.
Lemma load_store s : load_state (store_state s) = s.
Proof. by destruct s as [[] [] [] []]. Qed.

(** ** The whole functions as folds over the rounds *)

Definition key_size (keysize : Z) (Nr : nat) : Prop := keysize = 128 /\ Nr = 10%nat \/ keysize = 192 /\ Nr = 12%nat \/ keysize = 256 /\ Nr = 14%nat.

Definition round_offsets (Nr : nat) : list nat := map (fun r => 4 * r)%nat (seq 1 (Nr - 1)).

#[local] Opaque enc_round enc_last dec_round dec_last AddRoundKey load_state store_state.
Ltac unfold_rounds :=
  intros [[-> ->]|[[-> ->]|[-> ->]]]; unfold aes_encrypt, aes_decrypt, round_offsets;
  cbn [Z.eqb Pos.eqb Z.ltb Z.compare Pos.compare Pos.compare_cont negb Nat.sub seq map Nat.mul Nat.add rev app fold_left]; reflexivity.

Lemma aes_encrypt_rounds inb key keysize Nr : key_size keysize Nr ->
  aes_encrypt inb key keysize =
    store_state (enc_last key (fold_left (enc_round key) (round_offsets Nr) (AddRoundKey (load_state inb) key 0)) (4 * Nr)).
Proof. unfold_rounds. Qed.

Lemma aes_decrypt_rounds inb key keysize Nr : key_size keysize Nr ->
  aes_decrypt inb key keysize =
    store_state (dec_last key (fold_left (dec_round key) (rev (round_offsets Nr)) (AddRoundKey (load_state inb) key (4 * Nr))) 0).
Proof. unfold_rounds. Qed.

#[local] Transparent enc_round enc_last dec_round dec_last AddRoundKey load_state store_state.

(** ** Decryption undoes encryption *)

Ltac xor_bits := apply Z.bits_inj'; intros; rewrite ?Z.lxor_spec; btauto.

Ltac open_state s Hs :=
  destruct s as [[x1 x2 x3 x4] [x5 x6 x7 x8] [y1 y2 y3 y4] [y5 y6 y7 y8]];
  destruct Hs as ((?&?&?&?) & (?&?&?&?) & (?&?&?&?) & (?&?&?&?)); cbn [c0 c1 c2 c3 r0 r1 r2 r3] in *.

Lemma AddRoundKey_twice s w k : AddRoundKey (AddRoundKey s w k) w k = s.
Proof.
  destruct s as [[x1 x2 x3 x4] [x5 x6 x7 x8] [y1 y2 y3 y4] [y5 y6 y7 y8]]. unfold AddRoundKey. cbn [c0 c1 c2 c3 r0 r1 r2 r3].
  do 2 f_equal; by rewrite Z.lxor_assoc, Z.lxor_nilpotent, Z.lxor_0_r.
Qed.

Lemma InvShiftRows_ShiftRows s : InvShiftRows (ShiftRows s) = s.
Proof. by destruct s as [[] [] [] []]. Qed.

Lemma map_state_inv f g s : (forall x, is_u8 x -> g (f x) = x) -> state_ok s -> map_state g (map_state f s) = s.
Proof.
  intros Hf Hs. open_state s Hs. unfold map_state, map_row. cbn [c0 c1 c2 c3 r0 r1 r2 r3]. by rewrite !Hf.
Qed.

Lemma on_columns_inv f g s : (forall r, row_ok r -> g (f r) = r) -> state_ok s -> on_columns g (on_columns f s) = s.
Proof.
  intros Hf Hs. open_state s Hs.
  assert (forall r, mkRow (c0 r) (c1 r) (c2 r) (c3 r) = r) as Er by by intros [].
  unfold on_columns. cbn [c0 c1 c2 c3 r0 r1 r2 r3]. rewrite !Er, !Hf; done || by split_bytes.
Qed.

(** The products of the two matrices, one entry each: 1 on the diagonal, 0 beside it. *)
Lemma inv_mix_diag x : is_u8 x -> xor4 (gf (gf x 0) 5) (gf x 3) (gf x 4) (gf (gf x 1) 2) = x.
Proof. apply (byte_eq (fun x => xor4 (gf (gf x 0) 5) (gf x 3) (gf x 4) (gf (gf x 1) 2)) (fun x => x)). by vm_compute. Qed.
Lemma inv_mix_off1 x : is_u8 x -> xor4 (gf (gf x 1) 5) (gf (gf x 0) 3) (gf x 4) (gf x 2) = 0.
Proof. apply (byte_eq (fun x => xor4 (gf (gf x 1) 5) (gf (gf x 0) 3) (gf x 4) (gf x 2)) (fun x => 0)). by vm_compute. Qed.
Lemma inv_mix_off2 x : is_u8 x -> xor4 (gf x 5) (gf (gf x 1) 3) (gf (gf x 0) 4) (gf x 2) = 0.
Proof. apply (byte_eq (fun x => xor4 (gf x 5) (gf (gf x 1) 3) (gf (gf x 0) 4) (gf x 2)) (fun x => 0)). by vm_compute. Qed.
Lemma inv_mix_off3 x : is_u8 x -> xor4 (gf x 5) (gf x 3) (gf (gf x 1) 4) (gf (gf x 0) 2) = 0.
Proof. apply (byte_eq (fun x => xor4 (gf x 5) (gf x 3) (gf (gf x 1) 4) (gf (gf x 0) 2)) (fun x => 0)). by vm_compute. Qed.

Lemma gf_xor4 a b c d j : is_u8 a -> is_u8 b -> is_u8 c -> is_u8 d -> gf_col j ->
  gf (xor4 a b c d) j = xor4 (gf a j) (gf b j) (gf c j) (gf d j).
Proof. intros. unfold xor4. by rewrite !gf_lxor by (done || by repeat apply lxor_u8). Qed.

#[local] Opaque gf sbox invsbox.

Ltac bytes_ok := repeat first [done | apply lxor_u8 | apply gf_u8 | apply xor4_u8 | by compute].

Lemma xor4_transpose a1 a2 a3 a4 b1 b2 b3 b4 c1 c2 c3 c4 d1 d2 d3 d4 :
  xor4 (xor4 a1 b1 c1 d1) (xor4 a2 b2 c2 d2) (xor4 a3 b3 c3 d3) (xor4 a4 b4 c4 d4) =
  xor4 (xor4 a1 a2 a3 a4) (xor4 b1 b2 b3 b4) (xor4 c1 c2 c3 c4) (xor4 d1 d2 d3 d4).
Proof. unfold xor4. xor_bits. Qed.

Lemma xor4_rot a b c d : xor4 a b c d = xor4 b c d a.
Proof. unfold xor4. xor_bits. Qed.

Lemma xor4_0 a : xor4 a 0 0 0 = a.
Proof. unfold xor4. by rewrite !Z.lxor_0_r. Qed.

Lemma inv_mix_column_mix r : row_ok r -> inv_mix_column (mix_column r) = r.
Proof.
  destruct r as [a b c d]. intros (Ha & Hb & Hc & Hd). cbn [c0 c1 c2 c3] in *. unfold mix_column, inv_mix_column.
  rewrite !gf_xor4 by bytes_ok. f_equal; rewrite xor4_transpose.
  - rewrite inv_mix_diag, inv_mix_off1, inv_mix_off2, inv_mix_off3 by done. apply xor4_0.
  - rewrite (xor4_rot (gf (gf a 0) 2)), (xor4_rot (gf (gf b 1) 2)), (xor4_rot (gf c 2)), (xor4_rot (gf d 2)).
    rewrite inv_mix_diag, inv_mix_off1, inv_mix_off2, inv_mix_off3 by done. by rewrite xor4_rot, xor4_0.
  - rewrite (xor4_rot (gf (gf a 0) 4)), (xor4_rot (gf (gf b 1) 4)), (xor4_rot (gf c 4)), (xor4_rot (gf d 4)).
    rewrite (xor4_rot (gf a 2)), (xor4_rot (gf (gf b 0) 2)), (xor4_rot (gf (gf c 1) 2)), (xor4_rot (gf d 2)).
    rewrite inv_mix_diag, inv_mix_off1, inv_mix_off2, inv_mix_off3 by done. by rewrite !(xor4_rot 0), xor4_0.
  - rewrite <- (xor4_rot (gf (gf a 1) 5)), <- (xor4_rot (gf b 5)), <- (xor4_rot (gf c 5)), <- (xor4_rot (gf (gf d 0) 5)).
    rewrite inv_mix_diag, inv_mix_off1, inv_mix_off2, inv_mix_off3 by done. by rewrite <- xor4_rot, xor4_0.
Qed.

(** ** One round and its inverse *)

Lemma inv_sub_shift s : state_ok s -> InvSubBytes (InvShiftRows (ShiftRows (SubBytes s))) = s.
Proof. intros Hs. rewrite InvShiftRows_ShiftRows. apply map_state_inv; [apply invsbox_sbox|done]. Qed.

Lemma dec_enc_round key s k : state_ok s -> dec_round key (ShiftRows (SubBytes (enc_round key s k))) k = ShiftRows (SubBytes s).
Proof.
  intros Hs. unfold dec_round. rewrite inv_sub_shift by by apply enc_round_ok. unfold enc_round. rewrite AddRoundKey_twice.
  apply on_columns_inv; [apply inv_mix_column_mix|]. unfold SubBytes. auto with aes.
Qed.

Lemma dec_enc_rounds key l s : state_ok s ->
  fold_left (dec_round key) (rev l) (ShiftRows (SubBytes (fold_left (enc_round key) l s))) = ShiftRows (SubBytes s).
Proof.
  revert s. induction l as [|k l IH]; intros s Hs; [done|]. cbn [rev fold_left]. rewrite fold_left_app, IH by by apply enc_round_ok.
  by apply dec_enc_round.
Qed.

Lemma aes_decrypt_rt inb key keysize Nr :
  key_size keysize Nr -> Forall is_u8 inb -> length inb = 16%nat ->
  aes_decrypt (aes_encrypt inb key keysize) key keysize = inb.
Proof.
  intros Hk Hin Hl. rewrite (aes_decrypt_rounds _ key keysize Nr Hk), (aes_encrypt_rounds inb key keysize Nr Hk).
  rewrite load_store. unfold enc_last at 1. rewrite AddRoundKey_twice.
  rewrite dec_enc_rounds by auto with aes. unfold dec_last. rewrite inv_sub_shift by auto with aes.
  by rewrite AddRoundKey_twice, store_load.
Qed.

(** The output is made of bytes. *)
Lemma aes_encrypt_u8 inb key keysize : Forall is_u8 inb -> Forall is_u8 (aes_encrypt inb key keysize).
Proof.
  intros Hin. unfold aes_encrypt. apply store_state_u8.
  assert (state_ok (fold_left (enc_round key) [4; 8; 12; 16; 20; 24; 28; 32; 36]%nat (AddRoundKey (load_state inb) key 0))) as Hok
    by (apply fold_ok; [intros; by apply enc_round_ok|auto with aes]).
  destruct (negb (keysize =? 128)), (negb (keysize =? 192)); auto 10 using enc_round_ok, enc_last_ok.
Qed.

Lemma zip_lxor_u8 l k : Forall is_u8 l -> Forall is_u8 k -> Forall is_u8 (zip_with Z.lxor l k).
Proof.
  intros Hl. revert k. induction Hl as [|x l Hx Hl IH]; intros k Hk; [apply Forall_nil_2|]. destruct Hk; [apply Forall_nil_2|].
  apply Forall_cons_2; [by apply lxor_u8|by apply IH].
Qed.

(** Decryption undoes encryption: for each of the three key sizes and any key
    schedule, [aes_decrypt] of [aes_encrypt] of a block of bytes is the block. *)
Theorem aes_decrypt_encrypt inb key keysize Nr :
  key_size keysize Nr -> Forall is_u8 inb -> length inb = 16%nat ->
  aes_decrypt (aes_encrypt inb key keysize) key keysize = inb.
Proof. apply aes_decrypt_rt. Qed.

Lemma aes_decrypt_encrypt_witness :
  aes_decrypt (aes_encrypt (seqZ 0 16) (replicate 80 5) 256) (replicate 80 5) 256 = seqZ 0 16.
Proof. apply (aes_decrypt_encrypt (seqZ 0 16) (replicate 80 5) 256 14); [unfold key_size; auto| |done]. repeat constructor; by compute. Defined.

(** ** The cipher is the reference's *)

(** The bytes of a word, the high one first. *)
Definition be4 (w : Z) : list Z := [u8 (Z.shiftr w 24); u8 (Z.shiftr w 16); u8 (Z.shiftr w 8); u8 (Z.shiftr w 0)].

Lemma store_SubBytes s : state_ok s -> store_state (SubBytes s) = Fips197.SubBytes (store_state s).
Proof.
  intros Hs. open_state s Hs. unfold SubBytes, map_state, map_row, store_state, Fips197.SubBytes. cbn [c0 c1 c2 c3 r0 r1 r2 r3 map].
  by rewrite !sbox_spec.
Qed.

Lemma store_ShiftRows s : store_state (ShiftRows s) = Fips197.ShiftRows (store_state s).
Proof. by destruct s as [[] [] [] []]. Qed.

Lemma gmul_1 x : is_u8 x -> Fips197.gmul 1 x = x.
Proof. apply (byte_eq (fun x => Fips197.gmul 1 x) (fun x => x)). by vm_compute. Qed.

Lemma store_MixColumns s : state_ok s -> store_state (MixColumns s) = Fips197.MixColumns (store_state s).
Proof.
  assert (forall x, is_u8 x -> gf x 0 = Fips197.gmul 2 x) as G2 by (intros x Hx; by apply (gf_spec x 0)).
  assert (forall x, is_u8 x -> gf x 1 = Fips197.gmul 3 x) as G3 by (intros x Hx; by apply (gf_spec x 1)).
  intros Hs. open_state s Hs. unfold MixColumns, on_columns, mix_column, store_state, xor4.
  cbn [c0 c1 c2 c3 r0 r1 r2 r3]. rewrite !G2, !G3 by done.
  cbv [Fips197.MixColumns Fips197.build Fips197.at_ Fips197.coef seq map fold_left nth Nat.add Nat.mul Nat.div Nat.divmod Nat.modulo Nat.sub fst snd].
  by rewrite !gmul_1.
Qed.

Lemma take_4_drop (w : list Z) k : (k + 4 <= length w)%nat -> take 4 (drop k w) = [word w k; word w (k + 1); word w (k + 2); word w (k + 3)].
Proof.
  intros Hk. assert (forall i, (i < 4)%nat -> nth i (drop k w) 0 = word w (k + i)) as Hn.
  { intros i Hi. unfold word. by rewrite nth_skipn. }
  assert (4 <= length (drop k w))%nat as Hl by (rewrite length_drop; lia).
  rewrite <- (Hn 1%nat), <- (Hn 2%nat), <- (Hn 3%nat) by lia. rewrite <- (Nat.add_0_r k) at 2. rewrite <- (Hn 0%nat) by lia.
  destruct (drop k w) as [|? [|? [|? [|? ?]]]]; cbn [length] in Hl; try lia. done.
Qed.

Lemma store_AddRoundKey s w r : (4 * r + 4 <= length w)%nat ->
  store_state (AddRoundKey s w (4 * r)) = Fips197.AddRoundKey (store_state s) (Fips197.round_key (map be4 w) r).
Proof.
  intros Hr. unfold Fips197.round_key. rewrite skipn_map, firstn_map, take_4_drop by done. by destruct s as [[] [] [] []].
Qed.

Lemma store_rounds w rs s : state_ok s -> Forall (fun r => (4 * r + 4 <= length w)%nat) rs ->
  store_state (fold_left (enc_round w) (map (fun r => 4 * r)%nat rs) s) =
    fold_left (fun s r => Fips197.AddRoundKey (Fips197.MixColumns (Fips197.ShiftRows (Fips197.SubBytes s))) (Fips197.round_key (map be4 w) r))
      rs (store_state s).
Proof.
  revert s. induction rs as [|r rs IH]; intros s Hs Hr; [done|]. apply Forall_cons_iff in Hr as [Hr Hrs]. cbn [map fold_left].
  rewrite IH by (done || by apply enc_round_ok). f_equal. unfold enc_round.
  rewrite store_AddRoundKey, store_MixColumns, store_ShiftRows, store_SubBytes; try done. unfold SubBytes. auto with aes.
Qed.

Lemma aes_encrypt_cipher inb w keysize Nr : key_size keysize Nr -> Forall is_u8 inb -> length inb = 16%nat ->
  (4 * (Nr + 1) <= length w)%nat -> aes_encrypt inb w keysize = Fips197.Cipher Nr (map be4 w) inb.
Proof.
  intros Hk Hin Hl Hw. rewrite (aes_encrypt_rounds inb w keysize Nr Hk). unfold enc_last, Fips197.Cipher, round_offsets.
  assert (Forall (fun r => (4 * r + 4 <= length w)%nat) (seq 1 (Nr - 1))) as Hrs by (apply Forall_seq; intros; lia).
  assert (state_ok (fold_left (enc_round w) (map (fun r => 4 * r)%nat (seq 1 (Nr - 1))) (AddRoundKey (load_state inb) w 0))) as Hok
    by (apply fold_ok; [intros; by apply enc_round_ok|auto with aes]).
  rewrite store_AddRoundKey, store_ShiftRows, store_SubBytes, store_rounds by (done || lia || auto with aes).
  pose proof (store_AddRoundKey (load_state inb) w 0 ltac:(lia)) as E0. change (4 * 0)%nat with 0%nat in E0. by rewrite E0, store_load.
Qed.

(** ** The key schedule *)

Lemma u8_lxor x y : u8 (Z.lxor x y) = Z.lxor (u8 x) (u8 y).
Proof.
  unfold u8. rewrite <- !Z.land_ones by lia. apply Z.bits_inj'. intros n Hn. rewrite !Z.lxor_spec, !Z.land_spec, Z.lxor_spec. btauto.
Qed.

Lemma be4_lxor x y : be4 (Z.lxor x y) = zip_with Z.lxor (be4 x) (be4 y).
Proof. unfold be4. cbn [zip_with]. by rewrite !Z.shiftr_lxor, !u8_lxor. Qed.

Lemma u8_shiftr w k : 0 <= k -> u8 (Z.shiftr w k) = (w / 2 ^ k) mod 256.
Proof. intros Hk. unfold u8. by rewrite Z.shiftr_div_pow2. Qed.

Lemma be4_div w : be4 w = [(w / 2 ^ 24) mod 256; (w / 2 ^ 16) mod 256; (w / 2 ^ 8) mod 256; w mod 256].
Proof. unfold be4. rewrite !u8_shiftr by lia. by rewrite Z.pow_0_r, Z.div_1_r. Qed.

Lemma list4_eq (a b c d a' b' c' d' : Z) : a = a' -> b = b' -> c = c' -> d = d' -> [a; b; c; d] = [a'; b'; c'; d'].
Proof. by intros -> -> -> ->. Qed.

Lemma be4_rot w : is_u32 w -> be4 (KE_ROTWORD w) = Fips197.RotWord (be4 w).
Proof.
  intros Hw. unfold is_u32 in Hw. unfold KE_ROTWORD. rewrite Z.shiftl_mul_pow2, Z.shiftr_div_pow2 by lia.
  assert (u32 (w * 2 ^ 8) = (w mod 2 ^ 24) * 2 ^ 8) as ->.
  { unfold u32. change (2 ^ 32) with (2 ^ 24 * 2 ^ 8). by rewrite Z.mul_mod_distr_r. }
  rewrite (lor_add _ _ 8) by (lia || mlia). rewrite !be4_div. cbn [Fips197.RotWord drop take app].
  apply list4_eq; mlia.
Qed.
Lemma rot_u32 w : is_u32 w -> is_u32 (KE_ROTWORD w).
Proof. intros Hw. unfold KE_ROTWORD. apply lor_bound; [unfold u32; apply Z.mod_pos_bound; lia|]. rewrite Z.shiftr_div_pow2 by lia. unfold is_u32 in Hw. mlia. Qed.

#[local] Transparent sbox.
Lemma nib_sbox w k : 0 <= k -> at2 aes_sbox (Z.land (Z.shiftr w (k + 4)) 15) (Z.land (Z.shiftr w k) 15) = sbox (u8 (Z.shiftr w k)).
Proof.
  intros Hk. unfold sbox. rewrite u8_shiftr by done. change 15 with (2 ^ 4 - 1). rewrite !land_pow2_sub1 by lia.
  rewrite !Z.shiftr_div_pow2, Z.pow_add_r, <- Z.div_div by lia. set (v := w / 2 ^ k). change (2 ^ 4) with 16. f_equal; mlia.
Qed.

#[local] Opaque sbox.

Lemma be4_SubWord w : be4 (SubWord w) = map sbox (be4 w) /\ is_u32 (SubWord w).
Proof.
  split; [|unfold SubWord, u32; apply Z.mod_pos_bound; lia].
  unfold SubWord. change 4 with (0 + 4) at 1. change 12 with (8 + 4) at 1. change 20 with (16 + 4) at 1. change 28 with (24 + 4) at 1.
  rewrite !nib_sbox by lia. cbn [be4 map]. rewrite !Z.shiftl_mul_pow2 by lia.
  assert (forall k, is_u8 (sbox (u8 (Z.shiftr w k)))) as Hb by (intros k; apply sbox_u8, u8_u8).
  generalize (Hb 0), (Hb 8), (Hb 16), (Hb 24). generalize (sbox (u8 (Z.shiftr w 0))), (sbox (u8 (Z.shiftr w 8))),
    (sbox (u8 (Z.shiftr w 16))), (sbox (u8 (Z.shiftr w 24))). clear Hb. intros a b c d Ha Hb Hc Hd. unfold is_u8 in *.
  rewrite u32_id by (unfold is_u32; lia). rewrite be4_div. apply list4_eq; mlia.
Qed.

Lemma lxor_u32 x y : is_u32 x -> is_u32 y -> is_u32 (Z.lxor x y).
Proof.
  intros Hx Hy. assert (0 <= Z.lxor x y) as Hp by (apply Z.lxor_nonneg; unfold is_u32 in *; lia). split; [done|].
  apply bits_bound; [lia|done|]. intros i Hi. by rewrite Z.lxor_spec, !(testbit_high _ 32) by done.
Qed.

Lemma Rcon_spec i : (i < 15)%nat -> be4 (word Rcon i) = Fips197.Rcon (i + 1) /\ is_u32 (word Rcon i).
Proof. intros Hi. do 15 (destruct i as [|i]; [by vm_compute|]). lia. Qed.

Lemma be4_u8 w : Forall is_u8 (be4 w).
Proof. repeat (apply Forall_cons_2; [apply u8_u8|]). apply Forall_nil_2. Qed.

Lemma map_sbox l : Forall is_u8 l -> map sbox l = Fips197.SubWord l.
Proof. intros Hl. apply map_ext_in. intros x Hx. apply sbox_spec. rewrite Forall_forall in Hl. auto. Qed.

Lemma word_be4 (w : list Z) n i : (i < n)%nat -> (n <= length w)%nat -> Fips197.nth_word (map be4 (take n w)) i = be4 (word w i).
Proof.
  intros Hi Hn. unfold Fips197.nth_word, word. rewrite (nth_indep _ [] (be4 0)) by (rewrite length_map, length_take; lia).
  rewrite map_nth. f_equal. rewrite <- (take_drop n w) at 2. rewrite app_nth1 by (rewrite length_take; lia). done.
Qed.

(** The words written so far are the reference's. *)
Definition sched (w : list Z) (n : nat) (sw : list (list Z)) : Prop :=
  map be4 (take n w) = sw /\ Forall is_u32 (take n w) /\ (n <= length w)%nat.

Lemma word_u32 w n i : Forall is_u32 (take n w) -> (i < n)%nat -> (n <= length w)%nat -> is_u32 (word w i).
Proof.
  intros Hf Hi Hn. rewrite Forall_forall in Hf. apply Hf. unfold word. rewrite <- (take_drop n w) at 1.
  rewrite app_nth1 by (rewrite length_take; lia). apply nth_In. rewrite length_take. lia.
Qed.

Lemma sched_write w n sw v : sched w n sw -> (n < length w)%nat -> is_u32 v -> sched (<[n := v]> w) (S n) (sw ++ [be4 v]).
Proof.
  intros (E & Hf & Hn) Hl Hv. unfold sched.
  assert (take (S n) (<[n := v]> w) = take n w ++ [v]) as ->.
  { rewrite (take_S_r _ n v) by (by apply list_lookup_insert_eq). by rewrite take_insert_ge by lia. }
  split_and!; [by rewrite map_app, E|apply Forall_app; split; [done|by apply Forall_singleton]|rewrite length_insert; lia].
Qed.

Lemma key_step_spec Nk w idx sw : (0 < Nk <= idx)%nat -> ((idx - 1) / Nk < 15)%nat -> sched w idx sw -> (idx < length w)%nat ->
  sched (key_step Nk w idx) (S idx) (sw ++ [Fips197.next_word Nk sw idx]).
Proof.
  intros Hk Hr Hs Hl. pose proof Hs as (E & Hf & Hn). unfold key_step, Fips197.next_word. rewrite <- E, !word_be4, E by lia.
  pose proof (word_u32 w idx (idx - 1) Hf ltac:(lia) Hn) as Ht. pose proof (word_u32 w idx (idx - Nk) Hf ltac:(lia) Hn) as Ho.
  set (t := word w (idx - 1)) in *. set (tmp := if (idx mod Nk =? 0)%nat then _ else _).
  set (stmp := if (idx mod Nk =? 0)%nat then zip_with _ _ _ else _).
  assert (be4 tmp = stmp /\ is_u32 tmp) as [Et Hu].
  { subst tmp stmp. destruct (Nat.eqb_spec (idx mod Nk) 0) as [Em|Em].
    - destruct (Rcon_spec ((idx - 1) / Nk) Hr) as [ER HR]. destruct (be4_SubWord (KE_ROTWORD t)) as [ES HS].
      split; [|by apply lxor_u32]. rewrite be4_lxor, ES, ER, be4_rot, map_sbox; [|rewrite <- be4_rot by done; apply be4_u8|done].
      do 2 f_equal. apply Nat.Div0.div_exact in Em. set (q := (idx / Nk)%nat) in *.
      assert ((idx - 1) / Nk = q - 1)%nat as ->; [|destruct q; lia].
      symmetry. apply (Nat.div_unique _ _ _ (Nk - 1)); [lia|]. destruct q as [|q]; [lia|]. rewrite Em. nia.
    - destruct ((6 <? Nk)%nat && (idx mod Nk =? 4)%nat); [|done]. destruct (be4_SubWord t) as [ES HS].
      split; [|done]. by rewrite ES, map_sbox by apply be4_u8. }
  rewrite <- Et, <- be4_lxor. apply sched_write; [done|done|by apply lxor_u32].
Qed.

(** A word put together from four bytes. *)
Lemma be4_key a b c d : is_u8 a -> is_u8 b -> is_u8 c -> is_u8 d ->
  let v := Z.lor (Z.lor (Z.lor (Z.shiftl a 24) (Z.shiftl b 16)) (Z.shiftl c 8)) d in be4 v = [a; b; c; d] /\ is_u32 v.
Proof.
  intros Ha Hb Hc Hd v. unfold is_u8 in *. subst v. rewrite !Z.shiftl_mul_pow2 by lia.
  rewrite (lor_add _ (_ * 2 ^ 16) 24), (lor_add _ (_ * 2 ^ 8) 16), (lor_add _ _ 8) by (lia || mlia).
  split; [|unfold is_u32; lia]. rewrite be4_div. apply list4_eq; mlia.
Qed.

Lemma key_load_spec key (f : list Z -> nat -> list Z) w Nk : Forall is_u8 key -> length key = (4 * Nk)%nat -> (Nk <= length w)%nat ->
  f = (fun w idx => <[idx := Z.lor (Z.lor (Z.lor (Z.shiftl (word key (4 * idx)) 24) (Z.shiftl (word key (4 * idx + 1)) 16))
          (Z.shiftl (word key (4 * idx + 2)) 8)) (word key (4 * idx + 3))]> w) ->
  forall n, (n <= Nk)%nat -> sched (fold_left f (seq 0 n) w) n (map (fun i => take 4 (drop (4 * i) key)) (seq 0 n)) /\
    length (fold_left f (seq 0 n) w) = length w.
Proof.
  intros Hkey Hlk Hlw -> n. induction n as [|n IH]; intros Hn; [repeat split; [done..|lia]|].
  rewrite seq_S, fold_left_app, map_app. cbn [fold_left map Nat.add]. destruct IH as [IH Hl]; [lia|].
  destruct (be4_key (word key (4 * n)) (word key (4 * n + 1)) (word key (4 * n + 2)) (word key (4 * n + 3))) as [E Hu]; [by apply word_u8..|].
  rewrite take_4_drop by lia. rewrite <- E. split; [apply sched_write; [done|lia|done]|by rewrite length_insert].
Qed.

Lemma key_steps_spec Nk n : forall w m sw, (0 < Nk <= m)%nat -> ((m + n) / Nk < 15)%nat -> sched w m sw -> (m + n <= length w)%nat ->
  sched (fold_left (key_step Nk) (seq m n) w) (m + n) (fold_left (fun sw i => sw ++ [Fips197.next_word Nk sw i]) (seq m n) sw).
Proof.
  induction n as [|n IH]; intros w m sw Hk Hd Hs Hl; [by rewrite Nat.add_0_r|]. cbn [seq fold_left].
  replace (m + S n)%nat with (S m + n)%nat in * by lia. apply IH; [lia|done| |].
  - apply key_step_spec; [done| |done|lia]. eapply Nat.le_lt_trans; [|exact Hd]. apply Nat.Div0.div_le_mono. lia.
  - unfold key_step. rewrite length_insert. lia.
Qed.

Definition key_words (keysize : Z) (Nr Nk : nat) : Prop := key_rounds keysize = Some (Nr, Nk).

Lemma aes_key_setup_spec key w keysize Nr Nk : key_words keysize Nr Nk -> Forall is_u8 key -> length key = (4 * Nk)%nat ->
  (4 * (Nr + 1) <= length w)%nat -> sched (aes_key_setup key w keysize) (4 * (Nr + 1)) (Fips197.KeyExpansion Nr Nk key).
Proof.
  intros Hk Hkey Hlk Hlw. unfold aes_key_setup. rewrite Hk. cbv zeta.
  assert ((0 < Nk)%nat /\ (Nk <= 4 * (Nr + 1))%nat /\ ((4 * (Nr + 1)) / Nk < 15)%nat) as (H0 & H1 & H2).
  { unfold key_words, key_rounds in Hk. repeat case_match; simplify_eq; cbn; lia. }
  destruct (key_load_spec key _ w Nk Hkey Hlk ltac:(lia) eq_refl Nk) as [Hs Hl]; [lia|].
  pose proof (key_steps_spec Nk (4 * (Nr + 1) - Nk) _ Nk _ ltac:(lia) ltac:(by replace (Nk + (4 * (Nr + 1) - Nk))%nat with (4 * (Nr + 1))%nat by lia)
    Hs ltac:(rewrite Hl; lia)) as Hr.
  by replace (Nk + (4 * (Nr + 1) - Nk))%nat with (4 * (Nr + 1))%nat in Hr by lia.
Qed.

(** Only the first words of the schedule matter. *)
Lemma round_key_take w n r : (4 * r + 4 <= n)%nat -> Fips197.round_key (take n w) r = Fips197.round_key w r.
Proof.
  intros Hr. unfold Fips197.round_key. f_equal. rewrite <- (take_drop n w) at 2.
  destruct (decide (n <= length w)%nat) as [Hn|Hn].
  - rewrite drop_app_le by (rewrite length_take; lia). rewrite take_app_le by (rewrite length_drop, length_take; lia). done.
  - rewrite (drop_ge w n) by lia. by rewrite app_nil_r.
Qed.

Lemma Cipher_take Nr w n inb : (4 * (Nr + 1) <= n)%nat -> (0 < Nr)%nat -> Fips197.Cipher Nr (take n w) inb = Fips197.Cipher Nr w inb.
Proof.
  intros Hn HN. unfold Fips197.Cipher. rewrite !round_key_take by lia. do 3 f_equal.
  apply (fold_left_ext_inv (fun _ => True) (fun r => (r < Nr)%nat)); [done|apply Forall_seq; lia|].
  intros s r _ Hr. split; [|done]. by rewrite round_key_take by lia.
Qed.

(** C18: The AES of the runtime is the standard's: for each key size, [aes_encrypt] under the
    schedule that [aes_key_setup] makes of a key is the cipher of FIPS 197 under its
    key expansion, with S-box and products computed in the field instead of looked up. *)
Theorem aes_encrypt_is_fips197 key w inb keysize Nr Nk :
  key_rounds keysize = Some (Nr, Nk) -> Forall is_u8 key -> length key = (4 * Nk)%nat -> (4 * (Nr + 1) <= length w)%nat ->
  Forall is_u8 inb -> length inb = 16%nat ->
  aes_encrypt inb (aes_key_setup key w keysize) keysize = Fips197.Cipher Nr (Fips197.KeyExpansion Nr Nk key) inb.
Proof.
  intros Hk Hkey Hlk Hlw Hin Hl. destruct (aes_key_setup_spec key w keysize Nr Nk Hk Hkey Hlk Hlw) as (E & _ & Hlen).
  assert (key_size keysize Nr /\ (0 < Nr)%nat) as [Hs HN].
  { unfold key_rounds in Hk. unfold key_size. repeat case_match; simplify_eq; rewrite ?Z.eqb_eq in *; split; auto; lia. }
  rewrite (aes_encrypt_cipher inb _ keysize Nr) by done. rewrite <- E. rewrite <- firstn_map.
  symmetry. by apply Cipher_take.
Qed.

(** The third example of the standard's appendix C. *)
Lemma aes_encrypt_is_fips197_witness :
  aes_encrypt (map (Z.mul 17) (seqZ 0 16)) (aes_key_setup (seqZ 0 32) (replicate 80 0) 256) 256 =
    Fips197.Cipher 14 (Fips197.KeyExpansion 14 8 (seqZ 0 32)) (map (Z.mul 17) (seqZ 0 16)).
Proof.
  apply (aes_encrypt_is_fips197 (seqZ 0 32) (replicate 80 0) (map (Z.mul 17) (seqZ 0 16)) 256 14 8); try done.
  - apply (bool_decide_unpack _). by vm_compute.
  - rewrite length_replicate. lia.
  - apply (bool_decide_unpack _). by vm_compute.
Defined.
