(* ===== verification/AesModes.v ===== *)
(** * Modes of AES ([runtime/crypto/aes.c])

    Counter mode is the exclusive or with a key stream that depends on the key and the
    initial counter only; CBC decryption undoes CBC encryption. *)

From S2P Require Import Prelude Mem Aes AesSpec.
From Stdlib Require Import ZArith Lia.
From stdpp Require Import base tactics list list_numbers numbers.
Local Open Scope Z_scope.
Local Open Scope keystone_scope.

#[local] Opaque aes_encrypt aes_decrypt.

(** ** Exclusive or of buffers *)

Lemma xor_buf_spec inb out len : (len <= length out)%nat ->
  xor_buf inb out len = zip_with Z.lxor (take len out) (map (word inb) (seq 0 len)) ++ drop len out.
Proof.
  intros Hl. unfold xor_buf. induction len as [|n IH]; [by rewrite drop_0|].
  rewrite seq_S, fold_left_app, IH by lia. cbn [fold_left Nat.add].
  assert (exists b, out !! n = Some b) as [b Hb] by (apply lookup_lt_is_Some; lia).
  rewrite (take_S_r _ _ _ Hb), map_app, zip_with_app by (rewrite length_take, length_map, length_seq; lia). cbn [map zip_with].
  rewrite <- app_assoc. cbn [app]. rewrite (drop_S _ _ _ Hb).
  set (p := zip_with _ _ _). assert (length p = n) as Hp by (unfold p; rewrite length_zip_with, length_take, length_map, length_seq; lia).
  rewrite insert_app_r_alt by lia. rewrite Hp, Nat.sub_diag. cbn [insert list_insert].
  unfold word at 1. rewrite app_nth2 by lia. by rewrite Hp, Nat.sub_diag.
Qed.

Lemma map_word_seq (l : list Z) n : (n <= length l)%nat -> map (word l) (seq 0 n) = take n l.
Proof.
  intros Hn. induction n as [|n IH]; [done|]. rewrite seq_S, map_app, IH by lia. cbn [map Nat.add].
  assert (exists b, l !! n = Some b) as [b Hb] by (apply lookup_lt_is_Some; lia).
  rewrite (take_S_r _ _ _ Hb). unfold word. by rewrite (nth_lookup_Some _ _ _ _ Hb).
Qed.

Lemma xor_buf_full inb out len : (len <= length out)%nat -> (len <= length inb)%nat ->
  xor_buf inb out len = zip_with Z.lxor (take len out) (take len inb) ++ drop len out.
Proof. intros Ho Hi. by rewrite xor_buf_spec, map_word_seq. Qed.

Lemma xor_buf_u8 inb out len : Forall is_u8 inb -> Forall is_u8 out -> Forall is_u8 (xor_buf inb out len).
Proof.
  intros Hi. unfold xor_buf. generalize (seq 0 len). intros l. revert out. induction l as [|i l IH]; intros out Ho; [done|].
  cbn [fold_left]. apply IH. apply Forall_insert; [done|]. apply lxor_u8; by apply word_u8.
Qed.

Lemma zip_lxor_twice (l k : list Z) : (length l <= length k)%nat -> zip_with Z.lxor (zip_with Z.lxor l k) k = l.
Proof.
  revert k. induction l as [|x l IH]; intros [|y k] Hl; cbn [length zip_with] in *; try done; try lia.
  rewrite IH by lia. by rewrite Z.lxor_assoc, Z.lxor_nilpotent, Z.lxor_0_r.
Qed.

(** ** The counter *)

(** [n] bytes, the high one first. *)
Fixpoint to_be (n : nat) (v : Z) : list Z := match n with O => [] | S n => to_be n (v / 256) ++ [v mod 256] end.
Definition be_val (l : list Z) : Z := fold_left (fun acc b => acc * 256 + b) l 0.

Lemma length_to_be n v : length (to_be n v) = n.
Proof. revert v. induction n as [|n IH]; intros v; [done|]. cbn [to_be]. rewrite length_app, IH. cbn. lia. Qed.

Lemma to_be_u8 n v : Forall is_u8 (to_be n v).
Proof.
  revert v. induction n as [|n IH]; intros v; [apply Forall_nil_2|]. apply Forall_app. split; [done|]. apply Forall_singleton. apply u8_u8.
Qed.

Lemma to_be_val l : Forall is_u8 l -> to_be (length l) (be_val l) = l.
Proof.
  intros Hl. induction l as [|x l IH] using rev_ind; [done|]. apply Forall_app in Hl as [Hl Hx]. rewrite Forall_singleton in Hx.
  rewrite length_app, Nat.add_comm. cbn [length Nat.add to_be]. unfold be_val. rewrite fold_left_app. cbn [fold_left]. fold (be_val l).
  unfold is_u8 in Hx.
  replace ((be_val l * 256 + x) / 256) with (be_val l) by mlia. replace ((be_val l * 256 + x) mod 256) with x by mlia.
  by rewrite IH.
Qed.

Lemma inc_loop_step n stop idx iv : inc_loop (S n) stop idx iv =
  let v := u8 (word iv (Z.to_nat idx) + 1) in
  if negb (v =? 0) || (idx =? stop) then <[Z.to_nat idx := v]> iv else inc_loop n stop (idx - 1) (<[Z.to_nat idx := v]> iv).
Proof. done. Qed.

(** Counting up in the last bytes. *)
Lemma inc_loop_spec n v s : inc_loop (S n) 0 (Z.of_nat n) (to_be (S n) v ++ s) = to_be (S n) (v + 1) ++ s.
Proof.
  revert v s. induction n as [|n IH]; intros v s.
  - cbn [inc_loop to_be app]. rewrite orb_true_r. change (Z.to_nat (Z.of_nat 0)) with 0%nat. unfold u8, word.
    cbn [insert list_insert nth]. change (2 ^ 8) with 256. by rewrite Zplus_mod_idemp_l.
  - rewrite inc_loop_step. cbv zeta. assert (word (to_be (S (S n)) v ++ s) (Z.to_nat (Z.of_nat (S n))) = v mod 256) as Ew.
    { unfold word. rewrite Nat2Z.id. change (to_be (S (S n)) v) with (to_be (S n) (v / 256) ++ [v mod 256]).
      rewrite <- app_assoc, app_nth2, length_to_be by (rewrite length_to_be; lia). by rewrite Nat.sub_diag. }
    rewrite Ew. assert (forall b, <[Z.to_nat (Z.of_nat (S n)) := b]> (to_be (S (S n)) v ++ s) = to_be (S n) (v / 256) ++ [b] ++ s) as Ei.
    { intros b. rewrite Nat2Z.id. change (to_be (S (S n)) v) with (to_be (S n) (v / 256) ++ [v mod 256]).
      rewrite <- app_assoc, insert_app_r_alt by (rewrite length_to_be; lia). by rewrite length_to_be, Nat.sub_diag. }
    rewrite Ei. rewrite (proj2 (Z.eqb_neq (Z.of_nat (S n)) 0)) by lia. rewrite orb_false_r.
    change (to_be (S (S n)) (v + 1)) with (to_be (S n) ((v + 1) / 256) ++ [(v + 1) mod 256]). rewrite <- app_assoc.
    unfold u8. change (2 ^ 8) with 256. assert (0 <= v mod 256 < 256) as Hm by (apply Z.mod_pos_bound; lia).
    destruct (Z.eqb_spec ((v mod 256 + 1) mod 256) 0) as [E|E]; cbn [negb].
    + replace (Z.of_nat (S n) - 1) with (Z.of_nat n) by lia. rewrite IH.
      replace ((v + 1) / 256) with (v / 256 + 1) by mlia. by replace ((v + 1) mod 256) with ((v mod 256 + 1) mod 256) by mlia.
    + replace ((v + 1) / 256) with (v / 256) by mlia. by replace ((v + 1) mod 256) with ((v mod 256 + 1) mod 256) by mlia.
Qed.

Lemma increment_iv_spec v : increment_iv (to_be 16 v) 16 = to_be 16 (v + 1).
Proof.
  pose proof (inc_loop_spec 15 v []) as E. rewrite !app_nil_r in E. exact E.
Qed.

(** ** Counter mode *)

Section Ctr.
Context (key : list Z) (keysize : Z).

Definition stream_block (v : Z) : list Z := aes_encrypt (to_be 16 v) key keysize.
Definition stream (v : Z) (blocks : nat) : list Z := concat (map (fun k => stream_block (v + Z.of_nat k)) (seq 0 blocks)).
(** [n] bytes of key stream from the counter [v] on. *)
Definition keystream (v : Z) (n : nat) : list Z := take n (stream v (n / 16 + 1)).

Lemma length_aes_encrypt inb : length (aes_encrypt inb key keysize) = 16%nat.
Proof. reflexivity. Qed.

Lemma length_stream v b : length (stream v b) = (16 * b)%nat.
Proof.
  unfold stream. induction b as [|b IH]; [done|]. rewrite seq_S, map_app, concat_app, length_app, IH. cbn [map concat Nat.add].
  rewrite app_nil_r. unfold stream_block. rewrite length_aes_encrypt. lia.
Qed.

Lemma stream_S v b : stream v (S b) = stream v b ++ stream_block (v + Z.of_nat b).
Proof. unfold stream. rewrite seq_S, map_app, concat_app. cbn [map concat Nat.add]. by rewrite app_nil_r. Qed.

(** The output buffer after [j] whole blocks. *)
Definition ctr_out (inb : list Z) (v : Z) (j : nat) : list Z := zip_with Z.lxor (take (16 * j) inb) (stream v j) ++ drop (16 * j) inb.

Lemma ctr_xor inb v j len : (16 * j + len <= length inb)%nat -> (len <= 16)%nat ->
  xor_at (stream_block (v + Z.of_nat j)) (ctr_out inb v j) (16 * j) len =
    zip_with Z.lxor (take (16 * j + len) inb) (take (16 * j + len) (stream v (S j))) ++ drop (16 * j + len) inb.
Proof.
  intros Hl H16. unfold xor_at, ctr_out. set (p := zip_with _ (take (16 * j) inb) _).
  assert (length p = (16 * j)%nat) as Hp by (unfold p; rewrite length_zip_with, length_take, length_stream; lia).
  rewrite take_app_le by lia. rewrite take_ge by lia. rewrite drop_app_ge by lia. rewrite Hp, Nat.sub_diag, drop_0.
  rewrite xor_buf_full by (rewrite ?length_drop; unfold stream_block; rewrite ?length_aes_encrypt; lia).
  rewrite app_assoc. f_equal; [|by rewrite drop_drop].
  rewrite stream_S, take_app_ge, length_stream by (rewrite length_stream; lia).
  replace (16 * j + len - 16 * j)%nat with len by lia. rewrite <- (take_take_drop inb (16 * j) len).
  rewrite zip_with_app by (rewrite length_take, length_stream; lia). done.
Qed.

Lemma ctr_out_S inb v j : (16 * j + 16 <= length inb)%nat ->
  xor_at (stream_block (v + Z.of_nat j)) (ctr_out inb v j) (16 * j) 16 = ctr_out inb v (S j).
Proof.
  intros Hl. rewrite ctr_xor by lia. unfold ctr_out. replace (16 * j + 16)%nat with (16 * S j)%nat by lia.
  f_equal. f_equal. apply take_ge. rewrite length_stream. lia.
Qed.

Lemma ctr_loop_spec inb v fuel : forall j, (16 * j < length inb)%nat -> (length inb - 16 <= 16 * j + 16 * fuel)%nat ->
  exists J, (16 * J < length inb <= 16 * J + 16)%nat /\
    ctr_loop key keysize fuel (16 * j) (length inb - 16) (to_be 16 (v + Z.of_nat j)) (ctr_out inb v j) =
      ((16 * J)%nat, to_be 16 (v + Z.of_nat J), ctr_out inb v J).
Proof.
  induction fuel as [|fuel IH]; intros j Hj Hf; cbn [ctr_loop].
  - destruct (Nat.ltb_spec (16 * j) (length inb - 16)) as [Hlt|Hge]; [lia|]. exists j. split; [lia|done].
  - destruct (Nat.ltb_spec (16 * j) (length inb - 16)) as [Hlt|Hge]; [|exists j; split; [lia|done]].
    fold (stream_block (v + Z.of_nat j)). rewrite ctr_out_S by lia. change AES_BLOCK_SIZE with 16. rewrite increment_iv_spec.
    replace (16 * j + 16)%nat with (16 * S j)%nat by lia. replace (v + Z.of_nat j + 1) with (v + Z.of_nat (S j)) by lia.
    apply IH; lia.
Qed.

(** Counter mode, for any length. *)
Lemma aes_ctr_keystream inb iv : Forall is_u8 iv -> length iv = 16%nat ->
  aes_encrypt_ctr key keysize inb iv = zip_with Z.lxor inb (keystream (be_val iv) (length inb)).
Proof.
  intros Hiv Hl. unfold aes_encrypt_ctr. rewrite (take_ge iv) by lia. set (v := be_val iv).
  assert (iv = to_be 16 (v + Z.of_nat 0)) as Eiv by (rewrite Z.add_0_r, <- Hl; by rewrite to_be_val).
  assert (exists J, (16 * J <= length inb <= 16 * J + 16)%nat /\ (16 * J < length inb \/ J = 0)%nat /\
    (if (16 <? length inb)%nat then ctr_loop key keysize (length inb) 0 (length inb - 16) iv inb else (0%nat, iv, inb)) =
      ((16 * J)%nat, to_be 16 (v + Z.of_nat J), ctr_out inb v J)) as (J & HJ & HJ0 & ->).
  { rewrite Eiv. destruct (Nat.ltb_spec 16 (length inb)) as [H16|H16].
    - destruct (ctr_loop_spec inb v (length inb) 0) as (J & HJ & E); [lia|lia|]. exists J. split; [lia|]. split; [lia|exact E].
    - exists 0%nat. split; [lia|]. split; [by right|done]. }
  fold (stream_block (v + Z.of_nat J)). rewrite ctr_xor by lia.
  replace (16 * J + (length inb - 16 * J))%nat with (length inb) by lia.
  rewrite (take_ge inb), drop_ge, app_nil_r by lia. f_equal. unfold keystream.
  assert (forall b, (S J <= b)%nat -> take (length inb) (stream v b) = take (length inb) (stream v (S J))) as Hb.
  { intros b. induction b as [|b IH]; intros Hle; [lia|]. destruct (decide (b = J)) as [->|]; [done|].
    rewrite stream_S, take_app_le by (rewrite length_stream; lia). apply IH. lia. }
  symmetry. destruct (decide (length inb = 16 * J + 16)%nat) as [E|E].
  - rewrite E. replace ((16 * J + 16) / 16)%nat with (S J) by (apply (Nat.div_unique _ _ _ 0); lia). rewrite <- E. apply Hb. lia.
  - replace (length inb / 16)%nat with J by (apply (Nat.div_unique _ _ _ (length inb - 16 * J)); lia). apply Hb. lia.
Qed.

Lemma length_keystream v n : length (keystream v n) = n.
Proof.
  unfold keystream. rewrite length_take, length_stream. pose proof (Nat.div_mod_eq n 16). pose proof (Nat.mod_upper_bound n 16). lia.
Qed.
End Ctr.

(** C19: Counter mode, for any length: the output is the input exclusive-ored with a key
    stream, the cipher of the counters from the initial one on (128 bits, big endian,
    wrapping around), and the same call decrypts. *)
Theorem aes_ctr_correct key keysize inb iv : Forall is_u8 iv -> length iv = 16%nat ->
  aes_encrypt_ctr key keysize inb iv = zip_with Z.lxor inb (keystream key keysize (be_val iv) (length inb)) /\
  aes_decrypt_ctr key keysize (aes_encrypt_ctr key keysize inb iv) iv = inb.
Proof.
  intros Hiv Hl. unfold aes_decrypt_ctr. rewrite !aes_ctr_keystream by done. split; [done|].
  rewrite length_zip_with, length_keystream, Nat.min_id. apply zip_lxor_twice. by rewrite length_keystream.
Qed.

(** Five bytes. *)
Lemma aes_ctr_correct_witness :
  aes_encrypt_ctr (replicate 60 7) 256 [1; 2; 3; 4; 5] (replicate 16 255) =
    zip_with Z.lxor [1; 2; 3; 4; 5] (keystream (replicate 60 7) 256 (be_val (replicate 16 255)) 5) /\
  aes_decrypt_ctr (replicate 60 7) 256 (aes_encrypt_ctr (replicate 60 7) 256 [1; 2; 3; 4; 5] (replicate 16 255)) (replicate 16 255) =
    [1; 2; 3; 4; 5].
Proof. apply (aes_ctr_correct (replicate 60 7) 256 [1; 2; 3; 4; 5] (replicate 16 255)); [apply Forall_replicate; by compute|done]. Defined.

(** ** Cipher block chaining *)

Section Cbc.
Context (key : list Z) (keysize : Z).

Lemma length_blocks (f : nat -> list Z) n : (forall k, (k < n)%nat -> length (f k) = 16%nat) -> length (concat (map f (seq 0 n))) = (16 * n)%nat.
Proof.
  intros Hf. induction n as [|n IH]; [done|]. rewrite seq_S, map_app, concat_app, length_app, IH by auto. cbn [map concat Nat.add].
  rewrite app_nil_r, Hf; lia.
Qed.

(** A loop that writes block after block. *)
Lemma put_blocks_spec (f g : nat -> list Z) (step : list Z * list Z -> nat -> list Z * list Z) out n :
  (forall k, (k < n)%nat -> length (f k) = 16%nat) -> (16 * n <= length out)%nat ->
  (forall out k, (k < n)%nat -> step (out, g k) k = (put_block out k (f k), g (S k))) ->
  fold_left step (seq 0 n) (out, g 0%nat) = (concat (map f (seq 0 n)) ++ drop (16 * n) out, g n).
Proof.
  intros Hf Hl Hstep. induction n as [|n IH]; [by rewrite drop_0|].
  rewrite seq_S, fold_left_app, IH by (auto || lia). cbn [fold_left Nat.add]. rewrite Hstep by lia. f_equal.
  pose proof (length_blocks f n ltac:(auto)) as Hc.
  rewrite map_app, concat_app. cbn [map concat]. rewrite app_nil_r. unfold put_block.
  rewrite take_app_le, take_ge by lia. rewrite drop_app_ge by lia. rewrite drop_drop, Hc, <- app_assoc.
  by replace (16 * n + (16 * n + 16 - 16 * n))%nat with (16 * S n)%nat by lia.
Qed.

(** The ciphertext blocks; block 0 is the initial vector. *)
Fixpoint cbc_block (inb iv : list Z) (k : nat) : list Z :=
  match k with
  | O => take 16 iv
  | S k => aes_encrypt (xor_buf (cbc_block inb iv k) (get_block inb k) 16) key keysize
  end.

Lemma aes_encrypt_cbc_blocks inb out iv n : length inb = (16 * n)%nat -> length out = length inb ->
  aes_encrypt_cbc key keysize inb out iv = Some (concat (map (fun k => cbc_block inb iv (S k)) (seq 0 n))).
Proof.
  intros Hl Ho. unfold aes_encrypt_cbc. rewrite Hl, (Nat.mul_comm 16), Nat.Div0.mod_mul. cbn [Nat.eqb negb].
  rewrite Nat.div_mul by done. do 2 f_equal.
  pose proof (put_blocks_spec (fun k => cbc_block inb iv (S k)) (cbc_block inb iv) (fun '(out, iv_buf) idx =>
    let buf_in := xor_buf iv_buf (get_block inb idx) 16 in
    let buf_out := aes_encrypt buf_in key keysize in (put_block out idx buf_out, buf_out)) out n) as E.
  cbn [cbc_block] in E. rewrite E; [|intros; apply length_aes_encrypt|lia|done]. cbn [fst].
  rewrite drop_ge, app_nil_r by lia. done.
Qed.

Lemma block_concat (f : nat -> list Z) n k : (forall k, length (f k) = 16%nat) -> (k < n)%nat -> get_block (concat (map f (seq 0 n))) k = f k.
Proof.
  intros Hf. unfold get_block. revert k. induction n as [|n IH]; intros k Hk; [lia|].
  pose proof (length_blocks f n ltac:(auto)) as Hc.
  rewrite seq_S, map_app, concat_app. cbn [map concat Nat.add]. rewrite app_nil_r. destruct (decide (k = n)) as [->|].
  - rewrite drop_app_ge by lia. rewrite Hc, Nat.sub_diag, drop_0. apply take_ge. by rewrite Hf.
  - rewrite drop_app_le by lia. rewrite take_app_le by (rewrite length_drop; lia). apply IH. lia.
Qed.

Lemma concat_blocks inb n : length inb = (16 * n)%nat -> concat (map (get_block inb) (seq 0 n)) = inb.
Proof.
  intros Hl. enough (forall m, (m <= n)%nat -> concat (map (get_block inb) (seq 0 m)) = take (16 * m) inb) as H.
  { rewrite H by done. apply take_ge. lia. }
  intros m. induction m as [|m IH]; intros Hm; [done|]. rewrite seq_S, map_app, concat_app, IH by lia. cbn [map concat Nat.add].
  rewrite app_nil_r. unfold get_block. replace (16 * S m)%nat with (16 * m + 16)%nat by lia. by rewrite take_take_drop.
Qed.
End Cbc.

(** CBC decryption undoes CBC encryption: for a buffer of whole blocks both calls
    return [TRUE] and the second gives back the plaintext; for another length both
    refuse. *)
Theorem aes_cbc_roundtrip key keysize Nr inb out out' iv :
  key_size keysize Nr -> Forall is_u8 inb -> Forall is_u8 iv -> length iv = 16%nat -> length out = length inb -> length out' = length inb ->
  if (length inb mod 16 =? 0)%nat
  then exists c, aes_encrypt_cbc key keysize inb out iv = Some c /\ aes_decrypt_cbc key keysize c out' iv = Some inb
  else aes_encrypt_cbc key keysize inb out iv = None /\ aes_decrypt_cbc key keysize inb out' iv = None.
Proof.
  intros Hk Hin Hiv Hl Ho Ho'. destruct (Nat.eqb_spec (length inb mod 16) 0) as [E|E].
  2: { unfold aes_encrypt_cbc, aes_decrypt_cbc. by rewrite (proj2 (Nat.eqb_neq _ _) E). }
  apply Nat.Div0.div_exact in E. set (n := (length inb / 16)%nat) in *. set (cb := cbc_block key keysize inb iv).
  assert (forall k, length (cb (S k)) = 16%nat) as Hcl by (intros; apply length_aes_encrypt).
  assert (forall k, length (cb k) = 16%nat) as Hcl' by (intros [|k]; [cbn [cb cbc_block]; rewrite take_ge; lia|done]).
  assert (forall k, Forall is_u8 (cb k)) as Hcu .
  { intros k. induction k as [|k IH]; [by apply Forall_take|]. apply aes_encrypt_u8. fold (cb k).
    apply xor_buf_u8; [done|]. by apply Forall_take, Forall_drop. }
  eexists. split; [by apply (aes_encrypt_cbc_blocks key keysize inb out iv n)|]. fold cb.
  set (c := concat (map (fun k => cb (S k)) (seq 0 n))).
  assert (length c = 16 * n)%nat as Hlc.
  { by apply length_blocks. }
  unfold aes_decrypt_cbc. rewrite Hlc, (Nat.mul_comm 16), Nat.Div0.mod_mul. cbn [Nat.eqb negb]. rewrite Nat.div_mul by done. f_equal.
  pose proof (put_blocks_spec (get_block inb) cb (fun '(out, iv_buf) idx =>
    (put_block out idx (xor_buf iv_buf (aes_decrypt (get_block c idx) key keysize) 16), get_block c idx)) out' n) as Ef.
  change (take 16 iv) with (cb 0%nat).
  rewrite Ef; [cbn [fst]; by rewrite drop_ge, app_nil_r, concat_blocks by lia| | |].
  - intros k Hkn. unfold get_block. rewrite length_take, length_drop. lia.
  - lia.
  - intros o k Hkn. unfold c. rewrite (block_concat (fun k => cb (S k))) by done. cbn [cb cbc_block]. fold (cb k).
    assert (length (get_block inb k) = 16%nat) as Hbl by (unfold get_block; rewrite length_take, length_drop; lia).
    assert (Forall is_u8 (get_block inb k)) as Hbu by (by apply Forall_take, Forall_drop).
    rewrite (xor_buf_full (cb k) (get_block inb k) 16) by (rewrite ?Hcl'; lia).
    rewrite (take_ge (get_block inb k)), (take_ge (cb k)), (drop_ge (get_block inb k)), app_nil_r by (rewrite ?Hcl'; lia).
    rewrite (aes_decrypt_rt _ key keysize Nr); [|done| |by rewrite length_zip_with, Hbl, Hcl'].
    + rewrite xor_buf_full by (rewrite ?length_zip_with, ?Hbl, ?Hcl'; lia).
      rewrite !take_ge, drop_ge, app_nil_r by (rewrite ?length_zip_with, ?Hbl, ?Hcl'; lia).
      do 2 f_equal. apply zip_lxor_twice. by rewrite Hbl, Hcl'.
    + apply zip_lxor_u8; [done|apply Hcu].
Qed.

Lemma aes_cbc_roundtrip_witness :
  exists c, aes_encrypt_cbc (replicate 60 7) 256 (seqZ 0 32) (replicate 32 0) (replicate 16 9) = Some c /\
    aes_decrypt_cbc (replicate 60 7) 256 c (replicate 32 1) (replicate 16 9) = Some (seqZ 0 32).
Proof.
  apply (aes_cbc_roundtrip (replicate 60 7) 256 14 (seqZ 0 32) (replicate 32 0) (replicate 32 1) (replicate 16 9)); try done.
  - unfold key_size. auto.
  - apply (bool_decide_unpack _). by vm_compute.
  - apply Forall_replicate. by compute.
Defined.

