(* ===== verification/PageSwap.v ===== *)
(** * Swapping pages out of an enclave ([runtime/mm/page_swap.c], [runtime/util/rt_util.c])

    A page of enclave memory is encrypted under a key of this boot and a counter, its
    hash goes into the Merkle tree, the counter into another backing page.  The page
    comes back decrypted and checked.  What the host answers to the reads of the
    verifier is a parameter; the page, its counter and the nodes of the tree are in
    memory that the host may change between two calls. *)

From S2P Require Import Prelude Mem Vm Backing Sha256 Merkle MerkleAlloc MerkleInsert Aes AesSpec AesModes.
From Stdlib Require Import ZArith Lia.
From stdpp Require Import base tactics gmap sets list list_numbers numbers.
Local Open Scope Z_scope.
Local Open Scope keystone_scope.

Definition NUM_CTR_INDIRECTS : Z := 24.

(** [RISCV_PAGE_SIZE] as a length. *)
Definition page_len : nat := Z.to_nat RISCV_PAGE_SIZE.

(** The globals of page_swap.c, the memory, the tree with the allocator of backing
    pages, the bounds of the enclave memory, and the random words to come. *)
Record swap_state : Type := mkSwapState {
  w_mem : Z -> Z;
  w_merk : merk_state backing;
  ctr_indirect_ptrs : list Z;
  pswap_boot_key_reserved : bool;
  pswap_boot_key_set : bool;
  pswap_boot_key : list Z;
  w_freemem_end : Z;
  w_random : nat -> Z
}.

Definition set_w_mem (f : (Z -> Z) -> Z -> Z) (s : swap_state) : swap_state :=
  mkSwapState (f (w_mem s)) (w_merk s) (ctr_indirect_ptrs s) (pswap_boot_key_reserved s) (pswap_boot_key_set s)
    (pswap_boot_key s) (w_freemem_end s) (w_random s).
Definition set_w_merk (m : merk_state backing) (s : swap_state) : swap_state :=
  mkSwapState (w_mem s) m (ctr_indirect_ptrs s) (pswap_boot_key_reserved s) (pswap_boot_key_set s)
    (pswap_boot_key s) (w_freemem_end s) (w_random s).
Definition set_ctr_ptr (i p : Z) (s : swap_state) : swap_state :=
  mkSwapState (w_mem s) (w_merk s) (aset (ctr_indirect_ptrs s) i p) (pswap_boot_key_reserved s) (pswap_boot_key_set s)
    (pswap_boot_key s) (w_freemem_end s) (w_random s).
Definition set_boot_key (reserved set : bool) (key : list Z) (s : swap_state) : swap_state :=
  mkSwapState (w_mem s) (w_merk s) (ctr_indirect_ptrs s) reserved set key (w_freemem_end s) (w_random s).
Definition set_random (r : nat -> Z) (s : swap_state) : swap_state :=
  mkSwapState (w_mem s) (w_merk s) (ctr_indirect_ptrs s) (pswap_boot_key_reserved s) (pswap_boot_key_set s)
    (pswap_boot_key s) (w_freemem_end s) r.

(** The allocator of backing pages, inside the state of the tree. *)
Definition with_backing {A} (c : M backing A) : M swap_state A :=
  zoom (fun s => m_src (w_merk s)) (fun b s => set_w_merk (set_src b (w_merk s)) s) c.
Definition with_merk {A} (c : M (merk_state backing) A) : M swap_state A := zoom w_merk set_w_merk c.

(** ** rt_util.c: random bytes *)

Definition sbi_random : M swap_state Z := fun s => Ok (u64 (w_random s 0%nat), set_random (fun n => w_random s (S n)) s).

Section Random.
Context {S : Type} (random : M S Z).

(** The words, then the rest of the last one; [n] bounds the number of words. *)
Fixpoint draw_bytes (n : nat) (remaining : Z) : M S (list Z) :=
  match n with
  | O => ret []
  | Datatypes.S n =>
      if 8 <? remaining then
        let! rnd := random in
        let! rest := draw_bytes n (remaining - 8) in
        ret (le64 rnd ++ rest)
      else if 0 <? remaining then
        let! rnd := random in
        ret (take (Z.to_nat remaining) (le64 rnd))
      else ret []
  end.

(** The bytes that the call writes, with the monitor as the source of random words; a word
    takes eight bytes, so [buflen] rounds are enough. *)
Definition rt_util_getrandom (buflen : Z) : M S (list Z) := draw_bytes (Datatypes.S (Z.to_nat buflen)) buflen.
End Random.

(** ** page_swap.c *)

Definition paging_epm_inbounds (epm_page : Z) (s : swap_state) : bool :=
  (EYRIE_LOAD_START <=? epm_page) && (epm_page <? w_freemem_end s).

Definition write_mem (a : Z) (bs : list Z) : M swap_state unit := modify (set_w_mem (fun f => write_bytes f a bs)).

(** The address of the counter of a page.  A null page would be written through. *)
Definition pswap_pageout_ctr (page : Z) : M swap_state Z :=
  let! ok := with_backing (paging_backpage_inbounds page) in
  sm_assert ok ;;;
  let! region := with_backing paging_backing_region in
  let idx := Z.shiftr (page -w region) RISCV_PAGE_BITS in
  let indirect_idx := idx / (RISCV_PAGE_SIZE / 8) in
  let interior_idx := idx mod (RISCV_PAGE_SIZE / 8) in
  sm_assert (indirect_idx <? NUM_CTR_INDIRECTS) ;;;
  let! s := get in
  let! ptr := or_ub (aget (ctr_indirect_ptrs s) indirect_idx) in
  (if ptr =? 0 then
     let! p := with_backing paging_alloc_backing_page in
     modify (set_ctr_ptr indirect_idx p) ;;;
     if p =? 0 then ub
     else let! bs := rt_util_getrandom sbi_random RISCV_PAGE_SIZE in write_mem p bs
   else ret tt) ;;;
  let! s := get in
  let! ptr := or_ub (aget (ctr_indirect_ptrs s) indirect_idx) in
  ret (ptr +w 8 * interior_idx).

(** On one hart; a key that is reserved and not set is waited for without end. *)
Definition pswap_establish_boot_key : M swap_state unit :=
  let! s := get in
  if pswap_boot_key_set s then ret tt
  else
    let! boot_key_tmp := rt_util_getrandom sbi_random 32 in
    let! s := get in
    if pswap_boot_key_reserved s then hang
    else modify (set_boot_key true true boot_key_tmp).

Section Swap.
Context (use_page_crypto use_page_hash : bool).

(** [iv] has 32 bytes, of which the cipher takes 16. *)
Definition pswap_iv (pageout_ctr : Z) : list Z := replicate 8 0 ++ le64 pageout_ctr ++ replicate 16 0.
(** Only the first 60 words of the schedule are set and used. *)
Definition key_sched (key : list Z) : list Z := aes_key_setup key (replicate 80 0) 256.

Definition pswap_encrypt (addr : list Z) (dst pageout_ctr : Z) : M swap_state unit :=
  if use_page_crypto then
    pswap_establish_boot_key ;;;
    let! s := get in
    write_mem dst (aes_encrypt_ctr (key_sched (pswap_boot_key s)) 256 addr (take 16 (pswap_iv pageout_ctr)))
  else write_mem dst addr.

Definition pswap_decrypt (addr : list Z) (dst pageout_ctr : Z) : M swap_state unit :=
  if use_page_crypto then
    pswap_establish_boot_key ;;;
    let! s := get in
    write_mem dst (aes_decrypt_ctr (key_sched (pswap_boot_key s)) 256 addr (take 16 (pswap_iv pageout_ctr)))
  else write_mem dst addr.

Definition pswap_hash (page : list Z) (pageout_ctr : Z) : list Z :=
  sha256_final (sha256_feed (sha256_feed (sha256_init hasher0) page) (le64 pageout_ctr)).

Definition read_page (a : Z) : M swap_state (list Z) := gets (fun s => read_bytes (w_mem s) a page_len).

(** [paging_merk_root], what the host answers to the verifier, and the rounds of its
    loop. *)
Context (paging_merk_root : Z) (host : nat -> Z -> option merkle_node) (fuel : nat) (garbage : merkle_node).

Definition page_swap_epm (back_page epm_page swap_page : Z) : M swap_state unit :=
  let! s := get in
  sm_assert (paging_epm_inbounds epm_page s) ;;;
  let! ok := with_backing (paging_backpage_inbounds back_page) in
  sm_assert ok ;;;
  let! buffer := (if truthy swap_page then
                    sm_assert (swap_page =? back_page) ;;; read_page swap_page
                  else ret (replicate page_len 0)) in
  let! pageout_ctr := pswap_pageout_ctr back_page in
  let! old_pageout_ctr := gets (fun s => load64 (w_mem s) pageout_ctr) in
  let new_pageout_ctr := old_pageout_ctr +w 1 in
  let! page := read_page epm_page in
  let new_hash := pswap_hash page new_pageout_ctr in
  pswap_encrypt page back_page new_pageout_ctr ;;;
  (if truthy swap_page then
     pswap_decrypt buffer epm_page old_pageout_ctr ;;;
     let! page := read_page epm_page in
     let old_hash := pswap_hash page old_pageout_ctr in
     if use_page_hash then
       let! root := with_merk (load_node paging_merk_root) in
       match merk_verify host fuel root garbage back_page old_hash with
       | Ok ok => sm_assert ok
       | Hang => hang
       | UB => ub
       end
     else ret tt
   else ret tt) ;;;
  (if use_page_hash then let! _ := with_merk (merk_insert paging_merk_root back_page new_hash) in ret tt else ret tt) ;;;
  modify (set_w_mem (fun f => store64 f pageout_ctr new_pageout_ctr)).
End Swap.
