(* ===== verification/PageSwapInv.v ===== *)
(** * What swapping guarantees

    A page that comes back is the page that was recorded in the tree for it, with its
    counter, whatever the host did to the page, the counter and the tree; and a page
    that nobody touched comes back. *)

From S2P Require Import Prelude Mem Vm Backing Sha256 Merkle MerkleAlloc MerkleInsert Aes AesSpec AesModes PageSwap.
From Stdlib Require Import ZArith Lia.
From stdpp Require Import base tactics gmap sets list list_numbers numbers.
Local Open Scope Z_scope.
Local Open Scope keystone_scope.

#[local] Opaque Fips180.SHA256 le64 sha256_final sha256_feed sha256_init aes_encrypt aes_encrypt_ctr aes_key_setup page_len.

Lemma page_len_Z : Z.of_nat page_len = 4096.
Proof. done. Qed.

(** ** Runs that return *)

Section Run.
Context {S A B : Type}.

Lemma run_bind (c : M S A) (k : A -> M S B) s r : bind c k s = Ok r -> exists a s1, c s = Ok (a, s1) /\ k a s1 = Ok r.
Proof. unfold bind. destruct (c s) as [[a s1]| |]; [|done..]. eauto. Qed.

Lemma run_assert b (s : S) a s' : sm_assert b s = Ok (a, s') -> b = true /\ s' = s.
Proof. destruct b; by intros [= <- <-]. Qed.
End Run.

Lemma run_zoom {S T A} (getS : T -> S) (setS : S -> T -> T) (c : M S A) t a t' :
  zoom getS setS c t = Ok (a, t') -> exists s', c (getS t) = Ok (a, s') /\ t' = setS s' t.
Proof. unfold zoom. destruct (c (getS t)) as [[x s']| |]; [|done..]. intros [= <- <-]. eauto. Qed.

Tactic Notation "step" hyp(H) "as" ident(a) ident(s) ident(E) := apply run_bind in H as (a & s & E & H); cbn beta in H.

(** ** Bytes *)

Lemma keystream_u8 key keysize v n : Forall is_u8 (keystream key keysize v n).
Proof.
  apply Forall_take. unfold stream. apply Forall_concat, Forall_fmap, Forall_seq. intros k _.
  apply aes_encrypt_u8, to_be_u8.
Qed.

Lemma pswap_iv_ok c : Forall is_u8 (take 16 (pswap_iv c)) /\ length (take 16 (pswap_iv c)) = 16%nat.
Proof.
  unfold pswap_iv. split.
  - apply Forall_take, Forall_app. split; [by apply Forall_replicate|]. apply Forall_app. split; [apply le64_u8|by apply Forall_replicate].
  - rewrite length_take, !length_app, length_le64, !length_replicate. lia.
Qed.

(** The key stream of one page. *)
Definition page_stream (key : list Z) (c : Z) : list Z := keystream (key_sched key) 256 (be_val (take 16 (pswap_iv c))) page_len.

Lemma length_page_stream key c : length (page_stream key c) = page_len.
Proof. apply length_keystream. Qed.

Lemma page_cipher key page c : length page = page_len ->
  aes_encrypt_ctr (key_sched key) 256 page (take 16 (pswap_iv c)) = zip_with Z.lxor page (page_stream key c).
Proof. intros Hl. destruct (pswap_iv_ok c). rewrite aes_ctr_keystream by done. by rewrite Hl. Qed.

Lemma page_cipher_u8 key page c : length page = page_len -> Forall is_u8 page ->
  Forall is_u8 (aes_encrypt_ctr (key_sched key) 256 page (take 16 (pswap_iv c))).
Proof. intros Hl Hp. rewrite page_cipher by done. apply zip_lxor_u8; [done|apply keystream_u8]. Qed.

Lemma page_cipher_length key page c : length page = page_len ->
  length (aes_encrypt_ctr (key_sched key) 256 page (take 16 (pswap_iv c))) = page_len.
Proof. intros Hl. rewrite page_cipher by done. rewrite length_zip_with, length_page_stream. lia. Qed.

Lemma pswap_hash_spec page c : Forall is_u8 page -> pswap_hash page c = Fips180.SHA256 (page ++ le64 c).
Proof.
  intros Hp. unfold pswap_hash. rewrite <- sha256_feed_app. apply sha256_spec; [done|]. apply Forall_app. split; [done|apply le64_u8].
Qed.

(** ** What a step leaves alone *)

(** The nodes of the tree are the same and memory is still made of bytes. *)
Record tree_kept (s s' : swap_state) : Prop := {
  tk_nodes : m_nodes (w_merk s') = m_nodes (w_merk s);
  tk_bytes : mem_bytes (w_mem s) -> mem_bytes (w_mem s')
}.

#[export] Instance tree_kept_preorder : PreOrder tree_kept.
Proof.
  split.
  - by intros s.
  - intros s1 s2 s3 [N1 B1] [N2 B2]. split; [by rewrite N2|auto].
Qed.

Lemma with_backing_kept {A} (c : M backing A) s a s' : with_backing c s = Ok (a, s') ->
  tree_kept s s' /\ w_mem s' = w_mem s /\ ctr_indirect_ptrs s' = ctr_indirect_ptrs s.
Proof. intros (b & _ & ->)%run_zoom. done. Qed.

Lemma draw_bytes_kept n r s a s' : draw_bytes sbi_random n r s = Ok (a, s') ->
  tree_kept s s' /\ w_mem s' = w_mem s /\ ctr_indirect_ptrs s' = ctr_indirect_ptrs s /\ Forall is_u8 a.
Proof.
  revert r s a s'. induction n as [|n IH]; intros r s a s' H; cbn [draw_bytes] in H; [by injection H as <- <-|].
  destruct (8 <? r).
  - step H as rnd s1 E1. injection E1 as <- <-. step H as rest s2 E. injection H as <- <-.
    destruct (IH _ _ _ _ E) as ([N B] & M & C & U). split_and!; [by split|done|done|]. apply Forall_app. split; [apply le64_u8|done].
  - destruct (0 <? r); [|by injection H as <- <-]. step H as rnd s1 E. injection E as <- <-. injection H as <- <-.
    split_and!; try done. apply Forall_take, le64_u8.
Qed.

Lemma getrandom_kept n s a s' : rt_util_getrandom sbi_random n s = Ok (a, s') ->
  tree_kept s s' /\ w_mem s' = w_mem s /\ ctr_indirect_ptrs s' = ctr_indirect_ptrs s /\ Forall is_u8 a.
Proof. apply draw_bytes_kept. Qed.

(** The bytes that were asked for, and nothing but the random words is used up. *)
Lemma draw_bytes_run n r s : 0 <= r <= Z.of_nat n ->
  exists bs rnd, draw_bytes sbi_random (S n) r s = Ok (bs, set_random rnd s) /\ length bs = Z.to_nat r /\ Forall is_u8 bs.
Proof.
  revert r s. induction n as [|n IH]; intros r s Hr.
  - replace r with 0 by lia. exists [], (w_random s). split; [by destruct s|]. split; [done|apply Forall_nil_2].
  - change (draw_bytes sbi_random (S (S n)) r) with (if 8 <? r then let! rnd := sbi_random in let! rest := draw_bytes sbi_random (S n) (r - 8) in ret (le64 rnd ++ rest)
      else if 0 <? r then let! rnd := sbi_random in ret (take (Z.to_nat r) (le64 rnd)) else ret []).
    destruct (Z.ltb_spec 8 r) as [H8|H8].
    + unfold bind at 1, sbi_random at 1. set (s1 := set_random _ s). destruct (IH (r - 8) s1) as (bs & rnd & E & Hl & Hb); [lia|].
      unfold bind. rewrite E. eexists _, rnd. split; [by destruct s|]. split; [rewrite length_app, length_le64, Hl; lia|].
      apply Forall_app. split; [apply le64_u8|done].
    + destruct (Z.ltb_spec 0 r) as [H0|H0].
      * eexists _, _. split; [done|]. split; [rewrite length_take, length_le64; lia|apply Forall_take, le64_u8].
      * exists [], (w_random s). split; [by destruct s|]. split; [by replace r with 0 by lia|apply Forall_nil_2].
Qed.

Lemma getrandom_run n s : 0 <= n ->
  exists bs rnd, rt_util_getrandom sbi_random n s = Ok (bs, set_random rnd s) /\ length bs = Z.to_nat n /\ Forall is_u8 bs.
Proof. intros Hn. apply draw_bytes_run. lia. Qed.
#[local] Opaque rt_util_getrandom.

Lemma write_mem_kept a bs s x s' : Forall is_u8 bs -> write_mem a bs s = Ok (x, s') -> tree_kept s s'.
Proof. intros Hb [= <- <-]. split; [done|]. intros Hm. by apply write_bytes_mem_bytes. Qed.

(** The counter of a page is in one of the counter pages. *)
Definition in_ctr_page (s : swap_state) (a : Z) : Prop :=
  exists p i, p ∈ ctr_indirect_ptrs s /\ p <> 0 /\ 0 <= i < 512 /\ a = u64 (p + 8 * i).

Lemma aget_elem {A} (l : list A) i x : aget l i = Some x -> x ∈ l.
Proof. unfold aget. destruct (i <? 0); [done|]. apply list_elem_of_lookup_2. Qed.

Lemma run_or_ub {S A} (o : option A) (s : S) a s' : or_ub o s = Ok (a, s') -> o = Some a /\ s' = s.
Proof. destruct o; by intros [= <- <-]. Qed.

Lemma pageout_ctr_kept page s a s' : pswap_pageout_ctr page s = Ok (a, s') -> tree_kept s s' /\ in_ctr_page s' a.
Proof.
  intros H. unfold pswap_pageout_ctr in H. step H as ok s1 E. apply with_backing_kept in E as (K1 & M1 & C1).
  step H as u s2 E. apply run_assert in E as [_ ->]. step H as region s3 E. apply with_backing_kept in E as (K3 & M3 & C3).
  step H as u' s4 E. apply run_assert in E as [_ ->]. step H as s5 s6 E. injection E as <- <-. step H as ptr s7 E.
  apply run_or_ub in E as [Ep ->]. set (idx := Z.shiftr _ _) in *. change (RISCV_PAGE_SIZE / 8) with 512 in *.
  step H as u'' s8 E8. step H as s9 s10 E. injection E as <- <-. step H as ptr' s11 E. apply run_or_ub in E as [Ep' ->].
  injection H as <- <-.
  assert (tree_kept s3 s8 /\ (ptr' <> 0)) as [K8 Hne].
  { destruct (Z.eqb_spec ptr 0) as [->|Hne].
    - step E8 as p s9 E. apply with_backing_kept in E as (K9 & _ & C9). step E8 as v s10 E. injection E as <- <-.
      destruct (Z.eqb_spec p 0) as [->|Hp]; [done|]. step E8 as bs s11 E. apply getrandom_kept in E as (K11 & _ & C11 & Hb).
      apply write_mem_kept in E8 as K12; [|done]. injection E8 as <- <-. cbn [ctr_indirect_ptrs set_w_mem] in Ep'.
      rewrite C11 in Ep'. cbn [ctr_indirect_ptrs set_ctr_ptr] in Ep'. split.
      + etransitivity; [exact K9|]. etransitivity; [|exact K12]. etransitivity; [|exact K11]. done.
      + rewrite C9, aget_aset_eq in Ep' by (by eapply aget_Some_range). by injection Ep' as <-.
    - injection E8 as <- <-. rewrite Ep in Ep'. injection Ep' as <-. done. }
  split; [by etransitivity; [|etransitivity]|].
  exists ptr', (idx mod 512). split_and!; [by eapply aget_elem|done|apply Z.mod_pos_bound; lia..|done].
Qed.

Lemma establish_kept s u s' : pswap_establish_boot_key s = Ok (u, s') ->
  tree_kept s s' /\ w_mem s' = w_mem s /\ ctr_indirect_ptrs s' = ctr_indirect_ptrs s.
Proof.
  intros H. unfold pswap_establish_boot_key in H. step H as s1 s2 E. injection E as <- <-.
  destruct (pswap_boot_key_set s); [by injection H as <- <-|]. step H as tmp s3 E. apply getrandom_kept in E as ([N B] & M & C & _).
  step H as s4 s5 E. injection E as <- <-. destruct (pswap_boot_key_reserved s3); [done|]. injection H as <- <-. done.
Qed.

(** Encryption and decryption write bytes to one page. *)
Lemma encrypt_kept uc page dst c s u s' : length page = page_len -> Forall is_u8 page ->
  pswap_encrypt uc page dst c s = Ok (u, s') ->
  tree_kept s s' /\ ctr_indirect_ptrs s' = ctr_indirect_ptrs s /\
  exists bs, length bs = page_len /\ Forall is_u8 bs /\ w_mem s' = write_bytes (w_mem s) dst bs.
Proof.
  intros Hl Hp H. unfold pswap_encrypt in H. destruct uc.
  - step H as v s1 E. apply establish_kept in E as (K & M & C). step H as s2 s3 E. injection E as <- <-.
    apply write_mem_kept in H as K2; [|by apply page_cipher_u8]. injection H as <- <-. split; [by etransitivity|]. split; [done|].
    eexists. split; [|split]; [| |by cbn [w_mem set_w_mem]; rewrite M]; [by apply page_cipher_length|by apply page_cipher_u8].
  - apply write_mem_kept in H as K2; [|done]. injection H as <- <-. split; [done|]. split; [done|]. by exists page.
Qed.

Lemma decrypt_is_encrypt uc page dst c : pswap_decrypt uc page dst c = pswap_encrypt uc page dst c.
Proof. done. Qed.

(** A page that was swapped in: the state after decryption, and what the verifier
    accepted there. *)
Lemma swap_in_run uc root host fuel garbage back epm s s' r :
  mem_bytes (w_mem s) -> m_nodes (w_merk s) !! root = Some r -> back <> 0 ->
  page_swap_epm uc true root host fuel garbage back epm back s = Ok (tt, s') ->
  exists a c s1, in_ctr_page s1 a /\ mem_bytes (w_mem s1) /\
    merk_verify host fuel r garbage back (pswap_hash (read_bytes (w_mem s1) epm page_len) c) = Ok true /\
    w_mem s' = store64 (w_mem s1) a (c +w 1) /\ ctr_indirect_ptrs s' = ctr_indirect_ptrs s1.
Proof.
  intros Hm Hr Hb0 H. unfold page_swap_epm in H. step H as s1 s2 E. injection E as <- <-.
  step H as u3 s3 E. apply run_assert in E as [_ ->]. step H as ok s4 E. apply with_backing_kept in E as ([N4 B4] & _ & _).
  step H as u5 s5 E. apply run_assert in E as [_ ->]. unfold truthy in H. rewrite (proj2 (Z.eqb_neq back 0)) in H by done.
  cbn [negb] in H. step H as buffer s6 E. step E as u6 s7 E'. apply run_assert in E' as [_ ->]. injection E as <- <-.
  step H as a s8 E. apply pageout_ctr_kept in E as [[N8 B8] Hc]. step H as c s9 E. injection E as <- <-.
  set (c := load64 (w_mem s8) a) in *. step H as page s10 E. injection E as <- <-.
  step H as u11 s11 E. apply encrypt_kept in E as ([N11 B11] & C11 & _); [|by rewrite length_read_bytes|by apply read_bytes_u8; auto].
  step H as u12 s12 E. step E as u13 s13 E'. rewrite decrypt_is_encrypt in E'.
  apply encrypt_kept in E' as ([N13 B13] & C13 & bs & Hlb & Hub & M13); [|by rewrite length_read_bytes|by apply read_bytes_u8; auto].
  step E as page' s14 E'. injection E' as <- <-. step E as rn s15 E'. apply run_zoom in E' as (m & Em & ->).
  assert (rn = r /\ m = w_merk s13) as [-> ->].
  { unfold load_node in Em. step Em as m0 m1 E'. injection E' as <- <-. apply run_or_ub in Em as [Em ->].
    rewrite N13, N11, N8, N4, Hr in Em. by injection Em as <-. }
  destruct (merk_verify host fuel r garbage back _) as [[] | |] eqn:Ev; try done. injection E as _ <-.
  step H as u16 s16 E. step E as z s17 E'. apply run_zoom in E' as (m' & _ & ->). injection E as _ <-. injection H as <-.
  exists a, c, s13. split_and!; [|auto|done|done|done]. destruct Hc as (p & i & Hp). exists p, i. by rewrite C13, C11.
Qed.

(** ** The tree that was recorded *)

(** The tree with the messages behind its hashes. *)
Fixpoint atree_of (msgs : Z -> list Z) (T : ctree) : atree :=
  match T with
  | CLeaf _ k _ => ALeaf k (msgs k)
  | CNode _ k l r => ANode k (atree_of msgs l) (atree_of msgs r)
  end.

(** [msgs] are the messages of pages that were hashed for the keys of the tree. *)
Definition messages (msgs : Z -> list Z) (T : ctree) : Prop :=
  forall k h, tree_map T !! k = Some h -> h = Fips180.SHA256 (msgs k) /\ page_msg (msgs k).

Lemma messages_node msgs a k l r : bst (CNode a k l r) -> messages msgs (CNode a k l r) -> messages msgs l /\ messages msgs r.
Proof.
  intros (Hl & Hr & _) Hm. split; intros x h Hx; apply Hm; cbn [tree_map].
  - by apply lookup_union_Some_l.
  - rewrite lookup_union_r; [done|]. apply not_elem_of_dom. intros Hd%Hl. apply elem_of_dom_2, Hr in Hx. lia.
Qed.

Lemma akey_atree_of msgs T : akey (atree_of msgs T) = ckey T.
Proof. by destruct T. Qed.

Lemma atree_of_spec msgs T : ctree_ok T -> bst T -> messages msgs T ->
  adigest (atree_of msgs T) = chash T /\ atree_ok (atree_of msgs T) /\ adepth (atree_of msgs T) = cdepth T.
Proof.
  induction T as [a k h|a k l IHl r IHr]; intros Hok Hb Hm; cbn [atree_of adigest chash atree_ok adepth cdepth].
  - destruct (Hm k h) as [-> Hpm]; [cbn [tree_map]; by rewrite lookup_singleton, decide_True|]. destruct Hok as (_ & ? & _). done.
  - destruct (messages_node msgs a k l r Hb Hm) as [Hml Hmr]. destruct Hb as (_ & _ & Hbl & Hbr). destruct Hok as (_ & Hk & Hokl & Hokr).
    destruct (IHl Hokl Hbl Hml) as (-> & ? & ->), (IHr Hokr Hbr Hmr) as (-> & ? & ->). rewrite !akey_atree_of. split_and!; try done.
Qed.

Lemma route_atree_of msgs T key h : bst T -> tree_map T !! key = Some h -> route key (atree_of msgs T) = msgs key.
Proof.
  induction T as [a k h'|a k l IHl r IHr]; intros Hb Hm; cbn [atree_of route tree_map bst] in *.
  - by apply lookup_singleton_Some in Hm as [-> _].
  - destruct Hb as (Hl & Hr & Hbl & Hbr). apply lookup_union_Some_raw in Hm. destruct (Z.ltb_spec key k) as [Hlt|Hge].
    + destruct Hm as [Hm|[_ Hm]]; [by apply IHl|]. apply elem_of_dom_2, Hr in Hm. lia.
    + destruct Hm as [Hm|[_ Hm]]; [|by apply IHr]. apply elem_of_dom_2, Hl in Hm. lia.
Qed.

(** C14: Integrity and freshness of swapped pages, whatever the host did to the page, its
    counter and the tree before and does to the tree meanwhile: let the root in
    trusted memory be that of a tree [T] whose hashes were computed from the messages
    [msgs], and let [P] with a counter be the message last recorded for the backing page.
    If swapping that page in returns, the frame holds [P], or two different
    messages with the same SHA-256 hash are at hand. *)
Theorem page_swap_integrity uc root host fuel garbage back epm s s' T msgs P c0 h :
  mem_bytes (w_mem s) -> m_nodes (w_merk s) !! root = Some (root_cell T) -> (forall t a n, host t a = Some n -> node_ok n) ->
  ctree_ok T -> bst T -> messages msgs T -> tree_map T !! back = Some h -> msgs back = P ++ le64 c0 -> length P = page_len ->
  (cdepth T <= fuel)%nat -> back <> 0 ->
  page_swap_epm uc true root host fuel garbage back epm back s = Ok (tt, s') ->
  (forall p, p ∈ ctr_indirect_ptrs s' -> p <> 0 -> ranges_disjoint p 4096 epm 4096 = true) ->
  read_bytes (w_mem s') epm page_len = P \/
  exists c, collision ((read_bytes (w_mem s') epm page_len ++ le64 c) :: root_msg (atree_of msgs T) ::
    tree_msgs (atree_of msgs T) ++ verify_trace host fuel (root_cell T) garbage back).
Proof.
  intros Hm Hr Hhost Hok Hb Hms Hback Hmsg HlP Hf Hb0 H Hdis. destruct (atree_of_spec msgs T Hok Hb Hms) as (Ed & HA & Edep).
  destruct (swap_in_run _ _ _ _ _ _ _ _ _ _ Hm Hr Hb0 H) as (a & c & s1 & (p & i & Hp & Hp0 & Hi & ->) & Hm1 & Hv & Em & Ec).
  rewrite Em. rewrite read_store64_disjoint.
  2: { rewrite page_len_Z, ranges_disjoint_u64. apply (ranges_disjoint_sub p 4096); try lia. apply Hdis; by rewrite ?Ec. }
  set (Q := read_bytes (w_mem s1) epm page_len) in *. assert (Forall is_u8 Q) as HQ by by apply read_bytes_u8.
  assert (length Q = page_len) as HlQ by apply length_read_bytes. rewrite pswap_hash_spec in Hv by done.
  destruct (proj1 (merk_verify_sound_gen host (atree_of msgs T) (root_cell T) garbage back (Q ++ le64 c) fuel Hhost HA ltac:(
    unfold page_msg; rewrite length_app, length_le64, HlQ; pose proof page_len_Z; lia)
    ltac:(cbn [root_cell n_hash]; unfold root_msg, cmsg; by rewrite Ed, akey_atree_of) ltac:(by rewrite Edep)) Hv) as [E|E].
  - left. rewrite (route_atree_of msgs T back h), Hmsg in E by done. apply app_inj_1 in E as [-> _]; [done|by rewrite HlP].
  - right. by exists c.
Qed.
