(* ===== verification/SwapStore.v ===== *)
(** * Swapping as a store of pages

    Over memory the host leaves alone, [page_swap_epm] keeps a map from backing pages to
    the pages that were swapped out to them: swapping out records the frame, swapping in
    exchanges the frame with what was recorded. *)

From S2P Require Import Prelude Mem Vm Backing Sha256 Merkle MerkleAlloc MerkleInsert MerkleLimits Aes AesSpec AesModes PageSwap PageSwapInv.
From Stdlib Require Import ZArith Lia.
From stdpp Require Import base tactics gmap sets list list_numbers numbers.
Local Open Scope Z_scope.
Local Open Scope keystone_scope.

#[local] Opaque Fips180.SHA256 le64 sha256_final sha256_feed sha256_init aes_encrypt aes_encrypt_ctr aes_key_setup page_len
  rt_util_getrandom.

(** ** What insertion does to the source of pages *)

Section Kept.
Context {S : Type} `{PageSource S} (R : S -> S -> Prop) `{!PreOrder R}.
Hypothesis new_page_kept : forall s p s', new_page s = Ok (p, s') -> R s s'.
Implicit Types (m : merk_state S).

Definition keeps {A} (c : M (merk_state S) A) : Prop := forall m a m', c m = Ok (a, m') -> R (m_src m) (m_src m').

Lemma keeps_ret {A} (a : A) : keeps (ret a).
Proof. by intros m b m' [= <- <-]. Qed.
Lemma keeps_bind {A B} (c : M (merk_state S) A) (k : A -> M (merk_state S) B) : keeps c -> (forall a, keeps (k a)) -> keeps (bind c k).
Proof. intros Hc Hk m b m' (a & m1 & E1 & E2)%run_bind. etransitivity; [by eapply Hc|by eapply Hk]. Qed.
Lemma keeps_get : keeps get.
Proof. by intros m b m' [= <- <-]. Qed.
Lemma keeps_or_ub {A} (o : option A) : keeps (or_ub o).
Proof. intros m a m' [_ ->]%run_or_ub. done. Qed.
Lemma keeps_assert b : keeps (sm_assert b).
Proof. intros m a m' [_ ->]%run_assert. done. Qed.
Lemma keeps_hang {A} : keeps (hang : M (merk_state S) A).
Proof. done. Qed.
Lemma keeps_ub {A} : keeps (ub : M (merk_state S) A).
Proof. done. Qed.
Lemma keeps_modify (f : merk_state S -> merk_state S) : (forall m, m_src (f m) = m_src m) -> keeps (modify f).
Proof. intros Hf m a m' [= _ <-]. by rewrite Hf. Qed.
Lemma keeps_page : keeps (zoom m_src set_src new_page).
Proof. intros m a m' (s' & E & ->)%run_zoom. by eapply new_page_kept. Qed.

Ltac keeps := repeat first
  [ apply keeps_ret | apply keeps_get | apply keeps_or_ub | apply keeps_assert | apply keeps_hang | apply keeps_ub | apply keeps_page
  | apply keeps_modify; done | apply keeps_bind; [|intros ?] | progress intros | progress cbn beta iota | case_match | done ].

Lemma skip_full_kept fuel : keeps (skip_full fuel).
Proof. induction fuel as [|fuel IH]; cbn [skip_full]; unfold load_page; keeps. Qed.
Lemma alloc_node_kept : keeps merk_alloc_node.
Proof.
  unfold merk_alloc_node. apply keeps_bind; [apply keeps_get|intros m]. apply keeps_bind; [apply skip_full_kept|intros ?].
  unfold merk_alloc_page, merk_reserve_node_in_page, load_page. keeps.
Qed.
Lemma free_node_kept a : keeps (merk_free_node a).
Proof. unfold merk_free_node, load_page. keeps. Qed.
Lemma splice_kept a b : keeps (merk_splice_node a b).
Proof.
  unfold merk_splice_node, load_node. apply keeps_bind; [keeps|intros ?]. apply keeps_bind; [keeps|intros ?]. case_match.
  - apply keeps_bind; [apply free_node_kept|keeps].
  - apply keeps_bind; [apply alloc_node_kept|intros ?]. unfold hash_in_place, store_node, load_node. keeps.
Qed.
Lemma walk_down_kept n key path : keeps (walk_down n key path).
Proof. revert path. induction n as [|n IH]; intros path; cbn [walk_down]; destruct path; unfold load_node; keeps. Qed.
Lemma percolate_kept new path cur : keeps (percolate new path cur).
Proof.
  revert cur. induction path as [|a path IH]; intros cur; cbn [percolate]; [keeps|]. destruct path as [|b path]; [keeps|].
  unfold load_node, store_node. apply keeps_bind; [keeps|intros p]. apply keeps_bind; [keeps|intros sib].
  apply keeps_bind; [keeps|intros ok]. destruct ok; cbn [negb]; [|keeps]. apply keeps_bind.
  - case_match; [|keeps]. apply keeps_bind; [apply splice_kept|keeps].
  - keeps.
Qed.
Lemma insert_kept root key hash : keeps (merk_insert root key hash).
Proof.
  unfold merk_insert, load_node, store_node. apply keeps_bind; [apply alloc_node_kept|intros new]. apply keeps_bind; [keeps|intros ?].
  apply keeps_bind; [keeps|intros r]. case_match; [keeps|]. apply keeps_bind; [apply walk_down_kept|intros path].
  apply keeps_bind; [keeps|intros ?]. apply keeps_bind; [keeps|intros cur]. apply keeps_bind; [apply percolate_kept|keeps].
Qed.
End Kept.

(** The backing region does not move. *)
Definition same_region (b b' : backing) : Prop :=
  paging_backing_storage_addr b' = paging_backing_storage_addr b /\ paging_backing_storage_size b' = paging_backing_storage_size b.
#[export] Instance same_region_preorder : PreOrder same_region.
Proof. split; [done|]. intros b1 b2 b3 [? ?] [? ?]. split; congruence. Qed.

Lemma alloc_same_region b p b' : new_page b = Ok (p, b') -> same_region b b'.
Proof.
  cbn [new_page backing_source]. unfold paging_alloc_backing_page, paging_backing_region_size, paging_backing_region, gets.
  intros H. step H as b1 b2 E. injection E as <- <-. step H as size b3 E. injection E as <- <-.
  destruct (_ =? 0); [done|]. destruct (_ =? 0); [by injection H as <- <-|]. step H as region b4 E. injection E as <- <-.
  step H as u b5 E. destruct (IS_ALIGNED _ _); [|done]. injection E as _ <-. step H as u' b6 E. injection E as _ <-. by injection H as _ <-.
Qed.

(** ** The invariant *)

Definition is_page (p : Z) : Prop := 0 < p /\ p + 4096 <= 2 ^ 64 /\ p mod 4096 = 0.

Lemma pages_disjoint p q : is_page p -> is_page q -> p <> q -> ranges_disjoint p 4096 q 4096 = true.
Proof.
  intros (Hp0 & Hp & Hpm) (Hq0 & Hq & Hqm) Hne. unfold ranges_disjoint. apply andb_true_iff.
  assert (p + 4096 <= q \/ q + 4096 <= p) as [Hlt|Hlt] by mlia;
    (split; apply Z.leb_le; [|]; unfold u64; first [rewrite Z.mod_small by lia; lia|rewrite <- (Z.mod_unique_pos _ (2 ^ 64) (-1) (q - p + 2 ^ 64)) by lia; lia
      |rewrite <- (Z.mod_unique_pos _ (2 ^ 64) (-1) (p - q + 2 ^ 64)) by lia; lia]).
Qed.

Section Store.
Context (root : Z).

(** [data]: the frames and backing pages that hold pages; the counter pages are others. *)
Record swap_ok (avoid data : gset Z) (s : swap_state) (oT : option ctree) (n : nat) : Prop := {
  so_merk : merk_inv avoid root (w_merk s) oT n;
  so_bytes : mem_bytes (w_mem s);
  so_ptrs : length (ctr_indirect_ptrs s) = Z.to_nat NUM_CTR_INDIRECTS;
  so_ctr : forall p, p ∈ ctr_indirect_ptrs s -> p <> 0 -> is_page p /\ p ∈ avoid /\ (p ∉ data);
  so_inj : forall i j p, aget (ctr_indirect_ptrs s) i = Some p -> aget (ctr_indirect_ptrs s) j = Some p -> p <> 0 -> i = j;
  so_data : forall p, p ∈ data -> is_page p /\ p ∈ avoid;
  so_key : if pswap_boot_key_set s then Forall is_u8 (pswap_boot_key s) else pswap_boot_key_reserved s = false
}.

Definition region (s : swap_state) : Z := paging_backing_storage_addr (m_src (w_merk s)).
Definition region_size (s : swap_state) : Z := paging_backing_storage_size (m_src (w_merk s)).

(** A backing page whose counter fits. *)
Record slot (s : swap_state) (back : Z) : Prop := {
  sl_region : region s mod 4096 = 0 /\ 0 <= region s /\ region s + region_size s < 2 ^ 64;
  sl_bounds : region s <= back < region s + region_size s;
  sl_ctr : back - region s < 24 * 512 * 4096
}.

Definition page_idx (s : swap_state) (back : Z) : Z := (back - region s) / 4096.
Definition ctr_addr (s : swap_state) (back : Z) : option Z :=
  match aget (ctr_indirect_ptrs s) (page_idx s back / 512) with
  | Some p => if p =? 0 then None else Some (p + 8 * (page_idx s back mod 512))
  | None => None
  end.

Lemma slot_idx s back : slot s back -> Z.shiftr (back -w region s) RISCV_PAGE_BITS = page_idx s back /\ 0 <= page_idx s back / 512 < 24.
Proof.
  intros [(R1 & R2 & R3) Hb Hc]. unfold page_idx. rewrite u64_id by (unfold is_u64; lia). change RISCV_PAGE_BITS with 12.
  rewrite Z.shiftr_div_pow2 by lia. split; [done|]. change (2 ^ 12) with 4096. mlia.
Qed.

Lemma slot_inbounds s back : slot s back -> with_backing (paging_backpage_inbounds back) s = Ok (true, s).
Proof.
  intros [(R1 & R2 & R3) Hb Hc]. unfold with_backing, zoom, paging_backpage_inbounds, gets. unfold region, region_size in *.
  rewrite u64_id by (unfold is_u64; lia). rewrite (proj2 (Z.leb_le _ _)), (proj2 (Z.ltb_lt _ _)) by lia.
  destruct s as [mem [nodes pages fl src] ptrs rsv st key fe rnd]. done.
Qed.

(** What a step keeps for the pages that are stored. *)
Record ext (data : gset Z) (s s' : swap_state) : Prop := {
  ex_nodes : m_nodes (w_merk s') = m_nodes (w_merk s);
  ex_region : region s' = region s /\ region_size s' = region_size s;
  ex_end : w_freemem_end s' = w_freemem_end s;
  ex_key : pswap_boot_key_set s' = pswap_boot_key_set s /\ pswap_boot_key s' = pswap_boot_key s /\
    pswap_boot_key_reserved s' = pswap_boot_key_reserved s;
  ex_data : forall p, p ∈ data -> read_bytes (w_mem s') p page_len = read_bytes (w_mem s) p page_len;
  ex_ctr : forall b x, ctr_addr s b = Some x -> ctr_addr s' b = Some x /\ load64 (w_mem s') x = load64 (w_mem s) x
}.

Lemma ext_refl data s : ext data s s.
Proof. by split. Qed.

(** A page is taken for counters. *)
Lemma merk_inv_take avoid m oT n : merk_inv avoid root m oT (S n) ->
  exists p b', paging_alloc_backing_page (m_src m) = Ok (p, b') /\ is_page p /\ (p ∉ avoid) /\ same_region (m_src m) b' /\
    merk_inv ({[p]} ∪ avoid) root (set_src b' m) oT n.
Proof.
  intros [[C1 C2 (taken & T1 & T2 & T3) C4] Hav Hrt Htr].
  destruct (ps_next _ _ _ T1) as (p & b' & E & P1 & P2 & P3 & P4 & T1'). exists p, b'. split_and!; [done|done|set_solver|by eapply alloc_same_region|].
  split; [|set_solver|done|done]. split; cbn [m_pages merk_free_list m_src set_src]; [done|done|exists ({[p]} ∪ taken); set_solver|].
  set_solver.
Qed.

(** The counter [x] of [b] is inside a counter page. *)
Lemma ctr_addr_page avoid data s oT n b x : swap_ok avoid data s oT n -> ctr_addr s b = Some x ->
  exists p, p ∈ ctr_indirect_ptrs s /\ is_page p /\ p ∈ avoid /\ (p ∉ data) /\ x = p + 8 * (page_idx s b mod 512) /\ 0 <= page_idx s b mod 512 < 512.
Proof.
  intros Hok. unfold ctr_addr. destruct (aget _ _) as [p|] eqn:E; [|done]. destruct (Z.eqb_spec p 0); [done|]. intros [= <-].
  exists p. destruct (so_ctr _ _ _ _ _ Hok p) as (? & ? & ?); [by eapply aget_elem|done|]. split_and!; try done; [by eapply aget_elem|apply Z.mod_pos_bound; lia..].
Qed.

Lemma ctr_cell_u64 p i : is_page p -> 0 <= i < 512 -> is_u64 (p + 8 * i).
Proof. intros (? & ? & _) ?. unfold is_u64. lia. Qed.

Lemma ctr_cell_disjoint p i q : is_page p -> is_page q -> p <> q -> 0 <= i < 512 -> ranges_disjoint q 4096 (p + 8 * i) 8 = true.
Proof.
  intros Hp Hq Hne Hi. rewrite ranges_disjoint_sym. apply (ranges_disjoint_sub p 4096); try lia. by apply pages_disjoint.
Qed.

Lemma swap_ok_weaken avoid data s oT n : swap_ok avoid data s oT (S n) -> swap_ok avoid data s oT n.
Proof. intros [[A1 A2 A3 A4] ? ? ? ? ? ?]. split; try done. split; try done. by apply alloc_ok_weaken. Qed.

(** A fresh page [p], filled with random bytes, becomes counter page number [i]. *)
Definition add_ctr_page (i p : Z) (bs : list Z) (b' : backing) (rnd : nat -> Z) (s : swap_state) : swap_state :=
  mkSwapState (write_bytes (w_mem s) p bs) (set_src b' (w_merk s)) (aset (ctr_indirect_ptrs s) i p)
    (pswap_boot_key_reserved s) (pswap_boot_key_set s) (pswap_boot_key s) (w_freemem_end s) rnd.

Lemma add_ctr_page_ok avoid data s oT n i p bs b' rnd :
  swap_ok avoid data s oT (S n) -> aget (ctr_indirect_ptrs s) i = Some 0 -> is_page p -> (p ∉ avoid) ->
  same_region (m_src (w_merk s)) b' -> merk_inv ({[p]} ∪ avoid) root (set_src b' (w_merk s)) oT n ->
  Forall is_u8 bs -> Z.of_nat (length bs) = 4096 ->
  let s' := add_ctr_page i p bs b' rnd s in swap_ok ({[p]} ∪ avoid) data s' oT n /\ ext data s s'.
Proof.
  intros [Hm Hby Hpl Hct Hij Hda Hke] Ei Hp Hpa [R1 R2] Hm' Hb Hlb s'.
  assert (forall q, q ∈ aset (ctr_indirect_ptrs s) i p -> q = p \/ q ∈ ctr_indirect_ptrs s) as Hel.
  { intros q Hq. unfold aset in Hq. destruct (i <? 0); [by right|]. apply list_elem_of_lookup in Hq as [j Hj].
    apply list_lookup_insert_Some in Hj as [(_ & -> & _)|[_ Hj]]; [by left|right]. by eapply list_elem_of_lookup_2. }
  assert (p ∉ data) as Hpd by (intros Hd; apply Hda in Hd as [_ ?]; done).
  split.
  - split; cbn [w_merk w_mem ctr_indirect_ptrs pswap_boot_key_set pswap_boot_key pswap_boot_key_reserved s' add_ctr_page]; try done.
    + by apply write_bytes_mem_bytes.
    + by rewrite length_aset.
    + intros q [->|Hq]%Hel Hq0; [split_and!; [done|set_solver|done]|]. destruct (Hct q Hq Hq0) as (? & ? & ?). split_and!; [done|set_solver|done].
    + intros j k q Hj Hk Hq0. destruct (aget_Some_range _ _ _ Ei) as [Hi0 Hi1]. rewrite aget_aset in Hj, Hk by done.
      assert (forall j, aget (ctr_indirect_ptrs s) j <> Some p) as Hnew.
      { intros j' Hj'. apply Hpa, (Hct p); [by eapply aget_elem|]. destruct Hp. lia. }
      repeat case_decide; simplify_eq; try done; first [by exfalso; eapply Hnew|by eapply Hij].
    + intros q Hq. destruct (Hda q Hq) as [? ?]. split; [done|set_solver].
  - split; try done.
    + intros q Hq. cbn [w_mem s' add_ctr_page]. apply read_write_disjoint. rewrite Hlb, page_len_Z.
      apply pages_disjoint; [done|by apply Hda|]. by intros ->.
    + intros b x Hx. assert (page_idx s' b = page_idx s b) as Eb by (unfold page_idx, region; cbn [w_merk s' add_ctr_page m_src set_src]; by rewrite R1).
      unfold ctr_addr in *. rewrite Eb. cbn [ctr_indirect_ptrs s' add_ctr_page].
      destruct (decide (page_idx s b / 512 = i)) as [<-|Hne]; [by rewrite Ei in Hx|]. rewrite aget_aset_ne by done.
      split; [done|]. destruct (aget _ (page_idx s b / 512)) as [q|] eqn:Eq; [|done]. destruct (Z.eqb_spec q 0) as [|Hq0]; [done|].
      injection Hx as <-. destruct (Hct q (aget_elem _ _ _ Eq) Hq0) as (Hqp & Hqa & _). cbn [w_mem s' add_ctr_page].
      apply load64_write_disjoint. rewrite Hlb. apply ctr_cell_disjoint; [done|done|by intros ->|apply Z.mod_pos_bound; lia].
Qed.

Lemma pageout_ctr_spec avoid data s oT n back : swap_ok avoid data s oT (S n) -> slot s back ->
  exists a s' avoid', pswap_pageout_ctr back s = Ok (a, s') /\ avoid ⊆ avoid' /\ swap_ok avoid' data s' oT n /\
    ctr_addr s' back = Some a /\ ext data s s'.
Proof.
  intros Hok Hsl. pose proof Hok as [Hm Hby Hpl Hct Hij Hda Hke]. destruct (slot_idx s back Hsl) as [Eidx Hidx].
  unfold pswap_pageout_ctr, bind at 1. rewrite (slot_inbounds s back Hsl). unfold bind at 1, sm_assert at 1, ret at 1.
  assert (with_backing paging_backing_region s = Ok (region s, s)) as Er by (destruct s as [mem [nodes pages fl src] ptrs rsv st key fe rnd]; done).
  unfold bind at 1. rewrite Er, Eidx. change (RISCV_PAGE_SIZE / 8) with 512. change NUM_CTR_INDIRECTS with 24 in *.
  rewrite (proj2 (Z.ltb_lt _ 24)) by lia. unfold bind at 1, sm_assert at 1, ret at 1. unfold bind at 1, get at 1.
  destruct (aget_is_Some (ctr_indirect_ptrs s) (page_idx s back / 512)) as [ptr Ep]; [rewrite Hpl; lia|].
  unfold bind at 1, or_ub at 1. rewrite Ep. unfold ret at 1. destruct (Z.eqb_spec ptr 0) as [->|Hne].
  - destruct (merk_inv_take avoid (w_merk s) oT n Hm) as (p & b' & Ea & Hp & Hpa & Hreg & Hm').
    unfold bind at 1 2. unfold with_backing, zoom. rewrite Ea. unfold bind at 1, modify at 1.
    rewrite (proj2 (Z.eqb_neq p 0)) by (destruct Hp; lia). unfold bind at 1.
    match goal with |- context [rt_util_getrandom _ ?n ?s0] => destruct (getrandom_run n s0) as (bs & rnd & Eg & Hlb & Hb); [done|rewrite Eg] end.
    destruct (add_ctr_page_ok avoid data s oT n (page_idx s back / 512) p bs b' rnd Hok Ep Hp Hpa Hreg Hm' Hb) as [Hok' Hext];
      [rewrite Hlb; done|].
    exists (p + 8 * (page_idx s back mod 512)), (add_ctr_page (page_idx s back / 512) p bs b' rnd s), ({[p]} ∪ avoid).
    assert (aget (aset (ctr_indirect_ptrs s) (page_idx s back / 512) p) (page_idx s back / 512) = Some p) as Eg'
      by (apply aget_aset_eq; rewrite Hpl; lia).
    assert (page_idx (add_ctr_page (page_idx s back / 512) p bs b' rnd s) back = page_idx s back) as Ei
      by (unfold page_idx at 1; by rewrite (proj1 (ex_region _ _ _ Hext))).
    split; [|split; [apply union_subseteq_r|split; [exact Hok'|split; [|exact Hext]]]].
    + unfold write_mem, modify, bind at 1, get at 1. unfold bind. cbn [ctr_indirect_ptrs set_w_mem set_random set_ctr_ptr set_w_merk].
      rewrite Eg'. cbn [or_ub]. unfold ret. rewrite u64_id by (apply ctr_cell_u64; [done|apply Z.mod_pos_bound; lia]). done.
    + unfold ctr_addr. rewrite Ei. cbn [ctr_indirect_ptrs add_ctr_page]. rewrite Eg'. by rewrite (proj2 (Z.eqb_neq p 0)) by (destruct Hp; lia).
  - exists (ptr + 8 * (page_idx s back mod 512)), s, avoid. destruct (Hct ptr (aget_elem _ _ _ Ep) Hne) as (Hp & _ & _).
    split_and!; [|done|by apply swap_ok_weaken| |apply ext_refl].
    + unfold bind, ret at 1, get at 1. rewrite Ep. cbn [or_ub]. unfold ret.
      by rewrite u64_id by (apply ctr_cell_u64; [done|apply Z.mod_pos_bound; lia]).
    + unfold ctr_addr. rewrite Ep. by rewrite (proj2 (Z.eqb_neq ptr 0)).
Qed.

(** ** Encryption *)

(** [s1] is [s], with a key established if there was none and one is needed. *)
Record keyed (uc : bool) (s s1 : swap_state) : Prop := {
  kd_mem : w_mem s1 = w_mem s;
  kd_merk : w_merk s1 = w_merk s;
  kd_ptrs : ctr_indirect_ptrs s1 = ctr_indirect_ptrs s;
  kd_end : w_freemem_end s1 = w_freemem_end s;
  kd_set : uc = true -> pswap_boot_key_set s1 = true;
  kd_same : pswap_boot_key_set s = true \/ uc = false -> s1 = s
}.

Lemma keyed_ok uc avoid data s s1 oT n : keyed uc s s1 -> (if pswap_boot_key_set s1 then Forall is_u8 (pswap_boot_key s1) else pswap_boot_key_reserved s1 = false) ->
  swap_ok avoid data s oT n -> swap_ok avoid data s1 oT n.
Proof. intros [K1 K2 K3 K4 K5 K6] Hk [? ? ? ? ? ? ?]. split; rewrite ?K1, ?K2, ?K3; done. Qed.

Lemma keyed_ctr uc s s1 b : keyed uc s s1 -> ctr_addr s1 b = ctr_addr s b.
Proof. intros [K1 K2 K3 K4 K5 K6]. unfold ctr_addr, page_idx, region. by rewrite K2, K3. Qed.

Lemma establish_spec avoid data s oT n : swap_ok avoid data s oT n ->
  exists s1, pswap_establish_boot_key s = Ok (tt, s1) /\ keyed true s s1 /\ swap_ok avoid data s1 oT n.
Proof.
  intros Hok. unfold pswap_establish_boot_key, bind at 1, get at 1. destruct (pswap_boot_key_set s) eqn:Es.
  - exists s. split; [done|]. split; [by split|done].
  - destruct (getrandom_run 32 s) as (bs & rnd & E & Hl & Hb); [lia|]. unfold bind. rewrite E. unfold get.
    pose proof (so_key _ _ _ _ _ Hok) as Hk. rewrite Es in Hk. cbn [pswap_boot_key_reserved set_random]. rewrite Hk.
    set (s1 := set_boot_key true true bs (set_random rnd s)). exists s1. split; [done|].
    assert (keyed true s s1) as Hkd by (split; [done..|by intros [?|?]; [congruence|]]). split; [done|].
    by apply (keyed_ok true avoid data s).
Qed.

Definition crypt (uc : bool) (key : list Z) (c : Z) (page : list Z) : list Z :=
  if uc then zip_with Z.lxor page (page_stream key c) else page.

Lemma crypt_length uc key c page : length page = page_len -> length (crypt uc key c page) = page_len.
Proof. intros Hl. destruct uc; [|done]. unfold crypt. rewrite length_zip_with, length_page_stream. lia. Qed.
Lemma crypt_u8 uc key c page : Forall is_u8 page -> Forall is_u8 (crypt uc key c page).
Proof. intros Hp. destruct uc; [|done]. apply zip_lxor_u8; [done|apply keystream_u8]. Qed.
Lemma crypt_twice uc key c page : length page = page_len -> crypt uc key c (crypt uc key c page) = page.
Proof. intros Hl. destruct uc; [|done]. apply zip_lxor_twice. by rewrite length_page_stream, Hl. Qed.

Lemma encrypt_spec uc avoid data s oT n page dst c : swap_ok avoid data s oT n -> length page = page_len ->
  exists s1, pswap_encrypt uc page dst c s = Ok (tt, set_w_mem (fun f => write_bytes f dst (crypt uc (pswap_boot_key s1) c page)) s1) /\
    keyed uc s s1 /\ swap_ok avoid data s1 oT n.
Proof.
  intros Hok Hl. unfold pswap_encrypt, crypt. destruct uc.
  - destruct (establish_spec avoid data s oT n Hok) as (s1 & E & Hk & Hok1). exists s1. split; [|done].
    unfold bind at 1. rewrite E. unfold bind, get. by rewrite page_cipher.
  - exists s. split; [done|]. by split; [split|].
Qed.

(** A page is written to a frame or a backing page. *)
Lemma write_page_ok avoid data s oT n p bs : swap_ok avoid data s oT n -> Forall is_u8 bs ->
  swap_ok avoid data (set_w_mem (fun f => write_bytes f p bs) s) oT n.
Proof. intros [? Hby ? ? ? ? ?] Hb. split; try done. by apply write_bytes_mem_bytes. Qed.

(** ** Pages in the store *)

(** [page] is stored at the backing page [back], with counter [c]. *)
Record stored (uc : bool) (s : swap_state) (oT : option ctree) (back : Z) (page : list Z) (c : Z) : Prop := {
  st_page : length page = page_len /\ Forall is_u8 page;
  st_hash : merk_map oT !! back = Some (Fips180.SHA256 (page ++ le64 c));
  st_ctr : exists a, ctr_addr s back = Some a /\ load64 (w_mem s) a = c;
  st_data : read_bytes (w_mem s) back page_len = crypt uc (pswap_boot_key s) c page;
  st_key : uc = true -> pswap_boot_key_set s = true
}.

Lemma stored_ext uc data s s' oT b page c : ext data s s' -> b ∈ data -> stored uc s oT b page c -> stored uc s' oT b page c.
Proof.
  intros [N R E (K1 & K2 & K3) D C] Hb [S1 S2 (a & Sa & Sl) S4 S5]. split; [done|done| |by rewrite D, K2|by rewrite K1].
  destruct (C b a Sa) as [-> <-] in Sl |- *. eauto.
Qed.

(** ** The state after a call *)

(** The page [E] goes to [back], the page [D] (if there is one) to [epm], the counter [c]
    to [a], and the tree becomes [m']. *)
Definition swapped (back epm a c : Z) (E : list Z) (D : option (list Z)) (m' : merk_state backing) (s : swap_state) : swap_state :=
  let s := set_w_mem (fun f => write_bytes f back E) s in
  let s := match D with Some D => set_w_mem (fun f => write_bytes f epm D) s | None => s end in
  set_w_mem (fun f => store64 f a c) (set_w_merk m' s).

Lemma aligned_cell p i : is_page p -> 0 <= i < 512 -> aligned8 (p + 8 * i).
Proof. intros Hp Hi. split; [by apply ctr_cell_u64|]. destruct Hp as (_ & _ & Hm). mlia. Qed.

(** Two backing pages have different counters. *)
Lemma ctr_addr_inj avoid data s oT n b b' x : swap_ok avoid data s oT n -> slot s b -> slot s b' -> b mod 4096 = 0 -> b' mod 4096 = 0 ->
  ctr_addr s b = Some x -> ctr_addr s b' = Some x -> b = b'.
Proof.
  intros Hok Hb Hb' Hm Hm'. pose proof (so_ctr _ _ _ _ _ Hok) as Hct. unfold ctr_addr.
  destruct (aget _ (page_idx s b / 512)) as [p|] eqn:Ep; [|done]. destruct (Z.eqb_spec p 0) as [|Hp0]; [done|]. intros [= <-].
  destruct (aget _ (page_idx s b' / 512)) as [q|] eqn:Eq; [|done]. destruct (Z.eqb_spec q 0) as [|Hq0]; [done|]. intros [= Ex].
  destruct (Hct p (aget_elem _ _ _ Ep) Hp0) as ((P1 & P2 & P3) & _). destruct (Hct q (aget_elem _ _ _ Eq) Hq0) as ((Q1 & Q2 & Q3) & _).
  assert (q = p /\ page_idx s b' mod 512 = page_idx s b mod 512) as [-> Em] by mlia.
  pose proof (so_inj _ _ _ _ _ Hok _ _ _ Ep Eq Hp0) as Ei. destruct Hb as [(R1 & _) [B1 _] _], Hb' as [_ [B1' _] _].
  unfold page_idx in *. mlia.
Qed.

Section Final.
Context (avoid data : gset Z) (s : swap_state) (oT : option ctree) (n : nat) (back epm a c : Z) (E : list Z) (D : option (list Z)).
Context (m' : merk_state backing) (T' : ctree).
Hypothesis Hok : swap_ok avoid data s oT (S (S n)).
Hypothesis Hm' : merk_inv avoid root m' (Some T') n.
Hypothesis Hreg : same_region (m_src (w_merk s)) (m_src m').
Hypothesis Hctr : ctr_addr s back = Some a.
Hypothesis Hback : back ∈ data.
Hypothesis Hepm : epm ∈ data.
Hypothesis Hne : back <> epm.
Hypothesis HE : length E = page_len /\ Forall is_u8 E.
Hypothesis HD : forall D', D = Some D' -> length D' = page_len /\ Forall is_u8 D'.
Hypothesis Hc : is_u64 c.

Let s' := swapped back epm a c E D m' s.

Lemma final_region : region s' = region s /\ region_size s' = region_size s.
Proof. destruct Hreg. unfold s', swapped, region, region_size. by case D. Qed.

Lemma final_key : pswap_boot_key s' = pswap_boot_key s /\ pswap_boot_key_set s' = pswap_boot_key_set s.
Proof. unfold s', swapped. by case D. Qed.

Lemma final_ctr_addr b : ctr_addr s' b = ctr_addr s b.
Proof. unfold ctr_addr, page_idx. rewrite (proj1 final_region). unfold s', swapped. by case D. Qed.

Lemma final_ok : swap_ok avoid data s' (Some T') n.
Proof.
  pose proof Hok as [Hm Hby Hpl Hct Hij Hda Hke]. unfold s', swapped.
  destruct D as [D'|] eqn:ED; (split; [done| |done..]); apply store64_mem_bytes; cbn [w_mem set_w_merk set_w_mem];
    repeat apply write_bytes_mem_bytes; try done; try apply HE; by apply (HD D').
Qed.

(** The counter is outside the pages that hold data. *)
Lemma final_cell q : q ∈ data -> ranges_disjoint a 8 q (Z.of_nat page_len) = true.
Proof.
  intros Hq. rewrite page_len_Z. destruct (ctr_addr_page _ _ _ _ _ _ _ Hok Hctr) as (p & _ & Hp & _ & Hpd & -> & Hi).
  rewrite ranges_disjoint_sym. apply ctr_cell_disjoint; [done|by apply (so_data _ _ _ _ _ Hok)|by intros ->|done].
Qed.

Lemma data_disjoint p q : p ∈ data -> q ∈ data -> p <> q -> ranges_disjoint p (Z.of_nat page_len) q (Z.of_nat page_len) = true.
Proof. intros Hp Hq Hpq. rewrite page_len_Z. apply pages_disjoint; [by apply (so_data _ _ _ _ _ Hok)..|done]. Qed.

Lemma final_read q : q ∈ data -> read_bytes (w_mem s') q page_len =
  match D with
  | Some D' => if decide (q = epm) then D' else if decide (q = back) then E else read_bytes (w_mem s) q page_len
  | None => if decide (q = back) then E else read_bytes (w_mem s) q page_len
  end.
Proof.
  intros Hq. assert (forall f, read_bytes (write_bytes f back E) q page_len = if decide (q = back) then E else read_bytes f q page_len) as H1.
  { intros f. case_decide as Hd; [subst q; destruct HE as [<- _]; apply read_write_same; destruct HE as [-> _]; by rewrite page_len_Z|].
    apply read_write_disjoint. destruct HE as [-> _]. apply data_disjoint; auto. }
  unfold s', swapped. destruct D as [D'|] eqn:ED; cbn [w_mem set_w_mem set_w_merk]; (rewrite read_store64_disjoint by by apply final_cell); [|apply H1].
  destruct (HD D' eq_refl) as [HL _]. destruct (decide (q = epm)) as [->|Hd]; [rewrite <- HL; apply read_write_same; by rewrite HL, page_len_Z|].
  rewrite read_write_disjoint by (rewrite HL; apply data_disjoint; auto). apply H1.
Qed.

Lemma final_ctr : load64 (w_mem s') a = c.
Proof. unfold s', swapped. destruct D; cbn [w_mem set_w_mem]; rewrite load64_store64_same; by apply u64_id. Qed.

Lemma final_other_ctr b x : slot s back -> slot s b -> b ∈ data -> b <> back -> ctr_addr s b = Some x ->
  load64 (w_mem s') x = load64 (w_mem s) x.
Proof.
  intros Hs Hsb Hb Hnb Hx. assert (x <> a) as Hxa.
  { intros ->. apply Hnb. eapply (ctr_addr_inj avoid data s); try done; by apply (so_data _ _ _ _ _ Hok). }
  destruct (ctr_addr_page _ _ _ _ _ _ _ Hok Hctr) as (p & _ & Hp & _ & Hpd & Ea & Hi).
  destruct (ctr_addr_page _ _ _ _ _ _ _ Hok Hx) as (q & _ & Hqp & _ & Hqd & Ex & Hj).
  assert (forall f pg d, pg ∈ data -> length d = page_len -> load64 (write_bytes f pg d) x = load64 f x) as Hw.
  { intros f pg d Hpg Hl. apply load64_write_disjoint. rewrite Hl, page_len_Z, Ex. apply ctr_cell_disjoint; [done|by apply (so_data _ _ _ _ _ Hok)|by intros ->|done]. }
  assert (aligned8 a /\ aligned8 x) as [Ha8 Hx8] by (subst a x; split; by apply aligned_cell).
  unfold s', swapped. destruct D as [D'|] eqn:ED; cbn [w_mem set_w_mem set_w_merk]; rewrite load64_store64 by done;
    rewrite decide_False by congruence; rewrite !Hw; try done; try apply HE. by apply (HD D').
Qed.
End Final.

(** ** A call returns *)

Lemma insert_run avoid m oT n key hash : merk_inv avoid root m oT (S (S n)) -> is_u64 key -> Forall is_u8 hash -> length hash = 32%nat ->
  (odepth oT <= 31)%nat ->
  exists m' T', merk_insert root key hash m = Ok (0, m') /\ merk_inv avoid root m' (Some T') n /\ same_region (m_src m) (m_src m') /\
    tree_map T' = <[key := hash]> (merk_map oT) /\ (cdepth T' <= S (odepth oT))%nat.
Proof.
  intros Hm Hk Hh Hl Hd. destruct (merk_insert_map avoid root m oT n key hash Hm Hk Hh Hl Hd) as (m' & T' & E & Hm' & Ht & Hd' & _).
  exists m', T'. split_and!; try done. eapply (insert_kept same_region); [apply alloc_same_region|exact E].
Qed.

Context (uc : bool) (host : nat -> Z -> option merkle_node) (fuel : nat) (garbage : merkle_node).

(** What is asked for: nothing ([None]), or the page [P] stored with counter [c], while the
    host answers for the nodes of the tree what they are. *)
Definition asks (s : swap_state) (oT : option ctree) (back swap_page : Z) (D : option (list Z)) : Prop :=
  match D with
  | None => swap_page = 0
  | Some P => swap_page = back /\ (exists c, stored uc s oT back P c) /\ (odepth oT <= fuel)%nat /\
      (forall T, oT = Some T -> serves host T)
  end.

(** Decryption and the check of a page that is asked for. *)
Lemma swap_in_part avoid data sA s1 oT n back epm a c P E :
  swap_ok avoid data s1 oT n -> keyed uc sA s1 -> stored uc sA oT back P c -> (odepth oT <= fuel)%nat ->
  (forall T, oT = Some T -> serves host T) -> back ∈ data -> epm ∈ data -> back <> epm ->
  length E = page_len -> Forall is_u8 E -> read_bytes (w_mem sA) back page_len = a ->
  let s2 := set_w_mem (fun f => write_bytes f back E) s1 in
  (pswap_decrypt uc a epm c ;;;
   let! page := read_page epm in
   let! r := with_merk (load_node root) in
   match merk_verify host fuel r garbage back (pswap_hash page c) with
   | Ok ok => sm_assert ok
   | Hang => hang
   | UB => ub
   end) s2 = Ok (tt, set_w_mem (fun f => write_bytes f epm P) s2).
Proof.
  intros Hok Hk Hst Hf Eh Hb He Hne HlE HuE Ea s2. destruct Hst as [[HlP HuP] Hh _ Hd Hset].
  assert (s1 = sA) as ->. { apply (kd_same _ _ _ Hk). destruct uc; auto. }
  assert (swap_ok avoid data s2 oT n) as Hok2 by by apply write_page_ok.
  assert (length a = page_len) as Hla by (subst a; apply length_read_bytes).
  destruct (encrypt_spec uc avoid data s2 oT n a epm c Hok2 Hla) as (s3 & Ed & Hk3 & _).
  assert (s3 = s2) as ->. { apply (kd_same _ _ _ Hk3). destruct uc; auto. }
  rewrite <- Ea, Hd in Ed. change (pswap_boot_key s2) with (pswap_boot_key sA) in Ed. rewrite crypt_twice in Ed by done.
  unfold bind at 1. rewrite decrypt_is_encrypt, <- Ea, Hd, Ed. unfold bind at 1, read_page, gets. cbn [w_mem set_w_mem].
  assert (read_bytes (write_bytes (w_mem s2) epm P) epm page_len = P) as ->.
  { rewrite <- HlP. apply read_write_same. rewrite HlP, page_len_Z. lia. }
  destruct oT as [T|]; [|by cbn [merk_map from_option] in Hh]. destruct (so_merk _ _ _ _ _ Hok) as [_ _ Er Htr].
  destruct (Htr T eq_refl) as (_ & Hct & _ & Hbst). cbn [merk_map from_option odepth] in *.
  unfold bind, with_merk, zoom. cbn [w_merk set_w_mem s2]. rewrite (load_node_run _ _ _ Er). rewrite pswap_hash_spec by done.
  rewrite (serves_verify_leaf host T), (unzip_lookup back T (Fips180.SHA256 (P ++ le64 c))) by auto.
  rewrite bool_decide_eq_true_2 by done. subst s2. by destruct sA.
Qed.

Lemma page_swap_run avoid data s oT n back epm swap_page D :
  swap_ok avoid data s oT (S (S (S n))) -> slot s back -> back ∈ data -> epm ∈ data -> back <> epm ->
  EYRIE_LOAD_START <= epm < w_freemem_end s -> (odepth oT <= 31)%nat -> asks s oT back swap_page D ->
  let page := read_bytes (w_mem s) epm page_len in
  exists avoid' sA s1 a c m' T',
    page_swap_epm uc true root host fuel garbage back epm swap_page s =
      Ok (tt, swapped back epm a c (crypt uc (pswap_boot_key s1) c page) D m' s1) /\ is_u64 c /\
    avoid ⊆ avoid' /\ ext data s sA /\ keyed uc sA s1 /\ swap_ok avoid' data s1 oT (S (S n)) /\ ctr_addr s1 back = Some a /\
    merk_inv avoid' root m' (Some T') n /\ same_region (m_src (w_merk s1)) (m_src m') /\
    tree_map T' = <[back := Fips180.SHA256 (page ++ le64 c)]> (merk_map oT) /\ (cdepth T' <= S (odepth oT))%nat.
Proof.
  intros Hok Hsl Hb He Hne Hepm Hd Hask page.
  assert (Forall is_u8 page /\ length page = page_len) as [Hpu Hpl] by (split; [apply read_bytes_u8, Hok|apply length_read_bytes]).
  destruct (pageout_ctr_spec avoid data s oT (S (S n)) back Hok Hsl) as (a & sA & avoid' & Ea & Hav & HokA & Hctr & Hext).
  set (c0 := load64 (w_mem sA) a). set (c := c0 +w 1).
  destruct (encrypt_spec uc avoid' data sA oT (S (S n)) page back c HokA Hpl) as (s1 & Ee & Hk & Hok1).
  set (E := crypt uc (pswap_boot_key s1) c page) in *.
  assert (Forall is_u8 (pswap_hash page c) /\ length (pswap_hash page c) = 32%nat) as [Hhu Hhl]
    by (rewrite pswap_hash_spec by done; split; [apply SHA256_u8|apply SHA256_length]).
  destruct (so_data _ _ _ _ _ Hok back Hb) as [(Hb0 & Hb1 & _) _].
  destruct (insert_run avoid' (w_merk s1) oT n back (pswap_hash page c) (so_merk _ _ _ _ _ Hok1)) as (m' & T' & Ei & Hm' & Hreg & Ht & Hd');
    [unfold is_u64; lia|done..|].
  exists avoid', sA, s1, a, c, m', T'. rewrite pswap_hash_spec in Ht by done. rewrite <- (keyed_ctr uc sA s1) in Hctr by exact Hk.
  split; [|split; [apply u64_range|split_and!; assumption]].
  unfold page_swap_epm, bind at 1, get at 1. unfold paging_epm_inbounds.
  rewrite (proj2 (Z.leb_le _ epm)), (proj2 (Z.ltb_lt epm _)) by lia. cbn [andb]. unfold bind at 1, sm_assert at 1, ret at 1.
  unfold bind at 1. rewrite (slot_inbounds s back Hsl). unfold bind at 1, sm_assert at 1, ret at 1.
  assert (read_bytes (w_mem sA) epm page_len = page) as Epage by by apply (ex_data _ _ _ Hext).
  unfold bind at 1. destruct D as [P|]; cbn [asks] in Hask.
  - destruct Hask as (-> & (c' & Hst) & Hfu & Eh). unfold truthy. rewrite (proj2 (Z.eqb_neq back 0)) by lia. cbn [negb].
    pose proof (stored_ext uc data s sA oT back P c' Hext Hb Hst) as HstA.
    assert (c' = c0) as ->. { destruct (st_ctr _ _ _ _ _ _ HstA) as (a' & Ha' & <-). rewrite <- (keyed_ctr uc sA s1 back Hk), Hctr in Ha'. by injection Ha' as <-. }
    unfold bind at 1. rewrite Z.eqb_refl. unfold sm_assert at 1, ret at 1, read_page at 1, gets at 1.
    unfold bind at 1. rewrite Ea. unfold bind at 1, gets at 1. fold c0 c. unfold bind at 1, read_page at 1, gets at 1. rewrite Epage.
    unfold bind at 1. rewrite Ee. unfold bind at 1.
    pose proof (crypt_length uc (pswap_boot_key s1) c page Hpl) as HlE. pose proof (crypt_u8 uc (pswap_boot_key s1) c page Hpu) as HuE.
    pose proof (ex_data _ _ _ Hext back Hb) as Eb.
    rewrite (swap_in_part avoid' data sA s1 oT (S (S n)) back epm _ c0 P E Hok1 Hk HstA Hfu Eh Hb He Hne HlE HuE Eb).
    unfold bind, with_merk, zoom. cbn [w_merk set_w_mem]. rewrite Ei. done.
  - subst swap_page. cbn [truthy Z.eqb negb]. unfold ret at 1. unfold bind at 1. rewrite Ea. unfold bind at 1, gets at 1. fold c0 c.
    unfold bind at 1, read_page at 1, gets at 1. rewrite Epage. unfold bind at 1. rewrite Ee. unfold bind, ret at 1, with_merk, zoom.
    cbn [w_merk set_w_mem]. rewrite Ei. done.
Qed.

(** ** Refinement *)

(** The state holds the store [pages]: every page of it is stored. *)
Definition store_rep (data : gset Z) (s : swap_state) (oT : option ctree) (pages : gmap Z (list Z)) : Prop :=
  forall b P, pages !! b = Some P -> b ∈ data /\ slot s b /\ exists c, stored uc s oT b P c.

Lemma slot_same s s' b : region s' = region s /\ region_size s' = region_size s -> slot s b -> slot s' b.
Proof. intros [R1 R2] [H1 H2 H3]. by split; rewrite ?R1, ?R2. Qed.

Lemma stored_keyed sA s1 oT b P c : keyed uc sA s1 -> stored uc sA oT b P c -> stored uc s1 oT b P c.
Proof. intros Hk Hst. assert (s1 = sA) as ->; [|done]. apply (kd_same _ _ _ Hk). pose proof (st_key _ _ _ _ _ _ Hst). destruct uc; auto. Qed.

Lemma page_swap_store avoid data s oT n back epm swap_page D pages :
  swap_ok avoid data s oT (S (S (S n))) -> store_rep data s oT pages -> slot s back -> back ∈ data -> epm ∈ data -> back <> epm ->
  pages !! epm = None -> EYRIE_LOAD_START <= epm < w_freemem_end s -> (odepth oT <= 31)%nat -> asks s oT back swap_page D ->
  let page := read_bytes (w_mem s) epm page_len in
  exists s' avoid' T', page_swap_epm uc true root host fuel garbage back epm swap_page s = Ok (tt, s') /\
    swap_ok avoid' data s' (Some T') n /\ (cdepth T' <= S (odepth oT))%nat /\
    store_rep data s' (Some T') (<[back := page]> pages) /\ read_bytes (w_mem s') epm page_len = default page D /\
    (forall q, q ∈ data -> q <> back -> q <> epm -> read_bytes (w_mem s') q page_len = read_bytes (w_mem s) q page_len) /\
    w_freemem_end s' = w_freemem_end s /\ region s' = region s /\ region_size s' = region_size s.
Proof.
  intros Hok Hrep Hsl Hb He Hne Hpe Hepm Hd Hask page.
  assert (length page = page_len /\ Forall is_u8 page) as Hpage by (split; [apply length_read_bytes|apply read_bytes_u8, Hok]).
  destruct (page_swap_run avoid data s oT n back epm swap_page D Hok Hsl Hb He Hne Hepm Hd Hask)
    as (avoid' & sA & s1 & a & c & m' & T' & Erun & Hc & Hav & Hext & Hk & Hok1 & Hctr & Hm' & Hreg & Ht & Hd').
  fold page in Erun, Ht. set (E := crypt uc (pswap_boot_key s1) c page) in *.
  assert (length E = page_len /\ Forall is_u8 E) as HE by (split; [apply crypt_length, Hpage|apply crypt_u8, Hpage]).
  assert (forall D', D = Some D' -> length D' = page_len /\ Forall is_u8 D') as HD.
  { intros D' ->. destruct Hask as (_ & (c' & Hst) & _). apply Hst. }
  assert (region s1 = region s /\ region_size s1 = region_size s) as HR1.
  { unfold region, region_size. rewrite (kd_merk _ _ _ Hk). apply (ex_region _ _ _ Hext). }
  assert (forall q, q ∈ data -> read_bytes (w_mem s1) q page_len = read_bytes (w_mem s) q page_len) as Hrd.
  { intros q Hq. rewrite (kd_mem _ _ _ Hk). by apply (ex_data _ _ _ Hext). }
  pose proof (final_region s1 back epm a c E D m' Hreg) as HR2.
  pose proof (final_read avoid' data s1 oT n back epm a c E D m' Hok1 Hctr Hb He HE HD) as Hfr.
  pose proof (final_ctr_addr s1 back epm a c E D m' Hreg) as Hfa.
  destruct (final_key s1 back epm a c E D m') as [Hfk Hfs].
  exists (swapped back epm a c E D m' s1), avoid', T'. split; [exact Erun|]. split; [by eapply final_ok|]. split; [done|]. split_and!.
  - intros b P. rewrite lookup_insert_Some. intros [[<- <-]|[Hbb HP]].
    + split; [done|]. split; [apply (slot_same s1); [done|by apply (slot_same s)]|]. exists c. split; [done| | | |].
      * cbn [merk_map from_option]. by rewrite Ht, lookup_insert, decide_True.
      * exists a. split; [by rewrite Hfa|by apply final_ctr].
      * rewrite Hfr, Hfk by done. destruct D; repeat case_decide; done || congruence.
      * rewrite Hfs. apply (kd_set _ _ _ Hk).
    + destruct (Hrep b P HP) as (Hbd & Hbs & c' & Hst). split; [done|].
      split; [apply (slot_same s1); [done|by apply (slot_same s)]|]. exists c'.
      assert (b <> epm) as Hbe by (intros ->; by rewrite HP in Hpe).
      pose proof (stored_keyed sA s1 oT b P c' Hk (stored_ext uc data s sA oT b P c' Hext Hbd Hst)) as [S1 S2 (x & Sx & Sl) S4 S5].
      split; [done| | | |].
      * cbn [merk_map from_option]. by rewrite Ht, lookup_insert_ne.
      * exists x. split; [by rewrite Hfa|]. rewrite <- Sl. eapply (final_other_ctr avoid' data s1 oT n); try done; by apply (slot_same s).
      * rewrite Hfr, Hfk by done. destruct D; repeat case_decide; done || congruence.
      * by rewrite Hfs.
  - rewrite Hfr by done. destruct D; [by rewrite decide_True|]. rewrite decide_False by done. by apply Hrd.
  - intros q Hq Hqb Hqe. rewrite Hfr by done. destruct D; rewrite !decide_False by done; by apply Hrd.
  - transitivity (w_freemem_end s1); [unfold swapped; by case D|]. rewrite (kd_end _ _ _ Hk). apply (ex_end _ _ _ Hext).
  - by rewrite (proj1 HR2), (proj1 HR1).
  - by rewrite (proj2 HR2), (proj2 HR1).
Qed.
End Store.

(** C15: Swapping over memory that nobody else writes is a store of pages.  While the
    state holds the store [pages], a call of [page_swap_epm] returns, records the
    contents of the frame at the backing page, and leaves in the frame the page that was
    stored there when it is asked for, and what it had otherwise.  Every other
    stored page can still be read back, and no other frame changes.  Three backing pages
    have to be left for the counters and the nodes. *)
Theorem page_swap_refines_store root uc host fuel garbage avoid data s oT n back epm swap_page D pages :
  swap_ok root avoid data s oT (S (S (S n))) -> store_rep uc data s oT pages -> slot s back -> back ∈ data -> epm ∈ data -> back <> epm ->
  pages !! epm = None -> EYRIE_LOAD_START <= epm < w_freemem_end s -> (odepth oT <= 31)%nat ->
  asks uc host fuel s oT back swap_page D ->
  let page := read_bytes (w_mem s) epm page_len in
  exists s' avoid' T', page_swap_epm uc true root host fuel garbage back epm swap_page s = Ok (tt, s') /\
    swap_ok root avoid' data s' (Some T') n /\ (cdepth T' <= S (odepth oT))%nat /\
    store_rep uc data s' (Some T') (<[back := page]> pages) /\ read_bytes (w_mem s') epm page_len = default page D /\
    (forall q, q ∈ data -> q <> back -> q <> epm -> read_bytes (w_mem s') q page_len = read_bytes (w_mem s) q page_len) /\
    w_freemem_end s' = w_freemem_end s /\ region s' = region s /\ region_size s' = region_size s.
Proof. apply page_swap_store. Qed.

(** ** A run: a page goes out and comes back *)

Definition demo_frame : Z := EYRIE_LOAD_START.
Definition demo_back : Z := 0x1000.
Definition demo_data : gset Z := {[ demo_back; demo_frame ]}.
Definition demo_swap : swap_state :=
  mkSwapState (fun a => a mod 256) (merk_fresh demo_root (demo_backing 1)) (replicate 24 0) false false [] (EYRIE_LOAD_START + 0x10000)
    (fun n => Z.of_nat n).

Lemma demo_swap_ok : swap_ok demo_root ({[page_of demo_root]} ∪ demo_data) demo_data demo_swap None 6.
Proof.
  split.
  - split; [|set_solver| |done].
    + split; cbn.
      * split; [intros p h Hp; by rewrite lookup_empty in Hp|set_solver].
      * exists []. split; [apply base.NoDup_nil_2|done].
      * exists ({[page_of demo_root]} ∪ demo_data). split_and!; [|by rewrite dom_empty_L|done].
        exists 0x1000, 8, 5, 1. split_and!; [apply demo_walk_ok|apply demo_walk_at|lia|lia|].
        intros p [->%elem_of_singleton|[->%elem_of_singleton| ->%elem_of_singleton]%elem_of_union]%elem_of_union _ Hp.
        -- destruct Hp as [_ Hp]. by vm_compute in Hp.
        -- exists 0. by vm_compute.
        -- destruct Hp as [_ Hp]. by vm_compute in Hp.
      * rewrite dom_empty_L. set_solver.
    + exists (replicate 32 0). unfold demo_swap, merk_fresh. cbn [w_merk m_nodes]. by rewrite lookup_singleton, decide_True.
  - intros a. cbn. unfold is_u8. apply Z.mod_pos_bound. lia.
  - done.
  - intros p [-> _]%elem_of_replicate Hp. done.
  - intros i j p Hi _ Hp. exfalso. apply Hp. apply aget_elem in Hi. by apply elem_of_replicate in Hi as [-> _].
  - intros p [->%elem_of_singleton| ->%elem_of_singleton]%elem_of_union; split; try set_solver; by vm_compute.
  - done.
Qed.

Lemma demo_data_in : demo_back ∈ demo_data /\ demo_frame ∈ demo_data.
Proof. unfold demo_data. set_solver. Qed.

Lemma demo_frame_page : is_page demo_frame.
Proof. by vm_compute. Qed.
Lemma demo_frame_in : EYRIE_LOAD_START <= demo_frame < w_freemem_end demo_swap.
Proof. by vm_compute. Qed.

Lemma demo_slot s : region s = 0x1000 /\ region_size s = 0x8000 -> slot s demo_back.
Proof. intros [E1 E2]. split; rewrite ?E1, ?E2; unfold demo_back; lia || by vm_compute. Qed.

(** The page goes out. *)
Lemma page_swap_refines_store_witness :
  let page := read_bytes (w_mem demo_swap) demo_frame page_len in
  exists s' avoid' T', page_swap_epm true true demo_root (fun _ _ => None) 0 (mkNode 0 [] 0 0) demo_back demo_frame 0 demo_swap = Ok (tt, s') /\
    swap_ok demo_root avoid' demo_data s' (Some T') 3 /\ (cdepth T' <= 1)%nat /\ store_rep true demo_data s' (Some T') {[ demo_back := page ]} /\
    read_bytes (w_mem s') demo_frame page_len = page.
Proof.
  destruct (page_swap_refines_store demo_root true (fun _ _ => None) 0 (mkNode 0 [] 0 0) _ demo_data demo_swap None 3 demo_back demo_frame 0 None ∅
    demo_swap_ok) as (s' & avoid' & T' & E & Hok & Hd & Hrep & Hr & _).
  - intros b P HP. by rewrite lookup_empty in HP.
  - by apply demo_slot.
  - apply demo_data_in.
  - apply demo_data_in.
  - done.
  - done.
  - apply demo_frame_in.
  - cbn. lia.
  - done.
  - exists s', avoid', T'. split; [exact E|]. split; [exact Hok|]. split; [exact Hd|]. split; [exact Hrep|exact Hr].
Defined.

(** The page comes back: the hypotheses of the integrity theorem hold after it went out. *)
Lemma page_swap_integrity_witness :
  exists host s s', page_swap_epm true true demo_root host 1 (mkNode 0 [] 0 0) demo_back demo_frame demo_back s = Ok (tt, s') /\
    let page := read_bytes (w_mem demo_swap) demo_frame page_len in
    read_bytes (w_mem s') demo_frame page_len = page \/
    exists c m l, collision ((read_bytes (w_mem s') demo_frame page_len ++ le64 c) :: m :: l).
Proof.
  destruct (page_swap_store demo_root true (fun _ _ => None) 0 (mkNode 0 [] 0 0) _ demo_data demo_swap None 3 demo_back demo_frame 0 None ∅
    demo_swap_ok) as (s & avoid & T & E & Hok & Hd & Hrep & Hr & _ & Hfe & _);
    [intros b P HP; by rewrite lookup_empty in HP|by apply demo_slot|apply demo_data_in|apply demo_data_in|done|done|apply demo_frame_in|cbn; lia|done|].
  set (page := read_bytes (w_mem demo_swap) demo_frame page_len) in *.
  destruct (Hrep demo_back page) as (_ & Hsl & c & Hst); [by rewrite lookup_insert, decide_True|].
  destruct T as [a k h|a k [|] [|]]; cbn [cdepth odepth from_option] in Hd; try lia.
  set (T := CLeaf a k h) in *. set (host := fun (_ : nat) x => if decide (x = a) then Some (cell T) else None).
  assert (serves host T) as Hserve by (split; [intros t; unfold host, caddr, T; by rewrite decide_True|done]).
  destruct (page_swap_store demo_root true host 1 (mkNode 0 [] 0 0) _ demo_data s (Some T) 0 demo_back demo_frame demo_back (Some page)
    _ Hok Hrep Hsl) as (s' & avoid' & T' & E' & Hok' & _ & _ & _ & _); [apply demo_data_in|apply demo_data_in|done|by rewrite lookup_insert_ne|rewrite Hfe; apply demo_frame_in|cbn; lia| |].
  { split; [reflexivity|]. split; [by exists c|]. split; [cbn; lia|]. intros ? [= <-]. exact Hserve. }
  exists host, s, s'. split; [exact E'|]. pose proof (so_merk _ _ _ _ _ _ Hok) as [_ _ Hroot Htr].
  destruct (Htr T eq_refl) as (_ & Hct & _ & Hbst). pose proof Hst as [[Hlp Hup] Hh _ _ _].
  assert (k = demo_back /\ h = Fips180.SHA256 (page ++ le64 c)) as [-> ->].
  { cbn [merk_map from_option T tree_map] in Hh. apply lookup_singleton_Some in Hh as [H1 H2]. split; [exact H1|exact H2]. }
  destruct (page_swap_integrity true demo_root host 1 (mkNode 0 [] 0 0) demo_back demo_frame s s' T (fun _ => page ++ le64 c) page c
    (Fips180.SHA256 (page ++ le64 c))) as [Hp|[c' Hc]].
  - apply Hok.
  - exact Hroot.
  - intros t x nd. unfold host. case_decide; [|done]. intros HT. apply (inj Some) in HT as <-. apply cell_ok. exact Hct.
  - exact Hct.
  - exact Hbst.
  - intros k' h' Hk'. cbn [T tree_map] in Hk'. apply lookup_singleton_Some in Hk' as [_ <-]. split; [reflexivity|].
    unfold page_msg. rewrite length_app, length_le64, Hlp. pose proof page_len_Z. lia.
  - exact Hh.
  - done.
  - exact Hlp.
  - done.
  - done.
  - exact E'.
  - intros p Hp Hp0. destruct (so_ctr _ _ _ _ _ _ Hok' p Hp Hp0) as (Hpp & _ & Hpd). apply pages_disjoint; [exact Hpp|apply demo_frame_page|].
    intros ->. apply Hpd, demo_data_in.
  - left. exact Hp.
  - right. eexists c', _, _. exact Hc.
Defined.
