(* ===== verification/Paging.v ===== *)
(** * Demand paging ([runtime/mm/paging.c])

    When the free pages of an enclave are used up the runtime takes a random user page,
    moves it to the backing region and leaves the number of the backing page in the
    invalid page-table entry; a page fault on such an entry brings the page back in
    exchange for another one. *)

From S2P Require Import Prelude Mem Vm Freemem PageTable Backing Sha256 Merkle MerkleAlloc PageSwap.
From Stdlib Require Import ZArith Lia.
From stdpp Require Import base tactics gmap sets list list_numbers numbers.
Local Open Scope Z_scope.
Local Open Scope keystone_scope.

Definition EYRIE_PAGING_START : Z := 0xffffffff40000000.

(** vm_defs.h *)
Definition ROUND_UP (n b : Z) : Z := u64 (Z.shiftl (Z.shiftr (n -w 1) b +w 1) b).
Definition ROUND_DOWN (n b : Z) : Z := Z.land n (u64 (Z.lnot (Z.shiftl 2 (b - 1) - 1))).
Definition MEGAPAGE_DOWN (n : Z) : Z := ROUND_DOWN n (RISCV_GET_LVL_PGSIZE_BITS 2).
Definition MEGAPAGE_UP (n : Z) : Z := ROUND_UP n (RISCV_GET_LVL_PGSIZE_BITS 2).

Definition RISCV_EXCP_INST_PAGE_FAULT : Z := 12.
Definition RISCV_EXCP_LOAD_PAGE_FAULT : Z := 13.
Definition RISCV_EXCP_STORE_PAGE_FAULT : Z := 15.

(** The globals of paging.c with those of page_swap.c and of the memory manager.  There
    is one memory, that of [pg_swap]; the one inside [pg_rt] is not used. *)
Record paging_state : Type := mkPaging {
  pg_swap : swap_state;
  pg_rt : rt_state;
  paging_pa_start : Z;
  paging_user_page_count : Z;
  rt_trap_table : Z -> Z
}.

Definition set_swap (w : swap_state) (s : paging_state) : paging_state :=
  mkPaging w (pg_rt s) (paging_pa_start s) (paging_user_page_count s) (rt_trap_table s).
Definition set_count (c : Z) (s : paging_state) : paging_state :=
  mkPaging (pg_swap s) (pg_rt s) (paging_pa_start s) c (rt_trap_table s).
Definition set_pa_start (pa : Z) (s : paging_state) : paging_state :=
  mkPaging (pg_swap s) (pg_rt s) pa (paging_user_page_count s) (rt_trap_table s).
Definition set_trap (i h : Z) (s : paging_state) : paging_state :=
  mkPaging (pg_swap s) (pg_rt s) (paging_pa_start s) (paging_user_page_count s)
    (fun j => if decide (j = i) then h else rt_trap_table s j).

(** The memory manager over the memory. *)
Definition rt_view (s : paging_state) : rt_state := set_rmem (w_mem (pg_swap s)) (pg_rt s).
Definition set_rt (r : rt_state) (s : paging_state) : paging_state :=
  mkPaging (set_w_mem (fun _ => rmem r) (pg_swap s)) (set_rmem (rmem (pg_rt s)) r) (paging_pa_start s) (paging_user_page_count s) (rt_trap_table s).
Definition with_rt {A} (c : M rt_state A) : M paging_state A := zoom rt_view set_rt c.
Definition with_swap {A} (c : M swap_state A) : M paging_state A := zoom pg_swap set_swap c.

Definition __paging_pa (s : paging_state) (va : Z) : Z := (va -w EYRIE_PAGING_START) +w paging_pa_start s.
Definition __paging_va (s : paging_state) (pa : Z) : Z := (pa -w paging_pa_start s) +w EYRIE_PAGING_START.

Definition paging_inc_user_page : M paging_state unit := modify (fun s => set_count (paging_user_page_count s +w 1) s).
(** The assertion that an unsigned number is not negative holds. *)
Definition paging_dec_user_page : M paging_state unit := modify (fun s => set_count (paging_user_page_count s -w 1) s).

(** ** Initialisation *)

Section Init.
(** The answers of the monitor, result and value; the random words; the addresses of the
    reserved tables and of the handler. *)
Context (query_size query_addr : Z * Z) (random : list Z) (l2 l3 handler : Z).

Definition init_paging (user_pa_start user_pa_end : Z) : M paging_state unit :=
  let size := MEGAPAGE_DOWN (query_size.2) in
  if truthy (query_size.1) || (size =? 0) then ret tt
  else
    let addr := MEGAPAGE_UP (query_addr.2) in
    if truthy (query_addr.1) || (addr =? 0) then ret tt
    else
      modify (set_pa_start addr) ;;;
      let! s := get in
      with_swap (with_backing (modify (fun b =>
        mkBacking (__paging_va s addr) size (paging_next_backing_page_offset b) (paging_inc_backing_page_offset_by b)))) ;;;
      with_swap (with_backing (pswap_init random)) ;;;
      with_rt (map_with_reserved_page_table addr size EYRIE_PAGING_START l2 l3) ;;;
      modify (set_trap RISCV_EXCP_INST_PAGE_FAULT handler) ;;;
      modify (set_trap RISCV_EXCP_LOAD_PAGE_FAULT handler) ;;;
      modify (set_trap RISCV_EXCP_STORE_PAGE_FAULT handler) ;;;
      modify (set_count (Z.shiftr (user_pa_end -w user_pa_start) RISCV_PAGE_BITS)).
End Init.

(** ** Choosing a page *)

Definition is_leaf (e : Z) : bool := truthy (Z.land e PTE_R) || truthy (Z.land e PTE_W) || truthy (Z.land e PTE_X).
Definition is_user (e : Z) : bool := truthy (Z.land e PTE_U) && truthy (Z.land e PTE_V).

(** [((vaddr << RISCV_PT_INDEX_BITS) | (i&0x1ff))<<RISCV_PAGE_BITS] *)
Definition virt_addr (vaddr i : Z) : Z :=
  u64 (Z.shiftl (Z.lor (u64 (Z.shiftl vaddr RISCV_PT_INDEX_BITS)) (Z.land i 0x1ff)) RISCV_PAGE_BITS).

Section Traverse.
Context (s : rt_state).

(** The loop over the entries [idxs] of the table [tb]; [below] is the recursive call.
    The result and [*count]. *)
Fixpoint traverse_loop (below : Z -> Z -> Z -> Z * Z) (level : nat) (tb : Z) (idxs : list Z) (vaddr count : Z) : Z * Z :=
  match idxs with
  | [] => (0, count)
  | i :: idxs =>
      let entry := load64 (rmem s) (pte_addr tb i) in
      if entry =? 0 then traverse_loop below level tb idxs vaddr count
      else
        let phys_addr := u64 (Z.shiftl (pte_ppn entry) RISCV_PAGE_BITS) in
        let virt := virt_addr vaddr i in
        if (level =? 1)%nat || is_leaf entry then
          let count := if is_user entry then count -w 1 else count in
          if count =? 0 then (virt, count) else traverse_loop below level tb idxs vaddr count
        else
          let vaddr := if (level =? 3)%nat && truthy (Z.land i 0x100) then u64 (-1) else vaddr in
          let '(r, count) := below (__va s phys_addr) (vpn virt) count in
          if truthy r then (r, count) else traverse_loop below level tb idxs vaddr count
  end.

(** Entries of a table of level 1 are leaves, so level 0 is not reached. *)
Fixpoint __traverse_page_table_and_pick_internal (level : nat) (tb vaddr count : Z) : Z * Z :=
  match level with
  | O => (0, count)
  | S below => traverse_loop (__traverse_page_table_and_pick_internal below) level tb (seqZ 0 512) vaddr count
  end.

(** [while (next_count > 0 && try < max_retry)], [tries] rounds left. *)
Fixpoint pick_rounds (tries : nat) (next_count r : Z) : Z :=
  match tries with
  | O => r
  | S tries =>
      if 0 <? next_count then
        let '(r, next_count) := __traverse_page_table_and_pick_internal 3 (root_page_table s) 0 next_count in
        pick_rounds tries next_count r
      else r
  end.
Definition __traverse_page_table_and_pick (count : Z) : Z := pick_rounds 3 count 0.
End Traverse.

Definition __pick_page : M paging_state Z :=
  let! s := get in
  sm_assert (0 <? paging_user_page_count s) ;;;
  let! rnd := with_swap sbi_random in
  let count := rnd mod paging_user_page_count s +w 1 in
  let! s := get in
  ret (__traverse_page_table_and_pick (rt_view s) count).

(** ** Eviction and page faults *)

Section Evict.
Context (use_page_crypto use_page_hash : bool) (paging_merk_root : Z) (host : nat -> Z -> option merkle_node).
Context (fuel : nat) (garbage : merkle_node).

Definition load_pte (a : Z) : M paging_state Z := with_rt (rload a).
Definition store_pte (a v : Z) : M paging_state unit := with_rt (rstore a v).

(** The part of [paging_evict_and_free_one] behind the choice of the two pages. *)
Definition evict_to (target_va dest_va swap_va : Z) : M paging_state Z :=
  let! inb := with_swap (with_backing (paging_backpage_inbounds dest_va)) in
  sm_assert inb ;;;
  let! target_pte := with_rt (pte_of_va target_va) in
  sm_assert (truthy target_pte) ;;;
  let! e := load_pte target_pte in
  sm_assert (truthy (Z.land e PTE_U)) ;;;
  let src_pa := u64 (Z.shiftl (pte_ppn e) RISCV_PAGE_BITS) in
  let! s := get in
  with_swap (page_swap_epm use_page_crypto use_page_hash paging_merk_root host fuel garbage dest_va (__va (pg_rt s) src_pa) swap_va) ;;;
  let! e := load_pte target_pte in
  store_pte target_pte (pte_create_invalid (ppn (__paging_pa s dest_va)) (Z.land e PTE_FLAG_MASK)) ;;;
  paging_dec_user_page ;;;
  ret src_pa.

Definition paging_evict_and_free_one (swap_va : Z) : M paging_state Z :=
  let! target_va := __pick_page in
  if target_va =? 0 then ret 0
  else
    let! dest_va := (if truthy swap_va then ret swap_va else with_swap (with_backing paging_alloc_backing_page)) in
    evict_to target_va dest_va swap_va.

(** [rt_page_fault] leaves the enclave. *)
Definition rt_page_fault : M paging_state unit := hang.

(** [sbadaddr] of the context. *)
Definition paging_handle_page_fault (addr : Z) : M paging_state unit :=
  if EYRIE_LOAD_START <=? addr then rt_page_fault
  else
    let! entry := with_rt (pte_of_va addr) in
    if entry =? 0 then rt_page_fault
    else
      let! e := load_pte entry in
      if truthy (Z.land e PTE_V) then rt_page_fault
      else
        let! s := get in
        let back_ptr := __paging_va s (u64 (Z.shiftl (pte_ppn e) RISCV_PAGE_BITS)) in
        if back_ptr =? 0 then rt_page_fault
        else
          let! inb := with_swap (with_backing (paging_backpage_inbounds back_ptr)) in
          sm_assert inb ;;;
          let! frame := paging_evict_and_free_one back_ptr in
          if frame =? 0 then rt_page_fault
          else
            let! e := load_pte entry in
            sm_assert (truthy (Z.land e PTE_U)) ;;;
            store_pte entry (pte_create (ppn frame) (Z.land e PTE_FLAG_MASK)) ;;;
            paging_inc_user_page.

(** [__spa_get] of freemem.c when [USE_PAGING] is defined. *)
Definition spa_get_or_evict (zero : bool) : M paging_state Z :=
  let! s := get in
  if LIST_EMPTY (spa_free_pages (pg_rt s)) then
    let! new_pa := paging_evict_and_free_one 0 in
    if truthy new_pa then
      let! s := get in
      with_rt (spa_put (__va (pg_rt s) new_pa)) ;;;
      with_rt (__spa_get zero)
    else ret 0
  else with_rt (__spa_get zero).
End Evict.
