(* ===== verification/PagingPick.v ===== *)
(** * The page that is evicted

    The traversal of the page tables counts the user pages and returns the address of
    the one with the drawn number. *)

From S2P Require Import Prelude Mem Vm Freemem PageTable Paging.
From Stdlib Require Import ZArith Lia.
From stdpp Require Import base tactics sets list list_numbers numbers.
Local Open Scope Z_scope.
Local Open Scope keystone_scope.

(** ** Counting down a list *)

(** Element number [count] from 1 with the rest 0, or nothing and what is left. *)
Definition pick_of (l : list Z) (count : Z) : Z * Z :=
  match l !! Z.to_nat (count - 1) with
  | Some v => (v, 0)
  | None => (0, count - Z.of_nat (length l))
  end.

Definition nonzero (l : list Z) : Prop := Forall (fun v => v <> 0) l.

Lemma pick_nil count : 0 < count -> pick_of [] count = (0, count).
Proof. intros Hc. unfold pick_of. rewrite lookup_nil. f_equal. cbn. lia. Qed.

Lemma pick_app l1 l2 count : 0 < count -> nonzero l1 ->
  pick_of (l1 ++ l2) count = let '(r, c) := pick_of l1 count in if truthy r then (r, c) else pick_of l2 c.
Proof.
  intros Hc Hn. unfold pick_of. destruct (l1 !! Z.to_nat (count - 1)) as [v|] eqn:E.
  - rewrite (lookup_app_l_Some _ _ _ _ E). unfold truthy. apply (Forall_lookup_1 _ _ _ _ Hn) in E. by rewrite (proj2 (Z.eqb_neq v 0)).
  - apply lookup_ge_None in E as Hl. rewrite lookup_app_r by done. change (truthy 0) with false. cbv iota.
    replace (Z.to_nat (count - Z.of_nat (length l1) - 1)) with (Z.to_nat (count - 1) - length l1)%nat by lia.
    rewrite length_app. destruct (l2 !! _); [done|]. f_equal. lia.
Qed.

(** The count left when nothing was found is positive. *)
Lemma pick_left l count : 0 < count -> nonzero l -> truthy (pick_of l count).1 = false -> 0 < (pick_of l count).2 <= count.
Proof.
  intros Hc Hn. unfold pick_of. destruct (l !! _) as [v|] eqn:E; cbn [fst snd].
  - apply (Forall_lookup_1 _ _ _ _ Hn) in E. unfold truthy. by rewrite (proj2 (Z.eqb_neq v 0)).
  - intros _. apply lookup_ge_None in E. lia.
Qed.

Lemma pick_cons v l count : 0 < count ->
  pick_of (v :: l) count = if count - 1 =? 0 then (v, 0) else pick_of l (count - 1).
Proof.
  intros Hc. unfold pick_of. destruct (Z.eqb_spec (count - 1) 0) as [E|E].
  - by replace (Z.to_nat (count - 1)) with 0%nat by lia.
  - replace (Z.to_nat (count - 1)) with (S (Z.to_nat (count - 1 - 1))) by lia. cbn [lookup list_lookup length].
    destruct (l !! _); [done|]. f_equal. lia.
Qed.

(** ** Tables *)

Section Tables.
Context (s : rt_state) (K : list Z).
Abbreviation T := (table_of s).
Abbreviation below := (__traverse_page_table_and_pick_internal s).

(** An entry of a table of level [level] under which there is no user page, and the
    tables under which are in [K]. *)
Fixpoint no_user (level : nat) (e : Z) : Prop :=
  e = 0 \/
  if (level =? 1)%nat || is_leaf e then is_user e = false
  else match level with
       | O => True
       | S below => next_table s e ∈ K /\ forall i, is_idx i -> no_user below (T (next_table s e) i)
       end.

Lemma no_user_loop rec level tb idxs vaddr count : 0 < count ->
  (forall i, i ∈ idxs -> T tb i = 0 \/ if (level =? 1)%nat || is_leaf (T tb i) then is_user (T tb i) = false
     else forall v, rec (next_table s (T tb i)) v count = (0, count)) ->
  traverse_loop s rec level tb idxs vaddr count = (0, count).
Proof.
  intros Hc. revert vaddr. induction idxs as [|i idxs IH]; intros vaddr Hi; [done|]. cbn [traverse_loop].
  assert (forall v, traverse_loop s rec level tb idxs v count = (0, count)) as IH' by (intros v; apply IH; intros j Hj; apply Hi; by right).
  change (load64 (rmem s) (pte_addr tb i)) with (T tb i). destruct (Hi i ltac:(by left)) as [->|He]; [apply IH'|].
  destruct (T tb i =? 0); [apply IH'|]. destruct (_ || _).
  - rewrite He. rewrite (proj2 (Z.eqb_neq count 0)) by lia. apply IH'.
  - change (__va s (u64 (Z.shiftl (pte_ppn (T tb i)) RISCV_PAGE_BITS))) with (next_table s (T tb i)). rewrite He. apply IH'.
Qed.

Lemma traverse_S level tb vaddr count :
  below (S level) tb vaddr count = traverse_loop s (below level) (S level) tb (seqZ 0 512) vaddr count.
Proof. done. Qed.

Lemma no_user_traverse level tb vaddr count : 0 < count -> (forall i, is_idx i -> no_user level (T tb i)) ->
  below level tb vaddr count = (0, count).
Proof.
  intros Hc. revert tb vaddr. induction level as [|level IH]; intros tb vaddr Hi; [done|]. rewrite traverse_S.
  apply no_user_loop; [done|]. intros i Hin%elem_of_seqZ. destruct (Hi i ltac:(unfold is_idx; lia)) as [?|He]; [by left|right].
  destruct (_ || _); [done|]. destruct level; [done|]. destruct He as [_ He]. intros v. by apply IH.
Qed.

Definition user_entries (tb : Z) (idxs : list Z) : list Z := filter (fun i => is_user (T tb i) = true) idxs.

Lemma loop_leaves rec tb idxs vaddr count : 0 < count < 2 ^ 64 ->
  traverse_loop s rec 1 tb idxs vaddr count = pick_of (map (virt_addr vaddr) (user_entries tb idxs)) count.
Proof.
  revert count. induction idxs as [|i idxs IH]; intros count Hc; [cbn [traverse_loop user_entries]; by rewrite pick_nil by lia|].
  cbn [traverse_loop]. change (load64 (rmem s) (pte_addr tb i)) with (T tb i). unfold user_entries. rewrite filter_cons.
  destruct (Z.eqb_spec (T tb i) 0) as [E|E].
  { rewrite E, decide_False by done. by apply IH. }
  cbn [Nat.eqb orb]. destruct (is_user (T tb i)).
  - rewrite decide_True by done. cbn [map]. rewrite pick_cons, (u64_id (count - 1)) by (unfold is_u64; lia).
    destruct (Z.eqb_spec (count - 1) 0); [by replace (count - 1) with 0 by lia|]. apply IH. lia.
  - rewrite decide_False by done. rewrite (proj2 (Z.eqb_neq count 0)) by lia. by apply IH.
Qed.

(** Entries that point to tables. *)
Definition pointer (e : Z) : Prop := valid_pte e = true /\ is_leaf e = false.
Definition under (l : Z -> list Z) (tb i : Z) : list Z := if T tb i =? 0 then [] else l i.

Lemma loop_tables rec level tb idxs vaddr count (l : Z -> list Z) : 0 < count < 2 ^ 64 -> level <> 1%nat ->
  (forall i, i ∈ idxs -> T tb i = 0 \/ pointer (T tb i)) ->
  (forall i, i ∈ idxs -> (level =? 3)%nat && truthy (Z.land i 0x100) = false) ->
  (forall i c, i ∈ idxs -> T tb i <> 0 -> 0 < c < 2 ^ 64 -> nonzero (l i) /\
    rec (next_table s (T tb i)) (vpn (virt_addr vaddr i)) c = pick_of (l i) c) ->
  traverse_loop s rec level tb idxs vaddr count = pick_of (concat (map (under l tb) idxs)) count.
Proof.
  intros Hc Hl Hp Hs Hr. revert count Hc. induction idxs as [|i idxs IH]; intros count Hc; [cbn; by rewrite pick_nil by lia|].
  cbn [traverse_loop map concat]. change (load64 (rmem s) (pte_addr tb i)) with (T tb i). unfold under at 1.
  assert (forall c, 0 < c < 2 ^ 64 -> traverse_loop s rec level tb idxs vaddr c = pick_of (concat (map (under l tb) idxs)) c) as IH'.
  { apply IH; intros; [apply Hp|apply Hs|apply Hr]; try done; by right. }
  destruct (Z.eqb_spec (T tb i) 0) as [E|E]; [by apply IH'|]. destruct (Hp i ltac:(by left)) as [?|[_ Hlf]]; [done|].
  rewrite Hlf, (proj2 (Nat.eqb_neq _ _)) by done. cbn [orb]. rewrite Hs by by left.
  destruct (Hr i count ltac:(by left) E Hc) as [Hnz Er].
  change (__va s (u64 (Z.shiftl (pte_ppn (T tb i)) RISCV_PAGE_BITS))) with (next_table s (T tb i)). rewrite Er.
  rewrite pick_app by (done || lia). pose proof (pick_left (l i) count ltac:(lia) Hnz) as Hleft.
  destruct (pick_of (l i) count) as [r c]. cbn [fst snd] in Hleft. destruct (truthy r); [done|]. apply IH'. specialize (Hleft eq_refl). lia.
Qed.
End Tables.

Lemma loop_tables_app s rec level tb l1 l2 vaddr count : level <> 1%nat ->
  (forall i, i ∈ l1 -> table_of s tb i = 0 \/ pointer (table_of s tb i)) ->
  (forall i, i ∈ l1 -> (level =? 3)%nat && truthy (Z.land i 0x100) = false) ->
  traverse_loop s rec level tb (l1 ++ l2) vaddr count =
    let '(r, c) := traverse_loop s rec level tb l1 vaddr count in
    if truthy r then (r, c) else traverse_loop s rec level tb l2 vaddr c.
Proof.
  intros Hl Hp Hs. revert count. induction l1 as [|i l1 IH]; intros count; [done|]. cbn [app traverse_loop].
  change (load64 (rmem s) (pte_addr tb i)) with (table_of s tb i).
  assert (forall c, traverse_loop s rec level tb (l1 ++ l2) vaddr c =
    let '(r, c) := traverse_loop s rec level tb l1 vaddr c in if truthy r then (r, c) else traverse_loop s rec level tb l2 vaddr c) as IH'.
  { apply IH; intros; [apply Hp|apply Hs]; by right. }
  destruct (Z.eqb_spec (table_of s tb i) 0) as [E|E]; [apply IH'|]. destruct (Hp i ltac:(by left)) as [?|[_ Hlf]]; [done|].
  rewrite Hlf, (proj2 (Nat.eqb_neq _ _)) by done. cbn [orb]. rewrite Hs by by left.
  destruct (rec _ _ count) as [r c]. destruct (truthy r) eqn:Er; [by rewrite Er|]. apply IH'.
Qed.

(** ** User pages *)

(** The indices of the lower half of the address space, in order. *)
Definition user_idx : list (Z * Z * Z) :=
  concat (map (fun a => concat (map (fun b => map (fun c => (a, b, c)) (seqZ 0 512)) (seqZ 0 512))) (seqZ 0 256)).
Definition va_of (i : Z * Z * Z) : Z := let '(a, b, c) := i in ((a * 512 + b) * 512 + c) * 4096.

Definition users (s : rt_state) : list (Z * Z * Z) := filter (fun i => is_user (pte_map s i) = true) user_idx.

(** The lower half has tables on two levels, the upper half, with its tables in [K], no user page; the
    address 0 is not that of a user page. *)
Record user_half (s : rt_state) (K : list Z) : Prop := {
  uh_1 : forall a, 0 <= a < 256 -> table_of s (root_page_table s) a = 0 \/ pointer (table_of s (root_page_table s) a);
  uh_2 : forall a b, 0 <= a < 256 -> is_idx b -> table_of s (root_page_table s) a <> 0 ->
    let t := next_table s (table_of s (root_page_table s) a) in table_of s t b = 0 \/ pointer (table_of s t b);
  uh_3 : forall a, 256 <= a < 512 -> no_user s K 3 (table_of s (root_page_table s) a);
  uh_0 : is_user (pte_map s (0, 0, 0)) = false
}.

Lemma virt_addr_eq v i : 0 <= v < 2 ^ 18 -> is_idx i -> virt_addr v i = (v * 512 + i) * 4096.
Proof.
  intros Hv Hi. unfold virt_addr, is_idx in *. change RISCV_PT_INDEX_BITS with 9. change RISCV_PAGE_BITS with 12.
  change 0x1ff with (2 ^ 9 - 1). rewrite land_pow2_sub1, (Z.mod_small i) by lia.
  rewrite (Z.shiftl_mul_pow2 v), (u64_id (v * 2 ^ 9)) by (unfold is_u64; lia).
  rewrite (lor_add _ _ 9) by (lia || (rewrite Z.mod_mul; lia)). rewrite Z.shiftl_mul_pow2, u64_id by (unfold is_u64; lia). lia.
Qed.

Lemma vpn_virt v i : 0 <= v < 2 ^ 18 -> is_idx i -> vpn (virt_addr v i) = v * 512 + i.
Proof.
  intros Hv Hi. rewrite virt_addr_eq by done. unfold vpn. change RISCV_PAGE_BITS with 12. rewrite Z.shiftr_div_pow2 by lia.
  change (2 ^ 12) with 4096. by rewrite Z.div_mul.
Qed.

Lemma filter_concat {A} (P : A -> Prop) `{!forall x, Decision (P x)} (ls : list (list A)) : filter P (concat ls) = concat (map (filter P) ls).
Proof. induction ls as [|l ls IH]; [done|]. cbn [concat map]. by rewrite list.filter_app, IH. Qed.

Lemma filter_none {A} (P : A -> Prop) `{!forall x, Decision (P x)} (l : list A) : (forall x, x ∈ l -> ~ P x) -> filter P l = [].
Proof. induction l as [|x l IH]; intros Hn; [done|]. rewrite filter_cons, decide_False by (apply Hn; by left). apply IH. intros y Hy. apply Hn. by right. Qed.

Section Users.
Context (s : rt_state) (K : list Z) (Hs : user_half s K).
Abbreviation T := (table_of s).
Abbreviation root := (root_page_table s).
Abbreviation P := (fun i => is_user (pte_map s i) = true).
Abbreviation child1 a := (next_table s (T root a)).
Abbreviation child2 a b := (next_table s (T (child1 a) b)).

(** The addresses of the user pages under one entry of the second and of the first
    level. *)
Definition pages2 (a b : Z) : list Z := map va_of (filter P (map (fun c => (a, b, c)) (seqZ 0 512))).
Definition pages1 (a : Z) : list Z := concat (map (pages2 a) (seqZ 0 512)).

Lemma users_pages : map va_of (users s) = concat (map pages1 (seqZ 0 256)).
Proof.
  unfold users, user_idx. rewrite filter_concat, map_map, concat_map, map_map. f_equal. apply map_ext. intros a.
  rewrite filter_concat, map_map, concat_map, map_map. done.
Qed.

Lemma pages2_nonzero a b : 0 <= a -> 0 <= b -> nonzero (pages2 a b).
Proof.
  intros Ha Hb. apply Forall_forall. intros v Hv%list_elem_of_In. apply list_elem_of_fmap in Hv as ([[a' b'] c] & -> & [Hu Hi]%list_elem_of_filter).
  apply list_elem_of_fmap in Hi as (c' & [= -> -> ->] & Hc%elem_of_seqZ). cbn [va_of]. intros E.
  assert (a = 0 /\ b = 0 /\ c' = 0) as (-> & -> & ->) by lia. by rewrite (uh_0 _ _ Hs) in Hu.
Qed.

Lemma pages1_nonzero a : 0 <= a -> nonzero (pages1 a).
Proof.
  intros Ha. unfold nonzero, pages1. apply Forall_concat, Forall_forall. intros l Hl%list_elem_of_In.
  apply list_elem_of_fmap in Hl as (b & -> & Hb%elem_of_seqZ). apply pages2_nonzero; lia.
Qed.

Lemma is_user_0 : is_user 0 = false.
Proof. done. Qed.

(** Without a table there is no page. *)
Lemma pages2_none a b : (forall c, is_idx c -> is_user (pte_map s (a, b, c)) = false) -> pages2 a b = [].
Proof.
  intros Hn. unfold pages2. rewrite filter_none; [done|]. intros i (c & -> & Hc%elem_of_seqZ)%list_elem_of_fmap.
  rewrite Hn by (unfold is_idx; lia). done.
Qed.

Lemma pages2_entries a b : pointer (T root a) -> pointer (T (child1 a) b) -> 0 <= a < 256 -> is_idx b ->
  pages2 a b = map (virt_addr (a * 512 + b)) (user_entries s (child2 a b) (seqZ 0 512)).
Proof.
  intros [V1 _] [V2 _] Ha Hb. unfold pages2, user_entries.
  assert (forall c, c ∈ seqZ 0 512 -> is_idx c) as Hi by (intros c Hc%elem_of_seqZ; unfold is_idx; lia).
  revert Hi. generalize (seqZ 0 512). intros l. induction l as [|c l IH]; intros Hi; [done|]. cbn [map]. rewrite !filter_cons.
  assert (pte_map s (a, b, c) = T (child2 a b) c) as -> by (unfold pte_map, pte_of, leaf_of; by rewrite V1, V2).
  specialize (IH ltac:(intros; apply Hi; by right)). case_decide; [|exact IH]. cbn [map]. f_equal; [|exact IH].
  cbn [va_of]. unfold is_idx in Hb. rewrite virt_addr_eq by (lia || (apply Hi; by left)). done.
Qed.

Lemma traverse_2 a c : 0 <= a < 256 -> pointer (T root a) -> 0 < c < 2 ^ 64 ->
  __traverse_page_table_and_pick_internal s 2 (child1 a) (vpn (virt_addr 0 a)) c = pick_of (pages1 a) c.
Proof.
  intros Ha Hp Hc. rewrite vpn_virt by (unfold is_idx; lia). change (0 * 512 + a) with a.
  assert (T root a <> 0) as Ha0 by (intros E; destruct Hp as [Hp _]; by rewrite E in Hp).
  rewrite traverse_S, (loop_tables s _ 2 _ _ _ _ (pages2 a)); try done.
  - f_equal. unfold pages1. f_equal. apply map_ext_in. intros b Hb%list_elem_of_In%elem_of_seqZ. unfold under.
    destruct (Z.eqb_spec (T (child1 a) b) 0) as [E|E]; [|done]. symmetry. apply pages2_none. intros k Hk.
    unfold pte_map, pte_of, leaf_of. destruct Hp as [-> _]. by rewrite E.
  - intros b Hb%elem_of_seqZ. apply (uh_2 _ _ Hs); unfold is_idx; done || lia.
  - intros b k Hb%elem_of_seqZ He Hk. split; [apply pages2_nonzero; lia|].
    destruct (uh_2 _ _ Hs a b) as [?|Hp2]; [done|unfold is_idx; lia|done|done|].
    rewrite vpn_virt by (unfold is_idx; lia). rewrite traverse_S, loop_leaves by done.
    by rewrite <- pages2_entries by (done || (unfold is_idx; lia)).
Qed.

Lemma traverse_users count : 0 < count < 2 ^ 64 ->
  __traverse_page_table_and_pick_internal s 3 root 0 count = pick_of (map va_of (users s)) count.
Proof.
  intros Hc. rewrite users_pages, traverse_S. change 512 with (256 + 256). rewrite seqZ_app by lia.
  assert (forall a, a ∈ seqZ 0 256 -> 0 <= a < 256) as Hin by (intros a Ha%elem_of_seqZ; lia).
  assert (forall a, 0 <= a < 256 -> (3 =? 3)%nat && truthy (Z.land a 0x100) = false) as Hlow.
  { intros a Ha. unfold truthy. change 0x100 with (Z.shiftl 1 8). rewrite (land_bit_zero a 8) by lia. rewrite negb_involutive. apply (testbit_high a 8); lia. }
  rewrite loop_tables_app; [|done|intros a Ha%Hin; by apply (uh_1 _ _ Hs)|intros a Ha%Hin; by apply Hlow].
  rewrite (loop_tables s _ 3 _ _ _ _ pages1); [|done|done|intros a Ha%Hin; by apply (uh_1 _ _ Hs)|intros a Ha%Hin; by apply Hlow|].
  2: { intros a c Ha%Hin Ha0 Hk. split; [apply pages1_nonzero; lia|]. apply traverse_2; [done| |done]. by destruct (uh_1 _ _ Hs a Ha). }
  assert (concat (map (under s pages1 root) (seqZ 0 256)) = concat (map pages1 (seqZ 0 256))) as ->.
  { f_equal. apply map_ext_in. intros a Ha%list_elem_of_In%Hin. unfold under. destruct (Z.eqb_spec (T root a) 0) as [E|E]; [|done].
    symmetry. apply concat_nil_Forall, Forall_forall. intros l Hl%list_elem_of_In. apply list_elem_of_fmap in Hl as (b & -> & _).
    apply pages2_none. intros c _. unfold pte_map, pte_of, leaf_of. by rewrite E. }
  set (L := concat _).
  assert (nonzero L) as HL.
  { apply Forall_concat, Forall_forall. intros l Hl%list_elem_of_In. apply list_elem_of_fmap in Hl as (a & -> & Ha%Hin).
    apply pages1_nonzero. lia. }
  pose proof (pick_left L count ltac:(lia) HL) as Hleft. destruct (pick_of L count) as [r c] eqn:Er. cbn [fst snd] in Hleft.
  destruct (truthy r) eqn:Et; [done|]. specialize (Hleft eq_refl).
  assert (r = 0) as -> by (unfold truthy in Et; by apply negb_false_iff, Z.eqb_eq in Et).
  apply no_user_loop; [lia|]. intros a Ha%elem_of_seqZ. destruct (uh_3 _ _ Hs a ltac:(lia)) as [?|Hu]; [by left|right].
  destruct (_ || _); [done|]. destruct Hu as [_ Hu]. intros v. apply (no_user_traverse s K); [lia|done].
Qed.
End Users.

(** The page with the drawn number. *)
Lemma pick_user s K count i : user_half s K -> 0 < count < 2 ^ 64 -> users s !! Z.to_nat (count - 1) = Some i ->
  __traverse_page_table_and_pick s count = va_of i.
Proof.
  intros Hs Hc Hi. unfold __traverse_page_table_and_pick. cbn [pick_rounds]. rewrite (proj2 (Z.ltb_lt _ _)) by lia.
  rewrite (traverse_users s K) by done. unfold pick_of. by rewrite list_lookup_fmap, Hi.
Qed.

Lemma elem_concat {A} (ls : list (list A)) x : x ∈ concat ls <-> exists l, l ∈ ls /\ x ∈ l.
Proof. rewrite list_elem_of_In, in_concat. by setoid_rewrite list_elem_of_In. Qed.

Lemma elem_user_idx a b c : (a, b, c) ∈ user_idx <-> 0 <= a < 256 /\ is_idx b /\ is_idx c.
Proof.
  unfold user_idx, is_idx. split.
  - intros (l & (x & -> & Hx%elem_of_seqZ)%list_elem_of_fmap & Hl)%elem_concat.
    apply elem_concat in Hl as (l & (y & -> & Hy%elem_of_seqZ)%list_elem_of_fmap & Hl).
    apply list_elem_of_fmap in Hl as (z & [= -> -> ->] & Hz%elem_of_seqZ). lia.
  - intros (Ha & Hb & Hc). apply elem_concat. eexists. split.
    { apply list_elem_of_fmap. exists a. split; [done|]. apply elem_of_seqZ. lia. }
    apply elem_concat. eexists. split.
    { apply list_elem_of_fmap. exists b. split; [done|]. apply elem_of_seqZ. lia. }
    apply list_elem_of_fmap. exists c. split; [done|]. apply elem_of_seqZ. lia.
Qed.

Lemma idx3_va_of a b c : 0 <= a < 256 -> is_idx b -> is_idx c -> idx3 (va_of (a, b, c)) = (a, b, c).
Proof.
  intros Ha Hb Hc. unfold idx3, is_idx in *. rewrite !PT_INDEX_spec by lia. cbn [va_of].
  change (2 ^ (9 * (3 - 1) + 12)) with (512 * 512 * 4096). change (2 ^ (9 * (3 - 2) + 12)) with (512 * 4096).
  change (2 ^ (9 * (3 - 3) + 12)) with 4096. change (2 ^ 9) with 512. repeat f_equal; mlia.
Qed.

Lemma NoDup_concat_map {A B} (f : A -> list B) (l : list A) : NoDup l -> (forall x, x ∈ l -> NoDup (f x)) ->
  (forall x y z, x ∈ l -> y ∈ l -> z ∈ f x -> z ∈ f y -> x = y) -> NoDup (concat (map f l)).
Proof.
  induction 1 as [|x l Hx Hnd IH]; intros Hf Hd; [apply base.NoDup_nil_2|]. cbn [map concat]. apply list.NoDup_app. split_and!.
  - apply Hf. by left.
  - intros z Hz (fy & (y & -> & Hy)%list_elem_of_fmap & Hzy)%elem_concat. apply Hx. by rewrite (Hd x y z); [|left|right|..].
  - apply IH; [intros y Hy; apply Hf; by right|]. intros y w z Hy Hw. apply Hd; by right.
Qed.

Lemma NoDup_user_idx : NoDup user_idx.
Proof.
  assert (forall n, NoDup (seqZ 0 n)) as Hz by (intros; apply NoDup_seqZ).
  apply NoDup_concat_map; [apply Hz| |].
  - intros a _. apply NoDup_concat_map; [apply Hz| |].
    + intros b _. apply NoDup_fmap_2; [|apply Hz]. by intros ? ? [= ->].
    + intros b b' z _ _ (c & -> & _)%list_elem_of_fmap (c' & [= -> ->] & _)%list_elem_of_fmap. done.
  - intros a a' z _ _ (l & (b & -> & _)%list_elem_of_fmap & Hz1)%elem_concat (l' & (b' & -> & _)%list_elem_of_fmap & Hz2)%elem_concat.
    apply list_elem_of_fmap in Hz1 as (c & -> & _), Hz2 as (c' & [= -> -> ->] & _). done.
Qed.
