(* ===== verification/PagingInv.v ===== *)
(** * Paging is transparent

    The invariant that ties page tables, frames and stored pages together, and what a
    page fault and an eviction do to the memory that the user sees: nothing. *)

From S2P Require Import Prelude Mem Vm Freemem PageTable Backing Sha256 Merkle MerkleAlloc MerkleInsert PageSwap PageSwapInv SwapStore Paging PagingPick.
From Stdlib Require Import ZArith Lia.
From stdpp Require Import base tactics gmap sets list list_numbers numbers.
Local Open Scope Z_scope.
Local Open Scope keystone_scope.

#[local] Opaque page_len.

(** ** The tables of the lower half *)

(** Entry [a] of table [t], with the upper half of the root left out. *)
Definition utable (r : rt_state) (t a : Z) : Z := if decide (t = root_page_table r /\ 256 <= a) then 0 else table_of r t a.
Definition utree (r : rt_state) (L2 L3 : list Z) : Prop := tree (root_page_table r) (next_table r) (utable r) L2 L3.

Lemma utable_other r t a : t <> root_page_table r -> utable r t a = table_of r t a.
Proof. intros Ht. unfold utable. by rewrite decide_False by naive_solver. Qed.
Lemma utable_low r t a : a < 256 -> utable r t a = table_of r t a.
Proof. intros Ha. unfold utable. by rewrite decide_False by lia. Qed.

Definition is_uidx (i : Z * Z * Z) : Prop := 0 <= i.1.1 < 256 /\ is_idx i.1.2 /\ is_idx i.2.

Lemma is_uidx_idx3 i : is_uidx i -> is_idx3 i.
Proof. unfold is_uidx, is_idx3, is_idx. lia. Qed.

Lemma elem_uidx i : i ∈ user_idx <-> is_uidx i.
Proof. destruct i as [[a b] c]. apply elem_user_idx. Qed.

Section Lower.
Context (r : rt_state) (L2 L3 : list Z) (Ht : utree r L2 L3).

Lemma leaf_utable i : is_uidx i -> leaf r i = leaf_of (root_page_table r) (next_table r) (utable r) i.
Proof.
  destruct i as [[a b] c]. intros (Ha & Hb & Hc); cbn in Ha, Hb, Hc. unfold leaf, leaf_of. rewrite utable_low by lia.
  destruct (valid_pte (table_of r (root_page_table r) a)) eqn:E; [|done]. rewrite utable_other; [done|].
  intros Er. destruct (tree_apart _ _ _ _ _ Ht) as (Hr & _). apply Hr. rewrite <- Er.
  rewrite <- (utable_low r _ a) in E |- * by lia. apply (tr_1 _ _ _ _ _ Ht); [unfold is_idx; lia|done].
Qed.

Lemma leaf_L3 i t k : is_uidx i -> leaf r i = Some (t, k) -> t ∈ L3 /\ k = i.2.
Proof. intros Hi E. rewrite leaf_utable in E by done. by apply (leaf_in_L3 _ _ _ _ _ _ _ _ Ht (is_uidx_idx3 i Hi)). Qed.

Lemma pte_map_utable i : is_uidx i -> pte_map r i = pte_of (root_page_table r) (next_table r) (utable r) i.
Proof.
  intros Hi. unfold pte_map, pte_of. fold (leaf r i). rewrite <- leaf_utable by done.
  destruct (leaf r i) as [[t k]|] eqn:E; [|done]. destruct (leaf_L3 i t k Hi E) as [Ht3 ->]. rewrite utable_other; [done|].
  intros ->. by destruct (tree_apart _ _ _ _ _ Ht) as (_ & Hr & _).
Qed.

Lemma leaf_pte i t k : is_uidx i -> leaf r i = Some (t, k) -> pte_map r i = table_of r t k.
Proof. intros Hi E. unfold pte_map, pte_of. fold (leaf r i). by rewrite E. Qed.
End Lower.

(** The upper half depends on its tables alone. *)
Lemma no_user_same r m K level e : (forall t a, t ∈ K -> is_idx a -> table_of (set_rmem m r) t a = table_of r t a) ->
  no_user r K level e -> no_user (set_rmem m r) K level e.
Proof.
  intros Hs. revert e. induction level as [|level IH]; intros e; cbn [no_user]; [done|]. intros [?|He]; [by left|right].
  destruct (_ || _); [done|]. destruct He as [HK He]. split; [done|]. intros i Hi.
  change (next_table (set_rmem m r) e) with (next_table r e). rewrite Hs by done. by apply IH, He.
Qed.

(** A store to the leaf entry of index [i], or to none ([None]), among changes elsewhere. *)
Definition leaf_store (r : rt_state) (m : Z -> Z) (tabs : list Z) (w : option (Z * Z * Z)) : Prop :=
  forall t a, t ∈ tabs -> is_idx a -> table_of (set_rmem m r) t a =
    match w with
    | Some (t', k, v) => if decide (t = t' /\ a = k) then v else table_of r t a
    | None => table_of r t a
    end.

Lemma utable_store r m tabs w t a : (forall t' k v, w = Some (t', k, v) -> t' <> root_page_table r) -> leaf_store r m tabs w ->
  t ∈ tabs -> is_idx a -> utable (set_rmem m r) t a =
    match w with
    | Some (t', k, v) => if decide (t = t' /\ a = k) then v else utable r t a
    | None => utable r t a
    end.
Proof.
  intros Hw Hs Ht Ha. unfold utable. change (root_page_table (set_rmem m r)) with (root_page_table r).
  case_decide as D; [|by apply Hs]. destruct D as [-> D]. destruct w as [[[t' k] v]|]; [|done].
  rewrite decide_False; [done|]. intros [E _]. by apply (Hw t' k v).
Qed.

Lemma user_half_store r m K L2 L3 w :
  user_half r K -> utree r L2 L3 -> (forall t, t ∈ L3 -> t ∉ K) -> leaf_store r m (root_page_table r :: L2 ++ L3 ++ K) w ->
  (forall t k v, w = Some (t, k, v) -> t ∈ L3) -> is_user (pte_map (set_rmem m r) (0, 0, 0)) = false -> user_half (set_rmem m r) K.
Proof.
  intros [U1 U2 U3 U0] Ht HK Hs Hw H0. destruct (tree_apart _ _ _ _ _ Ht) as (Hr2 & Hr3 & H23).
  set (R := root_page_table r) in *.
  assert (forall t a, t ∈ R :: L2 ++ K -> is_idx a -> table_of (set_rmem m r) t a = table_of r t a) as Hsame.
  { intros t a Hin Ha. rewrite Hs by (set_solver || done). destruct w as [[[t' k] v]|]; [|done]. specialize (Hw t' k v eq_refl).
    rewrite decide_False; [done|]. intros [-> _]. apply elem_of_cons in Hin as [->|[Hin|Hin]%elem_of_app]; [done|by apply (H23 t')|by apply (HK t')]. }
  assert (forall a, 0 <= a < 512 -> table_of (set_rmem m r) R a = table_of r R a) as HR by (intros a Ha; apply Hsame; [by left|done]).
  split; change (root_page_table (set_rmem m r)) with R.
  - intros a Ha. rewrite HR by lia. by apply U1.
  - intros a b Ha Hb. rewrite HR by lia. intros Hne. cbv zeta. change (next_table (set_rmem m r)) with (next_table r).
    destruct (U1 a Ha) as [?|[Hv _]]; [done|]. rewrite Hsame; [by apply U2| |done].
    right. apply elem_of_app. left. rewrite <- (utable_low r R a) in Hv |- * by lia. apply (tr_1 _ _ _ _ _ Ht); [unfold is_idx; lia|done].
  - intros a Ha. rewrite HR by lia. apply no_user_same; [|by apply U3]. intros t b Hb. apply Hsame. set_solver.
  - done.
Qed.

(** The map and the tree after the store. *)
Lemma utree_store r m tabs L2 L3 i t v : utree r L2 L3 -> is_uidx i -> leaf r i = Some (t, i.2) ->
  (forall u, u ∈ root_page_table r :: L2 ++ L3 -> u ∈ tabs) -> leaf_store r m tabs (Some (t, i.2, v)) ->
  utree (set_rmem m r) L2 L3 /\
  forall j, is_uidx j -> leaf (set_rmem m r) j = leaf r j /\ pte_map (set_rmem m r) j = if decide (j = i) then v else pte_map r j.
Proof.
  intros Ht Hi Hl Htabs Hs. pose proof (leaf_L3 r L2 L3 Ht i t i.2 Hi Hl) as [Ht3 _].
  destruct (tree_apart _ _ _ _ _ Ht) as (_ & Hr3 & _).
  destruct (tree_set_leaf (root_page_table r) (next_table r) (utable r) (utable (set_rmem m r)) L2 L3 i t i.2 v) as [Htree Hmap]; [done| | | |].
  { by apply is_uidx_idx3. }
  { by rewrite <- (leaf_utable r L2 L3). }
  { intros u a Hu Ha. rewrite (utable_store r m tabs (Some (t, i.2, v))); auto. intros t' k v' [= <- <- <-] ->. done. }
  split; [exact Htree|]. intros j Hj. destruct (Hmap j (is_uidx_idx3 j Hj)) as [Hlj Hpj].
  rewrite (leaf_utable r L2 L3), (leaf_utable (set_rmem m r) L2 L3), (pte_map_utable r L2 L3), (pte_map_utable (set_rmem m r) L2 L3) by done.
  split; [exact Hlj|exact Hpj].
Qed.

Lemma utree_same r m tabs L2 L3 : utree r L2 L3 -> (forall u, u ∈ root_page_table r :: L2 ++ L3 -> u ∈ tabs) -> leaf_store r m tabs None ->
  utree (set_rmem m r) L2 L3 /\
  forall j, is_uidx j -> leaf (set_rmem m r) j = leaf r j /\ pte_map (set_rmem m r) j = pte_map r j.
Proof.
  intros Ht Htabs Hs.
  destruct (tree_ext (root_page_table r) (next_table r) (utable r) (utable (set_rmem m r)) L2 L3) as [Htree Hmap]; [done| |].
  { intros u a Hu Ha. rewrite (utable_store r m tabs None); auto. }
  split; [exact Htree|]. intros j Hj. destruct (Hmap j (is_uidx_idx3 j Hj)) as [Hlj Hpj].
  rewrite (leaf_utable r L2 L3), (leaf_utable (set_rmem m r) L2 L3), (pte_map_utable r L2 L3), (pte_map_utable (set_rmem m r) L2 L3) by done.
  split; [exact Hlj|exact Hpj].
Qed.

(** ** Entries *)

Definition frame_of (s : paging_state) (e : Z) : Z := next_table (pg_rt s) e.
(** The physical address of the page of an entry. *)
Definition src_pa (e : Z) : Z := u64 (Z.shiftl (pte_ppn e) RISCV_PAGE_BITS).
Definition back_of (s : paging_state) (e : Z) : Z := __paging_va s (u64 (Z.shiftl (pte_ppn e) RISCV_PAGE_BITS)).
Definition entry (s : paging_state) (i : Z * Z * Z) : Z := pte_map (rt_view s) i.
(** The entry of a page that is in the backing region. *)
Definition evicted (e : Z) : bool := negb (e =? 0) && negb (valid_pte e).

(** What the user has at index [i]. *)
Definition page_at (s : paging_state) (pages : gmap Z (list Z)) (i : Z * Z * Z) : option (list Z) :=
  let e := entry s i in
  if is_user e then Some (read_bytes (w_mem (pg_swap s)) (frame_of s e) page_len)
  else if evicted e then pages !! back_of s e
  else None.

(** The flags of an entry without the valid bit. *)
Definition perms (e : Z) : Z := Z.land e (Z.land PTE_FLAG_MASK (Z.lnot PTE_V)).

(** ** The invariant *)

Section Inv.
Context (uc : bool) (root : Z) (K L2 L3 : list Z).

Definition tabs (s : paging_state) : list Z := root_page_table (pg_rt s) :: L2 ++ L3 ++ K.

(** Tables in memory and pages in the store. *)
Record store_part (avoid data : gset Z) (s : paging_state) (oT : option ctree) (n : nat) (pages : gmap Z (list Z)) : Prop := {
  sp_swap : swap_ok root avoid data (pg_swap s) oT n;
  sp_store : store_rep uc data (pg_swap s) oT pages;
  sp_half : user_half (rt_view s) K;
  sp_tree : utree (rt_view s) L2 L3;
  sp_apart : forall t, t ∈ L3 -> t ∉ K;
  sp_tabs : forall t, t ∈ tabs s -> t ∈ data /\ pages !! t = None;
  sp_load : is_u64 (load_pa_start (pg_rt s)) /\ load_pa_start (pg_rt s) mod 4096 = 0;
  sp_pa : is_u64 (paging_pa_start s) /\ paging_pa_start s mod 4096 = 0
}.

(** Frames and backing pages belong to one entry each. *)
Record map_part (data : gset Z) (s : paging_state) (pages : gmap Z (list Z)) : Prop := {
  mp_frame : forall i, is_uidx i -> is_user (entry s i) = true ->
    let f := frame_of s (entry s i) in
    f ∈ data /\ (f ∉ tabs s) /\ pages !! f = None /\ EYRIE_LOAD_START <= f < w_freemem_end (pg_swap s) /\ src_pa (entry s i) <> 0;
  mp_frame_inj : forall i j, is_uidx i -> is_uidx j -> is_user (entry s i) = true -> is_user (entry s j) = true ->
    frame_of s (entry s i) = frame_of s (entry s j) -> i = j;
  mp_back : forall i, is_uidx i -> evicted (entry s i) = true ->
    is_Some (pages !! back_of s (entry s i)) /\ truthy (Z.land (entry s i) PTE_U) = true;
  mp_back_inj : forall i j, is_uidx i -> is_uidx j -> evicted (entry s i) = true -> evicted (entry s j) = true ->
    back_of s (entry s i) = back_of s (entry s j) -> i = j;
  mp_zero : entry s (0, 0, 0) = 0;
  mp_count : paging_user_page_count s = Z.of_nat (length (users (rt_view s))) /\ is_u64 (paging_user_page_count s)
}.

Record paging_inv avoid data s oT n pages : Prop := {
  pi_store : store_part avoid data s oT n pages;
  pi_map : map_part data s pages
}.
End Inv.

(** ** The entries that are made *)

Lemma is_user_bits e : is_user e = Z.testbit e 4 && Z.testbit e 0.
Proof. unfold is_user. change PTE_U with (Z.shiftl 1 4). change PTE_V with (Z.shiftl 1 0). by rewrite !truthy_bit. Qed.

Lemma evicted_not_user e : evicted e = true -> is_user e = false.
Proof. unfold evicted, valid_pte. rewrite is_user_bits. intros [_ He%negb_true_iff]%andb_true_iff. by rewrite He, andb_false_r. Qed.

(** The low ten bits of an entry. *)
Lemma create_bit p t i : 0 <= i < 10 -> Z.testbit (pte_create p t) i = (i =? 0) || Z.testbit t i.
Proof.
  intros Hi. unfold pte_create. rewrite !Z.lor_spec, Z.land_spec. change PTE_FLAG_MASK with (2 ^ 10 - 1).
  change PTE_V with (2 ^ 0). rewrite Z.pow2_bits_eqb by lia. rewrite (Z.eqb_sym 0).
  change (2 ^ 10 - 1) with (Z.ones 10). rewrite Z.ones_spec_low, andb_true_r by lia.
  unfold u64. rewrite Z.mod_pow2_bits_low by lia. unfold PTE_PPN_SHIFT. rewrite Z.shiftl_spec, Z.testbit_neg_r by lia. by destruct (i =? 0).
Qed.

Lemma create_invalid_bit p t i : 0 <= i < 10 -> Z.testbit (pte_create_invalid p t) i = negb (i =? 0) && Z.testbit t i.
Proof.
  intros Hi. unfold pte_create_invalid. rewrite Z.lor_spec, !Z.land_spec. change PTE_FLAG_MASK with (Z.ones 10).
  change PTE_V with (2 ^ 0). rewrite Z.lnot_spec, Z.pow2_bits_eqb by lia. rewrite (Z.eqb_sym 0).
  rewrite Z.ones_spec_low, andb_true_r by lia. unfold u64. rewrite Z.mod_pow2_bits_low by lia. unfold PTE_PPN_SHIFT.
  rewrite Z.shiftl_spec, Z.testbit_neg_r by lia. cbn [orb]. apply andb_comm.
Qed.

Lemma flags_bit e i : 0 <= i < 10 -> Z.testbit (Z.land e PTE_FLAG_MASK) i = Z.testbit e i.
Proof. intros Hi. rewrite Z.land_spec. change PTE_FLAG_MASK with (Z.ones 10). by rewrite Z.ones_spec_low, andb_true_r by lia. Qed.

Lemma perms_eq e e' : (forall i, 1 <= i < 10 -> Z.testbit e i = Z.testbit e' i) -> perms e = perms e'.
Proof.
  intros H. apply Z.bits_inj'. intros i Hi. unfold perms. rewrite !Z.land_spec. change PTE_FLAG_MASK with (Z.ones 10).
  change PTE_V with (2 ^ 0). rewrite Z.lnot_spec, Z.pow2_bits_eqb by lia.
  destruct (decide (i = 0)) as [->|]; [by rewrite !andb_false_r|]. destruct (decide (i < 10)); [by rewrite H by lia|].
  by rewrite Z.ones_spec_high, !andb_false_r by lia.
Qed.

Lemma pte_ppn_create_invalid p t : 0 <= p < 2 ^ 54 -> 0 <= t -> pte_ppn (pte_create_invalid p t) = p.
Proof.
  intros Hp Ht. unfold pte_ppn, pte_create_invalid, PTE_PPN_SHIFT, PTE_FLAG_MASK, PTE_V.
  rewrite Z.shiftl_mul_pow2, u64_id by (unfold is_u64; lia). rewrite Z.shiftr_lor, !Z.shiftr_land.
  rewrite (Z.shiftr_div_pow2 (p * 2 ^ 10)), Z.div_mul by lia. change (Z.shiftr 1023 10) with 0. by rewrite Z.land_0_r, Z.land_0_l, Z.lor_0_r.
Qed.

(** The physical address behind a page number, and back. *)
Lemma ppn_of_page pa : is_u64 pa -> pa mod 4096 = 0 -> 0 <= ppn pa < 2 ^ 54 /\ u64 (Z.shiftl (ppn pa) RISCV_PAGE_BITS) = pa.
Proof.
  intros Hp Hm. unfold ppn, is_u64 in *. change RISCV_PAGE_BITS with 12. rewrite Z.shiftr_div_pow2, Z.shiftl_mul_pow2 by lia.
  change (2 ^ 12) with 4096. split; [mlia|]. rewrite u64_id by (unfold is_u64; mlia). mlia.
Qed.

Lemma page_addr_aligned e : is_u64 (u64 (Z.shiftl (pte_ppn e) RISCV_PAGE_BITS)) /\ u64 (Z.shiftl (pte_ppn e) RISCV_PAGE_BITS) mod 4096 = 0.
Proof.
  split; [apply u64_range|]. unfold u64. change RISCV_PAGE_BITS with 12. rewrite Z.shiftl_mul_pow2 by lia. change (2 ^ 12) with 4096. mlia.
Qed.

Lemma flags_nonneg e : 0 <= Z.land e PTE_FLAG_MASK.
Proof. apply Z.land_nonneg. by right. Qed.

(** The entry for the frame of another entry. *)
Lemma frame_of_create s e t : 0 <= t -> frame_of s (pte_create (ppn (u64 (Z.shiftl (pte_ppn e) RISCV_PAGE_BITS))) t) = frame_of s e.
Proof.
  intros Ht. destruct (page_addr_aligned e) as [H1 H2]. destruct (ppn_of_page _ H1 H2) as [Hp E].
  unfold frame_of, next_table. by rewrite pte_ppn_create, E by done.
Qed.

(** The entry for a backing page. *)
Lemma back_of_create s b t : 0 <= t -> is_u64 b -> b mod 4096 = 0 -> paging_pa_start s mod 4096 = 0 ->
  back_of s (pte_create_invalid (ppn (__paging_pa s b)) t) = b.
Proof.
  intros Ht Hb Hm Hpa. assert (__paging_pa s b mod 4096 = 0) as Ha.
  { unfold __paging_pa, EYRIE_PAGING_START, u64. mlia. }
  destruct (ppn_of_page (__paging_pa s b) (u64_range _) Ha) as [Hp E]. unfold back_of. rewrite pte_ppn_create_invalid, E by done.
  unfold __paging_va, __paging_pa, is_u64, u64, EYRIE_PAGING_START in *. mlia.
Qed.

Lemma create_invalid_range p t : 0 <= t -> is_u64 (pte_create_invalid p t).
Proof.
  intros Ht.   unfold pte_create_invalid. apply lor_bound; [apply u64_range|].
  assert (Z.land (Z.land t PTE_FLAG_MASK) (Z.lnot PTE_V) = Z.land t (Z.land PTE_FLAG_MASK (Z.lnot PTE_V))) as -> by by rewrite Z.land_assoc.
  rewrite Z.land_comm. apply land_bound; [by compute|done].
Qed.

(** The entry of a page that goes out. *)
Definition out_entry (s : paging_state) (back e : Z) : Z := pte_create_invalid (ppn (__paging_pa s back)) (Z.land e PTE_FLAG_MASK).
(** The entry of a page that comes in to the frame of [e]. *)
Definition in_entry (e e' : Z) : Z := pte_create (ppn (src_pa e)) (Z.land e' PTE_FLAG_MASK).

Lemma out_entry_facts s back e : is_user e = true -> is_page back -> paging_pa_start s mod 4096 = 0 ->
  let v := out_entry s back e in
  is_user v = false /\ evicted v = true /\ back_of s v = back /\ truthy (Z.land v PTE_U) = true /\ perms v = perms e /\ is_u64 v.
Proof.
  rewrite is_user_bits. intros [Hu _]%andb_true_iff (Hb0 & Hb1 & Hbm) Hpa v.
  assert (forall i, 0 <= i < 10 -> Z.testbit v i = negb (i =? 0) && Z.testbit e i) as Hbit.
  { intros i Hi. unfold v, out_entry. by rewrite create_invalid_bit, flags_bit by done. }
  assert (Z.testbit v 4 = true) as H4 by (rewrite Hbit, Hu by lia; done).
  split_and!.
  - rewrite is_user_bits, (Hbit 0) by lia. by rewrite andb_false_r.
  - unfold evicted, valid_pte. rewrite (Hbit 0) by lia. rewrite andb_true_r. apply negb_true_iff, Z.eqb_neq. intros E. by rewrite E in H4.
  - apply back_of_create; [apply flags_nonneg|unfold is_u64; lia|done|done].
  - change PTE_U with (Z.shiftl 1 4). by rewrite truthy_bit.
  - apply perms_eq. intros i Hi. rewrite Hbit by lia. by rewrite (proj2 (Z.eqb_neq i 0)) by lia.
  - apply create_invalid_range, flags_nonneg.
Qed.

Lemma in_entry_facts s e e' : truthy (Z.land e' PTE_U) = true ->
  let v := in_entry e e' in
  is_user v = true /\ evicted v = false /\ frame_of s v = frame_of s e /\ src_pa v = src_pa e /\ perms v = perms e' /\ is_u64 v.
Proof.
  change PTE_U with (Z.shiftl 1 4). rewrite truthy_bit by lia. intros Hu v.
  assert (forall i, 0 <= i < 10 -> Z.testbit v i = (i =? 0) || Z.testbit e' i) as Hbit.
  { intros i Hi. unfold v, in_entry. by rewrite create_bit, flags_bit by done. }
  destruct (page_addr_aligned e) as [H1 H2]. destruct (ppn_of_page _ H1 H2) as [Hp E].
  split_and!.
  - rewrite is_user_bits, (Hbit 0), (Hbit 4), Hu by lia. done.
  - unfold evicted, valid_pte. rewrite (Hbit 0) by lia. by rewrite andb_false_r.
  - apply frame_of_create, flags_nonneg.
  - unfold src_pa at 1, v, in_entry. rewrite pte_ppn_create by (done || apply flags_nonneg). exact E.
  - apply perms_eq. intros i Hi. rewrite Hbit by lia. by rewrite (proj2 (Z.eqb_neq i 0)) by lia.
  - apply pte_create_range, flags_nonneg.
Qed.

(** ** Steps *)

Lemma load_pte_run a s : load_pte a s = Ok (load64 (w_mem (pg_swap s)) a, s).
Proof. by destruct s as [[] [] ? ? ?]. Qed.
Lemma pte_of_va_run va s : with_rt (pte_of_va va) s = Ok (match leaf (rt_view s) (idx3 va) with Some (t, a) => pte_addr t a | None => 0 end, s).
Proof. unfold with_rt, zoom, pte_of_va. rewrite walk_run. by destruct s as [[] [] ? ? ?]. Qed.

Lemma with_swap_run {A} (c : M swap_state A) s a w : c (pg_swap s) = Ok (a, w) -> with_swap c s = Ok (a, set_swap w s).
Proof. intros E. unfold with_swap, zoom. by rewrite E. Qed.
Lemma set_swap_id s : set_swap (pg_swap s) s = s.
Proof. by destruct s. Qed.

(** A new memory for the tables. *)
Definition put_mem (m : Z -> Z) (s : paging_state) : paging_state := set_swap (set_w_mem (fun _ => m) (pg_swap s)) s.

Lemma store_pte_run a v s : store_pte a v s = Ok (tt, put_mem (store64 (w_mem (pg_swap s)) a v) s).
Proof. by destruct s as [[] [] ? ? ?]. Qed.

Lemma is_page_page_ok p : is_page p -> PageTable.page_ok p.
Proof. intros (? & ? & ?). unfold PageTable.page_ok, is_u64. change RISCV_PAGE_SIZE with 4096. lia. Qed.

Lemma leaf_store_same r m ts : (forall t, t ∈ ts -> is_page t /\ read_bytes m t page_len = read_bytes (rmem r) t page_len) -> leaf_store r m ts None.
Proof.
  intros Hs t a Ht Ha. destruct (Hs t Ht) as [Hp E]. unfold table_of. cbn [rmem set_rmem].
  rewrite (pte_addr_eq t a (is_page_page_ok t Hp) Ha). unfold is_idx in Ha.
  replace (8 * a) with (Z.of_nat (Z.to_nat (8 * a))) by lia. apply (load64_read_eq _ _ _ page_len); [done|]. pose proof page_len_Z. lia.
Qed.

Lemma leaf_store_store r ts t k v : (forall t, t ∈ ts -> is_page t) -> t ∈ ts -> is_idx k -> is_u64 v ->
  leaf_store r (store64 (rmem r) (pte_addr t k) v) ts (Some (t, k, v)).
Proof. intros Hp Ht Hk Hv u a Hu Ha. apply table_of_store; try done; by apply is_page_page_ok, Hp. Qed.

Section Steps.
Context (uc : bool) (root : Z) (K L2 L3 : list Z).
Abbreviation store_part := (store_part uc root K L2 L3).
Abbreviation map_part := (map_part K L2 L3).
Abbreviation tabs := (tabs K L2 L3).

(** A store to a page that is not in the store of pages. *)
Lemma swap_ok_put avoid data w oT n pages t a v : swap_ok root avoid data w oT n -> store_rep uc data w oT pages ->
  t ∈ data -> pages !! t = None -> is_idx a ->
  let w' := set_w_mem (fun _ => store64 (w_mem w) (pte_addr t a) v) w in
  swap_ok root avoid data w' oT n /\ store_rep uc data w' oT pages /\
  (forall q, q ∈ data -> q <> t -> read_bytes (w_mem w') q page_len = read_bytes (w_mem w) q page_len).
Proof.
  intros Hok Hrep Ht Hpt Ha. pose proof Hok as [H1 H2 H3 H4 H5 H6 H7]. destruct (H6 t Ht) as [Htp _].
  rewrite (pte_addr_eq t a (is_page_page_ok t Htp) Ha). intros w'. unfold is_idx in Ha.
  assert (forall q l, is_page q -> q <> t -> 0 < l <= 4096 -> forall k, 0 <= k -> k + l <= 4096 ->
    ranges_disjoint (t + 8 * a) 8 (q + k) l = true) as Hdis.
  { intros q l Hq Hne Hl k Hk Hkl. apply (ranges_disjoint_sub t 4096); try lia. rewrite ranges_disjoint_sym.
    apply (ranges_disjoint_sub q 4096); try lia. by apply pages_disjoint. }
  assert (forall q, q ∈ data -> q <> t -> read_bytes (w_mem w') q page_len = read_bytes (w_mem w) q page_len) as Hrd.
  { intros q Hq Hne. apply read_store64_disjoint. rewrite page_len_Z. specialize (Hdis q 4096 (proj1 (H6 q Hq)) Hne ltac:(lia) 0).
    rewrite Z.add_0_r in Hdis. apply Hdis; lia. }
  split; [|split; [|exact Hrd]].
  - split; try done. by apply store64_mem_bytes.
  - intros b P HP. destruct (Hrep b P HP) as (Hb & Hsl & c & [S1 S2 (x & Sx & Sl) S4 S5]). split; [done|].
    split; [by apply (slot_same w)|]. exists c. split; [done|done| | |done].
    + exists x. split; [exact Sx|]. rewrite <- Sl. destruct (ctr_addr_page root _ _ _ _ _ _ _ Hok Sx) as (p & _ & Hp & _ & Hpd & -> & Hi).
      apply load64_store64_disjoint. apply Hdis; [done|by intros ->|lia|lia|lia].
    + rewrite Hrd; [exact S4|done|]. intros ->. by rewrite HP in Hpt.
Qed.

(** Tables after a step that keeps the other parts. *)
Lemma store_part_step avoid data s oT n pages avoid' w' oT' n' pages' w :
  store_part avoid data s oT n pages -> swap_ok root avoid' data w' oT' n' -> store_rep uc data w' oT' pages' ->
  (forall t, t ∈ tabs s -> pages' !! t = None) -> leaf_store (rt_view s) (w_mem w') (tabs s) w ->
  match w with
  | None => True
  | Some (t, k, v) => exists i, is_uidx i /\ leaf (rt_view s) i = Some (t, i.2) /\ k = i.2
  end ->
  is_user (match w with
           | Some (t, k, v) => if decide (leaf (rt_view s) (0, 0, 0) = Some (t, k)) then v else entry s (0, 0, 0)
           | None => entry s (0, 0, 0)
           end) = false ->
  store_part avoid' data (set_swap w' s) oT' n' pages' /\
  forall j, is_uidx j -> leaf (rt_view (set_swap w' s)) j = leaf (rt_view s) j /\
    entry (set_swap w' s) j =
      match w with Some (t, k, v) => if decide (leaf (rt_view s) j = Some (t, k)) then v else entry s j | None => entry s j end.
Proof.
  intros [P1 P2 P3 P4 P5 P6 P7 P8] Hok Hrep Hpages Hls Hw H0.
  assert (forall u, u ∈ root_page_table (rt_view s) :: L2 ++ L3 -> u ∈ tabs s) as Hsub.
  { intros u Hu. unfold PagingInv.tabs. change (root_page_table (rt_view s)) with (root_page_table (pg_rt s)) in Hu. set_solver. }
  assert (utree (rt_view (set_swap w' s)) L2 L3 /\
    forall j, is_uidx j -> leaf (rt_view (set_swap w' s)) j = leaf (rt_view s) j /\
    entry (set_swap w' s) j =
      match w with Some (t, k, v) => if decide (leaf (rt_view s) j = Some (t, k)) then v else entry s j | None => entry s j end) as [Ht Hm].
  { destruct w as [[[t k] v]|].
    - destruct Hw as (i & Hi & Hl & ->). destruct (utree_store _ (w_mem w') _ L2 L3 i t v P4 Hi Hl Hsub Hls) as [Ht Hm].
      split; [exact Ht|]. intros j Hj. destruct (Hm j Hj) as [Hm1 Hm2]. split; [exact Hm1|]. etransitivity; [exact Hm2|].
      destruct (decide (j = i)) as [->|Hne]; [by rewrite decide_True|]. rewrite decide_False; [done|]. intros Hlj. apply Hne.
      rewrite (leaf_utable _ L2 L3) in Hl, Hlj by done. by eapply (leaf_inj _ _ _ _ _ _ _ _ P4); [apply is_uidx_idx3..| |].
    - apply (utree_same (rt_view s) (w_mem w') (tabs s) L2 L3 P4 Hsub Hls). }
  split; [|exact Hm]. split; try done.
  - apply (user_half_store (rt_view s) (w_mem w') K L2 L3 w); [done..| |].
    intros t k v ->. destruct Hw as (i & Hi & Hl & ->).
    by eapply leaf_L3 in Hl as [? _].
    rewrite <- (proj2 (Hm (0, 0, 0) ltac:(by repeat split))) in H0. exact H0.
  - intros t Ht'. split; [by apply P6|by apply Hpages].
Qed.

(** ** Eviction *)

Context (host : nat -> Z -> option merkle_node) (fuel : nat) (garbage : merkle_node).
Abbreviation evict_to := (evict_to uc true root host fuel garbage).


(** What moving the page of index [i] to [back] does, with the page [D] coming in. *)
Record evict_post (data : gset Z) (s s' : paging_state) (i : Z * Z * Z) (back : Z) (D : option (list Z)) : Prop := {
  ep_rt : pg_rt s' = pg_rt s;
  ep_pa : paging_pa_start s' = paging_pa_start s;
  ep_count : paging_user_page_count s' = paging_user_page_count s -w 1;
  ep_trap : rt_trap_table s' = rt_trap_table s;
  ep_end : w_freemem_end (pg_swap s') = w_freemem_end (pg_swap s);
  ep_region : region (pg_swap s') = region (pg_swap s) /\ region_size (pg_swap s') = region_size (pg_swap s);
  ep_leaf : forall j, is_uidx j -> leaf (rt_view s') j = leaf (rt_view s) j;
  ep_entry : forall j, is_uidx j -> entry s' j = if decide (j = i) then out_entry s back (entry s i) else entry s j;
  ep_frame : let f := frame_of s (entry s i) in
    read_bytes (w_mem (pg_swap s')) f page_len = default (read_bytes (w_mem (pg_swap s)) f page_len) D;
  ep_other : forall q, q ∈ data -> q <> back -> q <> frame_of s (entry s i) -> (q ∉ tabs s) ->
    read_bytes (w_mem (pg_swap s')) q page_len = read_bytes (w_mem (pg_swap s)) q page_len
}.

Lemma user_leaf avoid data s oT n pages i : store_part avoid data s oT n pages -> is_uidx i -> entry s i <> 0 ->
  exists t, leaf (rt_view s) i = Some (t, i.2) /\ t ∈ L3 /\ t ∈ tabs s /\ is_page t /\ load64 (w_mem (pg_swap s)) (pte_addr t i.2) = entry s i.
Proof.
  intros [P1 P2 P3 P4 P5 P6 P7 P8] Hi He. destruct (leaf (rt_view s) i) as [[t k]|] eqn:El.
  - destruct (leaf_L3 _ L2 L3 P4 i t k Hi El) as [Ht ->]. exists t. assert (t ∈ tabs s) as Hts by (unfold PagingInv.tabs; set_solver).
    split; [done|]. split; [done|]. split; [done|]. split; [by apply (so_data _ _ _ _ _ _ P1), P6|].
    symmetry. apply (leaf_pte (rt_view s) i t i.2 Hi El).
  - exfalso. apply He. unfold entry, pte_map, pte_of. fold (leaf (rt_view s) i). by rewrite El.
Qed.

Lemma evict_to_run avoid data s oT n pages i back swap_page D :
  store_part avoid data s oT (S (S (S n))) pages -> is_uidx i -> is_user (entry s i) = true -> entry s (0, 0, 0) = 0 ->
  let f := frame_of s (entry s i) in
  f ∈ data -> (f ∉ tabs s) -> pages !! f = None -> EYRIE_LOAD_START <= f < w_freemem_end (pg_swap s) ->
  slot (pg_swap s) back -> back ∈ data -> (back ∉ tabs s) -> back <> f -> (odepth oT <= 31)%nat ->
  asks uc host fuel (pg_swap s) oT back swap_page D ->
  exists s' avoid' T', evict_to (va_of i) back swap_page s = Ok (src_pa (entry s i), s') /\
    store_part avoid' data s' (Some T') n (<[back := read_bytes (w_mem (pg_swap s)) f page_len]> pages) /\
    (cdepth T' <= S (odepth oT))%nat /\ evict_post data s s' i back D.
Proof.
  intros Hsp Hi Hu Hz f Hf Hft Hpf Hfb Hsl Hb Hbt Hbf Hd Hask.
  assert (entry s i <> 0) as He0 by (intros E; rewrite E in Hu; done).
  destruct (user_leaf _ _ _ _ _ _ i Hsp Hi He0) as (t & El & Ht3 & Htt & Htp & Elt).
  pose proof Hsp as [P1 P2 P3 P4 P5 P6 P7 P8].
  destruct (page_swap_store root uc host fuel garbage avoid data (pg_swap s) oT n back f swap_page D pages P1 P2 Hsl Hb Hf Hbf Hpf Hfb Hd Hask)
    as (w' & avoid' & T' & Erun & Hok & Hdep & Hrep & Hrf & Hro & Hend & Hreg1 & Hreg2).
  set (page := read_bytes (w_mem (pg_swap s)) f page_len) in *. set (pages' := <[back := page]> pages) in *.
  assert (forall u, u ∈ tabs s -> is_page u) as Htabs by (intros u Hu'; by apply (so_data _ _ _ _ _ _ P1), P6).
  assert (forall u, u ∈ tabs s -> pages' !! u = None) as Hpt.
  { intros u Hu'. unfold pages'. rewrite lookup_insert_ne by (by intros <-). by apply P6. }
  destruct (store_part_step avoid data s oT (S (S (S n))) pages avoid' w' (Some T') n pages' None Hsp Hok Hrep Hpt) as [Hsp1 Hm1].
  { apply leaf_store_same. intros u Hu'. split; [by apply Htabs|]. apply Hro; [by apply P6|by intros ->|by intros ->]. }
  { done. }
  { by rewrite Hz. }
  set (s1 := set_swap w' s) in *. destruct (Hm1 i Hi) as [El1 Ee1].
  assert (load64 (w_mem w') (pte_addr t i.2) = entry s i) as Elt1.
  { rewrite <- Ee1. symmetry. apply (leaf_pte (rt_view s1) i t i.2 Hi). by rewrite El1. }
  set (v := out_entry s back (entry s i)).
  assert (is_u64 v) as Hv by apply create_invalid_range, flags_nonneg.
  assert (is_idx i.2) as Hk by apply Hi.
  destruct (swap_ok_put avoid' data w' (Some T') n pages' t i.2 v Hok Hrep) as (Hok2 & Hrep2 & Hrd2); [by apply P6|by apply Hpt|done|].
  assert (leaf (rt_view s1) (0, 0, 0) <> Some (t, i.2)) as Hne0.
  { intros E0. apply He0. rewrite <- Elt1. etransitivity; [symmetry; exact (leaf_pte (rt_view s1) (0, 0, 0) t i.2 ltac:(by repeat split) E0)|].
    transitivity (entry s (0, 0, 0)); [by apply Hm1|done]. }
  destruct (store_part_step avoid' data s1 (Some T') n pages' avoid' (set_w_mem (fun _ => store64 (w_mem w') (pte_addr t i.2) v) w')
    (Some T') n pages' (Some (t, i.2, v)) Hsp1 Hok2 Hrep2 Hpt) as [Hsp2 Hm2].
  { apply (leaf_store_store (rt_view s1)); [exact Htabs|done|done|done]. }
  { exists i. by rewrite El1. }
  { rewrite decide_False by done. rewrite (proj2 (Hm1 (0, 0, 0) ltac:(by repeat split))), Hz. done. }
  eexists (set_count (paging_user_page_count s -w 1) (put_mem (store64 (w_mem w') (pte_addr t i.2) v) s1)), avoid', T'. split; [|split; [|split]].
  - unfold Paging.evict_to, bind at 1. rewrite (with_swap_run _ _ _ _ (slot_inbounds _ _ Hsl)), set_swap_id.
    unfold bind at 1, sm_assert at 1, ret at 1. unfold bind at 1. rewrite pte_of_va_run. destruct i as [[a b] c].
    rewrite idx3_va_of by apply Hi. rewrite El. cbn [snd] in *. unfold bind at 1, sm_assert at 1.
    assert (truthy (pte_addr t c) = true) as ->.
    { unfold truthy. apply negb_true_iff, Z.eqb_neq. by apply pte_addr_aligned; [apply is_page_page_ok|]. }
    unfold ret at 1, bind at 1. rewrite load_pte_run, Elt. unfold bind at 1, sm_assert at 1.
    assert (truthy (Z.land (entry s (a, b, c)) PTE_U) = true) as -> by (unfold is_user in Hu; by apply andb_true_iff in Hu as [? _]).
    unfold ret at 1, bind at 1, get at 1. unfold bind at 1.
    change (__va (pg_rt s) (u64 (Z.shiftl (pte_ppn (entry s (a, b, c))) RISCV_PAGE_BITS))) with f.
    rewrite (with_swap_run _ _ _ _ Erun). fold s1.
    unfold bind at 1. rewrite load_pte_run. cbn [pg_swap s1 set_swap]. rewrite Elt1. unfold bind at 1. rewrite store_pte_run. done.
  - by destruct Hsp2; split.
  - done.
  - split; try done.
    + intros j Hj. exact (eq_trans (proj1 (Hm2 j Hj)) (proj1 (Hm1 j Hj))).
    + intros j Hj. etransitivity; [exact (proj2 (Hm2 j Hj))|]. rewrite (proj1 (Hm1 j Hj)), (proj2 (Hm1 j Hj)).
      destruct (decide (j = i)) as [->|Hne]; [by rewrite decide_True|]. rewrite decide_False; [done|]. intros Hlj. apply Hne.
      rewrite (leaf_utable _ L2 L3) in El, Hlj by done. by eapply (leaf_inj _ _ _ _ _ _ _ _ P4); [apply is_uidx_idx3..| |].
    + cbv zeta. fold f page. rewrite <- Hrf. apply Hrd2; [done|by intros E; apply Hft; rewrite E].
    + intros q Hq Hqb Hqf Hqt. fold f in Hqf. rewrite <- (Hro q) by done. apply Hrd2; [done|]. intros ->. by apply Hqt.
Qed.

(** ** The choice *)

Definition advance (s : paging_state) : paging_state :=
  set_swap (set_random (fun n => w_random (pg_swap s) (S n)) (pg_swap s)) s.

Lemma store_part_advance avoid data s oT n pages : store_part avoid data s oT n pages -> store_part avoid data (advance s) oT n pages.
Proof.
  intros [[? ? ? ? ? ? ?] P2 P3 P4 P5 P6 P7 P8]. split; try done. intros b P HP. destruct (P2 b P HP) as (Hb & [? ? ?] & c & [? ? ? ? ?]).
  split; [done|]. split; [done|]. by exists c.
Qed.

Lemma entry_advance s i : entry (advance s) i = entry s i.
Proof. done. Qed.
Lemma out_entry_advance s b e : out_entry (advance s) b e = out_entry s b e.
Proof. done. Qed.
Lemma frame_of_advance s e : frame_of (advance s) e = frame_of s e.
Proof. done. Qed.

Lemma evict_post_advance data s s' i back D : evict_post data (advance s) s' i back D -> evict_post data s s' i back D.
Proof.
  intros [R1 R2 R3 R4 R5 R6 R7 R8 R9 R10]. rewrite frame_of_advance, entry_advance in R9, R10.
  split; [exact R1|exact R2|exact R3|exact R4|exact R5|exact R6|exact R7| |exact R9|exact R10].
  intros j Hj. by rewrite R8, out_entry_advance, !entry_advance by done.
Qed.

Lemma pick_run avoid data s oT n pages : store_part avoid data s oT n pages -> map_part data s pages -> users (rt_view s) <> [] ->
  exists i, is_uidx i /\ is_user (entry s i) = true /\ (va_of i =? 0) = false /\ __pick_page s = Ok (va_of i, advance s).
Proof.
  intros Hsp Hmp Hne. destruct (mp_count _ _ _ _ _ _ Hmp) as [Hc Hcu].
  assert (0 < paging_user_page_count s) as Hc0 by (rewrite Hc; destruct (users (rt_view s)); [done|cbn [length]; lia]).
  set (rnd := u64 (w_random (pg_swap s) 0%nat)). set (k := rnd mod paging_user_page_count s).
  assert (0 <= k < paging_user_page_count s) as Hk by (apply Z.mod_pos_bound; lia). unfold is_u64 in Hcu.
  destruct (lookup_lt_is_Some_2 (users (rt_view s)) (Z.to_nat k)) as [i Hi]; [lia|].
  assert (i ∈ users (rt_view s)) as [Hu Hin%elem_uidx]%list_elem_of_filter by by eapply list_elem_of_lookup_2.
  exists i. split; [done|]. split; [done|]. split.
  { apply Z.eqb_neq. destruct i as [[a b] c], Hin as (Ha & Hb & Hcc); unfold is_idx in *; cbn in Ha, Hb, Hcc. cbn [va_of]. intros E.
    assert (a = 0 /\ b = 0 /\ c = 0) as (-> & -> & ->) by lia. change (pte_map (rt_view s)) with (entry s) in Hu. by rewrite (mp_zero _ _ _ _ _ _ Hmp) in Hu. }
  unfold __pick_page, bind at 1, get at 1. rewrite (proj2 (Z.ltb_lt _ _)) by done. unfold bind at 1, sm_assert at 1, ret at 1.
  unfold bind at 1. rewrite (with_swap_run sbi_random s rnd _ eq_refl). fold (advance s). unfold bind, get, ret. fold k.
  rewrite u64_id by (unfold is_u64; lia). rewrite (pick_user _ K _ i); [done|apply (sp_half _ _ _ _ _ _ _ _ _ _ _ Hsp)|lia|].
  by replace (k + 1 - 1) with k by lia.
Qed.

(** ** Page faults *)

(** The number of user pages when one goes out and another comes in. *)
Lemma users_exchange r r' i k : is_uidx i -> is_uidx k -> i <> k -> is_user (pte_map r i) = true -> is_user (pte_map r k) = false ->
  is_user (pte_map r' i) = false -> is_user (pte_map r' k) = true ->
  (forall j, j <> i -> j <> k -> is_uidx j -> pte_map r' j = pte_map r j) -> length (users r') = length (users r).
Proof.
  intros Hi Hk Hik Ei Ek Ei' Ek' Hsame. set (M := fun j => is_user (pte_map r j) = true /\ j <> i).
  assert (length (users r) = S (length (filter M user_idx))) as ->.
  { apply (filter_one_more _ _ _ i NoDup_user_idx); [by apply elem_uidx|by intros [_ ?]|done|].
    intros j _ Hj. unfold M. tauto. }
  transitivity (S (length (filter (fun j => is_user (pte_map r' j) = true /\ j <> k) user_idx))).
  { apply (filter_one_more _ _ _ k NoDup_user_idx); [by apply elem_uidx|by intros [_ ?]|done|]. intros j _ Hj. tauto. }
  do 2 f_equal. apply filter_agree. intros j Hj%elem_uidx. unfold M.
  destruct (decide (j = i)) as [->|]; [rewrite Ei'; naive_solver|]. destruct (decide (j = k)) as [->|]; [rewrite Ek; naive_solver|].
  rewrite Hsame by done. naive_solver.
Qed.

(** The pages of the indices [i] and [k] have changed places. *)
Record exchanged (data : gset Z) (s s' : paging_state) (i k : Z * Z * Z) (P : list Z) : Prop := {
  xc_rt : pg_rt s' = pg_rt s;
  xc_pa : paging_pa_start s' = paging_pa_start s;
  xc_count : paging_user_page_count s' = paging_user_page_count s;
  xc_end : w_freemem_end (pg_swap s') = w_freemem_end (pg_swap s);
  xc_entry : forall j, is_uidx j -> entry s' j =
    if decide (j = k) then in_entry (entry s i) (entry s k)
    else if decide (j = i) then out_entry s (back_of s (entry s k)) (entry s i) else entry s j;
  xc_frame : read_bytes (w_mem (pg_swap s')) (frame_of s (entry s i)) page_len = P;
  xc_other : forall q, q ∈ data -> q <> back_of s (entry s k) -> q <> frame_of s (entry s i) -> (q ∉ tabs s) ->
    read_bytes (w_mem (pg_swap s')) q page_len = read_bytes (w_mem (pg_swap s)) q page_len
}.

Section Exchanged.
Context (data : gset Z) (s s' : paging_state) (i k : Z * Z * Z) (P : list Z) (pages : gmap Z (list Z)).
Hypothesis Hmp : map_part data s pages.
Hypothesis Hi : is_uidx i.
Hypothesis Hk : is_uidx k.
Hypothesis Hu : is_user (entry s i) = true.
Hypothesis Hev : evicted (entry s k) = true.
Hypothesis Hpage : is_page (back_of s (entry s k)).
Hypothesis Hpa : paging_pa_start s mod 4096 = 0.
Hypothesis HP : pages !! back_of s (entry s k) = Some P.
Hypothesis Hx : exchanged data s s' i k P.
Let back := back_of s (entry s k).
Let f := frame_of s (entry s i).
Let pages' := <[back := read_bytes (w_mem (pg_swap s)) f page_len]> pages.

Lemma exchanged_ne : i <> k.
Proof. intros ->. rewrite evicted_not_user in Hu; done. Qed.

Lemma exchanged_of : (forall e, frame_of s' e = frame_of s e) /\ (forall e, back_of s' e = back_of s e) /\ tabs s' = tabs s.
Proof.
  destruct Hx as [E1 E2 _ _ _ _ _]. split_and!; [intros e; unfold frame_of; by rewrite E1|intros e; unfold back_of, __paging_va; by rewrite E2|].
  unfold PagingInv.tabs. by rewrite E1.
Qed.

(** The cases of an index. *)
Lemma exchanged_cases j : is_uidx j ->
  (j = k /\ entry s' j = in_entry (entry s i) (entry s k)) \/ (j = i /\ entry s' j = out_entry s back (entry s i)) \/
  (j <> i /\ j <> k /\ entry s' j = entry s j).
Proof.
  intros Hj. rewrite (xc_entry _ _ _ _ _ _ Hx j Hj). destruct (decide (j = k)); [by left|]. destruct (decide (j = i)); [by right; left|]. by right; right.
Qed.

Lemma back_U : truthy (Z.land (entry s k) PTE_U) = true.
Proof. by apply (mp_back _ _ _ _ _ _ Hmp). Qed.

(** Which entries of the new table are in use, and for what. *)
Lemma user_cases j : is_uidx j -> is_user (entry s' j) = true ->
  exists j0, is_uidx j0 /\ is_user (entry s j0) = true /\ frame_of s' (entry s' j) = frame_of s (entry s j0) /\
    src_pa (entry s' j) = src_pa (entry s j0) /\ (j = k /\ j0 = i \/ j <> i /\ j <> k /\ j0 = j).
Proof.
  intros Hj Huj. destruct exchanged_of as (Ef & _). destruct (in_entry_facts s (entry s i) (entry s k) back_U) as (_ & _ & I3 & I4 & _).
  destruct (out_entry_facts s back (entry s i) Hu Hpage Hpa) as (O1 & _).
  destruct (exchanged_cases j Hj) as [[Ej E]|[[Ej E]|(H1 & H2 & E)]]; rewrite E in Huj |- *; rewrite ?Ef.
  - exists i. split_and!; try done. by left.
  - by rewrite O1 in Huj.
  - exists j. split_and!; try done. by right.
Qed.

Lemma evicted_cases j : is_uidx j -> evicted (entry s' j) = true ->
  exists j0, is_uidx j0 /\ evicted (entry s j0) = true /\ back_of s' (entry s' j) = back_of s (entry s j0) /\
    truthy (Z.land (entry s' j) PTE_U) = true /\ (j = i /\ j0 = k \/ j <> i /\ j <> k /\ j0 = j).
Proof.
  intros Hj Hej. destruct exchanged_of as (_ & Eb & _). destruct (in_entry_facts s (entry s i) (entry s k) back_U) as (_ & I2 & _).
  destruct (out_entry_facts s back (entry s i) Hu Hpage Hpa) as (_ & O2 & O3 & O4 & _).
  destruct (exchanged_cases j Hj) as [[Ej E]|[[Ej E]|(H1 & H2 & E)]]; rewrite E in Hej |- *; rewrite ?Eb.
  - by rewrite I2 in Hej.
  - exists k. split_and!; try done. by left.
  - exists j. split_and!; try done; [by apply (mp_back _ _ _ _ _ _ Hmp)|by right].
Qed.

Lemma frame_not_back j : is_uidx j -> is_user (entry s j) = true -> frame_of s (entry s j) <> back.
Proof. intros Hj Huj E. destruct (mp_frame _ _ _ _ _ _ Hmp j Hj Huj) as (_ & _ & Hn & _). rewrite E in Hn. by unfold back in Hn; rewrite HP in Hn. Qed.

Lemma exchanged_map : map_part data s' pages'.
Proof.
  destruct exchanged_of as (Ef & Eb & Et). pose proof exchanged_ne as Hik. split.
  - intros j Hj Huj. destruct (user_cases j Hj Huj) as (j0 & Hj0 & Huj0 & -> & -> & _). rewrite Et, (xc_end _ _ _ _ _ _ Hx).
    destruct (mp_frame _ _ _ _ _ _ Hmp j0 Hj0 Huj0) as (F1 & F2 & F3 & F4 & F5). split_and!; try done; [|lia..].
    unfold pages'. rewrite lookup_insert_ne; [done|]. intros E. by eapply frame_not_back.
  - intros j l Hj Hl Huj Hul. destruct (user_cases j Hj Huj) as (j0 & Hj0 & Huj0 & -> & _ & Cj).
    destruct (user_cases l Hl Hul) as (l0 & Hl0 & Hul0 & -> & _ & Cl). intros E.
    assert (j0 = l0) by by apply (mp_frame_inj _ _ _ _ _ _ Hmp). clear - Cj Cl H. naive_solver.
  - intros j Hj Hej. destruct (evicted_cases j Hj Hej) as (j0 & Hj0 & Hej0 & -> & Hju & _). split; [|done].
    destruct (mp_back _ _ _ _ _ _ Hmp j0 Hj0 Hej0) as [Hs _]. unfold pages'. apply lookup_insert_is_Some'. by right.
  - intros j l Hj Hl Hej Hel. destruct (evicted_cases j Hj Hej) as (j0 & Hj0 & Hej0 & -> & _ & Cj).
    destruct (evicted_cases l Hl Hel) as (l0 & Hl0 & Hel0 & -> & _ & Cl). intros E.
    assert (j0 = l0) by by apply (mp_back_inj _ _ _ _ _ _ Hmp). clear - Cj Cl H. naive_solver.
  - pose proof (mp_zero _ _ _ _ _ _ Hmp) as Hz. assert (is_uidx (0, 0, 0)) as H0 by by repeat split.
    destruct (exchanged_cases (0, 0, 0) H0) as [[Ej _]|[[Ej _]|(_ & _ & ->)]]; [|..|done]; exfalso; [rewrite <- Ej, Hz in Hev|rewrite <- Ej, Hz in Hu]; done.
  - rewrite (xc_count _ _ _ _ _ _ Hx). destruct (mp_count _ _ _ _ _ _ Hmp) as [-> ?]. split; [|done]. f_equal. symmetry.
    destruct (in_entry_facts s (entry s i) (entry s k) back_U) as (I1 & _). destruct (out_entry_facts s back (entry s i) Hu Hpage Hpa) as (O1 & _).
    pose proof (xc_entry _ _ _ _ _ _ Hx i Hi) as Ei. rewrite decide_False, decide_True in Ei by done.
    pose proof (xc_entry _ _ _ _ _ _ Hx k Hk) as Ek. rewrite decide_True in Ek by done.
    apply (users_exchange _ _ i k); try done.
    + by apply evicted_not_user.
    + change (pte_map (rt_view s') i) with (entry s' i). by rewrite Ei.
    + change (pte_map (rt_view s') k) with (entry s' k). by rewrite Ek.
    + intros j H1 H2 Hj. pose proof (xc_entry _ _ _ _ _ _ Hx j Hj) as Ej. by rewrite !decide_False in Ej by done.
Qed.

(** The user sees the same pages with the same permissions. *)
Lemma exchanged_view j : is_uidx j -> page_at s' pages' j = page_at s pages j /\ perms (entry s' j) = perms (entry s j).
Proof.
  intros Hj. destruct exchanged_of as (Ef & Eb & _). pose proof exchanged_ne as Hik.
  destruct (in_entry_facts s (entry s i) (entry s k) back_U) as (I1 & I2 & I3 & _ & I5 & _).
  destruct (out_entry_facts s back (entry s i) Hu Hpage Hpa) as (O1 & O2 & O3 & _ & O5 & _).
  unfold page_at. destruct (exchanged_cases j Hj) as [[-> E]|[[-> E]|(H1 & H2 & E)]]; rewrite E, ?Ef, ?Eb.
  - split; [|done]. rewrite I1, I3, (xc_frame _ _ _ _ _ _ Hx), (evicted_not_user _ Hev), Hev. by rewrite HP.
  - split; [|done]. rewrite O1, O2, O3, Hu. unfold pages'. by rewrite lookup_insert, decide_True.
  - split; [|done]. destruct (is_user (entry s j)) eqn:Huj.
    + f_equal. destruct (mp_frame _ _ _ _ _ _ Hmp j Hj Huj) as (F1 & F2 & _). apply (xc_other _ _ _ _ _ _ Hx); [done|by apply frame_not_back| |done].
      intros Eff. by apply H1, (mp_frame_inj _ _ _ _ _ _ Hmp).
    + destruct (evicted (entry s j)) eqn:Hej; [|done]. unfold pages'. rewrite lookup_insert_ne; [done|].
      intros Ebb. apply H2. symmetry. by apply (mp_back_inj _ _ _ _ _ _ Hmp).
Qed.
End Exchanged.

Lemma idx3_user addr : 0 <= addr < 2 ^ 38 -> is_uidx (idx3 addr).
Proof.
  intros Ha. split; [|split; apply is_idx_index; lia]. cbn [fst idx3]. rewrite PT_INDEX_spec by lia.
  change (2 ^ (9 * (3 - 1) + 12)) with (2 ^ 30). change (2 ^ 9) with 512. mlia.
Qed.

Abbreviation handle_page_fault := (paging_handle_page_fault uc true root host fuel garbage).

Lemma page_fault_run avoid data s oT n pages addr :
  paging_inv uc root K L2 L3 avoid data s oT (S (S (S n))) pages -> users (rt_view s) <> [] -> 0 <= addr < 2 ^ 38 ->
  evicted (entry s (idx3 addr)) = true -> (odepth oT <= 31)%nat -> (odepth oT <= fuel)%nat -> (forall T, oT = Some T -> serves host T) ->
  exists s' avoid' T' pages', handle_page_fault addr s = Ok (tt, s') /\
    paging_inv uc root K L2 L3 avoid' data s' (Some T') n pages' /\ (cdepth T' <= S (odepth oT))%nat /\
    is_user (entry s' (idx3 addr)) = true /\
    forall j, is_uidx j -> page_at s' pages' j = page_at s pages j /\ perms (entry s' j) = perms (entry s j).
Proof.
  intros [Hsp Hmp] Hne Ha Hev Hd Hfu Hse. pose proof (idx3_user addr Ha) as Hk. set (k := idx3 addr) in *. set (back := back_of s (entry s k)).
  destruct (mp_back _ _ _ _ _ _ Hmp k Hk Hev) as [[P HP] HU].
  pose proof Hsp as [P1 P2 P3 P4 P5 P6 P7 P8].
  destruct (P2 back P HP) as (Hbd & Hbs & c & Hst). destruct (so_data _ _ _ _ _ _ P1 back Hbd) as [Hbp _].
  assert (entry s k <> 0) as Hek0 by (intros E; rewrite E in Hev; done).
  destruct (user_leaf _ _ _ _ _ _ k Hsp Hk Hek0) as (t & El & _ & Htt & Htp & Elt).
  destruct (pick_run _ _ _ _ _ _ Hsp Hmp Hne) as (i & Hi & Hu & Hv0 & Epick).
  destruct (mp_frame _ _ _ _ _ _ Hmp i Hi Hu) as (F1 & F2 & F3 & F4 & F5).
  assert (forall q, pages !! q = Some P -> q ∉ tabs s) as Hnt by (intros q Hq Hin; apply P6 in Hin as [_ Hin]; by rewrite Hq in Hin).
  destruct (evict_to_run avoid data (advance s) oT n pages i back back (Some P)) as (s1 & avoid' & T' & Eev & Hsp1 & Hdep & Hep); try done.
  { by apply store_part_advance. }
  { by apply (mp_zero _ _ _ _ _ _ Hmp). }
  { by destruct Hbs; split. }
  { by apply Hnt. }
  { intros E. change (frame_of (advance s) (entry (advance s) i)) with (frame_of s (entry s i)) in E. rewrite <- E in F3. unfold back in F3. by rewrite HP in F3. }
  { split; [done|]. split; [exists c; destruct Hst; by split|done]. }
  rewrite entry_advance, frame_of_advance in Hsp1. rewrite entry_advance in Eev. apply evict_post_advance in Hep.
  set (e := entry s k) in *. set (page := read_bytes _ _ page_len) in Hsp1. destruct Hep as [R1 R2 R3 R4 R5 R6 R7 R8 R9 R10]. assert (i <> k) as Hik by (intros ->; fold e in Hu; by rewrite (evicted_not_user e Hev) in Hu).
  assert (entry s1 k = e) as Ek1 by (rewrite R8, decide_False by done; done).
  destruct (user_leaf _ _ _ _ _ _ k Hsp1 Hk ltac:(by rewrite Ek1)) as (t1 & El1 & _ & Htt1 & Htp1 & Elt1).
  assert (t1 = t) as -> by (rewrite R7 in El1 by done; rewrite El in El1; by injection El1).
  set (v := in_entry (entry s i) e). destruct (in_entry_facts s (entry s i) e HU) as (I1 & _ & _ & _ & _ & I6). fold v in I1, I6.
  set (pages' := <[back := page]> pages) in *.
  pose proof Hsp1 as [Q1 Q2 _ _ _ Q6 _ _].
  destruct (swap_ok_put avoid' data (pg_swap s1) (Some T') n pages' t k.2 v Q1 Q2) as (Hok2 & Hrep2 & Hrd2); [by apply Q6|by apply Q6|apply Hk|].
  assert (entry s1 (0, 0, 0) = 0) as Hz1.
  { rewrite R8 by by repeat split. rewrite decide_False; [by apply (mp_zero _ _ _ _ _ _ Hmp)|]. intros E0.
    rewrite <- E0, (mp_zero _ _ _ _ _ _ Hmp) in Hu. done. }
  destruct (store_part_step avoid' data s1 (Some T') n pages' avoid' (set_w_mem (fun _ => store64 (w_mem (pg_swap s1)) (pte_addr t k.2) v) (pg_swap s1))
    (Some T') n pages' (Some (t, k.2, v)) Hsp1 Hok2 Hrep2) as [Hsp2 Hm2].
  { intros u Hu'. by apply Q6. }
  { apply (leaf_store_store (rt_view s1)); [intros u Hu'; by apply (so_data _ _ _ _ _ _ Q1), Q6|done|apply Hk|done]. }
  { by exists k. }
  { case_decide as E0; [|by rewrite Hz1]. exfalso. apply Hek0. fold e. rewrite <- Ek1, <- Elt1.
    rewrite <- Hz1. symmetry. exact (leaf_pte (rt_view s1) (0, 0, 0) t k.2 ltac:(by repeat split) E0). }
  set (s2 := set_swap _ s1) in Hsp2, Hm2. set (s3 := set_count (paging_user_page_count s1 +w 1) s2).
  assert (exchanged data s s3 i k P) as Hx.
  { split; try done.
    - unfold s3. cbn [set_count paging_user_page_count]. rewrite R3.
      destruct (mp_count _ _ _ _ _ _ Hmp) as [_ Hcu]. unfold is_u64, u64 in *. mlia.
    - intros j Hj. etransitivity; [exact (proj2 (Hm2 j Hj))|]. rewrite R8 by done. destruct (decide (j = k)) as [->|Hjk]; [by rewrite decide_True|].
      rewrite decide_False; [reflexivity|]. intros Hlj. apply Hjk. pose proof (sp_tree _ _ _ _ _ _ _ _ _ _ _ Hsp1) as Htree.
      rewrite (leaf_utable _ L2 L3) in El1, Hlj by done. by eapply (leaf_inj _ _ _ _ _ _ _ _ Htree); [apply is_uidx_idx3..| |].
    - etransitivity; [apply Hrd2; [done|by intros E; apply F2; rewrite E]|exact R9].
    - intros q Hq Hqb Hqf Hqt. etransitivity; [apply Hrd2; [done|by intros ->]|]. by apply R10. }
  exists s3, avoid', T', pages'. split; [|split; [|split; [done|split]]].
  - unfold paging_handle_page_fault. rewrite (proj2 (Z.leb_gt _ addr)) by (unfold EYRIE_LOAD_START; lia).
    unfold bind at 1. rewrite pte_of_va_run. fold k. rewrite El.
    assert ((pte_addr t k.2 =? 0) = false) as -> by (apply Z.eqb_neq; apply pte_addr_aligned; [by apply is_page_page_ok|apply Hk]).
    unfold bind at 1. rewrite load_pte_run, Elt. fold e.
    assert (truthy (Z.land e PTE_V) = false) as ->.
    { change PTE_V with (Z.shiftl 1 0). rewrite truthy_bit by lia. unfold evicted, valid_pte in Hev. by apply andb_true_iff in Hev as [_ ?%negb_true_iff]. }
    unfold bind at 1, get at 1. change (__paging_va s (u64 (Z.shiftl (pte_ppn e) RISCV_PAGE_BITS))) with back.
    assert ((back =? 0) = false) as Hb0 by (apply Z.eqb_neq; destruct Hbp; lia). rewrite Hb0.
    unfold bind at 1. rewrite (with_swap_run _ _ _ _ (slot_inbounds _ _ Hbs)), set_swap_id. unfold bind at 1, sm_assert at 1, ret at 1.
    assert (paging_evict_and_free_one uc true root host fuel garbage back s = Ok (src_pa (entry s i), s1)) as Erun.
    { unfold paging_evict_and_free_one, bind at 1. rewrite Epick, Hv0. unfold truthy. rewrite Hb0. cbn [negb]. unfold bind, ret at 1. exact Eev. }
    unfold bind at 1. rewrite Erun, (proj2 (Z.eqb_neq _ _) F5). unfold bind at 1. rewrite load_pte_run, Elt1, Ek1, HU.
    unfold bind at 1, sm_assert at 1, ret at 1. unfold bind at 1. rewrite store_pte_run. reflexivity.
  - split; [by destruct Hsp2; split|]. apply (exchanged_map data s s3 i k P pages); try assumption. apply P8.
  - change (idx3 addr) with k. rewrite (xc_entry _ _ _ _ _ _ Hx k Hk), decide_True by reflexivity. exact I1.
  - intros j Hj. apply (exchanged_view data s s3 i k P pages); try assumption. apply P8.
Qed.

(** ** Eviction to a new backing page *)

Lemma alloc_bounds b taken n p b' : backing_left b taken (S n) -> paging_alloc_backing_page b = Ok (p, b') ->
  paging_backing_storage_addr b mod 4096 = 0 /\ 0 <= paging_backing_storage_addr b /\
  paging_backing_storage_addr b + paging_backing_storage_size b < 2 ^ 64 /\
  paging_backing_storage_addr b <= p < paging_backing_storage_addr b + paging_backing_storage_size b.
Proof.
  intros (base & pages & inc & k & Hok & Hat & Hk & Hn & _) E. pose proof (alloc_step base pages inc Hok k b ltac:(lia) Hat) as Hs.
  rewrite decide_False in Hs by lia. destruct Hs as (b1 & E1 & _). rewrite E1 in E. injection E as <- _.
  destruct (backing_page_bounds base pages inc Hok k) as (B1 & B2 & B3). destruct Hok as [[Hb Hbm] ? He _ _], Hat as [-> -> _ _].
  change RISCV_PAGE_SIZE with 4096 in *. lia.
Qed.

(** A new backing page joins the data. *)
Lemma take_page avoid data w oT n pages : swap_ok root avoid data w oT (S n) -> store_rep uc data w oT pages ->
  region_size w <= 24 * 512 * 4096 ->
  exists p w', with_backing paging_alloc_backing_page w = Ok (p, w') /\ (p ∉ avoid) /\
    swap_ok root ({[p]} ∪ avoid) ({[p]} ∪ data) w' oT n /\ store_rep uc ({[p]} ∪ data) w' oT pages /\ slot w' p /\
    w_mem w' = w_mem w /\ w_freemem_end w' = w_freemem_end w /\ w_random w' = w_random w.
Proof.
  intros [Hm Hby Hpl Hct Hij Hda Hke] Hrep Hlim. destruct (merk_inv_take root avoid (w_merk w) oT n Hm) as (p & b' & E & Hp & Hpa & Hreg & Hm').
  exists p, (set_w_merk (set_src b' (w_merk w)) w). split; [unfold with_backing, zoom; by rewrite E|]. split; [done|].
  assert (region (set_w_merk (set_src b' (w_merk w)) w) = region w /\ region_size (set_w_merk (set_src b' (w_merk w)) w) = region_size w) as HR by exact Hreg.
  split_and!; try done.
  - split; try done.
    + intros q Hq Hq0. destruct (Hct q Hq Hq0) as (? & ? & ?). split_and!; [done|set_solver|]. apply not_elem_of_union. split; [|done].
      intros ->%elem_of_singleton. done.
    + intros q [->%elem_of_singleton|Hq]%elem_of_union; [split; [done|set_solver]|]. destruct (Hda q Hq). split; [done|set_solver].
  - intros b P HP. destruct (Hrep b P HP) as (Hb & Hsl & c & Hst). split; [set_solver|]. split; [by apply (slot_same w)|]. exists c.
    destruct Hst as [S1 S2 (x & Sx & Sl) S4 S5]. split; try done. exists x. split; [|done]. unfold ctr_addr, page_idx in *. by rewrite (proj1 HR).
  - destruct Hm as [[_ _ (taken & T1 & _) _] _ _ _]. destruct (alloc_bounds _ _ _ _ _ T1 E) as (A1 & A2 & A3 & A4).
    apply (slot_same w); [done|]. split; [done|exact A4|]. unfold region, region_size in *. lia.
Qed.

(** The page of the index [i] has gone to the new page [p]. *)
Record moved (data : gset Z) (s s' : paging_state) (i : Z * Z * Z) (p : Z) : Prop := {
  mv_rt : pg_rt s' = pg_rt s;
  mv_pa : paging_pa_start s' = paging_pa_start s;
  mv_count : paging_user_page_count s' = paging_user_page_count s -w 1;
  mv_end : w_freemem_end (pg_swap s') = w_freemem_end (pg_swap s);
  mv_entry : forall j, is_uidx j -> entry s' j = if decide (j = i) then out_entry s p (entry s i) else entry s j;
  mv_read : forall q, q ∈ data -> (q ∉ tabs s) -> read_bytes (w_mem (pg_swap s')) q page_len = read_bytes (w_mem (pg_swap s)) q page_len
}.

Section Moved.
Context (data : gset Z) (s s' : paging_state) (i : Z * Z * Z) (p : Z) (pages : gmap Z (list Z)).
Hypothesis Hmp : map_part data s pages.
Hypothesis Hi : is_uidx i.
Hypothesis Hu : is_user (entry s i) = true.
Hypothesis Hpage : is_page p.
Hypothesis Hpa : paging_pa_start s mod 4096 = 0.
Hypothesis Hp : p ∉ data.
Hypothesis Hdata : forall q, is_Some (pages !! q) -> q ∈ data.
Hypothesis Hmv : moved data s s' i p.
Let pages' := <[p := read_bytes (w_mem (pg_swap s)) (frame_of s (entry s i)) page_len]> pages.

Lemma moved_of : (forall e, frame_of s' e = frame_of s e) /\ (forall e, back_of s' e = back_of s e) /\ tabs s' = tabs s.
Proof.
  destruct Hmv as [E1 E2 _ _ _ _]. split_and!; [intros e; unfold frame_of; by rewrite E1|intros e; unfold back_of, __paging_va; by rewrite E2|].
  unfold PagingInv.tabs. by rewrite E1.
Qed.

Lemma moved_cases j : is_uidx j ->
  (j = i /\ entry s' j = out_entry s p (entry s i)) \/ (j <> i /\ entry s' j = entry s j).
Proof. intros Hj. rewrite (mv_entry _ _ _ _ _ Hmv j Hj). destruct (decide (j = i)); [by left|by right]. Qed.

Lemma moved_user j : is_uidx j -> is_user (entry s' j) = true -> j <> i /\ entry s' j = entry s j.
Proof.
  intros Hj Huj. destruct (moved_cases j Hj) as [[_ E]|?]; [|done]. exfalso. rewrite E in Huj.
  by rewrite (proj1 (out_entry_facts s p (entry s i) Hu Hpage Hpa)) in Huj.
Qed.

Lemma moved_pages q : q ∈ data -> pages' !! q = pages !! q.
Proof. intros Hq. apply lookup_insert_ne. by intros ->. Qed.

Lemma moved_back j : is_uidx j -> evicted (entry s' j) = true ->
  truthy (Z.land (entry s' j) PTE_U) = true /\
  (j = i /\ back_of s' (entry s' j) = p \/
   j <> i /\ evicted (entry s j) = true /\ back_of s' (entry s' j) = back_of s (entry s j) /\ back_of s (entry s j) ∈ data).
Proof.
  destruct moved_of as (_ & Eb & _). destruct (out_entry_facts s p (entry s i) Hu Hpage Hpa) as (_ & _ & O3 & O4 & _).
  intros Hj Hej. destruct (moved_cases j Hj) as [[-> E]|[Hji E]]; rewrite E in *; rewrite Eb.
  - split; [done|]. by left.
  - destruct (mp_back _ _ _ _ _ _ Hmp j Hj Hej) as [Hs HU]. split; [done|]. right. split_and!; try done. by apply Hdata.
Qed.

Lemma moved_map : map_part ({[p]} ∪ data) s' pages'.
Proof.
  destruct moved_of as (Ef & Eb & Et). split.
  - intros j Hj Huj. destruct (moved_user j Hj Huj) as [Hji E]. rewrite E in *. rewrite Ef, Et, (mv_end _ _ _ _ _ Hmv).
    destruct (mp_frame _ _ _ _ _ _ Hmp j Hj Huj) as (F1 & F2 & F3 & F4 & F5). cbv zeta. rewrite moved_pages by done.
    split; [by apply elem_of_union_r|done].
  - intros j l Hj Hl Huj Hul. rewrite !Ef. destruct (moved_user j Hj Huj) as [_ E], (moved_user l Hl Hul) as [_ E']. rewrite E, E' in *.
    by apply (mp_frame_inj _ _ _ _ _ _ Hmp).
  - intros j Hj Hej. destruct (moved_back j Hj Hej) as (HU & [[_ E]|(_ & Hej' & E & Hd)]); (split; [|done]); rewrite E.
    + unfold pages'. rewrite lookup_insert, decide_True by done. done.
    + rewrite moved_pages by done. by apply (mp_back _ _ _ _ _ _ Hmp).
  - intros j l Hj Hl Hej Hel. destruct (moved_back j Hj Hej) as (_ & [[-> E]|(_ & Hej' & E & Hd)]), (moved_back l Hl Hel) as (_ & [[-> E']|(_ & Hel' & E' & Hd')]);
      rewrite ?E, ?E'; intros Ebb; [done|by rewrite <- Ebb in Hd'|by rewrite Ebb in Hd|by apply (mp_back_inj _ _ _ _ _ _ Hmp)].
  - destruct (moved_cases (0, 0, 0) ltac:(by repeat split)) as [[E _]|[_ ->]]; [|apply Hmp].
    exfalso. rewrite <- E, (mp_zero _ _ _ _ _ _ Hmp) in Hu. done.
  - rewrite (mv_count _ _ _ _ _ Hmv). destruct (mp_count _ _ _ _ _ _ Hmp) as [Hc Hcu].
    assert (length (users (rt_view s)) = S (length (users (rt_view s')))) as El.
    { apply (filter_one_more _ _ _ i NoDup_user_idx); [by apply elem_uidx| |done|].
      - destruct (moved_cases i Hi) as [[_ E]|[? _]]; [|done]. change (pte_map (rt_view s') i) with (entry s' i). rewrite E.
        by rewrite (proj1 (out_entry_facts s p (entry s i) Hu Hpage Hpa)).
      - intros j Hj%elem_uidx Hji. destruct (moved_cases j Hj) as [[? _]|[_ E]]; [done|]. change (pte_map (rt_view s')) with (entry s'). by rewrite E. }
    unfold is_u64 in *. rewrite El in Hc. rewrite u64_id by (unfold is_u64; lia). split; [rewrite Hc; lia|unfold is_u64; lia].
Qed.

Lemma moved_view j : is_uidx j -> page_at s' pages' j = page_at s pages j /\ perms (entry s' j) = perms (entry s j).
Proof.
  intros Hj. destruct moved_of as (Ef & Eb & _). destruct (out_entry_facts s p (entry s i) Hu Hpage Hpa) as (O1 & O2 & O3 & _ & O5 & _).
  unfold page_at. destruct (moved_cases j Hj) as [[-> E]|[Hji E]]; rewrite E, ?Ef, ?Eb; (split; [|done]).
  - rewrite O1, O2, O3, Hu. unfold pages'. by rewrite lookup_insert, decide_True.
  - destruct (is_user (entry s j)) eqn:Huj.
    + f_equal. destruct (mp_frame _ _ _ _ _ _ Hmp j Hj Huj) as (F1 & F2 & _). by apply (mv_read _ _ _ _ _ Hmv).
    + destruct (evicted (entry s j)) eqn:Hej; [|done]. apply moved_pages, Hdata. by apply (mp_back _ _ _ _ _ _ Hmp).
Qed.
End Moved.

Lemma evict_run avoid data s oT n pages :
  paging_inv uc root K L2 L3 avoid data s oT (S (S (S (S n)))) pages -> users (rt_view s) <> [] -> (odepth oT <= 31)%nat ->
  region_size (pg_swap s) <= 24 * 512 * 4096 ->
  exists pa s' avoid' data' T' pages', paging_evict_and_free_one uc true root host fuel garbage 0 s = Ok (pa, s') /\ pa <> 0 /\
    paging_inv uc root K L2 L3 avoid' data' s' (Some T') n pages' /\ (cdepth T' <= S (odepth oT))%nat /\
    (let f := __va (pg_rt s') pa in f ∈ data' /\ (f ∉ tabs s') /\ pages' !! f = None /\
      forall j, is_uidx j -> is_user (entry s' j) = true -> frame_of s' (entry s' j) <> f) /\
    (exists i, is_uidx i /\ is_user (entry s i) = true /\ evicted (entry s' i) = true /\
      forall j, is_uidx j -> j <> i -> entry s' j = entry s j) /\
    (forall j, is_uidx j -> page_at s' pages' j = page_at s pages j /\ perms (entry s' j) = perms (entry s j)).
Proof.
  intros [Hsp Hmp] Hne Hd Hlim. destruct (pick_run _ _ _ _ _ _ Hsp Hmp Hne) as (i & Hi & Hu & Hv0 & Epick).
  destruct (mp_frame _ _ _ _ _ _ Hmp i Hi Hu) as (F1 & F2 & F3 & F4 & F5).
  pose proof (store_part_advance _ _ _ _ _ _ Hsp) as [P1 P2 P3 P4 P5 P6 P7 P8].
  destruct (take_page avoid data _ oT (S (S (S n))) pages P1 P2 Hlim) as (p & w & Ea & Hpa & Hokw & Hrepw & Hslw & Emw & Eew & _).
  set (s0 := set_swap w (advance s)).
  assert (rt_view s0 = rt_view s) as Ert by (unfold rt_view; cbn [pg_swap pg_rt s0 set_swap]; by rewrite Emw).
  assert (forall j, entry s0 j = entry s j) as Een by (intros j; unfold entry; by rewrite Ert).
  assert (store_part ({[p]} ∪ avoid) ({[p]} ∪ data) s0 oT (S (S (S n))) pages) as Hsp0.
  { split; rewrite ?Ert; try done. intros t Ht. destruct (P6 t Ht). split; [by apply elem_of_union_r|done]. }
  assert (forall q, q ∈ data -> p <> q) as Hpd by (intros q Hq ->; by apply Hpa, (so_data _ _ _ _ _ _ P1)).
  assert (pages !! p = None) as Hpp by (destruct (pages !! p) as [P|] eqn:EP; [|done]; destruct (P2 p P EP) as (Hin & _); by apply Hpd in Hin).
  destruct (evict_to_run _ _ s0 oT n pages i p 0 None Hsp0) as (s1 & avoid' & T' & Eev & Hsp1 & Hdep & Hep);
    rewrite ?Een; change (frame_of s0) with (frame_of s); change (tabs s0) with (tabs s); try done.
  { by apply (mp_zero _ _ _ _ _ _ Hmp). }
  { by apply elem_of_union_r. }
  { change (pg_swap s0) with w. rewrite Eew. exact F4. }
  { apply elem_of_union_l, elem_of_singleton. done. }
  { intros Ht. destruct (P6 p Ht) as [Hin _]. by apply (Hpd p). }
  { by apply Hpd. }
  rewrite Een in Eev, Hsp1. change (frame_of s0) with (frame_of s) in Hsp1. change (w_mem (pg_swap s0)) with (w_mem w) in Hsp1. rewrite Emw in Hsp1.
  assert (moved data s s1 i p) as Hmv.
  { destruct Hep as [R1 R2 R3 R4 R5 R6 R7 R8 R9 R10]. rewrite Een in R9, R10. change (frame_of s0) with (frame_of s) in R9, R10.
    change (w_mem (pg_swap s0)) with (w_mem w) in R9, R10. rewrite Emw in R9, R10.
    split; [exact R1|exact R2|exact R3|etransitivity; [exact R5|exact Eew]| |].
    - intros j Hj. rewrite (R8 j Hj), !Een. reflexivity.
    - intros q Hq Hqt. destruct (decide (q = frame_of s (entry s i))) as [->|Hqf]; [exact R9|].
      apply R10; [by apply elem_of_union_r|by intros ->; apply (Hpd p)|done|done]. }
  assert (forall q, is_Some (pages !! q) -> q ∈ data) as Hdata by (intros q [P HP]; by apply P2 in HP as [? _]).
  assert (is_page p) as Hpage by (apply (so_data _ _ _ _ _ _ Hokw), elem_of_union_l; by apply elem_of_singleton).
  assert (p ∉ data) as Hpnd by (intros Hin; by apply (Hpd p)).
  eexists (src_pa (entry s i)), s1, avoid', _, T', _. split; [|split; [exact F5|split; [split; [exact Hsp1|]|split; [exact Hdep|split; [|split]]]]].
  - unfold paging_evict_and_free_one, bind at 1. rewrite Epick, Hv0. change (truthy 0) with false. cbv iota. unfold bind.
    rewrite (with_swap_run _ _ _ _ Ea). exact Eev.
  - apply (moved_map data s s1 i p pages); try assumption. apply P8.
  - destruct (moved_of data s s1 i p Hmv) as (Ef & _ & Et). rewrite Et. rewrite (mv_rt _ _ _ _ _ Hmv).
    change (__va (pg_rt s) (src_pa (entry s i))) with (frame_of s (entry s i)). cbv zeta. split; [by apply elem_of_union_r|].
    split; [exact F2|]. split; [rewrite lookup_insert_ne; [exact F3|by apply Hpd]|].
    intros j Hj Huj E. destruct (moved_user data s s1 i p Hu Hpage (proj2 P8) Hmv j Hj Huj) as [Hji Ej]. rewrite Ej in Huj.
    rewrite Ej, Ef in E. by apply Hji, (mp_frame_inj _ _ _ _ _ _ Hmp).
  - exists i. split; [done|]. split; [done|]. split.
    + destruct (moved_cases data s s1 i p Hmv i Hi) as [[_ ->]|[? _]]; [|done]. apply (out_entry_facts s p (entry s i) Hu Hpage (proj2 P8)).
    + intros j Hj Hji. by destruct (moved_cases data s s1 i p Hmv j Hj) as [[? _]|[_ ?]].
  - intros j Hj. apply (moved_view data s s1 i p pages); try assumption. apply P8.
Qed.
End Steps.
