(* ===== verification/PagingRun.v ===== *)
(** * The paging theorems and a run

    Page faults and evictions leave what the user sees alone; an enclave with two
    user pages evicts one of them and faults on it. *)

From S2P Require Import Prelude Mem Vm Freemem PageTable Backing Sha256 Merkle MerkleAlloc MerkleInsert MerkleLimits PageSwap PageSwapInv SwapStore Paging PagingPick PagingInv.
From Stdlib Require Import ZArith Lia.
From stdpp Require Import base tactics gmap sets list list_numbers numbers.
Local Open Scope Z_scope.
Local Open Scope keystone_scope.

#[local] Opaque page_len.



(** ** Two user pages *)

Definition dm_page (k : Z) : Z := EYRIE_LOAD_START + 4096 * k.
Definition dm_pa (k : Z) : Z := 0x80000000 + 4096 * k.
Definition dm_flags : Z := Z.lor (Z.lor PTE_U PTE_R) PTE_W.
Definition dm_user (k : Z) : Z := pte_create (ppn (dm_pa k)) dm_flags.

Definition dm_rt0 : rt_state := mkRt (fun _ => 0) (mkPgList 0 0 0) (dm_page 0) 0x10000 0x80000000 0 (dm_page 1) 0.
Definition dm_set (t a v : Z) (r : rt_state) : rt_state := set_rmem (store64 (rmem r) (pte_addr t a) v) r.
Definition dm_rt : rt_state :=
  dm_set (dm_page 3) 2 (dm_user 6) (dm_set (dm_page 3) 1 (dm_user 5)
    (dm_set (dm_page 2) 0 (ptd_create (ppn (dm_pa 3))) (dm_set (dm_page 1) 0 (ptd_create (ppn (dm_pa 2))) dm_rt0))).
Definition dm_back : backing := mkBacking EYRIE_PAGING_START 0x10000 0 0x5000.
Definition dm_state : paging_state :=
  mkPaging (mkSwapState (rmem dm_rt) (merk_fresh demo_root dm_back) (replicate 24 0) false false [] (dm_page 16) (fun n => Z.of_nat n))
    dm_rt0 0x90000000 2 (fun _ => 0).
Definition dm_data : gset Z := {[ dm_page 1; dm_page 2; dm_page 3; dm_page 5; dm_page 6 ]}.

Lemma dm_is_page k : 0 < k < 100 -> is_page (dm_page k).
Proof. intros Hk. unfold is_page, dm_page, EYRIE_LOAD_START. split_and!; [lia|lia|mlia]. Qed.

Lemma dm_page_inj k l : dm_page k = dm_page l -> k = l.
Proof. unfold dm_page. lia. Qed.

Lemma dm_set_table t a v r k b : 0 < t < 100 -> 0 < k < 100 -> is_idx a -> is_idx b -> is_u64 v ->
  table_of (dm_set (dm_page t) a v r) (dm_page k) b = if decide (k = t /\ b = a) then v else table_of r (dm_page k) b.
Proof.
  intros Ht Hk Ha Hb Hv. unfold dm_set. rewrite table_of_store by (try done; by apply is_page_page_ok, dm_is_page).
  do 2 case_decide; try done; exfalso; [destruct H as [?%dm_page_inj ?]|destruct H0 as [-> ?]]; naive_solver.
Qed.

Definition dm_entry (k b : Z) : Z :=
  if decide (k = 3 /\ b = 2) then dm_user 6 else if decide (k = 3 /\ b = 1) then dm_user 5
  else if decide (k = 2 /\ b = 0) then ptd_create (ppn (dm_pa 3)) else if decide (k = 1 /\ b = 0) then ptd_create (ppn (dm_pa 2)) else 0.

Lemma dm_table k b : 0 < k < 100 -> is_idx b -> table_of dm_rt (dm_page k) b = dm_entry k b.
Proof.
  intros Hk Hb. unfold dm_rt, dm_entry. rewrite !dm_set_table by (done || (unfold is_idx; lia) || by vm_compute). done.
Qed.

Abbreviation dm_L2 := [dm_page 2].
Abbreviation dm_L3 := [dm_page 3].

Lemma dm_next2 : next_table dm_rt (ptd_create (ppn (dm_pa 2))) = dm_page 2.
Proof. by vm_compute. Qed.
Lemma dm_next3 : next_table dm_rt (ptd_create (ppn (dm_pa 3))) = dm_page 3.
Proof. by vm_compute. Qed.
Lemma dm_ptd k : valid_pte (ptd_create k) = true.
Proof. apply ptd_valid. Qed.

Lemma dm_root b : is_idx b -> table_of dm_rt (root_page_table dm_rt) b = if decide (b = 0) then ptd_create (ppn (dm_pa 2)) else 0.
Proof.
  intros Hb. change (root_page_table dm_rt) with (dm_page 1). rewrite dm_table by (done || lia). unfold dm_entry.
  repeat case_decide; naive_solver.
Qed.
Lemma dm_mid b : is_idx b -> table_of dm_rt (dm_page 2) b = if decide (b = 0) then ptd_create (ppn (dm_pa 3)) else 0.
Proof. intros Hb. rewrite dm_table by (done || lia). unfold dm_entry. repeat case_decide; naive_solver. Qed.
Lemma dm_leaf b : is_idx b -> table_of dm_rt (dm_page 3) b = if decide (b = 2) then dm_user 6 else if decide (b = 1) then dm_user 5 else 0.
Proof. intros Hb. rewrite dm_table by (done || lia). unfold dm_entry. repeat case_decide; naive_solver. Qed.

(** The map: two pages. *)
Lemma dm_map i : is_uidx i -> pte_map dm_rt i =
  if decide (i = (0, 0, 2)) then dm_user 6 else if decide (i = (0, 0, 1)) then dm_user 5 else 0.
Proof.
  destruct i as [[a b] c]. intros (Ha & Hb & Hc); cbn in Ha, Hb, Hc. unfold pte_map, pte_of, leaf_of.
  rewrite dm_root by (unfold is_idx; lia). destruct (decide (a = 0)) as [->|].
  - rewrite dm_ptd, dm_next2, dm_mid by done. destruct (decide (b = 0)) as [->|].
    + rewrite dm_ptd, dm_next3, dm_leaf by done. repeat case_decide; naive_solver.
    + change (valid_pte 0) with false. cbv iota. repeat case_decide; naive_solver.
  - change (valid_pte 0) with false. cbv iota. repeat case_decide; naive_solver.
Qed.

Lemma dm_half : user_half dm_rt [].
Proof.
  split.
  - intros a Ha. rewrite dm_root by (unfold is_idx; lia). case_decide; [right|by left]. by vm_compute.
  - intros a b Ha Hb. rewrite dm_root by (unfold is_idx; lia). case_decide; [|done]. intros _. cbv zeta. rewrite dm_next2, dm_mid by done.
    case_decide; [right|by left]. by vm_compute.
  - intros a Ha. left. rewrite dm_root by (unfold is_idx; lia). by rewrite decide_False by lia.
  - by rewrite dm_map by by repeat split.
Qed.

Lemma dm_tree : utree dm_rt dm_L2 dm_L3.
Proof.
  assert (forall b, is_idx b -> utable dm_rt (root_page_table dm_rt) b = if decide (b = 0) then ptd_create (ppn (dm_pa 2)) else 0) as HR.
  { intros b Hb. unfold utable. rewrite dm_root by done. do 2 case_decide; try done. lia. }
  assert (forall b, is_idx b -> utable dm_rt (dm_page 2) b = if decide (b = 0) then ptd_create (ppn (dm_pa 3)) else 0) as HM.
  { intros b Hb. rewrite utable_other by done. by apply dm_mid. }
  split.
  - apply (bool_decide_unpack _). by vm_compute.
  - intros a Ha. rewrite HR by done. case_decide; [|done]. intros _. rewrite dm_next2. by apply list_elem_of_singleton.
  - intros t a ->%list_elem_of_singleton Ha. rewrite HM by done. case_decide; [|done]. intros _. rewrite dm_next3. by apply list_elem_of_singleton.
  - intros a b Ha Hb. rewrite !HR by done. repeat case_decide; done || congruence.
  - intros t a u b ->%list_elem_of_singleton ->%list_elem_of_singleton Ha Hb. rewrite !HM by done. repeat case_decide; done || (intros; split; congruence).
Qed.

Lemma dm_users : length (users dm_rt) = 2%nat.
Proof.
  rewrite (Permutation_length (l' := [(0, 0, 1); (0, 0, 2)])); [done|]. apply NoDup_Permutation.
  - apply list.NoDup_filter, NoDup_user_idx.
  - apply (bool_decide_unpack _). by vm_compute.
  - intros i. unfold users. rewrite list_elem_of_filter, elem_uidx. split.
    + intros [Hu Hi]. rewrite dm_map in Hu by done. set_unfold. repeat case_decide; naive_solver.
    + intros Hi. assert (is_uidx i) as Hu by (set_unfold; destruct Hi as [->|[->|[]]]; by repeat split).
      split; [|done]. rewrite dm_map by done. set_unfold. destruct Hi as [->|[->|[]]]; by vm_compute.
Qed.

Lemma dm_walk : walk_ok EYRIE_PAGING_START 16 5 /\ walk_at EYRIE_PAGING_START 16 5 0 dm_back.
Proof. split; by split. Qed.

Lemma dm_swap_ok : swap_ok demo_root ({[page_of demo_root]} ∪ dm_data) dm_data (pg_swap dm_state) None 15.
Proof.
  split.
  - split; [|set_solver| |done].
    + split; cbn.
      * split; [intros p h Hp; by rewrite lookup_empty in Hp|set_solver].
      * exists []. split; [apply base.NoDup_nil_2|done].
      * exists ({[page_of demo_root]} ∪ dm_data). split_and!; [|by rewrite dom_empty_L|done].
        exists EYRIE_PAGING_START, 16, 5, 0. split_and!; [apply dm_walk|apply dm_walk|lia|lia|].
        intros p Hp _ Hr. exfalso. assert (p < EYRIE_PAGING_START) as Hlt; [|lia].
        unfold dm_data in Hp. set_unfold in Hp.
        destruct Hp as [->|Hp]; [by vm_compute|]. repeat destruct Hp as [Hp|Hp]; subst; by vm_compute.
      * rewrite dom_empty_L. set_solver.
    + exists (replicate 32 0). unfold dm_state, merk_fresh. cbn [pg_swap w_merk m_nodes]. by rewrite lookup_singleton, decide_True.
  - change (w_mem (pg_swap dm_state)) with (rmem dm_rt). do 4 apply store64_mem_bytes. intros a. by vm_compute.
  - done.
  - intros p [-> _]%elem_of_replicate Hp. done.
  - intros i j p Hi _ Hp. exfalso. apply Hp. apply aget_elem in Hi. by apply elem_of_replicate in Hi as [-> _].
  - intros p Hp. split; [|by apply elem_of_union_r]. unfold dm_data in Hp. set_unfold in Hp. repeat destruct Hp as [Hp|Hp]; subst; apply dm_is_page; lia.
  - done.
Qed.

Lemma dm_view : rt_view dm_state = dm_rt.
Proof. done. Qed.

(** The pages of user entries. *)
Lemma dm_user_cases i : is_uidx i -> is_user (entry dm_state i) = true ->
  i = (0, 0, 2) /\ entry dm_state i = dm_user 6 \/ i = (0, 0, 1) /\ entry dm_state i = dm_user 5.
Proof.
  intros Hi. unfold entry. rewrite dm_view, dm_map by done. destruct (decide (i = (0, 0, 2))); [by left|].
  destruct (decide (i = (0, 0, 1))); [by right|done].
Qed.

Lemma dm_not_evicted i : is_uidx i -> evicted (entry dm_state i) = false.
Proof. intros Hi. unfold entry. rewrite dm_view, dm_map by done. repeat case_decide; by vm_compute. Qed.

Lemma dm_frames : frame_of dm_state (dm_user 6) = dm_page 6 /\ frame_of dm_state (dm_user 5) = dm_page 5.
Proof. split; by vm_compute. Qed.

Lemma dm_inv : paging_inv true demo_root [] dm_L2 dm_L3 ({[page_of demo_root]} ∪ dm_data) dm_data dm_state None 15 ∅.
Proof.
  split; split.
  - apply dm_swap_ok.
  - intros b P HP. by rewrite lookup_empty in HP.
  - apply dm_half.
  - apply dm_tree.
  - intros t _. apply not_elem_of_nil.
  - intros t Ht. split; [|done]. unfold tabs in Ht. set_unfold in Ht. unfold dm_data. set_unfold.
    change (root_page_table (pg_rt dm_state)) with (dm_page 1) in Ht. naive_solver.
  - by vm_compute.
  - by vm_compute.
  - intros i Hi Hu. destruct dm_frames as [E6 E5].
    destruct (dm_user_cases i Hi Hu) as [[_ ->]|[_ ->]]; rewrite ?E6, ?E5; cbv zeta;
      (split; [unfold dm_data; set_solver|split; [|split; [done|split; by vm_compute]]]);
      apply (bool_decide_unpack _); by vm_compute.
  - intros i j Hi Hj Hui Huj. destruct dm_frames as [E6 E5].
    destruct (dm_user_cases i Hi Hui) as [[-> ->]|[-> ->]], (dm_user_cases j Hj Huj) as [[-> ->]|[-> ->]]; rewrite ?E6, ?E5; try done;
      intros E%dm_page_inj; done.
  - intros i Hi He. by rewrite dm_not_evicted in He.
  - intros i j Hi Hj He. by rewrite dm_not_evicted in He.
  - unfold entry. rewrite dm_view, dm_map by by repeat split. done.
  - rewrite dm_view, dm_users. by vm_compute.
Qed.

Lemma dm_some_user : users (rt_view dm_state) <> [].
Proof. rewrite dm_view. intros E. pose proof dm_users as Hl. by rewrite E in Hl. Qed.


