(* ===== verification/Elf.v ===== *)
(** * The ELF reader of the loader ([runtime/loader/elf.c], [elf32.c], [elf64.c])

    The file is a list of bytes; a read outside it is undefined behaviour, so that a
    function that returns on every file has read nothing else.  Pointers into the file
    are offsets, a null pointer is [None]. *)

From S2P Require Import Prelude Mem.
From Stdlib Require Import ZArith Lia.
From stdpp Require Import base tactics sets list list_numbers numbers.
Local Open Scope Z_scope.
Local Open Scope keystone_scope.

(** ** elf.h of the C library *)

(** Offset and width of a member of a structure. *)
Definition field : Type := Z * Z.

Record ehdr_layout : Type := mkEhdr {
  ehdr_size : Z;
  e_entry : field; e_phoff : field; e_shoff : field;
  e_phentsize : field; e_phnum : field; e_shentsize : field; e_shnum : field; e_shstrndx : field
}.
Record phdr_layout : Type := mkPhdr {
  phdr_size : Z;
  p_type : field; p_flags : field; p_offset : field; p_vaddr : field; p_paddr : field;
  p_filesz : field; p_memsz : field; p_align : field
}.
Record shdr_layout : Type := mkShdr {
  shdr_size : Z;
  sh_name : field; sh_type : field; sh_flags : field; sh_addr : field; sh_offset : field; sh_size : field;
  sh_link : field; sh_info : field; sh_addralign : field; sh_entsize : field
}.

Definition Elf32_Ehdr : ehdr_layout := mkEhdr 52 (24, 4) (28, 4) (32, 4) (42, 2) (44, 2) (46, 2) (48, 2) (50, 2).
Definition Elf64_Ehdr : ehdr_layout := mkEhdr 64 (24, 8) (32, 8) (40, 8) (54, 2) (56, 2) (58, 2) (60, 2) (62, 2).
Definition Elf32_Phdr : phdr_layout := mkPhdr 32 (0, 4) (24, 4) (4, 4) (8, 4) (12, 4) (16, 4) (20, 4) (28, 4).
Definition Elf64_Phdr : phdr_layout := mkPhdr 56 (0, 4) (4, 4) (8, 8) (16, 8) (24, 8) (32, 8) (40, 8) (48, 8).
Definition Elf32_Shdr : shdr_layout := mkShdr 40 (0, 4) (4, 4) (8, 4) (12, 4) (16, 4) (20, 4) (24, 4) (28, 4) (32, 4) (36, 4).
Definition Elf64_Shdr : shdr_layout := mkShdr 64 (0, 4) (4, 4) (8, 8) (16, 8) (24, 8) (32, 8) (40, 4) (44, 4) (48, 8) (56, 8).

Definition EI_CLASS : Z := 4.
Definition ELFCLASS32 : Z := 1.
Definition ELFCLASS64 : Z := 2.
Definition ELFMAG : list Z := [0x7f; 0x45; 0x4c; 0x46].
Definition SHT_STRTAB : Z := 3.
Definition PT_LOAD : Z := 1.

(** ** Reads *)

(** [struct elf]; the state of the functions is the file that [elfFile] points to. *)
Record elf_t : Type := mkElf { elfSize : Z; elfClass : Z }.
Abbreviation file := (list Z).

Definition rd_bytes (off n : Z) : M file (list Z) := fun f =>
  if u64 off + n <=? Z.of_nat (length f) then Ok (take (Z.to_nat n) (drop (Z.to_nat (u64 off)) f), f) else UB.
Definition rd_fld (off : Z) (m : field) : M file Z := let! bs := rd_bytes (off + m.1) m.2 in ret (le_value bs).
(** A member of a structure that was copied. *)
Definition fld (m : field) (bs : list Z) : Z := le_value (take (Z.to_nat m.2) (drop (Z.to_nat m.1) bs)).

(** ** elf.c: magic number *)

Definition elf_check_magic : M file Z := let! m := rd_bytes 0 4 in ret (if decide (m = ELFMAG) then 0 else -1).


(** ** elf32.c and elf32.h *)


Definition elf32_checkFile (elf : elf_t) : M file (Z * elf_t) :=
  if elfSize elf <? ehdr_size Elf32_Ehdr then ret (-1, elf)
  else
    let! m := elf_check_magic in
    if m <? 0 then ret (-1, elf)
    else
      let! class := rd_fld 0 (EI_CLASS, 1) in
      if negb (class =? ELFCLASS32) then ret (-1, elf)
      else
        let! phentsize := rd_fld 0 (e_phentsize Elf32_Ehdr) in
        if negb (phentsize =? phdr_size Elf32_Phdr) then ret (-1, elf)
        else
          let! shentsize := rd_fld 0 (e_shentsize Elf32_Ehdr) in
          if negb (shentsize =? shdr_size Elf32_Shdr) then ret (-1, elf)
          else
            let! shstrndx := rd_fld 0 (e_shstrndx Elf32_Ehdr) in
            let! shnum := rd_fld 0 (e_shnum Elf32_Ehdr) in
            if shnum <=? shstrndx then ret (-1, elf)
            else ret (0, mkElf (elfSize elf) class).


Definition elf32_checkProgramHeaderTable (elf : elf_t) : M file Z :=
  let! off := rd_fld 0 (e_phoff Elf32_Ehdr) in
  let! x := rd_fld 0 (e_phentsize Elf32_Ehdr) in
  let! y := rd_fld 0 (e_phnum Elf32_Ehdr) in
  let stop := u32 (off + x * y) in
  ret (if (elfSize elf <? stop) || (stop <? off) then -1 else 0).


Definition elf32_checkSectionTable (elf : elf_t) : M file Z :=
  let! off := rd_fld 0 (e_shoff Elf32_Ehdr) in
  let! x := rd_fld 0 (e_shentsize Elf32_Ehdr) in
  let! y := rd_fld 0 (e_shnum Elf32_Ehdr) in
  let stop := u32 (off + x * y) in
  ret (if (elfSize elf <? stop) || (stop <? off) then -1 else 0).


Definition elf32_getHeader : M file (list Z) := rd_bytes 0 (ehdr_size Elf32_Ehdr).
Definition elf32_getEntryPoint : M file Z := let! h := elf32_getHeader in ret (fld (e_entry Elf32_Ehdr) h).
Definition elf32_getProgramHeaderTable : M file Z := let! h := elf32_getHeader in ret (fld (e_phoff Elf32_Ehdr) h).
Definition elf32_getSectionTable : M file Z := let! h := elf32_getHeader in ret (fld (e_shoff Elf32_Ehdr) h).
Definition elf32_getNumProgramHeaders : M file Z := let! h := elf32_getHeader in ret (fld (e_phnum Elf32_Ehdr) h).
Definition elf32_getNumSections : M file Z := let! h := elf32_getHeader in ret (fld (e_shnum Elf32_Ehdr) h).
Definition elf32_getSectionStringTableIndex : M file Z := let! h := elf32_getHeader in ret (fld (e_shstrndx Elf32_Ehdr) h).

(** A member of entry [i] of the two tables. *)
Definition sec32 (m : shdr_layout -> field) (i : Z) : M file Z :=
  let! t := elf32_getSectionTable in rd_fld (t + i * shdr_size Elf32_Shdr) (m Elf32_Shdr).
Definition seg32 (m : phdr_layout -> field) (i : Z) : M file Z :=
  let! t := elf32_getProgramHeaderTable in rd_fld (t + i * phdr_size Elf32_Phdr) (m Elf32_Phdr).

Definition elf32_getSectionNameOffset : Z -> M file Z := sec32 sh_name.
Definition elf32_getSectionType : Z -> M file Z := sec32 sh_type.
Definition elf32_getSectionFlags : Z -> M file Z := sec32 sh_flags.
Definition elf32_getSectionAddr : Z -> M file Z := sec32 sh_addr.
Definition elf32_getSectionOffset : Z -> M file Z := sec32 sh_offset.
Definition elf32_getSectionSize : Z -> M file Z := sec32 sh_size.
Definition elf32_getSectionLink : Z -> M file Z := sec32 sh_link.
Definition elf32_getSectionInfo : Z -> M file Z := sec32 sh_info.
Definition elf32_getSectionAddrAlign : Z -> M file Z := sec32 sh_addralign.
Definition elf32_getSectionEntrySize : Z -> M file Z := sec32 sh_entsize.

Definition elf32_getProgramHeaderType : Z -> M file Z := seg32 p_type.
Definition elf32_getProgramHeaderOffset : Z -> M file Z := seg32 p_offset.
Definition elf32_getProgramHeaderVaddr : Z -> M file Z := seg32 p_vaddr.
Definition elf32_getProgramHeaderPaddr : Z -> M file Z := seg32 p_paddr.
Definition elf32_getProgramHeaderFileSize : Z -> M file Z := seg32 p_filesz.
Definition elf32_getProgramHeaderMemorySize : Z -> M file Z := seg32 p_memsz.
Definition elf32_getProgramHeaderFlags : Z -> M file Z := seg32 p_flags.
Definition elf32_getProgramHeaderAlign : Z -> M file Z := seg32 p_align.


(** ** elf64.c and elf64.h *)


Definition elf64_checkFile (elf : elf_t) : M file (Z * elf_t) :=
  if elfSize elf <? ehdr_size Elf64_Ehdr then ret (-1, elf)
  else
    let! m := elf_check_magic in
    if m <? 0 then ret (-1, elf)
    else
      let! class := rd_fld 0 (EI_CLASS, 1) in
      if negb (class =? ELFCLASS64) then ret (-1, elf)
      else
        let! phentsize := rd_fld 0 (e_phentsize Elf64_Ehdr) in
        if negb (phentsize =? phdr_size Elf64_Phdr) then ret (-1, elf)
        else
          let! shentsize := rd_fld 0 (e_shentsize Elf64_Ehdr) in
          if negb (shentsize =? shdr_size Elf64_Shdr) then ret (-1, elf)
          else
            let! shstrndx := rd_fld 0 (e_shstrndx Elf64_Ehdr) in
            let! shnum := rd_fld 0 (e_shnum Elf64_Ehdr) in
            if shnum <=? shstrndx then ret (-1, elf)
            else ret (0, mkElf (elfSize elf) class).


Definition elf64_checkProgramHeaderTable (elf : elf_t) : M file Z :=
  let! off := rd_fld 0 (e_phoff Elf64_Ehdr) in
  let! x := rd_fld 0 (e_phentsize Elf64_Ehdr) in
  let! y := rd_fld 0 (e_phnum Elf64_Ehdr) in
  let stop := off +w x * y in
  ret (if (elfSize elf <? stop) || (stop <? off) then -1 else 0).


Definition elf64_checkSectionTable (elf : elf_t) : M file Z :=
  let! off := rd_fld 0 (e_shoff Elf64_Ehdr) in
  let! x := rd_fld 0 (e_shentsize Elf64_Ehdr) in
  let! y := rd_fld 0 (e_shnum Elf64_Ehdr) in
  let stop := off +w x * y in
  ret (if (elfSize elf <? stop) || (stop <? off) then -1 else 0).


Definition elf64_getHeader : M file (list Z) := rd_bytes 0 (ehdr_size Elf64_Ehdr).
Definition elf64_getEntryPoint : M file Z := let! h := elf64_getHeader in ret (fld (e_entry Elf64_Ehdr) h).
Definition elf64_getProgramHeaderTable : M file Z := let! h := elf64_getHeader in ret (fld (e_phoff Elf64_Ehdr) h).
Definition elf64_getSectionTable : M file Z := let! h := elf64_getHeader in ret (fld (e_shoff Elf64_Ehdr) h).
Definition elf64_getNumProgramHeaders : M file Z := let! h := elf64_getHeader in ret (fld (e_phnum Elf64_Ehdr) h).
Definition elf64_getNumSections : M file Z := let! h := elf64_getHeader in ret (fld (e_shnum Elf64_Ehdr) h).
Definition elf64_getSectionStringTableIndex : M file Z := let! h := elf64_getHeader in ret (fld (e_shstrndx Elf64_Ehdr) h).

(** A member of entry [i] of the two tables. *)
Definition sec64 (m : shdr_layout -> field) (i : Z) : M file Z :=
  let! t := elf64_getSectionTable in rd_fld (t + i * shdr_size Elf64_Shdr) (m Elf64_Shdr).
Definition seg64 (m : phdr_layout -> field) (i : Z) : M file Z :=
  let! t := elf64_getProgramHeaderTable in rd_fld (t + i * phdr_size Elf64_Phdr) (m Elf64_Phdr).

Definition elf64_getSectionNameOffset : Z -> M file Z := sec64 sh_name.
Definition elf64_getSectionType : Z -> M file Z := sec64 sh_type.
Definition elf64_getSectionFlags : Z -> M file Z := sec64 sh_flags.
Definition elf64_getSectionAddr : Z -> M file Z := sec64 sh_addr.
Definition elf64_getSectionOffset : Z -> M file Z := sec64 sh_offset.
Definition elf64_getSectionSize : Z -> M file Z := sec64 sh_size.
Definition elf64_getSectionLink : Z -> M file Z := sec64 sh_link.
Definition elf64_getSectionInfo : Z -> M file Z := sec64 sh_info.
Definition elf64_getSectionAddrAlign : Z -> M file Z := sec64 sh_addralign.
Definition elf64_getSectionEntrySize : Z -> M file Z := sec64 sh_entsize.

Definition elf64_getProgramHeaderType : Z -> M file Z := seg64 p_type.
Definition elf64_getProgramHeaderOffset : Z -> M file Z := seg64 p_offset.
Definition elf64_getProgramHeaderVaddr : Z -> M file Z := seg64 p_vaddr.
Definition elf64_getProgramHeaderPaddr : Z -> M file Z := seg64 p_paddr.
Definition elf64_getProgramHeaderFileSize : Z -> M file Z := seg64 p_filesz.
Definition elf64_getProgramHeaderMemorySize : Z -> M file Z := seg64 p_memsz.
Definition elf64_getProgramHeaderFlags : Z -> M file Z := seg64 p_flags.
Definition elf64_getProgramHeaderAlign : Z -> M file Z := seg64 p_align.


(** ** elf.c *)

Definition elf_isElf32 (elf : elf_t) : bool := elfClass elf =? ELFCLASS32.

Definition elf_checkFile (elf : elf_t) : M file (Z * elf_t) :=
  let! '(res, elf) := elf32_checkFile elf in
  if res =? 0 then ret (0, elf)
  else
    let! '(res, elf) := elf64_checkFile elf in
    if res =? 0 then ret (0, elf) else ret (-1, elf).

Definition elf_checkProgramHeaderTable (elf : elf_t) : M file Z :=
  if elf_isElf32 elf then elf32_checkProgramHeaderTable elf else elf64_checkProgramHeaderTable elf.
Definition elf_checkSectionTable (elf : elf_t) : M file Z :=
  if elf_isElf32 elf then elf32_checkSectionTable elf else elf64_checkSectionTable elf.
Definition elf_getEntryPoint (elf : elf_t) : M file Z :=
  if elf_isElf32 elf then elf32_getEntryPoint else elf64_getEntryPoint.
Definition elf_getNumProgramHeaders (elf : elf_t) : M file Z :=
  if elf_isElf32 elf then elf32_getNumProgramHeaders else elf64_getNumProgramHeaders.
Definition elf_getNumSections (elf : elf_t) : M file Z :=
  if elf_isElf32 elf then elf32_getNumSections else elf64_getNumSections.
Definition elf_getSectionStringTableIndex (elf : elf_t) : M file Z :=
  if elf_isElf32 elf then elf32_getSectionStringTableIndex else elf64_getSectionStringTableIndex.

Definition elf_getSectionNameOffset (elf : elf_t) (i : Z) : M file Z :=
  if elf_isElf32 elf then elf32_getSectionNameOffset i else elf64_getSectionNameOffset i.
Definition elf_getSectionType (elf : elf_t) (i : Z) : M file Z :=
  if elf_isElf32 elf then elf32_getSectionType i else elf64_getSectionType i.
Definition elf_getSectionFlags (elf : elf_t) (i : Z) : M file Z :=
  if elf_isElf32 elf then elf32_getSectionFlags i else elf64_getSectionFlags i.
Definition elf_getSectionAddr (elf : elf_t) (i : Z) : M file Z :=
  if elf_isElf32 elf then elf32_getSectionAddr i else elf64_getSectionAddr i.
Definition elf_getSectionOffset (elf : elf_t) (i : Z) : M file Z :=
  if elf_isElf32 elf then elf32_getSectionOffset i else elf64_getSectionOffset i.
Definition elf_getSectionSize (elf : elf_t) (i : Z) : M file Z :=
  if elf_isElf32 elf then elf32_getSectionSize i else elf64_getSectionSize i.
Definition elf_getSectionLink (elf : elf_t) (i : Z) : M file Z :=
  if elf_isElf32 elf then elf32_getSectionLink i else elf64_getSectionLink i.
Definition elf_getSectionInfo (elf : elf_t) (i : Z) : M file Z :=
  if elf_isElf32 elf then elf32_getSectionInfo i else elf64_getSectionInfo i.
Definition elf_getSectionAddrAlign (elf : elf_t) (i : Z) : M file Z :=
  if elf_isElf32 elf then elf32_getSectionAddrAlign i else elf64_getSectionAddrAlign i.
Definition elf_getSectionEntrySize (elf : elf_t) (i : Z) : M file Z :=
  if elf_isElf32 elf then elf32_getSectionEntrySize i else elf64_getSectionEntrySize i.

Definition elf_getProgramHeaderType (elf : elf_t) (ph : Z) : M file Z :=
  if elf_isElf32 elf then elf32_getProgramHeaderType ph else elf64_getProgramHeaderType ph.
Definition elf_getProgramHeaderOffset (elf : elf_t) (ph : Z) : M file Z :=
  if elf_isElf32 elf then elf32_getProgramHeaderOffset ph else elf64_getProgramHeaderOffset ph.
Definition elf_getProgramHeaderVaddr (elf : elf_t) (ph : Z) : M file Z :=
  if elf_isElf32 elf then elf32_getProgramHeaderVaddr ph else elf64_getProgramHeaderVaddr ph.
Definition elf_getProgramHeaderPaddr (elf : elf_t) (ph : Z) : M file Z :=
  if elf_isElf32 elf then elf32_getProgramHeaderPaddr ph else elf64_getProgramHeaderPaddr ph.
Definition elf_getProgramHeaderFileSize (elf : elf_t) (ph : Z) : M file Z :=
  if elf_isElf32 elf then elf32_getProgramHeaderFileSize ph else elf64_getProgramHeaderFileSize ph.
Definition elf_getProgramHeaderMemorySize (elf : elf_t) (ph : Z) : M file Z :=
  if elf_isElf32 elf then elf32_getProgramHeaderMemorySize ph else elf64_getProgramHeaderMemorySize ph.
Definition elf_getProgramHeaderFlags (elf : elf_t) (ph : Z) : M file Z :=
  if elf_isElf32 elf then elf32_getProgramHeaderFlags ph else elf64_getProgramHeaderFlags ph.
Definition elf_getProgramHeaderAlign (elf : elf_t) (ph : Z) : M file Z :=
  if elf_isElf32 elf then elf32_getProgramHeaderAlign ph else elf64_getProgramHeaderAlign ph.

(** The structure that is filled in, when the file is accepted. *)
Definition elf_newFile_maybe_unsafe (size : Z) (check_pht check_st : bool) : M file (Z * option elf_t) :=
  let! '(status, new_file) := elf_checkFile (mkElf size 0) in
  if status <? 0 then ret (status, None)
  else
    let! status := (if check_pht then elf_checkProgramHeaderTable new_file else ret status) in
    if status <? 0 then ret (status, None)
    else
      let! status := (if check_st then elf_checkSectionTable new_file else ret status) in
      if status <? 0 then ret (status, None)
      else ret (status, Some new_file).
Definition elf_newFile (size : Z) : M file (Z * option elf_t) := elf_newFile_maybe_unsafe size true true.

Definition elf_getSection (elf : elf_t) (i : Z) : M file (option Z) :=
  let! n := elf_getNumSections elf in
  if (i =? 0) || (n <=? i) then ret None
  else
    let! section_offset := elf_getSectionOffset elf i in
    let! section_size := elf_getSectionSize elf i in
    if section_size =? 0 then ret None
    else
      let section_end := section_offset +w section_size in
      if (elfSize elf <? section_end) || (section_end <? section_offset) then ret None
      else ret (Some section_offset).

Definition elf_getStringTable (elf : elf_t) (string_segment : Z) : M file (option Z) :=
  let! string_table := elf_getSection elf string_segment in
  match string_table with
  | None => ret None
  | Some t =>
      let! type := elf_getSectionType elf string_segment in
      if negb (type =? SHT_STRTAB) then ret None
      else
        let! size := elf_getSectionSize elf string_segment in
        let! last := rd_fld (t + (size -w 1)) (0, 1) in
        ret (if negb (last =? 0) then None else Some t)
  end.

Definition elf_getSectionStringTable (elf : elf_t) : M file (option Z) :=
  let! index := elf_getSectionStringTableIndex elf in elf_getStringTable elf index.

(** [None] is the constant string for a corrupted table. *)
Definition elf_getSectionName (elf : elf_t) (i : Z) : M file (option Z) :=
  let! str_table_idx := elf_getSectionStringTableIndex elf in
  let! str_table := elf_getStringTable elf str_table_idx in
  let! offset := elf_getSectionNameOffset elf i in
  let! size := elf_getSectionSize elf str_table_idx in
  ret (match str_table with
       | None => None
       | Some t => if size <? offset then None else Some (t + offset)
       end).

Definition elf_getProgramSegment (elf : elf_t) (ph : Z) : M file (option Z) :=
  let! offset := elf_getProgramHeaderOffset elf ph in
  let! file_size := elf_getProgramHeaderFileSize elf ph in
  let segment_end := offset +w file_size in
  ret (if (elfSize elf <? segment_end) || (segment_end <? offset) then None else Some offset).

Inductive elf_addr_type : Type := VIRTUAL | PHYSICAL.

Definition segment_min (elf : elf_t) (addr_type : elf_addr_type) (i : Z) : M file Z :=
  match addr_type with PHYSICAL => elf_getProgramHeaderPaddr elf i | VIRTUAL => elf_getProgramHeaderVaddr elf i end.

(** The loop over the segments [i], [n] of them. *)
Fixpoint bounds_loop (elf : elf_t) (addr_type : elf_addr_type) (n : nat) (i mem_min mem_max : Z) : M file (Z * Z) :=
  match n with
  | O => ret (mem_min, mem_max)
  | S n =>
      let! size := elf_getProgramHeaderMemorySize elf i in
      if size =? 0 then bounds_loop elf addr_type n (i + 1) mem_min mem_max
      else
        let! sect_min := segment_min elf addr_type i in
        let sect_max := sect_min +w size in
        bounds_loop elf addr_type n (i + 1) (if sect_min <? mem_min then sect_min else mem_min)
          (if mem_max <? sect_max then sect_max else mem_max)
  end.
Definition elf_getMemoryBounds (elf : elf_t) (addr_type : elf_addr_type) : M file (Z * Z) :=
  let! n := elf_getNumProgramHeaders elf in bounds_loop elf addr_type (Z.to_nat n) 0 (2 ^ 64 - 1) 0.

Definition elf_vaddrInProgramHeader (elf : elf_t) (ph vaddr : Z) : M file bool :=
  let! lo := elf_getProgramHeaderVaddr elf ph in
  let! size := elf_getProgramHeaderMemorySize elf ph in
  ret ((lo <=? vaddr) && (vaddr <? (lo +w size))).

Definition elf_vtopProgramHeader (elf : elf_t) (ph vaddr : Z) : M file Z :=
  let! ph_phys := elf_getProgramHeaderPaddr elf ph in
  let! ph_virt := elf_getProgramHeaderVaddr elf ph in
  ret ((vaddr -w ph_virt) +w ph_phys).

(** ** Reads inside the file *)

Section Safe.
Context (f : file) (Hf : Forall is_u8 f) (Hlen : Z.of_nat (length f) < 2 ^ 64).

Definition peek (m : field) : Z := le_value (take (Z.to_nat m.2) (drop (Z.to_nat m.1) f)).
(** The member lies in a structure of [n] bytes. *)
Definition fits (n : Z) (m : field) : Prop := 0 <= m.1 /\ 0 <= m.2 <= 8 /\ m.1 + m.2 <= n.

Lemma rd_bytes_in off n : 0 <= off -> 0 <= n -> off + n <= Z.of_nat (length f) ->
  rd_bytes off n f = Ok (take (Z.to_nat n) (drop (Z.to_nat off) f), f).
Proof. intros Ho Hn Hl. unfold rd_bytes. rewrite u64_id by (unfold is_u64; lia). by rewrite (proj2 (Z.leb_le _ _)). Qed.

Lemma peek_range m : 0 <= m.2 <= 8 -> is_u64 (peek m).
Proof.
  intros Hm. unfold peek. set (l := take _ _). assert (Forall is_u8 l) as Hl by by apply Forall_take, Forall_drop.
  pose proof (le_value_bound l Hl) as Hb. assert (length l <= 8)%nat as H8 by (unfold l; rewrite length_take; lia).
  unfold is_u64. assert (256 ^ Z.of_nat (length l) <= 256 ^ 8) by (apply Z.pow_le_mono_r; lia). change (256 ^ 8) with (2 ^ 64) in *. lia.
Qed.

Lemma peek_bound m : 0 <= m.2 -> 0 <= peek m < 256 ^ m.2.
Proof.
  intros Hm. unfold peek. set (l := take _ _). assert (Forall is_u8 l) as Hl by by apply Forall_take, Forall_drop.
  pose proof (le_value_bound l Hl) as Hb. assert (length l <= Z.to_nat m.2)%nat as H8 by (unfold l; rewrite length_take; lia).
  assert (256 ^ Z.of_nat (length l) <= 256 ^ m.2) by (apply Z.pow_le_mono_r; lia). lia.
Qed.

Lemma rd_fld_in off m : 0 <= off + m.1 -> 0 <= m.2 -> off + m.1 + m.2 <= Z.of_nat (length f) ->
  rd_fld off m f = Ok (peek (off + m.1, m.2), f).
Proof. intros. unfold rd_fld, bind, ret. by rewrite rd_bytes_in. Qed.

(** A member of the header. *)
Lemma rd_hdr n m : fits n m -> n <= Z.of_nat (length f) -> rd_fld 0 m f = Ok (peek m, f).
Proof. intros (H1 & H2 & H3) Hn. rewrite rd_fld_in by lia. by destruct m. Qed.

Lemma fld_hdr n m : fits n m -> fld m (take (Z.to_nat n) (drop (Z.to_nat 0) f)) = peek m.
Proof.
  intros (H1 & H2 & H3). unfold fld, peek. f_equal. change (Z.to_nat 0) with 0%nat. rewrite drop_0.
  rewrite skipn_firstn_comm, take_take. f_equal. lia.
Qed.
End Safe.

(** ** Accepted files *)

Definition Ehdr (elf : elf_t) : ehdr_layout := if elf_isElf32 elf then Elf32_Ehdr else Elf64_Ehdr.
Definition Phdr (elf : elf_t) : phdr_layout := if elf_isElf32 elf then Elf32_Phdr else Elf64_Phdr.
Definition Shdr (elf : elf_t) : shdr_layout := if elf_isElf32 elf then Elf32_Shdr else Elf64_Shdr.

(** Header and tables are inside the file. *)
Record valid_elf (f : file) (elf : elf_t) : Prop := {
  ve_size : elfSize elf = Z.of_nat (length f);
  ve_header : ehdr_size (Ehdr elf) <= Z.of_nat (length f);
  ve_phdrs : peek f (e_phoff (Ehdr elf)) + phdr_size (Phdr elf) * peek f (e_phnum (Ehdr elf)) <= Z.of_nat (length f);
  ve_shdrs : peek f (e_shoff (Ehdr elf)) + shdr_size (Shdr elf) * peek f (e_shnum (Ehdr elf)) <= Z.of_nat (length f);
  ve_strndx : peek f (e_shstrndx (Ehdr elf)) < peek f (e_shnum (Ehdr elf))
}.

(** The two classes have the same code over different layouts. *)
Record layout_ok (E : ehdr_layout) : Prop := {
  lo_size : 5 <= ehdr_size E;
  lo_ident : fits (ehdr_size E) (EI_CLASS, 1);
  lo_entry : fits (ehdr_size E) (e_entry E);
  lo_phoff : fits (ehdr_size E) (e_phoff E);
  lo_shoff : fits (ehdr_size E) (e_shoff E);
  lo_phentsize : fits (ehdr_size E) (e_phentsize E);
  lo_phnum : fits (ehdr_size E) (e_phnum E) /\ (e_phnum E).2 = 2;
  lo_shentsize : fits (ehdr_size E) (e_shentsize E);
  lo_shnum : fits (ehdr_size E) (e_shnum E) /\ (e_shnum E).2 = 2;
  lo_shstrndx : fits (ehdr_size E) (e_shstrndx E)
}.
Lemma Elf32_ok : layout_ok Elf32_Ehdr.
Proof. split; by vm_compute. Qed.
Lemma Elf64_ok : layout_ok Elf64_Ehdr.
Proof. split; by vm_compute. Qed.
Lemma Ehdr_ok elf : layout_ok (Ehdr elf).
Proof. unfold Ehdr. destruct (elf_isElf32 elf); [apply Elf32_ok|apply Elf64_ok]. Qed.

Definition gen_checkFile (E : ehdr_layout) (psize ssize want : Z) (elf : elf_t) : M file (Z * elf_t) :=
  if elfSize elf <? ehdr_size E then ret (-1, elf)
  else
    let! m := elf_check_magic in
    if m <? 0 then ret (-1, elf)
    else
      let! class := rd_fld 0 (EI_CLASS, 1) in
      if negb (class =? want) then ret (-1, elf)
      else
        let! phentsize := rd_fld 0 (e_phentsize E) in
        if negb (phentsize =? psize) then ret (-1, elf)
        else
          let! shentsize := rd_fld 0 (e_shentsize E) in
          if negb (shentsize =? ssize) then ret (-1, elf)
          else
            let! shstrndx := rd_fld 0 (e_shstrndx E) in
            let! shnum := rd_fld 0 (e_shnum E) in
            if shnum <=? shstrndx then ret (-1, elf)
            else ret (0, mkElf (elfSize elf) class).

Lemma gen_checkFile_spec E psize ssize want elf f : Forall is_u8 f -> Z.of_nat (length f) < 2 ^ 64 -> layout_ok E ->
  elfSize elf = Z.of_nat (length f) ->
  exists r, gen_checkFile E psize ssize want elf f = Ok (r, f) /\
  (r = (-1, elf) \/ r = (0, mkElf (elfSize elf) want) /\
    ehdr_size E <= Z.of_nat (length f) /\ peek f (e_phentsize E) = psize /\ peek f (e_shentsize E) = ssize /\
    peek f (e_shstrndx E) < peek f (e_shnum E)).
Proof.
  intros Hf Hl [L1 L2 L3 L4 L5 L6 [L7 _] L8 [L9 _] L10] Hs. unfold gen_checkFile. destruct (Z.ltb_spec (elfSize elf) (ehdr_size E)) as [|Hsz]; [by eauto|].
  rewrite Hs in Hsz. assert (forall m, fits (ehdr_size E) m -> rd_fld 0 m f = Ok (peek f m, f)) as Hrd by (intros m Hm; by apply (rd_hdr f Hl (ehdr_size E))).
  unfold bind at 1. unfold elf_check_magic, bind at 1. rewrite rd_bytes_in by (done || lia). unfold ret at 1.
  destruct (decide (take (Z.to_nat 4) (drop (Z.to_nat 0) f) = ELFMAG)); [|by eauto]. cbn [Z.ltb Z.compare].
  unfold bind at 1. rewrite Hrd by done. destruct (Z.eqb_spec (peek f (EI_CLASS, 1)) want) as [Ec|]; cbn [negb]; [|by eauto].
  unfold bind at 1. rewrite Hrd by done. destruct (Z.eqb_spec (peek f (e_phentsize E)) psize) as [Ep|]; cbn [negb]; [|by eauto].
  unfold bind at 1. rewrite Hrd by done. destruct (Z.eqb_spec (peek f (e_shentsize E)) ssize) as [Es|]; cbn [negb]; [|by eauto].
  unfold bind. rewrite !Hrd by done. destruct (Z.leb_spec (peek f (e_shnum E)) (peek f (e_shstrndx E))) as [|Hn]; [by eauto|].
  eexists. split; [done|]. right. by rewrite Ec.
Qed.

(** What the table checks establish; [w] is the width of the arithmetic. *)
Lemma table_end off x y size w : 0 <= off < 2 ^ w -> 0 <= x * y < 2 ^ w -> 0 <= w ->
  (if (size <? (off + x * y) mod 2 ^ w) || ((off + x * y) mod 2 ^ w <? off) then -1 else 0) = 0 -> off + x * y <= size.
Proof.
  intros Ho Hxy Hw. destruct (Z.ltb_spec size ((off + x * y) mod 2 ^ w)) as [|H1]; [done|].
  destruct (Z.ltb_spec ((off + x * y) mod 2 ^ w) off) as [|H2]; [done|]. intros _. cbn [orb] in *.
  destruct (decide (off + x * y < 2 ^ w)) as [Hlt|Hge]; [rewrite Z.mod_small in H1 by lia; lia|].
  assert ((off + x * y) mod 2 ^ w = off + x * y - 2 ^ w) as E by (symmetry; apply (Z.mod_unique_pos _ _ 1); lia). rewrite E in H1, H2. lia.
Qed.

Lemma checkFile_spec f size : Forall is_u8 f -> Z.of_nat (length f) < 2 ^ 64 -> size = Z.of_nat (length f) ->
  exists r elf, elf_checkFile (mkElf size 0) f = Ok ((r, elf), f) /\
    (r = -1 \/ r = 0 /\ elfSize elf = size /\ ehdr_size (Ehdr elf) <= size /\
      peek f (e_phentsize (Ehdr elf)) = phdr_size (Phdr elf) /\ peek f (e_shentsize (Ehdr elf)) = shdr_size (Shdr elf) /\
      peek f (e_shstrndx (Ehdr elf)) < peek f (e_shnum (Ehdr elf))).
Proof.
  intros Hf Hl Hs. unfold elf_checkFile.
  change elf32_checkFile with (gen_checkFile Elf32_Ehdr (phdr_size Elf32_Phdr) (shdr_size Elf32_Shdr) ELFCLASS32).
  change elf64_checkFile with (gen_checkFile Elf64_Ehdr (phdr_size Elf64_Phdr) (shdr_size Elf64_Shdr) ELFCLASS64).
  destruct (gen_checkFile_spec Elf32_Ehdr (phdr_size Elf32_Phdr) (shdr_size Elf32_Shdr) ELFCLASS32 (mkElf size 0) f Hf Hl Elf32_ok Hs) as (r & E & Hr).
  unfold bind at 1. rewrite E. destruct Hr as [->|(-> & H1 & H2 & H3 & H4)]; cbn [Z.eqb].
  - destruct (gen_checkFile_spec Elf64_Ehdr (phdr_size Elf64_Phdr) (shdr_size Elf64_Shdr) ELFCLASS64 (mkElf size 0) f Hf Hl Elf64_ok Hs) as (r & E' & Hr).
    unfold bind. rewrite E'. destruct Hr as [->|(-> & H1 & H2 & H3 & H4)]; cbn [Z.eqb].
    + eexists _, _. split; [done|]. by left.
    + eexists _, _. split; [done|]. right. subst size. done.
  - eexists _, _. split; [done|]. right. subst size. done.
Qed.

Section Check.
Context (f : file) (Hf : Forall is_u8 f) (Hl : Z.of_nat (length f) < 2 ^ 64) (elf : elf_t).
Hypothesis Hhdr : ehdr_size (Ehdr elf) <= Z.of_nat (length f).

Lemma hdr_read m : fits (ehdr_size (Ehdr elf)) m -> rd_fld 0 m f = Ok (peek f m, f).
Proof. intros Hm. by apply (rd_hdr f Hl (ehdr_size (Ehdr elf))). Qed.

(** One of the two table checks. *)
Lemma check_table (off ent num : ehdr_layout -> field) c : fits (ehdr_size (Ehdr elf)) (off (Ehdr elf)) ->
  fits (ehdr_size (Ehdr elf)) (ent (Ehdr elf)) -> fits (ehdr_size (Ehdr elf)) (num (Ehdr elf)) /\ (num (Ehdr elf)).2 = 2 ->
  (elf_isElf32 elf = true -> (off Elf32_Ehdr).2 = 4) ->
  c = (let! o := rd_fld 0 (off (Ehdr elf)) in let! x := rd_fld 0 (ent (Ehdr elf)) in let! y := rd_fld 0 (num (Ehdr elf)) in
       let stop := if elf_isElf32 elf then u32 (o + x * y) else o +w x * y in
       ret (if (elfSize elf <? stop) || (stop <? o) then -1 else 0)) ->
  0 <= peek f (ent (Ehdr elf)) <= 64 ->
  exists r, c f = Ok (r, f) /\ (r = -1 \/ r = 0 /\
    peek f (off (Ehdr elf)) + peek f (ent (Ehdr elf)) * peek f (num (Ehdr elf)) <= elfSize elf).
Proof.
  intros F1 F2 [F3 F3'] H4 -> He. unfold bind. rewrite !hdr_read by done. cbv zeta. unfold ret. eexists. split; [reflexivity|].
  set (o := peek f (off (Ehdr elf))). set (x := peek f (ent (Ehdr elf))) in *. set (y := peek f (num (Ehdr elf))).
  assert (is_u64 o) as Ho by (apply peek_range; [done|apply F1]).
  assert (0 <= y < 256 ^ 2) as Hy by (rewrite <- F3'; apply peek_bound; [done|by rewrite F3']).
  assert (0 <= x * y < 2 ^ 32) as Hxy by nia. change (256 ^ 2) with 65536 in Hy. unfold is_u64 in Ho.
  match goal with |- ?t = -1 \/ _ => set (r := t) end. assert (r = -1 \/ r = 0) as [E|E] by (unfold r; repeat case_match; auto); [by left|right]. split; [done|].
  destruct (elf_isElf32 elf) eqn:E32.
  - assert (0 <= o < 256 ^ 4) as Ho4 by (assert ((off (Ehdr elf)).2 = 4) as <- by (unfold Ehdr; rewrite E32; by apply H4); apply peek_bound; [done|apply F1]).
    apply (table_end o x y (elfSize elf) 32); try lia. exact E.
  - apply (table_end o x y (elfSize elf) 64); try lia. exact E.
Qed.
End Check.

(** The file is accepted with its header and tables inside, or refused. *)
Lemma newFile_spec f : Forall is_u8 f -> Z.of_nat (length f) < 2 ^ 64 ->
  exists r, elf_newFile (Z.of_nat (length f)) f = Ok (r, f) /\ (r = (-1, None) \/ exists elf, r = (0, Some elf) /\ valid_elf f elf).
Proof.
  intros Hf Hl. unfold elf_newFile, elf_newFile_maybe_unsafe. destruct (checkFile_spec f _ Hf Hl eq_refl) as (r & elf & E & Hr).
  unfold bind at 1. rewrite E. destruct Hr as [->|(-> & Es & Hh & Hp & Hsh & Hn)]; cbn [Z.ltb Z.compare]; [by eauto|].
  pose proof (Ehdr_ok elf) as [L1 L2 L3 L4 L5 L6 L7 L8 L9 L10].
  assert (0 <= peek f (e_phentsize (Ehdr elf)) <= 64 /\ 0 <= peek f (e_shentsize (Ehdr elf)) <= 64) as [B1 B2].
  { rewrite Hp, Hsh. unfold Phdr, Shdr. destruct (elf_isElf32 elf); split; by vm_compute. }
  destruct (check_table f Hf Hl elf Hh e_phoff e_phentsize e_phnum (elf_checkProgramHeaderTable elf)) as (r & Er & Hr); try done.
  { unfold elf_checkProgramHeaderTable, Ehdr. by destruct (elf_isElf32 elf). }
  unfold bind at 1. rewrite Er. destruct Hr as [->|[-> Hpe]]; cbn [Z.ltb Z.compare]; [by eauto|].
  destruct (check_table f Hf Hl elf Hh e_shoff e_shentsize e_shnum (elf_checkSectionTable elf)) as (r & Er' & Hr); try done.
  { unfold elf_checkSectionTable, Ehdr. by destruct (elf_isElf32 elf). }
  unfold bind. rewrite Er'. destruct Hr as [->|[-> Hse]]; cbn [Z.ltb Z.compare]; [by eauto|].
  eexists. split; [done|]. right. exists elf. split; [done|]. rewrite Hp, Es in Hpe. rewrite Hsh, Es in Hse. split; done || lia.
Qed.

(** ** Accessors of accepted files *)

Definition section_getters : list (elf_t -> Z -> M file Z) :=
  [elf_getSectionNameOffset; elf_getSectionType; elf_getSectionFlags; elf_getSectionAddr; elf_getSectionOffset; elf_getSectionSize;
   elf_getSectionLink; elf_getSectionInfo; elf_getSectionAddrAlign; elf_getSectionEntrySize].
Definition segment_getters : list (elf_t -> Z -> M file Z) :=
  [elf_getProgramHeaderType; elf_getProgramHeaderOffset; elf_getProgramHeaderVaddr; elf_getProgramHeaderPaddr;
   elf_getProgramHeaderFileSize; elf_getProgramHeaderMemorySize; elf_getProgramHeaderFlags; elf_getProgramHeaderAlign].
Definition header_getters : list (elf_t -> M file Z) :=
  [elf_getEntryPoint; elf_getNumProgramHeaders; elf_getNumSections; elf_getSectionStringTableIndex].

Definition num_segments (f : file) (elf : elf_t) : Z := peek f (e_phnum (Ehdr elf)).
Definition num_sections (f : file) (elf : elf_t) : Z := peek f (e_shnum (Ehdr elf)).

Section Valid.
Context (f : file) (Hf : Forall is_u8 f) (Hl : Z.of_nat (length f) < 2 ^ 64) (elf : elf_t) (Hv : valid_elf f elf).

Lemma get_header : rd_bytes 0 (ehdr_size (Ehdr elf)) f = Ok (take (Z.to_nat (ehdr_size (Ehdr elf))) (drop (Z.to_nat 0) f), f).
Proof. apply rd_bytes_in; [done|lia| |apply Hv]. pose proof (lo_size _ (Ehdr_ok elf)). lia. Qed.

Definition hdr_get (m : ehdr_layout -> field) : M file Z := let! h := rd_bytes 0 (ehdr_size (Ehdr elf)) in ret (fld (m (Ehdr elf)) h).
Lemma hdr_get_run (m : ehdr_layout -> field) : fits (ehdr_size (Ehdr elf)) (m (Ehdr elf)) -> hdr_get m f = Ok (peek f (m (Ehdr elf)), f).
Proof. intros Hm. unfold hdr_get, bind. rewrite get_header. unfold ret. by rewrite (fld_hdr f (ehdr_size (Ehdr elf))). Qed.

Lemma header_get g : g ∈ header_getters -> exists m, g elf = hdr_get m /\ fits (ehdr_size (Ehdr elf)) (m (Ehdr elf)).
Proof.
  pose proof (Ehdr_ok elf) as [L1 L2 L3 L4 L5 L6 [L7 _] L8 [L9 _] L10]. unfold header_getters. set_unfold.
  intros [->|[->|[->|[->|[]]]]]; [exists e_entry|exists e_phnum|exists e_shnum|exists e_shstrndx]; (split; [|done]);
    unfold hdr_get, Ehdr, elf_getEntryPoint, elf_getNumProgramHeaders, elf_getNumSections, elf_getSectionStringTableIndex; by destruct (elf_isElf32 elf).
Qed.

Definition sec_get (m : shdr_layout -> field) (i : Z) : M file Z :=
  let! t := hdr_get e_shoff in rd_fld (t + i * shdr_size (Shdr elf)) (m (Shdr elf)).
Definition seg_get (m : phdr_layout -> field) (i : Z) : M file Z :=
  let! t := hdr_get e_phoff in rd_fld (t + i * phdr_size (Phdr elf)) (m (Phdr elf)).

(** Every member of a table entry can be read. *)
Lemma sec_get_run m i : fits (shdr_size (Shdr elf)) (m (Shdr elf)) -> 0 <= i < num_sections f elf ->
  exists v, sec_get m i f = Ok (v, f) /\ is_u64 v.
Proof.
  intros (M1 & M2 & M3) Hi. unfold sec_get, bind. rewrite hdr_get_run by apply Ehdr_ok. destruct Hv as [Es Hh Hp Hs Hn].
  assert (is_u64 (peek f (e_shoff (Ehdr elf)))) as Ho by (apply peek_range; [done|apply (lo_shoff _ (Ehdr_ok elf))]). unfold is_u64 in Ho.
  unfold num_sections in Hi. rewrite rd_fld_in by (try lia; nia). eexists. split; [done|]. by apply peek_range.
Qed.

Lemma seg_get_run m i : fits (phdr_size (Phdr elf)) (m (Phdr elf)) -> 0 <= i < num_segments f elf ->
  exists v, seg_get m i f = Ok (v, f) /\ is_u64 v.
Proof.
  intros (M1 & M2 & M3) Hi. unfold seg_get, bind. rewrite hdr_get_run by apply Ehdr_ok. destruct Hv as [Es Hh Hp Hs Hn].
  assert (is_u64 (peek f (e_phoff (Ehdr elf)))) as Ho by (apply peek_range; [done|apply (lo_phoff _ (Ehdr_ok elf))]). unfold is_u64 in Ho.
  unfold num_segments in Hi. rewrite rd_fld_in by (try lia; nia). eexists. split; [done|]. by apply peek_range.
Qed.

Lemma section_get g : g ∈ section_getters -> exists m, (forall i, g elf i = sec_get m i) /\ fits (shdr_size (Shdr elf)) (m (Shdr elf)).
Proof.
  unfold section_getters. set_unfold.
  intros [->|[->|[->|[->|[->|[->|[->|[->|[->|[->|[]]]]]]]]]]];
    [exists sh_name|exists sh_type|exists sh_flags|exists sh_addr|exists sh_offset|exists sh_size|exists sh_link|exists sh_info|exists sh_addralign|exists sh_entsize];
    (split; [intros i|]); unfold sec_get, hdr_get, Ehdr, Shdr,
      elf_getSectionNameOffset, elf_getSectionType, elf_getSectionFlags, elf_getSectionAddr, elf_getSectionOffset, elf_getSectionSize,
      elf_getSectionLink, elf_getSectionInfo, elf_getSectionAddrAlign, elf_getSectionEntrySize;
    destruct (elf_isElf32 elf); first [reflexivity|by vm_compute].
Qed.

Lemma segment_get g : g ∈ segment_getters -> exists m, (forall i, g elf i = seg_get m i) /\ fits (phdr_size (Phdr elf)) (m (Phdr elf)).
Proof using Type.
  clear f Hf Hl Hv.
  unfold segment_getters. set_unfold.
  intros [->|[->|[->|[->|[->|[->|[->|[->|[]]]]]]]]];
    [exists p_type|exists p_offset|exists p_vaddr|exists p_paddr|exists p_filesz|exists p_memsz|exists p_flags|exists p_align];
    (split; [intros i|]); unfold seg_get, hdr_get, Ehdr, Phdr,
      elf_getProgramHeaderType, elf_getProgramHeaderOffset, elf_getProgramHeaderVaddr, elf_getProgramHeaderPaddr, elf_getProgramHeaderFileSize,
      elf_getProgramHeaderMemorySize, elf_getProgramHeaderFlags, elf_getProgramHeaderAlign;
    destruct (elf_isElf32 elf); first [reflexivity|by vm_compute].
Qed.

Lemma section_run g i : g ∈ section_getters -> 0 <= i < num_sections f elf -> exists v, g elf i f = Ok (v, f) /\ is_u64 v.
Proof. intros (m & -> & Hm)%section_get Hi. by apply sec_get_run. Qed.
Lemma segment_run g i : g ∈ segment_getters -> 0 <= i < num_segments f elf -> exists v, g elf i f = Ok (v, f) /\ is_u64 v.
Proof. intros (m & -> & Hm)%segment_get Hi. by apply seg_get_run. Qed.
Lemma header_run g : g ∈ header_getters -> exists v, g elf f = Ok (v, f).
Proof. intros (m & -> & Hm)%header_get. rewrite hdr_get_run by done. eauto. Qed.

Lemma num_segments_run : elf_getNumProgramHeaders elf f = Ok (num_segments f elf, f).
Proof.
  transitivity (hdr_get e_phnum f); [unfold elf_getNumProgramHeaders, hdr_get, Ehdr; by destruct (elf_isElf32 elf)|].
  apply hdr_get_run, (lo_phnum _ (Ehdr_ok elf)).
Qed.
Lemma num_sections_run : elf_getNumSections elf f = Ok (num_sections f elf, f).
Proof.
  transitivity (hdr_get e_shnum f); [unfold elf_getNumSections, hdr_get, Ehdr; by destruct (elf_isElf32 elf)|].
  apply hdr_get_run, (lo_shnum _ (Ehdr_ok elf)).
Qed.

(** A range that passes the test for wrap-around is inside the file. *)
Lemma range_checked o n : is_u64 o -> is_u64 n -> (elfSize elf <? (o +w n)) || ((o +w n) <? o) = false -> o + n <= Z.of_nat (length f).
Proof.
  intros Ho Hn [H1%Z.ltb_ge H2%Z.ltb_ge]%orb_false_iff. rewrite (ve_size _ _ Hv) in H1. unfold is_u64, u64 in *.
  destruct (decide (o + n < 2 ^ 64)); [rewrite Z.mod_small in H1 by lia; lia|].
  assert ((o + n) mod 2 ^ 64 = o + n - 2 ^ 64) as E by (symmetry; apply (Z.mod_unique_pos _ _ 1); lia). rewrite E in H2. lia.
Qed.

Lemma program_segment ph : 0 <= ph < num_segments f elf ->
  exists o size, elf_getProgramSegment elf ph f = Ok (o, f) /\ elf_getProgramHeaderFileSize elf ph f = Ok (size, f) /\
    forall p, o = Some p -> 0 <= p /\ 0 <= size /\ p + size <= Z.of_nat (length f).
Proof.
  intros Hph. destruct (segment_run elf_getProgramHeaderOffset ph) as (o & Eo & Ho); [set_solver|done|].
  destruct (segment_run elf_getProgramHeaderFileSize ph) as (n & En & Hn); [set_solver|done|].
  unfold elf_getProgramSegment, bind, ret. rewrite Eo, En. eexists _, n. split; [done|]. split; [done|]. intros p.
  destruct (_ || _) eqn:E; [done|]. intros [= <-]. pose proof (range_checked o n Ho Hn E). unfold is_u64 in *. lia.
Qed.

Lemma section_data i : 0 <= i ->
  exists o, elf_getSection elf i f = Ok (o, f) /\
    forall p, o = Some p -> i < num_sections f elf /\ exists size, elf_getSectionSize elf i f = Ok (size, f) /\ 0 <= p /\ 0 < size /\
      p + size <= Z.of_nat (length f).
Proof.
  intros Hi. unfold elf_getSection, bind at 1. rewrite num_sections_run. destruct (Z.eqb_spec i 0) as [|Hi0]; cbn [orb]; [by eexists|].
  destruct (Z.leb_spec (num_sections f elf) i) as [|Hin]; [by eexists|].
  destruct (section_run elf_getSectionOffset i) as (o & Eo & Ho); [set_solver|done|].
  destruct (section_run elf_getSectionSize i) as (n & En & Hn); [set_solver|done|].
  unfold bind, ret. rewrite Eo, En. destruct (Z.eqb_spec n 0) as [|Hn0]; [by eexists|]. destruct (_ || _) eqn:E; [by eexists|].
  eexists. split; [done|]. intros p [= <-]. split; [done|]. exists n. pose proof (range_checked o n Ho Hn E). unfold is_u64 in *. split; [done|lia].
Qed.

(** A string table ends with a zero byte. *)
Lemma string_table i : 0 <= i ->
  exists o, elf_getStringTable elf i f = Ok (o, f) /\
    forall p, o = Some p -> exists size, elf_getSectionSize elf i f = Ok (size, f) /\ 0 <= p /\ 0 < size /\
      p + size <= Z.of_nat (length f) /\ f !! Z.to_nat (p + size - 1) = Some 0.
Proof.
  intros Hi. unfold elf_getStringTable. destruct (section_data i Hi) as (o & Eo & Ho). unfold bind at 1. rewrite Eo.
  destruct o as [p|]; [|by eexists]. destruct (Ho p eq_refl) as (Hn & size & Es & Hp & Hs & Hps).
  destruct (section_run elf_getSectionType i) as (ty & Et & _); [set_solver|lia|].
  unfold bind at 1. rewrite Et. destruct (negb (ty =? SHT_STRTAB)); [by eexists|].
  unfold bind. rewrite Es. rewrite u64_id by (unfold is_u64; lia). rewrite rd_fld_in by (cbn; lia). cbn [fst snd].
  unfold ret. eexists. split; [done|]. intros q. destruct (negb _) eqn:Ez; [done|]. intros [= <-]. exists size. split_and!; try done.
  apply negb_false_iff, Z.eqb_eq in Ez. unfold peek in Ez. cbn [fst snd] in Ez.
  destruct (lookup_lt_is_Some_2 f (Z.to_nat (p + size - 1))) as [b Hb]; [lia|]. rewrite Hb. f_equal.
  replace (p + (size - 1) + 0) with (p + size - 1) in Ez by lia. rewrite (drop_S f b) in Ez by done.
  change (b + 256 * 0 = 0) in Ez. lia.
Qed.

Lemma memory_bounds_run t n i lo hi : 0 <= i -> i + Z.of_nat n <= num_segments f elf ->
  exists r, bounds_loop elf t n i lo hi f = Ok (r, f).
Proof.
  revert i lo hi. induction n as [|n IH]; intros i lo hi Hi Hn; cbn [bounds_loop]; [by eexists|].
  destruct (segment_run elf_getProgramHeaderMemorySize i) as (size & Es & _); [set_solver|lia|]. unfold bind at 1. rewrite Es.
  destruct (size =? 0); [apply IH; lia|].
  assert (exists v, segment_min elf t i f = Ok (v, f)) as [v Ev].
  { destruct t; [destruct (segment_run elf_getProgramHeaderVaddr i) as (v & Ev & _)|destruct (segment_run elf_getProgramHeaderPaddr i) as (v & Ev & _)];
      try set_solver; try lia; by exists v. }
  unfold bind. rewrite Ev. apply IH; lia.
Qed.
(** The index of the table of section names; an accepted file has it in range. *)
Definition name_table_index : Z := peek f (e_shstrndx (Ehdr elf)).

Lemma name_table_index_run : elf_getSectionStringTableIndex elf f = Ok (name_table_index, f).
Proof.
  transitivity (hdr_get e_shstrndx f); [unfold elf_getSectionStringTableIndex, hdr_get, Ehdr; by destruct (elf_isElf32 elf)|].
  apply hdr_get_run, (lo_shstrndx _ (Ehdr_ok elf)).
Qed.

Lemma name_table_index_nonneg : 0 <= name_table_index.
Proof. apply peek_range; [done|apply (lo_shstrndx _ (Ehdr_ok elf))]. Qed.

Lemma name_table : exists o, elf_getSectionStringTable elf f = Ok (o, f) /\ forall p, o = Some p -> 0 <= p < Z.of_nat (length f).
Proof.
  unfold elf_getSectionStringTable, bind. rewrite name_table_index_run.
  destruct (string_table name_table_index name_table_index_nonneg) as (o & -> & Ho). exists o. split; [done|].
  intros p Hp. destruct (Ho p Hp) as (size & _ & H1 & H2 & H3 & _). lia.
Qed.

(** The name of a section: a pointer into the table or to its end. *)
Lemma section_name i : 0 <= i < num_sections f elf ->
  exists o, elf_getSectionName elf i f = Ok (o, f) /\ forall p, o = Some p -> 0 <= p <= Z.of_nat (length f).
Proof.
  intros Hi. pose proof name_table_index_nonneg as H0. pose proof (ve_strndx _ _ Hv : name_table_index < num_sections f elf) as Hidx. unfold elf_getSectionName, bind. rewrite name_table_index_run.
  destruct (string_table name_table_index H0) as (o & -> & Ho).
  destruct (section_run elf_getSectionNameOffset i) as (off & -> & Hoff); [set_solver|done|].
  destruct (section_run elf_getSectionSize name_table_index) as (size & Es & Hsize); [set_solver|done|]. rewrite Es.
  eexists. split; [done|]. intros p. destruct o as [t|]; [|done]. destruct (Ho t eq_refl) as (size' & Es' & H1 & H2 & H3 & _).
  rewrite Es in Es'. injection Es' as <-. destruct (Z.ltb_spec size off); [done|]. intros [= <-]. unfold is_u64 in *. lia.
Qed.

Lemma address_tests ph vaddr : 0 <= ph < num_segments f elf ->
  (exists b, elf_vaddrInProgramHeader elf ph vaddr f = Ok (b, f)) /\ (exists a, elf_vtopProgramHeader elf ph vaddr f = Ok (a, f) /\ is_u64 a).
Proof.
  intros Hph. destruct (segment_run elf_getProgramHeaderVaddr ph) as (lo & El & _); [set_solver|done|].
  destruct (segment_run elf_getProgramHeaderMemorySize ph) as (n & En & _); [set_solver|done|].
  destruct (segment_run elf_getProgramHeaderPaddr ph) as (pa & Ep & _); [set_solver|done|].
  unfold elf_vaddrInProgramHeader, elf_vtopProgramHeader, bind, ret. rewrite El, En, Ep, El. split; [by eexists|].
  eexists. split; [done|]. apply u64_range.
Qed.
End Valid.

(** Every accessor returns, and what it points to is inside the file; a name handed out by [elf_getSectionName] may
    also be the address of the end of the table. *)
Record readable (f : file) (elf : elf_t) : Prop := {
  rb_header : forall g, g ∈ header_getters -> exists v, g elf f = Ok (v, f);
  rb_section : forall g i, g ∈ section_getters -> 0 <= i < num_sections f elf -> exists v, g elf i f = Ok (v, f) /\ is_u64 v;
  rb_segment : forall g i, g ∈ segment_getters -> 0 <= i < num_segments f elf -> exists v, g elf i f = Ok (v, f) /\ is_u64 v;
  rb_counts : elf_getNumProgramHeaders elf f = Ok (num_segments f elf, f) /\ elf_getNumSections elf f = Ok (num_sections f elf, f);
  rb_program : forall ph, 0 <= ph < num_segments f elf ->
    exists o size, elf_getProgramSegment elf ph f = Ok (o, f) /\ elf_getProgramHeaderFileSize elf ph f = Ok (size, f) /\
      forall p, o = Some p -> 0 <= p /\ 0 <= size /\ p + size <= Z.of_nat (length f);
  rb_data : forall i, 0 <= i -> exists o, elf_getSection elf i f = Ok (o, f) /\
    forall p, o = Some p -> i < num_sections f elf /\ exists size, elf_getSectionSize elf i f = Ok (size, f) /\ 0 <= p /\ 0 < size /\
      p + size <= Z.of_nat (length f);
  rb_strings : forall i, 0 <= i -> exists o, elf_getStringTable elf i f = Ok (o, f) /\
    forall p, o = Some p -> exists size, elf_getSectionSize elf i f = Ok (size, f) /\ 0 <= p /\ 0 < size /\
      p + size <= Z.of_nat (length f) /\ f !! Z.to_nat (p + size - 1) = Some 0;
  rb_bounds : forall t, exists r, elf_getMemoryBounds elf t f = Ok (r, f);
  rb_name_table : exists o, elf_getSectionStringTable elf f = Ok (o, f) /\ forall p, o = Some p -> 0 <= p < Z.of_nat (length f);
  rb_address : forall ph vaddr, 0 <= ph < num_segments f elf ->
    (exists b, elf_vaddrInProgramHeader elf ph vaddr f = Ok (b, f)) /\ (exists a, elf_vtopProgramHeader elf ph vaddr f = Ok (a, f) /\ is_u64 a);
  rb_name : forall i, 0 <= i < num_sections f elf ->
    exists o, elf_getSectionName elf i f = Ok (o, f) /\ forall p, o = Some p -> 0 <= p <= Z.of_nat (length f)
}.

Lemma valid_readable f elf : Forall is_u8 f -> Z.of_nat (length f) < 2 ^ 64 -> valid_elf f elf -> readable f elf.
Proof.
  intros Hf Hl Hv. split.
  - by apply header_run.
  - by apply section_run.
  - by apply segment_run.
  - split; [by apply num_segments_run|by apply num_sections_run].
  - by apply program_segment.
  - by apply section_data.
  - by apply string_table.
  - intros t. unfold elf_getMemoryBounds, bind. rewrite num_segments_run by done. apply memory_bounds_run; try done.
    rewrite Z2Nat.id; [lia|]. apply peek_bound; [done|]. by rewrite (proj2 (lo_phnum _ (Ehdr_ok elf))).
  - by apply name_table.
  - by apply address_tests.
  - by apply section_name.
Qed.


(** A header alone, of class 64, with an empty segment table and one section. *)
Definition demo_elf : file :=
  ELFMAG ++ [2] ++ replicate 27 0 ++ le64 64 ++ le64 64 ++ replicate 6 0 ++ [56; 0; 0; 0; 64; 0; 1; 0; 0; 0] ++ replicate 64 0.

