(* ===== verification/Loader.v ===== *)
(** * Loading an ELF file into the address space ([runtime/loader/loader.c])

    [loadElf] maps the loadable segments of a file that is in memory: whole pages
    of file data are mapped where they are, the page in which the data ends and
    those after it are allocated and filled.  The accessors of [Elf] run on the bytes
    of the file in memory. *)

From S2P Require Import Prelude Mem Vm Freemem PageTable Paging Elf.
From Stdlib Require Import ZArith Lia.
From stdpp Require Import base tactics sets list list_numbers numbers.
Local Open Scope Z_scope.
Local Open Scope keystone_scope.

(** ** Operations *)

Definition PF_X : Z := 1.
Definition PF_W : Z := 2.
Definition PF_R : Z := 4.
Definition PAGE_DOWN (n : Z) : Z := ROUND_DOWN n RISCV_PAGE_BITS.

Definition pt_mode_from_elf (elf_pt_mode : Z) : Z :=
  Z.lor (Z.lor (Z.b2z (0 <? Z.land elf_pt_mode PF_X) * PTE_X)
               (Z.b2z (0 <? Z.land elf_pt_mode PF_W) * Z.lor (Z.lor PTE_W PTE_R) PTE_D))
        (Z.b2z (0 <? Z.land elf_pt_mode PF_R) * PTE_R).

(** Reading through [elf->elfFile]: the accessor sees the bytes of the file as they
    are in memory now. *)
Definition with_file {A} (elfFile : Z) (elf : elf_t) (c : M file A) : M rt_state A := fun s =>
  match c (read_bytes (rmem s) elfFile (Z.to_nat (elfSize elf))) with
  | Ok (a, _) => Ok (a, s)
  | Hang => Hang
  | UB => UB
  end.

(** [memcpy]; overlapping buffers are undefined. *)
Definition rt_memcpy (dst src n : Z) : M rt_state unit :=
  let! s := get in
  if ranges_disjoint dst n src n
  then modify (set_rmem (write_bytes (rmem s) dst (read_bytes (rmem s) src (Z.to_nat n))))
  else ub.

(** [while (va + RISCV_PAGE_SIZE <= file_end)]: maps pages of the file; the result is
    the status and the final [va] and [src].  The fuel, the pages up to [file_end], is used
    up only when [va] wraps around and the loop of the program does not end. *)
Fixpoint map_file_pages (fuel : nat) (va src file_end pt_mode : Z) : M rt_state (Z * Z * Z) :=
  if va +w RISCV_PAGE_SIZE <=? file_end then
    match fuel with
    | O => hang
    | S fuel =>
        let! s := get in
        let src_pa := __pa s src in
        let! r := map_page (vpn va) (ppn src_pa) pt_mode in
        if r =? 0 then ret (-1, va, src)
        else map_file_pages fuel (va +w RISCV_PAGE_SIZE) (src +w RISCV_PAGE_SIZE) file_end pt_mode
    end
  else ret (0, va, src).

(** [while (va < memory_end)]: allocates the remaining pages. *)
Fixpoint load_bss (fuel : nat) (va src file_end memory_end pt_mode : Z) : M rt_state Z :=
  if va <? memory_end then
    match fuel with
    | O => hang
    | S fuel =>
        let! new_page := alloc_page (vpn va) pt_mode in
        if new_page =? 0 then ret (-1)
        else
          (if va <? file_end then rt_memcpy new_page src (file_end -w va) else ret tt) ;;;
          load_bss fuel (va +w RISCV_PAGE_SIZE) src file_end memory_end pt_mode
    end
  else ret 0.

Definition page_rounds (va top : Z) : nat := Z.to_nat ((top -w va) / RISCV_PAGE_SIZE + 1).

(** The first page of a segment that does not start at a page boundary; status, [va] and
    [src] afterwards. *)
Definition load_first_page (va src pt_mode : Z) : M rt_state (Z * Z * Z) :=
  if negb (RISCV_PAGE_OFFSET va =? 0) then
    if negb (RISCV_PAGE_OFFSET va =? RISCV_PAGE_OFFSET src) then ret (-1, va, src)
    else
      let! new_page := alloc_page (vpn va) pt_mode in
      if new_page =? 0 then ret (-1, va, src)
      else
        rt_memcpy (new_page +w RISCV_PAGE_OFFSET va) src (RISCV_PAGE_SIZE - RISCV_PAGE_OFFSET va) ;;;
        ret (0, PAGE_DOWN va +w RISCV_PAGE_SIZE, PAGE_DOWN src +w RISCV_PAGE_SIZE)
  else ret (0, va, src).

(** The body of the loop over the program headers. *)
Definition load_segment (elfFile : Z) (elf : elf_t) (user : bool) (i : Z) : M rt_state Z :=
  let! type := with_file elfFile elf (elf_getProgramHeaderType elf i) in
  if negb (type =? PT_LOAD) then ret 0
  else
    let! start := with_file elfFile elf (elf_getProgramHeaderVaddr elf i) in
    let! file_size := with_file elfFile elf (elf_getProgramHeaderFileSize elf i) in
    let! memory_size := with_file elfFile elf (elf_getProgramHeaderMemorySize elf i) in
    let! segment := with_file elfFile elf (elf_getProgramSegment elf i) in
    let! flags := with_file elfFile elf (elf_getProgramHeaderFlags elf i) in
    let file_end := start +w file_size in
    let memory_end := start +w memory_size in
    let src := match segment with Some o => elfFile +w o | None => 0 end in
    let pt_mode := Z.lor (pt_mode_from_elf flags) (Z.b2z user * PTE_U) in
    let! '(r, va, src) := load_first_page start src pt_mode in
    if negb (r =? 0) then ret (-1)
    else
      let! '(r, va, src) := map_file_pages (page_rounds va file_end) va src file_end pt_mode in
      if negb (r =? 0) then ret (-1)
      else load_bss (page_rounds va memory_end) va src file_end memory_end pt_mode.

(** The loop over the program headers; their number is read again in every round. *)
Fixpoint load_segments (fuel : nat) (elfFile : Z) (elf : elf_t) (user : bool) (i : Z) : M rt_state Z :=
  let! num := with_file elfFile elf (elf_getNumProgramHeaders elf) in
  if i <? num then
    match fuel with
    | O => hang
    | S fuel =>
        let! r := load_segment elfFile elf user i in
        if negb (r =? 0) then ret (-1) else load_segments fuel elfFile elf user (u32 (i + 1))
    end
  else ret 0.

(** The number is a 16-bit field of the file header. *)
Definition loadElf (elfFile : Z) (elf : elf_t) (user : bool) : M rt_state Z :=
  load_segments (Z.to_nat (2 ^ 16)) elfFile elf user 0.

(** ** Addresses and pages *)

Lemma vaddr_vpn va : is_u64 va -> vaddr (vpn va) = va - va mod RISCV_PAGE_SIZE.
Proof.
  intros Hva. unfold vaddr, vpn, RISCV_PAGE_BITS, is_u64 in *. change RISCV_PAGE_SIZE with (2 ^ 12).
  rewrite Z.shiftr_div_pow2, Z.shiftl_mul_pow2, u64_id by (unfold is_u64; mlia || lia). mlia.
Qed.

(** Addresses of the user half have the same indices exactly when they are in the same
    page. *)
Lemma idx3_page x y : 0 <= x < 2 ^ 38 -> 0 <= y < 2 ^ 38 ->
  idx3 x = idx3 y <-> x / RISCV_PAGE_SIZE = y / RISCV_PAGE_SIZE.
Proof.
  intros Hx Hy. unfold idx3. rewrite !PT_INDEX_spec by lia. change RISCV_PAGE_SIZE with 4096.
  change (9 * (3 - 1) + 12) with 30. change (9 * (3 - 2) + 12) with 21. change (9 * (3 - 3) + 12) with 12.
  change (2 ^ 30) with (4096 * 512 * 512). change (2 ^ 21) with (4096 * 512). change (2 ^ 12) with 4096. change (2 ^ 9) with 512.
  rewrite <- !Z.div_div by lia.
  assert (forall z, 0 <= z < 2 ^ 38 -> 0 <= z / 4096 < 2 ^ 26) as Hr by (intros; mlia).
  pose proof (Hr x Hx). pose proof (Hr y Hy).
  set (u := x / 4096) in *. set (v := y / 4096) in *. clearbody u v. clear Hr Hx Hy. split; [|by intros ->].
  intros [= H1 H2 H3]. mlia.
Qed.

Lemma owned_page_ok s L2 L3 l p : pt_inv s L2 L3 l -> p ∈ owned s L2 L3 l -> page_ok p.
Proof.
  intros Hinv [Hp|Hp]%elem_of_app; [by apply (pi_pages _ _ _ _ Hinv)|].
  pose proof (pi_queue _ _ _ _ Hinv) as [Hm _ _ _ Hpl _]. rewrite Forall_forall in Hpl.
  apply (free_page_page_ok s); [done|]. by apply Hpl, list_elem_of_In.
Qed.

Lemma in_page_eq p q a : page_ok p -> page_ok q -> in_page p a -> in_page q a -> p = q.
Proof. unfold in_page. intros (_ & _ & ?) (_ & _ & ?). change RISCV_PAGE_SIZE with 4096 in *. mlia. Qed.

Lemma page_top p : page_ok p -> p + RISCV_PAGE_SIZE <= 2 ^ 64.
Proof. intros (Hp & _ & ?). unfold is_u64 in Hp. change RISCV_PAGE_SIZE with 4096 in *. mlia. Qed.

Lemma in_page_u64 p a : page_ok p -> in_page p a -> is_u64 a.
Proof. intros Hp Ha. pose proof (page_top p Hp). destruct Hp as (? & _). unfold in_page, is_u64 in *. lia. Qed.

Lemma page_offset va : 0 <= va mod RISCV_PAGE_SIZE < RISCV_PAGE_SIZE.
Proof. apply Z.mod_pos_bound. done. Qed.

(** Two pieces of different pages do not overlap. *)
Lemma page_parts_disjoint p q a n b m : page_ok p -> page_ok q -> p <> q ->
  p <= a -> 0 < n -> a + n <= p + RISCV_PAGE_SIZE -> q <= b -> 0 < m -> b + m <= q + RISCV_PAGE_SIZE ->
  ranges_disjoint a n b m = true.
Proof.
  intros Hp Hq Hne. pose proof (page_top p Hp). pose proof (page_top q Hq).
  destruct Hp as (? & _ & ?), Hq as (? & _ & ?). intros. unfold ranges_disjoint, is_u64, u64 in *.
  change RISCV_PAGE_SIZE with 4096 in *. apply andb_true_iff. rewrite !Z.leb_le.
  assert (p + 4096 <= q \/ q + 4096 <= p) as [?|?] by mlia.
  - rewrite (Z.mod_small (b - a)) by lia.
    replace (a - b) with (a - b + 2 ^ 64 + (-1) * 2 ^ 64) by lia. rewrite Z_mod_plus_full, Z.mod_small by lia. lia.
  - rewrite (Z.mod_small (a - b)) by lia.
    replace (b - a) with (b - a + 2 ^ 64 + (-1) * 2 ^ 64) by lia. rewrite Z_mod_plus_full, Z.mod_small by lia. lia.
Qed.

(** ** What has been loaded *)

(** The byte at the user address [va] is [b], in a page with flags [m] that the memory
    manager, which owns the pages [P], no longer touches. *)
Definition loaded (P : list Z) (s : rt_state) (va m b : Z) : Prop :=
  exists q, page_ok q /\ (q ∉ P) /\ pte_map s (idx3 va) = pte_create (ppn (__pa s q)) (user_flags m) /\
    rmem s (q + va mod RISCV_PAGE_SIZE) = b.

(** A step that changes mappings in the region [R] only. *)
Record extends_on (R : Z -> Prop) (P : list Z) (s s' : rt_state) (P' : list Z) : Prop := {
  ex_globals : same_globals s s';
  ex_touches : only_touches P s s' P';
  ex_map : forall j, is_idx3 j -> (forall va, R va -> idx3 va <> j) -> pte_map s' j = pte_map s j
}.
Definition extends (lo hi : Z) : list Z -> rt_state -> rt_state -> list Z -> Prop := extends_on (fun va => lo <= va < hi).

Lemma extends_on_trans (R R1 R2 : Z -> Prop) P s P1 s1 P2 s2 : (forall va, R1 va \/ R2 va -> R va) ->
  extends_on R1 P s s1 P1 -> extends_on R2 P1 s1 s2 P2 -> extends_on R P s s2 P2.
Proof.
  intros Hr [G1 T1 M1] [G2 T2 M2]. split; [by etransitivity|by eapply only_touches_trans|].
  intros j Hj Hout. rewrite M2, M1; [done|done| |done|]; intros va Hva; apply Hout, Hr; auto.
Qed.

Lemma extends_refl lo P s : extends lo lo P s s P.
Proof. split; [done|apply only_touches_refl|done]. Qed.

Lemma extends_trans lo mid hi P s P1 s1 P2 s2 : lo <= mid <= hi ->
  extends lo mid P s s1 P1 -> extends mid hi P1 s1 s2 P2 -> extends lo hi P s s2 P2.
Proof. intros Hm. apply extends_on_trans. lia. Qed.

Lemma loaded_extends_on R P s s' P' va m b : extends_on R P s s' P' -> (forall p, p ∈ P -> page_ok p) ->
  (forall x, R x -> idx3 x <> idx3 va) -> loaded P s va m b -> loaded P' s' va m b.
Proof.
  intros [G [Tm Ts] M] HP Hout (q & Hq & Hqp & Hmap & Hb). exists q. split; [done|]. split; [auto|]. split.
  - rewrite M by (done || apply is_idx3_idx3). unfold __pa. by rewrite (sg_load _ _ G).
  - pose proof (page_offset va). assert (in_page q (q + va mod RISCV_PAGE_SIZE)) as Hin by (unfold in_page; lia).
    rewrite Tm; [done|by apply (in_page_u64 q)|]. intros p Hp Hpin. apply Hqp. by rewrite (in_page_eq q p _ Hq (HP p Hp) Hin Hpin).
Qed.

Lemma loaded_extends lo hi P s s' P' va m b : extends lo hi P s s' P' -> (forall p, p ∈ P -> page_ok p) ->
  (forall x, lo <= x < hi -> idx3 x <> idx3 va) -> loaded P s va m b -> loaded P' s' va m b.
Proof. apply loaded_extends_on. Qed.

(** A byte of a page the memory manager does not own. *)
Lemma untouched_byte P s s' P' q x : only_touches P s s' P' -> (forall p, p ∈ P -> page_ok p) -> page_ok q -> q ∉ P -> in_page q x ->
  rmem s' x = rmem s x.
Proof.
  intros [Tm _] HP Hq Hqp Hx. apply Tm; [by apply (in_page_u64 q)|]. intros p Hp Hpx. apply Hqp. by rewrite (in_page_eq q p x Hq (HP p Hp)).
Qed.

(** ** Writing into a page that was taken *)

Lemma pt_inv_write s L2 L3 l p a bs : pt_inv s L2 L3 l -> page_ok p -> p ∉ owned s L2 L3 l ->
  p <= a -> a + Z.of_nat (length bs) <= p + RISCV_PAGE_SIZE -> bs <> [] ->
  let s' := set_rmem (write_bytes (rmem s) a bs) s in
  pt_inv s' L2 L3 l /\ (forall j, is_idx3 j -> pte_map s' j = pte_map s j).
Proof.
  intros Hinv Hp Hpo Ha Htop Hne s'.
  assert (0 < Z.of_nat (length bs)) as Hlen by (destruct bs; [done|simpl; lia]).
  assert (forall q b, q ∈ owned s L2 L3 l -> q <= b -> b + 8 <= q + RISCV_PAGE_SIZE ->
    load64 (rmem s') b = load64 (rmem s) b) as Hload.
  { intros q b Hq ? ?. apply load64_write_disjoint. apply (page_parts_disjoint p q); try done; [by apply (owned_page_ok s L2 L3 l)|].
    intros ->. by apply Hpo. }
  destruct (pt_inv_frame s s' L2 L3 l l Hinv) as [Hinv' Hmap]; [by split| |apply Hinv| |].
  - apply (spa_queue_ext s); [apply Hinv|by split|done|]. intros q Hq.
    apply (Hload q); [by apply elem_of_app; right|lia|by change RISCV_PAGE_SIZE with 4096; lia].
  - intros t k Ht Hk. assert (page_ok t) as Htp by by apply (pi_pages _ _ _ _ Hinv).
    unfold table_of. rewrite pte_addr_eq by done. unfold is_idx in Hk.
    apply (Hload t); [by apply elem_of_app; left|lia|by change RISCV_PAGE_SIZE with 4096; lia].
  - split; [done|]. intros j Hj. apply Hmap, Hj.
Qed.

(** Bytes after a copy of [n] bytes to [a], at addresses of the address space. *)
Lemma write_read_spec f g a src n x : is_u64 x -> 0 <= a -> 0 <= n -> a + n <= 2 ^ 64 -> 0 <= src -> src + n <= 2 ^ 64 ->
  write_bytes f a (read_bytes g src (Z.to_nat n)) x = if decide (a <= x < a + n) then g (src + (x - a)) else f x.
Proof.
  intros Hx Ha Hn Htop Hs Hst. unfold write_bytes, in_range, is_u64 in *. rewrite length_read_bytes, Z2Nat.id by lia.
  case_decide as Hd.
  - assert (u64 (x - a) = x - a) as -> by (apply u64_id; unfold is_u64; lia).
    rewrite (proj2 (Z.ltb_lt _ _)) by lia. unfold read_bytes.
    rewrite (nth_indep _ 0 (g (u64 (src + Z.of_nat 0)))) by (rewrite length_map, length_seq; lia).
    rewrite (map_nth (fun i => g (u64 (src + Z.of_nat i)))), seq_nth by lia. simpl (0 + _)%nat.
    rewrite u64_id by (unfold is_u64; lia). f_equal. lia.
  - destruct (_ <? _) eqn:E; [exfalso|done]. apply Z.ltb_lt in E. unfold u64 in E. apply Hd. mlia.
Qed.

Lemma wp_copy s L2 L3 l p q o src n (Q : unit -> rt_state -> Prop) : pt_inv s L2 L3 l -> page_ok p -> p ∉ owned s L2 L3 l ->
  page_ok q -> p <> q -> 0 <= o -> 0 < n -> o + n <= RISCV_PAGE_SIZE -> q <= src -> src + n <= q + RISCV_PAGE_SIZE ->
  (forall s', pt_inv s' L2 L3 l -> same_globals s s' -> (forall j, is_idx3 j -> pte_map s' j = pte_map s j) ->
    (forall x, is_u64 x -> rmem s' x = if decide (p + o <= x < p + o + n) then rmem s (src + (x - (p + o))) else rmem s x) ->
    Q tt s') ->
  wp (rt_memcpy (p +w o) src n) Q s.
Proof.
  intros Hinv Hp Hpo Hq Hne Ho Hn Hon Hs Hsn HQ. pose proof (page_top p Hp). pose proof (page_top q Hq).
  pose proof Hp as (Hpu & _). pose proof Hq as (Hqu & _). unfold is_u64 in *.
  assert (p +w o = p + o) as -> by (apply u64_id; unfold is_u64; change RISCV_PAGE_SIZE with 4096 in *; lia).
  unfold rt_memcpy. wp_step. wp_step. rewrite (page_parts_disjoint p q) by (done || lia). wp_step.
  set (bs := read_bytes _ _ _). assert (length bs = Z.to_nat n) as Hbs by apply length_read_bytes.
  destruct (pt_inv_write s L2 L3 l p (p + o) bs Hinv Hp Hpo) as [Hinv' Hmap]; [lia|lia|by destruct bs; [simpl in *; lia|]|].
  apply HQ; [exact Hinv'|by split|exact Hmap|]. intros x Hx. apply write_read_spec; lia || done.
Qed.

(** Allocating the page of an unmapped user address. *)
Lemma wp_load_alloc s L2 L3 l va m (Q : Z -> rt_state -> Prop) : pt_inv s L2 L3 l -> (3 <= length l)%nat -> 0 <= va < 2 ^ 38 -> 0 <= m ->
  valid_pte (pte_map s (idx3 va)) = false ->
  (forall p s' L2' L3' l', pt_inv s' L2' L3' l' -> (length l <= length l' + 3)%nat -> page_ok p -> (p ∈ owned s L2 L3 l) ->
    (p ∉ owned s' L2' L3' l') -> same_globals s s' -> only_touches (owned s L2 L3 l) s s' (owned s' L2' L3' l') ->
    (forall j, is_idx3 j -> pte_map s' j = if decide (j = idx3 va) then pte_create (ppn (__pa s p)) (user_flags m) else pte_map s j) ->
    (forall x, is_u64 x -> in_page p x -> rmem s' x = 0) -> Q p s') ->
  wp (alloc_page (vpn va) m) Q s.
Proof.
  intros Hinv Hl Hva Hm Hinvalid HQ.
  assert (idx3 (vaddr (vpn va)) = idx3 va) as Ei.
  { rewrite vaddr_vpn by (unfold is_u64; lia). change RISCV_PAGE_SIZE with 4096. apply idx3_page; [mlia|done|].
    change RISCV_PAGE_SIZE with 4096. mlia. }
  pose proof (missing_le s (vaddr (vpn va))).
  destruct (drop (missing s (vaddr (vpn va))) l) as [|p l1] eqn:Hd;
    [apply (f_equal length) in Hd; rewrite length_drop in Hd; simpl in Hd; lia|].
  apply (wp_alloc_page s L2 L3 l p l1); [done|lia|done|done|by rewrite Ei|]. rewrite Ei.
  intros s' L2' L3' t Hinv' Hg _ Hmap Hpt Hpl Hpok _ Hpin Hot Hz.
  apply (HQ p s' L2' L3' l1); try done.
  - apply (f_equal length) in Hd. rewrite length_drop in Hd. simpl in Hd. lia.
  - by apply (owned_page_ok s L2 L3 l).
  - intros [?|?]%elem_of_app; done.
Qed.

(** The result of taking a page for [va] and copying to offset [o] of it. *)
Definition filled (s : rt_state) (m va o src n : Z) (P : list Z) (s' : rt_state) (P' : list Z) : Prop :=
  extends (va - va mod RISCV_PAGE_SIZE) (va - va mod RISCV_PAGE_SIZE + RISCV_PAGE_SIZE) P s s' P' /\
  forall x, va / RISCV_PAGE_SIZE = x / RISCV_PAGE_SIZE -> 0 <= x < 2 ^ 38 ->
    loaded P' s' x m (if decide (o <= x mod RISCV_PAGE_SIZE < o + n) then rmem s (src + (x mod RISCV_PAGE_SIZE - o)) else 0).

Lemma page_start va : 0 <= va -> va - va mod RISCV_PAGE_SIZE <= va < va - va mod RISCV_PAGE_SIZE + RISCV_PAGE_SIZE.
Proof. intros. change RISCV_PAGE_SIZE with 4096. mlia. Qed.

Lemma wp_alloc_filled {A} s L2 L3 l va m (o src n q : Z) (copy : Z -> M rt_state unit) (k0 : M rt_state A) (k : M rt_state A) (Q : A -> rt_state -> Prop) :
  pt_inv s L2 L3 l -> (3 <= length l)%nat -> 0 <= va < 2 ^ 38 -> 0 <= m -> valid_pte (pte_map s (idx3 va)) = false ->
  n = 0 \/ (page_ok q /\ (q ∉ owned s L2 L3 l) /\ 0 <= o /\ 0 < n /\ o + n <= RISCV_PAGE_SIZE /\ q <= src /\ src + n <= q + RISCV_PAGE_SIZE) ->
  (forall p, page_ok p -> copy p = if n =? 0 then ret tt else rt_memcpy (p +w o) src n) ->
  (forall s' L2' L3' l', pt_inv s' L2' L3' l' -> (length l <= length l' + 3)%nat ->
    filled s m va o src n (owned s L2 L3 l) s' (owned s' L2' L3' l') -> wp k Q s') ->
  wp (let! p := alloc_page (vpn va) m in
      if p =? 0 then k0 else copy p ;;; k) Q s.
Proof.
  intros Hinv Hl Hva Hm Hinvalid Hn Hcopy HQ. wp_step. apply (wp_load_alloc s L2 L3 l); try done.
  intros p s1 L2' L3' l' Hinv1 Hlen Hp Hpin Hpo Hg Hot Hmap Hz.
  rewrite (proj2 (Z.eqb_neq p 0)) by (destruct Hp as (_ & ? & _); lia). wp_step. rewrite Hcopy by done.
  pose proof (fun x => owned_page_ok s L2 L3 l x Hinv) as HP.
  assert (extends (va - va mod RISCV_PAGE_SIZE) (va - va mod RISCV_PAGE_SIZE + RISCV_PAGE_SIZE) (owned s L2 L3 l) s s1 (owned s1 L2' L3' l')) as Hex.
  { split; [done|done|]. intros j Hj Hout. rewrite Hmap by done. rewrite decide_False; [done|]. intros ->.
    apply (Hout va); [apply page_start; lia|done]. }
  assert (forall x, va / RISCV_PAGE_SIZE = x / RISCV_PAGE_SIZE -> 0 <= x < 2 ^ 38 -> idx3 x = idx3 va) as Hidx
    by (intros x Hx Hxr; by apply idx3_page).
  destruct Hn as [->|(Hq & Hqo & Ho & Hn & Hon & Hsq & Hsn)].
  - change (0 =? 0) with true. cbv iota. wp_step. apply (HQ s1 L2' L3' l'); [done|done|]. split; [done|].
    intros x Hx Hxr. pose proof (page_offset x). rewrite decide_False by lia. exists p. split; [done|]. split; [done|]. split.
    + rewrite (Hidx x Hx Hxr), Hmap, decide_True by (done || apply is_idx3_idx3). unfold __pa. by rewrite (sg_load _ _ Hg).
    + assert (in_page p (p + x mod RISCV_PAGE_SIZE)) by (unfold in_page; lia). apply Hz; [by apply (in_page_u64 p)|done].
  - rewrite (proj2 (Z.eqb_neq n 0)) by lia.
    apply (wp_copy s1 L2' L3' l' p q); try done; [by intros ->|].
    intros s2 Hinv2 Hg2 Hmap2 Hmem2.
    assert (owned s2 L2' L3' l' = owned s1 L2' L3' l') as Eo by (unfold owned, tables; by rewrite (sg_root _ _ Hg2)).
    apply (HQ s2 L2' L3' l'); [done|done|]. rewrite Eo. split.
    + destruct Hex as [_ [Hm1 Hs1] He]. split; [by etransitivity| |].
      * split; [|done]. intros a Ha Hout. rewrite Hmem2 by done. rewrite decide_False; [by apply Hm1|].
        intros ?. apply (Hout p Hpin). unfold in_page. lia.
      * intros j Hj Hout. rewrite Hmap2 by done. by apply He.
    + intros x Hx Hxr. pose proof (page_offset x). exists p. split; [done|]. split; [done|].
      assert (in_page p (p + x mod RISCV_PAGE_SIZE)) as Hxin by (unfold in_page; lia). split.
      * rewrite (Hidx x Hx Hxr), Hmap2, Hmap, decide_True by (done || apply is_idx3_idx3).
        unfold __pa. by rewrite (sg_load _ _ Hg2), (sg_load _ _ Hg).
      * rewrite Hmem2 by by apply (in_page_u64 p). case_decide as D1; case_decide as D2; try lia.
        -- rewrite <- (untouched_byte _ _ _ _ q _ Hot HP Hq Hqo); [f_equal; lia|unfold in_page; lia].
        -- apply Hz; [by apply (in_page_u64 p)|done].
Qed.

(** ** The two loops *)

Lemma wp_map_file_pages n : forall fuel s L2 L3 l va src file_end m (Q : Z * Z * Z -> rt_state -> Prop),
  pt_inv s L2 L3 l -> (2 * n <= length l)%nat -> (n <= fuel)%nat -> 0 <= m ->
  0 <= va <= 2 ^ 38 -> va mod RISCV_PAGE_SIZE = 0 -> (n <> 0%nat -> va + RISCV_PAGE_SIZE * Z.of_nat n <= file_end) ->
  file_end < va + RISCV_PAGE_SIZE * (Z.of_nat n + 1) -> file_end <= 2 ^ 38 ->
  0 < src -> src mod RISCV_PAGE_SIZE = 0 -> src + RISCV_PAGE_SIZE * Z.of_nat n < 2 ^ 64 ->
  (forall k, 0 <= k < Z.of_nat n -> src + RISCV_PAGE_SIZE * k ∉ owned s L2 L3 l) ->
  (forall x, va <= x < va + RISCV_PAGE_SIZE * Z.of_nat n -> valid_pte (pte_map s (idx3 x)) = false) ->
  let va' := va + RISCV_PAGE_SIZE * Z.of_nat n in
  (forall s' L2' L3' l', pt_inv s' L2' L3' l' -> (length l <= length l' + 2 * n)%nat ->
    extends va va' (owned s L2 L3 l) s s' (owned s' L2' L3' l') ->
    (forall x, va <= x < va' -> loaded (owned s' L2' L3' l') s' x m (rmem s (src + (x - va)))) ->
    Q (0, va', src + RISCV_PAGE_SIZE * Z.of_nat n) s') ->
  wp (map_file_pages fuel va src file_end m) Q s.
Proof.
  induction n as [|n IH]; intros fuel s L2 L3 l va src file_end m Q Hinv Hl Hfuel Hm Hva Hal Hlo Hhi Htop Hs Hsal Hst Hapart Hun va' HQ; subst va'.
  - assert (va +w RISCV_PAGE_SIZE = va + RISCV_PAGE_SIZE) as Eva
      by (change RISCV_PAGE_SIZE with 4096 in *; apply u64_id; unfold is_u64; lia).
    destruct fuel; cbn [map_file_pages]; rewrite Eva, (proj2 (Z.leb_gt _ _)) by lia; wp_step; clear Hlo;
    rewrite Z.mul_0_r, !Z.add_0_r in HQ;
    (apply (HQ s L2 L3 l); [done|lia|apply extends_refl|intros; lia]).
  - destruct fuel as [|fuel]; [lia|]. cbn [map_file_pages]. rewrite Nat2Z.inj_succ in *. specialize (Hlo ltac:(done)).
    assert (va +w RISCV_PAGE_SIZE = va + RISCV_PAGE_SIZE) as Eva
      by (change RISCV_PAGE_SIZE with 4096 in *; apply u64_id; unfold is_u64; lia).
    assert (src +w RISCV_PAGE_SIZE = src + RISCV_PAGE_SIZE) as Esrc
      by (change RISCV_PAGE_SIZE with 4096 in *; apply u64_id; unfold is_u64; lia).
    assert (RISCV_PAGE_SIZE = 4096) as Hpos by done.
    assert (va + RISCV_PAGE_SIZE * Z.succ (Z.of_nat n) = va + RISCV_PAGE_SIZE + RISCV_PAGE_SIZE * Z.of_nat n) as Ev by lia.
    assert (page_ok src) as Hsp by (split; [unfold is_u64; lia|done]).
    pose proof (Hapart 0 ltac:(lia)) as Hso. rewrite Z.mul_0_r, Z.add_0_r in Hso.
    assert (idx3 (vaddr (vpn va)) = idx3 va) as Ei.
    { rewrite vaddr_vpn, Hal, Z.sub_0_r by (unfold is_u64; lia). done. }
    rewrite Eva, Esrc, (proj2 (Z.leb_le _ _)) by lia. wp_step. wp_step. wp_step.
    apply (wp_map_page s L2 L3 l); [done|lia|done|]. rewrite Ei, Hun by lia.
    intros s1 L2' L3' Hinv1 Hg Hot Hmap. change (1 =? 0) with false. cbv iota.
    set (l1 := drop _ l) in *. assert (length l <= length l1 + 2)%nat as Hl1
      by (unfold l1; rewrite length_drop; pose proof (missing_le s (vaddr (vpn va))); lia).
    pose proof (fun x => owned_page_ok s L2 L3 l x Hinv) as HP.
    pose proof (fun x => owned_page_ok s1 L2' L3' l1 x Hinv1) as HP1.
    assert (forall x, va <= x < va + RISCV_PAGE_SIZE -> idx3 x = idx3 va) as Hsame.
    { intros x Hx. apply idx3_page; [lia|lia|]. change RISCV_PAGE_SIZE with 4096 in *. mlia. }
    assert (forall x y, va <= y < va + RISCV_PAGE_SIZE -> va + RISCV_PAGE_SIZE <= x < va + RISCV_PAGE_SIZE + RISCV_PAGE_SIZE * Z.of_nat n -> idx3 x <> idx3 y) as Hdiff.
    { intros x y Hy Hx E. apply idx3_page in E; [|lia|lia]. change RISCV_PAGE_SIZE with 4096 in *. clear -E Hx Hy Hal. mlia. }
    assert (extends va (va + RISCV_PAGE_SIZE) (owned s L2 L3 l) s s1 (owned s1 L2' L3' l1)) as Hex.
    { split; [done|done|]. intros j Hj Hout. rewrite Hmap by done. rewrite decide_False; [done|].
      intros [_ ->]. by apply (Hout va); [lia|]. }
    apply (IH fuel s1 L2' L3' l1); try done; try lia.
    + change RISCV_PAGE_SIZE with 4096 in *. clear -Hal. mlia.
    + change RISCV_PAGE_SIZE with 4096 in *. clear -Hsal. mlia.
    + intros k Hk Hin. apply (Hapart (k + 1)); [lia|]. apply (ot_sub _ _ _ _ Hot).
      by replace (src + RISCV_PAGE_SIZE * (k + 1)) with (src + RISCV_PAGE_SIZE + RISCV_PAGE_SIZE * k) by lia.
    + intros x Hx. rewrite Hmap by apply is_idx3_idx3. rewrite decide_False; [apply Hun; lia|].
      intros [_ E]. by apply (Hdiff x va); [lia|lia|].
    + intros s2 L2'' L3'' l2 Hinv2 Hl2 Hex2 Hload2. rewrite Ev in HQ.
      replace (src + RISCV_PAGE_SIZE + RISCV_PAGE_SIZE * Z.of_nat n) with (src + RISCV_PAGE_SIZE * Z.succ (Z.of_nat n)) by lia.
      apply (HQ s2 L2'' L3'' l2); [done|lia|eapply (extends_trans va (va + RISCV_PAGE_SIZE)); [|exact Hex|exact Hex2]; lia|].
      intros x Hx. destruct (decide (x < va + RISCV_PAGE_SIZE)) as [Hlt|Hge].
      * apply (loaded_extends _ _ _ _ _ _ _ _ _ Hex2 HP1); [intros y Hy; apply Hdiff; lia|].
        exists src. split; [done|]. split; [intros Hin; by apply Hso, (ot_sub _ _ _ _ Hot)|].
        rewrite (Hsame x) by lia. rewrite Hmap, decide_True by (done || apply is_idx3_idx3). split.
        { unfold __pa. by rewrite (sg_load _ _ Hg). }
        replace (x mod RISCV_PAGE_SIZE) with (x - va) by (change RISCV_PAGE_SIZE with 4096 in *; clear -Hlt Hx Hal; mlia).
        apply (untouched_byte _ _ _ _ src _ Hot HP Hsp Hso). unfold in_page. lia.
      * replace (rmem s (src + (x - va))) with (rmem s1 (src + RISCV_PAGE_SIZE + (x - (va + RISCV_PAGE_SIZE)))); [apply Hload2; lia|].
        replace (src + RISCV_PAGE_SIZE + (x - (va + RISCV_PAGE_SIZE))) with (src + (x - va)) by lia.
        set (k := (x - va) / RISCV_PAGE_SIZE).
        assert (0 <= k < Z.succ (Z.of_nat n) /\ RISCV_PAGE_SIZE * k <= x - va < RISCV_PAGE_SIZE * k + RISCV_PAGE_SIZE) as [Hk Hkx]
          by (unfold k; change RISCV_PAGE_SIZE with 4096 in *; clear -Hx Hge; mlia).
        apply (untouched_byte _ _ _ _ (src + RISCV_PAGE_SIZE * k) _ Hot HP); [|by apply Hapart|unfold in_page; lia].
        split; [unfold is_u64; clear -Hk Hst Hs Hpos; nia|]. split; [clear -Hk Hs Hpos; nia|].
        change RISCV_PAGE_SIZE with 4096 in *. clear -Hsal. mlia.
Qed.

(** The byte the segment has at [x]: file data from [src] on for [va], then zeros. *)
Definition data_byte (f : Z -> Z) (va src file_end x : Z) : Z := if decide (x < file_end) then f (src + (x - va)) else 0.

Lemma wp_load_bss n : forall fuel s L2 L3 l va src file_end memory_end m (Q : Z -> rt_state -> Prop),
  pt_inv s L2 L3 l -> (3 * n <= length l)%nat -> (n <= fuel)%nat -> 0 <= m ->
  0 <= va -> va mod RISCV_PAGE_SIZE = 0 -> memory_end <= va + RISCV_PAGE_SIZE * Z.of_nat n ->
  (n <> 0%nat -> va + RISCV_PAGE_SIZE * (Z.of_nat n - 1) < memory_end) ->
  file_end < va + RISCV_PAGE_SIZE -> memory_end <= 2 ^ 38 ->
  (va < file_end -> va < memory_end -> page_ok src /\ src ∉ owned s L2 L3 l) ->
  let va' := va + RISCV_PAGE_SIZE * Z.of_nat n in
  (forall x, va <= x < va' -> valid_pte (pte_map s (idx3 x)) = false) ->
  (forall s' L2' L3' l', pt_inv s' L2' L3' l' -> (length l <= length l' + 3 * n)%nat ->
    extends va va' (owned s L2 L3 l) s s' (owned s' L2' L3' l') ->
    (forall x, va <= x < va' -> loaded (owned s' L2' L3' l') s' x m (data_byte (rmem s) va src file_end x)) -> Q 0 s') ->
  wp (load_bss fuel va src file_end memory_end m) Q s.
Proof.
  induction n as [|n IH]; intros fuel s L2 L3 l va src file_end memory_end m Q Hinv Hl Hfuel Hm Hva Hal Hhi Hlo Hfe Htop Hsrc va' Hun HQ;
    subst va'.
  - rewrite Z.mul_0_r, Z.add_0_r in *.
    destruct fuel; cbn [load_bss]; rewrite (proj2 (Z.ltb_ge _ _)) by lia; wp_step;
    (apply (HQ s L2 L3 l); [done|lia|apply extends_refl|intros; lia]).
  - destruct fuel as [|fuel]; [lia|]. cbn [load_bss]. rewrite Nat2Z.inj_succ in *. specialize (Hlo ltac:(done)).
    assert (RISCV_PAGE_SIZE = 4096) as Hpos by done.
    assert (va < 2 ^ 38) as Hvat by lia.
    assert (va +w RISCV_PAGE_SIZE = va + RISCV_PAGE_SIZE) as Eva
      by (change RISCV_PAGE_SIZE with 4096 in *; apply u64_id; unfold is_u64; lia).
    assert (va + RISCV_PAGE_SIZE * Z.succ (Z.of_nat n) = va + RISCV_PAGE_SIZE + RISCV_PAGE_SIZE * Z.of_nat n) as Ev by lia.
    rewrite Ev in *. rewrite Eva, (proj2 (Z.ltb_lt _ _)) by lia.
    set (len := if decide (va < file_end) then file_end - va else 0).
    assert (va + RISCV_PAGE_SIZE * Z.of_nat n < 2 ^ 38) as Hend by lia.
    assert (forall x y, va <= y < va + RISCV_PAGE_SIZE -> va + RISCV_PAGE_SIZE <= x < va + RISCV_PAGE_SIZE + RISCV_PAGE_SIZE * Z.of_nat n -> idx3 x <> idx3 y) as Hdiff.
    { intros x y Hy Hx E. change (2 ^ 38) with (4096 * 67108864) in *.
      apply idx3_page in E; change RISCV_PAGE_SIZE with 4096 in *; change (2 ^ 38) with (4096 * 67108864); [clear -E Hx Hy Hal; mlia| |];
      clear -Hx Hy Hend Hva Hal; mlia. }
    apply (wp_alloc_filled s L2 L3 l va m 0 src len src (fun p => if va <? file_end then rt_memcpy p src (file_end -w va) else ret tt));
      try done; [lia|apply Hun; lia| | |].
    { unfold len. case_decide; [right|by left]. destruct Hsrc as [Hsp Hso]; [done|lia|].
      split; [done|]. split; [done|]. lia. }
    { intros p (Hp & _). unfold len. case_decide as D.
      - rewrite (proj2 (Z.ltb_lt _ _)), (proj2 (Z.eqb_neq _ _)) by lia. f_equal; [by rewrite Z.add_0_r, u64_id|].
        apply u64_id. unfold is_u64. lia.
      - by rewrite (proj2 (Z.ltb_ge _ _)) by lia. }
    intros s1 L2' L3' l1 Hinv1 Hl1 [Hex Hfill]. rewrite Hal, Z.sub_0_r in Hex.
    pose proof (fun x => owned_page_ok s1 L2' L3' l1 x Hinv1) as HP1.
    apply (IH fuel s1 L2' L3' l1); try done; try lia.
    + change RISCV_PAGE_SIZE with 4096 in *. clear -Hal. mlia.
    + intros x Hx. rewrite (ex_map _ _ _ _ _ Hex); [apply Hun; lia|apply is_idx3_idx3|].
      intros y Hy E. by apply (Hdiff x y Hy Hx).
    + intros s2 L2'' L3'' l2 Hinv2 Hl2 Hex2 Hload2.
      apply (HQ s2 L2'' L3'' l2); [done|lia|eapply (extends_trans va (va + RISCV_PAGE_SIZE)); [|exact Hex|exact Hex2]; lia|].
      intros x Hx. unfold data_byte. destruct (decide (x < va + RISCV_PAGE_SIZE)) as [Hlt|Hge].
      * apply (loaded_extends _ _ _ _ _ _ _ _ _ Hex2 HP1); [intros y Hy; apply Hdiff; lia|].
        assert (x mod RISCV_PAGE_SIZE = x - va) as Emod by (change RISCV_PAGE_SIZE with 4096 in *; clear -Hlt Hx Hal; mlia).
        assert (x < 2 ^ 38) as Hx38.
        { change (2 ^ 38) with (4096 * 67108864) in *. change RISCV_PAGE_SIZE with 4096 in *. clear -Hlt Hvat Hal. mlia. }
        specialize (Hfill x). rewrite Emod in Hfill. unfold len in Hfill.
        replace (if decide (x < file_end) then rmem s (src + (x - va)) else 0)
          with (if decide (0 <= x - va < 0 + (if decide (va < file_end) then file_end - va else 0)) then rmem s (src + (x - va - 0)) else 0).
        { apply Hfill; [|lia]. change RISCV_PAGE_SIZE with 4096 in *. clear -Hlt Hx Hal. mlia. }
        rewrite Z.sub_0_r. case_decide as D1; case_decide as D2; case_decide as D3; try done; lia.
      * specialize (Hload2 x ltac:(lia)). unfold data_byte in Hload2. by rewrite decide_False in * by lia.
Qed.
