(* ===== verification/LoaderRun.v ===== *)
(** * What [loadElf] establishes

    The address space after loading: every byte of a loadable segment is there with
    the permissions of the segment, file data first and then zeros, and all other
    translations are those from before. *)

From S2P Require Import Prelude Mem Vm Freemem PageTable Paging Elf Loader.
From Stdlib Require Import ZArith Lia.
From stdpp Require Import base tactics sets list list_numbers numbers.
Local Open Scope Z_scope.
Local Open Scope keystone_scope.

Ltac in_list := repeat (apply list_elem_of_here || apply list_elem_of_further).

(** ** Segments *)

(** A field of a program header. *)
Definition seg_field (f : file) (elf : elf_t) (g : elf_t -> Z -> M file Z) (i : Z) : Z :=
  match g elf i f with Ok (v, _) => v | _ => 0 end.

Record segment : Type := mkSeg { sg_type : Z; sg_vaddr : Z; sg_filesz : Z; sg_memsz : Z; sg_off : Z; sg_flags : Z }.
Definition segment_at (f : file) (elf : elf_t) (i : Z) : segment :=
  mkSeg (seg_field f elf elf_getProgramHeaderType i) (seg_field f elf elf_getProgramHeaderVaddr i)
    (seg_field f elf elf_getProgramHeaderFileSize i) (seg_field f elf elf_getProgramHeaderMemorySize i)
    (seg_field f elf elf_getProgramHeaderOffset i) (seg_field f elf elf_getProgramHeaderFlags i).

Definition seg_mode (g : segment) (user : bool) : Z := Z.lor (pt_mode_from_elf (sg_flags g)) (Z.b2z user * PTE_U).

(** The pages a segment takes: from [seg_lo] up to [seg_hi]. *)
Definition page_down (a : Z) : Z := a - a mod RISCV_PAGE_SIZE.
Definition page_up (a : Z) : Z := page_down (a + RISCV_PAGE_SIZE - 1).
Definition seg_lo (g : segment) : Z := page_down (sg_vaddr g).
Definition seg_hi (g : segment) : Z := Z.max (page_up (sg_vaddr g)) (page_up (sg_vaddr g + sg_memsz g)).
Definition seg_pages (g : segment) : nat := Z.to_nat ((seg_hi g - seg_lo g) / RISCV_PAGE_SIZE).

(** A segment that can be loaded from a file of [size] bytes: data and memory fit, file
    position and address agree modulo the page size as the ELF standard demands, and in a first
    page that the segment does not own from its start the file goes on to the end of the page. *)
Record segment_ok (size : Z) (g : segment) : Prop := {
  go_u64 : is_u64 (sg_vaddr g) /\ is_u64 (sg_filesz g) /\ is_u64 (sg_memsz g) /\ is_u64 (sg_off g);
  go_mem : sg_filesz g <= sg_memsz g;
  go_top : sg_vaddr g + sg_memsz g <= 2 ^ 38;
  go_file : sg_off g + sg_filesz g <= size;
  go_align : sg_vaddr g mod RISCV_PAGE_SIZE = sg_off g mod RISCV_PAGE_SIZE;
  go_first : sg_vaddr g mod RISCV_PAGE_SIZE <> 0 -> sg_off g + (page_up (sg_vaddr g) - sg_vaddr g) <= size
}.

(** The byte of the segment at address [x]: file data up to the end of the data, or to the end of
    the first page where the segment starts inside a page, and zeros behind. *)
Definition data_end (g : segment) : Z := Z.max (sg_vaddr g + sg_filesz g) (page_up (sg_vaddr g)).
Definition seg_byte (f : file) (g : segment) (x : Z) : Z :=
  if decide (x < data_end g) then nth (Z.to_nat (sg_off g + (x - sg_vaddr g))) f 0 else 0.

(** The file in memory is apart from the pages [P]. *)
Record file_apart (P : list Z) (base size : Z) : Prop := {
  fa_base : 0 < base;
  fa_align : base mod RISCV_PAGE_SIZE = 0;
  fa_top : base + size + RISCV_PAGE_SIZE <= 2 ^ 64;
  fa_apart : forall p, p ∈ P -> p + RISCV_PAGE_SIZE <= base \/ base + size <= p
}.

Lemma PAGE_DOWN_spec a : is_u64 a -> PAGE_DOWN a = page_down a.
Proof.
  intros Ha. unfold PAGE_DOWN, ROUND_DOWN, page_down, RISCV_PAGE_BITS, is_u64 in *. change RISCV_PAGE_SIZE with (2 ^ 12).
  change (u64 (Z.lnot (Z.shiftl 2 (12 - 1) - 1))) with (2 ^ 64 - 2 ^ 12).
  assert (Z.land a (2 ^ 64 - 2 ^ 12) = Z.ldiff a (Z.ones 12)) as ->.
  { apply Z.bits_inj'. intros n Hn. rewrite Z.land_spec, Z.ldiff_spec.
    change (2 ^ 64 - 2 ^ 12) with (Z.shiftl (Z.ones 52) 12). rewrite Z.shiftl_spec by lia.
    destruct (decide (n < 12)); [rewrite (Z.testbit_neg_r (Z.ones 52)), (Z.ones_spec_low 12) by lia; by rewrite !andb_false_r|].
    rewrite (Z.ones_spec_high 12) by lia. destruct (decide (n < 64)); [by rewrite Z.ones_spec_low by lia|].
    assert (Z.testbit a n = false) as ->; [|done]. apply (Z.testbit_false a n Hn).
    rewrite Z.div_small; [done|]. split; [lia|]. apply Z.lt_le_trans with (2 ^ 64); [lia|]. apply Z.pow_le_mono_r; lia. }
  rewrite Z.ldiff_ones_r, Z.shiftl_mul_pow2, Z.shiftr_div_pow2 by lia. mlia.
Qed.

Section FileApart.
Context (P : list Z) (base size : Z) (Hfa : file_apart P base size).

(** The page of an address of the file. *)
Lemma file_page a : base <= a < base + size -> page_ok (page_down a) /\ (page_down a ∉ P) /\ in_page (page_down a) a.
Proof.
  destruct Hfa as [Hb Ha Ht Hap]. intros Hr. unfold page_ok, in_page, page_down, is_u64. change RISCV_PAGE_SIZE with 4096 in *.
  split_and!; try mlia. intros Hin. specialize (Hap _ Hin). mlia.
Qed.

Lemma file_page_aligned q : q mod RISCV_PAGE_SIZE = 0 -> base <= q < base + size -> page_ok q /\ q ∉ P.
Proof.
  intros Hq Hr. destruct (file_page q Hr) as (? & ? & _). unfold page_down in *. by rewrite Hq, Z.sub_0_r in *.
Qed.

Lemma file_apart_sub P' : (forall p, p ∈ P' -> p ∈ P) -> file_apart P' base size.
Proof. intros Hs. destruct Hfa as [? ? ? Hap]. split; auto. Qed.
End FileApart.

(** The file does not change while the memory manager works. *)
Lemma file_byte P s s' P' base size a : only_touches P s s' P' -> (forall p, p ∈ P -> page_ok p) -> file_apart P base size ->
  base <= a < base + size -> rmem s' a = rmem s a.
Proof.
  intros Hot HP Hfa Ha. destruct (file_page P base size Hfa a Ha) as (? & ? & ?). by apply (untouched_byte P s s' P' (page_down a)).
Qed.

Lemma file_bytes P s s' P' base size : only_touches P s s' P' -> (forall p, p ∈ P -> page_ok p) -> file_apart P base size -> 0 <= size ->
  read_bytes (rmem s') base (Z.to_nat size) = read_bytes (rmem s) base (Z.to_nat size).
Proof.
  intros Hot HP Hfa Hs. unfold read_bytes. apply map_ext_in. intros k Hk%in_seq. destruct Hfa as [? ? Ht ?] eqn:E.
  change RISCV_PAGE_SIZE with 4096 in Ht. rewrite u64_id by (unfold is_u64; lia). apply (file_byte P s s' P' base size); [done|done|by split|lia].
Qed.

(** ** One segment *)

(** The part [h] of the file at its start, with the headers, is all that an accessor sees that
    does not depend on what follows. *)
Definition sees {A} (elf : elf_t) (h : file) (c : M file A) (v : A) : Prop :=
  forall t, Z.of_nat (length (h ++ t)) = elfSize elf -> c (h ++ t) = Ok (v, h ++ t).

Lemma with_file_run {A} base elf h (c : M file A) v s : Z.of_nat (length h) <= elfSize elf ->
  read_bytes (rmem s) base (length h) = h -> sees elf h c v -> with_file base elf c s = Ok (v, s).
Proof.
  intros Hl Hh Hc. unfold with_file. replace (Z.to_nat (elfSize elf)) with (length h + (Z.to_nat (elfSize elf) - length h))%nat by lia.
  rewrite read_bytes_app, Hh, Hc; [done|]. rewrite length_app. unfold read_bytes. rewrite length_map, length_seq. lia.
Qed.

Lemma wp_with_file {A} base elf h (c : M file A) v s (Q : A -> rt_state -> Prop) : Z.of_nat (length h) <= elfSize elf ->
  read_bytes (rmem s) base (length h) = h -> sees elf h c v -> Q v s -> wp (with_file base elf c) Q s.
Proof. intros Hl Hh Hc HQ. unfold wp. by rewrite (with_file_run base elf h c v). Qed.

(** File header and program headers are in [h]. *)
Record headers_in (h : file) (elf : elf_t) : Prop := {
  hi_size : Z.of_nat (length h) <= elfSize elf < 2 ^ 64;
  hi_header : ehdr_size (Ehdr elf) <= Z.of_nat (length h);
  hi_phdrs : peek h (e_phoff (Ehdr elf)) + phdr_size (Phdr elf) * num_segments h elf <= Z.of_nat (length h)
}.

Lemma peek_app h t m : 0 <= m.1 -> 0 <= m.2 -> m.1 + m.2 <= Z.of_nat (length h) -> peek (h ++ t) m = peek h m.
Proof.
  intros H1 H2 H3. unfold peek. f_equal. rewrite drop_app_le, take_app_le by (rewrite ?length_drop; lia). done.
Qed.

Section Headers.
Context (h : file) (elf : elf_t) (Hu8 : Forall is_u8 h) (Hin : headers_in h elf).

Lemma sees_header m : fits (ehdr_size (Ehdr elf)) (m (Ehdr elf)) -> sees elf h (hdr_get elf m) (peek h (m (Ehdr elf))).
Proof.
  intros Hm t Ht. destruct Hin as [Hs Hh _]. pose proof (lo_size _ (Ehdr_ok elf)). rewrite length_app in Ht.
  unfold hdr_get, bind. rewrite rd_bytes_in by (rewrite ?length_app; lia). unfold ret.
  rewrite (fld_hdr _ (ehdr_size (Ehdr elf))) by done. destruct Hm as (? & ? & ?). by rewrite peek_app by lia.
Qed.

Lemma sees_num_segments : sees elf h (elf_getNumProgramHeaders elf) (num_segments h elf).
Proof.
  assert (elf_getNumProgramHeaders elf = hdr_get elf e_phnum) as -> by (unfold elf_getNumProgramHeaders, hdr_get, Ehdr; by destruct (elf_isElf32 elf)).
  apply sees_header, (lo_phnum _ (Ehdr_ok elf)).
Qed.

Lemma sees_entry : sees elf h (elf_getEntryPoint elf) (peek h (e_entry (Ehdr elf))).
Proof.
  assert (elf_getEntryPoint elf = hdr_get elf e_entry) as -> by (unfold elf_getEntryPoint, hdr_get, Ehdr; by destruct (elf_isElf32 elf)).
  apply sees_header, (lo_entry _ (Ehdr_ok elf)).
Qed.

Lemma sees_segment g i : g ∈ segment_getters -> 0 <= i < num_segments h elf ->
  sees elf h (g elf i) (seg_field h elf g i) /\ is_u64 (seg_field h elf g i).
Proof.
  intros Hg Hi. destruct (segment_get elf g Hg) as (m & Eg & M1 & M2 & M3). destruct Hin as [Hs Hh Hp].
  assert (is_u64 (peek h (e_phoff (Ehdr elf)))) as Ho by (apply peek_range; [done|apply (lo_phoff _ (Ehdr_ok elf))]). unfold is_u64 in Ho.
  set (off := peek h (e_phoff (Ehdr elf))) in *.
  assert (0 <= phdr_size (Phdr elf)) as Hps by (unfold Phdr; destruct (elf_isElf32 elf); by vm_compute).
  assert (forall t, Z.of_nat (length (h ++ t)) < 2 ^ 64 -> hdr_get elf e_phoff (h ++ t) = Ok (off, h ++ t)) as Hoff.
  { intros t Ht. pose proof (lo_size _ (Ehdr_ok elf)). pose proof (lo_phoff _ (Ehdr_ok elf)) as Hm. rewrite length_app in Ht.
    unfold hdr_get, bind. rewrite rd_bytes_in by (rewrite ?length_app; lia). unfold ret.
    rewrite (fld_hdr _ (ehdr_size (Ehdr elf))) by done. destruct Hm as (? & ? & ?). by rewrite peek_app by lia. }
  assert (off + i * phdr_size (Phdr elf) + (m (Phdr elf)).1 + (m (Phdr elf)).2 <= Z.of_nat (length h)) as Hend by nia.
  assert (forall t, Z.of_nat (length (h ++ t)) < 2 ^ 64 ->
    g elf i (h ++ t) = Ok (peek h (off + i * phdr_size (Phdr elf) + (m (Phdr elf)).1, (m (Phdr elf)).2), h ++ t)) as Hget.
  { intros t Ht. rewrite Eg. unfold seg_get, bind. rewrite Hoff by done. rewrite rd_fld_in by (rewrite ?length_app in *; try lia; nia).
    rewrite peek_app by (cbn [fst snd]; try lia; nia). done. }
  assert (seg_field h elf g i = peek h (off + i * phdr_size (Phdr elf) + (m (Phdr elf)).1, (m (Phdr elf)).2)) as ->.
  { unfold seg_field. pose proof (Hget []) as E. rewrite app_nil_r in E. rewrite E by lia. done. }
  split; [intros t Ht; apply Hget; lia|by apply peek_range].
Qed.
End Headers.

(** The bytes of a segment in the file. *)
Lemma file_nth f mem base size k : f = read_bytes mem base (Z.to_nat size) -> 0 <= base -> 0 <= k < size -> base + size <= 2 ^ 64 ->
  mem (base + k) = nth (Z.to_nat k) f 0.
Proof.
  intros -> Hb Hk Ht. unfold read_bytes.
  rewrite (nth_indep _ 0 (mem (u64 (base + Z.of_nat 0)))) by (rewrite length_map, length_seq; lia).
  rewrite (map_nth (fun i => mem (u64 (base + Z.of_nat i)))), seq_nth by lia. simpl (0 + _)%nat.
  rewrite u64_id by (unfold is_u64; lia). f_equal. lia.
Qed.

Lemma seg_mode_nonneg g user : 0 <= seg_mode g user.
Proof.
  unfold seg_mode, pt_mode_from_elf. rewrite !Z.lor_nonneg. destruct (0 <? Z.land _ PF_X), (0 <? Z.land _ PF_W), (0 <? Z.land _ PF_R), user; by vm_compute.
Qed.

Lemma page_up_bounds a : a <= page_up a < a + RISCV_PAGE_SIZE /\ page_up a mod RISCV_PAGE_SIZE = 0.
Proof. unfold page_up, page_down. change RISCV_PAGE_SIZE with 4096. mlia. Qed.

Section Segment.
Context (base size : Z) (g : segment) (m : Z) (Hg : segment_ok size g) (Hm : 0 <= m).
Local Abbreviation v := (sg_vaddr g) (only parsing).
Local Abbreviation src := (base + sg_off g) (only parsing).
Local Abbreviation va1 := (page_up v) (only parsing).
Local Abbreviation src1 := (src + (va1 - v)) (only parsing).
Local Abbreviation fe := (v + sg_filesz g) (only parsing).
Local Abbreviation me := (v + sg_memsz g) (only parsing).

Lemma wp_load_first_page s L2 L3 l (Q : Z * Z * Z -> rt_state -> Prop) : pt_inv s L2 L3 l ->
  file_apart (owned s L2 L3 l) base size -> (3 * Z.to_nat ((va1 - seg_lo g) / RISCV_PAGE_SIZE) <= length l)%nat ->
  (forall x, seg_lo g <= x < va1 -> valid_pte (pte_map s (idx3 x)) = false) ->
  (forall s' L2' L3' l', pt_inv s' L2' L3' l' -> (length l <= length l' + 3 * Z.to_nat ((va1 - seg_lo g) / RISCV_PAGE_SIZE))%nat ->
    extends (seg_lo g) va1 (owned s L2 L3 l) s s' (owned s' L2' L3' l') ->
    (forall x, v <= x < va1 -> loaded (owned s' L2' L3' l') s' x m (rmem s (src + (x - v)))) -> Q (0, va1, src1) s') ->
  wp (load_first_page v src m) Q s.
Proof.
  destruct Hg as [(Hvu & Hfu & Hmu & Hou) Hmem Htop Hfile Halign Hfirst]. intros Hinv Hfa Hl Hun HQ.
  destruct (page_up_bounds v) as [Hup Hupa].
  pose proof (fa_base _ _ _ Hfa). pose proof (fa_align _ _ _ Hfa) as Hba. pose proof (fa_top _ _ _ Hfa) as Hft.
  unfold load_first_page, RISCV_PAGE_OFFSET, is_u64 in *. unfold seg_lo in *.
  assert (RISCV_PAGE_SIZE = 4096) as Hps by done.
  set (w := sg_vaddr g) in *. set (a := base + sg_off g) in *.
  destruct (w mod RISCV_PAGE_SIZE =? 0) eqn:E; [apply Z.eqb_eq in E|apply Z.eqb_neq in E]; cbn [negb].
  - assert (page_up w = w) as Ev by (clearbody w; unfold page_up, page_down; rewrite Hps in *; clear -E; mlia).
    assert (page_down w = w) as Ed by (unfold page_down; lia).
    rewrite Ev, Ed, Z.sub_diag, ?Z.add_0_r in *. wp_step. apply (HQ s L2 L3 l); [done|lia|apply extends_refl|intros; lia].
  - specialize (Hfirst E).
    assert (a mod RISCV_PAGE_SIZE = w mod RISCV_PAGE_SIZE) as Es
      by (unfold a; clearbody w; rewrite Hps in *; clear -Hba Halign; mlia).
    assert (page_up w = page_down w + RISCV_PAGE_SIZE) as Ev
      by (clearbody w; unfold page_up, page_down; rewrite Hps in *; clear -E; mlia).
    assert (w < 2 ^ 38) as Hw by (destruct (decide (w = 2 ^ 38)) as [E38|]; [by rewrite E38 in E|lia]).
    assert (w < page_up w) as Hwu by (pose proof (page_offset w); unfold page_down in Ev; lia).
    rewrite Es, Z.eqb_refl. cbn [negb].
    destruct (file_page _ _ _ Hfa a) as (Hqp & Hqo & Hqs); [unfold a; lia|].
    pose proof (page_offset w) as Hvo. set (d := w mod RISCV_PAGE_SIZE) in *.
    assert (page_down a = a - d) as Epd by (unfold page_down; by rewrite Es). rewrite Epd in *.
    assert (page_down w = w - d) as Epw by done. rewrite Ev, Epw in *.
    replace ((w - d + RISCV_PAGE_SIZE - (w - d)) / RISCV_PAGE_SIZE) with 1 in * by (rewrite Hps; clear; mlia).
    apply (wp_alloc_filled s L2 L3 l w m d a (RISCV_PAGE_SIZE - d) (a - d) (fun p => rt_memcpy (p +w d) a (RISCV_PAGE_SIZE - d)));
      [done|lia|lia|done|apply Hun; lia|right; split_and!; try done; lia|intros p _; by rewrite (proj2 (Z.eqb_neq _ _)) by lia|].
    intros s' L2' L3' l' Hinv' Hl' [Hex Hfill]. wp_step.
    assert (PAGE_DOWN w +w RISCV_PAGE_SIZE = w - d + RISCV_PAGE_SIZE) as ->.
    { rewrite PAGE_DOWN_spec, Epw by (unfold is_u64; lia). apply u64_id. unfold is_u64. lia. }
    assert (PAGE_DOWN a +w RISCV_PAGE_SIZE = a + (w - d + RISCV_PAGE_SIZE - w)) as ->.
    { rewrite PAGE_DOWN_spec, Epd by (unfold is_u64, a; lia).
      replace (a + (w - d + RISCV_PAGE_SIZE - w)) with (a - d + RISCV_PAGE_SIZE) by lia. apply u64_id. unfold is_u64, a; lia. }
    apply (HQ s' L2' L3' l'); [done|lia|done|].
    intros x Hx. assert (x mod RISCV_PAGE_SIZE = x - (w - d)) as Ex
      by (unfold d in *; clearbody w; rewrite Hps in *; clear -Hx; mlia).
    specialize (Hfill x). rewrite Ex, decide_True in Hfill by lia.
    replace (a + (x - w)) with (a + (x - (w - d) - d)) by lia.
    assert (w - d + RISCV_PAGE_SIZE <= 2 ^ 38) as Hw38.
    { unfold d. clearbody w. rewrite Hps. change (2 ^ 38) with (4096 * 67108864) in *. clear -Hw. mlia. }
    apply Hfill; [|lia]. unfold d in *. clearbody w. rewrite Hps in *. clear -Hx. mlia.
Qed.

(** The rest of the segment: whole pages of file data, then the pages after them. *)
Lemma wp_load_rest s L2 L3 l (Q : Z -> rt_state -> Prop) : pt_inv s L2 L3 l ->
  file_apart (owned s L2 L3 l) base size -> (3 * Z.to_nat ((seg_hi g - va1) / RISCV_PAGE_SIZE) <= length l)%nat ->
  (forall x, va1 <= x < seg_hi g -> valid_pte (pte_map s (idx3 x)) = false) ->
  (forall s' L2' L3' l', pt_inv s' L2' L3' l' -> (length l <= length l' + 3 * Z.to_nat ((seg_hi g - va1) / RISCV_PAGE_SIZE))%nat ->
    extends va1 (seg_hi g) (owned s L2 L3 l) s s' (owned s' L2' L3' l') ->
    (forall x, va1 <= x < me -> loaded (owned s' L2' L3' l') s' x m (data_byte (rmem s) v src fe x)) -> Q 0 s') ->
  wp (let! '(r, va, a) := map_file_pages (page_rounds va1 fe) va1 src1 fe m in
      if negb (r =? 0) then ret (-1) else load_bss (page_rounds va me) va a fe me m) Q s.
Proof.
  destruct Hg as [(Hvu & Hfu & Hmu & Hou) Hmem Htop Hfile Halign _]. intros Hinv Hfa Hl Hun HQ. unfold is_u64 in *.
  pose proof (fa_base _ _ _ Hfa). pose proof (fa_align _ _ _ Hfa) as Hba. pose proof (fa_top _ _ _ Hfa) as Hft.
  pose proof (page_up_bounds v) as [Hup Hupa]. pose proof (page_up_bounds me) as [Hme Hmea].
  assert (RISCV_PAGE_SIZE = 4096) as Hps by done. unfold seg_hi in *.
  set (w := sg_vaddr g) in *. set (fs := sg_filesz g) in *. set (ms := sg_memsz g) in *. set (o := sg_off g) in *.
  set (u := page_up w) in *. set (t := page_up (w + ms)) in *. set (a := base + o + (u - w)) in *.
  assert (a mod RISCV_PAGE_SIZE = 0) as Ha by (unfold a; rewrite Hps in *; clearbody u w; clear -Hba Halign Hup Hupa; mlia).
  assert (u <= 2 ^ 38 /\ t <= 2 ^ 38) as [Hu38 Ht38].
  { change (2 ^ 38) with (4096 * 67108864) in *. rewrite Hps in *. clearbody u t w fs ms. clear -Hup Hupa Hme Hmea Htop Hmu. mlia. }
  set (n := Z.to_nat ((w + fs - u) / RISCV_PAGE_SIZE)).
  assert (n <> 0%nat -> u + RISCV_PAGE_SIZE * Z.of_nat n <= w + fs) as Hn1
    by (unfold n; rewrite Hps; clearbody u w fs; clear; intros Hn; mlia).
  assert (w + fs < u + RISCV_PAGE_SIZE * (Z.of_nat n + 1)) as Hn2 by (unfold n; rewrite Hps; clearbody u w fs; clear; mlia).
  set (v2 := u + RISCV_PAGE_SIZE * Z.of_nat n) in *.
  set (k := Z.to_nat ((w + ms - v2 + (RISCV_PAGE_SIZE - 1)) / RISCV_PAGE_SIZE)).
  assert (v2 + RISCV_PAGE_SIZE * Z.of_nat k = Z.max u t) as Hk.
  { assert (v2 mod RISCV_PAGE_SIZE = 0) as Hv2a by (unfold v2; rewrite Hps in *; clearbody u; clear -Hupa; mlia).
    assert (v2 = u \/ v2 <= w + ms) as Hv2 by (destruct (decide (n = 0%nat)) as [E|E]; [left; unfold v2; rewrite E; lia|right; specialize (Hn1 E); lia]).
    assert (u <= v2) as Huv2 by (unfold v2; lia). unfold k. rewrite Hps in *. clearbody v2. clear -Hv2a Hv2 Huv2 Hupa Hme Hmea.
    destruct (decide (w + ms <= v2)); [replace (Z.to_nat _) with 0%nat by mlia; mlia|].
    rewrite Z2Nat.id by mlia. clearbody u t. rewrite Z.max_r by mlia. mlia. }
  assert (Z.to_nat ((Z.max u t - u) / RISCV_PAGE_SIZE) = n + k)%nat as Enk by (rewrite <- Hk; unfold v2; rewrite Hps; clear; mlia).
  rewrite Enk in *. pose proof (fun x => owned_page_ok s L2 L3 l x Hinv) as HP.
  assert (w <= u /\ u <= v2) as [Hwu Huv] by (unfold v2; lia).
  wp_step. apply (wp_map_file_pages n _ s L2 L3 l); [done|lia| |done|lia|done|done|done|lia|unfold a; lia|done| | | |].
  { unfold page_rounds. destruct (decide (n = 0%nat)); [lia|]. rewrite u64_id by (unfold is_u64; lia). unfold n in *.
    rewrite Hps. clearbody u w fs. clear. mlia. }
  { destruct (decide (n = 0%nat)) as [E|E]; [rewrite E; unfold a; lia|]. specialize (Hn1 E). unfold a, v2 in *. lia. }
  { intros j Hj. apply (file_page_aligned _ base size Hfa); [rewrite Hps in *; clearbody a; clear -Ha; mlia|].
    specialize (Hn1 ltac:(lia)). unfold a, v2 in *. nia. }
  { intros x Hx. apply Hun. lia. }
  intros s2 L2' L3' l2 Hinv2 Hl2 Hex2 Hload2. fold v2 in Hex2, Hload2 |- *. change (negb (0 =? 0)) with false. cbv iota.
  assert (forall x, v2 <= x < v2 + RISCV_PAGE_SIZE * Z.of_nat k -> forall y, u <= y < v2 -> idx3 y <> idx3 x) as Hdiff.
  { intros x Hx y Hy E. apply idx3_page in E; [|lia|lia]. unfold v2 in *. rewrite Hps in *. clearbody u. clear -E Hx Hy Hupa. mlia. }
  pose proof (fun x => owned_page_ok s2 L2' L3' l2 x Hinv2) as HP2.
  assert (forall x, w <= x < w + fs -> rmem s2 (base + o + (x - w)) = rmem s (base + o + (x - w))) as Hfb.
  { intros x Hx. apply (file_byte _ _ _ _ base size _ (ex_touches _ _ _ _ _ Hex2) HP Hfa). lia. }
  apply (wp_load_bss k _ s2 L2' L3' l2); [done|lia| |done|lia| | | |unfold v2 in *; lia|lia| | |].
  { unfold page_rounds. destruct (decide (k = 0%nat)); [lia|]. assert (0 < w + ms - v2) by (unfold k in *; rewrite Hps in *; clearbody v2 w ms; clear -n0; mlia).
    rewrite u64_id by (unfold is_u64; lia). unfold k. rewrite Hps. clearbody v2 w ms. clear. mlia. }
  { unfold v2. rewrite Hps in *. clearbody u. clear -Hupa. mlia. }
  { lia. }
  { intros Hk0. unfold k in *. rewrite Hps in *. clearbody v2 w ms. clear -Hk0. mlia. }
  { intros Hfe _. apply (file_page_aligned _ base size).
    - apply (file_apart_sub _ _ _ Hfa). apply (ot_sub _ _ _ _ (ex_touches _ _ _ _ _ Hex2)).
    - unfold v2 in *. rewrite Hps in *. clearbody a. clear -Ha. mlia.
    - unfold a, v2 in *. lia. }
  { intros x Hx. rewrite (ex_map _ _ _ _ _ Hex2); [apply Hun; lia|apply is_idx3_idx3|]. by apply Hdiff. }
  rewrite Hk. intros s3 L2'' L3'' l3 Hinv3 Hl3 Hex3 Hload3.
  apply (HQ s3 L2'' L3'' l3); [done|lia|by eapply (extends_trans u v2); [lia|exact Hex2|exact Hex3]|].
  intros x Hx. destruct (decide (x < v2)) as [Hlt|Hge].
  - apply (loaded_extends _ _ _ _ _ _ _ _ _ Hex3 HP2); [intros y Hy E; by apply (Hdiff y ltac:(lia) x ltac:(lia))|].
    unfold data_byte. rewrite decide_True by lia.
    replace (base + o + (x - w)) with (a + (x - u)) by (unfold a; lia). apply Hload2. lia.
  - assert (data_byte (rmem s) w (base + o) (w + fs) x = data_byte (rmem s2) v2 (a + RISCV_PAGE_SIZE * Z.of_nat n) (w + fs) x) as ->; [|apply Hload3; lia].
    unfold data_byte. case_decide; [|done]. rewrite <- Hfb by lia. f_equal. unfold a, v2. lia.
Qed.
End Segment.

(** ** The whole file *)

Section File.
(** [f] is the part of the file with the headers and the data of the segments. *)
Context (base : Z) (elf : elf_t) (f : file) (user : bool).
Context (Hu8 : Forall is_u8 f) (Hread : headers_in f elf).
Local Abbreviation seg i := (segment_at f elf i).
Local Abbreviation size := (Z.of_nat (length f)).

Lemma program_segment_run i : 0 <= i < num_segments f elf -> segment_ok size (seg i) ->
  sees elf f (elf_getProgramSegment elf i) (Some (sg_off (seg i))).
Proof.
  intros Hi [(_ & Hfu & _ & Hou) _ _ Hfile _ _] t Ht. cbn [sg_filesz sg_off segment_at] in *. unfold elf_getProgramSegment, bind.
  destruct (hi_size _ _ Hread) as [Hs Hs64].
  rewrite (proj1 (sees_segment f elf Hu8 Hread elf_getProgramHeaderOffset i ltac:(in_list) Hi) t Ht).
  rewrite (proj1 (sees_segment f elf Hu8 Hread elf_getProgramHeaderFileSize i ltac:(in_list) Hi) t Ht).
  unfold is_u64, ret in *. rewrite u64_id by (unfold is_u64; lia).
  by rewrite (proj2 (Z.ltb_ge _ _)), (proj2 (Z.ltb_ge _ _)) by lia.
Qed.

(** The segment covers its pages from [seg_lo] to [seg_hi] in two parts. *)
Lemma seg_split i : segment_ok size (seg i) ->
  let mid := page_up (sg_vaddr (seg i)) in
  seg_lo (seg i) <= mid <= seg_hi (seg i) /\ seg_hi (seg i) <= 2 ^ 38 /\
  seg_lo (seg i) mod RISCV_PAGE_SIZE = 0 /\ seg_hi (seg i) mod RISCV_PAGE_SIZE = 0 /\ 0 <= seg_lo (seg i) /\
  seg_pages (seg i) = (Z.to_nat ((mid - seg_lo (seg i)) / RISCV_PAGE_SIZE) + Z.to_nat ((seg_hi (seg i) - mid) / RISCV_PAGE_SIZE))%nat.
Proof.
  intros [(Hv & _ & Hm & _) _ Htop _ _ _]. cbv zeta. unfold seg_pages, seg_hi, seg_lo.
  destruct (page_up_bounds (sg_vaddr (seg i))) as [Hup Hupa].
  destruct (page_up_bounds (sg_vaddr (seg i) + sg_memsz (seg i))) as [Hme Hmea].
  set (w := sg_vaddr (seg i)) in *. set (ms := sg_memsz (seg i)) in *. set (u := page_up w) in *. set (t := page_up (w + ms)) in *.
  unfold page_down, is_u64 in *. change RISCV_PAGE_SIZE with 4096 in *. change (2 ^ 38) with (4096 * 67108864) in *. clearbody u t w ms.
  assert (w - w mod 4096 <= u) by mlia. set (d := w - w mod 4096) in *. assert (d mod 4096 = 0 /\ 0 <= d) as [Hd Hd0] by (unfold d; mlia). clearbody d.
  set (h := Z.max u t). assert (u <= h /\ h mod 4096 = 0 /\ h <= 4096 * 67108864) as (? & ? & ?) by (unfold h; mlia). clearbody h.
  split_and!; try done; try lia. mlia.
Qed.

Lemma pages_apart x y a b c d : a mod RISCV_PAGE_SIZE = 0 -> b mod RISCV_PAGE_SIZE = 0 -> c mod RISCV_PAGE_SIZE = 0 -> d mod RISCV_PAGE_SIZE = 0 ->
  0 <= a -> 0 <= c -> b <= 2 ^ 38 -> d <= 2 ^ 38 -> b <= c \/ d <= a -> a <= x < b -> c <= y < d -> idx3 x <> idx3 y.
Proof.
  intros Ha Hb Hc Hd ? ? ? ? Hor Hx Hy E. apply idx3_page in E; [|lia|lia]. change RISCV_PAGE_SIZE with 4096 in *. clear -Ha Hb Hc Hd Hor Hx Hy E. mlia.
Qed.

Lemma wp_load_segment s L2 L3 l i (Q : Z -> rt_state -> Prop) : pt_inv s L2 L3 l ->
  read_bytes (rmem s) base (length f) = f -> file_apart (owned s L2 L3 l) base size ->
  0 <= i < num_segments f elf -> sg_type (seg i) = PT_LOAD -> segment_ok size (seg i) -> (3 * seg_pages (seg i) <= length l)%nat ->
  (forall x, seg_lo (seg i) <= x < seg_hi (seg i) -> valid_pte (pte_map s (idx3 x)) = false) ->
  (forall s' L2' L3' l', pt_inv s' L2' L3' l' -> (length l <= length l' + 3 * seg_pages (seg i))%nat ->
    extends (seg_lo (seg i)) (seg_hi (seg i)) (owned s L2 L3 l) s s' (owned s' L2' L3' l') ->
    (forall x, sg_vaddr (seg i) <= x < sg_vaddr (seg i) + sg_memsz (seg i) ->
      loaded (owned s' L2' L3' l') s' x (seg_mode (seg i) user) (seg_byte f (seg i) x)) -> Q 0 s') ->
  wp (load_segment base elf user i) Q s.
Proof.
  intros Hinv Hf Hfa Hi Htype Hg Hl Hun HQ.
  pose proof (fun g Hin => proj1 (sees_segment f elf Hu8 Hread g i Hin Hi)) as Hget. pose proof (proj1 (hi_size _ _ Hread)) as Hle.
  pose proof (fa_top _ _ _ Hfa) as Hft. pose proof (fa_base _ _ _ Hfa) as Hfb. assert (RISCV_PAGE_SIZE = 4096) as Hps by done.
  destruct (seg_split i Hg) as (Hmid & Htop & Hloa & Hhia & Hlo0 & Hpages). rewrite Hpages in *.
  pose proof Hg as [(Hv & Hfs & Hms & Ho) Hmem Htop' Hfile Halign Hfirst]. unfold is_u64 in *.
  unfold load_segment.
  wp_step; eapply wp_with_file; [exact Hle|exact Hf|apply Hget; in_list|]. change (seg_field f elf elf_getProgramHeaderType i) with (sg_type (seg i)). rewrite Htype.
  change (negb (PT_LOAD =? PT_LOAD)) with false. cbv iota.
  do 3 (wp_step; eapply wp_with_file; [exact Hle|exact Hf|apply Hget; in_list|]).
  wp_step; eapply wp_with_file; [exact Hle|exact Hf|by apply program_segment_run|].
  wp_step; eapply wp_with_file; [exact Hle|exact Hf|apply Hget; in_list|]. cbv zeta.
  change (Z.lor (pt_mode_from_elf _) _) with (seg_mode (seg i) user).
  change (seg_field f elf elf_getProgramHeaderVaddr i) with (sg_vaddr (seg i)).
  change (seg_field f elf elf_getProgramHeaderFileSize i) with (sg_filesz (seg i)).
  change (seg_field f elf elf_getProgramHeaderMemorySize i) with (sg_memsz (seg i)).
  rewrite !u64_id by (unfold is_u64; lia). wp_step.
  apply (wp_load_first_page base size (seg i) _ Hg (seg_mode_nonneg _ _) s L2 L3 l); [done|done|lia|intros x Hx; apply Hun; lia|].
  intros s1 L2' L3' l1 Hinv1 Hl1 Hex1 Hload1. change (negb (0 =? 0)) with false. cbv iota.
  pose proof (ex_touches _ _ _ _ _ Hex1) as Hot1. pose proof (fun x => owned_page_ok s L2 L3 l x Hinv) as HP.
  pose proof (fun x => owned_page_ok s1 L2' L3' l1 x Hinv1) as HP1.
  pose proof (page_up_bounds (sg_vaddr (seg i))) as [Hup Hupa].
  assert (file_apart (owned s1 L2' L3' l1) base size) as Hfa1 by (apply (file_apart_sub _ _ _ Hfa), (ot_sub _ _ _ _ Hot1)).
  apply (wp_load_rest base size (seg i) _ Hg (seg_mode_nonneg _ _) s1 L2' L3' l1); [done|done|lia| |].
  { intros x Hx. rewrite (ex_map _ _ _ _ _ Hex1); [apply Hun; lia|apply is_idx3_idx3|].
    intros y Hy. eapply (pages_apart y x _ _ _ (seg_hi (seg i)) Hloa Hupa Hupa Hhia); lia. }
  intros s2 L2'' L3'' l2 Hinv2 Hl2 Hex2 Hload2.
  apply (HQ s2 L2'' L3'' l2); [done|lia|by eapply extends_trans; [exact Hmid|exact Hex1|exact Hex2]|].
  assert (sg_off (seg i) + (page_up (sg_vaddr (seg i)) - sg_vaddr (seg i)) <= size) as Hpu.
  { destruct (decide (sg_vaddr (seg i) mod RISCV_PAGE_SIZE = 0)) as [E|E]; [|by apply Hfirst].
    replace (page_up (sg_vaddr (seg i))) with (sg_vaddr (seg i)); [lia|]. rewrite Hps in *. unfold page_up, page_down. rewrite Hps. clear -E. mlia. }
  assert (forall x, sg_vaddr (seg i) <= x < data_end (seg i) ->
    seg_byte f (seg i) x = rmem s (base + sg_off (seg i) + (x - sg_vaddr (seg i)))) as Hbyte.
  { intros x Hx. unfold seg_byte. rewrite decide_True by lia. unfold data_end in Hx.
    rewrite <- (file_nth f (rmem s) base size) by (rewrite ?Nat2Z.id; done || lia). f_equal. lia. }
  intros x Hx. destruct (decide (x < page_up (sg_vaddr (seg i)))) as [Hlt|Hge].
  - apply (loaded_extends _ _ _ _ _ _ _ _ _ Hex2 HP1).
    { intros y Hy. apply not_eq_sym. eapply (pages_apart x y (seg_lo (seg i)) _ _ (seg_hi (seg i)) Hloa Hupa Hupa Hhia); try lia.
      split; [|done]. unfold seg_lo, page_down. pose proof (page_offset (sg_vaddr (seg i))). lia. }
    rewrite Hbyte; [apply Hload1; lia|unfold data_end; lia].
  - specialize (Hload2 x ltac:(lia)). unfold data_byte in Hload2. case_decide.
    + rewrite Hbyte by (unfold data_end; lia). rewrite (file_byte _ _ _ _ base size _ Hot1 HP Hfa) in Hload2 by lia. done.
    + unfold seg_byte, data_end. by rewrite decide_False by lia.
Qed.

(** ** All segments *)

Definition loadable (i : Z) : Prop := 0 <= i < num_segments f elf /\ sg_type (seg i) = PT_LOAD.

(** The pages of the segments from [i] on. *)
Definition region (i x : Z) : Prop := exists k, i <= k /\ loadable k /\ seg_lo (seg k) <= x < seg_hi (seg k).

Fixpoint pages_needed (n : nat) (i : Z) : nat :=
  match n with
  | O => 0
  | S n => (if decide (sg_type (seg i) = PT_LOAD) then seg_pages (seg i) else 0) + pages_needed n (i + 1)
  end.

(** What the file has to satisfy: its loadable segments are well formed and share no
    page. *)
Record file_ok : Prop := {
  fo_segments : forall i, loadable i -> segment_ok size (seg i);
  fo_disjoint : forall i j, loadable i -> loadable j -> i <> j ->
    seg_hi (seg i) <= seg_lo (seg j) \/ seg_hi (seg j) <= seg_lo (seg i)
}.

Definition all_loaded (i : Z) (P : list Z) (s : rt_state) : Prop :=
  forall k x, i <= k -> loadable k -> sg_vaddr (seg k) <= x < sg_vaddr (seg k) + sg_memsz (seg k) ->
    loaded P s x (seg_mode (seg k) user) (seg_byte f (seg k) x).

Lemma num_segments_u16 : 0 <= num_segments f elf < 2 ^ 16.
Proof.
  unfold num_segments. pose proof (proj2 (lo_phnum _ (Ehdr_ok elf))) as E.
  pose proof (peek_bound f Hu8 (e_phnum (Ehdr elf)) ltac:(rewrite E; lia)) as Hb. rewrite E in Hb. exact Hb.
Qed.

(** Different segments have different indices. *)
Lemma segments_apart i k x y : file_ok -> loadable i -> loadable k -> i <> k ->
  seg_lo (seg i) <= x < seg_hi (seg i) -> seg_lo (seg k) <= y < seg_hi (seg k) -> idx3 x <> idx3 y.
Proof.
  intros [Hseg Hdis] Hi Hk Hne Hx Hy.
  destruct (seg_split i (Hseg i Hi)) as (_ & ? & ? & ? & ? & _). destruct (seg_split k (Hseg k Hk)) as (_ & ? & ? & ? & ? & _).
  apply (pages_apart x y (seg_lo (seg i)) (seg_hi (seg i)) (seg_lo (seg k)) (seg_hi (seg k))); try done. by apply Hdis.
Qed.

Lemma wp_load_segments (Hok : file_ok) n : forall fuel s L2 L3 l i (Q : Z -> rt_state -> Prop), pt_inv s L2 L3 l ->
  read_bytes (rmem s) base (length f) = f -> file_apart (owned s L2 L3 l) base size ->
  0 <= i -> i + Z.of_nat n = num_segments f elf -> (n <= fuel)%nat -> (3 * pages_needed n i <= length l)%nat ->
  (forall x, region i x -> valid_pte (pte_map s (idx3 x)) = false) ->
  (forall s' L2' L3' l', pt_inv s' L2' L3' l' -> (length l <= length l' + 3 * pages_needed n i)%nat -> extends_on (region i) (owned s L2 L3 l) s s' (owned s' L2' L3' l') ->
    all_loaded i (owned s' L2' L3' l') s' -> Q 0 s') ->
  wp (load_segments fuel base elf user i) Q s.
Proof.
  pose proof num_segments_u16 as H16. pose proof (proj1 (hi_size _ _ Hread)) as Hle.
  induction n as [|n IH]; intros fuel s L2 L3 l i Q Hinv Hf Hfa Hi Hn Hfuel Hl Hun HQ.
  - destruct fuel; cbn [load_segments]; wp_step; (eapply wp_with_file; [exact Hle|exact Hf|by apply sees_num_segments|]);
      rewrite (proj2 (Z.ltb_ge _ _)) by lia; wp_step;
      (apply (HQ s L2 L3 l); [done|simpl; lia|split; [done|apply only_touches_refl|done]|intros k x Hk [Hlk _]; lia]).
  - destruct fuel as [|fuel]; [lia|]. cbn [load_segments].
    wp_step. eapply wp_with_file; [exact Hle|exact Hf|by apply sees_num_segments|]. rewrite (proj2 (Z.ltb_lt _ _)) by lia.
    cbn [pages_needed] in Hl. rewrite u32_id by (unfold is_u32; lia). assert (0 <= i < num_segments f elf) as Hir by lia.
    destruct (decide (sg_type (seg i) = PT_LOAD)) as [Ht|Ht].
    + assert (loadable i) as Hload by done. wp_step.
      apply (wp_load_segment s L2 L3 l i); [done|done|done|done|done|by apply (fo_segments Hok)|lia| |].
      { intros x Hx. apply Hun. exists i. split; [lia|done]. }
      intros s1 L2' L3' l1 Hinv1 Hl1 Hex1 Hld1. change (negb (0 =? 0)) with false. cbv iota.
      pose proof (ex_touches _ _ _ _ _ Hex1) as Hot1. pose proof (fun x => owned_page_ok s L2 L3 l x Hinv) as HP.
      pose proof (fun x => owned_page_ok s1 L2' L3' l1 x Hinv1) as HP1.
      assert (0 <= size) as Hs0 by lia.
      apply (IH fuel s1 L2' L3' l1); [done| | |lia|lia|lia|lia| |].
      { pose proof (file_bytes _ _ _ _ base size Hot1 HP Hfa Hs0) as Eb. rewrite Nat2Z.id in Eb. by rewrite Eb. }
      { apply (file_apart_sub _ _ _ Hfa), (ot_sub _ _ _ _ Hot1). }
      { intros x (k & Hk & Hlk & Hx). rewrite (ex_map _ _ _ _ _ Hex1); [apply Hun; exists k; split; [lia|done]|apply is_idx3_idx3|].
        intros y Hy. apply (segments_apart i k); try done. lia. }
      intros s2 L2'' L3'' l2 Hinv2 Hl2 Hex2 Hld2. apply (HQ s2 L2'' L3'' l2); [done|cbn [pages_needed]; rewrite decide_True by done; lia| |].
      { eapply extends_on_trans; [|exact Hex1|exact Hex2]. intros x [Hx|(k & Hk & Hx)]; [exists i; split; [lia|done]|exists k; split; [lia|done]]. }
      intros k x Hk Hlk Hx. destruct (decide (k = i)) as [->|Hne]; [|apply Hld2; [lia|done|done]].
      apply (loaded_extends_on _ _ _ _ _ _ _ _ Hex2 HP1); [|by apply Hld1].
      intros y (k & Hk' & Hlk' & Hy). apply (segments_apart k i); try done; [lia|].
      destruct (seg_split i (fo_segments Hok i Hload)) as (? & _). pose proof (page_up_bounds (sg_vaddr (seg i) + sg_memsz (seg i))).
      pose proof (page_offset (sg_vaddr (seg i))). unfold seg_hi, seg_lo, page_down. lia.
    + wp_step. unfold load_segment. wp_step. eapply wp_with_file; [exact Hle|exact Hf|apply (sees_segment f elf Hu8 Hread elf_getProgramHeaderType i ltac:(in_list) Hir)|].
      change (seg_field f elf elf_getProgramHeaderType i) with (sg_type (seg i)). rewrite (proj2 (Z.eqb_neq _ _) Ht). cbn [negb].
      wp_step. change (negb (0 =? 0)) with false. cbv iota.
      assert (forall k, i <= k -> loadable k -> i + 1 <= k) as Hnext
        by (intros k Hk Hlk; destruct (decide (k = i)) as [->|]; [by destruct Hlk|lia]).
      apply (IH fuel s L2 L3 l); [done|done|done|lia|lia|lia|lia| |].
      { intros x (k & Hk & Hx). apply Hun. exists k. split; [lia|done]. }
      intros s2 L2'' L3'' l2 Hinv2 Hl2 [G T M] Hld2. apply (HQ s2 L2'' L3'' l2); [done|cbn [pages_needed]; rewrite decide_False by done; lia| |].
      { split; [done|done|]. intros j Hj Hout. apply M; [done|]. intros x (k & Hk & Hx). apply Hout. exists k. split; [lia|done]. }
      intros k x Hk Hlk. apply Hld2; [by apply Hnext|done].
Qed.
End File.

(** ** The theorem *)

Lemma va_of_page s q o : page_ok q -> 0 <= o < RISCV_PAGE_SIZE -> __va s (__pa s q + o) = q + o.
Proof.
  intros Hq Ho. pose proof (page_top q Hq) as Ht. destruct Hq as ((? & ?) & _). unfold __va, __pa.
  rewrite u64_add_l. replace (u64 (u64 (q - EYRIE_LOAD_START) + load_pa_start s) + o - load_pa_start s + EYRIE_LOAD_START)
    with (u64 (u64 (q - EYRIE_LOAD_START) + load_pa_start s) + (o - load_pa_start s + EYRIE_LOAD_START)) by lia.
  rewrite u64_add_l. replace (u64 (q - EYRIE_LOAD_START) + load_pa_start s + (o - load_pa_start s + EYRIE_LOAD_START))
    with (u64 (q - EYRIE_LOAD_START) + (o + EYRIE_LOAD_START)) by lia.
  rewrite u64_add_l. replace (q - EYRIE_LOAD_START + (o + EYRIE_LOAD_START)) with (q + o) by lia.
  apply u64_id. unfold is_u64. lia.
Qed.

(** Read, write, execute and user bit of a page-table entry. *)
Definition pte_access (e : Z) : bool * bool * bool * bool := (Z.testbit e 1, Z.testbit e 2, Z.testbit e 3, Z.testbit e 4).

Lemma b2z_mul_testbit b x n : Z.testbit (Z.b2z b * x) n = b && Z.testbit x n.
Proof. destruct b; simpl Z.b2z; [by rewrite Z.mul_1_l|]. by rewrite Z.mul_0_l, Z.bits_0. Qed.

Lemma land_bit_pos x n : 0 <= n -> (0 <? Z.land x (2 ^ n)) = Z.testbit x n.
Proof.
  intros Hn. rewrite Z.land_comm. destruct (Z.testbit x n) eqn:E.
  - apply Z.ltb_lt. assert (0 <= Z.land (2 ^ n) x) by (apply Z.land_nonneg; left; lia).
    destruct (decide (Z.land (2 ^ n) x = 0)) as [E0|]; [|lia]. apply (f_equal (fun y => Z.testbit y n)) in E0.
    by rewrite Z.land_spec, Z.pow2_bits_true, E, Z.bits_0 in E0.
  - apply Z.ltb_ge. assert (Z.land (2 ^ n) x = 0) as ->; [|done]. apply Z.bits_inj'. intros k Hk. rewrite Z.land_spec, Z.bits_0.
    destruct (decide (k = n)) as [->|]; [by rewrite E, andb_false_r|by rewrite Z.pow2_bits_false].
Qed.

(** The access rights of a page loaded for a segment are those of the segment; a writable
    page is also readable. *)
Lemma seg_access g user q : pte_access (pte_create q (user_flags (seg_mode g user))) =
  (Z.testbit (sg_flags g) 2 || Z.testbit (sg_flags g) 1, Z.testbit (sg_flags g) 1, Z.testbit (sg_flags g) 0, user).
Proof.
  unfold pte_access, pte_create, user_flags, seg_mode, pt_mode_from_elf.
  change PF_X with (2 ^ 0). change PF_W with (2 ^ 1). change PF_R with (2 ^ 2). rewrite !land_bit_pos by lia.
  assert (forall k, 0 <= k < 10 -> Z.testbit (u64 (Z.shiftl q PTE_PPN_SHIFT)) k = false) as Hq.
  { intros k Hk. unfold u64, PTE_PPN_SHIFT. rewrite Z.mod_pow2_bits_low by lia. apply Z.shiftl_spec_low. lia. }
  rewrite !Z.lor_spec, !Z.land_spec, !Z.lor_spec, !b2z_mul_testbit, !Hq by lia.
  by destruct (Z.testbit (sg_flags g) 0), (Z.testbit (sg_flags g) 1), (Z.testbit (sg_flags g) 2), user.
Qed.

Lemma loaded_translate P s L2 L3 l x m b : pt_inv s L2 L3 l -> 0 <= m -> loaded P s x m b ->
  exists pa, translate x s = Ok (pa, s) /\ rmem s (__va s pa) = b /\ exists n, pte_map s (idx3 x) = pte_create n (user_flags m).
Proof.
  intros Hinv Hm (q & Hq & _ & Hmap & Hb). pose proof (pi_load _ _ _ _ Hinv) as [Hl1 Hl2].
  destruct (ppn_page s q Hq Hl1 Hl2) as [Hppn Epa]. exists (__pa s q + x mod RISCV_PAGE_SIZE). split_and!.
  - rewrite (translate_run s L2 L3 l) by done. do 2 f_equal. rewrite <- Epa.
    apply translation_created with (user_flags m); [done|done|by apply user_flags_nonneg].
  - rewrite va_of_page; [done|done|apply page_offset].
  - by eexists.
Qed.

Lemma loadElf_run s L2 L3 l base elf f user :
  pt_inv s L2 L3 l -> Forall is_u8 f -> headers_in f elf ->
  read_bytes (rmem s) base (length f) = f -> file_apart (owned s L2 L3 l) base (Z.of_nat (length f)) ->
  file_ok elf f -> (3 * pages_needed elf f (Z.to_nat (num_segments f elf)) 0 <= length l)%nat ->
  (forall x, region elf f 0 x -> valid_pte (pte_map s (idx3 x)) = false) ->
  exists s' L2' L3' l', loadElf base elf user s = Ok (0, s') /\ pt_inv s' L2' L3' l' /\
    (length l <= length l' + 3 * pages_needed elf f (Z.to_nat (num_segments f elf)) 0)%nat /\
    extends_on (region elf f 0) (owned s L2 L3 l) s s' (owned s' L2' L3' l') /\ all_loaded elf f user 0 (owned s' L2' L3' l') s' /\
    read_bytes (rmem s') base (length f) = f.
Proof.
  intros Hinv Hu8 Hread Hf Hfa Hok Hl Hun. pose proof (num_segments_u16 elf f Hu8) as H16.
  destruct (wp_inv (loadElf base elf user) (fun r s' => r = 0 /\ exists L2' L3' l', pt_inv s' L2' L3' l' /\
    (length l <= length l' + 3 * pages_needed elf f (Z.to_nat (num_segments f elf)) 0)%nat /\
    extends_on (region elf f 0) (owned s L2 L3 l) s s' (owned s' L2' L3' l') /\ all_loaded elf f user 0 (owned s' L2' L3' l') s') s)
    as (r & s' & E & -> & L2' & L3' & l' & Hinv' & Hl' & Hex & Hall).
  { unfold loadElf. apply (wp_load_segments base elf f user Hu8 Hread Hok (Z.to_nat (num_segments f elf)) _ s L2 L3 l);
      try done; try lia. intros s' L2' L3' l' ? ? ? ?. split; [done|]. by exists L2', L3', l'. }
  exists s', L2', L3', l'. do 5 (split; [done|]).
  pose proof (file_bytes _ _ _ _ base _ (ex_touches _ _ _ _ _ Hex) (fun x => owned_page_ok s L2 L3 l x Hinv) Hfa ltac:(lia)) as Hb.
  rewrite Nat2Z.id in Hb. by rewrite Hb.
Qed.

(** The address space after loading. *)
Lemma segment_visible elf f user P s L2 L3 l k x : pt_inv s L2 L3 l -> all_loaded elf f user 0 P s -> loadable elf f k ->
  let g := segment_at f elf k in
  sg_vaddr g <= x < sg_vaddr g + sg_memsz g ->
  exists pa, translate x s = Ok (pa, s) /\ rmem s (__va s pa) = seg_byte f g x /\
    pte_access (pte_map s (idx3 x)) =
      (Z.testbit (sg_flags g) 2 || Z.testbit (sg_flags g) 1, Z.testbit (sg_flags g) 1, Z.testbit (sg_flags g) 0, user).
Proof.
  intros Hinv Hall Hk g Hx.
  destruct (loaded_translate _ s L2 L3 l x _ _ Hinv (seg_mode_nonneg _ _) (Hall k x ltac:(destruct Hk; lia) Hk Hx))
    as (pa & Htr & Hb & n & Hpte). exists pa. split; [done|]. split; [done|]. rewrite Hpte. apply seg_access.
Qed.

(** Loading a program.  Let [f] be the start of the file in memory, up to any point behind the
    headers and the data of the loadable segments; what follows in the file may change while it is loaded,
    so that page tables and free pages may lie there.  When the tables and the free pages are apart from [f], the loadable
    segments are well formed (addresses and file positions agree modulo the page size), fall into
    pages of their own and are not mapped yet, and there are three free pages for each page of a
    segment, then [loadElf] returns 0.  Afterwards every address of a segment translates to memory that holds
    the byte of the file, or zero behind the file data (in a first page that the segment
    enters in the middle, the bytes of the file up to the end of the page); its page has the rights of the
    segment, and the user bit as asked for; every other address translates as before, and the page-table
    invariant and [f] are kept. *)
Theorem loadElf_correct s L2 L3 l base elf f user :
  pt_inv s L2 L3 l -> Forall is_u8 f -> headers_in f elf ->
  read_bytes (rmem s) base (length f) = f -> file_apart (owned s L2 L3 l) base (Z.of_nat (length f)) ->
  file_ok elf f -> (3 * pages_needed elf f (Z.to_nat (num_segments f elf)) 0 <= length l)%nat ->
  (forall x, region elf f 0 x -> valid_pte (pte_map s (idx3 x)) = false) ->
  exists s' L2' L3' l', loadElf base elf user s = Ok (0, s') /\ pt_inv s' L2' L3' l' /\
    (forall k x, loadable elf f k ->
      let g := segment_at f elf k in
      sg_vaddr g <= x < sg_vaddr g + sg_memsz g ->
      exists pa, translate x s' = Ok (pa, s') /\ rmem s' (__va s' pa) = seg_byte f g x /\
        pte_access (pte_map s' (idx3 x)) =
          (Z.testbit (sg_flags g) 2 || Z.testbit (sg_flags g) 1, Z.testbit (sg_flags g) 1, Z.testbit (sg_flags g) 0, user)) /\
    (forall va, (forall x, region elf f 0 x -> idx3 x <> idx3 va) -> translate va s' = Ok (translation s va, s')) /\
    read_bytes (rmem s') base (length f) = f.
Proof.
  intros Hinv Hu8 Hread Hf Hfa Hok Hl Hun.
  destruct (loadElf_run s L2 L3 l base elf f user Hinv Hu8 Hread Hf Hfa Hok Hl Hun)
    as (s' & L2' & L3' & l' & E & Hinv' & _ & Hex & Hall & Hb).
  exists s', L2', L3', l'. split; [done|]. split; [done|]. split_and!; [|intros va Hva|done].
  - intros k x Hk. exact (segment_visible elf f user _ s' L2' L3' l' k x Hinv' Hall Hk).
  - rewrite (translate_run s' L2' L3' l') by done. do 2 f_equal. apply translation_ext, (ex_map _ _ _ _ _ Hex); [apply is_idx3_idx3|done].
Qed.

(** ** Witness: a file with one segment, of 184 bytes and 16 bytes of zeros behind them *)

Definition demo_prog : file :=
  ELFMAG ++ [2] ++ replicate 27 0 ++ le64 64 ++ le64 120 ++ replicate 6 0 ++ [56; 0; 1; 0; 64; 0; 1; 0; 0; 0] ++
  [1; 0; 0; 0; 5; 0; 0; 0] ++ le64 0 ++ le64 0x10000 ++ le64 0x10000 ++ le64 184 ++ le64 200 ++ le64 4096 ++ replicate 64 0.
Definition demo_base : Z := 0xffffffff00200000.
Definition demo_load : rt_state := set_rmem (write_bytes (rmem demo_pt) demo_base demo_prog) demo_pt.
Definition demo_elf_t : elf_t := mkElf 184 2.

Lemma demo_owned p : p ∈ owned demo_pt [] [] demo_pages -> p + RISCV_PAGE_SIZE <= demo_base.
Proof.
  assert (Forall (fun p => p + RISCV_PAGE_SIZE <= demo_base) (owned demo_pt [] [] demo_pages)) as H
    by (apply (bool_decide_unpack _); by vm_compute).
  rewrite Forall_forall in H. intros Hp. by apply H, list_elem_of_In.
Qed.

Lemma demo_load_inv : pt_inv demo_load [] [] demo_pages /\ (forall j, is_idx3 j -> pte_map demo_load j = pte_map demo_pt j).
Proof.
  apply (pt_inv_write demo_pt [] [] demo_pages demo_base demo_base demo_prog demo_pt_inv); try (by vm_compute).
  intros Hin%demo_owned. by vm_compute in Hin.
Qed.

Lemma demo_num_segments : num_segments demo_prog demo_elf_t = 1.
Proof. by vm_compute. Qed.

Lemma demo_segment : segment_at demo_prog demo_elf_t 0 = mkSeg 1 0x10000 184 200 0 5.
Proof. by vm_compute. Qed.

Lemma demo_loadable k : loadable demo_elf_t demo_prog k -> k = 0.
Proof. intros [Hk _]. rewrite demo_num_segments in Hk. lia. Qed.

Lemma demo_loadable_0 : loadable demo_elf_t demo_prog 0.
Proof. split; [by rewrite demo_num_segments|by rewrite demo_segment]. Qed.

Lemma demo_file_ok : file_ok demo_elf_t demo_prog.
Proof.
  split.
  - intros i ->%demo_loadable. rewrite demo_segment. split; repeat split; by vm_compute.
  - intros i j ->%demo_loadable ->%demo_loadable. done.
Qed.

Lemma loadElf_correct_witness : exists s' pa, loadElf demo_base demo_elf_t true demo_load = Ok (0, s') /\
  translate 0x10001 s' = Ok (pa, s') /\ rmem s' (__va s' pa) = 0x45.
Proof.
  destruct (loadElf_correct demo_load [] [] demo_pages demo_base demo_elf_t demo_prog true) as (s' & L2 & L3 & l & E & _ & Hload & _).
  - apply demo_load_inv.
  - apply (bool_decide_unpack _). by vm_compute.
  - by vm_compute.
  - by vm_compute.
  - split; [done|done|done|]. intros p Hp%demo_owned. by left.
  - exact demo_file_ok.
  - apply Nat.leb_le. by vm_compute.
  - intros x _. rewrite (proj2 demo_load_inv) by apply is_idx3_idx3.
    pose proof (is_idx_index x 1 ltac:(lia)) as Hi. unfold pte_map, pte_of, leaf_of, idx3. cbn [root_page_table demo_pt].
    by rewrite demo_root_empty.
  - destruct (Hload 0 0x10001 demo_loadable_0) as (pa & Htr & Hb & _); [rewrite demo_segment; cbn; lia|].
    exists s', pa. split; [exact E|]. split; [exact Htr|]. rewrite Hb, demo_segment. vm_compute. reflexivity.
Defined.
