(* ===== verification/Boot.v ===== *)
(** * Start-up of the runtime ([runtime/sys/boot.c], [runtime/sys/env.c],
    [runtime/sys/interrupt.c])

    [eyrie_boot] runs once in supervisor mode on the page table the loader left: it sets
    the globals, puts free memory on the free list, loads the application, allocates
    its stack, with arguments and auxiliary vector if configured, and arms the
    timer.  Memory and the memory manager are those of [Vm]; the control registers,
    the timer and the sources of random words and of the time are part of the state. *)

From S2P Require Import Prelude Mem Vm Freemem PageTable EdgeCall Backing Merkle MerkleAlloc PageSwap Paging Elf Loader.
From Stdlib Require Import ZArith Lia.
From stdpp Require Import base tactics sets list list_numbers numbers.
Local Open Scope Z_scope.
Local Open Scope keystone_scope.

Definition EYRIE_USER_STACK_START : Z := 0x40000000.
Definition EYRIE_USER_STACK_SIZE : Z := 0x20000.
Definition EYRIE_USER_STACK_END : Z := EYRIE_USER_STACK_START - EYRIE_USER_STACK_SIZE.
Definition EYRIE_ANON_REGION_START : Z := 0x2000000000.

(** auxvec.h *)
Definition AT_NULL : Z := 0.
Definition AT_PHDR : Z := 3.
Definition AT_PHNUM : Z := 5.
Definition AT_PAGESZ : Z := 6.
Definition AT_UID : Z := 11.
Definition AT_EUID : Z := 12.
Definition AT_GID : Z := 13.
Definition AT_EGID : Z := 14.
Definition AT_HWCAP : Z := 16.
Definition AT_SECURE : Z := 23.
Definition AT_RANDOM : Z := 25.
Definition AT_EXECFN : Z := 31.
Definition AT_SYSINFO : Z := 32.

(** ** State *)

Record sup_csrs : Type := mkCsrs { satp : Z; sepc : Z; sscratch : Z; stvec : Z; sstatus : Z; sie : Z }.

Record eyrie_state : Type := mkBoot {
  bt_rt : rt_state;
  bt_csrs : sup_csrs;
  runtime_va_start : Z;
  shared_buffer : Z;
  shared_buffer_size : Z;
  bt_edge : edge_state;
  bt_timer : Z;
  bt_cycles : nat -> Z;
  bt_random : nat -> Z;
  bt_stops : nat
}.

Definition set_bt_rt (r : rt_state) (s : eyrie_state) : eyrie_state :=
  mkBoot r (bt_csrs s) (runtime_va_start s) (shared_buffer s) (shared_buffer_size s) (bt_edge s) (bt_timer s) (bt_cycles s) (bt_random s) (bt_stops s).
Definition set_csrs (g : sup_csrs -> sup_csrs) (s : eyrie_state) : eyrie_state :=
  mkBoot (bt_rt s) (g (bt_csrs s)) (runtime_va_start s) (shared_buffer s) (shared_buffer_size s) (bt_edge s) (bt_timer s) (bt_cycles s) (bt_random s) (bt_stops s).
Definition set_boot_globals (va buf size : Z) (s : eyrie_state) : eyrie_state :=
  mkBoot (bt_rt s) (bt_csrs s) va buf size (bt_edge s) (bt_timer s) (bt_cycles s) (bt_random s) (bt_stops s).
Definition set_bt_edge (e : edge_state) (s : eyrie_state) : eyrie_state :=
  mkBoot (bt_rt s) (bt_csrs s) (runtime_va_start s) (shared_buffer s) (shared_buffer_size s) e (bt_timer s) (bt_cycles s) (bt_random s) (bt_stops s).
Definition set_timer (t : Z) (cycles : nat -> Z) (s : eyrie_state) : eyrie_state :=
  mkBoot (bt_rt s) (bt_csrs s) (runtime_va_start s) (shared_buffer s) (shared_buffer_size s) (bt_edge s) t cycles (bt_random s) (bt_stops s).
Definition set_bt_random (r : nat -> Z) (s : eyrie_state) : eyrie_state :=
  mkBoot (bt_rt s) (bt_csrs s) (runtime_va_start s) (shared_buffer s) (shared_buffer_size s) (bt_edge s) (bt_timer s) (bt_cycles s) r (bt_stops s).
Definition add_stop (s : eyrie_state) : eyrie_state :=
  mkBoot (bt_rt s) (bt_csrs s) (runtime_va_start s) (shared_buffer s) (shared_buffer_size s) (bt_edge s) (bt_timer s) (bt_cycles s) (bt_random s) (S (bt_stops s)).

Definition set_satp (v : Z) (c : sup_csrs) : sup_csrs := mkCsrs v (sepc c) (sscratch c) (stvec c) (sstatus c) (sie c).
Definition set_sepc (v : Z) (c : sup_csrs) : sup_csrs := mkCsrs (satp c) v (sscratch c) (stvec c) (sstatus c) (sie c).
Definition set_sscratch (v : Z) (c : sup_csrs) : sup_csrs := mkCsrs (satp c) (sepc c) v (stvec c) (sstatus c) (sie c).
Definition set_stvec (v : Z) (c : sup_csrs) : sup_csrs := mkCsrs (satp c) (sepc c) (sscratch c) v (sstatus c) (sie c).
Definition set_sstatus (v : Z) (c : sup_csrs) : sup_csrs := mkCsrs (satp c) (sepc c) (sscratch c) (stvec c) v (sie c).
Definition set_sie (v : Z) (c : sup_csrs) : sup_csrs := mkCsrs (satp c) (sepc c) (sscratch c) (stvec c) (sstatus c) v.

Definition on_rt {A} (c : M rt_state A) : M eyrie_state A := zoom bt_rt set_bt_rt c.
Definition on_edge {A} (c : M edge_state A) : M eyrie_state A := zoom bt_edge set_bt_edge c.

(** ** interrupt.c *)

Definition DEFAULT_CLOCK_DELAY : Z := 10000.
Definition INTERRUPT_CAUSE_TIMER : Z := 5.
Definition SR_SPIE : Z := 0x20.
Definition SIE_STIE : Z := 0x20.
Definition SIE_SSIE : Z := 0x2.

(** [sbi_set_timer(get_cycles64() + DEFAULT_CLOCK_DELAY)]. *)
Definition rearm : M eyrie_state unit := modify (fun s => set_timer (bt_cycles s 0%nat +w DEFAULT_CLOCK_DELAY) (fun n => bt_cycles s (S n)) s).
Definition csr_set_sstatus (bits : Z) : M eyrie_state unit := modify (set_csrs (fun c => set_sstatus (Z.lor (sstatus c) bits) c)).

Definition init_timer : M eyrie_state unit :=
  rearm ;;; csr_set_sstatus SR_SPIE ;;; modify (set_csrs (fun c => set_sie (Z.lor (sie c) (Z.lor SIE_STIE SIE_SSIE)) c)).

(** [sbi_stop_enclave(0)]: the enclave runs on when the host resumes it. *)
Definition sbi_stop_enclave_interrupted : M eyrie_state unit := modify add_stop.

Definition handle_timer_interrupt : M eyrie_state unit := sbi_stop_enclave_interrupted ;;; rearm ;;; csr_set_sstatus SR_SPIE.

Definition handle_interrupts (cause : Z) : M eyrie_state unit :=
  if cause =? INTERRUPT_CAUSE_TIMER then handle_timer_interrupt else sbi_stop_enclave_interrupted.

(** ** env.c *)

Definition AUXV_COUNT : Z := 13.
Definition SIZE_OF_SETUP : Z := 1 + 1 + 1 + 2 * AUXV_COUNT + 2.

(** A field of a structure in memory. *)
Definition rt_fld (a : Z) (m : field) (s : rt_state) : Z := le_value (read_bytes (rmem s) (a +w m.1) (Z.to_nat m.2)).

(** [for(h = 0; h < hdr->e_phnum; h++)]: the entries for the first loadable segment at file
    offset 0. *)
Fixpoint find_base (n : nat) (hdr phdr h : Z) (s : rt_state) : list Z :=
  match n with
  | O => []
  | S n =>
      let p := phdr +w phdr_size Elf64_Phdr * h in
      if (rt_fld p (p_type Elf64_Phdr) s =? PT_LOAD) && (rt_fld p (p_offset Elf64_Phdr) s =? 0)
      then [AT_PHDR; rt_fld p (p_vaddr Elf64_Phdr) s +w rt_fld hdr (e_phoff Elf64_Ehdr) s; AT_PHNUM; rt_fld hdr (e_phnum Elf64_Ehdr) s]
      else find_base n hdr phdr (h + 1) s
  end.

(** The auxiliary vector, with [at_random] for the address of the random bytes. *)
Definition auxv_words (at_random : Z) (base : list Z) : list Z :=
  [AT_HWCAP; 0x112d; AT_SYSINFO; 0; AT_PAGESZ; 0x1000; AT_EXECFN; 0; AT_SECURE; 0; AT_RANDOM; at_random;
   AT_GID; 1; AT_EGID; 1; AT_UID; 1; AT_EUID; 1] ++ base ++ [AT_NULL; 0].

(** [sbi_random]. *)
Definition bt_sbi_random : M eyrie_state Z := fun s => Ok (u64 (bt_random s 0%nat), set_bt_random (fun n => bt_random s (S n)) s).

(** Writing to an address of the user through the page table; an unmapped address
    faults. *)
Definition user_store (va b : Z) : M rt_state unit :=
  let! pa := translate va in
  if pa =? 0 then hang
  else modify (fun s => set_rmem (write_bytes (rmem s) (__va s pa) [b]) s).
Fixpoint copy_to_user (va : Z) (bs : list Z) : M rt_state unit :=
  match bs with
  | [] => ret tt
  | b :: bs => user_store va b ;;; copy_to_user (va +w 1) bs
  end.

(** [staging] holds [junk] where it is not written. *)
Definition setup_start (use_env_setup : bool) (junk : list Z) (_sp hdr : Z) : M eyrie_state Z :=
  if use_env_setup then
    let sp := _sp -w 8 * SIZE_OF_SETUP in
    let! s := get in
    let phdr := hdr +w rt_fld hdr (e_phoff Elf64_Ehdr) (bt_rt s) in
    let base := find_base (Z.to_nat (rt_fld hdr (e_phnum Elf64_Ehdr) (bt_rt s))) hdr phdr 0 (bt_rt s) in
    let i := Z.of_nat (length (auxv_words 0 base)) in
    let! rnd := rt_util_getrandom bt_sbi_random 16 in
    let auxv := auxv_words (sp +w 8 * (i + 3)) base in
    let staging := concat (map le64 ([0; 0; 0] ++ auxv)) ++ rnd in
    on_rt (copy_to_user sp (take (Z.to_nat (8 * SIZE_OF_SETUP)) (staging ++ junk))) ;;;
    ret sp
  else ret _sp.

(** ** boot.c *)

Definition verify_and_load_elf_file (ptr file_size : Z) (is_eapp : bool) : M eyrie_state Z :=
  if (ptr =? 0) || (file_size =? 0) then ret (-1)
  else
    let! '(r, elf_file) := on_rt (with_file ptr (mkElf file_size 0) (elf_newFile file_size)) in
    match elf_file with
    | None => ret r
    | Some elf_file =>
        let! r := on_rt (loadElf ptr elf_file true) in
        (if is_eapp then
           let! entry := on_rt (with_file ptr elf_file (elf_getEntryPoint elf_file)) in
           modify (set_csrs (set_sepc entry))
         else ret tt) ;;;
        ret r
    end.

Definition boot_assert (b : bool) : M eyrie_state unit := if b then ret tt else hang.

Definition init_freemem : M eyrie_state unit :=
  let! s := get in on_rt (spa_init (freemem_va_start (bt_rt s)) (freemem_size (bt_rt s))).

Definition stack_flags : Z := Z.lor (Z.lor (Z.lor (Z.lor PTE_R PTE_W) PTE_D) PTE_A) PTE_U.

Definition init_user_stack_and_env (use_env_setup : bool) (junk : list Z) (hdr : Z) : M eyrie_state unit :=
  let stack_count := Z.shiftr EYRIE_USER_STACK_SIZE RISCV_PAGE_BITS in
  let! count := on_rt (alloc_pages (vpn EYRIE_USER_STACK_END) stack_count stack_flags) in
  boot_assert (count =? stack_count) ;;;
  let! user_sp := setup_start use_env_setup junk EYRIE_USER_STACK_START hdr in
  modify (set_csrs (set_sscratch user_sp)).

(** The assignments to the globals of the memory manager at the start. *)
Definition boot_rt (r : rt_state) (dram_base dram_size satp_value rt_base runtime_paddr free_paddr : Z) : rt_state :=
  let r1 := mkRt (rmem r) (spa_free_pages r) (freemem_va_start r) (freemem_size r) dram_base (rt_base -w runtime_paddr)
              (root_page_table r) (current_program_break r) in
  mkRt (rmem r) (spa_free_pages r) (__va r1 free_paddr) ((dram_base +w dram_size) -w free_paddr) dram_base (rt_base -w runtime_paddr)
    (__va r1 (u64 (Z.shiftl satp_value RISCV_PAGE_BITS))) (current_program_break r).

(** [rt_base] and [trap_handler] are the addresses of the symbols. *)
Definition eyrie_boot (use_env_setup : bool) (junk : list Z) (rt_base trap_handler : Z)
    (dram_base dram_size runtime_paddr user_paddr free_paddr utm_vaddr utm_size : Z) : M eyrie_state unit :=
  modify (fun s => set_bt_rt (boot_rt (bt_rt s) dram_base dram_size (satp (bt_csrs s)) rt_base runtime_paddr free_paddr) s) ;;;
  modify (set_boot_globals rt_base EYRIE_UNTRUSTED_START utm_size) ;;;
  modify (set_csrs (set_stvec trap_handler)) ;;;
  init_freemem ;;;
  let! s := get in
  let! r := verify_and_load_elf_file (__va (bt_rt s) user_paddr) (free_paddr -w user_paddr) true in
  boot_assert (r =? 0) ;;;
  on_rt (set_program_break (EYRIE_ANON_REGION_START +w 1024 * 1024 * 1024)) ;;;
  init_user_stack_and_env use_env_setup junk (__va (bt_rt s) user_paddr) ;;;
  let! s := get in
  on_edge (edge_call_init_internals (shared_buffer s) (shared_buffer_size s)) ;;;
  init_timer ;;;
  csr_set_sstatus 0x6000.
