(* ===== verification/BootRun.v ===== *)
(** * What the start-up of the runtime establishes *)

From S2P Require Import Prelude Mem Vm Freemem PageTable EdgeCall Paging Elf Loader LoaderRun Boot.
From Stdlib Require Import ZArith Lia.
From stdpp Require Import base tactics sets list list_numbers numbers.
Local Open Scope Z_scope.
Local Open Scope keystone_scope.

(** ** Consecutive pages of zeros *)

Lemma wp_alloc_pages n : forall fuel s L2 L3 l v va count i m (Q : Z -> rt_state -> Prop),
  pt_inv s L2 L3 l -> (3 * n <= length l)%nat -> (n <= fuel)%nat -> 0 <= m -> 0 <= i -> count = i + Z.of_nat n -> count < 2 ^ 32 ->
  0 <= va -> va mod RISCV_PAGE_SIZE = 0 -> va + RISCV_PAGE_SIZE * Z.of_nat n <= 2 ^ 38 -> v +w i = vpn va -> is_u64 v ->
  (forall x, va <= x < va + RISCV_PAGE_SIZE * Z.of_nat n -> valid_pte (pte_map s (idx3 x)) = false) ->
  (forall s' L2' L3' l', pt_inv s' L2' L3' l' ->
    extends va (va + RISCV_PAGE_SIZE * Z.of_nat n) (owned s L2 L3 l) s s' (owned s' L2' L3' l') ->
    (forall x, va <= x < va + RISCV_PAGE_SIZE * Z.of_nat n -> loaded (owned s' L2' L3' l') s' x m 0) -> Q count s') ->
  wp (alloc_pages_loop fuel v count i m) Q s.
Proof.
  assert (RISCV_PAGE_SIZE = 4096) as Hps by done.
  induction n as [|n IH]; intros fuel s L2 L3 l v va count i m Q Hinv Hl Hfuel Hm Hi -> Hc Hva Hal Htop Hv Hvu Hun HQ.
  - rewrite Z.mul_0_r, !Z.add_0_r in *. destruct fuel; cbn [alloc_pages_loop]; rewrite Z.ltb_irrefl; wp_step;
    (apply (HQ s L2 L3 l); [done|apply extends_refl|intros; lia]).
  - destruct fuel as [|fuel]; [lia|]. cbn [alloc_pages_loop]. rewrite Nat2Z.inj_succ in *.
    rewrite (proj2 (Z.ltb_lt _ _)), Hv by lia.
    assert (va + RISCV_PAGE_SIZE * Z.succ (Z.of_nat n) = va + RISCV_PAGE_SIZE + RISCV_PAGE_SIZE * Z.of_nat n) as Ev by lia.
    rewrite Ev in *.
    change (wp (let! p := alloc_page (vpn va) m in if p =? 0 then ret i else alloc_pages_loop fuel v (i + Z.succ (Z.of_nat n)) (u32 (i + 1)) m) Q s).
    wp_step. apply (wp_load_alloc s L2 L3 l); [done|lia|lia|done|apply Hun; lia|].
    intros p s1 L2' L3' l1 Hinv1 Hl1 Hp Hpin Hpo Hg Hot Hmap Hz.
    rewrite (proj2 (Z.eqb_neq p 0)) by (destruct Hp as (_ & ? & _); lia). rewrite u32_id by (unfold is_u32; lia).
    assert (forall x, va <= x < va + RISCV_PAGE_SIZE -> idx3 x = idx3 va) as Hsame.
    { intros x Hx. apply idx3_page; [lia|lia|]. rewrite Hps in *. clear -Hx Hal. mlia. }
    assert (extends va (va + RISCV_PAGE_SIZE) (owned s L2 L3 l) s s1 (owned s1 L2' L3' l1)) as Hex.
    { split; [done|done|]. intros j Hj Hout. rewrite Hmap by done. rewrite decide_False; [done|]. intros ->. by apply (Hout va); [lia|]. }
    assert (forall x y, va <= y < va + RISCV_PAGE_SIZE -> va + RISCV_PAGE_SIZE <= x < va + RISCV_PAGE_SIZE + RISCV_PAGE_SIZE * Z.of_nat n -> idx3 x <> idx3 y) as Hdiff.
    { intros x y Hy Hx E. apply idx3_page in E; [|lia|lia]. rewrite Hps in *. clear -E Hx Hy Hal. mlia. }
    apply (IH fuel s1 L2' L3' l1 v (va + RISCV_PAGE_SIZE)); [done|lia|lia|done|lia|lia|lia|lia| |lia| |done| |].
    + rewrite Hps in *. clear -Hal. mlia.
    + rewrite Z.add_assoc, <- u64_add_l, Hv. unfold vpn, RISCV_PAGE_BITS. rewrite !Z.shiftr_div_pow2 by lia.
      change (2 ^ 12) with 4096. assert (0 <= va < 2 ^ 38) as Hvr by lia. rewrite Hps. clear -Hvr. rewrite u64_id by (unfold is_u64; mlia). mlia.
    + intros x Hx. rewrite (ex_map _ _ _ _ _ Hex); [apply Hun; lia|apply is_idx3_idx3|]. intros y Hy E. by apply (Hdiff x y Hy Hx).
    + intros s2 L2'' L3'' l2 Hinv2 Hex2 Hload2. apply (HQ s2 L2'' L3'' l2); [done|eapply (extends_trans va (va + RISCV_PAGE_SIZE)); [|exact Hex|exact Hex2]; lia|].
      intros x Hx. destruct (decide (x < va + RISCV_PAGE_SIZE)) as [Hlt|Hge]; [|apply Hload2; lia].
      apply (loaded_extends _ _ _ _ _ _ _ _ _ Hex2 (fun y => owned_page_ok s1 L2' L3' l1 y Hinv1)); [intros y Hy; apply Hdiff; lia|].
      exists p. split; [done|]. split; [done|]. pose proof (page_offset x).
      rewrite (Hsame x), Hmap, decide_True by (done || apply is_idx3_idx3 || lia). split; [unfold __pa; by rewrite (sg_load _ _ Hg)|].
      assert (in_page p (p + x mod RISCV_PAGE_SIZE)) by (unfold in_page; lia). apply Hz; [by apply (in_page_u64 p)|done].
Qed.

(** ** The layout at the start *)

Definition stack_addr (x : Z) : Prop := EYRIE_USER_STACK_END <= x < EYRIE_USER_STACK_START.

(** The enclave memory as the loader left it: [r] is the memory manager with its globals
    set.  The range that is handed over as the program file starts at [base] and ends where free memory starts;
    it holds the program [f] and behind it the rest, [rest], with the page tables that the loader
    allocated.  The tables are apart from [f] and from free memory; the program can be loaded
    apart from the stack; and there is memory for the program and the 32 pages of the stack. *)
Record boot_ok (r : rt_state) (L2 L3 : list Z) (base : Z) (f rest : file) (elf : elf_t) : Prop := {
  bo_tree : tree (root_page_table r) (next_table r) (table_of r) L2 L3;
  bo_tables : forall t, t ∈ tables r L2 L3 -> page_ok t /\
    (t + RISCV_PAGE_SIZE <= base \/
     base + Z.of_nat (length f) <= t /\ t + RISCV_PAGE_SIZE <= freemem_va_start r \/
     freemem_va_start r + freemem_size r <= t);
  bo_load : is_u64 (load_pa_start r) /\ load_pa_start r mod RISCV_PAGE_SIZE = 0;
  bo_free : freemem_ok r /\ EYRIE_LOAD_START < freemem_va_start r;
  bo_aligned : freemem_va_start r mod RISCV_PAGE_SIZE = 0 /\ freemem_size r mod RISCV_PAGE_SIZE = 0;
  bo_file : 0 < base /\ base mod RISCV_PAGE_SIZE = 0 /\ freemem_va_start r = base + Z.of_nat (length (f ++ rest));
  bo_bytes : Forall is_u8 (f ++ rest) /\ read_bytes (rmem r) base (length (f ++ rest)) = f ++ rest;
  bo_elf : elf_newFile (Z.of_nat (length (f ++ rest))) (f ++ rest) = Ok ((0, Some elf), f ++ rest);
  bo_headers : headers_in f elf;
  bo_segments : file_ok elf f;
  bo_pages : (3 * (pages_needed elf f (Z.to_nat (num_segments f elf)) 0 + 32) <= Z.to_nat (freemem_size r / RISCV_PAGE_SIZE))%nat;
  bo_unmapped : forall x, region elf f 0 x \/ stack_addr x -> valid_pte (pte_map r (idx3 x)) = false;
  bo_stack : forall x y, region elf f 0 x -> stack_addr y -> idx3 x <> idx3 y
}.

Lemma pages_from_spec base n p : p ∈ pages_from base n <-> exists i, (i < n)%nat /\ p = base + RISCV_PAGE_SIZE * Z.of_nat i.
Proof.
  unfold pages_from. rewrite list_elem_of_In, in_map_iff. split.
  - intros (i & <- & Hi%in_seq). exists i. split; [lia|done].
  - intros (i & Hi & ->). exists i. split; [done|]. apply in_seq. lia.
Qed.

Lemma read_prefix mem base f rest : read_bytes mem base (length (f ++ rest)) = f ++ rest -> read_bytes mem base (length f) = f.
Proof.
  rewrite length_app, read_bytes_app. intros E. apply app_inj_1 in E as [E _]; [done|]. unfold read_bytes. by rewrite length_map, length_seq.
Qed.

Lemma newFile_size f elf : Forall is_u8 f -> Z.of_nat (length f) < 2 ^ 64 ->
  elf_newFile (Z.of_nat (length f)) f = Ok ((0, Some elf), f) -> elfSize elf = Z.of_nat (length f).
Proof.
  intros Hu8 Hlen Hnew. destruct (newFile_spec f Hu8 Hlen) as (r & E & Hr). rewrite Hnew in E. injection E as <-.
  destruct Hr as [?|(elf' & [= <-] & Hve)]; [done|]. apply Hve.
Qed.

(** Free memory on the free list. *)
Lemma boot_freemem r L2 L3 base f rest elf : boot_ok r L2 L3 base f rest elf ->
  exists r', spa_init (freemem_va_start r) (freemem_size r) r = Ok (tt, r') /\ same_globals r r' /\
    let l := pages_from (freemem_va_start r) (Z.to_nat (freemem_size r / RISCV_PAGE_SIZE)) in
    pt_inv r' L2 L3 l /\ (forall j, is_idx3 j -> pte_map r' j = pte_map r j) /\
    file_apart (owned r' L2 L3 l) base (Z.of_nat (length f)) /\
    read_bytes (rmem r') base (length (f ++ rest)) = f ++ rest.
Proof.
  intros [Htree Htab Hload [Hfm Hlo] [Ha Hsz] (Hb & Hba & Hend) [Hu8 Hf] _ _ _ Hpages _ _].
  pose proof Hfm as (? & ? & Htop). assert (RISCV_PAGE_SIZE = 4096) as Hps by done.
  destruct (spa_init_correct r (freemem_va_start r) (freemem_size r) Hfm Hlo) as [Hinit _]; [lia|lia|].
  destruct (Hinit Ha Hsz) as (r' & E & Hq & _ & Hg & Hmem).
  exists r'. split; [done|]. split; [done|]. intros l. fold l in Hq, Hmem.
  assert (forall p, p ∈ l -> freemem_va_start r <= p /\ p + RISCV_PAGE_SIZE <= freemem_va_start r + freemem_size r) as Hl.
  { intros p (i & Hi & ->)%pages_from_spec. rewrite Hps in *. clear -Hi Hsz H0. mlia. }
  assert (forall t, t ∈ tables r L2 L3 -> t ∉ l) as Hap.
  { intros t Ht Hin. destruct (Htab t Ht) as [_ Hor], (Hl t Hin). lia. }
  assert (forall t a, t ∈ tables r L2 L3 -> is_idx a -> table_of r' t a = table_of r t a) as Hext.
  { intros t a Ht Ha'. destruct (Htab t Ht) as [Htp Hor]. pose proof (page_top t Htp). unfold table_of. rewrite pte_addr_eq by done.
    unfold load64. f_equal. unfold read_bytes. apply map_ext_in. intros k Hk%in_seq. unfold is_idx in Ha'.
    destruct Htp as ((? & ?) & _). rewrite u64_id by (unfold is_u64; rewrite Hps in *; lia).
    apply Hmem; [unfold is_u64; rewrite Hps in *; lia|]. intros q Hqin. destruct (Hl q Hqin). rewrite Hps in *. lia. }
  destruct (tree_ext _ _ _ (table_of r') L2 L3 Htree Hext) as [Htree' Hmap].
  pose proof Hg as [_ _ El _ Er _].
  assert (next_table r' = next_table r) as En by (unfold next_table, __va; by rewrite El).
  split_and!.
  - split; unfold tables; rewrite ?Er, ?En, ?El; [done| |done|done|done]. intros t Ht. by apply Htab.
  - intros j Hj. unfold pte_map. rewrite Er, En. apply Hmap, Hj.
  - split; [done|done| |].
    + assert (RISCV_PAGE_SIZE <= freemem_size r); [|rewrite length_app in Hend; lia]. rewrite Hps in *. clear -Hpages H0. mlia.
    + rewrite length_app in Hend. intros p [Hp|Hp]%elem_of_app; [|right; destruct (Hl p Hp); lia].
      unfold tables in Hp. rewrite Er in Hp. destruct (Htab p Hp) as [_ Hor]. lia.
  - transitivity (read_bytes (rmem r) base (length (f ++ rest))); [|exact Hf]. unfold read_bytes. apply map_ext_in. intros k Hk%in_seq. rewrite u64_id by (unfold is_u64; lia).
    apply Hmem; [unfold is_u64; lia|]. intros q Hqin. destruct (Hl q Hqin). lia.
Qed.

(** ** The theorem *)

Lemma on_rt_run {A} (c : M rt_state A) s a r' : c (bt_rt s) = Ok (a, r') -> on_rt c s = Ok (a, set_bt_rt r' s).
Proof. intros E. unfold on_rt, zoom. by rewrite E. Qed.

Lemma stack_access n : pte_access (pte_create n (user_flags stack_flags)) = (true, true, false, true).
Proof.
  unfold pte_access, pte_create. assert (forall k, 0 <= k < 10 -> Z.testbit (u64 (Z.shiftl n PTE_PPN_SHIFT)) k = false) as Hq.
  { intros k Hk. unfold u64, PTE_PPN_SHIFT. rewrite Z.mod_pow2_bits_low by lia. apply Z.shiftl_spec_low. lia. }
  by rewrite !Z.lor_spec, !Hq by lia.
Qed.

Lemma pt_inv_break s b L2 L3 l : pt_inv s L2 L3 l -> pt_inv (set_break b s) L2 L3 l.
Proof. intros [H1 H2 [] H4 H5]. split; [exact H1|exact H2|by split|exact H4|exact H5]. Qed.

Lemma pte_map_break b s j : pte_map (set_break b s) j = pte_map s j.
Proof. unfold pte_map, next_table, table_of, __va. cbn [set_break root_page_table load_pa_start rmem]. reflexivity. Qed.

Lemma owned_break b s L2 L3 l : owned (set_break b s) L2 L3 l = owned s L2 L3 l.
Proof. unfold owned, tables. cbn [set_break root_page_table]. reflexivity. Qed.

Lemma loaded_break b P s x m v : loaded P s x m v -> loaded P (set_break b s) x m v.
Proof.
  intros (q & Hq & HqP & Hmap & Hb). exists q. split; [exact Hq|]. split; [exact HqP|]. rewrite pte_map_break.
  unfold __pa. cbn [set_break load_pa_start rmem]. unfold __pa in Hmap. split; [exact Hmap|exact Hb].
Qed.

Definition boot_break : Z := EYRIE_ANON_REGION_START +w 1024 * 1024 * 1024.

Lemma bind_run {S A B} (c : M S A) (k : A -> M S B) s a s' x : c s = Ok (a, s') -> k a s' = x -> bind c k s = x.
Proof. intros E1 E2. unfold bind. by rewrite E1. Qed.

(** Program and stack in the address space. *)
Lemma boot_program r L2 L3 base f rest elf : boot_ok r L2 L3 base f rest elf ->
  exists r1 r2 r3 entry L2' L3' l,
    spa_init (freemem_va_start r) (freemem_size r) r = Ok (tt, r1) /\ same_globals r r1 /\
    with_file base (mkElf (Z.of_nat (length (f ++ rest))) 0) (elf_newFile (Z.of_nat (length (f ++ rest)))) r1 = Ok ((0, Some elf), r1) /\
    loadElf base elf true r1 = Ok (0, r2) /\
    with_file base elf (elf_getEntryPoint elf) r2 = Ok (entry, r2) /\ elf_getEntryPoint elf (f ++ rest) = Ok (entry, f ++ rest) /\
    alloc_pages (vpn EYRIE_USER_STACK_END) 32 stack_flags (set_break boot_break r2) = Ok (32, r3) /\
    pt_inv r3 L2' L3' l /\ all_loaded elf f true 0 (owned r3 L2' L3' l) r3 /\
    (forall x, stack_addr x -> loaded (owned r3 L2' L3' l) r3 x stack_flags 0) /\
    (forall j, is_idx3 j -> (forall x, region elf f 0 x \/ stack_addr x -> idx3 x <> j) -> pte_map r3 j = pte_map r j).
Proof.
  intros Hok. destruct (boot_freemem r L2 L3 base f rest elf Hok) as (r1 & E1 & Hg1 & Hinv1 & Hmap1 & Hfa & Hf).
  assert (elfSize elf = Z.of_nat (length (f ++ rest))) as Hsize.
  { destruct Hok as [_ _ _ [(? & ? & ?) _] _ (? & _ & ?) [? _] Hnew _ _ _ _ _]. apply newFile_size; [done|lia|done]. }
  destruct Hok as [_ _ _ _ _ _ [[Hu8 _]%Forall_app _] Hnew Hhd Hseg Hpages Hun Hst].
  set (l1 := pages_from _ _) in *. assert (length l1 = Z.to_nat (freemem_size r / RISCV_PAGE_SIZE)) as Hl1
    by (unfold l1, pages_from; by rewrite length_map, length_seq).
  destruct (loadElf_run r1 L2 L3 l1 base elf f true) as (r2 & L2' & L3' & l2 & E2 & Hinv2 & Hl2 & Hex2 & Hall2 & Hf2);
    try done; [by apply read_prefix with rest|lia|intros x Hx; rewrite Hmap1 by apply is_idx3_idx3; apply Hun; by left|].
  pose proof (sees_entry f elf Hhd) as Hentry. set (entry := peek f _) in Hentry.
  assert (forall x, stack_addr x -> valid_pte (pte_map r2 (idx3 x)) = false) as Hun2.
  { intros x Hx. rewrite (ex_map _ _ _ _ _ Hex2), Hmap1 by (apply is_idx3_idx3 || (intros y Hy; by apply Hst)). apply Hun. by right. }
  assert (EYRIE_USER_STACK_END + RISCV_PAGE_SIZE * Z.of_nat 32 = EYRIE_USER_STACK_START) as Estack by done.
  destruct (wp_inv (alloc_pages (vpn EYRIE_USER_STACK_END) 32 stack_flags) (fun c r3 => c = 32 /\ exists L2'' L3'' l3, pt_inv r3 L2'' L3'' l3 /\
    extends EYRIE_USER_STACK_END EYRIE_USER_STACK_START (owned (set_break boot_break r2) L2' L3' l2) (set_break boot_break r2) r3 (owned r3 L2'' L3'' l3) /\
    (forall x, stack_addr x -> loaded (owned r3 L2'' L3'' l3) r3 x stack_flags 0)) (set_break boot_break r2))
    as (c & r3 & E3 & -> & L2'' & L3'' & l3 & Hinv3 & Hex3 & Hst3).
  { assert (vpn EYRIE_USER_STACK_END +w 0 = vpn EYRIE_USER_STACK_END) as Ev by by vm_compute.
    assert (0 <= stack_flags) as Hfl by by vm_compute. assert (EYRIE_USER_STACK_START <= 2 ^ 38) as Htop by by vm_compute.
    assert (is_u64 (vpn EYRIE_USER_STACK_END)) as Hvu by by vm_compute. assert (EYRIE_USER_STACK_END mod RISCV_PAGE_SIZE = 0) as Hal by by vm_compute.
    apply (wp_alloc_pages 32 (Z.to_nat 32) (set_break boot_break r2) L2' L3' l2 (vpn EYRIE_USER_STACK_END) EYRIE_USER_STACK_END 32 0 stack_flags _ (pt_inv_break _ _ _ _ _ Hinv2));
      rewrite ?Estack; [lia|lia|exact Hfl|lia|reflexivity|lia|vm_compute; discriminate|exact Hal|exact Htop|exact Ev|exact Hvu|intros x Hx; rewrite pte_map_break; apply Hun2; exact Hx|].
    intros r3 L2'' L3'' l3 H1 H2 H3. split; [reflexivity|]. exists L2'', L3'', l3. split; [exact H1|]. split; [exact H2|exact H3]. }
  exists r1, r2, r3, entry, L2'', L3'', l3. split; [exact E1|]. split; [exact Hg1|]. split.
  { unfold with_file. cbn [elfSize]. rewrite Nat2Z.id, Hf, Hnew. reflexivity. }
  split; [exact E2|]. split.
  { apply (with_file_run base elf f); [apply (hi_size _ _ Hhd)|exact Hf2|exact Hentry]. }
  split; [apply Hentry; symmetry; exact Hsize|]. split; [exact E3|]. split; [exact Hinv3|]. split; [|split; [exact Hst3|]].
  - intros k x Hk Hlk Hx.
    apply (loaded_extends_on _ _ _ _ _ _ _ _ Hex3 (fun y => owned_page_ok _ L2' L3' l2 y (pt_inv_break _ _ _ _ _ Hinv2)));
      [|rewrite owned_break; apply loaded_break; by apply Hall2].
    intros y Hy. apply not_eq_sym, Hst; [|exact Hy]. exists k. split; [done|]. split; [done|].
    pose proof (page_up_bounds (sg_vaddr (segment_at f elf k) + sg_memsz (segment_at f elf k))).
    pose proof (page_offset (sg_vaddr (segment_at f elf k))). unfold seg_hi, seg_lo, page_down. lia.
  - intros j Hj Hout. rewrite (ex_map _ _ _ _ _ Hex3); [|done|intros x Hx; apply Hout; by right].
    rewrite pte_map_break, (ex_map _ _ _ _ _ Hex2); [by apply Hmap1|done|intros x Hx; apply Hout; by left].
Qed.


(** ** Witness: an enclave with the program in page 16, the page tables of the loader in the pages behind it, which map
    the runtime, and then free memory *)

Definition demo_user : Z := 0xffffffff00010000.
Definition demo_root : Z := 0xffffffff00011000.
Definition demo_l2 : Z := 0xffffffff00012000.
Definition demo_l3 : Z := 0xffffffff00013000.
Definition demo_boot_mem : Z -> Z :=
  store64 (store64 (store64 (write_bytes (fun _ => 0) demo_user demo_prog)
    (demo_root + 8 * 511) (ptd_create 0x80012)) demo_l2 (ptd_create 0x80013)) demo_l3 (pte_create 0x80002 0x4a).
Definition demo_rest : file := read_bytes demo_boot_mem (demo_user + 184) (Z.to_nat 16200).
Definition demo_elf16k : elf_t := mkElf 16384 2.
Definition demo_boot : eyrie_state :=
  mkBoot (mkRt demo_boot_mem (mkPgList 0 0 0) 0 0 0 0 0 0)
    (mkCsrs (Z.lor (Z.shiftl 8 60) 0x80011) 0 0 0 0 0) 0 0 0 (mkEdge 0 0 [] (fun _ => 0)) 0 (fun _ => 7) (fun _ => 0) 0.
Definition demo_boot_rt : rt_state := boot_rt (bt_rt demo_boot) 0x80000000 0x94000 (satp (bt_csrs demo_boot)) RUNTIME_VA_START 0x80002000 0x80014000.

Lemma demo_boot_globals : __va demo_boot_rt 0x80010000 = demo_user /\ root_page_table demo_boot_rt = demo_root /\
  freemem_va_start demo_boot_rt = 0xffffffff00014000 /\ freemem_size demo_boot_rt = 0x80000 /\ load_pa_start demo_boot_rt = 0x80000000 /\
  next_table demo_boot_rt (ptd_create 0x80012) = demo_l2 /\ next_table demo_boot_rt (ptd_create 0x80013) = demo_l3.
Proof. repeat split; by vm_compute. Qed.

Lemma length_demo_file : length (demo_prog ++ demo_rest) = Z.to_nat 16384.
Proof. rewrite length_app. unfold demo_rest, read_bytes. rewrite length_map, length_seq. change (length demo_prog) with 184%nat. lia. Qed.

Lemma demo_boot_bytes : Forall is_u8 (demo_prog ++ demo_rest) /\ read_bytes demo_boot_mem demo_user (Z.to_nat 16384) = demo_prog ++ demo_rest.
Proof.
  assert (Forall is_u8 demo_prog) as Hu by (apply (bool_decide_unpack _); by vm_compute). split.
  - apply Forall_app. split; [exact Hu|]. apply read_bytes_u8. do 3 apply store64_mem_bytes. apply write_bytes_mem_bytes; [intros x; by vm_compute|exact Hu].
  - replace (Z.to_nat 16384) with (184 + Z.to_nat 16200)%nat by lia. rewrite read_bytes_app. apply (f_equal2 app); [|reflexivity]. unfold demo_boot_mem.
    rewrite !read_store64_disjoint by by vm_compute. apply (read_write_same _ _ demo_prog). by vm_compute.
Qed.

Definition result_of {S A} (o : outcome (A * S)) : option A := match o with Ok (a, _) => Some a | _ => None end.

Lemma demo_elf_accepted : elf_newFile 16384 (demo_prog ++ demo_rest) = Ok ((0, Some demo_elf16k), demo_prog ++ demo_rest).
Proof.
  assert (Z.of_nat (length (demo_prog ++ demo_rest)) = 16384) as Hlen by (rewrite length_demo_file; lia).
  destruct (newFile_spec (demo_prog ++ demo_rest)) as (r & E & _); [apply demo_boot_bytes|rewrite Hlen; lia|]. rewrite Hlen in E.
  assert (result_of (elf_newFile 16384 (demo_prog ++ demo_rest)) = Some (0, Some demo_elf16k)) as H by (lazy; reflexivity).
  rewrite E in H. change (Some r = Some (0, Some demo_elf16k)) in H. assert (r = (0, Some demo_elf16k)) as <- by congruence. exact E.
Qed.

Definition demo_entry (t a : Z) : Z :=
  if decide (demo_l3 = t + 8 * a) then pte_create 0x80002 0x4a
  else if decide (demo_l2 = t + 8 * a) then ptd_create 0x80013
  else if decide (demo_root + 8 * 511 = t + 8 * a) then ptd_create 0x80012 else 0.

Lemma demo_boot_table t a : t ∈ [demo_root; demo_l2; demo_l3] -> is_idx a -> table_of demo_boot_rt t a = demo_entry t a.
Proof.
  intros Ht Ha. unfold table_of. rewrite pte_addr_eq; [|set_unfold; destruct Ht as [->|[->|[->|[]]]]; by repeat split; vm_compute|done].
  change (rmem demo_boot_rt) with demo_boot_mem. unfold demo_boot_mem, demo_entry, is_idx in *.
  assert (aligned8 (t + 8 * a) /\ demo_root <= t + 8 * a < demo_root + 0x3000) as [Hal Hr].
  { unfold aligned8, is_u64. set_unfold. destruct Ht as [->|[->|[->|[]]]]; unfold demo_root, demo_l2, demo_l3; repeat split; (lia || mlia). }
  rewrite !load64_store64 by (exact Hal || (split; by vm_compute)). repeat (case_decide; [reflexivity|]).
  assert (length demo_prog = 184%nat) as El by by vm_compute.
  rewrite load64_write_disjoint; [by vm_compute|]. rewrite El. unfold ranges_disjoint, u64, demo_user, demo_root in *.
  apply andb_true_iff. generalize (t + 8 * a) Hr. clear. intros b Hb. split; apply Z.leb_le; mlia.
Qed.

Lemma demo_tables_in t : t ∈ tables demo_boot_rt [demo_l2] [demo_l3] -> t ∈ [demo_root; demo_l2; demo_l3].
Proof. unfold tables. by rewrite (proj1 (proj2 demo_boot_globals)). Qed.

(** Only entry 511 of the root, and the first entries of the other tables, are used. *)
Lemma demo_root_valid a : is_idx a -> valid_pte (table_of demo_boot_rt demo_root a) = true -> a = 511.
Proof.
  intros Ha. rewrite demo_boot_table by (done || in_list). unfold demo_entry, is_idx, demo_root, demo_l2, demo_l3 in *.
  rewrite decide_False by lia. rewrite decide_False by lia. case_decide; [lia|]. by intros E; vm_compute in E.
Qed.

Lemma demo_l2_valid a : is_idx a -> valid_pte (table_of demo_boot_rt demo_l2 a) = true -> a = 0.
Proof.
  intros Ha. rewrite demo_boot_table by (done || in_list). unfold demo_entry, is_idx, demo_root, demo_l2, demo_l3 in *.
  rewrite decide_False by lia. case_decide; [lia|]. rewrite decide_False by lia. by intros E; vm_compute in E.
Qed.

Lemma demo_boot_children : next_table demo_boot_rt (table_of demo_boot_rt demo_root 511) = demo_l2 /\
  next_table demo_boot_rt (table_of demo_boot_rt demo_l2 0) = demo_l3.
Proof. rewrite !demo_boot_table by (in_list || by vm_compute). split; by vm_compute. Qed.

Lemma demo_boot_tree : tree (root_page_table demo_boot_rt) (next_table demo_boot_rt) (table_of demo_boot_rt) [demo_l2] [demo_l3].
Proof.
  rewrite (proj1 (proj2 demo_boot_globals)). destruct demo_boot_children as [C1 C2]. split.
  - apply (bool_decide_unpack _). by vm_compute.
  - intros a Ha ->%demo_root_valid; [|exact Ha]. rewrite C1. in_list.
  - intros t a ->%list_elem_of_singleton Ha ->%demo_l2_valid; [|exact Ha]. rewrite C2. in_list.
  - intros a b Ha Hb ->%demo_root_valid ->%demo_root_valid _; [reflexivity|exact Hb|exact Ha].
  - intros t a u b ->%list_elem_of_singleton ->%list_elem_of_singleton Ha Hb ->%demo_l2_valid ->%demo_l2_valid _; [by split|exact Hb|exact Ha].
Qed.

(** The lower gigabyte is unmapped. *)
Lemma demo_boot_unmapped x : 0 <= x < 2 ^ 30 -> valid_pte (pte_map demo_boot_rt (idx3 x)) = false.
Proof.
  intros Hx. pose proof (is_idx_index x 1 ltac:(lia)) as Hi. unfold pte_map, pte_of, leaf_of, idx3. rewrite (proj1 (proj2 demo_boot_globals)).
  destruct (valid_pte (table_of demo_boot_rt demo_root (RISCV_GET_PT_INDEX x 1))) eqn:E; [|by vm_compute].
  apply demo_root_valid in E; [|exact Hi]. exfalso. revert E. change (RISCV_GET_PT_INDEX x 1) with (Z.land (Z.shiftr x 30) 511).
  rewrite Z.shiftr_div_pow2, Z.div_small by lia. by vm_compute.
Qed.

Lemma demo16k_file : num_segments demo_prog demo_elf16k = 1 /\ segment_at demo_prog demo_elf16k 0 = mkSeg 1 0x10000 184 200 0 5.
Proof. split; by vm_compute. Qed.

Lemma demo16k_loadable k : loadable demo_elf16k demo_prog k -> k = 0.
Proof. intros [Hk _]. rewrite (proj1 demo16k_file) in Hk. lia. Qed.

Lemma demo16k_ok : file_ok demo_elf16k demo_prog.
Proof.
  split; [intros i ->%demo16k_loadable|intros i j ->%demo16k_loadable ->%demo16k_loadable Hne; by destruct Hne].
  rewrite (proj2 demo16k_file). split; repeat split; by vm_compute.
Qed.

Lemma demo16k_region x : region demo_elf16k demo_prog 0 x -> 0x10000 <= x < 0x11000.
Proof. intros (k & _ & Hk%demo16k_loadable & Hx). subst k. by rewrite (proj2 demo16k_file) in Hx. Qed.

Lemma demo16k_stack x y : region demo_elf16k demo_prog 0 x -> stack_addr y -> idx3 x <> idx3 y.
Proof.
  intros Hx%demo16k_region Hy E. change (0x3ffe0000 <= y < 0x40000000) in Hy. apply idx3_page in E; [|lia|lia].
  change RISCV_PAGE_SIZE with 4096 in E. clear -Hx Hy E. mlia.
Qed.

Lemma demo_boot_ok : boot_ok demo_boot_rt [demo_l2] [demo_l3] demo_user demo_prog demo_rest demo_elf16k.
Proof.
  destruct demo_boot_globals as (Hb & Hr & Hs & Hz & Hl & _). split; rewrite ?length_demo_file.
  - exact demo_boot_tree.
  - intros t Ht%demo_tables_in. rewrite Hs. clear -Ht. set_unfold.
    destruct Ht as [->|[->|[->|[]]]]; (split; [by repeat split; vm_compute|right; left; split; by vm_compute]).
  - rewrite Hl. clear. split; by vm_compute.
  - unfold freemem_ok. rewrite Hs, Hz. clear. repeat split; by vm_compute.
  - rewrite Hs, Hz. clear. split; by vm_compute.
  - rewrite Hs. clear. repeat split; by vm_compute.
  - exact demo_boot_bytes.
  - exact demo_elf_accepted.
  - split; [by vm_compute|by vm_compute|]. rewrite (proj1 demo16k_file). by vm_compute.
  - exact demo16k_ok.
  - rewrite Hz, (proj1 demo16k_file). change (Z.to_nat 1) with 1%nat. cbn [pages_needed]. rewrite (proj2 demo16k_file). apply Nat.leb_le. by vm_compute.
  - intros x Hx. apply demo_boot_unmapped. destruct Hx as [Hx%demo16k_region|Hx]; [lia|]. change (0x3ffe0000 <= x < 0x40000000) in Hx. lia.
  - exact demo16k_stack.
Qed.

