(* ===== verification/Limbs.v ===== *)
(** * Straight-line integer code with overflow

    The field and scalar arithmetic of Ed25519 is straight-line code on limbs: products and sums
    of 32- and 64-bit signed integers, and carries.  Such a function is written once, over the
    operations of [Arith], and read in three ways: on machine integers, where an overflow
    is an error ([checked]), on the integers ([exact]), and on intervals ([interval]).  The
    lemmas of [related] say that when the intervals fit, the machine integers are the
    exact ones and lie in the intervals, so that absence of overflow is a computation. *)

From S2P Require Import Prelude.
From Stdlib Require Import ZArith Lia.
From stdpp Require Import base tactics list numbers.
Local Open Scope Z_scope.

(** The operations that the code uses, with the width of the result in bits.  [carry_round] and
    [rem_round] are [carry = (x + (1 << (k - 1))) >> k] and [x -= carry << k],
    [carry_floor] and [rem_floor] are [carry = x >> k] and [x -= carry << k];
    [narrow] is a conversion to a narrower signed type. *)
Class Arith (A : Type) : Type := {
  lit : Z -> A;
  addw : Z -> A -> A -> A;
  subw : Z -> A -> A -> A;
  mulw : Z -> A -> A -> A;
  carry_round : Z -> Z -> A -> A;
  rem_round : Z -> Z -> A -> A;
  carry_floor : Z -> Z -> A -> A;
  rem_floor : Z -> Z -> A -> A;
  narrow : Z -> A -> A
}.

Declare Scope limb_scope.
Delimit Scope limb_scope with limb.
Notation "x +i32 y" := (addw 32 x y) (at level 50, left associativity) : limb_scope.
Notation "x -i32 y" := (subw 32 x y) (at level 50, left associativity) : limb_scope.
Notation "x *i32 y" := (mulw 32 x y) (at level 40, left associativity) : limb_scope.
Notation "x +i64 y" := (addw 64 x y) (at level 50, left associativity) : limb_scope.
Notation "x -i64 y" := (subw 64 x y) (at level 50, left associativity) : limb_scope.
Notation "x *i64 y" := (mulw 64 x y) (at level 40, left associativity) : limb_scope.

(** ** Machine integers *)

Definition fits (w x : Z) : bool := (- 2 ^ (w - 1) <=? x) && (x <? 2 ^ (w - 1)).
Definition chk (w x : Z) : option Z := if fits w x then Some x else None.
Definition wrap (w x : Z) : Z := (x + 2 ^ (w - 1)) mod 2 ^ w - 2 ^ (w - 1).

#[export] Instance checked : Arith (option Z) := {
  lit x := Some x;
  addw w x y := a ← x; b ← y; chk w (a + b);
  subw w x y := a ← x; b ← y; chk w (a - b);
  mulw w x y := a ← x; b ← y; chk w (a * b);
  carry_round w k x := a ← x; s ← chk w (a + 2 ^ (k - 1)); Some (s / 2 ^ k);
  rem_round w k x := a ← x; s ← chk w (a + 2 ^ (k - 1)); c ← chk w (s / 2 ^ k * 2 ^ k); chk w (a - c);
  carry_floor w k x := a ← x; Some (a / 2 ^ k);
  rem_floor w k x := a ← x; c ← chk w (a / 2 ^ k * 2 ^ k); chk w (a - c);
  narrow w x := a ← x; Some (wrap w a)
}.

(** ** The integers *)

#[export] Instance exact : Arith Z := {
  lit x := x;
  addw _ x y := x + y;
  subw _ x y := x - y;
  mulw _ x y := x * y;
  carry_round _ k x := (x + 2 ^ (k - 1)) / 2 ^ k;
  rem_round _ k x := x - (x + 2 ^ (k - 1)) / 2 ^ k * 2 ^ k;
  carry_floor _ k x := x / 2 ^ k;
  rem_floor _ k x := x - x / 2 ^ k * 2 ^ k;
  narrow _ x := x
}.

(** ** Intervals *)

Definition range : Type := option (Z * Z).

Definition fit_range (w lo hi : Z) : range := if fits w lo && fits w hi then Some (lo, hi) else None.
Definition mul_range (a b c d : Z) : Z * Z :=
  (Z.min (Z.min (a * c) (a * d)) (Z.min (b * c) (b * d)), Z.max (Z.max (a * c) (a * d)) (Z.max (b * c) (b * d))).

(** The remainder after a carry; without a carry the number itself. *)
Definition rem_range (clo chi lo hi rlo rhi : Z) : range :=
  if (clo =? 0) && (chi =? 0) then Some (lo, hi) else Some (rlo, rhi).

#[export] Instance interval : Arith range := {
  lit x := Some (x, x);
  addw w x y := '(a, b) ← x; '(c, d) ← y; fit_range w (a + c) (b + d);
  subw w x y := '(a, b) ← x; '(c, d) ← y; fit_range w (a - d) (b - c);
  mulw w x y := '(a, b) ← x; '(c, d) ← y; fit_range w (mul_range a b c d).1 (mul_range a b c d).2;
  carry_round w k x := '(a, b) ← x; '(c, d) ← fit_range w (a + 2 ^ (k - 1)) (b + 2 ^ (k - 1)); Some (c / 2 ^ k, d / 2 ^ k);
  rem_round w k x := '(a, b) ← x; '(c, d) ← fit_range w (a + 2 ^ (k - 1)) (b + 2 ^ (k - 1));
    '(e, f) ← fit_range w (c / 2 ^ k * 2 ^ k) (d / 2 ^ k * 2 ^ k); '(g, h) ← fit_range w (- 2 ^ (k - 1)) (2 ^ (k - 1));
    rem_range e f a b g h;
  carry_floor w k x := '(a, b) ← x; Some (a / 2 ^ k, b / 2 ^ k);
  rem_floor w k x := '(a, b) ← x; '(e, f) ← fit_range w (a / 2 ^ k * 2 ^ k) (b / 2 ^ k * 2 ^ k);
    '(g, h) ← fit_range w 0 (2 ^ k - 1); rem_range e f a b g h;
  narrow w x := '(a, b) ← x; fit_range w a b
}.

(** ** The three readings agree *)

Definition related (x : option Z) (z : Z) (r : range) : Prop :=
  match r with Some (lo, hi) => x = Some z /\ lo <= z <= hi | None => True end.

Lemma chk_range w z lo hi : lo <= z <= hi -> fits w lo && fits w hi = true -> chk w z = Some z.
Proof.
  intros Hz [H1 H2]%andb_true_iff. unfold chk, fits in *. apply andb_true_iff in H1 as [H1 _], H2 as [_ H2].
  apply Z.leb_le in H1. apply Z.ltb_lt in H2. rewrite (proj2 (Z.leb_le _ _)), (proj2 (Z.ltb_lt _ _)) by lia. done.
Qed.

Lemma related_chk w z lo hi : lo <= z <= hi -> related (chk w z) z (fit_range w lo hi).
Proof. intros Hz. unfold fit_range. destruct (fits w lo && fits w hi) eqn:E; [|done]. split; [by apply (chk_range w z lo hi)|done]. Qed.

Lemma related_lit x : related (lit x) (lit x) (lit x).
Proof. split; [done|]. cbn. lia. Qed.

Lemma mul_between a b x y : a <= x <= b -> Z.min (a * y) (b * y) <= x * y <= Z.max (a * y) (b * y).
Proof. intros Hx. destruct (Z.le_ge_cases 0 y); [rewrite Z.min_l, Z.max_r by nia|rewrite Z.min_r, Z.max_l by nia]; nia. Qed.

Lemma mul_bounds a b c d x y : a <= x <= b -> c <= y <= d -> (mul_range a b c d).1 <= x * y <= (mul_range a b c d).2.
Proof.
  intros Hx Hy. pose proof (mul_between a b x y Hx). pose proof (mul_between c d y a Hy). pose proof (mul_between c d y b Hy).
  unfold mul_range. cbn [fst snd]. rewrite (Z.mul_comm y a), (Z.mul_comm y b), (Z.mul_comm c a), (Z.mul_comm d a), (Z.mul_comm c b), (Z.mul_comm d b) in *.
  lia.
Qed.

Section Related.
Context (x y : option Z) (z u : Z) (r q : range) (Hx : related x z r) (Hy : related y u q) (w k : Z).

Lemma related_add : related (addw w x y) (addw w z u) (addw w r q).
Proof using Hx Hy.
  destruct r as [[a b]|]; [|done]. destruct q as [[c d]|]; [|done]. destruct Hx as [-> ?], Hy as [-> ?]. apply related_chk. cbn. lia.
Qed.
Lemma related_sub : related (subw w x y) (subw w z u) (subw w r q).
Proof using Hx Hy.
  destruct r as [[a b]|]; [|done]. destruct q as [[c d]|]; [|done]. destruct Hx as [-> ?], Hy as [-> ?]. apply related_chk. cbn. lia.
Qed.
Lemma related_mul : related (mulw w x y) (mulw w z u) (mulw w r q).
Proof using Hx Hy.
  destruct r as [[a b]|]; [|done]. destruct q as [[c d]|]; [|done]. destruct Hx as [-> ?], Hy as [-> ?]. apply related_chk. cbn. by apply mul_bounds.
Qed.
Lemma related_narrow (Hw : 0 < w) : related (narrow w x) (narrow w z) (narrow w r).
Proof using Hx.
  destruct r as [[a b]|]; [|done]. destruct Hx as [-> Hz]. cbn. unfold fit_range. destruct (fits w a && fits w b) eqn:E; [|done].
  split; [|done]. f_equal. pose proof (chk_range w z a b Hz E) as Hc. unfold chk, fits in Hc.
  destruct ((_ <=? _) && _) eqn:E2; [|done]. apply andb_true_iff in E2 as [E2 E3]. apply Z.leb_le in E2. apply Z.ltb_lt in E3.
  unfold wrap. replace (2 ^ w) with (2 * 2 ^ (w - 1)) by (rewrite <- Z.pow_succ_r by lia; f_equal; lia).
  rewrite Z.mod_small by lia. lia.
Qed.
Lemma related_carry_floor (Hk : 0 <= k) : related (carry_floor w k x) (carry_floor w k z) (carry_floor w k r).
Proof using Hx.
  destruct r as [[a b]|]; [|done]. destruct Hx as [-> Hz]. split; [done|]. cbn. split; apply Z.div_le_mono; lia.
Qed.
Lemma related_carry_round (Hk : 0 <= k) : related (carry_round w k x) (carry_round w k z) (carry_round w k r).
Proof using Hx.
  destruct r as [[a b]|]; [|done]. destruct Hx as [-> Hz]. cbn. unfold fit_range. destruct (fits w _ && fits w _) eqn:E; [|done]. cbn.
  rewrite (chk_range w (z + 2 ^ (k - 1)) _ _ (conj (proj1 (Z.add_le_mono_r _ _ _) (proj1 Hz)) (proj1 (Z.add_le_mono_r _ _ _) (proj2 Hz))) E). split; [done|]. split; apply Z.div_le_mono; lia.
Qed.
End Related.

(** Remainders. *)
Lemma related_rem w c z lo hi clo chi rlo rhi (k : Z) : 0 <= k -> lo <= z <= hi -> clo <= c * 2 ^ k <= chi -> rlo <= z - c * 2 ^ k <= rhi ->
  fits w clo && fits w chi = true -> fits w rlo && fits w rhi = true ->
  related (e ← chk w (c * 2 ^ k); chk w (z - e)) (z - c * 2 ^ k) (rem_range clo chi lo hi rlo rhi).
Proof.
  intros Hk Hz Hc Hr E1 E2. rewrite (chk_range w (c * 2 ^ k) clo chi Hc E1). cbn [mbind option_bind].
  rewrite (chk_range w (z - c * 2 ^ k) rlo rhi Hr E2). unfold rem_range.
  destruct (clo =? 0) eqn:C1, (chi =? 0) eqn:C2; cbn [andb]; split; done || lia.
Qed.

Lemma related_rem_floor x z r w k : related x z r -> 0 <= k -> related (rem_floor w k x) (rem_floor w k z) (rem_floor w k r).
Proof.
  intros Hx Hk. destruct r as [[a b]|]; [|done]. destruct Hx as [-> Hz]. cbn. unfold fit_range.
  destruct (fits w (a / 2 ^ k * 2 ^ k) && _) eqn:E1; [|exact I]. cbn. destruct (fits w 0 && _) eqn:E2; [|exact I]. cbn.
  assert (0 < 2 ^ k) by (apply Z.pow_pos_nonneg; lia). pose proof (Z.div_mod z (2 ^ k) ltac:(lia)). pose proof (Z.mod_pos_bound z (2 ^ k) ltac:(lia)).
  apply related_rem; try done; [|lia]. split; apply Z.mul_le_mono_nonneg_r; try lia; apply Z.div_le_mono; lia.
Qed.

Lemma related_rem_round x z r w k : related x z r -> 1 <= k -> related (rem_round w k x) (rem_round w k z) (rem_round w k r).
Proof.
  intros Hx Hk. destruct r as [[a b]|]; [|done]. destruct Hx as [-> Hz]. cbn. unfold fit_range.
  destruct (fits w (a + 2 ^ (k - 1)) && _) eqn:E0; [|exact I]. cbn. destruct (fits w ((a + 2 ^ (k - 1)) / 2 ^ k * 2 ^ k) && _) eqn:E1; [|exact I]. cbn. destruct (fits w (- _) && _) eqn:E2; [|exact I]. cbn.
  rewrite (chk_range w (z + 2 ^ (k - 1)) _ _ (conj (proj1 (Z.add_le_mono_r _ _ _) (proj1 Hz)) (proj1 (Z.add_le_mono_r _ _ _) (proj2 Hz))) E0). cbn.
  assert (0 < 2 ^ (k - 1)) by (apply Z.pow_pos_nonneg; lia).
  assert (2 ^ k = 2 * 2 ^ (k - 1)) as Ek by (rewrite <- Z.pow_succ_r by lia; f_equal; lia).
  pose proof (Z.div_mod (z + 2 ^ (k - 1)) (2 ^ k) ltac:(lia)). pose proof (Z.mod_pos_bound (z + 2 ^ (k - 1)) (2 ^ k) ltac:(lia)).
  apply related_rem; try done; [lia| |lia]. split; apply Z.mul_le_mono_nonneg_r; try lia; apply Z.div_le_mono; lia.
Qed.

Lemma related_let {A B C} (R : A -> B -> C -> Prop) x z r (f : option Z -> A) (g : Z -> B) (h : range -> C) :
  related x z r -> (forall x z r, related x z r -> R (f x) (g z) (h r)) -> R (let v := x in f v) (let v := z in g v) (let v := r in h v).
Proof. intros H1 H2. exact (H2 x z r H1). Qed.

(** One operation of related operands. *)
Ltac rel_op :=
  lazymatch goal with
  | |- related (addw _ _ _) _ _ => apply related_add; rel_op
  | |- related (subw _ _ _) _ _ => apply related_sub; rel_op
  | |- related (mulw _ _ _) _ _ => apply related_mul; rel_op
  | |- related (lit _) _ _ => apply related_lit
  | |- related (narrow _ _) _ _ => apply related_narrow; [rel_op|reflexivity]
  | |- related (carry_round _ _ _) _ _ => apply related_carry_round; [rel_op|discriminate]
  | |- related (carry_floor _ _ _) _ _ => apply related_carry_floor; [rel_op|discriminate]
  | |- related (rem_round _ _ _) _ _ => apply related_rem_round; [rel_op|discriminate]
  | |- related (rem_floor _ _ _) _ _ => apply related_rem_floor; [rel_op|discriminate]
  | |- related _ _ _ => eassumption
  end.

(** A sequence of assignments. *)
Ltac rel_lets :=
  repeat (lazymatch goal with
  | |- ?R (let v1 := ?x in @?f v1) (let v2 := ?z in @?g v2) (let v3 := ?r in @?h v3) =>
      refine (related_let R x z r f g h _ _); [rel_op|intros ? ? ? ?; cbv beta]
  end).

(** ** Reasoning about the exact reading *)

Lemma let_eq {A B} (P : B -> Prop) (a : A) (k : A -> B) : (forall x, x = a -> P (k x)) -> P (let x := a in k x).
Proof. intros H. exact (H a eq_refl). Qed.

Lemma rem_round_carry w k (x c : Z) : c = carry_round w k x -> rem_round w k x = x - c * 2 ^ k.
Proof. by intros ->. Qed.

Lemma rem_floor_carry w k (x c : Z) : c = carry_floor w k x -> rem_floor w k x = x - c * 2 ^ k.
Proof. by intros ->. Qed.

(** The assignments as equations; remainders in terms of their carries. *)
Ltac exact_lets :=
  repeat (lazymatch goal with
  | |- ?P (let v := ?a in @?k v) =>
      refine (let_eq P a k _); intros ? ?; cbv beta;
      lazymatch goal with
      | Hc : ?c = carry_round ?w ?k ?x, H : _ = rem_round ?w ?k ?x |- _ => rewrite (rem_round_carry w k x c Hc) in H
      | Hc : ?c = carry_floor ?w ?k ?x, H : _ = rem_floor ?w ?k ?x |- _ => rewrite (rem_floor_carry w k x c Hc) in H
      | _ => idtac
      end
  end).

(** Carries become opaque, everything else is expanded. *)
Ltac forget_carries :=
  repeat (match goal with
  | H : _ = carry_round _ _ _ |- _ => clear H
  | H : _ = carry_floor _ _ _ |- _ => clear H
  end).
