(* ===== verification/Fe.v ===== *)
(** * The field modulo 2^255 - 19 ([sm/src/ed25519/fe.c])

    An element is ten limbs of alternately 26 and 25 bits, signed.  Every function is written
    over the operations of [Limbs], so that it can be run on machine integers and reasoned about on
    the integers; [FeSpec] and [FeBytes] prove it correct.  [bootrom/ed25519] and the
    SDK have copies of this file. *)

From S2P Require Import Prelude Mem Limbs.
From Stdlib Require Import ZArith Lia.
From stdpp Require Import base tactics list numbers.
Local Open Scope Z_scope.
Local Open Scope limb_scope.

(** ** Elements *)

Record fe (A : Type) : Type := mkFe { fe0 : A; fe1 : A; fe2 : A; fe3 : A; fe4 : A; fe5 : A; fe6 : A; fe7 : A; fe8 : A; fe9 : A }.
Arguments mkFe {A}.
Arguments fe0 {A}.
Arguments fe1 {A}.
Arguments fe2 {A}.
Arguments fe3 {A}.
Arguments fe4 {A}.
Arguments fe5 {A}.
Arguments fe6 {A}.
Arguments fe7 {A}.
Arguments fe8 {A}.
Arguments fe9 {A}.

Definition fe_map {B C} (g : B -> C) (h : fe B) : fe C :=
  mkFe (g (fe0 h)) (g (fe1 h)) (g (fe2 h)) (g (fe3 h)) (g (fe4 h)) (g (fe5 h)) (g (fe6 h)) (g (fe7 h)) (g (fe8 h)) (g (fe9 h)).

Section Ops.
Context {A : Type} `{Arith A}.

Definition fe_0 : fe A := mkFe (lit 0) (lit 0) (lit 0) (lit 0) (lit 0) (lit 0) (lit 0) (lit 0) (lit 0) (lit 0).
Definition fe_1 : fe A := mkFe (lit 1) (lit 0) (lit 0) (lit 0) (lit 0) (lit 0) (lit 0) (lit 0) (lit 0) (lit 0).

Definition fe_add (f g : fe A) : fe A :=
  let 'mkFe f0 f1 f2 f3 f4 f5 f6 f7 f8 f9 := f in
  let 'mkFe g0 g1 g2 g3 g4 g5 g6 g7 g8 g9 := g in
  let h0 := f0 +i32 g0 in
  let h1 := f1 +i32 g1 in
  let h2 := f2 +i32 g2 in
  let h3 := f3 +i32 g3 in
  let h4 := f4 +i32 g4 in
  let h5 := f5 +i32 g5 in
  let h6 := f6 +i32 g6 in
  let h7 := f7 +i32 g7 in
  let h8 := f8 +i32 g8 in
  let h9 := f9 +i32 g9 in
  mkFe h0 h1 h2 h3 h4 h5 h6 h7 h8 h9.

Definition fe_sub (f g : fe A) : fe A :=
  let 'mkFe f0 f1 f2 f3 f4 f5 f6 f7 f8 f9 := f in
  let 'mkFe g0 g1 g2 g3 g4 g5 g6 g7 g8 g9 := g in
  let h0 := f0 -i32 g0 in
  let h1 := f1 -i32 g1 in
  let h2 := f2 -i32 g2 in
  let h3 := f3 -i32 g3 in
  let h4 := f4 -i32 g4 in
  let h5 := f5 -i32 g5 in
  let h6 := f6 -i32 g6 in
  let h7 := f7 -i32 g7 in
  let h8 := f8 -i32 g8 in
  let h9 := f9 -i32 g9 in
  mkFe h0 h1 h2 h3 h4 h5 h6 h7 h8 h9.

Definition fe_neg (f : fe A) : fe A :=
  let 'mkFe f0 f1 f2 f3 f4 f5 f6 f7 f8 f9 := f in
  let h0 := lit 0 -i32 f0 in
  let h1 := lit 0 -i32 f1 in
  let h2 := lit 0 -i32 f2 in
  let h3 := lit 0 -i32 f3 in
  let h4 := lit 0 -i32 f4 in
  let h5 := lit 0 -i32 f5 in
  let h6 := lit 0 -i32 f6 in
  let h7 := lit 0 -i32 f7 in
  let h8 := lit 0 -i32 f8 in
  let h9 := lit 0 -i32 f9 in
  mkFe h0 h1 h2 h3 h4 h5 h6 h7 h8 h9.

Definition fe_mul (f g : fe A) : fe A :=
  let 'mkFe f0 f1 f2 f3 f4 f5 f6 f7 f8 f9 := f in
  let 'mkFe g0 g1 g2 g3 g4 g5 g6 g7 g8 g9 := g in
  let g1_19 := (lit 19) *i32 g1 in
  let g2_19 := (lit 19) *i32 g2 in
  let g3_19 := (lit 19) *i32 g3 in
  let g4_19 := (lit 19) *i32 g4 in
  let g5_19 := (lit 19) *i32 g5 in
  let g6_19 := (lit 19) *i32 g6 in
  let g7_19 := (lit 19) *i32 g7 in
  let g8_19 := (lit 19) *i32 g8 in
  let g9_19 := (lit 19) *i32 g9 in
  let f1_2 := (lit 2) *i32 f1 in
  let f3_2 := (lit 2) *i32 f3 in
  let f5_2 := (lit 2) *i32 f5 in
  let f7_2 := (lit 2) *i32 f7 in
  let f9_2 := (lit 2) *i32 f9 in
  let f0g0 := f0 *i64 g0 in
  let f0g1 := f0 *i64 g1 in
  let f0g2 := f0 *i64 g2 in
  let f0g3 := f0 *i64 g3 in
  let f0g4 := f0 *i64 g4 in
  let f0g5 := f0 *i64 g5 in
  let f0g6 := f0 *i64 g6 in
  let f0g7 := f0 *i64 g7 in
  let f0g8 := f0 *i64 g8 in
  let f0g9 := f0 *i64 g9 in
  let f1g0 := f1 *i64 g0 in
  let f1g1_2 := f1_2 *i64 g1 in
  let f1g2 := f1 *i64 g2 in
  let f1g3_2 := f1_2 *i64 g3 in
  let f1g4 := f1 *i64 g4 in
  let f1g5_2 := f1_2 *i64 g5 in
  let f1g6 := f1 *i64 g6 in
  let f1g7_2 := f1_2 *i64 g7 in
  let f1g8 := f1 *i64 g8 in
  let f1g9_38 := f1_2 *i64 g9_19 in
  let f2g0 := f2 *i64 g0 in
  let f2g1 := f2 *i64 g1 in
  let f2g2 := f2 *i64 g2 in
  let f2g3 := f2 *i64 g3 in
  let f2g4 := f2 *i64 g4 in
  let f2g5 := f2 *i64 g5 in
  let f2g6 := f2 *i64 g6 in
  let f2g7 := f2 *i64 g7 in
  let f2g8_19 := f2 *i64 g8_19 in
  let f2g9_19 := f2 *i64 g9_19 in
  let f3g0 := f3 *i64 g0 in
  let f3g1_2 := f3_2 *i64 g1 in
  let f3g2 := f3 *i64 g2 in
  let f3g3_2 := f3_2 *i64 g3 in
  let f3g4 := f3 *i64 g4 in
  let f3g5_2 := f3_2 *i64 g5 in
  let f3g6 := f3 *i64 g6 in
  let f3g7_38 := f3_2 *i64 g7_19 in
  let f3g8_19 := f3 *i64 g8_19 in
  let f3g9_38 := f3_2 *i64 g9_19 in
  let f4g0 := f4 *i64 g0 in
  let f4g1 := f4 *i64 g1 in
  let f4g2 := f4 *i64 g2 in
  let f4g3 := f4 *i64 g3 in
  let f4g4 := f4 *i64 g4 in
  let f4g5 := f4 *i64 g5 in
  let f4g6_19 := f4 *i64 g6_19 in
  let f4g7_19 := f4 *i64 g7_19 in
  let f4g8_19 := f4 *i64 g8_19 in
  let f4g9_19 := f4 *i64 g9_19 in
  let f5g0 := f5 *i64 g0 in
  let f5g1_2 := f5_2 *i64 g1 in
  let f5g2 := f5 *i64 g2 in
  let f5g3_2 := f5_2 *i64 g3 in
  let f5g4 := f5 *i64 g4 in
  let f5g5_38 := f5_2 *i64 g5_19 in
  let f5g6_19 := f5 *i64 g6_19 in
  let f5g7_38 := f5_2 *i64 g7_19 in
  let f5g8_19 := f5 *i64 g8_19 in
  let f5g9_38 := f5_2 *i64 g9_19 in
  let f6g0 := f6 *i64 g0 in
  let f6g1 := f6 *i64 g1 in
  let f6g2 := f6 *i64 g2 in
  let f6g3 := f6 *i64 g3 in
  let f6g4_19 := f6 *i64 g4_19 in
  let f6g5_19 := f6 *i64 g5_19 in
  let f6g6_19 := f6 *i64 g6_19 in
  let f6g7_19 := f6 *i64 g7_19 in
  let f6g8_19 := f6 *i64 g8_19 in
  let f6g9_19 := f6 *i64 g9_19 in
  let f7g0 := f7 *i64 g0 in
  let f7g1_2 := f7_2 *i64 g1 in
  let f7g2 := f7 *i64 g2 in
  let f7g3_38 := f7_2 *i64 g3_19 in
  let f7g4_19 := f7 *i64 g4_19 in
  let f7g5_38 := f7_2 *i64 g5_19 in
  let f7g6_19 := f7 *i64 g6_19 in
  let f7g7_38 := f7_2 *i64 g7_19 in
  let f7g8_19 := f7 *i64 g8_19 in
  let f7g9_38 := f7_2 *i64 g9_19 in
  let f8g0 := f8 *i64 g0 in
  let f8g1 := f8 *i64 g1 in
  let f8g2_19 := f8 *i64 g2_19 in
  let f8g3_19 := f8 *i64 g3_19 in
  let f8g4_19 := f8 *i64 g4_19 in
  let f8g5_19 := f8 *i64 g5_19 in
  let f8g6_19 := f8 *i64 g6_19 in
  let f8g7_19 := f8 *i64 g7_19 in
  let f8g8_19 := f8 *i64 g8_19 in
  let f8g9_19 := f8 *i64 g9_19 in
  let f9g0 := f9 *i64 g0 in
  let f9g1_38 := f9_2 *i64 g1_19 in
  let f9g2_19 := f9 *i64 g2_19 in
  let f9g3_38 := f9_2 *i64 g3_19 in
  let f9g4_19 := f9 *i64 g4_19 in
  let f9g5_38 := f9_2 *i64 g5_19 in
  let f9g6_19 := f9 *i64 g6_19 in
  let f9g7_38 := f9_2 *i64 g7_19 in
  let f9g8_19 := f9 *i64 g8_19 in
  let f9g9_38 := f9_2 *i64 g9_19 in
  let h0 := f0g0 +i64 f1g9_38 +i64 f2g8_19 +i64 f3g7_38 +i64 f4g6_19 +i64 f5g5_38 +i64 f6g4_19 +i64 f7g3_38 +i64 f8g2_19 +i64 f9g1_38 in
  let h1 := f0g1 +i64 f1g0 +i64 f2g9_19 +i64 f3g8_19 +i64 f4g7_19 +i64 f5g6_19 +i64 f6g5_19 +i64 f7g4_19 +i64 f8g3_19 +i64 f9g2_19 in
  let h2 := f0g2 +i64 f1g1_2 +i64 f2g0 +i64 f3g9_38 +i64 f4g8_19 +i64 f5g7_38 +i64 f6g6_19 +i64 f7g5_38 +i64 f8g4_19 +i64 f9g3_38 in
  let h3 := f0g3 +i64 f1g2 +i64 f2g1 +i64 f3g0 +i64 f4g9_19 +i64 f5g8_19 +i64 f6g7_19 +i64 f7g6_19 +i64 f8g5_19 +i64 f9g4_19 in
  let h4 := f0g4 +i64 f1g3_2 +i64 f2g2 +i64 f3g1_2 +i64 f4g0 +i64 f5g9_38 +i64 f6g8_19 +i64 f7g7_38 +i64 f8g6_19 +i64 f9g5_38 in
  let h5 := f0g5 +i64 f1g4 +i64 f2g3 +i64 f3g2 +i64 f4g1 +i64 f5g0 +i64 f6g9_19 +i64 f7g8_19 +i64 f8g7_19 +i64 f9g6_19 in
  let h6 := f0g6 +i64 f1g5_2 +i64 f2g4 +i64 f3g3_2 +i64 f4g2 +i64 f5g1_2 +i64 f6g0 +i64 f7g9_38 +i64 f8g8_19 +i64 f9g7_38 in
  let h7 := f0g7 +i64 f1g6 +i64 f2g5 +i64 f3g4 +i64 f4g3 +i64 f5g2 +i64 f6g1 +i64 f7g0 +i64 f8g9_19 +i64 f9g8_19 in
  let h8 := f0g8 +i64 f1g7_2 +i64 f2g6 +i64 f3g5_2 +i64 f4g4 +i64 f5g3_2 +i64 f6g2 +i64 f7g1_2 +i64 f8g0 +i64 f9g9_38 in
  let h9 := f0g9 +i64 f1g8 +i64 f2g7 +i64 f3g6 +i64 f4g5 +i64 f5g4 +i64 f6g3 +i64 f7g2 +i64 f8g1 +i64 f9g0 in
  let carry0 := carry_round 64 26 h0 in
  let h1 := h1 +i64 carry0 in
  let h0 := rem_round 64 26 h0 in
  let carry4 := carry_round 64 26 h4 in
  let h5 := h5 +i64 carry4 in
  let h4 := rem_round 64 26 h4 in
  let carry1 := carry_round 64 25 h1 in
  let h2 := h2 +i64 carry1 in
  let h1 := rem_round 64 25 h1 in
  let carry5 := carry_round 64 25 h5 in
  let h6 := h6 +i64 carry5 in
  let h5 := rem_round 64 25 h5 in
  let carry2 := carry_round 64 26 h2 in
  let h3 := h3 +i64 carry2 in
  let h2 := rem_round 64 26 h2 in
  let carry6 := carry_round 64 26 h6 in
  let h7 := h7 +i64 carry6 in
  let h6 := rem_round 64 26 h6 in
  let carry3 := carry_round 64 25 h3 in
  let h4 := h4 +i64 carry3 in
  let h3 := rem_round 64 25 h3 in
  let carry7 := carry_round 64 25 h7 in
  let h8 := h8 +i64 carry7 in
  let h7 := rem_round 64 25 h7 in
  let carry4 := carry_round 64 26 h4 in
  let h5 := h5 +i64 carry4 in
  let h4 := rem_round 64 26 h4 in
  let carry8 := carry_round 64 26 h8 in
  let h9 := h9 +i64 carry8 in
  let h8 := rem_round 64 26 h8 in
  let carry9 := carry_round 64 25 h9 in
  let h0 := h0 +i64 carry9 *i64 (lit 19) in
  let h9 := rem_round 64 25 h9 in
  let carry0 := carry_round 64 26 h0 in
  let h1 := h1 +i64 carry0 in
  let h0 := rem_round 64 26 h0 in
  mkFe (narrow 32 h0) (narrow 32 h1) (narrow 32 h2) (narrow 32 h3) (narrow 32 h4) (narrow 32 h5) (narrow 32 h6) (narrow 32 h7) (narrow 32 h8) (narrow 32 h9).

Definition fe_sq (f : fe A) : fe A :=
  let 'mkFe f0 f1 f2 f3 f4 f5 f6 f7 f8 f9 := f in
  let f0_2 := (lit 2) *i32 f0 in
  let f1_2 := (lit 2) *i32 f1 in
  let f2_2 := (lit 2) *i32 f2 in
  let f3_2 := (lit 2) *i32 f3 in
  let f4_2 := (lit 2) *i32 f4 in
  let f5_2 := (lit 2) *i32 f5 in
  let f6_2 := (lit 2) *i32 f6 in
  let f7_2 := (lit 2) *i32 f7 in
  let f5_38 := (lit 38) *i32 f5 in
  let f6_19 := (lit 19) *i32 f6 in
  let f7_38 := (lit 38) *i32 f7 in
  let f8_19 := (lit 19) *i32 f8 in
  let f9_38 := (lit 38) *i32 f9 in
  let f0f0 := f0 *i64 f0 in
  let f0f1_2 := f0_2 *i64 f1 in
  let f0f2_2 := f0_2 *i64 f2 in
  let f0f3_2 := f0_2 *i64 f3 in
  let f0f4_2 := f0_2 *i64 f4 in
  let f0f5_2 := f0_2 *i64 f5 in
  let f0f6_2 := f0_2 *i64 f6 in
  let f0f7_2 := f0_2 *i64 f7 in
  let f0f8_2 := f0_2 *i64 f8 in
  let f0f9_2 := f0_2 *i64 f9 in
  let f1f1_2 := f1_2 *i64 f1 in
  let f1f2_2 := f1_2 *i64 f2 in
  let f1f3_4 := f1_2 *i64 f3_2 in
  let f1f4_2 := f1_2 *i64 f4 in
  let f1f5_4 := f1_2 *i64 f5_2 in
  let f1f6_2 := f1_2 *i64 f6 in
  let f1f7_4 := f1_2 *i64 f7_2 in
  let f1f8_2 := f1_2 *i64 f8 in
  let f1f9_76 := f1_2 *i64 f9_38 in
  let f2f2 := f2 *i64 f2 in
  let f2f3_2 := f2_2 *i64 f3 in
  let f2f4_2 := f2_2 *i64 f4 in
  let f2f5_2 := f2_2 *i64 f5 in
  let f2f6_2 := f2_2 *i64 f6 in
  let f2f7_2 := f2_2 *i64 f7 in
  let f2f8_38 := f2_2 *i64 f8_19 in
  let f2f9_38 := f2 *i64 f9_38 in
  let f3f3_2 := f3_2 *i64 f3 in
  let f3f4_2 := f3_2 *i64 f4 in
  let f3f5_4 := f3_2 *i64 f5_2 in
  let f3f6_2 := f3_2 *i64 f6 in
  let f3f7_76 := f3_2 *i64 f7_38 in
  let f3f8_38 := f3_2 *i64 f8_19 in
  let f3f9_76 := f3_2 *i64 f9_38 in
  let f4f4 := f4 *i64 f4 in
  let f4f5_2 := f4_2 *i64 f5 in
  let f4f6_38 := f4_2 *i64 f6_19 in
  let f4f7_38 := f4 *i64 f7_38 in
  let f4f8_38 := f4_2 *i64 f8_19 in
  let f4f9_38 := f4 *i64 f9_38 in
  let f5f5_38 := f5 *i64 f5_38 in
  let f5f6_38 := f5_2 *i64 f6_19 in
  let f5f7_76 := f5_2 *i64 f7_38 in
  let f5f8_38 := f5_2 *i64 f8_19 in
  let f5f9_76 := f5_2 *i64 f9_38 in
  let f6f6_19 := f6 *i64 f6_19 in
  let f6f7_38 := f6 *i64 f7_38 in
  let f6f8_38 := f6_2 *i64 f8_19 in
  let f6f9_38 := f6 *i64 f9_38 in
  let f7f7_38 := f7 *i64 f7_38 in
  let f7f8_38 := f7_2 *i64 f8_19 in
  let f7f9_76 := f7_2 *i64 f9_38 in
  let f8f8_19 := f8 *i64 f8_19 in
  let f8f9_38 := f8 *i64 f9_38 in
  let f9f9_38 := f9 *i64 f9_38 in
  let h0 := f0f0 +i64 f1f9_76 +i64 f2f8_38 +i64 f3f7_76 +i64 f4f6_38 +i64 f5f5_38 in
  let h1 := f0f1_2 +i64 f2f9_38 +i64 f3f8_38 +i64 f4f7_38 +i64 f5f6_38 in
  let h2 := f0f2_2 +i64 f1f1_2 +i64 f3f9_76 +i64 f4f8_38 +i64 f5f7_76 +i64 f6f6_19 in
  let h3 := f0f3_2 +i64 f1f2_2 +i64 f4f9_38 +i64 f5f8_38 +i64 f6f7_38 in
  let h4 := f0f4_2 +i64 f1f3_4 +i64 f2f2 +i64 f5f9_76 +i64 f6f8_38 +i64 f7f7_38 in
  let h5 := f0f5_2 +i64 f1f4_2 +i64 f2f3_2 +i64 f6f9_38 +i64 f7f8_38 in
  let h6 := f0f6_2 +i64 f1f5_4 +i64 f2f4_2 +i64 f3f3_2 +i64 f7f9_76 +i64 f8f8_19 in
  let h7 := f0f7_2 +i64 f1f6_2 +i64 f2f5_2 +i64 f3f4_2 +i64 f8f9_38 in
  let h8 := f0f8_2 +i64 f1f7_4 +i64 f2f6_2 +i64 f3f5_4 +i64 f4f4 +i64 f9f9_38 in
  let h9 := f0f9_2 +i64 f1f8_2 +i64 f2f7_2 +i64 f3f6_2 +i64 f4f5_2 in
  let carry0 := carry_round 64 26 h0 in
  let h1 := h1 +i64 carry0 in
  let h0 := rem_round 64 26 h0 in
  let carry4 := carry_round 64 26 h4 in
  let h5 := h5 +i64 carry4 in
  let h4 := rem_round 64 26 h4 in
  let carry1 := carry_round 64 25 h1 in
  let h2 := h2 +i64 carry1 in
  let h1 := rem_round 64 25 h1 in
  let carry5 := carry_round 64 25 h5 in
  let h6 := h6 +i64 carry5 in
  let h5 := rem_round 64 25 h5 in
  let carry2 := carry_round 64 26 h2 in
  let h3 := h3 +i64 carry2 in
  let h2 := rem_round 64 26 h2 in
  let carry6 := carry_round 64 26 h6 in
  let h7 := h7 +i64 carry6 in
  let h6 := rem_round 64 26 h6 in
  let carry3 := carry_round 64 25 h3 in
  let h4 := h4 +i64 carry3 in
  let h3 := rem_round 64 25 h3 in
  let carry7 := carry_round 64 25 h7 in
  let h8 := h8 +i64 carry7 in
  let h7 := rem_round 64 25 h7 in
  let carry4 := carry_round 64 26 h4 in
  let h5 := h5 +i64 carry4 in
  let h4 := rem_round 64 26 h4 in
  let carry8 := carry_round 64 26 h8 in
  let h9 := h9 +i64 carry8 in
  let h8 := rem_round 64 26 h8 in
  let carry9 := carry_round 64 25 h9 in
  let h0 := h0 +i64 carry9 *i64 (lit 19) in
  let h9 := rem_round 64 25 h9 in
  let carry0 := carry_round 64 26 h0 in
  let h1 := h1 +i64 carry0 in
  let h0 := rem_round 64 26 h0 in
  mkFe (narrow 32 h0) (narrow 32 h1) (narrow 32 h2) (narrow 32 h3) (narrow 32 h4) (narrow 32 h5) (narrow 32 h6) (narrow 32 h7) (narrow 32 h8) (narrow 32 h9).

Definition fe_sq2 (f : fe A) : fe A :=
  let 'mkFe f0 f1 f2 f3 f4 f5 f6 f7 f8 f9 := f in
  let f0_2 := (lit 2) *i32 f0 in
  let f1_2 := (lit 2) *i32 f1 in
  let f2_2 := (lit 2) *i32 f2 in
  let f3_2 := (lit 2) *i32 f3 in
  let f4_2 := (lit 2) *i32 f4 in
  let f5_2 := (lit 2) *i32 f5 in
  let f6_2 := (lit 2) *i32 f6 in
  let f7_2 := (lit 2) *i32 f7 in
  let f5_38 := (lit 38) *i32 f5 in
  let f6_19 := (lit 19) *i32 f6 in
  let f7_38 := (lit 38) *i32 f7 in
  let f8_19 := (lit 19) *i32 f8 in
  let f9_38 := (lit 38) *i32 f9 in
  let f0f0 := f0 *i64 f0 in
  let f0f1_2 := f0_2 *i64 f1 in
  let f0f2_2 := f0_2 *i64 f2 in
  let f0f3_2 := f0_2 *i64 f3 in
  let f0f4_2 := f0_2 *i64 f4 in
  let f0f5_2 := f0_2 *i64 f5 in
  let f0f6_2 := f0_2 *i64 f6 in
  let f0f7_2 := f0_2 *i64 f7 in
  let f0f8_2 := f0_2 *i64 f8 in
  let f0f9_2 := f0_2 *i64 f9 in
  let f1f1_2 := f1_2 *i64 f1 in
  let f1f2_2 := f1_2 *i64 f2 in
  let f1f3_4 := f1_2 *i64 f3_2 in
  let f1f4_2 := f1_2 *i64 f4 in
  let f1f5_4 := f1_2 *i64 f5_2 in
  let f1f6_2 := f1_2 *i64 f6 in
  let f1f7_4 := f1_2 *i64 f7_2 in
  let f1f8_2 := f1_2 *i64 f8 in
  let f1f9_76 := f1_2 *i64 f9_38 in
  let f2f2 := f2 *i64 f2 in
  let f2f3_2 := f2_2 *i64 f3 in
  let f2f4_2 := f2_2 *i64 f4 in
  let f2f5_2 := f2_2 *i64 f5 in
  let f2f6_2 := f2_2 *i64 f6 in
  let f2f7_2 := f2_2 *i64 f7 in
  let f2f8_38 := f2_2 *i64 f8_19 in
  let f2f9_38 := f2 *i64 f9_38 in
  let f3f3_2 := f3_2 *i64 f3 in
  let f3f4_2 := f3_2 *i64 f4 in
  let f3f5_4 := f3_2 *i64 f5_2 in
  let f3f6_2 := f3_2 *i64 f6 in
  let f3f7_76 := f3_2 *i64 f7_38 in
  let f3f8_38 := f3_2 *i64 f8_19 in
  let f3f9_76 := f3_2 *i64 f9_38 in
  let f4f4 := f4 *i64 f4 in
  let f4f5_2 := f4_2 *i64 f5 in
  let f4f6_38 := f4_2 *i64 f6_19 in
  let f4f7_38 := f4 *i64 f7_38 in
  let f4f8_38 := f4_2 *i64 f8_19 in
  let f4f9_38 := f4 *i64 f9_38 in
  let f5f5_38 := f5 *i64 f5_38 in
  let f5f6_38 := f5_2 *i64 f6_19 in
  let f5f7_76 := f5_2 *i64 f7_38 in
  let f5f8_38 := f5_2 *i64 f8_19 in
  let f5f9_76 := f5_2 *i64 f9_38 in
  let f6f6_19 := f6 *i64 f6_19 in
  let f6f7_38 := f6 *i64 f7_38 in
  let f6f8_38 := f6_2 *i64 f8_19 in
  let f6f9_38 := f6 *i64 f9_38 in
  let f7f7_38 := f7 *i64 f7_38 in
  let f7f8_38 := f7_2 *i64 f8_19 in
  let f7f9_76 := f7_2 *i64 f9_38 in
  let f8f8_19 := f8 *i64 f8_19 in
  let f8f9_38 := f8 *i64 f9_38 in
  let f9f9_38 := f9 *i64 f9_38 in
  let h0 := f0f0 +i64 f1f9_76 +i64 f2f8_38 +i64 f3f7_76 +i64 f4f6_38 +i64 f5f5_38 in
  let h1 := f0f1_2 +i64 f2f9_38 +i64 f3f8_38 +i64 f4f7_38 +i64 f5f6_38 in
  let h2 := f0f2_2 +i64 f1f1_2 +i64 f3f9_76 +i64 f4f8_38 +i64 f5f7_76 +i64 f6f6_19 in
  let h3 := f0f3_2 +i64 f1f2_2 +i64 f4f9_38 +i64 f5f8_38 +i64 f6f7_38 in
  let h4 := f0f4_2 +i64 f1f3_4 +i64 f2f2 +i64 f5f9_76 +i64 f6f8_38 +i64 f7f7_38 in
  let h5 := f0f5_2 +i64 f1f4_2 +i64 f2f3_2 +i64 f6f9_38 +i64 f7f8_38 in
  let h6 := f0f6_2 +i64 f1f5_4 +i64 f2f4_2 +i64 f3f3_2 +i64 f7f9_76 +i64 f8f8_19 in
  let h7 := f0f7_2 +i64 f1f6_2 +i64 f2f5_2 +i64 f3f4_2 +i64 f8f9_38 in
  let h8 := f0f8_2 +i64 f1f7_4 +i64 f2f6_2 +i64 f3f5_4 +i64 f4f4 +i64 f9f9_38 in
  let h9 := f0f9_2 +i64 f1f8_2 +i64 f2f7_2 +i64 f3f6_2 +i64 f4f5_2 in
  let h0 := h0 +i64 h0 in
  let h1 := h1 +i64 h1 in
  let h2 := h2 +i64 h2 in
  let h3 := h3 +i64 h3 in
  let h4 := h4 +i64 h4 in
  let h5 := h5 +i64 h5 in
  let h6 := h6 +i64 h6 in
  let h7 := h7 +i64 h7 in
  let h8 := h8 +i64 h8 in
  let h9 := h9 +i64 h9 in
  let carry0 := carry_round 64 26 h0 in
  let h1 := h1 +i64 carry0 in
  let h0 := rem_round 64 26 h0 in
  let carry4 := carry_round 64 26 h4 in
  let h5 := h5 +i64 carry4 in
  let h4 := rem_round 64 26 h4 in
  let carry1 := carry_round 64 25 h1 in
  let h2 := h2 +i64 carry1 in
  let h1 := rem_round 64 25 h1 in
  let carry5 := carry_round 64 25 h5 in
  let h6 := h6 +i64 carry5 in
  let h5 := rem_round 64 25 h5 in
  let carry2 := carry_round 64 26 h2 in
  let h3 := h3 +i64 carry2 in
  let h2 := rem_round 64 26 h2 in
  let carry6 := carry_round 64 26 h6 in
  let h7 := h7 +i64 carry6 in
  let h6 := rem_round 64 26 h6 in
  let carry3 := carry_round 64 25 h3 in
  let h4 := h4 +i64 carry3 in
  let h3 := rem_round 64 25 h3 in
  let carry7 := carry_round 64 25 h7 in
  let h8 := h8 +i64 carry7 in
  let h7 := rem_round 64 25 h7 in
  let carry4 := carry_round 64 26 h4 in
  let h5 := h5 +i64 carry4 in
  let h4 := rem_round 64 26 h4 in
  let carry8 := carry_round 64 26 h8 in
  let h9 := h9 +i64 carry8 in
  let h8 := rem_round 64 26 h8 in
  let carry9 := carry_round 64 25 h9 in
  let h0 := h0 +i64 carry9 *i64 (lit 19) in
  let h9 := rem_round 64 25 h9 in
  let carry0 := carry_round 64 26 h0 in
  let h1 := h1 +i64 carry0 in
  let h0 := rem_round 64 26 h0 in
  mkFe (narrow 32 h0) (narrow 32 h1) (narrow 32 h2) (narrow 32 h3) (narrow 32 h4) (narrow 32 h5) (narrow 32 h6) (narrow 32 h7) (narrow 32 h8) (narrow 32 h9).

Definition fe_mul121666 (f : fe A) : fe A :=
  let 'mkFe f0 f1 f2 f3 f4 f5 f6 f7 f8 f9 := f in
  let h0 := f0 *i64 (lit 121666) in
  let h1 := f1 *i64 (lit 121666) in
  let h2 := f2 *i64 (lit 121666) in
  let h3 := f3 *i64 (lit 121666) in
  let h4 := f4 *i64 (lit 121666) in
  let h5 := f5 *i64 (lit 121666) in
  let h6 := f6 *i64 (lit 121666) in
  let h7 := f7 *i64 (lit 121666) in
  let h8 := f8 *i64 (lit 121666) in
  let h9 := f9 *i64 (lit 121666) in
  let carry9 := carry_round 64 25 h9 in
  let h0 := h0 +i64 carry9 *i64 (lit 19) in
  let h9 := rem_round 64 25 h9 in
  let carry1 := carry_round 64 25 h1 in
  let h2 := h2 +i64 carry1 in
  let h1 := rem_round 64 25 h1 in
  let carry3 := carry_round 64 25 h3 in
  let h4 := h4 +i64 carry3 in
  let h3 := rem_round 64 25 h3 in
  let carry5 := carry_round 64 25 h5 in
  let h6 := h6 +i64 carry5 in
  let h5 := rem_round 64 25 h5 in
  let carry7 := carry_round 64 25 h7 in
  let h8 := h8 +i64 carry7 in
  let h7 := rem_round 64 25 h7 in
  let carry0 := carry_round 64 26 h0 in
  let h1 := h1 +i64 carry0 in
  let h0 := rem_round 64 26 h0 in
  let carry2 := carry_round 64 26 h2 in
  let h3 := h3 +i64 carry2 in
  let h2 := rem_round 64 26 h2 in
  let carry4 := carry_round 64 26 h4 in
  let h5 := h5 +i64 carry4 in
  let h4 := rem_round 64 26 h4 in
  let carry6 := carry_round 64 26 h6 in
  let h7 := h7 +i64 carry6 in
  let h6 := rem_round 64 26 h6 in
  let carry8 := carry_round 64 26 h8 in
  let h9 := h9 +i64 carry8 in
  let h8 := rem_round 64 26 h8 in
  mkFe (narrow 32 h0) (narrow 32 h1) (narrow 32 h2) (narrow 32 h3) (narrow 32 h4) (narrow 32 h5) (narrow 32 h6) (narrow 32 h7) (narrow 32 h8) (narrow 32 h9).

(** The carries of [fe_frombytes]. *)
Definition frombytes_carry (h : fe A) : fe A :=
  let 'mkFe h0 h1 h2 h3 h4 h5 h6 h7 h8 h9 := h in
  let carry9 := carry_round 64 25 h9 in
  let h0 := h0 +i64 carry9 *i64 (lit 19) in
  let h9 := rem_round 64 25 h9 in
  let carry1 := carry_round 64 25 h1 in
  let h2 := h2 +i64 carry1 in
  let h1 := rem_round 64 25 h1 in
  let carry3 := carry_round 64 25 h3 in
  let h4 := h4 +i64 carry3 in
  let h3 := rem_round 64 25 h3 in
  let carry5 := carry_round 64 25 h5 in
  let h6 := h6 +i64 carry5 in
  let h5 := rem_round 64 25 h5 in
  let carry7 := carry_round 64 25 h7 in
  let h8 := h8 +i64 carry7 in
  let h7 := rem_round 64 25 h7 in
  let carry0 := carry_round 64 26 h0 in
  let h1 := h1 +i64 carry0 in
  let h0 := rem_round 64 26 h0 in
  let carry2 := carry_round 64 26 h2 in
  let h3 := h3 +i64 carry2 in
  let h2 := rem_round 64 26 h2 in
  let carry4 := carry_round 64 26 h4 in
  let h5 := h5 +i64 carry4 in
  let h4 := rem_round 64 26 h4 in
  let carry6 := carry_round 64 26 h6 in
  let h7 := h7 +i64 carry6 in
  let h6 := rem_round 64 26 h6 in
  let carry8 := carry_round 64 26 h8 in
  let h9 := h9 +i64 carry8 in
  let h8 := rem_round 64 26 h8 in
  mkFe (narrow 32 h0) (narrow 32 h1) (narrow 32 h2) (narrow 32 h3) (narrow 32 h4) (narrow 32 h5) (narrow 32 h6) (narrow 32 h7) (narrow 32 h8) (narrow 32 h9).

(** The reduction of [fe_tobytes]. *)
Definition tobytes_reduce (h : fe A) : fe A :=
  let 'mkFe h0 h1 h2 h3 h4 h5 h6 h7 h8 h9 := h in
  let q := carry_round 32 25 ((lit 19) *i32 h9) in
  let q := carry_floor 32 26 (h0 +i32 q) in
  let q := carry_floor 32 25 (h1 +i32 q) in
  let q := carry_floor 32 26 (h2 +i32 q) in
  let q := carry_floor 32 25 (h3 +i32 q) in
  let q := carry_floor 32 26 (h4 +i32 q) in
  let q := carry_floor 32 25 (h5 +i32 q) in
  let q := carry_floor 32 26 (h6 +i32 q) in
  let q := carry_floor 32 25 (h7 +i32 q) in
  let q := carry_floor 32 26 (h8 +i32 q) in
  let q := carry_floor 32 25 (h9 +i32 q) in
  let h0 := h0 +i32 (lit 19) *i32 q in
  let carry0 := carry_floor 32 26 h0 in
  let h1 := h1 +i32 carry0 in
  let h0 := rem_floor 32 26 h0 in
  let carry1 := carry_floor 32 25 h1 in
  let h2 := h2 +i32 carry1 in
  let h1 := rem_floor 32 25 h1 in
  let carry2 := carry_floor 32 26 h2 in
  let h3 := h3 +i32 carry2 in
  let h2 := rem_floor 32 26 h2 in
  let carry3 := carry_floor 32 25 h3 in
  let h4 := h4 +i32 carry3 in
  let h3 := rem_floor 32 25 h3 in
  let carry4 := carry_floor 32 26 h4 in
  let h5 := h5 +i32 carry4 in
  let h4 := rem_floor 32 26 h4 in
  let carry5 := carry_floor 32 25 h5 in
  let h6 := h6 +i32 carry5 in
  let h5 := rem_floor 32 25 h5 in
  let carry6 := carry_floor 32 26 h6 in
  let h7 := h7 +i32 carry6 in
  let h6 := rem_floor 32 26 h6 in
  let carry7 := carry_floor 32 25 h7 in
  let h8 := h8 +i32 carry7 in
  let h7 := rem_floor 32 25 h7 in
  let carry8 := carry_floor 32 26 h8 in
  let h9 := h9 +i32 carry8 in
  let h8 := rem_floor 32 26 h8 in
  let carry9 := carry_floor 32 25 h9 in
  let h9 := rem_floor 32 25 h9 in
  mkFe h0 h1 h2 h3 h4 h5 h6 h7 h8 h9.


Definition fe_copy (f : fe A) : fe A :=
  let 'mkFe f0 f1 f2 f3 f4 f5 f6 f7 f8 f9 := f in mkFe f0 f1 f2 f3 f4 f5 f6 f7 f8 f9.

(** [Nat.iter n fe_sq t] is the loop [for (i = 1; i < n + 1; ++i) fe_sq(t, t)]. *)
Definition fe_invert (z : fe A) : fe A :=
  let t0 := fe_sq z in
  let t0 := Nat.iter 0 fe_sq t0 in
  let t1 := fe_sq t0 in
  let t1 := Nat.iter 1 fe_sq t1 in
  let t1 := fe_mul z t1 in
  let t0 := fe_mul t0 t1 in
  let t2 := fe_sq t0 in
  let t2 := Nat.iter 0 fe_sq t2 in
  let t1 := fe_mul t1 t2 in
  let t2 := fe_sq t1 in
  let t2 := Nat.iter 4 fe_sq t2 in
  let t1 := fe_mul t2 t1 in
  let t2 := fe_sq t1 in
  let t2 := Nat.iter 9 fe_sq t2 in
  let t2 := fe_mul t2 t1 in
  let t3 := fe_sq t2 in
  let t3 := Nat.iter 19 fe_sq t3 in
  let t2 := fe_mul t3 t2 in
  let t2 := fe_sq t2 in
  let t2 := Nat.iter 9 fe_sq t2 in
  let t1 := fe_mul t2 t1 in
  let t2 := fe_sq t1 in
  let t2 := Nat.iter 49 fe_sq t2 in
  let t2 := fe_mul t2 t1 in
  let t3 := fe_sq t2 in
  let t3 := Nat.iter 99 fe_sq t3 in
  let t2 := fe_mul t3 t2 in
  let t2 := fe_sq t2 in
  let t2 := Nat.iter 49 fe_sq t2 in
  let t1 := fe_mul t2 t1 in
  let t1 := fe_sq t1 in
  let t1 := Nat.iter 4 fe_sq t1 in
  fe_mul t1 t0.

Definition fe_pow22523 (z : fe A) : fe A :=
  let t0 := fe_sq z in
  let t0 := Nat.iter 0 fe_sq t0 in
  let t1 := fe_sq t0 in
  let t1 := Nat.iter 1 fe_sq t1 in
  let t1 := fe_mul z t1 in
  let t0 := fe_mul t0 t1 in
  let t0 := fe_sq t0 in
  let t0 := Nat.iter 0 fe_sq t0 in
  let t0 := fe_mul t1 t0 in
  let t1 := fe_sq t0 in
  let t1 := Nat.iter 4 fe_sq t1 in
  let t0 := fe_mul t1 t0 in
  let t1 := fe_sq t0 in
  let t1 := Nat.iter 9 fe_sq t1 in
  let t1 := fe_mul t1 t0 in
  let t2 := fe_sq t1 in
  let t2 := Nat.iter 19 fe_sq t2 in
  let t1 := fe_mul t2 t1 in
  let t1 := fe_sq t1 in
  let t1 := Nat.iter 9 fe_sq t1 in
  let t0 := fe_mul t1 t0 in
  let t1 := fe_sq t0 in
  let t1 := Nat.iter 49 fe_sq t1 in
  let t1 := fe_mul t1 t0 in
  let t2 := fe_sq t1 in
  let t2 := Nat.iter 99 fe_sq t2 in
  let t1 := fe_mul t2 t1 in
  let t1 := fe_sq t1 in
  let t1 := Nat.iter 49 fe_sq t1 in
  let t0 := fe_mul t1 t0 in
  let t0 := fe_sq t0 in
  let t0 := Nat.iter 1 fe_sq t0 in
  fe_mul t0 z.

(** ** Bytes *)

Definition byte_at (s : list Z) (i : nat) : Z := nth i s 0.

Definition load_3 (s : list Z) (i : nat) : Z :=
  let result := byte_at s i in
  let result := Z.lor result (Z.shiftl (byte_at s (i + 1)) 8) in
  Z.lor result (Z.shiftl (byte_at s (i + 2)) 16).

Definition load_4 (s : list Z) (i : nat) : Z :=
  let result := byte_at s i in
  let result := Z.lor result (Z.shiftl (byte_at s (i + 1)) 8) in
  let result := Z.lor result (Z.shiftl (byte_at s (i + 2)) 16) in
  Z.lor result (Z.shiftl (byte_at s (i + 3)) 24).

Definition frombytes_load (s : list Z) : fe Z :=
  mkFe (load_4 s 0) (Z.shiftl (load_3 s 4) 6) (Z.shiftl (load_3 s 7) 5) (Z.shiftl (load_3 s 10) 3)
       (Z.shiftl (load_3 s 13) 2) (load_4 s 16) (Z.shiftl (load_3 s 20) 7) (Z.shiftl (load_3 s 23) 5)
       (Z.shiftl (load_3 s 26) 4) (Z.shiftl (Z.land (load_3 s 29) 8388607) 2).

Definition fe_frombytes (s : list Z) : fe A := frombytes_carry (fe_map lit (frombytes_load s)).

End Ops.

(** A left shift of a signed integer; where the result does not fit the compiler keeps the low [w]
    bits. *)
Definition shl (w x k : Z) : Z := wrap w (x * 2 ^ k).
Definition uchar (x : Z) : Z := x mod 256.

Definition tobytes_store (h : fe Z) : list Z :=
  let 'mkFe h0 h1 h2 h3 h4 h5 h6 h7 h8 h9 := h in
  [ uchar (Z.shiftr h0 0);
    uchar (Z.shiftr h0 8);
    uchar (Z.shiftr h0 16);
    uchar (Z.lor (Z.shiftr h0 24) (shl 32 h1 2));
    uchar (Z.shiftr h1 6);
    uchar (Z.shiftr h1 14);
    uchar (Z.lor (Z.shiftr h1 22) (shl 32 h2 3));
    uchar (Z.shiftr h2 5);
    uchar (Z.shiftr h2 13);
    uchar (Z.lor (Z.shiftr h2 21) (shl 32 h3 5));
    uchar (Z.shiftr h3 3);
    uchar (Z.shiftr h3 11);
    uchar (Z.lor (Z.shiftr h3 19) (shl 32 h4 6));
    uchar (Z.shiftr h4 2);
    uchar (Z.shiftr h4 10);
    uchar (Z.shiftr h4 18);
    uchar (Z.shiftr h5 0);
    uchar (Z.shiftr h5 8);
    uchar (Z.shiftr h5 16);
    uchar (Z.lor (Z.shiftr h5 24) (shl 32 h6 1));
    uchar (Z.shiftr h6 7);
    uchar (Z.shiftr h6 15);
    uchar (Z.lor (Z.shiftr h6 23) (shl 32 h7 3));
    uchar (Z.shiftr h7 5);
    uchar (Z.shiftr h7 13);
    uchar (Z.lor (Z.shiftr h7 21) (shl 32 h8 4));
    uchar (Z.shiftr h8 4);
    uchar (Z.shiftr h8 12);
    uchar (Z.lor (Z.shiftr h8 20) (shl 32 h9 6));
    uchar (Z.shiftr h9 2);
    uchar (Z.shiftr h9 10);
    uchar (Z.shiftr h9 18) ].

(** The limbs, unless a computation overflowed. *)
Definition fe_get (x : fe (option Z)) : option (fe Z) :=
  let 'mkFe x0 x1 x2 x3 x4 x5 x6 x7 x8 x9 := x in
  h0 ← x0; h1 ← x1; h2 ← x2; h3 ← x3; h4 ← x4; h5 ← x5; h6 ← x6; h7 ← x7; h8 ← x8; h9 ← x9;
  Some (mkFe h0 h1 h2 h3 h4 h5 h6 h7 h8 h9).

Definition fe_tobytes (h : fe (option Z)) : option (list Z) := tobytes_store <$> fe_get (tobytes_reduce h).

Definition fe_isnegative (f : fe (option Z)) : option Z := s ← fe_tobytes f; Some (Z.land (byte_at s 0) 1).

Definition fe_isnonzero (f : fe (option Z)) : option bool :=
  s ← fe_tobytes f; Some (negb (fold_left Z.lor (map (byte_at s) (seq 1 31)) (byte_at s 0) =? 0)).

(** ** Conditional moves *)

(** [b = (unsigned int) (- (int) b)] and [x &= b] of an [int32_t]. *)
Definition mask32 (b : Z) : Z := (- b) mod 2 ^ 32.
Definition and32 (x m : Z) : Z := wrap 32 (Z.land (x mod 2 ^ 32) m).

Definition fe_cmov (f g : fe Z) (b : Z) : fe Z :=
  let 'mkFe f0 f1 f2 f3 f4 f5 f6 f7 f8 f9 := f in
  let 'mkFe g0 g1 g2 g3 g4 g5 g6 g7 g8 g9 := g in
  let x0 := Z.lxor f0 g0 in
  let x1 := Z.lxor f1 g1 in
  let x2 := Z.lxor f2 g2 in
  let x3 := Z.lxor f3 g3 in
  let x4 := Z.lxor f4 g4 in
  let x5 := Z.lxor f5 g5 in
  let x6 := Z.lxor f6 g6 in
  let x7 := Z.lxor f7 g7 in
  let x8 := Z.lxor f8 g8 in
  let x9 := Z.lxor f9 g9 in
  let b := mask32 b in
  let x0 := and32 x0 b in
  let x1 := and32 x1 b in
  let x2 := and32 x2 b in
  let x3 := and32 x3 b in
  let x4 := and32 x4 b in
  let x5 := and32 x5 b in
  let x6 := and32 x6 b in
  let x7 := and32 x7 b in
  let x8 := and32 x8 b in
  let x9 := and32 x9 b in
  mkFe (Z.lxor f0 x0) (Z.lxor f1 x1) (Z.lxor f2 x2) (Z.lxor f3 x3) (Z.lxor f4 x4) (Z.lxor f5 x5) (Z.lxor f6 x6) (Z.lxor f7 x7) (Z.lxor f8 x8) (Z.lxor f9 x9).

Definition fe_cswap (f g : fe Z) (b : Z) : fe Z * fe Z :=
  let 'mkFe f0 f1 f2 f3 f4 f5 f6 f7 f8 f9 := f in
  let 'mkFe g0 g1 g2 g3 g4 g5 g6 g7 g8 g9 := g in
  let x0 := Z.lxor f0 g0 in
  let x1 := Z.lxor f1 g1 in
  let x2 := Z.lxor f2 g2 in
  let x3 := Z.lxor f3 g3 in
  let x4 := Z.lxor f4 g4 in
  let x5 := Z.lxor f5 g5 in
  let x6 := Z.lxor f6 g6 in
  let x7 := Z.lxor f7 g7 in
  let x8 := Z.lxor f8 g8 in
  let x9 := Z.lxor f9 g9 in
  let b := mask32 b in
  let x0 := and32 x0 b in
  let x1 := and32 x1 b in
  let x2 := and32 x2 b in
  let x3 := and32 x3 b in
  let x4 := and32 x4 b in
  let x5 := and32 x5 b in
  let x6 := and32 x6 b in
  let x7 := and32 x7 b in
  let x8 := and32 x8 b in
  let x9 := and32 x9 b in
  (mkFe (Z.lxor f0 x0) (Z.lxor f1 x1) (Z.lxor f2 x2) (Z.lxor f3 x3) (Z.lxor f4 x4) (Z.lxor f5 x5) (Z.lxor f6 x6) (Z.lxor f7 x7) (Z.lxor f8 x8) (Z.lxor f9 x9),
   mkFe (Z.lxor g0 x0) (Z.lxor g1 x1) (Z.lxor g2 x2) (Z.lxor g3 x3) (Z.lxor g4 x4) (Z.lxor g5 x5) (Z.lxor g6 x6) (Z.lxor g7 x7) (Z.lxor g8 x8) (Z.lxor g9 x9)).
