(* ===== verification/FeSpec.v ===== *)
(** * Field arithmetic is correct

    No operation of [Fe] overflows within the bounds that its comment states, its result is within
    the stated bounds, and it is the operation of the field modulo 2^255 - 19. *)

From S2P Require Import Prelude Mem Limbs Fe.
From Stdlib Require Import ZArith Lia.
From stdpp Require Import base tactics list numbers.
Local Open Scope Z_scope.
Local Open Scope limb_scope.

(** ** Values and bounds *)

Definition p25519 : Z := 2 ^ 255 - 19.

(** The integer that an element denotes. *)
Definition fe_val (h : fe Z) : Z :=
  fe0 h + 2 ^ 26 * fe1 h + 2 ^ 51 * fe2 h + 2 ^ 77 * fe3 h + 2 ^ 102 * fe4 h + 2 ^ 128 * fe5 h + 2 ^ 153 * fe6 h
  + 2 ^ 179 * fe7 h + 2 ^ 204 * fe8 h + 2 ^ 230 * fe9 h.

(** Ten machine integers without an error. *)
Definition fe_some (h : fe Z) : fe (option Z) := fe_map Some h.

(** Limbs bounded by [e] and [o] alternately. *)
Definition fe_box (e o : Z) : fe range :=
  let E := Some (- e, e) in let O := Some (- o, o) in mkFe E O E O E O E O E O.

Definition fe_all {A B} (R : A -> B -> Prop) (x : fe A) (y : fe B) : Prop :=
  R (fe0 x) (fe0 y) /\ R (fe1 x) (fe1 y) /\ R (fe2 x) (fe2 y) /\ R (fe3 x) (fe3 y) /\ R (fe4 x) (fe4 y)
  /\ R (fe5 x) (fe5 y) /\ R (fe6 x) (fe6 y) /\ R (fe7 x) (fe7 y) /\ R (fe8 x) (fe8 y) /\ R (fe9 x) (fe9 y).

Definition in_range (r : range) (z : Z) : Prop := match r with Some (lo, hi) => lo <= z <= hi | None => False end.
Definition range_le (r q : range) : Prop :=
  match r, q with Some (a, b), Some (c, d) => ((c <=? a) && (b <=? d)) = true | _, _ => False end.

Definition fe_in (r : fe range) (z : fe Z) : Prop := fe_all in_range r z.

(** The bounds of the comments: [1.1*2^25, 1.1*2^24], [1.1*2^26, 1.1*2^25], [1.65*2^26, 1.65*2^25]
    and [1.01*2^25, 1.01*2^24], rounded down. *)
Definition small : fe range := fe_box 36909875 18454937.
Definition medium : fe range := fe_box 73819750 36909875.
Definition large : fe range := fe_box 110729625 55364812.
Definition reduced : fe range := fe_box 33889976 16944988.

(** ** Readings of elements *)

Definition fe_rel (x : fe (option Z)) (z : fe Z) (r : fe range) : Prop :=
  related (fe0 x) (fe0 z) (fe0 r) /\ related (fe1 x) (fe1 z) (fe1 r) /\ related (fe2 x) (fe2 z) (fe2 r)
  /\ related (fe3 x) (fe3 z) (fe3 r) /\ related (fe4 x) (fe4 z) (fe4 r) /\ related (fe5 x) (fe5 z) (fe5 r)
  /\ related (fe6 x) (fe6 z) (fe6 r) /\ related (fe7 x) (fe7 z) (fe7 r) /\ related (fe8 x) (fe8 z) (fe8 r)
  /\ related (fe9 x) (fe9 z) (fe9 r).

Lemma fe_rel_mk x0 x1 x2 x3 x4 x5 x6 x7 x8 x9 z0 z1 z2 z3 z4 z5 z6 z7 z8 z9 r0 r1 r2 r3 r4 r5 r6 r7 r8 r9 :
  related x0 z0 r0 -> related x1 z1 r1 -> related x2 z2 r2 -> related x3 z3 r3 -> related x4 z4 r4 ->
  related x5 z5 r5 -> related x6 z6 r6 -> related x7 z7 r7 -> related x8 z8 r8 -> related x9 z9 r9 ->
  fe_rel (mkFe x0 x1 x2 x3 x4 x5 x6 x7 x8 x9) (mkFe z0 z1 z2 z3 z4 z5 z6 z7 z8 z9) (mkFe r0 r1 r2 r3 r4 r5 r6 r7 r8 r9).
Proof. intros. split_and!; assumption. Qed.

Lemma related_in r z : in_range r z -> related (Some z) z r.
Proof. by destruct r as [[]|]. Qed.

Lemma fe_rel_in r z : fe_in r z -> fe_rel (fe_some z) z r.
Proof. intros (?&?&?&?&?&?&?&?&?&?). destruct z. apply fe_rel_mk; by apply related_in. Qed.

Lemma related_use x z r q : related x z r -> range_le r q -> x = Some z /\ in_range q z.
Proof.
  destruct r as [[a b]|], q as [[c d]|]; cbn; try done. intros [-> Hz] [H1 H2]%andb_true_iff. apply Z.leb_le in H1, H2. split; [done|lia].
Qed.

(** What the intervals give. *)
Lemma fe_rel_use x z r q : fe_rel x z r -> fe_all range_le r q -> x = fe_some z /\ fe_in q z.
Proof.
  destruct x, z, r, q. intros (?&?&?&?&?&?&?&?&?&?) (?&?&?&?&?&?&?&?&?&?).
  repeat match goal with H1 : related ?x ?z ?r, H2 : range_le ?r ?q |- _ => destruct (related_use _ _ _ _ H1 H2); clear H1 H2 end.
  cbn in *. subst. split; [reflexivity|]. split_and!; assumption.
Qed.

(** Opens the arguments of a function on elements. *)
Ltac fe_open :=
  repeat match goal with
  | H : fe_rel ?x ?z ?r |- _ => destruct x, z, r; destruct H as (?&?&?&?&?&?&?&?&?&?); cbn [fe0 fe1 fe2 fe3 fe4 fe5 fe6 fe7 fe8 fe9] in *
  end.

Tactic Notation "fe_param" reference(f) := fe_open; cbv beta iota delta [f]; rel_lets; apply fe_rel_mk; rel_op.

Section Parametric.
Context (x y : fe (option Z)) (z u : fe Z) (r q : fe range) (Hx : fe_rel x z r) (Hy : fe_rel y u q).

Lemma fe_add_rel : fe_rel (fe_add x y) (fe_add z u) (fe_add r q).
Proof using Hx Hy. fe_param fe_add. Qed.
Lemma fe_sub_rel : fe_rel (fe_sub x y) (fe_sub z u) (fe_sub r q).
Proof using Hx Hy. fe_param fe_sub. Qed.
Lemma fe_neg_rel : fe_rel (fe_neg x) (fe_neg z) (fe_neg r).
Proof using Hx. clear Hy. fe_param fe_neg. Qed.
Lemma fe_mul_rel : fe_rel (fe_mul x y) (fe_mul z u) (fe_mul r q).
Proof using Hx Hy. fe_param fe_mul. Qed.
Lemma fe_sq_rel : fe_rel (fe_sq x) (fe_sq z) (fe_sq r).
Proof using Hx. clear Hy. fe_param fe_sq. Qed.
Lemma fe_sq2_rel : fe_rel (fe_sq2 x) (fe_sq2 z) (fe_sq2 r).
Proof using Hx. clear Hy. fe_param fe_sq2. Qed.
Lemma fe_mul121666_rel : fe_rel (fe_mul121666 x) (fe_mul121666 z) (fe_mul121666 r).
Proof using Hx. clear Hy. fe_param fe_mul121666. Qed.
Lemma frombytes_carry_rel : fe_rel (frombytes_carry x) (frombytes_carry z) (frombytes_carry r).
Proof using Hx. clear Hy. fe_param frombytes_carry. Qed.
Lemma tobytes_reduce_rel : fe_rel (tobytes_reduce x) (tobytes_reduce z) (tobytes_reduce r).
Proof using Hx. clear Hy. fe_param tobytes_reduce. Qed.
End Parametric.


(** ** Congruence *)

Lemma mod_shift a b k : a = b - p25519 * k -> a mod p25519 = b mod p25519.
Proof. intros ->. replace (b - p25519 * k) with (b + - k * p25519) by ring. apply Z.mod_add. discriminate. Qed.

(** The multiple of the prime that multiplication subtracts, without the carry of the last limb. *)
Definition high_part (f g : fe Z) : Z :=
  let 'mkFe f0 f1 f2 f3 f4 f5 f6 f7 f8 f9 := f in
  let 'mkFe g0 g1 g2 g3 g4 g5 g6 g7 g8 g9 := g in
  (2 * f1 * g9 + f2 * g8 + 2 * f3 * g7 + f4 * g6 + 2 * f5 * g5 + f6 * g4 + 2 * f7 * g3 + f8 * g2 + 2 * f9 * g1)
  + 2 ^ 26 * (f2 * g9 + f3 * g8 + f4 * g7 + f5 * g6 + f6 * g5 + f7 * g4 + f8 * g3 + f9 * g2)
  + 2 ^ 51 * (2 * f3 * g9 + f4 * g8 + 2 * f5 * g7 + f6 * g6 + 2 * f7 * g5 + f8 * g4 + 2 * f9 * g3)
  + 2 ^ 77 * (f4 * g9 + f5 * g8 + f6 * g7 + f7 * g6 + f8 * g5 + f9 * g4)
  + 2 ^ 102 * (2 * f5 * g9 + f6 * g8 + 2 * f7 * g7 + f8 * g6 + 2 * f9 * g5)
  + 2 ^ 128 * (f6 * g9 + f7 * g8 + f8 * g7 + f9 * g6)
  + 2 ^ 153 * (2 * f7 * g9 + f8 * g8 + 2 * f9 * g7)
  + 2 ^ 179 * (f8 * g9 + f9 * g8)
  + 2 ^ 204 * (2 * f9 * g9).

Definition val_is (v : Z) (h : fe Z) : Prop := fe_val h mod p25519 = v mod p25519.

(** The value of a result, where the carry of the last limb was folded into the first: [k] is
    what the function reduced besides. *)
Ltac fold_value k :=
  exact_lets;
  match goal with H : _ = addw 64 _ (mulw 64 ?c (lit 19)) |- _ => apply (mod_shift _ _ (k + c)) end;
  forget_carries; subst; unfold k, fe_val, p25519;
  cbn [high_part fe0 fe1 fe2 fe3 fe4 fe5 fe6 fe7 fe8 fe9 lit addw subw mulw narrow exact]; ring.

Section Values.
Context (f g : fe Z).

Lemma fe_mul_val : val_is (fe_val f * fe_val g) (fe_mul f g).
Proof using. pose (k := high_part f g). destruct f, g. cbv beta iota delta [fe_mul]. fold_value k. Qed.

Lemma fe_sq_val : val_is (fe_val f * fe_val f) (fe_sq f).
Proof using. clear g. pose (k := high_part f f). destruct f. cbv beta iota delta [fe_sq]. fold_value k. Qed.

Lemma fe_sq2_val : val_is (2 * fe_val f * fe_val f) (fe_sq2 f).
Proof using. clear g. pose (k := 2 * high_part f f). destruct f. cbv beta iota delta [fe_sq2]. fold_value k. Qed.

Lemma fe_mul121666_val : val_is (121666 * fe_val f) (fe_mul121666 f).
Proof using. clear g. pose (k := 0). destruct f. cbv beta iota delta [fe_mul121666]. fold_value k. Qed.

Lemma frombytes_carry_val : val_is (fe_val f) (frombytes_carry f).
Proof using. clear g. pose (k := 0). destruct f. cbv beta iota delta [frombytes_carry]. fold_value k. Qed.

Lemma fe_add_val : val_is (fe_val f + fe_val g) (fe_add f g).
Proof using. unfold val_is. f_equal. destruct f, g. unfold fe_val. cbn. ring. Qed.
Lemma fe_sub_val : val_is (fe_val f - fe_val g) (fe_sub f g).
Proof using. unfold val_is. f_equal. destruct f, g. unfold fe_val. cbn. ring. Qed.
Lemma fe_neg_val : val_is (- fe_val f) (fe_neg f).
Proof using. unfold val_is. f_equal. destruct f. unfold fe_val. cbn. ring. Qed.
End Values.

(** ** Specifications *)

(** The machine computes, without overflow, an element within the bounds [b] whose value is
    [v] modulo the prime. *)
Definition computes (x : fe (option Z)) (b : fe range) (v : Z) : Prop :=
  exists h, x = fe_some h /\ fe_in b h /\ val_is v h.

Lemma computes_intro x z r b v : fe_rel x z r -> fe_all range_le r b -> val_is v z -> computes x b v.
Proof. intros H1 H2 H3. destruct (fe_rel_use _ _ _ _ H1 H2) as [-> Hb]. by exists z. Qed.

Lemma in_range_le r q z : range_le r q -> in_range r z -> in_range q z.
Proof. destruct r as [[a b]|], q as [[c d]|]; cbn; try done. intros [H1 H2]%andb_true_iff ?. apply Z.leb_le in H1, H2. lia. Qed.

Lemma fe_in_le r q z : fe_all range_le r q -> fe_in r z -> fe_in q z.
Proof. intros (?&?&?&?&?&?&?&?&?&?) (?&?&?&?&?&?&?&?&?&?). split_and!; eapply in_range_le; eassumption. Qed.

Ltac box_check := vm_compute; repeat split.
Lemma reduced_large : fe_all range_le reduced large.
Proof. box_check. Qed.
Lemma reduced_small : fe_all range_le reduced small.
Proof. box_check. Qed.
Lemma small_medium : fe_all range_le small medium.
Proof. box_check. Qed.
Lemma medium_large : fe_all range_le medium large.
Proof. box_check. Qed.

Section Specs.
Context (f g : fe Z).

Lemma fe_add_ok : fe_in small f -> fe_in small g -> computes (fe_add (fe_some f) (fe_some g)) medium (fe_val f + fe_val g).
Proof using.
  intros Hf Hg. eapply computes_intro; [apply fe_add_rel; apply fe_rel_in; eassumption|box_check|apply fe_add_val].
Qed.
Lemma fe_sub_ok : fe_in small f -> fe_in small g -> computes (fe_sub (fe_some f) (fe_some g)) medium (fe_val f - fe_val g).
Proof using.
  intros Hf Hg. eapply computes_intro; [apply fe_sub_rel; apply fe_rel_in; eassumption|box_check|apply fe_sub_val].
Qed.
Lemma fe_neg_ok : fe_in small f -> computes (fe_neg (fe_some f)) small (- fe_val f).
Proof using. intros Hf. eapply computes_intro; [apply fe_neg_rel; apply fe_rel_in; eassumption|box_check|apply fe_neg_val]. Qed.
Lemma fe_mul_ok : fe_in large f -> fe_in large g -> computes (fe_mul (fe_some f) (fe_some g)) reduced (fe_val f * fe_val g).
Proof using.
  intros Hf Hg. eapply computes_intro; [apply fe_mul_rel; apply fe_rel_in; eassumption|box_check|apply fe_mul_val].
Qed.
Lemma fe_sq_ok : fe_in large f -> computes (fe_sq (fe_some f)) reduced (fe_val f * fe_val f).
Proof using. intros Hf. eapply computes_intro; [apply fe_sq_rel; apply fe_rel_in; eassumption|box_check|apply fe_sq_val]. Qed.
Lemma fe_sq2_ok : fe_in large f -> computes (fe_sq2 (fe_some f)) reduced (2 * fe_val f * fe_val f).
Proof using. intros Hf. eapply computes_intro; [apply fe_sq2_rel; apply fe_rel_in; eassumption|box_check|apply fe_sq2_val]. Qed.
Lemma fe_mul121666_ok : fe_in medium f -> computes (fe_mul121666 (fe_some f)) small (121666 * fe_val f).
Proof using. intros Hf. eapply computes_intro; [apply fe_mul121666_rel; apply fe_rel_in; eassumption|box_check|apply fe_mul121666_val]. Qed.
End Specs.

(** ** Powers *)

(** The machine holds a power of [z], within the bounds of a product. *)
Definition is_pow (z : fe Z) (n : Z) (x : fe (option Z)) : Prop := 0 <= n /\ computes x large (fe_val z ^ n).

Lemma computes_le x b c v : fe_all range_le b c -> computes x b v -> computes x c v.
Proof. intros Hbc (h & -> & Hb & Hv). exists h. split_and!; [done|by eapply fe_in_le|done]. Qed.

Lemma computes_mod x b v u : v mod p25519 = u mod p25519 -> computes x b v -> computes x b u.
Proof. intros E (h & -> & Hb & Hv). exists h. split_and!; [done..|]. unfold val_is in *. congruence. Qed.

Lemma val_is_mul f g a b : val_is a f -> val_is b g -> (fe_val f * fe_val g) mod p25519 = (a * b) mod p25519.
Proof. unfold val_is. intros E1 E2. rewrite Z.mul_mod, E1, E2, <- Z.mul_mod by discriminate. done. Qed.

(** Products and squares of what the machine holds. *)
Lemma computes_mul x y a b : computes x large a -> computes y large b -> computes (fe_mul x y) reduced (a * b).
Proof.
  intros (f & -> & Hf & Vf) (g & -> & Hg & Vg). eapply computes_mod; [apply (val_is_mul f g a b Vf Vg)|by apply fe_mul_ok].
Qed.
Lemma computes_sq x a : computes x large a -> computes (fe_sq x) reduced (a * a).
Proof. intros (f & -> & Hf & Vf). eapply computes_mod; [apply (val_is_mul f f a a Vf Vf)|by apply fe_sq_ok]. Qed.

Lemma is_pow_mul z n m x y : is_pow z n x -> is_pow z m y -> is_pow z (n + m) (fe_mul x y).
Proof.
  intros [Hn Hx] [Hm Hy]. split; [lia|]. rewrite Z.pow_add_r by lia. eapply computes_le; [apply reduced_large|by apply computes_mul].
Qed.
Lemma is_pow_sq z n x : is_pow z n x -> is_pow z (n + n) (fe_sq x).
Proof.
  intros [Hn Hx]. split; [lia|]. rewrite Z.pow_add_r by lia. eapply computes_le; [apply reduced_large|by apply computes_sq].
Qed.
Lemma is_pow_iter z n x k : is_pow z n x -> is_pow z (Z.of_N (2 ^ N.of_nat k) * n) (Nat.iter k fe_sq x).
Proof.
  intros Hx. induction k as [|k IH]; [by replace (_ * n) with n by lia|]. cbn [Nat.iter].
  rewrite Nat2N.inj_succ, N.pow_succ_r'. replace (Z.of_N (2 * _) * n) with (Z.of_N (2 ^ N.of_nat k) * n + Z.of_N (2 ^ N.of_nat k) * n) by lia.
  by apply is_pow_sq.
Qed.
Lemma is_pow_1 z : fe_in large z -> is_pow z 1 (fe_some z).
Proof. intros Hz. split; [lia|]. exists z. split_and!; [done..|]. unfold val_is. by rewrite Z.pow_1_r. Qed.

Ltac pow_lets :=
  repeat lazymatch goal with
  | |- ?P (let v := ?x in @?k v) => refine (let_eq P x k _); let y := fresh "t" in let E := fresh "E" in
      intros y E; cbv beta;
      let H := fresh "H" in
      eassert (H : is_pow _ _ y) by (rewrite E; lazymatch x with
        | Nat.iter _ _ _ => apply is_pow_iter; eassumption
        | fe_sq _ => apply is_pow_sq; eassumption
        | fe_mul _ _ => apply is_pow_mul; eassumption end);
      clear E
  end.

Lemma pow_final z n m x : is_pow z n x -> n = m -> is_pow z m x.
Proof. by intros H <-. Qed.

(** [z] to the power p - 2, the inverse of [z] when it is not zero. *)
Lemma fe_invert_ok z : fe_in large z -> is_pow z (p25519 - 2) (fe_invert (fe_some z)).
Proof.
  intros Hz. pose proof (is_pow_1 z Hz) as H1. revert H1. generalize (fe_some z). intros x H1. cbv beta iota delta [fe_invert].
  pow_lets. eapply pow_final; [apply is_pow_mul; eassumption|]. vm_compute. reflexivity.
Qed.

Lemma fe_pow22523_ok z : fe_in large z -> is_pow z ((p25519 - 5) / 8) (fe_pow22523 (fe_some z)).
Proof.
  intros Hz. pose proof (is_pow_1 z Hz) as H1. revert H1. generalize (fe_some z). intros x H1. cbv beta iota delta [fe_pow22523].
  pow_lets. eapply pow_final; [apply is_pow_mul; eassumption|]. vm_compute. reflexivity.
Qed.
