(* ===== verification/FeBytes.v ===== *)
(** * Field elements as bytes

    [fe_frombytes] reads 255 bits, [fe_tobytes] writes the canonical representative, so equal
    field elements give equal bytes; conditional moves and swaps. *)

From S2P Require Import Prelude Mem Limbs Fe FeSpec.
From Stdlib Require Import ZArith Lia.
From stdpp Require Import base tactics list numbers.
Local Open Scope Z_scope.
Local Open Scope limb_scope.

(** ** Reading *)

Lemma lor_shiftl a b k : 0 <= k -> 0 <= a < 2 ^ k -> Z.lor a (Z.shiftl b k) = a + 2 ^ k * b.
Proof.
  intros Hk Ha. rewrite Z.lor_comm, Z.shiftl_mul_pow2 by done. rewrite (lor_add _ _ k) by (done || apply Z.mod_mul; lia). lia.
Qed.

Lemma bytes_eta n s : length s = n -> s = map (byte_at s) (seq 0 n).
Proof.
  intros <-. unfold byte_at. induction s as [|x s IH]; [done|]. cbn [length seq map nth]. f_equal. rewrite <- seq_shift, map_map. exact IH.
Qed.

Section Load.
Context (s : list Z) (Hs : Forall is_u8 s).

Lemma byte_at_u8 i : 0 <= byte_at s i < 256.
Proof using Hs.
  unfold byte_at. destruct (le_lt_dec (length s) i) as [?|H]; [rewrite nth_overflow by done; lia|].
  pose proof (proj1 (List.Forall_forall _ _) Hs _ (nth_In s 0 H)) as Hb. unfold is_u8 in Hb. lia.
Qed.

(** The ranges of the bytes of the goal. *)
Ltac all_bytes :=
  repeat match goal with |- context [byte_at s ?i] =>
    lazymatch goal with H : 0 <= byte_at s i < 256 |- _ => fail | _ => pose proof (byte_at_u8 i) end end.

Lemma load_3_val i : load_3 s i = byte_at s i + 2 ^ 8 * byte_at s (i + 1) + 2 ^ 16 * byte_at s (i + 2).
Proof using Hs.
  unfold load_3. pose proof (byte_at_u8 i). pose proof (byte_at_u8 (i + 1)). rewrite (lor_shiftl _ _ 8), (lor_shiftl _ _ 16) by lia. lia.
Qed.
Lemma load_4_val i :
  load_4 s i = byte_at s i + 2 ^ 8 * byte_at s (i + 1) + 2 ^ 16 * byte_at s (i + 2) + 2 ^ 24 * byte_at s (i + 3).
Proof using Hs.
  unfold load_4. pose proof (byte_at_u8 i). pose proof (byte_at_u8 (i + 1)). pose proof (byte_at_u8 (i + 2)).
  rewrite (lor_shiftl _ _ 8), (lor_shiftl _ _ 16), (lor_shiftl _ _ 24) by lia. lia.
Qed.

Definition loaded : fe range :=
  let b k := Some (0, 2 ^ k - 1) in mkFe (b 32) (b 30) (b 29) (b 27) (b 26) (b 32) (b 31) (b 29) (b 28) (b 25).

Lemma top_bits : Z.land (load_3 s 29) 8388607 = byte_at s 29 + 2 ^ 8 * byte_at s 30 + 2 ^ 16 * (byte_at s 31 mod 128).
Proof using Hs.
  rewrite load_3_val. change 8388607 with (Z.ones 23). rewrite Z.land_ones by lia. cbn [Nat.add].
  pose proof (byte_at_u8 29). pose proof (byte_at_u8 30). pose proof (byte_at_u8 31).
  symmetry. apply Z.mod_unique_pos with (byte_at s 31 / 128); pose proof (Z.div_mod (byte_at s 31) 128 ltac:(lia));
    pose proof (Z.mod_pos_bound (byte_at s 31) 128 ltac:(lia)); lia.
Qed.

Lemma frombytes_load_in : fe_in loaded (frombytes_load s).
Proof using Hs.
  unfold frombytes_load. rewrite top_bits, !load_3_val, !load_4_val, !Z.shiftl_mul_pow2 by lia. cbn [Nat.add].
  pose proof (Z.mod_pos_bound (byte_at s 31) 128 ltac:(lia)).
  repeat split; cbn [in_range fe0 fe1 fe2 fe3 fe4 fe5 fe6 fe7 fe8 fe9 loaded];
    all_bytes; lia.
Qed.

(** The top bit is dropped. *)
Lemma frombytes_load_val : length s = 32%nat -> fe_val (frombytes_load s) = le_value s mod 2 ^ 255.
Proof using Hs.
  intros Hl. rewrite (bytes_eta 32 s Hl) at 2. unfold frombytes_load.
  rewrite top_bits, !load_3_val, !load_4_val, !Z.shiftl_mul_pow2 by lia. unfold fe_val, le_value.
  cbn [map seq fold_right Nat.add fe0 fe1 fe2 fe3 fe4 fe5 fe6 fe7 fe8 fe9].
  pose proof (Z.div_mod (byte_at s 31) 128 ltac:(lia)). pose proof (Z.mod_pos_bound (byte_at s 31) 128 ltac:(lia)). all_bytes.
  apply Z.mod_unique_pos with (byte_at s 31 / 128); lia.
Qed.

Lemma fe_frombytes_ok : length s = 32%nat -> computes (fe_frombytes s) small (le_value s mod 2 ^ 255).
Proof using Hs.
  intros Hl. rewrite <- frombytes_load_val by done.
  eapply computes_intro; [apply frombytes_carry_rel, fe_rel_in, frombytes_load_in|box_check|apply frombytes_carry_val].
Qed.
End Load.

(** ** The canonical representative *)

(** Limbs without sign, within their widths. *)
Definition canonical : fe range := let e := Some (0, 2 ^ 26 - 1) in let o := Some (0, 2 ^ 25 - 1) in mkFe e o e o e o e o e o.

Lemma floor_bounds w k x c : c = carry_floor w k x -> 0 < 2 ^ k -> 2 ^ k * c <= x < 2 ^ k * c + 2 ^ k.
Proof. intros -> Hk. cbn. pose proof (Z.div_mod x (2 ^ k) ltac:(lia)). pose proof (Z.mod_pos_bound x (2 ^ k) Hk). lia. Qed.
Lemma round_bounds w k x c : c = carry_round w k x -> 0 < 2 ^ k -> 2 ^ k * c <= x + 2 ^ (k - 1) < 2 ^ k * c + 2 ^ k.
Proof. intros -> Hk. cbn. pose proof (Z.div_mod (x + 2 ^ (k - 1)) (2 ^ k) ltac:(lia)). pose proof (Z.mod_pos_bound (x + 2 ^ (k - 1)) (2 ^ k) Hk). lia. Qed.

(** The estimate of the quotient is exact. *)
Lemma quotient_exact v h9 low q0 q :
  v = 2 ^ 230 * h9 + low -> - 2 ^ 231 < low < 2 ^ 231 -> - 36909875 <= h9 <= 36909875 ->
  2 ^ 25 * q0 <= 19 * h9 + 2 ^ 24 < 2 ^ 25 * q0 + 2 ^ 25 -> 2 ^ 255 * q <= v + q0 < 2 ^ 255 * q + 2 ^ 255 ->
  0 <= v - p25519 * q < p25519.
Proof.
  intros -> Hl H9 Hq0 Hq. unfold p25519. assert (-2 <= q <= 1) as Hc by lia.
  assert (q = -2 \/ q = -1 \/ q = 0 \/ q = 1) as [->|[->|[->| ->]]] by lia; lia.
Qed.

Ltac floors :=
  repeat match goal with
  | H : ?c = carry_floor _ ?k ?x |- _ => apply floor_bounds in H; [|reflexivity]
  | H : ?c = carry_round _ ?k ?x |- _ => apply round_bounds in H; [|reflexivity]
  end.

(** A chain of carries is one division. *)
Lemma carries_telescope h0 h1 h2 h3 h4 h5 h6 h7 h8 h9 c0 c1 c2 c3 c4 c5 c6 c7 c8 c9 c10 :
  2 ^ 26 * c1 <= h0 + c0 < 2 ^ 26 * c1 + 2 ^ 26 -> 2 ^ 25 * c2 <= h1 + c1 < 2 ^ 25 * c2 + 2 ^ 25 -> 2 ^ 26 * c3 <= h2 + c2 < 2 ^ 26 * c3 + 2 ^ 26 -> 2 ^ 25 * c4 <= h3 + c3 < 2 ^ 25 * c4 + 2 ^ 25 -> 2 ^ 26 * c5 <= h4 + c4 < 2 ^ 26 * c5 + 2 ^ 26 -> 2 ^ 25 * c6 <= h5 + c5 < 2 ^ 25 * c6 + 2 ^ 25 -> 2 ^ 26 * c7 <= h6 + c6 < 2 ^ 26 * c7 + 2 ^ 26 -> 2 ^ 25 * c8 <= h7 + c7 < 2 ^ 25 * c8 + 2 ^ 25 -> 2 ^ 26 * c9 <= h8 + c8 < 2 ^ 26 * c9 + 2 ^ 26 -> 2 ^ 25 * c10 <= h9 + c9 < 2 ^ 25 * c10 + 2 ^ 25 ->
  2 ^ 255 * c10 <= fe_val (mkFe h0 h1 h2 h3 h4 h5 h6 h7 h8 h9) + c0 < 2 ^ 255 * c10 + 2 ^ 255.
Proof. unfold fe_val. cbn [fe0 fe1 fe2 fe3 fe4 fe5 fe6 fe7 fe8 fe9]. lia. Qed.

Definition canonical_of (v : Z) (h : fe Z) : Prop := fe_val h = v mod p25519.

Lemma tobytes_reduce_val h : fe_in medium h -> canonical_of (fe_val h) (tobytes_reduce h).
Proof.
  destruct h as [h0 h1 h2 h3 h4 h5 h6 h7 h8 h9]. intros (?&?&?&?&?&?&?&?&?&?).
  cbn [in_range medium fe_box fe0 fe1 fe2 fe3 fe4 fe5 fe6 fe7 fe8 fe9] in *.
  cbv beta iota delta [tobytes_reduce]. exact_lets. floors. cbn [lit addw mulw exact] in *.
  pose proof (carries_telescope h0 h1 h2 h3 h4 h5 h6 h7 h8 h9 x x0 x1 x2 x3 x4 x5 x6 x7 x8 x9 ltac:(lia) ltac:(lia) ltac:(lia) ltac:(lia) ltac:(lia) ltac:(lia) ltac:(lia) ltac:(lia) ltac:(lia) ltac:(lia)) as Hq.
  pose proof (carries_telescope x10 h1 h2 h3 h4 h5 h6 h7 h8 h9 0 x11 x14 x17 x20 x23 x26 x29 x32 x35 x38 ltac:(lia) ltac:(lia) ltac:(lia) ltac:(lia) ltac:(lia) ltac:(lia) ltac:(lia) ltac:(lia) ltac:(lia) ltac:(lia)) as Hc.
  clear - Hq Hc H H0 H1 H2 H3 H4 H5 H6 H7 H8 H9 H20 H22 H23 H25 H26 H28 H29 H31 H32 H34 H35 H37 H38 H40 H41 H43 H44 H46 H47 H49.
  set (v := fe_val (mkFe h0 h1 h2 h3 h4 h5 h6 h7 h8 h9)) in *.
  assert (v = 2 ^ 230 * h9 + fe_val (mkFe h0 h1 h2 h3 h4 h5 h6 h7 h8 0)) as Ev by (unfold v, fe_val; cbn; lia).
  assert (- 2 ^ 231 < fe_val (mkFe h0 h1 h2 h3 h4 h5 h6 h7 h8 0) < 2 ^ 231) as Hlow by (unfold fe_val; cbn; lia).
  pose proof (quotient_exact _ h9 _ x x9 Ev Hlow H8 ltac:(lia) Hq) as Hr.
  assert (fe_val (mkFe x10 h1 h2 h3 h4 h5 h6 h7 h8 h9) = v + 19 * x9) as E10 by (unfold v, fe_val; cbn; lia).
  assert (x38 = x9) as E38 by (unfold p25519 in Hr; lia).
  assert (fe_val (mkFe x13 x16 x19 x22 x25 x28 x31 x34 x37 x39) = v - p25519 * x9) as Er.
  { transitivity (fe_val (mkFe x10 h1 h2 h3 h4 h5 h6 h7 h8 h9) - 2 ^ 255 * x38); [unfold fe_val; cbn; lia|unfold p25519; lia]. }
  apply Z.mod_unique_pos with x9; rewrite Er; [exact Hr|ring].
Qed.

(** ** Writing *)

Lemma shl_low w a b k j : 8 <= w -> 0 <= k <= 8 -> j = 8 - k -> 0 <= a < 2 ^ k -> uchar (Z.lor a (shl w b k)) = a + 2 ^ k * (b mod 2 ^ j).
Proof.
  intros Hw Hk -> Ha. unfold shl, wrap, uchar.
  assert (2 ^ w = 2 ^ k * (2 ^ (8 - k) * 2 ^ (w - 8))) as Ew by (rewrite <- !Z.pow_add_r by lia; f_equal; lia).
  assert (256 = 2 ^ k * 2 ^ (8 - k)) as E8 by (rewrite <- Z.pow_add_r by lia; change 256 with (2 ^ 8); f_equal; lia).
  pose proof (Z.div_mod (b * 2 ^ k + 2 ^ (w - 1)) (2 ^ w) ltac:(apply Z.pow_nonzero; lia)) as D. set (m := _ / _) in D.
  replace ((b * 2 ^ k + 2 ^ (w - 1)) mod 2 ^ w - 2 ^ (w - 1)) with (b * 2 ^ k - 2 ^ w * m) by lia.
  replace (b * 2 ^ k - 2 ^ w * m) with (Z.shiftl (b - 2 ^ (8 - k) * 2 ^ (w - 8) * m) k) by (rewrite Z.shiftl_mul_pow2, Ew by lia; ring).
  rewrite lor_shiftl by lia. pose proof (Z.div_mod b (2 ^ (8 - k)) ltac:(apply Z.pow_nonzero; lia)) as Db.
  pose proof (Z.mod_pos_bound b (2 ^ (8 - k)) ltac:(apply Z.pow_pos_nonneg; lia)) as Bb.
  symmetry. apply Z.mod_unique_pos with (b / 2 ^ (8 - k) - 2 ^ (w - 8) * m); [nia|]. rewrite E8. rewrite Db at 1. ring.
Qed.

Lemma div_mod_split x k j : 0 <= k -> 0 <= j -> x / 2 ^ k = (x / 2 ^ k) mod 2 ^ j + 2 ^ j * (x / 2 ^ (k + j)).
Proof.
  intros Hk Hj. rewrite Z.pow_add_r, <- Z.div_div by (lia || apply Z.pow_nonzero; lia || apply Z.pow_pos_nonneg; lia).
  pose proof (Z.div_mod (x / 2 ^ k) (2 ^ j) ltac:(apply Z.pow_nonzero; lia)). lia.
Qed.

(** A limb cut into its low [a] bits, one byte or two and the rest. *)
Lemma limb_slice x a b : 0 <= a -> b = a + 8 -> x = x mod 2 ^ a + 2 ^ a * uchar (Z.shiftr x a) + 2 ^ b * Z.shiftr x b.
Proof.
  intros Ha ->. unfold uchar. rewrite !Z.shiftr_div_pow2 by lia. change 256 with (2 ^ 8).
  pose proof (Z.div_mod x (2 ^ a) ltac:(apply Z.pow_nonzero; lia)) as E0. pose proof (div_mod_split x a 8 Ha ltac:(lia)) as E1.
  revert E0 E1. generalize (x / 2 ^ a) (x / 2 ^ (a + 8)) (x mod 2 ^ a) ((x / 2 ^ a) mod 2 ^ 8).
  intros d0 d1 m u0 -> ->. rewrite !Z.pow_add_r by lia. ring.
Qed.

Lemma limb_slices x a b c : 0 <= a -> b = a + 8 -> c = a + 16 ->
  x = x mod 2 ^ a + 2 ^ a * uchar (Z.shiftr x a) + 2 ^ b * uchar (Z.shiftr x b) + 2 ^ c * Z.shiftr x c.
Proof.
  intros Ha -> ->. rewrite (limb_slice x a (a + 8) Ha eq_refl) at 1. unfold uchar at 3. rewrite !Z.shiftr_div_pow2 by lia. change 256 with (2 ^ 8).
  pose proof (div_mod_split x (a + 8) 8 ltac:(lia) ltac:(lia)) as E. replace (a + 8 + 8) with (a + 16) in E by lia.
  rewrite E at 1. rewrite (Z.pow_add_r 2 a 16), (Z.pow_add_r 2 a 8) by lia. ring.
Qed.

Lemma shiftr_bound x n k : 0 <= k <= n -> 0 <= x < 2 ^ n -> 0 <= Z.shiftr x k < 2 ^ (n - k).
Proof.
  intros Hk Hx. rewrite Z.shiftr_div_pow2 by lia. assert (0 < 2 ^ k) by (apply Z.pow_pos_nonneg; lia). split; [apply Z.div_pos; lia|].
  apply Z.div_lt_upper_bound; [done|]. rewrite <- Z.pow_add_r by lia. replace (k + (n - k)) with n by lia. lia.
Qed.

Lemma uchar_low x : uchar (Z.shiftr x 0) = x mod 2 ^ 8.
Proof. by rewrite Z.shiftr_0_r. Qed.
Lemma uchar_small x : 0 <= x < 256 -> uchar x = x.
Proof. apply Z.mod_small. Qed.

Lemma tobytes_store_val h : fe_in canonical h -> le_value (tobytes_store h) = fe_val h.
Proof.
  destruct h as [h0 h1 h2 h3 h4 h5 h6 h7 h8 h9]. intros (B0&B1&B2&B3&B4&B5&B6&B7&B8&B9).
  cbn [in_range canonical fe0 fe1 fe2 fe3 fe4 fe5 fe6 fe7 fe8 fe9] in *.
  pose proof (shiftr_bound h0 26 24 ltac:(lia) ltac:(lia)). pose proof (shiftr_bound h1 25 22 ltac:(lia) ltac:(lia)).
  pose proof (shiftr_bound h2 26 21 ltac:(lia) ltac:(lia)). pose proof (shiftr_bound h3 25 19 ltac:(lia) ltac:(lia)).
  pose proof (shiftr_bound h4 26 18 ltac:(lia) ltac:(lia)). pose proof (shiftr_bound h5 25 24 ltac:(lia) ltac:(lia)).
  pose proof (shiftr_bound h6 26 23 ltac:(lia) ltac:(lia)). pose proof (shiftr_bound h7 25 21 ltac:(lia) ltac:(lia)).
  pose proof (shiftr_bound h8 26 20 ltac:(lia) ltac:(lia)). pose proof (shiftr_bound h9 25 18 ltac:(lia) ltac:(lia)).
  unfold tobytes_store, le_value, fe_val. cbn [fold_right fe0 fe1 fe2 fe3 fe4 fe5 fe6 fe7 fe8 fe9].
  rewrite (shl_low 32 _ h1 2 6), (shl_low 32 _ h2 3 5), (shl_low 32 _ h3 5 3), (shl_low 32 _ h4 6 2), (shl_low 32 _ h6 1 7), (shl_low 32 _ h7 3 5), (shl_low 32 _ h8 4 4), (shl_low 32 _ h9 6 2) by lia.
  rewrite (uchar_small (Z.shiftr h4 18)), (uchar_small (Z.shiftr h9 18)), !uchar_low by lia.
  pose proof (limb_slices h0 8 16 24 ltac:(lia) eq_refl eq_refl). pose proof (limb_slices h1 6 14 22 ltac:(lia) eq_refl eq_refl). pose proof (limb_slices h2 5 13 21 ltac:(lia) eq_refl eq_refl).
  pose proof (limb_slices h3 3 11 19 ltac:(lia) eq_refl eq_refl). pose proof (limb_slices h4 2 10 18 ltac:(lia) eq_refl eq_refl). pose proof (limb_slices h5 8 16 24 ltac:(lia) eq_refl eq_refl).
  pose proof (limb_slices h6 7 15 23 ltac:(lia) eq_refl eq_refl). pose proof (limb_slices h7 5 13 21 ltac:(lia) eq_refl eq_refl). pose proof (limb_slices h8 4 12 20 ltac:(lia) eq_refl eq_refl).
  pose proof (limb_slices h9 2 10 18 ltac:(lia) eq_refl eq_refl).
  lia.
Qed.

(** ** Little-endian encodings *)

Fixpoint le_digits (n : nat) (v : Z) : list Z :=
  match n with O => [] | S n => v mod 256 :: le_digits n (v / 256) end.

Lemma le_digits_value s : Forall is_u8 s -> le_digits (length s) (le_value s) = s.
Proof.
  induction 1 as [|b s Hb Hs IH]; [done|]. unfold is_u8 in Hb. cbn [length le_digits le_value fold_right]. fold (le_value s).
  rewrite (Z.mul_comm 256), Z.mod_add, Z.div_add, Z.mod_small, Z.div_small by lia. f_equal. exact IH.
Qed.

Lemma le_value_digits n v : le_value (le_digits n v) = v mod 256 ^ Z.of_nat n.
Proof.
  revert v. induction n as [|n IH]; intros v; [by rewrite Z.mod_1_r|]. cbn [le_digits le_value fold_right]. fold (le_value (le_digits n (v / 256))).
  rewrite IH, Nat2Z.inj_succ, Z.pow_succ_r by lia. rewrite Z.rem_mul_r by (lia || apply Z.pow_pos_nonneg; lia). lia.
Qed.

Lemma le_digits_u8 n v : Forall is_u8 (le_digits n v).
Proof. revert v. induction n as [|n IH]; intros v; constructor; [|apply IH]. apply Z.mod_pos_bound. lia. Qed.
Lemma length_le_digits n v : length (le_digits n v) = n.
Proof. revert v. induction n as [|n IH]; intros v; [done|]. cbn. by rewrite IH. Qed.

(** ** Serialisation *)

Lemma uchar_u8 x : is_u8 (uchar x).
Proof. unfold is_u8, uchar. pose proof (Z.mod_pos_bound x 256 ltac:(lia)). lia. Qed.

Lemma tobytes_store_digits h : fe_in canonical h -> tobytes_store h = le_digits 32 (fe_val h).
Proof.
  intros Hh. rewrite <- tobytes_store_val by done. change 32%nat with (length (tobytes_store (mkFe 0 0 0 0 0 0 0 0 0 0))).
  replace (length (tobytes_store _)) with (length (tobytes_store h)) by (by destruct h).
  symmetry. apply le_digits_value. destruct h. unfold tobytes_store. repeat constructor; apply uchar_u8.
Qed.

Lemma fe_get_some h : fe_get (fe_some h) = Some h.
Proof. by destruct h. Qed.

(** The bytes are those of the canonical representative. *)
Lemma fe_tobytes_ok x v : computes x medium v -> fe_tobytes x = Some (le_digits 32 (v mod p25519)).
Proof.
  intros (h & -> & Hh & <-). unfold fe_tobytes.
  destruct (fe_rel_use _ (tobytes_reduce h) _ canonical (tobytes_reduce_rel _ _ _ (fe_rel_in medium h Hh)) ltac:(box_check)) as [-> Hc].
  rewrite fe_get_some. cbn [fmap option_fmap option_map]. rewrite tobytes_store_digits by done. by rewrite (tobytes_reduce_val h Hh).
Qed.

Lemma fe_isnegative_ok x v : computes x medium v -> fe_isnegative x = Some ((v mod p25519) mod 2).
Proof.
  intros Hx. unfold fe_isnegative. rewrite (fe_tobytes_ok x v Hx). cbn [mbind option_bind byte_at le_digits nth]. f_equal.
  change 1 with (Z.ones 1). rewrite Z.land_ones by lia. set (u := v mod p25519).
  change 256 with (2 ^ 1 * 128). rewrite Z.rem_mul_r, Z.mul_comm, Z.mod_add by lia. by rewrite Z.mod_mod.
Qed.

Lemma lor_zero l a : 0 <= a -> Forall is_u8 l -> fold_left Z.lor l a = 0 <-> a = 0 /\ le_value l = 0.
Proof.
  intros Ha Hl. revert a Ha. induction Hl as [|b l Hb Hl IH]; intros a Ha; [cbn; tauto|]. unfold is_u8 in Hb.
  cbn [fold_left le_value fold_right]. fold (le_value l). pose proof (le_value_bound l Hl).
  rewrite IH by (apply Z.lor_nonneg; lia). rewrite Z.lor_eq_0_iff. lia.
Qed.

Lemma fe_isnonzero_ok x v : computes x medium v -> fe_isnonzero x = Some (negb (v mod p25519 =? 0)).
Proof.
  intros Hx. unfold fe_isnonzero. rewrite (fe_tobytes_ok x v Hx). cbn [mbind option_bind]. do 2 f_equal.
  pose proof (Z.mod_pos_bound v p25519 ltac:(reflexivity)) as Hv. set (u := v mod p25519) in *.
  assert (le_value (le_digits 32 u) = u) as Eu by (rewrite le_value_digits, Z.mod_small; [done|]; unfold p25519 in Hv; lia).
  pose proof (le_digits_u8 32 u) as Hu. pose proof (length_le_digits 32 u) as Hl. revert Eu Hu Hl. generalize (le_digits 32 u).
  intros [|b l] Eu Hu Hl; [done|]. rewrite <- Eu. injection Hl as Hl. apply Forall_cons_iff in Hu as [Hb Hu]. unfold is_u8 in Hb.
  rewrite <- seq_shift, map_map. change (map (fun i => byte_at (b :: l) (S i)) (seq 0 31)) with (map (byte_at l) (seq 0 31)).
  rewrite <- (bytes_eta 31 l Hl). cbn [byte_at nth le_value fold_right]. fold (le_value l).
  pose proof (le_value_bound l Hu). pose proof (lor_zero l b ltac:(lia) Hu) as Hz.
  apply eq_true_iff_eq. rewrite !Z.eqb_eq, Hz. lia.
Qed.

(** Canonical bytes survive the way in and out. *)
Lemma tobytes_frombytes s : length s = 32%nat -> Forall is_u8 s -> le_value s < p25519 -> fe_tobytes (fe_frombytes s) = Some s.
Proof.
  intros Hl Hs Hv. pose proof (le_value_bound s Hs).
  rewrite (fe_tobytes_ok _ (le_value s mod 2 ^ 255)) by (eapply computes_le; [apply small_medium|by apply fe_frombytes_ok]).
  unfold p25519 in *. rewrite !Z.mod_small by (rewrite ?Z.mod_small; lia). rewrite <- Hl. f_equal. by apply le_digits_value.
Qed.

(** ** Conditional moves *)

Definition int32 : fe range := let b := Some (- 2 ^ 31, 2 ^ 31 - 1) in mkFe b b b b b b b b b b.

Lemma int32_shift x : - 2 ^ 31 <= x <= 2 ^ 31 - 1 <-> Z.shiftr x 31 = 0 \/ Z.shiftr x 31 = -1.
Proof. rewrite Z.shiftr_div_pow2 by lia. pose proof (Z.div_mod x (2 ^ 31) ltac:(lia)). pose proof (Z.mod_pos_bound x (2 ^ 31) ltac:(lia)). lia. Qed.

Lemma int32_lxor x y : - 2 ^ 31 <= x <= 2 ^ 31 - 1 -> - 2 ^ 31 <= y <= 2 ^ 31 - 1 -> - 2 ^ 31 <= Z.lxor x y <= 2 ^ 31 - 1.
Proof. rewrite !int32_shift, Z.shiftr_lxor. intros [-> | ->] [-> | ->]; auto. Qed.

Lemma and32_mask x b : - 2 ^ 31 <= x <= 2 ^ 31 - 1 -> b = 0 \/ b = 1 -> and32 x (mask32 b) = if b =? 1 then x else 0.
Proof.
  intros Hx [-> | ->]; unfold and32, mask32.
  - replace ((- 0) mod 2 ^ 32) with 0 by reflexivity. by rewrite Z.land_0_r.
  - replace ((- (1)) mod 2 ^ 32) with (Z.ones 32) by reflexivity. rewrite Z.land_ones, Z.mod_mod by lia. cbn [Z.eqb Pos.eqb]. unfold wrap.
    rewrite Z.add_mod_idemp_l, Z.mod_small by lia. lia.
Qed.

(** Each limb of a conditional move, and of the other half of a swap. *)
Lemma cmov_limb f g b : - 2 ^ 31 <= f <= 2 ^ 31 - 1 -> - 2 ^ 31 <= g <= 2 ^ 31 - 1 -> b = 0 \/ b = 1 ->
  Z.lxor f (and32 (Z.lxor f g) (mask32 b)) = if b =? 1 then g else f.
Proof.
  intros Hf Hg Hb. rewrite and32_mask by (try apply int32_lxor; done). destruct (b =? 1); [|apply Z.lxor_0_r].
  by rewrite <- Z.lxor_assoc, Z.lxor_nilpotent, Z.lxor_0_l.
Qed.
Lemma cswap_limb f g b : - 2 ^ 31 <= f <= 2 ^ 31 - 1 -> - 2 ^ 31 <= g <= 2 ^ 31 - 1 -> b = 0 \/ b = 1 ->
  Z.lxor g (and32 (Z.lxor f g) (mask32 b)) = if b =? 1 then f else g.
Proof. intros Hf Hg Hb. rewrite (Z.lxor_comm f g). by apply cmov_limb. Qed.

Lemma fe_cmov_ok f g b : fe_in int32 f -> fe_in int32 g -> b = 0 \/ b = 1 -> fe_cmov f g b = if b =? 1 then g else f.
Proof.
  destruct f, g. intros (?&?&?&?&?&?&?&?&?&?) (?&?&?&?&?&?&?&?&?&?) Hb. cbn in *. rewrite !cmov_limb by (done || lia). by destruct Hb as [-> | ->].
Qed.
Lemma fe_cswap_ok f g b : fe_in int32 f -> fe_in int32 g -> b = 0 \/ b = 1 -> fe_cswap f g b = if b =? 1 then (g, f) else (f, g).
Proof.
  destruct f, g. intros (?&?&?&?&?&?&?&?&?&?) (?&?&?&?&?&?&?&?&?&?) Hb. cbn in *. rewrite !cmov_limb, !cswap_limb by (done || lia). by destruct Hb as [-> | ->].
Qed.
