(* ===== verification/Sc.v ===== *)
(** * Scalars modulo the order of the group ([sm/src/ed25519/sc.c])

    Scalars are limbs of 21 bits.  [sc_reduce] reduces 64 bytes modulo the order l of the base point,
    [sc_muladd] computes a * b + c modulo l; both end with the same code.  The
    stages are written over the operations of [Limbs]; [ScSpec] proves them correct. *)

From S2P Require Import Prelude Mem Limbs Fe.
From Stdlib Require Import ZArith Lia.
From stdpp Require Import base tactics list numbers.
Local Open Scope Z_scope.
Local Open Scope limb_scope.

Section Stages.
Context {A : Type} `{Arith A}.

(** The limbs above 2^378 are folded, and carried. *)
Definition sc_fold_high (s : list A) : list A :=
  match s with
  | [s0; s1; s2; s3; s4; s5; s6; s7; s8; s9; s10; s11; s12; s13; s14; s15; s16; s17; s18; s19; s20; s21; s22; s23] =>
    let s11 := s11 +i64 s23 *i64 (lit 666643) in
    let s12 := s12 +i64 s23 *i64 (lit 470296) in
    let s13 := s13 +i64 s23 *i64 (lit 654183) in
    let s14 := s14 -i64 s23 *i64 (lit 997805) in
    let s15 := s15 +i64 s23 *i64 (lit 136657) in
    let s16 := s16 -i64 s23 *i64 (lit 683901) in
    let s23 := lit 0 in
    let s10 := s10 +i64 s22 *i64 (lit 666643) in
    let s11 := s11 +i64 s22 *i64 (lit 470296) in
    let s12 := s12 +i64 s22 *i64 (lit 654183) in
    let s13 := s13 -i64 s22 *i64 (lit 997805) in
    let s14 := s14 +i64 s22 *i64 (lit 136657) in
    let s15 := s15 -i64 s22 *i64 (lit 683901) in
    let s22 := lit 0 in
    let s9 := s9 +i64 s21 *i64 (lit 666643) in
    let s10 := s10 +i64 s21 *i64 (lit 470296) in
    let s11 := s11 +i64 s21 *i64 (lit 654183) in
    let s12 := s12 -i64 s21 *i64 (lit 997805) in
    let s13 := s13 +i64 s21 *i64 (lit 136657) in
    let s14 := s14 -i64 s21 *i64 (lit 683901) in
    let s21 := lit 0 in
    let s8 := s8 +i64 s20 *i64 (lit 666643) in
    let s9 := s9 +i64 s20 *i64 (lit 470296) in
    let s10 := s10 +i64 s20 *i64 (lit 654183) in
    let s11 := s11 -i64 s20 *i64 (lit 997805) in
    let s12 := s12 +i64 s20 *i64 (lit 136657) in
    let s13 := s13 -i64 s20 *i64 (lit 683901) in
    let s20 := lit 0 in
    let s7 := s7 +i64 s19 *i64 (lit 666643) in
    let s8 := s8 +i64 s19 *i64 (lit 470296) in
    let s9 := s9 +i64 s19 *i64 (lit 654183) in
    let s10 := s10 -i64 s19 *i64 (lit 997805) in
    let s11 := s11 +i64 s19 *i64 (lit 136657) in
    let s12 := s12 -i64 s19 *i64 (lit 683901) in
    let s19 := lit 0 in
    let s6 := s6 +i64 s18 *i64 (lit 666643) in
    let s7 := s7 +i64 s18 *i64 (lit 470296) in
    let s8 := s8 +i64 s18 *i64 (lit 654183) in
    let s9 := s9 -i64 s18 *i64 (lit 997805) in
    let s10 := s10 +i64 s18 *i64 (lit 136657) in
    let s11 := s11 -i64 s18 *i64 (lit 683901) in
    let s18 := lit 0 in
    let carry6 := carry_round 64 21 s6 in
    let s7 := s7 +i64 carry6 in
    let s6 := rem_round 64 21 s6 in
    let carry8 := carry_round 64 21 s8 in
    let s9 := s9 +i64 carry8 in
    let s8 := rem_round 64 21 s8 in
    let carry10 := carry_round 64 21 s10 in
    let s11 := s11 +i64 carry10 in
    let s10 := rem_round 64 21 s10 in
    let carry12 := carry_round 64 21 s12 in
    let s13 := s13 +i64 carry12 in
    let s12 := rem_round 64 21 s12 in
    let carry14 := carry_round 64 21 s14 in
    let s15 := s15 +i64 carry14 in
    let s14 := rem_round 64 21 s14 in
    let carry16 := carry_round 64 21 s16 in
    let s17 := s17 +i64 carry16 in
    let s16 := rem_round 64 21 s16 in
    let carry7 := carry_round 64 21 s7 in
    let s8 := s8 +i64 carry7 in
    let s7 := rem_round 64 21 s7 in
    let carry9 := carry_round 64 21 s9 in
    let s10 := s10 +i64 carry9 in
    let s9 := rem_round 64 21 s9 in
    let carry11 := carry_round 64 21 s11 in
    let s12 := s12 +i64 carry11 in
    let s11 := rem_round 64 21 s11 in
    let carry13 := carry_round 64 21 s13 in
    let s14 := s14 +i64 carry13 in
    let s13 := rem_round 64 21 s13 in
    let carry15 := carry_round 64 21 s15 in
    let s16 := s16 +i64 carry15 in
    let s15 := rem_round 64 21 s15 in
    [s0; s1; s2; s3; s4; s5; s6; s7; s8; s9; s10; s11; s12; s13; s14; s15; s16; s17]
  | _ => []
  end.

(** The limbs above 2^252 are folded, and carried. *)
Definition sc_fold_low (s : list A) : list A :=
  match s with
  | [s0; s1; s2; s3; s4; s5; s6; s7; s8; s9; s10; s11; s12; s13; s14; s15; s16; s17] =>
    let s5 := s5 +i64 s17 *i64 (lit 666643) in
    let s6 := s6 +i64 s17 *i64 (lit 470296) in
    let s7 := s7 +i64 s17 *i64 (lit 654183) in
    let s8 := s8 -i64 s17 *i64 (lit 997805) in
    let s9 := s9 +i64 s17 *i64 (lit 136657) in
    let s10 := s10 -i64 s17 *i64 (lit 683901) in
    let s17 := lit 0 in
    let s4 := s4 +i64 s16 *i64 (lit 666643) in
    let s5 := s5 +i64 s16 *i64 (lit 470296) in
    let s6 := s6 +i64 s16 *i64 (lit 654183) in
    let s7 := s7 -i64 s16 *i64 (lit 997805) in
    let s8 := s8 +i64 s16 *i64 (lit 136657) in
    let s9 := s9 -i64 s16 *i64 (lit 683901) in
    let s16 := lit 0 in
    let s3 := s3 +i64 s15 *i64 (lit 666643) in
    let s4 := s4 +i64 s15 *i64 (lit 470296) in
    let s5 := s5 +i64 s15 *i64 (lit 654183) in
    let s6 := s6 -i64 s15 *i64 (lit 997805) in
    let s7 := s7 +i64 s15 *i64 (lit 136657) in
    let s8 := s8 -i64 s15 *i64 (lit 683901) in
    let s15 := lit 0 in
    let s2 := s2 +i64 s14 *i64 (lit 666643) in
    let s3 := s3 +i64 s14 *i64 (lit 470296) in
    let s4 := s4 +i64 s14 *i64 (lit 654183) in
    let s5 := s5 -i64 s14 *i64 (lit 997805) in
    let s6 := s6 +i64 s14 *i64 (lit 136657) in
    let s7 := s7 -i64 s14 *i64 (lit 683901) in
    let s14 := lit 0 in
    let s1 := s1 +i64 s13 *i64 (lit 666643) in
    let s2 := s2 +i64 s13 *i64 (lit 470296) in
    let s3 := s3 +i64 s13 *i64 (lit 654183) in
    let s4 := s4 -i64 s13 *i64 (lit 997805) in
    let s5 := s5 +i64 s13 *i64 (lit 136657) in
    let s6 := s6 -i64 s13 *i64 (lit 683901) in
    let s13 := lit 0 in
    let s0 := s0 +i64 s12 *i64 (lit 666643) in
    let s1 := s1 +i64 s12 *i64 (lit 470296) in
    let s2 := s2 +i64 s12 *i64 (lit 654183) in
    let s3 := s3 -i64 s12 *i64 (lit 997805) in
    let s4 := s4 +i64 s12 *i64 (lit 136657) in
    let s5 := s5 -i64 s12 *i64 (lit 683901) in
    let s12 := lit 0 in
    let carry0 := carry_round 64 21 s0 in
    let s1 := s1 +i64 carry0 in
    let s0 := rem_round 64 21 s0 in
    let carry2 := carry_round 64 21 s2 in
    let s3 := s3 +i64 carry2 in
    let s2 := rem_round 64 21 s2 in
    let carry4 := carry_round 64 21 s4 in
    let s5 := s5 +i64 carry4 in
    let s4 := rem_round 64 21 s4 in
    let carry6 := carry_round 64 21 s6 in
    let s7 := s7 +i64 carry6 in
    let s6 := rem_round 64 21 s6 in
    let carry8 := carry_round 64 21 s8 in
    let s9 := s9 +i64 carry8 in
    let s8 := rem_round 64 21 s8 in
    let carry10 := carry_round 64 21 s10 in
    let s11 := s11 +i64 carry10 in
    let s10 := rem_round 64 21 s10 in
    let carry1 := carry_round 64 21 s1 in
    let s2 := s2 +i64 carry1 in
    let s1 := rem_round 64 21 s1 in
    let carry3 := carry_round 64 21 s3 in
    let s4 := s4 +i64 carry3 in
    let s3 := rem_round 64 21 s3 in
    let carry5 := carry_round 64 21 s5 in
    let s6 := s6 +i64 carry5 in
    let s5 := rem_round 64 21 s5 in
    let carry7 := carry_round 64 21 s7 in
    let s8 := s8 +i64 carry7 in
    let s7 := rem_round 64 21 s7 in
    let carry9 := carry_round 64 21 s9 in
    let s10 := s10 +i64 carry9 in
    let s9 := rem_round 64 21 s9 in
    let carry11 := carry_round 64 21 s11 in
    let s12 := s12 +i64 carry11 in
    let s11 := rem_round 64 21 s11 in
    [s0; s1; s2; s3; s4; s5; s6; s7; s8; s9; s10; s11; s12]
  | _ => []
  end.

(** The last carries and folds. *)
Definition sc_finish (s : list A) : list A :=
  match s with
  | [s0; s1; s2; s3; s4; s5; s6; s7; s8; s9; s10; s11; s12] =>
    let s0 := s0 +i64 s12 *i64 (lit 666643) in
    let s1 := s1 +i64 s12 *i64 (lit 470296) in
    let s2 := s2 +i64 s12 *i64 (lit 654183) in
    let s3 := s3 -i64 s12 *i64 (lit 997805) in
    let s4 := s4 +i64 s12 *i64 (lit 136657) in
    let s5 := s5 -i64 s12 *i64 (lit 683901) in
    let s12 := lit 0 in
    let carry0 := carry_floor 64 21 s0 in
    let s1 := s1 +i64 carry0 in
    let s0 := rem_floor 64 21 s0 in
    let carry1 := carry_floor 64 21 s1 in
    let s2 := s2 +i64 carry1 in
    let s1 := rem_floor 64 21 s1 in
    let carry2 := carry_floor 64 21 s2 in
    let s3 := s3 +i64 carry2 in
    let s2 := rem_floor 64 21 s2 in
    let carry3 := carry_floor 64 21 s3 in
    let s4 := s4 +i64 carry3 in
    let s3 := rem_floor 64 21 s3 in
    let carry4 := carry_floor 64 21 s4 in
    let s5 := s5 +i64 carry4 in
    let s4 := rem_floor 64 21 s4 in
    let carry5 := carry_floor 64 21 s5 in
    let s6 := s6 +i64 carry5 in
    let s5 := rem_floor 64 21 s5 in
    let carry6 := carry_floor 64 21 s6 in
    let s7 := s7 +i64 carry6 in
    let s6 := rem_floor 64 21 s6 in
    let carry7 := carry_floor 64 21 s7 in
    let s8 := s8 +i64 carry7 in
    let s7 := rem_floor 64 21 s7 in
    let carry8 := carry_floor 64 21 s8 in
    let s9 := s9 +i64 carry8 in
    let s8 := rem_floor 64 21 s8 in
    let carry9 := carry_floor 64 21 s9 in
    let s10 := s10 +i64 carry9 in
    let s9 := rem_floor 64 21 s9 in
    let carry10 := carry_floor 64 21 s10 in
    let s11 := s11 +i64 carry10 in
    let s10 := rem_floor 64 21 s10 in
    let carry11 := carry_floor 64 21 s11 in
    let s12 := s12 +i64 carry11 in
    let s11 := rem_floor 64 21 s11 in
    let s0 := s0 +i64 s12 *i64 (lit 666643) in
    let s1 := s1 +i64 s12 *i64 (lit 470296) in
    let s2 := s2 +i64 s12 *i64 (lit 654183) in
    let s3 := s3 -i64 s12 *i64 (lit 997805) in
    let s4 := s4 +i64 s12 *i64 (lit 136657) in
    let s5 := s5 -i64 s12 *i64 (lit 683901) in
    let s12 := lit 0 in
    let carry0 := carry_floor 64 21 s0 in
    let s1 := s1 +i64 carry0 in
    let s0 := rem_floor 64 21 s0 in
    let carry1 := carry_floor 64 21 s1 in
    let s2 := s2 +i64 carry1 in
    let s1 := rem_floor 64 21 s1 in
    let carry2 := carry_floor 64 21 s2 in
    let s3 := s3 +i64 carry2 in
    let s2 := rem_floor 64 21 s2 in
    let carry3 := carry_floor 64 21 s3 in
    let s4 := s4 +i64 carry3 in
    let s3 := rem_floor 64 21 s3 in
    let carry4 := carry_floor 64 21 s4 in
    let s5 := s5 +i64 carry4 in
    let s4 := rem_floor 64 21 s4 in
    let carry5 := carry_floor 64 21 s5 in
    let s6 := s6 +i64 carry5 in
    let s5 := rem_floor 64 21 s5 in
    let carry6 := carry_floor 64 21 s6 in
    let s7 := s7 +i64 carry6 in
    let s6 := rem_floor 64 21 s6 in
    let carry7 := carry_floor 64 21 s7 in
    let s8 := s8 +i64 carry7 in
    let s7 := rem_floor 64 21 s7 in
    let carry8 := carry_floor 64 21 s8 in
    let s9 := s9 +i64 carry8 in
    let s8 := rem_floor 64 21 s8 in
    let carry9 := carry_floor 64 21 s9 in
    let s10 := s10 +i64 carry9 in
    let s9 := rem_floor 64 21 s9 in
    let carry10 := carry_floor 64 21 s10 in
    let s11 := s11 +i64 carry10 in
    let s10 := rem_floor 64 21 s10 in
    [s0; s1; s2; s3; s4; s5; s6; s7; s8; s9; s10; s11]
  | _ => []
  end.

(** The product and its carries in [sc_muladd]. *)
Definition sc_product (a b c : list A) : list A :=
  match a, b, c with
  | [a0; a1; a2; a3; a4; a5; a6; a7; a8; a9; a10; a11], [b0; b1; b2; b3; b4; b5; b6; b7; b8; b9; b10; b11], [c0; c1; c2; c3; c4; c5; c6; c7; c8; c9; c10; c11] =>
    let s0 := c0 +i64 a0 *i64 b0 in
    let s1 := c1 +i64 a0 *i64 b1 +i64 a1 *i64 b0 in
    let s2 := c2 +i64 a0 *i64 b2 +i64 a1 *i64 b1 +i64 a2 *i64 b0 in
    let s3 := c3 +i64 a0 *i64 b3 +i64 a1 *i64 b2 +i64 a2 *i64 b1 +i64 a3 *i64 b0 in
    let s4 := c4 +i64 a0 *i64 b4 +i64 a1 *i64 b3 +i64 a2 *i64 b2 +i64 a3 *i64 b1 +i64 a4 *i64 b0 in
    let s5 := c5 +i64 a0 *i64 b5 +i64 a1 *i64 b4 +i64 a2 *i64 b3 +i64 a3 *i64 b2 +i64 a4 *i64 b1 +i64 a5 *i64 b0 in
    let s6 := c6 +i64 a0 *i64 b6 +i64 a1 *i64 b5 +i64 a2 *i64 b4 +i64 a3 *i64 b3 +i64 a4 *i64 b2 +i64 a5 *i64 b1 +i64 a6 *i64 b0 in
    let s7 := c7 +i64 a0 *i64 b7 +i64 a1 *i64 b6 +i64 a2 *i64 b5 +i64 a3 *i64 b4 +i64 a4 *i64 b3 +i64 a5 *i64 b2 +i64 a6 *i64 b1 +i64 a7 *i64 b0 in
    let s8 := c8 +i64 a0 *i64 b8 +i64 a1 *i64 b7 +i64 a2 *i64 b6 +i64 a3 *i64 b5 +i64 a4 *i64 b4 +i64 a5 *i64 b3 +i64 a6 *i64 b2 +i64 a7 *i64 b1 +i64 a8 *i64 b0 in
    let s9 := c9 +i64 a0 *i64 b9 +i64 a1 *i64 b8 +i64 a2 *i64 b7 +i64 a3 *i64 b6 +i64 a4 *i64 b5 +i64 a5 *i64 b4 +i64 a6 *i64 b3 +i64 a7 *i64 b2 +i64 a8 *i64 b1 +i64 a9 *i64 b0 in
    let s10 := c10 +i64 a0 *i64 b10 +i64 a1 *i64 b9 +i64 a2 *i64 b8 +i64 a3 *i64 b7 +i64 a4 *i64 b6 +i64 a5 *i64 b5 +i64 a6 *i64 b4 +i64 a7 *i64 b3 +i64 a8 *i64 b2 +i64 a9 *i64 b1 +i64 a10 *i64 b0 in
    let s11 := c11 +i64 a0 *i64 b11 +i64 a1 *i64 b10 +i64 a2 *i64 b9 +i64 a3 *i64 b8 +i64 a4 *i64 b7 +i64 a5 *i64 b6 +i64 a6 *i64 b5 +i64 a7 *i64 b4 +i64 a8 *i64 b3 +i64 a9 *i64 b2 +i64 a10 *i64 b1 +i64 a11 *i64 b0 in
    let s12 := a1 *i64 b11 +i64 a2 *i64 b10 +i64 a3 *i64 b9 +i64 a4 *i64 b8 +i64 a5 *i64 b7 +i64 a6 *i64 b6 +i64 a7 *i64 b5 +i64 a8 *i64 b4 +i64 a9 *i64 b3 +i64 a10 *i64 b2 +i64 a11 *i64 b1 in
    let s13 := a2 *i64 b11 +i64 a3 *i64 b10 +i64 a4 *i64 b9 +i64 a5 *i64 b8 +i64 a6 *i64 b7 +i64 a7 *i64 b6 +i64 a8 *i64 b5 +i64 a9 *i64 b4 +i64 a10 *i64 b3 +i64 a11 *i64 b2 in
    let s14 := a3 *i64 b11 +i64 a4 *i64 b10 +i64 a5 *i64 b9 +i64 a6 *i64 b8 +i64 a7 *i64 b7 +i64 a8 *i64 b6 +i64 a9 *i64 b5 +i64 a10 *i64 b4 +i64 a11 *i64 b3 in
    let s15 := a4 *i64 b11 +i64 a5 *i64 b10 +i64 a6 *i64 b9 +i64 a7 *i64 b8 +i64 a8 *i64 b7 +i64 a9 *i64 b6 +i64 a10 *i64 b5 +i64 a11 *i64 b4 in
    let s16 := a5 *i64 b11 +i64 a6 *i64 b10 +i64 a7 *i64 b9 +i64 a8 *i64 b8 +i64 a9 *i64 b7 +i64 a10 *i64 b6 +i64 a11 *i64 b5 in
    let s17 := a6 *i64 b11 +i64 a7 *i64 b10 +i64 a8 *i64 b9 +i64 a9 *i64 b8 +i64 a10 *i64 b7 +i64 a11 *i64 b6 in
    let s18 := a7 *i64 b11 +i64 a8 *i64 b10 +i64 a9 *i64 b9 +i64 a10 *i64 b8 +i64 a11 *i64 b7 in
    let s19 := a8 *i64 b11 +i64 a9 *i64 b10 +i64 a10 *i64 b9 +i64 a11 *i64 b8 in
    let s20 := a9 *i64 b11 +i64 a10 *i64 b10 +i64 a11 *i64 b9 in
    let s21 := a10 *i64 b11 +i64 a11 *i64 b10 in
    let s22 := a11 *i64 b11 in
    let s23 := lit 0 in
    let carry0 := carry_round 64 21 s0 in
    let s1 := s1 +i64 carry0 in
    let s0 := rem_round 64 21 s0 in
    let carry2 := carry_round 64 21 s2 in
    let s3 := s3 +i64 carry2 in
    let s2 := rem_round 64 21 s2 in
    let carry4 := carry_round 64 21 s4 in
    let s5 := s5 +i64 carry4 in
    let s4 := rem_round 64 21 s4 in
    let carry6 := carry_round 64 21 s6 in
    let s7 := s7 +i64 carry6 in
    let s6 := rem_round 64 21 s6 in
    let carry8 := carry_round 64 21 s8 in
    let s9 := s9 +i64 carry8 in
    let s8 := rem_round 64 21 s8 in
    let carry10 := carry_round 64 21 s10 in
    let s11 := s11 +i64 carry10 in
    let s10 := rem_round 64 21 s10 in
    let carry12 := carry_round 64 21 s12 in
    let s13 := s13 +i64 carry12 in
    let s12 := rem_round 64 21 s12 in
    let carry14 := carry_round 64 21 s14 in
    let s15 := s15 +i64 carry14 in
    let s14 := rem_round 64 21 s14 in
    let carry16 := carry_round 64 21 s16 in
    let s17 := s17 +i64 carry16 in
    let s16 := rem_round 64 21 s16 in
    let carry18 := carry_round 64 21 s18 in
    let s19 := s19 +i64 carry18 in
    let s18 := rem_round 64 21 s18 in
    let carry20 := carry_round 64 21 s20 in
    let s21 := s21 +i64 carry20 in
    let s20 := rem_round 64 21 s20 in
    let carry22 := carry_round 64 21 s22 in
    let s23 := s23 +i64 carry22 in
    let s22 := rem_round 64 21 s22 in
    let carry1 := carry_round 64 21 s1 in
    let s2 := s2 +i64 carry1 in
    let s1 := rem_round 64 21 s1 in
    let carry3 := carry_round 64 21 s3 in
    let s4 := s4 +i64 carry3 in
    let s3 := rem_round 64 21 s3 in
    let carry5 := carry_round 64 21 s5 in
    let s6 := s6 +i64 carry5 in
    let s5 := rem_round 64 21 s5 in
    let carry7 := carry_round 64 21 s7 in
    let s8 := s8 +i64 carry7 in
    let s7 := rem_round 64 21 s7 in
    let carry9 := carry_round 64 21 s9 in
    let s10 := s10 +i64 carry9 in
    let s9 := rem_round 64 21 s9 in
    let carry11 := carry_round 64 21 s11 in
    let s12 := s12 +i64 carry11 in
    let s11 := rem_round 64 21 s11 in
    let carry13 := carry_round 64 21 s13 in
    let s14 := s14 +i64 carry13 in
    let s13 := rem_round 64 21 s13 in
    let carry15 := carry_round 64 21 s15 in
    let s16 := s16 +i64 carry15 in
    let s15 := rem_round 64 21 s15 in
    let carry17 := carry_round 64 21 s17 in
    let s18 := s18 +i64 carry17 in
    let s17 := rem_round 64 21 s17 in
    let carry19 := carry_round 64 21 s19 in
    let s20 := s20 +i64 carry19 in
    let s19 := rem_round 64 21 s19 in
    let carry21 := carry_round 64 21 s21 in
    let s22 := s22 +i64 carry21 in
    let s21 := rem_round 64 21 s21 in
    [s0; s1; s2; s3; s4; s5; s6; s7; s8; s9; s10; s11; s12; s13; s14; s15; s16; s17; s18; s19; s20; s21; s22; s23]
  | _, _, _ => []
  end.

End Stages.

(** ** Bytes *)

(** The 24 limbs of 64 bytes, and the 12 limbs of 32 bytes. *)
Definition sc_load64 (s : list Z) : list Z :=
  [ Z.land 2097151 (load_3 s 0);
    Z.land 2097151 (Z.shiftr (load_4 s 2) 5);
    Z.land 2097151 (Z.shiftr (load_3 s 5) 2);
    Z.land 2097151 (Z.shiftr (load_4 s 7) 7);
    Z.land 2097151 (Z.shiftr (load_4 s 10) 4);
    Z.land 2097151 (Z.shiftr (load_3 s 13) 1);
    Z.land 2097151 (Z.shiftr (load_4 s 15) 6);
    Z.land 2097151 (Z.shiftr (load_3 s 18) 3);
    Z.land 2097151 (load_3 s 21);
    Z.land 2097151 (Z.shiftr (load_4 s 23) 5);
    Z.land 2097151 (Z.shiftr (load_3 s 26) 2);
    Z.land 2097151 (Z.shiftr (load_4 s 28) 7);
    Z.land 2097151 (Z.shiftr (load_4 s 31) 4);
    Z.land 2097151 (Z.shiftr (load_3 s 34) 1);
    Z.land 2097151 (Z.shiftr (load_4 s 36) 6);
    Z.land 2097151 (Z.shiftr (load_3 s 39) 3);
    Z.land 2097151 (load_3 s 42);
    Z.land 2097151 (Z.shiftr (load_4 s 44) 5);
    Z.land 2097151 (Z.shiftr (load_3 s 47) 2);
    Z.land 2097151 (Z.shiftr (load_4 s 49) 7);
    Z.land 2097151 (Z.shiftr (load_4 s 52) 4);
    Z.land 2097151 (Z.shiftr (load_3 s 55) 1);
    Z.land 2097151 (Z.shiftr (load_4 s 57) 6);
    Z.shiftr (load_4 s 60) 3 ].

Definition sc_load32 (s : list Z) : list Z :=
  [ Z.land 2097151 (load_3 s 0);
    Z.land 2097151 (Z.shiftr (load_4 s 2) 5);
    Z.land 2097151 (Z.shiftr (load_3 s 5) 2);
    Z.land 2097151 (Z.shiftr (load_4 s 7) 7);
    Z.land 2097151 (Z.shiftr (load_4 s 10) 4);
    Z.land 2097151 (Z.shiftr (load_3 s 13) 1);
    Z.land 2097151 (Z.shiftr (load_4 s 15) 6);
    Z.land 2097151 (Z.shiftr (load_3 s 18) 3);
    Z.land 2097151 (load_3 s 21);
    Z.land 2097151 (Z.shiftr (load_4 s 23) 5);
    Z.land 2097151 (Z.shiftr (load_3 s 26) 2);
    Z.shiftr (load_4 s 28) 7 ].

Definition sc_store (s : list Z) : list Z :=
  match s with
  | [s0; s1; s2; s3; s4; s5; s6; s7; s8; s9; s10; s11] =>
    [ uchar (Z.shiftr s0 0);
      uchar (Z.shiftr s0 8);
      uchar (Z.lor (Z.shiftr s0 16) (shl 64 s1 5));
      uchar (Z.shiftr s1 3);
      uchar (Z.shiftr s1 11);
      uchar (Z.lor (Z.shiftr s1 19) (shl 64 s2 2));
      uchar (Z.shiftr s2 6);
      uchar (Z.lor (Z.shiftr s2 14) (shl 64 s3 7));
      uchar (Z.shiftr s3 1);
      uchar (Z.shiftr s3 9);
      uchar (Z.lor (Z.shiftr s3 17) (shl 64 s4 4));
      uchar (Z.shiftr s4 4);
      uchar (Z.shiftr s4 12);
      uchar (Z.lor (Z.shiftr s4 20) (shl 64 s5 1));
      uchar (Z.shiftr s5 7);
      uchar (Z.lor (Z.shiftr s5 15) (shl 64 s6 6));
      uchar (Z.shiftr s6 2);
      uchar (Z.shiftr s6 10);
      uchar (Z.lor (Z.shiftr s6 18) (shl 64 s7 3));
      uchar (Z.shiftr s7 5);
      uchar (Z.shiftr s7 13);
      uchar (Z.shiftr s8 0);
      uchar (Z.shiftr s8 8);
      uchar (Z.lor (Z.shiftr s8 16) (shl 64 s9 5));
      uchar (Z.shiftr s9 3);
      uchar (Z.shiftr s9 11);
      uchar (Z.lor (Z.shiftr s9 19) (shl 64 s10 2));
      uchar (Z.shiftr s10 6);
      uchar (Z.lor (Z.shiftr s10 14) (shl 64 s11 7));
      uchar (Z.shiftr s11 1);
      uchar (Z.shiftr s11 9);
      uchar (Z.shiftr s11 17) ]
  | _ => []
  end.

(** ** Operations *)

Definition sc_reduce (s : list Z) : option (list Z) :=
  sc_store <$> mapM id (sc_finish (sc_fold_low (sc_fold_high (map Some (sc_load64 s))))).

Definition sc_muladd (a b c : list Z) : option (list Z) :=
  let s := sc_product (map Some (sc_load32 a)) (map Some (sc_load32 b)) (map Some (sc_load32 c)) in
  sc_store <$> mapM id (sc_finish (sc_fold_low (sc_fold_high s))).
