(* ===== verification/ScSpec.v ===== *)
(** * Scalar arithmetic is correct

    No operation of [Sc] overflows; [sc_reduce] and [sc_muladd] return the canonical
    representative modulo the order of the base point. *)

From S2P Require Import Prelude Mem Limbs Fe FeSpec FeBytes Sc.
From Stdlib Require Import ZArith Lia.
From stdpp Require Import base tactics list numbers.
Local Open Scope Z_scope.
Local Open Scope limb_scope.

(** The order of the base point. *)
Definition sc_L : Z := 2 ^ 252 + 27742317777372353535851937790883648493.

(** The integer that a list of limbs denotes. *)
Definition sc_val (s : list Z) : Z := fold_right (fun x acc => x + 2 ^ 21 * acc) 0 s.

(** ** Parametricity *)

Definition list_rel : list (option Z) -> list Z -> list range -> Prop := Forall3 related.

Tactic Notation "sc_param" reference(f) :=
  cbv beta iota delta [f]; rel_lets; repeat (apply Forall3_cons; [rel_op|]); apply Forall3_nil.

Lemma list_rel_inv xs zs rs : Forall3 related xs zs rs ->
  match xs with x :: xs => exists z zs' r rs', zs = z :: zs' /\ rs = r :: rs' /\ related x z r /\ Forall3 related xs zs' rs' | [] => zs = [] /\ rs = [] end.
Proof. destruct 1; [done|]. eauto 10. Qed.

Ltac open_list H :=
  repeat (lazymatch type of H with
  | Forall3 related (_ :: _) _ _ => apply list_rel_inv in H; destruct H as (? & ? & ? & ? & -> & -> & ? & H)
  | Forall3 related [] _ _ => apply list_rel_inv in H; destruct H as [-> ->]
  end).

(** A list of known length. *)
Ltac split_list xs Hl :=
  repeat (destruct xs as [|? xs]; [discriminate Hl|apply Nat.succ_inj in Hl]); (destruct xs; [|discriminate Hl]); clear Hl.

Lemma sc_fold_high_rel xs zs rs : list_rel xs zs rs -> length xs = 24%nat ->
  list_rel (sc_fold_high xs) (sc_fold_high zs) (sc_fold_high rs).
Proof. intros H Hl. unfold list_rel in *. split_list xs Hl. open_list H. sc_param sc_fold_high. Qed.
Lemma sc_fold_low_rel xs zs rs : list_rel xs zs rs -> length xs = 18%nat ->
  list_rel (sc_fold_low xs) (sc_fold_low zs) (sc_fold_low rs).
Proof. intros H Hl. unfold list_rel in *. split_list xs Hl. open_list H. sc_param sc_fold_low. Qed.
Lemma sc_finish_rel xs zs rs : list_rel xs zs rs -> length xs = 13%nat ->
  list_rel (sc_finish xs) (sc_finish zs) (sc_finish rs).
Proof. intros H Hl. unfold list_rel in *. split_list xs Hl. open_list H. sc_param sc_finish. Qed.
Lemma sc_product_rel xa za ra xb zb rb xc zc rc : list_rel xa za ra -> list_rel xb zb rb -> list_rel xc zc rc ->
  length xa = 12%nat -> length xb = 12%nat -> length xc = 12%nat -> list_rel (sc_product xa xb xc) (sc_product za zb zc) (sc_product ra rb rc).
Proof.
  intros Ha Hb Hc Hla Hlb Hlc. unfold list_rel in *. split_list xa Hla. split_list xb Hlb. split_list xc Hlc.
  open_list Ha. open_list Hb. open_list Hc. sc_param sc_product.
Qed.

(** ** Bounds *)

(** Digits of 21 bits, the limbs that the bytes give, and the limbs before the last stage. *)
Definition digit : range := Some (0, 2 ^ 21 - 1).
Definition loaded64 : list range := replicate 23 digit ++ [Some (0, 2 ^ 29 - 1)].
Definition loaded32 : list range := replicate 11 digit ++ [Some (0, 2 ^ 25 - 1)].
Definition folded : list range :=
  let e := Some (- 2 ^ 28, 2 ^ 28) in let o := Some (- 2 ^ 20, 2 ^ 20) in [e; o; e; o; e; o; e; o; e; o; e; o; Some (-1, 28)].

Definition list_in : list range -> list Z -> Prop := Forall2 in_range.

Lemma list_rel_in rs zs : list_in rs zs -> list_rel (map Some zs) zs rs.
Proof. induction 1 as [|r z rs zs Hz _ IH]; constructor; [by apply related_in|exact IH]. Qed.

Lemma list_rel_use xs zs rs qs : list_rel xs zs rs -> Forall2 range_le rs qs -> xs = map Some zs /\ list_in qs zs.
Proof.
  intros H. revert qs. induction H as [|x z r xs zs rs Hx H IH]; intros qs Hq; inversion Hq as [|? q ? qs' Hr Hqs]; subst; [split; [done|constructor]|].
  destruct (related_use _ _ _ _ Hx Hr) as [-> Hz]. destruct (IH qs' Hqs) as [-> Hin]. split; [done|by constructor].
Qed.

Ltac range_check := vm_compute; repeat (apply List.Forall2_cons; [reflexivity|]); apply List.Forall2_nil.


Definition canonical_scalar (v : Z) (s : list Z) : Prop := sc_val s = v mod sc_L.

Lemma sc_finish_val zs : list_in folded zs -> canonical_scalar (sc_val zs) (sc_finish zs).
Proof.
  intros H. unfold folded in H. 
  repeat (apply list.Forall2_cons_inv_l in H; destruct H as (? & ? & ? & H & ->)). apply list.Forall2_nil_inv_l in H as ->. 
  cbn [in_range] in *. cbv beta iota delta [sc_finish]. exact_lets. floors. cbn [lit addw subw mulw exact] in *.
  unfold canonical_scalar, sc_val, sc_L. cbn [fold_right].
  set (v2 := x12 + 2 ^ 21 * (x13 + 2 ^ 21 * (x14 + 2 ^ 21 * (x15 + 2 ^ 21 * (x16 + 2 ^ 21 * (x17 + 2 ^ 21 * (x5 + 2 ^ 21 * (x6 + 2 ^ 21 * (x7
    + 2 ^ 21 * (x8 + 2 ^ 21 * (x9 + 2 ^ 21 * x10))))))))))).
  assert (2 ^ 252 * x52 <= v2 < 2 ^ 252 * x52 + 2 ^ 252) as Hq by (unfold v2; clear - H19 H20 H22 H23 H25 H26 H28 H29 H31 H32 H34 H35 H37 H38 H40 H41 H43 H44 H46 H47 H49 H50 H52; lia).
  assert (- 2 ^ 251 - 2 ^ 245 <= v2 <= 2 ^ 251 + 2 ^ 245) as Hv by (unfold v2; clear - H H0 H1 H2 H3 H4 H5 H6 H7 H8 H9 H10 H11 H12 H13 H14 H15 H16 H17; lia).
  assert (x52 = 0 \/ x52 = -1) as Hx by (clear - Hq Hv; lia).
  match goal with |- _ = ?v mod _ => assert (v = v2 + (2 ^ 252 + 27742317777372353535851937790883648493) * x11) as -> by (unfold v2; subst; clear; ring) end.
  match goal with |- ?r = _ => assert (r = v2 - (2 ^ 252 + 27742317777372353535851937790883648493) * x53) as -> end.
  { unfold v2. rewrite H53, H18. clear - H20 H21 H23 H24 H26 H27 H29 H30 H32 H33 H35 H36 H38 H39 H41 H42 H44 H45 H47 H48 H50 H51 H53 H54 H18
      H55 H56 H57 H58 H59 H60 H63 H64 H66 H67 H69 H70 H72 H73 H75 H76 H78 H79 H81 H82 H84 H85 H87 H88 H90 H91 H93 H94. subst. ring. }
  apply Z.mod_unique_pos with (x11 + x53); [clear - Hq Hv Hx H53 H18; lia|ring].
Qed.

(** ** Values *)

Definition scalar_is (v : Z) (s : list Z) : Prop := sc_val s mod sc_L = v mod sc_L.

Lemma scalar_shift a b k : a = b - sc_L * k -> a mod sc_L = b mod sc_L.
Proof. intros ->. replace (b - sc_L * k) with (b + - k * sc_L) by ring. apply Z.mod_add. discriminate. Qed.

(** The multiple of the order that the folds subtract: the first constant of each fold shows the limb that is
    folded; [w] is the weight of the limb folded last. *)
Ltac folds w acc tac :=
  lazymatch goal with
  | H : ?y = addw 64 ?x (mulw 64 ?c (lit 666643)) |- _ =>
      change (y = x + c * 666643) in H; let w' := eval cbv in (w + 21) in folds w' (acc + c * 2 ^ w) tac
  | _ => tac acc
  end.

Ltac fold_limbs w :=
  exact_lets; folds w 0 ltac:(fun acc => apply (scalar_shift _ _ acc));
  forget_carries; unfold sc_val, sc_L; cbn [fold_right lit addw subw mulw exact] in *; subst; ring.

Lemma sc_fold_high_val zs : length zs = 24%nat -> scalar_is (sc_val zs) (sc_fold_high zs).
Proof. intros Hl. split_list zs Hl. cbv beta iota delta [sc_fold_high]. fold_limbs 126. Qed.
Lemma sc_fold_low_val zs : length zs = 18%nat -> scalar_is (sc_val zs) (sc_fold_low zs).
Proof. intros Hl. split_list zs Hl. cbv beta iota delta [sc_fold_low]. fold_limbs 0. Qed.
Definition value_of (v : Z) (s : list Z) : Prop := sc_val s = v.
Lemma sc_product_val a b c : length a = 12%nat -> length b = 12%nat -> length c = 12%nat ->
  value_of (sc_val a * sc_val b + sc_val c) (sc_product a b c).
Proof.
  intros Ha Hb Hc. split_list a Ha. split_list b Hb. split_list c Hc. cbv beta iota delta [sc_product]. exact_lets.
  forget_carries. unfold value_of, sc_val. cbn [fold_right lit addw subw mulw exact] in *. subst. ring.
Qed.

(** ** Bytes to limbs *)

Lemma le_value_byte s i : Forall is_u8 s -> byte_at s i = (le_value s / 2 ^ (8 * Z.of_nat i)) mod 2 ^ 8.
Proof.
  intros Hs. unfold byte_at. revert i. induction Hs as [|b l Hb Hl IH]; intros i.
  - rewrite (nth_overflow [] 0) by (cbn; lia). by rewrite Z.div_0_l by (apply Z.pow_nonzero; lia).
  - unfold is_u8 in Hb. cbn [le_value fold_right]. fold (le_value l). destruct i as [|i].
    + rewrite Z.div_1_r. change (2 ^ 8) with 256. rewrite Z.mul_comm, Z.mod_add, Z.mod_small by lia. done.
    + cbn [nth]. rewrite IH. replace (8 * Z.of_nat (S i)) with (8 + 8 * Z.of_nat i) by lia. rewrite Z.pow_add_r, <- Z.div_div by lia.
      change (2 ^ 8) with 256 at 3. rewrite (Z.mul_comm 256), Z.div_add, (Z.div_small b) by lia. done.
Qed.

Lemma load_3_slice s i : Forall is_u8 s -> load_3 s i = (le_value s / 2 ^ (8 * Z.of_nat i)) mod 2 ^ 24.
Proof.
  intros Hs. rewrite load_3_val, !le_value_byte by done. set (v := le_value s). set (k := 8 * Z.of_nat i).
  replace (8 * Z.of_nat (i + 1)) with (k + 8) by lia. replace (8 * Z.of_nat (i + 2)) with (k + 16) by lia.
  change (2 ^ 24) with (2 ^ 8 * (2 ^ 8 * 2 ^ 8)). rewrite !Z.rem_mul_r by lia.
  replace (k + 16) with (k + 8 + 8) by lia. rewrite !Z.pow_add_r, <- !Z.div_div by lia. lia.
Qed.
Lemma load_4_slice s i : Forall is_u8 s -> load_4 s i = (le_value s / 2 ^ (8 * Z.of_nat i)) mod 2 ^ 32.
Proof.
  intros Hs. rewrite load_4_val, !le_value_byte by done. set (v := le_value s). set (k := 8 * Z.of_nat i).
  replace (8 * Z.of_nat (i + 1)) with (k + 8) by lia. replace (8 * Z.of_nat (i + 2)) with (k + 8 + 8) by lia.
  replace (8 * Z.of_nat (i + 3)) with (k + 8 + 8 + 8) by lia.
  change (2 ^ 32) with (2 ^ 8 * (2 ^ 8 * (2 ^ 8 * 2 ^ 8))). rewrite !Z.rem_mul_r by lia.
  rewrite !Z.pow_add_r, <- !Z.div_div by lia. lia.
Qed.

(** Twenty-one bits out of a wider window. *)
Lemma window v k j n : 0 <= k -> 0 <= j -> 21 + j <= n -> Z.land 2097151 (Z.shiftr ((v / 2 ^ k) mod 2 ^ n) j) = (v / 2 ^ (k + j)) mod 2 ^ 21.
Proof.
  intros Hk Hj Hn. rewrite Z.land_comm. change 2097151 with (Z.ones 21). rewrite Z.land_ones by lia.
  apply Z.bits_inj'. intros i Hi. destruct (Z.lt_ge_cases i 21).
  - rewrite !Z.mod_pow2_bits_low, Z.shiftr_spec, Z.mod_pow2_bits_low, !Z.div_pow2_bits by lia. f_equal. lia.
  - by rewrite !Z.mod_pow2_bits_high by lia.
Qed.
Lemma window0 v k n : 0 <= k -> 21 <= n -> Z.land 2097151 ((v / 2 ^ k) mod 2 ^ n) = (v / 2 ^ k) mod 2 ^ 21.
Proof. intros Hk Hn. rewrite <- (Z.shiftr_0_r ((v / 2 ^ k) mod _)), window by lia. by rewrite Z.add_0_r. Qed.

(** The digits of a number. *)
Fixpoint sc_digits (n : nat) (v : Z) : list Z :=
  match n with O => [v] | S n => v mod 2 ^ 21 :: sc_digits n (v / 2 ^ 21) end.

Lemma sc_digits_val n v : sc_val (sc_digits n v) = v.
Proof.
  revert v. induction n as [|n IH]; intros v; [cbn; lia|]. cbn [sc_digits sc_val fold_right]. fold (sc_val (sc_digits n (v / 2 ^ 21))).
  rewrite IH. pose proof (Z.div_mod v (2 ^ 21) ltac:(lia)). lia.
Qed.

Lemma sc_digits_in n v k : 0 <= k -> 0 <= v < 2 ^ (21 * Z.of_nat n + k) -> list_in (replicate n digit ++ [Some (0, 2 ^ k - 1)]) (sc_digits n v).
Proof.
  intros Hk. revert v. induction n as [|n IH]; intros v Hv; cbn [replicate app sc_digits].
  - constructor; [|constructor]. cbn. replace (21 * Z.of_nat 0 + k) with k in Hv by lia. lia.
  - constructor; [cbn; pose proof (Z.mod_pos_bound v (2 ^ 21) ltac:(lia)); lia|]. apply IH.
    split; [apply Z.div_pos; lia|]. apply Z.div_lt_upper_bound; [lia|]. rewrite <- Z.pow_add_r by lia.
    replace (21 + (21 * Z.of_nat n + k)) with (21 * Z.of_nat (S n) + k) by lia. lia.
Qed.

Lemma shiftr_top v k j n : 0 <= k -> 0 <= j -> 0 <= v < 2 ^ (k + n) -> 0 <= n -> Z.shiftr ((v / 2 ^ k) mod 2 ^ n) j = v / 2 ^ (k + j).
Proof.
  intros Hk Hj Hv Hn. assert (0 < 2 ^ k) by (apply Z.pow_pos_nonneg; lia). assert (0 < 2 ^ j) by (apply Z.pow_pos_nonneg; lia).
  rewrite Z.mod_small.
  - rewrite Z.shiftr_div_pow2, Z.div_div, <- Z.pow_add_r by lia. done.
  - split; [apply Z.div_pos; lia|]. apply Z.div_lt_upper_bound; [lia|]. rewrite <- Z.pow_add_r by lia. lia.
Qed.

Lemma sc_load64_digits s : Forall is_u8 s -> length s = 64%nat -> sc_load64 s = sc_digits 23 (le_value s).
Proof.
  intros Hs Hl. pose proof (le_value_bound s Hs) as Hv. rewrite Hl in Hv. unfold sc_load64.
  rewrite !load_3_slice, !load_4_slice by done. set (v := le_value s) in *. cbn [Z.of_nat Pos.of_succ_nat Pos.succ Z.mul Pos.mul].
  rewrite !window, !window0 by lia. rewrite shiftr_top by lia. cbn [sc_digits]. rewrite !Z.div_div by lia. rewrite <- !Z.pow_add_r by lia.
  rewrite Z.div_1_r. reflexivity.
Qed.
Lemma sc_load32_digits s : Forall is_u8 s -> length s = 32%nat -> sc_load32 s = sc_digits 11 (le_value s).
Proof.
  intros Hs Hl. pose proof (le_value_bound s Hs) as Hv. rewrite Hl in Hv. unfold sc_load32.
  rewrite !load_3_slice, !load_4_slice by done. set (v := le_value s) in *. cbn [Z.of_nat Pos.of_succ_nat Pos.succ Z.mul Pos.mul].
  rewrite !window, !window0 by lia. rewrite shiftr_top by lia. cbn [sc_digits]. rewrite !Z.div_div by lia. rewrite <- !Z.pow_add_r by lia.
  rewrite Z.div_1_r. reflexivity.
Qed.

Lemma sc_load64_ok s : Forall is_u8 s -> length s = 64%nat -> list_in loaded64 (sc_load64 s) /\ sc_val (sc_load64 s) = le_value s.
Proof.
  intros Hs Hl. pose proof (le_value_bound s Hs) as Hv. rewrite sc_load64_digits, sc_digits_val by done. split; [|done].
  apply sc_digits_in; [lia|]. rewrite Hl in Hv. exact Hv.
Qed.
Lemma sc_load32_ok s : Forall is_u8 s -> length s = 32%nat -> list_in loaded32 (sc_load32 s) /\ sc_val (sc_load32 s) = le_value s.
Proof.
  intros Hs Hl. pose proof (le_value_bound s Hs) as Hv. rewrite sc_load32_digits, sc_digits_val by done. split; [|done].
  apply sc_digits_in; [lia|]. rewrite Hl in Hv. exact Hv.
Qed.

(** ** Limbs to bytes *)

(** Eleven digits and a last limb that may reach 2^21. *)
Definition final : list range := replicate 11 digit ++ [Some (0, 2 ^ 21)].

Ltac open_in H :=
  repeat (apply list.Forall2_cons_inv_l in H; destruct H as (? & ? & ? & H & ->)); apply list.Forall2_nil_inv_l in H as ->.

Lemma sc_store_val s : list_in final s -> le_value (sc_store s) = sc_val s.
Proof.
  intros H. unfold final in H. cbn [replicate app] in H. unfold list_in in H. open_in H. cbn [in_range digit] in *.
  pose proof (shiftr_bound x 21 16 ltac:(lia) ltac:(lia)).
  pose proof (shiftr_bound x1 21 19 ltac:(lia) ltac:(lia)).
  pose proof (shiftr_bound x0 21 14 ltac:(lia) ltac:(lia)).
  pose proof (shiftr_bound x2 21 17 ltac:(lia) ltac:(lia)).
  pose proof (shiftr_bound x3 21 20 ltac:(lia) ltac:(lia)).
  pose proof (shiftr_bound x4 21 15 ltac:(lia) ltac:(lia)).
  pose proof (shiftr_bound x5 21 18 ltac:(lia) ltac:(lia)).
  pose proof (shiftr_bound x6 21 13 ltac:(lia) ltac:(lia)).
  pose proof (shiftr_bound x7 21 16 ltac:(lia) ltac:(lia)).
  pose proof (shiftr_bound x8 21 19 ltac:(lia) ltac:(lia)).
  pose proof (shiftr_bound x9 21 14 ltac:(lia) ltac:(lia)).
  pose proof (shiftr_bound x10 22 17 ltac:(lia) ltac:(lia)).
  unfold sc_store, le_value, sc_val. cbn [fold_right].
  rewrite (shl_low 64 _ x1 5 3), (shl_low 64 _ x0 2 6), (shl_low 64 _ x2 7 1), (shl_low 64 _ x3 4 4), (shl_low 64 _ x4 1 7), (shl_low 64 _ x5 6 2), (shl_low 64 _ x6 3 5), (shl_low 64 _ x8 5 3), (shl_low 64 _ x9 2 6), (shl_low 64 _ x10 7 1) by lia.
  rewrite (uchar_small (Z.shiftr x6 13)), (uchar_small (Z.shiftr x10 17)), !uchar_low by lia.
  pose proof (limb_slice x 8 16 ltac:(lia) eq_refl).
  pose proof (limb_slice x0 6 14 ltac:(lia) eq_refl).
  pose proof (limb_slice x4 7 15 ltac:(lia) eq_refl).
  pose proof (limb_slice x6 5 13 ltac:(lia) eq_refl).
  pose proof (limb_slice x7 8 16 ltac:(lia) eq_refl).
  pose proof (limb_slice x9 6 14 ltac:(lia) eq_refl).
  pose proof (limb_slices x1 3 11 19 ltac:(lia) eq_refl eq_refl).
  pose proof (limb_slices x2 1 9 17 ltac:(lia) eq_refl eq_refl).
  pose proof (limb_slices x3 4 12 20 ltac:(lia) eq_refl eq_refl).
  pose proof (limb_slices x5 2 10 18 ltac:(lia) eq_refl eq_refl).
  pose proof (limb_slices x8 3 11 19 ltac:(lia) eq_refl eq_refl).
  pose proof (limb_slices x10 1 9 17 ltac:(lia) eq_refl eq_refl).
  lia.
Qed.

Lemma sc_store_digits s : list_in final s -> sc_store s = le_digits 32 (sc_val s).
Proof.
  intros Hs. rewrite <- sc_store_val by done. pose proof Hs as H. unfold final, list_in in H. cbn [replicate app] in H. open_in H.
  symmetry. apply (le_digits_value (sc_store [x; x1; x0; x2; x3; x4; x5; x6; x7; x8; x9; x10])). unfold sc_store. repeat constructor; apply uchar_u8.
Qed.

(** ** Reduction *)

Lemma mapM_some (l : list Z) : mapM id (map Some l) = Some l.
Proof. induction l as [|x l IH]; [done|]. cbn in *. by rewrite IH. Qed.

Lemma final_in s : list_in (replicate 11 digit ++ [Some (-1, 2 ^ 21)]) s -> 0 <= sc_val s -> list_in final s.
Proof.
  intros H Hv. unfold list_in, final in *. cbn [replicate app] in *. open_in H. unfold sc_val in Hv. cbn [fold_right] in Hv.
  repeat (apply List.Forall2_cons; [assumption|]). apply List.Forall2_cons; [|constructor]. cbn [in_range digit] in *. lia.
Qed.

(** The common end of both functions. *)
Lemma sc_finish_ok s : list_in folded s ->
  sc_store <$> mapM id (sc_finish (map Some s)) = Some (le_digits 32 (sc_val s mod sc_L)).
Proof.
  intros Hs. pose proof (sc_finish_rel _ _ _ (list_rel_in _ _ Hs)) as Hr.
  rewrite length_map, <- (Forall2_length Hs) in Hr. specialize (Hr eq_refl).
  destruct (list_rel_use _ _ _ (replicate 11 digit ++ [Some (-1, 2 ^ 21)]) Hr ltac:(range_check)) as [-> Hin].
  pose proof (sc_finish_val s Hs) as Hv. unfold canonical_scalar in Hv.
  rewrite mapM_some. cbn [fmap option_fmap option_map]. rewrite sc_store_digits; [by rewrite Hv|].
  apply final_in; [done|]. rewrite Hv. apply Z.mod_pos_bound. reflexivity.
Qed.

(** The folds, from any limbs whose bounds they respect. *)
Lemma sc_folds_ok xs s rs : list_rel xs s rs -> length rs = 24%nat -> Forall2 range_le (sc_fold_low (sc_fold_high rs)) folded ->
  sc_store <$> mapM id (sc_finish (sc_fold_low (sc_fold_high xs))) = Some (le_digits 32 (sc_val s mod sc_L)).
Proof.
  intros Hs Hl Hf. pose proof (Forall3_length_lm _ _ _ _ Hs) as L1. pose proof (Forall3_length_lr _ _ _ _ Hs) as L2.
  pose proof (sc_fold_high_rel _ _ _ Hs ltac:(congruence)) as H1.
  assert (length (sc_fold_high xs) = 18%nat) as L3 by (clear - L2 Hl; rewrite Hl in L2; split_list xs L2; reflexivity).
  pose proof (sc_fold_low_rel _ _ _ H1 L3) as H2.
  destruct (list_rel_use _ _ _ _ H2 Hf) as [-> Hin]. rewrite sc_finish_ok by done. do 2 f_equal.
  rewrite (Forall3_length_lm _ _ _ _ H1) in L3. pose proof (sc_fold_low_val _ L3) as E1. pose proof (sc_fold_high_val s ltac:(congruence)) as E2.
  unfold scalar_is in *. congruence.
Qed.

Lemma sc_reduce_ok s : Forall is_u8 s -> length s = 64%nat -> sc_reduce s = Some (le_digits 32 (le_value s mod sc_L)).
Proof.
  intros Hs Hl. destruct (sc_load64_ok s Hs Hl) as [Hin <-]. unfold sc_reduce.
  eapply sc_folds_ok; [apply list_rel_in; exact Hin|reflexivity|range_check].
Qed.

Lemma sc_muladd_ok a b c : Forall is_u8 a -> length a = 32%nat -> Forall is_u8 b -> length b = 32%nat -> Forall is_u8 c -> length c = 32%nat ->
  sc_muladd a b c = Some (le_digits 32 ((le_value a * le_value b + le_value c) mod sc_L)).
Proof.
  intros Ha La Hb Lb Hc Lc. destruct (sc_load32_ok a Ha La) as [Ia <-], (sc_load32_ok b Hb Lb) as [Ib <-], (sc_load32_ok c Hc Lc) as [Ic <-].
  unfold sc_muladd. cbv zeta. rewrite <- (sc_product_val (sc_load32 a) (sc_load32 b) (sc_load32 c) eq_refl eq_refl eq_refl).
  eapply sc_folds_ok; [apply sc_product_rel; try (apply list_rel_in; eassumption); reflexivity|reflexivity|range_check].
Qed.
