(* ===== verification/Primes.v ===== *)
(** * The field modulus is prime

    Pocklington's criterion, from Fermat's little theorem of the Standard Library, and a chain of
    certificates that ends in 2^255 - 19. *)

From S2P Require Import Prelude.
From Stdlib Require Import ZArith Lia List Znumtheory Zpow_facts ZmodInv.
From stdpp Require Import base tactics.
Local Open Scope Z_scope.

(** ** Divisors *)

Lemma prime_or_divisor n : 1 < n -> Z.prime n \/ exists q, Z.prime q /\ (q | n) /\ q * q <= n.
Proof.
  intros Hn. assert (0 <= n) as H0 by lia. revert Hn. pattern n. apply Z_lt_induction; [|exact H0]. clear n H0. intros n IH Hn.
  destruct (prime_dec n) as [Hp|Hp]; [left; by apply prime_alt|right].
  destruct (not_prime_divide n Hn Hp) as (m & Hm & [k ->]).
  assert (exists m', 1 < m' /\ m' * m' <= k * m /\ (m' | k * m) /\ m' < k * m) as (m' & H1 & H2 & H3 & H4).
  { assert (1 < k) by nia. destruct (Z.le_ge_cases m k); [exists m|exists k]; (split; [lia|split; [nia|split; [|nia]]]).
    - exists k. ring.
    - exists m. ring. }
  destruct (IH m' ltac:(lia) H1) as [Hq|(q & Hq & Hd & Hs)]; [exists m'; split_and!; assumption|]. exists q. split_and!; [exact Hq|exact (Z.divide_trans _ _ _ Hd H3)|lia].
Qed.

(** ** Pocklington *)

Section Pocklington.
Context (n a : Z) (Hn : 1 < n) (Ha : a ^ (n - 1) mod n = 1) (q : Z) (Hq : Z.prime q) (Hd : (q | n)).

Lemma mod_divisor x y : x mod n = y mod n -> x mod q = y mod q.
Proof using Hn Hq Hd.
  clear Ha a. intros E. destruct Hd as [k ->]. pose proof (Z.prime_ge_2 q Hq). assert (0 < k) by nia.
  rewrite <- (Z.mod_mod_divide x (k * q) q), <- (Z.mod_mod_divide y (k * q) q), E by (by exists k). done.
Qed.

Lemma base_nonzero : a mod q <> 0.
Proof using Hn Ha Hq Hd.
  intros E. pose proof (Z.prime_ge_2 q Hq). assert (a ^ (n - 1) mod q = 1 mod q) as H1 by (apply mod_divisor; rewrite Ha, Z.mod_small; lia).
  rewrite Z.mod_pow_l, E in H1 || (rewrite <- Z.mod_pow_l, E in H1). rewrite Z.pow_0_l, Z.mod_0_l, Z.mod_small in H1 by lia. lia.
Qed.

(** A prime factor of n - 1 with a witness divides q - 1. *)
Lemma factor_divides r m : Z.prime r -> n - 1 = r * m -> Z.gcd (a ^ m - 1) n = 1 -> (r | q - 1).
Proof using Hn Ha Hq Hd.
  intros Hr Em Hg. pose proof (Z.prime_ge_2 q Hq). pose proof (Z.prime_ge_2 r Hr). assert (0 < m) by nia.
  destruct (Z.BoolSpec_divide_nz r (q - 1) ltac:(lia)) as [?|Hnd]; [done|]. exfalso.
  apply (Z.coprime_prime_l r _ Hr) in Hnd. apply Z.Bezout_coprime in Hnd as (u & v & E).
  assert (exists s t, 0 <= s /\ 0 <= t /\ r * s = 1 + (q - 1) * t) as (s & t & Hs & Ht & Est).
  { exists (u + (q - 1) * (Z.abs u + Z.abs v)), (- v + r * (Z.abs u + Z.abs v)). repeat split; nia. }
  assert (a ^ m mod q = 1) as E1.
  { assert (a ^ (m * (r * s)) mod q = 1) as L.
    { replace (m * (r * s)) with ((n - 1) * s) by lia. rewrite Z.pow_mul_r by lia. rewrite <- Z.mod_pow_l.
      assert (a ^ (n - 1) mod q = 1) as -> by (transitivity (1 mod q); [apply mod_divisor; rewrite Ha, Z.mod_small; lia|apply Z.mod_small; lia]).
      rewrite Z.pow_1_l by lia. apply Z.mod_small. lia. }
    rewrite Est in L. replace (m * (1 + (q - 1) * t)) with (m + (q - 1) * (t * m)) in L by ring.
    rewrite Z.pow_add_r, Z.pow_mul_r in L by nia. rewrite <- Z.mul_mod_idemp_r, <- Z.mod_pow_l in L by lia.
    rewrite (Z.fermat_nz q a Hq base_nonzero), Z.pow_1_l, (Z.mod_small 1), Z.mul_1_r in L by nia. done. }
  assert ((q | a ^ m - 1)) as D1.
  { exists (a ^ m / q). pose proof (Z.div_mod (a ^ m) q ltac:(lia)). lia. }
  pose proof (Z.gcd_greatest _ _ _ D1 Hd) as D. rewrite Hg in D. apply Z.divide_pos_le in D; lia.
Qed.
End Pocklington.

(** A witness for the factor r of n - 1 = r * m: the power a^m, and its r-th power. *)
Definition witness_of (n a r m : Z) : bool :=
  let y := Zpow_mod a m n in (Zpow_mod y r n =? 1) && (Z.gcd (y - 1) n =? 1).
(** A second factor with the same base. *)
Definition witness_more (n a m : Z) : bool := Z.gcd (Zpow_mod a m n - 1) n =? 1.

Lemma witness_more_ok n a m : 1 < n -> witness_more n a m = true -> Z.gcd (a ^ m - 1) n = 1.
Proof.
  intros Hn H%Z.eqb_eq. rewrite Zpow_mod_correct in H by lia.
  transitivity (Z.gcd (a ^ m mod n - 1) n); [|exact H]. rewrite (Z.gcd_comm (a ^ m - 1)), (Z.gcd_comm (_ mod n - 1)), <- (Z.gcd_mod (a ^ m - 1) n), <- (Z.gcd_mod (a ^ m mod n - 1) n) by lia.
  rewrite Zminus_mod_idemp_l. done.
Qed.

Lemma witness_of_ok n a r m : 1 < n -> 0 <= r -> 0 <= m -> n - 1 = r * m -> witness_of n a r m = true ->
  a ^ (n - 1) mod n = 1 /\ Z.gcd (a ^ m - 1) n = 1.
Proof.
  intros Hn Hr Hm E [H1 H2]%andb_true_iff. apply Z.eqb_eq in H1. split; [|by apply witness_more_ok].
  rewrite !Zpow_mod_correct in H1 by lia. rewrite Z.mod_pow_l, <- Z.pow_mul_r, (Z.mul_comm m), <- E in H1 by lia. exact H1.
Qed.

Lemma pocklington1 n a r m : 1 < n -> Z.prime r -> 0 <= m -> n - 1 = r * m -> witness_of n a r m = true -> n < r * r -> Z.prime n.
Proof.
  intros Hn Hr Hm Em Hw Hlt. pose proof (Z.prime_ge_2 r Hr). destruct (witness_of_ok n a r m Hn ltac:(lia) Hm Em Hw) as [Ha Hg].
  destruct (prime_or_divisor n Hn) as [?|(q & Hq & Hd & Hs)]; [done|]. exfalso. pose proof (Z.prime_ge_2 q Hq).
  pose proof (factor_divides n a Hn Ha q Hq Hd r m Hr Em Hg) as D. apply Z.divide_pos_le in D; nia.
Qed.

Lemma pocklington2 n a r1 m1 r2 m2 : 1 < n -> Z.prime r1 -> Z.prime r2 -> r1 < r2 -> 0 <= m2 -> n - 1 = r1 * m1 -> n - 1 = r2 * m2 ->
  witness_more n a m1 = true -> witness_of n a r2 m2 = true -> n < (r1 * r2) * (r1 * r2) -> Z.prime n.
Proof.
  intros Hn P1 P2 Hr Hm2 E1 E2 W1 W2 Hlt. pose proof (Z.prime_ge_2 r1 P1).
  destruct (witness_of_ok n a r2 m2 Hn ltac:(lia) Hm2 E2 W2) as [Ha G2]. pose proof (witness_more_ok n a m1 Hn W1) as G1.
  destruct (prime_or_divisor n Hn) as [?|(q & Hq & Hd & Hs)]; [done|]. exfalso. pose proof (Z.prime_ge_2 q Hq).
  destruct (factor_divides n a Hn Ha q Hq Hd r1 m1 P1 E1 G1) as [k Hk]. pose proof (factor_divides n a Hn Ha q Hq Hd r2 m2 P2 E2 G2) as D2.
  rewrite Hk in D2. apply (Z.divide_prime_mul k r1 r2 P2) in D2 as [[j ->]|D2].
  - replace (j * r2 * r1) with (j * (r1 * r2)) in Hk by ring. set (R := r1 * r2) in *. assert (0 < R) by (unfold R; nia).
    assert (0 < j) by nia. assert (R < q) by nia. nia.
  - apply Z.divide_pos_le in D2; lia.
Qed.

(** Small primes by trial division. *)
Definition no_divisor (n : Z) (k : nat) : bool := forallb (fun d => negb (n mod Z.of_nat d =? 0)) (seq 2 k).

Lemma small_prime n k : 1 < n -> n < (Z.of_nat k + 2) * (Z.of_nat k + 2) -> no_divisor n k = true -> Z.prime n.
Proof.
  intros Hn Hk H. destruct (prime_or_divisor n Hn) as [?|(q & Hq & Hd & Hs)]; [done|]. exfalso. pose proof (Z.prime_ge_2 q Hq).
  unfold no_divisor in H. rewrite forallb_forall in H. specialize (H (Z.to_nat q)).
  rewrite Z2Nat.id in H by lia. apply Z.mod_divide in Hd; [|lia]. rewrite Hd in H. discriminate H. apply in_seq. nia.
Qed.

Ltac trial k := apply (small_prime _ k); [reflexivity|reflexivity|vm_compute; reflexivity].
Ltac certify1 H m := eapply (pocklington1 _ 2 _ m); [reflexivity|exact H|discriminate|reflexivity|vm_compute; reflexivity|reflexivity].
Ltac certify2 H1 m1 H2 m2 :=
  eapply (pocklington2 _ 2 _ m1 _ m2);
  [reflexivity|exact H1|exact H2|reflexivity|discriminate|reflexivity|reflexivity|vm_compute; reflexivity|vm_compute; reflexivity|reflexivity].

Lemma prime_103 : Z.prime 103.
Proof. trial 10%nat. Qed.
Lemma prime_991 : Z.prime 991.
Proof. trial 31%nat. Qed.
Lemma prime_127 : Z.prime 127.
Proof. trial 11%nat. Qed.
Lemma prime_4153 : Z.prime 4153.
Proof. trial 64%nat. Qed.
Lemma prime_430751 : Z.prime 430751.
Proof. trial 656%nat. Qed.
Lemma prime_569003 : Z.prime 569003.
Proof. trial 754%nat. Qed.
Lemma prime_8574133 : Z.prime 8574133.
Proof. certify2 prime_103 83244 prime_991 8652. Qed.
Lemma prime_1919519569386763 : Z.prime 1919519569386763.
Proof. certify2 prime_127 15114327318006 prime_8574133 223873314. Qed.
Lemma prime_2773320623 : Z.prime 2773320623.
Proof. certify1 prime_569003 4874. Qed.
Lemma prime_72106336199 : Z.prime 72106336199.
Proof. certify1 prime_2773320623 26. Qed.
Lemma prime_75445702479781427272750846543864801 : Z.prime 75445702479781427272750846543864801.
Proof. certify2 prime_72106336199 1046311689884858398375200 prime_1919519569386763 39304471641247389600. Qed.
Lemma prime_31757755568855353 : Z.prime 31757755568855353.
Proof. certify2 prime_4153 7646943310584 prime_430751 73726481352. Qed.
Lemma prime_q1 : Z.prime 74058212732561358302231226437062788676166966415465897661863160754340907.
Proof. certify2 prime_31757755568855353 2331972502653487852620185443007392165117953542933313402 prime_75445702479781427272750846543864801 981609426360740691344999861639072106. Qed.

(** ** Fast reduction modulo 2^255 - 19 *)

Definition fold255 (x : Z) : Z := 19 * Z.shiftr x 255 + Z.land x (Z.ones 255).
Definition fmul (a b : Z) : Z := fold255 (fold255 (a * b)).
Fixpoint fpow (a : Z) (n : positive) : Z :=
  match n with
  | xH => a
  | xO n => fpow (fmul a a) n
  | xI n => fmul a (fpow (fmul a a) n)
  end.

Lemma fold255_mod x : fold255 x mod (2 ^ 255 - 19) = x mod (2 ^ 255 - 19).
Proof.
  unfold fold255. rewrite Z.shiftr_div_pow2, Z.land_ones by lia. pose proof (Z.div_mod x (2 ^ 255) ltac:(lia)) as E.
  rewrite E at 3. replace (2 ^ 255 * (x / 2 ^ 255) + x mod 2 ^ 255) with (19 * (x / 2 ^ 255) + x mod 2 ^ 255 + (x / 2 ^ 255) * (2 ^ 255 - 19)) by ring.
  symmetry. apply Z.mod_add. lia.
Qed.
Lemma fmul_mod a b : fmul a b mod (2 ^ 255 - 19) = (a * b) mod (2 ^ 255 - 19).
Proof. unfold fmul. by rewrite !fold255_mod. Qed.
Lemma fpow_mod a n : fpow a n mod (2 ^ 255 - 19) = a ^ Zpos n mod (2 ^ 255 - 19).
Proof.
  revert a. induction n as [n IH|n IH|]; intros a; cbn [fpow].
  - rewrite fmul_mod, <- Z.mul_mod_idemp_r, IH, <- Z.mod_pow_l, fmul_mod, Z.mod_pow_l, Z.mul_mod_idemp_r by lia.
    f_equal. rewrite (Pos2Z.inj_xI n), Z.pow_add_r, Z.pow_1_r, (Z.pow_mul_r a 2 (Zpos n)), Z.pow_2_r by lia. ring.
  - rewrite IH, <- (Z.mod_pow_l (fmul a a)), fmul_mod, Z.mod_pow_l by lia. f_equal. rewrite (Pos2Z.inj_xO n), (Z.pow_mul_r a 2 (Zpos n)), Z.pow_2_r by lia. done.
  - by rewrite Z.pow_1_r.
Qed.

(** The certificate of the modulus itself. *)
Definition last_factor : positive := 74058212732561358302231226437062788676166966415465897661863160754340907.
Lemma last_check_ok :
  ((fpow (fpow 2 781764) last_factor - 1) mod (2 ^ 255 - 19) =? 0) && (Z.gcd ((fpow 2 781764 - 1) mod (2 ^ 255 - 19)) (2 ^ 255 - 19) =? 1) = true.
Proof. vm_compute. reflexivity. Qed.

(** The criterion, from powers computed by other means. *)
Lemma pocklington_powers n a r m b y : 1 < n -> Z.prime r -> 0 <= m -> n - 1 = r * m -> n < r * r ->
  b mod n = a ^ m mod n -> y mod n = b ^ r mod n -> (y - 1) mod n = 0 -> Z.gcd ((b - 1) mod n) n = 1 -> Z.prime n.
Proof.
  intros Hn Hr Hm Em Hlt E F H1 H2. pose proof (Z.prime_ge_2 r Hr).
  assert (Z.gcd (a ^ m - 1) n = 1) as G.
  { transitivity (Z.gcd ((b - 1) mod n) n); [|exact H2]. rewrite (Z.gcd_comm (a ^ m - 1)), <- (Z.gcd_mod (a ^ m - 1) n) by lia.
    rewrite <- (Zminus_mod_idemp_l b), E, Zminus_mod_idemp_l. done. }
  assert (a ^ (n - 1) mod n = 1) as A.
  { rewrite Em, Z.mul_comm, Z.pow_mul_r, <- Z.mod_pow_l, <- E, Z.mod_pow_l, <- F by lia.
    replace y with (y - 1 + 1) by lia. rewrite <- Z.add_mod_idemp_l, H1 by lia. apply Z.mod_small. lia. }
  destruct (prime_or_divisor n Hn) as [?|(q & Hq & Hd & Hs)]; [done|]. exfalso. pose proof (Z.prime_ge_2 q Hq).
  pose proof (factor_divides n a Hn A q Hq Hd r m Hr Em G) as X. apply Z.divide_pos_le in X; nia.
Qed.

Lemma prime_25519 : Z.prime (2 ^ 255 - 19).
Proof.
  pose proof last_check_ok as [H1 H2]%andb_true_iff. apply Z.eqb_eq in H1, H2.
  refine (pocklington_powers _ 2 _ 781764 _ _ _ prime_q1 _ _ _ (fpow_mod 2 781764) (fpow_mod (fpow 2 781764) last_factor) H1 H2).
  - reflexivity.
  - discriminate.
  - reflexivity.
  - reflexivity.
Qed.
