(* ===== verification/Edwards.v ===== *)
(** * The curve

    The twisted Edwards curve -x^2 + y^2 = 1 + d x^2 y^2 over the integers modulo 2^255 - 19: the
    addition law is complete, since d is not a square, and stays on the curve. *)

From S2P Require Import Prelude Primes Fe FeSpec.
From Stdlib Require Import ZArith Lia Znumtheory Zpow_facts ZmodInv Morphisms.
From stdpp Require Import base tactics.
Local Open Scope Z_scope.

(** ** Congruence modulo the prime *)

Definition eqp (a b : Z) : Prop := a mod p25519 = b mod p25519.
Infix "≡p" := eqp (at level 70).

#[export] Instance eqp_equiv : Equivalence eqp.
Proof. unfold eqp. split; [intros x; reflexivity|intros x y; congruence|intros x y z; congruence]. Qed.
#[export] Instance eqp_add : Proper (eqp ==> eqp ==> eqp) Z.add.
Proof. intros a b E c f F. unfold eqp in *. rewrite Z.add_mod, E, F, <- Z.add_mod by discriminate. done. Qed.
#[export] Instance eqp_mul : Proper (eqp ==> eqp ==> eqp) Z.mul.
Proof. intros a b E c f F. unfold eqp in *. rewrite Z.mul_mod, E, F, <- Z.mul_mod by discriminate. done. Qed.
#[export] Instance eqp_opp : Proper (eqp ==> eqp) Z.opp.
Proof. intros a b E. rewrite <- (Z.mul_1_l a), <- (Z.mul_1_l b), <- !Z.mul_opp_l. by rewrite E. Qed.
#[export] Instance eqp_sub : Proper (eqp ==> eqp ==> eqp) Z.sub.
Proof. intros a b E c f F. rewrite <- !Z.add_opp_r. by rewrite E, F. Qed.

Lemma eqp_sub_zero a b : a ≡p b <-> a - b ≡p 0.
Proof.
  split; intros E.
  - rewrite E. by rewrite Z.sub_diag.
  - transitivity (a - b + b); [by rewrite Z.sub_add|]. by rewrite E.
Qed.
Lemma eqp_divide a : a ≡p 0 <-> (p25519 | a).
Proof. unfold eqp. rewrite Z.mod_0_l by discriminate. apply Z.mod_divide. discriminate. Qed.
Lemma eqp_mod a : a mod p25519 ≡p a.
Proof. unfold eqp. by rewrite Z.mod_mod. Qed.

Lemma p25519_prime : Z.prime p25519.
Proof. exact prime_25519. Qed.

(** No zero divisors. *)
Lemma mul_zero a b : a * b ≡p 0 -> a ≡p 0 \/ b ≡p 0.
Proof. rewrite !eqp_divide. apply Z.divide_prime_mul, p25519_prime. Qed.
Lemma mul_nonzero a b : ~ a ≡p 0 -> ~ b ≡p 0 -> ~ a * b ≡p 0.
Proof. intros Ha Hb H. destruct (mul_zero a b H); tauto. Qed.
Lemma mul_cancel a b c : ~ a ≡p 0 -> a * b ≡p a * c -> b ≡p c.
Proof.
  intros Ha E. apply (proj2 (eqp_sub_zero _ _)). assert (a * (b - c) ≡p 0) as H by (rewrite Z.mul_sub_distr_l; exact (proj1 (eqp_sub_zero _ _) E)).
  destruct (mul_zero a (b - c) H); tauto.
Qed.

Lemma pow_eqp a b n : a ≡p b -> a ^ n ≡p b ^ n.
Proof. unfold eqp. intros E. rewrite <- (Z.mod_pow_l a), E, Z.mod_pow_l. reflexivity. Qed.

(** ** Inverses *)

Definition inv (a : Z) : Z := Zpow_mod a (p25519 - 2) p25519.

Lemma inv_pow a : inv a ≡p a ^ (p25519 - 2).
Proof. unfold inv. rewrite Zpow_mod_correct by discriminate. apply eqp_mod. Qed.

Lemma fermat_p a : ~ a ≡p 0 -> a ^ (p25519 - 1) ≡p 1.
Proof. intros Ha. unfold eqp in *. rewrite Z.mod_0_l in Ha by discriminate. rewrite (Z.fermat_nz p25519 a p25519_prime Ha). done. Qed.

Lemma mul_inv a : ~ a ≡p 0 -> a * inv a ≡p 1.
Proof.
  intros Ha. rewrite inv_pow. rewrite <- (fermat_p a Ha). replace (p25519 - 1) with (Z.succ (p25519 - 2)) by lia.
  rewrite Z.pow_succ_r by discriminate. done.
Qed.

(** ** Points *)

(** The constant d = -121665/121666 of [ge.c]. *)
Definition D : Z := 37095705934669439343138083508754565189542113879843219016388785533085940283555.

Definition on_curve (P : Z * Z) : Prop := let '(x, y) := P in - (x * x) + y * y ≡p 1 + D * (x * x) * (y * y).

Definition ed_zero : Z * Z := (0, 1).
Definition ed_opp (P : Z * Z) : Z * Z := let '(x, y) := P in (- x, y).

Definition ed_add (P Q : Z * Z) : Z * Z :=
  let '(x1, y1) := P in let '(x2, y2) := Q in
  let delta := D * (x1 * x2 * y1 * y2) in
  (((x1 * y2 + x2 * y1) * inv (1 + delta)) mod p25519, ((y1 * y2 + x1 * x2) * inv (1 - delta)) mod p25519).

(** ** Completeness *)

Definition sqrt_m1 : Z := 19681161376707505956807079304988542015446066515923890162744021073123829784752.
Lemma sqrt_m1_ok : sqrt_m1 * sqrt_m1 ≡p -1.
Proof. vm_compute. reflexivity. Qed.

(** Euler's criterion: D to the power (p - 1) / 2 is not one. *)
Definition half : positive := 28948022309329048855892746252171976963317496166410141009864396001978282409974.
Lemma half_ok : p25519 - 1 = 2 * Zpos half.
Proof. reflexivity. Qed.
Lemma D_euler : ((fpow D half - 1) mod p25519 =? 0) = false.
Proof. vm_compute. reflexivity. Qed.
Lemma D_nonzero : ~ D ≡p 0.
Proof. vm_compute. discriminate. Qed.

Lemma D_not_square s : ~ s * s ≡p D.
Proof.
  intros E. assert (~ s ≡p 0) as Hs by (intros H; apply D_nonzero; rewrite <- E, H; reflexivity).
  pose proof (fermat_p s Hs) as F. rewrite half_ok, Z.pow_mul_r, Z.pow_2_r in F by lia. rewrite (pow_eqp _ _ (Zpos half) E) in F.
  unfold eqp in F. pose proof (fpow_mod D half) as G. fold p25519 in G. rewrite <- G in F. clear G. pose proof D_euler as X.
  revert F X. generalize (fpow D half). intros y F X. apply Z.eqb_neq in X. apply X.
  rewrite <- Zminus_mod_idemp_l, F. reflexivity.
Qed.

Lemma not_D_ratio a m b : ~ m ≡p 0 -> ~ b ≡p 0 -> ~ a * a ≡p D * (m * m) * (b * b).
Proof.
  intros Hm Hb E. pose proof (mul_inv (m * b) (mul_nonzero m b Hm Hb)) as Hi. revert Hi. generalize (inv (m * b)). intros w Hi.
  apply (D_not_square (a * w)). transitivity (a * a * (w * w)); [apply eq_subrelation; [apply _|ring]|]. rewrite E.
  transitivity (D * ((m * b * w) * (m * b * w))); [apply eq_subrelation; [apply _|ring]|]. rewrite Hi. by rewrite !Z.mul_1_r.
Qed.

Definition curve_eq (x y : Z) : Z := - (x * x) + y * y - (1 + D * (x * x) * (y * y)).

Lemma on_curve_eq x y : on_curve (x, y) -> curve_eq x y ≡p 0.
Proof. intros H. apply (proj1 (eqp_sub_zero _ _)). exact H. Qed.

Section Complete.
Context (x1 y1 x2 y2 : Z) (H1 : on_curve (x1, y1)) (H2 : on_curve (x2, y2)).
Definition delta : Z := D * (x1 * x2 * y1 * y2).

(** The identity behind completeness, for a root [i] of -1 and a sign [s]. *)
Lemma complete_identity i s : i * i + 1 ≡p 0 -> s * s - 1 ≡p 0 -> delta * delta - 1 ≡p 0 ->
  (i * x1 + s * delta * y1) * (i * x1 + s * delta * y1) ≡p D * ((x1 * y1) * (x1 * y1)) * ((i * x2 + s * y2) * (i * x2 + s * y2)).
Proof using H1 H2.
  intros Hi Hs Hd. pose proof (on_curve_eq _ _ H1) as E1. pose proof (on_curve_eq _ _ H2) as E2. apply (proj2 (eqp_sub_zero _ _)).
  match goal with |- ?l ≡p _ => replace l with
    ((i * i + 1) * (x1 * x1 - D * (x1 * x1 * y1 * y1) * (x2 * x2)) + (delta * delta - 1) * (y1 * y1 - 1) + curve_eq x1 y1
     - D * (x1 * x1 * y1 * y1) * curve_eq x2 y2 + (s * s - 1) * (delta * delta * (y1 * y1) - D * (x1 * x1 * y1 * y1) * (y2 * y2)))
    by (unfold curve_eq, delta; ring) end.
  rewrite Hi, Hs, Hd, E1, E2. rewrite !Z.mul_0_l, !Z.mul_0_r. reflexivity.
Qed.

Lemma denominators_nonzero : ~ delta * delta ≡p 1.
Proof using H1 H2.
  intros Hd. assert (delta * delta - 1 ≡p 0) as Hd0 by (rewrite Hd; reflexivity).
  assert (~ delta ≡p 0) as Hn by (intros H; rewrite H in Hd; discriminate Hd).
  assert (sqrt_m1 * sqrt_m1 + 1 ≡p 0) as Hi by (rewrite sqrt_m1_ok; reflexivity).
  assert (~ x1 * y1 ≡p 0) as Hxy.
  { intros H. apply Hn. unfold delta. replace (D * (x1 * x2 * y1 * y2)) with (x1 * y1 * (D * x2 * y2)) by ring. rewrite H. by rewrite Z.mul_0_l. }
  assert (~ x2 ≡p 0) as Hx.
  { intros H. apply Hn. unfold delta. rewrite H. rewrite Z.mul_0_r, !Z.mul_0_l, Z.mul_0_r. reflexivity. }
  pose proof (complete_identity sqrt_m1 1 Hi ltac:(reflexivity) Hd0) as Hp.
  pose proof (complete_identity sqrt_m1 (-1) Hi ltac:(reflexivity) Hd0) as Hm.
  assert (forall s, ~ ~ (sqrt_m1 * x2 + s * y2 ≡p 0) -> sqrt_m1 * x2 + s * y2 ≡p 0) as dec by (intros s; unfold eqp; lia).
  assert (sqrt_m1 * x2 + 1 * y2 ≡p 0) as B1 by (apply dec; intros Hb; exact (not_D_ratio _ _ _ Hxy Hb Hp)).
  assert (sqrt_m1 * x2 + -1 * y2 ≡p 0) as B2 by (apply dec; intros Hb; exact (not_D_ratio _ _ _ Hxy Hb Hm)).
  apply Hx. apply (mul_cancel (2 * sqrt_m1)); [vm_compute; discriminate|].
  transitivity ((sqrt_m1 * x2 + 1 * y2) + (sqrt_m1 * x2 + -1 * y2)); [apply eq_subrelation; [apply _|ring]|]. rewrite B1, B2. rewrite Z.mul_0_r. reflexivity.
Qed.

Lemma plus_nonzero : ~ 1 + delta ≡p 0.
Proof using H1 H2.
  intros H. apply denominators_nonzero. apply (proj2 (eqp_sub_zero _ _)). replace (delta * delta - 1) with ((1 + delta) * (delta - 1)) by ring.
  rewrite H. by rewrite Z.mul_0_l.
Qed.
Lemma minus_nonzero : ~ 1 - delta ≡p 0.
Proof using H1 H2.
  intros H. apply denominators_nonzero. apply (proj2 (eqp_sub_zero _ _)). replace (delta * delta - 1) with ((1 - delta) * (- delta - 1)) by ring.
  rewrite H. by rewrite Z.mul_0_l.
Qed.

(** ** The sum *)

Definition num_x : Z := x1 * y2 + x2 * y1.
Definition num_y : Z := y1 * y2 + x1 * x2.

Lemma ed_add_x : (ed_add (x1, y1) (x2, y2)).1 * (1 + delta) ≡p num_x.
Proof using H1 H2.
  cbn [ed_add fst]. rewrite eqp_mod. rewrite <- Z.mul_assoc, (Z.mul_comm (inv _)). fold delta. rewrite (mul_inv _ plus_nonzero). by rewrite Z.mul_1_r.
Qed.
Lemma ed_add_y : (ed_add (x1, y1) (x2, y2)).2 * (1 - delta) ≡p num_y.
Proof using H1 H2.
  cbn [ed_add snd]. rewrite eqp_mod. rewrite <- Z.mul_assoc, (Z.mul_comm (inv _)). fold delta. rewrite (mul_inv _ minus_nonzero). by rewrite Z.mul_1_r.
Qed.

Lemma closure_identity :
  let g1 := x1 * x1 * (y1 * y1) in let g2 := x2 * x2 * (y2 * y2) in let k := 1 + delta * delta in
  - (num_x * num_x) * ((1 - delta) * (1 - delta)) + num_y * num_y * ((1 + delta) * (1 + delta))
  - ((1 + delta) * (1 - delta) * ((1 + delta) * (1 - delta)) + D * (num_x * num_x) * (num_y * num_y))
  = curve_eq x1 y1 * (k * (1 + D * g2) - D * g2 * (- (x1 * x1) + y1 * y1 + (1 + D * g1)))
    + curve_eq x2 y2 * (k * (- (x1 * x1) + y1 * y1) - D * g1 * (- (x2 * x2) + y2 * y2 + (1 + D * g2))).
Proof using. clear. unfold curve_eq, delta, num_x, num_y. cbv zeta. ring. Qed.

Lemma ed_add_on_curve : on_curve (ed_add (x1, y1) (x2, y2)).
Proof using H1 H2.
  pose proof ed_add_x as Ex. pose proof ed_add_y as Ey. pose proof closure_identity as C. cbv zeta in C.
  destruct (ed_add (x1, y1) (x2, y2)) as [x3 y3]. cbn [fst snd] in *. unfold on_curve. apply (proj2 (eqp_sub_zero _ _)).
  apply (mul_cancel (((1 + delta) * (1 - delta)) * ((1 + delta) * (1 - delta)))).
  { apply mul_nonzero; apply mul_nonzero; (apply plus_nonzero || apply minus_nonzero). }
  rewrite Z.mul_0_r. match goal with |- ?l ≡p _ => replace l with
    (- ((x3 * (1 + delta)) * (x3 * (1 + delta))) * ((1 - delta) * (1 - delta)) + (y3 * (1 - delta)) * (y3 * (1 - delta)) * ((1 + delta) * (1 + delta))
     - ((1 + delta) * (1 - delta) * ((1 + delta) * (1 - delta)) + D * ((x3 * (1 + delta)) * (x3 * (1 + delta))) * ((y3 * (1 - delta)) * (y3 * (1 - delta))))) by ring end.
  rewrite Ex, Ey, C. rewrite (on_curve_eq _ _ H1), (on_curve_eq _ _ H2). by rewrite !Z.mul_0_l.
Qed.
End Complete.
