(* ===== verification/EdGroup.v ===== *)
(** * The group of the curve

    The addition of [Edwards] is associative and commutative, with the opposite of a point as its
    inverse; [ed_zmul] is the multiple of a point by an integer and distributes over the sum. *)

From S2P Require Import Prelude Primes Fe FeSpec Edwards.
From Stdlib Require Import ZArith Lia Zpow_facts Morphisms.
From stdpp Require Import base tactics.
Local Open Scope Z_scope.

(** ** Points up to congruence *)

Definition peq (P Q : Z * Z) : Prop := P.1 ≡p Q.1 /\ P.2 ≡p Q.2.
Infix "≡P" := peq (at level 70).

#[export] Instance peq_equiv : Equivalence peq.
Proof.
  split; [intros P; split; reflexivity|intros P Q [H1 H2]; split; by symmetry|].
  intros P Q R [H1 H2] [H3 H4]. split; [by rewrite H1|by rewrite H2].
Qed.

#[export] Instance inv_proper : Proper (eqp ==> eq) inv.
Proof. intros a b E. unfold inv. rewrite !Zpow_mod_correct by discriminate. exact (pow_eqp a b _ E). Qed.

Lemma peq_pair x x' y y' : x ≡p x' -> y ≡p y' -> (x, y) ≡P (x', y').
Proof. intros H1 H2. split; assumption. Qed.

(** The sum is reduced: it is equal, not only congruent, for congruent summands. *)
#[export] Instance ed_add_proper : Proper (peq ==> peq ==> eq) ed_add.
Proof.
  intros [x1 y1] [x1' y1'] [E1 F1] [x2 y2] [x2' y2'] [E2 F2]. cbn [fst snd] in *. unfold ed_add.
  assert (D * (x1 * x2 * y1 * y2) ≡p D * (x1' * x2' * y1' * y2')) as Ed by (by rewrite E1, E2, F1, F2).
  f_equal; apply eqp_mul.
  - by rewrite E1, E2, F1, F2.
  - unfold eqp. f_equal. apply inv_proper. by rewrite Ed.
  - by rewrite E1, E2, F1, F2.
  - unfold eqp. f_equal. apply inv_proper. by rewrite Ed.
Qed.
#[export] Instance ed_opp_proper : Proper (peq ==> peq) ed_opp.
Proof. intros [x y] [x' y'] [E F]. cbn [fst snd] in *. split; cbn [ed_opp fst snd]; [by rewrite E|exact F]. Qed.
#[export] Instance on_curve_proper : Proper (peq ==> iff) on_curve.
Proof. intros [x y] [x' y'] [E F]. cbn [fst snd] in *. unfold on_curve. by rewrite E, F. Qed.

Lemma ed_add_ext P P' Q Q' : P ≡P P' -> Q ≡P Q' -> ed_add P Q ≡P ed_add P' Q'.
Proof. intros H1 H2. by rewrite (ed_add_proper _ _ H1 _ _ H2). Qed.
#[export] Instance ed_add_peq : Proper (peq ==> peq ==> peq) ed_add.
Proof. intros P P' H1 Q Q' H2. by apply ed_add_ext. Qed.

(** ** The laws *)

Create HintDb curve.

Lemma add_on P Q : on_curve P -> on_curve Q -> on_curve (ed_add P Q).
Proof. destruct P as [x1 y1], Q as [x2 y2]. apply ed_add_on_curve. Qed.
Lemma opp_on P : on_curve P -> on_curve (ed_opp P).
Proof. destruct P as [x y]. unfold on_curve, ed_opp. by rewrite Z.mul_opp_opp. Qed.
Lemma zero_on : on_curve ed_zero.
Proof. vm_compute. reflexivity. Qed.
#[export] Hint Resolve add_on opp_on zero_on : curve.

Lemma add_comm P Q : ed_add P Q = ed_add Q P.
Proof.
  destruct P as [x1 y1], Q as [x2 y2]. unfold ed_add.
  replace (x2 * x1 * y2 * y1) with (x1 * x2 * y1 * y2) by ring. f_equal; f_equal; f_equal; ring.
Qed.

(** What characterises the sum of two points of the curve. *)
Lemma add_unique x1 y1 x2 y2 x y : on_curve (x1, y1) -> on_curve (x2, y2) ->
  x * (1 + delta x1 y1 x2 y2) ≡p num_x x1 y1 x2 y2 -> y * (1 - delta x1 y1 x2 y2) ≡p num_y x1 y1 x2 y2 ->
  ed_add (x1, y1) (x2, y2) ≡P (x, y).
Proof.
  intros H1 H2 Ex Ey. split.
  - apply (mul_cancel (1 + delta x1 y1 x2 y2)); [by apply plus_nonzero|].
    rewrite !(Z.mul_comm (1 + delta _ _ _ _)), (ed_add_x _ _ _ _ H1 H2). by symmetry.
  - apply (mul_cancel (1 - delta x1 y1 x2 y2)); [by apply minus_nonzero|].
    rewrite !(Z.mul_comm (1 - delta _ _ _ _)), (ed_add_y _ _ _ _ H1 H2). by symmetry.
Qed.

Lemma add_zero_r P : on_curve P -> ed_add P ed_zero ≡P P.
Proof.
  destruct P as [x y]. intros H. apply add_unique; [exact H|exact zero_on|..]; unfold delta, num_x, num_y; apply eq_subrelation; (apply _ || ring).
Qed.
Lemma add_zero_l P : on_curve P -> ed_add ed_zero P ≡P P.
Proof. rewrite add_comm. apply add_zero_r. Qed.
Lemma add_opp_r P : on_curve P -> ed_add P (ed_opp P) ≡P ed_zero.
Proof.
  destruct P as [x y]. intros H. apply add_unique; [exact H|exact (opp_on _ H)|..]; unfold delta, num_x, num_y.
  - apply eq_subrelation; [apply _|ring].
  - symmetry. transitivity (- (x * x) + y * y); [apply eq_subrelation; [apply _|ring]|].
    transitivity (1 + D * (x * x) * (y * y)); [exact H|apply eq_subrelation; [apply _|ring]].
Qed.

(** ** Associativity *)

Section Assoc.
Context (x1 y1 x2 y2 x3 y3 : Z) (H1 : on_curve (x1, y1)) (H2 : on_curve (x2, y2)) (H3 : on_curve (x3, y3)).

(** The coefficients with which the difference of the two sums is a combination of the three curve equations. *)
Definition cofactor_x1 : Z :=
    x1 * x2 * x2 * x2 * x2 * y2 * y2 * y2 * x3 * x3 * y3 * D * D + x1 * x2 * x2 * x2 * x2 * y2 * x3 * x3 * y3 * D + x1 * x2 * x2 * x2 * y2 * y2 * y2 *
    y2 * x3 * y3 * y3 * D * D + x1 * x2 * x2 * x2 * y2 * y2 * x3 * x3 * x3 * D + x1 * x2 * x2 * x2 * y2 * y2 * x3 * D - x1 * x2 * x2 * y2 * y2 * y2 *
    y3 * y3 * y3 * D + x1 * x2 * x2 * y2 * y2 * y2 * y3 * D - x1 * x2 * y2 * y2 * y2 * y2 * x3 * y3 * y3 * D - y1 * x2 * x2 * x2 * x2 * y2 * y2 * y2 *
    x3 * y3 * y3 * D * D - y1 * x2 * x2 * x2 * x2 * y2 * x3 * y3 * y3 * D - y1 * x2 * x2 * x2 * y2 * y2 * y2 * y2 * x3 * x3 * y3 * D * D - y1 * x2 *
    x2 * x2 * y2 * y2 * y3 * y3 * y3 * D + y1 * x2 * x2 * x2 * y2 * y2 * y3 * D + y1 * x2 * x2 * y2 * y2 * y2 * x3 * x3 * x3 * D + y1 * x2 * x2 * y2 *
    y2 * y2 * x3 * D + y1 * x2 * y2 * y2 * y2 * y2 * x3 * x3 * y3 * D.
Definition cofactor_x2 : Z :=
    - x1 * x1 * x1 * x2 * x2 * y2 * x3 * x3 * y3 * D - x1 * x1 * x1 * x2 * y2 * y2 * x3 * y3 * y3 * D + x1 * x1 * y1 * x2 * x2 * y2 * x3 * x3 * x3 * D
    + x1 * x1 * y1 * x2 * x2 * y2 * x3 * D + x1 * x1 * y1 * x2 * y2 * y2 * y3 * y3 * y3 * D - x1 * x1 * y1 * x2 * y2 * y2 * y3 * D + x1 * y1 * y1 * x2
    * x2 * y2 * y3 * y3 * y3 * D - x1 * y1 * y1 * x2 * x2 * y2 * y3 * D + x1 * y1 * y1 * x2 * y2 * y2 * x3 * x3 * x3 * D + x1 * y1 * y1 * x2 * y2 * y2
    * x3 * D - x1 * x2 * x2 * y2 * x3 * x3 * y3 * D - x1 * x2 * y2 * y2 * x3 * y3 * y3 * D - y1 * y1 * y1 * x2 * x2 * y2 * x3 * y3 * y3 * D - y1 * y1
    * y1 * x2 * y2 * y2 * x3 * x3 * y3 * D + y1 * x2 * x2 * y2 * x3 * y3 * y3 * D + y1 * x2 * y2 * y2 * x3 * x3 * y3 * D.
Definition cofactor_x3 : Z :=
    - x1 * x1 * x1 * x2 * x2 * x2 * y2 * y2 * x3 * D - x1 * x1 * x1 * x2 * x2 * y2 * y2 * y2 * y3 * D - x1 * x1 * y1 * x2 * x2 * x2 * x2 * y2 * y2 *
    y2 * x3 * D * D - x1 * x1 * y1 * x2 * x2 * x2 * x2 * y2 * x3 * D + x1 * x1 * y1 * x2 * x2 * x2 * y2 * y2 * y2 * y2 * y3 * D * D - x1 * x1 * y1 *
    x2 * y2 * y2 * y2 * y2 * y3 * D + x1 * y1 * y1 * x2 * x2 * x2 * x2 * y2 * y2 * y2 * y3 * D * D + x1 * y1 * y1 * x2 * x2 * x2 * x2 * y2 * y3 * D -
    x1 * y1 * y1 * x2 * x2 * x2 * y2 * y2 * y2 * y2 * x3 * D * D + x1 * y1 * y1 * x2 * y2 * y2 * y2 * y2 * x3 * D - x1 * x2 * x2 * x2 * y2 * y2 * x3 *
    D - x1 * x2 * x2 * y2 * y2 * y2 * y3 * D + y1 * y1 * y1 * x2 * x2 * x2 * y2 * y2 * y3 * D + y1 * y1 * y1 * x2 * x2 * y2 * y2 * y2 * x3 * D - y1 *
    x2 * x2 * x2 * y2 * y2 * y3 * D - y1 * x2 * x2 * y2 * y2 * y2 * x3 * D.
Definition cofactor_y1 : Z :=
    - x1 * x2 * x2 * x2 * x2 * y2 * y2 * y2 * x3 * y3 * y3 * D * D - x1 * x2 * x2 * x2 * x2 * y2 * x3 * y3 * y3 * D - x1 * x2 * x2 * x2 * y2 * y2 * y2
    * y2 * x3 * x3 * y3 * D * D - x1 * x2 * x2 * x2 * y2 * y2 * y3 * y3 * y3 * D + x1 * x2 * x2 * x2 * y2 * y2 * y3 * D + x1 * x2 * x2 * y2 * y2 * y2
    * x3 * x3 * x3 * D + x1 * x2 * x2 * y2 * y2 * y2 * x3 * D + x1 * x2 * y2 * y2 * y2 * y2 * x3 * x3 * y3 * D + y1 * x2 * x2 * x2 * x2 * y2 * y2 * y2
    * x3 * x3 * y3 * D * D + y1 * x2 * x2 * x2 * x2 * y2 * x3 * x3 * y3 * D + y1 * x2 * x2 * x2 * y2 * y2 * y2 * y2 * x3 * y3 * y3 * D * D + y1 * x2 *
    x2 * x2 * y2 * y2 * x3 * x3 * x3 * D + y1 * x2 * x2 * x2 * y2 * y2 * x3 * D - y1 * x2 * x2 * y2 * y2 * y2 * y3 * y3 * y3 * D + y1 * x2 * x2 * y2 *
    y2 * y2 * y3 * D - y1 * x2 * y2 * y2 * y2 * y2 * x3 * y3 * y3 * D.
Definition cofactor_y2 : Z :=
    x1 * x1 * x1 * x2 * x2 * y2 * x3 * y3 * y3 * D + x1 * x1 * x1 * x2 * y2 * y2 * x3 * x3 * y3 * D - x1 * x1 * y1 * x2 * x2 * y2 * y3 * y3 * y3 * D +
    x1 * x1 * y1 * x2 * x2 * y2 * y3 * D - x1 * x1 * y1 * x2 * y2 * y2 * x3 * x3 * x3 * D - x1 * x1 * y1 * x2 * y2 * y2 * x3 * D - x1 * y1 * y1 * x2 *
    x2 * y2 * x3 * x3 * x3 * D - x1 * y1 * y1 * x2 * x2 * y2 * x3 * D - x1 * y1 * y1 * x2 * y2 * y2 * y3 * y3 * y3 * D + x1 * y1 * y1 * x2 * y2 * y2 *
    y3 * D + x1 * x2 * x2 * y2 * x3 * y3 * y3 * D + x1 * x2 * y2 * y2 * x3 * x3 * y3 * D + y1 * y1 * y1 * x2 * x2 * y2 * x3 * x3 * y3 * D + y1 * y1 *
    y1 * x2 * y2 * y2 * x3 * y3 * y3 * D - y1 * x2 * x2 * y2 * x3 * x3 * y3 * D - y1 * x2 * y2 * y2 * x3 * y3 * y3 * D.
Definition cofactor_y3 : Z :=
    - x1 * x1 * x1 * x2 * x2 * x2 * y2 * y2 * y3 * D - x1 * x1 * x1 * x2 * x2 * y2 * y2 * y2 * x3 * D - x1 * x1 * y1 * x2 * x2 * x2 * x2 * y2 * y2 *
    y2 * y3 * D * D - x1 * x1 * y1 * x2 * x2 * x2 * x2 * y2 * y3 * D + x1 * x1 * y1 * x2 * x2 * x2 * y2 * y2 * y2 * y2 * x3 * D * D - x1 * x1 * y1 *
    x2 * y2 * y2 * y2 * y2 * x3 * D + x1 * y1 * y1 * x2 * x2 * x2 * x2 * y2 * y2 * y2 * x3 * D * D + x1 * y1 * y1 * x2 * x2 * x2 * x2 * y2 * x3 * D -
    x1 * y1 * y1 * x2 * x2 * x2 * y2 * y2 * y2 * y2 * y3 * D * D + x1 * y1 * y1 * x2 * y2 * y2 * y2 * y2 * y3 * D - x1 * x2 * x2 * x2 * y2 * y2 * y3 *
    D - x1 * x2 * x2 * y2 * y2 * y2 * x3 * D + y1 * y1 * y1 * x2 * x2 * x2 * y2 * y2 * x3 * D + y1 * y1 * y1 * x2 * x2 * y2 * y2 * y2 * y3 * D - y1 *
    x2 * x2 * x2 * y2 * y2 * x3 * D - y1 * x2 * x2 * y2 * y2 * y2 * y3 * D.

(** The sum of three points as fractions: [(P + Q) + R] from the first two, [P + (Q + R)] from the last two. *)
Definition left_num_x : Z := num_x x1 y1 x2 y2 * (1 - delta x1 y1 x2 y2) * y3 + x3 * (num_y x1 y1 x2 y2 * (1 + delta x1 y1 x2 y2)).
Definition left_num_y : Z := num_y x1 y1 x2 y2 * (1 + delta x1 y1 x2 y2) * y3 + num_x x1 y1 x2 y2 * (1 - delta x1 y1 x2 y2) * x3.
Definition left_cross : Z := D * (num_x x1 y1 x2 y2 * x3 * num_y x1 y1 x2 y2 * y3).
Definition left_den : Z := (1 + delta x1 y1 x2 y2) * (1 - delta x1 y1 x2 y2).
Definition right_num_x : Z := x1 * (num_y x2 y2 x3 y3 * (1 + delta x2 y2 x3 y3)) + num_x x2 y2 x3 y3 * (1 - delta x2 y2 x3 y3) * y1.
Definition right_num_y : Z := y1 * (num_y x2 y2 x3 y3 * (1 + delta x2 y2 x3 y3)) + x1 * (num_x x2 y2 x3 y3 * (1 - delta x2 y2 x3 y3)).
Definition right_cross : Z := D * (x1 * num_x x2 y2 x3 y3 * y1 * num_y x2 y2 x3 y3).
Definition right_den : Z := (1 + delta x2 y2 x3 y3) * (1 - delta x2 y2 x3 y3).

Lemma assoc_identity_x : left_num_x * (right_den + right_cross) - right_num_x * (left_den + left_cross)
  = - (cofactor_x1 * curve_eq x1 y1 + cofactor_x2 * curve_eq x2 y2 + cofactor_x3 * curve_eq x3 y3).
Proof using.
  clear. unfold left_num_x, right_num_x, left_den, right_den, left_cross, right_cross, cofactor_x1, cofactor_x2, cofactor_x3, curve_eq, delta, num_x, num_y. ring.
Qed.
Lemma assoc_identity_y : left_num_y * (right_den - right_cross) - right_num_y * (left_den - left_cross)
  = - (cofactor_y1 * curve_eq x1 y1 + cofactor_y2 * curve_eq x2 y2 + cofactor_y3 * curve_eq x3 y3).
Proof using.
  clear. unfold left_num_y, right_num_y, left_den, right_den, left_cross, right_cross, cofactor_y1, cofactor_y2, cofactor_y3, curve_eq, delta, num_x, num_y. ring.
Qed.

Lemma assoc_x : left_num_x * (right_den + right_cross) ≡p right_num_x * (left_den + left_cross).
Proof using H1 H2 H3.
  apply eqp_sub_zero. rewrite assoc_identity_x. rewrite (on_curve_eq _ _ H1), (on_curve_eq _ _ H2), (on_curve_eq _ _ H3). by rewrite !Z.mul_0_r.
Qed.
Lemma assoc_y : left_num_y * (right_den - right_cross) ≡p right_num_y * (left_den - left_cross).
Proof using H1 H2 H3.
  apply eqp_sub_zero. rewrite assoc_identity_y. rewrite (on_curve_eq _ _ H1), (on_curve_eq _ _ H2), (on_curve_eq _ _ H3). by rewrite !Z.mul_0_r.
Qed.

Lemma den_nonzero xa ya xb yb : on_curve (xa, ya) -> on_curve (xb, yb) -> ~ (1 + delta xa ya xb yb) * (1 - delta xa ya xb yb) ≡p 0.
Proof using. intros Ha Hb. apply mul_nonzero; [by apply plus_nonzero|by apply minus_nonzero]. Qed.
End Assoc.

(** Two fractions with equal cross products. *)
Lemma fraction_eq x y n m e f : ~ e ≡p 0 -> ~ f ≡p 0 -> x * e ≡p n -> y * f ≡p m -> n * f ≡p m * e -> x ≡p y.
Proof.
  intros He Hf Ex Ey E. apply (mul_cancel (e * f)); [by apply mul_nonzero|].
  transitivity (x * e * f); [apply eq_subrelation; [apply _|ring]|]. rewrite Ex, E, <- Ey. apply eq_subrelation; [apply _|ring].
Qed.

Lemma add_reduced P Q : (ed_add P Q).1 mod p25519 = (ed_add P Q).1 /\ (ed_add P Q).2 mod p25519 = (ed_add P Q).2.
Proof. destruct P as [x1 y1], Q as [x2 y2]. cbn [ed_add fst snd]. by rewrite !Z.mod_mod. Qed.
Lemma add_eq P Q P' Q' : ed_add P Q ≡P ed_add P' Q' -> ed_add P Q = ed_add P' Q'.
Proof.
  intros [E F]. destruct (add_reduced P Q) as [R1 R2], (add_reduced P' Q') as [R3 R4]. unfold eqp in *.
  destruct (ed_add P Q), (ed_add P' Q'). cbn [fst snd] in *. congruence.
Qed.

(** The first sum of a three-point sum, put over its denominators. *)
Section Clear.
Context (x12 y12 nx ny dp dm x3 y3 : Z) (Ex : x12 * dp ≡p nx) (Ey : y12 * dm ≡p ny).
Lemma clear_cross : D * (x12 * x3 * y12 * y3) * (dp * dm) ≡p D * (nx * x3 * ny * y3).
Proof using Ex Ey. rewrite <- Ex, <- Ey. apply eq_subrelation; [apply _|ring]. Qed.
Lemma clear_num_x : (x12 * y3 + x3 * y12) * (dp * dm) ≡p nx * dm * y3 + x3 * (ny * dp).
Proof using Ex Ey. rewrite <- Ex, <- Ey. apply eq_subrelation; [apply _|ring]. Qed.
Lemma clear_num_y : (y12 * y3 + x12 * x3) * (dp * dm) ≡p ny * dp * y3 + nx * dm * x3.
Proof using Ex Ey. rewrite <- Ex, <- Ey. apply eq_subrelation; [apply _|ring]. Qed.
End Clear.

Lemma over_den s den c n e cross num : s * (e + c) ≡p n -> c * den ≡p cross -> n * den ≡p num -> s * (e * den + cross) ≡p num.
Proof.
  intros Es Ec En. rewrite <- Ec, <- En, <- Es. apply eq_subrelation; [apply _|ring].
Qed.
Lemma over_den_nonzero den c cross : ~ 1 + c ≡p 0 -> ~ den ≡p 0 -> c * den ≡p cross -> ~ den + cross ≡p 0.
Proof.
  intros H1 H2 Ec H. apply (mul_nonzero _ _ H1 H2). rewrite <- H, <- Ec. apply eq_subrelation; [apply _|ring].
Qed.

(** Both coordinates of [(P + Q) + R], over the denominators of [P + Q]. *)
Lemma left_sum x1 y1 x2 y2 x3 y3 : on_curve (x1, y1) -> on_curve (x2, y2) -> on_curve (x3, y3) ->
  let S := ed_add (ed_add (x1, y1) (x2, y2)) (x3, y3) in
  let den := left_den x1 y1 x2 y2 in let cross := left_cross x1 y1 x2 y2 x3 y3 in
  (S.1 * (den + cross) ≡p left_num_x x1 y1 x2 y2 x3 y3 /\ ~ den + cross ≡p 0) /\
  (S.2 * (den - cross) ≡p left_num_y x1 y1 x2 y2 x3 y3 /\ ~ den - cross ≡p 0).
Proof.
  intros H1 H2 H3. pose proof (ed_add_x _ _ _ _ H1 H2) as Ex. pose proof (ed_add_y _ _ _ _ H1 H2) as Ey. pose proof (add_on _ _ H1 H2) as H12.
  pose proof (den_nonzero _ _ _ _ H1 H2) as Hn. destruct (ed_add (x1, y1) (x2, y2)) as [x12 y12]. cbn [fst snd] in Ex, Ey. cbv zeta.
  pose proof (ed_add_x _ _ _ _ H12 H3) as Sx. pose proof (ed_add_y _ _ _ _ H12 H3) as Sy.
  pose proof (plus_nonzero _ _ _ _ H12 H3) as Np. pose proof (minus_nonzero _ _ _ _ H12 H3) as Nm.
  destruct (ed_add (x12, y12) (x3, y3)) as [X Y]. cbn [fst snd] in *. fold (left_den x1 y1 x2 y2) in Hn.
  pose proof (clear_cross _ _ _ _ _ _ x3 y3 Ex Ey) as Ec. fold (left_den x1 y1 x2 y2) (delta x12 y12 x3 y3) (left_cross x1 y1 x2 y2 x3 y3) in Ec.
  assert (- delta x12 y12 x3 y3 * left_den x1 y1 x2 y2 ≡p - left_cross x1 y1 x2 y2 x3 y3) as Ec' by (by rewrite Z.mul_opp_l, Ec).
  rewrite <- !Z.add_opp_r in *. split; split.
  - rewrite <- (Z.mul_1_l (left_den _ _ _ _)). exact (over_den _ _ _ _ _ _ _ Sx Ec (clear_num_x _ _ _ _ _ _ _ _ Ex Ey)).
  - exact (over_den_nonzero _ _ _ Np Hn Ec).
  - rewrite <- (Z.mul_1_l (left_den _ _ _ _)). exact (over_den _ _ _ _ _ _ _ Sy Ec' (clear_num_y _ _ _ _ _ _ _ _ Ex Ey)).
  - exact (over_den_nonzero _ _ _ Nm Hn Ec').
Qed.

(** The other order is the same sum of the points reversed. *)
Lemma right_sum x1 y1 x2 y2 x3 y3 : left_den x3 y3 x2 y2 = right_den x2 y2 x3 y3 /\ left_cross x3 y3 x2 y2 x1 y1 = right_cross x1 y1 x2 y2 x3 y3 /\
  left_num_x x3 y3 x2 y2 x1 y1 = right_num_x x1 y1 x2 y2 x3 y3 /\ left_num_y x3 y3 x2 y2 x1 y1 = right_num_y x1 y1 x2 y2 x3 y3.
Proof.
  unfold left_num_x, right_num_x, left_num_y, right_num_y, left_den, right_den, left_cross, right_cross, delta, num_x, num_y.
  split_and!; ring.
Qed.

Lemma add_assoc P Q R : on_curve P -> on_curve Q -> on_curve R -> ed_add (ed_add P Q) R = ed_add P (ed_add Q R).
Proof.
  intros HP HQ HR. rewrite (add_comm P (ed_add Q R)), (add_comm Q R). apply add_eq.
  destruct P as [x1 y1], Q as [x2 y2], R as [x3 y3].
  destruct (left_sum _ _ _ _ _ _ HP HQ HR) as [[Lx Nx] [Ly Ny]]. destruct (left_sum _ _ _ _ _ _ HR HQ HP) as [[Rx Mx] [Ry My]].
  destruct (right_sum x1 y1 x2 y2 x3 y3) as (E1 & E2 & E3 & E4). rewrite ?E1, ?E2, ?E3, ?E4 in *. split.
  - exact (fraction_eq _ _ _ _ _ _ Nx Mx Lx Rx (assoc_x _ _ _ _ _ _ HP HQ HR)).
  - exact (fraction_eq _ _ _ _ _ _ Ny My Ly Ry (assoc_y _ _ _ _ _ _ HP HQ HR)).
Qed.

Lemma add_swap P Q R S : on_curve P -> on_curve Q -> on_curve R -> on_curve S ->
  ed_add (ed_add P Q) (ed_add R S) = ed_add (ed_add P R) (ed_add Q S).
Proof.
  intros HP HQ HR HS. rewrite (add_assoc P Q), (add_assoc P R) by auto with curve. f_equal.
  rewrite <- !add_assoc by auto with curve. by rewrite (add_comm Q R).
Qed.

Lemma opp_add P Q : ed_opp (ed_add P Q) ≡P ed_add (ed_opp P) (ed_opp Q).
Proof.
  destruct P as [x1 y1], Q as [x2 y2]. unfold ed_opp, ed_add.
  replace (- x1 * - x2 * y1 * y2) with (x1 * x2 * y1 * y2) by ring. generalize (inv (1 + D * (x1 * x2 * y1 * y2))) (inv (1 - D * (x1 * x2 * y1 * y2))).
  intros i j. split; cbn [fst snd]; rewrite !eqp_mod; apply eq_subrelation; (apply _ || ring).
Qed.
Lemma opp_opp P : ed_opp (ed_opp P) = P.
Proof. destruct P as [x y]. cbn [ed_opp]. by rewrite Z.opp_involutive. Qed.
Lemma add_opp_l P : on_curve P -> ed_add (ed_opp P) P ≡P ed_zero.
Proof. rewrite add_comm. apply add_opp_r. Qed.
Lemma add_opp_cancel P Q : on_curve P -> on_curve Q -> ed_add (ed_add P Q) (ed_opp Q) ≡P P.
Proof. intros HP HQ. rewrite add_assoc by auto with curve. rewrite (add_opp_r Q HQ). by apply add_zero_r. Qed.
Lemma add_cancel P Q R : on_curve P -> on_curve Q -> on_curve R -> ed_add P R ≡P ed_add Q R -> P ≡P Q.
Proof. intros HP HQ HR E. rewrite <- (add_opp_cancel P R), <- (add_opp_cancel Q R) by done. by rewrite E. Qed.

(** ** Multiples *)

Definition ed_double (A : Z * Z) : Z * Z := ed_add A A.

Fixpoint ed_pmul (n : positive) (P : Z * Z) : Z * Z :=
  match n with
  | xH => P
  | xO n => ed_double (ed_pmul n P)
  | xI n => ed_add (ed_double (ed_pmul n P)) P
  end.
(** [n] times the point [P]. *)
Definition ed_zmul (n : Z) (P : Z * Z) : Z * Z :=
  match n with Z0 => ed_zero | Zpos n => ed_pmul n P | Zneg n => ed_opp (ed_pmul n P) end.

Lemma double_on A : on_curve A -> on_curve (ed_double A).
Proof. intros H. by apply add_on. Qed.
#[export] Hint Resolve double_on : curve.
Lemma pmul_on n P : on_curve P -> on_curve (ed_pmul n P).
Proof. intros HP. induction n; cbn [ed_pmul]; auto with curve. Qed.
#[export] Hint Resolve pmul_on : curve.
Lemma zmul_on n P : on_curve P -> on_curve (ed_zmul n P).
Proof. intros HP. destruct n; cbn [ed_zmul]; auto with curve. Qed.
#[export] Hint Resolve zmul_on : curve.

#[export] Instance ed_double_proper : Proper (peq ==> peq) ed_double.
Proof. intros P Q E. unfold ed_double. by rewrite E. Qed.
#[export] Instance ed_pmul_proper n : Proper (peq ==> peq) (ed_pmul n).
Proof. intros P Q E. induction n as [n IH|n IH|]; cbn [ed_pmul]; [rewrite IH, E; reflexivity|rewrite IH; reflexivity|exact E]. Qed.
#[export] Instance ed_zmul_proper n : Proper (peq ==> peq) (ed_zmul n).
Proof. intros P Q E. destruct n; cbn [ed_zmul]; by rewrite ?E. Qed.

Lemma pmul_succ n P : on_curve P -> ed_pmul (Pos.succ n) P ≡P ed_add (ed_pmul n P) P.
Proof.
  intros HP. induction n as [n IH|n IH|]; [|reflexivity|reflexivity].
  change (ed_double (ed_pmul (Pos.succ n) P) ≡P ed_add (ed_add (ed_double (ed_pmul n P)) P) P).
  unfold ed_double. rewrite IH. rewrite add_swap by auto with curve. by rewrite <- add_assoc by auto with curve.
Qed.

Section Multiples.
Context (P : Z * Z) (HP : on_curve P).

Lemma zmul_succ n : ed_zmul (Z.succ n) P ≡P ed_add (ed_zmul n P) P.
Proof using HP.
  destruct n as [|n|n].
  - cbn [Z.succ Z.add ed_zmul ed_pmul]. symmetry. by apply add_zero_l.
  - replace (Z.succ (Zpos n)) with (Zpos (Pos.succ n)) by lia. by apply pmul_succ.
  - destruct (Pos.eq_dec n 1) as [->|Hn].
    + cbn [Z.succ Z.add Z.pos_sub ed_zmul ed_pmul]. symmetry. by apply add_opp_l.
    + rewrite <- (Pos.succ_pred n Hn). replace (Z.succ (Zneg (Pos.succ (Pos.pred n)))) with (Zneg (Pos.pred n)) by lia. cbn [ed_zmul].
      rewrite pmul_succ by done. rewrite opp_add. rewrite add_assoc by auto with curve. rewrite add_opp_l by done. symmetry. auto using add_zero_r with curve.
Qed.
Lemma zmul_add m n : ed_zmul (m + n) P ≡P ed_add (ed_zmul m P) (ed_zmul n P).
Proof using HP.
  induction n as [|n IH|n IH] using Z.peano_ind.
  - rewrite Z.add_0_r. symmetry. auto using add_zero_r with curve.
  - rewrite Z.add_succ_r, !zmul_succ, IH. by rewrite add_assoc by auto with curve.
  - apply (add_cancel _ _ P); auto with curve. rewrite add_assoc by auto with curve. rewrite <- !zmul_succ.
    rewrite <- Z.add_succ_r, Z.succ_pred. exact IH.
Qed.
Lemma zmul_opp n : ed_zmul (- n) P ≡P ed_opp (ed_zmul n P).
Proof using HP.
  apply (add_cancel _ _ (ed_zmul n P)); auto with curve. rewrite <- zmul_add, add_opp_l by auto with curve.
  by rewrite Z.add_opp_diag_l.
Qed.
Lemma zmul_double n : ed_double (ed_zmul n P) ≡P ed_zmul (2 * n) P.
Proof using HP. unfold ed_double. rewrite <- zmul_add. by replace (n + n) with (2 * n) by lia. Qed.
End Multiples.

Lemma zmul_zmul m n P : on_curve P -> ed_zmul m (ed_zmul n P) ≡P ed_zmul (m * n) P.
Proof.
  intros HP. induction m as [|m IH|m IH] using Z.peano_ind.
  - reflexivity.
  - rewrite zmul_succ by auto with curve. rewrite IH. rewrite <- zmul_add by done. by replace (m * n + n) with (Z.succ m * n) by lia.
  - apply (add_cancel _ _ (ed_zmul n P)); auto with curve. rewrite <- zmul_succ, <- zmul_add by auto with curve.
    rewrite Z.succ_pred, IH. by replace (Z.pred m * n + n) with (m * n) by lia.
Qed.
Lemma zmul_opp_r n P : on_curve P -> ed_zmul n (ed_opp P) ≡P ed_opp (ed_zmul n P).
Proof.
  intros HP. transitivity (ed_zmul n (ed_zmul (-1) P)); [reflexivity|]. rewrite zmul_zmul by done.
  rewrite <- zmul_opp by done. by replace (n * -1) with (- n) by lia.
Qed.
(** Multiples by a multiple of a number that annihilates the point. *)
Lemma zmul_mod l n P : on_curve P -> 0 < l -> ed_zmul l P ≡P ed_zero -> ed_zmul (n mod l) P ≡P ed_zmul n P.
Proof.
  intros HP Hl E. rewrite (Z.div_mod n l) at 2 by lia. rewrite zmul_add by done. rewrite (Z.mul_comm l), <- zmul_zmul by done. rewrite E.
  assert (forall k, ed_zmul k ed_zero ≡P ed_zero) as Z0; [|rewrite Z0; symmetry; auto using add_zero_l with curve].
  intros k. induction k as [|k IH|k IH] using Z.peano_ind; [reflexivity|rewrite zmul_succ, IH by exact zero_on; apply add_zero_l, zero_on|].
  apply (add_cancel _ _ ed_zero); auto with curve. rewrite <- zmul_succ, Z.succ_pred, IH by exact zero_on. symmetry. apply add_zero_l, zero_on.
Qed.
