(* ===== verification/Ge.v ===== *)
(** * Points of the curve ([sm/src/ed25519/ge.c])

    The points of -x^2 + y^2 = 1 + d x^2 y^2 in projective, extended, completed and precomputed
    coordinates, over the machine integers of [Fe]: an element is ten limbs, or an
    error where a computation overflowed. *)

From S2P Require Import Prelude Mem Limbs Fe GeTables.
From Stdlib Require Import ZArith Lia.
From stdpp Require Import base tactics list numbers.
Local Open Scope Z_scope.

(** An element in the registers of the machine. *)
Definition elt : Type := fe (option Z).
Definition fe_const (f : fe Z) : elt := fe_map Some f.

Record ge_p2 : Type := mkP2 { p2X : elt; p2Y : elt; p2Z : elt }.
Record ge_p3 : Type := mkP3 { p3X : elt; p3Y : elt; p3Z : elt; p3T : elt }.
Record ge_p1p1 : Type := mkP1p1 { cX : elt; cY : elt; cZ : elt; cT : elt }.
Record ge_cached : Type := mkCached { YplusX : elt; YminusX : elt; caZ : elt; T2d : elt }.
Definition precomp : Type := ge_precomp (option Z).
Definition const_precomp (q : ge_precomp Z) : precomp := mkPrecomp (fe_const (yplusx q)) (fe_const (yminusx q)) (fe_const (xy2d q)).

(** ** Addition *)

Definition ge_add (p : ge_p3) (q : ge_cached) : ge_p1p1 :=
  let X := fe_add (p3Y p) (p3X p) in
  let Y := fe_sub (p3Y p) (p3X p) in
  let Z := fe_mul X (YplusX q) in
  let Y := fe_mul Y (YminusX q) in
  let T := fe_mul (T2d q) (p3T p) in
  let X := fe_mul (p3Z p) (caZ q) in
  let t0 := fe_add X X in
  let X := fe_sub Z Y in
  let Y := fe_add Z Y in
  let Z := fe_add t0 T in
  let T := fe_sub t0 T in
  mkP1p1 X Y Z T.

Definition ge_sub (p : ge_p3) (q : ge_cached) : ge_p1p1 :=
  let X := fe_add (p3Y p) (p3X p) in
  let Y := fe_sub (p3Y p) (p3X p) in
  let Z := fe_mul X (YminusX q) in
  let Y := fe_mul Y (YplusX q) in
  let T := fe_mul (T2d q) (p3T p) in
  let X := fe_mul (p3Z p) (caZ q) in
  let t0 := fe_add X X in
  let X := fe_sub Z Y in
  let Y := fe_add Z Y in
  let Z := fe_sub t0 T in
  let T := fe_add t0 T in
  mkP1p1 X Y Z T.

Definition ge_madd (p : ge_p3) (q : precomp) : ge_p1p1 :=
  let X := fe_add (p3Y p) (p3X p) in
  let Y := fe_sub (p3Y p) (p3X p) in
  let Z := fe_mul X (yplusx q) in
  let Y := fe_mul Y (yminusx q) in
  let T := fe_mul (xy2d q) (p3T p) in
  let t0 := fe_add (p3Z p) (p3Z p) in
  let X := fe_sub Z Y in
  let Y := fe_add Z Y in
  let Z := fe_add t0 T in
  let T := fe_sub t0 T in
  mkP1p1 X Y Z T.

Definition ge_msub (p : ge_p3) (q : precomp) : ge_p1p1 :=
  let X := fe_add (p3Y p) (p3X p) in
  let Y := fe_sub (p3Y p) (p3X p) in
  let Z := fe_mul X (yminusx q) in
  let Y := fe_mul Y (yplusx q) in
  let T := fe_mul (xy2d q) (p3T p) in
  let t0 := fe_add (p3Z p) (p3Z p) in
  let X := fe_sub Z Y in
  let Y := fe_add Z Y in
  let Z := fe_sub t0 T in
  let T := fe_add t0 T in
  mkP1p1 X Y Z T.

(** ** Conversions and doubling *)

Definition ge_p1p1_to_p2 (p : ge_p1p1) : ge_p2 := mkP2 (fe_mul (cX p) (cT p)) (fe_mul (cY p) (cZ p)) (fe_mul (cZ p) (cT p)).
Definition ge_p1p1_to_p3 (p : ge_p1p1) : ge_p3 :=
  mkP3 (fe_mul (cX p) (cT p)) (fe_mul (cY p) (cZ p)) (fe_mul (cZ p) (cT p)) (fe_mul (cX p) (cY p)).
Definition ge_p2_0 : ge_p2 := mkP2 fe_0 fe_1 fe_1.
Definition ge_p3_0 : ge_p3 := mkP3 fe_0 fe_1 fe_1 fe_0.
Definition ge_p3_to_p2 (p : ge_p3) : ge_p2 := mkP2 (fe_copy (p3X p)) (fe_copy (p3Y p)) (fe_copy (p3Z p)).

Definition ge_p2_dbl (p : ge_p2) : ge_p1p1 :=
  let X := fe_sq (p2X p) in
  let Z := fe_sq (p2Y p) in
  let T := fe_sq2 (p2Z p) in
  let Y := fe_add (p2X p) (p2Y p) in
  let t0 := fe_sq Y in
  let Y := fe_add Z X in
  let Z := fe_sub Z X in
  let X := fe_sub t0 Y in
  let T := fe_sub T Z in
  mkP1p1 X Y Z T.

Definition ge_p3_dbl (p : ge_p3) : ge_p1p1 := ge_p2_dbl (ge_p3_to_p2 p).

Definition d : fe Z := mkFe (-10913610) 13857413 (-15372611) 6949391 114729 (-8787816) (-6275908) (-3247719) (-18696448) (-12055116).
Definition sqrtm1 : fe Z := mkFe (-32595792) (-7943725) 9377950 3500415 12389472 (-272473) (-25146209) (-2005654) 326686 11406482.
Definition d2 : fe Z := mkFe (-21827239) (-5839606) (-30745221) 13898782 229458 15978800 (-12551817) (-6495438) 29715968 9444199.

Definition ge_p3_to_cached (p : ge_p3) : ge_cached :=
  mkCached (fe_add (p3Y p) (p3X p)) (fe_sub (p3Y p) (p3X p)) (fe_copy (p3Z p)) (fe_mul (p3T p) (fe_const d2)).

(** ** Encoding *)

(** [s[31] ^= fe_isnegative(x) << 7] *)
Definition set_sign (s : list Z) (n : Z) : list Z := <[31%nat := uchar (Z.lxor (byte_at s 31) (Z.shiftl n 7))]> s.

Definition encode_point (hX hY hZ : elt) : option (list Z) :=
  let recip := fe_invert hZ in
  let x := fe_mul hX recip in
  let y := fe_mul hY recip in
  s ← fe_tobytes y; n ← fe_isnegative x; Some (set_sign s n).

Definition ge_p3_tobytes (h : ge_p3) : option (list Z) := encode_point (p3X h) (p3Y h) (p3Z h).
Definition ge_tobytes (h : ge_p2) : option (list Z) := encode_point (p2X h) (p2Y h) (p2Z h).

(** The end of [ge_frombytes_negate_vartime]: the sign and the product. *)
Definition frombytes_finish (s : list Z) (X Y Zc : elt) : option (option ge_p3) :=
  n ← fe_isnegative X;
  let X := if n =? Z.shiftr (byte_at s 31) 7 then fe_neg X else X in
  let T := fe_mul X Y in
  Some (Some (mkP3 X Y Zc T)).

(** The tests of the candidate for the root. *)
Definition frombytes_check (s : list Z) (X Y Zc vxx u : elt) : option (option ge_p3) :=
  nonzero ← fe_isnonzero (fe_sub vxx u);
  if nonzero : bool then
    nonzero ← fe_isnonzero (fe_add vxx u);
    if nonzero : bool then Some None else frombytes_finish s (fe_mul X (fe_const sqrtm1)) Y Zc
  else frombytes_finish s X Y Zc.

(** The point of an encoding, negated; [Some None] is the result -1. *)
Definition ge_frombytes_negate_vartime (s : list Z) : option (option ge_p3) :=
  let Y : elt := fe_frombytes s in
  let Z : elt := fe_1 in
  let u := fe_sq Y in
  let v := fe_mul u (fe_const d) in
  let u := fe_sub u Z in
  let v := fe_add v Z in
  let v3 := fe_sq v in
  let v3 := fe_mul v3 v in
  let X := fe_sq v3 in
  let X := fe_mul X v in
  let X := fe_mul X u in
  let X := fe_pow22523 X in
  let X := fe_mul X v3 in
  let X := fe_mul X u in
  let vxx := fe_sq X in
  let vxx := fe_mul vxx v in
  frombytes_check s X Y Z vxx u.

(** ** The fixed base *)

Definition schar (x : Z) : Z := wrap 8 x.

Definition equal (b c : Z) : Z :=
  let ub := uchar b in
  let uc := uchar c in
  let x := uchar (Z.lxor ub uc) in
  let y := (x - 1) mod 2 ^ 64 in
  uchar (Z.shiftr y 63).

Definition negative (b : Z) : Z := uchar (Z.shiftr (b mod 2 ^ 64) 63).

(** [fe_cmov] of registers. *)
Definition mov (f g : elt) (b : Z) : elt :=
  match fe_get f, fe_get g with Some f, Some g => fe_const (fe_cmov f g b) | _, _ => fe_map (fun _ => None) fe_0 end.

Definition cmov (t u : precomp) (b : Z) : precomp :=
  mkPrecomp (mov (yplusx t) (yplusx u) b) (mov (yminusx t) (yminusx u) b) (mov (xy2d t) (xy2d u) b).

Definition base_at (pos j : nat) : precomp :=
  match nth_error (nth pos base []) j with
  | Some q => const_precomp q
  | None => mkPrecomp (fe_map (fun _ => None) fe_0) (fe_map (fun _ => None) fe_0) (fe_map (fun _ => None) fe_0)
  end.

Definition select (pos : nat) (b : Z) : precomp :=
  let bnegative := negative b in
  let babs := uchar (b - shl 32 (Z.land (- bnegative) b) 1) in
  let t := mkPrecomp fe_1 fe_1 fe_0 in
  let t := cmov t (base_at pos 0) (equal (schar babs) 1) in
  let t := cmov t (base_at pos 1) (equal (schar babs) 2) in
  let t := cmov t (base_at pos 2) (equal (schar babs) 3) in
  let t := cmov t (base_at pos 3) (equal (schar babs) 4) in
  let t := cmov t (base_at pos 4) (equal (schar babs) 5) in
  let t := cmov t (base_at pos 5) (equal (schar babs) 6) in
  let t := cmov t (base_at pos 6) (equal (schar babs) 7) in
  let t := cmov t (base_at pos 7) (equal (schar babs) 8) in
  let minust := mkPrecomp (fe_copy (yminusx t)) (fe_copy (yplusx t)) (fe_neg (xy2d t)) in
  cmov t minust bnegative.

(** The sixty-four digits of four bits. *)
Definition nibbles (a : list Z) : list Z := flat_map (fun b => [Z.land (Z.shiftr b 0) 15; Z.land (Z.shiftr b 4) 15]) a.

(** The carries: all digits but the last. *)
Fixpoint recode (carry : Z) (e : list Z) : list Z :=
  match e with
  | [] => []
  | [x] => [schar (x + carry)]
  | x :: e =>
      let x := schar (x + carry) in
      let carry := schar (x + 8) in
      let carry := schar (Z.shiftr carry 4) in
      schar (x - shl 32 carry 4) :: recode carry e
  end.

Definition digits_of (a : list Z) : list Z := recode 0 (nibbles a).

Definition add_digit (e : list Z) (h : ge_p3) (i : nat) : ge_p3 :=
  let t := select (Nat.div2 i) (nth i e 0) in
  let r := ge_madd h t in
  ge_p1p1_to_p3 r.

Definition times16 (h : ge_p3) : ge_p3 :=
  let r := ge_p3_dbl h in
  let s := ge_p1p1_to_p2 r in
  let r := ge_p2_dbl s in
  let s := ge_p1p1_to_p2 r in
  let r := ge_p2_dbl s in
  let s := ge_p1p1_to_p2 r in
  let r := ge_p2_dbl s in
  ge_p1p1_to_p3 r.

Definition odd_indices : list nat := map (fun k => (2 * k + 1)%nat) (seq 0 32).
Definition even_indices : list nat := map (fun k => (2 * k)%nat) (seq 0 32).

Definition ge_scalarmult_base (a : list Z) : ge_p3 :=
  let e := digits_of a in
  let h := fold_left (add_digit e) odd_indices ge_p3_0 in
  let h := times16 h in
  fold_left (add_digit e) even_indices h.

(** ** Two scalars *)

(** The bits of a scalar, and the pass that turns them into digits that are zero or odd. *)
Definition bits_of (a : list Z) : list Z := map (fun i => Z.land 1 (Z.shiftr (byte_at a (i / 8)) (Z.of_nat (i mod 8)))) (seq 0 256).

Fixpoint slide_carry (n k : nat) (r : list Z) : list Z :=
  match n with
  | O => r
  | S n => if byte_at r k =? 0 then <[k := 1]> r else slide_carry n (S k) (<[k := 0]> r)
  end.

(** The loop on [b], [n] rounds at most. *)
Fixpoint slide_at (n i b : nat) (r : list Z) : list Z :=
  match n with
  | O => r
  | S n =>
      if (i + b <? 256)%nat then
        let ri := byte_at r i in
        let x := byte_at r (i + b) in
        if negb (x =? 0) then
          if ri + shl 32 x (Z.of_nat b) <=? 15 then slide_at n i (S b) (<[(i + b)%nat := 0]> (<[i := schar (ri + shl 32 x (Z.of_nat b))]> r))
          else if -15 <=? ri - shl 32 x (Z.of_nat b) then
            slide_at n i (S b) (slide_carry (256 - (i + b)) (i + b) (<[i := schar (ri - shl 32 x (Z.of_nat b))]> r))
          else r
        else slide_at n i (S b) r
      else r
  end.

Definition slide (a : list Z) : list Z :=
  fold_left (fun r i => if negb (byte_at r i =? 0) then slide_at 6 i 1 r else r) (seq 0 256) (bits_of a).

(** A, 3A, ..., 15A *)
Fixpoint odd_multiples (n : nat) (A2 : ge_p3) (q : ge_cached) : list ge_cached :=
  q :: match n with O => [] | S n => odd_multiples n A2 (ge_p3_to_cached (ge_p1p1_to_p3 (ge_add A2 q))) end.

(** The digits of weight [2^i] are added to the double of the result; [None] where an index is
    outside its table. *)
Definition add_multiple (Ai : list ge_cached) (x : Z) (t : ge_p1p1) : option ge_p1p1 :=
  if 0 <? x then q ← nth_error Ai (Z.to_nat (x / 2)); Some (ge_add (ge_p1p1_to_p3 t) q)
  else if x <? 0 then q ← nth_error Ai (Z.to_nat (- x / 2)); Some (ge_sub (ge_p1p1_to_p3 t) q)
  else Some t.

Definition add_base (x : Z) (t : ge_p1p1) : option ge_p1p1 :=
  if 0 <? x then q ← nth_error Bi (Z.to_nat (x / 2)); Some (ge_madd (ge_p1p1_to_p3 t) (const_precomp q))
  else if x <? 0 then q ← nth_error Bi (Z.to_nat (- x / 2)); Some (ge_msub (ge_p1p1_to_p3 t) (const_precomp q))
  else Some t.

Fixpoint double_and_add (Ai : list ge_cached) (digits : list (Z * Z)) (r : ge_p2) : option ge_p2 :=
  match digits with
  | [] => Some r
  | (x, y) :: digits =>
      t ← add_multiple Ai x (ge_p2_dbl r); t ← add_base y t; double_and_add Ai digits (ge_p1p1_to_p2 t)
  end.

(** The digits from the most significant one that is not zero. *)
Fixpoint drop_zeros (digits : list (Z * Z)) : list (Z * Z) :=
  match digits with
  | (x, y) :: digits' => if negb (x =? 0) || negb (y =? 0) then digits else drop_zeros digits'
  | [] => []
  end.

(** The pairs of digits that the second loop uses, the most significant first. *)
Definition both_digits (a b : list Z) : list (Z * Z) :=
  let aslide := slide a in
  let bslide := slide b in
  drop_zeros (rev (combine aslide bslide)).

Definition ge_double_scalarmult_vartime (a : list Z) (A : ge_p3) (b : list Z) : option ge_p2 :=
  let A0 := ge_p3_to_cached A in
  let A2 := ge_p1p1_to_p3 (ge_p3_dbl A) in
  let Ai := odd_multiples 7 A2 A0 in
  double_and_add Ai (both_digits a b) ge_p2_0.
