(* ===== verification/GeSpec.v ===== *)
(** * The formulas on points

    Every function of [Ge] stays within the bounds of the field arithmetic, so that nothing
    overflows, and computes the formulas of the complete addition law: a point in
    extended coordinates represents an affine point, and the results represent the sums. *)

From S2P Require Import Prelude Mem Limbs Primes Fe FeSpec FeBytes Edwards EdGroup GeTables Ge.
From Stdlib Require Import ZArith Lia.
From stdpp Require Import base tactics list numbers.
Local Open Scope Z_scope.

#[export] Instance computes_proper x b : Proper (eqp ==> iff) (computes x b).
Proof. intros v u E. split; apply computes_mod; [exact E|symmetry; exact E]. Qed.

(** ** Operations on registers *)

Section Registers.
Context (x y : elt) (b c r : fe range) (v u : Z) (Hx : computes x b v) (Hy : computes y c u).

Lemma computes_add_gen : fe_all range_le (fe_add b c) r -> computes (fe_add x y) r (v + u).
Proof using Hx Hy.
  intros Hr. destruct Hx as (f & -> & Hf & Vf), Hy as (g & -> & Hg & Vg).
  apply (computes_mod _ _ (fe_val f + fe_val g)); [apply eqp_add; [exact Vf|exact Vg]|].
  eapply computes_intro; [apply fe_add_rel; apply fe_rel_in; eassumption|exact Hr|apply fe_add_val].
Qed.
Lemma computes_sub_gen : fe_all range_le (fe_sub b c) r -> computes (fe_sub x y) r (v - u).
Proof using Hx Hy.
  intros Hr. destruct Hx as (f & -> & Hf & Vf), Hy as (g & -> & Hg & Vg).
  apply (computes_mod _ _ (fe_val f - fe_val g)); [apply eqp_sub; [exact Vf|exact Vg]|].
  eapply computes_intro; [apply fe_sub_rel; apply fe_rel_in; eassumption|exact Hr|apply fe_sub_val].
Qed.
Lemma computes_mul_gen : fe_all range_le b large -> fe_all range_le c large -> computes (fe_mul x y) reduced (v * u).
Proof using Hx Hy. intros Hb Hc. apply computes_mul; [exact (computes_le _ _ _ _ Hb Hx)|exact (computes_le _ _ _ _ Hc Hy)]. Qed.
Lemma computes_sq_gen : fe_all range_le b large -> computes (fe_sq x) reduced (v * v).
Proof using Hx. intros Hb. apply computes_sq. eapply computes_le; eassumption. Qed.
Lemma computes_sq2_gen : fe_all range_le b large -> computes (fe_sq2 x) reduced (2 * v * v).
Proof using Hx.
  intros Hb. destruct Hx as (f & -> & Hf & Vf). apply (computes_mod _ _ (2 * fe_val f * fe_val f)).
  - apply eqp_mul; [apply eqp_mul; [reflexivity|exact Vf]|exact Vf].
  - apply fe_sq2_ok. eapply fe_in_le; eassumption.
Qed.
Lemma computes_conv w : v = w -> fe_all range_le b r -> computes x r w.
Proof using Hx. intros <- Hr. eapply computes_le; eassumption. Qed.
End Registers.

Lemma computes_copy x b v : computes x b v -> computes (fe_copy x) b v.
Proof. by destruct x. Qed.

Lemma computes_const f b : fe_in b f -> computes (fe_const f) b (fe_val f).
Proof. intros Hf. exists f. repeat split; done || apply Hf. Qed.

Ltac box := vm_compute; repeat split.

(** The assignments of a function, with the bounds and the value of each. *)
Ltac fe_lets :=
  repeat lazymatch goal with
  | |- ?P (let v := ?e in @?k v) =>
      refine (let_eq P e k _); let y := fresh "t" in let E := fresh "E" in let H := fresh "H" in
      intros y E; cbv beta;
      lazymatch e with
      | fe_add ?a ?b =>
          lazymatch goal with Ha : computes a _ _ |- _ => lazymatch goal with Hb : computes b _ _ |- _ =>
            first [(pose proof (computes_add_gen _ _ _ _ medium _ _ Ha Hb ltac:(box)) as H; rewrite <- E in H)
                  |(pose proof (computes_add_gen _ _ _ _ large _ _ Ha Hb ltac:(box)) as H; rewrite <- E in H)] end end
      | fe_sub ?a ?b =>
          lazymatch goal with Ha : computes a _ _ |- _ => lazymatch goal with Hb : computes b _ _ |- _ =>
            first [(pose proof (computes_sub_gen _ _ _ _ medium _ _ Ha Hb ltac:(box)) as H; rewrite <- E in H)
                  |(pose proof (computes_sub_gen _ _ _ _ large _ _ Ha Hb ltac:(box)) as H; rewrite <- E in H)] end end
      | fe_mul ?a ?b =>
          lazymatch goal with Ha : computes a _ _ |- _ => lazymatch goal with Hb : computes b _ _ |- _ =>
            (pose proof (computes_mul_gen _ _ _ _ _ _ Ha Hb ltac:(box) ltac:(box)) as H; rewrite <- E in H) end end
      | fe_sq ?a =>
          lazymatch goal with Ha : computes a _ _ |- _ => (pose proof (computes_sq_gen _ _ _ Ha ltac:(box)) as H; rewrite <- E in H) end
      | fe_sq2 ?a =>
          lazymatch goal with Ha : computes a _ _ |- _ => (pose proof (computes_sq2_gen _ _ _ Ha ltac:(box)) as H; rewrite <- E in H) end
      end; clear E
  end.

(** ** Coordinates *)

Definition p2_is (P : ge_p2) (X Y Zc : Z) : Prop := computes (p2X P) reduced X /\ computes (p2Y P) reduced Y /\ computes (p2Z P) reduced Zc.
Definition p3_is (P : ge_p3) (X Y Zc T : Z) : Prop :=
  computes (p3X P) reduced X /\ computes (p3Y P) reduced Y /\ computes (p3Z P) reduced Zc /\ computes (p3T P) reduced T.
Definition p1_is (X Y Zc T : Z) (P : ge_p1p1) : Prop :=
  computes (cX P) large X /\ computes (cY P) large Y /\ computes (cZ P) large Zc /\ computes (cT P) large T.
Definition cached_is (q : ge_cached) (yp ym Zc t : Z) : Prop :=
  computes (YplusX q) medium yp /\ computes (YminusX q) medium ym /\ computes (caZ q) reduced Zc /\ computes (T2d q) reduced t.
Definition precomp_is (q : precomp) (yp ym t : Z) : Prop :=
  computes (yplusx q) small yp /\ computes (yminusx q) small ym /\ computes (xy2d q) small t.

Ltac p1_done := split_and!; cbn [cX cY cZ cT]; (eapply computes_conv; [eassumption| |box]; ring).

Lemma ge_madd_val P q X Y Zc T yp ym t : p3_is P X Y Zc T -> precomp_is q yp ym t ->
  p1_is ((Y + X) * yp - (Y - X) * ym) ((Y + X) * yp + (Y - X) * ym) (2 * Zc + t * T) (2 * Zc - t * T) (ge_madd P q).
Proof. intros (HX & HY & HZ & HT) (Hp & Hm & Ht). cbv beta delta [ge_madd]. fe_lets. p1_done. Qed.
Lemma ge_msub_val P q X Y Zc T yp ym t : p3_is P X Y Zc T -> precomp_is q yp ym t ->
  p1_is ((Y + X) * ym - (Y - X) * yp) ((Y + X) * ym + (Y - X) * yp) (2 * Zc - t * T) (2 * Zc + t * T) (ge_msub P q).
Proof. intros (HX & HY & HZ & HT) (Hp & Hm & Ht). cbv beta delta [ge_msub]. fe_lets. p1_done. Qed.
Lemma ge_add_val P q X Y Zc T yp ym zq t : p3_is P X Y Zc T -> cached_is q yp ym zq t ->
  p1_is ((Y + X) * yp - (Y - X) * ym) ((Y + X) * yp + (Y - X) * ym) (2 * (Zc * zq) + t * T) (2 * (Zc * zq) - t * T) (ge_add P q).
Proof. intros (HX & HY & HZ & HT) (Hp & Hm & Hz & Ht). cbv beta delta [ge_add]. fe_lets. p1_done. Qed.
Lemma ge_sub_val P q X Y Zc T yp ym zq t : p3_is P X Y Zc T -> cached_is q yp ym zq t ->
  p1_is ((Y + X) * ym - (Y - X) * yp) ((Y + X) * ym + (Y - X) * yp) (2 * (Zc * zq) - t * T) (2 * (Zc * zq) + t * T) (ge_sub P q).
Proof. intros (HX & HY & HZ & HT) (Hp & Hm & Hz & Ht). cbv beta delta [ge_sub]. fe_lets. p1_done. Qed.
Lemma ge_p2_dbl_val P X Y Zc : p2_is P X Y Zc ->
  p1_is (2 * X * Y) (Y * Y + X * X) (Y * Y - X * X) (2 * Zc * Zc - (Y * Y - X * X)) (ge_p2_dbl P).
Proof. intros (HX & HY & HZ). cbv beta delta [ge_p2_dbl]. fe_lets. p1_done. Qed.

Lemma ge_p1p1_to_p3_val P X Y Zc T : p1_is X Y Zc T P -> p3_is (ge_p1p1_to_p3 P) (X * T) (Y * Zc) (Zc * T) (X * Y).
Proof. intros (HX & HY & HZ & HT). split_and!; apply computes_mul; assumption. Qed.
Lemma ge_p1p1_to_p2_val P X Y Zc T : p1_is X Y Zc T P -> p2_is (ge_p1p1_to_p2 P) (X * T) (Y * Zc) (Zc * T).
Proof. intros (HX & HY & HZ & HT). split_and!; apply computes_mul; assumption. Qed.
Lemma ge_p3_to_p2_val P X Y Zc T : p3_is P X Y Zc T -> p2_is (ge_p3_to_p2 P) X Y Zc.
Proof. intros (HX & HY & HZ & HT). split_and!; apply computes_copy; assumption. Qed.

Lemma d_value : fe_val d ≡p D.
Proof. vm_compute. reflexivity. Qed.
Lemma d2_value : fe_val d2 ≡p 2 * D.
Proof. vm_compute. reflexivity. Qed.
Lemma d2_small : fe_in small d2.
Proof. repeat split; vm_compute; discriminate. Qed.

Lemma ge_p3_to_cached_val P X Y Zc T : p3_is P X Y Zc T -> cached_is (ge_p3_to_cached P) (Y + X) (Y - X) Zc (T * (2 * D)).
Proof.
  intros (HX & HY & HZ & HT). pose proof (computes_const d2 small d2_small) as Hd. rewrite d2_value in Hd.
  split_and!; cbn [ge_p3_to_cached YplusX YminusX caZ T2d].
  - apply (computes_add_gen _ _ _ _ medium _ _ HY HX ltac:(box)).
  - apply (computes_sub_gen _ _ _ _ medium _ _ HY HX ltac:(box)).
  - by apply computes_copy.
  - apply (computes_mul_gen _ _ _ _ _ _ HT Hd ltac:(box) ltac:(box)).
Qed.

Lemma p1_conv X Y Zc T X' Y' Z' T' P : p1_is X Y Zc T P -> X ≡p X' -> Y ≡p Y' -> Zc ≡p Z' -> T ≡p T' -> p1_is X' Y' Z' T' P.
Proof. intros (HX & HY & HZ & HT) E1 E2 E3 E4. unfold p1_is. rewrite <- E1, <- E2, <- E3, <- E4. done. Qed.
Lemma p3_conv P X Y Zc T X' Y' Z' T' : p3_is P X Y Zc T -> X = X' -> Y = Y' -> Zc = Z' -> T = T' -> p3_is P X' Y' Z' T'.
Proof. by intros H -> -> -> ->. Qed.

(** ** Points represented *)

Definition nz (a : Z) : Prop := ~ a ≡p 0.

Definition rep2 (P : ge_p2) (A : Z * Z) : Prop := exists z, nz z /\ p2_is P (A.1 * z) (A.2 * z) z.
Definition rep3 (P : ge_p3) (A : Z * Z) : Prop := exists z, nz z /\ p3_is P (A.1 * z) (A.2 * z) z (A.1 * A.2 * z).
Definition rep1 (P : ge_p1p1) (A : Z * Z) : Prop := exists u v, nz u /\ nz v /\ p1_is (A.1 * u) (A.2 * v) u v P.
Definition rep_cached (q : ge_cached) (A : Z * Z) : Prop :=
  exists z, nz z /\ cached_is q ((A.2 + A.1) * z) ((A.2 - A.1) * z) z (2 * D * (A.1 * A.2) * z).
Definition rep_precomp (q : precomp) (A : Z * Z) : Prop := precomp_is q (A.2 + A.1) (A.2 - A.1) (2 * D * (A.1 * A.2)).

Lemma nz_2 : nz 2.
Proof. vm_compute. discriminate. Qed.

Lemma rep1_to_p3 P A : rep1 P A -> rep3 (ge_p1p1_to_p3 P) A.
Proof.
  intros (u & v & Hu & Hv & H). exists (u * v). split; [by apply mul_nonzero|].
  eapply p3_conv; [exact (ge_p1p1_to_p3_val _ _ _ _ _ H)| | | |]; ring.
Qed.
Lemma rep1_to_p2 P A : rep1 P A -> rep2 (ge_p1p1_to_p2 P) A.
Proof.
  intros (u & v & Hu & Hv & H). exists (u * v). split; [by apply mul_nonzero|].
  destruct (ge_p1p1_to_p2_val _ _ _ _ _ H) as (H1 & H2 & H3).
  replace (A.1 * (u * v)) with (A.1 * u * v) by ring. replace (A.2 * (u * v)) with (A.2 * v * u) by ring. done.
Qed.
Lemma rep3_to_p2 P A : rep3 P A -> rep2 (ge_p3_to_p2 P) A.
Proof. intros (z & Hz & H). exists z. split; [done|]. exact (ge_p3_to_p2_val _ _ _ _ _ H). Qed.
Lemma rep3_to_cached P A : rep3 P A -> rep_cached (ge_p3_to_cached P) A.
Proof.
  intros (z & Hz & H). exists z. split; [done|]. pose proof (ge_p3_to_cached_val _ _ _ _ _ H) as Hc.
  replace ((A.2 + A.1) * z) with (A.2 * z + A.1 * z) by ring. replace ((A.2 - A.1) * z) with (A.2 * z - A.1 * z) by ring.
  replace (2 * D * (A.1 * A.2) * z) with (A.1 * A.2 * z * (2 * D)) by ring. done.
Qed.

(** The completed coordinates of a sum, up to the factor [w]. *)
Lemma rep1_sum P A B w X Y Zc T : on_curve A -> on_curve B -> nz w ->
  p1_is X Y Zc T P -> X = w * num_x A.1 A.2 B.1 B.2 -> Y = w * num_y A.1 A.2 B.1 B.2 ->
  Zc ≡p w * (1 + delta A.1 A.2 B.1 B.2) -> T ≡p w * (1 - delta A.1 A.2 B.1 B.2) -> rep1 P (ed_add A B).
Proof.
  destruct A as [x1 y1], B as [x2 y2]. cbn [fst snd]. intros HA HB Hw HP -> -> EZ ET.
  exists (w * (1 + delta x1 y1 x2 y2)), (w * (1 - delta x1 y1 x2 y2)).
  split; [apply mul_nonzero; [done|by apply plus_nonzero]|]. split; [apply mul_nonzero; [done|by apply minus_nonzero]|].
  eapply p1_conv; [exact HP| | |exact EZ|exact ET].
  - rewrite <- (ed_add_x _ _ _ _ HA HB). generalize (ed_add (x1, y1) (x2, y2)).1. intros x3. apply eq_subrelation; [apply _|ring].
  - rewrite <- (ed_add_y _ _ _ _ HA HB). generalize (ed_add (x1, y1) (x2, y2)).2. intros y3. apply eq_subrelation; [apply _|ring].
Qed.


Ltac sum_done := unfold num_x, num_y, delta, ed_opp; cbn [fst snd]; (ring || (apply eq_subrelation; [apply _|ring])).

Section Sums.
Context (P : ge_p3) (A B : Z * Z) (HA : on_curve A) (HB : on_curve B) (HP : rep3 P A).

Lemma ge_madd_rep q : rep_precomp q B -> rep1 (ge_madd P q) (ed_add A B).
Proof using HA HB HP.
  intros Hq. destruct HP as (z & Hz & H). eapply (rep1_sum _ A B (2 * z) _ _ _ _ HA HB); [by apply mul_nonzero; [apply nz_2|]|exact (ge_madd_val _ _ _ _ _ _ _ _ _ H Hq)| | | |];
    destruct A, B; sum_done.
Qed.
Lemma ge_msub_rep q : rep_precomp q B -> rep1 (ge_msub P q) (ed_add A (ed_opp B)).
Proof using HA HB HP.
  intros Hq. destruct HP as (z & Hz & H).
  eapply (rep1_sum _ A (ed_opp B) (2 * z) _ _ _ _ HA (opp_on B HB)); [by apply mul_nonzero; [apply nz_2|]|exact (ge_msub_val _ _ _ _ _ _ _ _ _ H Hq)| | | |];
    destruct A, B; sum_done.
Qed.
Lemma ge_add_rep q : rep_cached q B -> rep1 (ge_add P q) (ed_add A B).
Proof using HA HB HP.
  intros (zq & Hzq & Hq). destruct HP as (z & Hz & H).
  eapply (rep1_sum _ A B (2 * (z * zq)) _ _ _ _ HA HB); [apply mul_nonzero; [apply nz_2|by apply mul_nonzero]|exact (ge_add_val _ _ _ _ _ _ _ _ _ _ H Hq)| | | |];
    destruct A, B; sum_done.
Qed.
Lemma ge_sub_rep q : rep_cached q B -> rep1 (ge_sub P q) (ed_add A (ed_opp B)).
Proof using HA HB HP.
  intros (zq & Hzq & Hq). destruct HP as (z & Hz & H).
  eapply (rep1_sum _ A (ed_opp B) (2 * (z * zq)) _ _ _ _ HA (opp_on B HB)); [apply mul_nonzero; [apply nz_2|by apply mul_nonzero]|exact (ge_sub_val _ _ _ _ _ _ _ _ _ _ H Hq)| | | |];
    destruct A, B; sum_done.
Qed.
End Sums.

Lemma ge_p2_dbl_rep P A : on_curve A -> rep2 P A -> rep1 (ge_p2_dbl P) (ed_add A A).
Proof.
  intros HA (z & Hz & H). assert (A.2 * A.2 - A.1 * A.1 ≡p 1 + delta A.1 A.2 A.1 A.2) as E.
  { destruct A as [x y]. unfold on_curve in HA. cbn [fst snd]. transitivity (- (x * x) + y * y); [apply eq_subrelation; [apply _|ring]|].
    rewrite HA. apply eq_subrelation; [apply _|]. unfold delta. ring. }
  eapply (rep1_sum _ A A (z * z) _ _ _ _ HA HA); [by apply mul_nonzero|exact (ge_p2_dbl_val _ _ _ _ H)|sum_done|sum_done| |].
  - rewrite <- E. apply eq_subrelation; [apply _|ring].
  - transitivity (z * z * (2 - (A.2 * A.2 - A.1 * A.1))); [apply eq_subrelation; [apply _|ring]|]. rewrite E. apply eq_subrelation; [apply _|ring].
Qed.
