(* ===== verification/GeScalar.v ===== *)
(** * Multiples of the base point

    [ge_scalarmult_base]: the digits of the scalar, the selection of a table entry without
    branches, and the sum of the entries; encodings of points. *)

From S2P Require Import Prelude Mem Limbs Primes Fe FeSpec FeBytes Edwards EdGroup GeTables Ge GeSpec GeTableSpec.
From Stdlib Require Import ZArith Lia.
From stdpp Require Import base tactics list numbers.
Local Open Scope Z_scope.

(** ** Digits *)

Definition radix16 (e : list Z) : Z := fold_right (fun x acc => x + 16 * acc) 0 e.

Lemma wrap_small w x : 0 < w -> - 2 ^ (w - 1) <= x < 2 ^ (w - 1) -> wrap w x = x.
Proof.
  intros Hw Hx. unfold wrap. assert (2 ^ w = 2 * 2 ^ (w - 1)) as E by (rewrite <- Z.pow_succ_r by lia; f_equal; lia). rewrite E, Z.mod_small by lia. lia.
Qed.
Lemma schar_small x : -128 <= x < 128 -> schar x = x.
Proof. intros Hx. apply wrap_small; [lia|exact Hx]. Qed.

Lemma nibbles_cons b a : 0 <= b < 256 -> nibbles (b :: a) = b mod 16 :: b / 16 :: nibbles a.
Proof.
  intros Hb. unfold nibbles. cbn [flat_map app]. rewrite Z.shiftr_0_r, Z.shiftr_div_pow2 by lia. change 15 with (Z.ones 4) at 1 2.
  rewrite !Z.land_ones by lia. change (2 ^ 4) with 16. rewrite (Z.mod_small (b / 16)); [done|]. split; [apply Z.div_pos; lia|apply Z.div_lt_upper_bound; lia].
Qed.

Lemma nibbles_ok a : Forall is_u8 a ->
  radix16 (nibbles a) = le_value a /\ Forall (fun x => 0 <= x <= 15) (nibbles a) /\ length (nibbles a) = (2 * length a)%nat.
Proof.
  intros Ha. induction Ha as [|b a Hb Ha (IH1 & IH2 & IH3)]; [split_and!; [done|constructor|done]|]. unfold is_u8 in Hb. rewrite nibbles_cons by lia.
  pose proof (Z.div_mod b 16 ltac:(lia)). pose proof (Z.mod_pos_bound b 16 ltac:(lia)).
  split_and!; [cbn [radix16 le_value fold_right] in *; fold (radix16 (nibbles a)); fold (le_value a); lia| |cbn [length]; lia].
  constructor; [lia|]. constructor; [lia|exact IH2].
Qed.

Lemma last_nibble a : Forall is_u8 a -> last (nibbles a) 0 = last a 0 / 16.
Proof.
  intros Ha. induction Ha as [|b a Hb Ha IH]; [done|]. unfold is_u8 in Hb. rewrite nibbles_cons by lia.
  destruct a as [|b' a]; [done|]. change (last (b :: b' :: a) 0) with (last (b' :: a) 0). rewrite <- IH. pose proof (List.Forall_inv Ha) as Hb'. unfold is_u8 in Hb'.
  rewrite (nibbles_cons b') by lia. reflexivity.
Qed.

Lemma recode_ok e c : e <> [] -> 0 <= c <= 1 -> Forall (fun x => 0 <= x <= 15) e -> last e 0 <= 7 ->
  radix16 (recode c e) = radix16 e + c /\ Forall (fun x => -8 <= x <= 8) (recode c e) /\ length (recode c e) = length e.
Proof.
  intros Hn Hc He. revert Hn c Hc. induction He as [|x e Hx He IH]; intros Hn c Hc Hl; [done|]. destruct e as [|x' e].
  - cbn [recode last] in *. rewrite schar_small by lia. split_and!; [cbn; lia|constructor; [lia|constructor]|done].
  - change (recode c (x :: x' :: e)) with
      (let y := schar (x + c) in let k := schar (y + 8) in let k := schar (Z.shiftr k 4) in schar (y - shl 32 k 4) :: recode k (x' :: e)).
    cbv zeta. rewrite (schar_small (x + c)), (schar_small (x + c + 8)), Z.shiftr_div_pow2 by lia. change (2 ^ 4) with 16.
    pose proof (Z.div_mod (x + c + 8) 16 ltac:(lia)). pose proof (Z.mod_pos_bound (x + c + 8) 16 ltac:(lia)). set (k := (x + c + 8) / 16) in *.
    assert (0 <= k <= 1) as Hk by lia. rewrite (schar_small k) by lia. unfold shl. rewrite wrap_small by (change (2 ^ 4) with 16; lia).
    change (2 ^ 4) with 16. rewrite schar_small by lia.
    destruct (IH ltac:(done) k Hk Hl) as (I1 & I2 & I3). split_and!.
    + cbn [radix16 fold_right] in *. fold (radix16 (recode k (x' :: e))). fold (radix16 (recode k (x' :: e))) in I1. lia.
    + constructor; [lia|exact I2].
    + cbn [length] in *. lia.
Qed.

Lemma digits_of_ok a : Forall is_u8 a -> length a = 32%nat -> byte_at a 31 <= 127 ->
  radix16 (digits_of a) = le_value a /\ Forall (fun x => -8 <= x <= 8) (digits_of a) /\ length (digits_of a) = 64%nat.
Proof.
  intros Ha Hl H31. destruct (nibbles_ok a Ha) as (N1 & N2 & N3). unfold digits_of.
  destruct (recode_ok (nibbles a) 0) as (R1 & R2 & R3); [intros E; rewrite E in N3; cbn in N3; lia|lia|exact N2| |].
  - rewrite last_nibble by done. assert (last a 0 = byte_at a 31) as ->.
    { unfold byte_at. clear - Hl. do 32 (destruct a as [|? a]; [discriminate Hl|]). destruct a; [reflexivity|discriminate Hl]. }
    apply Z.lt_succ_r, Z.div_lt_upper_bound; lia.
  - split_and!; [lia|exact R2|lia].
Qed.

(** ** Selection *)

(** The flags of [select], for all digits. *)
Definition small_digits : list Z := map (fun n => Z.of_nat n - 8) (seq 0 17).
Definition abs_of (b : Z) : Z := uchar (b - shl 32 (Z.land (- negative b) b) 1).

Lemma flags_checked : forallb (fun b => (negative b =? Z.b2z (b <? 0)) && (abs_of b =? Z.abs b)
  && forallb (fun k => equal (schar (abs_of b)) k =? Z.b2z (Z.abs b =? k)) [1; 2; 3; 4; 5; 6; 7; 8]) small_digits = true.
Proof. vm_compute. reflexivity. Qed.

Lemma flags b : -8 <= b <= 8 -> negative b = Z.b2z (b <? 0) /\ forall k, In k [1; 2; 3; 4; 5; 6; 7; 8] -> equal (schar (abs_of b)) k = Z.b2z (Z.abs b =? k).
Proof.
  intros Hb. pose proof flags_checked as H. rewrite forallb_forall in H. specialize (H b).
  assert (In b small_digits) as Hin by (apply in_map_iff; exists (Z.to_nat (b + 8)); rewrite in_seq; lia).
  apply H in Hin. apply andb_true_iff in Hin as [[H1 H2]%andb_true_iff H3]. apply Z.eqb_eq in H1. split; [done|].
  intros k Hk. rewrite forallb_forall in H3. by apply Z.eqb_eq, H3.
Qed.

Lemma mov_const f g c : fe_in int32 f -> fe_in int32 g -> mov (fe_const f) (fe_const g) (Z.b2z c) = fe_const (if c then g else f).
Proof.
  intros Hf Hg. unfold mov. rewrite !(fe_get_some : forall h, fe_get (fe_const h) = Some h). rewrite fe_cmov_ok by (done || destruct c; auto). by destruct c.
Qed.

Definition int32_precomp (q : ge_precomp Z) : Prop := fe_in int32 (yplusx q) /\ fe_in int32 (yminusx q) /\ fe_in int32 (xy2d q).

Lemma cmov_const t u c : int32_precomp t -> int32_precomp u ->
  cmov (const_precomp t) (const_precomp u) (Z.b2z c) = const_precomp (if c then u else t).
Proof.
  intros (T1 & T2 & T3) (U1 & U2 & U3). unfold cmov, const_precomp. cbn [yplusx yminusx xy2d]. rewrite !mov_const by done. by destruct c.
Qed.

Lemma small_int32 q : small_precomp q -> int32_precomp q.
Proof. intros (H1 & H2 & H3). assert (fe_all range_le reduced int32) as L by box. split_and!; by apply (fe_in_le _ _ _ L). Qed.

(** The entry of a digit. *)
Definition entry (pos j : nat) : ge_precomp Z := nth j (nth pos base []) (mkPrecomp fe_0 fe_0 fe_0).
Definition neutral : ge_precomp Z := mkPrecomp fe_1 fe_1 fe_0.
Definition negated (q : ge_precomp Z) : ge_precomp Z := mkPrecomp (yminusx q) (yplusx q) (fe_neg (xy2d q)).
Definition positive_entry (pos : nat) (n : Z) : ge_precomp Z := if n =? 0 then neutral else entry pos (Z.to_nat (n - 1)).
Definition digit_entry (pos : nat) (b : Z) : ge_precomp Z := if b <? 0 then negated (positive_entry pos (Z.abs b)) else positive_entry pos (Z.abs b).

Definition digit_point (pos : nat) (b : Z) : Z * Z :=
  if b <? 0 then ed_opp (ed_mul (Z.to_nat (Z.abs b)) (row_base pos)) else ed_mul (Z.to_nat (Z.abs b)) (row_base pos).

Lemma entry_ok_at pos j : (pos < 32)%nat -> (j < 8)%nat ->
  base_at pos j = const_precomp (entry pos j) /\ small_precomp (entry pos j) /\ stands_for (entry pos j) (ed_mul (S j) (row_base pos)).
Proof.
  intros Hp Hj. destruct (base_entry pos j Hp Hj) as (q & Hq & Hs & Hr). unfold base_at, entry. rewrite Hq, (nth_error_nth _ _ _ Hq). done.
Qed.

Lemma neutral_small : small_precomp neutral.
Proof. split_and!; vm_compute; repeat split; discriminate. Qed.

Lemma positive_ok pos n : (pos < 32)%nat -> 0 <= n <= 8 ->
  small_precomp (positive_entry pos n) /\ stands_for (positive_entry pos n) (ed_mul (Z.to_nat n) (row_base pos)).
Proof.
  intros Hp Hn. unfold positive_entry. destruct (n =? 0) eqn:E.
  - apply Z.eqb_eq in E as ->. split; [apply neutral_small|split_and!; reflexivity].
  - apply Z.eqb_neq in E. destruct (entry_ok_at pos (Z.to_nat (n - 1)) Hp ltac:(lia)) as (_ & H1 & H2). split; [done|].
    replace (Z.to_nat n) with (S (Z.to_nat (n - 1))) by lia. done.
Qed.

Lemma negated_ok q A : small_precomp q -> stands_for q A -> small_precomp (negated q) /\ stands_for (negated q) (ed_opp A).
Proof.
  destruct A as [x y]. intros (H1 & H2 & H3) (E1 & E2 & E3). split.
  - split_and!; cbn [negated yplusx yminusx xy2d]; [done..|].
    exact (proj2 (fe_rel_use _ _ _ reduced (fe_neg_rel _ _ _ (fe_rel_in _ _ H3)) ltac:(box))).
  - unfold stands_for, ed_opp. cbn [negated yplusx yminusx xy2d fst snd] in *. split_and!.
    + rewrite E2. apply eq_subrelation; [apply _|ring].
    + rewrite E1. apply eq_subrelation; [apply _|ring].
    + transitivity (- fe_val (xy2d q)); [exact (fe_neg_val _)|]. rewrite E3. apply eq_subrelation; [apply _|ring].
Qed.

Lemma fe_neg_const f : fe_in reduced f -> fe_neg (fe_const f) = fe_const (fe_neg f).
Proof. intros Hf. exact (proj1 (fe_rel_use _ _ _ reduced (fe_neg_rel _ _ _ (fe_rel_in _ _ Hf)) ltac:(box))). Qed.
Lemma fe_copy_id {A} (f : fe A) : fe_copy f = f.
Proof. by destruct f. Qed.

(** The eight moves choose the entry of the absolute value. *)
Definition choose (pos : nat) (n : Z) : precomp :=
  fold_left (fun t j => cmov t (base_at pos j) (Z.b2z (n =? Z.of_nat (S j)))) (seq 0 8) (const_precomp neutral).

Lemma choose_ok pos n : (pos < 32)%nat -> 0 <= n <= 8 -> choose pos n = const_precomp (positive_entry pos n).
Proof.
  intros Hp Hn. unfold choose. cbn [seq fold_left]. pose proof (small_int32 _ neutral_small) as HN.
  assert (forall j, (j < 8)%nat -> base_at pos j = const_precomp (entry pos j) /\ int32_precomp (entry pos j)) as HE.
  { intros j Hj. destruct (entry_ok_at pos j Hp Hj) as (E & Hs & _). split; [exact E|by apply small_int32]. }
  assert (n = 0 \/ n = 1 \/ n = 2 \/ n = 3 \/ n = 4 \/ n = 5 \/ n = 6 \/ n = 7 \/ n = 8) as Hc by lia.
  destruct (HE 0%nat ltac:(lia)) as [E0 I0], (HE 1%nat ltac:(lia)) as [E1 I1], (HE 2%nat ltac:(lia)) as [E2 I2], (HE 3%nat ltac:(lia)) as [E3 I3],
    (HE 4%nat ltac:(lia)) as [E4 I4], (HE 5%nat ltac:(lia)) as [E5 I5], (HE 6%nat ltac:(lia)) as [E6 I6], (HE 7%nat ltac:(lia)) as [E7 I7].
  rewrite E0, E1, E2, E3, E4, E5, E6, E7. clear E0 E1 E2 E3 E4 E5 E6 E7 HE.
  repeat destruct Hc as [->|Hc]; [..|rewrite Hc];
    repeat (rewrite cmov_const by assumption; cbn [Z.eqb Pos.eqb Z.of_nat Pos.of_succ_nat Pos.succ]); reflexivity.
Qed.

Lemma select_ok pos b : (pos < 32)%nat -> -8 <= b <= 8 -> select pos b = const_precomp (digit_entry pos b).
Proof.
  intros Hp Hb. destruct (flags b Hb) as [Hn Hf]. unfold select. fold (abs_of b).
  rewrite Hn. rewrite (Hf 1), (Hf 2), (Hf 3), (Hf 4), (Hf 5), (Hf 6), (Hf 7), (Hf 8) by (cbn; tauto). cbv zeta.
  change (mkPrecomp fe_1 fe_1 fe_0) with (const_precomp neutral).
  match goal with |- context [cmov ?t _ (Z.b2z (b <? 0))] => change t with (choose pos (Z.abs b)) end.
  destruct (positive_ok pos (Z.abs b) Hp ltac:(lia)) as [Hs Hr]. rewrite choose_ok by lia. set (q := positive_entry pos (Z.abs b)) in *.
  cbn [const_precomp yplusx yminusx xy2d]. rewrite !fe_copy_id, fe_neg_const by apply Hs.
  change (mkPrecomp (fe_const (yminusx q)) (fe_const (yplusx q)) (fe_const (fe_neg (xy2d q)))) with (const_precomp (negated q)).
  rewrite cmov_const by (apply small_int32; [exact Hs || exact (proj1 (negated_ok q _ Hs Hr))]). reflexivity.
Qed.

Lemma select_rep pos b : (pos < 32)%nat -> -8 <= b <= 8 -> rep_precomp (select pos b) (digit_point pos b).
Proof.
  intros Hp Hb. rewrite select_ok by done. destruct (positive_ok pos (Z.abs b) Hp ltac:(lia)) as [Hs Hr]. unfold digit_entry, digit_point.
  destruct (negated_ok _ _ Hs Hr) as [Ns Nr]. destruct (b <? 0); apply stands_rep; assumption.
Qed.
Lemma digit_point_on pos b : on_curve (digit_point pos b).
Proof. unfold digit_point. destruct (b <? 0); [apply opp_on|]; apply ed_mul_on, row_base_on. Qed.

(** ** The sum of the digits *)

(** The points that the code adds, by the addition law. *)
Definition ref_add (e : list Z) (A : Z * Z) (i : nat) : Z * Z := ed_add A (digit_point (Nat.div2 i) (nth i e 0)).
Definition ref_times16 (A : Z * Z) : Z * Z := Nat.iter 4 ed_double A.
Definition ref_scalarmult (e : list Z) : Z * Z := fold_left (ref_add e) even_indices (ref_times16 (fold_left (ref_add e) odd_indices ed_zero)).

Lemma add_digit_rep e h A i : Forall (fun x => -8 <= x <= 8) e -> (i < 64)%nat -> on_curve A -> rep3 h A ->
  on_curve (ref_add e A i) /\ rep3 (add_digit e h i) (ref_add e A i).
Proof.
  intros He Hi HA Hh. assert (-8 <= nth i e 0 <= 8) as Hd.
  { destruct (le_lt_dec (length e) i); [rewrite nth_overflow by done; lia|]. exact (proj1 (List.Forall_forall _ _) He _ (nth_In _ _ ltac:(done))). }
  assert (Nat.div2 i < 32)%nat as Hp by (rewrite Nat.div2_div; apply Nat.Div0.div_lt_upper_bound; lia).
  pose proof (digit_point_on (Nat.div2 i) (nth i e 0)) as HB. unfold ref_add, add_digit. split; [by apply add_on|].
  cbv zeta. apply rep1_to_p3, ge_madd_rep; try done. by apply select_rep.
Qed.

Lemma add_digits_rep e l h A : Forall (fun x => -8 <= x <= 8) e -> Forall (fun i => (i < 64)%nat) l -> on_curve A -> rep3 h A ->
  on_curve (fold_left (ref_add e) l A) /\ rep3 (fold_left (add_digit e) l h) (fold_left (ref_add e) l A).
Proof.
  intros He Hl. revert h A. induction Hl as [|i l Hi Hl IH]; intros h A HA Hh; [done|]. cbn [fold_left].
  destruct (add_digit_rep e h A i He Hi HA Hh). by apply IH.
Qed.

Lemma zero_rep : rep3 ge_p3_0 ed_zero.
Proof.
  exists 1. split; [vm_compute; discriminate|]. assert (fe_in reduced fe_0 /\ fe_in reduced fe_1) as [H0 H1] by (split; vm_compute; repeat split; discriminate).
  pose proof (computes_const fe_0 reduced H0) as C0. pose proof (computes_const fe_1 reduced H1) as C1. split_and!; assumption.
Qed.

Lemma times16_rep h A : on_curve A -> rep3 h A -> on_curve (ref_times16 A) /\ rep3 (times16 h) (ref_times16 A).
Proof.
  intros HA Hh. assert (forall B, on_curve B -> on_curve (ed_add B B)) as Hd by (intros B HB; by apply add_on).
  split; [unfold ref_times16; cbn [Nat.iter nat_rect]; unfold ed_double; by repeat apply Hd|].
  unfold times16, ref_times16, ge_p3_dbl. cbn [Nat.iter nat_rect]. cbv zeta. unfold ed_double.
  apply rep1_to_p3, ge_p2_dbl_rep; [by repeat apply Hd|]. apply rep1_to_p2, ge_p2_dbl_rep; [by repeat apply Hd|].
  apply rep1_to_p2, ge_p2_dbl_rep; [by repeat apply Hd|]. apply rep1_to_p2, ge_p2_dbl_rep; [done|]. by apply rep3_to_p2.
Qed.

Lemma scalarmult_rep a : Forall is_u8 a -> length a = 32%nat -> byte_at a 31 <= 127 ->
  on_curve (ref_scalarmult (digits_of a)) /\ rep3 (ge_scalarmult_base a) (ref_scalarmult (digits_of a)).
Proof.
  intros Ha Hl H31. destruct (digits_of_ok a Ha Hl H31) as (_ & Hd & _). unfold ge_scalarmult_base, ref_scalarmult. cbv zeta.
  assert (forall f, (forall k, (k < 32)%nat -> (f k < 64)%nat) -> Forall (fun i => (i < 64)%nat) (map f (seq 0 32))) as Hf.
  { intros f Hf. apply List.Forall_map, List.Forall_forall. intros k Hk%in_seq. apply Hf. lia. }
  destruct (add_digits_rep _ odd_indices ge_p3_0 ed_zero Hd (Hf (fun k => (2 * k + 1)%nat) ltac:(intros; cbv beta; lia)) zero_on zero_rep) as [C1 R1].
  destruct (times16_rep _ _ C1 R1) as [C2 R2]. exact (add_digits_rep _ even_indices _ _ Hd (Hf (fun k => (2 * k)%nat) ltac:(intros; cbv beta; lia)) C2 R2).
Qed.

(** ** Encodings *)

Definition encode (A : Z * Z) : list Z := le_digits 32 (A.2 mod p25519 + 2 ^ 255 * ((A.1 mod p25519) mod 2)).

Lemma le_digits_snoc n v : le_digits (S n) v = le_digits n v ++ [(v / 256 ^ Z.of_nat n) mod 256].
Proof.
  revert v. induction n as [|n IH]; intros v; [cbn; by rewrite Z.div_1_r|]. change (le_digits (S (S n)) v) with (v mod 256 :: le_digits (S n) (v / 256)).
  rewrite IH. cbn [le_digits app]. do 3 f_equal. rewrite Nat2Z.inj_succ, Z.pow_succ_r, Z.div_div by lia. done.
Qed.
Lemma le_digits_shift n v k : le_digits n (v + 256 ^ Z.of_nat n * k) = le_digits n v.
Proof.
  revert v. induction n as [|n IH]; intros v; [done|]. cbn [le_digits]. rewrite Nat2Z.inj_succ, Z.pow_succ_r by lia.
  replace (v + 256 * 256 ^ Z.of_nat n * k) with (v + 256 ^ Z.of_nat n * k * 256) by ring. rewrite Z.mod_add, Z.div_add by lia. by rewrite IH.
Qed.

Lemma set_sign_digits y n : 0 <= y < 2 ^ 255 -> n = 0 \/ n = 1 -> set_sign (le_digits 32 y) n = le_digits 32 (y + 2 ^ 255 * n).
Proof.
  intros Hy Hn. rewrite !(le_digits_snoc 31). set (l := le_digits 31 y). assert (length l = 31%nat) as Hl by apply length_le_digits.
  replace (y + 2 ^ 255 * n) with (y + 256 ^ Z.of_nat 31 * (128 * n)) by (change (2 ^ 255) with (256 ^ Z.of_nat 31 * 128); ring). rewrite le_digits_shift. fold l. change (256 ^ Z.of_nat 31) with (2 ^ 248).
  rewrite (Z.mul_comm _ (128 * n)), Z.div_add by lia. unfold set_sign, byte_at. rewrite app_nth2, Hl by lia. cbn [Nat.sub nth].
  rewrite <- Hl at 1. rewrite <- (Nat.add_0_r (length l)), insert_app_r. f_equal.
  match goal with |- <[_ := ?v]> [?c] = _ => change (<[0%nat := v]> [c]) with [v] end. f_equal.
  assert (0 <= y / 2 ^ 248 < 128) as Hb by (split; [apply Z.div_pos; lia|apply Z.div_lt_upper_bound; lia]).
  generalize dependent (y / 2 ^ 248). intros b Hb. rewrite (Z.mod_small b) by lia. unfold uchar. 
  destruct Hn as [-> | ->]; [rewrite Z.shiftl_0_l, Z.lxor_0_r; apply (f_equal (fun v => v mod 256)); lia|].
  change (Z.shiftl 1 7) with 128. apply (f_equal (fun v => v mod 256)).
  rewrite <- Z.add_nocarry_lxor; [lia|]. change 128 with (Z.shiftl 1 7). apply Z.bits_inj'. intros i Hi. rewrite Z.land_spec, Z.bits_0.
  destruct (Z.lt_ge_cases i 7); [rewrite Z.shiftl_spec_low by done; apply andb_false_r|]. rewrite (testbit_high b 7 i); [done|lia|lia].
Qed.

(** The machine's coordinates of a point, and the affine ones. *)
Lemma encode_point_ok hX hY hZ x y z : nz z -> computes hX reduced (x * z) -> computes hY reduced (y * z) -> computes hZ reduced z ->
  encode_point hX hY hZ = Some (encode (x, y)).
Proof.
  intros Hz HX HY HZ. unfold encode_point.
  assert (computes (fe_invert hZ) large (inv z)) as HI.
  { destruct HZ as (f & -> & Hf & Vf). destruct (fe_invert_ok f (fe_in_le _ _ _ reduced_large Hf)) as [_ H].
    eapply computes_mod; [|exact H]. change (fe_val f ^ (p25519 - 2) ≡p inv z). rewrite inv_pow. by apply pow_eqp. }
  assert (forall a, a * z * inv z ≡p a) as Hc by (intros a; rewrite <- Z.mul_assoc, (mul_inv z Hz); by rewrite Z.mul_1_r).
  pose proof (computes_mul _ _ _ _ (computes_le _ _ _ _ reduced_large HX) HI) as Cx. rewrite Hc in Cx.
  pose proof (computes_mul _ _ _ _ (computes_le _ _ _ _ reduced_large HY) HI) as Cy. rewrite Hc in Cy.
  assert (fe_all range_le reduced medium) as L by box.
  cbv zeta. rewrite (fe_tobytes_ok _ y (computes_le _ _ _ _ L Cy)), (fe_isnegative_ok _ x (computes_le _ _ _ _ L Cx)). cbn [mbind option_bind]. f_equal.
  unfold encode. cbn [fst snd]. apply set_sign_digits.
  - pose proof (Z.mod_pos_bound y p25519 ltac:(reflexivity)). unfold p25519 in *. lia.
  - pose proof (Z.mod_pos_bound (x mod p25519) 2 ltac:(lia)). lia.
Qed.

Lemma ge_p3_tobytes_ok P A : rep3 P A -> ge_p3_tobytes P = Some (encode A).
Proof. destruct A as [x y]. intros (z & Hz & H1 & H2 & H3 & _). exact (encode_point_ok _ _ _ x y z Hz H1 H2 H3). Qed.
Lemma ge_tobytes_ok P A : rep2 P A -> ge_tobytes P = Some (encode A).
Proof. destruct A as [x y]. intros (z & Hz & H1 & H2 & H3). exact (encode_point_ok _ _ _ x y z Hz H1 H2 H3). Qed.
