(* ===== verification/GeVerify.v ===== *)
(** * Points from bytes, and sums of two multiples

    [slide] keeps its digits within the tables, [ge_double_scalarmult_vartime] adds the multiples that
    the digits name, and [ge_frombytes_negate_vartime] accepts exactly the encodings of points. *)

From S2P Require Import Prelude Mem Limbs Primes Fe FeSpec FeBytes Edwards EdGroup GeTables Ge GeSpec GeTableSpec GeScalar.
From Stdlib Require Import ZArith Lia Zpow_facts.
From stdpp Require Import base tactics list numbers.
Local Open Scope Z_scope.

(** ** Digits *)

(** Digits up to [i] are within the tables, the others are still bits. *)
Definition digits_inv (i : nat) (r : list Z) : Prop :=
  length r = 256%nat /\ (forall k, (k < i)%nat -> -15 <= byte_at r k <= 15) /\ (forall k, (i <= k)%nat -> 0 <= byte_at r k <= 1).

Lemma byte_at_insert r i k x : (i < length r)%nat -> byte_at (<[i := x]> r) k = if (k =? i)%nat then x else byte_at r k.
Proof.
  intros Hi. unfold byte_at. rewrite !nth_lookup. destruct (k =? i)%nat eqn:E.
  - apply Nat.eqb_eq in E as ->. by rewrite list_lookup_insert_eq.
  - apply Nat.eqb_neq in E. by rewrite list_lookup_insert_ne.
Qed.

Lemma byte_at_over r k : (length r <= k)%nat -> byte_at r k = 0.
Proof. intros H. unfold byte_at. by rewrite nth_overflow. Qed.

Lemma slide_carry_ok n j k r : (S j <= k)%nat -> (k + n <= 256)%nat -> digits_inv (S j) r -> digits_inv (S j) (slide_carry n k r).
Proof.
  revert k r. induction n as [|n IH]; intros k r Hk Hn (Hl & Hd & Hb); [done|]. cbn [slide_carry].
  assert (forall v, 0 <= v <= 1 -> digits_inv (S j) (<[k := v]> r)) as Hset.
  { intros v Hv. split; [by rewrite length_insert|]. split; intros m Hm; rewrite byte_at_insert by lia; destruct (m =? k)%nat eqn:E; auto.
    apply Nat.eqb_eq in E. lia. }
  destruct (byte_at r k =? 0); [apply Hset; lia|]. apply IH; [lia|lia|apply Hset; lia].
Qed.

Lemma set_digit j r v : (j < 256)%nat -> -15 <= v <= 15 -> digits_inv (S j) r -> digits_inv (S j) (<[j := v]> r).
Proof.
  intros Hj Hv (Hl & Hd & Hb). split; [by rewrite length_insert|]. split; intros m Hm; rewrite byte_at_insert by lia; destruct (m =? j)%nat eqn:E; auto.
  apply Nat.eqb_eq in E. lia.
Qed.
Lemma set_next_bit j k r v : (j < k < 256)%nat -> 0 <= v <= 1 -> digits_inv (S j) r -> digits_inv (S j) (<[k := v]> r).
Proof.
  intros Hk Hv (Hl & Hd & Hb). split; [by rewrite length_insert|]. split; intros m Hm; rewrite byte_at_insert by lia; destruct (m =? k)%nat eqn:E; auto.
  apply Nat.eqb_eq in E. lia.
Qed.

Lemma shl_bit x b : 0 <= x <= 1 -> (b <= 6)%nat -> shl 32 x (Z.of_nat b) = x * 2 ^ Z.of_nat b /\ 1 <= 2 ^ Z.of_nat b <= 64.
Proof.
  intros Hx Hb. assert (1 <= 2 ^ Z.of_nat b <= 64) as H.
  { split; [apply (Z.pow_le_mono_r 2 0); lia|]. change 64 with (2 ^ 6). apply Z.pow_le_mono_r; lia. }
  split; [|done]. unfold shl. apply wrap_small; [lia|]. change (2 ^ (32 - 1)) with 2147483648. nia.
Qed.

Lemma slide_at_ok n j b r : (j < 256)%nat -> (1 <= b)%nat -> (b + n <= 7)%nat -> digits_inv (S j) r -> digits_inv (S j) (slide_at n j b r).
Proof.
  revert b r. induction n as [|n IH]; intros b r Hj Hb Hn HI; [done|]. cbn [slide_at].
  destruct (j + b <? 256)%nat eqn:E; [|done]. apply Nat.ltb_lt in E. cbv zeta.
  pose proof (proj1 (proj2 HI) j ltac:(lia)) as Rj. pose proof (proj2 (proj2 HI) (j + b)%nat ltac:(lia)) as Rb.
  destruct (shl_bit (byte_at r (j + b)) b Rb ltac:(lia)) as [-> Hp].
  destruct (byte_at r (j + b) =? 0) eqn:E0; cbn [negb]; [apply IH; try lia; done|]. apply Z.eqb_neq in E0. assert (byte_at r (j + b) = 1) as E1 by lia. rewrite E1.
  destruct (_ <=? 15) eqn:E2; [|destruct (-15 <=? _) eqn:E3; [|done]].
  - apply Z.leb_le in E2. apply IH; [lia..|]. apply set_next_bit; [lia|lia|]. apply set_digit; [lia| |done]. rewrite schar_small; lia.
  - apply Z.leb_le in E3. apply Z.leb_gt in E2. apply IH; [lia..|]. apply slide_carry_ok; [lia|lia|]. apply set_digit; [lia| |done]. rewrite schar_small; lia.
Qed.

Lemma land_1 v : 0 <= Z.land 1 v <= 1.
Proof.
  rewrite Z.land_comm. pose proof (Z.land_ones v 1 ltac:(lia)) as E. change (Z.ones 1) with 1 in E. rewrite E. pose proof (Z.mod_pos_bound v (2 ^ 1) ltac:(lia)). lia.
Qed.

Lemma bits_inv a : digits_inv 0 (bits_of a).
Proof.
  split; [unfold bits_of; by rewrite length_map, length_seq|]. split; [lia|]. intros k _. unfold byte_at. rewrite nth_lookup. unfold bits_of.
  rewrite list_lookup_fmap. destruct (seq 0 256 !! k) as [i|]; cbn [fmap option_fmap option_map default]; [apply land_1|lia].
Qed.

Lemma digits_inv_all r : digits_inv 256 r -> Forall (fun x => -15 <= x <= 15) r /\ length r = 256%nat.
Proof.
  intros (Hl & Hd & _). split; [|exact Hl]. apply List.Forall_forall. intros x Hx. apply (In_nth _ _ 0) in Hx as (k & Hk & <-). rewrite Hl in Hk. exact (Hd k Hk).
Qed.

Lemma slide_digits a : Forall (fun x => -15 <= x <= 15) (slide a) /\ length (slide a) = 256%nat.
Proof.
  assert (forall n j r, digits_inv j r -> (j + n = 256)%nat ->
    digits_inv 256 (fold_left (fun r i => if negb (byte_at r i =? 0) then slide_at 6 i 1 r else r) (seq j n) r)) as H.
  { induction n as [|n IH]; intros j r HI Hj; cbn [seq fold_left]; [assert (j = 256%nat) as -> by lia; exact HI|]. apply IH; [|lia].
    assert (digits_inv (S j) r) as HS.
    { destruct HI as (Hl & Hd & Hb). split; [done|]. split; intros k Hk; [|apply Hb; lia]. destruct (Nat.eq_dec k j) as [->|]; [specialize (Hb j ltac:(lia)); lia|apply Hd; lia]. }
    destruct (byte_at r j =? 0); cbn [negb]; [done|]. apply slide_at_ok; [lia..|done]. }
  apply digits_inv_all. unfold slide. apply H; [apply bits_inv|lia].
Qed.

(** ** Sums of multiples *)

(** (2 k + 1) A as the code computes it. *)
Definition odd_of (A : Z * Z) (k : nat) : Z * Z := Nat.iter k (fun X => ed_add (ed_double A) X) A.

Definition ref_term (O : nat -> Z * Z) (x : Z) (R : Z * Z) : Z * Z :=
  if 0 <? x then ed_add R (O (Z.to_nat (x / 2))) else if x <? 0 then ed_add R (ed_opp (O (Z.to_nat (- x / 2)))) else R.
Definition ref_step (A : Z * Z) (R : Z * Z) (d : Z * Z) : Z * Z := ref_term odd_mul d.2 (ref_term (odd_of A) d.1 (ed_double R)).
Definition ref_double_scalarmult (A : Z * Z) (digits : list (Z * Z)) : Z * Z := fold_left (ref_step A) digits ed_zero.

Lemma odd_of_on A k : on_curve A -> on_curve (odd_of A k).
Proof. intros HA. apply iter_on; [|done]. intros X HX. apply add_on; [by apply double_on|done]. Qed.

Lemma odd_multiples_rep n A P2 q k : on_curve A -> rep3 P2 (ed_double A) -> rep_cached q (odd_of A k) ->
  length (odd_multiples n P2 q) = S n /\ forall j c, nth_error (odd_multiples n P2 q) j = Some c -> rep_cached c (odd_of A (k + j)).
Proof.
  intros HA H2. revert q k. induction n as [|n IH]; intros q k Hq; cbn [odd_multiples].
  - split; [done|]. intros [|j] c Hj; [injection Hj as <-; by rewrite Nat.add_0_r|by destruct j].
  - destruct (IH (ge_p3_to_cached (ge_p1p1_to_p3 (ge_add P2 q))) (S k)) as [IH1 IH2].
    { apply rep3_to_cached, rep1_to_p3. apply (ge_add_rep P2 (ed_double A) (odd_of A k)); [by apply double_on|by apply odd_of_on|done|done]. }
    split; [cbn [length]; by rewrite IH1|]. intros [|j] c Hj; [injection Hj as <-; by rewrite Nat.add_0_r|]. rewrite Nat.add_succ_r. apply (IH2 j c Hj).
Qed.

Section Terms.
Context (t : ge_p1p1) (R : Z * Z) (HR : on_curve R) (Ht : rep1 t R) (x : Z) (Hx : -15 <= x <= 15).

Lemma half_index : (Z.to_nat (Z.abs x / 2) < 8)%nat.
Proof using Hx. assert (0 <= Z.abs x / 2 < 8); [|lia]. split; [apply Z.div_pos; lia|apply Z.div_lt_upper_bound; lia]. Qed.

Lemma add_multiple_rep A Ai : on_curve A -> length Ai = 8%nat -> (forall j c, nth_error Ai j = Some c -> rep_cached c (odd_of A j)) ->
  exists t', add_multiple Ai x t = Some t' /\ on_curve (ref_term (odd_of A) x R) /\ rep1 t' (ref_term (odd_of A) x R).
Proof using HR Ht Hx.
  intros HA Hl Hc. pose proof half_index as Hi. unfold add_multiple, ref_term.
  assert (forall k, (k < 8)%nat -> exists q, nth_error Ai k = Some q /\ rep_cached q (odd_of A k)) as Hget.
  { intros k Hk. destruct (nth_error Ai k) as [q|] eqn:E; [by exists q; auto|]. apply nth_error_None in E. lia. }
  destruct (0 <? x) eqn:E1; [|destruct (x <? 0) eqn:E2; [|by exists t]].
  - apply Z.ltb_lt in E1. rewrite Z.abs_eq in Hi by lia. destruct (Hget _ Hi) as (q & -> & Hq). cbn [mbind option_bind].
    eexists. split; [reflexivity|]. pose proof (odd_of_on A (Z.to_nat (x / 2)) HA). split; [by apply add_on|]. apply ge_add_rep; try done. by apply rep1_to_p3.
  - apply Z.ltb_lt in E2. rewrite Z.abs_neq in Hi by lia. destruct (Hget _ Hi) as (q & -> & Hq). cbn [mbind option_bind].
    eexists. split; [reflexivity|]. pose proof (odd_of_on A (Z.to_nat (- x / 2)) HA). split; [apply add_on; [done|by apply opp_on]|].
    apply ge_sub_rep; try done. by apply rep1_to_p3.
Qed.

Lemma add_base_rep : exists t', add_base x t = Some t' /\ on_curve (ref_term odd_mul x R) /\ rep1 t' (ref_term odd_mul x R).
Proof using HR Ht Hx.
  pose proof half_index as Hi. unfold add_base, ref_term.
  destruct (0 <? x) eqn:E1; [|destruct (x <? 0) eqn:E2; [|by exists t]].
  - apply Z.ltb_lt in E1. rewrite Z.abs_eq in Hi by lia. destruct (Bi_entry _ Hi) as (q & -> & Hs & Hq). cbn [mbind option_bind].
    eexists. split; [reflexivity|]. pose proof (odd_mul_on (Z.to_nat (x / 2))). split; [by apply add_on|]. apply ge_madd_rep; try done; [by apply rep1_to_p3|by apply stands_rep].
  - apply Z.ltb_lt in E2. rewrite Z.abs_neq in Hi by lia. destruct (Bi_entry _ Hi) as (q & -> & Hs & Hq). cbn [mbind option_bind].
    eexists. split; [reflexivity|]. pose proof (odd_mul_on (Z.to_nat (- x / 2))). split; [apply add_on; [done|by apply opp_on]|].
    apply ge_msub_rep; try done; [by apply rep1_to_p3|by apply stands_rep].
Qed.
End Terms.

Lemma double_and_add_rep A Ai digits r R : on_curve A -> length Ai = 8%nat -> (forall j c, nth_error Ai j = Some c -> rep_cached c (odd_of A j)) ->
  Forall (fun d => -15 <= d.1 <= 15 /\ -15 <= d.2 <= 15) digits -> on_curve R -> rep2 r R ->
  exists r', double_and_add Ai digits r = Some r' /\ on_curve (fold_left (ref_step A) digits R) /\ rep2 r' (fold_left (ref_step A) digits R).
Proof.
  intros HA Hl Hc Hd. revert r R. induction Hd as [|[x y] digits [Hx Hy] Hd IH]; intros r R HR Hr; [by exists r|]. cbn [double_and_add fold_left fst snd] in *.
  destruct (add_multiple_rep (ge_p2_dbl r) (ed_double R) ltac:(by apply double_on) ltac:(by apply ge_p2_dbl_rep) x Hx A Ai HA Hl Hc) as (t1 & -> & C1 & R1).
  cbn [mbind option_bind]. destruct (add_base_rep t1 _ C1 R1 y Hy) as (t2 & -> & C2 & R2). cbn [mbind option_bind].
  apply IH; [exact C2|]. by apply rep1_to_p2.
Qed.

Lemma drop_zeros_incl l : incl (drop_zeros l) l.
Proof.
  induction l as [|[x y] l IH]; [apply incl_refl|]. cbn [drop_zeros]. destruct (negb _ || _); [apply incl_refl|]. apply incl_tl, IH.
Qed.

Lemma combined_digits l m : Forall (fun x => -15 <= x <= 15) l -> Forall (fun x => -15 <= x <= 15) m ->
  Forall (fun d : Z * Z => -15 <= d.1 <= 15 /\ -15 <= d.2 <= 15) (drop_zeros (rev (combine l m))).
Proof.
  intros Ha Hb. apply List.Forall_forall. intros [x y] H%drop_zeros_incl%in_rev.
  rewrite List.Forall_forall in Ha, Hb. split; [apply Ha; exact (in_combine_l _ _ _ _ H)|apply Hb; exact (in_combine_r _ _ _ _ H)].
Qed.
Lemma both_digits_ok a b : Forall (fun d => -15 <= d.1 <= 15 /\ -15 <= d.2 <= 15) (both_digits a b).
Proof. unfold both_digits. apply combined_digits; [exact (proj1 (slide_digits a))|exact (proj1 (slide_digits b))]. Qed.

Lemma zero2_rep : rep2 ge_p2_0 ed_zero.
Proof. destruct zero_rep as (z & Hz & H1 & H2 & H3 & _). exists z. split; [done|]. split_and!; assumption. Qed.

Lemma double_scalarmult_rep a P A b : on_curve A -> rep3 P A ->
  exists r, ge_double_scalarmult_vartime a P b = Some r /\ on_curve (ref_double_scalarmult A (both_digits a b)) /\ rep2 r (ref_double_scalarmult A (both_digits a b)).
Proof.
  intros HA HP. unfold ge_double_scalarmult_vartime, ref_double_scalarmult. cbv zeta.
  assert (rep3 (ge_p1p1_to_p3 (ge_p3_dbl P)) (ed_double A)) as H2 by (apply rep1_to_p3, ge_p2_dbl_rep; [done|by apply rep3_to_p2]).
  destruct (odd_multiples_rep 7 A _ _ 0 HA H2 (rep3_to_cached _ _ HP)) as [Hl Hc].
  apply double_and_add_rep; [done|exact Hl|exact Hc|apply both_digits_ok|apply zero_on|apply zero2_rep].
Qed.

(** ** Decompression *)

(** Almost reduced: a reduced element plus or minus one. *)
Definition reduced1 : fe range := fe_box 33889977 16944989.

#[local] Instance pow_proper : Proper (eqp ==> eq ==> eqp) Z.pow.
Proof. intros a b E n ? <-. by apply pow_eqp. Qed.

Lemma computes_pow22523 x v : computes x large v -> computes (fe_pow22523 x) large (v ^ ((p25519 - 5) / 8)).
Proof.
  intros (f & -> & Hf & Vf). destruct (fe_pow22523_ok f Hf) as [_ H]. eapply computes_mod; [|exact H]. exact (pow_eqp _ _ _ Vf).
Qed.
Lemma computes_neg x v : computes x reduced v -> computes (fe_neg x) reduced (- v).
Proof.
  intros (f & -> & Hf & Vf). eapply computes_mod; [exact (eqp_opp _ _ Vf)|].
  eapply computes_intro; [apply fe_neg_rel, fe_rel_in; exact Hf|box|apply fe_neg_val].
Qed.
Lemma frombytes_reduced s : Forall is_u8 s -> length s = 32%nat -> computes (fe_frombytes s) reduced (le_value s mod 2 ^ 255).
Proof.
  intros Hs Hl. rewrite <- frombytes_load_val by done.
  eapply computes_intro; [apply frombytes_carry_rel, fe_rel_in, frombytes_load_in; exact Hs|box|apply frombytes_carry_val].
Qed.

(** The candidate for the root of u / v. *)
Definition root_of (u v : Z) : Z := (u * v ^ 7) ^ ((p25519 - 5) / 8) * v ^ 3 * u.

Definition quarter : Z := (p25519 - 1) / 4.
Definition eighth : Z := (p25519 - 5) / 8.
Lemma quarter_ok : quarter = 2 * eighth + 1.
Proof. reflexivity. Qed.
Lemma eighth_nonneg : 0 <= eighth.
Proof. discriminate. Qed.
Lemma order_quarter : p25519 - 1 = 2 * (2 * quarter).
Proof. reflexivity. Qed.

Lemma pow_quarter w : w ^ quarter = w ^ eighth * w ^ eighth * w.
Proof.
  pose proof eighth_nonneg. replace quarter with (eighth + eighth + 1) by reflexivity.
  by rewrite !Z.pow_add_r, Z.pow_1_r by lia.
Qed.
Lemma root_square u v : v * (root_of u v * root_of u v) = u * (u * v ^ 7) ^ quarter.
Proof.
  rewrite pow_quarter. unfold root_of. fold eighth. generalize ((u * v ^ 7) ^ eighth). intros W. ring.
Qed.

(** When u / v has a root, the candidate is one, up to the sign of its square. *)
Lemma root_complete u v s : v * (s * s) ≡p u -> v * (root_of u v * root_of u v) ≡p u \/ v * (root_of u v * root_of u v) ≡p - u.
Proof.
  intros E. rewrite root_square. pose proof quarter_ok. pose proof eighth_nonneg.
  destruct (Z.eq_dec ((v ^ 4 * s) mod p25519) 0) as [E0|E0].
  - left. assert (v ^ 4 * s ≡p 0) as Z0 by (unfold eqp; rewrite E0; reflexivity).
    assert (u ≡p 0) as U0; [|rewrite U0; by rewrite Z.mul_0_l]. rewrite <- E.
    destruct (mul_zero _ _ Z0) as [H1|H1]; [|rewrite H1; by rewrite !Z.mul_0_r].
    replace (v ^ 4) with (v * (v * (v * v))) in H1 by ring. assert (v ≡p 0) as V0; [|rewrite V0; by rewrite Z.mul_0_l].
    destruct (mul_zero _ _ H1) as [?|H2]; [done|]. destruct (mul_zero _ _ H2) as [?|H3]; [done|]. by destruct (mul_zero _ _ H3).
  - assert (u * v ^ 7 ≡p (v ^ 4 * s) * (v ^ 4 * s)) as Ew by (rewrite <- E; apply eq_subrelation; [apply _|ring]).
    set (g := v ^ 4 * s) in *. set (t := g ^ (2 * quarter)).
    assert ((u * v ^ 7) ^ quarter ≡p t) as Et.
    { rewrite (pow_eqp _ _ quarter Ew). unfold t. rewrite Z.pow_mul_r, Z.pow_2_r by lia. reflexivity. }
    rewrite Et. assert (t * t ≡p 1) as Ht.
    { rewrite <- (fermat_p g ltac:(intros H1; apply E0; unfold eqp in H1; rewrite H1; reflexivity)). rewrite order_quarter. unfold t.
      replace (2 * (2 * quarter)) with (2 * quarter + 2 * quarter) by lia. rewrite Z.pow_add_r by lia. reflexivity. }
    assert ((t - 1) * (t + 1) ≡p 0) as Hf by (transitivity (t * t - 1); [apply eq_subrelation; [apply _|ring]|]; rewrite Ht; reflexivity).
    destruct (mul_zero _ _ Hf) as [H1|H1].
    + left. apply (proj2 (eqp_sub_zero _ _)) in H1. rewrite H1. by rewrite Z.mul_1_r.
    + right. assert (t ≡p -1) as T1 by (apply (proj2 (eqp_sub_zero _ _)); exact H1). rewrite T1. apply eq_subrelation; [apply _|ring].
Qed.

Lemma curve_ratio x y : on_curve (x, y) <-> (D * (y * y) + 1) * (x * x) ≡p y * y - 1.
Proof.
  unfold on_curve. split; intros H; apply (proj2 (eqp_sub_zero _ _)); apply (proj1 (eqp_sub_zero _ _)) in H.
  - transitivity (- (- (x * x) + y * y - (1 + D * (x * x) * (y * y)))); [apply eq_subrelation; [apply _|ring]|]. by rewrite H.
  - transitivity (- ((D * (y * y) + 1) * (x * x) - (y * y - 1))); [apply eq_subrelation; [apply _|ring]|]. by rewrite H.
Qed.

(** What [ge_frombytes_negate_vartime] returns for the encoding [s]: -1 when no point has the
    coordinate y it gives, else the point with that y whose x has the other sign than asked for (a
    point with x = 0 has no other sign). *)
Definition decoded (s : list Z) (r : option (option ge_p3)) : Prop :=
  let y := le_value s mod 2 ^ 255 in
  match r with
  | None => False
  | Some None => forall x, ~ on_curve (x, y)
  | Some (Some P) => exists x, on_curve (x, y) /\ rep3 P (x, y) /\ (x ≡p 0 \/ (x mod p25519) mod 2 = 1 - byte_at s 31 / 128)
  end.

Lemma opp_parity x : ~ x ≡p 0 -> ((- x) mod p25519) mod 2 = 1 - (x mod p25519) mod 2.
Proof.
  intros Hx. assert (x mod p25519 <> 0) as Hn by (intros E; apply Hx; unfold eqp; rewrite E; reflexivity).
  rewrite Z.mod_opp_l_nz by (try assumption; discriminate).
  generalize (x mod p25519). intros r. rewrite Zminus_mod. change (p25519 mod 2) with 1.
  pose proof (Z.mod_pos_bound r 2 ltac:(lia)). assert (r mod 2 = 0 \/ r mod 2 = 1) as [E|E] by lia; rewrite E; reflexivity.
Qed.

Lemma sign_bit s i : Forall is_u8 s -> Z.shiftr (byte_at s i) 7 = byte_at s i / 128 /\ (byte_at s i / 128 = 0 \/ byte_at s i / 128 = 1).
Proof. intros Hs. rewrite Z.shiftr_div_pow2 by lia. pose proof (byte_at_u8 s Hs i). change (2 ^ 7) with 128. split; [done|]. Z.to_euclidean_division_equations. lia. Qed.

Lemma finish_ok s X Y Zc x : Forall is_u8 s -> computes X reduced x -> computes Y reduced (le_value s mod 2 ^ 255) -> computes Zc reduced 1 ->
  on_curve (x, le_value s mod 2 ^ 255) -> decoded s (frombytes_finish s X Y Zc).
Proof.
  intros Hs HX HY HZ Hon. set (y := le_value s mod 2 ^ 255) in *. unfold frombytes_finish.
  rewrite (fe_isnegative_ok X x) by (eapply computes_le; [|exact HX]; box). cbn [mbind option_bind].
  destruct (sign_bit s 31 Hs) as [-> Hb]. set (x' := if (x mod p25519) mod 2 =? byte_at s 31 / 128 then - x else x).
  assert (computes (if (x mod p25519) mod 2 =? byte_at s 31 / 128 then fe_neg X else X) reduced x') as HX'.
  { unfold x'. destruct (_ =? _); [by apply computes_neg|exact HX]. }
  generalize dependent (if (x mod p25519) mod 2 =? byte_at s 31 / 128 then fe_neg X else X). intros X' HX'. unfold decoded. fold y.
  exists x'. split_and!.
  - unfold x'. destruct (_ =? _); [exact (opp_on _ Hon)|exact Hon].
  - exists 1. split; [vm_compute; discriminate|]. cbn [fst snd]. rewrite !Z.mul_1_r. split_and!; try assumption.
    eapply computes_mul_gen; [exact HX'|exact HY|box|box].
  - unfold x'. destruct (Z.eq_dec (x mod p25519) 0) as [E|E].
    + left. assert (x ≡p 0) as E0 by (unfold eqp; rewrite E; reflexivity). destruct (_ =? _); [rewrite E0; reflexivity|exact E0].
    + right. assert (~ x ≡p 0) as Hn by (intros H; apply E; unfold eqp in H; rewrite H; reflexivity).
      pose proof (Z.mod_pos_bound (x mod p25519) 2 ltac:(lia)). destruct (Z.eqb_spec ((x mod p25519) mod 2) (byte_at s 31 / 128)) as [<-|N].
      * by apply opp_parity.
      * lia.
Qed.

Lemma nonzero_ok x v : computes x medium v -> exists b, fe_isnonzero x = Some b /\ if b : bool then ~ v ≡p 0 else v ≡p 0.
Proof.
  intros H. rewrite (fe_isnonzero_ok _ _ H). eexists. split; [reflexivity|]. unfold eqp. change (0 mod p25519) with 0.
  destruct (Z.eqb_spec (v mod p25519) 0) as [E|E]; cbn [negb]; assumption.
Qed.

Lemma sqrtm1_computes : computes (fe_const sqrtm1) reduced sqrt_m1.
Proof.
  apply (computes_mod _ _ (fe_val sqrtm1)); [vm_compute; reflexivity|]. apply computes_const. vm_compute. repeat split; discriminate.
Qed.

Lemma curve_opp r v u : v * (r * r) ≡p - u -> v * ((r * sqrt_m1) * (r * sqrt_m1)) ≡p u.
Proof.
  intros E. transitivity (v * (r * r) * (sqrt_m1 * sqrt_m1)); [apply eq_subrelation; [apply _|ring]|].
  rewrite E, sqrt_m1_ok. apply eq_subrelation; [apply _|ring].
Qed.

Lemma check_ok s X Y Zc vxx U r : let y := le_value s mod 2 ^ 255 in let u := y * y - 1 in let v := D * (y * y) + 1 in
  Forall is_u8 s -> r = root_of u v -> computes X reduced r -> computes Y reduced y -> computes Zc reduced 1 ->
  computes vxx reduced (v * (r * r)) -> computes U reduced1 u -> decoded s (frombytes_check s X Y Zc vxx U).
Proof.
  intros y u v Hs Er HX HY HZ Hvxx HU. unfold frombytes_check.
  destruct (nonzero_ok (fe_sub vxx U) (v * (r * r) - u)) as (b & -> & Hb); [eapply computes_sub_gen; [exact Hvxx|exact HU|box]|].
  cbn [mbind option_bind]. destruct b.
  2:{ apply (finish_ok s X Y Zc r Hs HX HY HZ). apply curve_ratio. apply eqp_sub_zero. exact Hb. }
  destruct (nonzero_ok (fe_add vxx U) (v * (r * r) + u)) as (b & -> & Hb'); [eapply computes_add_gen; [exact Hvxx|exact HU|box]|].
  cbn [mbind option_bind]. destruct b.
  - intros x Hx%curve_ratio. fold y u v in Hx. destruct (root_complete u v x Hx) as [H|H]; rewrite <- Er in H.
    + apply Hb. exact (proj1 (eqp_sub_zero _ _) H).
    + apply Hb'. rewrite H. apply eq_subrelation; [apply _|ring].
  - apply (finish_ok s _ Y Zc (r * sqrt_m1) Hs); [|exact HY|exact HZ|].
    + eapply computes_mul_gen; [exact HX|exact sqrtm1_computes|box|box].
    + apply curve_ratio. fold y u v. apply curve_opp. apply eqp_sub_zero.
      transitivity (v * (r * r) + u); [apply eq_subrelation; [apply _|ring]|exact Hb'].
Qed.

(** The element 1, with its exact bounds. *)
Definition one_box : fe range := fe_map (fun z => Some (z, z)) (fe_1 (H:=exact)).
Lemma one_computes : computes fe_1 one_box 1.
Proof. exists (fe_1 (H:=exact)). split_and!; [reflexivity|vm_compute; repeat split; discriminate|reflexivity]. Qed.

Lemma d_computes : computes (fe_const d) small D.
Proof. apply (computes_mod _ _ (fe_val d)); [exact d_value|]. apply computes_const. vm_compute. repeat split; discriminate. Qed.

(** Every string of 32 bytes is decoded: rejected when its y is of no point, else to the point, negated. *)
Lemma frombytes_negate_ok s : Forall is_u8 s -> length s = 32%nat -> decoded s (ge_frombytes_negate_vartime s).
Proof.
  intros Hs Hl. pose proof (frombytes_reduced s Hs Hl) as HY. pose proof one_computes as H1. pose proof d_computes as HD.
  set (y := le_value s mod 2 ^ 255) in *. unfold ge_frombytes_negate_vartime. cbv zeta.
  revert HY. generalize (fe_frombytes s : elt). intros Y HY.
  pose proof (computes_sq_gen _ _ _ HY ltac:(box)) as Hu. revert Hu. generalize (fe_sq Y : elt). intros u0 Hu.
  pose proof (computes_mul_gen _ _ _ _ _ _ Hu HD ltac:(box) ltac:(box)) as Hv. revert Hv. generalize (fe_mul u0 (fe_const d) : elt). intros v0 Hv.
  pose proof (computes_sub_gen _ _ _ _ reduced1 _ _ Hu H1 ltac:(box)) as HU. revert HU. generalize (fe_sub u0 fe_1 : elt). intros U HU.
  pose proof (computes_add_gen _ _ _ _ reduced1 _ _ Hv H1 ltac:(box)) as HV. revert HV. generalize (fe_add v0 fe_1 : elt). intros V HV.
  pose proof (computes_mul_gen _ _ _ _ _ _ (computes_sq_gen _ _ _ HV ltac:(box)) HV ltac:(box) ltac:(box)) as H3.
  revert H3. generalize (fe_mul (fe_sq V) V : elt). intros v3 H3.
  pose proof (computes_mul_gen _ _ _ _ _ _ (computes_mul_gen _ _ _ _ _ _ (computes_sq_gen _ _ _ H3 ltac:(box)) HV ltac:(box) ltac:(box)) HU ltac:(box) ltac:(box)) as H7.
  revert H7. generalize (fe_mul (fe_mul (fe_sq v3) V) U : elt). intros w H7.
  pose proof (computes_pow22523 _ _ (computes_le _ _ _ _ reduced_large H7)) as HP. revert HP. generalize (fe_pow22523 w : elt). intros W HP.
  pose proof (computes_mul_gen _ _ _ _ _ _ (computes_mul_gen _ _ _ _ _ _ HP H3 ltac:(box) ltac:(box)) HU ltac:(box) ltac:(box)) as HX.
  revert HX. generalize (fe_mul (fe_mul W v3) U : elt). intros X HX.
  pose proof (computes_mul_gen _ _ _ _ _ _ (computes_sq_gen _ _ _ HX ltac:(box)) HV ltac:(box) ltac:(box)) as HXX.
  revert HXX. generalize (fe_mul (fe_sq X) V : elt). intros vxx HXX.
  set (u := y * y - 1) in *. set (v := y * y * D + 1) in *. fold eighth in HP, HX, HXX.
  assert (((v * v * v) * (v * v * v) * v * u) = u * v ^ 7) as E7 by ring. rewrite E7 in HX, HXX.
  replace v with (D * (y * y) + 1) in * by (unfold v; ring).
  apply (check_ok s X Y fe_1 vxx U _ Hs eq_refl); [|exact HY|eapply computes_le; [|exact H1]; box| |exact HU].
  - eapply computes_conv; [exact HX| |box]. unfold root_of. fold eighth y u. generalize ((u * (D * (y * y) + 1) ^ 7) ^ eighth). intros Q. ring.
  - eapply computes_conv; [exact HXX| |box]. unfold root_of. fold eighth y u. generalize ((u * (D * (y * y) + 1) ^ 7) ^ eighth). intros Q. ring.
Qed.
