(* ===== verification/GeSlide.v ===== *)
(** * The digits of [slide]

    The digits that [slide] makes of the bits of a scalar below 2^253 are zero or odd and have the
    scalar as their value: no carry is lost at the end of the array. *)

From S2P Require Import Prelude Mem Limbs Primes Fe FeSpec FeBytes Edwards EdGroup GeTables Ge GeSpec GeTableSpec GeScalar GeVerify.
From Stdlib Require Import ZArith Lia.
From stdpp Require Import base tactics list numbers.
Local Open Scope Z_scope.

(** The value of the digits from index [k]. *)
Definition radix2 (r : list Z) : Z := fold_right (fun x acc => x + 2 * acc) 0 r.
Definition suffix (k : nat) (r : list Z) : Z := radix2 (drop k r).

Lemma suffix_step k r : suffix k r = byte_at r k + 2 * suffix (S k) r.
Proof.
  unfold suffix. destruct (le_lt_dec (length r) k) as [H|H].
  - rewrite !drop_ge by lia. by rewrite byte_at_over.
  - destruct (lookup_lt_is_Some_2 r k H) as [x Hx]. rewrite (drop_S r x k Hx). cbn [radix2 fold_right]. unfold byte_at. by rewrite nth_lookup, Hx.
Qed.
Lemma suffix_over k r : (length r <= k)%nat -> suffix k r = 0.
Proof. intros H. unfold suffix. by rewrite drop_ge. Qed.

(** Two arrays that agree up to [k] from [j]: the difference of their suffixes is shifted. *)
Lemma suffix_back n j r r' c : (forall i, (j <= i < j + n)%nat -> byte_at r' i = byte_at r i) -> suffix (j + n) r' = suffix (j + n) r + c ->
  suffix j r' = suffix j r + 2 ^ Z.of_nat n * c.
Proof.
  revert j. induction n as [|n IH]; intros j Hi Hs; [rewrite Nat.add_0_r in Hs; rewrite Hs; cbn [Z.of_nat]; lia|].
  rewrite (suffix_step j r'), (suffix_step j r). rewrite (Hi j) by lia.
  rewrite (IH (S j)); [rewrite Nat2Z.inj_succ, Z.pow_succ_r by lia; ring|intros i Hji; apply Hi; lia|].
  replace (S j + n)%nat with (j + S n)%nat by lia. exact Hs.
Qed.
Lemma suffix_insert_low i k v r : (i < k)%nat -> suffix k (<[i := v]> r) = suffix k r.
Proof. intros H. unfold suffix. by rewrite drop_insert_lt. Qed.
Lemma suffix_insert k n v r : (k + n < length r)%nat -> suffix k (<[(k + n)%nat := v]> r) = suffix k r + 2 ^ Z.of_nat n * (v - byte_at r (k + n)).
Proof.
  intros H. apply suffix_back.
  - intros i Hi. rewrite byte_at_insert by done. destruct (Nat.eqb_spec i (k + n)); [lia|done].
  - rewrite (suffix_step _ (insert _ _ _)), (suffix_step (k + n) r), byte_at_insert, Nat.eqb_refl by done. rewrite suffix_insert_low by lia. lia.
Qed.

Lemma suffix_bits n k r : (k + n = length r)%nat -> (forall i, (k <= i)%nat -> 0 <= byte_at r i <= 1) -> 0 <= suffix k r < 2 ^ Z.of_nat n.
Proof.
  revert k. induction n as [|n IH]; intros k Hl Hb; [rewrite suffix_over by lia; done|].
  rewrite suffix_step. pose proof (Hb k ltac:(lia)). specialize (IH (S k) ltac:(lia) ltac:(intros i Hi; apply Hb; lia)).
  rewrite Nat2Z.inj_succ, Z.pow_succ_r by lia. lia.
Qed.

(** ** The carry *)

Lemma carry_value n k r : (k + n = length r)%nat -> (forall i, (k <= i)%nat -> 0 <= byte_at r i <= 1) -> suffix k r < 2 ^ Z.of_nat n - 1 ->
  suffix k (slide_carry n k r) = suffix k r + 1 /\ (forall i, (i < k)%nat -> byte_at (slide_carry n k r) i = byte_at r i).
Proof.
  revert k r. induction n as [|n IH]; intros k r Hl Hb Hs; [rewrite suffix_over in Hs by lia; cbn in Hs; lia|]. cbn [slide_carry].
  pose proof (Hb k ltac:(lia)) as Hk. assert (forall v i, (i < k)%nat -> byte_at (<[k := v]> r) i = byte_at r i) as Hlow.
  { intros v i Hi. rewrite byte_at_insert by lia. destruct (Nat.eqb_spec i k); [lia|done]. }
  assert (forall v, suffix k (<[k := v]> r) = suffix k r + (v - byte_at r k)) as Hset.
  { intros v. rewrite <- (Nat.add_0_r k) at 2. rewrite suffix_insert, Nat.add_0_r by lia. cbn [Z.of_nat]. lia. }
  destruct (Z.eqb_spec (byte_at r k) 0) as [E|E]; [split; [rewrite Hset; lia|apply Hlow]|].
  rewrite suffix_step in Hs. rewrite Nat2Z.inj_succ, Z.pow_succ_r in Hs by lia.
  destruct (IH (S k) (<[k := 0]> r)) as [I1 I2].
  - rewrite length_insert. lia.
  - intros i Hi. rewrite byte_at_insert by lia. destruct (Nat.eqb_spec i k); [lia|apply Hb; lia].
  - rewrite suffix_insert_low by lia. lia.
  - split; [|intros i Hi; rewrite I2 by lia; by apply Hlow].
    rewrite suffix_step, I1, I2, byte_at_insert, Nat.eqb_refl, suffix_insert_low by lia. rewrite (suffix_step k r). lia.
Qed.
Lemma carry_low n k r i : (k + n <= length r)%nat -> (i < k)%nat -> byte_at (slide_carry n k r) i = byte_at r i.
Proof.
  revert k r. induction n as [|n IH]; intros k r Hl Hi; [done|]. cbn [slide_carry].
  destruct (byte_at r k =? 0); [|rewrite IH by (try rewrite length_insert; lia)]; (rewrite byte_at_insert by lia; destruct (Nat.eqb_spec i k); [lia|done]).
Qed.

(** ** The loop on [b] *)

Lemma pow_S n : 2 ^ Z.of_nat (S n) = 2 * 2 ^ Z.of_nat n.
Proof. rewrite Nat2Z.inj_succ, Z.pow_succ_r by lia. done. Qed.

(** The digit at [i] is odd, the bits up to [i + b] are spent, the value is [N] and the rest is small. *)
Record window (i b : nat) (N : Z) (r : list Z) : Prop := mkWindow {
  w_inv : digits_inv (S i) r;
  w_odd : Z.odd (byte_at r i) = true;
  w_val : suffix i r = N;
  w_gap : 2 * suffix (S i) r = 2 ^ Z.of_nat b * suffix (i + b) r;
  w_bound : 2 ^ Z.of_nat (i + b) * suffix (i + b) r <= 2 ^ 253
}.

Section Window.
Context (i c : nat) (N : Z) (r : list Z) (Hi : (i + S c < 256)%nat) (W : window i (S c) N r).
Local Abbreviation p := (2 ^ Z.of_nat (S c)).
Local Abbreviation T := (suffix (S (i + S c)) r).

Lemma window_zero : byte_at r (i + S c) = 0 -> window i (S (S c)) N r.
Proof using Hi W.
  intros E. destruct W as [HI HO HV HG HB]. rewrite (suffix_step (i + S c)), E in HG, HB. split; try assumption; rewrite (Nat.add_succ_r i (S c)).
  - rewrite (pow_S (S c)). lia.
  - rewrite pow_S. lia.
Qed.

Lemma window_add v : byte_at r (i + S c) = 1 -> v = byte_at r i + p -> -15 <= v <= 15 -> window i (S (S c)) N (<[(i + S c)%nat := 0]> (<[i := v]> r)).
Proof using Hi W.
  intros E -> Hv. destruct W as [HI HO HV HG HB]. pose proof (proj1 HI) as Hl.
  assert (byte_at (<[i := byte_at r i + p]> r) (i + S c) = 1) as E' by (rewrite byte_at_insert by lia; destruct (Nat.eqb_spec (i + S c) i); [lia|exact E]).
  assert (suffix (S i) (<[(i + S c)%nat := 0]> (<[i := byte_at r i + p]> r)) = suffix (S i) r - 2 ^ Z.of_nat c) as E1.
  { replace (i + S c)%nat with (S i + c)%nat in * by lia. rewrite suffix_insert by (rewrite length_insert; lia). rewrite suffix_insert_low, E' by lia. lia. }
  assert (byte_at (<[(i + S c)%nat := 0]> (<[i := byte_at r i + p]> r)) i = byte_at r i + p) as E2.
  { rewrite byte_at_insert by (rewrite length_insert; lia). destruct (Nat.eqb_spec i (i + S c)); [lia|]. by rewrite byte_at_insert, Nat.eqb_refl by lia. }
  rewrite (suffix_step (i + S c)), E in HG, HB. split.
  - apply set_next_bit; [lia|lia|]. by apply set_digit; [lia| |].
  - rewrite E2, Z.odd_add, HO, pow_S, Z.odd_mul. reflexivity.
  - rewrite suffix_step, E1, E2, <- HV, (suffix_step i r), pow_S. lia.
  - rewrite E1, (Nat.add_succ_r i (S c)), !suffix_insert_low, (pow_S (S c)) by lia. rewrite pow_S in *. lia.
  - rewrite (Nat.add_succ_r i (S c)), !suffix_insert_low, pow_S by lia. lia.
Qed.

(** A carry is only made when the digit is positive, so that the rest stays small. *)
Lemma window_room : byte_at r (i + S c) = 1 -> 0 < byte_at r i -> 2 ^ Z.of_nat i * N <= 2 ^ 253 ->
  exists E : Z, 1 <= E /\ T + 1 <= E /\ 2 ^ 253 = 2 ^ Z.of_nat (i + S c) * (2 * E) /\ 2 ^ Z.of_nat (256 - (i + S c)) = 16 * E.
Proof using Hi W.
  intros Ex Hr HN. destruct W as [HI HO HV HG HB]. rewrite suffix_step in HV. rewrite (suffix_step (i + S c)), Ex in HG.
  assert (2 ^ Z.of_nat (i + S c) = 2 ^ Z.of_nat i * p) as Eq by (rewrite Nat2Z.inj_add, Z.pow_add_r by lia; done).
  pose proof (suffix_bits (256 - S (i + S c)) (S (i + S c)) r ltac:(rewrite (proj1 HI); lia) ltac:(intros k Hk; apply (proj2 (proj2 HI)); lia)) as HT.
  assert (0 < 2 ^ Z.of_nat i) as Pi by (apply Z.pow_pos_nonneg; lia). assert (0 < p) as Pp by (apply Z.pow_pos_nonneg; lia).
  assert (2 ^ Z.of_nat (i + S c) * (1 + 2 * T) < 2 ^ 253) as Hlt by (rewrite Eq; nia).
  assert (i + S c < 253)%nat as Hc.
  { destruct (le_lt_dec 253 (i + S c)) as [H|H]; [|lia]. pose proof (Z.pow_le_mono_r 2 253 (Z.of_nat (i + S c)) ltac:(lia) ltac:(lia)). nia. }
  exists (2 ^ Z.of_nat (252 - (i + S c))). assert (2 ^ 253 = 2 ^ Z.of_nat (i + S c) * (2 * 2 ^ Z.of_nat (252 - (i + S c)))) as E253.
  { rewrite <- pow_S, <- Z.pow_add_r by lia. f_equal. lia. }
  split_and!.
  - apply (Z.pow_le_mono_r 2 0); lia.
  - rewrite E253 in Hlt. rewrite Eq in Hlt. assert (0 < 2 ^ Z.of_nat i * p) by nia. nia.
  - exact E253.
  - change 16 with (2 ^ 4). rewrite <- Z.pow_add_r by lia. f_equal. lia.
Qed.

Lemma window_carry v : byte_at r (i + S c) = 1 -> v = byte_at r i - p -> -15 <= v <= 15 -> 15 < byte_at r i + p -> 2 ^ Z.of_nat i * N <= 2 ^ 253 ->
  window i (S (S c)) N (slide_carry (256 - (i + S c)) (i + S c) (<[i := v]> r)).
Proof using Hi W.
  intros Ex Hv Hv15 Hp HN. destruct (window_room Ex ltac:(lia) HN) as (E & E1 & ET & E253 & E256). destruct W as [HI HO HV HG HB]. pose proof (proj1 HI) as Hl.
  assert (digits_inv (S i) (<[i := v]> r)) as HI' by (apply set_digit; [lia|lia|done]).
  assert (suffix (i + S c) (<[i := v]> r) = 1 + 2 * T) as Es by (rewrite suffix_insert_low, suffix_step, Ex by lia; done).
  destruct (carry_value (256 - (i + S c)) (i + S c) (<[i := v]> r)) as [C1 C2].
  { rewrite length_insert. lia. } { intros k Hk. apply (proj2 (proj2 HI')). lia. } { rewrite Es, E256. lia. }
  pose proof (slide_carry_ok (256 - (i + S c)) i (i + S c) _ ltac:(lia) ltac:(lia) HI') as HI2.
  set (r2 := slide_carry _ _ _) in *. assert (byte_at r2 i = v) as Ei by (rewrite C2 by lia; by rewrite byte_at_insert, Nat.eqb_refl by lia).
  pose proof (suffix_back c (S i) (<[i := v]> r) r2 1) as Hback. replace (S i + c)%nat with (i + S c)%nat in Hback by lia.
  specialize (Hback ltac:(intros k Hk; apply C2; lia) C1). rewrite suffix_insert_low in Hback by lia.
  assert (suffix (S (i + S c)) r2 = T + 1) as E2.
  { pose proof (proj2 (proj2 HI2) (i + S c)%nat ltac:(lia)). rewrite suffix_step, Es in C1. lia. }
  rewrite (suffix_step (i + S c)), Ex in HG, HB. split.
  - exact HI2.
  - rewrite Ei, Hv, Z.odd_sub, HO, pow_S, Z.odd_mul. reflexivity.
  - rewrite suffix_step, Ei, Hback, <- HV, (suffix_step i r), Hv, pow_S. lia.
  - rewrite Hback, (Nat.add_succ_r i (S c)), E2, (pow_S (S c)). rewrite pow_S in *. lia.
  - rewrite (Nat.add_succ_r i (S c)), E2, pow_S, E253. assert (0 < 2 ^ Z.of_nat (i + S c)) by (apply Z.pow_pos_nonneg; lia). nia.
Qed.
End Window.

Lemma slide_at_window n i b N r : (1 <= b)%nat -> (b + n <= 7)%nat -> (i < 256)%nat -> 2 ^ Z.of_nat i * N <= 2 ^ 253 -> window i b N r ->
  (exists b', window i b' N (slide_at n i b r)) /\ (forall k, (k < i)%nat -> byte_at (slide_at n i b r) k = byte_at r k).
Proof.
  intros Hb Hn Hi HN. revert b r Hb Hn. induction n as [|n IH]; intros b r Hb Hn W; [split; [by exists b|done]|]. cbn [slide_at]. cbv zeta.
  destruct (Nat.ltb_spec (i + b) 256) as [Hib|Hib]; [|split; [by exists b|done]].
  pose proof (proj1 (w_inv _ _ _ _ W)) as Hl. pose proof (proj1 (proj2 (w_inv _ _ _ _ W)) i ltac:(lia)) as Ri.
  pose proof (proj2 (proj2 (w_inv _ _ _ _ W)) (i + b)%nat ltac:(lia)) as Rb. destruct (shl_bit (byte_at r (i + b)) b Rb ltac:(lia)) as [-> Hp].
  destruct b as [|c]; [lia|]. destruct (Z.eqb_spec (byte_at r (i + S c)) 0) as [E|E]; cbn [negb].
  { apply IH; [lia|lia|]. by apply window_zero. }
  assert (byte_at r (i + S c) = 1) as E1 by lia. rewrite E1, Z.mul_1_l.
  assert (forall v k, (k < i)%nat -> byte_at (<[i := v]> r) k = byte_at r k) as Hlow.
  { intros v k Hk. rewrite byte_at_insert by lia. destruct (Nat.eqb_spec k i); [lia|done]. }
  destruct (Z.leb_spec (byte_at r i + 2 ^ Z.of_nat (S c)) 15) as [L|L].
  - rewrite schar_small by lia. pose proof (window_add i c N r Hib W _ E1 eq_refl ltac:(lia)) as WA.
    destruct (IH (S (S c)) _ ltac:(lia) ltac:(lia) WA) as [I1 I2].
    split; [exact I1|]. intros k Hk. rewrite I2, byte_at_insert by (try rewrite length_insert; lia). destruct (Nat.eqb_spec k (i + S c)); [lia|by apply Hlow].
  - destruct (Z.leb_spec (-15) (byte_at r i - 2 ^ Z.of_nat (S c))) as [L'|L']; [|split; [by exists (S c)|done]].
    rewrite schar_small by lia. pose proof (window_carry i c N r Hib W _ E1 eq_refl ltac:(lia) L HN) as WC.
    destruct (IH (S (S c)) _ ltac:(lia) ltac:(lia) WC) as [I1 I2]. split; [exact I1|]. intros k Hk. rewrite I2 by lia.
    rewrite carry_low by (try rewrite length_insert; lia). by apply Hlow.
Qed.

(** ** The array *)

Record slid (V : Z) (j : nat) (r : list Z) : Prop := mkSlid {
  s_inv : digits_inv j r;
  s_val : suffix 0 r = V;
  s_bound : 2 ^ Z.of_nat j * suffix j r <= 2 ^ 253;
  s_odd : forall k, (k < j)%nat -> byte_at r k = 0 \/ Z.odd (byte_at r k) = true
}.

Lemma slid_step V j r : (j < 256)%nat -> slid V j r -> slid V (S j) (if negb (byte_at r j =? 0) then slide_at 6 j 1 r else r).
Proof.
  intros Hj [HI HV HB HO]. assert (digits_inv (S j) r) as HS.
  { destruct HI as (Hl & Hd & Hb). split; [done|]. split; intros k Hk; [|apply Hb; lia]. destruct (Nat.eq_dec k j) as [->|]; [specialize (Hb j ltac:(lia)); lia|apply Hd; lia]. }
  pose proof (proj2 (proj2 HI) j ltac:(lia)) as Rj. assert (0 < 2 ^ Z.of_nat j) by (apply Z.pow_pos_nonneg; lia).
  destruct (Z.eqb_spec (byte_at r j) 0) as [E|E]; cbn [negb].
  - split; [exact HS|exact HV|rewrite suffix_step, E in HB; rewrite pow_S; lia|]. intros k Hk. destruct (Nat.eq_dec k j) as [->|]; [by left|apply HO; lia].
  - assert (window j 1 (suffix j r) r) as W.
    { split; [exact HS|replace (byte_at r j) with 1 by lia; reflexivity|done|by rewrite Nat.add_1_r|].
      rewrite Nat.add_1_r, pow_S. rewrite suffix_step in HB. nia. }
    destruct (slide_at_window 6 j 1 (suffix j r) r ltac:(lia) ltac:(lia) Hj HB W) as [[b [WI WO WV WG WB]] Hlow].
    generalize dependent (slide_at 6 j 1 r). intros r' WI WO WV WG WB Hlow. split; [exact WI| | |].
    + rewrite <- HV. rewrite (suffix_back j 0 r r' 0); [lia|intros k Hk; apply Hlow; lia|]. rewrite Nat.add_0_l, WV. lia.
    + rewrite pow_S. transitivity (2 ^ Z.of_nat j * (2 * suffix (S j) r')); [lia|]. rewrite WG, Z.mul_assoc, <- Z.pow_add_r, <- Nat2Z.inj_add by lia. exact WB.
    + intros k Hk. destruct (Nat.eq_dec k j) as [->|]; [by right|]. rewrite Hlow by lia. apply HO. lia.
Qed.

(** The bits have the value of the bytes. *)
Definition bit_of (a : list Z) (k : nat) : Z := Z.land 1 (Z.shiftr (byte_at a (k / 8)) (Z.of_nat (k mod 8))).

Lemma byte_bits a i : map (bit_of a) (seq (8 * i) 8) = map (fun k => (byte_at a i / 2 ^ Z.of_nat k) mod 2) (seq 0 8).
Proof.
  rewrite <- (Nat.add_0_r (8 * i)), <- fmap_add_seq. change (Nat.add (8 * i) <$> seq 0 8) with (map (Nat.add (8 * i)) (seq 0 8)). rewrite map_map. apply map_ext_in. intros k Hk%in_seq. unfold bit_of.
  rewrite <- (Nat.div_unique (8 * i + k) 8 i k), <- (Nat.mod_unique (8 * i + k) 8 i k) by lia.
  rewrite Z.land_comm, Z.shiftr_div_pow2 by lia. change 1 with (Z.ones 1). rewrite Z.land_ones by lia. done.
Qed.
Lemma byte_radix2 b acc : 0 <= b < 256 -> fold_right (fun x acc => x + 2 * acc) acc (map (fun k => (b / 2 ^ Z.of_nat k) mod 2) (seq 0 8)) = b + 256 * acc.
Proof.
  intros Hb. cbn [seq map fold_right]. change (2 ^ Z.of_nat 0) with 1. change (2 ^ Z.of_nat 1) with 2. change (2 ^ Z.of_nat 2) with 4. change (2 ^ Z.of_nat 3) with 8.
  change (2 ^ Z.of_nat 4) with 16. change (2 ^ Z.of_nat 5) with 32. change (2 ^ Z.of_nat 6) with 64. change (2 ^ Z.of_nat 7) with 128.
  Z.to_euclidean_division_equations. lia.
Qed.
Lemma bits_value a : Forall is_u8 a -> length a = 32%nat -> radix2 (bits_of a) = le_value a.
Proof.
  intros Ha Hl. assert (forall n i, radix2 (map (bit_of a) (seq (8 * i) (8 * n))) = le_value (map (byte_at a) (seq i n))) as H.
  { induction n as [|n IH]; intros i; [by rewrite Nat.mul_0_r|]. replace (8 * S n)%nat with (8 + 8 * n)%nat by lia. rewrite seq_app, map_app, byte_bits.
    unfold radix2 in *. rewrite fold_right_app, byte_radix2 by (apply byte_at_u8; done). replace (8 * i + 8)%nat with (8 * S i)%nat by lia. by rewrite IH. }
  rewrite (bytes_eta 32 a Hl) at 2. exact (H 32%nat 0%nat).
Qed.

(** The digits of a scalar below 2^253: zero or odd, and their value is the scalar. *)
Lemma slide_value a : Forall is_u8 a -> length a = 32%nat -> le_value a <= 2 ^ 253 ->
  radix2 (slide a) = le_value a /\ Forall (fun x => x = 0 \/ Z.odd x = true) (slide a).
Proof.
  intros Ha Hl HV. assert (slid (le_value a) 256 (slide a)) as [HI HS _ HO].
  { unfold slide. assert (forall n j r, (j + n = 256)%nat -> slid (le_value a) j r ->
      slid (le_value a) 256 (fold_left (fun r i => if negb (byte_at r i =? 0) then slide_at 6 i 1 r else r) (seq j n) r)) as H.
    { induction n as [|n IH]; intros j r Hj HS; cbn [seq fold_left]; [by replace 256%nat with j by lia|]. apply IH; [lia|]. by apply slid_step; [lia|]. }
    apply H; [done|]. pose proof (bits_value a Ha Hl) as HB. split; [apply bits_inv|exact HB| |lia]. unfold suffix. rewrite drop_0, HB. lia. }
  revert HI HS HO. generalize (slide a). intros r HI HS HO. split; [exact HS|]. apply List.Forall_forall. intros x Hx. apply (In_nth _ _ 0) in Hx as (k & Hk & <-). rewrite (proj1 HI) in Hk. exact (HO k Hk).
Qed.
