(* ===== verification/GeMult.v ===== *)
(** * Multiples of points

    The sums of table entries that [ge_scalarmult_base] and [ge_double_scalarmult_vartime] form are
    multiples of points: of the base point by the scalar, and of two points by two scalars. *)

From S2P Require Import Prelude Mem Limbs Primes Fe FeSpec FeBytes Edwards EdGroup GeTables Ge GeSpec GeTableSpec GeScalar GeVerify GeSlide.
From Stdlib Require Import ZArith Lia.
From stdpp Require Import base tactics list numbers.
Local Open Scope Z_scope.

(** ** The points of the tables *)

Lemma mul_zmul n P : on_curve P -> ed_mul n P ≡P ed_zmul (Z.of_nat n) P.
Proof.
  intros HP. induction n as [|n IH]; [reflexivity|]. change (ed_mul (S n) P) with (ed_add (ed_mul n P) P).
  rewrite IH, Nat2Z.inj_succ. symmetry. by apply zmul_succ.
Qed.
Lemma double_zmul n k P : on_curve P -> Nat.iter n ed_double (ed_zmul k P) ≡P ed_zmul (2 ^ Z.of_nat n * k) P.
Proof.
  intros HP. induction n as [|n IH]; [by rewrite Z.mul_1_l|]. cbn [Nat.iter nat_rect].
  change (ed_double (Nat.iter n ed_double (ed_zmul k P)) ≡P ed_zmul (2 ^ Z.of_nat (S n) * k) P). rewrite IH.
  rewrite zmul_double by done. rewrite Nat2Z.inj_succ, Z.pow_succ_r by lia. by rewrite Z.mul_assoc.
Qed.
Lemma iter_double_proper n P Q : P ≡P Q -> Nat.iter n ed_double P ≡P Nat.iter n ed_double Q.
Proof. intros E. induction n as [|n IH]; [exact E|]. exact (ed_double_proper _ _ IH). Qed.
Lemma ed_256_zmul P : on_curve P -> ed_256 P ≡P ed_zmul 256 P.
Proof. intros HP. unfold ed_256. rewrite (iter_double_proper 5 _ _ (mul_zmul 8 P HP)). exact (double_zmul 5 8 P HP). Qed.
Lemma row_base_zmul i : row_base i ≡P ed_zmul (256 ^ Z.of_nat i) ed_B.
Proof.
  pose proof ed_B_on as HB. induction i as [|i IH]; [reflexivity|]. change (row_base (S i)) with (ed_256 (row_base i)).
  rewrite ed_256_zmul by apply row_base_on. rewrite IH, zmul_zmul by done. by rewrite Nat2Z.inj_succ, Z.pow_succ_r by lia.
Qed.

Lemma digit_point_zmul pos b : digit_point pos b ≡P ed_zmul (b * 256 ^ Z.of_nat pos) ed_B.
Proof.
  pose proof ed_B_on as HB. pose proof (row_base_on pos) as HR. transitivity (ed_zmul b (row_base pos)).
  - unfold digit_point. destruct (Z.ltb_spec b 0).
    + rewrite mul_zmul by done. rewrite <- zmul_opp by done. by replace (- Z.of_nat (Z.to_nat (Z.abs b))) with b by lia.
    + rewrite mul_zmul by done. by replace (Z.of_nat (Z.to_nat (Z.abs b))) with b by lia.
  - rewrite row_base_zmul. by apply zmul_zmul.
Qed.

(** ** The fixed base *)

Definition weight (e : list Z) (i : nat) : Z := nth i e 0 * 256 ^ Z.of_nat (Nat.div2 i).

Lemma ref_adds_zmul e l n A : A ≡P ed_zmul n ed_B -> fold_left (ref_add e) l A ≡P ed_zmul (fold_left (fun v i => v + weight e i) l n) ed_B.
Proof.
  pose proof ed_B_on as HB. revert n A. induction l as [|i l IH]; intros n A HA; [exact HA|]. cbn [fold_left]. apply IH. unfold ref_add.
  rewrite HA, digit_point_zmul. unfold weight. symmetry. by apply zmul_add.
Qed.

(** The digits at odd indices, times 16, and those at even indices give the number. *)
Lemma weights_radix16 e : length e = 64%nat ->
  fold_left (fun v i => v + weight e i) even_indices (2 ^ Z.of_nat 4 * fold_left (fun v i => v + weight e i) odd_indices 0) = radix16 e.
Proof.
  intros He. unfold even_indices, odd_indices, weight, radix16. do 64 (destruct e as [|? e]; [discriminate He|]). destruct e; [|discriminate He].
  cbv [seq map fold_left fold_right nth Nat.div2 Nat.mul Nat.add Z.of_nat Pos.of_succ_nat Pos.succ Z.pow Z.pow_pos Pos.iter]. ring.
Qed.

(** [ge_scalarmult_base] multiplies the base point. *)
Lemma ref_scalarmult_zmul e : length e = 64%nat -> ref_scalarmult e ≡P ed_zmul (radix16 e) ed_B.
Proof.
  intros He. pose proof ed_B_on as HB. rewrite <- weights_radix16 by done. unfold ref_scalarmult. apply ref_adds_zmul. unfold ref_times16.
  rewrite (iter_double_proper 4 _ _ (ref_adds_zmul e odd_indices 0 ed_zero ltac:(reflexivity))). by apply double_zmul.
Qed.

(** ** Two scalars *)

Lemma odd_of_zmul A k : on_curve A -> odd_of A k ≡P ed_zmul (2 * Z.of_nat k + 1) A.
Proof.
  intros HA. induction k as [|k IH]; [reflexivity|]. change (odd_of A (S k)) with (ed_add (ed_double A) (odd_of A k)). rewrite IH.
  change (ed_double A) with (ed_zmul 2 A). rewrite <- zmul_add by done. by replace (2 + (2 * Z.of_nat k + 1)) with (2 * Z.of_nat (S k) + 1) by lia.
Qed.
Lemma odd_mul_zmul k : odd_mul k ≡P ed_zmul (2 * Z.of_nat k + 1) ed_B.
Proof.
  pose proof ed_B_on as HB. rewrite <- (odd_of_zmul ed_B k HB). induction k as [|k IH]; [reflexivity|].
  change (odd_mul (S k)) with (ed_add (odd_mul k) ed_B2). change (odd_of ed_B (S k)) with (ed_add (ed_double ed_B) (odd_of ed_B k)).
  rewrite add_comm. rewrite <- ed_B2_ok. by rewrite IH.
Qed.

Definition odd_digit (x : Z) : Prop := x = 0 \/ Z.odd x = true.

Lemma ref_term_zmul O A x R : on_curve A -> on_curve R -> (forall k, O k ≡P ed_zmul (2 * Z.of_nat k + 1) A) -> odd_digit x ->
  ref_term O x R ≡P ed_add R (ed_zmul x A).
Proof.
  intros HA HR HO Hx. unfold ref_term. destruct (Z.ltb_spec 0 x) as [Hp|Hp]; [|destruct (Z.ltb_spec x 0) as [Hn|Hn]].
  - destruct Hx as [->|Hx]; [lia|]. rewrite HO. replace (2 * Z.of_nat (Z.to_nat (x / 2)) + 1) with x; [done|].
    pose proof (Zmod_odd x) as Ho. rewrite Hx in Ho. Z.to_euclidean_division_equations. lia.
  - destruct Hx as [->|Hx]; [lia|]. rewrite HO. rewrite <- zmul_opp by done. replace (- (2 * Z.of_nat (Z.to_nat (- x / 2)) + 1)) with x; [done|].
    pose proof (Zmod_odd x) as Ho. rewrite Hx in Ho. Z.to_euclidean_division_equations. lia.
  - replace x with 0 by lia. cbn [ed_zmul]. symmetry. by apply add_zero_r.
Qed.

(** The multiple of [A] by the first digits, plus that of the base point by the second ones. *)
Definition combination (A : Z * Z) (m n : Z) : Z * Z := ed_add (ed_zmul m A) (ed_zmul n ed_B).
Lemma combination_on A m n : on_curve A -> on_curve (combination A m n).
Proof. intros HA. pose proof ed_B_on. unfold combination. auto with curve. Qed.

Lemma ref_step_zmul A R m n x y : on_curve A -> odd_digit x -> odd_digit y -> R ≡P combination A m n ->
  ref_step A R (x, y) ≡P combination A (2 * m + x) (2 * n + y).
Proof.
  intros HA Hx Hy HR. pose proof ed_B_on as HB. pose proof (combination_on A m n HA) as HC. assert (on_curve R) as HR' by (by rewrite HR).
  unfold ref_step. cbn [fst snd]. assert (ref_term (odd_of A) x (ed_double R) ≡P ed_add (ed_double R) (ed_zmul x A)) as E1.
  { apply ref_term_zmul; auto with curve. intros k. by apply odd_of_zmul. }
  rewrite (ref_term_zmul odd_mul ed_B y _ HB) by (auto using odd_mul_zmul || (rewrite E1; auto with curve)).
  rewrite E1, HR. unfold combination, ed_double. rewrite (add_swap (ed_zmul m A)) by auto with curve.
  rewrite !zmul_add by done. replace (2 * m) with (m + m) by lia. replace (2 * n) with (n + n) by lia. rewrite !zmul_add by done.
  rewrite (add_assoc (ed_add (ed_zmul m A) (ed_zmul m A))) by auto with curve. rewrite (add_comm (ed_add (ed_zmul n ed_B) (ed_zmul n ed_B)) (ed_zmul x A)).
  by rewrite !add_assoc by auto with curve.
Qed.

Definition horner (f : Z * Z -> Z) (l : list (Z * Z)) (v : Z) : Z := fold_left (fun v d => 2 * v + f d) l v.

Lemma ref_steps_zmul A l R m n : on_curve A -> Forall (fun d => odd_digit d.1 /\ odd_digit d.2) l -> R ≡P combination A m n ->
  fold_left (ref_step A) l R ≡P combination A (horner fst l m) (horner snd l n).
Proof.
  intros HA Hl. revert R m n. induction Hl as [|[x y] l [Hx Hy] Hl IH]; intros R m n HR; [exact HR|]. cbn [fold_left horner fst snd] in *.
  apply IH. by apply ref_step_zmul.
Qed.

Lemma horner_drop_zeros f l : f (0, 0) = 0 -> horner f (drop_zeros l) 0 = horner f l 0.
Proof.
  intros Hf. induction l as [|[x y] l IH]; [done|]. cbn [drop_zeros].
  destruct (Z.eqb_spec x 0) as [->|]; [destruct (Z.eqb_spec y 0) as [->|]|]; cbn [negb orb]; [|done|done]. rewrite IH. unfold horner at 2. cbn [fold_left]. by rewrite Hf.
Qed.
Lemma horner_combine a b : length a = length b -> horner fst (rev (combine a b)) 0 = radix2 a /\ horner snd (rev (combine a b)) 0 = radix2 b.
Proof.
  unfold horner. rewrite <- (fold_left_rev_right (fun d v => 2 * v + fst d)), <- (fold_left_rev_right (fun d v => 2 * v + snd d)), !rev_involutive. revert b. induction a as [|x a IH]; intros [|y b] Hl; [done|discriminate Hl|discriminate Hl|].
  injection Hl as Hl. destruct (IH b Hl) as [I1 I2]. cbn [combine fold_right fst snd radix2] in *. fold (radix2 a) (radix2 b) in *. rewrite I1, I2. unfold radix2. cbn [fold_right]. lia.
Qed.

Lemma both_digits_odd r s : Forall odd_digit r -> Forall odd_digit s -> Forall (fun d => odd_digit d.1 /\ odd_digit d.2) (drop_zeros (rev (combine r s))).
Proof.
  intros Ha Hb. apply List.Forall_forall. intros [x y] H%drop_zeros_incl%in_rev.
  rewrite List.Forall_forall in Ha, Hb. split; [apply Ha; exact (in_combine_l _ _ _ _ H)|apply Hb; exact (in_combine_r _ _ _ _ H)].
Qed.

(** [ge_double_scalarmult_vartime] adds the multiple of [A] by [a] and that of the base point by [b]. *)
Lemma ref_double_zmul A a b : on_curve A -> Forall is_u8 a -> length a = 32%nat -> le_value a <= 2 ^ 253 ->
  Forall is_u8 b -> length b = 32%nat -> le_value b <= 2 ^ 253 ->
  ref_double_scalarmult A (both_digits a b) ≡P combination A (le_value a) (le_value b).
Proof.
  intros HA Ha La Va Hb Lb Vb. destruct (slide_value a Ha La Va) as [<- Oa], (slide_value b Hb Lb Vb) as [<- Ob].
  pose proof (proj2 (slide_digits a)) as Na. pose proof (proj2 (slide_digits b)) as Nb. unfold ref_double_scalarmult, both_digits. cbv zeta.
  revert Oa Ob Na Nb. generalize (slide a) (slide b). intros r s Oa Ob Na Nb. destruct (horner_combine r s ltac:(congruence)) as [<- <-].
  rewrite <- (horner_drop_zeros fst), <- (horner_drop_zeros snd) by done. apply ref_steps_zmul; [done|by apply both_digits_odd|]. symmetry. unfold combination. apply add_zero_l, zero_on.
Qed.
