(* ===== verification/EdOrder.v ===== *)
(** * The order of the base point

    The multiple of the base point by the group order of [sc.c] is the neutral point.  The order is
    written in the signed digits of [ge_scalarmult_base], and every partial sum is listed and checked. *)

From S2P Require Import Prelude Mem Limbs Primes Fe FeSpec FeBytes Sc ScSpec Edwards EdGroup GeTables Ge GeSpec GeTableSpec GeScalar GeVerify GeSlide GeMult.
From Stdlib Require Import ZArith Lia.
From stdpp Require Import base tactics list numbers.
Local Open Scope Z_scope.

(** The digit [d] of weight 256^i. *)
Definition table_point (i : nat) (d : Z) : Z * Z :=
  let C := nth (Z.to_nat (Z.abs d - 1)) (nth i points []) ed_zero in if d <? 0 then ed_opp C else C.

Definition digit_ok (i : nat) (d : Z) : bool := (i <? 32)%nat && (-8 <=? d) && (d <=? 8) && negb (d =? 0).

Definition link : Type := nat * Z * (Z * Z).

(** Sums of table points, each with its result. *)
Fixpoint chain_ok (A : Z * Z) (l : list link) : bool :=
  match l with [] => true | (i, d, R) :: l => digit_ok i d && sum_ok A (table_point i d) R && chain_ok R l end.
Definition chain_value (l : list link) (n : Z) : Z := fold_left (fun n '(i, d, _) => n + d * 256 ^ Z.of_nat i) l n.
Definition chain_end (l : list link) (A : Z * Z) : Z * Z := fold_left (fun _ '(_, _, R) => R) l A.

Lemma table_point_digit i d : digit_ok i d = true -> table_point i d = digit_point i d.
Proof.
  unfold digit_ok. intros [[[Hi%Nat.ltb_lt H1%Z.leb_le]%andb_true_iff H2%Z.leb_le]%andb_true_iff H3%negb_true_iff%Z.eqb_neq]%andb_true_iff.
  assert (nth_error points i = Some (nth i points [])) as Hr by (apply nth_error_nth'; exact Hi). destruct (points_good i _ Hr) as [Hl Hg].
  assert (nth_error (nth i points []) (Z.to_nat (Z.abs d - 1)) = Some (nth (Z.to_nat (Z.abs d - 1)) (nth i points []) ed_zero)) as Hn by (apply nth_error_nth'; rewrite Hl; lia).
  specialize (Hg _ _ Hn). replace (S (Z.to_nat (Z.abs d - 1))) with (Z.to_nat (Z.abs d)) in Hg by lia. unfold table_point, digit_point. cbv zeta. by rewrite Hg.
Qed.

Lemma chain_ok_zmul l A n : on_curve A -> A ≡P ed_zmul n ed_B -> chain_ok A l = true ->
  on_curve (chain_end l A) /\ chain_end l A ≡P ed_zmul (chain_value l n) ed_B.
Proof.
  pose proof ed_B_on as HB. revert A n. induction l as [|[[i d] R] l IH]; intros A n HA EA H; [split; assumption|]. cbn [chain_ok] in H.
  apply andb_true_iff in H as [[Hd Hs]%andb_true_iff Hc]. cbn [chain_end chain_value fold_left].
  rewrite (table_point_digit _ _ Hd) in Hs. apply sum_ok_ok in Hs; [|exact HA|apply digit_point_on]. apply (IH R); [rewrite Hs; auto using digit_point_on with curve| |exact Hc].
  rewrite Hs, EA, digit_point_zmul. symmetry. apply zmul_add. exact HB.
Qed.

Definition odd_links : list link :=
  [(0%nat, (-1), (42783823269122696939284341094755422415180979639778424813682678720006717057747, 46316835694926478169428394003475163141307993866256225615783033603165251855960));
   (1%nat, (-3), (39577285346617949178634634122635118840985816743322056428644316682179724416149, 42088693769332429948219124632231613673899850728281051197151111017518498539118));
   (2%nat, (-1), (24205455867848000914559265243737143737434749881050269715087363182641928441988, 56945200316409159683365737848555000199484200705987008741241077336845402436394));
   (3%nat, 6, (16907330074470838240008202891723081630149031407819261993468851273567637866355, 40421082647506523110256892386970697943601977256744611296044881155560165695061));
   (4%nat, 2, (11727847739219337432504017182941052636056323882507346971849912494008492905984, 30545559950637601268772339088353583184064092696854860502769822404927703049658));
   (5%nat, 6, (57868209884247596222487283660579136431879744159572386874361960156596003252628, 46760404157590670189658433927282507387398052727924813018394834401805519119161));
   (6%nat, 1, (25915298102226412310643804587405461839041108600505410097871452884048753778110, 19629855173399958941032795139174264247421151130092748434733474790365931557514));
   (7%nat, 6, (28134830420526399142515294482605160022533532090259233601428042810881099371964, 57603197838800613085053297863196067289426106614014511885684339057292114341375));
   (8%nat, (-3), (53988466124794215846313803815862705253091043973290826651335629553932596239439, 53575433820436223021494590041278007961275296661753756759861501161116086317065));
   (9%nat, (-6), (14222502561682891760322472399276808779009983910757607331070465322239445546807, 20697913501326292907238631864967665412840330913992779751442763694611815714047));
   (11%nat, (-6), (20668024440349863643010448067776916174534736085054280107238585155492221034304, 39172466266372530595580903982412508582783655496855403362575139360309773406657));
   (12%nat, (-2), (56406231542761789209345999819306165635822876311591827377437051907175876253776, 43730780469930830555606734475819628544168561161958332375238722511938384307663));
   (14%nat, (-2), (40524322847024544486755503269319644599347288954117754833897093117600578041238, 3554668369123364796581098794874132922315235339408062610232048358232607330195));
   (15%nat, 1, (44011362588226294830714914576669555259715824015825743856614490616754720912751, 1043417112467301943674850804561508244004334224894295375876441375725132132311));
   (31%nat, 1, (51702805417433851621370314915169109289643527290396523580987289071726314520832, 6166641087634462989231589379754663315380846158174275221879467001566828886705))].
Definition doublings : list (Z * Z) :=
  [(24781963163080342322018249525459996043185241482762024005329210135667041288355, 28769645573396694082844620900383594023724071377736452949825832448908908186029);
   (15266691811550067608588445125622845175285123099864784796769459850370517613744, 52506953512903869054569479257127594289299222498900716314831652186787050654089);
   (26758163232169809501048188441871596822186700271935246317593436062817860301402, 51272859636332212660790615373654953696147472209431710347454839542997437151224);
   (32636625104704881524741833827115652478264885970223004337121325068570377279301, 44359776111033189914124316197098448297315276320717591334859970405936758908121)].
Definition even_links : list link :=
  [(0%nat, (-3), (47826078443969100653412955238901541055743560322705133346435150997439015471893, 13202417116721234566730651922103248973984074261787328206234780718773523496160));
   (1%nat, 4, (41115162629741706496587621529544354779129264868808622469878666478602678061464, 38756152704279611089490977634767543810904230387457331505202791009675891684802));
   (2%nat, 6, (26766575013921889330407546335916884353405737202186616616240393346196270049735, 4717980451185521786113217632324748830226086495267478657522816068152758146109));
   (3%nat, (-3), (35170512594268712757181765535071180211926731530684295523499079350685423601163, 21805540560658374722596222997041740168230787512440320487849858714255342950818));
   (4%nat, (-6), (44335492220269196858047927914497256543338686610769685642786993204358644808081, 57244229306529034919200566629054084367458149320096945969929642779542238867784));
   (5%nat, 3, (45182364726272232831760405611866367738589474450749415859193373437922326646052, 56638357395613084561223229307509274088188708756707609214705705601827137318158));
   (6%nat, 2, (19354838591634400524285474043187850608227017079645929606489486558277558073051, 51406962943002726020753002618738482832622762078253722329216383920706978249445));
   (7%nat, (-8), (26292399942830878210594841092993774931152401763900233310889971510972203148973, 56296879508506190341448964397236010323824022939311151880394893097591780276576));
   (8%nat, 6, (49365126784562651547709344604918357704348660092489444776416224215613070523049, 21331528315257824107139486940165159292400054319146564502643636336756222633655));
   (9%nat, (-3), (37455522436109902816446263540766648136229446158099699895389005341774546832105, 38184653724907135489707495895125826145721065063288723370929234109074876936773));
   (10%nat, (-8), (14675116119849155346918858021903617917804555101011884222926668019479009365663, 13818873661315986466374448689598084787629171637328536697384113463274804684197));
   (11%nat, 3, (54265242725058622241374845889899445087642094096198664545509255957205504414226, 34020208988381315449090183214606261407323397944790014730143060678765026308474));
   (12%nat, (-1), (49431215078550222764326648121042531711361754350505710084316493882280707789240, 12250812921711220273014183127530893690021170799231148180938759612280074648731));
   (13%nat, (-6), (5870122980700527658615347922399693369538199534197089114685306634343377918530, 1882224690147174368030811393408770404217078018273194093816779919838684973839));
   (14%nat, (-1), (11775914892881096851523075814202192481367085243580851168883077100024201502878, 2910837747736631106217498194311086782962436957583270370920944855478653510522));
   (15%nat, 5, (0, 1))].

Lemma odd_links_ok : chain_ok ed_zero odd_links = true.
Proof. vm_compute. reflexivity. Qed.
Lemma doublings_ok : doubles_ok (chain_end odd_links ed_zero) doublings = true.
Proof. vm_compute. reflexivity. Qed.
Lemma even_links_ok : chain_ok (List.last doublings ed_zero) even_links = true.
Proof. vm_compute. reflexivity. Qed.

(** The digits at odd indices, four doublings, the digits at even indices. *)
Lemma chains_zmul odd dbl even : chain_ok ed_zero odd = true -> length dbl = 4%nat -> doubles_ok (chain_end odd ed_zero) dbl = true ->
  chain_ok (List.last dbl ed_zero) even = true ->
  ed_zmul (chain_value even (2 ^ Z.of_nat 4 * chain_value odd 0)) ed_B ≡P chain_end even (List.last dbl ed_zero).
Proof.
  intros H1 H2 H3 H4. pose proof ed_B_on as HB. destruct (chain_ok_zmul odd ed_zero 0 zero_on ltac:(reflexivity) H1) as [C1 E1].
  assert (dbl <> []) as Hd by (intros ->; discriminate H2). rewrite (app_removelast_last ed_zero Hd) in H3.
  assert (List.last dbl ed_zero = Nat.iter 4 ed_double (chain_end odd ed_zero)) as E2.
  { rewrite (doubles_ok_last _ _ _ C1 H3). f_equal. rewrite (app_removelast_last ed_zero Hd), length_app in H2. cbn [length] in H2. lia. }
  symmetry. apply chain_ok_zmul; [|rewrite E2; rewrite (iter_double_proper 4 _ _ E1); apply double_zmul; exact HB|exact H4].
  rewrite E2. apply iter_on; [apply double_on|exact C1].
Qed.

Lemma order_sum : sc_L = chain_value even_links (2 ^ Z.of_nat 4 * chain_value odd_links 0).
Proof. vm_compute. reflexivity. Qed.

Lemma order_zero : ed_zmul sc_L ed_B ≡P ed_zero.
Proof. rewrite order_sum. exact (chains_zmul odd_links doublings even_links odd_links_ok eq_refl doublings_ok even_links_ok). Qed.
