(* ===== verification/Ed25519.v ===== *)
(** * Signatures ([sm/src/ed25519/keypair.c], [sm/src/ed25519/sign.c], [bootrom/ed25519/verify.c])

    Key pairs, signatures and their verification, with SHA-3 as the hash.  [None] is an overflow of a
    machine integer or an index outside a table; the theorems show that it is never the result. *)

From S2P Require Import Prelude Mem Sha3 Limbs Primes Fe FeSpec FeBytes Sc ScSpec Edwards EdGroup GeTables Ge GeSpec GeTableSpec GeScalar GeVerify GeSlide GeMult EdOrder.
From Stdlib Require Import ZArith Lia.
From stdpp Require Import base tactics list numbers.
Local Open Scope Z_scope.

(** ** keypair.c *)

(** The public key and the private key of a seed. *)
Definition ed25519_create_keypair (seed : list Z) : option (list Z * list Z) :=
  let private_key := sha3 (take 32 seed) 64 in
  let private_key := <[0%nat := Z.land (byte_at private_key 0) 248]> private_key in
  let private_key := <[31%nat := Z.land (byte_at private_key 31) 63]> private_key in
  let private_key := <[31%nat := Z.lor (byte_at private_key 31) 64]> private_key in
  let A := ge_scalarmult_base (take 32 private_key) in
  public_key ← ge_p3_tobytes A;
  Some (public_key, private_key).

(** ** sign.c *)

(** The 64 bytes of the signature. *)
Definition ed25519_sign (message public_key private_key : list Z) : option (list Z) :=
  let hash := sha3_init 64 in
  let hash := sha3_update hash (take 32 (drop 32 private_key)) in
  let hash := sha3_update hash message in
  let r := (sha3_final hash).1 in
  r ← sc_reduce r;
  let R := ge_scalarmult_base r in
  signature ← ge_p3_tobytes R;
  let hash := sha3_init 64 in
  let hash := sha3_update hash signature in
  let hash := sha3_update hash (take 32 public_key) in
  let hash := sha3_update hash message in
  let hram := (sha3_final hash).1 in
  hram ← sc_reduce hram;
  s ← sc_muladd hram (take 32 private_key) r;
  Some (signature ++ s).

(** ** verify.c *)

Definition consttime_equal (x y : list Z) : Z :=
  let r := uchar (Z.lxor (byte_at x 0) (byte_at y 0)) in
  let r := fold_left (fun r i => uchar (Z.lor r (Z.lxor (byte_at x i) (byte_at y i)))) (seq 1 31) r in
  if r =? 0 then 1 else 0.

Definition ed25519_verify (signature message public_key : list Z) : option Z :=
  if negb (Z.land (byte_at signature 63) 224 =? 0) then Some 0
  else
    A ← ge_frombytes_negate_vartime (take 32 public_key);
    match A with
    | None => Some 0
    | Some A =>
        let hash := sha3_init 64 in
        let hash := sha3_update hash (take 32 signature) in
        let hash := sha3_update hash (take 32 public_key) in
        let hash := sha3_update hash message in
        let h := (sha3_final hash).1 in
        h ← sc_reduce h;
        R ← ge_double_scalarmult_vartime h A (take 32 (drop 32 signature));
        checker ← ge_tobytes R;
        Some (if consttime_equal checker signature =? 0 then 0 else 1)
    end.

(** ** Bytes *)

Lemma st_byte_u8 q j : is_u8 (st_byte q j).
Proof.
  unfold st_byte. change 255 with (Z.ones 8). rewrite Z.land_ones by lia. unfold is_u8. apply Z.mod_pos_bound. reflexivity.
Qed.
Lemma digest_ok c : Forall is_u8 (sha3_final c).1 /\ length (sha3_final c).1 = mdlen c.
Proof.
  unfold sha3_final. cbn [fst]. rewrite length_map, length_seq. split; [|done]. apply List.Forall_map, List.Forall_forall. intros j _. apply st_byte_u8.
Qed.
(** A scalar below the order, as 32 bytes. *)
Lemma scalar_bytes v : let s := le_digits 32 (v mod sc_L) in
  Forall is_u8 s /\ length s = 32%nat /\ le_value s = v mod sc_L /\ le_value s <= 2 ^ 253 /\ byte_at s 31 < 32.
Proof.
  cbv zeta. pose proof (Z.mod_pos_bound v sc_L ltac:(reflexivity)) as Hv. assert (sc_L < 2 ^ 253) as HL by reflexivity.
  generalize dependent (v mod sc_L). intros w Hw. split; [apply le_digits_u8|]. split; [apply length_le_digits|].
  assert (le_value (le_digits 32 w) = w) as E by (rewrite le_value_digits; apply Z.mod_small; change (256 ^ Z.of_nat 32) with (2 ^ 256); lia).
  split; [exact E|]. split; [rewrite E; lia|].
  rewrite (le_digits_snoc 31). unfold byte_at. rewrite app_nth2 by (rewrite length_le_digits; lia). rewrite length_le_digits. cbn [Nat.sub nth].
  change (256 ^ Z.of_nat 31) with (2 ^ 248). assert (0 <= w / 2 ^ 248 < 32) as Hq by (split; [apply Z.div_pos; lia|apply Z.div_lt_upper_bound; lia]).
  rewrite Z.mod_small; lia.
Qed.

#[export] Instance encode_proper : Proper (peq ==> eq) encode.
Proof. intros [x y] [x' y'] [E F]. unfold encode. unfold eqp in *. cbn [fst snd] in *. by rewrite E, F. Qed.
Lemma encode_bytes A : Forall is_u8 (encode A) /\ length (encode A) = 32%nat.
Proof. split; [apply le_digits_u8|apply length_le_digits]. Qed.

(** The point that the code writes for a scalar. *)
Lemma scalarmult_encode a : Forall is_u8 a -> length a = 32%nat -> byte_at a 31 <= 127 ->
  ge_p3_tobytes (ge_scalarmult_base a) = Some (encode (ed_zmul (le_value a) ed_B)).
Proof.
  intros Ha Hl H31. destruct (scalarmult_rep a Ha Hl H31) as [_ HR]. rewrite (ge_p3_tobytes_ok _ _ HR). f_equal.
  destruct (digits_of_ok a Ha Hl H31) as (<- & _ & HD). apply encode_proper. by apply ref_scalarmult_zmul.
Qed.

(** ** The comparison *)

Lemma uchar_lor r v : is_u8 r -> is_u8 v -> uchar (Z.lor r v) = Z.lor r v /\ is_u8 (Z.lor r v).
Proof. intros Hr Hv. pose proof (lor_bound r v 8 Hr Hv) as H. split; [apply uchar_small; exact H|exact H]. Qed.

Lemma differences_zero x y l r : Forall is_u8 x -> Forall is_u8 y -> is_u8 r ->
  fold_left (fun r i => uchar (Z.lor r (Z.lxor (byte_at x i) (byte_at y i)))) l r = 0 <-> r = 0 /\ Forall (fun i => byte_at x i = byte_at y i) l.
Proof.
  intros Hx Hy. revert r. induction l as [|i l IH]; intros r Hr; cbn [fold_left]; [split; [done|tauto]|].
  pose proof (lxor_u8 _ _ (byte_at_u8 x Hx i) (byte_at_u8 y Hy i)) as Hv. destruct (uchar_lor r _ Hr Hv) as [-> Hl]. rewrite (IH _ Hl), Z.lor_eq_0_iff, Z.lxor_eq_0_iff, Forall_cons_iff. tauto.
Qed.

Lemma consttime_equal_ok x y : Forall is_u8 x -> Forall is_u8 y -> consttime_equal x y = if decide (Forall (fun i => byte_at x i = byte_at y i) (seq 0 32)) then 1 else 0.
Proof.
  intros Hx Hy. unfold consttime_equal. cbv zeta. pose proof (lxor_u8 _ _ (byte_at_u8 x Hx 0) (byte_at_u8 y Hy 0)) as H0. rewrite uchar_small by exact H0.
  pose proof (differences_zero x y (seq 1 31) _ Hx Hy H0) as HD. rewrite Z.lxor_eq_0_iff in HD. change (seq 0 32) with (0 :: seq 1 31)%nat.
  destruct (Z.eqb_spec (fold_left (fun r i => uchar (Z.lor r (Z.lxor (byte_at x i) (byte_at y i)))) (seq 1 31) (Z.lxor (byte_at x 0) (byte_at y 0))) 0) as [E|E];
    destruct (decide _) as [F|F]; rewrite ?Forall_cons_iff in F; tauto.
Qed.

(** ** Key pairs and signatures *)

(** The scalar of a private key, and its clamped form. *)
Definition secret_scalar (private_key : list Z) : Z := le_value (take 32 private_key).
Definition clamp (s : list Z) : list Z := <[31%nat := Z.lor (Z.land (byte_at s 31) 63) 64]> (<[0%nat := Z.land (byte_at s 0) 248]> s).

(** A private key: 64 bytes, the scalar below 2^255. *)
Definition private_ok (k : list Z) : Prop := Forall is_u8 k /\ length k = 64%nat /\ byte_at k 31 <= 127.

Lemma sha3_ok l n : Forall is_u8 (sha3 l n) /\ length (sha3 l n) = n.
Proof. unfold sha3. destruct (digest_ok (sha3_update (sha3_init n) l)) as [H1 H2]. split; [exact H1|]. by rewrite H2, mdlen_update. Qed.

Lemma low_63 b : is_u8 b -> 0 <= Z.land b 63 < 64.
Proof. intros Hb. change 63 with (Z.ones 6). rewrite Z.land_ones by lia. by apply Z.mod_pos_bound. Qed.
Lemma set_64 b : 0 <= b < 64 -> Z.lor b 64 = b + 64.
Proof. intros Hb. rewrite Z.lor_comm, (lor_add 64 b 6) by (lia || done). lia. Qed.

Lemma clamp_ok s : Forall is_u8 s -> length s = 64%nat -> private_ok (clamp s) /\ 64 <= byte_at (clamp s) 31.
Proof.
  intros Hs Hl. unfold clamp. pose proof (low_63 _ (byte_at_u8 s Hs 31)) as H. rewrite set_64 by exact H.
  assert (byte_at (<[31%nat := Z.land (byte_at s 31) 63 + 64]> (<[0%nat := Z.land (byte_at s 0) 248]> s)) 31 = Z.land (byte_at s 31) 63 + 64) as E.
  { rewrite byte_at_insert by (rewrite length_insert, Hl; lia). done. }
  split; [split|rewrite E; lia].
  - apply Forall_insert; [apply Forall_insert; [exact Hs|]|unfold is_u8; lia]. apply land_bound; [apply (byte_at_u8 s Hs 0)|lia].
  - rewrite !length_insert. split; [exact Hl|]. rewrite E. lia.
Qed.

Lemma take_ok n (s : list Z) : Forall is_u8 s -> (n <= length s)%nat -> Forall is_u8 (take n s) /\ length (take n s) = n.
Proof. intros Hs Hl. split; [by apply Forall_take|rewrite length_take; lia]. Qed.
Lemma byte_at_take s n i : (i < n)%nat -> byte_at (take n s) i = byte_at s i.
Proof. intros Hi. unfold byte_at. rewrite !nth_lookup. by rewrite lookup_take_lt. Qed.

(** The public key of a private key. *)
Definition public_of (private_key : list Z) : list Z := encode (ed_zmul (secret_scalar private_key) ed_B).

Lemma create_keypair_ok seed : 
  let k := clamp (sha3 (take 32 seed) 64) in ed25519_create_keypair seed = Some (public_of k, k).
Proof.
  cbv zeta. destruct (sha3_ok (take 32 seed) 64) as [Hs Hl]. unfold ed25519_create_keypair. cbv zeta. generalize dependent (sha3 (take 32 seed) 64). intros s Hs Hl.
  destruct (clamp_ok s Hs Hl) as [(Hk & Lk & B31) _].
  assert (forall k1, k1 = <[0%nat := Z.land (byte_at s 0) 248]> s ->
    <[31%nat := Z.lor (byte_at (<[31%nat := Z.land (byte_at k1 31) 63]> k1) 31) 64]> (<[31%nat := Z.land (byte_at k1 31) 63]> k1) = clamp s) as E.
  { intros k1 E1. assert (length k1 = 64%nat) as L1 by (rewrite E1, length_insert; exact Hl). assert (byte_at k1 31 = byte_at s 31) as B1 by (rewrite E1, byte_at_insert by lia; done).
    rewrite list_insert_insert_eq. rewrite byte_at_insert by lia. rewrite Nat.eqb_refl, B1. unfold clamp. by rewrite E1. }
  rewrite (E _ eq_refl). destruct (take_ok 32 (clamp s) Hk ltac:(lia)) as [Ht Lt].
  rewrite scalarmult_encode; [reflexivity|exact Ht|exact Lt|by rewrite byte_at_take by lia].
Qed.

(** The signature of a message. *)
Definition nonce (message private_key : list Z) : Z := le_value (sha3 (take 32 (drop 32 private_key) ++ message) 64) mod sc_L.
Definition challenge (R public_key message : list Z) : Z := le_value (sha3 (R ++ take 32 public_key ++ message) 64) mod sc_L.
Definition signature_of (message public_key private_key : list Z) : list Z :=
  let r := nonce message private_key in
  let R := encode (ed_zmul r ed_B) in
  let h := challenge R public_key message in
  R ++ le_digits 32 ((h * secret_scalar private_key + r) mod sc_L).

Lemma digest_sha3 a b : (sha3_final (sha3_update (sha3_update (sha3_init 64) a) b)).1 = sha3 (a ++ b) 64.
Proof. unfold sha3. by rewrite sha3_update_app. Qed.

(** What the scalars are, in bytes. *)
Definition scalar_of (v : Z) (s : list Z) : Prop :=
  s = le_digits 32 v /\ Forall is_u8 s /\ length s = 32%nat /\ le_value s = v /\ le_value s <= 2 ^ 253 /\ byte_at s 31 < 32.

Lemma scalar_of_mod v : scalar_of (v mod sc_L) (le_digits 32 (v mod sc_L)).
Proof. destruct (scalar_bytes v) as (H1 & H2 & H3 & H4 & H5). unfold scalar_of. auto 10. Qed.

Lemma sha3_reduce l : exists s, sc_reduce (sha3 l 64) = Some s /\ scalar_of (le_value (sha3 l 64) mod sc_L) s.
Proof. destruct (sha3_ok l 64) as [H1 H2]. rewrite sc_reduce_ok by assumption. eexists. split; [reflexivity|apply scalar_of_mod]. Qed.
Lemma nonce_reduce message private_key :
  exists s, sc_reduce (sha3_final (sha3_update (sha3_update (sha3_init 64) (take 32 (drop 32 private_key))) message)).1 = Some s /\ scalar_of (nonce message private_key) s.
Proof. rewrite digest_sha3. exact (sha3_reduce _). Qed.
Lemma challenge_reduce R public_key message :
  exists s, sc_reduce (sha3_final (sha3_update (sha3_update (sha3_update (sha3_init 64) R) (take 32 public_key)) message)).1 = Some s
    /\ scalar_of (challenge R public_key message) s.
Proof. rewrite <- (sha3_update_app _ R), digest_sha3, <- app_assoc. exact (sha3_reduce _). Qed.

Lemma bind_some {A B} (x : option A) (a : A) (f : A -> option B) y : x = Some a -> f a = y -> (x ≫= f) = y.
Proof. by intros -> <-. Qed.

Lemma sign_ok message public_key private_key : Forall is_u8 private_key -> length private_key = 64%nat ->
  ed25519_sign message public_key private_key = Some (signature_of message public_key private_key).
Proof.
  intros Hk Lk. destruct (take_ok 32 private_key Hk ltac:(lia)) as [Ht Lt].
  destruct (nonce_reduce message private_key) as (r & Er & _ & R1 & R2 & R3 & _ & R4).
  set (R := encode (ed_zmul (nonce message private_key) ed_B)).
  destruct (challenge_reduce R public_key message) as (h & Eh & _ & C1 & C2 & C3 & _).
  assert (ge_p3_tobytes (ge_scalarmult_base r) = Some R) as ER by (unfold R; rewrite <- R3; apply scalarmult_encode; (assumption || lia)).
  pose proof (sc_muladd_ok h (take 32 private_key) r C1 C2 Ht Lt R1 R2) as EM. rewrite C3, R3 in EM.
  refine (bind_some _ r _ _ Er _). refine (bind_some _ R _ _ ER _). refine (bind_some _ h _ _ Eh _). refine (bind_some _ _ _ _ EM _). reflexivity.
Qed.

(** ** Encodings of points *)

(** [A] is the point that the 32 bytes [s] name: their low 255 bits are its y, the last bit the parity
    of its x.  As in the code, y need not be reduced, and the parity is ignored where x is zero. *)
Definition is_point_of (s : list Z) (A : Z * Z) : Prop :=
  on_curve A /\ A.2 ≡p le_value s mod 2 ^ 255 /\ (A.1 ≡p 0 \/ (A.1 mod p25519) mod 2 = byte_at s 31 / 128).

Lemma ratio_nonzero y : ~ D * (y * y) + 1 ≡p 0.
Proof.
  intros H. destruct (Z.eq_dec (y mod p25519) 0) as [E|E].
  - assert (y ≡p 0) as E0 by (unfold eqp; rewrite E; reflexivity). rewrite E0 in H. discriminate H.
  - apply (not_D_ratio sqrt_m1 1 y); [vm_compute; discriminate|intros H'; apply E; unfold eqp in H'; rewrite H'; reflexivity|].
    rewrite sqrt_m1_ok. apply eqp_sub_zero. transitivity (- (D * (y * y) + 1)); [apply eq_subrelation; [apply _|ring]|]. by rewrite H.
Qed.

(** At most two points have the same y. *)
Lemma same_y x x' y y' : on_curve (x, y) -> on_curve (x', y') -> y ≡p y' -> x ≡p x' \/ x ≡p - x'.
Proof.
  intros H H' E. assert (on_curve (x', y)) as H2 by (rewrite (peq_pair x' x' y y'); [exact H'|reflexivity|exact E]).
  apply curve_ratio in H, H2. assert (x * x ≡p x' * x') as Ex by (apply (mul_cancel (D * (y * y) + 1)); [apply ratio_nonzero|by rewrite H, H2]).
  assert ((x - x') * (x + x') ≡p 0) as Hz by (transitivity (x * x - x' * x'); [apply eq_subrelation; [apply _|ring]|rewrite Ex; by rewrite Z.sub_diag]).
  destruct (mul_zero _ _ Hz) as [E1|E1]; [left; by apply eqp_sub_zero|right]. apply eqp_sub_zero. by rewrite Z.sub_opp_r.
Qed.

Lemma point_unique s A A' : is_point_of s A -> is_point_of s A' -> A ≡P A'.
Proof.
  destruct A as [x y], A' as [x' y']. intros (HA & Ey & Hx) (HA' & Ey' & Hx'). cbn [fst snd] in *.
  assert (y ≡p y') as E by (by rewrite Ey, Ey'). split; cbn [fst snd]; [|exact E].
  destruct (same_y _ _ _ _ HA HA' E) as [H|H]; [exact H|]. destruct (Z.eq_dec (x' mod p25519) 0) as [Z0|Z0].
  - assert (x' ≡p 0) as X0 by (unfold eqp; rewrite Z0; reflexivity). rewrite H, X0. reflexivity.
  - assert (~ x' ≡p 0) as N' by (intros H'; apply Z0; unfold eqp in H'; rewrite H'; reflexivity).
    assert (~ x ≡p 0) as N by (intros H'; apply N'; rewrite H' in H; rewrite <- (Z.opp_involutive x'), <- H; reflexivity).
    destruct Hx as [Hx|Hx]; [tauto|]. destruct Hx' as [Hx'|Hx']; [tauto|]. pose proof (opp_parity x' N') as HP. unfold eqp in H. rewrite <- H in HP. lia.
Qed.

Lemma encode_point_of A : on_curve A -> is_point_of (encode A) A.
Proof.
  destruct A as [x y]. intros HA. split; [exact HA|]. unfold encode. cbn [fst snd].
  pose proof (Z.mod_pos_bound y p25519 ltac:(reflexivity)) as Hy. assert (p25519 < 2 ^ 255) as Hp by reflexivity.
  pose proof (Z.mod_pos_bound (x mod p25519) 2 ltac:(lia)) as Hb. set (v := y mod p25519 + 2 ^ 255 * ((x mod p25519) mod 2)).
  assert (0 <= v < 256 ^ Z.of_nat 32) as Hv by (change (256 ^ Z.of_nat 32) with (2 ^ 255 * 2); unfold v; nia).
  split; [|right].
  - rewrite le_value_digits, (Z.mod_small v) by exact Hv. unfold v. rewrite (Z.mul_comm (2 ^ 255)), Z.mod_add, Z.mod_small by lia. by rewrite eqp_mod.
  - rewrite (le_digits_snoc 31). unfold byte_at. rewrite app_nth2 by (rewrite length_le_digits; lia). rewrite length_le_digits. cbn [Nat.sub nth].
    rewrite (Z.mod_small (v / 256 ^ Z.of_nat 31) 256) by (split; [apply Z.div_pos; [apply Hv|reflexivity]|apply Z.div_lt_upper_bound; [reflexivity|apply Hv]]).
    rewrite Z.div_div by (discriminate || reflexivity). change (256 ^ Z.of_nat 31 * 128) with (2 ^ 255). unfold v. rewrite (Z.mul_comm (2 ^ 255)), Z.div_add, Z.div_small by lia. done.
Qed.

(** What the decoder returns, in terms of the point that the bytes name. *)
Lemma frombytes_point s : Forall is_u8 s -> length s = 32%nat ->
  (ge_frombytes_negate_vartime s = Some None /\ forall A, ~ is_point_of s A) \/
  (exists P A, ge_frombytes_negate_vartime s = Some (Some P) /\ is_point_of s A /\ rep3 P (ed_opp A)).
Proof.
  intros Hs Hl. pose proof (frombytes_negate_ok s Hs Hl) as H. destruct (ge_frombytes_negate_vartime s) as [[P|]|]; [right|left|destruct H].
  - destruct H as (x & Hon & HP & Hx). exists P, (ed_opp (x, le_value s mod 2 ^ 255)). rewrite opp_opp. split_and!; [done|split_and!|exact HP].
    + by apply opp_on.
    + reflexivity.
    + cbn [ed_opp fst]. destruct (Z.eq_dec (x mod p25519) 0) as [Z0|Z0].
      * left. assert (x ≡p 0) as X0 by (unfold eqp; rewrite Z0; reflexivity). by rewrite X0.
      * right. assert (~ x ≡p 0) as N by (intros H'; apply Z0; unfold eqp in H'; rewrite H'; reflexivity). rewrite opp_parity by exact N. destruct Hx as [?|Hx]; [tauto|lia].
  - split; [done|]. intros [x y] (Hon & Ey & _). cbn [fst snd] in Ey. apply (H x). by rewrite <- (peq_pair x x _ _ eq_refl Ey).
Qed.

(** ** Verification *)

(** What the verification promises to accept. *)
Definition accepts (signature message public_key : list Z) : Prop :=
  byte_at signature 63 < 32 /\
  exists A, is_point_of (take 32 public_key) A /\
    encode (combination (ed_opp A) (challenge (take 32 signature) public_key message) (le_value (take 32 (drop 32 signature)))) = take 32 signature.

Lemma top_bits_clear b : is_u8 b -> (Z.land b 224 =? 0) = (b <? 32).
Proof.
  intros Hb. assert (forallb (fun n => Bool.eqb (Z.land (Z.of_nat n) 224 =? 0) (Z.of_nat n <? 32)) (seq 0 256) = true) as H by (vm_compute; reflexivity).
  rewrite forallb_forall in H. specialize (H (Z.to_nat b)). unfold is_u8 in Hb. rewrite Z2Nat.id in H by lia. apply Bool.eqb_prop, H, in_seq. lia.
Qed.

Lemma scalar_below s : Forall is_u8 s -> length s = 64%nat -> byte_at s 63 < 32 ->
  let t := take 32 (drop 32 s) in Forall is_u8 t /\ length t = 32%nat /\ le_value t <= 2 ^ 253.
Proof.
  intros Hs Hl H63. cbv zeta. destruct (take_ok 32 (drop 32 s) ltac:(by apply Forall_drop) ltac:(rewrite length_drop; lia)) as [Ht Lt].
  split; [exact Ht|]. split; [exact Lt|]. assert (byte_at (take 32 (drop 32 s)) 31 = byte_at s 63) as E.
  { rewrite byte_at_take by lia. unfold byte_at. rewrite !nth_lookup. by rewrite lookup_drop. }
  rewrite <- E in H63. revert Ht Lt H63. generalize (take 32 (drop 32 s)). intros t Ht Lt H63.
  rewrite <- (le_digits_value t Ht), Lt in H63. pose proof (le_value_bound t Ht) as Hv. rewrite Lt in Hv. change (256 ^ Z.of_nat 32) with (2 ^ 256) in Hv.
  rewrite (le_digits_snoc 31) in H63. unfold byte_at in H63. rewrite app_nth2 in H63 by (rewrite length_le_digits; lia). rewrite length_le_digits in H63. cbn [Nat.sub nth] in H63.
  change (256 ^ Z.of_nat 31) with (2 ^ 248) in H63. rewrite Z.mod_small in H63 by (split; [apply Z.div_pos; lia|apply Z.div_lt_upper_bound; lia]).
  pose proof (Z.mod_pos_bound (le_value t) (2 ^ 248) ltac:(lia)). pose proof (Z.div_mod (le_value t) (2 ^ 248) ltac:(lia)). lia.
Qed.

Lemma same_32 x y : length x = 32%nat -> (32 <= length y)%nat -> Forall (fun i => byte_at x i = byte_at y i) (seq 0 32) <-> x = take 32 y.
Proof.
  intros Lx Ly. split.
  - intros H. rewrite (bytes_eta 32 x Lx), (bytes_eta 32 (take 32 y)) by (rewrite length_take; lia). apply map_ext_in. intros i Hi.
    rewrite List.Forall_forall in H. rewrite (H i Hi). apply in_seq in Hi. by rewrite byte_at_take by lia.
  - intros ->. apply List.Forall_forall. intros i Hi%in_seq. apply byte_at_take. lia.
Qed.

(** The last comparison of [ed25519_verify]. *)
Lemma checker_ok P A h s sig : on_curve A -> rep3 P A -> Forall is_u8 sig -> length sig = 64%nat ->
  Forall is_u8 h -> length h = 32%nat -> le_value h <= 2 ^ 253 -> Forall is_u8 s -> length s = 32%nat -> le_value s <= 2 ^ 253 ->
  exists R checker, ge_double_scalarmult_vartime h P s = Some R /\ ge_tobytes R = Some checker /\
    consttime_equal checker sig = if decide (encode (combination A (le_value h) (le_value s)) = take 32 sig) then 1 else 0.
Proof.
  intros HA HP Hsig Lsig Hh Lh Vh Hs Ls Vs. destruct (double_scalarmult_rep h P A s HA HP) as (R & ER & _ & HR).
  exists R, (encode (combination A (le_value h) (le_value s))). split; [exact ER|]. split.
  - rewrite (ge_tobytes_ok _ _ HR). f_equal. apply encode_proper. by apply ref_double_zmul.
  - destruct (encode_bytes (combination A (le_value h) (le_value s))) as [He Le]. revert He Le. generalize (encode (combination A (le_value h) (le_value s))). intros c He Le.
    rewrite consttime_equal_ok by assumption. pose proof (same_32 c sig Le ltac:(lia)) as E. destruct (decide (Forall _ _)), (decide (c = _)); tauto.
Qed.

Lemma bind_none {A B} (x : option (option A)) (f : option A -> option B) y : x = Some None -> f None = y -> (x ≫= f) = y.
Proof. by intros -> <-. Qed.

Lemma verify_ok signature message public_key :
  Forall is_u8 signature -> length signature = 64%nat -> Forall is_u8 public_key -> length public_key = 32%nat ->
  (ed25519_verify signature message public_key = Some 1 /\ accepts signature message public_key) \/
  (ed25519_verify signature message public_key = Some 0 /\ ~ accepts signature message public_key).
Proof.
  intros Hs Ls Hp Lp. unfold ed25519_verify. rewrite (top_bits_clear _ (byte_at_u8 signature Hs 63)).
  destruct (Z.ltb_spec (byte_at signature 63) 32) as [H63|H63]; cbn [negb]; [|right; split; [done|]; intros [H _]; lia].
  destruct (scalar_below signature Hs Ls H63) as (St & Lt & Vt). destruct (take_ok 32 public_key Hp ltac:(lia)) as [Pt Plt].
  destruct (frombytes_point (take 32 public_key) Pt Plt) as [[E HN]|(P & A & E & HA & HR)].
  { right. split; [refine (bind_none _ _ _ E _); reflexivity|]. intros [_ (A & H & _)]. by apply (HN A). }
  destruct (challenge_reduce (take 32 signature) public_key message) as (h & Eh & _ & H1 & H2 & H3 & H4 & _).
  destruct (checker_ok P (ed_opp A) h (take 32 (drop 32 signature)) signature (opp_on _ (proj1 HA)) HR Hs Ls H1 H2 H4 St Lt Vt) as (R & c & ER & Ec & EC).
  rewrite H3 in EC. set (v := consttime_equal c signature) in *.
  assert ((r ← ge_frombytes_negate_vartime (take 32 public_key);
      match r with
      | None => Some 0
      | Some A => h ← sc_reduce (sha3_final (sha3_update (sha3_update (sha3_update (sha3_init 64) (take 32 signature)) (take 32 public_key)) message)).1;
          R ← ge_double_scalarmult_vartime h A (take 32 (drop 32 signature)); checker ← ge_tobytes R; Some (if consttime_equal checker signature =? 0 then 0 else 1)
      end) = Some (if v =? 0 then 0 else 1)) as EV.
  { refine (bind_some _ (Some P) _ _ E _). refine (bind_some _ h _ _ Eh _). refine (bind_some _ R _ _ ER _). refine (bind_some _ c _ _ Ec _). reflexivity. }
  cbv zeta. rewrite EV, EC. destruct (decide _) as [F|F]; [left|right]; (split; [reflexivity|]).
  - split; [exact H63|]. exists A. split; [exact HA|exact F].
  - intros [_ (A' & HA' & F')]. apply F. etransitivity; [|exact F']. apply encode_proper. unfold combination.
    apply ed_add_ext; [|reflexivity]. exact (ed_zmul_proper _ _ _ (ed_opp_proper _ _ (point_unique _ _ _ HA HA'))).
Qed.

(** ** Signing and verifying *)

Lemma combination_sign h a r : combination (ed_opp (ed_zmul a ed_B)) h ((h * a + r) mod sc_L) ≡P ed_zmul r ed_B.
Proof.
  pose proof ed_B_on as HB. pose proof (zmul_on a ed_B HB) as HA. unfold combination.
  rewrite (zmul_mod sc_L _ ed_B HB eq_refl order_zero), (zmul_opp_r h _ HA), (zmul_zmul h a ed_B HB), <- (zmul_opp ed_B HB), <- (zmul_add ed_B HB).
  replace (- (h * a) + (h * a + r)) with r by lia. reflexivity.
Qed.

Lemma public_bytes k : Forall is_u8 (public_of k) /\ length (public_of k) = 32%nat.
Proof. apply encode_bytes. Qed.
Lemma length_signature m p k : length (signature_of m p k) = 64%nat.
Proof. unfold signature_of. cbv zeta. rewrite length_app, length_le_digits. by rewrite (proj2 (encode_bytes _)). Qed.
Lemma signature_bytes m p k : Forall is_u8 (signature_of m p k).
Proof. unfold signature_of. cbv zeta. apply Forall_app. split; [exact (proj1 (encode_bytes _))|apply le_digits_u8]. Qed.

Lemma signature_accepted message k : accepts (signature_of message (public_of k) k) message (public_of k).
Proof.
  pose proof ed_B_on as HB. unfold signature_of. cbv zeta. set (r := nonce message k). set (R := encode (ed_zmul r ed_B)).
  set (h := challenge R (public_of k) message). destruct (scalar_bytes (h * secret_scalar k + r)) as (S1 & S2 & S3 & _ & S5). revert S1 S2 S3 S5.
  set (s := le_digits 32 ((h * secret_scalar k + r) mod sc_L)). intros S1 S2 S3 S5. assert (length R = 32%nat) as LR by apply encode_bytes.
  assert (take 32 (R ++ s) = R) as ET by (by rewrite <- LR, take_app_length).
  assert (take 32 (drop 32 (R ++ s)) = s) as ED by (rewrite <- LR at 2; rewrite drop_app_length; apply take_ge; lia).
  unfold accepts. rewrite ET, ED. split.
  - unfold byte_at in *. rewrite app_nth2, LR by lia. exact S5.
  - exists (ed_zmul (secret_scalar k) ed_B). split.
    + rewrite take_ge by (rewrite (proj2 (public_bytes k)); lia). apply encode_point_of. auto with curve.
    + fold h. rewrite S3. apply encode_proper, combination_sign.
Qed.

(** A signature made with a key is accepted with the public key of that key. *)
Lemma signature_verifies message k : ed25519_verify (signature_of message (public_of k) k) message (public_of k) = Some 1.
Proof.
  destruct (public_bytes k) as [P1 P2].
  destruct (verify_ok (signature_of message (public_of k) k) message (public_of k)) as [[E _]|[_ N]]; [apply signature_bytes|apply length_signature|exact P1|exact P2|exact E|].
  destruct (N (signature_accepted message k)).
Qed.

(** ** Theorems *)

(** C30: verification is exact.  For any 64 bytes of signature, 32 bytes of key and any message, [ed25519_verify] returns 0 or
    1 without an overflow of its limbs or an index outside its tables, and returns 1 if and only if
    the last byte of the signature is below 32, the key names a point A of the curve, and
    the first half of the signature is the encoding of s B - h A, where s is the second half, h is
    SHA3-512 of the first half, key and message modulo the group order, and B is the base point. *)
Theorem ed25519_verify_exact signature message public_key :
  Forall is_u8 signature -> length signature = 64%nat -> Forall is_u8 public_key -> length public_key = 32%nat ->
  exists v, ed25519_verify signature message public_key = Some v /\ (v = 0 \/ v = 1) /\
    (v = 1 <->
      byte_at signature 63 < 32 /\
      exists A, is_point_of (take 32 public_key) A /\
        encode (ed_add (ed_zmul (challenge (take 32 signature) public_key message) (ed_opp A))
                  (ed_zmul (le_value (take 32 (drop 32 signature))) ed_B)) = take 32 signature).
Proof.
  intros Hs Ls Hp Lp. destruct (verify_ok signature message public_key Hs Ls Hp Lp) as [[E H]|[E H]].
  - exists 1. split; [exact E|]. split; [right; reflexivity|]. split; [intros _; exact H|reflexivity].
  - exists 0. split; [exact E|]. split; [left; reflexivity|]. split; [discriminate|intros H'; destruct (H H')].
Qed.

(** A signature that is accepted, and one refused for its last byte. *)
Lemma ed25519_verify_exact_witness :
  let k := replicate 64 1 in
  ed25519_verify (signature_of [1; 2; 3] (public_of k) k) [1; 2; 3] (public_of k) = Some 1 /\
  ed25519_verify (replicate 64 255) [1; 2; 3] (public_of k) = Some 0.
Proof.
  cbv zeta. generalize (replicate 64 1). intros k. destruct (public_bytes k) as [P1 P2]. split.
  - pose proof (signature_accepted [1; 2; 3] k) as HA. pose proof (signature_bytes [1; 2; 3] (public_of k) k) as S1.
    pose proof (length_signature [1; 2; 3] (public_of k) k) as S2. revert HA S1 S2 P1 P2. unfold accepts, combination.
    generalize (signature_of [1; 2; 3] (public_of k) k). generalize (public_of k). intros pk sg HA S1 S2 P1 P2.
    destruct (ed25519_verify_exact sg [1; 2; 3] pk S1 S2 P1 P2) as (v & E & _ & Hv). rewrite E. exact (f_equal Some (proj2 Hv HA)).
  - destruct (ed25519_verify_exact (replicate 64 255) [1; 2; 3] (public_of k)) as (v & E & Hor & Hv);
      [apply Forall_replicate; split; [discriminate|reflexivity]|reflexivity|exact P1|exact P2|].
    rewrite E. apply (f_equal Some). destruct Hor as [H0|H1]; [exact H0|]. destruct (proj1 Hv H1) as [H2 _]. discriminate H2.
Defined.

(** C40: signing and verifying.  For every seed [ed25519_create_keypair] returns a key pair, with every message
    [ed25519_sign] returns a signature under it, 64 bytes, and [ed25519_verify] accepts the signature of the message under the public key; none
    of the three overflows its limbs or leaves its tables. *)
Theorem ed25519_sign_verifies seed message :
  exists public_key private_key signature,
    ed25519_create_keypair seed = Some (public_key, private_key) /\
    ed25519_sign message public_key private_key = Some signature /\
    Forall is_u8 public_key /\ length public_key = 32%nat /\ Forall is_u8 signature /\ length signature = 64%nat /\
    ed25519_verify signature message public_key = Some 1.
Proof.
  destruct (sha3_ok (take 32 seed) 64) as [Hs Hl]. destruct (clamp_ok _ Hs Hl) as [(K1 & K2 & _) _].
  pose proof (create_keypair_ok seed) as E. cbv zeta in E. revert E K1 K2. generalize (clamp (sha3 (take 32 seed) 64)). intros k E K1 K2.
  exists (public_of k), k, (signature_of message (public_of k) k). destruct (public_bytes k) as [P1 P2].
  split; [exact E|]. split; [exact (sign_ok message (public_of k) k K1 K2)|]. split; [exact P1|]. split; [exact P2|].
  split; [apply signature_bytes|]. split; [apply length_signature|apply signature_verifies].
Qed.
