(* ===== verification/Attestation.v ===== *)
(** * From the boot ROM to the verifier ([sdk/src/verifier/Report.cpp])

    The signature library is put in the place that the boot ROM and the monitor leave for it, and the
    checks of [Report::verify] are modelled.  A report that an enclave gets from the monitor passes
    them: the boot ROM's certificate under the device key, the monitor's signature under the certified key. *)

From S2P Require Import Prelude Mem SmDefs Pmp Sha3 Hkdf Bootrom Thread Mprv Machine Attest Enclave EnclaveInv Services Lifecycle.
From S2P Require Import Limbs Primes Fe FeSpec FeBytes Sc ScSpec Edwards EdGroup GeTables Ge GeSpec GeTableSpec GeScalar GeVerify GeSlide GeMult EdOrder.
From S2P Require Ed25519 Sbi.
From Stdlib Require Import ZArith Lia.
From stdpp Require Import base tactics list numbers.
Local Open Scope Z_scope.

(** ** The instances *)

Definition library_sign (message public_key private_key : list Z) : list Z := default [] (Ed25519.ed25519_sign message public_key private_key).
Definition library_keypair (seed : list Z) : list Z * list Z := default ([], []) (Ed25519.ed25519_create_keypair seed).

Lemma library_sign_ok message public_key private_key : Forall is_u8 private_key -> length private_key = 64%nat ->
  library_sign message public_key private_key = Ed25519.signature_of message public_key private_key.
Proof. intros Hk Lk. unfold library_sign. by rewrite (Ed25519.sign_ok message public_key private_key Hk Lk). Qed.
Lemma library_keypair_ok seed : let k := Ed25519.clamp (sha3 (take 32 seed) 64) in library_keypair seed = (Ed25519.public_of k, k).
Proof. cbv zeta. unfold library_keypair. by rewrite Ed25519.create_keypair_ok. Qed.

#[export] Instance library_keys : KeyPairs := { create_keypair := library_keypair; sign := library_sign }.
#[export] Instance library_signer : Signer := { ed25519_sign := library_sign }.

Lemma sign_library : sign = library_sign.
Proof. reflexivity. Qed.
Lemma create_keypair_library : create_keypair = library_keypair.
Proof. reflexivity. Qed.
Lemma ed25519_sign_library : ed25519_sign = library_sign.
Proof. reflexivity. Qed.

Lemma library_keys_ok : keys_ok.
Proof.
  split.
  - intros seed. rewrite create_keypair_library, library_keypair_ok. cbn [fst]. apply Ed25519.public_bytes.
  - intros seed. rewrite create_keypair_library, library_keypair_ok. cbn [snd].
    destruct (Ed25519.sha3_ok (take 32 seed) 64) as [H1 H2]. apply (Ed25519.clamp_ok _ H1 H2).
  - intros msg pk sk Hl Hb. rewrite sign_library, library_sign_ok by assumption. apply Ed25519.length_signature.
Qed.

(** ** The device key *)

Definition dev_odd : list link :=
  [(0%nat, 4, (14582954232372986451776170844943001818709880559417862259286374126315108956272, 32483318716863467900234833297694612235682047836132991208333042722294373421359));
   (1%nat, (-6), (8781244582679726635734992427174993839702942848195529096266036041665198257246, 15832005123083552450337747920731194668016669986603304199999112083756279974747));
   (2%nat, (-6), (45910749425564275024488467878204738943690609199828680999910419360514907700094, 32147655108567412413379821544475333060427417849464646833598109643785191800206));
   (3%nat, 5, (4983127400835756645820689044762350110589971138455282130536924704464282751343, 236908012370589220157560005149447837631613566639874655208236967305993703788));
   (4%nat, (-7), (16740516341368233415702676614928284339730225170142176368834094576064182803182, 2381167010092821944887839017235575687435590430398518365074271135443637982760));
   (5%nat, (-3), (49920680687420650719339223817240232403186356646819172579017971123765160121389, 16833053897084221394450843676300309574347363160555202980332127722992105612670));
   (7%nat, 4, (52435064099537715537674986819519153129917894424529870891991894936295202400571, 20193376128583436955908026797874260434580016772727715095708312260807052702831));
   (9%nat, 6, (30581405945645865099331566447834815634388121347806623884419998300624552491030, 5169380123957049566179414970966667035933458460492059921036727181765836742668));
   (10%nat, (-5), (38863385907652339061675675691919854278047417716511838850952986263818033646781, 28591470345484385774916459235791722285068267233812403078549698428219143722444));
   (11%nat, (-3), (24110125757555277297825819171646828710470381896008487260117966250672273151937, 16452300297681547004586045478435636117434472041611695193285440439257401966159));
   (12%nat, 6, (10135977432529246020550173064043017316217636527226136397049573697818982188320, 10226673795499218475130716578254844429176301629336883653836401274685456489776));
   (13%nat, (-8), (15273923611347255623237224021660374007390759444131045858602503937535092183440, 18328359395961791729770219339972018221377763900181387651406926320334209643946));
   (14%nat, 2, (27898115016293282465380700329686345272243695590859832150365973469242245251918, 51060601977519992240902186585638151374378115555719059698319753818728429161728));
   (15%nat, (-3), (24768278664619506315151598023244766956571919439839424461154372100118540378521, 20237795420663417239154745423745756056831055058927829941615403589650526279994));
   (16%nat, 5, (626719684182408588973796052212300733797928643426191714763742698429818492300, 20522292844585680694842951137147621451884062993222099868630173236618978176730));
   (17%nat, (-5), (21067435050504164177537045620154288954393771469599335472123354519661284211651, 13117300642193089870983948929062780367316075908967314655408369971230373711211));
   (18%nat, (-1), (23779904603986200112071663096467309094046269658563461431530309704537579702139, 44648526618975727120747241960966915765125890774842299529745527383324651402973));
   (19%nat, (-1), (56846508055676751319549303633918397996148077544287370998775504605992122889495, 35123866610579274669743047950796396040695138561163519705296096627268630676475));
   (20%nat, 4, (17544966594867591861531400277916511076471820696643811337115915400051520504164, 46709189548062154956500066392663850065922875382667891852989595100900369043501));
   (21%nat, (-4), (41060977395649311441348753842765592880019486330488426930266710456122566219250, 54028846941526058729547515279145554710512060844753951338594297074967739354124));
   (22%nat, (-2), (15519242575161453344387468551547701136077219529921153853133823953769621599222, 2773446859130314959765483991311393222026548352491446633004325480407229437999));
   (24%nat, (-2), (37139018129026591616365046799603067576305725997048425535617560529319647009432, 20375618507970005041061305715195793504201395347125078797020637695801529418060));
   (25%nat, 1, (182626814809037810997396980782371367911448860542316511427972729410519932084, 24593656137041242057380272898216653697756806354624105547719098993233094082250));
   (26%nat, (-2), (26078659807439471382352940411494671805645972791139717595408204981833920298819, 2091470377890076254811654818942525862727142006358440505100903134741812408035));
   (27%nat, (-2), (43737532553809755112919164646172896020953022880057674021847428915013447437327, 53126876179559628538342359899228719291359717793878616598301653867034983357317));
   (28%nat, (-8), (35785864196647409240695306309850185366378372987615883040281223343751667046145, 9685273312097079782236338249605410529778599834093124196925772038581127112138));
   (29%nat, 7, (30366278694861600071479322382776744416858182440190584982680274295449247750764, 10497882326579377935847214662118349742927952898760225640779676149648426245223));
   (30%nat, 7, (31969602177290341828165211379837532010255728372859056765777580471832811904032, 2193046045462546311332603401310448749947575167037338420351093460608868025188));
   (31%nat, 7, (12241310017467139834244539171492259676873986574064897041661246583714514385559, 37425082956467896700308582043281295504829620082349021618592290907810596397459))].
Definition dev_doublings : list (Z * Z) :=
  [(52780265746841584958843488508455616961105414711901093715128372603391347727006, 7036815471518227892549208777121261777944176427864766269967249783042915852745);
   (44422339627045172092241404419032172951022356513581168744041209828069017067126, 1511467907881376078646153346705108450584164295308696038944954473845040129325);
   (36693915869273630397860156581896788872704400729316354857233806941363376076972, 14386721283565338187680511907723143119109878074908881962844377562850509612761);
   (39152103491195701580186675733737426797347860228598840267408652764841357975615, 48059809598813108969113405870421782926361366752635446487704139043380262175327)].
Definition dev_even : list link :=
  [(2%nat, (-6), (28028485252517967327239449292048344235895445111860385374301787685505262025438, 34886326997734690486005152349697718269873516345564016764264423766238275675791));
   (3%nat, (-8), (81914972005179840924484678094063759761607892754614109273942875028136748213, 20179558978613576774430637078664858300689607340059330116775264870039239209114));
   (4%nat, (-4), (20247728718295274775303597076742938797120070837954496292099408040086097937561, 33741993893663644024870771614167009623619751628702637440700835541411653254405));
   (5%nat, (-1), (48544334326279541269620386935924872829057590475191062191860670591546686936088, 33495285585454455112246504029937536364147369243300990539144038619491154188089));
   (6%nat, (-5), (55767786843286491076875050016189131334842832389267393876878259769341300887014, 10058805623813775197021912314408603498501458450778369256380882555425001703236));
   (7%nat, (-5), (46487184384619129966630679604143153418826439256509386295577758427796757396386, 16139761104396976407836913955531138130915665446333488716865091278837720855036));
   (8%nat, 6, (9039885252598319099535113997293662198107763446420567998499230724237228877722, 51167315337793929863985038827674937239526752522163046773390494061625442592179));
   (9%nat, 3, (40458892900095685236173695729975685972023103692061602678280697155266492025271, 32046195544789737325215413847293822372454454405352958840197046654132541460809));
   (10%nat, (-5), (6379329972588767003918458417972849321115698355590258704014465340243578508043, 1398389957342841009375224931341901772077308828157617958944389635272960633187));
   (11%nat, (-6), (42928379808944752662981617424050548214496954988112490048966259181683993662296, 41131131807546889334102896896518243822551444785815523171668981060814528851683));
   (12%nat, (-1), (2530029647619679454114064654155468603489444295083733584776232682810677639009, 9024617495910179462421128784254165318809366594372234644358247159564471578954));
   (13%nat, (-6), (51428858345205124945766569059904624291607589838725245559863705897487543425745, 12266820251044633147502181399798935274404457758327557926096597024647985566126));
   (14%nat, (-1), (52921427214768850934603706178167913650172150464144717546163840093816584835198, 50534296304678817088861356371911144761251062961609115452225774878987150176658));
   (15%nat, (-7), (10358299871284630568363050657301717464941939212208960399990097269006831014331, 50641083325543959326758633911857456161581220701113194558048324812082643087880));
   (16%nat, 5, (57452798732411274697570520310642964965336229943118804124785869294046473059519, 56500574207016531051921759033145723151625308612862599178653413794545703779827));
   (17%nat, 4, (26607680728060644383543270259541021224200158612046957918574538081664302260235, 23157299558075082481883508933277977150711204024131645298995640968025037999582));
   (18%nat, 6, (49263664809981961650052155799005003760236026117085653742827805558073091814631, 56436159904939103776402561218762782104988199980912672209013400947193294225892));
   (19%nat, 7, (55968540470626591424613499522870172661066005697235752557681776338187605385369, 38167380934271690707252955755915161760606888793603997695428152769640660790640));
   (20%nat, 6, (15758143616137946400590960687202968918219908177442251008396875007007478600767, 5712746198492144667148973208702693512840054425161697204795452065516324580220));
   (21%nat, (-6), (21562384427482559039237720940176477933397399565570303434476736436882360152179, 23909991122001634117043150992151566218366332806935552514066850061085172145191));
   (22%nat, (-7), (33106548519602178144535701382784072686026391906380761582432384308632002575715, 25299339691028567051545074912183937791143392791889763537568227299077291933401));
   (23%nat, 5, (35429412804242026359522011596726264989181955550435084791132506293806515081331, 532252413423355212266825115219790266310726841322770979958200984230912120524));
   (24%nat, (-5), (37183099450652240245990084922573860252645428260971557257390069004089178391300, 32259376488441913977745039576118087965371841988979227777220329010607536344108));
   (25%nat, 4, (26446722037598486581287035600326348981119981437004594648600836823760127477569, 53188695415107069736672746564591389511060083276775705585542935514500622230041));
   (26%nat, 7, (12661645403535364972013013761624682385898708487584812257502199443849762961718, 34033237557383369601320427777951546170264485871315985294776693129663302066571));
   (27%nat, (-8), (50469942855368125116596399368044954619070850045864196386350154171705860333171, 36550710304305503123470479575766604247351309377743331804207938318678310850756));
   (28%nat, 3, (42660563621013675406420979286398531187097454770418026532781070524968151717691, 44390934188499055597444705147833717858035626168334302635698696540912905784171));
   (29%nat, (-3), (4884777536629615508034599414659832897248902367997710410652537985641643317952, 46808342574078726729013498032839155699498346759675425997497358202195177115311));
   (31%nat, 3, (20548317974831891284425803743082506438924055035317323056773093178079052215304, 34395483816805083232699452528279471935383853852874663327389165237400216316431))].

Lemma dev_odd_ok : chain_ok ed_zero dev_odd = true.
Proof. vm_compute. reflexivity. Qed.
Lemma dev_doublings_ok : doubles_ok (chain_end dev_odd ed_zero) dev_doublings = true.
Proof. vm_compute. reflexivity. Qed.
Lemma dev_even_ok : chain_ok (List.last dev_doublings ed_zero) dev_even = true.
Proof. vm_compute. reflexivity. Qed.
Lemma dev_scalar : Ed25519.secret_scalar _sanctum_dev_secret_key = chain_value dev_even (2 ^ Z.of_nat 4 * chain_value dev_odd 0).
Proof. vm_compute. reflexivity. Qed.
Lemma dev_encoding : encode (chain_end dev_even (List.last dev_doublings ed_zero)) = _sanctum_dev_public_key.
Proof. vm_compute. reflexivity. Qed.

(** The public key of [test_dev_key.h] is the one of its private key. *)
Lemma dev_keys : Ed25519.public_of _sanctum_dev_secret_key = _sanctum_dev_public_key.
Proof.
  unfold Ed25519.public_of. rewrite dev_scalar, <- dev_encoding. apply Ed25519.encode_proper.
  exact (chains_zmul dev_odd dev_doublings dev_even dev_odd_ok eq_refl dev_doublings_ok dev_even_ok).
Qed.

(** ** Report.cpp *)

(** [Report::fromBytes]: the bytes are copied over the structure. *)
Definition field (bin : list Z) (off len : nat) : list Z := take len (drop off bin).
Definition fromBytes (bin : list Z) : report :=
  mkReport
    (mkEReport (field bin 0 64) (le_value (field bin 64 8)) (field bin 72 1024) (field bin 1096 64))
    (mkSmReport (field bin 1160 64) (field bin 1224 32) (field bin 1256 64))
    (field bin 1320 32).

(** [Report::checkSignaturesOnly]: the messages are read from the start of a member of the structure,
    a size beyond the structure is [None]. *)
Definition checkSignaturesOnly (r : report) (dev_public_key : list Z) : option Z :=
  let sm := sr_hash (r_sm r) ++ sr_public_key (r_sm r) ++ sr_signature (r_sm r) in
  sm_valid ← Ed25519.ed25519_verify (sr_signature (r_sm r)) (take (64 + 32) sm) dev_public_key;
  let len := Z.to_nat (u64 (64 + 8 + data_len (r_enclave r))) in
  if (length (report_bytes r) <? len)%nat then None
  else
    enclave_valid ← Ed25519.ed25519_verify (er_signature (r_enclave r)) (take len (report_bytes r)) (sr_public_key (r_sm r));
    Some (if negb (sm_valid =? 0) && negb (enclave_valid =? 0) then 1 else 0).

(** [Report::verify] *)
Definition verify (r : report) (expected_enclave_hash expected_sm_hash dev_public_key : list Z) : option Z :=
  let encl_hash_valid := bool_decide (take 64 expected_enclave_hash = take 64 (er_hash (r_enclave r))) in
  let sm_hash_valid := bool_decide (take 64 expected_sm_hash = take 64 (sr_hash (r_sm r))) in
  signature_valid ← checkSignaturesOnly r dev_public_key;
  Some (if encl_hash_valid && sm_hash_valid && negb (signature_valid =? 0) then 1 else 0).

(** The fields have the sizes of the arrays. *)
Record report_ok (r : report) : Prop := {
  ro_ehash : length (er_hash (r_enclave r)) = 64%nat;
  ro_len : 0 <= data_len (r_enclave r) <= 1024;
  ro_data : length (er_data (r_enclave r)) = 1024%nat;
  ro_esig : length (er_signature (r_enclave r)) = 64%nat;
  ro_shash : length (sr_hash (r_sm r)) = 64%nat;
  ro_spk : length (sr_public_key (r_sm r)) = 32%nat;
  ro_ssig : length (sr_signature (r_sm r)) = 64%nat;
  ro_dpk : length (r_dev_public_key r) = 32%nat
}.

Lemma take_drop_field (a b c : list Z) n : n = length a -> take (length b) (drop n (a ++ b ++ c)) = b.
Proof. intros ->. rewrite drop_app_length. apply take_app_length. Qed.

(** The bytes that the monitor writes are read back as the report it made. *)
Lemma fromBytes_report r : report_ok r -> fromBytes (report_bytes r) = r.
Proof.
  destruct r as [[eh n ed es] [sh sp ss] dp]. intros [H1 H2 H3 H4 H5 H6 H7 H8]. cbn [er_hash data_len er_data er_signature sr_hash sr_public_key sr_signature r_enclave r_sm r_dev_public_key] in *.
  unfold fromBytes, report_bytes, field. cbn [er_hash data_len er_data er_signature sr_hash sr_public_key sr_signature r_enclave r_sm r_dev_public_key].
  assert (length (le64 n) = 8%nat) as Ln by reflexivity.
  assert (forall (a b c : list Z) k j, k = length a -> j = length b -> take j (drop k (a ++ b ++ c)) = b) as F by (intros a b c k j -> ->; by apply take_drop_field).
  f_equal; [f_equal|f_equal|].
  - rewrite drop_0, <- H1. apply take_app_length.
  - rewrite F by done. rewrite le_value_le64. apply Z.mod_small. lia.
  - rewrite (app_assoc eh). apply F; [rewrite length_app; lia|done].
  - rewrite (app_assoc eh), (app_assoc (eh ++ _)). apply F; [rewrite !length_app; lia|done].
  - rewrite (app_assoc eh), (app_assoc (eh ++ _)), (app_assoc ((eh ++ _) ++ _)). apply F; [rewrite !length_app; lia|done].
  - rewrite (app_assoc eh), (app_assoc (eh ++ _)), (app_assoc ((eh ++ _) ++ _)), (app_assoc (((eh ++ _) ++ _) ++ _)). apply F; [rewrite !length_app; lia|done].
  - rewrite (app_assoc eh), (app_assoc (eh ++ _)), (app_assoc ((eh ++ _) ++ _)), (app_assoc (((eh ++ _) ++ _) ++ _)), (app_assoc ((((eh ++ _) ++ _) ++ _) ++ _)).
    apply F; [rewrite !length_app; lia|done].
  - rewrite !app_assoc. rewrite drop_app_ge by (rewrite !length_app; lia). rewrite !length_app, H1, Ln, H3, H4, H5, H6, H7. rewrite drop_0. apply take_ge. lia.
Qed.

(** ** The chain of trust *)

(** From here on the library is only known by its laws. *)
#[local] Opaque library_sign library_keypair Ed25519.public_of Ed25519.ed25519_verify Ed25519.clamp sha3 Fips202.SHA3 bootloader.

(** The keys that [sm_copy_key] takes from where the boot ROM left them. *)
Definition copied_keys (s : boot_state) : sm_keys :=
  mkKeys (sanctum_sm_hash s) (sanctum_sm_signature s) (sanctum_sm_public_key s) (sanctum_sm_secret_key s) (sanctum_dev_public_key s).

(** A signature of the library, under a key pair. *)
Lemma library_sign_verify message k : Forall is_u8 k -> length k = 64%nat ->
  length (library_sign message (Ed25519.public_of k) k) = 64%nat /\
  Ed25519.ed25519_verify (library_sign message (Ed25519.public_of k) k) message (Ed25519.public_of k) = Some 1.
Proof. intros Hk Lk. rewrite library_sign_ok by assumption. split; [apply Ed25519.length_signature|apply Ed25519.signature_verifies]. Qed.

(** The monitor's key pair is a key pair, and it is certified by the device key. *)
Lemma boot_keys s : boot_ok s -> let s' := bootloader s in let k := sanctum_sm_secret_key s' in
  Forall is_u8 k /\ length k = 64%nat /\ sanctum_sm_public_key s' = Ed25519.public_of k /\ length (sanctum_sm_hash s') = 64%nat /\
  sanctum_sm_hash s' = sm_measurement s /\ sanctum_dev_public_key s' = _sanctum_dev_public_key /\
  length (sanctum_sm_signature s') = 64%nat /\
  Ed25519.ed25519_verify (sanctum_sm_signature s') (sanctum_sm_hash s' ++ sanctum_sm_public_key s') (sanctum_dev_public_key s') = Some 1.
Proof.
  intros Hs. cbv zeta. destruct (bootloader_spec s Hs library_keys_ok) as (E1 & E2 & E3 & E4 & _). cbv zeta in *.
  rewrite create_keypair_library, library_keypair_ok in E2. rewrite sign_library in E3.
  pose proof (f_equal fst E2) as Ep. pose proof (f_equal snd E2) as Ek. cbn [fst snd] in Ep, Ek.
  destruct (Ed25519.sha3_ok (take 32 (take 32 (Fips202.SHA3 64 (take 1 _sanctum_dev_secret_key ++ take 1 (sm_measurement s))))) 64) as [D1 D2].
  destruct (Ed25519.clamp_ok _ D1 D2) as [(K1 & K2 & _) _]. rewrite <- Ek in K1, K2, Ep.
  destruct (library_sign_verify (sm_measurement s ++ sanctum_sm_public_key (bootloader s)) _sanctum_dev_secret_key dev_key_u8 eq_refl) as [S1 S2].
  rewrite dev_keys in S1, S2. split_and!; try assumption.
  - rewrite E1. apply H_length. apply read_bytes_u8, Hs.
  - rewrite E3. exact S1.
  - rewrite E1, E3, E4. exact S2.
Qed.

Section Attested.
Context (s : boot_state) (Hs : boot_ok s) (hash data tail : list Z).
Context (Hh : length hash = 64%nat) (Hd : (length data + length tail = 1024)%nat).
Let K := copied_keys (bootloader s).
Let size := Z.of_nat (length data).

(** The report for [data]. *)
Definition made_report : report :=
  mkReport (mkEReport hash size (data ++ tail) (library_sign (hash ++ le64 size ++ data) (sm_public_key K) (sm_private_key K)))
    (mkSmReport (sm_hash K) (sm_public_key K) (sm_signature K)) (dev_public_key K).

Lemma made_report_ok : report_ok made_report.
Proof using Hs Hh Hd.
  destruct (boot_keys s Hs) as (K1 & K2 & K3 & K4 & _ & K6 & K7 & _).
  destruct (library_sign_verify (hash ++ le64 size ++ data) _ K1 K2) as [S1 _]. rewrite <- K3 in S1.
  split; cbn [made_report r_enclave r_sm er_hash data_len er_data er_signature sr_hash sr_public_key sr_signature r_dev_public_key K copied_keys
    sm_public_key sm_private_key sm_hash sm_signature dev_public_key]; try assumption.
  - unfold size. lia.
  - rewrite length_app. exact Hd.
  - rewrite K3. apply Ed25519.public_bytes.
  - rewrite K6. reflexivity.
Qed.

Lemma made_report_verifies : verify made_report hash (sm_measurement s) _sanctum_dev_public_key = Some 1.
Proof using Hs Hh Hd.
  pose proof made_report_ok as HR. destruct (boot_keys s Hs) as (K1 & K2 & K3 & K4 & K5 & K6 & K7 & K8).
  destruct (library_sign_verify (hash ++ le64 size ++ data) _ K1 K2) as [_ S2]. rewrite <- K3 in S2. rewrite K6 in K8.
  unfold verify. rewrite (bool_decide_eq_true_2 (_ = _)) by reflexivity.
  rewrite (bool_decide_eq_true_2 (take 64 (sm_measurement s) = _)) by (cbn [made_report r_sm sr_hash K copied_keys sm_hash]; by rewrite K5).
  enough (checkSignaturesOnly made_report _sanctum_dev_public_key = Some 1) as E by (rewrite E; reflexivity).
  assert (u64 (64 + 8 + size) = 64 + 8 + size) as Eu by (apply Z.mod_small; unfold size; lia).
  assert (length (report_bytes made_report) = 1352%nat) as Lb.
  { destruct HR. unfold report_bytes. rewrite !length_app. change (length (le64 _)) with 8%nat. lia. }
  unfold checkSignaturesOnly. refine (Ed25519.bind_some _ 1 _ _ _ _).
  - cbn [made_report r_sm sr_hash sr_public_key sr_signature K copied_keys sm_public_key sm_hash sm_signature].
    assert (length (sanctum_sm_hash (bootloader s) ++ sanctum_sm_public_key (bootloader s)) = (64 + 32)%nat) as L
      by (rewrite length_app, K4, K3; f_equal; apply Ed25519.public_bytes).
    rewrite app_assoc, <- L, take_app_length. exact K8.
  - cbv zeta. change (data_len (r_enclave made_report)) with size. rewrite Eu, Lb. destruct (Nat.ltb_spec 1352 (Z.to_nat (64 + 8 + size))); [unfold size in *; lia|].
    refine (Ed25519.bind_some _ 1 _ _ _ _); [|reflexivity].
    assert (take (Z.to_nat (64 + 8 + size)) (report_bytes made_report) = hash ++ le64 size ++ data) as ->.
    { unfold report_bytes. cbn [made_report r_enclave er_hash data_len er_data]. rewrite <- (app_assoc data), (app_assoc (le64 size)), (app_assoc hash).
      apply take_app_length'. rewrite !length_app. change (length (le64 size)) with 8%nat. unfold size. lia. }
    exact S2.
Qed.
End Attested.

(** ** The theorem *)

(** What the monitor stores is the report of the previous section. *)
Lemma attest_report_made s e stack l : attest_report (copied_keys (bootloader s)) e stack (Z.of_nat (length l)) l =
  made_report s (e_hash e) l (drop (length l) stack).
Proof. reflexivity. Qed.

Lemma wp_value {S A} (c : M S A) (Q : A -> S -> Prop) s a s' : wp c Q s -> c s = Ok (a, s') -> Q a s'.
Proof. unfold wp. intros H E. by rewrite E in H. Qed.

(** C28: the chain of trust.  On a monitor with the keys that the boot ROM left for it, for an enclave with a 64-byte measurement,
    whenever [attest_enclave] answers with success it has stored for the caller a byte string that a
    verifier, reading it with [Report::fromBytes], accepts: [Report::verify] with the measurement of the enclave, the
    measurement of the monitor that the boot ROM took and the public key of the device gives 1, with the
    signature library of the repository on both sides; and the data in the report are those the enclave passed in. *)
Theorem attested_report_verifies `{Mmu} (s : boot_state) (m m' : machine) h stack rep buf report_ptr data size eid e :
  boot_ok s -> sm_wf m -> keys m = copied_keys (bootloader s) ->
  aget (enclaves m) eid = Some e -> length (e_hash e) = 64%nat -> length stack = 1024%nat ->
  0 <= eid -> 0 <= size -> is_u64 data -> is_u64 report_ptr ->
  attest_enclave h stack rep buf report_ptr data size eid m = Ok (SBI_ERR_SM_ENCLAVE_SUCCESS, m') ->
  exists l bs m1,
    load_bytes (mprv_ld h) (set_encl_lock true m) data (Z.to_nat size) = Some l /\
    store_bytes (mprv_st h) (set_encl_lock true m) report_ptr bs = Some m1 /\ m' = set_encl_lock false m1 /\
    take (Z.to_nat (data_len (r_enclave (fromBytes bs)))) (er_data (r_enclave (fromBytes bs))) = l /\
    verify (fromBytes bs) (e_hash e) (sm_measurement s) _sanctum_dev_public_key = Some 1.
Proof.
  intros Hs Hwf HK He Hh Hst Heid Hsize Hd Hr Hok.
  pose proof (wp_value _ _ _ _ _ (wp_attest m Hwf h stack rep buf report_ptr data size eid Heid Hsize Hd Hr _ (fun _ _ H => H)) Hok) as Hres.
  unfold attest_result in Hres. rewrite He, HK in Hres. destruct (Z.ltb_spec ATTEST_DATA_MAXLEN size) as [|Hmax]; [by destruct Hres|].
  destruct (is_live (e_state e)); [|by destruct Hres]. destruct (load_bytes _ _ _ _) as [l|] eqn:Hl; [|by destruct Hres].
  apply load_bytes_length in Hl as Hlen. assert (size = Z.of_nat (length l)) as Es by lia. rewrite Es, attest_report_made in Hres.
  unfold ATTEST_DATA_MAXLEN in Hmax.
  assert ((length l + length (drop (length l) stack) = 1024)%nat) as Hdl by (rewrite length_drop; lia).
  destruct (store_bytes _ _ _ _) as [m1|] eqn:Hsb; [|by destruct Hres]. destruct Hres as [_ ->].
  exists l, (report_bytes (made_report s (e_hash e) l (drop (length l) stack))), m1.
  split; [reflexivity|]. split; [exact Hsb|]. split; [reflexivity|].
  rewrite fromBytes_report by (apply made_report_ok; assumption). split; [|apply made_report_verifies; assumption].
  cbn [made_report r_enclave data_len er_data]. rewrite Nat2Z.id. apply take_app_length.
Qed.

(** ** Witness: the new enclave of [demo_live_machine], on a monitor with keys from the boot ROM *)

#[local] Existing Instance demo_mmu.

Lemma sm_wf_set_keys k m : sm_wf m -> sm_wf (set_keys k m).
Proof. intros [? ? ? ? ? ? ? ? ? ? ?]. by split. Qed.

Lemma demo_boot_rom_ok : boot_ok demo_boot.
Proof. split; try reflexivity. intros a. unfold is_u8. cbn [dram demo_boot]. apply Z.mod_pos_bound. lia. Qed.

(** Where the caller can read and write everything, attesting a new enclave succeeds. *)
Lemma demo_attest m e : sm_wf m -> aget (enclaves m) 0 = Some e -> e_state e = FRESH ->
  exists m', attest_enclave 0 (replicate 1024 0) 0 0 0x90001000 0x90000000 16 0 m = Ok (SBI_ERR_SM_ENCLAVE_SUCCESS, m').
Proof.
  intros Hwf He Hst. destruct (wp_inv (attest_enclave 0 (replicate 1024 0) 0 0 0x90001000 0x90000000 16 0)
    (fun r _ => r = SBI_ERR_SM_ENCLAVE_SUCCESS) m) as (r & m' & E & ->); [|by exists m'].
  apply wp_attest; [exact Hwf|lia|lia|unfold is_u64; lia|unfold is_u64; lia|]. intros r m' Hres. unfold attest_result in Hres.
  rewrite He, Hst in Hres. change (ATTEST_DATA_MAXLEN <? 16) with false in Hres. cbn [is_live] in Hres.
  destruct (Sbi.demo_loads 0 (set_encl_lock true m) 0x90000000 (Z.to_nat 16)) as [l Hload]. rewrite Hload in Hres.
  destruct (Sbi.demo_stores 0 (set_encl_lock true m) 0x90001000 (report_bytes (attest_report (keys m) e (replicate 1024 0) 16 l))) as [m1 Hs].
  rewrite Hs in Hres. by destruct Hres.
Qed.

Lemma attested_report_verifies_witness :
  exists m' bs hash, attest_enclave 0 (replicate 1024 0) 0 0 0x90001000 0x90000000 16 0
      (set_keys (copied_keys (bootloader demo_boot)) demo_live_machine) = Ok (SBI_ERR_SM_ENCLAVE_SUCCESS, m') /\
    verify (fromBytes bs) hash (sm_measurement demo_boot) _sanctum_dev_public_key = Some 1.
Proof.
  destruct demo_live_facts as (Hwf & _ & _ & _ & e & He & Hst). pose proof (demo_live_hash e He) as Hh. revert Hwf He.
  generalize demo_live_machine. intros m Hwf He. pose proof (sm_wf_set_keys (copied_keys (bootloader demo_boot)) m Hwf) as Hwf'.
  destruct (demo_attest _ e Hwf' He Hst) as [m' Hok]. exists m'.
  destruct (attested_report_verifies demo_boot _ m' 0 (replicate 1024 0) 0 0 0x90001000 0x90000000 16 0 e demo_boot_rom_ok Hwf' eq_refl He Hh
    eq_refl ltac:(lia) ltac:(lia) ltac:(unfold is_u64; lia) ltac:(unfold is_u64; lia) Hok) as (l & bs & m1 & _ & _ & _ & _ & Hv).
  exists bs, (e_hash e). split; [exact Hok|exact Hv].
Defined.
